(* ===== verification/_CoqProject ===== *)
-Q . S2P
Prelude.v
F64.v
Text.v
Config.v
Common.v
Classifier.v
Collector.v
Workload.v
Actuator.v
Policy.v
Damon.v
Damos.v
Ksm.v
Zram.v
Tiering.v
BootContract.v
BootTransaction.v
BootHost.v
BootLifecycle.v
BootTrace.v
Privileged.v
PrivilegedHost.v
Daemon.v
Storage.v
StorageFacts.v
Nemord.v
DamonExport.v
Nemorctl.v
