(* ===== verification/Prelude.v ===== *)
(** * Nemor, a verified model

    Nemor is a memory daemon for Linux: it samples the kernel's memory telemetry,
    classifies processes and workloads, drives a pressure state machine, plans
    actions on cgroups, zram, zswap, DAMON/DAMOS and KSM, and in production only
    observes: every plan is recorded, none is applied. The transactions that would
    apply one exist all the same, with snapshots, verification, rollback and crash
    recovery, and they are where most of the safety of the program lies.

    ** The program and its model

    One file per crate, named after it; the definitions carry the names of the source.

    - [Prelude]: results, the state-and-error functions [eff] with their notations,
      frames ([frames]: what a program keeps whether it fails or not) and triples,
      machine integers, stable sorting and the idioms on vectors. [F64]: IEEE doubles
      from the Standard Library's [SpecFloat]. [Text]: the string functions and the
      number parsers of Rust, with round trips.
    - [Config]: crates/common/src/config.rs, the configuration, [validate] and the
      shipped config/default.toml as [default_config].
    - [Classifier] (process.rs, model.rs, stabilize.rs) and [Workload] (workload.rs,
      lib.rs): crates/classifier. [Process.classify_all] classifies the sampled
      processes, [classify] the workload, [Stabilize.observe] confirms changes.
    - [Collector]: crates/collector, the parsers of /proc and /sys and the samples,
      over the trait TelemetrySource.
    - [Policy]: crates/policy-engine, the six pressure states, [transition] with its
      hysteresis, [plan_actions], [evaluate].
    - [Actuator]: crates/actuator, [plan], [apply_one], [rollback_one], [recover] over the
      traits CgroupBackend and SnapshotStore, their in-memory implementations, and
      LinuxCgroupBackend over a class of file operations.
    - [Zram]: crates/zram, the inventory, the profile planner, [apply_plan] with
      [rollback] and [recover_pending] over the trait ZramBackend, LinuxZramBackend.
    - [Tiering]: crates/tiering without the boot validation: the block device topology,
      the swapfile and pool plans, the backend recommendation, the swapfile transaction
      over the trait SwapfileBackend, LinuxSwapfileBackend and LinuxZswapBackend.
    - [BootContract], [BootTransaction], [BootHost], [BootLifecycle], [BootTrace]: the
      validation of the storage-backed backend across a reboot.
      tiering/src/boot_validation_v6.rs is the contract (what a manifest, a preflight and
      the observations must satisfy) and the lifecycle of the durable transaction over the
      trait BootLifecycleBackendV6; test-support/src/bin/nemor-tiering-boot-validation.rs
      is the privileged program: what it reads of the host, LinuxLifecycleBackend, the
      transaction on disk, the activation after the reboot, [recover]. [BootTrace] has
      the traces and sessions that the theorems on the order of events are about.
    - [Privileged], [PrivilegedHost]:
      test-support/src/bin/nemor-privileged-validation.rs, the program that validates
      DAMON, DAMOS and KSM as root on a dedicated host. [Privileged] has its rules, which
      compute: gates and verdicts, the parsers of captured traces, the alignment of a
      trace with the phases of the workload, the contents of the pages offered to KSM.
      [PrivilegedHost] has what it reads, writes and undoes: captures, the clock of the
      trace, DamonCleanup, the recovery from a crash, residency, the host before and
      after, the reports, and JsonSnapshotStore, which implements the trait of [Actuator].
    - [Damon], [Damos], [Ksm]: the crates of the same names, parsers of traces and of
      smaps, eligibility, evidence, validation protocols, recovery. [DamonExport]: the
      export of a dataset of crates/damon to a new file.
    - [Daemon]: crates/nemord/src/lib.rs, the sampling loop that composes the others.
    - [Common]: crates/common besides the configuration, the paths, the metadata of the host
      and the reports of the command line.
    - [Storage] and [StorageFacts]: crates/storage/src/lib.rs over the schema of migrations/.
      An SQL statement of the source is a function on the tables it names, with the unique
      keys and the foreign keys of the schema; an operation is an [eff] over the connection,
      a transaction gives back the data it began with when its body fails. What SQLite
      decides by itself (whether a statement is refused, which row ids it skips) is a list
      of [Choice]s that the connection consumes, and the theorems hold for every list.
      [storage_store] implements the trait SnapshotStore of [Actuator].
    - [Nemord]: [storage_telemetry] implements the trait of [Daemon] with [Storage], and
      [run] is one run of the daemon, from the opening of the database to the end of its
      session (main.rs).
    - [Nemorctl]: crates/nemorctl, the command line: the report of every command over the
      answers of the host and a database opened read-only ([answer]), its text, the exit
      status of the process ([main]), and the one command that writes ([main_export]).

    A function with [&mut self] that may fail is an [eff]: it keeps the state reached
    when it returns an error, as Rust does. A trait is a [Class]; a client's theorems
    are proved against the class, or against a second class of laws where the client
    needs some ([LawfulZram], [LawfulSwapfile], [LawfulSystem]), and the laws are
    discharged for the implementations of the source or shown to hold of a concrete
    one. What the code asks of the operating system is an operation of a class too
    (TelemetrySource, CgroupFs, ZramSystem, TieringSystem, BootSystem, HarnessSystem) or
    a record of answers ([Files]). Integers are [Z] within the range of their type, with saturation, checks
    and wrap-around written out; a panic is [None] or an error constructor.

    ** How the parts interact

    [Daemon.step] is one iteration of the loop: a system tick takes a sample
    ([Collector.sample_system]) and updates the counter rates; a process tick collects and
    classifies the processes, evaluates the workload and, when due, builds the input of
    [Policy.evaluate], whose decision is stored with the audits of [Zram], [Tiering],
    [Damon], [Damos] and [Ksm]; a retention tick prunes. [Nemord.run] is the loop between the
    opening and the closing of a session in [Storage]; [Nemorctl] reads the same database and
    the same host and writes nothing but an exported file. [Config.validate] is what makes the
    other parts total and keeps them observing: [validate_thresholds],
    [validate_cgroup_bounds] and [validate_observe_only_lemma] are used by [Actuator],
    [Tiering], [Daemon] and [Nemorctl].

    ** What the theorems show

    Each file has its lemmas in [Facts], the properties in [Theorems] and instances at
    concrete inputs in [Witnesses]. The groups:
    - pressure state machine: hysteresis, recovery through [Stabilizing], liveness of
      sustained evidence, well-formed reachable states, the gate on mutations;
    - transactions: what is verified before success is reported, write-ahead
      snapshots, rollback as the inverse of application, no loss of swap at any moment,
      confinement to owned objects, idempotent and complete recovery;
    - refinement: the loop implements an observer that cannot act
      ([Daemon.Theorems.loop_refines_observer]); LinuxSwapfileBackend implements the
      contract of the transaction; JsonSnapshotStore, a file, and the table of the database
      implement the snapshots in memory ([PrivilegedHost.Theorems.json_store_refines],
      [StorageFacts.Theorems.snapshot_store_refines_journal]);
    - the database: consistent over every sequence of openings, operations and refusals,
      migrations that resume, batches that are stored whole or not at all, what is read
      back is what was stored ([StorageFacts]), one session for each run ([Nemord]), and
      reports that show what the last run and the last evaluation stored ([Nemorctl]);
    - equivalence with specifications by addresses or by precedence (KSM scopes,
      workload rules, eligibility conditions, plans allowed exactly when ..);
    - parsers: round trips with printers of the kernel's formats;
    - files: an export touches nothing but the new file it was asked for
      ([DamonExport.Theorems.export_writes_new_file]);
    - totality and bounds: no panic under a validated configuration, limits within the
      configured shares, the loop that no collector failure ends;
    - the boot validation: a valid manifest is confined to three files and one swapfile,
      and over every session of commands, crashes, failures and reboots each change of the
      host is authorised by the transaction on disk ([BootTrace.Theorems]: an invariant of
      traces, by triples over a backend that records what is asked of it);
    - the privileged validation: a cleanup that failed resumes where it stopped, the
      recovery from a crash is idempotent, an accepted host has nothing left of the run,
      a verdict passes exactly when every gate does;
    - behaviour that looks unintended, proved as the code has it, such as
      [BootTrace.Theorems.session_never_restored],
      [BootLifecycle.Theorems.activation_always_refused],
      [BootLifecycle.Theorems.recover_dead_ends],
      [PrivilegedHost.Theorems.recovery_stops_before_refusing],
      [Collector.Theorems.aggregate_line_counted],
      [Tiering.Theorems.remove_failure_blocks_rollback] and
      [Daemon.Theorems.stale_sample_escalates].

    ** Bounds and fuel

    Loops of the source that it bounds itself keep their bound: nine rounds in
    [Damon.contains_file], eight in [Tiering.walk_chain], two hundred polls in
    [Zram.reset_loop], the depth of nine levels in [PrivilegedHost.visit_cgroups]. Fuel that
    only makes a recursion structural is the length of the list or of the string it consumes
    ([chunks], [ancestor_names], the decimal printers), and a lemma shows that it suffices.

    ** Not modelled

    The engine of SQLite: its files, its locking between processes and its journal, of
    which only the refusals are seen; columns and tables of the schema that no operation
    of crates/storage touches. The earlier versions of the boot validation
    (tiering/boot_validation.rs, _v2 to _v5), which no program runs. The benchmark
    campaigns with their commands, the worker processes and threads of the privileged
    validation, the remaining programs of crates/test-support, the parsing of arguments and
    the logging: input, output and orchestration around the modelled parts. The async runtime
    and the clocks: the order of events and the times they carry are arguments. Log
    records, serialisation with serde, TOML, JSON and SHA-256 (a parameter, or the
    classes [Codec], [Decoder], [StorageCodec], [AuditCodec] and [AuditDecoder], where its
    result matters). Strings are sequences of bytes; where Rust cuts or compares text by
    characters, the model does so by bytes, the same for the ASCII text the kernel
    prints. *)

From Stdlib Require Export ZArith Lia Bool Sorting.Sorted.
From stdpp Require Export base gmap sets list strings option.

Open Scope Z_scope.

Declare Scope nemor_scope.
Delimit Scope nemor_scope with nemor.
Open Scope nemor_scope.

(** ** Results: Rust's [Result<A, E>] and the [?] operator *)

Inductive result (A E : Type) : Type :=
| Ok (a : A)
| Err (e : E).
Arguments Ok {A E} a.
Arguments Err {A E} e.

Notation "'let?' x := m 'in' k" :=
  (match m with Ok x => k | Err err => Err err end)
  (at level 10, x name, m at level 200, k at level 200) : nemor_scope.
Notation "m ;? k" :=
  (match m with Ok _ => k | Err err => Err err end)
  (at level 199, k at level 200, right associativity) : nemor_scope.

(** [if cond { return Err(e) }] *)
Definition reject {E} (cond : bool) (e : E) : result unit E :=
  if cond then Err e else Ok tt.

Definition is_ok {A E} (r : result A E) : bool :=
  match r with Ok _ => true | Err _ => false end.

(** [Option::ok_or_else] *)
Definition ok_or {A E} (o : option A) (e : E) : result A E :=
  match o with Some a => Ok a | None => Err e end.

(** [Option::is_some_and] and [Option::is_none_or] *)
Definition is_some_and {A} (o : option A) (p : A -> bool) : bool :=
  match o with Some a => p a | None => false end.
Definition is_none_or {A} (o : option A) (p : A -> bool) : bool :=
  match o with Some a => p a | None => true end.
Definition unwrap_or {A} (o : option A) (d : A) : A :=
  match o with Some a => a | None => d end.
Definition is_some {A} (o : option A) : bool :=
  match o with Some _ => true | None => false end.
Definition is_none {A} (o : option A) : bool := negb (is_some o).
(** [bool::then] and [bool::then_some] *)
Definition then_some {A} (b : bool) (a : A) : option A := if b then Some a else None.

(** ** State and errors: a function of [&mut S] that returns [Result<A, E>].
    The state reached when an error is returned is kept, as it is in Rust. *)

Definition eff (S A E : Type) : Type := S -> S * result A E.

Definition eff_ret {S A E} (a : A) : eff S A E := fun s => (s, Ok a).
Definition eff_err {S A E} (e : E) : eff S A E := fun s => (s, Err e).
Definition eff_bind {S A B E} (m : eff S A E) (k : A -> eff S B E) : eff S B E :=
  fun s => match m s with
           | (s', Ok a) => k a s'
           | (s', Err e) => (s', Err e)
           end.
(** a read of the state that may fail, [backend.inspect(..)?] *)
Definition eff_read {S A E} (f : S -> result A E) : eff S A E := fun s => (s, f s).
Definition eff_get {S E} : eff S S E := fun s => (s, Ok s).
Definition eff_upd {S E} (f : S -> S) : eff S unit E := fun s => (f s, Ok tt).

Notation "'let!' x := m 'in' k" := (eff_bind m (fun x => k))
  (at level 10, x name, m at level 200, k at level 200) : nemor_scope.
Notation "m ;! k" := (eff_bind m (fun _ => k))
  (at level 199, k at level 200, right associativity) : nemor_scope.

(** [match m { Ok(a) => .., Err(e) => .. }]: the result of [m] as a value *)
Definition eff_try {S A E} (m : eff S A E) : eff S (result A E) E :=
  fun s => let '(s', r) := m s in (s', Ok r).
(** the same where the error is handled and another type of errors goes on *)
Definition eff_attempt {S A E F} (m : eff S A E) : eff S (result A E) F :=
  fun s => let '(s', r) := m s in (s', Ok r).
(** [Result::map_err] *)
Definition eff_map_err {S A E F} (f : E -> F) (m : eff S A E) : eff S A F :=
  fun s => let '(s', r) := m s in (s', match r with Ok a => Ok a | Err e => Err (f e) end).
(** [if cond { return Err(e) }] *)
Definition eff_reject {S E} (cond : bool) (e : E) : eff S unit E :=
  if cond then eff_err e else eff_ret tt.
(** an operation of one component of a pair of states *)
Definition eff_fst {S T A E} (m : eff S A E) : eff (S * T) A E :=
  fun '(s, t) => let '(s', r) := m s in ((s', t), r).
Definition eff_snd {S T A E} (m : eff T A E) : eff (S * T) A E :=
  fun '(s, t) => let '(t', r) := m t in ((s, t'), r).

(** [frames R m]: the states before and after [m] are related by [R], whether
    [m] succeeds or fails. *)
Definition frames {S A E} (R : S -> S -> Prop) (m : eff S A E) : Prop :=
  forall s, R s (fst (m s)).

Section Frames.
Context {S E : Type} (R : S -> S -> Prop) `{!Reflexive R, !Transitive R}.

Lemma frames_ret {A} (a : A) : frames R (@eff_ret S A E a).
Proof. intros s. simpl. reflexivity. Qed.
Lemma frames_err {A} (e : E) : frames R (@eff_err S A E e).
Proof. intros s. simpl. reflexivity. Qed.
Lemma frames_read {A} (f : S -> result A E) : frames R (eff_read f).
Proof. intros s. simpl. reflexivity. Qed.
Lemma frames_get : frames R (@eff_get S E).
Proof. intros s. simpl. reflexivity. Qed.
Lemma frames_reject c (e : E) : frames R (@eff_reject S E c e).
Proof. destruct c; [apply frames_err | apply frames_ret]. Qed.
Lemma frames_upd f : (forall s, R s (f s)) -> frames R (@eff_upd S E f).
Proof. intros H s. apply H. Qed.
Lemma frames_bind {A B} (m : eff S A E) (k : A -> eff S B E) :
  frames R m -> (forall a, frames R (k a)) -> frames R (eff_bind m k).
Proof.
  intros Hm Hk s. specialize (Hm s). unfold eff_bind.
  destruct (m s) as [s' [a|e]]; simpl in *; [| done].
  etransitivity; [exact Hm | apply Hk].
Qed.
Lemma frames_try {A} (m : eff S A E) : frames R m -> frames R (eff_try m).
Proof. intros Hm s. specialize (Hm s). unfold eff_try. by destruct (m s). Qed.
Lemma frames_if {A} (c : bool) (m n : eff S A E) :
  frames R m -> frames R n -> frames R (if c then m else n).
Proof. by destruct c. Qed.
End Frames.

Lemma frames_fst {S T A E} (R : S -> S -> Prop) (m : eff S A E) :
  frames R m -> frames (fun p q : S * T => R (fst p) (fst q) /\ snd q = snd p) (eff_fst m).
Proof. intros H [s t]. specialize (H s). simpl. by destruct (m s). Qed.
Lemma frames_snd {S T A E} (R : T -> T -> Prop) (m : eff T A E) :
  frames R m -> frames (fun p q : S * T => R (snd p) (snd q) /\ fst q = fst p) (eff_snd m).
Proof. intros H [s t]. specialize (H t). simpl. by destruct (m t). Qed.

Lemma frames_weaken {S A E} (R R' : S -> S -> Prop) (m : eff S A E) :
  frames R m -> (forall s t, R s t -> R' s t) -> frames R' m.
Proof. intros H HR s. apply HR, H. Qed.

(** ** Triples: from a state with [P] the program returns a value and a state with
    [Q], or an error and a state with [X]. *)

Definition triple {S A E} (P : S -> Prop) (m : eff S A E) (Q : A -> S -> Prop) (X : S -> Prop) :
    Prop :=
  forall s, P s -> match m s with (s', Ok a) => Q a s' | (s', Err _) => X s' end.

Section Triples.
Context {S E : Type}.
Implicit Types (P X : S -> Prop).

Lemma triple_weaken {A} P P' (m : eff S A E) (Q Q' : A -> S -> Prop) X X' :
  triple P' m Q' X' -> (forall s, P s -> P' s) -> (forall a s, Q' a s -> Q a s) ->
  (forall s, X' s -> X s) -> triple P m Q X.
Proof. intros H HP HQ HX s Hs. specialize (H s (HP s Hs)). destruct (m s) as [s' [a|e]]; auto. Qed.
Lemma triple_post {A} P (m : eff S A E) (Q Q' : A -> S -> Prop) X :
  triple P m Q' X -> (forall a s, Q' a s -> Q a s) -> triple P m Q X.
Proof. intros Ht Hq. by eapply triple_weaken. Qed.
Lemma triple_ret {A} (a : A) P (Q : A -> S -> Prop) X :
  (forall s, P s -> Q a s) -> triple P (eff_ret (E := E) a) Q X.
Proof. intros H s Hs. by apply H. Qed.
Lemma triple_err {A} (e : E) P (Q : A -> S -> Prop) X :
  (forall s, P s -> X s) -> triple P (eff_err e) Q X.
Proof. intros H s Hs. by apply H. Qed.
Lemma triple_bind {A B} P (m : eff S A E) (R : A -> S -> Prop) (k : A -> eff S B E)
    (Q : B -> S -> Prop) X :
  triple P m R X -> (forall a, triple (R a) (k a) Q X) -> triple P (eff_bind m k) Q X.
Proof.
  intros Hm Hk s Hs. specialize (Hm s Hs). unfold eff_bind.
  destruct (m s) as [s' [a|e]]; [| done]. exact (Hk a s' Hm).
Qed.
Lemma triple_read {A} (f : S -> result A E) P (Q : A -> S -> Prop) X :
  (forall s a, P s -> f s = Ok a -> Q a s) -> (forall s, P s -> X s) ->
  triple P (eff_read f) Q X.
Proof. intros H HX s Hs. unfold eff_read. destruct (f s) as [a|e] eqn:Ef; eauto. Qed.
Lemma triple_get P (Q : S -> S -> Prop) X :
  (forall s, P s -> Q s s) -> triple P (@eff_get S E) Q X.
Proof. intros H s Hs. by apply H. Qed.
Lemma triple_upd f P (Q : unit -> S -> Prop) X :
  (forall s, P s -> Q tt (f s)) -> triple P (@eff_upd S E f) Q X.
Proof. intros H s Hs. by apply H. Qed.
Lemma triple_reject (c : bool) (e : E) P (Q : unit -> S -> Prop) X :
  (forall s, P s -> c = false -> Q tt s) -> (forall s, P s -> X s) ->
  triple P (eff_reject c e) Q X.
Proof. intros H HX s Hs. unfold eff_reject. destruct c; simpl; auto. Qed.
Lemma triple_if {A} (c : bool) P (m n : eff S A E) (Q : A -> S -> Prop) X :
  (c = true -> triple P m Q X) -> (c = false -> triple P n Q X) ->
  triple P (if c then m else n) Q X.
Proof. destruct c; auto. Qed.
Lemma triple_try {A} P (m : eff S A E) (Q : A -> S -> Prop) X (Z : S -> Prop) :
  triple P m Q X ->
  triple P (eff_try m) (fun r s => match r with Ok a => Q a s | Err _ => X s end) Z.
Proof. intros H s Hs. specialize (H s Hs). unfold eff_try. destruct (m s) as [s' [a|e]]; done. Qed.
Lemma triple_attempt {A F} P (m : eff S A E) (Q : A -> S -> Prop) X (Z : S -> Prop) :
  triple P m Q X ->
  triple P (eff_attempt (F := F) m)
    (fun r s => match r with Ok a => Q a s | Err _ => X s end) Z.
Proof. intros H s Hs. specialize (H s Hs). unfold eff_attempt. destruct (m s) as [s' [a|e]]; done. Qed.
Lemma triple_map_err {A F} (f : E -> F) P (m : eff S A E) (Q : A -> S -> Prop) X :
  triple P m Q X -> triple P (eff_map_err f m) Q X.
Proof. intros H s Hs. specialize (H s Hs). unfold eff_map_err. destruct (m s) as [s' [a|e]]; done. Qed.
Lemma triple_pure {A} (p : Prop) P (m : eff S A E) (Q : A -> S -> Prop) X :
  (forall s, P s -> p) -> (p -> triple P m Q X) -> triple P m Q X.
Proof. intros Hp H s Hs. exact (H (Hp s Hs) s Hs). Qed.
End Triples.

(** a program on one half of the state keeps the other half *)
Lemma triple_snd {S T A E} (m : eff T A E) (P : S * T -> Prop) (Q : A -> S * T -> Prop)
    (X : S * T -> Prop) :
  (forall s, triple (fun t => P (s, t)) m (fun a t => Q a (s, t)) (fun t => X (s, t))) ->
  triple P (eff_snd m) Q X.
Proof.
  intros H [s t] Hs. specialize (H s t Hs). simpl. by destruct (m t) as [t' [a|e]].
Qed.
Lemma triple_fst {S T A E} (m : eff S A E) (P : S * T -> Prop) (Q : A -> S * T -> Prop)
    (X : S * T -> Prop) :
  (forall t, triple (fun s => P (s, t)) m (fun a s => Q a (s, t)) (fun s => X (s, t))) ->
  triple P (eff_fst m) Q X.
Proof.
  intros H [s t] Hs. specialize (H t s Hs). simpl. by destruct (m s) as [s' [a|e]].
Qed.

(** ** Inversion of effectful programs *)

Lemma eff_bind_ok {S A B E} (m : eff S A E) (k : A -> eff S B E) s s' b :
  eff_bind m k s = (s', Ok b) <->
  exists s1 a, m s = (s1, Ok a) /\ k a s1 = (s', Ok b).
Proof.
  unfold eff_bind. split.
  - destruct (m s) as [s1 [a|e]]; [by exists s1, a | by intros [=]].
  - by intros (s1 & a & -> & H).
Qed.

(** one step of a run, forwards *)
Lemma eff_bind_run {S A B E} (m : eff S A E) (k : A -> eff S B E) s s1 a :
  m s = (s1, Ok a) -> eff_bind m k s = k a s1.
Proof. unfold eff_bind. by intros ->. Qed.
Lemma eff_fst_run {S T A E} (m : eff S A E) (s s1 : S) (t : T) r :
  m s = (s1, r) -> eff_fst m (s, t) = ((s1, t), r).
Proof. simpl. by intros ->. Qed.
Lemma eff_snd_run {S T A E} (m : eff T A E) (s : S) (t t1 : T) r :
  m t = (t1, r) -> eff_snd m (s, t) = ((s, t1), r).
Proof. simpl. by intros ->. Qed.
Lemma eff_try_run {S A E} (m : eff S A E) s s1 r :
  m s = (s1, r) -> eff_try m s = (s1, Ok r).
Proof. unfold eff_try. by intros ->. Qed.
Lemma eff_reject_run {S E} (e : E) c (s : S) : c = false -> eff_reject c e s = (s, Ok tt).
Proof. by intros ->. Qed.

Lemma eff_fst_ok {S T A E} (m : eff S A E) (s s' : S * T) a :
  eff_fst m s = (s', Ok a) <-> m (fst s) = (fst s', Ok a) /\ snd s' = snd s.
Proof.
  destruct s as [s t], s' as [s' t']. unfold eff_fst. simpl.
  destruct (m s) as [s1 r]. naive_solver.
Qed.

Lemma eff_snd_ok {S T A E} (m : eff T A E) (s s' : S * T) a :
  eff_snd m s = (s', Ok a) <-> m (snd s) = (snd s', Ok a) /\ fst s' = fst s.
Proof.
  destruct s as [s t], s' as [s' t']. unfold eff_snd. simpl.
  destruct (m t) as [t1 r]. naive_solver.
Qed.

Lemma eff_reject_ok {S E} c (e : E) (s s' : S) u :
  eff_reject c e s = (s', Ok u) <-> c = false /\ s' = s.
Proof.
  unfold eff_reject, eff_err, eff_ret. destruct u, c; split.
  - intros [=].
  - intros [[=] _].
  - by intros [= ->].
  - by intros [_ ->].
Qed.

(** [inv_eff] takes a run that returned [Ok] apart, one hypothesis per step. *)
Ltac inv_eff_step :=
  match goal with
  | H : eff_bind _ _ _ = (_, Ok _) |- _ =>
      let s := fresh "s" in let a := fresh "a" in let E := fresh "E" in
      apply eff_bind_ok in H as (s & a & E & H)
  | H : eff_reject _ _ _ = (_, Ok _) |- _ => apply eff_reject_ok in H as [? ->]
  | H : eff_ret _ _ = (_, Ok _) |- _ =>
      first [ injection H as <- <- | injection H as <- H | injection H as <- ]
  | H : eff_err _ _ = (_, Ok _) |- _ => discriminate H
  | H : eff_read _ _ = (_, Ok _) |- _ => injection H as <- H
  | H : eff_get _ = (_, Ok _) |- _ => injection H as <- <-
  | H : eff_upd _ _ = (_, Ok _) |- _ => injection H as <- <-
  | H : (if ?c then eff_err _ else _) _ = (_, Ok _) |- _ =>
      let E := fresh "E" in destruct c eqn:E; [discriminate H |]
  end.
Ltac inv_eff := repeat inv_eff_step.

(** ** Finite runs of a transition relation *)

Inductive star {A} (R : A -> A -> Prop) : A -> A -> Prop :=
| star_refl a : star R a a
| star_snoc a b c : star R a b -> R b c -> star R a c.

Lemma star_trans {A} (R : A -> A -> Prop) a b c :
  star R a b -> star R b c -> star R a c.
Proof. intros Hab Hbc. revert a Hab. induction Hbc; eauto using star. Qed.

Lemma star_invariant {A} (R : A -> A -> Prop) (P : A -> Prop) :
  (forall a b, P a -> R a b -> P b) -> forall a b, star R a b -> P a -> P b.
Proof. induction 2; eauto. Qed.

(** ** Machine integers: [u8], [u32], [u64], [u128], [i64] as [Z] in range *)

Definition u8_max : Z := 2 ^ 8 - 1.
Definition u32_max : Z := 2 ^ 32 - 1.
Definition u64_max : Z := 2 ^ 64 - 1.
Definition u128_max : Z := 2 ^ 128 - 1.
Definition i64_max : Z := 2 ^ 63 - 1.
Definition i64_min : Z := - 2 ^ 63.

Definition u8 (x : Z) : Prop := 0 <= x <= u8_max.
Definition u32 (x : Z) : Prop := 0 <= x <= u32_max.
Definition u64 (x : Z) : Prop := 0 <= x <= u64_max.
Definition u128 (x : Z) : Prop := 0 <= x <= u128_max.
Definition i64 (x : Z) : Prop := i64_min <= x <= i64_max.

(** [saturating_*], [checked_*] and the wrap-around of release builds *)
Definition u64_sat_add (a b : Z) : Z := Z.min (a + b) u64_max.
Definition u64_sat_sub (a b : Z) : Z := Z.max (a - b) 0.
Definition u64_sat_mul (a b : Z) : Z := Z.min (a * b) u64_max.
Definition u32_sat_add (a b : Z) : Z := Z.min (a + b) u32_max.
Definition u64_checked_add (a b : Z) : option Z :=
  if a + b <=? u64_max then Some (a + b) else None.
Definition u64_checked_mul (a b : Z) : option Z :=
  if a * b <=? u64_max then Some (a * b) else None.
Definition u64_checked_sub (a b : Z) : option Z :=
  if b <=? a then Some (a - b) else None.
Definition i64_checked_sub (a b : Z) : option Z :=
  if (i64_min <=? a - b) && (a - b <=? i64_max) then Some (a - b) else None.
Definition i64_sat_sub (a b : Z) : Z := Z.max i64_min (Z.min (a - b) i64_max).
Definition u64_wrap (a : Z) : Z := a mod 2 ^ 64.

(** [Ord::clamp], which panics when [lo > hi]: a panic is [None] *)
Definition clamp (x lo hi : Z) : option Z :=
  if hi <? lo then None
  else Some (if x <? lo then lo else if hi <? x then hi else x).

Create HintDb nemor discriminated.

(** [unfold_int] exposes the integer operations to [lia]. *)
Ltac unfold_int :=
  unfold u64_sat_add, u64_sat_sub, u64_sat_mul, u32_sat_add, u64_checked_add,
    u64_checked_mul, u64_checked_sub, i64_checked_sub, i64_sat_sub, u64_wrap,
    u8, u32, u64, u128, i64, u8_max, u32_max, u64_max, u128_max, i64_max, i64_min in *.

Lemma clamp_some x lo hi : lo <= hi -> exists y, clamp x lo hi = Some y /\ lo <= y <= hi.
Proof.
  intros H. unfold clamp. destruct (Z.ltb_spec hi lo); [lia |].
  destruct (Z.ltb_spec x lo); [exists lo; split; [done | lia] |].
  destruct (Z.ltb_spec hi x); [exists hi; split; [done | lia] | exists x; split; [done | lia]].
Qed.

Lemma clamp_inv x lo hi y : clamp x lo hi = Some y -> lo <= y <= hi.
Proof.
  unfold clamp. destruct (Z.ltb_spec hi lo); [done |].
  destruct (Z.ltb_spec x lo); [intros [= <-]; lia |].
  destruct (Z.ltb_spec hi x); intros [= <-]; lia.
Qed.

Lemma u64_sat_add_u64 a b : u64 a -> u64 b -> u64 (u64_sat_add a b).
Proof. unfold_int; lia. Qed.
Lemma u64_sat_sub_u64 a b : u64 a -> u64 b -> u64 (u64_sat_sub a b).
Proof. unfold_int; lia. Qed.
Lemma u64_sat_mul_u64 a b : u64 a -> u64 b -> u64 (u64_sat_mul a b).
Proof. unfold_int; nia. Qed.
#[export] Hint Resolve u64_sat_add_u64 u64_sat_sub_u64 u64_sat_mul_u64 : nemor.

(** ** Inversion of results *)

Lemma reject_ok {E} (cond : bool) (e : E) : reject cond e = Ok tt <-> cond = false.
Proof. unfold reject. by destruct cond. Qed.

(** [inv_ok H] takes a chain of [let?]/[;?] that returned [Ok] apart: one
    hypothesis per step, and each [reject] as its negated condition. *)
Ltac inv_ok_step :=
  match goal with
  | H : match ?m with Ok _ => _ | Err _ => _ end = Ok _ |- _ =>
      let E := fresh "E" in destruct m eqn:E; [| discriminate H]
  | H : match ?m with Some _ => _ | None => _ end = Ok _ |- _ =>
      let E := fresh "E" in destruct m eqn:E; try discriminate H
  | H : (if ?c then Err _ else _) = Ok _ |- _ =>
      let E := fresh "E" in destruct c eqn:E; [discriminate H |]
  | H : (if ?c then _ else Err _) = Ok _ |- _ =>
      let E := fresh "E" in destruct c eqn:E; [| discriminate H]
  | H : reject ?c ?e = Ok ?u |- _ => destruct u; apply reject_ok in H
  | H : Ok _ = Ok _ |- _ => injection H as H; subst
  | H : Err _ = Ok _ |- _ => discriminate H
  end.
Ltac inv_ok := repeat inv_ok_step.

(** [bools] splits boolean conjunctions and refuted disjunctions and turns
    integer tests into propositions. *)
Ltac bools_step :=
  match goal with
  | H : _ && _ = true |- _ => apply andb_true_iff in H as [? ?]
  | H : _ || _ = false |- _ => apply orb_false_iff in H as [? ?]
  | H : negb _ = true |- _ => apply negb_true_iff in H
  | H : negb _ = false |- _ => apply negb_false_iff in H
  | H : (_ <? _) = true |- _ => apply Z.ltb_lt in H
  | H : (_ <? _) = false |- _ => apply Z.ltb_ge in H
  | H : (_ <=? _) = true |- _ => apply Z.leb_le in H
  | H : (_ <=? _) = false |- _ => apply Z.leb_gt in H
  | H : (_ =? _) = true |- _ => apply Z.eqb_eq in H
  | H : (_ =? _) = false |- _ => apply Z.eqb_neq in H
  | H : (_ =? _)%string = true |- _ => apply String.eqb_eq in H
  | H : (_ =? _)%string = false |- _ => apply String.eqb_neq in H
  | H : bool_decide _ = true |- _ => apply bool_decide_eq_true in H
  | H : bool_decide _ = false |- _ => apply bool_decide_eq_false in H
  end.
Ltac bools := repeat bools_step.

(** ** Lists: [sort_by] (stable), [dedup], [take_while], counting *)

Section Sorting.
Context {A : Type} (le : A -> A -> bool).

Fixpoint insert_by (x : A) (l : list A) : list A :=
  match l with
  | [] => [x]
  | y :: l' => if le x y then x :: y :: l' else y :: insert_by x l'
  end.

(** A stable sort: equal keys keep their order, as [slice::sort_by] does. *)
Definition sort_by (l : list A) : list A := foldr insert_by [] l.

Lemma insert_by_perm x l : insert_by x l ≡ₚ x :: l.
Proof.
  induction l as [|y l IH]; simpl; [done |].
  destruct (le x y); [done |]. rewrite IH. by apply Permutation_swap.
Qed.

Lemma sort_by_perm l : sort_by l ≡ₚ l.
Proof. induction l as [|x l IH]; simpl; [done |]. by rewrite insert_by_perm, IH. Qed.

Lemma elem_of_sort_by x l : x ∈ sort_by l <-> x ∈ l.
Proof. by rewrite sort_by_perm. Qed.

Lemma length_sort_by l : length (sort_by l) = length l.
Proof. apply Permutation_length, sort_by_perm. Qed.

Hypothesis le_total : forall x y, le x y = false -> le y x = true.

Lemma insert_by_sorted x l :
  Sorted (fun a b => le a b = true) l ->
  Sorted (fun a b => le a b = true) (insert_by x l).
Proof.
  induction 1 as [|y l Hs IH Hhd]; simpl; [by repeat constructor |].
  destruct (le x y) eqn:E; [by repeat constructor |].
  constructor; [done |].
  destruct l as [|z l]; simpl; [constructor; by apply le_total |].
  destruct (le x z); constructor; [by apply le_total |].
  by inversion Hhd.
Qed.

Lemma sort_by_sorted l : Sorted (fun a b => le a b = true) (sort_by l).
Proof. induction l; simpl; [constructor | by apply insert_by_sorted]. Qed.

Hypothesis le_trans : forall x y z, le x y = true -> le y z = true -> le x z = true.

Lemma sort_by_strongly_sorted l :
  StronglySorted (fun a b => le a b = true) (sort_by l).
Proof. apply Sorted_StronglySorted; [exact le_trans | apply sort_by_sorted]. Qed.
End Sorting.

Section Dedup.
Context {A : Type} (eqb : A -> A -> bool).
Hypothesis eqb_eq : forall x y, eqb x y = true <-> x = y.

(** [Vec::dedup]: drops consecutive repeats. *)
Fixpoint dedup (l : list A) : list A :=
  match l with
  | [] => []
  | x :: l' =>
      match dedup l' with
      | y :: r => if eqb x y then y :: r else x :: y :: r
      | [] => [x]
      end
  end.

Lemma elem_of_dedup x l : x ∈ dedup l <-> x ∈ l.
Proof.
  induction l as [|y l IH]; simpl; [done |].
  rewrite elem_of_cons, <-IH. destruct (dedup l) as [|z r]; [set_solver |].
  destruct (eqb y z) eqn:E; [|set_solver].
  apply eqb_eq in E as ->. set_solver.
Qed.

Lemma dedup_nil l : dedup l = [] <-> l = [].
Proof.
  destruct l as [|x l]; simpl; [done |].
  destruct (dedup l); [done | by destruct (eqb _ _)].
Qed.
End Dedup.

Fixpoint take_while {A} (p : A -> bool) (l : list A) : list A :=
  match l with
  | [] => []
  | x :: l' => if p x then x :: take_while p l' else []
  end.

Lemma take_while_Forall {A} (p : A -> bool) l : Forall (fun x => p x = true) (take_while p l).
Proof. induction l as [|x l IH]; simpl; [done |]. destruct (p x) eqn:E; by constructor. Qed.

Lemma take_while_prefix {A} (p : A -> bool) l : take_while p l `prefix_of` l.
Proof.
  induction l as [|x l IH]; simpl; [done |].
  destruct (p x); [by apply prefix_cons | apply prefix_nil].
Qed.

(** [Iterator::find], [any], [all] *)
Fixpoint find_first {A} (p : A -> bool) (l : list A) : option A :=
  match l with
  | [] => None
  | x :: l' => if p x then Some x else find_first p l'
  end.

(** [Iterator::find_map] *)
Fixpoint find_map {A B} (f : A -> option B) (l : list A) : option B :=
  match l with
  | [] => None
  | x :: l' => match f x with Some y => Some y | None => find_map f l' end
  end.

Lemma find_first_some {A} (p : A -> bool) l x :
  find_first p l = Some x -> x ∈ l /\ p x = true.
Proof.
  induction l as [|y l IH]; simpl; [done |].
  destruct (p y) eqn:E; [intros [= ->]; set_solver |].
  intros H. apply IH in H. set_solver.
Qed.

Lemma forallb_elem {A} (p : A -> bool) l :
  forallb p l = true <-> (forall x, x ∈ l -> p x = true).
Proof.
  rewrite forallb_forall. split; intros H x Hx; apply H; by apply list_elem_of_In.
Qed.

Lemma existsb_elem {A} (p : A -> bool) l :
  existsb p l = true <-> exists x, x ∈ l /\ p x = true.
Proof.
  rewrite existsb_exists. split; intros (x & Hx & Hp); exists x; split; try done; by apply list_elem_of_In.
Qed.

(** The idiom [if c { reasons.push(r) }] *)
Definition push_if (c : bool) (r : string) (l : list string) : list string :=
  if c then l ++ [r] else l.

Lemma push_if_nil c r l : push_if c r l = [] <-> c = false /\ l = [].
Proof.
  unfold push_if. destruct c; split; try naive_solver.
  intros H. by destruct l.
Qed.

Lemma elem_of_push_if c r l x : x ∈ push_if c r l <-> x ∈ l \/ (c = true /\ x = r).
Proof. unfold push_if. destruct c; set_solver. Qed.

(** [str] ordering and the [sort(); dedup()] of a vector of strings *)
Definition sort_strings (l : list string) : list string := sort_by String.leb l.
Definition sort_dedup (l : list string) : list string := dedup String.eqb (sort_strings l).

Lemma elem_of_sort_dedup x l : x ∈ sort_dedup l <-> x ∈ l.
Proof.
  unfold sort_dedup, sort_strings.
  rewrite (elem_of_dedup String.eqb String.eqb_eq). apply elem_of_sort_by.
Qed.

Lemma sort_dedup_nil l : sort_dedup l = [] <-> l = [].
Proof.
  unfold sort_dedup, sort_strings. rewrite dedup_nil.
  split; [| by intros ->]. intros H.
  pose proof (sort_by_perm String.leb l) as Hp. rewrite H in Hp.
  by apply Permutation_nil_l in Hp.
Qed.

Definition contains_str (l : list string) (s : string) : bool := existsb (String.eqb s) l.

Lemma contains_str_elem l s : contains_str l s = true <-> s ∈ l.
Proof.
  unfold contains_str. rewrite existsb_elem. split.
  - intros (x & Hx & Heq). apply String.eqb_eq in Heq as ->. done.
  - intros H. exists s. by rewrite String.eqb_refl.
Qed.

(** [Vec<String>::join(sep)] *)
Fixpoint join (sep : string) (l : list string) : string :=
  match l with
  | [] => ""
  | [x] => x
  | x :: l' => (x ++ sep ++ join sep l')%string
  end.

Definition str_empty (s : string) : bool := String.eqb s "".
