(* ===== verification/F64.v ===== *)
(** Rust's [f64]: IEEE 754 binary64 as the Standard Library's [spec_float] with
    53 bits of precision and maximal exponent 1024. Comparisons are Rust's
    partial ones: every comparison with a NaN is false. *)

From Stdlib Require Import Floats.SpecFloat.
From S2P Require Import Prelude.

Definition f64 : Type := spec_float.

Definition f64_of_Z (z : Z) : f64 := binary_normalize 53 1024 z 0 false.
Definition f64_add : f64 -> f64 -> f64 := SFadd 53 1024.
Definition f64_sub : f64 -> f64 -> f64 := SFsub 53 1024.
Definition f64_mul : f64 -> f64 -> f64 := SFmul 53 1024.
Definition f64_div : f64 -> f64 -> f64 := SFdiv 53 1024.

(** A decimal literal [n/d]: the double nearest to the quotient of two
    integers that are doubles. *)
Definition f64_lit (n d : Z) : f64 := f64_div (f64_of_Z n) (f64_of_Z d).

Definition f64_zero : f64 := S754_zero false.
Definition f64_one : f64 := f64_of_Z 1.

Definition f64_le (a b : f64) : bool := SFleb a b.
Definition f64_lt (a b : f64) : bool := SFltb a b.
Definition f64_ge (a b : f64) : bool := SFleb b a.
Definition f64_gt (a b : f64) : bool := SFltb b a.
Definition f64_eq (a b : f64) : bool := SFeqb a b.

Definition f64_is_nan (a : f64) : bool :=
  match a with S754_nan => true | _ => false end.
Definition f64_is_finite (a : f64) : bool :=
  match a with S754_zero _ | S754_finite _ _ _ => true | _ => false end.

(** [f64::max], [f64::min]: a NaN operand is ignored. *)
Definition f64_max (a b : f64) : f64 :=
  if f64_is_nan a then b else if f64_is_nan b then a else if f64_lt a b then b else a.
Definition f64_min (a b : f64) : f64 :=
  if f64_is_nan a then b else if f64_is_nan b then a else if f64_lt b a then b else a.
(** [f64::clamp] with [lo <= hi] *)
Definition f64_clamp (x lo hi : f64) : f64 :=
  if f64_lt x lo then lo else if f64_gt x hi then hi else x.
(** [(lo..=hi).contains(&x)] *)
Definition f64_in_range (lo hi x : f64) : bool := f64_le lo x && f64_le x hi.

(** ** The order of doubles, through an embedding into triples of integers *)

Definition rank (x : f64) : option (Z * Z * Z) :=
  match x with
  | S754_nan => None
  | S754_infinity true => Some (-2, 0, 0)
  | S754_infinity false => Some (2, 0, 0)
  | S754_zero _ => Some (0, 0, 0)
  | S754_finite false m e => Some (1, e, Zpos m)
  | S754_finite true m e => Some (-1, - e, - Zpos m)
  end.

Definition rank_le (a b : Z * Z * Z) : Prop :=
  let '(a1, a2, a3) := a in
  let '(b1, b2, b3) := b in
  a1 < b1 \/ (a1 = b1 /\ (a2 < b2 \/ (a2 = b2 /\ a3 <= b3))).
Definition rank_lt (a b : Z * Z * Z) : Prop :=
  let '(a1, a2, a3) := a in
  let '(b1, b2, b3) := b in
  a1 < b1 \/ (a1 = b1 /\ (a2 < b2 \/ (a2 = b2 /\ a3 < b3))).

Ltac rank_cases :=
  repeat match goal with
  | x : f64 |- _ => destruct x as [[] | [] | | [] ? ?]
  | |- context [Z.compare ?a ?b] => destruct (Z.compare_spec a b)
  | |- context [Pos.compare_cont Eq ?a ?b] =>
      change (Pos.compare_cont Eq a b) with (Pos.compare a b);
      destruct (Pos.compare_spec a b)
  end.

Lemma f64_le_rank a b :
  f64_le a b = true <->
  match rank a, rank b with Some ra, Some rb => rank_le ra rb | _, _ => False end.
Proof.
  unfold f64_le, SFleb, SFcompare. rank_cases; simpl; subst; split; try done; try lia.
Qed.

Lemma f64_lt_rank a b :
  f64_lt a b = true <->
  match rank a, rank b with Some ra, Some rb => rank_lt ra rb | _, _ => False end.
Proof.
  unfold f64_lt, SFltb, SFcompare. rank_cases; simpl; subst; split; try done; try lia.
Qed.

Ltac rank_solve :=
  rewrite ?f64_le_rank, ?f64_lt_rank;
  repeat match goal with
  | |- context [rank ?x] => destruct (rank x) as [[[? ?] ?]|]
  end; simpl; try done; try lia.

Lemma f64_le_trans a b c : f64_le a b = true -> f64_le b c = true -> f64_le a c = true.
Proof. rank_solve. Qed.
Lemma f64_lt_le_trans a b c : f64_lt a b = true -> f64_le b c = true -> f64_lt a c = true.
Proof. rank_solve. Qed.
Lemma f64_le_lt_trans a b c : f64_le a b = true -> f64_lt b c = true -> f64_lt a c = true.
Proof. rank_solve. Qed.
Lemma f64_lt_le a b : f64_lt a b = true -> f64_le a b = true.
Proof. rank_solve. Qed.
Lemma f64_lt_not_le a b : f64_lt a b = true -> f64_le b a = false.
Proof.
  intros H. apply not_true_is_false. revert H. rank_solve.
Qed.
Lemma f64_le_refl a : f64_is_nan a = false -> f64_le a a = true.
Proof. rewrite f64_le_rank. destruct a as [[] | [] | | [] ? ?]; simpl; try done; lia. Qed.
Lemma f64_le_total a b :
  f64_is_nan a = false -> f64_is_nan b = false -> f64_le a b = false -> f64_le b a = true.
Proof.
  intros Ha Hb Hf. destruct (f64_le b a) eqn:E; [done |]. exfalso.
  assert (~ f64_le a b = true) as H1 by congruence.
  assert (~ f64_le b a = true) as H2 by congruence.
  rewrite f64_le_rank in H1, H2.
  destruct a as [[] | [] | | [] ? ?]; destruct b as [[] | [] | | [] ? ?];
    simpl in *; try done; lia.
Qed.
Lemma f64_le_not_nan a b : f64_le a b = true -> f64_is_nan a = false /\ f64_is_nan b = false.
Proof. rewrite f64_le_rank. destruct a as [[] | [] | | [] ? ?], b as [[] | [] | | [] ? ?]; done. Qed.
Lemma f64_finite_not_nan a : f64_is_finite a = true -> f64_is_nan a = false.
Proof. by destruct a. Qed.

#[export] Hint Resolve f64_le_trans f64_lt_le f64_finite_not_nan : nemor.

Lemma f64_not_le_lt a b :
  f64_is_nan a = false -> f64_is_nan b = false -> f64_le a b = false -> f64_lt b a = true.
Proof.
  intros Ha Hb Hf. assert (~ f64_le a b = true) as H by congruence.
  rewrite f64_le_rank in H. rewrite f64_lt_rank.
  destruct a as [[] | [] | | [] ? ?]; destruct b as [[] | [] | | [] ? ?];
    simpl in *; try done; lia.
Qed.

(** [f64::from(u8)] is exact, hence strictly increasing: decided by running the
    conversion on all 256 values. *)
Lemma f64_of_u8_lt x y : u8 x -> u8 y -> x < y -> f64_lt (f64_of_Z x) (f64_of_Z y) = true.
Proof.
  assert (forall n i, (i + n < 256)%nat ->
    f64_lt (f64_of_Z (Z.of_nat i)) (f64_of_Z (Z.of_nat (i + S n))) = true \/ (i + S n = 256)%nat) as H.
  { induction n as [|n IH]; intros i Hi.
    - destruct (decide (i + 1 = 256)%nat) as [|Hne]; [by right | left].
      assert (forallb (fun k => f64_lt (f64_of_Z (Z.of_nat k)) (f64_of_Z (Z.of_nat (k + 1))))
                (seq 0 255) = true) as Hall by (vm_compute; reflexivity).
      rewrite forallb_forall in Hall. apply Hall, in_seq. lia.
    - destruct (decide (i + S (S n) = 256)%nat) as [|Hne]; [by right | left].
      destruct (IH i ltac:(lia)) as [H1|]; [| lia].
      destruct (IH (i + 1)%nat ltac:(lia)) as [H2|]; [| lia].
      assert (forallb (fun k => f64_lt (f64_of_Z (Z.of_nat k)) (f64_of_Z (Z.of_nat (k + 1))))
                (seq 0 255) = true) as Hall by (vm_compute; reflexivity).
      rewrite forallb_forall in Hall.
      eapply f64_lt_le_trans; [apply Hall, in_seq; lia |].
      replace (i + S (S n))%nat with (i + 1 + S n)%nat by lia. by apply f64_lt_le. }
  unfold u8, u8_max. intros Hx Hy Hlt.
  destruct (H (Z.to_nat (y - x - 1)) (Z.to_nat x)) as [H1|]; [lia | | lia].
  replace (Z.of_nat (Z.to_nat x)) with x in H1 by lia.
  by replace (Z.of_nat (Z.to_nat x + S (Z.to_nat (y - x - 1)))) with y in H1 by lia.
Qed.

Lemma f64_of_u8_le x y : u8 x -> u8 y -> x <= y -> f64_le (f64_of_Z x) (f64_of_Z y) = true.
Proof.
  intros Hx Hy Hle. destruct (Z.eq_dec x y) as [->|].
  - apply f64_le_refl. unfold f64_of_Z. assert (forallb (fun i =>
      negb (f64_is_nan (f64_of_Z (Z.of_nat i)))) (seq 0 256) = true) as H by (vm_compute; reflexivity).
    rewrite forallb_forall in H. unfold u8, u8_max in *.
    specialize (H (Z.to_nat y) ltac:(apply in_seq; lia)).
    replace (Z.of_nat (Z.to_nat y)) with y in H by lia. by apply negb_true_iff in H.
  - apply f64_lt_le, f64_of_u8_lt; [done.. | lia].
Qed.

(** [f64::total_cmp]: negative zero before zero, the NaN last *)
Definition total_rank (x : f64) : Z * Z * Z :=
  match x with
  | S754_nan => (3, 0, 0)
  | S754_infinity true => (-2, 0, 0)
  | S754_infinity false => (2, 0, 0)
  | S754_zero true => (0, -1, 0)
  | S754_zero false => (0, 0, 0)
  | S754_finite false m e => (1, e, Zpos m)
  | S754_finite true m e => (-1, - e, - Zpos m)
  end.
Definition f64_total_le (a b : f64) : bool :=
  let '(a1, a2, a3) := total_rank a in
  let '(b1, b2, b3) := total_rank b in
  (a1 <? b1) || ((a1 =? b1) && ((a2 <? b2) || ((a2 =? b2) && (a3 <=? b3)))).

Lemma f64_total_le_total a b : f64_total_le a b = false -> f64_total_le b a = true.
Proof.
  unfold f64_total_le. destruct (total_rank a) as [[a1 a2] a3], (total_rank b) as [[b1 b2] b3].
  destruct (Z.ltb_spec a1 b1), (Z.ltb_spec b1 a1), (Z.eqb_spec a1 b1), (Z.eqb_spec b1 a1),
    (Z.ltb_spec a2 b2), (Z.ltb_spec b2 a2), (Z.eqb_spec a2 b2), (Z.eqb_spec b2 a2),
    (Z.leb_spec a3 b3), (Z.leb_spec b3 a3); simpl; try done; lia.
Qed.

Lemma f64_total_le_trans a b c :
  f64_total_le a b = true -> f64_total_le b c = true -> f64_total_le a c = true.
Proof.
  unfold f64_total_le.
  destruct (total_rank a) as [[a1 a2] a3], (total_rank b) as [[b1 b2] b3],
    (total_rank c) as [[c1 c2] c3].
  rewrite !orb_true_iff, !andb_true_iff, !orb_true_iff, !andb_true_iff,
    !Z.ltb_lt, !Z.eqb_eq, !Z.leb_le. lia.
Qed.
