(* ===== verification/Text.v ===== *)
(** The [str] operations of the Rust standard library that the parsers use, on
    byte strings. The files of /proc and /sys that Nemor parses are ASCII, so
    white space is ASCII white space and a [char] is a byte. *)

From Stdlib Require Export Ascii.
From Stdlib Require Import Floats.SpecFloat.
From S2P Require Import Prelude F64.

(** ** Characters *)

Definition is_ws (c : ascii) : bool :=
  let n := nat_of_ascii c in ((9 <=? n) && (n <=? 13) || (n =? 32))%nat.
Definition digit_val (c : ascii) : option Z :=
  let n := Z.of_nat (nat_of_ascii c) in
  if (48 <=? n) && (n <=? 57) then Some (n - 48) else None.
Definition hex_val (c : ascii) : option Z :=
  let n := Z.of_nat (nat_of_ascii c) in
  if (48 <=? n) && (n <=? 57) then Some (n - 48)
  else if (97 <=? n) && (n <=? 102) then Some (n - 87)
  else if (65 <=? n) && (n <=? 70) then Some (n - 55)
  else None.
Definition is_digit (c : ascii) : bool := is_some (digit_val c).
Definition is_ascii_lowercase (c : ascii) : bool :=
  let n := nat_of_ascii c in ((97 <=? n) && (n <=? 122))%nat.
Definition is_ascii_uppercase (c : ascii) : bool :=
  let n := nat_of_ascii c in ((65 <=? n) && (n <=? 90))%nat.
Definition is_ascii_alphanumeric (c : ascii) : bool :=
  is_digit c || is_ascii_lowercase c || is_ascii_uppercase c.

(** [str::bytes().all(p)] *)
Fixpoint str_all (p : ascii -> bool) (s : string) : bool :=
  match s with
  | EmptyString => true
  | String c s' => p c && str_all p s'
  end.
(** [str::contains(c)] for a character *)
Definition str_contains_char (c : ascii) (s : string) : bool :=
  negb (str_all (fun x => negb (Ascii.eqb c x)) s).

Arguments str_contains_char c%_char_scope s%_string_scope.

(** ** Prefixes, suffixes, splitting *)

Fixpoint strip_prefix (p s : string) : option string :=
  match p, s with
  | EmptyString, _ => Some s
  | String c p', String d s' => if Ascii.eqb c d then strip_prefix p' s' else None
  | String _ _, EmptyString => None
  end.
Definition starts_with (p s : string) : bool := is_some (strip_prefix p s).

Fixpoint strip_suffix (x s : string) : option string :=
  if String.eqb s x then Some EmptyString
  else match s with
       | EmptyString => None
       | String c s' => match strip_suffix x s' with
                        | Some r => Some (String c r)
                        | None => None
                        end
       end.
Definition ends_with (x s : string) : bool := is_some (strip_suffix x s).

(** [split_once(pattern)]: the parts before and after the first occurrence. *)
Fixpoint split_once (pat s : string) : option (string * string) :=
  match strip_prefix pat s with
  | Some rest => Some (EmptyString, rest)
  | None =>
      match s with
      | EmptyString => None
      | String c s' =>
          match split_once pat s' with
          | Some (l, r) => Some (String c l, r)
          | None => None
          end
      end
  end.
Definition str_contains (pat s : string) : bool := is_some (split_once pat s).

(** [split_whitespace], with the token under construction *)
Fixpoint split_ws_from (cur : string) (s : string) : list string :=
  match s with
  | EmptyString => if str_empty cur then [] else [cur]
  | String c s' =>
      if is_ws c then (if str_empty cur then [] else [cur]) ++ split_ws_from EmptyString s'
      else split_ws_from (cur ++ String c EmptyString) s'
  end.
Definition split_whitespace (s : string) : list string := split_ws_from EmptyString s.

(** [split(c)]: always at least one part *)
Fixpoint split_char (sep : ascii) (s : string) : list string :=
  match s with
  | EmptyString => [EmptyString]
  | String c s' =>
      if Ascii.eqb c sep then EmptyString :: split_char sep s'
      else match split_char sep s' with
           | x :: r => String c x :: r
           | [] => [String c EmptyString]
           end
  end.

Fixpoint trim_start (s : string) : string :=
  match s with
  | String c s' => if is_ws c then trim_start s' else s
  | EmptyString => EmptyString
  end.
Fixpoint trim_end (s : string) : string :=
  match s with
  | EmptyString => EmptyString
  | String c s' =>
      match trim_end s' with
      | EmptyString => if is_ws c then EmptyString else String c EmptyString
      | r => String c r
      end
  end.
Definition trim (s : string) : string := trim_end (trim_start s).

(** [str::lines]: separated by a newline, a trailing one opening no line; a
    line that a newline ends loses one carriage return before it *)
Definition strip_cr (s : string) : string := unwrap_or (strip_suffix (String "013" "") s) s.
Fixpoint end_lines (l : list string) : list string :=
  match l with
  | [] => []
  | [x] => if str_empty x then [] else [x]
  | x :: l' => strip_cr x :: end_lines l'
  end.
Definition lines (s : string) : list string := end_lines (split_char "010" s).
Definition newline : string := String "010" "".
Definition plain_char (c : ascii) : bool := negb (Ascii.eqb "010" c) && negb (Ascii.eqb "013" c).

(** [Path::join]: an absolute argument replaces the path. *)
Definition path_join (root p : string) : string :=
  if starts_with "/" p then p
  else if str_empty root || ends_with "/" root then (root ++ p)%string
  else (root ++ "/" ++ p)%string.

(** ** Integers *)

Section Digits.
Context (base max : Z) (val : ascii -> option Z).
(** the digits of an unsigned number, an overflow being an error *)
Fixpoint parse_digits (acc : Z) (s : string) : option Z :=
  match s with
  | EmptyString => Some acc
  | String c s' =>
      match val c with
      | Some d => if acc * base + d <=? max then parse_digits (acc * base + d) s' else None
      | None => None
      end
  end.
(** [uN::from_str_radix]: an optional plus sign, then at least one digit *)
Definition parse_unsigned (s : string) : option Z :=
  match s with
  | EmptyString => None
  | String c s' =>
      if Ascii.eqb c "+" then (if str_empty s' then None else parse_digits 0 s')
      else parse_digits 0 s
  end.
End Digits.

Definition parse_u64 : string -> option Z := parse_unsigned 10 u64_max digit_val.
Definition parse_u32 : string -> option Z := parse_unsigned 10 u32_max digit_val.
Definition parse_u8 : string -> option Z := parse_unsigned 10 u8_max digit_val.
Definition parse_hex_u64 : string -> option Z := parse_unsigned 16 u64_max hex_val.
(** [iN::from_str]: a minus sign negates, with one more value below zero *)
Definition parse_signed (max : Z) (s : string) : option Z :=
  match s with
  | String c s' =>
      if Ascii.eqb c "-" then
        if str_empty s' then None
        else match parse_digits 10 (max + 1) digit_val 0 s' with
             | Some v => Some (- v)
             | None => None
             end
      else parse_unsigned 10 max digit_val s
  | EmptyString => None
  end.
Definition parse_i64 : string -> option Z := parse_signed i64_max.
Definition parse_i32 : string -> option Z := parse_signed (2 ^ 31 - 1).

(** the message of a [ParseIntError] *)
Fixpoint digits_error (max : Z) (overflow : string) (acc : Z) (s : string) : string :=
  match s with
  | EmptyString => ""
  | String c s' =>
      match digit_val c with
      | None => "invalid digit found in string"
      | Some d => if acc * 10 + d <=? max then digits_error max overflow (acc * 10 + d) s'
                  else overflow
      end
  end.
Definition int_error (signed : bool) (max : Z) (s : string) : string :=
  let large := "number too large to fit in target type"%string in
  match s with
  | EmptyString => "cannot parse integer from empty string"
  | String c s' =>
      if Ascii.eqb c "+" || (signed && Ascii.eqb c "-") then
        if str_empty s' then "invalid digit found in string"
        else if Ascii.eqb c "-"
             then digits_error (max + 1) "number too small to fit in target type" 0 s'
             else digits_error max large 0 s'
      else digits_error max large 0 s
  end.

(** [to_ascii_lowercase], [eq_ignore_ascii_case] *)
Definition lower_char (c : ascii) : ascii :=
  if is_ascii_uppercase c then ascii_of_nat (nat_of_ascii c + 32) else c.
Fixpoint to_ascii_lowercase (s : string) : string :=
  match s with
  | EmptyString => EmptyString
  | String c s' => String (lower_char c) (to_ascii_lowercase s')
  end.
Definition eq_ignore_ascii_case (a b : string) : bool :=
  String.eqb (to_ascii_lowercase a) (to_ascii_lowercase b).

(** [f64::from_str]. A decimal [m * 10^e] is rounded once: for a negative [e] the
    quotient is taken to at least 65 bits and a sticky bit before normalisation. *)
Definition f64_of_decimal (neg : bool) (m e : Z) : f64 :=
  let signed n := if neg then - n else n in
  if m =? 0 then S754_zero neg
  else if 0 <=? e then binary_normalize 53 1024 (signed (m * 10 ^ e)) 0 false
  else
    let d := 10 ^ (- e) in
    let shift := Z.max 0 (Z.log2 d - Z.log2 m + 66) in
    let n := m * 2 ^ shift in
    let sticky := if n mod d =? 0 then 0 else 1 in
    binary_normalize 53 1024 (signed (2 * (n / d) + sticky)) (- (shift + 1)) false.
(** leading digits: their value after [acc], their number and the rest *)
Fixpoint take_digits (s : string) (acc count : Z) : Z * Z * string :=
  match s with
  | String c s' =>
      match digit_val c with
      | Some d => take_digits s' (acc * 10 + d) (count + 1)
      | None => (acc, count, s)
      end
  | EmptyString => (acc, count, s)
  end.
(** digits of an exponent, which stop accumulating at 2^16 *)
Fixpoint exponent_digits (s : string) (acc : Z) : option Z :=
  match s with
  | EmptyString => Some acc
  | String c s' =>
      match digit_val c with
      | Some d => exponent_digits s' (if acc <? 65536 then acc * 10 + d else acc)
      | None => None
      end
  end.
Definition parse_exponent (s : string) : option Z :=
  match s with
  | EmptyString => Some 0
  | String c s' =>
      if Ascii.eqb c "e" || Ascii.eqb c "E" then
        let '(neg, digits) :=
          match strip_prefix "-" s' with
          | Some r => (true, r)
          | None => (false, unwrap_or (strip_prefix "+" s') s')
          end in
        if str_empty digits then None
        else (fun e => if neg : bool then - e else e) <$> exponent_digits digits 0
      else None
  end.
Definition parse_number (neg : bool) (s : string) : option f64 :=
  let '(m, count, rest) := take_digits s 0 0 in
  let '(m, count', frac, rest) :=
    match strip_prefix "." rest with
    | Some r => let '(m', n, r') := take_digits r m 0 in (m', count + n, n, r')
    | None => (m, count, 0, rest)
    end in
  if count' =? 0 then None
  else (fun e => f64_of_decimal neg m (e - frac)) <$> parse_exponent rest.
Definition parse_f64 (s : string) : option f64 :=
  let '(neg, body) :=
    match strip_prefix "-" s with
    | Some r => (true, r)
    | None => (false, unwrap_or (strip_prefix "+" s) s)
    end in
  if str_empty body then None
  else match parse_number neg body with
       | Some x => Some x
       | None =>
           let word := to_ascii_lowercase body in
           if String.eqb word "inf" || String.eqb word "infinity" then Some (S754_infinity neg)
           else if String.eqb word "nan" then Some S754_nan
           else None
       end.
Definition float_error (s : string) : string :=
  if str_empty s then "cannot parse float from empty string" else "invalid float literal".

(** [rfind(c)]: what stands before and after the last [c] *)
Fixpoint rsplit_char (c : ascii) (s : string) : option (string * string) :=
  match s with
  | EmptyString => None
  | String d s' =>
      match rsplit_char c s' with
      | Some (a, b) => Some (String d a, b)
      | None => if Ascii.eqb d c then Some (EmptyString, s') else None
      end
  end.

(** [Display] of an unsigned integer. The fuel is its number of bits, which no
    numeral's digit count exceeds. *)
Definition digit_char (d : Z) : ascii := ascii_of_nat (Z.to_nat (48 + d)).
Fixpoint show_fuel (fuel : nat) (n : Z) (acc : string) : string :=
  match fuel with
  | O => acc
  | S f =>
      let acc' := String (digit_char (n mod 10)) acc in
      if n / 10 =? 0 then acc' else show_fuel f (n / 10) acc'
  end.
Definition show_uint (n : Z) : string := show_fuel (S (Z.to_nat (Z.log2 n))) n "".
Definition show_int (n : Z) : string :=
  if n <? 0 then String "-" (show_uint (- n)) else show_uint n.

(** [format!("{:.p}")] of a double: its exact value rounded to [p] decimals,
    ties to even *)
Definition scaled_round (m e p : Z) : Z :=
  if 0 <=? e then m * 2 ^ e * 10 ^ p
  else
    let d := 2 ^ (- e) in
    let n := m * 10 ^ p in
    let q := n / d in
    let r := n mod d in
    if (d <? 2 * r) || ((d =? 2 * r) && Z.odd q) then q + 1 else q.
Fixpoint pad_zeros (n : nat) (s : string) : string :=
  match n with
  | O => s
  | S n' => String "0" (pad_zeros n' s)
  end.
Definition show_scaled (n p : Z) : string :=
  let frac := show_uint (n mod 10 ^ p) in
  (show_uint (n / 10 ^ p) ++ "." ++ pad_zeros (Z.to_nat p - String.length frac) frac)%string.
Definition show_f64_fixed (p : Z) (x : f64) : string :=
  match x with
  | S754_nan => "NaN"
  | S754_infinity s => if s then "-inf" else "inf"
  | S754_zero s => (if s then "-" else "") ++ show_scaled 0 p
  | S754_finite s m e => (if s then "-" else "") ++ show_scaled (scaled_round (Zpos m) e p) p
  end%string.

(** [trim_end_matches(suffix)], with the length as fuel: each round drops at
    least one character of a non-empty suffix. *)
Fixpoint trim_end_matches_fuel (fuel : nat) (x s : string) : string :=
  match fuel with
  | O => s
  | S f => match strip_suffix x s with
           | Some r => trim_end_matches_fuel f x r
           | None => s
           end
  end.
Definition trim_end_matches (x s : string) : string :=
  trim_end_matches_fuel (String.length s) x s.

(** [trim_start_matches(c)], [trim_end_matches(c)] and [trim_matches(c)] for one character *)
Fixpoint trim_start_char (c : ascii) (s : string) : string :=
  match s with
  | String d s' => if Ascii.eqb c d then trim_start_char c s' else s
  | EmptyString => EmptyString
  end.
Definition trim_end_char (c : ascii) (s : string) : string :=
  trim_end_matches (String c EmptyString) s.
Definition trim_char (c : ascii) (s : string) : string := trim_end_char c (trim_start_char c s).

(** ** Facts *)

(** stdpp keeps [String.append] folded; these equations unfold it. *)
Lemma app_str_cons c (a b : string) : (String c a ++ b = String c (a ++ b))%string.
Proof. done. Qed.
Lemma app_str_nil (b : string) : ("" ++ b = b)%string.
Proof. done. Qed.
Create Rewrite HintDb str.
#[export] Hint Rewrite app_str_cons app_str_nil : str.
Lemma app_str_assoc (a b c : string) : (a ++ (b ++ c) = (a ++ b) ++ c)%string.
Proof.
  induction a as [|x a IH]; autorewrite with str; [done |]. by rewrite IH.
Qed.
Lemma app_str_nil_r (a : string) : (a ++ "" = a)%string.
Proof. induction a as [|x a IH]; autorewrite with str; [done | by rewrite IH]. Qed.

Lemma strip_prefix_app p s : strip_prefix p (p ++ s) = Some s.
Proof.
  induction p as [|c p IH]; autorewrite with str; simpl; [done |]. by rewrite Ascii.eqb_refl.
Qed.

Lemma strip_prefix_some p s r : strip_prefix p s = Some r -> s = (p ++ r)%string.
Proof.
  revert s. induction p as [|c p IH]; intros s; simpl; [by intros [= ->] |].
  destruct s as [|d s]; [done |]. destruct (Ascii.eqb_spec c d) as [->|]; [|done].
  intros H. by rewrite (IH _ H), app_str_cons.
Qed.

Lemma str_app_eq_length (a x : string) : (a ++ x = x)%string -> a = ""%string.
Proof.
  intros H. destruct a as [|c a]; [done |]. exfalso.
  apply (f_equal String.length) in H.
  assert (forall b d, String.length (b ++ d)%string = String.length b + String.length d)%nat
    as Hlen by (induction b; intros; autorewrite with str; simpl; congruence).
  rewrite Hlen in H. simpl in H. lia.
Qed.

Lemma strip_suffix_app s x : strip_suffix x (s ++ x) = Some s.
Proof.
  induction s as [|c s IH]; autorewrite with str.
  - destruct x; simpl; [done |]. by rewrite Ascii.eqb_refl, String.eqb_refl.
  - cbn [strip_suffix]. destruct (String.eqb_spec (String c (s ++ x)) x) as [E|E].
    + rewrite <- app_str_cons in E. by apply str_app_eq_length in E.
    + by rewrite IH.
Qed.

Lemma str_all_app p a b : str_all p (a ++ b) = str_all p a && str_all p b.
Proof.
  induction a as [|c a IH]; autorewrite with str; simpl; [done |]. by rewrite IH, andb_assoc.
Qed.

(** A token: non-empty, without white space *)
Definition token (s : string) : bool :=
  negb (str_empty s) && str_all (fun c => negb (is_ws c)) s.

Lemma split_ws_token cur t rest :
  str_all (fun c => negb (is_ws c)) t = true ->
  split_ws_from cur (t ++ rest) = split_ws_from (cur ++ t) rest.
Proof.
  revert cur. induction t as [|c t IH]; intros cur H; autorewrite with str.
  - by rewrite app_str_nil_r.
  - simpl in *. apply andb_true_iff in H as [Hc Ht]. apply negb_true_iff in Hc.
    rewrite Hc, IH by done. by rewrite <- app_str_assoc, app_str_cons, app_str_nil.
Qed.

Lemma str_empty_app a b : str_empty (a ++ b) = str_empty a && str_empty b.
Proof. by destruct a. Qed.

(** Splitting what [join " "] put together gives the tokens back. *)
Lemma split_whitespace_join ts :
  Forall (fun t => token t = true) ts -> split_whitespace (join " " ts) = ts.
Proof.
  unfold split_whitespace. induction 1 as [|t ts Ht Hts IH]; [done |].
  unfold token in Ht. apply andb_true_iff in Ht as [Hne Hall]. apply negb_true_iff in Hne.
  destruct ts as [|t' ts]; cbn [join].
  - rewrite <- (app_str_nil_r t) at 1. rewrite split_ws_token by done.
    rewrite app_str_nil. cbn [split_ws_from]. by rewrite Hne.
  - rewrite split_ws_token by done.
    rewrite app_str_cons, !app_str_nil. cbn [split_ws_from].
    change (is_ws " ") with true. cbn iota. rewrite ?app_str_nil, Hne. cbn [app].
    cbn [join] in IH. by rewrite IH.
Qed.

(** ** Printing and parsing numbers *)

Lemma digit_val_char d : 0 <= d < 10 -> digit_val (digit_char d) = Some d.
Proof.
  intros H. assert (d = 0 \/ d = 1 \/ d = 2 \/ d = 3 \/ d = 4 \/ d = 5 \/ d = 6 \/ d = 7
                    \/ d = 8 \/ d = 9) by lia.
  by destruct_or!; subst.
Qed.

Lemma digit_char_plain d : 0 <= d < 10 ->
  is_ws (digit_char d) = false /\ Ascii.eqb (digit_char d) "+" = false
  /\ Ascii.eqb (digit_char d) ":" = false /\ Ascii.eqb (digit_char d) "-" = false.
Proof.
  intros H. assert (d = 0 \/ d = 1 \/ d = 2 \/ d = 3 \/ d = 4 \/ d = 5 \/ d = 6 \/ d = 7
                    \/ d = 8 \/ d = 9) by lia.
  by destruct_or!; subst.
Qed.


Section ShowParse.
Variable max : Z.

Lemma parse_digits_app p s : forall acc,
  parse_digits 10 max digit_val acc (p ++ s) =
  match parse_digits 10 max digit_val acc p with
  | Some v => parse_digits 10 max digit_val v s
  | None => None
  end.
Proof.
  induction p as [|c p IH]; intros acc; autorewrite with str; simpl; [done |].
  destruct (digit_val c); [|done]. destruct (_ <=? _); [apply IH | done].
Qed.

Lemma show_fuel_acc fuel : forall n acc,
  show_fuel fuel n acc = (show_fuel fuel n "" ++ acc)%string.
Proof.
  induction fuel as [|f IH]; intros n acc; simpl; [done |].
  destruct (n / 10 =? 0); [done |].
  rewrite IH, (IH _ (String _ "")). by rewrite <- app_str_assoc, app_str_cons, app_str_nil.
Qed.

Lemma show_fuel_step fuel n :
  show_fuel (S fuel) n "" =
  ((if (n / 10 =? 0)%Z then "" else show_fuel fuel (n / 10) "")
     ++ String (digit_char (n mod 10)) "")%string.
Proof. cbn [show_fuel]. destruct (n / 10 =? 0); [done |]. apply show_fuel_acc. Qed.

Lemma parse_show_fuel fuel : forall n,
  0 <= n <= max -> n < 2 ^ Z.of_nat fuel ->
  parse_digits 10 max digit_val 0 (show_fuel fuel n "") = Some n.
Proof.
  induction fuel as [|f IH]; intros n Hn Hf.
  - simpl in *. f_equal. lia.
  - rewrite show_fuel_step, parse_digits_app.
    pose proof (Z.mod_pos_bound n 10). pose proof (Z.div_mod n 10).
    rewrite Nat2Z.inj_succ, Z.pow_succ_r in Hf by lia.
    destruct (Z.eqb_spec (n / 10) 0) as [E|E].
    + simpl. rewrite digit_val_char by lia.
      replace (0 * 10 + n mod 10) with n by lia. by rewrite (proj2 (Z.leb_le _ _)) by lia.
    + rewrite IH; [| lia | lia]. simpl. rewrite digit_val_char by lia.
      replace (n / 10 * 10 + n mod 10) with n by lia. by rewrite (proj2 (Z.leb_le _ _)) by lia.
Qed.

Lemma show_fuel_digits fuel : forall n, 0 <= n ->
  str_all is_digit (show_fuel fuel n "") = true.
Proof.
  induction fuel as [|f IH]; intros n Hn; [done |].
  rewrite show_fuel_step, str_all_app.
  pose proof (Z.mod_pos_bound n 10).
  apply andb_true_iff; split.
  - destruct (_ =? 0); [done |]. apply IH. apply Z.div_pos; lia.
  - simpl. unfold is_digit. by rewrite digit_val_char by lia.
Qed.

Lemma show_uint_parse n : 0 <= n <= max ->
  parse_digits 10 max digit_val 0 (show_uint n) = Some n.
Proof.
  intros H. apply parse_show_fuel; [done |].
  rewrite Nat2Z.inj_succ, Z2Nat.id by apply Z.log2_nonneg.
  destruct (Z.eq_dec n 0) as [->|]; [done |]. apply Z.log2_spec. lia.
Qed.
End ShowParse.

Lemma show_uint_digits n : 0 <= n -> str_all is_digit (show_uint n) = true.
Proof. apply show_fuel_digits. Qed.

Lemma show_uint_nonempty n : show_uint n <> ""%string.
Proof.
  unfold show_uint. rewrite show_fuel_step.
  by destruct (if n / 10 =? 0 then _ else _).
Qed.

Lemma is_digit_plain c : is_digit c = true ->
  is_ws c = false /\ Ascii.eqb c "+" = false /\ Ascii.eqb c ":" = false /\ Ascii.eqb c "-" = false
  /\ Ascii.eqb "-" c = false /\ Ascii.eqb ":" c = false.
Proof.
  destruct c as [[] [] [] [] [] [] [] []]; vm_compute; intros H;
    first [discriminate H | repeat split; reflexivity].
Qed.

Lemma str_all_impl (p q : ascii -> bool) s :
  (forall c, p c = true -> q c = true) -> str_all p s = true -> str_all q s = true.
Proof.
  intros H. induction s as [|c s IH]; simpl; [done |].
  rewrite !andb_true_iff. naive_solver.
Qed.

Lemma show_uint_token n : 0 <= n -> token (show_uint n) = true.
Proof.
  intros H. unfold token. apply andb_true_iff; split.
  - apply negb_true_iff, String.eqb_neq, show_uint_nonempty.
  - eapply str_all_impl, show_uint_digits; [| done].
    intros c Hc. apply is_digit_plain in Hc. by destruct Hc as [-> _].
Qed.

(** [x.to_string().parse() == Ok(x)] for every value the type holds *)
Lemma parse_unsigned_show max n : 0 <= n <= max ->
  parse_unsigned 10 max digit_val (show_uint n) = Some n.
Proof.
  intros H. pose proof (show_uint_digits n ltac:(lia)) as Hd.
  pose proof (show_uint_nonempty n) as Hne.
  pose proof (show_uint_parse max n H) as Hp.
  destruct (show_uint n) as [|c s] eqn:E; [done |].
  cbn [parse_unsigned]. simpl in Hd. apply andb_true_iff in Hd as [Hc _].
  apply is_digit_plain in Hc as (_ & -> & _). exact Hp.
Qed.

(** ** White space around, and a separator inside *)

Lemma split_ws_trim_end s : forall cur, split_ws_from cur (trim_end s) = split_ws_from cur s.
Proof.
  induction s as [|c s IH]; intros cur; [done |]. cbn [trim_end].
  assert (trim_end s = ""%string -> split_ws_from cur (if is_ws c then ""%string else String c "")
          = split_ws_from cur (String c s)) as Hnil.
  { intros E. rewrite E in IH. cbn [split_ws_from]. destruct (is_ws c) eqn:Hw.
    - rewrite <- (IH ""%string). simpl. by rewrite app_nil_r.
    - rewrite <- (IH (cur ++ String c "")%string). simpl. by rewrite Hw. }
  destruct (trim_end s) as [|c' s'] eqn:E; [by apply Hnil |].
  cbn [split_ws_from] in *. rewrite <- !(IH (cur ++ String c "")%string), <- (IH ""%string). done.
Qed.

Lemma split_whitespace_trim s : split_whitespace (trim s) = split_whitespace s.
Proof.
  unfold split_whitespace, trim. rewrite split_ws_trim_end.
  induction s as [|c s IH]; [done |]. cbn [trim_start split_ws_from].
  destruct (is_ws c) eqn:E; [by rewrite IH |]. cbn [split_ws_from]. by rewrite E.
Qed.

Lemma split_once_char c a b :
  str_all (fun x => negb (Ascii.eqb c x)) a = true ->
  split_once (String c "") (a ++ String c b) = Some (a, b).
Proof.
  induction a as [|x a IH]; autorewrite with str; cbn [split_once strip_prefix str_all].
  - by rewrite Ascii.eqb_refl.
  - intros H. apply andb_true_iff in H as [Hx Ha]. apply negb_true_iff in Hx.
    rewrite Hx. by rewrite IH.
Qed.

Lemma str_all_show_uint (p : ascii -> bool) n :
  (forall c, is_digit c = true -> p c = true) -> 0 <= n -> str_all p (show_uint n) = true.
Proof. intros H Hn. eapply str_all_impl, show_uint_digits; done. Qed.

Lemma token_app a b :
  token a = true -> str_all (fun c => negb (is_ws c)) b = true -> token (a ++ b) = true.
Proof.
  unfold token. rewrite str_empty_app, str_all_app, !andb_true_iff, !negb_true_iff.
  intros [-> ->] ->. done.
Qed.

Lemma show_uint_no_ws n : 0 <= n -> str_all (fun c => negb (is_ws c)) (show_uint n) = true.
Proof.
  apply str_all_show_uint. intros c Hc. apply is_digit_plain in Hc as (-> & _). done.
Qed.

Lemma parse_digits_max (max max' : Z) s : forall acc n, max <= max' ->
  parse_digits 10 max digit_val acc s = Some n -> parse_digits 10 max' digit_val acc s = Some n.
Proof.
  induction s as [|c s IH]; intros acc n Hm; cbn [parse_digits]; [done |].
  destruct (digit_val c) as [d|]; [| done].
  destruct (acc * 10 + d <=? max) eqn:E; [| done]. apply Z.leb_le in E.
  assert ((acc * 10 + d <=? max') = true) as -> by (apply Z.leb_le; lia). by apply IH.
Qed.

(** the same for the signed types *)
Lemma parse_signed_show max n : 0 <= max -> - (max + 1) <= n <= max ->
  parse_signed max (show_int n) = Some n.
Proof.
  intros Hm Hn. unfold show_int. destruct (n <? 0) eqn:E.
  - apply Z.ltb_lt in E. cbn [parse_signed]. rewrite Ascii.eqb_refl.
    assert (str_empty (show_uint (- n)) = false) as ->
      by (apply String.eqb_neq, show_uint_nonempty).
    rewrite show_uint_parse by lia. f_equal. lia.
  - apply Z.ltb_ge in E. pose proof (parse_unsigned_show max n ltac:(lia)) as Hp.
    pose proof (show_uint_digits n E) as Hd. pose proof (show_uint_nonempty n).
    unfold parse_signed. destruct (show_uint n) as [|c s]; [done |].
    simpl in Hd. apply andb_true_iff in Hd as [Hc _].
    apply is_digit_plain in Hc as (_ & _ & _ & -> & _). done.
Qed.

Lemma show_int_token n : token (show_int n) = true.
Proof.
  unfold show_int. destruct (n <? 0) eqn:E.
  - apply Z.ltb_lt in E. change (token ("-" ++ show_uint (- n))%string = true).
    apply token_app; [done | apply show_uint_no_ws; lia].
  - apply Z.ltb_ge in E. by apply show_uint_token.
Qed.

Lemma rsplit_char_none c s : str_contains_char c s = false -> rsplit_char c s = None.
Proof.
  unfold str_contains_char. induction s as [|d s IH]; [done |]. cbn [str_all rsplit_char].
  rewrite negb_false_iff, andb_true_iff, negb_true_iff. intros [Hd Hs].
  rewrite IH by (by rewrite Hs). by rewrite Ascii.eqb_sym, Hd.
Qed.
Lemma rsplit_char_app c a b : str_contains_char c b = false ->
  rsplit_char c (a ++ String c b) = Some (a, b).
Proof.
  intros Hb. induction a as [|d a IH]; autorewrite with str; cbn [rsplit_char].
  - rewrite rsplit_char_none by done. by rewrite Ascii.eqb_refl.
  - by rewrite IH.
Qed.

(** ** Lines *)

Lemma split_char_nonempty sep s : split_char sep s <> [].
Proof.
  induction s as [|c s IH]; simpl; [done |].
  destruct (Ascii.eqb c sep); [done |]. by destruct (split_char sep s).
Qed.

Lemma split_char_first sep a b : str_all (fun x => negb (Ascii.eqb sep x)) a = true ->
  split_char sep (a ++ String sep b) = a :: split_char sep b.
Proof.
  induction a as [|c a IH]; autorewrite with str; cbn [split_char str_all].
  - by rewrite Ascii.eqb_refl.
  - intros Ha. apply andb_true_iff in Ha as [Hc Ha]. apply negb_true_iff in Hc.
    rewrite Ascii.eqb_sym, Hc, (IH Ha). done.
Qed.

Lemma strip_suffix_plain x a : str_all (fun c => negb (Ascii.eqb x c)) a = true ->
  strip_suffix (String x "") a = None.
Proof.
  induction a as [|c a IH]; [done |]. cbn [str_all]. intros Ha.
  apply andb_true_iff in Ha as [Hc Ha]. apply negb_true_iff in Hc.
  cbn [strip_suffix]. rewrite (IH Ha).
  cbn [String.eqb]. by rewrite Ascii.eqb_sym, Hc.
Qed.

Lemma lines_cons a rest : str_all plain_char a = true ->
  lines (a ++ newline ++ rest) = a :: lines rest.
Proof.
  intros Ha. unfold lines, newline. rewrite app_str_cons, app_str_nil.
  assert (str_all (fun x => negb (Ascii.eqb "010" x)) a = true /\
          str_all (fun x => negb (Ascii.eqb "013" x)) a = true) as [Hn Hr].
  { split; (eapply str_all_impl; [| exact Ha]); intros c Hc; unfold plain_char in Hc;
      apply andb_true_iff in Hc; tauto. }
  rewrite split_char_first by done.
  destruct (split_char "010" rest) as [|y l] eqn:E; [by apply split_char_nonempty in E |].
  cbn [end_lines]. unfold strip_cr at 1. by rewrite strip_suffix_plain.
Qed.
