(* ===== verification/Config.v ===== *)
(** crates/common/src/config.rs: the configuration and [Config::validate].

    Each [*Config] struct is a record whose fields carry the section's name as a
    prefix ([cgroups.enabled] is [cgroups_enabled]). [validate] is one function
    in the source; here it is the sequence of its parts, in the source's order,
    the first failing check deciding the error. [default_config] is the file
    config/default.toml. *)

From S2P Require Import Prelude F64 Text.

Record CgroupsConfig := {
  cgroups_enabled : bool;
  cgroups_dry_run : bool;
  cgroups_allow_move : bool;
  cgroups_rollback_on_exit : bool;
  cgroups_recover_unclean_session : bool;
  cgroups_foreground_min_percent : Z;
  cgroups_foreground_max_percent : Z;
  cgroups_background_high_min_percent : Z;
  cgroups_background_high_max_percent : Z;
  cgroups_minimum_headroom_percent : Z;
  cgroups_allowed_identities : list string
}.

Record ClassificationConfig := {
  classification_interval_ms : Z;
  classification_minimum_confidence : f64;
  classification_confirmation_samples : Z;
  classification_browser_heavy_process_count : Z;
  classification_browser_heavy_memory_percent : f64;
  classification_virtualization_memory_percent : f64;
  classification_gaming_background_memory_percent : f64;
  classification_protected_executables : list string;
  classification_critical_executables : list string;
  classification_game_executables : list string
}.

Record TelemetryConfig := {
  telemetry_process_sample_interval_ms : Z;
  telemetry_smaps_rollup_interval_ms : Z;
  telemetry_smaps_rollup_budget : Z;
  telemetry_retention_days : Z;
  telemetry_retention_interval_ms : Z;
  telemetry_sqlite_batch_size : Z
}.

Record GeneralConfig := {
  general_mode : string;
  general_sample_interval_ms : Z;
  general_database_path : string;
  general_allow_automatic_actions : bool
}.

Record SafetyConfig := {
  safety_max_cpu_overhead_percent : f64;
  safety_max_io_write_mib_per_second : Z;
  safety_rollback_on_daemon_exit : bool;
  safety_rollback_on_error : bool;
  safety_protect_foreground : bool
}.

Record PressureConfig := {
  pressure_watch_available_percent : Z;
  pressure_pressure_available_percent : Z;
  pressure_critical_available_percent : Z;
  pressure_emergency_available_percent : Z;
  pressure_psi_some_avg10_threshold : f64;
  pressure_psi_full_avg10_threshold : f64;
  pressure_emergency_psi_full_avg10_threshold : f64;
  pressure_major_fault_rate_threshold : f64;
  pressure_swap_in_rate_threshold : f64;
  pressure_swap_out_rate_threshold : f64;
  pressure_state_hold_seconds : Z;
  pressure_recovery_hold_seconds : Z
}.

Record PolicyConfig := {
  policy_enabled : bool;
  policy_evaluation_interval_ms : Z;
  policy_decision_heartbeat_seconds : Z
}.

Record CompressionConfig := {
  compression_backend : string;
  compression_preferred_low_latency : string;
  compression_preferred_capacity : string;
  compression_enabled : bool;
  compression_active_profile : string;
  compression_dry_run : bool;
  compression_allow_runtime_reconfigure : bool;
  compression_allow_persistent_reconfigure : bool;
  compression_max_zram_percent_ram : Z;
  compression_safe_headroom_percent : Z;
  compression_benchmark_enabled : bool;
  compression_benchmark_max_bytes : Z;
  compression_max_cpu_overhead_percent : f64;
  compression_min_capacity_gain_percent : f64
}.

Record TieringConfig := {
  tiering_enabled : bool;
  tiering_dry_run : bool;
  tiering_preferred_backend : string;
  tiering_allow_runtime_reconfigure : bool;
  tiering_allow_persistent_reconfigure : bool;
  tiering_allow_swapfile_create : bool;
  tiering_supported_storage_profiles : list string;
  tiering_max_swapfile_percent_disk : Z;
  tiering_min_free_disk_gib : Z;
  tiering_max_write_mib_per_second : Z;
  tiering_daily_write_budget_gib : Z;
  tiering_benchmark_enabled : bool;
  tiering_benchmark_max_bytes : Z;
  tiering_zswap_pool_min_percent : Z;
  tiering_zswap_pool_max_percent : Z;
  tiering_allow_shrinker : bool;
  tiering_rated_tbw : option f64;
  tiering_comparison_enabled : bool;
  tiering_comparison_max_latency_regression_percent : Z;
  tiering_comparison_min_useful_benefit_percent : Z;
  tiering_comparison_accepted_confidence : option string
}.

Record KsmConfig := {
  ksm_enabled : bool;
  ksm_live_apply : bool;
  ksm_profiles : list string;
  ksm_min_observation_seconds : Z;
  ksm_min_mergeable_bytes : Z;
  ksm_max_cpu_overhead_percent : f64;
  ksm_min_process_profit_bytes : Z;
  ksm_min_system_profit_bytes : Z;
  ksm_max_cow_events_per_second : Z;
  ksm_inefficiency_windows : Z;
  ksm_cooldown_seconds : Z;
  ksm_scanner_pages_to_scan_min : Z;
  ksm_scanner_pages_to_scan_max : Z;
  ksm_scanner_sleep_millisecs_min : Z;
  ksm_validation_max_seconds : Z;
  ksm_validation_max_bytes : Z
}.

Record DamonConfig := {
  damon_enabled : bool;
  damon_mode : string;
  damon_allow_monitor_session : bool;
  damon_preferred_operation : string;
  damon_sample_us : Z;
  damon_aggr_us : Z;
  damon_update_us : Z;
  damon_min_regions : Z;
  damon_max_regions : Z;
  damon_max_cpu_overhead_percent : f64;
  damon_max_session_seconds : Z;
  damon_max_samples_per_session : Z;
  damon_retention_days : Z;
  damon_export_max_bytes : Z;
  damon_max_action_time_ms : Z;
  damon_max_action_bytes : Z
}.

Record DamosConfig := {
  damos_enabled : bool;
  damos_live_apply : bool;
  damos_min_complete_cold_windows : Z;
  damos_refault_window_seconds : Z;
  damos_blacklist_seconds : Z;
  damos_max_total_applied_bytes : Z;
  damos_apply_interval_us : Z
}.

Record GamingConfig := {
  gaming_auto_detect : bool;
  gaming_protect_gamescope : bool;
  gaming_protect_steam : bool;
  gaming_background_reclaim : bool
}.

Record Config := {
  general : GeneralConfig;
  cgroups : CgroupsConfig;
  telemetry : TelemetryConfig;
  classification : ClassificationConfig;
  safety : SafetyConfig;
  pressure : PressureConfig;
  policy : PolicyConfig;
  compression : CompressionConfig;
  tiering : TieringConfig;
  ksm : KsmConfig;
  damon : DamonConfig;
  damos : DamosConfig;
  gaming : GamingConfig
}.

(** ** Validation *)

(** [ConfigError::Validation], the variant that [validate] returns *)
Inductive ConfigError :=
| Validation (field : string) (message : string).

Definition validation (field message : string) : ConfigError := Validation field message.

Definition check : Type := result unit ConfigError.

Definition validate_percentage (field : string) (value : f64) : check :=
  if f64_is_finite value && f64_in_range f64_zero (f64_of_Z 100) value then Ok tt
  else Err (validation field "must be between 0 and 100 inclusive").

(** [for x in items { f(x)?; }] *)
Fixpoint for_each {A} (f : A -> check) (items : list A) : check :=
  match items with
  | [] => Ok tt
  | x :: rest => f x ;? for_each f rest
  end.

Definition hex_lower (c : ascii) : bool :=
  is_some (hex_val c) && negb (is_ascii_uppercase c).

Definition validate_general_cgroups (self : Config) : check :=
  let g := general self in
  let c := cgroups self in
  reject (negb (String.eqb (general_mode g) "observe"))
    (validation "general.mode" "must be exactly `observe` during Phase 3") ;?
  reject (general_allow_automatic_actions g)
    (validation "general.allow_automatic_actions" "must be false during Phase 3") ;?
  for_each (fun '(field, value) => validate_percentage field (f64_of_Z value))
    [("cgroups.foreground_min_percent", cgroups_foreground_min_percent c);
     ("cgroups.foreground_max_percent", cgroups_foreground_max_percent c);
     ("cgroups.background_high_min_percent", cgroups_background_high_min_percent c);
     ("cgroups.background_high_max_percent", cgroups_background_high_max_percent c);
     ("cgroups.minimum_headroom_percent", cgroups_minimum_headroom_percent c)]%string ;?
  reject (cgroups_foreground_max_percent c <? cgroups_foreground_min_percent c)
    (validation "cgroups.foreground_min_percent" "must not exceed cgroups.foreground_max_percent") ;?
  reject (cgroups_background_high_max_percent c <? cgroups_background_high_min_percent c)
    (validation "cgroups.background_high_min_percent"
       "must not exceed cgroups.background_high_max_percent") ;?
  reject (100 <? cgroups_foreground_max_percent c + cgroups_minimum_headroom_percent c)
    (validation "cgroups.minimum_headroom_percent"
       "foreground maximum plus headroom must not exceed 100 percent") ;?
  for_each (fun identity =>
      reject (negb (Z.of_nat (String.length identity) =? 64) || negb (str_all hex_lower identity))
        (validation "cgroups.allowed_identities" "entries must be lowercase SHA-256 identities"))
    (cgroups_allowed_identities c) ;?
  reject (str_empty (general_database_path g))
    (validation "general.database_path" "must not be empty").

Definition validate_tiering_comparison (self : Config) : check :=
  let t := tiering self in
  for_each (fun '(field, value) =>
      reject (100 <? value) (validation field "must be between 0 and 100"))
    [("tiering.comparison_max_latency_regression_percent",
       tiering_comparison_max_latency_regression_percent t);
     ("tiering.comparison_min_useful_benefit_percent",
       tiering_comparison_min_useful_benefit_percent t)]%string ;?
  match tiering_comparison_accepted_confidence t with
  | Some confidence =>
      reject (negb (contains_str
          ["bounded-physical-device-attributed"; "physical-device-host-wide-noisy"]%string confidence))
        (validation "tiering.comparison_accepted_confidence" "unsupported confidence vocabulary")
  | None => Ok tt
  end ;?
  reject (tiering_comparison_enabled t
          && ((tiering_comparison_max_latency_regression_percent t =? 0)
              || (tiering_comparison_min_useful_benefit_percent t =? 0)
              || is_none (tiering_comparison_accepted_confidence t)))
    (validation "tiering.comparison_enabled"
       "enabled comparison requires non-zero bounds and accepted confidence").

(** [(lo..=hi).contains(&x)] on integers *)
Definition in_range (lo hi x : Z) : bool := (lo <=? x) && (x <=? hi).

Definition validate_telemetry (self : Config) : check :=
  let t := telemetry self in
  reject (general_sample_interval_ms (general self) <? 100)
    (validation "general.sample_interval_ms" "must be at least 100") ;?
  reject (telemetry_process_sample_interval_ms t <? 1000)
    (validation "telemetry.process_sample_interval_ms" "must be at least 1000") ;?
  reject (telemetry_smaps_rollup_interval_ms t <? 5000)
    (validation "telemetry.smaps_rollup_interval_ms" "must be at least 5000") ;?
  reject (telemetry_smaps_rollup_interval_ms t <? telemetry_process_sample_interval_ms t)
    (validation "telemetry.smaps_rollup_interval_ms"
       "must not be shorter than telemetry.process_sample_interval_ms") ;?
  reject (10000 <? telemetry_smaps_rollup_budget t)
    (validation "telemetry.smaps_rollup_budget" "must not exceed 10000 processes") ;?
  reject (negb (in_range 1 3650 (telemetry_retention_days t)))
    (validation "telemetry.retention_days" "must be between 1 and 3650") ;?
  reject (telemetry_retention_interval_ms t <? 60000)
    (validation "telemetry.retention_interval_ms" "must be at least 60000") ;?
  reject (negb (in_range 1 10000 (telemetry_sqlite_batch_size t)))
    (validation "telemetry.sqlite_batch_size" "must be between 1 and 10000").

(** the characters an executable base name may have *)
Definition basename_char (c : ascii) : bool :=
  is_ascii_alphanumeric c || str_contains_char c "._+-".

Definition validate_classification (self : Config) : check :=
  let c := classification self in
  reject (classification_interval_ms c <? 1000)
    (validation "classification.interval_ms" "must be at least 1000") ;?
  reject (classification_interval_ms c <? telemetry_process_sample_interval_ms (telemetry self))
    (validation "classification.interval_ms"
       "must not be shorter than telemetry.process_sample_interval_ms") ;?
  reject (negb (f64_is_finite (classification_minimum_confidence c))
          || negb (f64_in_range (f64_lit 5 10) f64_one (classification_minimum_confidence c)))
    (validation "classification.minimum_confidence" "must be between 0.5 and 1.0 inclusive") ;?
  reject (negb (in_range 1 20 (classification_confirmation_samples c)))
    (validation "classification.confirmation_samples" "must be between 1 and 20") ;?
  reject (negb (in_range 1 10000 (classification_browser_heavy_process_count c)))
    (validation "classification.browser_heavy_process_count" "must be between 1 and 10000") ;?
  for_each (fun '(field, value) => validate_percentage field value)
    [("classification.browser_heavy_memory_percent", classification_browser_heavy_memory_percent c);
     ("classification.virtualization_memory_percent",
       classification_virtualization_memory_percent c);
     ("classification.gaming_background_memory_percent",
       classification_gaming_background_memory_percent c)]%string ;?
  for_each (fun '(field, values) =>
      for_each (fun value =>
          reject (str_empty value || (255 <? Z.of_nat (String.length value))
                  || (str_contains_char "/" value || str_contains_char "\" value)
                  || negb (str_all basename_char value))
            (validation field "entries must be executable basenames without paths or patterns"))
        values)
    [("classification.protected_executables", classification_protected_executables c);
     ("classification.critical_executables", classification_critical_executables c);
     ("classification.game_executables", classification_game_executables c)]%string.

Definition validate_pressure (self : Config) : check :=
  let p := pressure self in
  validate_percentage "safety.max_cpu_overhead_percent"
    (safety_max_cpu_overhead_percent (safety self)) ;?
  validate_percentage "pressure.watch_available_percent"
    (f64_of_Z (pressure_watch_available_percent p)) ;?
  validate_percentage "pressure.pressure_available_percent"
    (f64_of_Z (pressure_pressure_available_percent p)) ;?
  validate_percentage "pressure.critical_available_percent"
    (f64_of_Z (pressure_critical_available_percent p)) ;?
  validate_percentage "pressure.emergency_available_percent"
    (f64_of_Z (pressure_emergency_available_percent p)) ;?
  reject (negb ((pressure_pressure_available_percent p <? pressure_watch_available_percent p)
                && (pressure_critical_available_percent p <? pressure_pressure_available_percent p)
                && (pressure_emergency_available_percent p <? pressure_critical_available_percent p)))
    (validation "pressure.watch_available_percent"
       "memory thresholds must satisfy watch > pressure > critical > emergency") ;?
  validate_percentage "pressure.psi_some_avg10_threshold" (pressure_psi_some_avg10_threshold p) ;?
  validate_percentage "pressure.psi_full_avg10_threshold" (pressure_psi_full_avg10_threshold p) ;?
  validate_percentage "pressure.emergency_psi_full_avg10_threshold"
    (pressure_emergency_psi_full_avg10_threshold p) ;?
  for_each (fun '(field, value) =>
      reject (negb (f64_is_finite value) || f64_lt value f64_zero)
        (validation field "must be finite and non-negative"))
    [("pressure.major_fault_rate_threshold", pressure_major_fault_rate_threshold p);
     ("pressure.swap_in_rate_threshold", pressure_swap_in_rate_threshold p);
     ("pressure.swap_out_rate_threshold", pressure_swap_out_rate_threshold p)]%string ;?
  reject (f64_le (pressure_emergency_psi_full_avg10_threshold p)
                 (pressure_psi_full_avg10_threshold p))
    (validation "pressure.emergency_psi_full_avg10_threshold"
       "must exceed pressure.psi_full_avg10_threshold").

Definition validate_policy_compression (self : Config) : check :=
  let c := compression self in
  reject (policy_evaluation_interval_ms (policy self) <? 1000)
    (validation "policy.evaluation_interval_ms" "must be at least 1000") ;?
  reject (policy_decision_heartbeat_seconds (policy self) =? 0)
    (validation "policy.decision_heartbeat_seconds" "must be greater than zero") ;?
  reject (negb (String.eqb (compression_backend c) "detect"))
    (validation "compression.backend" "must be exactly `detect` during Phase 5") ;?
  reject (negb (contains_str ["safe"; "gaming"; "capacity"]%string (compression_active_profile c)))
    (validation "compression.active_profile" "must be safe, gaming, or capacity") ;?
  for_each (fun '(field, value) => validate_percentage field value)
    [("compression.max_zram_percent_ram", f64_of_Z (compression_max_zram_percent_ram c));
     ("compression.safe_headroom_percent", f64_of_Z (compression_safe_headroom_percent c));
     ("compression.max_cpu_overhead_percent", compression_max_cpu_overhead_percent c);
     ("compression.min_capacity_gain_percent", compression_min_capacity_gain_percent c)]%string ;?
  reject (compression_max_zram_percent_ram c =? 0)
    (validation "compression.max_zram_percent_ram" "must be greater than zero") ;?
  reject ((compression_benchmark_max_bytes c =? 0)
          || (268435456 <? compression_benchmark_max_bytes c))
    (validation "compression.benchmark_max_bytes" "must be between 1 and 268435456 bytes").

Definition validate_tiering (self : Config) : check :=
  let t := tiering self in
  reject (negb (contains_str ["detect"; "zram"; "zswap_storage_backed"]%string
                  (tiering_preferred_backend t)))
    (validation "tiering.preferred_backend" "must be detect, zram, or zswap_storage_backed") ;?
  reject (bool_decide (tiering_supported_storage_profiles t = [])
          || existsb (fun profile => negb (contains_str ["sata_ssd"; "nvme_ssd"]%string profile))
               (tiering_supported_storage_profiles t)
          || negb (bool_decide (length (sort_dedup (tiering_supported_storage_profiles t))
                                = length (tiering_supported_storage_profiles t))))
    (validation "tiering.supported_storage_profiles"
       "must contain only explicitly supported sata_ssd or nvme_ssd profiles") ;?
  for_each (fun '(field, value) => validate_percentage field (f64_of_Z value))
    [("tiering.max_swapfile_percent_disk", tiering_max_swapfile_percent_disk t);
     ("tiering.zswap_pool_min_percent", tiering_zswap_pool_min_percent t);
     ("tiering.zswap_pool_max_percent", tiering_zswap_pool_max_percent t)]%string ;?
  reject (tiering_max_swapfile_percent_disk t =? 0)
    (validation "tiering.max_swapfile_percent_disk" "must be greater than zero") ;?
  reject ((tiering_zswap_pool_min_percent t =? 0)
          || (tiering_zswap_pool_max_percent t <? tiering_zswap_pool_min_percent t))
    (validation "tiering.zswap_pool_min_percent" "must be non-zero and not exceed the maximum") ;?
  reject ((tiering_max_write_mib_per_second t =? 0)
          || (safety_max_io_write_mib_per_second (safety self)
              <? tiering_max_write_mib_per_second t))
    (validation "tiering.max_write_mib_per_second"
       "must be non-zero and not exceed the global safety limit") ;?
  reject (tiering_daily_write_budget_gib t =? 0)
    (validation "tiering.daily_write_budget_gib" "must be greater than zero") ;?
  reject ((tiering_benchmark_max_bytes t =? 0) || (268435456 <? tiering_benchmark_max_bytes t))
    (validation "tiering.benchmark_max_bytes" "must be between 1 and 268435456") ;?
  reject (is_some_and (tiering_rated_tbw t)
            (fun value => negb (f64_is_finite value) || f64_le value f64_zero))
    (validation "tiering.rated_tbw" "must be finite and positive when provided").

Definition validate_ksm (self : Config) : check :=
  let k := ksm self in
  reject (ksm_enabled k)
    (validation "ksm.enabled" "must remain false in the current implementation") ;?
  reject (ksm_live_apply k)
    (validation "ksm.live_apply" "normal runtime must remain plan-only") ;?
  reject (bool_decide (ksm_profiles k = [])
          || existsb (fun profile => negb (contains_str ["vm"; "browser"; "electron"]%string profile))
               (ksm_profiles k))
    (validation "ksm.profiles" "must contain only vm, browser, and electron") ;?
  reject ((ksm_min_observation_seconds k =? 0) || (ksm_min_mergeable_bytes k =? 0)
          || (ksm_inefficiency_windows k =? 0) || (ksm_cooldown_seconds k =? 0)
          || (ksm_validation_max_seconds k =? 0) || (ksm_validation_max_bytes k =? 0))
    (validation "ksm" "bounded values must be non-zero") ;?
  reject (negb (f64_is_finite (ksm_max_cpu_overhead_percent k))
          || f64_le (ksm_max_cpu_overhead_percent k) f64_zero
          || f64_gt (ksm_max_cpu_overhead_percent k) (safety_max_cpu_overhead_percent (safety self)))
    (validation "ksm.max_cpu_overhead_percent"
       "must be positive and at most the global safety ceiling") ;?
  reject ((ksm_scanner_pages_to_scan_min k =? 0)
          || (ksm_scanner_pages_to_scan_max k <? ksm_scanner_pages_to_scan_min k)
          || (ksm_scanner_sleep_millisecs_min k =? 0))
    (validation "ksm.scanner" "invalid scanner bounds").

Definition validate_damon (self : Config) : check :=
  let d := damon self in
  reject (damon_enabled d)
    (validation "damon.enabled" "must remain false in the current implementation") ;?
  reject (negb (String.eqb (damon_mode d) "monitor_only"))
    (validation "damon.mode" "must be exactly `monitor_only` in the current implementation") ;?
  reject (damon_allow_monitor_session d)
    (validation "damon.allow_monitor_session" "normal runtime must not start a monitoring session") ;?
  reject (negb (String.eqb (damon_preferred_operation d) "vaddr"))
    (validation "damon.preferred_operation" "must be vaddr for Phase 7") ;?
  reject ((damon_sample_us d <? 100) || (damon_aggr_us d <? damon_sample_us d)
          || (damon_update_us d <? damon_aggr_us d))
    (validation "damon.sample_us" "must satisfy 100 <= sample <= aggregation <= update") ;?
  reject ((damon_min_regions d =? 0) || (damon_max_regions d <? damon_min_regions d)
          || (100000 <? damon_max_regions d))
    (validation "damon.min_regions" "invalid region bounds") ;?
  reject (negb (f64_is_finite (damon_max_cpu_overhead_percent d))
          || f64_lt (damon_max_cpu_overhead_percent d) f64_zero
          || f64_gt (damon_max_cpu_overhead_percent d)
                    (safety_max_cpu_overhead_percent (safety self)))
    (validation "damon.max_cpu_overhead_percent" "must not exceed the global safety ceiling") ;?
  reject ((damon_max_session_seconds d =? 0) || (180 <? damon_max_session_seconds d)
          || (damon_max_samples_per_session d =? 0) || (damon_retention_days d =? 0)
          || (damon_export_max_bytes d =? 0))
    (validation "damon.max_session_seconds"
       "session, sample, retention, and export bounds must be non-zero and bounded").

Definition validate_damos (self : Config) : check :=
  let d := damos self in
  reject (damos_enabled d || damos_live_apply d)
    (validation "damos.live_apply" "Phase 8 production DAMOS must remain disabled and plan-only") ;?
  reject ((damos_min_complete_cold_windows d <? 3) || (damos_refault_window_seconds d =? 0)
          || (damos_blacklist_seconds d <? damos_refault_window_seconds d)
          || (damos_max_total_applied_bytes d =? 0)
          || (damon_max_action_bytes (damon self) <? damos_max_total_applied_bytes d)
          || (damos_apply_interval_us d =? 0))
    (validation "damos" "invalid cold evidence, cooldown, total ceiling, or apply interval").

Definition validate (self : Config) : check :=
  validate_general_cgroups self ;?
  validate_tiering_comparison self ;?
  validate_telemetry self ;?
  validate_classification self ;?
  validate_pressure self ;?
  validate_policy_compression self ;?
  validate_tiering self ;?
  validate_ksm self ;?
  validate_damon self ;?
  validate_damos self.

Definition default_config : Config := {|
  general := {|
    general_mode := "observe"%string;
    general_sample_interval_ms := 1000;
    general_database_path := "/var/lib/nemor/nemor.db"%string;
    general_allow_automatic_actions := false |};
  cgroups := {|
    cgroups_enabled := false;
    cgroups_dry_run := true;
    cgroups_allow_move := false;
    cgroups_rollback_on_exit := true;
    cgroups_recover_unclean_session := true;
    cgroups_foreground_min_percent := 5;
    cgroups_foreground_max_percent := 40;
    cgroups_background_high_min_percent := 20;
    cgroups_background_high_max_percent := 80;
    cgroups_minimum_headroom_percent := 10;
    cgroups_allowed_identities := [] |};
  telemetry := {|
    telemetry_process_sample_interval_ms := 5000;
    telemetry_smaps_rollup_interval_ms := 60000;
    telemetry_smaps_rollup_budget := 32;
    telemetry_retention_days := 7;
    telemetry_retention_interval_ms := 3600000;
    telemetry_sqlite_batch_size := 512 |};
  classification := {|
    classification_interval_ms := 5000;
    classification_minimum_confidence := (f64_lit 65 100);
    classification_confirmation_samples := 3;
    classification_browser_heavy_process_count := 8;
    classification_browser_heavy_memory_percent := (f64_lit 150 10);
    classification_virtualization_memory_percent := (f64_lit 100 10);
    classification_gaming_background_memory_percent := (f64_lit 200 10);
    classification_protected_executables := [];
    classification_critical_executables := [];
    classification_game_executables := [] |};
  safety := {|
    safety_max_cpu_overhead_percent := (f64_lit 50 10);
    safety_max_io_write_mib_per_second := 100;
    safety_rollback_on_daemon_exit := true;
    safety_rollback_on_error := true;
    safety_protect_foreground := true |};
  pressure := {|
    pressure_watch_available_percent := 20;
    pressure_pressure_available_percent := 12;
    pressure_critical_available_percent := 7;
    pressure_emergency_available_percent := 3;
    pressure_psi_some_avg10_threshold := (f64_lit 100 10);
    pressure_psi_full_avg10_threshold := (f64_lit 20 10);
    pressure_emergency_psi_full_avg10_threshold := (f64_lit 100 10);
    pressure_major_fault_rate_threshold := (f64_lit 1000 10);
    pressure_swap_in_rate_threshold := (f64_lit 1280 10);
    pressure_swap_out_rate_threshold := (f64_lit 1280 10);
    pressure_state_hold_seconds := 10;
    pressure_recovery_hold_seconds := 30 |};
  policy := {|
    policy_enabled := true;
    policy_evaluation_interval_ms := 5000;
    policy_decision_heartbeat_seconds := 300 |};
  compression := {|
    compression_backend := "detect"%string;
    compression_preferred_low_latency := "lz4"%string;
    compression_preferred_capacity := "zstd"%string;
    compression_enabled := true;
    compression_active_profile := "safe"%string;
    compression_dry_run := true;
    compression_allow_runtime_reconfigure := false;
    compression_allow_persistent_reconfigure := false;
    compression_max_zram_percent_ram := 100;
    compression_safe_headroom_percent := 15;
    compression_benchmark_enabled := false;
    compression_benchmark_max_bytes := 67108864;
    compression_max_cpu_overhead_percent := (f64_lit 20 10);
    compression_min_capacity_gain_percent := (f64_lit 100 10) |};
  tiering := {|
    tiering_enabled := true;
    tiering_dry_run := true;
    tiering_preferred_backend := "detect"%string;
    tiering_allow_runtime_reconfigure := false;
    tiering_allow_persistent_reconfigure := false;
    tiering_allow_swapfile_create := false;
    tiering_supported_storage_profiles := ["nvme_ssd"%string; "sata_ssd"%string];
    tiering_max_swapfile_percent_disk := 10;
    tiering_min_free_disk_gib := 32;
    tiering_max_write_mib_per_second := 100;
    tiering_daily_write_budget_gib := 64;
    tiering_benchmark_enabled := false;
    tiering_benchmark_max_bytes := 67108864;
    tiering_zswap_pool_min_percent := 5;
    tiering_zswap_pool_max_percent := 20;
    tiering_allow_shrinker := false;
    tiering_rated_tbw := None;
    tiering_comparison_enabled := false;
    tiering_comparison_max_latency_regression_percent := 10;
    tiering_comparison_min_useful_benefit_percent := 5;
    tiering_comparison_accepted_confidence := Some "bounded-physical-device-attributed"%string |};
  ksm := {|
    ksm_enabled := false;
    ksm_live_apply := false;
    ksm_profiles := ["vm"%string; "browser"%string; "electron"%string];
    ksm_min_observation_seconds := 30;
    ksm_min_mergeable_bytes := 33554432;
    ksm_max_cpu_overhead_percent := (f64_lit 8 10);
    ksm_min_process_profit_bytes := 4096;
    ksm_min_system_profit_bytes := 4096;
    ksm_max_cow_events_per_second := 64;
    ksm_inefficiency_windows := 3;
    ksm_cooldown_seconds := 300;
    ksm_scanner_pages_to_scan_min := 50;
    ksm_scanner_pages_to_scan_max := 1000;
    ksm_scanner_sleep_millisecs_min := 10;
    ksm_validation_max_seconds := 120;
    ksm_validation_max_bytes := 268435456 |};
  damon := {|
    damon_enabled := false;
    damon_mode := "monitor_only"%string;
    damon_allow_monitor_session := false;
    damon_preferred_operation := "vaddr"%string;
    damon_sample_us := 5000;
    damon_aggr_us := 100000;
    damon_update_us := 1000000;
    damon_min_regions := 10;
    damon_max_regions := 1000;
    damon_max_cpu_overhead_percent := (f64_lit 10 10);
    damon_max_session_seconds := 120;
    damon_max_samples_per_session := 100000;
    damon_retention_days := 7;
    damon_export_max_bytes := 67108864;
    damon_max_action_time_ms := 5;
    damon_max_action_bytes := 268435456 |};
  damos := {|
    damos_enabled := false;
    damos_live_apply := false;
    damos_min_complete_cold_windows := 3;
    damos_refault_window_seconds := 30;
    damos_blacklist_seconds := 300;
    damos_max_total_applied_bytes := 268435456;
    damos_apply_interval_us := 500000 |};
  gaming := {|
    gaming_auto_detect := true;
    gaming_protect_gamescope := true;
    gaming_protect_steam := true;
    gaming_background_reclaim := true |} |}.

(** ** Ranges of the machine integers, which Rust's types guarantee *)

Definition CgroupsConfig_typed (c : CgroupsConfig) : Prop :=
  u8 (cgroups_foreground_min_percent c) /\
  u8 (cgroups_foreground_max_percent c) /\
  u8 (cgroups_background_high_min_percent c) /\
  u8 (cgroups_background_high_max_percent c) /\
  u8 (cgroups_minimum_headroom_percent c).

Definition PressureConfig_typed (c : PressureConfig) : Prop :=
  u8 (pressure_watch_available_percent c) /\
  u8 (pressure_pressure_available_percent c) /\
  u8 (pressure_critical_available_percent c) /\
  u8 (pressure_emergency_available_percent c) /\
  u64 (pressure_state_hold_seconds c) /\
  u64 (pressure_recovery_hold_seconds c).

Definition TieringConfig_typed (c : TieringConfig) : Prop :=
  u8 (tiering_max_swapfile_percent_disk c) /\
  u64 (tiering_min_free_disk_gib c) /\
  u64 (tiering_max_write_mib_per_second c) /\
  u64 (tiering_daily_write_budget_gib c) /\
  u64 (tiering_benchmark_max_bytes c) /\
  u8 (tiering_zswap_pool_min_percent c) /\
  u8 (tiering_zswap_pool_max_percent c) /\
  u8 (tiering_comparison_max_latency_regression_percent c) /\
  u8 (tiering_comparison_min_useful_benefit_percent c).

Definition CompressionConfig_typed (c : CompressionConfig) : Prop :=
  u8 (compression_max_zram_percent_ram c) /\
  u8 (compression_safe_headroom_percent c) /\
  u64 (compression_benchmark_max_bytes c).

Definition DamonConfig_typed (c : DamonConfig) : Prop :=
  u64 (damon_sample_us c) /\
  u64 (damon_aggr_us c) /\
  u64 (damon_update_us c) /\
  u32 (damon_min_regions c) /\
  u32 (damon_max_regions c) /\
  u64 (damon_max_session_seconds c) /\
  u64 (damon_max_samples_per_session c) /\
  u64 (damon_retention_days c) /\
  u64 (damon_export_max_bytes c) /\
  u64 (damon_max_action_time_ms c) /\
  u64 (damon_max_action_bytes c).

(** ** What a validated configuration guarantees to the other components *)

Lemma for_each_ok {A} (f : A -> check) items :
  for_each f items = Ok tt <-> Forall (fun x => f x = Ok tt) items.
Proof.
  induction items as [|x items IH]; [by split; [constructor |] |].
  rewrite Forall_cons_iff, <- IH. cbn [for_each].
  destruct (f x) as [[]|]; naive_solver.
Qed.

Lemma validate_percentage_ok field v :
  validate_percentage field v = Ok tt ->
  f64_is_finite v = true /\ f64_le f64_zero v = true /\ f64_le v (f64_of_Z 100) = true.
Proof.
  unfold validate_percentage, f64_in_range. intros H. inv_ok. bools. done.
Qed.

(** [seq_ok H] takes [a ;? b = Ok tt] apart into both halves. *)
Lemma seq_ok (m k : check) : (m ;? k) = Ok tt <-> m = Ok tt /\ k = Ok tt.
Proof. destruct m as [[]|]; naive_solver. Qed.
Ltac split_checks :=
  repeat match goal with
  | H : match _ with Ok _ => _ | Err _ => _ end = Ok tt |- _ => apply seq_ok in H as [? ?]
  | H : reject _ _ = Ok tt |- _ => apply reject_ok in H
  | H : for_each _ _ = Ok tt |- _ => apply for_each_ok in H
  end.

Lemma validate_parts self : validate self = Ok tt ->
  validate_general_cgroups self = Ok tt /\ validate_tiering_comparison self = Ok tt /\
  validate_telemetry self = Ok tt /\ validate_classification self = Ok tt /\
  validate_pressure self = Ok tt /\ validate_policy_compression self = Ok tt /\
  validate_tiering self = Ok tt /\ validate_ksm self = Ok tt /\
  validate_damon self = Ok tt /\ validate_damos self = Ok tt.
Proof. unfold validate. rewrite !seq_ok. tauto. Qed.

(** The order of the pressure thresholds *)
Definition thresholds_ordered (p : PressureConfig) : Prop :=
  pressure_emergency_available_percent p < pressure_critical_available_percent p /\
  pressure_critical_available_percent p < pressure_pressure_available_percent p /\
  pressure_pressure_available_percent p < pressure_watch_available_percent p /\
  f64_lt (pressure_psi_full_avg10_threshold p) (pressure_emergency_psi_full_avg10_threshold p) = true.

Lemma validate_thresholds self : validate self = Ok tt -> thresholds_ordered (pressure self).
Proof.
  intros (_ & _ & _ & _ & H & _)%validate_parts. unfold validate_pressure in H.
  split_checks. bools. unfold thresholds_ordered. repeat split; try lia.
  repeat match goal with H : validate_percentage _ _ = Ok tt |- _ =>
    apply validate_percentage_ok in H as (? & ? & ?) end.
  match goal with H : f64_le ?a ?b = false |- f64_lt ?b ?a = true =>
    apply f64_not_le_lt in H; eauto with nemor end.
Qed.

(** The bounds of the cgroup percentages: what [Ord::clamp] needs not to panic *)
Definition cgroup_bounds (c : CgroupsConfig) : Prop :=
  cgroups_foreground_min_percent c <= cgroups_foreground_max_percent c /\
  cgroups_background_high_min_percent c <= cgroups_background_high_max_percent c /\
  cgroups_background_high_max_percent c <= 100 /\
  cgroups_foreground_max_percent c + cgroups_minimum_headroom_percent c <= 100.

Lemma f64_of_u8_le_inv x y : u8 x -> u8 y ->
  f64_le (f64_of_Z x) (f64_of_Z y) = true -> x <= y.
Proof.
  intros Hx Hy H. destruct (Z.le_gt_cases x y) as [|Hgt]; [done |].
  apply f64_of_u8_lt in Hgt; [| done..]. apply f64_lt_not_le in Hgt. congruence.
Qed.

Lemma validate_cgroup_bounds self :
  CgroupsConfig_typed (cgroups self) -> validate self = Ok tt -> cgroup_bounds (cgroups self).
Proof.
  intros (H1 & H2 & H3 & H4 & H5) (H & _)%validate_parts.
  unfold validate_general_cgroups in H. split_checks. bools.
  match goal with H : Forall _ [_; _; _; _; _] |- _ =>
    rewrite !Forall_cons_iff in H; destruct H as (_ & _ & _ & Hp & _) end.
  apply validate_percentage_ok in Hp as (_ & _ & Hp).
  apply f64_of_u8_le_inv in Hp; [| done | unfold u8, u8_max; lia].
  unfold cgroup_bounds. repeat split; lia.
Qed.

(** The modes in which the daemon may run *)
Definition observe_only (self : Config) : Prop :=
  general_mode (general self) = "observe"%string /\
  general_allow_automatic_actions (general self) = false /\
  ksm_enabled (ksm self) = false /\ ksm_live_apply (ksm self) = false /\
  damon_enabled (damon self) = false /\ damon_mode (damon self) = "monitor_only"%string /\
  damon_allow_monitor_session (damon self) = false /\
  damos_enabled (damos self) = false /\ damos_live_apply (damos self) = false.

Lemma validate_observe_only_lemma self : validate self = Ok tt -> observe_only self.
Proof.
  intros (Hg & _ & _ & _ & _ & _ & _ & Hk & Hd & Hs)%validate_parts.
  unfold validate_general_cgroups, validate_ksm, validate_damon, validate_damos in *.
  split_checks. bools. unfold observe_only. done.
Qed.

Module Theorems.

(** a configuration that [validate] accepts keeps every subsystem from
    acting: observe mode, no automatic actions, KSM, DAMON and DAMOS disabled. *)
Theorem validated_config_only_observes (self : Config) :
  validate self = Ok tt -> observe_only self.
Proof. apply validate_observe_only_lemma. Qed.

(** a configuration that [validate] accepts has strictly ordered pressure
    thresholds and cgroup percentages whose bounds do not cross and leave the
    configured headroom. *)
Theorem validated_config_bounds (self : Config) :
  CgroupsConfig_typed (cgroups self) -> validate self = Ok tt ->
  thresholds_ordered (pressure self) /\ cgroup_bounds (cgroups self).
Proof.
  intros Hty Hv. split; [by apply validate_thresholds | by apply validate_cgroup_bounds].
Qed.

End Theorems.

Module Witnesses.
Import Theorems.

Lemma validated_config_only_observes_witness : observe_only default_config.
Proof. apply (validated_config_only_observes default_config). vm_compute. reflexivity. Defined.

Lemma validated_config_bounds_witness :
  thresholds_ordered (pressure default_config) /\ cgroup_bounds (cgroups default_config).
Proof.
  apply (validated_config_bounds default_config).
  - vm_compute. repeat split; discriminate.
  - vm_compute. reflexivity.
Defined.

End Witnesses.
