(* ===== verification/Common.v ===== *)
(** crates/common, besides the configuration: host.rs reads what identifies the host,
    output.rs has the reports of the command line, paths.rs the paths of the kernel's
    files. *)

From S2P Require Import Prelude F64 Text.

(** ** paths.rs *)

(** [LinuxPaths]: its root *)
Definition LinuxPaths : Type := string.
Definition linux_root : LinuxPaths := "/"%string.
Definition resolve (root : LinuxPaths) (absolute : string) : string :=
  path_join root (trim_start_char "/" absolute).
Definition machine_id_path (p : LinuxPaths) : string := resolve p "/etc/machine-id".
Definition os_release_path (p : LinuxPaths) : string := resolve p "/etc/os-release".
Definition proc_dir (p : LinuxPaths) : string := resolve p "/proc".
Definition meminfo_path (p : LinuxPaths) : string := resolve p "/proc/meminfo".
Definition vmstat_path (p : LinuxPaths) : string := resolve p "/proc/vmstat".
Definition kernel_release_path (p : LinuxPaths) : string := resolve p "/proc/sys/kernel/osrelease".
Definition psi_memory_path (p : LinuxPaths) : string := resolve p "/proc/pressure/memory".
Definition psi_cpu_path (p : LinuxPaths) : string := resolve p "/proc/pressure/cpu".
Definition psi_io_path (p : LinuxPaths) : string := resolve p "/proc/pressure/io".
Definition cgroup_controllers_path (p : LinuxPaths) : string :=
  resolve p "/sys/fs/cgroup/cgroup.controllers".

(** ** host.rs *)

Record HostMetadata := {
  hm_machine_id : string;
  hm_hostname : string;
  hm_distro : string;
  hm_distro_version : option string;
  hm_kernel_version : string;
  hm_cpu_model : option string;
  hm_cpu_cores : option Z;
  hm_ram_total_bytes : Z;
  hm_swap_total_bytes : Z;
  hm_gpu_model : option string;
  hm_storage_model : option string
}.
Inductive HostMetadataError :=
| HostRead (field path source : string)
| HostInvalid (field message : string).
(** the [Display] implementation that [thiserror] derives *)
Definition host_error_to_string (e : HostMetadataError) : string :=
  match e with
  | HostRead field path source =>
      "cannot read required host metadata `" ++ field ++ "` at " ++ path ++ ": " ++ source
  | HostInvalid field message =>
      "required host metadata field `" ++ field ++ "` is missing or invalid: " ++ message
  end%string.

(** What [read_once] asks of the host: a file, the host name ([None] when it is not UTF-8)
    and the parallelism available. *)
Class HostProbe (W : Type) := {
  probe_text : string -> W -> result string string;
  probe_hostname : W -> result (option string) string;
  probe_parallelism : W -> option Z
}.

Section Host.
Context {W : Type} `{HostProbe W}.

Definition read_required (field path : string) (w : W) : result string HostMetadataError :=
  match probe_text path w with
  | Err source => Err (HostRead field path source)
  | Ok text =>
      let value := trim text in
      reject (str_empty value) (HostInvalid field "value is empty") ;? Ok value
  end.

(** the entry of one line of os-release *)
Definition os_release_entry (line : string) : option (string * string) :=
  let line := trim line in
  if str_empty line || starts_with "#" line then None
  else
    match split_once "=" line with
    | None => None
    | Some (key, value) => Some (trim key, trim_char "'" (trim_char "034" (trim value)))
    end.
(** the entries collected into a map: the last one of a key stays *)
Definition parse_os_release (input : string) : gmap string string :=
  foldl (fun m kv => <[fst kv := snd kv]> m) ∅ (omap os_release_entry (lines input)).
Definition required_map_value (values : gmap string string) (key field : string) :
    result string HostMetadataError :=
  match values !! key with
  | Some value => if str_empty (trim value)
                  then Err (HostInvalid field ("`" ++ key ++ "` is absent from os-release"))
                  else Ok value
  | None => Err (HostInvalid field ("`" ++ key ++ "` is absent from os-release"))
  end.
Definition meminfo_kib (input key : string) : result Z HostMetadataError :=
  let? value := ok_or (find_map (fun line =>
      match split_once ":" line with
      | Some (name, value) => then_some (String.eqb name key) value
      | None => None
      end) (lines input)) (HostInvalid "meminfo" ("`" ++ key ++ "` is missing")) in
  let? token := ok_or (head (split_whitespace value))
    (HostInvalid "meminfo" ("`" ++ key ++ "` has no numeric value")) in
  let? kib := ok_or (parse_u64 token)
    (HostInvalid "meminfo" ("`" ++ key ++ "` is invalid: " ++ int_error false u64_max token)) in
  ok_or (u64_checked_mul kib 1024) (HostInvalid "meminfo" ("`" ++ key ++ "` overflows bytes")).

(** [u32::try_from] *)
Definition u32_of (n : Z) : option Z := then_some ((0 <=? n) && (n <=? u32_max)) n.

Definition read_once (paths : LinuxPaths) (w : W) : result HostMetadata HostMetadataError :=
  let? machine_id := read_required "machine_id" (machine_id_path paths) w in
  let? os_release_text := read_required "os_release" (os_release_path paths) w in
  let os_release := parse_os_release os_release_text in
  let? distro := required_map_value os_release "ID" "distro" in
  let? kernel_version := read_required "kernel_version" (kernel_release_path paths) w in
  let? meminfo := read_required "meminfo" (meminfo_path paths) w in
  let? ram_total_bytes := meminfo_kib meminfo "MemTotal" in
  let? swap_total_bytes := meminfo_kib meminfo "SwapTotal" in
  let? name := match probe_hostname w with
               | Err source => Err (HostRead "hostname" "<system hostname>" source)
               | Ok None => Err (HostInvalid "hostname" "hostname is not valid UTF-8")
               | Ok (Some name) => Ok name
               end in
  reject (str_empty (trim name)) (HostInvalid "hostname" "hostname is empty") ;?
  Ok {| hm_machine_id := machine_id; hm_hostname := name; hm_distro := distro;
        hm_distro_version := os_release !! "VERSION_ID"%string;
        hm_kernel_version := kernel_version; hm_cpu_model := None;
        hm_cpu_cores := probe_parallelism w ≫= u32_of;
        hm_ram_total_bytes := ram_total_bytes; hm_swap_total_bytes := swap_total_bytes;
        hm_gpu_model := None; hm_storage_model := None |}.
End Host.

(** ** output.rs *)

Inductive CheckStatus := CheckPass | CheckWarn | CheckFail.
#[export] Instance CheckStatus_eq_dec : EqDecision CheckStatus.
Proof. solve_decision. Defined.
Record CheckResult := {
  cr_name : string;
  cr_status : CheckStatus;
  cr_message : string;
  cr_details : option string
}.
Record DoctorReport := { dr_checks : list CheckResult }.
Definition has_failures (self : DoctorReport) : bool :=
  existsb (fun check => bool_decide (cr_status check = CheckFail)) (dr_checks self).
Definition exit_code (self : DoctorReport) : Z := if has_failures self then 2 else 0.

Record HostSummary := {
  hs_id : Z;
  hs_machine_id : string;
  hs_hostname : string;
  hs_distro : string;
  hs_distro_version : option string;
  hs_kernel_version : string
}.
Record SessionSummary := {
  sm_id : Z;
  sm_host_id : Z;
  sm_mode : string;
  sm_daemon_version : string;
  sm_started_at : string;
  sm_ended_at : option string;
  sm_clean_shutdown : bool
}.
Inductive StatusState := DatabaseMissing | NoSessions | SessionOpen | ClosedClean | ClosedUnclean.
#[export] Instance StatusState_eq_dec : EqDecision StatusState.
Proof. solve_decision. Defined.
Record StatusReport := {
  sr_database_path : string;
  sr_database_present : bool;
  sr_schema_version : option Z;
  sr_last_host : option HostSummary;
  sr_last_session : option SessionSummary;
  sr_state : StatusState;
  sr_state_description : string
}.
