(* ===== verification/Classifier.v ===== *)
(** crates/classifier: the process and workload model (model.rs), process
    classification (process.rs) and the stabilizer of workload classes
    (stabilize.rs). [sha256_hex] stands for the [sha2] and [hex] crates. *)

From S2P Require Import Prelude F64 Text Config.

(** ** model.rs *)

Inductive ProcessCategory :=
| CatUnknown | CatSystem | CatCritical | CatDesktop | CatBrowser
| CatDevelopment | CatGame | CatVirtualization | CatBackground.

Inductive ForegroundState := FgForeground | FgBackground | FgUnknown.

Inductive WorkloadClass :=
| Idle | Desktop | BrowserHeavy | Development | Gaming | GamingBackgroundHeavy
| Virtualization | MemoryPressure | CriticalPressure.

#[export] Instance ProcessCategory_eq_dec : EqDecision ProcessCategory.
Proof. solve_decision. Defined.
#[export] Instance ForegroundState_eq_dec : EqDecision ForegroundState.
Proof. solve_decision. Defined.
#[export] Instance WorkloadClass_eq_dec : EqDecision WorkloadClass.
Proof. solve_decision. Defined.

Definition show_category (c : ProcessCategory) : string :=
  match c with
  | CatUnknown => "unknown" | CatSystem => "system" | CatCritical => "critical"
  | CatDesktop => "desktop" | CatBrowser => "browser" | CatDevelopment => "development"
  | CatGame => "game" | CatVirtualization => "virtualization" | CatBackground => "background"
  end.

Record Evidence := {
  ev_code : string;
  ev_description : string;
  ev_observed : string;
  ev_threshold : option string;
  ev_contribution : f64
}.

Record RejectedCandidate := {
  rc_candidate : WorkloadClass;
  rc_confidence : f64;
  rc_reason : string
}.

Record WorkloadExplanation := {
  we_rule_version : string;
  we_selected_class : string;
  we_confidence : f64;
  we_evidence : list Evidence;
  we_rejected_candidates : list RejectedCandidate;
  we_protection_reasons : list string
}.

Record WorkloadDecision := {
  wd_class : WorkloadClass;
  wd_confidence : f64;
  wd_explanation : WorkloadExplanation
}.

Inductive ClassificationOutcome :=
| Classified (d : WorkloadDecision)
| Unclassified (e : WorkloadExplanation).

Definition outcome_class (o : ClassificationOutcome) : option WorkloadClass :=
  match o with Classified d => Some (wd_class d) | Unclassified _ => None end.

Record WorkloadTransition := {
  wt_timestamp_ns : Z;
  wt_previous_class : option WorkloadClass;
  wt_new_class : WorkloadClass;
  wt_confidence : f64;
  wt_explanation : WorkloadExplanation
}.

(** crates/collector/src/process.rs, the sample of one process *)
Record ProcessSample := {
  timestamp_ns : Z;
  pid : Z;
  executable : option string;
  executable_name : option string;
  parent_pid : option Z;
  process_group_id : option Z;
  session_id : option Z;
  tty_nr : option Z;
  foreground_process_group_id : option Z;
  start_time_ticks : option Z;
  cgroup_path : option string;
  rss_bytes : option Z;
  pss_bytes : option Z;
  uss_bytes : option Z;
  swap_bytes : option Z;
  minor_faults : option Z;
  major_faults : option Z;
  cpu_percent : option f64;
  io_read_bytes : option Z;
  io_write_bytes : option Z
}.

Record ProcessClassification := {
  pc_sample : ProcessSample;
  pc_executable : string;
  pc_command_signature : string;
  pc_application_name : option string;
  pc_category : ProcessCategory;
  pc_is_game : bool;
  pc_is_critical : bool;
  pc_protected : bool;
  pc_protected_game : bool;
  pc_cold_candidate : bool;
  pc_foreground : ForegroundState;
  pc_foreground_confidence : f64;
  pc_confidence : f64;
  pc_reasons : list string
}.

(** ** stabilize.rs *)
Module Stabilize.

Record WorkloadStabilizer := {
  confirmation_samples : Z;
  current : option WorkloadClass;
  pending : option (WorkloadClass * Z)
}.

Definition new (n : Z) : WorkloadStabilizer :=
  {| confirmation_samples := n; current := None; pending := None |}.

Definition set_pending (p : option (WorkloadClass * Z)) (s : WorkloadStabilizer) :=
  {| confirmation_samples := confirmation_samples s; current := current s; pending := p |}.

Definition observe (ts : Z) (outcome : ClassificationOutcome) (self : WorkloadStabilizer) :
    WorkloadStabilizer * option WorkloadTransition :=
  match outcome with
  | Unclassified _ => (set_pending None self, None)
  | Classified decision =>
      if bool_decide (current self = Some (wd_class decision)) then (set_pending None self, None)
      else
        let immediate := bool_decide (wd_class decision = CriticalPressure) in
        let count :=
          if is_some_and (pending self) (fun '(class, _) => bool_decide (class = wd_class decision))
          then match pending self with Some (_, count) => u32_sat_add count 1 | None => 1 end
          else 1 in
        if negb immediate && (count <? confirmation_samples self)
        then (set_pending (Some (wd_class decision, count)) self, None)
        else ({| confirmation_samples := confirmation_samples self;
                 current := Some (wd_class decision);
                 pending := None |},
              Some {| wt_timestamp_ns := ts;
                      wt_previous_class := current self;
                      wt_new_class := wd_class decision;
                      wt_confidence := wd_confidence decision;
                      wt_explanation := wd_explanation decision |})
  end.

(** A stabilizer fed a history of outcomes, the oldest first *)
Definition feed (outcomes : list ClassificationOutcome) (s : WorkloadStabilizer) :
    WorkloadStabilizer :=
  foldl (fun s o => fst (observe 0 o s)) s outcomes.

(** The classes of the [n] latest outcomes of a history are all [c]. *)
Definition latest_all (n : nat) (c : WorkloadClass) (outcomes : list ClassificationOutcome) : Prop :=
  (n <= length outcomes)%nat /\
  Forall (fun o => outcome_class o = Some c) (drop (length outcomes - n) outcomes).

Lemma latest_all_snoc n c os o :
  latest_all n c os -> outcome_class o = Some c -> latest_all (S n) c (os ++ [o]).
Proof.
  intros [Hn Hall] Ho. unfold latest_all. rewrite length_app. simpl. split; [lia |].
  replace (length os + 1 - S n)%nat with (length os - n)%nat by lia.
  rewrite drop_app_le by lia. apply Forall_app. auto.
Qed.

Lemma latest_all_one c os o : outcome_class o = Some c -> latest_all 1 c (os ++ [o]).
Proof. apply (latest_all_snoc 0). split; [lia |]. rewrite drop_ge by lia. constructor. Qed.

Lemma latest_all_le m n c os : (m <= n)%nat -> latest_all n c os -> latest_all m c os.
Proof.
  intros Hmn [Hn Hall]. split; [lia |].
  replace (length os - m)%nat with (length os - n + (n - m))%nat by lia.
  rewrite <- drop_drop. by apply Forall_drop.
Qed.

(** What a pending count stands for *)
Definition pending_sound (s : WorkloadStabilizer) (os : list ClassificationOutcome) : Prop :=
  match pending s with
  | None => True
  | Some (c, k) => 1 <= k <= u32_max /\ latest_all (Z.to_nat k) c os /\ current s <> Some c
  end.

Lemma observe_samples ts o s :
  confirmation_samples (fst (observe ts o s)) = confirmation_samples s.
Proof. unfold observe. destruct o; [|done]. repeat case_match; done. Qed.

(** the count that [observe] computes, under [pending_sound] *)
Lemma observe_count ts d s os :
  pending_sound s os ->
  current s <> Some (wd_class d) ->
  exists k, 1 <= k <= u32_max /\ latest_all (Z.to_nat k) (wd_class d) (os ++ [Classified d]) /\
    observe ts (Classified d) s =
      if negb (bool_decide (wd_class d = CriticalPressure)) && (k <? confirmation_samples s)
      then (set_pending (Some (wd_class d, k)) s, None)
      else ({| confirmation_samples := confirmation_samples s;
               current := Some (wd_class d); pending := None |},
            Some {| wt_timestamp_ns := ts; wt_previous_class := current s;
                    wt_new_class := wd_class d; wt_confidence := wd_confidence d;
                    wt_explanation := wd_explanation d |}).
Proof.
  intros Hp Hc. unfold observe. rewrite bool_decide_eq_false_2 by done.
  unfold pending_sound in Hp. destruct (pending s) as [[c k]|]; simpl.
  - destruct (decide (c = wd_class d)) as [->|Hne].
    + rewrite (bool_decide_eq_true_2 (wd_class d = wd_class d)) by done. exists (u32_sat_add k 1).
      destruct Hp as (Hk & Hl & _). split; [unfold_int; lia |]. split; [| done].
      apply (latest_all_le _ (S (Z.to_nat k))); [unfold_int; lia |].
      by apply latest_all_snoc.
    + rewrite (bool_decide_eq_false_2 (c = wd_class d)) by done. exists 1.
      split; [unfold_int; lia |]. split; [by apply latest_all_one | done].
  - exists 1. split; [unfold_int; lia |]. split; [by apply latest_all_one | done].
Qed.

Lemma observe_sound ts o s os :
  pending_sound s os -> pending_sound (fst (observe ts o s)) (os ++ [o]).
Proof.
  intros Hp. destruct o as [d|e]; [| done].
  destruct (decide (current s = Some (wd_class d))) as [Hc|Hc].
  - unfold observe. by rewrite bool_decide_eq_true_2.
  - destruct (observe_count ts d s os Hp Hc) as (k & Hk & Hl & ->).
    destruct (_ && _); [| done]. simpl. done.
Qed.

Lemma feed_snoc os o s : feed (os ++ [o]) s = fst (observe 0 o (feed os s)).
Proof. unfold feed. by rewrite foldl_app. Qed.

Lemma feed_sound os s : pending s = None ->
  pending_sound (feed os s) os /\ confirmation_samples (feed os s) = confirmation_samples s.
Proof.
  intros Hn. induction os as [|o os IH] using rev_ind.
  - unfold pending_sound, feed; simpl. by rewrite Hn.
  - rewrite feed_snoc. destruct IH as [IH1 IH2].
    split; [by apply observe_sound | by rewrite observe_samples].
Qed.

End Stabilize.

(** ** process.rs *)
Module Process.

Definition IDENTITY_FORMAT_VERSION : string := "nemor-process-identity-v2".
Definition CRITICAL : list string :=
  ["init"; "systemd"; "dbus-daemon"; "networkmanager"; "pipewire"; "wireplumber";
   "kwin_wayland"; "gnome-shell"; "sddm"; "gdm"; "gamescope"; "easyanticheat";
   "easyanticheat_eos"; "battleye"; "beservice_x64"]%string.
Definition SYSTEM : list string :=
  ["systemd-journald"; "systemd-logind"; "udevd"; "kworker"]%string.
Definition BACKGROUND : list string := ["tracker-miner-fs-3"; "baloo_file"; "updatedb"]%string.

Definition contains_name (values : list string) (name : string) : bool :=
  existsb (fun value => eq_ignore_ascii_case value name) values.

Definition is_browser (name : string) : bool :=
  existsb (fun family => String.eqb name family || starts_with (family ++ "-") name)
    ["firefox"; "chrome"; "chromium"; "google-chrome"; "brave"; "brave-browser"; "vivaldi";
     "vivaldi-bin"; "opera"; "msedge"]%string.

Definition is_development (name : string) : bool :=
  contains_str ["code"; "codium"; "rustc"; "cargo"; "gcc"; "g++"; "clang"; "clang++"; "cmake";
                "ninja"; "rust-analyzer"; "clangd"; "gdb"; "lldb"]%string name
  || starts_with "idea" name || starts_with "clion" name.

Definition is_virtualization (name : string) : bool :=
  starts_with "qemu-system" name
  || contains_str ["virtualboxvm"; "vmware-vmx"; "vmware"]%string name.

Definition is_desktop (name : string) : bool :=
  contains_str ["plasmashell"; "konsole"; "gnome-terminal-server"; "dolphin"; "nautilus"]%string
    name.

Definition is_steam (name : string) : bool :=
  contains_str ["steam"; "steamwebhelper"; "steam-runtime"]%string name.

Definition is_steam_helper (name : string) : bool :=
  contains_str ["steam"; "steamwebhelper"; "steam-runtime"; "pressure-vessel"]%string name.

Definition is_proton_or_wine (name : string) : bool :=
  str_contains "proton" name || starts_with "wine" name.

Definition is_known_helper (name : string) : bool :=
  is_steam_helper name || is_proton_or_wine name || String.eqb name "gamescope".

(** [Path::file_name]: the last component, unless it is [..] *)
Definition path_components (path : string) : list string :=
  filter (fun x => ~ (x = "" \/ x = ".")%string) (split_char "/" path).
Definition path_file_name (path : string) : option string :=
  match list.last (path_components path) with
  | Some x => if String.eqb x ".." then None else Some x
  | None => None
  end.

Definition normalized_name (sample : ProcessSample) : string :=
  let from_path := match executable sample with
                   | Some value => path_file_name value
                   | None => None
                   end in
  let name := match from_path with Some n => Some n | None => executable_name sample end in
  to_ascii_lowercase (trim_end_matches " (deleted)" (unwrap_or name ""%string)).

(** the loop of [ancestor_names]; [n] counts the rounds left *)
Fixpoint ancestor_loop (n : nat) (names : gmap Z string) (parents : gmap Z Z)
    (current : Z) (seen : gset Z) (result : gset string) : gset string :=
  match n with
  | O => result
  | S n' =>
      if bool_decide (current ∈ seen) then result
      else match parents !! current with
           | None => result
           | Some parent =>
               let result := match names !! parent with
                             | Some name => {[name]} ∪ result
                             | None => result
                             end in
               ancestor_loop n' names parents parent ({[current]} ∪ seen) result
           end
  end.

Definition ancestor_names (pid : Z) (names : gmap Z string) (parents : gmap Z Z) : gset string :=
  ancestor_loop 16 names parents pid ∅ ∅.

Definition foreground_state (sample : ProcessSample) (gamescope_game : bool) :
    ForegroundState * f64 :=
  if gamescope_game then (FgForeground, f64_lit 85 100)
  else match tty_nr sample, process_group_id sample, foreground_process_group_id sample with
       | Some tty, Some group, Some foreground =>
           if (0 <? tty) && (0 <? foreground) then
             if group =? foreground then (FgForeground, f64_lit 98 100)
             else (FgBackground, f64_lit 95 100)
           else (FgUnknown, f64_zero)
       | _, _, _ => (FgUnknown, f64_zero)
       end.

(** the loop of [normalize_linux_executable_path]: [parts] is the stack, its
    top first; [None] when [..] finds it empty *)
Fixpoint normalize_parts (raw : list string) (parts : list string) : option (list string) :=
  match raw with
  | [] => Some parts
  | part :: raw' =>
      if String.eqb part "" || String.eqb part "." then normalize_parts raw' parts
      else if String.eqb part ".." then
        match parts with
        | _ :: parts' => normalize_parts raw' parts'
        | [] => None
        end
      else normalize_parts raw' (part :: parts)
  end.

Definition normalize_linux_executable_path (raw : string) : option string :=
  let raw := trim_end_matches " (deleted)" (trim raw) in
  if negb (starts_with "/" raw) || str_contains_char "000" raw then None
  else match normalize_parts (split_char "/" raw) [] with
       | Some (x :: parts) => Some ("/" ++ join "/" (rev (x :: parts)))%string
       | _ => None
       end.

Definition is_safe_system_path (path : string) : bool :=
  existsb (fun prefix => starts_with prefix path)
    ["/usr/"; "/bin/"; "/sbin/"; "/opt/"; "/nix/store/"; "/snap/"]%string.

Section Identity.
(** [hex::encode(Sha256::digest(bytes))] *)
Variable sha256_hex : string -> string.

Definition nul : string := String "000" "".

(** [path.rsplit('/').next()] *)
Definition last_segment (path : string) : string :=
  unwrap_or (list.last (split_char "/" path)) ""%string.

Definition stable_identity (sample : ProcessSample) (fallback_name : string) : string * string :=
  let normalized_path := match executable sample with
                         | Some raw => normalize_linux_executable_path raw
                         | None => None
                         end in
  let basename := match normalized_path with
                  | Some path => if str_empty (last_segment path) then fallback_name
                                 else last_segment path
                  | None => fallback_name
                  end in
  let basename := to_ascii_lowercase basename in
  let basename := if str_empty basename then "unknown"%string else basename in
  let '(display, kind, identity) :=
    match normalized_path with
    | Some path =>
        (if is_safe_system_path path then path else ("private:" ++ basename)%string,
         "path"%string, path)
    | None => (basename, "basename"%string, basename)
    end in
  (display, sha256_hex (IDENTITY_FORMAT_VERSION ++ nul ++ kind ++ nul ++ identity)%string).

Definition game_score (sample : ProcessSample) (config : ClassificationConfig)
    (name : string) (ancestors : gset string) : f64 * list string :=
  let browser := is_browser name in
  let steam_context := bool_decide (set_Exists (fun v => is_steam v = true) ancestors) in
  let gamescope_context := bool_decide (("gamescope"%string) ∈ ancestors) in
  let cgroup := to_ascii_lowercase (unwrap_or (cgroup_path sample) ""%string) in
  let steam_app_cgroup :=
    str_contains "steam_app_" cgroup
    || (str_contains "/app-" cgroup && str_contains "steam" cgroup
        && str_contains ".scope" cgroup) in
  let score := f64_zero in
  let reasons : list string := [] in
  let '(score, reasons) :=
    if contains_name (classification_game_executables config) name
    then (f64_max score (f64_lit 95 100), reasons ++ ["configured_game_executable"]%string)
    else (score, reasons) in
  let '(score, reasons) :=
    if steam_app_cgroup && negb browser
    then (f64_add score (f64_lit 65 100), reasons ++ ["steam_app_cgroup"]%string)
    else (score, reasons) in
  let '(score, reasons) :=
    if steam_context && negb browser && negb (is_steam_helper name)
    then (f64_add score (f64_lit 20 100), reasons ++ ["steam_ancestry"]%string)
    else (score, reasons) in
  let '(score, reasons) :=
    if is_proton_or_wine name && steam_app_cgroup
    then (f64_add score (f64_lit 20 100), reasons ++ ["proton_wine_with_steam_context"]%string)
    else (score, reasons) in
  let '(score, reasons) :=
    if gamescope_context && negb browser && negb (is_development name)
       && negb (is_known_helper name)
    then (f64_add score (f64_lit 80 100), reasons ++ ["gamescope_ancestry"]%string)
    else (score, reasons) in
  (f64_min score f64_one, reasons).

Definition category_of (config : ClassificationConfig) (name : string)
    (critical is_game : bool) (score : f64) : ProcessCategory * f64 :=
  if str_empty name then (CatUnknown, f64_zero)
  else if critical then (CatCritical, f64_lit 98 100)
  else if is_game then (CatGame, score)
  else if is_browser name then (CatBrowser, f64_lit 90 100)
  else if is_development name then (CatDevelopment, f64_lit 88 100)
  else if is_virtualization name then (CatVirtualization, f64_lit 90 100)
  else if contains_str BACKGROUND name then (CatBackground, f64_lit 85 100)
  else if contains_str SYSTEM name || starts_with "kworker" name
  then (CatSystem, f64_lit 90 100)
  else if is_desktop name then (CatDesktop, f64_lit 85 100)
  else (CatUnknown, f64_lit 25 100).

Definition classify_one (sample : ProcessSample) (config : ClassificationConfig)
    (names : gmap Z string) (parents : gmap Z Z) : ProcessClassification :=
  let name := normalized_name sample in
  let ancestors := ancestor_names (pid sample) names parents in
  let known_identity := negb (str_empty name) in
  let configured_critical := contains_name (classification_critical_executables config) name in
  let configured_protected := contains_name (classification_protected_executables config) name in
  let critical := configured_critical || contains_str CRITICAL name in
  let gamescope_context := bool_decide (("gamescope"%string) ∈ ancestors) in
  let '(score, reasons) := game_score sample config name ancestors in
  let is_game :=
    known_identity && f64_ge score (classification_minimum_confidence config) in
  let '(category, confidence) := category_of config name critical is_game score in
  let '(category, reasons) :=
    if negb critical && f64_lt confidence (classification_minimum_confidence config)
    then (CatUnknown, reasons ++ ["below_minimum_process_confidence"]%string)
    else (category, reasons) in
  let '(foreground, foreground_confidence) :=
    foreground_state sample (gamescope_context && is_game) in
  let protected_game := is_game in
  let is_foreground := bool_decide (foreground = FgForeground) in
  let protected :=
    negb known_identity || bool_decide (category = CatUnknown) || critical || protected_game
    || configured_protected || is_foreground in
  let reasons := push_if (negb known_identity) "unknown_identity_protected" reasons in
  let reasons := push_if critical "critical_process_protected" reasons in
  let reasons := push_if configured_protected "configured_process_protected" reasons in
  let reasons := push_if is_foreground "foreground_process_protected" reasons in
  let reasons := push_if protected_game "game_process_protected" reasons in
  let reasons := push_if (bool_decide (reasons = []))
                   ("category_" ++ show_category category)%string reasons in
  let cold_candidate :=
    bool_decide (category = CatBackground) && bool_decide (foreground = FgBackground)
    && f64_ge confidence (classification_minimum_confidence config)
    && negb protected && negb is_game && negb critical in
  let '(persistent_name, command_signature) := stable_identity sample name in
  {| pc_sample := sample;
     pc_executable := persistent_name;
     pc_command_signature := command_signature;
     pc_application_name := then_some known_identity persistent_name;
     pc_category := category;
     pc_is_game := is_game;
     pc_is_critical := critical;
     pc_protected := protected;
     pc_protected_game := protected_game;
     pc_cold_candidate := cold_candidate;
     pc_foreground := foreground;
     pc_foreground_confidence := foreground_confidence;
     pc_confidence := confidence;
     pc_reasons := reasons |}.

(** [collect::<HashMap<_, _>>()]: a later entry replaces an earlier one. *)
Definition collect_map {V} (l : list (Z * V)) : gmap Z V :=
  foldl (fun m '(k, v) => <[k := v]> m) ∅ l.

Definition classify_all (samples : list ProcessSample) (config : ClassificationConfig) :
    list ProcessClassification :=
  let names := collect_map (map (fun s => (pid s, normalized_name s)) samples) in
  let parents := collect_map (omap (fun s => match parent_pid s with
                                             | Some parent => Some (pid s, parent)
                                             | None => None
                                             end) samples) in
  map (fun s => classify_one s config names parents) samples.
End Identity.

End Process.

(** ** Lemmas on the classification of one process *)

Module Facts.
Import Process.

(** [ancestor_loop] collects only names of pids on the chain of parents. *)
Definition parent_of (parents : gmap Z Z) (p q : Z) : Prop := parents !! p = Some q.

Lemma ancestor_loop_sound names parents n : forall cur seen result name,
  name ∈ ancestor_loop n names parents cur seen result ->
  name ∈ result \/
  exists p a, star (parent_of parents) cur p /\ parent_of parents p a /\ names !! a = Some name.
Proof.
  induction n as [|n IH]; intros cur seen result name; simpl; [by left |].
  case_bool_decide; [by left |].
  destruct (parents !! cur) as [parent|] eqn:Hp; [| by left].
  intros [Hr | (p & a & Hs & Ha & Hn)]%IH.
  - destruct (names !! parent) as [nm|] eqn:Hnm; [| by left].
    apply elem_of_union in Hr as [->%elem_of_singleton | Hr]; [right | by left].
    exists cur, parent. split; [constructor | done].
  - right. exists p, a. split; [| done].
    eapply star_trans; [| exact Hs]. eapply star_snoc; [constructor | exact Hp].
Qed.

Lemma split_char_no_sep sep s x : x ∈ split_char sep s -> str_contains_char sep x = false.
Proof.
  unfold str_contains_char. revert x. induction s as [|c s IH]; intros x; simpl.
  - by intros ->%list_elem_of_singleton.
  - destruct (Ascii.eqb_spec c sep) as [->|Hne].
    + intros [->|Hx]%elem_of_cons; [done | by apply IH].
    + pose proof (split_char_nonempty sep s) as Hn.
      destruct (split_char sep s) as [|y r] eqn:E; [done |].
      intros [->|Hx]%elem_of_cons; [| apply IH; set_solver].
      simpl. specialize (IH y ltac:(set_solver)).
      apply negb_false_iff in IH. rewrite IH, andb_true_r.
      apply Ascii.eqb_neq in Hne. rewrite Ascii.eqb_sym in Hne. by rewrite Hne.
Qed.

(** A component of a normalised path *)
Definition plain_component (x : string) : Prop :=
  x <> ""%string /\ x <> "."%string /\ x <> ".."%string /\ str_contains_char "/" x = false.

Lemma normalize_parts_plain raw : forall parts out,
  Forall plain_component parts ->
  (forall x, x ∈ raw -> str_contains_char "/" x = false) ->
  normalize_parts raw parts = Some out -> Forall plain_component out.
Proof.
  induction raw as [|part raw IH]; intros parts out Hp Hraw; cbn [normalize_parts].
  - by intros [= <-].
  - destruct (String.eqb_spec part "") as [|H1]; [apply IH; set_solver |].
    destruct (String.eqb_spec part ".") as [|H2]; [apply IH; set_solver |].
    destruct (String.eqb_spec part "..") as [|H3].
    + destruct parts as [|y parts]; [done |]. apply IH; [by inversion Hp | set_solver].
    + apply IH; [| set_solver]. constructor; [| done].
      repeat split; try done. apply Hraw. set_solver.
Qed.

(** The disjunction that [classify_one] computes as [protected] *)
Lemma protected_any (unknown critical game configured : bool) (P Q : Prop)
    `{Decision P, Decision Q} :
  game = true \/ game = true \/ critical = true \/ P \/ Q ->
  unknown || bool_decide P || critical || game || configured || bool_decide Q = true.
Proof.
  intros [-> | [-> | [-> | [HP | HQ]]]]; rewrite ?orb_true_r; try done.
  - by rewrite (bool_decide_eq_true_2 P HP), orb_true_r.
  - by rewrite (bool_decide_eq_true_2 Q HQ), orb_true_r.
Qed.

End Facts.

Module Theorems.
Import Stabilize Process Facts.

(** from a fresh stabilizer that asks for [n] confirmations, [observe]
    reports a transition only to a class other than the current one, and only
    when the class is [CriticalPressure] or the last [n] outcomes, the present
    one included, all named it; the reported class is the one adopted. *)
Theorem stabilizer_adopts_only_confirmed (n : Z) (history : list ClassificationOutcome)
    (ts : Z) (o : ClassificationOutcome) (t : WorkloadTransition) :
  1 <= n <= u32_max ->
  snd (observe ts o (feed history (new n))) = Some t ->
  wt_previous_class t = current (feed history (new n)) /\
  wt_previous_class t <> Some (wt_new_class t) /\
  current (fst (observe ts o (feed history (new n)))) = Some (wt_new_class t) /\
  (wt_new_class t = CriticalPressure \/
   latest_all (Z.to_nat n) (wt_new_class t) (history ++ [o])).
Proof.
  intros Hn Ht. destruct (feed_sound history (new n) eq_refl) as [Hp Hc].
  set (s := feed history (new n)) in *. change (confirmation_samples (new n)) with n in Hc.
  destruct o as [d|e]; [| done].
  destruct (decide (current s = Some (wd_class d))) as [Hcur|Hcur].
  { unfold observe in Ht. by rewrite (bool_decide_eq_true_2 (current s = _)) in Ht. }
  destruct (observe_count ts d s history Hp Hcur) as (k & Hk & Hl & Ho).
  rewrite Ho in Ht |- *. rewrite Hc in *.
  destruct (negb _ && _) eqn:E; [done |]. injection Ht as <-. simpl. repeat split; [done |].
  apply andb_false_iff in E as [E|E]; bools; [by left | right].
  eapply latest_all_le; [| exact Hl]. lia.
Qed.

(** [n] consecutive outcomes that name one class are enough for the
    stabilizer to adopt it, whatever class was current. *)
Theorem stabilizer_adopts_after_confirmation (n : Z) (s : WorkloadStabilizer)
    (outcomes : list ClassificationOutcome) (c : WorkloadClass) :
  1 <= n <= u32_max -> confirmation_samples s = n -> pending s = None ->
  length outcomes = Z.to_nat n ->
  Forall (fun o => outcome_class o = Some c) outcomes ->
  current (feed outcomes s) = Some c.
Proof.
  intros Hn Hc Hp Hlen Hall.
  assert (forall os, Forall (fun o => outcome_class o = Some c) os ->
    current (feed os s) = Some c \/
    ((length os < Z.to_nat n)%nat /\ current (feed os s) = current s /\
     confirmation_samples (feed os s) = n /\
     pending (feed os s) =
       match length os with O => None | _ => Some (c, Z.of_nat (length os)) end)) as H.
  { induction os as [|o os IH] using rev_ind; intros Hos.
    - right. simpl. repeat split; try done. lia.
    - apply Forall_app in Hos as [Hos [Ho _]%Forall_cons_iff].
      destruct o as [d|]; simpl in Ho; [| discriminate]. injection Ho as Hd.
      rewrite feed_snoc.
      destruct (IH Hos) as [Hcur | (Hlt & Hcur & Hcs & Hpd)]; unfold observe.
      + left. rewrite (bool_decide_eq_true_2 (current _ = _)) by congruence. done.
      + case_bool_decide as Hdec; [left; simpl; congruence |].
        rewrite Hpd, Hcs, length_app. simpl.
        replace (length os + 1)%nat with (S (length os)) by lia.
        destruct (length os) as [|m] eqn:El; simpl;
          rewrite ?(bool_decide_eq_true_2 (c = wd_class d)) by done; rewrite Hd;
          (destruct (negb _ && _) eqn:E; [right | by left]);
          apply andb_true_iff in E as [_ E]; bools; simpl;
          (split; [unfold_int; lia |]); repeat split; try done; f_equal; f_equal; unfold_int; lia. }
  destruct (H outcomes Hall) as [|[? _]]; [done | lia].
Qed.

(** whatever the sample and its ancestry, [classify_one] protects a game, a
    critical, an unknown and a foreground process, and never makes one a cold
    candidate; a cold candidate is an unprotected background process that is
    known to be in the background with at least the configured confidence. *)
Theorem classify_one_protection (sha : string -> string) (sample : ProcessSample)
    (config : ClassificationConfig) (names : gmap Z string) (parents : gmap Z Z) :
  let p := classify_one sha sample config names parents in
  (pc_is_game p = true \/ pc_protected_game p = true \/ pc_is_critical p = true
   \/ pc_category p = CatUnknown \/ pc_foreground p = FgForeground ->
   pc_protected p = true /\ pc_cold_candidate p = false) /\
  (pc_cold_candidate p = true ->
   pc_category p = CatBackground /\ pc_foreground p = FgBackground /\ pc_protected p = false
   /\ f64_le (classification_minimum_confidence config) (pc_confidence p) = true).
Proof.
  unfold classify_one. cbv zeta.
  destruct (game_score _ _ _ _) as [score reasons].
  destruct (category_of _ _ _ _ _) as [category confidence].
  destruct (_ && f64_lt _ _);
    destruct (foreground_state _ _) as [foreground fc];
    destruct (stable_identity _ _ _) as [dn sg];
    cbn [pc_is_game pc_protected_game pc_is_critical pc_category pc_foreground pc_protected
         pc_cold_candidate pc_confidence]; unfold f64_ge in *;
    (split; [intros Hor |
      intros Hcold; rewrite !andb_true_iff, !negb_true_iff, !bool_decide_eq_true in Hcold;
      destruct Hcold as [[[[[? ?] ?] ?] ?] ?]; repeat split; done]).
  all: set (prot := (_ || bool_decide (foreground = FgForeground))).
  all: assert (prot = true) as -> by (apply protected_any, Hor).
  all: split; [done |]; by rewrite !andb_false_r.
Qed.

(** every name that [ancestor_names] returns is the name of a proper
    ancestor of the process, whatever cycles the parent table holds. *)
Theorem ancestor_names_sound (pid : Z) (names : gmap Z string) (parents : gmap Z Z) (name : string) :
  name ∈ ancestor_names pid names parents ->
  exists p a, star (parent_of parents) pid p /\ parent_of parents p a /\ names !! a = Some name.
Proof.
  intros [H|H]%ancestor_loop_sound; [| done]. by apply not_elem_of_empty in H.
Qed.

(** a path that [normalize_linux_executable_path] accepts is absolute and
    its components are neither empty nor [.] nor [..]: the identity of a process
    is computed without traversal. *)
Theorem normalized_path_has_no_traversal (raw path : string) :
  normalize_linux_executable_path raw = Some path ->
  exists parts, parts <> [] /\ Forall plain_component parts /\
                path = ("/" ++ join "/" parts)%string.
Proof.
  unfold normalize_linux_executable_path. set (r := trim_end_matches _ _).
  destruct (_ || _); [done |].
  destruct (normalize_parts (split_char "/" r) []) as [[|x parts]|] eqn:E; try done.
  intros [= <-]. exists (rev (x :: parts)).
  split; [| split; [| done]].
  - intros H. apply (f_equal (@length _)) in H. rewrite length_rev in H. done.
  - apply Forall_rev. eapply normalize_parts_plain; [| | exact E]; [done |].
    apply split_char_no_sep.
Qed.

End Theorems.

(** ** Concrete inputs *)
Module Witnesses.
Import Stabilize Process Facts Theorems.

Definition explanation : WorkloadExplanation :=
  {| we_rule_version := "1"; we_selected_class := "gaming"; we_confidence := f64_one;
     we_evidence := []; we_rejected_candidates := []; we_protection_reasons := [] |}.
Definition gaming : ClassificationOutcome :=
  Classified {| wd_class := Gaming; wd_confidence := f64_one; wd_explanation := explanation |}.
Definition to_gaming : WorkloadTransition :=
  {| wt_timestamp_ns := 7; wt_previous_class := None; wt_new_class := Gaming;
     wt_confidence := f64_one; wt_explanation := explanation |}.

Definition shell : ProcessSample :=
  {| timestamp_ns := 1; pid := 42; executable := Some "/usr/bin/bash"%string;
     executable_name := Some "bash"%string; parent_pid := Some 7; process_group_id := Some 42;
     session_id := Some 42; tty_nr := Some 1; foreground_process_group_id := Some 42;
     start_time_ticks := Some 9; cgroup_path := None; rss_bytes := None; pss_bytes := None;
     uss_bytes := None; swap_bytes := None; minor_faults := None; major_faults := None;
     cpu_percent := None; io_read_bytes := None; io_write_bytes := None |}.

Lemma stabilizer_adopts_only_confirmed_witness :
  snd (observe 7 gaming (feed [gaming] (new 2))) = Some to_gaming /\
  wt_previous_class to_gaming = current (feed [gaming] (new 2)).
Proof.
  split; [vm_compute; reflexivity |].
  apply (stabilizer_adopts_only_confirmed 2 [gaming] 7 gaming to_gaming).
  - unfold_int; lia.
  - vm_compute; reflexivity.
Defined.

Lemma stabilizer_adopts_after_confirmation_witness :
  current (feed [gaming; gaming; gaming] (new 3)) = Some Gaming.
Proof.
  apply (stabilizer_adopts_after_confirmation 3).
  - unfold_int; lia.
  - reflexivity.
  - reflexivity.
  - reflexivity.
  - repeat constructor.
Defined.

Lemma classify_one_protection_witness :
  pc_protected (classify_one (fun s => s) shell (classification default_config) ∅ ∅) = true.
Proof.
  apply (classify_one_protection (fun s => s) shell (classification default_config) ∅ ∅).
  right; right; right; right. vm_compute; reflexivity.
Defined.

Lemma ancestor_names_sound_witness :
  exists p a, star (parent_of (<[42 := 7]> ∅)) 42 p /\ parent_of (<[42 := 7]> ∅) p a /\
              (<[7 := "steam"%string]> ∅ : gmap Z string) !! a = Some "steam"%string.
Proof.
  apply (ancestor_names_sound 42 (<[7 := "steam"%string]> ∅) (<[42 := 7]> ∅)).
  refine (bool_decide_eq_true_1 _ _). vm_compute. reflexivity.
Defined.

Lemma normalized_path_has_no_traversal_witness :
  exists parts, parts <> [] /\ Forall plain_component parts /\
                "/usr/bin/steam"%string = ("/" ++ join "/" parts)%string.
Proof.
  apply (normalized_path_has_no_traversal "/usr/lib/../bin/./steam (deleted)").
  vm_compute; reflexivity.
Defined.

End Witnesses.
