(* ===== verification/Collector.v ===== *)
(** crates/collector: the parsers of /proc and /sys, the samples of the system and
    of the processes, the CPU tracker and the rotation of the smaps budget. The
    files are behind the trait [TelemetrySource]; the sample of one process is a
    record of the classifier's model. *)

From S2P Require Import Prelude F64 Text Config Classifier.

(** ** error.rs and source.rs *)

Inductive ErrorKind := NotFound | PermissionDenied | OtherKind.
#[export] Instance ErrorKind_eq_dec : EqDecision ErrorKind.
Proof. solve_decision. Defined.
(** an [io::Error]: its kind and its text *)
Record IoError := { io_kind : ErrorKind; io_text : string }.

Inductive CollectorError :=
| RequiredRead (metric path : string) (source : IoError)
| Invalid (metric message : string)
| Timestamp.

Inductive ProcessReadFailure := Disappeared | FailPermission | FailInvalid.

Definition classify_process_io (error : IoError) : ProcessReadFailure :=
  match io_kind error with
  | NotFound => Disappeared
  | PermissionDenied => FailPermission
  | _ => FailInvalid
  end.

(** The files as one sample sees them. *)
Class TelemetrySource (W : Type) := {
  read_to_string : string -> W -> result string IoError;
  read_dir_names : string -> W -> result (list string) IoError;
  read_link : string -> W -> result string IoError
}.

Definition read_optional {W} `{TelemetrySource W} (path : string) (w : W) :
    result (option string) IoError :=
  match read_to_string path w with
  | Ok value => Ok (Some value)
  | Err e => if bool_decide (io_kind e = NotFound) then Ok None else Err e
  end.

(** [map_err(|source| CollectorError::RequiredRead { .. })] *)
Definition required_read {A} (metric path : string) (r : result A IoError) :
    result A CollectorError :=
  match r with Ok a => Ok a | Err e => Err (RequiredRead metric path e) end.

(** ** meminfo.rs *)

Record MemInfo := {
  mi_mem_total_bytes : Z;
  mi_mem_available_bytes : Z;
  mi_anon_bytes : option Z;
  mi_file_cache_bytes : option Z;
  mi_slab_bytes : option Z;
  mi_swap_total_bytes : option Z;
  mi_swap_free_bytes : option Z;
  mi_swap_used_bytes : option Z
}.

Definition wanted : list string :=
  ["MemTotal"; "MemAvailable"; "AnonPages"; "Cached"; "Buffers"; "Slab"; "SwapTotal"; "SwapFree"].

(** one line of meminfo, added to [values] *)
Definition meminfo_line (line : string) (values : gmap string Z) :
    result (gmap string Z) CollectorError :=
  match split_once ":" line with
  | None => Ok values
  | Some (raw_key, raw_value) =>
      let key := trim raw_key in
      if negb (contains_str wanted key) then Ok values
      else
        match split_whitespace raw_value with
        | [number; "kB"%string] =>
            let? kib := ok_or (parse_u64 number)
              (Invalid "meminfo" ("`" ++ key ++ "` has invalid value: "
                                  ++ int_error false u64_max number)) in
            let? bytes := ok_or (u64_checked_mul kib 1024)
              (Invalid "meminfo" ("`" ++ key ++ "` overflows bytes")) in
            Ok (<[key := bytes]> values)
        | _ => Err (Invalid "meminfo" ("`" ++ key ++ "` must contain one value in kB"))
        end
  end.
Fixpoint meminfo_lines (ls : list string) (values : gmap string Z) :
    result (gmap string Z) CollectorError :=
  match ls with
  | [] => Ok values
  | line :: rest => let? values := meminfo_line line values in meminfo_lines rest values
  end.

Definition required (key : string) (values : gmap string Z) : result Z CollectorError :=
  ok_or (values !! key) (Invalid "meminfo" ("required field `" ++ key ++ "` is missing")).

Definition add_optional (left_key right_key : string) (values : gmap string Z) :
    result (option Z) CollectorError :=
  match values !! left_key, values !! right_key with
  | None, None => Ok None
  | left_value, right_value =>
      match u64_checked_add (unwrap_or left_value 0) (unwrap_or right_value 0) with
      | Some total => Ok (Some total)
      | None => Err (Invalid "meminfo" ("`" ++ left_key ++ "` plus `" ++ right_key
                                        ++ "` overflows bytes"))
      end
  end.

Definition swap_used_of (values : gmap string Z) : result (option Z) CollectorError :=
  match values !! "SwapTotal"%string, values !! "SwapFree"%string with
  | Some total, Some free =>
      let? used := ok_or (u64_checked_sub total free)
        (Invalid "meminfo" "`SwapFree` exceeds `SwapTotal`") in
      Ok (Some used)
  | _, _ => Ok None
  end.

(** what follows the loop *)
Definition meminfo_of (values : gmap string Z) : result MemInfo CollectorError :=
  let? swap_used := swap_used_of values in
  let? mem_total := required "MemTotal" values in
  let? mem_available := required "MemAvailable" values in
  let? file_cache := add_optional "Cached" "Buffers" values in
  Ok {| mi_mem_total_bytes := mem_total;
        mi_mem_available_bytes := mem_available;
        mi_anon_bytes := values !! "AnonPages"%string;
        mi_file_cache_bytes := file_cache;
        mi_slab_bytes := values !! "Slab"%string;
        mi_swap_total_bytes := values !! "SwapTotal"%string;
        mi_swap_free_bytes := values !! "SwapFree"%string;
        mi_swap_used_bytes := swap_used |}.

Definition meminfo_parse (input : string) : result MemInfo CollectorError :=
  let? values := meminfo_lines (lines input) ∅ in
  meminfo_of values.

(** ** vmstat.rs *)

Record VmStat := {
  vs_swap_in_pages : option Z;
  vs_swap_out_pages : option Z;
  vs_page_faults : option Z;
  vs_major_faults : option Z;
  vs_minor_faults : option Z;
  vs_pgscan : option Z;
  vs_pgsteal : option Z;
  vs_workingset_refault : option Z
}.
Definition VmStat_default : VmStat :=
  {| vs_swap_in_pages := None; vs_swap_out_pages := None; vs_page_faults := None;
     vs_major_faults := None; vs_minor_faults := None; vs_pgscan := None; vs_pgsteal := None;
     vs_workingset_refault := None |}.

Definition in_family (name key : string) : bool :=
  String.eqb key name || starts_with (name ++ "_") key.
Definition vmstat_relevant (key : string) : bool :=
  contains_str ["pswpin"; "pswpout"; "pgfault"; "pgmajfault"]%string key
  || in_family "pgscan" key || in_family "pgsteal" key || in_family "workingset_refault" key.

Definition checked_accumulate (target : option Z) (value : Z) (key : string) :
    result (option Z) CollectorError :=
  let? total := ok_or (u64_checked_add (unwrap_or target 0) value)
    (Invalid "vmstat" ("aggregate including `" ++ key ++ "` overflows")) in
  Ok (Some total).

(** the match on the key of a relevant line *)
Definition vmstat_record (key : string) (value : Z) (r : VmStat) : result VmStat CollectorError :=
  let set swap_in swap_out all major pgscan pgsteal refault :=
    {| vs_swap_in_pages := swap_in; vs_swap_out_pages := swap_out; vs_page_faults := all;
       vs_major_faults := major; vs_minor_faults := vs_minor_faults r; vs_pgscan := pgscan;
       vs_pgsteal := pgsteal; vs_workingset_refault := refault |} in
  let swap_in := vs_swap_in_pages r in
  let swap_out := vs_swap_out_pages r in
  let all := vs_page_faults r in
  let major := vs_major_faults r in
  let pgscan := vs_pgscan r in
  let pgsteal := vs_pgsteal r in
  let refault := vs_workingset_refault r in
  if String.eqb key "pswpin" then Ok (set (Some value) swap_out all major pgscan pgsteal refault)
  else if String.eqb key "pswpout" then Ok (set swap_in (Some value) all major pgscan pgsteal refault)
  else if String.eqb key "pgfault" then Ok (set swap_in swap_out (Some value) major pgscan pgsteal refault)
  else if String.eqb key "pgmajfault" then Ok (set swap_in swap_out all (Some value) pgscan pgsteal refault)
  else if in_family "pgscan" key then
    let? total := checked_accumulate pgscan value key in
    Ok (set swap_in swap_out all major total pgsteal refault)
  else if in_family "pgsteal" key then
    let? total := checked_accumulate pgsteal value key in
    Ok (set swap_in swap_out all major pgscan total refault)
  else if in_family "workingset_refault" key then
    let? total := checked_accumulate refault value key in
    Ok (set swap_in swap_out all major pgscan pgsteal total)
  else Ok r.

Definition vmstat_line (line : string) (r : VmStat) : result VmStat CollectorError :=
  match split_whitespace line with
  | [] => Ok r
  | key :: rest =>
      if negb (vmstat_relevant key) then Ok r
      else
        match rest with
        | [] => Err (Invalid "vmstat" ("`" ++ key ++ "` has no counter"))
        | raw :: trailing =>
            reject (negb (bool_decide (trailing = [])))
              (Invalid "vmstat" ("`" ++ key ++ "` contains trailing data")) ;?
            let? value := ok_or (parse_u64 raw)
              (Invalid "vmstat" ("`" ++ key ++ "` is invalid: " ++ int_error false u64_max raw)) in
            vmstat_record key value r
        end
  end.
Fixpoint vmstat_lines (ls : list string) (r : VmStat) : result VmStat CollectorError :=
  match ls with
  | [] => Ok r
  | line :: rest => let? r := vmstat_line line r in vmstat_lines rest r
  end.

Definition vmstat_parse (input : string) : result VmStat CollectorError :=
  let? r := vmstat_lines (lines input) VmStat_default in
  Ok {| vs_swap_in_pages := vs_swap_in_pages r;
        vs_swap_out_pages := vs_swap_out_pages r;
        vs_page_faults := vs_page_faults r;
        vs_major_faults := vs_major_faults r;
        vs_minor_faults := all ← vs_page_faults r; major ← vs_major_faults r;
                           u64_checked_sub all major;
        vs_pgscan := vs_pgscan r;
        vs_pgsteal := vs_pgsteal r;
        vs_workingset_refault := vs_workingset_refault r |}.

(** ** psi.rs *)

Record PsiLine := {
  psi_avg10 : f64;
  psi_avg60 : f64;
  psi_avg300 : f64;
  psi_total_us : Z
}.
Record PsiSample := { psi_some : option PsiLine; psi_full : option PsiLine }.

Definition parse_average (resource key value : string) : result f64 CollectorError :=
  let? parsed := ok_or (parse_f64 value)
    (Invalid resource ("invalid `" ++ key ++ "`: " ++ float_error value)) in
  if f64_is_finite parsed && f64_in_range f64_zero (f64_of_Z 100) parsed then Ok parsed
  else Err (Invalid resource ("`" ++ key ++ "` must be finite and between 0 and 100")).

Definition psi_required {A} (resource key : string) (value : option A) : result A CollectorError :=
  ok_or value (Invalid resource ("required `" ++ key ++ "` is missing")).

(** [avg10], [avg60], [avg300] and [total] of the loop over the tokens *)
Record PsiFields := {
  pf_avg10 : option f64;
  pf_avg60 : option f64;
  pf_avg300 : option f64;
  pf_total : option Z
}.
Definition no_fields : PsiFields :=
  {| pf_avg10 := None; pf_avg60 := None; pf_avg300 := None; pf_total := None |}.

Definition psi_token (resource token : string) (f : PsiFields) : result PsiFields CollectorError :=
  match split_once "=" token with
  | None => Err (Invalid resource ("invalid token `" ++ token ++ "`"))
  | Some (key, value) =>
      if String.eqb key "avg10" then
        let? x := parse_average resource key value in
        Ok {| pf_avg10 := Some x; pf_avg60 := pf_avg60 f; pf_avg300 := pf_avg300 f;
              pf_total := pf_total f |}
      else if String.eqb key "avg60" then
        let? x := parse_average resource key value in
        Ok {| pf_avg10 := pf_avg10 f; pf_avg60 := Some x; pf_avg300 := pf_avg300 f;
              pf_total := pf_total f |}
      else if String.eqb key "avg300" then
        let? x := parse_average resource key value in
        Ok {| pf_avg10 := pf_avg10 f; pf_avg60 := pf_avg60 f; pf_avg300 := Some x;
              pf_total := pf_total f |}
      else if String.eqb key "total" then
        let? n := ok_or (parse_u64 value)
          (Invalid resource ("invalid `total`: " ++ int_error false u64_max value)) in
        Ok {| pf_avg10 := pf_avg10 f; pf_avg60 := pf_avg60 f; pf_avg300 := pf_avg300 f;
              pf_total := Some n |}
      else Ok f
  end.
Fixpoint psi_tokens (resource : string) (tokens : list string) (f : PsiFields) :
    result PsiFields CollectorError :=
  match tokens with
  | [] => Ok f
  | token :: rest => let? f := psi_token resource token f in psi_tokens resource rest f
  end.

Definition psi_line_of (resource : string) (f : PsiFields) : result PsiLine CollectorError :=
  let? avg10 := psi_required resource "avg10" (pf_avg10 f) in
  let? avg60 := psi_required resource "avg60" (pf_avg60 f) in
  let? avg300 := psi_required resource "avg300" (pf_avg300 f) in
  let? total := psi_required resource "total" (pf_total f) in
  Ok {| psi_avg10 := avg10; psi_avg60 := avg60; psi_avg300 := avg300; psi_total_us := total |}.

Definition psi_line (resource line : string) (s : PsiSample) : result PsiSample CollectorError :=
  match split_whitespace line with
  | [] => Err (Invalid resource "empty line")
  | kind :: tokens =>
      if String.eqb kind "some" then
        let? f := psi_tokens resource tokens no_fields in
        let? parsed := psi_line_of resource f in
        Ok {| psi_some := Some parsed; psi_full := psi_full s |}
      else if String.eqb kind "full" then
        let? f := psi_tokens resource tokens no_fields in
        let? parsed := psi_line_of resource f in
        Ok {| psi_some := psi_some s; psi_full := Some parsed |}
      else Ok s
  end.
Fixpoint psi_lines (resource : string) (ls : list string) (s : PsiSample) :
    result PsiSample CollectorError :=
  match ls with
  | [] => Ok s
  | line :: rest => let? s := psi_line resource line s in psi_lines resource rest s
  end.

Definition psi_parse (resource input : string) : result PsiSample CollectorError :=
  let? s := psi_lines resource
    (List.filter (fun line => negb (str_empty (trim line))) (lines input))
    {| psi_some := None; psi_full := None |} in
  reject (is_none (psi_some s)) (Invalid resource "required `some` line is missing") ;?
  Ok s.

(** ** swap.rs *)

Record SwapEntry := {
  se_path : string;
  se_kind : string;
  se_size_bytes : Z;
  se_used_bytes : Z;
  se_priority : Z
}.
Inductive SwapConfiguration := SwapNone | Swapfile | Partition | SwapZram | SwapMixed.
Record SwapState := { sw_entries : list SwapEntry; sw_configuration : SwapConfiguration }.

(** "line <index + 1>" of an error *)
Definition line_number (index : nat) : string := ("line " ++ show_uint (Z.of_nat index + 1))%string.

Definition swap_u64 (value : string) (index : nat) : result Z CollectorError :=
  ok_or (parse_u64 value)
    (Invalid "swaps" (line_number index ++ " has invalid size: " ++ int_error false u64_max value)).
Definition kib_to_bytes (value : Z) (index : nat) : result Z CollectorError :=
  ok_or (u64_checked_mul value 1024)
    (Invalid "swaps" (line_number index ++ " size overflows bytes")).

Definition swap_line (index : nat) (line : string) : result SwapEntry CollectorError :=
  match split_whitespace line with
  | [path; kind; size; used; priority] =>
      let? size_kib := swap_u64 size index in
      let? used_kib := swap_u64 used index in
      let? priority := ok_or (parse_i32 priority)
        (Invalid "swaps" (line_number index ++ " has invalid priority: "
                          ++ int_error true (2 ^ 31 - 1) priority)) in
      let? size_bytes := kib_to_bytes size_kib index in
      let? used_bytes := kib_to_bytes used_kib index in
      Ok {| se_path := path; se_kind := kind; se_size_bytes := size_bytes;
            se_used_bytes := used_bytes; se_priority := priority |}
  | _ => Err (Invalid "swaps" (line_number index ++ " must contain five fields"))
  end.
Fixpoint swap_lines (index : nat) (ls : list string) (entries : list SwapEntry) :
    result (list SwapEntry) CollectorError :=
  match ls with
  | [] => Ok entries
  | line :: rest =>
      if (Nat.eqb index 0 && str_contains "filename" (to_ascii_lowercase line))
         || str_empty (trim line)
      then swap_lines (S index) rest entries
      else
        let? entry := swap_line index line in
        swap_lines (S index) rest (entries ++ [entry])
  end.

Definition summarize (entries : list SwapEntry) : SwapConfiguration :=
  let is_zram e := str_contains "/zram" (se_path e) in
  let is_file e := negb (is_zram e) && eq_ignore_ascii_case (se_kind e) "file" in
  let is_partition e := negb (is_zram e) && negb (eq_ignore_ascii_case (se_kind e) "file") in
  match entries with
  | [] => SwapNone
  | _ =>
      match existsb is_file entries, existsb is_partition entries, existsb is_zram entries with
      | true, false, false => Swapfile
      | false, true, false => Partition
      | false, false, true => SwapZram
      | _, _, _ => SwapMixed
      end
  end.

Definition swap_parse (input : string) : result SwapState CollectorError :=
  let? entries := swap_lines 0 (lines input) [] in
  Ok {| sw_entries := entries; sw_configuration := summarize entries |}.

(** ** zram.rs and zswap.rs: data *)

Record ZramDevice := {
  zd_name : string;
  zd_disk_size_bytes : option Z;
  zd_algorithm : option string;
  zd_original_data_bytes : option Z;
  zd_compressed_data_bytes : option Z;
  zd_memory_used_bytes : option Z
}.
Record ZramState := { zs_available : bool; zs_devices : list ZramDevice }.

Record ZswapState := {
  zw_available : bool;
  zw_enabled : option bool;
  zw_stored_pages : option Z;
  zw_pool_bytes : option Z
}.
Definition no_zram : ZramState := {| zs_available := false; zs_devices := [] |}.
Definition no_zswap : ZswapState :=
  {| zw_available := false; zw_enabled := None; zw_stored_pages := None; zw_pool_bytes := None |}.

Definition current_algorithm (value : string) : option string :=
  find_map (fun token => strip_prefix "[" token ≫= strip_suffix "]") (split_whitespace value).

Fixpoint mm_values (tokens : list string) : result (list Z) CollectorError :=
  match tokens with
  | [] => Ok []
  | token :: rest =>
      let? n := ok_or (parse_u64 token)
        (Invalid "zram" ("invalid mm_stat value: " ++ int_error false u64_max token)) in
      let? ns := mm_values rest in
      Ok (n :: ns)
  end.
(** the original, compressed and used bytes *)
Definition parse_mm_stat (input : string) :
    result (option Z * option Z * option Z) CollectorError :=
  let? values := mm_values (split_whitespace input) in
  Ok (nth_error values 0, nth_error values 1, nth_error values 2).

Definition parse_enabled (value : string) : option bool :=
  let word := to_ascii_lowercase (trim value) in
  if contains_str ["y"; "yes"; "1"; "true"]%string word then Some true
  else if contains_str ["n"; "no"; "0"; "false"]%string word then Some false
  else None.

Section Devices.
Context {W : Type} `{TelemetrySource W}.

Definition swap_collect (w : W) : result SwapState CollectorError :=
  let? text := required_read "swaps" "/proc/swaps" (read_to_string "/proc/swaps" w) in
  swap_parse text.

Definition collector_optional_u64 (path : string) (w : W) : result (option Z) CollectorError :=
  let? text := required_read "zram" path (read_optional path w) in
  match text with
  | None => Ok None
  | Some value =>
      let? n := ok_or (parse_u64 (trim value))
        (Invalid "zram" ("invalid value at `" ++ path ++ "`: "
                         ++ int_error false u64_max (trim value))) in
      Ok (Some n)
  end.

(** the body of the loop over the devices *)
Definition zram_device (name : string) (w : W) : result ZramDevice CollectorError :=
  let base := ("/sys/block/" ++ name)%string in
  let? disk_size := collector_optional_u64 (base ++ "/disksize") w in
  let? algorithm := required_read "zram" (base ++ "/comp_algorithm")
                      (read_optional (base ++ "/comp_algorithm") w) in
  let? mm_text := required_read "zram" (base ++ "/mm_stat")
                    (read_optional (base ++ "/mm_stat") w) in
  let? mm := match mm_text with
             | Some value => parse_mm_stat value
             | None => Ok (None, None, None)
             end in
  let '(original, compressed, used) := mm in
  Ok {| zd_name := name;
        zd_disk_size_bytes := disk_size;
        zd_algorithm := algorithm ≫= current_algorithm;
        zd_original_data_bytes := original;
        zd_compressed_data_bytes := compressed;
        zd_memory_used_bytes := used |}.
Fixpoint zram_devices (names : list string) (w : W) : result (list ZramDevice) CollectorError :=
  match names with
  | [] => Ok []
  | name :: rest =>
      let? device := zram_device name w in
      let? devices := zram_devices rest w in
      Ok (device :: devices)
  end.

Definition zram_collect (w : W) : result ZramState CollectorError :=
  match read_dir_names "/sys/block" w with
  | Err e => if bool_decide (io_kind e = NotFound) then Ok no_zram
             else Err (RequiredRead "zram" "/sys/block" e)
  | Ok names =>
      let? devices := zram_devices (List.filter (starts_with "zram") names) w in
      Ok {| zs_available := negb (bool_decide (length devices = 0%nat)); zs_devices := devices |}
  end.

(** the first of [paths] that exists *)
Fixpoint first_optional_u64 (paths : list string) (w : W) : result (option Z) CollectorError :=
  match paths with
  | [] => Ok None
  | path :: rest =>
      let? text := required_read "zswap" path (read_optional path w) in
      match text with
      | Some value =>
          let? n := ok_or (parse_u64 (trim value))
            (Invalid "zswap" ("invalid value at `" ++ path ++ "`: "
                              ++ int_error false u64_max (trim value))) in
          Ok (Some n)
      | None => first_optional_u64 rest w
      end
  end.

Definition zswap_collect (w : W) : result ZswapState CollectorError :=
  let? enabled_text := required_read "zswap" "/sys/module/zswap/parameters/enabled"
                         (read_optional "/sys/module/zswap/parameters/enabled" w) in
  match enabled_text with
  | None => Ok no_zswap
  | Some text =>
      let? stored_pages := first_optional_u64
        ["/sys/kernel/debug/zswap/stored_pages"; "/sys/kernel/mm/zswap/stored_pages"]%string w in
      let? pool_bytes := first_optional_u64
        ["/sys/kernel/debug/zswap/pool_total_size"; "/sys/kernel/mm/zswap/pool_total_size"]%string w in
      Ok {| zw_available := true; zw_enabled := parse_enabled text;
            zw_stored_pages := stored_pages; zw_pool_bytes := pool_bytes |}
  end.
End Devices.

(** ** process.rs *)

Definition PAGE_SIZE_BYTES : Z := 4096.

Record ProcessCollectionStats := {
  st_disappeared : Z;
  st_permission_denied : Z;
  st_invalid : Z
}.
Record ProcessCollection := {
  co_samples : list ProcessSample;
  co_stats : ProcessCollectionStats
}.
Definition stats_default : ProcessCollectionStats :=
  {| st_disappeared := 0; st_permission_denied := 0; st_invalid := 0 |}.

Record ParsedStat := {
  ps_pid : Z;
  ps_executable_name : string;
  ps_parent_pid : Z;
  ps_process_group_id : Z;
  ps_session_id : Z;
  ps_tty_nr : Z;
  ps_foreground_process_group_id : Z;
  ps_minor_faults : Z;
  ps_major_faults : Z;
  ps_process_ticks : Z;
  ps_start_time_ticks : Z;
  ps_rss_pages : Z
}.

Record CpuBaseline := {
  cb_start_time_ticks : Z;
  cb_process_ticks : Z;
  cb_system_ticks : Z
}.

(** ProcessCpuTracker.calculate: the baseline of [pid] is replaced first *)
Definition calculate (pid start_time_ticks process_ticks system_ticks logical_cpus : Z)
    (previous : gmap Z CpuBaseline) : gmap Z CpuBaseline * option f64 :=
  let current := {| cb_start_time_ticks := start_time_ticks; cb_process_ticks := process_ticks;
                    cb_system_ticks := system_ticks |} in
  (<[pid := current]> previous,
   before ← previous !! pid;
   if negb (cb_start_time_ticks before =? start_time_ticks) then None
   else
     process_delta ← u64_checked_sub process_ticks (cb_process_ticks before);
     system_delta ← u64_checked_sub system_ticks (cb_system_ticks before);
     if system_delta =? 0 then None
     else Some (f64_mul (f64_mul (f64_div (f64_of_Z process_delta) (f64_of_Z system_delta))
                                 (f64_of_Z logical_cpus)) (f64_of_Z 100))).

(** ProcessCpuTracker.retain *)
Definition retain (live_pids : list Z) (previous : gmap Z CpuBaseline) : gmap Z CpuBaseline :=
  filter (fun entry => fst entry ∈ live_pids) previous.

(** the processes whose smaps_rollup is read in this round, and the next cursor *)
Definition select_smaps (pids : list Z) (enabled : bool) (budget cursor : nat) : list Z * nat :=
  if negb enabled || Nat.eqb (length pids) 0 || Nat.eqb budget 0 then ([], cursor)
  else
    let count := Nat.min budget (length pids) in
    (map (fun offset => nth ((cursor + offset) mod length pids) pids 0) (seq 0 count),
     ((cursor + count) mod length pids)%nat).

Definition stat_invalid (message : string) : CollectorError := Invalid "process_stat" message.

(** [fields.get(index)?.parse()?] with the messages of [parse_stat] *)
Definition stat_field (parse : string -> option Z) (signed : bool) (max : Z)
    (fields : list string) (index : nat) (name : string) : result Z CollectorError :=
  let? text := ok_or (nth_error fields index) (stat_invalid ("missing `" ++ name ++ "`")) in
  ok_or (parse text) (stat_invalid ("invalid `" ++ name ++ "`: " ++ int_error signed max text)).
Definition stat_u64 : list string -> nat -> string -> result Z CollectorError :=
  stat_field parse_u64 false u64_max.
Definition stat_i32 : list string -> nat -> string -> result Z CollectorError :=
  stat_field parse_i32 true (2 ^ 31 - 1).
Definition stat_i64 : list string -> nat -> string -> result Z CollectorError :=
  stat_field parse_i64 true i64_max.

(** [input[..open]], [input[open + 1..close]] and [input[close + 1..]] *)
Definition split_stat (input : string) : result (string * string * string) CollectorError :=
  let? opened := ok_or (split_once "(" input) (stat_invalid "missing `(`") in
  let? _ := ok_or (rsplit_char ")" input) (stat_invalid "missing `)`") in
  let? closed := ok_or (rsplit_char ")" (snd opened)) (stat_invalid "invalid comm field") in
  Ok (fst opened, fst closed, snd closed).

Definition parse_stat (input : string) : result ParsedStat CollectorError :=
  let? parts := split_stat input in
  let '(before, executable_name, after) := parts in
  let? pid := ok_or (parse_u32 (trim before))
    (stat_invalid ("invalid PID: " ++ int_error false u32_max (trim before))) in
  let fields := split_whitespace after in
  let? user_ticks := stat_u64 fields 11 "utime" in
  let? system_ticks := stat_u64 fields 12 "stime" in
  let? rss_pages := stat_i64 fields 21 "rss" in
  let? ppid := stat_u64 fields 1 "ppid" in
  let? parent_pid := ok_or (then_some (ppid <=? u32_max) ppid) (stat_invalid "`ppid` overflows u32") in
  let? process_group_id := stat_i32 fields 2 "pgrp" in
  let? session_id := stat_i32 fields 3 "session" in
  let? tty_nr := stat_i64 fields 4 "tty_nr" in
  let? foreground := stat_i32 fields 5 "tpgid" in
  let? minor_faults := stat_u64 fields 7 "minflt" in
  let? major_faults := stat_u64 fields 9 "majflt" in
  let? process_ticks := ok_or (u64_checked_add user_ticks system_ticks)
    (stat_invalid "CPU ticks overflow") in
  let? start_time_ticks := stat_u64 fields 19 "starttime" in
  Ok {| ps_pid := pid; ps_executable_name := executable_name; ps_parent_pid := parent_pid;
        ps_process_group_id := process_group_id; ps_session_id := session_id;
        ps_tty_nr := tty_nr; ps_foreground_process_group_id := foreground;
        ps_minor_faults := minor_faults; ps_major_faults := major_faults;
        ps_process_ticks := process_ticks; ps_start_time_ticks := start_time_ticks;
        ps_rss_pages := rss_pages |}.

(** the value after the first line's [key:] *)
Definition find_field (input key : string) : option string :=
  find_map (fun line => pair ← split_once ":" line;
                        then_some (String.eqb (trim (fst pair)) key) (snd pair)) (lines input).

Definition parse_kib_field (metric input key : string) : result (option Z) CollectorError :=
  match find_field input key with
  | None => Ok None
  | Some raw =>
      match split_whitespace raw with
      | [number; "kB"%string] =>
          let? value := ok_or (parse_u64 number)
            (Invalid metric ("invalid `" ++ key ++ "`: " ++ int_error false u64_max number)) in
          let? bytes := ok_or (u64_checked_mul value 1024)
            (Invalid metric ("`" ++ key ++ "` overflows bytes")) in
          Ok (Some bytes)
      | _ => Err (Invalid metric ("`" ++ key ++ "` must contain a kB value"))
      end
  end.

Definition parse_plain_field (metric input key : string) : result (option Z) CollectorError :=
  match find_field input key with
  | None => Ok None
  | Some raw =>
      let? value := ok_or (parse_u64 (trim raw))
        (Invalid metric ("invalid `" ++ key ++ "`: " ++ int_error false u64_max (trim raw))) in
      Ok (Some value)
  end.

Record StatusValues := { sv_rss_bytes : option Z; sv_swap_bytes : option Z }.
Definition parse_status (input : string) : result StatusValues CollectorError :=
  let? rss := parse_kib_field "process_status" input "VmRSS" in
  let? swap := parse_kib_field "process_status" input "VmSwap" in
  Ok {| sv_rss_bytes := rss; sv_swap_bytes := swap |}.

Record IoValues := { io_read : option Z; io_write : option Z }.
Definition parse_io (input : string) : result IoValues CollectorError :=
  let? read := parse_plain_field "process_io" input "read_bytes" in
  let? write := parse_plain_field "process_io" input "write_bytes" in
  Ok {| io_read := read; io_write := write |}.

Record SmapsValues := { sm_pss_bytes : Z; sm_uss_bytes : option Z }.
Definition parse_smaps_rollup (input : string) : result SmapsValues CollectorError :=
  let? pss := parse_kib_field "smaps_rollup" input "Pss" in
  let? pss := ok_or pss (Invalid "smaps_rollup" "missing `Pss`") in
  let? clean := parse_kib_field "smaps_rollup" input "Private_Clean" in
  let? dirty := parse_kib_field "smaps_rollup" input "Private_Dirty" in
  Ok {| sm_pss_bytes := pss;
        sm_uss_bytes := clean ← clean; dirty ← dirty; u64_checked_add clean dirty |}.

(** [line.splitn(3, ':').nth(2)] of each line, the blank ones dropped *)
Definition parse_cgroup (input : string) : option string :=
  let paths := List.filter (fun path => negb (str_empty (trim path)))
    (omap (fun line => first ← split_once ":" line;
                       second ← split_once ":" (snd first);
                       Some (snd second)) (lines input)) in
  match paths with [] => None | _ => Some (join ";" paths) end.

Fixpoint sum_ticks (tokens : list string) (sum : Z) : result Z CollectorError :=
  match tokens with
  | [] => Ok sum
  | raw :: rest =>
      let? value := ok_or (parse_u64 raw)
        (Invalid "proc_stat" ("invalid CPU tick: " ++ int_error false u64_max raw)) in
      let? sum := ok_or (u64_checked_add sum value)
        (Invalid "proc_stat" "CPU tick total overflow") in
      sum_ticks rest sum
  end.

(** the filter that counts the logical CPUs *)
Definition is_cpu_line (line : string) : bool :=
  is_some_and (rest ← strip_prefix "cpu" line; head (split_whitespace rest))
    (fun id => negb (str_empty id) && str_all is_digit id).

Definition parse_system_cpu (input : string) : result (Z * Z) CollectorError :=
  let? aggregate := ok_or (find_first (starts_with "cpu ") (lines input))
    (Invalid "proc_stat" "aggregate CPU line is missing") in
  let? total := sum_ticks (tail (split_whitespace aggregate)) 0 in
  let logical := Z.of_nat (Nat.max (length (List.filter is_cpu_line (lines input))) 1) in
  reject (u32_max <? logical) (Invalid "proc_stat" "logical CPU count overflows") ;?
  Ok (total, logical).

Section Processes.
Context {W : Type} `{TelemetrySource W}.

Definition process_path (pid : Z) (name : string) : string :=
  ("/proc/" ++ show_uint pid ++ "/" ++ name)%string.

Definition read_process_file (pid : Z) (name : string) (w : W) : result string ProcessReadFailure :=
  match read_to_string (process_path pid name) w with
  | Ok value => Ok value
  | Err e => Err (classify_process_io e)
  end.

Definition optional_process_file (pid : Z) (name : string) (w : W) :
    result (option string) ProcessReadFailure :=
  match read_process_file pid name w with
  | Ok value => Ok (Some value)
  | Err (Disappeared | FailPermission) => Ok None
  | Err failure => Err failure
  end.

(** [.ok().flatten().and_then(parse)] of an optional file *)
Definition optional_parsed {A} (parse : string -> option A) (pid : Z) (name : string) (w : W) :
    option A :=
  match optional_process_file pid name w with
  | Ok (Some text) => parse text
  | _ => None
  end.
Definition result_ok {A E} (r : result A E) : option A :=
  match r with Ok a => Some a | Err _ => None end.

Definition collect_one (timestamp pid : Z) (read_smaps : bool) (system_cpu : option (Z * Z))
    (w : W) : eff (gmap Z CpuBaseline) ProcessSample ProcessReadFailure :=
  let! stat := eff_read (fun _ =>
    let? text := read_process_file pid "stat" w in
    let? stat := ok_or (result_ok (parse_stat text)) FailInvalid in
    reject (negb (ps_pid stat =? pid)) FailInvalid ;?
    Ok stat) in
  let! status := eff_read (fun _ =>
    let? text := read_process_file pid "status" w in
    ok_or (result_ok (parse_status text)) FailInvalid) in
  let io := optional_parsed (fun text => result_ok (parse_io text)) pid "io" w in
  let cgroup_path := optional_parsed parse_cgroup pid "cgroup" w in
  let smaps :=
    if read_smaps
    then optional_parsed (fun text => result_ok (parse_smaps_rollup text)) pid "smaps_rollup" w
    else None in
  let! cpu_percent := fun tracker =>
    match system_cpu with
    | None => (tracker, Ok None)
    | Some (system_ticks, logical_cpus) =>
        let '(tracker, percent) :=
          calculate pid (ps_start_time_ticks stat) (ps_process_ticks stat) system_ticks logical_cpus
            tracker in
        (tracker, Ok percent)
    end in
  let rss_from_stat :=
    if ps_rss_pages stat <? 0 then None else u64_checked_mul (ps_rss_pages stat) PAGE_SIZE_BYTES in
  eff_ret
    {| timestamp_ns := timestamp;
       Classifier.pid := pid;
       executable := result_ok (read_link (process_path pid "exe") w);
       executable_name := Some (ps_executable_name stat);
       parent_pid := Some (ps_parent_pid stat);
       process_group_id := Some (ps_process_group_id stat);
       session_id := Some (ps_session_id stat);
       tty_nr := Some (ps_tty_nr stat);
       foreground_process_group_id := Some (ps_foreground_process_group_id stat);
       start_time_ticks := Some (ps_start_time_ticks stat);
       Classifier.cgroup_path := cgroup_path;
       rss_bytes := match sv_rss_bytes status with Some n => Some n | None => rss_from_stat end;
       pss_bytes := sm_pss_bytes <$> smaps;
       uss_bytes := smaps ≫= sm_uss_bytes;
       swap_bytes := sv_swap_bytes status;
       minor_faults := Some (ps_minor_faults stat);
       major_faults := Some (ps_major_faults stat);
       Classifier.cpu_percent := cpu_percent;
       io_read_bytes := io ≫= io_read;
       io_write_bytes := io ≫= io_write |}.

Definition count_failure (failure : ProcessReadFailure) (stats : ProcessCollectionStats) :
    ProcessCollectionStats :=
  match failure with
  | Disappeared => {| st_disappeared := st_disappeared stats + 1;
                      st_permission_denied := st_permission_denied stats;
                      st_invalid := st_invalid stats |}
  | FailPermission => {| st_disappeared := st_disappeared stats;
                         st_permission_denied := st_permission_denied stats + 1;
                         st_invalid := st_invalid stats |}
  | FailInvalid => {| st_disappeared := st_disappeared stats;
                      st_permission_denied := st_permission_denied stats;
                      st_invalid := st_invalid stats + 1 |}
  end.

(** the loop over the pids: the live ones are those of the samples *)
Fixpoint collect_loop (timestamp : Z) (selected : list Z) (system_cpu : option (Z * Z)) (w : W)
    (pids : list Z) (collection : ProcessCollection) (tracker : gmap Z CpuBaseline) :
    gmap Z CpuBaseline * ProcessCollection :=
  match pids with
  | [] => (tracker, collection)
  | p :: rest =>
      let '(tracker, r) :=
        collect_one timestamp p (bool_decide (p ∈ selected)) system_cpu w tracker in
      let collection :=
        match r with
        | Ok sample => {| co_samples := co_samples collection ++ [sample];
                          co_stats := co_stats collection |}
        | Err failure => {| co_samples := co_samples collection;
                            co_stats := count_failure failure (co_stats collection) |}
        end in
      collect_loop timestamp selected system_cpu w rest collection tracker
  end.

(** [smaps_cursor] and [process_cpu] of a collector *)
Record Tracking := { tk_cursor : nat; tk_cpu : gmap Z CpuBaseline }.

(** [pids.sort_unstable()] of the numeric entries of /proc *)
Definition pids_of (names : list string) : list Z := sort_by Z.leb (omap parse_u32 names).

Definition process_collect (timestamp : Z) (read_smaps : bool) (smaps_budget : nat) (w : W) :
    eff Tracking ProcessCollection CollectorError :=
  let! names := eff_read (fun _ =>
    required_read "processes" "/proc" (read_dir_names "/proc" w)) in
  let pids := pids_of names in
  fun self =>
    let '(selected, cursor) := select_smaps pids read_smaps smaps_budget (tk_cursor self) in
    let system_cpu := text ← result_ok (read_to_string "/proc/stat" w);
                      result_ok (parse_system_cpu text) in
    let '(cpu, collection) :=
      collect_loop timestamp selected system_cpu w pids
        {| co_samples := []; co_stats := stats_default |} (tk_cpu self) in
    ({| tk_cursor := cursor; tk_cpu := retain (map Classifier.pid (co_samples collection)) cpu |},
     Ok collection).
End Processes.

(** ** system.rs *)

Record SystemSample := {
  ss_timestamp_ns : Z;
  ss_mem_total_bytes : Z;
  ss_mem_available_bytes : Z;
  ss_anon_bytes : option Z;
  ss_file_cache_bytes : option Z;
  ss_slab_bytes : option Z;
  ss_swap_used_bytes : option Z;
  ss_swap_in_pages : option Z;
  ss_swap_out_pages : option Z;
  ss_major_faults : option Z;
  ss_minor_faults : option Z;
  ss_pgscan : option Z;
  ss_pgsteal : option Z;
  ss_workingset_refault : option Z;
  ss_psi_memory : option PsiSample;
  ss_psi_cpu : option PsiSample;
  ss_psi_io : option PsiSample;
  ss_swap : SwapState;
  ss_zram : ZramState;
  ss_zswap : ZswapState;
  ss_capabilities_unavailable : list string
}.

Section System.
Context {W : Type} `{TelemetrySource W}.

(** the sample, with [unavailable] extended when there is none *)
Definition collect_psi (path metric : string) (unavailable : list string) (w : W) :
    option PsiSample * list string :=
  match read_to_string path w with
  | Ok value =>
      match psi_parse metric value with
      | Ok sample => (Some sample, unavailable)
      | Err _ => (None, unavailable ++ [metric])
      end
  | Err _ => (None, unavailable ++ [metric])
  end.

(** [collect(..).unwrap_or_else(|_| { unavailable.push(..); default })] *)
Definition collect_or {A} (r : result A CollectorError) (default : A) (name : string)
    (unavailable : list string) : A * list string :=
  match r with Ok a => (a, unavailable) | Err _ => (default, unavailable ++ [name]) end.

Definition sample_system (timestamp : Z) (w : W) : result SystemSample CollectorError :=
  let? meminfo_text := required_read "meminfo" "/proc/meminfo" (read_to_string "/proc/meminfo" w) in
  let? vmstat_text := required_read "vmstat" "/proc/vmstat" (read_to_string "/proc/vmstat" w) in
  let? meminfo := meminfo_parse meminfo_text in
  let? vmstat := vmstat_parse vmstat_text in
  let? swap := swap_collect w in
  let '(psi_memory, unavailable) := collect_psi "/proc/pressure/memory" "psi_memory" [] w in
  let '(psi_cpu, unavailable) := collect_psi "/proc/pressure/cpu" "psi_cpu" unavailable w in
  let '(psi_io, unavailable) := collect_psi "/proc/pressure/io" "psi_io" unavailable w in
  let '(zram, unavailable) := collect_or (zram_collect w) no_zram "zram_statistics" unavailable in
  let unavailable := push_if (negb (zs_available zram)) "zram" unavailable in
  let '(zswap, unavailable) := collect_or (zswap_collect w) no_zswap "zswap_statistics" unavailable in
  let unavailable :=
    if negb (zw_available zswap) then unavailable ++ ["zswap"%string]
    else push_if (is_none (zw_stored_pages zswap) || is_none (zw_pool_bytes zswap))
           "zswap_statistics" unavailable in
  Ok {| ss_timestamp_ns := timestamp;
        ss_mem_total_bytes := mi_mem_total_bytes meminfo;
        ss_mem_available_bytes := mi_mem_available_bytes meminfo;
        ss_anon_bytes := mi_anon_bytes meminfo;
        ss_file_cache_bytes := mi_file_cache_bytes meminfo;
        ss_slab_bytes := mi_slab_bytes meminfo;
        ss_swap_used_bytes := mi_swap_used_bytes meminfo;
        ss_swap_in_pages := vs_swap_in_pages vmstat;
        ss_swap_out_pages := vs_swap_out_pages vmstat;
        ss_major_faults := vs_major_faults vmstat;
        ss_minor_faults := vs_minor_faults vmstat;
        ss_pgscan := vs_pgscan vmstat;
        ss_pgsteal := vs_pgsteal vmstat;
        ss_workingset_refault := vs_workingset_refault vmstat;
        ss_psi_memory := psi_memory;
        ss_psi_cpu := psi_cpu;
        ss_psi_io := psi_io;
        ss_swap := swap;
        ss_zram := zram;
        ss_zswap := zswap;
        ss_capabilities_unavailable := sort_dedup unavailable |}.

(** SystemCollector.sample_processes *)
Definition sample_processes (timestamp : Z) (read_smaps : bool) (smaps_budget : nat) (w : W) :
    eff Tracking ProcessCollection CollectorError :=
  process_collect timestamp read_smaps smaps_budget w.
End System.

(** [unix_timestamp_ns] of the nanoseconds since the epoch, [None] before it *)
Definition unix_timestamp_ns (since_epoch : option Z) : result Z CollectorError :=
  let? nanos := ok_or since_epoch Timestamp in
  ok_or (then_some (nanos <=? i64_max) nanos) Timestamp.
(** ** Lemmas *)
Module Facts.

(** *** The smaps budget *)

(** every position is some distance ahead of the cursor *)
Lemma position_ahead (n cursor j : nat) : (j < n)%nat ->
  exists i, (i < n)%nat /\ ((cursor + i) mod n = j)%nat.
Proof.
  intros Hj.
  pose proof (Nat.mod_upper_bound cursor n ltac:(lia)) as Hc.
  pose proof (Nat.div_mod_eq cursor n) as Hd.
  destruct (decide (cursor mod n <= j)%nat) as [Hle|Hgt].
  - exists (j - cursor mod n)%nat. split; [lia |].
    replace (cursor + (j - cursor mod n))%nat with (j + (cursor / n) * n)%nat by lia.
    rewrite Nat.Div0.mod_add. by apply Nat.mod_small.
  - exists (j + n - cursor mod n)%nat. split; [lia |].
    replace (cursor + (j + n - cursor mod n))%nat with (j + (cursor / n + 1) * n)%nat by lia.
    rewrite Nat.Div0.mod_add. by apply Nat.mod_small.
Qed.
(** what successive rounds over the same processes select *)
Fixpoint smaps_rounds (m : nat) (pids : list Z) (budget cursor : nat) : list (list Z) :=
  match m with
  | O => []
  | S m =>
      let '(selected, cursor) := select_smaps pids true budget cursor in
      selected :: smaps_rounds m pids budget cursor
  end.

Section Rotation.
Context (pids : list Z) (budget : nat).
Context (Hpids : pids <> []) (Hbudget : budget <> 0%nat).

Lemma select_smaps_eq cursor :
  select_smaps pids true budget cursor =
  (map (fun offset => nth ((cursor + offset) mod length pids) pids 0)
     (seq 0 (Nat.min budget (length pids))),
   ((cursor + Nat.min budget (length pids)) mod length pids)%nat).
Proof using Hpids Hbudget.
  unfold select_smaps. destruct pids as [|p l]; [done |]. by destruct budget.
Qed.

Lemma rounds_cover m : forall cursor i, (i < m * Nat.min budget (length pids))%nat ->
  exists selected, selected ∈ smaps_rounds m pids budget cursor /\
                   nth ((cursor + i) mod length pids) pids 0 ∈ selected.
Proof using Hpids Hbudget.
  induction m as [|m IH]; intros cursor i Hi; [lia |].
  cbn [smaps_rounds]. rewrite select_smaps_eq.
  set (count := Nat.min budget (length pids)) in *.
  destruct (decide (i < count)%nat) as [Hlt|Hge].
  - eexists. split; [by left |]. apply list_elem_of_In, in_map_iff. exists i.
    split; [done |]. apply in_seq. lia.
  - destruct (IH ((cursor + count) mod length pids)%nat (i - count)%nat ltac:(lia))
      as (selected & Hs & Hin).
    exists selected. split; [by right |].
    rewrite Nat.Div0.add_mod_idemp_l in Hin.
    by replace (cursor + count + (i - count))%nat with (cursor + i)%nat in Hin by lia.
Qed.

End Rotation.

(** *** The loop over the processes *)

Definition failures (s : ProcessCollectionStats) : Z :=
  st_disappeared s + st_permission_denied s + st_invalid s.

Lemma count_failure_total failure s : failures (count_failure failure s) = failures s + 1.
Proof. destruct failure; unfold failures; simpl; lia. Qed.

Section Loop.
Context {W : Type} `{TelemetrySource W}.
Context (ts : Z) (selected : list Z) (system_cpu : option (Z * Z)) (w : W).

Lemma collect_one_pid p rs tracker tracker' sample :
  collect_one ts p rs system_cpu w tracker = (tracker', Ok sample) -> Classifier.pid sample = p.
Proof. unfold collect_one. intros Hr. inv_eff. by destruct system_cpu as [[]|]; simplify_eq. Qed.

Lemma collect_loop_accounts pids : forall c tracker tracker' c',
  collect_loop ts selected system_cpu w pids c tracker = (tracker', c') ->
  (exists sub, map Classifier.pid (co_samples c') = map Classifier.pid (co_samples c) ++ sub /\
               sub `sublist_of` pids) /\
  Z.of_nat (length (co_samples c')) + failures (co_stats c') =
  Z.of_nat (length (co_samples c)) + failures (co_stats c) + Z.of_nat (length pids).
Proof.
  induction pids as [|p pids IH]; intros c tracker tracker' c' Hr; cbn [collect_loop] in Hr.
  - simplify_eq. split; [exists []; by rewrite app_nil_r | simpl; lia].
  - destruct (collect_one _ _ _ _ _ _) as [tr [sample|failure]] eqn:E.
    + apply IH in Hr as [(sub & Hmap & Hsub) Hcount]. apply collect_one_pid in E. simpl in *. split.
      * exists (p :: sub). rewrite Hmap, map_app, <- app_assoc. simpl. rewrite E.
        split; [done | by apply sublist_skip].
      * rewrite length_app in Hcount. simpl in *. lia.
    + apply IH in Hr as [(sub & Hmap & Hsub) Hcount]. simpl in *. split.
      * exists sub. split; [done | by apply sublist_cons].
      * rewrite count_failure_total in Hcount. lia.
Qed.
End Loop.

Lemma retain_dom live previous p : p ∈ dom (retain live previous) -> p ∈ live.
Proof.
  unfold retain. rewrite elem_of_dom. intros [b Hb].
  apply map_lookup_filter_Some in Hb as [_ Hp]. exact Hp.
Qed.

(** *** /proc/<pid>/stat *)

(** the fields after the command name; those the collector ignores are zero *)
Definition stat_fields (s : ParsedStat) (utime stime : Z) : list string :=
  ["S"%string; show_uint (ps_parent_pid s); show_int (ps_process_group_id s);
   show_int (ps_session_id s); show_int (ps_tty_nr s); show_int (ps_foreground_process_group_id s);
   "0"%string; show_uint (ps_minor_faults s); "0"%string; show_uint (ps_major_faults s); "0"%string;
   show_uint utime; show_uint stime; "0"%string; "0"%string; "20"%string; "0"%string; "1"%string;
   "0"%string; show_uint (ps_start_time_ticks s); "0"%string; show_int (ps_rss_pages s)].
Definition render_stat (s : ParsedStat) (utime stime : Z) : string :=
  (show_uint (ps_pid s) ++ " (" ++ ps_executable_name s ++ ") "
   ++ join " " (stat_fields s utime stime))%string.

Definition i32 (x : Z) : Prop := - 2 ^ 31 <= x <= 2 ^ 31 - 1.
(** what the kernel can report *)
Definition stat_ok (s : ParsedStat) (utime stime : Z) : Prop :=
  u32 (ps_pid s) /\ u32 (ps_parent_pid s) /\ i32 (ps_process_group_id s) /\
  i32 (ps_session_id s) /\ i64 (ps_tty_nr s) /\ i32 (ps_foreground_process_group_id s) /\
  u64 (ps_minor_faults s) /\ u64 (ps_major_faults s) /\ u64 utime /\ u64 stime /\
  ps_process_ticks s = utime + stime /\ u64 (ps_process_ticks s) /\
  u64 (ps_start_time_ticks s) /\ i64 (ps_rss_pages s).

Lemma stat_u64_show fields index name n : u64 n ->
  nth_error fields index = Some (show_uint n) -> stat_u64 fields index name = Ok n.
Proof.
  intros Hn Hf. unfold stat_u64, stat_field, parse_u64. rewrite Hf. cbn [ok_or].
  rewrite parse_unsigned_show by exact Hn. done.
Qed.
Lemma stat_i32_show fields index name n : i32 n ->
  nth_error fields index = Some (show_int n) -> stat_i32 fields index name = Ok n.
Proof.
  intros Hn Hf. unfold stat_i32, stat_field, parse_i32. rewrite Hf. cbn [ok_or].
  unfold i32 in Hn. rewrite parse_signed_show by lia. done.
Qed.
Lemma stat_i64_show fields index name n : i64 n ->
  nth_error fields index = Some (show_int n) -> stat_i64 fields index name = Ok n.
Proof.
  intros Hn Hf. unfold stat_i64, stat_field, parse_i64. rewrite Hf. cbn [ok_or].
  rewrite parse_signed_show by (unfold_int; lia). done.
Qed.

(** white space before the first token does not matter *)
Lemma split_whitespace_cons c s : is_ws c = true ->
  split_whitespace (String c s) = split_whitespace s.
Proof. intros Hc. unfold split_whitespace. cbn [split_ws_from]. by rewrite Hc. Qed.

Lemma trim_end_plain s : str_all (fun c => negb (is_ws c)) s = true ->
  trim_end (s ++ " ") = s.
Proof.
  induction s as [|c s IH]; [done |]. cbn [str_all]. intros Hs.
  apply andb_true_iff in Hs as [Hc Hs]. rewrite app_str_cons. cbn [trim_end].
  rewrite (IH Hs). apply negb_true_iff in Hc. rewrite Hc. by destruct s.
Qed.
Lemma trim_start_plain s r : token s = true -> trim_start (s ++ r) = (s ++ r)%string.
Proof.
  destruct s as [|c s]; [done |]. unfold token. cbn [str_all]. intros Hc.
  apply andb_true_iff in Hc as [_ Hc]. apply andb_true_iff in Hc as [Hc _].
  apply negb_true_iff in Hc. rewrite app_str_cons. cbn [trim_start]. by rewrite Hc.
Qed.
Lemma trim_pid n : 0 <= n -> trim (show_uint n ++ " ") = show_uint n.
Proof.
  intros Hn. unfold trim. rewrite trim_start_plain by by apply show_uint_token.
  by apply trim_end_plain, show_uint_no_ws.
Qed.

(** the fields hold no parenthesis *)
Definition no_paren (c : ascii) : bool := negb (Ascii.eqb ")" c) && negb (Ascii.eqb "(" c).
Lemma digit_no_paren c : is_digit c = true -> no_paren c = true.
Proof. destruct c as [[] [] [] [] [] [] [] []]; vm_compute; done. Qed.
Lemma show_int_no_paren n : str_all no_paren (show_int n) = true.
Proof.
  unfold show_int. destruct (n <? 0) eqn:E.
  - apply Z.ltb_lt in E. cbn [str_all]. apply andb_true_iff. split; [done |].
    apply str_all_show_uint; [exact digit_no_paren | lia].
  - apply Z.ltb_ge in E. apply str_all_show_uint; [exact digit_no_paren | done].
Qed.
Lemma str_all_join p sep l : str_all p sep = true -> Forall (fun s => str_all p s = true) l ->
  str_all p (join sep l) = true.
Proof.
  intros Hsep. induction 1 as [|x l Hx Hl IH]; [done |].
  cbn [join]. destruct l as [|y l]; [done |]. by rewrite !str_all_app, Hx, Hsep, IH.
Qed.

Lemma stat_fields_plain s utime stime : stat_ok s utime stime ->
  Forall (fun t => token t = true /\ str_all no_paren t = true) (stat_fields s utime stime).
Proof.
  intros Hok. unfold stat_ok, u64, u32 in Hok.
  assert (forall n, 0 <= n -> token (show_uint n) = true /\ str_all no_paren (show_uint n) = true)
    as Hu by (intros n Hn; split; [by apply show_uint_token |
                                   by apply str_all_show_uint; [exact digit_no_paren |]]).
  assert (forall n, token (show_int n) = true /\ str_all no_paren (show_int n) = true) as Hi
    by (intros n; split; [apply show_int_token | apply show_int_no_paren]).
  unfold stat_fields.
  repeat (apply Forall_cons; [first [apply Hi | apply Hu; lia | by vm_compute] |]). done.
Qed.

Lemma split_stat_render s utime stime : stat_ok s utime stime ->
  split_stat (render_stat s utime stime) =
  Ok (show_uint (ps_pid s) ++ " ", ps_executable_name s,
      " " ++ join " " (stat_fields s utime stime))%string.
Proof.
  intros Hok. pose proof (stat_fields_plain _ _ _ Hok) as Hplain.
  assert (str_contains_char ")" (" " ++ join " " (stat_fields s utime stime)) = false) as Hclose.
  { unfold str_contains_char. apply negb_false_iff. rewrite str_all_app. apply andb_true_iff.
    split; [done |]. apply (str_all_impl no_paren).
    - intros c Hc. unfold no_paren in Hc. by apply andb_true_iff in Hc as [Hc _].
    - apply str_all_join; [done |]. eapply Forall_impl; [| exact Hplain]. by intros x [_ ?]. }
  unfold split_stat, render_stat.
  set (after := (" " ++ join " " (stat_fields s utime stime))%string) in *.
  assert ((show_uint (ps_pid s) ++ " (" ++ ps_executable_name s ++ ") "
           ++ join " " (stat_fields s utime stime))%string =
          ((show_uint (ps_pid s) ++ " ") ++ String "(" (ps_executable_name s ++ String ")" after))%string)
    as ->.
  { unfold after. rewrite <- !app_str_assoc. autorewrite with str. done. }
  rewrite split_once_char.
  2: { rewrite str_all_app. apply andb_true_iff. split; [| done].
       apply str_all_show_uint; [| unfold stat_ok, u32 in Hok; lia].
       intros c Hc. apply digit_no_paren in Hc. unfold no_paren in Hc.
       by apply andb_true_iff in Hc as [_ Hc]. }
  cbn [ok_or snd fst].
  assert (forall a, rsplit_char ")" (a ++ String ")" after) = Some (a, after)) as Hr
    by (intros a; by apply rsplit_char_app).
  rewrite <- app_str_cons, app_str_assoc, Hr. cbn [ok_or]. rewrite Hr. done.
Qed.

(** *** /proc/stat *)

Lemma starts_with_app p s : starts_with p (p ++ s) = true.
Proof. unfold starts_with. by rewrite strip_prefix_app. Qed.

Lemma not_cpu_line line : starts_with "cpu" line = false -> is_cpu_line line = false.
Proof. unfold starts_with, is_cpu_line. by destruct (strip_prefix "cpu" line). Qed.

(** no token is empty *)
Lemma split_ws_nonempty s : forall cur t, t ∈ split_ws_from cur s -> t <> ""%string.
Proof.
  assert (forall cur t, t ∈ (if str_empty cur then [] else [cur]) -> t <> ""%string) as Hc.
  { intros cur t. destruct (str_empty cur) eqn:E; [by intros Hin; apply elem_of_nil in Hin |].
    intros Hin. apply list_elem_of_singleton in Hin as ->. by apply String.eqb_neq. }
  induction s as [|c s IH]; intros cur t; cbn [split_ws_from]; [apply Hc |].
  destruct (is_ws c); [| apply IH]. rewrite elem_of_app. intros [H | H]; [by eapply Hc | by eapply IH].
Qed.

Lemma digits_nonempty_count t : token t = true -> str_all is_digit t = true ->
  negb (str_empty t) && str_all is_digit t = true.
Proof. unfold token. intros Ht ->. by apply andb_true_iff in Ht as [-> _]. Qed.

(** a token of digits after "cpu" makes a line count *)
Lemma cpu_line_counts t rest : token t = true -> str_all is_digit t = true ->
  is_cpu_line ("cpu" ++ t ++ " " ++ rest) = true.
Proof.
  intros Ht Hd. unfold is_cpu_line. rewrite strip_prefix_app. cbn [option_bind mbind].
  assert (head (split_whitespace (t ++ " " ++ rest)) = Some t) as ->.
  { unfold split_whitespace. pose proof Ht as Hn. unfold token in Hn.
    apply andb_true_iff in Hn as [Hne Hws]. rewrite split_ws_token by done.
    rewrite app_str_cons. autorewrite with str.
    cbn [split_ws_from]. change (is_ws " ") with true. cbn iota.
    apply negb_true_iff in Hne. by rewrite Hne. }
  cbn [is_some_and]. by apply digits_nonempty_count.
Qed.

(** so does the aggregate line, whose name is "cpu" alone *)
Lemma aggregate_counts line first ticks :
  starts_with "cpu " line = true -> split_whitespace line = "cpu"%string :: first :: ticks ->
  str_all is_digit first = true -> is_cpu_line line = true.
Proof.
  unfold starts_with. destruct (strip_prefix "cpu " line) as [r|] eqn:E; [| done]. intros _.
  apply strip_prefix_some in E as ->. intros Hs Hd.
  change ("cpu " ++ r)%string with ("cpu" ++ String " " r)%string in *.
  unfold is_cpu_line. rewrite strip_prefix_app. cbn [option_bind mbind].
  unfold split_whitespace in Hs. rewrite split_ws_token in Hs by done.
  cbn [split_ws_from] in Hs. change (is_ws " ") with true in Hs.
  cbn iota in Hs. change (str_empty ("" ++ "cpu")) with false in Hs. cbn iota in Hs.
  assert (split_ws_from "" r = first :: ticks) as Hr by (by injection Hs). clear Hs. rename Hr into Hs.
  rewrite split_whitespace_cons by done. unfold split_whitespace. rewrite Hs. cbn [head is_some_and].
  rewrite Hd, andb_true_r. destruct first; [| done]. exfalso.
  apply (split_ws_nonempty r "" ""); [rewrite Hs; by left | done].
Qed.

Lemma filter_all {A} (p : A -> bool) l : Forall (fun x => p x = true) l -> List.filter p l = l.
Proof. induction 1 as [|x l Hx Hl IH]; [done |]. cbn. by rewrite Hx, IH. Qed.
Lemma filter_none {A} (p : A -> bool) l : Forall (fun x => p x = false) l -> List.filter p l = [].
Proof. induction 1 as [|x l Hx Hl IH]; [done |]. cbn. by rewrite Hx, IH. Qed.

(** *** /proc/meminfo *)

Definition meminfo_entry (entry : string * Z) : string :=
  (fst entry ++ ": " ++ show_uint (snd entry) ++ " kB")%string.
Definition render_meminfo (entries : list (string * Z)) : string :=
  foldr (fun entry rest => (meminfo_entry entry ++ newline ++ rest)%string) ""%string entries.

(** a key without white space and colons, and a value in KiB that fits in bytes *)
Definition entry_ok (entry : string * Z) : Prop :=
  token (fst entry) = true /\ str_all (fun c => negb (Ascii.eqb ":" c)) (fst entry) = true /\
  0 <= snd entry /\ snd entry * 1024 <= u64_max.

(** the bytes of the wanted keys *)
Definition bytes_of (entries : list (string * Z)) : gmap string Z :=
  list_to_map (map (fun entry => (fst entry, snd entry * 1024))
                 (List.filter (fun entry => contains_str wanted (fst entry)) entries)).

Lemma ws_plain c : negb (is_ws c) = true -> plain_char c = true.
Proof. destruct c as [[] [] [] [] [] [] [] []]; vm_compute; done. Qed.

Lemma token_plain t : token t = true -> str_all plain_char t = true.
Proof.
  unfold token. intros Ht. apply andb_true_iff in Ht as [_ Ht].
  eapply str_all_impl; [exact ws_plain | done].
Qed.

Lemma trim_token t : token t = true -> trim t = t.
Proof.
  intros Ht. unfold trim. pose proof (trim_start_plain t "" Ht) as Hs.
  rewrite app_str_nil_r in Hs. rewrite Hs.
  unfold token in Ht. apply andb_true_iff in Ht as [_ Ht]. clear Hs.
  induction t as [|c t IH]; [done |]. cbn [str_all] in Ht. apply andb_true_iff in Ht as [Hc Ht].
  apply negb_true_iff in Hc. cbn [trim_end]. rewrite (IH Ht), Hc. by destruct t.
Qed.

Lemma meminfo_entry_line entry values : entry_ok entry ->
  meminfo_line (meminfo_entry entry) values =
  Ok (if contains_str wanted (fst entry) then <[fst entry := snd entry * 1024]> values else values).
Proof.
  destruct entry as [key kib]. intros (Ht & Hcolon & Hn & Hmax). cbn [fst snd] in *.
  unfold meminfo_line, meminfo_entry. cbn [fst snd].
  change (": " ++ show_uint kib ++ " kB")%string with (String ":" (" " ++ show_uint kib ++ " kB")).
  rewrite split_once_char by done. rewrite trim_token by done.
  destruct (contains_str wanted key); [| done]. cbn [negb].
  assert (split_whitespace (" " ++ show_uint kib ++ " kB") = [show_uint kib; "kB"%string]) as ->.
  { change (" " ++ show_uint kib ++ " kB")%string
      with (String " " (join " " [show_uint kib; "kB"%string])).
    rewrite split_whitespace_cons by done. apply split_whitespace_join.
    repeat constructor. by apply show_uint_token. }
  unfold parse_u64. rewrite parse_unsigned_show by lia. cbn [ok_or].
  unfold u64_checked_mul. apply Z.leb_le in Hmax. by rewrite Hmax.
Qed.

Lemma meminfo_lines_render entries : forall values,
  Forall entry_ok entries -> NoDup (map fst entries) ->
  (forall entry, entry ∈ entries -> values !! fst entry = None) ->
  meminfo_lines (lines (render_meminfo entries)) values = Ok (bytes_of entries ∪ values).
Proof.
  induction entries as [|entry entries IH]; intros values Hok Hnd Hfresh.
  - cbn. by rewrite map_empty_union.
  - apply Forall_cons_iff in Hok as [He Hok]. cbn [map] in Hnd. apply list.NoDup_cons in Hnd as [Hni Hnd].
    cbn [render_meminfo foldr]. rewrite lines_cons.
    2: { destruct He as (Ht & _ & Hn & _). unfold meminfo_entry. rewrite !str_all_app.
         rewrite (token_plain _ Ht), (token_plain _ (show_uint_token _ Hn)). done. }
    cbn [meminfo_lines]. rewrite meminfo_entry_line by done.
    change (foldr _ _ entries) with (render_meminfo entries). rewrite IH; [| done | done |].
    + unfold bytes_of. cbn [List.filter]. destruct (contains_str wanted (fst entry)); [| done].
      cbn [map list_to_map foldr]. f_equal. rewrite <- insert_union_r.
      * by rewrite insert_union_l.
      * apply not_elem_of_list_to_map. rewrite map_map. cbn [fst]. intros Hin.
        apply Hni. apply list_elem_of_In, in_map_iff in Hin as (x & Hx & Hin).
        apply filter_In in Hin as [Hin _]. apply list_elem_of_In, in_map_iff. by exists x.
    + intros x Hx. destruct (contains_str wanted (fst entry)).
      * rewrite lookup_insert_ne; [apply Hfresh; by right |]. intros Heq. apply Hni. rewrite Heq.
        apply list_elem_of_In, in_map_iff. exists x. split; [done | by apply list_elem_of_In].
      * apply Hfresh. by right.
Qed.

Lemma NoDup_map_filter {A B} (f : A -> B) (p : A -> bool) l :
  NoDup (map f l) -> NoDup (map f (List.filter p l)).
Proof.
  induction l as [|e l IH]; [done |]. cbn [map List.filter]. intros Hnd.
  apply list.NoDup_cons in Hnd as [Hni Hnd].
  destruct (p e); [| by apply IH]. cbn [map]. apply list.NoDup_cons.
  split; [| by apply IH]. intros Hin. apply Hni.
  apply list_elem_of_In, in_map_iff in Hin as (x & Hx & Hin).
  apply filter_In in Hin as [Hin _]. apply list_elem_of_In, in_map_iff. by exists x.
Qed.

Lemma bytes_of_perm entries entries' : NoDup (map fst entries) -> entries ≡ₚ entries' ->
  bytes_of entries = bytes_of entries'.
Proof.
  intros Hnd Hp. unfold bytes_of. apply list_to_map_proper.
  - rewrite map_map. cbn [fst]. by apply NoDup_map_filter.
  - apply Permutation_map. clear Hnd. induction Hp; cbn [List.filter].
    + done.
    + destruct (contains_str wanted (fst x)); [by constructor | done].
    + destruct (contains_str wanted (fst x)), (contains_str wanted (fst y)); try done. constructor.
    + by etrans.
Qed.

(** *** /proc/pressure *)

Definition percent_value (x : f64) : Prop :=
  f64_is_finite x = true /\ f64_in_range f64_zero (f64_of_Z 100) x = true.
Definition psi_line_bounded (l : PsiLine) : Prop :=
  percent_value (psi_avg10 l) /\ percent_value (psi_avg60 l) /\ percent_value (psi_avg300 l).
Definition fields_bounded (f : PsiFields) : Prop :=
  forall x, pf_avg10 f = Some x \/ pf_avg60 f = Some x \/ pf_avg300 f = Some x -> percent_value x.

Lemma parse_average_bounded resource key value x :
  parse_average resource key value = Ok x -> percent_value x.
Proof.
  unfold parse_average. destruct (parse_f64 value) as [y|]; [| done]. cbn [ok_or].
  destruct (f64_is_finite y && _) eqn:E; [| done]. intros [= <-].
  by apply andb_true_iff in E.
Qed.

Lemma psi_token_bounded resource token f f' :
  psi_token resource token f = Ok f' -> fields_bounded f -> fields_bounded f'.
Proof.
  unfold psi_token. intros Hr Hf. destruct (split_once "=" token) as [[key value]|]; [| done].
  repeat (destruct (String.eqb key _); [
    first [ destruct (parse_average resource key value) as [y|] eqn:E; [| done];
            apply parse_average_bounded in E
          | destruct (ok_or _ _); [| done] ];
    simplify_eq; intros z [Hz | [Hz | Hz]]; simpl in Hz; simplify_eq; try done; apply Hf; tauto |]).
  by simplify_eq.
Qed.

Lemma psi_tokens_bounded resource tokens : forall f f',
  psi_tokens resource tokens f = Ok f' -> fields_bounded f -> fields_bounded f'.
Proof.
  induction tokens as [|t tokens IH]; intros f f' Hr Hf; cbn [psi_tokens] in Hr; [by simplify_eq |].
  destruct (psi_token resource t f) as [g|] eqn:E; [| done].
  eapply IH; [exact Hr |]. by eapply psi_token_bounded.
Qed.

Lemma psi_line_of_bounded resource f l :
  psi_line_of resource f = Ok l -> fields_bounded f -> psi_line_bounded l.
Proof.
  unfold psi_line_of, psi_required. intros Hr Hf.
  destruct (pf_avg10 f) eqn:E10, (pf_avg60 f) eqn:E60, (pf_avg300 f) eqn:E300, (pf_total f);
    cbn [ok_or] in Hr; try done. simplify_eq. repeat split; apply Hf; auto.
Qed.

Definition sample_bounded (s : PsiSample) : Prop :=
  forall l, psi_some s = Some l \/ psi_full s = Some l -> psi_line_bounded l.

Lemma psi_line_sample_bounded resource line s s' :
  psi_line resource line s = Ok s' -> sample_bounded s -> sample_bounded s'.
Proof.
  unfold psi_line. intros Hr Hs. destruct (split_whitespace line) as [|kind tokens]; [done |].
  assert (fields_bounded no_fields) as H0 by (intros x [? | [? | ?]]; done).
  repeat (destruct (String.eqb kind _); [
    destruct (psi_tokens resource tokens no_fields) as [f|] eqn:Et; [| done];
    destruct (psi_line_of resource f) as [l|] eqn:El; [| done];
    pose proof (psi_line_of_bounded _ _ _ El (psi_tokens_bounded _ _ _ _ Et H0));
    simplify_eq; intros l' [Hl | Hl]; simpl in Hl; simplify_eq; auto; apply Hs; auto |]).
  by simplify_eq.
Qed.

Lemma psi_lines_bounded resource ls : forall s s',
  psi_lines resource ls s = Ok s' -> sample_bounded s -> sample_bounded s'.
Proof.
  induction ls as [|l ls IH]; intros s s' Hr Hs; cbn [psi_lines] in Hr; [by simplify_eq |].
  destruct (psi_line resource l s) as [t|] eqn:E; [| done].
  eapply IH; [exact Hr |]. by eapply psi_line_sample_bounded.
Qed.

Lemma psi_parse_bounded resource input s :
  psi_parse resource input = Ok s -> sample_bounded s /\ psi_some s <> None.
Proof.
  unfold psi_parse. destruct (psi_lines _ _ _) as [t|] eqn:E; [| done].
  destruct (psi_some t) eqn:Ht; cbn; [| done]. intros [= <-]. split; [| by rewrite Ht].
  eapply psi_lines_bounded; [exact E |]. by intros l [? | ?].
Qed.

(** *** The sample of the system *)

Section Psi.
Context {W : Type} `{TelemetrySource W}.

(** the sample is what the file says, or is missing and recorded as such *)
Lemma collect_psi_spec path metric unavailable w psi unavailable' :
  collect_psi path metric unavailable w = (psi, unavailable') ->
  psi = (result_ok (read_to_string path w) ≫= fun text => result_ok (psi_parse metric text)) /\
  unavailable' = push_if (is_none psi) metric unavailable.
Proof.
  unfold collect_psi. destruct (read_to_string path w) as [text|e]; cbn.
  - destruct (psi_parse metric text); intros [= <- <-]; done.
  - by intros [= <- <-].
Qed.

Lemma collect_or_spec {A} (r : result A CollectorError) d name unavailable a unavailable' :
  collect_or r d name unavailable = (a, unavailable') ->
  a = unwrap_or (result_ok r) d /\ unavailable' = push_if (negb (is_ok r)) name unavailable.
Proof. destruct r; cbn; by intros [= <- <-]. Qed.
End Psi.
End Facts.

(** ** The collector *)
Module Theorems.
Import Facts.

(** parsing /proc/<pid>/stat gives back the process that was printed, whatever
    its command name holds: blanks, parentheses and newlines in it change nothing. *)
Theorem parse_stat_round_trip (s : ParsedStat) (utime stime : Z) :
  stat_ok s utime stime -> parse_stat (render_stat s utime stime) = Ok s.
Proof.
  intros Hok. unfold parse_stat. rewrite split_stat_render by done.
  assert (split_whitespace (" " ++ join " " (stat_fields s utime stime)) = stat_fields s utime stime)
    as Hf.
  { rewrite app_str_cons, app_str_nil, split_whitespace_cons by done. apply split_whitespace_join.
    eapply Forall_impl; [| by apply stat_fields_plain]. by intros t [? _]. }
  destruct Hok as (Hpid & Hppid & Hpgrp & Hsess & Htty & Hfg & Hmin & Hmaj & Hu & Hs & Ht & Htu
                   & Hst & Hrss).
  rewrite trim_pid by (unfold u32 in Hpid; lia).
  unfold parse_u32. rewrite parse_unsigned_show by exact Hpid. cbn [ok_or]. rewrite Hf.
  rewrite (stat_u64_show _ _ _ utime), (stat_u64_show _ _ _ stime) by done.
  rewrite (stat_i64_show _ _ _ (ps_rss_pages s)) by done.
  rewrite (stat_u64_show _ _ _ (ps_parent_pid s)) by (try done; unfold_int; lia).
  assert ((ps_parent_pid s <=? u32_max) = true) as -> by (apply Z.leb_le, Hppid). cbn [ok_or then_some].
  rewrite (stat_i32_show _ _ _ (ps_process_group_id s)), (stat_i32_show _ _ _ (ps_session_id s)) by done.
  rewrite (stat_i64_show _ _ _ (ps_tty_nr s)) by done.
  rewrite (stat_i32_show _ _ _ (ps_foreground_process_group_id s)) by done.
  rewrite (stat_u64_show _ _ _ (ps_minor_faults s)), (stat_u64_show _ _ _ (ps_major_faults s)) by done.
  unfold u64_checked_add. rewrite <- Ht.
  assert ((ps_process_ticks s <=? u64_max) = true) as -> by (apply Z.leb_le, Htu). cbn [ok_or].
  rewrite (stat_u64_show _ _ _ (ps_start_time_ticks s)) by done. by destruct s.
Qed.

(** C38: the smaps budget rotates fairly: over a stable set of processes, rounds that
    add up to their number have read the smaps of each of them, and no round reads
    more than the budget. *)
Theorem smaps_rotation_fair (pids : list Z) (budget cursor m : nat) :
  budget <> 0%nat -> (length pids <= m * Nat.min budget (length pids))%nat ->
  (forall p, p ∈ pids ->
     exists selected, selected ∈ smaps_rounds m pids budget cursor /\ p ∈ selected) /\
  (forall enabled, (length (fst (select_smaps pids enabled budget cursor)) <= budget)%nat).
Proof.
  intros Hb Hm. split.
  - intros p Hp. apply list_elem_of_In in Hp. destruct (In_nth _ _ 0 Hp) as (j & Hj & Hnth).
    assert (pids <> []) as Hne by (by intros ->).
    destruct (position_ahead (length pids) cursor j Hj) as (i & Hi & Hmod).
    destruct (rounds_cover pids budget Hne Hb m cursor i ltac:(lia)) as (selected & Hs & Hin).
    exists selected. by rewrite Hmod, Hnth in Hin.
  - intros enabled. unfold select_smaps. destruct (_ || _); simpl; [lia |].
    rewrite length_map, length_seq. lia.
Qed.

(** one unreadable process never stops a collection: it fails only when /proc
    itself cannot be listed. Every process of the listing is a sample, in order, or
    is counted as a failure, and the tracker keeps baselines of sampled processes
    only. *)
Theorem process_collect_total {W} `{TelemetrySource W} (ts : Z) (rs : bool) (budget : nat) (w : W)
    (self : Tracking) :
  match read_dir_names "/proc" w with
  | Err e => process_collect ts rs budget w self = (self, Err (RequiredRead "processes" "/proc" e))
  | Ok names =>
      exists self' c, process_collect ts rs budget w self = (self', Ok c) /\
        map Classifier.pid (co_samples c) `sublist_of` pids_of names /\
        Z.of_nat (length (co_samples c)) + failures (co_stats c) =
        Z.of_nat (length (pids_of names)) /\
        (forall p, p ∈ dom (tk_cpu self') -> p ∈ map Classifier.pid (co_samples c))
  end.
Proof.
  unfold process_collect, eff_bind, eff_read.
  destruct (read_dir_names "/proc" w) as [names|e]; [| done]. cbn [required_read].
  destruct (select_smaps _ _ _ _) as [selected cursor].
  match goal with |- context [collect_loop ?a ?b ?c ?d ?e ?f ?g] =>
    destruct (collect_loop a b c d e f g) as [cpu c'] eqn:E end.
  apply collect_loop_accounts in E as [(sub & Hmap & Hsub) Hcount].
  eexists _, c'. split; [done |]. split; [by rewrite Hmap |]. split.
  - rewrite Hcount. unfold failures, stats_default.
    cbn [co_samples co_stats st_disappeared st_permission_denied st_invalid length]. lia.
  - intros p Hp. cbn [tk_cpu] in Hp. by eapply retain_dom.
Qed.

(** a CPU percentage is reported exactly when the same process (by its start
    time) was seen before, its counter did not go back and the system's counter
    moved on; a reused pid gets none. In every case the new reading is the baseline
    of the next one. *)
Theorem cpu_percent_available_iff (p start ticks system cpus : Z) (previous : gmap Z CpuBaseline) :
  (is_some (snd (calculate p start ticks system cpus previous)) = true <->
   exists before, previous !! p = Some before /\ cb_start_time_ticks before = start /\
                  cb_process_ticks before <= ticks /\ cb_system_ticks before < system) /\
  fst (calculate p start ticks system cpus previous) !! p =
  Some {| cb_start_time_ticks := start; cb_process_ticks := ticks; cb_system_ticks := system |} /\
  (forall q, q <> p -> fst (calculate p start ticks system cpus previous) !! q = previous !! q).
Proof.
  unfold calculate. cbn [fst snd]. split; [| split].
  - destruct (previous !! p) as [b|]; cbn; [| split; [done | by intros (? & ? & _)]].
    unfold u64_checked_sub.
    destruct (cb_start_time_ticks b =? start) eqn:E1; cbn;
      [| split; [done | intros (b' & [= <-] & H1 & _); lia]].
    destruct (cb_process_ticks b <=? ticks) eqn:E2; cbn;
      [| split; [done | intros (b' & [= <-] & _ & H2 & _); lia]].
    destruct (cb_system_ticks b <=? system) eqn:E3; cbn;
      [| split; [done | intros (b' & [= <-] & _ & _ & H3); lia]].
    destruct (system - cb_system_ticks b =? 0) eqn:E4; cbn.
    + split; [done |]. intros (b' & [= <-] & _ & _ & H4). lia.
    + split; [| done]. intros _. exists b. repeat split; lia.
  - by rewrite lookup_insert_eq.
  - intros q Hq. by rewrite lookup_insert_ne.
Qed.

(** [parse_system_cpu] counts the aggregate line of /proc/stat as a logical CPU:
    a machine with n per-CPU lines is reported with n + 1. *)
Theorem aggregate_line_counted (input aggregate first : string)
    (ticks cpus others : list string) (total logical : Z) :
  lines input = aggregate :: cpus ++ others ->
  starts_with "cpu " aggregate = true ->
  split_whitespace aggregate = "cpu"%string :: first :: ticks -> str_all is_digit first = true ->
  Forall (fun line => exists i r, 0 <= i /\ line = ("cpu" ++ show_uint i ++ " " ++ r)%string) cpus ->
  Forall (fun line => starts_with "cpu" line = false) others ->
  parse_system_cpu input = Ok (total, logical) ->
  logical = Z.of_nat (length cpus) + 1.
Proof.
  intros Hl Ha Hs Hd Hcpus Hothers Hr. unfold parse_system_cpu in Hr. rewrite Hl in Hr.
  assert (List.filter is_cpu_line (aggregate :: cpus ++ others) = aggregate :: cpus) as Hf.
  { cbn [List.filter]. rewrite (aggregate_counts _ _ _ Ha Hs Hd). f_equal.
    rewrite filter_app, filter_all, filter_none; [by rewrite app_nil_r | |].
    - eapply Forall_impl; [| exact Hothers]. apply not_cpu_line.
    - eapply Forall_impl; [| exact Hcpus]. intros line (i & r & Hi & ->).
      apply (cpu_line_counts (show_uint i) r (show_uint_token i Hi) (show_uint_digits i Hi)). }
  rewrite Hf in Hr. cbn [length] in Hr. rewrite Nat.max_l in Hr by lia.
  destruct (ok_or _ _); [| done]. destruct (sum_ticks _ _); [| done].
  destruct (reject _ _); [| done]. simplify_eq. lia.
Qed.

(** parsing /proc/meminfo gives back the amounts that were printed, in bytes, in
    whatever order the lines come and whatever other lines there are. *)
Theorem meminfo_round_trip (entries entries' : list (string * Z)) :
  Forall entry_ok entries -> NoDup (map fst entries) -> entries ≡ₚ entries' ->
  meminfo_parse (render_meminfo entries') = meminfo_of (bytes_of entries) /\
  (forall key kib, (key, kib) ∈ entries -> key ∈ wanted ->
     bytes_of entries !! key = Some (kib * 1024)) /\
  (forall key, key ∉ wanted -> bytes_of entries !! key = None).
Proof.
  intros Hok Hnd Hp. split; [| split].
  - unfold meminfo_parse. rewrite meminfo_lines_render.
    + rewrite map_union_empty. by rewrite (bytes_of_perm entries entries').
    + by rewrite <- Hp.
    + by rewrite <- (Permutation_map fst Hp).
    + intros x _. done.
  - intros key kib Hin Hw. apply elem_of_list_to_map.
    + rewrite map_map. cbn [fst]. by apply NoDup_map_filter.
    + apply list_elem_of_In, in_map_iff. exists (key, kib). split; [done |].
      apply filter_In. split; [by apply list_elem_of_In | by apply contains_str_elem].
  - intros key Hw. apply not_elem_of_list_to_map. rewrite map_map. cbn [fst]. intros Hin. apply Hw.
    apply list_elem_of_In, in_map_iff in Hin as (x & <- & Hx).
    apply filter_In in Hx as [_ Hx]. by apply contains_str_elem.
Qed.

(** a sample never makes a metric up: each pressure reading is what its file
    says, with averages between 0 and 100, and a metric is recorded as unavailable
    exactly when the sample has none. *)
Theorem sample_records_missing {W} `{TelemetrySource W} (ts : Z) (w : W) (s : SystemSample) :
  sample_system ts w = Ok s ->
  (ss_psi_memory s = None <-> "psi_memory"%string ∈ ss_capabilities_unavailable s) /\
  (ss_psi_cpu s = None <-> "psi_cpu"%string ∈ ss_capabilities_unavailable s) /\
  (ss_psi_io s = None <-> "psi_io"%string ∈ ss_capabilities_unavailable s) /\
  (zs_available (ss_zram s) = false <-> "zram"%string ∈ ss_capabilities_unavailable s) /\
  (zw_available (ss_zswap s) = false <-> "zswap"%string ∈ ss_capabilities_unavailable s) /\
  (forall psi, ss_psi_memory s = Some psi ->
     sample_bounded psi /\ psi_some psi <> None /\
     exists text, read_to_string "/proc/pressure/memory" w = Ok text /\
                  psi_parse "psi_memory" text = Ok psi).
Proof.
  unfold sample_system. intros Hr.
  destruct (required_read "meminfo" _ _); [| done].
  destruct (required_read "vmstat" _ _); [| done].
  destruct (meminfo_parse _); [| done]. destruct (vmstat_parse _); [| done].
  destruct (swap_collect w); [| done].
  destruct (collect_psi "/proc/pressure/memory" _ _ _) as [memory u1] eqn:E1.
  destruct (collect_psi "/proc/pressure/cpu" _ _ _) as [cpu u2] eqn:E2.
  destruct (collect_psi "/proc/pressure/io" _ _ _) as [io u3] eqn:E3.
  destruct (collect_or (zram_collect w) _ _ _) as [zram u4] eqn:E4.
  destruct (collect_or (zswap_collect w) _ _ _) as [zswap u5] eqn:E5.
  apply collect_psi_spec in E1 as [Hm ->], E2 as [_ ->], E3 as [_ ->].
  apply collect_or_spec in E4 as [_ ->], E5 as [_ ->].
  injection Hr as <-. cbn [ss_psi_memory ss_psi_cpu ss_psi_io ss_zram ss_zswap
                           ss_capabilities_unavailable].
  assert (forall A (o : option A), o = None <-> is_none o = true) as Hnone by (intros A []; done).
  assert (forall b, b = false <-> negb b = true) as Hneg by (intros []; done).
  rewrite !Hnone, !(Hneg (zs_available _)), !(Hneg (zw_available _)).
  rewrite !elem_of_sort_dedup.
  assert (forall x b (l m : list string), x ∈ (if b : bool then l else m) <->
          (b = true /\ x ∈ l) \/ (b = false /\ x ∈ m)) as Hif
    by (intros x [] l m; split; [tauto | intros [[? ?] | [? ?]]; done | tauto |
                                 intros [[? ?] | [? ?]]; done]).
  rewrite !Hif, !elem_of_app, !elem_of_push_if, !list_elem_of_singleton, !elem_of_nil.
  repeat (split; [destruct (is_none memory), (is_none cpu), (is_none io), (negb (zs_available zram)),
    (negb (zw_available zswap)); intuition congruence |]).
  intros psi Hpsi. rewrite Hm in Hpsi.
  destruct (read_to_string "/proc/pressure/memory" w) as [text|]; [| done]. cbn in Hpsi.
  destruct (psi_parse "psi_memory" text) as [q|] eqn:Ep; [| done]. cbn in Hpsi. injection Hpsi as <-.
  pose proof (psi_parse_bounded _ _ _ Ep) as [Hb Hs]. split; [done |]. split; [done |]. by exists text.
Qed.
End Theorems.

(** ** Concrete inputs *)
Module Witnesses.
Import Facts.

Lemma parse_stat_round_trip_witness :
  let s := {| ps_pid := 42; ps_executable_name := "a) (b c)"; ps_parent_pid := 1;
              ps_process_group_id := -7; ps_session_id := 3; ps_tty_nr := 34816;
              ps_foreground_process_group_id := -1; ps_minor_faults := 10; ps_major_faults := 2;
              ps_process_ticks := 12; ps_start_time_ticks := 999; ps_rss_pages := 77 |} in
  render_stat s 5 7 =
    "42 (a) (b c)) S 1 -7 3 34816 -1 0 10 0 2 0 5 7 0 0 20 0 1 0 999 0 77"%string /\
  parse_stat (render_stat s 5 7) = Ok s.
Proof.
  cbv zeta. split; [reflexivity |]. apply Theorems.parse_stat_round_trip.
  unfold stat_ok, u32, i32, i64, u64, u32_max, u64_max, i64_max, i64_min. cbn. lia.
Defined.

Lemma smaps_rotation_fair_witness :
  smaps_rounds 3 [10; 20; 30; 40; 50] 2 4 = [[50; 10]; [20; 30]; [40; 50]] /\
  exists selected, selected ∈ smaps_rounds 3 [10; 20; 30; 40; 50] 2 4 /\ 40 ∈ selected.
Proof.
  split; [reflexivity |].
  apply (proj1 (Theorems.smaps_rotation_fair [10; 20; 30; 40; 50] 2 4 3
                  ltac:(discriminate) ltac:(simpl; lia))).
  repeat (apply list_elem_of_here || apply list_elem_of_further).
Defined.

(** a one-CPU machine is reported with two *)
Lemma aggregate_line_counted_witness :
  let input := ("cpu  10 0 0 90" ++ newline ++ "cpu0 10 0 0 90" ++ newline ++ "ctxt 5" ++ newline)%string in
  parse_system_cpu input = Ok (100, 2) /\ 2 = Z.of_nat (length ["cpu0 10 0 0 90"%string]) + 1.
Proof.
  cbv zeta. split; [reflexivity |].
  apply (Theorems.aggregate_line_counted
           ("cpu  10 0 0 90" ++ newline ++ "cpu0 10 0 0 90" ++ newline ++ "ctxt 5" ++ newline)%string
           "cpu  10 0 0 90" "10" ["0"; "0"; "90"]%string ["cpu0 10 0 0 90"%string]
           ["ctxt 5"%string] 100 2); try reflexivity.
  - constructor; [| constructor]. exists 0, "10 0 0 90"%string. split; [lia | reflexivity].
  - constructor; [reflexivity | constructor].
Defined.

Lemma meminfo_round_trip_witness :
  let entries := [("MemTotal", 1000); ("MemAvailable", 400); ("Cached", 80); ("Unknown", 1)]%string in
  entry_ok ("MemTotal"%string, 1000) /\
  meminfo_parse (render_meminfo (rev entries)) = meminfo_of (bytes_of entries).
Proof.
  cbv zeta.
  assert (Forall entry_ok [("MemTotal", 1000); ("MemAvailable", 400); ("Cached", 80); ("Unknown", 1)]%string)
    as Hok.
  { repeat (apply Forall_cons; [unfold entry_ok, u64_max; cbn; repeat split; first [reflexivity | lia] |]).
    apply Forall_nil. }
  split; [exact (Forall_inv Hok) |].
  apply Theorems.meminfo_round_trip; [exact Hok | | apply Permutation_rev].
  apply (bool_decide_unpack _). reflexivity.
Defined.

(** a machine with the required files, memory pressure and nothing else *)
Definition machine : Type := gmap string string.
#[local] Instance machine_source : TelemetrySource machine := {
  read_to_string path w :=
    match w !! path with
    | Some text => Ok text
    | None => Err {| io_kind := NotFound; io_text := "not found" |}
    end;
  read_dir_names _ _ := Err {| io_kind := NotFound; io_text := "not found" |};
  read_link _ _ := Err {| io_kind := OtherKind; io_text := "unsupported" |}
}.
Definition small : machine :=
  {[ "/proc/meminfo"%string := ("MemTotal: 1000 kB" ++ newline ++ "MemAvailable: 800 kB" ++ newline)%string;
     "/proc/vmstat"%string := ("pswpin 1" ++ newline)%string;
     "/proc/swaps"%string := ("Filename Type Size Used Priority" ++ newline)%string;
     "/proc/pressure/memory"%string := "some avg10=1.25 avg60=0 avg300=0 total=9"%string ]}.

Lemma sample_records_missing_witness :
  match sample_system 1 small with
  | Ok s =>
      ss_mem_total_bytes s = 1024000 /\
      ss_capabilities_unavailable s = ["psi_cpu"; "psi_io"; "zram"; "zswap"]%string /\
      (ss_psi_io s = None <-> "psi_io"%string ∈ ss_capabilities_unavailable s)
  | Err _ => False
  end.
Proof.
  destruct (sample_system 1 small) as [s|e] eqn:E; [| vm_compute in E; discriminate E].
  pose proof (Theorems.sample_records_missing 1 small s E) as (_ & _ & Hio & _).
  split; [| split; [| exact Hio]]; vm_compute in E; injection E as <-; reflexivity.
Defined.
End Witnesses.
