(* ===== verification/Workload.v ===== *)
(** crates/classifier: the scoring rules of the workload classes (workload.rs) and
    the [Classifier] that feeds their outcome to the stabilizer (lib.rs), on the
    samples of the collector. *)

From S2P Require Import Prelude F64 Text Config Classifier Collector.

Definition RULE_VERSION : string := "heuristic-v1".

Definition show_class (c : WorkloadClass) : string :=
  match c with
  | Idle => "idle" | Desktop => "desktop" | BrowserHeavy => "browser_heavy"
  | Development => "development" | Gaming => "gaming"
  | GamingBackgroundHeavy => "gaming_background_heavy" | Virtualization => "virtualization"
  | MemoryPressure => "memory_pressure" | CriticalPressure => "critical_pressure"
  end.

Record Candidate := {
  cd_class : WorkloadClass;
  cd_confidence : f64;
  cd_evidence : Evidence
}.

Definition candidate (class : WorkloadClass) (confidence : f64) (code observed : string)
    (threshold : option string) : Candidate :=
  {| cd_class := class;
     cd_confidence := confidence;
     cd_evidence :=
       {| ev_code := code;
          ev_description := "deterministic evidence for " ++ show_class class;
          ev_observed := observed;
          ev_threshold := threshold;
          ev_contribution := confidence |} |}.

(** [part as f64 / total as f64 * 100.0] *)
Definition share (part total : Z) : f64 :=
  f64_mul (f64_div (f64_of_Z part) (f64_of_Z total)) (f64_of_Z 100).

Definition memory_percent (system : option SystemSample) : option f64 :=
  sample ← system;
  then_some (0 <? ss_mem_total_bytes sample)
    (share (ss_mem_available_bytes sample) (ss_mem_total_bytes sample)).

Definition psi_some_avg10 (system : option SystemSample) : option f64 :=
  psi_avg10 <$> (sample ← system; psi ← ss_psi_memory sample; psi_some psi).
Definition psi_full_avg10 (system : option SystemSample) : option f64 :=
  psi_avg10 <$> (sample ← system; psi ← ss_psi_memory sample; psi_full psi).

(** in 128 bits, so nothing overflows *)
Definition available_at_or_below (system : option SystemSample) (threshold : Z) : bool :=
  is_some_and system (fun sample =>
    ss_mem_available_bytes sample * 100 <=? ss_mem_total_bytes sample * threshold).

(** the observed value of a pressure candidate *)
Definition pressure_observed (system : option SystemSample) (name : string) (psi : option f64) :
    string :=
  match memory_percent system with
  | Some value => show_f64_fixed 2 value ++ "% available"
  | None => "PSI " ++ name ++ " " ++ show_f64_fixed 2 (unwrap_or psi f64_zero)
  end%string.
Definition pressure_threshold (percent : Z) (name : string) (psi : f64) : option string :=
  Some ("<= " ++ show_uint percent ++ "% or PSI " ++ name ++ " >= " ++ show_f64_fixed 2 psi)%string.

Definition critical_candidate (system : option SystemSample) (pressure : PressureConfig) :
    option Candidate :=
  let psi_full := psi_full_avg10 system in
  let percent := pressure_critical_available_percent pressure in
  let threshold := pressure_psi_full_avg10_threshold pressure in
  then_some (available_at_or_below system percent
             || is_some_and psi_full (fun value => f64_ge value threshold))
    (candidate CriticalPressure f64_one "critical_memory_pressure"
       (pressure_observed system "full" psi_full) (pressure_threshold percent "full" threshold)).

Definition pressure_candidate (system : option SystemSample) (pressure : PressureConfig) :
    option Candidate :=
  let psi_some := psi_some_avg10 system in
  let percent := pressure_pressure_available_percent pressure in
  let threshold := pressure_psi_some_avg10_threshold pressure in
  then_some (available_at_or_below system percent
             || is_some_and psi_some (fun value => f64_ge value threshold))
    (candidate MemoryPressure (f64_lit 92 100) "sustained_memory_pressure"
       (pressure_observed system "some" psi_some) (pressure_threshold percent "some" threshold)).

Definition of_category (c : ProcessCategory) (process : ProcessClassification) : bool :=
  bool_decide (pc_category process = c).

(** [.filter_map(rss).sum::<u64>()], which wraps in a release build *)
Definition rss_sum (processes : list ProcessClassification) : Z :=
  u64_wrap (foldr Z.add 0 (omap (fun p => rss_bytes (pc_sample p)) processes)).

(** the share of the memory, 0.0 when the total is unknown *)
Definition rss_percent (system : option SystemSample) (rss : Z) : f64 :=
  match system with
  | Some sample =>
      if 0 <? ss_mem_total_bytes sample then share rss (ss_mem_total_bytes sample) else f64_zero
  | None => f64_zero
  end.

Definition game_confidence (games : list ProcessClassification) : f64 :=
  foldl (fun acc process => f64_max acc (pc_confidence process)) f64_zero games.

Definition game_candidates (system : option SystemSample) (processes : list ProcessClassification)
    (config : ClassificationConfig) : list Candidate :=
  let games := List.filter (of_category CatGame) processes in
  let confidence := game_confidence games in
  let non_game_percent :=
    rss_percent system (rss_sum (List.filter (fun p => negb (of_category CatGame p)) processes)) in
  let threshold := classification_gaming_background_memory_percent config in
  match games with
  | [] => []
  | _ =>
      (if f64_ge non_game_percent threshold then
         [candidate GamingBackgroundHeavy (f64_max confidence (f64_lit 80 100))
            "game_with_heavy_background"
            (show_f64_fixed 2 non_game_percent ++ "% non-game RSS")
            (Some (">= " ++ show_f64_fixed 2 threshold ++ "%")%string)]
       else [])
      ++ [candidate Gaming confidence "protected_game_process"
            (show_uint (Z.of_nat (length games)) ++ " game process(es)")
            (Some "at least one independently confirmed game"%string)]
  end.

Definition virtualization_candidate (system : option SystemSample)
    (processes : list ProcessClassification) (config : ClassificationConfig) : option Candidate :=
  let virtualization := List.filter (of_category CatVirtualization) processes in
  let percent := rss_percent system (rss_sum virtualization) in
  let threshold := classification_virtualization_memory_percent config in
  then_some (negb (bool_decide (length virtualization = 0%nat)) && f64_ge percent threshold)
    (candidate Virtualization (f64_lit 88 100) "virtual_machine_memory_share"
       (show_f64_fixed 2 percent ++ "% VM RSS")
       (Some (">= " ++ show_f64_fixed 2 threshold ++ "%")%string)).

Definition browser_candidate (system : option SystemSample)
    (processes : list ProcessClassification) (config : ClassificationConfig) : option Candidate :=
  let browsers := List.filter (of_category CatBrowser) processes in
  let percent := rss_percent system (rss_sum browsers) in
  let count := classification_browser_heavy_process_count config in
  let threshold := classification_browser_heavy_memory_percent config in
  then_some ((count <=? Z.of_nat (length browsers)) && f64_ge percent threshold)
    (candidate BrowserHeavy (f64_lit 85 100) "browser_processes_and_memory"
       (show_uint (Z.of_nat (length browsers)) ++ " processes, " ++ show_f64_fixed 2 percent ++ "% RSS")
       (Some (">= " ++ show_uint count ++ " processes and >= " ++ show_f64_fixed 2 threshold
              ++ "% RSS")%string)).

Definition development_candidate (processes : list ProcessClassification) : option Candidate :=
  let development := length (List.filter (of_category CatDevelopment) processes) in
  then_some (2 <=? Z.of_nat development)
    (candidate Development (f64_lit 82 100) "development_toolset"
       (show_uint (Z.of_nat development) ++ " development processes")
       (Some ">= 2 independent development tools"%string)).

Definition desktop_process (process : ProcessClassification) : bool :=
  match pc_category process with
  | CatDesktop | CatBrowser | CatDevelopment => true
  | CatSystem | CatCritical | CatUnknown => false
  | _ => bool_decide (pc_foreground process = FgForeground)
  end.
Definition desktop_candidate (processes : list ProcessClassification) : option Candidate :=
  then_some (existsb desktop_process processes)
    (candidate Desktop (f64_lit 75 100) "interactive_desktop_process"
       "interactive desktop evidence" None).

Definition idle_process (process : ProcessClassification) : bool :=
  match pc_category process with
  | CatSystem | CatCritical | CatBackground =>
      f64_le (unwrap_or (cpu_percent (pc_sample process)) f64_zero) (f64_lit 5 10)
  | _ => false
  end.
Definition idle_candidate (processes : list ProcessClassification) : option Candidate :=
  then_some (forallb idle_process processes)
    (candidate Idle (f64_lit 80 100) "demonstrated_inactivity" "no active user workload"
       (Some "only idle system/background activity"%string)).

Definition option_list {A} (o : option A) : list A := match o with Some a => [a] | None => [] end.

(** the candidates in the order they are pushed *)
Definition candidates (system : option SystemSample) (processes : list ProcessClassification)
    (config : ClassificationConfig) (pressure : PressureConfig) : list Candidate :=
  option_list (critical_candidate system pressure)
  ++ option_list (pressure_candidate system pressure)
  ++ game_candidates system processes config
  ++ option_list (virtualization_candidate system processes config)
  ++ option_list (browser_candidate system processes config)
  ++ option_list (development_candidate processes)
  ++ option_list (desktop_candidate processes)
  ++ option_list (idle_candidate processes).

Definition precedence : list WorkloadClass :=
  [CriticalPressure; MemoryPressure; GamingBackgroundHeavy; Gaming; Virtualization; BrowserHeavy;
   Development; Desktop; Idle].

Definition select (cs : list Candidate) (minimum_confidence : f64) : option Candidate :=
  find_map (fun class =>
    find_first (fun c => bool_decide (cd_class c = class)
                         && f64_ge (cd_confidence c) minimum_confidence) cs) precedence.

Definition rejected_candidates (cs : list Candidate) (selected : option Candidate)
    (minimum_confidence : f64) : list RejectedCandidate :=
  map (fun c =>
    {| rc_candidate := cd_class c;
       rc_confidence := cd_confidence c;
       rc_reason := if f64_lt (cd_confidence c) minimum_confidence
                    then "below minimum confidence" else "lower deterministic precedence" |})
    (List.filter (fun c => is_none_or selected (fun s => negb (bool_decide (cd_class s = cd_class c))))
       cs).

Definition protection_reasons (processes : list ProcessClassification) : list string :=
  List.filter (str_contains "protected") (flat_map pc_reasons processes).

Definition classify (system : option SystemSample) (processes : list ProcessClassification)
    (config : ClassificationConfig) (pressure : PressureConfig) : ClassificationOutcome :=
  let cs := candidates system processes config pressure in
  let minimum := classification_minimum_confidence config in
  let selected := select cs minimum in
  let rejected := rejected_candidates cs selected minimum in
  let reasons := protection_reasons processes in
  match selected with
  | Some selected =>
      Classified
        {| wd_class := cd_class selected;
           wd_confidence := cd_confidence selected;
           wd_explanation :=
             {| we_rule_version := RULE_VERSION;
                we_selected_class := show_class (cd_class selected);
                we_confidence := cd_confidence selected;
                we_evidence := [cd_evidence selected];
                we_rejected_candidates := rejected;
                we_protection_reasons := reasons |} |}
  | None =>
      Unclassified
        {| we_rule_version := RULE_VERSION;
           we_selected_class := "unknown";
           we_confidence := f64_zero;
           we_evidence := [];
           we_rejected_candidates := rejected;
           we_protection_reasons := reasons |}
  end.

(** ** lib.rs *)

Record ClassifierState := {
  cl_classification : ClassificationConfig;
  cl_pressure : PressureConfig;
  cl_stabilizer : Stabilize.WorkloadStabilizer
}.

Record ClassificationBatch := {
  cb_processes : list ProcessClassification;
  cb_outcome : ClassificationOutcome;
  cb_transition : option WorkloadTransition
}.

Definition classifier_new (classification : ClassificationConfig) (pressure : PressureConfig) :
    ClassifierState :=
  {| cl_classification := classification;
     cl_pressure := pressure;
     cl_stabilizer := Stabilize.new (classification_confirmation_samples classification) |}.

(** Classifier.evaluate *)
Definition classifier_evaluate (ts : Z) (system : option SystemSample)
    (processes : list ProcessClassification) (self : ClassifierState) :
    ClassifierState * (ClassificationOutcome * option WorkloadTransition) :=
  let outcome := classify system processes (cl_classification self) (cl_pressure self) in
  let '(stabilizer, transition) := Stabilize.observe ts outcome (cl_stabilizer self) in
  ({| cl_classification := cl_classification self; cl_pressure := cl_pressure self;
      cl_stabilizer := stabilizer |}, (outcome, transition)).

Definition classify_preprocessed (ts : Z) (system : option SystemSample)
    (processes : list ProcessClassification) (self : ClassifierState) :
    ClassifierState * ClassificationBatch :=
  let '(self, (outcome, transition)) := classifier_evaluate ts system processes self in
  (self, {| cb_processes := processes; cb_outcome := outcome; cb_transition := transition |}).

Section Identity.
(** [hex::encode(Sha256::digest(bytes))] *)
Variable sha256_hex : string -> string.

Definition classify_processes (samples : list ProcessSample) (self : ClassifierState) :
    list ProcessClassification :=
  Process.classify_all sha256_hex samples (cl_classification self).

(** Classifier.classify *)
Definition classifier_classify (ts : Z) (system : option SystemSample)
    (samples : list ProcessSample) (self : ClassifierState) :
    ClassifierState * ClassificationBatch :=
  classify_preprocessed ts system (classify_processes samples self) self.
End Identity.

Definition classifier_current (self : ClassifierState) : option WorkloadClass :=
  Stabilize.current (cl_stabilizer self).

(** ** Lemmas *)
Module Facts.

Definition class_rank (c : WorkloadClass) : nat :=
  match c with
  | CriticalPressure => 0 | MemoryPressure => 1 | GamingBackgroundHeavy => 2 | Gaming => 3
  | Virtualization => 4 | BrowserHeavy => 5 | Development => 6 | Desktop => 7 | Idle => 8
  end.

Lemma find_map_some {A B} (f : A -> option B) l b :
  find_map f l = Some b -> exists pre a post, l = pre ++ a :: post /\ f a = Some b /\
                                              Forall (fun x => f x = None) pre.
Proof.
  induction l as [|a l IH]; [done |]. cbn [find_map]. destruct (f a) as [b'|] eqn:E.
  - intros [= <-]. exists [], a, l. done.
  - intros Hl. destruct (IH Hl) as (pre & x & post & -> & Hx & Hpre).
    exists (a :: pre), x, post. split; [done |]. split; [done |]. by constructor.
Qed.
Lemma find_map_none {A B} (f : A -> option B) l :
  find_map f l = None -> Forall (fun x => f x = None) l.
Proof.
  induction l as [|a l IH]; [constructor |]. cbn [find_map]. destruct (f a) eqn:E; [done |].
  intros Hl. constructor; auto.
Qed.
Lemma find_first_none {A} (p : A -> bool) l : find_first p l = None -> forall x, x ∈ l -> p x = false.
Proof.
  induction l as [|a l IH]; cbn [find_first].
  - intros _ x Hx. by apply elem_of_nil in Hx.
  - destruct (p a) eqn:E; [done |]. intros Hl x Hx. apply elem_of_cons in Hx as [-> | Hx]; auto.
Qed.

Lemma precedence_rank pre c post : precedence = pre ++ c :: post ->
  forall d, (class_rank d < class_rank c)%nat -> d ∈ pre.
Proof.
  intros Hp d Hd.
  assert (precedence !! class_rank d = Some d) as Hl by (by destruct d).
  assert (length pre = class_rank c) as Hlen.
  { assert (precedence !! length pre = Some c) as Hc
      by (rewrite Hp, lookup_app_r, Nat.sub_diag by lia; done).
    assert (precedence !! class_rank c = Some c) as Hc' by (by destruct c).
    assert (NoDup precedence) as Hnd by (by apply (bool_decide_unpack _)).
    by eapply NoDup_lookup. }
  rewrite Hp, lookup_app_l in Hl by lia. by eapply list_elem_of_lookup_2.
Qed.

Lemma all_classes c : c ∈ precedence.
Proof. destruct c; unfold precedence; set_solver. Qed.

Definition confident (minimum : f64) (c : Candidate) : Prop := f64_ge (cd_confidence c) minimum = true.

Lemma select_some cs minimum c : select cs minimum = Some c ->
  c ∈ cs /\ confident minimum c /\
  forall d, d ∈ cs -> confident minimum d -> (class_rank (cd_class c) <= class_rank (cd_class d))%nat.
Proof.
  unfold select. intros H. apply find_map_some in H as (pre & class & post & Hp & Hf & Hpre).
  apply find_first_some in Hf as [Hin Hc]. apply andb_true_iff in Hc as [Hclass Hconf].
  apply bool_decide_eq_true in Hclass. split; [done |]. split; [done |].
  intros d Hd Hdc. destruct (decide (class_rank (cd_class c) <= class_rank (cd_class d))%nat); [done |].
  exfalso. rewrite Hclass in *.
  assert (cd_class d ∈ pre) as Hdp by (eapply precedence_rank; [exact Hp | lia]).
  rewrite Forall_forall in Hpre. apply list_elem_of_In in Hdp. specialize (Hpre _ Hdp).
  cbn beta in Hpre. pose proof (find_first_none _ _ Hpre d Hd) as Hn. cbn beta in Hn.
  rewrite bool_decide_eq_true_2 in Hn by done. unfold confident in Hdc. by rewrite Hdc in Hn.
Qed.

Lemma select_none cs minimum : select cs minimum = None ->
  forall c, c ∈ cs -> ~ confident minimum c.
Proof.
  unfold select. intros H c Hc Hconf. apply find_map_none in H. rewrite Forall_forall in H.
  specialize (H (cd_class c) (proj1 (list_elem_of_In _ _) (all_classes _))). cbn beta in H.
  pose proof (find_first_none _ _ H c Hc) as Hn. cbn beta in Hn.
  rewrite bool_decide_eq_true_2 in Hn by done. unfold confident in Hconf. by rewrite Hconf in Hn.
Qed.

Lemma elem_of_option_list {A} (o : option A) x : x ∈ option_list o <-> o = Some x.
Proof.
  destruct o; cbn; [rewrite list_elem_of_singleton; naive_solver |].
  split; [by intros H%elem_of_nil | done].
Qed.

(** the classes of the candidates that are not about pressure *)
Lemma other_candidates_rank system processes config d :
  d ∈ game_candidates system processes config
      ++ option_list (virtualization_candidate system processes config)
      ++ option_list (browser_candidate system processes config)
      ++ option_list (development_candidate processes)
      ++ option_list (desktop_candidate processes)
      ++ option_list (idle_candidate processes) -> (2 <= class_rank (cd_class d))%nat.
Proof.
  rewrite !elem_of_app, !elem_of_option_list. intros [H | H].
  - unfold game_candidates in H. destruct (List.filter (of_category CatGame) processes); [by apply elem_of_nil in H |].
    apply elem_of_app in H as [H | H].
    + destruct (f64_ge _ _); [| by apply elem_of_nil in H].
      apply list_elem_of_singleton in H as ->. cbn. lia.
    + apply list_elem_of_singleton in H as ->. cbn. lia.
  - unfold virtualization_candidate, browser_candidate, development_candidate, desktop_candidate,
      idle_candidate, then_some in H.
    destruct_or!; repeat case_match; simplify_eq; cbn; lia.
Qed.

Lemma critical_class system pressure c : critical_candidate system pressure = Some c ->
  cd_class c = CriticalPressure /\ cd_confidence c = f64_one.
Proof. unfold critical_candidate, then_some. case_match; by intros [= <-]. Qed.
Lemma pressure_class system pressure c : pressure_candidate system pressure = Some c ->
  cd_class c = MemoryPressure /\ cd_confidence c = f64_lit 92 100.
Proof. unfold pressure_candidate, then_some. case_match; by intros [= <-]. Qed.

Lemma candidates_class system processes config pressure d :
  d ∈ candidates system processes config pressure ->
  (cd_class d = CriticalPressure -> critical_candidate system pressure = Some d) /\
  (cd_class d = MemoryPressure -> pressure_candidate system pressure = Some d).
Proof.
  unfold candidates. rewrite elem_of_app, elem_of_option_list. intros [H | H].
  - split; [done |]. intros Hm. by destruct (critical_class _ _ _ H) as [Hc _]; congruence.
  - rewrite elem_of_app, elem_of_option_list in H. destruct H as [H | H].
    + split; [| done]. intros Hm. by destruct (pressure_class _ _ _ H) as [Hc _]; congruence.
    + apply other_candidates_rank in H. split; intros Hc; rewrite Hc in H; cbn in H; lia.
Qed.

(** pressure decides the class before anything else does *)
Lemma classify_critical system processes config pressure c :
  f64_ge f64_one (classification_minimum_confidence config) = true ->
  critical_candidate system pressure = Some c ->
  outcome_class (classify system processes config pressure) = Some CriticalPressure.
Proof.
  intros Hmin Hc. unfold classify. destruct (critical_class _ _ _ Hc) as [Hclass Hconf].
  assert (c ∈ candidates system processes config pressure) as Hin
    by (unfold candidates; rewrite elem_of_app, elem_of_option_list; by left).
  assert (confident (classification_minimum_confidence config) c) as Hok
    by (unfold confident; by rewrite Hconf).
  destruct (select _ _) as [s|] eqn:E; cbn.
  - destruct (select_some _ _ _ E) as (_ & _ & Hbest). specialize (Hbest c Hin Hok).
    rewrite Hclass in Hbest. destruct (cd_class s); cbn in Hbest; try lia. done.
  - by destruct (select_none _ _ E c Hin).
Qed.

(** less memory available, everything else equal *)
Definition less_memory (s' s : SystemSample) : Prop :=
  ss_mem_available_bytes s' <= ss_mem_available_bytes s /\
  ss_mem_total_bytes s' = ss_mem_total_bytes s /\ ss_psi_memory s' = ss_psi_memory s.

Lemma available_mono s' s threshold : less_memory s' s ->
  available_at_or_below (Some s) threshold = true ->
  available_at_or_below (Some s') threshold = true.
Proof.
  intros (Ha & Ht & _). unfold available_at_or_below, is_some_and. rewrite Ht, !Z.leb_le. lia.
Qed.

Lemma critical_mono s' s pressure : less_memory s' s ->
  is_some (critical_candidate (Some s) pressure) = true ->
  is_some (critical_candidate (Some s') pressure) = true.
Proof.
  intros Hl. pose proof Hl as (_ & _ & Hp). unfold critical_candidate, psi_full_avg10.
  cbn [option_bind mbind]. rewrite Hp.
  destruct (available_at_or_below (Some s) _) eqn:E.
  - rewrite (available_mono _ _ _ Hl E). done.
  - cbn [orb]. destruct (is_some_and _ _); [by rewrite orb_true_r | done].
Qed.
Lemma pressure_mono s' s pressure : less_memory s' s ->
  is_some (pressure_candidate (Some s) pressure) = true ->
  is_some (pressure_candidate (Some s') pressure) = true.
Proof.
  intros Hl. pose proof Hl as (_ & _ & Hp). unfold pressure_candidate, psi_some_avg10.
  cbn [option_bind mbind]. rewrite Hp.
  destruct (available_at_or_below (Some s) _) eqn:E.
  - rewrite (available_mono _ _ _ Hl E). done.
  - cbn [orb]. destruct (is_some_and _ _); [by rewrite orb_true_r | done].
Qed.
End Facts.

(** ** Workload classes *)
Module Theorems.
Import Facts.

(** the outcome is the first class in the precedence that a candidate supports
    with the minimum confidence, with that candidate's confidence and evidence; it is
    unknown only when no candidate reaches the minimum. *)
Theorem classify_first_in_precedence (system : option SystemSample)
    (processes : list ProcessClassification) (config : ClassificationConfig)
    (pressure : PressureConfig) :
  let cs := candidates system processes config pressure in
  let minimum := classification_minimum_confidence config in
  match classify system processes config pressure with
  | Classified d =>
      exists c, c ∈ cs /\ confident minimum c /\ wd_class d = cd_class c /\
        wd_confidence d = cd_confidence c /\ we_evidence (wd_explanation d) = [cd_evidence c] /\
        forall c', c' ∈ cs -> confident minimum c' ->
                   (class_rank (wd_class d) <= class_rank (cd_class c'))%nat
  | Unclassified _ => forall c, c ∈ cs -> ~ confident minimum c
  end.
Proof.
  cbv zeta. unfold classify. destruct (select _ _) as [c|] eqn:E.
  - destruct (select_some _ _ _ E) as (Hin & Hok & Hbest). exists c. by repeat split.
  - by apply select_none.
Qed.

(** critical memory pressure is adopted at once: when the available memory is at
    or below the critical percentage (or PSI full at its threshold), one evaluation
    makes [CriticalPressure] the stable class, whatever the processes and the
    stabilizer's history are. *)
Theorem critical_pressure_adopted_at_once (ts : Z) (system : option SystemSample)
    (processes : list ProcessClassification) (self : ClassifierState) :
  f64_ge f64_one (classification_minimum_confidence (cl_classification self)) = true ->
  available_at_or_below system (pressure_critical_available_percent (cl_pressure self)) = true \/
  (exists value, psi_full_avg10 system = Some value /\
     f64_ge value (pressure_psi_full_avg10_threshold (cl_pressure self)) = true) ->
  classifier_current (fst (classifier_evaluate ts system processes self)) = Some CriticalPressure.
Proof.
  intros Hmin Hcrit.
  assert (exists c, critical_candidate system (cl_pressure self) = Some c) as [c Hc].
  { unfold critical_candidate. destruct Hcrit as [-> | (v & Hv & Hge)]; [by eexists |].
    rewrite Hv. cbn [is_some_and]. rewrite Hge, orb_true_r. by eexists. }
  pose proof (classify_critical system processes _ _ _ Hmin Hc) as Hclass.
  unfold classifier_evaluate, classifier_current.
  destruct (classify _ _ _ _) as [d|e]; [| done]. cbn [outcome_class] in Hclass. injection Hclass as Hd.
  unfold Stabilize.observe. rewrite Hd.
  destruct (bool_decide (Stabilize.current _ = _)) eqn:E; cbn.
  - by apply bool_decide_eq_true in E.
  - done.
Qed.

(** pressure classes are monotone: with less memory available and everything else
    equal, a critical classification stays critical and a memory-pressure one does not
    fall below memory pressure. *)
Theorem pressure_classes_monotone (s s' : SystemSample) (processes : list ProcessClassification)
    (config : ClassificationConfig) (pressure : PressureConfig) :
  less_memory s' s ->
  f64_ge (f64_lit 92 100) (classification_minimum_confidence config) = true ->
  let before := outcome_class (classify (Some s) processes config pressure) in
  let after := outcome_class (classify (Some s') processes config pressure) in
  (before = Some CriticalPressure -> after = Some CriticalPressure) /\
  (before = Some MemoryPressure -> after = Some CriticalPressure \/ after = Some MemoryPressure).
Proof.
  intros Hl Hmin. cbv zeta.
  assert (f64_ge f64_one (classification_minimum_confidence config) = true) as Hone
    by (unfold f64_ge in *; eapply f64_le_trans; [exact Hmin | by vm_compute]).
  assert (forall class, outcome_class (classify (Some s) processes config pressure) = Some class ->
    exists c, c ∈ candidates (Some s) processes config pressure /\ cd_class c = class) as Hcand.
  { intros class. unfold classify. destruct (select _ _) as [c|] eqn:E; [| done]. cbn.
    intros [= <-]. exists c. by destruct (select_some _ _ _ E). }
  split; intros Hbefore; destruct (Hcand _ Hbefore) as (c & Hin & Hclass);
    destruct (candidates_class _ _ _ _ _ Hin) as [Hc Hp].
  - pose proof (critical_mono s' s pressure Hl ltac:(by rewrite (Hc Hclass))) as Hs.
    destruct (critical_candidate (Some s') pressure) eqn:E; [| done].
    by eapply classify_critical.
  - destruct (critical_candidate (Some s') pressure) eqn:E.
    { left. by eapply classify_critical. }
    right. pose proof (pressure_mono s' s pressure Hl ltac:(by rewrite (Hp Hclass))) as Hs.
    destruct (pressure_candidate (Some s') pressure) as [p|] eqn:Ep; [| done].
    destruct (pressure_class _ _ _ Ep) as [Hpc Hpf].
    assert (p ∈ candidates (Some s') processes config pressure) as Hpin
      by (unfold candidates; rewrite E, elem_of_app, elem_of_app, !elem_of_option_list; auto).
    assert (confident (classification_minimum_confidence config) p) as Hok
      by (unfold confident; by rewrite Hpf).
    unfold classify. destruct (select _ _) as [d|] eqn:Es; cbn.
    + destruct (select_some _ _ _ Es) as (Hdin & _ & Hbest). specialize (Hbest p Hpin Hok).
      rewrite Hpc in Hbest. destruct (candidates_class _ _ _ _ _ Hdin) as [Hdc _].
      destruct (cd_class d); cbn in Hbest; try lia; [done |]. by rewrite E in Hdc; specialize (Hdc eq_refl).
    + by destruct (select_none _ _ Es p Hpin).
Qed.
End Theorems.

(** ** Concrete inputs *)
Module Witnesses.
Import Facts.

(** a machine of 1 GiB with [available] MiB left and the given memory pressure *)
Definition machine (available : Z) (psi : option PsiSample) : SystemSample :=
  {| ss_timestamp_ns := 1; ss_mem_total_bytes := 1073741824;
     ss_mem_available_bytes := available * 1048576; ss_anon_bytes := None;
     ss_file_cache_bytes := None; ss_slab_bytes := None; ss_swap_used_bytes := None;
     ss_swap_in_pages := None; ss_swap_out_pages := None; ss_major_faults := None;
     ss_minor_faults := None; ss_pgscan := None; ss_pgsteal := None; ss_workingset_refault := None;
     ss_psi_memory := psi; ss_psi_cpu := None; ss_psi_io := None;
     ss_swap := {| sw_entries := []; sw_configuration := SwapNone |};
     ss_zram := no_zram; ss_zswap := no_zswap; ss_capabilities_unavailable := [] |}.

Definition start : ClassifierState :=
  classifier_new (classification default_config) (pressure default_config).

Lemma critical_pressure_adopted_at_once_witness :
  available_at_or_below (Some (machine 40 None))
    (pressure_critical_available_percent (cl_pressure start)) = true /\
  classifier_current (fst (classifier_evaluate 1 (Some (machine 40 None)) [] start)) =
  Some CriticalPressure.
Proof.
  assert (available_at_or_below (Some (machine 40 None))
            (pressure_critical_available_percent (cl_pressure start)) = true) as Ha
    by (vm_compute; reflexivity).
  split; [exact Ha |].
  apply (Theorems.critical_pressure_adopted_at_once 1 (Some (machine 40 None)) [] start).
  - vm_compute; reflexivity.
  - left. exact Ha.
Defined.

Lemma pressure_classes_monotone_witness :
  outcome_class (classify (Some (machine 100 None)) [] (classification default_config)
                   (pressure default_config)) = Some MemoryPressure /\
  (outcome_class (classify (Some (machine 90 None)) [] (classification default_config)
                    (pressure default_config)) = Some CriticalPressure \/
   outcome_class (classify (Some (machine 90 None)) [] (classification default_config)
                    (pressure default_config)) = Some MemoryPressure).
Proof.
  assert (outcome_class (classify (Some (machine 100 None)) [] (classification default_config)
            (pressure default_config)) = Some MemoryPressure) as Hb by (vm_compute; reflexivity).
  split; [exact Hb |].
  refine (proj2 (Theorems.pressure_classes_monotone (machine 100 None) (machine 90 None) []
                   (classification default_config) (pressure default_config) _ _) Hb).
  - unfold less_memory. cbn. split; [lia |]. split; reflexivity.
  - vm_compute; reflexivity.
Defined.
End Witnesses.
