(* ===== verification/Actuator.v ===== *)
(** crates/actuator: the cgroup plan ([plan]), its application with a verified
    readback ([apply_one]), its rollback and recovery.

    [CgroupBackend] and [SnapshotStore] are the source's traits, as classes over
    the state an implementation keeps. [&self] methods read that state, [&mut
    self] methods return the state they leave, also when they fail. The
    instances are the source's: [MemorySnapshotStore], [FakeCgroupBackend] and
    [LinuxCgroupBackend], the last over the file operations of [CgroupFs]. *)

From S2P Require Import Prelude F64 Text Config Classifier.

Definition FOREGROUND_GROUP : string := "nemor-foreground.slice".
Definition BACKGROUND_GROUP : string := "nemor-background.slice".

Record CgroupCapabilities := {
  cap_cgroup_v2 : bool;
  cap_memory_controller : bool;
  cap_hierarchy : string;
  cap_writable : bool;
  cap_memory_low : bool;
  cap_memory_high : bool;
  cap_attach : bool
}.

Definition mutation_ready (self : CgroupCapabilities) : bool :=
  cap_cgroup_v2 self && cap_memory_controller self && cap_writable self
  && cap_memory_low self && cap_memory_high self && cap_attach self.

Inductive BackendKind := LinuxCgroupfs | Simulated.

Record GroupState := {
  gs_name : string;
  gs_path : string;
  gs_owned_by_nemor : bool;
  gs_memory_low : option Z;
  gs_memory_high : option Z;
  gs_pids : gset Z
}.

Record RequestedProperties := {
  rp_memory_low : option Z;
  rp_memory_high : option Z
}.

Record CgroupPlan := {
  cp_process_catalog_id : Z;
  cp_identity : string;
  cp_pid : Z;
  cp_start_time_ticks : Z;
  cp_source_group : string;
  cp_target_group : string;
  cp_properties : RequestedProperties;
  cp_reason : string;
  cp_allowed : bool;
  cp_block_reasons : list string;
  cp_dry_run : bool
}.

Record PlanInput := {
  pi_process_catalog_id : Z;
  pi_identity : string;
  pi_current_start_time_ticks : option Z;
  pi_source_group : string;
  pi_classification : ProcessClassification;
  pi_total_ram_bytes : Z;
  pi_protected_workload_bytes : Z
}.

Record MutationSnapshot := {
  ms_id : Z;
  ms_session_id : Z;
  ms_timestamp_ns : Z;
  ms_process_catalog_id : Z;
  ms_identity : string;
  ms_pid : Z;
  ms_start_time_ticks : Z;
  ms_original_group : string;
  ms_target_group : string;
  ms_original_properties : RequestedProperties;
  ms_requested_properties : RequestedProperties;
  ms_reason : string;
  ms_applied : bool;
  ms_verified : bool;
  ms_rolled_back : bool;
  ms_last_error : option string
}.

Definition set_id (id : Z) (s : MutationSnapshot) : MutationSnapshot :=
  {| ms_id := id; ms_session_id := ms_session_id s; ms_timestamp_ns := ms_timestamp_ns s;
     ms_process_catalog_id := ms_process_catalog_id s; ms_identity := ms_identity s;
     ms_pid := ms_pid s; ms_start_time_ticks := ms_start_time_ticks s;
     ms_original_group := ms_original_group s; ms_target_group := ms_target_group s;
     ms_original_properties := ms_original_properties s;
     ms_requested_properties := ms_requested_properties s; ms_reason := ms_reason s;
     ms_applied := ms_applied s; ms_verified := ms_verified s;
     ms_rolled_back := ms_rolled_back s; ms_last_error := ms_last_error s |}.

(** the assignments to [applied], [verified], [rolled_back], [last_error] *)
Definition set_flags (applied verified rolled_back : bool) (err : option string)
    (s : MutationSnapshot) : MutationSnapshot :=
  {| ms_id := ms_id s; ms_session_id := ms_session_id s; ms_timestamp_ns := ms_timestamp_ns s;
     ms_process_catalog_id := ms_process_catalog_id s; ms_identity := ms_identity s;
     ms_pid := ms_pid s; ms_start_time_ticks := ms_start_time_ticks s;
     ms_original_group := ms_original_group s; ms_target_group := ms_target_group s;
     ms_original_properties := ms_original_properties s;
     ms_requested_properties := ms_requested_properties s; ms_reason := ms_reason s;
     ms_applied := applied; ms_verified := verified;
     ms_rolled_back := rolled_back; ms_last_error := err |}.
Definition set_applied (s : MutationSnapshot) :=
  set_flags true (ms_verified s) (ms_rolled_back s) (ms_last_error s) s.
Definition set_verified (s : MutationSnapshot) :=
  set_flags (ms_applied s) true (ms_rolled_back s) (ms_last_error s) s.
Definition set_rolled_back (s : MutationSnapshot) :=
  set_flags (ms_applied s) (ms_verified s) true (ms_last_error s) s.
Definition set_last_error (e : string) (s : MutationSnapshot) :=
  set_flags (ms_applied s) (ms_verified s) (ms_rolled_back s) (Some e) s.

(** [io::Error]: its kind, as far as the code asks, and its message *)
Record io_error := { io_not_found : bool; io_message : string }.

Inductive ActuatorError :=
| Capability (message : string)
| Blocked (message : string)
| Backend (operation : string) (source : io_error)
| Verification (message : string)
| Persistence (message : string).

(** the [Display] implementation that [thiserror] derives *)
Definition error_to_string (e : ActuatorError) : string :=
  match e with
  | Capability m => "cgroup capability unavailable: " ++ m
  | Blocked m => "mutation is blocked: " ++ m
  | Backend op src => "backend operation `" ++ op ++ "` failed: " ++ io_message src
  | Verification m => "verification failed: " ++ m
  | Persistence m => "snapshot persistence failed: " ++ m
  end%string.

Class CgroupBackend (B : Type) := {
  kind : B -> BackendKind;
  capabilities : B -> result CgroupCapabilities ActuatorError;
  inspect_group : string -> B -> result (option GroupState) ActuatorError;
  create_managed_group : string -> eff B GroupState ActuatorError;
  set_properties : string -> RequestedProperties -> eff B unit ActuatorError;
  attach_pid : string -> Z -> eff B unit ActuatorError;
  process_start_time : Z -> B -> result (option Z) ActuatorError;
  process_group : Z -> B -> result (option string) ActuatorError;
  cleanup_empty_owned_group : string -> eff B unit ActuatorError
}.

Class SnapshotStore (S : Type) := {
  persist : MutationSnapshot -> eff S Z ActuatorError;
  update : MutationSnapshot -> eff S unit ActuatorError;
  pending : S -> result (list MutationSnapshot) ActuatorError;
  record_managed_group : string -> Z -> BackendKind -> eff S unit ActuatorError;
  remove_managed_group : string -> eff S unit ActuatorError
}.

(** ** The plan *)

Definition percent (total value : Z) : Z := u64_sat_mul total value / 100.

(** [None] is the panic of [Ord::clamp] when the bounds are crossed. *)
Definition memory_low_bytes (total_ram workload : Z) (config : CgroupsConfig) : option Z :=
  let min := percent total_ram (cgroups_foreground_min_percent config) in
  let max := percent total_ram (cgroups_foreground_max_percent config) in
  let headroom := percent total_ram (cgroups_minimum_headroom_percent config) in
  clamp (u64_sat_add workload headroom) min max.

Definition memory_high_bytes (total_ram protected_low : Z) (config : CgroupsConfig) : option Z :=
  let min := percent total_ram (cgroups_background_high_min_percent config) in
  let max := percent total_ram (cgroups_background_high_max_percent config) in
  let headroom := percent total_ram (cgroups_minimum_headroom_percent config) in
  clamp (u64_sat_sub (u64_sat_sub total_ram protected_low) headroom) min max.

Definition protected_target_of (process : ProcessClassification) : bool :=
  pc_is_game process || pc_is_critical process || pc_protected process
  || bool_decide (pc_foreground process = FgForeground).

Definition plan_blocks (input : PlanInput) (config : CgroupsConfig) : list string :=
  let process := pi_classification input in
  let expected_start := unwrap_or (start_time_ticks (pc_sample process)) 0 in
  let protected_target := protected_target_of process in
  push_if (negb (cgroups_allow_move config)) "pid_migration_disabled"
  (push_if (negb protected_target && negb (bool_decide (pc_foreground process = FgBackground)))
     "not_confirmed_background"
  (push_if (bool_decide (pc_category process = CatUnknown)) "unknown_process"
  (push_if (negb (bool_decide (pi_current_start_time_ticks input = Some expected_start)))
     "pid_starttime_mismatch"
  (push_if (negb (contains_str (cgroups_allowed_identities config) (pi_identity input)))
     "identity_not_allow_listed"
  (push_if (negb (Z.of_nat (String.length (pi_identity input)) =? 64)) "invalid_identity" []))))).

Definition plan (input : PlanInput) (config : CgroupsConfig) (mode : string) : option CgroupPlan :=
  let process := pi_classification input in
  let sample := pc_sample process in
  let blocks := plan_blocks input config in
  let protected_target := protected_target_of process in
  let observe := String.eqb mode "observe" in
  let dry_run := observe || cgroups_dry_run config || negb (cgroups_enabled config) in
  low ← memory_low_bytes (pi_total_ram_bytes input) (pi_protected_workload_bytes input) config;
  '(target_group, properties, reason) ←
    (if protected_target then
       Some (FOREGROUND_GROUP, {| rp_memory_low := Some low; rp_memory_high := None |},
             "dynamic_foreground_protection"%string)
     else
       high ← memory_high_bytes (pi_total_ram_bytes input) low config;
       Some (BACKGROUND_GROUP, {| rp_memory_low := None; rp_memory_high := Some high |},
             "conservative_background_soft_limit"%string));
  Some {| cp_process_catalog_id := pi_process_catalog_id input;
          cp_identity := pi_identity input;
          cp_pid := pid sample;
          cp_start_time_ticks := unwrap_or (start_time_ticks sample) 0;
          cp_source_group := pi_source_group input;
          cp_target_group := target_group;
          cp_properties := properties;
          cp_reason := reason;
          cp_allowed := bool_decide (blocks = []);
          cp_block_reasons := blocks;
          cp_dry_run := dry_run |}.

Definition is_managed_char (c : ascii) : bool :=
  is_ascii_alphanumeric c || str_contains_char c "._-".

Definition is_managed_name (name : string) : bool :=
  (String.eqb name FOREGROUND_GROUP || String.eqb name BACKGROUND_GROUP)
  || ((starts_with "nemor-test-" name || starts_with "nemor-validation-" name)
      && ends_with ".scope" name && str_all is_managed_char name).

(** ** Application, rollback, recovery *)
Section Operations.
Context {B S : Type} `{CgroupBackend B} `{SnapshotStore S}.

(** the calls of the two components inside an operation of both *)
Definition read_backend {A} (f : B -> result A ActuatorError) : eff (B * S) A ActuatorError :=
  eff_fst (eff_read f).

(** the process goes back to its group, when the pid is still that process *)
Definition return_process (snapshot : MutationSnapshot) : eff (B * S) unit ActuatorError :=
  let! start := read_backend (process_start_time (ms_pid snapshot)) in
  let! placed := (if bool_decide (start = Some (ms_start_time_ticks snapshot)) then
                    let! group := read_backend (process_group (ms_pid snapshot)) in
                    eff_ret (is_some group)
                  else eff_ret false) in
  if placed : bool then
    let! original := read_backend (inspect_group (ms_original_group snapshot)) in
    eff_reject (is_none original)
      (Blocked "original group disappeared; placement left untouched") ;!
    eff_fst (attach_pid (ms_original_group snapshot) (ms_pid snapshot))
  else eff_ret tt.

(** the limits of the target go back, and the target goes when it is empty *)
Definition restore_target (snapshot : MutationSnapshot) : eff (B * S) unit ActuatorError :=
  let! target := read_backend (inspect_group (ms_target_group snapshot)) in
  if is_some target then
    eff_fst (set_properties (ms_target_group snapshot) (ms_original_properties snapshot)) ;!
    eff_fst (cleanup_empty_owned_group (ms_target_group snapshot)) ;!
    let! left := read_backend (inspect_group (ms_target_group snapshot)) in
    if is_none left then eff_snd (remove_managed_group (ms_target_group snapshot))
    else eff_ret tt
  else eff_ret tt.

Definition rollback_one (snapshot : MutationSnapshot) :
    eff (B * S) MutationSnapshot ActuatorError :=
  if ms_rolled_back snapshot then eff_ret snapshot else
  eff_reject (negb (is_managed_name (ms_target_group snapshot)))
    (Blocked "refusing rollback of non-Nemor group") ;!
  return_process snapshot ;!
  restore_target snapshot ;!
  let snapshot := set_rolled_back snapshot in
  eff_snd (update snapshot) ;!
  eff_ret snapshot.

(** the error branches of [apply_one]: record the error, roll back, return it *)
Definition fail_apply {A} (snapshot : MutationSnapshot) (error : ActuatorError) :
    eff (B * S) A ActuatorError :=
  let snapshot := set_last_error (error_to_string error) snapshot in
  eff_snd (update snapshot) ;!
  rollback_one snapshot ;!
  eff_err error.

Definition snapshot_of (session_id timestamp_ns : Z) (plan : CgroupPlan) (original_group : string)
    (original : option GroupState) : MutationSnapshot :=
  {| ms_id := 0; ms_session_id := session_id; ms_timestamp_ns := timestamp_ns;
     ms_process_catalog_id := cp_process_catalog_id plan; ms_identity := cp_identity plan;
     ms_pid := cp_pid plan; ms_start_time_ticks := cp_start_time_ticks plan;
     ms_original_group := original_group; ms_target_group := cp_target_group plan;
     ms_original_properties :=
       match original with
       | None => {| rp_memory_low := None; rp_memory_high := None |}
       | Some state => {| rp_memory_low := gs_memory_low state;
                          rp_memory_high := gs_memory_high state |}
       end;
     ms_requested_properties := cp_properties plan; ms_reason := cp_reason plan;
     ms_applied := false; ms_verified := false; ms_rolled_back := false;
     ms_last_error := None |}.

(** what [apply_one] asks of the backend before it persists anything *)
Definition preflight (plan : CgroupPlan) : eff (B * S) string ActuatorError :=
  let! caps := read_backend capabilities in
  eff_reject (negb (mutation_ready caps))
    (Capability "complete writable cgroup v2 memory interface required") ;!
  let! start := read_backend (process_start_time (cp_pid plan)) in
  eff_reject (negb (bool_decide (start = Some (cp_start_time_ticks plan))))
    (Blocked "stale process identity") ;!
  let! group := read_backend (process_group (cp_pid plan)) in
  match group with
  | None => eff_err (Blocked "process terminated")
  | Some original_group => eff_ret original_group
  end.

Definition readback_differs (plan : CgroupPlan) (state : GroupState) : bool :=
  negb (bool_decide (cp_pid plan ∈ gs_pids state))
  || negb (bool_decide (gs_memory_low state = rp_memory_low (cp_properties plan)))
  || negb (bool_decide (gs_memory_high state = rp_memory_high (cp_properties plan))).

Definition apply_one (session_id timestamp_ns : Z) (plan : CgroupPlan) :
    eff (B * S) (option MutationSnapshot) ActuatorError :=
  if cp_dry_run plan then eff_ret None else
  eff_reject (negb (cp_allowed plan)) (Blocked (join "," (cp_block_reasons plan))) ;!
  eff_reject (negb (is_managed_name (cp_target_group plan)))
    (Blocked "target is not Nemor-owned") ;!
  let! original_group := preflight plan in
  let! original := read_backend (inspect_group (cp_target_group plan)) in
  let snapshot := snapshot_of session_id timestamp_ns plan original_group original in
  let! id := eff_snd (persist snapshot) in
  let snapshot := set_id id snapshot in
  let! present := read_backend (inspect_group (cp_target_group plan)) in
  (if is_none present then
     eff_fst (create_managed_group (cp_target_group plan)) ;!
     let! k := read_backend (fun b => Ok (kind b)) in
     eff_snd (record_managed_group (cp_target_group plan) session_id k)
   else eff_ret tt) ;!
  let! set := eff_try (eff_fst (set_properties (cp_target_group plan) (cp_properties plan))) in
  match set with
  | Err error => fail_apply snapshot error
  | Ok _ =>
      let! attached := eff_try (eff_fst (attach_pid (cp_target_group plan) (cp_pid plan))) in
      match attached with
      | Err error => fail_apply snapshot error
      | Ok _ =>
          let snapshot := set_applied snapshot in
          eff_snd (update snapshot) ;!
          let! state := read_backend (inspect_group (cp_target_group plan)) in
          match state with
          | None => eff_err (Verification "target disappeared")
          | Some state =>
              if readback_differs plan state
              then fail_apply snapshot (Verification "readback differs from request")
              else let snapshot := set_verified snapshot in
                   eff_snd (update snapshot) ;!
                   eff_ret (Some snapshot)
          end
      end
  end.

(** the snapshots in order, the state threaded through the rollbacks *)
Fixpoint rollback_all (snapshots : list MutationSnapshot) (s : B * S) :
    (B * S) * list (result unit ActuatorError) :=
  match snapshots with
  | [] => (s, [])
  | snapshot :: rest =>
      let '(s, r) := rollback_one snapshot s in
      let '(s, rs) := rollback_all rest s in
      (s, (let? _x := r in Ok tt) :: rs)
  end.

Definition recover (s : B * S) : (B * S) * list (result unit ActuatorError) :=
  match pending (snd s) with
  | Ok pending => rollback_all pending s
  | Err error => (s, [Err error])
  end.
End Operations.

(** ** The stores and backends of the source *)

Module Memory.
Record MemorySnapshotStore := {
  next_id : Z;
  snapshots : gmap Z MutationSnapshot;
  managed_groups : gset string
}.

Definition empty_store : MemorySnapshotStore :=
  {| next_id := 0; snapshots := ∅; managed_groups := ∅ |}.

Definition mem_persist (snapshot : MutationSnapshot) : eff MemorySnapshotStore Z ActuatorError :=
  fun self =>
    let id := u64_wrap (next_id self + 1) in
    ({| next_id := id; snapshots := <[id := set_id id snapshot]> (snapshots self);
        managed_groups := managed_groups self |}, Ok id).

Definition mem_update (snapshot : MutationSnapshot) : eff MemorySnapshotStore unit ActuatorError :=
  fun self =>
    if is_none (snapshots self !! ms_id snapshot)
    then (self, Err (Persistence "unknown snapshot"))
    else ({| next_id := next_id self;
             snapshots := <[ms_id snapshot := snapshot]> (snapshots self);
             managed_groups := managed_groups self |}, Ok tt).

(** [BTreeMap::values]: in the order of the keys *)
Definition values {V} (m : gmap Z V) : list V :=
  map snd (sort_by (fun a b => fst a <=? fst b) (map_to_list m)).

Definition mem_pending (self : MemorySnapshotStore) :
    result (list MutationSnapshot) ActuatorError :=
  Ok (filter (fun s => ms_applied s && negb (ms_rolled_back s) = true) (values (snapshots self))).

Definition mem_set_groups (f : gset string -> gset string) :
    eff MemorySnapshotStore unit ActuatorError :=
  eff_upd (fun self => {| next_id := next_id self; snapshots := snapshots self;
                          managed_groups := f (managed_groups self) |}).

#[export] Instance memory_store : SnapshotStore MemorySnapshotStore := {|
  persist := mem_persist;
  update := mem_update;
  pending := mem_pending;
  record_managed_group name _ _ := mem_set_groups (fun g => {[name]} ∪ g);
  remove_managed_group name := mem_set_groups (fun g => g ∖ {[name]})
|}.
End Memory.

Module Fake.
Inductive FakeFailure := FailCreate | FailProperty | FailMove | FailVerify | FailRollback.
#[export] Instance FakeFailure_eq_dec : EqDecision FakeFailure.
Proof. solve_decision. Defined.

Record FakeCgroupBackend := {
  fk_capabilities : CgroupCapabilities;
  groups : gmap string GroupState;
  starts : gmap Z Z;
  placements : gmap Z string;
  operations : list string;
  failure : option FakeFailure
}.

Definition fake_capabilities : CgroupCapabilities :=
  {| cap_cgroup_v2 := true; cap_memory_controller := true; cap_hierarchy := "/fake";
     cap_writable := true; cap_memory_low := true; cap_memory_high := true;
     cap_attach := true |}.

Definition fake_default : FakeCgroupBackend :=
  {| fk_capabilities := fake_capabilities; groups := ∅; starts := ∅; placements := ∅;
     operations := []; failure := None |}.

Definition log (op : string) (self : FakeCgroupBackend) : FakeCgroupBackend :=
  {| fk_capabilities := fk_capabilities self; groups := groups self; starts := starts self;
     placements := placements self; operations := operations self ++ [op];
     failure := failure self |}.
Definition set_groups (g : gmap string GroupState) (self : FakeCgroupBackend) :=
  {| fk_capabilities := fk_capabilities self; groups := g; starts := starts self;
     placements := placements self; operations := operations self; failure := failure self |}.
Definition set_placements (p : gmap Z string) (self : FakeCgroupBackend) :=
  {| fk_capabilities := fk_capabilities self; groups := groups self; starts := starts self;
     placements := p; operations := operations self; failure := failure self |}.

Definition fails (f : FakeFailure) (self : FakeCgroupBackend) : bool :=
  bool_decide (failure self = Some f).

Definition fake_error (operation : string) : ActuatorError :=
  Backend operation {| io_not_found := false; io_message := "injected failure" |}.

Definition with_limits (low high : option Z) (state : GroupState) : GroupState :=
  {| gs_name := gs_name state; gs_path := gs_path state;
     gs_owned_by_nemor := gs_owned_by_nemor state;
     gs_memory_low := low; gs_memory_high := high; gs_pids := gs_pids state |}.
Definition with_pids (f : gset Z -> gset Z) (state : GroupState) : GroupState :=
  {| gs_name := gs_name state; gs_path := gs_path state;
     gs_owned_by_nemor := gs_owned_by_nemor state;
     gs_memory_low := gs_memory_low state; gs_memory_high := gs_memory_high state;
     gs_pids := f (gs_pids state) |}.

Definition fake_inspect_group (name : string) (self : FakeCgroupBackend) :
    result (option GroupState) ActuatorError :=
  Ok (if fails FailVerify self
      then (fun s => with_limits (gs_memory_low s) None s) <$> groups self !! name
      else groups self !! name).

Definition new_group (name : string) : GroupState :=
  {| gs_name := name; gs_path := "/fake/" ++ name; gs_owned_by_nemor := true;
     gs_memory_low := None; gs_memory_high := None; gs_pids := ∅ |}%string.

Definition fake_create_managed_group (name : string) :
    eff FakeCgroupBackend GroupState ActuatorError :=
  fun self =>
    let self := log ("create:" ++ name) self in
    if fails FailCreate self then (self, Err (fake_error "create managed group"))
    else if negb (is_managed_name name) then (self, Err (Blocked "foreign group"))
    else (set_groups (<[name := new_group name]> (groups self)) self, Ok (new_group name)).

Definition fake_set_properties (name : string) (properties : RequestedProperties) :
    eff FakeCgroupBackend unit ActuatorError :=
  fun self =>
    let self := log ("properties:" ++ name) self in
    if fails FailProperty self then (self, Err (fake_error "set properties"))
    else match groups self !! name with
         | None => (self, Err (fake_error "set properties"))
         | Some state =>
             (set_groups (<[name := with_limits (rp_memory_low properties)
                                      (rp_memory_high properties) state]> (groups self)) self,
              Ok tt)
         end.

(** the move of [pid] from its old group to [name] *)
Definition move_pid (name : string) (pid : Z) (self : FakeCgroupBackend) : gmap string GroupState :=
  let g := groups self in
  let g := match placements self !! pid with
           | Some old => alter (with_pids (fun p => p ∖ {[pid]})) old g
           | None => g
           end in
  alter (with_pids (fun p => {[pid]} ∪ p)) name g.

Definition fake_attach_pid (name : string) (pid : Z) : eff FakeCgroupBackend unit ActuatorError :=
  fun self =>
    let self := log ("attach:" ++ name ++ ":" ++ show_uint pid) self in
    if fails FailMove self then (self, Err (fake_error "attach PID"))
    else (set_placements (<[pid := name]> (placements self))
            (set_groups (move_pid name pid self) self), Ok tt).

Definition fake_cleanup (name : string) : eff FakeCgroupBackend unit ActuatorError :=
  fun self =>
    let self := log ("cleanup:" ++ name) self in
    if fails FailRollback self then (self, Err (fake_error "cleanup"))
    else if is_some_and (groups self !! name)
              (fun state => gs_owned_by_nemor state && bool_decide (gs_pids state = ∅))
    then (set_groups (delete name (groups self)) self, Ok tt)
    else (self, Ok tt).

#[export] Instance fake_backend : CgroupBackend FakeCgroupBackend := {|
  kind _ := Simulated;
  capabilities self := Ok (fk_capabilities self);
  inspect_group := fake_inspect_group;
  create_managed_group := fake_create_managed_group;
  set_properties := fake_set_properties;
  attach_pid := fake_attach_pid;
  process_start_time pid self := Ok (starts self !! pid);
  process_group pid self := Ok (placements self !! pid);
  cleanup_empty_owned_group := fake_cleanup
|}.
End Fake.

(** [LinuxCgroupBackend], over the file operations it uses *)
Module Linux.
(** The calls of [std::fs] and [std::path]; the state is the file system. *)
Class CgroupFs (W : Type) := {
  read_to_string : string -> W -> result string io_error;
  fs_write : string -> string -> eff W unit io_error;
  create_dir : string -> eff W unit io_error;
  remove_dir : string -> eff W unit io_error;
  exists_path : string -> W -> bool;
  is_file : string -> W -> bool;
  opens_for_writing : string -> W -> bool
}.

Definition map_err {A E F} (f : E -> F) (r : result A E) : result A F :=
  match r with Ok a => Ok a | Err e => Err (f e) end.
Definition eff_map_err {W A E F} (f : E -> F) (m : eff W A E) : eff W A F :=
  fun w => let '(w', r) := m w in (w', map_err f r).

(** [stat[stat.rfind(')')? + 1..]] *)
Fixpoint after_last (c : ascii) (s : string) : option string :=
  match s with
  | EmptyString => None
  | String d s' =>
      match after_last c s' with
      | Some r => Some r
      | None => if Ascii.eqb c d then Some s' else None
      end
  end.

Definition parse_start_time (stat : string) : result (option Z) ActuatorError :=
  match after_last ")" stat with
  | None => Err (Verification "invalid process stat")
  | Some rest => Ok (nth_error (split_whitespace rest) 19 ≫= parse_u64)
  end.

Definition parse_process_group (value : string) : option string :=
  head (omap (strip_prefix "0::") (lines value)).

Definition parse_limit (content : result string io_error) : option Z :=
  match content with Ok value => parse_u64 (trim value) | Err _ => None end.

Definition parse_pids (content : result string io_error) : gset Z :=
  match content with Ok value => list_to_set (omap parse_u32 (lines value)) | Err _ => ∅ end.

Section Backend.
Context {W : Type} `{CgroupFs W} (root : string).

Definition group_path (name : string) : result string ActuatorError :=
  if negb (is_managed_name name)
  then Err (Blocked "group name is outside the Nemor namespace")
  else Ok (path_join root name).

Definition inspect_path (name : string) : result (string * bool) ActuatorError :=
  if is_managed_name name then Ok (path_join root name, true)
  else match strip_prefix "/" name with
       | None => Err (Blocked "external group must be an absolute cgroup path")
       | Some relative =>
           if existsb (fun component => str_empty component || String.eqb component "."
                                        || String.eqb component "..")
                (split_char "/" relative)
           then Err (Blocked "external group path is not normalized")
           else Ok (path_join root relative, false)
       end.

Definition write (path value operation : string) : eff W unit ActuatorError :=
  eff_map_err (Backend operation) (fs_write path value).

Definition linux_capabilities (w : W) : result CgroupCapabilities ActuatorError :=
  let? controllers :=
    map_err (Backend "read cgroup.controllers")
      (read_to_string (path_join root "cgroup.controllers") w) in
  let probe := path_join root FOREGROUND_GROUP in
  let memory := contains_str (split_whitespace controllers) "memory" in
  Ok {| cap_cgroup_v2 := is_file (path_join root "cgroup.controllers") w;
        cap_memory_controller := memory;
        cap_hierarchy := root;
        cap_writable := opens_for_writing (path_join root "cgroup.procs") w;
        cap_memory_low :=
          memory && (exists_path (path_join probe "memory.low") w
                     || negb (exists_path probe w));
        cap_memory_high :=
          memory && (exists_path (path_join probe "memory.high") w
                     || negb (exists_path probe w));
        cap_attach := exists_path (path_join probe "cgroup.procs") w
                      || exists_path (path_join root "cgroup.procs") w |}.

Definition linux_inspect_group (name : string) (w : W) :
    result (option GroupState) ActuatorError :=
  let? found := inspect_path name in
  let '(path, owned_by_nemor) := found in
  if negb (exists_path path w) then Ok None
  else
    Ok (Some {| gs_name := name;
                gs_path := path;
                gs_owned_by_nemor := owned_by_nemor;
                gs_memory_low := parse_limit (read_to_string (path_join path "memory.low") w);
                gs_memory_high := parse_limit (read_to_string (path_join path "memory.high") w);
                gs_pids := parse_pids (read_to_string (path_join path "cgroup.procs") w) |}).

Definition linux_create_managed_group (name : string) : eff W GroupState ActuatorError :=
  let! path := eff_read (fun _ => group_path name) in
  eff_map_err (Backend "create managed group") (create_dir path) ;!
  let! state := eff_read (linux_inspect_group name) in
  match state with
  | None => eff_err (Verification "created group is absent")
  | Some state => eff_ret state
  end.

Definition linux_set_properties (name : string) (properties : RequestedProperties) :
    eff W unit ActuatorError :=
  let! path := eff_read (fun _ => group_path name) in
  (match rp_memory_low properties with
   | Some value => write (path_join path "memory.low") (show_uint value) "write memory.low"
   | None => eff_ret tt
   end) ;!
  match rp_memory_high properties with
  | Some value => write (path_join path "memory.high") (show_uint value) "write memory.high"
  | None => eff_ret tt
  end.

Definition linux_attach_pid (name : string) (pid : Z) : eff W unit ActuatorError :=
  let! path :=
    eff_read (fun _ =>
      if is_managed_name name then group_path name
      else match strip_prefix "/" name with
           | None => Err (Blocked "original group must be an absolute cgroup path")
           | Some relative => Ok (path_join root relative)
           end) in
  write (path_join path "cgroup.procs") (show_uint pid) "attach PID".

Definition linux_process_start_time (pid : Z) (w : W) : result (option Z) ActuatorError :=
  match read_to_string ("/proc/" ++ show_uint pid ++ "/stat") w with
  | Ok stat => parse_start_time stat
  | Err error => if io_not_found error then Ok None
                 else Err (Backend "read process stat" error)
  end.

Definition linux_process_group (pid : Z) (w : W) : result (option string) ActuatorError :=
  match read_to_string ("/proc/" ++ show_uint pid ++ "/cgroup") w with
  | Ok value => Ok (parse_process_group value)
  | Err error => if io_not_found error then Ok None
                 else Err (Backend "read process cgroup" error)
  end.

Definition linux_cleanup_empty_owned_group (name : string) : eff W unit ActuatorError :=
  let! state := eff_read (linux_inspect_group name) in
  match state with
  | None => eff_ret tt
  | Some state =>
      if negb (gs_owned_by_nemor state) || negb (bool_decide (gs_pids state = ∅))
      then eff_ret tt
      else eff_map_err (Backend "remove empty managed group") (remove_dir (gs_path state))
  end.

Definition linux_backend : CgroupBackend W := {|
  kind _ := LinuxCgroupfs;
  capabilities := linux_capabilities;
  inspect_group := linux_inspect_group;
  create_managed_group := linux_create_managed_group;
  set_properties := linux_set_properties;
  attach_pid := linux_attach_pid;
  process_start_time := linux_process_start_time;
  process_group := linux_process_group;
  cleanup_empty_owned_group := linux_cleanup_empty_owned_group
|}.
End Backend.
End Linux.

(** ** Lemmas *)
Module Facts.
Import Memory Fake Linux.

Lemma plan_blocks_nil input config :
  plan_blocks input config = [] <->
  String.length (pi_identity input) = 64%nat /\
  pi_identity input ∈ cgroups_allowed_identities config /\
  pi_current_start_time_ticks input =
    Some (unwrap_or (start_time_ticks (pc_sample (pi_classification input))) 0) /\
  pc_category (pi_classification input) <> CatUnknown /\
  (protected_target_of (pi_classification input) = false ->
   pc_foreground (pi_classification input) = FgBackground) /\
  cgroups_allow_move config = true.
Proof.
  unfold plan_blocks. rewrite !push_if_nil, !negb_false_iff, !andb_false_iff, !negb_false_iff.
  rewrite !bool_decide_eq_true, !bool_decide_eq_false, contains_str_elem, Z.eqb_eq.
  destruct (protected_target_of _).
  - split; [intros (H1 & _ & H2 & H3 & H4 & H5 & _) | intros (H1 & H2 & H3 & H4 & _ & H5)];
      repeat split; auto; lia.
  - split; [intros (H1 & [?|H6] & H2 & H3 & H4 & H5 & _) | intros (H1 & H2 & H3 & H4 & H6 & H5)];
      repeat split; auto; try lia; discriminate.
Qed.

Lemma percent_le total v w : 0 <= total -> 0 <= v <= w -> 0 <= percent total v <= percent total w.
Proof.
  intros Ht Hv. unfold percent, u64_sat_mul, u64_max.
  split; [apply Z.div_pos; [nia | lia] | apply Z.div_le_mono; nia].
Qed.

Lemma percent_le_total total v : 0 <= total -> 0 <= v <= 100 -> percent total v <= total.
Proof.
  intros Ht Hv. unfold percent, u64_sat_mul.
  transitivity (total * 100 / 100); [apply Z.div_le_mono; nia |]. rewrite Z.div_mul; lia.
Qed.

Lemma memory_low_bytes_some total workload config :
  0 <= total -> 0 <= cgroups_foreground_min_percent config <= cgroups_foreground_max_percent config ->
  exists low, memory_low_bytes total workload config = Some low /\
    percent total (cgroups_foreground_min_percent config) <= low
      <= percent total (cgroups_foreground_max_percent config).
Proof. intros Ht Hc. apply clamp_some. by apply percent_le. Qed.

Lemma memory_high_bytes_some total low config :
  0 <= total ->
  0 <= cgroups_background_high_min_percent config <= cgroups_background_high_max_percent config ->
  exists high, memory_high_bytes total low config = Some high /\
    percent total (cgroups_background_high_min_percent config) <= high
      <= percent total (cgroups_background_high_max_percent config).
Proof. intros Ht Hc. apply clamp_some. by apply percent_le. Qed.

(** The fields of a plan *)
Lemma plan_inv input config mode p :
  plan input config mode = Some p ->
  cp_block_reasons p = plan_blocks input config /\
  cp_allowed p = bool_decide (plan_blocks input config = []) /\
  cp_dry_run p = String.eqb mode "observe" || cgroups_dry_run config
                 || negb (cgroups_enabled config) /\
  cp_identity p = pi_identity input /\
  cp_pid p = pid (pc_sample (pi_classification input)) /\
  cp_start_time_ticks p = unwrap_or (start_time_ticks (pc_sample (pi_classification input))) 0 /\
  exists low,
    memory_low_bytes (pi_total_ram_bytes input) (pi_protected_workload_bytes input) config
      = Some low /\
    if protected_target_of (pi_classification input)
    then cp_target_group p = FOREGROUND_GROUP /\
         cp_properties p = {| rp_memory_low := Some low; rp_memory_high := None |}
    else exists high, memory_high_bytes (pi_total_ram_bytes input) low config = Some high /\
         cp_target_group p = BACKGROUND_GROUP /\
         cp_properties p = {| rp_memory_low := None; rp_memory_high := Some high |}.
Proof.
  unfold plan. destruct (memory_low_bytes _ _ _) as [low|] eqn:El; simpl; [| done].
  destruct (protected_target_of _) eqn:Ep; simpl.
  - intros [= <-]. cbn. repeat split; try done. by exists low.
  - destruct (memory_high_bytes _ _ _) as [high|] eqn:Eh; simpl; [| done].
    intros [= <-]. cbn. repeat split; try done. exists low. split; [done |]. by exists high.
Qed.

Lemma is_managed_name_confined name :
  is_managed_name name = true ->
  Classifier.Facts.plain_component name.
Proof.
  unfold is_managed_name. rewrite !orb_true_iff, !String.eqb_eq, !andb_true_iff, orb_true_iff.
  intros [[-> | ->] | [[Hp Hs] Hc]]; [by repeat split | by repeat split |].
  assert (exists r, name = ("nemor-" ++ r)%string) as [r ->].
  { destruct Hp as [Hp|Hp]; unfold starts_with in Hp;
      destruct (strip_prefix _ name) as [r|] eqn:E; try done;
      apply strip_prefix_some in E as ->; [by exists ("test-" ++ r)%string
                                          | by exists ("validation-" ++ r)%string]. }
  repeat split; try done.
  unfold str_contains_char. apply negb_false_iff.
  eapply str_all_impl; [| exact Hc].
  intros c Hm. destruct (Ascii.eqb_spec "/" c) as [<-|]; [| done].
  vm_compute in Hm. done.
Qed.

(** ** Inversion of the operations *)
Section Reads.
Context {B S : Type} `{CgroupBackend B} `{SnapshotStore S}.

Lemma read_backend_ok {A} (f : B -> result A ActuatorError) (s s' : B * S) a :
  read_backend f s = (s', Ok a) <-> f (fst s) = Ok a /\ s' = s.
Proof.
  unfold read_backend. rewrite eff_fst_ok. unfold eff_read.
  destruct s as [b t], s' as [b' t']; simpl. split.
  - by intros [[= <- Hf] ->].
  - by intros [-> [= <- <-]].
Qed.

Lemma read_backend_state {A} (f : B -> result A ActuatorError) (s : B * S) :
  read_backend f s = (s, f (fst s)).
Proof. by destruct s. Qed.


Lemma read_backend_run {A} (f : B -> result A ActuatorError) b (t : S) a :
  f b = Ok a -> read_backend f (b, t) = ((b, t), Ok a).
Proof. rewrite read_backend_state. simpl. by intros ->. Qed.
End Reads.

Ltac inv_run :=
    repeat first
      [ inv_eff_step
      | match goal with
        | H : read_backend _ _ = (_, Ok _) |- _ => apply read_backend_ok in H as [? ->]
        | H : eff_fst _ _ = (_, Ok _) |- _ => apply eff_fst_ok in H as [? ?]
        | H : eff_snd _ _ = (_, Ok _) |- _ => apply eff_snd_ok in H as [? ?]
        end ].

Section Inversion.
Context {B S : Type} `{CgroupBackend B} `{SnapshotStore S}.

Lemma fail_apply_err {A} snapshot error (s s' : B * S) (a : A) :
  fail_apply snapshot error s <> (s', Ok a).
Proof. unfold fail_apply. intros Hf. inv_eff. Qed.

Lemma preflight_ok plan (s s' : B * S) g :
  preflight plan s = (s', Ok g) ->
  s' = s /\
  (exists caps, capabilities (fst s) = Ok caps /\ mutation_ready caps = true) /\
  process_start_time (cp_pid plan) (fst s) = Ok (Some (cp_start_time_ticks plan)) /\
  process_group (cp_pid plan) (fst s) = Ok (Some g).
Proof.
  unfold preflight. intros Hp. inv_eff.
  inv_run.
  bools. subst. destruct a3 as [g'|]; [| discriminate]. inv_eff. eauto 10.
Qed.

Lemma preflight_run plan (b : B) (t : S) caps g :
  capabilities b = Ok caps -> mutation_ready caps = true ->
  process_start_time (cp_pid plan) b = Ok (Some (cp_start_time_ticks plan)) ->
  process_group (cp_pid plan) b = Ok (Some g) ->
  preflight plan (b, t) = ((b, t), Ok g).
Proof.
  intros Hc Hr Hs Hg. unfold preflight.
  erewrite eff_bind_run by by apply read_backend_run.
  erewrite eff_bind_run by (apply eff_reject_run; by rewrite Hr).
  erewrite eff_bind_run by by apply read_backend_run.
  erewrite eff_bind_run by (apply eff_reject_run; by rewrite bool_decide_eq_true_2).
  by erewrite eff_bind_run by by apply read_backend_run.
Qed.

Lemma preflight_state plan (s : B * S) : fst (preflight plan s) = s.
Proof.
  unfold preflight, eff_bind, eff_reject. rewrite !read_backend_state.
  destruct (capabilities _); [| done]. destruct (negb _); [done |]. simpl.
  rewrite read_backend_state. destruct (process_start_time _ _); [| done].
  destruct (negb _); [done |]. simpl.
  rewrite read_backend_state. destruct (process_group _ _) as [[|]|]; done.
Qed.

(** [apply_one] changes the backend only after it persisted a snapshot. *)
Lemma apply_one_persists session ts plan (s s' : B * S) r :
  apply_one session ts plan s = (s', r) ->
  s' = s \/
  exists original_group original,
    process_group (cp_pid plan) (fst s) = Ok (Some original_group) /\
    inspect_group (cp_target_group plan) (fst s) = Ok original /\
    (fst s' = fst s \/
     exists st id,
       persist (snapshot_of session ts plan original_group original) (snd s) = (st, Ok id)).
Proof.
  unfold apply_one. destruct (cp_dry_run plan); [intros [= <- _]; by left |].
  unfold eff_reject at 1. destruct (negb _); [intros [= <- _]; by left |].
  unfold eff_reject at 1. destruct (negb _); [intros [= <- _]; by left |].
  unfold eff_bind at 1 2 3, eff_ret at 1 2.
  destruct (preflight plan s) as [s1 [g|e]] eqn:E.
  2: { pose proof (preflight_state plan s) as Hs. rewrite E in Hs. simpl in Hs.
       intros [= <- _]. by left. }
  apply preflight_ok in E as (-> & _ & _ & Hg).
  unfold eff_bind at 1. rewrite read_backend_state.
  destruct (inspect_group _ _) as [o|e] eqn:Eo; [| intros [= <- _]; by left].
  intros Hr. right. exists g, o. split; [done |]. split; [done |].
  unfold eff_bind at 1 in Hr. destruct s as [b st]. simpl in *.
  destruct (persist _ st) as [st1 [id|e]]; [right; eauto |].
  injection Hr as <- _. by left.
Qed.

Lemma return_process_ok snapshot (s s' : B * S) u :
  return_process snapshot s = (s', Ok u) -> snd s' = snd s.
Proof.
  unfold return_process. intros Hr. inv_run.
  repeat (case_match; inv_run; simplify_eq; try done).
Qed.

Lemma restore_target_ok snapshot (s s' : B * S) u :
  restore_target snapshot s = (s', Ok u) ->
  snd s' = snd s \/
  remove_managed_group (ms_target_group snapshot) (snd s) = (snd s', Ok tt).
Proof.
  destruct u. unfold restore_target. intros Hr. inv_run.
  case_match; inv_run; [| by left].
  case_match; inv_run; [right | left]; try congruence.
Qed.

Lemma rollback_one_ok snapshot (s s' : B * S) snapshot' :
  rollback_one snapshot s = (s', Ok snapshot') ->
  (ms_rolled_back snapshot = true /\ s' = s /\ snapshot' = snapshot) \/
  (ms_rolled_back snapshot = false /\ is_managed_name (ms_target_group snapshot) = true /\
   snapshot' = set_rolled_back snapshot /\
   exists st, (st = snd s \/
               remove_managed_group (ms_target_group snapshot) (snd s) = (st, Ok tt)) /\
              update (set_rolled_back snapshot) st = (snd s', Ok tt)).
Proof.
  unfold rollback_one. destruct (ms_rolled_back snapshot) eqn:E; intros Hr.
  { left. inv_eff. done. }
  right. inv_run. bools.
  repeat match goal with u : unit |- _ => destruct u end.
  match goal with H : return_process _ _ = _ |- _ => apply return_process_ok in H end.
  match goal with H : restore_target _ _ = _ |- _ => apply restore_target_ok in H end.
  repeat split; try done. eexists. split; [| eassumption].
  match goal with H : snd _ = snd _ |- _ => rewrite <- H end. done.
Qed.
End Inversion.

(** ** [MemorySnapshotStore] *)

Definition unfinished (m : gmap Z MutationSnapshot) (id : Z) : Prop :=
  exists s, m !! id = Some s /\ ms_applied s = true /\ ms_rolled_back s = false.

(** every snapshot is stored under its id *)
Definition store_wf (st : MemorySnapshotStore) : Prop :=
  map_Forall (fun id s => ms_id s = id) (snapshots st).

Lemma elem_of_values {V} (m : gmap Z V) v : v ∈ values m <-> exists id, m !! id = Some v.
Proof.
  unfold values. rewrite list_elem_of_fmap. split.
  - intros ([id v'] & -> & H%elem_of_sort_by). exists id. by apply elem_of_map_to_list in H.
  - intros [id H]. exists (id, v). split; [done |].
    apply elem_of_sort_by. by apply elem_of_map_to_list.
Qed.

Lemma mem_pending_elem st l s :
  mem_pending st = Ok l ->
  (s ∈ l <-> (exists id, snapshots st !! id = Some s) /\ ms_applied s = true /\
             ms_rolled_back s = false).
Proof.
  intros [= <-]. rewrite list_elem_of_filter, andb_true_iff, negb_true_iff, elem_of_values.
  naive_solver.
Qed.

Lemma mem_update_ok s st st' :
  mem_update s st = (st', Ok tt) -> snapshots st' = <[ms_id s := s]> (snapshots st).
Proof. unfold mem_update. destruct (is_none _); [done |]. by intros [= <-]. Qed.

Section Recover.
Context {B : Type} `{CgroupBackend B}.

Lemma rollback_one_unfinished snapshot (s s' : B * MemorySnapshotStore) snapshot' id :
  ms_rolled_back snapshot = false ->
  rollback_one snapshot s = (s', Ok snapshot') ->
  unfinished (snapshots (snd s')) id ->
  unfinished (snapshots (snd s)) id /\ id <> ms_id snapshot.
Proof.
  intros Hr [[? _] | (_ & _ & _ & st & Hst & Hu)]%rollback_one_ok; [congruence |].
  apply mem_update_ok in Hu. simpl in Hu.
  assert (snapshots st = snapshots (snd s)) as Hs.
  { destruct Hst as [-> | Hst]; [done |]. simpl in Hst. by injection Hst as <-. }
  rewrite Hu, Hs. intros (sn & Hl & Ha & Hb).
  destruct (decide (id = ms_id snapshot)) as [->|Hne].
  - rewrite lookup_insert_eq in Hl. injection Hl as <-. discriminate.
  - rewrite lookup_insert_ne in Hl by done. split; [by exists sn | done].
Qed.

Lemma rollback_all_unfinished l : forall (s s' : B * MemorySnapshotStore) rs id,
  Forall (fun sn => ms_rolled_back sn = false) l ->
  rollback_all l s = (s', rs) ->
  Forall (fun r => is_ok r = true) rs ->
  unfinished (snapshots (snd s')) id ->
  unfinished (snapshots (snd s)) id /\ id ∉ map ms_id l.
Proof.
  induction l as [|sn l IH]; intros s s' rs id Hl; simpl.
  - intros [= <- <-] _ Hu. split; [done | apply not_elem_of_nil].
  - apply Forall_cons_iff in Hl as [Hsn Hl].
    destruct (rollback_one sn s) as [s1 r] eqn:E1.
    destruct (rollback_all l s1) as [s2 rs'] eqn:E2. intros [= <- <-] Hrs Hu.
    apply Forall_cons_iff in Hrs as [Hr Hrs].
    destruct (IH _ _ _ _ Hl E2 Hrs Hu) as [Hu1 Hn].
    destruct r as [sn'|]; [| done].
    destruct (rollback_one_unfinished _ _ _ _ _ Hsn E1 Hu1) as [Hu0 Hne].
    split; [done |]. rewrite elem_of_cons. naive_solver.
Qed.
End Recover.

(** ** [FakeCgroupBackend] without injected failures *)
Lemma fake_inspect_run name b :
  failure b = None -> fake_inspect_group name b = Ok (groups b !! name).
Proof. unfold fake_inspect_group, fails. by intros ->. Qed.

Lemma fake_create_run name b :
  failure b = None -> is_managed_name name = true ->
  fake_create_managed_group name b =
    (set_groups (<[name := new_group name]> (groups b)) (log ("create:" ++ name) b),
     Ok (new_group name)).
Proof. unfold fake_create_managed_group, fails. simpl. by intros -> ->. Qed.

Lemma fake_set_properties_run name p b state :
  failure b = None -> groups b !! name = Some state ->
  fake_set_properties name p b =
    (set_groups (<[name := with_limits (rp_memory_low p) (rp_memory_high p) state]> (groups b))
       (log ("properties:" ++ name) b), Ok tt).
Proof. unfold fake_set_properties, fails. simpl. by intros -> ->. Qed.

Lemma fake_attach_run name pid b :
  failure b = None ->
  exists b', fake_attach_pid name pid b = (b', Ok tt) /\
    fk_capabilities b' = fk_capabilities b /\ starts b' = starts b /\ failure b' = None /\
    placements b' = <[pid := name]> (placements b) /\ groups b' = move_pid name pid b.
Proof.
  intros Hf. unfold fake_attach_pid, fails. simpl. rewrite Hf. simpl.
  eexists. repeat split; done.
Qed.

Lemma fake_cleanup_run name b state :
  failure b = None -> groups b !! name = Some state ->
  gs_owned_by_nemor state = true -> gs_pids state = ∅ ->
  fake_cleanup name b = (set_groups (delete name (groups b)) (log ("cleanup:" ++ name) b), Ok tt).
Proof.
  unfold fake_cleanup, fails. simpl. intros -> -> Ho Hp. simpl. rewrite Ho.
  by rewrite bool_decide_eq_true_2.
Qed.

Lemma join_split_char s : join "/" (split_char "/" s) = s.
Proof.
  induction s as [|c s IH]; [done |]. cbn [split_char].
  destruct (Ascii.eqb_spec c "/") as [->|Hne].
  - pose proof (split_char_nonempty "/" s).
    destruct (split_char "/" s) as [|y r] eqn:E; [done |].
    change (join "/" ("" :: y :: r)) with ("" ++ "/" ++ join "/" (y :: r))%string.
    by rewrite IH.
  - pose proof (split_char_nonempty "/" s).
    destruct (split_char "/" s) as [|y r] eqn:E; [done |]. rewrite <- IH.
    destruct r; done.
Qed.

Lemma after_last_none c s : str_contains_char c s = false -> after_last c s = None.
Proof.
  unfold str_contains_char. induction s as [|d s IH]; cbn; [done |].
  intros H%negb_false_iff. apply andb_true_iff in H as [Hd Hs].
  rewrite IH by (by rewrite Hs). by destruct (Ascii.eqb c d).
Qed.

Lemma mem_update_run s st s0 :
  snapshots st !! ms_id s = Some s0 ->
  mem_update s st =
    ({| next_id := next_id st; snapshots := <[ms_id s := s]> (snapshots st);
        managed_groups := managed_groups st |}, Ok tt).
Proof. unfold mem_update. by intros ->. Qed.

(** the groups after a move out of [origin] into the fresh group [target] *)
Definition moved_groups (origin target : string) (pid : Z) (low high : option Z)
    (state : GroupState) (g : gmap string GroupState) : gmap string GroupState :=
  <[target := with_pids (fun _ => {[pid]}) (with_limits low high (new_group target))]>
    (<[origin := with_pids (fun q => q ∖ {[pid]}) state]> g).

Lemma with_pids_ext f h state :
  f (gs_pids state) = h (gs_pids state) -> with_pids f state = with_pids h state.
Proof. unfold with_pids. by intros ->. Qed.

Section FakeRoundTrip.
Context (b : FakeCgroupBackend) (st : MemorySnapshotStore) (session ts : Z) (p : CgroupPlan)
  (origin : string) (state : GroupState).
Let target := cp_target_group p.

Definition fresh_snapshot (id : Z) : MutationSnapshot :=
  set_verified (set_applied (set_id id (snapshot_of session ts p origin None))).

Lemma move_to_fresh (b1 : FakeCgroupBackend) low high :
  groups b !! origin = Some state -> groups b !! target = None ->
  placements b1 !! cp_pid p = Some origin ->
  groups b1 = <[target := with_limits low high (new_group target)]> (groups b) ->
  move_pid target (cp_pid p) b1 = moved_groups origin target (cp_pid p) low high state (groups b).
Proof.
  intros Ho Ht Hp Hg. unfold move_pid, moved_groups. rewrite Hp, Hg.
  assert (origin <> target) as Hne by congruence.
  apply map_eq. intros k.
  destruct (decide (k = target)) as [->|Hk].
  - rewrite lookup_alter_eq, lookup_alter_ne, !lookup_insert_eq by done. simpl.
    f_equal. apply with_pids_ext. simpl. by rewrite union_empty_r_L.
  - rewrite lookup_alter_ne, (lookup_insert_ne _ target k) by done.
    destruct (decide (k = origin)) as [->|Hk'].
    + by rewrite lookup_alter_eq, lookup_insert_eq, lookup_insert_ne, Ho by done.
    + by rewrite lookup_alter_ne, !lookup_insert_ne by done.
Qed.

Lemma apply_fresh_run :
  failure b = None -> mutation_ready (fk_capabilities b) = true ->
  cp_dry_run p = false -> cp_allowed p = true -> is_managed_name target = true ->
  starts b !! cp_pid p = Some (cp_start_time_ticks p) ->
  placements b !! cp_pid p = Some origin ->
  groups b !! origin = Some state -> groups b !! target = None ->
  exists b1 st1 id,
    apply_one session ts p (b, st) = ((b1, st1), Ok (Some (fresh_snapshot id))) /\
    failure b1 = None /\ starts b1 = starts b /\
    placements b1 = <[cp_pid p := target]> (placements b) /\
    groups b1 = moved_groups origin target (cp_pid p) (rp_memory_low (cp_properties p))
                  (rp_memory_high (cp_properties p)) state (groups b) /\
    snapshots st1 !! id = Some (fresh_snapshot id).
Proof.
  intros Hf Hr Hd Ha Hm Hst Hpl Hgo Hgt.
  set (id := u64_wrap (next_id st + 1)).
  set (b2 := set_groups (<[target := new_group target]> (groups b)) (log ("create:" ++ target) b)).
  set (b3 := set_groups (<[target := with_limits (rp_memory_low (cp_properties p))
                             (rp_memory_high (cp_properties p)) (new_group target)]> (groups b))
               (log ("properties:" ++ target) b2)).
  destruct (fake_attach_run target (cp_pid p) b3 Hf) as (b4 & Hat & _ & Hs4 & Hf4 & Hp4 & Hg4).
  rewrite (move_to_fresh b3 (rp_memory_low (cp_properties p))
             (rp_memory_high (cp_properties p))) in Hg4 by done.
  unfold apply_one. rewrite Hd, Ha. fold target. rewrite Hm. cbn [negb].
  do 2 (erewrite eff_bind_run by by apply eff_reject_run).
  erewrite eff_bind_run by by eapply preflight_run; [| | simpl; rewrite Hst | simpl; rewrite Hpl].
  erewrite eff_bind_run by by apply read_backend_run, fake_inspect_run.
  rewrite Hgt. cbv zeta.
  erewrite eff_bind_run by by apply eff_snd_run.
  erewrite eff_bind_run by by apply read_backend_run, fake_inspect_run.
  rewrite Hgt. cbn [is_none is_some negb].
  fold id. set (snap := set_id id (snapshot_of session ts p origin None)).
  erewrite eff_bind_run.
  2: { erewrite eff_bind_run by by apply eff_fst_run, fake_create_run. fold b2.
       erewrite eff_bind_run by by apply read_backend_run.
       by apply eff_snd_run. }
  erewrite eff_bind_run.
  2: { apply eff_try_run, eff_fst_run, (fake_set_properties_run _ _ _ (new_group target));
       [done | apply lookup_insert_eq]. }
  cbn [groups b2 set_groups log]. rewrite insert_insert_eq. fold b3.
  erewrite eff_bind_run by by apply eff_try_run, eff_fst_run.
  cbn iota.
  erewrite eff_bind_run.
  2: { apply eff_snd_run. eapply mem_update_run. apply lookup_insert_eq. }
  cbn [next_id snapshots managed_groups].
  erewrite eff_bind_run by by apply read_backend_run, fake_inspect_run.
  rewrite Hg4. unfold moved_groups at 1. rewrite lookup_insert_eq. cbn iota.
  assert (readback_differs p (with_pids (fun _ => {[cp_pid p]})
    (with_limits (rp_memory_low (cp_properties p)) (rp_memory_high (cp_properties p))
       (new_group target))) = false) as ->.
  { unfold readback_differs. simpl. rewrite !bool_decide_eq_true_2; [done | done | done |].
    by apply elem_of_singleton. }
  erewrite eff_bind_run.
  2: { apply eff_snd_run. eapply mem_update_run. apply lookup_insert_eq. }
  cbn [next_id snapshots managed_groups].
  eexists _, _, id. split; [done |]. repeat split; try done.
  simpl. apply lookup_insert_eq.
Qed.

(** the rollback, from a store that holds the snapshot *)
Lemma rollback_fresh_run (b1 : FakeCgroupBackend) (st1 : MemorySnapshotStore) (id : Z) :
  is_managed_name target = true ->
  groups b !! origin = Some state -> cp_pid p ∈ gs_pids state -> groups b !! target = None ->
  failure b1 = None -> starts b1 !! cp_pid p = Some (cp_start_time_ticks p) ->
  placements b1 = <[cp_pid p := target]> (placements b) ->
  groups b1 = moved_groups origin target (cp_pid p) (rp_memory_low (cp_properties p))
                (rp_memory_high (cp_properties p)) state (groups b) ->
  snapshots st1 !! id = Some (fresh_snapshot id) ->
  exists b2 st2,
    rollback_one (fresh_snapshot id) (b1, st1) =
      ((b2, st2), Ok (set_rolled_back (fresh_snapshot id))) /\
    groups b2 = groups b /\ placements b2 = <[cp_pid p := origin]> (placements b1).
Proof.
  intros Hm Ho Hin Ht Hf Hs Hp Hg Hid.
  assert (origin <> target) as Hne by congruence.
  destruct (fake_attach_run origin (cp_pid p) b1 Hf) as (b2 & Hat & _ & _ & Hf2 & Hp2 & Hg2).
  assert (groups b2 = <[target := with_limits (rp_memory_low (cp_properties p))
      (rp_memory_high (cp_properties p)) (new_group target)]> (groups b)) as Hback.
  { rewrite Hg2. unfold move_pid. rewrite Hp, lookup_insert_eq, Hg. unfold moved_groups.
    apply map_eq. intros k. destruct (decide (k = target)) as [->|Hk].
    - rewrite lookup_alter_ne, lookup_alter_eq, !lookup_insert_eq by done. simpl.
      f_equal. unfold with_pids, with_limits. simpl. f_equal. set_solver.
    - destruct (decide (k = origin)) as [->|Hk'].
      + rewrite lookup_alter_eq, lookup_alter_ne, lookup_insert_ne, lookup_insert_eq by done.
        rewrite lookup_insert_ne, Ho by done.
        simpl. f_equal. destruct state as [n q w l h pids]. unfold with_pids. simpl in *. f_equal.
        apply set_eq. intros x. destruct (decide (x = cp_pid p)); set_solver.
      + by rewrite !lookup_alter_ne, !lookup_insert_ne by done. }
  unfold rollback_one. change (ms_rolled_back (fresh_snapshot id)) with false. cbn iota.
  erewrite eff_bind_run by (apply eff_reject_run; simpl; fold target; by rewrite Hm).
  erewrite eff_bind_run.
  2: { unfold return_process.
       change (ms_pid (fresh_snapshot id)) with (cp_pid p).
       change (ms_start_time_ticks (fresh_snapshot id)) with (cp_start_time_ticks p).
       change (ms_original_group (fresh_snapshot id)) with origin.
       erewrite eff_bind_run by (apply read_backend_run; simpl; by rewrite Hs).
       rewrite bool_decide_eq_true_2 by done.
       erewrite eff_bind_run.
       2: { erewrite eff_bind_run; [done |]. apply read_backend_run. simpl.
            by rewrite Hp, lookup_insert_eq. }
       cbn [is_some]. erewrite eff_bind_run by by apply read_backend_run, fake_inspect_run.
       erewrite eff_bind_run; [by apply eff_fst_run |]. apply eff_reject_run.
       rewrite Hg. unfold moved_groups. rewrite lookup_insert_ne, lookup_insert_eq by done.
       done. }
  erewrite eff_bind_run.
  2: { unfold restore_target.
       change (ms_target_group (fresh_snapshot id)) with target.
       erewrite eff_bind_run by by apply read_backend_run, fake_inspect_run.
       rewrite Hback, lookup_insert_eq. cbn [is_some].
       erewrite eff_bind_run.
       2: { apply eff_fst_run. eapply fake_set_properties_run; [done |].
            rewrite Hback. apply lookup_insert_eq. }
       erewrite eff_bind_run.
       2: { apply eff_fst_run. eapply fake_cleanup_run; [done | apply lookup_insert_eq | done..]. }
       erewrite eff_bind_run by by apply read_backend_run, fake_inspect_run.
       cbn [groups set_groups log]. rewrite lookup_delete_eq. cbn [is_none is_some negb].
       by apply eff_snd_run. }
  erewrite eff_bind_run.
  2: { apply eff_snd_run. eapply mem_update_run. exact Hid. }
  eexists _, _. split; [done |]. simpl. split; [| done].
  rewrite Hback, !delete_insert_eq by done.
  by apply delete_id.
Qed.
End FakeRoundTrip.

End Facts.

Module Theorems.
Import Memory Fake Linux Facts.

(** a plan that [plan] allows is for a process on the allow list, whose
    identity and start time are confirmed, of a known category, and either a
    protected process or one confirmed to be in the background; a protected
    process is never given an upper limit, and a background limit never goes to
    a game, a critical, a protected or a foreground process. *)
Theorem plan_allows_only_confirmed_targets (input : PlanInput) (config : CgroupsConfig)
    (mode : string) (p : CgroupPlan) :
  plan input config mode = Some p -> cp_allowed p = true ->
  let process := pi_classification input in
  cp_identity p ∈ cgroups_allowed_identities config /\
  String.length (cp_identity p) = 64%nat /\
  pi_current_start_time_ticks input = Some (cp_start_time_ticks p) /\
  pc_category process <> CatUnknown /\
  cgroups_allow_move config = true /\
  is_managed_name (cp_target_group p) = true /\
  (protected_target_of process = true /\ cp_target_group p = FOREGROUND_GROUP /\
   rp_memory_high (cp_properties p) = None \/
   cp_target_group p = BACKGROUND_GROUP /\ pc_foreground process = FgBackground /\
   pc_is_game process = false /\ pc_is_critical process = false /\
   pc_protected process = false).
Proof.
  intros (Hb & Ha & _ & Hi & _ & Hs & low & _ & Hp)%plan_inv Hok. simpl.
  rewrite Ha in Hok. apply bool_decide_eq_true, plan_blocks_nil in Hok
    as (H1 & H2 & H3 & H4 & H5 & H6).
  rewrite Hi, Hs. repeat split; try done.
  - destruct (protected_target_of _).
    + by destruct Hp as [-> _].
    + by destruct Hp as (? & _ & -> & _).
  - destruct (protected_target_of _) eqn:E.
    + left. by destruct Hp as [-> ->].
    + right. destruct Hp as (? & _ & -> & _). unfold protected_target_of in E. bools. auto.
Qed.

(** C39: under a configuration that [Config::validate] accepts, [plan] returns
    for every memory size (the two [clamp]s never meet crossed bounds), and the
    limit it asks for lies between the configured percentages of total memory;
    in observe mode, or with cgroups disabled, the plan is a dry run. *)
Theorem plan_total_and_bounded (input : PlanInput) (config : Config) (mode : string) :
  CgroupsConfig_typed (cgroups config) -> validate config = Ok tt ->
  u64 (pi_total_ram_bytes input) ->
  exists p, plan input (cgroups config) mode = Some p /\
    (mode = "observe"%string \/ cgroups_enabled (cgroups config) = false ->
     cp_dry_run p = true) /\
    let total := pi_total_ram_bytes input in
    let limit lo hi x := percent total lo <= x <= percent total hi /\ x <= total in
    match rp_memory_low (cp_properties p), rp_memory_high (cp_properties p) with
    | Some low, None =>
        limit (cgroups_foreground_min_percent (cgroups config))
              (cgroups_foreground_max_percent (cgroups config)) low
    | None, Some high =>
        limit (cgroups_background_high_min_percent (cgroups config))
              (cgroups_background_high_max_percent (cgroups config)) high
    | _, _ => False
    end.
Proof.
  intros Hty Hv Ht. pose proof (validate_cgroup_bounds _ Hty Hv) as (B1 & B2 & B3 & B4).
  destruct Hty as (T1 & T2 & T3 & T4 & T5). unfold u8, u64 in *.
  destruct (memory_low_bytes_some (pi_total_ram_bytes input) (pi_protected_workload_bytes input)
              (cgroups config)) as (low & El & Hl); [lia | lia |].
  destruct (memory_high_bytes_some (pi_total_ram_bytes input) low (cgroups config))
    as (high & Eh & Hh); [lia | lia |].
  pose proof (percent_le_total (pi_total_ram_bytes input)
                (cgroups_foreground_max_percent (cgroups config))).
  pose proof (percent_le_total (pi_total_ram_bytes input)
                (cgroups_background_high_max_percent (cgroups config))).
  unfold plan. rewrite El. simpl.
  destruct (protected_target_of _); simpl; rewrite ?Eh; simpl; eexists; (split; [done |]);
    simpl; (split; [| lia]); intros [-> | ->]; by rewrite ?orb_true_r.
Qed.

Section Generic.
Context {B S : Type} `{CgroupBackend B} `{SnapshotStore S}.

(** [apply_one] leaves the backend and the store as they were when the plan
    is a dry run, is not allowed, names a group outside the Nemor namespace, when
    the capabilities are incomplete, or when the pid now belongs to another
    process; all but the dry run are errors. *)
Theorem apply_one_refuses (session ts : Z) (p : CgroupPlan) (s : B * S)
    (caps : CgroupCapabilities) (start : option Z) :
  capabilities (fst s) = Ok caps ->
  process_start_time (cp_pid p) (fst s) = Ok start ->
  (cp_dry_run p = true -> apply_one session ts p s = (s, Ok None)) /\
  (cp_dry_run p = false ->
   cp_allowed p = false \/ is_managed_name (cp_target_group p) = false \/
   mutation_ready caps = false \/ start <> Some (cp_start_time_ticks p) ->
   exists e, apply_one session ts p s = (s, Err e)).
Proof.
  intros Hc Hs. unfold apply_one. split; [by intros -> |]. intros -> Hbad.
  destruct (cp_allowed p) eqn:Ha; simpl; [| by eexists].
  destruct (is_managed_name _) eqn:Hm; simpl; [| by eexists].
  unfold eff_bind at 1 2, eff_reject, eff_ret at 1 2.
  unfold preflight, eff_bind at 1 2 3. rewrite read_backend_state, Hc.
  destruct (mutation_ready caps) eqn:Hr; simpl; [| by eexists].
  unfold eff_ret at 1, eff_bind at 1. rewrite read_backend_state, Hs.
  destruct (decide (start = Some (cp_start_time_ticks p))) as [->|Hne].
  - exfalso. naive_solver.
  - unfold eff_bind at 1. rewrite bool_decide_eq_false_2 by done. simpl. by eexists.
Qed.
End Generic.


Section GenericSuccess.
Context {B S : Type} `{CgroupBackend B} `{SnapshotStore S}.

(** C6: when [apply_one] returns a snapshot, the process was the planned one, the snapshot
    names that process and holds its original group and the limits that the target group had
    before, and the backend the call leaves behind shows the pid in the target group with
    exactly the planned limits. *)
Theorem apply_one_verified (session ts : Z) (p : CgroupPlan) (s s' : B * S)
    (snapshot : MutationSnapshot) :
  apply_one session ts p s = (s', Ok (Some snapshot)) ->
  process_start_time (cp_pid p) (fst s) = Ok (Some (cp_start_time_ticks p)) /\
  process_group (cp_pid p) (fst s) = Ok (Some (ms_original_group snapshot)) /\
  ms_applied snapshot = true /\ ms_verified snapshot = true /\
  ms_rolled_back snapshot = false /\ ms_target_group snapshot = cp_target_group p /\
  ms_pid snapshot = cp_pid p /\ ms_start_time_ticks snapshot = cp_start_time_ticks p /\
  ms_identity snapshot = cp_identity p /\ ms_process_catalog_id snapshot = cp_process_catalog_id p /\
  ms_session_id snapshot = session /\ ms_timestamp_ns snapshot = ts /\
  ms_requested_properties snapshot = cp_properties p /\
  exists original state,
    inspect_group (cp_target_group p) (fst s) = Ok original /\
    rp_memory_low (ms_original_properties snapshot) = (original ≫= gs_memory_low) /\
    rp_memory_high (ms_original_properties snapshot) = (original ≫= gs_memory_high) /\
    inspect_group (cp_target_group p) (fst s') = Ok (Some state) /\
    cp_pid p ∈ gs_pids state /\
    gs_memory_low state = rp_memory_low (cp_properties p) /\
    gs_memory_high state = rp_memory_high (cp_properties p).
Proof.
  unfold apply_one. intros Hr. destruct (cp_dry_run p); [discriminate |]. inv_run.
  match goal with H : preflight _ _ = _ |- _ => apply preflight_ok in H as (-> & _ & Hst & Hg) end.
  match goal with x : result unit _ |- _ => destruct x; [| by apply fail_apply_err in Hr] end.
  inv_run.
  match goal with x : result unit _ |- _ => destruct x; [| by apply fail_apply_err in Hr] end.
  inv_run.
  match goal with x : option GroupState |- _ =>
    match type of Hr with context [x] => destruct x as [state|]; [| inv_eff] end end.
  destruct (readback_differs p state) eqn:Ed; [by apply fail_apply_err in Hr |].
  inv_run. unfold readback_differs in Ed. bools.
  repeat (split; [done |]). eexists _, state. split; [eassumption |]. cbn.
  match goal with H : fst ?a = _ |- context [fst ?a] => rewrite H end.
  split_and!; try done.
  all: match goal with |- context [match ?o with Some _ => _ | None => _ end] => by destruct o end.
Qed.

(** C11: the snapshot goes first: [apply_one] leaves the backend as it was
    unless the store accepted a snapshot that holds the process's original group
    and the target's original limits. *)
Theorem apply_one_write_ahead (session ts : Z) (p : CgroupPlan) (s s' : B * S)
    (r : result (option MutationSnapshot) ActuatorError) :
  apply_one session ts p s = (s', r) -> fst s' <> fst s ->
  exists snapshot original st id,
    persist snapshot (snd s) = (st, Ok id) /\
    ms_pid snapshot = cp_pid p /\ ms_target_group snapshot = cp_target_group p /\
    process_group (cp_pid p) (fst s) = Ok (Some (ms_original_group snapshot)) /\
    inspect_group (cp_target_group p) (fst s) = Ok original /\
    rp_memory_low (ms_original_properties snapshot) = (original ≫= gs_memory_low) /\
    rp_memory_high (ms_original_properties snapshot) = (original ≫= gs_memory_high).
Proof.
  intros [-> | (g & o & Hg & Ho & [? | (st & id & Hp)])]%apply_one_persists Hne; try done.
  exists (snapshot_of session ts p g o), o, st, id. repeat split; try done; by destruct o.
Qed.
End GenericSuccess.

Section PidReuse.
Context {B S : Type} `{CgroupBackend B} `{SnapshotStore S}.
(** where the processes are; only [attach_pid] moves one *)
Context (placement : B -> gmap Z string).
Hypothesis set_properties_placement : forall name p,
  frames (fun b b' => placement b' = placement b) (set_properties name p).
Hypothesis cleanup_placement : forall name,
  frames (fun b b' => placement b' = placement b) (cleanup_empty_owned_group name).

(** a rollback moves no process when the pid of its snapshot no longer
    belongs to the process the snapshot was taken of. *)
Theorem rollback_one_pid_reuse (snapshot : MutationSnapshot) (s : B * S) (start : option Z) :
  process_start_time (ms_pid snapshot) (fst s) = Ok start ->
  start <> Some (ms_start_time_ticks snapshot) ->
  placement (fst (fst (rollback_one snapshot s))) = placement (fst s).
Proof.
  intros Hst Hne. unfold rollback_one. destruct (ms_rolled_back snapshot); [done |].
  unfold eff_bind at 1, eff_reject. destruct (negb _); [done |]. unfold eff_ret at 1.
  unfold eff_bind at 1. unfold return_process, eff_bind at 1. rewrite read_backend_state, Hst.
  rewrite bool_decide_eq_false_2 by done. unfold eff_bind at 1. simpl.
  set (R := fun p q : B * S => placement (fst q) = placement (fst p)).
  assert (Reflexive R) by (intros ?; unfold R; done).
  assert (Transitive R) by (intros ???; unfold R; congruence).
  assert (forall A (m : eff S A ActuatorError), frames R (eff_snd m)) as Hsnd.
  { intros A m [b t]. unfold R. simpl. by destruct (m t). }
  assert (forall A (m : eff B A ActuatorError),
             frames (fun b b' => placement b' = placement b) m -> frames R (eff_fst m)) as Hfst.
  { intros A m Hm [b t]. specialize (Hm b). unfold R. simpl in *. by destruct (m b). }
  assert (forall A (f : B -> result A ActuatorError), frames R (read_backend f)) as Hread.
  { intros A f. apply Hfst. by intros b. }
  match goal with |- _ = _ => idtac end.
  apply (frames_bind R (restore_target snapshot)).
  - unfold restore_target. apply frames_bind; [done.. | apply Hread | intros o].
    apply frames_if; [| by apply frames_ret].
    apply frames_bind; [done.. | by apply Hfst | intros _].
    apply frames_bind; [done.. | by apply Hfst | intros _].
    apply frames_bind; [done.. | apply Hread | intros o'].
    apply frames_if; [apply Hsnd | by apply frames_ret].
  - intros _. apply frames_bind; [done.. | apply Hsnd | intros _; by apply frames_ret].
Qed.
End PidReuse.

(** C32: recovery with [MemorySnapshotStore], whatever the backend: when every
    rollback succeeds, no snapshot is left pending, so recovering again does
    nothing. *)
Theorem recover_leaves_nothing_pending {B : Type} `{CgroupBackend B}
    (s s' : B * MemorySnapshotStore) (rs : list (result unit ActuatorError)) :
  store_wf (snd s) ->
  recover s = (s', rs) -> Forall (fun r => is_ok r = true) rs ->
  mem_pending (snd s') = Ok [] /\ recover s' = (s', []).
Proof.
  intros Hwf Hr Hok. assert (mem_pending (snd s') = Ok []) as Hp.
  2: { split; [done |]. unfold recover. cbn [pending memory_store]. by rewrite Hp. }
  unfold recover in Hr. cbn [pending memory_store] in Hr. destruct (mem_pending (snd s)) as [l|] eqn:El; [| done].
  destruct (mem_pending (snd s')) as [l'|] eqn:El'; [| done].
  destruct l' as [|sn l']; [done | exfalso].
  destruct (proj1 (mem_pending_elem _ _ sn El') ltac:(set_solver)) as ([id Hid] & Ha & Hb).
  destruct (rollback_all_unfinished l s s' rs id) as [(s0 & H0 & Ha0 & Hb0) Hn]; try done.
  - apply Forall_forall. intros x Hx%list_elem_of_In. by apply (mem_pending_elem _ _ x El) in Hx as (_ & _ & ?).
  - by exists sn.
  - apply Hn. rewrite <- (Hwf _ _ H0). apply list_elem_of_fmap. exists s0. split; [done |].
    apply (mem_pending_elem _ _ _ El). eauto.
Qed.

(** the operations of [LinuxCgroupBackend] that write limits, create or
    remove a group, or inspect one, stay below the cgroup root: a managed name is
    a single plain component, and an external one is normalised or refused. *)
Theorem linux_paths_confined (root name path : string) (owned : bool) :
  inspect_path root name = Ok (path, owned) ->
  owned = is_managed_name name /\
  (owned = true -> group_path root name = Ok path) /\
  exists parts, parts <> [] /\ Forall Classifier.Facts.plain_component parts /\
    path = path_join root (join "/" parts).
Proof.
  unfold inspect_path, group_path. destruct (is_managed_name name) eqn:Hm.
  - intros [= <- <-]. repeat split; try done. exists [name]. split; [done |]. split; [| done].
    constructor; [by apply is_managed_name_confined | constructor].
  - destruct (strip_prefix "/" name) as [rel|]; [| done].
    destruct (existsb _ _) eqn:Ex; [done |]. intros [= <- <-]. repeat split; try done.
    exists (split_char "/" rel). split; [apply split_char_nonempty |].
    split; [| by rewrite join_split_char].
    apply Forall_forall. intros x Hx%list_elem_of_In.
    assert (str_empty x || String.eqb x "." || String.eqb x ".." = false) as Hf.
    { destruct (_ || _) eqn:E; [| done]. rewrite <- Ex. symmetry. apply existsb_elem. eauto. }
    bools. unfold str_empty in *. bools. repeat split; try done.
    by eapply Classifier.Facts.split_char_no_sep.
Qed.

(** the start time read from [/proc/<pid>/stat] does not depend on the
    command name: text before the last closing parenthesis, parentheses and
    spaces included, cannot shift the field. *)
Theorem parse_start_time_ignores_command (before after : string) :
  str_contains_char ")" after = false ->
  parse_start_time (before ++ ")" ++ after) =
    Ok (nth_error (split_whitespace after) 19 ≫= parse_u64).
Proof.
  intros Ha. unfold parse_start_time.
  assert (after_last ")" (")" ++ after) = Some after) as Hr.
  { change (after_last ")" (String ")" after) = Some after). cbn [after_last].
    by rewrite after_last_none. }
  assert (after_last ")" (before ++ ")" ++ after) = Some after) as ->; [| done].
  induction before as [|c s IH]; [exact Hr |].
  rewrite app_str_cons. cbn [after_last]. by rewrite IH.
Qed.

(** on [FakeCgroupBackend] with [MemorySnapshotStore], a plan for a running
    process into a group that does not exist yet is applied and verified, and
    rolling its snapshot back restores every group and every placement. *)
Theorem fake_apply_rollback_restores (b : FakeCgroupBackend) (st : MemorySnapshotStore)
    (session ts : Z) (p : CgroupPlan) (origin : string) (state : GroupState) :
  failure b = None -> mutation_ready (fk_capabilities b) = true ->
  cp_dry_run p = false -> cp_allowed p = true -> is_managed_name (cp_target_group p) = true ->
  starts b !! cp_pid p = Some (cp_start_time_ticks p) ->
  placements b !! cp_pid p = Some origin ->
  groups b !! origin = Some state -> cp_pid p ∈ gs_pids state ->
  groups b !! cp_target_group p = None ->
  exists snapshot s1 s2 snapshot',
    apply_one session ts p (b, st) = (s1, Ok (Some snapshot)) /\
    placements (fst s1) !! cp_pid p = Some (cp_target_group p) /\
    rollback_one snapshot s1 = (s2, Ok snapshot') /\
    groups (fst s2) = groups b /\ placements (fst s2) = placements b.
Proof.
  intros Hf Hr Hd Ha Hm Hst Hpl Hgo Hin Hgt.
  assert (origin <> cp_target_group p) as Hne by congruence.
  destruct (apply_fresh_run b st session ts p origin state) as
    (b1 & st1 & id & Happ & Hf1 & Hs1 & Hp1 & Hg1 & Hid); try done.
  destruct (rollback_fresh_run b session ts p origin state b1 st1 id) as
    (b2 & st2 & Hrb & Hg2 & Hp2); try done; [by rewrite Hs1 |].
  do 4 eexists. split; [exact Happ |]. simpl. split; [by rewrite Hp1, lookup_insert_eq |].
  split; [exact Hrb |]. simpl. split; [done |].
  rewrite Hp2, Hp1, insert_insert_eq. by apply insert_id.
Qed.

End Theorems.

(** ** Concrete inputs *)
Module Witnesses.
Import Memory Fake Linux Facts Theorems.

Definition identity : string :=
  "0123456789abcdef0123456789abcdef0123456789abcdef0123456789abcdef".

Definition config : CgroupsConfig :=
  {| cgroups_enabled := true; cgroups_dry_run := false; cgroups_allow_move := true;
     cgroups_rollback_on_exit := true; cgroups_recover_unclean_session := true;
     cgroups_foreground_min_percent := 5; cgroups_foreground_max_percent := 20;
     cgroups_background_high_min_percent := 20; cgroups_background_high_max_percent := 60;
     cgroups_minimum_headroom_percent := 10; cgroups_allowed_identities := [identity] |}.

(** a background indexer, confirmed in the background *)
Definition indexer : ProcessClassification :=
  {| pc_sample := Classifier.Witnesses.shell; pc_executable := "updatedb";
     pc_command_signature := identity; pc_application_name := Some "updatedb"%string;
     pc_category := CatBackground; pc_is_game := false; pc_is_critical := false;
     pc_protected := false; pc_protected_game := false; pc_cold_candidate := true;
     pc_foreground := FgBackground; pc_foreground_confidence := f64_one;
     pc_confidence := f64_one; pc_reasons := [] |}.

Definition input : PlanInput :=
  {| pi_process_catalog_id := 3; pi_identity := identity;
     pi_current_start_time_ticks := Some 9; pi_source_group := "/user.slice";
     pi_classification := indexer; pi_total_ram_bytes := 2 ^ 34;
     pi_protected_workload_bytes := 2 ^ 30 |}.

Definition the_plan : CgroupPlan :=
  {| cp_process_catalog_id := 3; cp_identity := identity; cp_pid := 42;
     cp_start_time_ticks := 9; cp_source_group := "/user.slice";
     cp_target_group := BACKGROUND_GROUP;
     cp_properties := {| rp_memory_low := None; rp_memory_high := Some 10307921510 |};
     cp_reason := "conservative_background_soft_limit"; cp_allowed := true;
     cp_block_reasons := []; cp_dry_run := false |}.

Definition user_slice : GroupState :=
  {| gs_name := "/user.slice"; gs_path := "/fake/user.slice"; gs_owned_by_nemor := false;
     gs_memory_low := None; gs_memory_high := None; gs_pids := {[42; 43]} |}.

Definition machine : FakeCgroupBackend :=
  {| fk_capabilities := fake_capabilities; groups := {["/user.slice"%string := user_slice]};
     starts := {[42 := 9]}; placements := {[42 := "/user.slice"%string]};
     operations := []; failure := None |}.

Lemma plan_allows_only_confirmed_targets_witness :
  plan input config "active" = Some the_plan /\
  cp_identity the_plan ∈ cgroups_allowed_identities config.
Proof.
  split; [vm_compute; reflexivity |].
  apply (plan_allows_only_confirmed_targets input config "active" the_plan);
    vm_compute; reflexivity.
Defined.

Lemma plan_total_and_bounded_witness :
  exists p, plan input (cgroups default_config) "active" = Some p /\
    (("active"%string = "observe"%string \/ cgroups_enabled (cgroups default_config) = false) ->
     cp_dry_run p = true).
Proof.
  destruct (plan_total_and_bounded input default_config "active") as (p & H & Hd & _).
  - vm_compute. repeat split; discriminate.
  - vm_compute. reflexivity.
  - vm_compute. repeat split; discriminate.
  - exact (ex_intro _ p (conj H Hd)).
Defined.

Lemma apply_one_refuses_witness :
  apply_one 1 1 {| cp_process_catalog_id := 3; cp_identity := identity; cp_pid := 42;
     cp_start_time_ticks := 9; cp_source_group := "/user.slice";
     cp_target_group := BACKGROUND_GROUP;
     cp_properties := {| rp_memory_low := None; rp_memory_high := None |};
     cp_reason := ""; cp_allowed := true; cp_block_reasons := [];
     cp_dry_run := true |} (machine, empty_store) = ((machine, empty_store), Ok None) /\
  exists e, apply_one 1 1 the_plan (set_placements ∅ (fake_default), empty_store)
              = ((set_placements ∅ fake_default, empty_store), Err e).
Proof.
  split.
  - eapply (apply_one_refuses 1 1 _ (machine, empty_store)); reflexivity.
  - eapply (apply_one_refuses 1 1 the_plan (set_placements ∅ fake_default, empty_store));
      [reflexivity | reflexivity | reflexivity |].
    right; right; right. discriminate.
Defined.

Definition applied := apply_one 1 1 the_plan (machine, empty_store).
Definition applied_snapshot : MutationSnapshot :=
  fresh_snapshot 1 1 the_plan "/user.slice" 1.

Lemma apply_one_verified_witness :
  apply_one 1 1 the_plan (machine, empty_store) = (fst applied, Ok (Some applied_snapshot)) /\
  ms_pid applied_snapshot = cp_pid the_plan.
Proof.
  assert (apply_one 1 1 the_plan (machine, empty_store)
          = (fst applied, Ok (Some applied_snapshot))) as H by (vm_compute; reflexivity).
  split; [exact H |].
  apply (apply_one_verified 1 1 the_plan (machine, empty_store) _ _ H).
Defined.

Lemma apply_one_write_ahead_witness :
  exists snapshot st id, persist snapshot empty_store = (st, Ok id) /\ ms_pid snapshot = 42.
Proof.
  destruct (apply_one_write_ahead 1 1 the_plan (machine, empty_store) (fst applied) (snd applied))
    as (snapshot & _ & st & id & Hp & Hpid & _).
  - vm_compute; reflexivity.
  - intros H. apply (f_equal operations) in H. vm_compute in H. discriminate H.
  - exact (ex_intro _ snapshot (ex_intro _ st (ex_intro _ id (conj Hp Hpid)))).
Defined.

Lemma rollback_one_pid_reuse_witness :
  placements (fst (fst (rollback_one applied_snapshot
    (set_placements {[42 := "/other"%string]} fake_default, empty_store))))
  = {[42 := "/other"%string]}.
Proof.
  apply (rollback_one_pid_reuse placements) with (start := None).
  - intros name p b. simpl. unfold fake_set_properties. destruct (fails _ _); [done |].
    by destruct (_ !! _).
  - intros name b. simpl. unfold fake_cleanup. destruct (fails _ _); [done |].
    by destruct (is_some_and _ _).
  - reflexivity.
  - discriminate.
Defined.

Lemma recover_leaves_nothing_pending_witness :
  mem_pending (snd (fst (recover (fst applied)))) = Ok [].
Proof.
  apply (recover_leaves_nothing_pending (fst applied) (fst (recover (fst applied)))
           (snd (recover (fst applied)))).
  - unfold store_wf. apply map_Forall_to_list. vm_compute. repeat constructor.
  - vm_compute; reflexivity.
  - vm_compute. repeat constructor.
Defined.

Lemma linux_paths_confined_witness :
  exists parts, parts <> [] /\ Forall Classifier.Facts.plain_component parts /\
    "/sys/fs/cgroup/user.slice/app.scope"%string = path_join "/sys/fs/cgroup" (join "/" parts).
Proof.
  apply (linux_paths_confined "/sys/fs/cgroup" "/user.slice/app.scope" _ false).
  vm_compute; reflexivity.
Defined.

Lemma parse_start_time_ignores_command_witness :
  parse_start_time "7 (a) (b) S 1 2 3 4 5 6 7 8 9 10 11 12 13 14 15 16 17 18 777" = Ok (Some 777).
Proof.
  apply (parse_start_time_ignores_command "7 (a) (b"
           " S 1 2 3 4 5 6 7 8 9 10 11 12 13 14 15 16 17 18 777").
  vm_compute; reflexivity.
Defined.

Lemma fake_apply_rollback_restores_witness :
  exists snapshot s1 s2 snapshot',
    apply_one 1 1 the_plan (machine, empty_store) = (s1, Ok (Some snapshot)) /\
    placements (fst s1) !! cp_pid the_plan = Some (cp_target_group the_plan) /\
    rollback_one snapshot s1 = (s2, Ok snapshot') /\
    groups (fst s2) = groups machine /\ placements (fst s2) = placements machine.
Proof.
  apply (fake_apply_rollback_restores machine empty_store 1 1 the_plan "/user.slice" user_slice);
    vm_compute; reflexivity.
Defined.

End Witnesses.
