(* ===== verification/Policy.v ===== *)
(** crates/policy-engine: the pressure state machine ([transition.rs],
    [state.rs]), the action planner ([planner.rs]), the engine ([policy.rs]), the
    validated input and the rates of its counters ([features.rs]), the bounded
    history ([history.rs]). *)

From S2P Require Import Prelude F64 Text Config Classifier Actuator.

(** ** state.rs *)

Inductive PressureState := Normal | Watch | Pressure | Critical | Emergency | Stabilizing.

#[export] Instance PressureState_eq_dec : EqDecision PressureState.
Proof. solve_decision. Defined.

(** the derived [Ord]: the order of declaration *)
Definition level (s : PressureState) : Z :=
  match s with
  | Normal => 0 | Watch => 1 | Pressure => 2 | Critical => 3 | Emergency => 4 | Stabilizing => 5
  end.

Record PersistentState := {
  ps_current : PressureState;
  ps_previous : option PressureState;
  ps_entered_at_ns : Z;
  ps_candidate : option PressureState;
  ps_candidate_since_ns : option Z;
  ps_last_transition_ns : option Z;
  ps_transition_reason : string
}.

Definition conservative (timestamp_ns : Z) : PersistentState :=
  {| ps_current := Watch; ps_previous := None; ps_entered_at_ns := timestamp_ns;
     ps_candidate := None; ps_candidate_since_ns := None; ps_last_transition_ns := None;
     ps_transition_reason := "restart_without_continuity" |}.

(** ** error.rs and features.rs *)

(** [Serialization] is returned by no function modelled here. *)
Inductive PolicyError :=
| InvalidInput (field message : string)
| TimeRegression
| Serialization (message : string).

Record PolicyInput := {
  in_timestamp_ns : Z;
  in_ram_total_bytes : Z;
  in_mem_available_bytes : Z;
  in_available_percent : f64;
  in_swap_total_bytes : option Z;
  in_swap_used_bytes : option Z;
  in_swap_in_per_second : option f64;
  in_swap_out_per_second : option f64;
  in_major_faults_per_second : option f64;
  in_pgscan_per_second : option f64;
  in_pgsteal_per_second : option f64;
  in_psi_memory_some_avg10 : option f64;
  in_psi_memory_full_avg10 : option f64;
  in_workload_class : option WorkloadClass;
  in_workload_confidence : option f64;
  in_gaming : bool;
  in_critical_processes : Z;
  in_protected_processes : Z;
  in_unknown_processes : Z;
  in_foreground : ForegroundState;
  in_cgroup_capabilities : option CgroupCapabilities;
  in_actuator_available : bool;
  in_recent_safety_events : Z;
  in_recent_decisions : Z
}.

Definition invalid (field message : string) : result unit PolicyError :=
  Err (InvalidInput field message).

Definition finite_range (field : string) (value min max : f64) : result unit PolicyError :=
  if f64_is_finite value && f64_in_range min max value then Ok tt
  else invalid field "must be finite and in range".

(** a [for] loop whose body may return an error *)
Fixpoint check_all {A} (body : A -> result unit PolicyError) (l : list A) :
    result unit PolicyError :=
  match l with
  | [] => Ok tt
  | x :: l' => body x ;? check_all body l'
  end.

Definition rate_fields (self : PolicyInput) : list (string * option f64) :=
  [("swap_in_per_second", in_swap_in_per_second self);
   ("swap_out_per_second", in_swap_out_per_second self);
   ("major_faults_per_second", in_major_faults_per_second self);
   ("pgscan_per_second", in_pgscan_per_second self);
   ("pgsteal_per_second", in_pgsteal_per_second self)]%string.

Definition bounded_fields (self : PolicyInput) : list (string * option f64) :=
  [("psi_memory_some_avg10", in_psi_memory_some_avg10 self);
   ("psi_memory_full_avg10", in_psi_memory_full_avg10 self);
   ("workload_confidence", in_workload_confidence self)]%string.

Definition check_rate (f : string * option f64) : result unit PolicyError :=
  let '(field, value) := f in
  if is_some_and value (fun value => negb (f64_is_finite value) || f64_lt value f64_zero)
  then invalid field "must be finite and non-negative"
  else Ok tt.

Definition check_bounded (f : string * option f64) : result unit PolicyError :=
  let '(field, value) := f in
  match value with
  | None => Ok tt
  | Some value =>
      let max := if String.eqb field "workload_confidence" then f64_one else f64_of_Z 100 in
      finite_range field value f64_zero max
  end.

Definition validate_input (self : PolicyInput) : result unit PolicyError :=
  (if in_timestamp_ns self <? 0 then invalid "timestamp_ns" "must be non-negative" else Ok tt) ;?
  (if in_ram_total_bytes self =? 0
   then invalid "ram_total_bytes" "must be greater than zero" else Ok tt) ;?
  (if in_ram_total_bytes self <? in_mem_available_bytes self
   then invalid "mem_available_bytes" "must not exceed total RAM" else Ok tt) ;?
  finite_range "available_percent" (in_available_percent self) f64_zero (f64_of_Z 100) ;?
  (match in_swap_total_bytes self, in_swap_used_bytes self with
   | Some total, Some used =>
       if total <? used then invalid "swap_used_bytes" "must not exceed swap total" else Ok tt
   | _, _ => Ok tt
   end) ;?
  check_all check_rate (rate_fields self) ;?
  check_all check_bounded (bounded_fields self).

Record CounterSample := {
  cs_timestamp_ns : Z;
  cs_swap_in : option Z;
  cs_swap_out : option Z;
  cs_major_faults : option Z;
  cs_pgscan : option Z;
  cs_pgsteal : option Z
}.

Record RateFeatures := {
  rf_swap_in_per_second : option f64;
  rf_swap_out_per_second : option f64;
  rf_major_faults_per_second : option f64;
  rf_pgscan_per_second : option f64;
  rf_pgsteal_per_second : option f64
}.

Definition RateFeatures_default : RateFeatures :=
  {| rf_swap_in_per_second := None; rf_swap_out_per_second := None;
     rf_major_faults_per_second := None; rf_pgscan_per_second := None;
     rf_pgsteal_per_second := None |}.

Record RateTracker := { rt_previous : option CounterSample }.

Definition rate (previous current : option Z) (seconds : option f64) : option f64 :=
  previous ← previous;
  current ← current;
  seconds ← seconds;
  delta ← u64_checked_sub current previous;
  Some (f64_div (f64_of_Z delta) seconds).

(** the positive time between two samples, in seconds *)
Definition elapsed_seconds (previous current : CounterSample) : option f64 :=
  elapsed ← i64_checked_sub (cs_timestamp_ns current) (cs_timestamp_ns previous);
  if 0 <? elapsed then Some (f64_div (f64_of_Z elapsed) (f64_of_Z 1000000000)) else None.

Definition rate_update (self : RateTracker) (current : CounterSample) :
    RateTracker * RateFeatures :=
  let rates :=
    match rt_previous self with
    | None => RateFeatures_default
    | Some previous =>
        let seconds := elapsed_seconds previous current in
        {| rf_swap_in_per_second := rate (cs_swap_in previous) (cs_swap_in current) seconds;
           rf_swap_out_per_second := rate (cs_swap_out previous) (cs_swap_out current) seconds;
           rf_major_faults_per_second :=
             rate (cs_major_faults previous) (cs_major_faults current) seconds;
           rf_pgscan_per_second := rate (cs_pgscan previous) (cs_pgscan current) seconds;
           rf_pgsteal_per_second := rate (cs_pgsteal previous) (cs_pgsteal current) seconds |}
    end in
  ({| rt_previous := Some current |}, rates).

(** ** explanation.rs and transition.rs *)

Record PolicyEvidence := {
  pe_signal : string;
  pe_value : option f64;
  pe_threshold : option f64;
  pe_relation : string;
  pe_available : bool
}.

Record CandidateRejection := { cr_candidate : PressureState; cr_reason : string }.

Record TransitionResult := {
  tr_state : PersistentState;
  tr_changed : bool;
  tr_evidence : list PolicyEvidence;
  tr_rejected : list CandidateRejection
}.

Definition ev (signal : string) (value threshold : option f64) : PolicyEvidence :=
  {| pe_signal := signal; pe_value := value; pe_threshold := threshold;
     pe_relation := "observed_against_configured_threshold"; pe_available := is_some value |}.

(** [i64::try_from(u128::from(seconds) * 1_000_000_000).unwrap_or(i64::MAX)] *)
Definition seconds_ns (seconds : Z) : Z :=
  if seconds * 1000000000 <=? i64_max then seconds * 1000000000 else i64_max.

Definition is_recovery (current desired : PressureState) : bool :=
  bool_decide (desired = Stabilizing)
  || (bool_decide (current = Stabilizing) && bool_decide (desired = Normal)).

Definition recovery_target (current observed : PressureState) : PressureState :=
  match current with
  | Pressure | Critical | Emergency =>
      if level observed <? level current then Stabilizing else observed
  | Stabilizing =>
      if bool_decide (observed = Normal) then Normal
      else if level Watch <? level observed then observed
      else Stabilizing
  | _ => observed
  end.

Definition reaches (value : option f64) (threshold : f64) : bool :=
  is_some_and value (fun v => f64_ge v threshold).

Definition corroborating_signals (input : PolicyInput) (config : PressureConfig) : list bool :=
  [reaches (in_psi_memory_some_avg10 input) (pressure_psi_some_avg10_threshold config);
   reaches (in_psi_memory_full_avg10 input) (pressure_psi_full_avg10_threshold config);
   reaches (in_major_faults_per_second input) (pressure_major_fault_rate_threshold config);
   reaches (in_swap_in_per_second input) (pressure_swap_in_rate_threshold config);
   reaches (in_swap_out_per_second input) (pressure_swap_out_rate_threshold config)].

Definition count_true (l : list bool) : Z := Z.of_nat (length (filter (fun b => b = true) l)).

Definition target_evidence (input : PolicyInput) (config : PressureConfig) : list PolicyEvidence :=
  [ev "mem_available_percent" (Some (in_available_percent input))
     (Some (f64_of_Z (pressure_watch_available_percent config)));
   ev "psi_memory_some_avg10" (in_psi_memory_some_avg10 input)
     (Some (pressure_psi_some_avg10_threshold config));
   ev "psi_memory_full_avg10" (in_psi_memory_full_avg10 input)
     (Some (pressure_psi_full_avg10_threshold config));
   ev "major_faults_per_second" (in_major_faults_per_second input)
     (Some (pressure_major_fault_rate_threshold config));
   ev "swap_in_per_second" (in_swap_in_per_second input)
     (Some (pressure_swap_in_rate_threshold config));
   ev "swap_out_per_second" (in_swap_out_per_second input)
     (Some (pressure_swap_out_rate_threshold config))].

Definition target_state (input : PolicyInput) (config : PressureConfig) :
    PressureState * list PolicyEvidence * bool :=
  let available := in_available_percent input in
  let evidence := target_evidence input config in
  let corroborating := count_true (corroborating_signals input config) in
  let full_emergency :=
    reaches (in_psi_memory_full_avg10 input) (pressure_emergency_psi_full_avg10_threshold config) in
  let below percent := f64_le available (f64_of_Z percent) in
  let target :=
    if below (pressure_emergency_available_percent config)
       && (full_emergency || (2 <=? corroborating)) then Emergency
    else if below (pressure_critical_available_percent config) && (2 <=? corroborating)
    then Critical
    else if below (pressure_pressure_available_percent config) && (1 <=? corroborating)
    then Pressure
    else if below (pressure_watch_available_percent config) || (1 <=? corroborating)
    then Watch
    else Normal in
  let sufficient :=
    is_some (in_psi_memory_some_avg10 input) || is_some (in_psi_memory_full_avg10 input)
    || is_some (in_major_faults_per_second input) || is_some (in_swap_in_per_second input)
    || is_some (in_swap_out_per_second input) in
  (target, evidence, sufficient).

(** the state with the candidate dropped and a reason *)
Definition drop_candidate (reason : string) (s : PersistentState) : PersistentState :=
  {| ps_current := ps_current s; ps_previous := ps_previous s;
     ps_entered_at_ns := ps_entered_at_ns s; ps_candidate := None;
     ps_candidate_since_ns := None; ps_last_transition_ns := ps_last_transition_ns s;
     ps_transition_reason := reason |}.

Definition immediate_emergency (desired : PressureState) (input : PolicyInput)
    (config : PressureConfig) : bool :=
  bool_decide (desired = Emergency)
  && f64_le (in_available_percent input) (f64_of_Z (pressure_emergency_available_percent config))
  && reaches (in_psi_memory_full_avg10 input) (pressure_emergency_psi_full_avg10_threshold config).

Definition hold_seconds_for (current desired : PressureState) (config : PressureConfig) : Z :=
  if is_recovery current desired then pressure_recovery_hold_seconds config
  else pressure_state_hold_seconds config.

Definition transition (previous : PersistentState) (input : PolicyInput) (config : PressureConfig) :
    TransitionResult :=
  let '(target, evidence, sufficient) := target_state input config in
  if negb sufficient then
    {| tr_state := drop_candidate "insufficient_or_unavailable_telemetry" previous;
       tr_changed := false; tr_evidence := evidence; tr_rejected := [] |}
  else
    let desired := recovery_target (ps_current previous) target in
    if bool_decide (desired = ps_current previous) then
      {| tr_state := drop_candidate "state_evidence_stable" previous;
         tr_changed := false; tr_evidence := evidence; tr_rejected := [] |}
    else
      let immediate := immediate_emergency desired input config in
      let hold_seconds := hold_seconds_for (ps_current previous) desired config in
      let candidate_since :=
        if bool_decide (ps_candidate previous = Some desired)
        then unwrap_or (ps_candidate_since_ns previous) (in_timestamp_ns input)
        else in_timestamp_ns input in
      let elapsed := i64_sat_sub (in_timestamp_ns input) candidate_since in
      let held := seconds_ns hold_seconds <=? elapsed in
      if immediate || held then
        {| tr_state :=
             {| ps_current := desired;
                ps_previous := Some (ps_current previous);
                ps_entered_at_ns := in_timestamp_ns input;
                ps_candidate := None;
                ps_candidate_since_ns := None;
                ps_last_transition_ns := Some (in_timestamp_ns input);
                ps_transition_reason :=
                  if immediate then "immediate_multi_signal_emergency"
                  else "candidate_hold_completed" |};
           tr_changed := true; tr_evidence := evidence; tr_rejected := [] |}
      else
        {| tr_state :=
             {| ps_current := ps_current previous;
                ps_previous := ps_previous previous;
                ps_entered_at_ns := ps_entered_at_ns previous;
                ps_candidate := Some desired;
                ps_candidate_since_ns := Some candidate_since;
                ps_last_transition_ns := ps_last_transition_ns previous;
                ps_transition_reason := "hysteresis_hold_in_progress" |};
           tr_changed := false;
           tr_evidence := evidence;
           tr_rejected :=
             [{| cr_candidate := desired;
                 cr_reason := "hold requires " ++ show_uint hold_seconds ++ "s" |}] |}%string.

(** ** action.rs and planner.rs *)

Inductive ZramProfileIntent := IntentSafe | IntentGaming | IntentCapacity.
Inductive MemoryBackendIntent := IntentZram | IntentZswapNvme.

Inductive ActionKind :=
| NoAction
| PrepareForegroundProtection
| ProtectForeground
| ApplyBackgroundSoftLimit
| RollbackCgroupMeasures
| SelectZramProfile (profile : ZramProfileIntent)
| SelectMemoryBackend (backend : MemoryBackendIntent).

(** the derived [Debug] of [ActionKind] *)
Definition debug_action_kind (k : ActionKind) : string :=
  match k with
  | NoAction => "NoAction"
  | PrepareForegroundProtection => "PrepareForegroundProtection"
  | ProtectForeground => "ProtectForeground"
  | ApplyBackgroundSoftLimit => "ApplyBackgroundSoftLimit"
  | RollbackCgroupMeasures => "RollbackCgroupMeasures"
  | SelectZramProfile p =>
      "SelectZramProfile { profile: "
      ++ match p with IntentSafe => "Safe" | IntentGaming => "Gaming"
         | IntentCapacity => "Capacity" end ++ " }"
  | SelectMemoryBackend b =>
      "SelectMemoryBackend { backend: "
      ++ match b with IntentZram => "Zram" | IntentZswapNvme => "ZswapNvme" end ++ " }"
  end%string.

Record PlannedAction := {
  pa_kind : ActionKind;
  pa_reason : string;
  pa_mutating : bool;
  pa_actuator_plan : option CgroupPlan
}.

Record RejectedAction := {
  ra_requested : string;
  ra_reason_code : string;
  ra_explanation : string
}.

Record ActionPlan := { ap_planned : list PlannedAction; ap_rejected : list RejectedAction }.

Definition action (kind : ActionKind) (reason : string) (mutating : bool) : PlannedAction :=
  {| pa_kind := kind; pa_reason := reason; pa_mutating := mutating; pa_actuator_plan := None |}.
Definition zram_action (profile : ZramProfileIntent) (reason : string) : PlannedAction :=
  action (SelectZramProfile profile) reason false.
Definition tiering_action (backend : MemoryBackendIntent) (reason : string) : PlannedAction :=
  action (SelectMemoryBackend backend) reason false.

Definition reject_mutation (code : string) (item : PlannedAction) : RejectedAction :=
  {| ra_requested := debug_action_kind (pa_kind item); ra_reason_code := code;
     ra_explanation := "mutation stopped before the actuator apply boundary" |}.

Definition reject_mutations (planned : list PlannedAction) (rejected : list RejectedAction)
    (code : string) : list PlannedAction * list RejectedAction :=
  foldl (fun '(planned, rejected) item =>
           if pa_mutating item then (planned, rejected ++ [reject_mutation code item])
           else (planned ++ [item], rejected))
    ([], rejected) planned.

Definition pressure_actions (state : PressureState) (input : PolicyInput) : list PlannedAction :=
  let pressure := bool_decide (state = Pressure) in
  [action ProtectForeground "preserve_confirmed_foreground_and_protected_workloads" true;
   zram_action
     (if in_gaming input then IntentGaming else if pressure then IntentCapacity else IntentSafe)
     (if pressure then "evaluate_capacity_without_bypassing_zram_guards"
      else "critical_states_block_zram_reinitialization");
   tiering_action (if in_gaming input || negb pressure then IntentZram else IntentZswapNvme)
     "tiering_intent_requires_backend_safety_validation";
   action ApplyBackgroundSoftLimit "limit_only_explicitly_allow_listed_background_workloads" true].

Definition plan_actions (state : PressureState) (input : PolicyInput) (observe : bool) :
    ActionPlan :=
  let capabilities_ready := is_some_and (in_cgroup_capabilities input) mutation_ready in
  let '(planned, rejected) :=
    match state with
    | Normal =>
        ([action NoAction "system_stable" false;
          zram_action IntentSafe "preserve_current_zram";
          tiering_action IntentZram "no_tiering_benchmark_evidence_preserves_zram"], [])
    | Watch =>
        ([action PrepareForegroundProtection "early_pressure_signals" false;
          zram_action (if in_gaming input then IntentGaming else IntentSafe)
            "analyze_zram_without_risky_change";
          tiering_action IntentZram "watch_state_preserves_current_backend"], [])
    | Pressure | Critical | Emergency =>
        let planned := pressure_actions state input in
        if 0 <? in_recent_safety_events input
        then reject_mutations planned [] "recent_cgroup_safety_event"
        else if negb capabilities_ready
        then reject_mutations planned [] "cgroup_capability_unavailable"
        else if observe then reject_mutations planned [] "observe_mode"
        else if negb (in_actuator_available input)
        then reject_mutations planned [] "actuator_unavailable"
        else (planned, [])
    | Stabilizing =>
        let planned :=
          [action RollbackCgroupMeasures "conservative_recovery_after_pressure" true;
           zram_action IntentSafe "hold_zram_configuration_during_stabilization";
           tiering_action IntentZram "stabilizing_preserves_low_write_backend"] in
        if 0 <? in_recent_safety_events input
        then reject_mutations planned [] "recent_cgroup_safety_event"
        else if observe then reject_mutations planned [] "observe_mode"
        else (planned, [])
    end in
  let rejected :=
    if 0 <? in_unknown_processes input then
      rejected ++ [{| ra_requested := "target_unknown_processes";
                      ra_reason_code := "unknown_do_not_touch";
                      ra_explanation := "unknown processes are never background targets" |}]
    else rejected in
  {| ap_planned := planned; ap_rejected := rejected |}.

Definition validate_cgroup_plan (input : PlanInput) (config : CgroupsConfig) (mode : string) :
    option CgroupPlan :=
  plan input config mode.

Definition reject_unsupported (name : string) : RejectedAction :=
  {| ra_requested := name; ra_reason_code := "unsupported_action";
     ra_explanation := "action is outside the Phase 4 allow-list" |}.

(** ** policy.rs and history.rs *)

Definition POLICY_NAME : string := "nemor-policy-v1".
Definition RULE_VERSION : string := "pressure-rules-v1".

Record PolicyDecision := {
  pd_timestamp_ns : Z;
  pd_current_state : PressureState;
  pd_previous_state : option PressureState;
  pd_state_changed : bool;
  pd_state_since_ns : Z;
  pd_candidate_state : option PressureState;
  pd_policy_name : string;
  pd_rule_version : string;
  pd_input_features : PolicyInput;
  pd_evidence : list PolicyEvidence;
  pd_rejected_candidates : list CandidateRejection;
  pd_planned_actions : list PlannedAction;
  pd_rejected_actions : list RejectedAction;
  pd_expected_gain_bytes : option Z;
  pd_expected_cost_score : option f64;
  pd_dry_run : bool;
  pd_transition_reason : string
}.

Record PolicyEngine := { pe_config : PressureConfig; pe_state : PersistentState }.

Definition engine_new (config : PressureConfig) (timestamp_ns : Z) : PolicyEngine :=
  {| pe_config := config; pe_state := conservative timestamp_ns |}.
Definition from_state (config : PressureConfig) (state : PersistentState) : PolicyEngine :=
  {| pe_config := config; pe_state := state |}.

Definition decision_of (t : TransitionResult) (input : PolicyInput) (observe : bool) :
    PolicyDecision :=
  let state := tr_state t in
  let actions := plan_actions (ps_current state) input observe in
  {| pd_timestamp_ns := in_timestamp_ns input;
     pd_current_state := ps_current state;
     pd_previous_state := ps_previous state;
     pd_state_changed := tr_changed t;
     pd_state_since_ns := ps_entered_at_ns state;
     pd_candidate_state := ps_candidate state;
     pd_policy_name := POLICY_NAME;
     pd_rule_version := RULE_VERSION;
     pd_input_features := input;
     pd_evidence := tr_evidence t;
     pd_rejected_candidates := tr_rejected t;
     pd_planned_actions := ap_planned actions;
     pd_rejected_actions := ap_rejected actions;
     pd_expected_gain_bytes := None;
     pd_expected_cost_score := None;
     pd_dry_run := observe;
     pd_transition_reason := ps_transition_reason state |}.

Definition evaluate (input : PolicyInput) (observe : bool) :
    eff PolicyEngine PolicyDecision PolicyError :=
  fun self =>
    match validate_input input with
    | Err e => (self, Err e)
    | Ok _ =>
        if in_timestamp_ns input <? ps_entered_at_ns (pe_state self)
        then (self, Err TimeRegression)
        else
          let t := transition (pe_state self) input (pe_config self) in
          ({| pe_config := pe_config self; pe_state := tr_state t |}, Ok (decision_of t input observe))
    end.

Record SafetyEvent := {
  se_timestamp_ns : Z;
  se_action_family : option string;
  se_event_type : string
}.

Record DecisionHistory := {
  dh_recent : list PolicyDecision;
  dh_safety_events : list SafetyEvent
}.

Definition limited (self : DecisionHistory) (limit : Z) : DecisionHistory :=
  let limit := Z.to_nat (Z.min limit 100) in
  {| dh_recent := take limit (dh_recent self);
     dh_safety_events := take limit (dh_safety_events self) |}.

(** ** Lemmas *)
Module Facts.

Definition observed (input : PolicyInput) (config : PressureConfig) : PressureState :=
  fst (fst (target_state input config)).
Definition sufficient (input : PolicyInput) (config : PressureConfig) : bool :=
  snd (target_state input config).

(** [input] is evidence for leaving [cur] for [d]. *)
Definition supports (config : PressureConfig) (cur d : PressureState) (input : PolicyInput) : Prop :=
  sufficient input config = true /\ recovery_target cur (observed input config) = d.

Definition pressured (s : PressureState) : bool :=
  match s with Pressure | Critical | Emergency => true | _ => false end.

(** the moves of the pressure state machine *)
Definition edge (a b : PressureState) : Prop :=
  match a with
  | Normal => b = Watch \/ pressured b = true
  | Watch => b = Normal \/ pressured b = true
  | Pressure => b = Critical \/ b = Emergency \/ b = Stabilizing
  | Critical => b = Emergency \/ b = Stabilizing
  | Emergency => b = Stabilizing
  | Stabilizing => b = Normal \/ pressured b = true
  end.

Lemma target_state_eq input config :
  target_state input config =
  (observed input config, target_evidence input config, sufficient input config).
Proof. reflexivity. Qed.

Lemma observed_not_stabilizing input config : observed input config <> Stabilizing.
Proof. unfold observed, target_state. simpl. repeat case_match; done. Qed.

Lemma recovery_target_edge cur obs :
  obs <> Stabilizing -> recovery_target cur obs <> cur -> edge cur (recovery_target cur obs).
Proof. destruct cur, obs; simpl; intros; try done; auto. Qed.

Lemma seconds_ns_nonneg n : 0 <= n -> 0 <= seconds_ns n.
Proof. intros H. unfold seconds_ns, i64_max. destruct (_ <=? _); lia. Qed.

(** The three outcomes of [transition] *)
Inductive transition_spec (s : PersistentState) (input : PolicyInput) (config : PressureConfig) :
    TransitionResult -> Prop :=
| spec_dropped reason rej :
    (sufficient input config = false \/
     recovery_target (ps_current s) (observed input config) = ps_current s) ->
    transition_spec s input config
      {| tr_state := drop_candidate reason s; tr_changed := false;
         tr_evidence := target_evidence input config; tr_rejected := rej |}
| spec_held d since rej :
    supports config (ps_current s) d input -> d <> ps_current s ->
    (ps_candidate s = Some d /\ since = unwrap_or (ps_candidate_since_ns s) (in_timestamp_ns input)
     \/ ps_candidate s <> Some d /\ since = in_timestamp_ns input) ->
    i64_sat_sub (in_timestamp_ns input) since
      < seconds_ns (hold_seconds_for (ps_current s) d config) ->
    transition_spec s input config
      {| tr_state :=
           {| ps_current := ps_current s; ps_previous := ps_previous s;
              ps_entered_at_ns := ps_entered_at_ns s; ps_candidate := Some d;
              ps_candidate_since_ns := Some since;
              ps_last_transition_ns := ps_last_transition_ns s;
              ps_transition_reason := "hysteresis_hold_in_progress" |};
         tr_changed := false; tr_evidence := target_evidence input config; tr_rejected := rej |}
| spec_moved d since reason :
    supports config (ps_current s) d input -> d <> ps_current s ->
    (ps_candidate s = Some d /\ since = unwrap_or (ps_candidate_since_ns s) (in_timestamp_ns input)
     \/ ps_candidate s <> Some d /\ since = in_timestamp_ns input) ->
    (immediate_emergency d input config = true \/
     seconds_ns (hold_seconds_for (ps_current s) d config)
       <= i64_sat_sub (in_timestamp_ns input) since) ->
    transition_spec s input config
      {| tr_state :=
           {| ps_current := d; ps_previous := Some (ps_current s);
              ps_entered_at_ns := in_timestamp_ns input; ps_candidate := None;
              ps_candidate_since_ns := None;
              ps_last_transition_ns := Some (in_timestamp_ns input);
              ps_transition_reason := reason |};
         tr_changed := true; tr_evidence := target_evidence input config; tr_rejected := [] |}.

Lemma transition_specP s input config : transition_spec s input config (transition s input config).
Proof.
  unfold transition. rewrite target_state_eq.
  destruct (sufficient input config) eqn:Es; simpl; [| by apply spec_dropped; left].
  case_bool_decide as Hd; [by apply spec_dropped; right |].
  set (since := if bool_decide (ps_candidate s = _) then _ else _).
  assert (ps_candidate s = Some (recovery_target (ps_current s) (observed input config)) /\
          since = unwrap_or (ps_candidate_since_ns s) (in_timestamp_ns input) \/
          ps_candidate s <> Some (recovery_target (ps_current s) (observed input config)) /\
          since = in_timestamp_ns input) as Hsince.
  { subst since. case_bool_decide; auto. }
  clearbody since. destruct (_ || _) eqn:E.
  - apply (spec_moved _ _ _ _ since); [by split | done | done |].
    apply orb_true_iff in E as [?|?%Z.leb_le]; auto.
  - apply orb_false_iff in E as [_ E%Z.leb_gt].
    apply (spec_held _ _ _ _ since); [by split | done | done | lia].
Qed.

(** The outcomes of [evaluate] *)
Lemma evaluate_inv input observe e e' r :
  evaluate input observe e = (e', r) ->
  (exists err, r = Err err /\ e' = e /\
     (validate_input input = Err err \/
      err = TimeRegression /\ in_timestamp_ns input < ps_entered_at_ns (pe_state e))) \/
  (validate_input input = Ok tt /\ ps_entered_at_ns (pe_state e) <= in_timestamp_ns input /\
   pe_config e' = pe_config e /\
   pe_state e' = tr_state (transition (pe_state e) input (pe_config e)) /\
   r = Ok (decision_of (transition (pe_state e) input (pe_config e)) input observe)).
Proof.
  unfold evaluate. destruct (validate_input input) as [[]|err] eqn:Ev.
  - destruct (Z.ltb_spec (in_timestamp_ns input) (ps_entered_at_ns (pe_state e))) as [Hlt|Hge];
      intros [= <- <-].
    + left. exists TimeRegression. auto.
    + right. auto.
  - intros [= <- <-]. left. exists err. auto.
Qed.

(** [evaluate] over a history, the accepted inputs kept *)
Definition run_step (st : PolicyEngine * list PolicyInput) (i : PolicyInput * bool) :
    PolicyEngine * list PolicyInput :=
  let '(e', r) := evaluate (fst i) (snd i) (fst st) in
  (e', match r with Ok _ => snd st ++ [fst i] | Err _ => snd st end).
Definition run (config : PressureConfig) (start_ns : Z) (history : list (PolicyInput * bool)) :
    PolicyEngine * list PolicyInput :=
  foldl run_step (engine_new config start_ns, []) history.

Lemma run_snoc config t history i :
  run config t (history ++ [i]) = run_step (run config t history) i.
Proof. unfold run. by rewrite foldl_app. Qed.

Lemma run_config config t history : pe_config (fst (run config t history)) = config.
Proof.
  induction history as [|i history IH] using rev_ind; [done |].
  rewrite run_snoc. unfold run_step. destruct (evaluate _ _ _) as [e' r] eqn:E.
  apply evaluate_inv in E as [(? & _ & -> & _) | (_ & _ & Hc & _)]; simpl; [done |].
  by rewrite Hc.
Qed.

(** What the state of a run from [engine_new] always satisfies *)
Definition state_wf (s : PersistentState) : Prop :=
  ps_previous s <> Some (ps_current s) /\
  match ps_candidate s, ps_candidate_since_ns s with
  | None, None => True
  | Some d, Some since => d <> ps_current s /\ ps_entered_at_ns s <= since
  | _, _ => False
  end /\
  is_some (ps_previous s) = is_some (ps_last_transition_ns s) /\
  is_none_or (ps_last_transition_ns s) (fun t => t =? ps_entered_at_ns s) = true.

Lemma transition_wf s input config :
  state_wf s -> ps_entered_at_ns s <= in_timestamp_ns input ->
  state_wf (tr_state (transition s input config)).
Proof.
  intros (H1 & H2 & H3 & H4) Ht.
  destruct (transition_specP s input config) as [reason rej | d since rej Hs Hd Hc _
    | d since reason Hs Hd _ _]; unfold state_wf; simpl; repeat split; try done.
  - destruct Hc as [[Hc ->] | [_ ->]]; [| lia]. rewrite Hc in H2.
    destruct (ps_candidate_since_ns s); [| done]. simpl. lia.
  - congruence.
  - by apply Z.eqb_eq.
Qed.

(** [held_since config s accepted]: the candidate of [s] rests on an unbroken
    tail of accepted inputs that started at [candidate_since_ns]. *)
Definition held_since (config : PressureConfig) (s : PersistentState) (accepted : list PolicyInput) :
    Prop :=
  forall d, ps_candidate s = Some d ->
  exists pre first held,
    accepted = pre ++ first :: held /\
    ps_candidate_since_ns s = Some (in_timestamp_ns first) /\
    Forall (supports config (ps_current s) d) (first :: held).

(** one more accepted input, which supports [d] *)
Lemma held_since_extend config s accepted d since input :
  held_since config s accepted -> supports config (ps_current s) d input ->
  (ps_candidate s = Some d /\ since = unwrap_or (ps_candidate_since_ns s) (in_timestamp_ns input)
   \/ ps_candidate s <> Some d /\ since = in_timestamp_ns input) ->
  exists pre first held,
    accepted ++ [input] = pre ++ first :: held /\ since = in_timestamp_ns first /\
    Forall (supports config (ps_current s) d) (first :: held).
Proof.
  intros Hh Hs [[Hc ->] | [_ ->]].
  - destruct (Hh d Hc) as (pre & first & held & -> & -> & Hall).
    exists pre, first, (held ++ [input]). split; [by rewrite <- app_assoc |].
    split; [done |]. rewrite app_comm_cons. apply Forall_app. auto.
  - exists accepted, input, []. auto.
Qed.

Lemma transition_held config s accepted input :
  held_since config s accepted ->
  held_since config (tr_state (transition s input config)) (accepted ++ [input]).
Proof.
  intros Hh. destruct (transition_specP s input config) as [reason rej | d since rej Hs Hd Hc _
    | d since reason Hs Hd _ _]; try by intros d'.
  intros d' [= <-]. simpl.
  destruct (held_since_extend _ _ _ _ _ _ Hh Hs Hc) as (pre & first & held & -> & -> & Hall).
  by exists pre, first, held.
Qed.

Lemma run_inv config t history :
  state_wf (pe_state (fst (run config t history))) /\
  held_since config (pe_state (fst (run config t history))) (snd (run config t history)).
Proof.
  induction history as [|i history [IH1 IH2]] using rev_ind; [by repeat split |].
  pose proof (run_config config t history) as Hc.
  rewrite run_snoc. unfold run_step. destruct (evaluate _ _ _) as [e' r] eqn:E.
  apply evaluate_inv in E as [(err & -> & -> & _) | (_ & Ht & _ & Hst & ->)]; [done |].
  simpl. rewrite Hst, Hc. split; [by apply transition_wf | by apply transition_held].
Qed.

(** [saturating_sub] cannot create elapsed time. *)
Lemma i64_sat_sub_lower a b h : 0 <= h -> h <= i64_sat_sub a b -> h <= a - b.
Proof. unfold_int. lia. Qed.

(** One evaluation keeps the state or moves along an edge. *)
Lemma evaluate_edge input observe e e' r :
  evaluate input observe e = (e', r) ->
  ps_current (pe_state e') = ps_current (pe_state e) \/
  edge (ps_current (pe_state e)) (ps_current (pe_state e')).
Proof.
  intros [(? & _ & -> & _) | (_ & _ & _ & Hst & _)]%evaluate_inv; [by left |]. rewrite Hst.
  destruct (transition_specP (pe_state e) input (pe_config e))
    as [| | new since reason [_ Hs] Hd]; [by left | by left | right]. simpl.
  subst new. apply recovery_target_edge; [apply observed_not_stabilizing | done].
Qed.

(** the engine after a sequence of evaluations, errors included *)
Definition evaluate_all (history : list (PolicyInput * bool)) (e : PolicyEngine) : PolicyEngine :=
  foldl (fun e i => fst (evaluate (fst i) (snd i) e)) e history.

(** One evaluation of an input that supports [d] adopts [d] or leaves it the
    candidate. *)
Lemma evaluate_supporting e input observe d :
  let s := pe_state e in
  let e' := fst (evaluate input observe e) in
  validate_input input = Ok tt -> ps_entered_at_ns s <= in_timestamp_ns input ->
  supports (pe_config e) (ps_current s) d input -> d <> ps_current s ->
  ps_current (pe_state e') = d \/
  (ps_current (pe_state e') = ps_current s /\
   ps_entered_at_ns (pe_state e') = ps_entered_at_ns s /\
   (ps_candidate (pe_state e') = Some d /\
    ps_candidate_since_ns (pe_state e') =
      Some (if bool_decide (ps_candidate s = Some d)
            then unwrap_or (ps_candidate_since_ns s) (in_timestamp_ns input)
            else in_timestamp_ns input) /\
    i64_sat_sub (in_timestamp_ns input)
      (if bool_decide (ps_candidate s = Some d)
       then unwrap_or (ps_candidate_since_ns s) (in_timestamp_ns input)
       else in_timestamp_ns input)
      < seconds_ns (hold_seconds_for (ps_current s) d (pe_config e))) /\
   pe_config e' = pe_config e).
Proof.
  simpl. intros Hv Ht [Hs Hr] Hd.
  destruct (evaluate input observe e) as [e' r] eqn:E. simpl.
  apply evaluate_inv in E as [(err & _ & _ & [? | [_ ?]]) | (_ & _ & Hcfg & Hst & _)];
    [congruence | lia |].
  rewrite Hst, Hcfg.
  destruct (transition_specP (pe_state e) input (pe_config e)) as
    [reason rej Hno | d' since rej [_ Hr'] Hd' Hc Hlt | d' since reason [_ Hr'] Hd' Hc Hm].
  - destruct Hno; congruence.
  - right. assert (d' = d) as -> by congruence. simpl.
    destruct Hc as [[Hc ->] | [Hc ->]];
      [rewrite bool_decide_eq_true_2 by done | rewrite bool_decide_eq_false_2 by done];
      repeat split; done.
  - left. simpl. congruence.
Qed.

(** A candidate held until the hold time has passed is adopted. *)
Lemma candidate_is_adopted between : forall e d last since,
  let s := pe_state e in
  d <> ps_current s -> ps_candidate s = Some d -> ps_candidate_since_ns s = Some since ->
  Forall (fun i => validate_input (fst i) = Ok tt /\
                   ps_entered_at_ns s <= in_timestamp_ns (fst i) <= i64_max /\
                   supports (pe_config e) (ps_current s) d (fst i)) (between ++ [last]) ->
  seconds_ns (hold_seconds_for (ps_current s) d (pe_config e))
    <= in_timestamp_ns (fst last) - since ->
  exists pre, pre `prefix_of` (between ++ [last]) /\
    ps_current (pe_state (evaluate_all pre e)) = d.
Proof.
  induction between as [|i between IH]; intros e d last since s Hd Hc Hsince Hall Hspan;
    subst s; simpl in Hall; apply Forall_cons_iff in Hall as [(Hv & Ht & Hs) Hall].
  - exists [last]. split; [done |]. simpl.
    destruct (evaluate_supporting e (fst last) (snd last) d) as [? | (_ & _ & (_ & _ & Hlt) & _)];
      try done; [lia |].
    exfalso. rewrite bool_decide_eq_true_2, Hsince in Hlt by done. simpl in Hlt.
    unfold i64_sat_sub in Hlt.
    assert (seconds_ns (hold_seconds_for (ps_current (pe_state e)) d (pe_config e)) <= i64_max).
    { unfold seconds_ns.
      destruct (Z.leb_spec (hold_seconds_for (ps_current (pe_state e)) d (pe_config e)
        * 1000000000) i64_max); lia. }
    lia.
  - destruct (evaluate_supporting e (fst i) (snd i) d) as
      [Hnow | (Hcur & Hent & (Hcand & Hsn & _) & Hcfg)]; try done; [lia | |].
    { exists [i]. split; [by exists (between ++ [last]) | done]. }
    rewrite bool_decide_eq_true_2, Hsince in Hsn by done. simpl in Hsn.
    destruct (IH (fst (evaluate (fst i) (snd i) e)) d last since) as (pre & Hpre & Hres);
      rewrite ?Hcur, ?Hent, ?Hcfg; try done.
    exists (i :: pre). split; [by apply prefix_cons | done].
Qed.

(** a finite value between 0 and [max] *)
Definition in_unit_range (max v : f64) : Prop :=
  f64_is_finite v = true /\ f64_le f64_zero v = true /\ f64_le v max = true.

Lemma seq_ok_policy (m k : result unit PolicyError) : (m ;? k) = Ok tt <-> m = Ok tt /\ k = Ok tt.
Proof. destruct m as [[]|]; naive_solver. Qed.

Lemma check_all_ok {A} (body : A -> result unit PolicyError) l :
  check_all body l = Ok tt <-> Forall (fun x => body x = Ok tt) l.
Proof.
  induction l as [|x l IH]; [by split; [constructor |] |].
  rewrite Forall_cons_iff, <- IH. cbn [check_all]. apply seq_ok_policy.
Qed.

Lemma finite_range_ok field v max :
  finite_range field v f64_zero max = Ok tt <-> in_unit_range max v.
Proof.
  unfold finite_range, in_unit_range, f64_in_range.
  destruct (f64_is_finite v), (f64_le f64_zero v), (f64_le v max); simpl; naive_solver.
Qed.

Lemma check_rate_ok f :
  check_rate f = Ok tt <->
  forall v, snd f = Some v -> f64_is_finite v = true /\ f64_lt v f64_zero = false.
Proof.
  destruct f as [field [v|]]; simpl; [| by split].
  split.
  - intros H w [= <-]. destruct (_ || _) eqn:E; [done |]. by bools.
  - intros H. by destruct (H v eq_refl) as [-> ->].
Qed.

Lemma check_bounded_ok field value :
  check_bounded (field, value) = Ok tt <->
  forall v, value = Some v ->
    in_unit_range (if String.eqb field "workload_confidence" then f64_one else f64_of_Z 100) v.
Proof.
  destruct value as [v|]; simpl; [| by split]. rewrite finite_range_ok.
  split; [by intros H w [= <-] | intros H; by apply H].
Qed.

(** ** The planner *)

(** the actions that a state calls for, before any mutation is refused *)
Definition state_actions (state : PressureState) (input : PolicyInput) : list PlannedAction :=
  match state with
  | Normal =>
      [action NoAction "system_stable" false;
       zram_action IntentSafe "preserve_current_zram";
       tiering_action IntentZram "no_tiering_benchmark_evidence_preserves_zram"]
  | Watch =>
      [action PrepareForegroundProtection "early_pressure_signals" false;
       zram_action (if in_gaming input then IntentGaming else IntentSafe)
         "analyze_zram_without_risky_change";
       tiering_action IntentZram "watch_state_preserves_current_backend"]
  | Pressure | Critical | Emergency => pressure_actions state input
  | Stabilizing =>
      [action RollbackCgroupMeasures "conservative_recovery_after_pressure" true;
       zram_action IntentSafe "hold_zram_configuration_during_stabilization";
       tiering_action IntentZram "stabilizing_preserves_low_write_backend"]
  end.

Definition unknown_rejection : RejectedAction :=
  {| ra_requested := "target_unknown_processes"; ra_reason_code := "unknown_do_not_touch";
     ra_explanation := "unknown processes are never background targets" |}.

Lemma reject_mutations_eq planned rejected code :
  reject_mutations planned rejected code =
  (filter (fun a => pa_mutating a = false) planned,
   rejected ++ map (reject_mutation code) (filter (fun a => pa_mutating a = true) planned)).
Proof.
  unfold reject_mutations.
  assert (forall kept, foldl (fun '(planned, rejected) item =>
           if pa_mutating item then (planned, rejected ++ [reject_mutation code item])
           else (planned ++ [item], rejected)) (kept, rejected) planned =
    (kept ++ filter (fun a => pa_mutating a = false) planned,
     rejected ++ map (reject_mutation code) (filter (fun a => pa_mutating a = true) planned))) as H;
    [| apply (H [])].
  revert rejected. induction planned as [|a l IH]; intros rejected kept; simpl.
  - by rewrite !app_nil_r.
  - rewrite !filter_cons. destruct (pa_mutating a) eqn:E; simpl; rewrite IH, <- app_assoc; done.
Qed.

(** [plan_actions] keeps the actions of the state or refuses its mutations. *)
Lemma plan_actions_cases state input observe :
  let p := plan_actions state input observe in
  let unknown := if 0 <? in_unknown_processes input then [unknown_rejection] else [] in
  (ap_planned p = state_actions state input /\ ap_rejected p = [] ++ unknown) \/
  exists code,
    ap_planned p = filter (fun a => pa_mutating a = false) (state_actions state input) /\
    ap_rejected p =
      map (reject_mutation code) (filter (fun a => pa_mutating a = true) (state_actions state input))
      ++ unknown.
Proof.
  assert (forall (r : list RejectedAction),
    (if 0 <? in_unknown_processes input then r ++ [unknown_rejection] else r) =
    r ++ (if 0 <? in_unknown_processes input then [unknown_rejection] else [])) as Hu.
  { intros r. destruct (0 <? _); [done | by rewrite app_nil_r]. }
  cbv zeta. unfold plan_actions. rewrite !reject_mutations_eq.
  destruct state; cbn [ap_planned ap_rejected]; try (left; split; [done | apply Hu]);
  repeat (case_match; cbn [ap_planned ap_rejected]); simplify_eq;
    first [ left; split; [done | apply Hu] | right; eexists; split; [reflexivity | apply Hu] ].
Qed.

(** ** Monotonicity of the observed state *)

(** [b] shows at least the pressure that [a] shows. *)
Definition signal_le (a b : option f64) : Prop :=
  match a with
  | None => True
  | Some v => exists w, b = Some w /\ f64_le v w = true
  end.

Lemma reaches_mono a b t : signal_le a b -> reaches a t = true -> reaches b t = true.
Proof.
  unfold reaches, f64_ge. destruct a as [v|]; simpl; [| done].
  intros (w & -> & Hw). simpl. intros E. by apply (f64_le_trans _ _ _ E).
Qed.

Lemma count_true_mono l1 l2 : Forall2 (fun a b => a = true -> b = true) l1 l2 -> count_true l1 <= count_true l2.
Proof.
  unfold count_true. induction 1 as [|a b l1 l2 Hab Hl IH]; [done |].
  rewrite !filter_cons. destruct a, b; simpl in *; lia.
Qed.

Lemma observed_levels input config :
  let below p := f64_le (in_available_percent input) (f64_of_Z p) in
  let c := count_true (corroborating_signals input config) in
  level (observed input config) =
  if below (pressure_emergency_available_percent config)
     && (reaches (in_psi_memory_full_avg10 input)
           (pressure_emergency_psi_full_avg10_threshold config) || (2 <=? c)) then 4
  else if below (pressure_critical_available_percent config) && (2 <=? c) then 3
  else if below (pressure_pressure_available_percent config) && (1 <=? c) then 2
  else if below (pressure_watch_available_percent config) || (1 <=? c) then 1
  else 0.
Proof.
  cbv zeta. unfold observed, target_state. cbn [fst].
  destruct (_ && (_ || _)); [done |]. destruct (_ && _); [done |].
  destruct (_ && _); [done |]. by destruct (_ || _).
Qed.

(** ** Rates *)
Lemma elapsed_seconds_some previous current :
  is_some (elapsed_seconds previous current) = true <->
  cs_timestamp_ns previous < cs_timestamp_ns current /\
  cs_timestamp_ns current - cs_timestamp_ns previous <= i64_max.
Proof.
  unfold elapsed_seconds, i64_checked_sub.
  destruct ((i64_min <=? _) && _) eqn:E; simpl.
  - bools. destruct (Z.ltb_spec 0 (cs_timestamp_ns current - cs_timestamp_ns previous)); simpl.
    + split; [lia | done].
    + split; [done | lia].
  - split; [done |]. intros [H1 H2]. apply andb_false_iff in E.
    unfold_int. destruct E; bools; lia.
Qed.

Lemma rate_some_iff previous current seconds :
  is_some (rate previous current seconds) = true <->
  exists a b, previous = Some a /\ current = Some b /\ a <= b /\ is_some seconds = true.
Proof.
  unfold rate. destruct previous as [a|]; simpl; [| naive_solver].
  destruct current as [b|]; simpl; [| naive_solver].
  destruct seconds as [s|]; simpl; [| naive_solver].
  unfold u64_checked_sub. destruct (Z.leb_spec a b); simpl; split; try done; naive_solver lia.
Qed.

(** ** A quiet system, as concrete input *)
Definition calm (ts : Z) : PolicyInput :=
  {| in_timestamp_ns := ts; in_ram_total_bytes := 2 ^ 34; in_mem_available_bytes := 2 ^ 33;
     in_available_percent := f64_of_Z 50; in_swap_total_bytes := Some 0;
     in_swap_used_bytes := Some 0; in_swap_in_per_second := Some f64_zero;
     in_swap_out_per_second := Some f64_zero; in_major_faults_per_second := Some f64_zero;
     in_pgscan_per_second := None; in_pgsteal_per_second := None;
     in_psi_memory_some_avg10 := Some f64_zero; in_psi_memory_full_avg10 := Some f64_zero;
     in_workload_class := Some Desktop; in_workload_confidence := Some f64_one;
     in_gaming := false; in_critical_processes := 3; in_protected_processes := 5;
     in_unknown_processes := 0; in_foreground := FgUnknown; in_cgroup_capabilities := None;
     in_actuator_available := false; in_recent_safety_events := 0; in_recent_decisions := 0 |}.

End Facts.

Module Theorems.
Import Facts.

(** C2: hysteresis. After any history of evaluations, a decision that changes
    the state changes it to another state, and either the input is an immediate
    emergency (available memory and full PSI both past the emergency thresholds)
    or the last accepted inputs, the present one included, all supported the new
    state, without interruption, for at least the configured hold time. *)
Theorem state_change_needs_sustained_evidence (config : PressureConfig) (start_ns : Z)
    (history : list (PolicyInput * bool)) (input : PolicyInput) (observe : bool)
    (e e' : PolicyEngine) (accepted : list PolicyInput) (d : PolicyDecision) :
  0 <= pressure_state_hold_seconds config -> 0 <= pressure_recovery_hold_seconds config ->
  run config start_ns history = (e, accepted) ->
  evaluate input observe e = (e', Ok d) -> pd_state_changed d = true ->
  let cur := ps_current (pe_state e) in
  let new := pd_current_state d in
  pd_previous_state d = Some cur /\ new <> cur /\ ps_current (pe_state e') = new /\
  (immediate_emergency new input config = true \/
   exists pre first held,
     accepted ++ [input] = pre ++ first :: held /\
     Forall (supports config cur new) (first :: held) /\
     seconds_ns (hold_seconds_for cur new config)
       <= in_timestamp_ns input - in_timestamp_ns first).
Proof.
  intros Hh1 Hh2 Hrun Hev Hch.
  pose proof (run_inv config start_ns history) as [_ Hheld].
  pose proof (run_config config start_ns history) as Hc. rewrite Hrun in Hheld, Hc. simpl in *.
  apply evaluate_inv in Hev as [(? & [=] & _) | (_ & _ & _ & Hst & [= ->])].
  rewrite Hst. rewrite Hc in *.
  destruct (transition_specP (pe_state e) input config) as [| | new since reason Hs Hd Hsince Hm];
    try done.
  simpl. repeat split; try done. destruct Hm as [Hm | Hm]; [by left | right].
  destruct (held_since_extend _ _ _ _ _ _ Hheld Hs Hsince) as (pre & first & held & Hacc & -> & Hall).
  exists pre, first, held. repeat split; try done.
  apply i64_sat_sub_lower; [| done]. apply seconds_ns_nonneg. unfold hold_seconds_for.
  by destruct (is_recovery _ _).
Qed.

(** the pressure state machine moves along [edge] only: pressure is left
    for a higher pressure state or for [Stabilizing], never straight for
    [Watch] or [Normal], and [Stabilizing] is left for [Normal] or for pressure. *)
Theorem state_changes_follow_edges (input : PolicyInput) (observe : bool) (e e' : PolicyEngine)
    (d : PolicyDecision) :
  evaluate input observe e = (e', Ok d) ->
  if pd_state_changed d
  then edge (ps_current (pe_state e)) (ps_current (pe_state e'))
  else ps_current (pe_state e') = ps_current (pe_state e).
Proof.
  intros [(? & [=] & _) | (_ & _ & _ & Hst & [= ->])]%evaluate_inv. rewrite Hst.
  destruct (transition_specP (pe_state e) input (pe_config e)) as [| | new since reason [_ Hs] Hd];
    simpl; try done.
  subst new. apply recovery_target_edge; [apply observed_not_stabilizing | done].
Qed.

(** C33: on any history of evaluations that starts under pressure and ends in
    [Normal] or [Watch], the engine was in [Stabilizing] in between. *)
Theorem recovery_passes_through_stabilizing (history : list (PolicyInput * bool))
    (e : PolicyEngine) :
  pressured (ps_current (pe_state e)) = true ->
  ps_current (pe_state (evaluate_all history e)) = Normal \/
  ps_current (pe_state (evaluate_all history e)) = Watch ->
  exists pre, pre `prefix_of` history /\
    ps_current (pe_state (evaluate_all pre e)) = Stabilizing.
Proof.
  revert e. induction history as [|[i o] history IH]; intros e Hp Hend.
  { simpl in Hend. by destruct Hend as [Hend | Hend]; rewrite Hend in Hp. }
  simpl in Hend. destruct (evaluate i o e) as [e1 r] eqn:E. simpl in Hend.
  destruct (decide (ps_current (pe_state e1) = Stabilizing)) as [Hs | Hs].
  { exists [(i, o)]. split; [by exists history |]. simpl. by rewrite E. }
  destruct (IH e1) as (pre & Hpre & Hst); [| done |].
  - apply evaluate_edge in E as [-> | E]; [done |].
    destruct (ps_current (pe_state e)), (ps_current (pe_state e1)); simpl in *;
      try done; intuition discriminate.
  - exists ((i, o) :: pre). split; [by apply prefix_cons |]. simpl. by rewrite E.
Qed.

(** C36: liveness. When every input of a sequence of evaluations is valid and
    supports the state [d], and the sequence spans the hold time, the engine is in
    [d] after some prefix of it. *)
Theorem sustained_evidence_is_adopted (e : PolicyEngine) (d : PressureState)
    (first last : PolicyInput * bool) (between : list (PolicyInput * bool)) :
  let config := pe_config e in
  let cur := ps_current (pe_state e) in
  let history := first :: between ++ [last] in
  d <> cur -> ps_candidate (pe_state e) <> Some d ->
  Forall (fun i => validate_input (fst i) = Ok tt /\
                   ps_entered_at_ns (pe_state e) <= in_timestamp_ns (fst i) <= i64_max /\
                   supports config cur d (fst i)) history ->
  seconds_ns (hold_seconds_for cur d config)
    <= in_timestamp_ns (fst last) - in_timestamp_ns (fst first) ->
  exists pre, pre `prefix_of` history /\ ps_current (pe_state (evaluate_all pre e)) = d.
Proof.
  simpl. intros Hd Hc [(Hv & Ht & Hs) Hall]%Forall_cons_iff Hspan.
  destruct (evaluate_supporting e (fst first) (snd first) d) as [Hnow | (Hcur & Hent & Hcand & Hcfg)];
    try done; [lia | |].
  { exists [first]. split; [by exists (between ++ [last]) |]. done. }
  rewrite bool_decide_eq_false_2 in Hcand by done.
  destruct (candidate_is_adopted between (fst (evaluate (fst first) (snd first) e)) d last
              (in_timestamp_ns (fst first))) as (pre & Hpre & Hres);
    rewrite ?Hcur, ?Hent, ?Hcfg; try done.
  - apply Hcand.
  - apply Hcand.
  - exists (first :: pre). split; [by apply prefix_cons | done].
Qed.

(** in every state that a run of [evaluate] from a new engine reaches, the
    candidate and its start time come together, the candidate differs from the
    current state and was first seen no earlier than the current state was
    entered, and the previous state differs from the current one. *)
Theorem reachable_states_well_formed (config : PressureConfig) (start_ns : Z)
    (history : list (PolicyInput * bool)) :
  let s := pe_state (fst (run config start_ns history)) in
  ps_previous s <> Some (ps_current s) /\
  match ps_candidate s, ps_candidate_since_ns s with
  | None, None => True
  | Some d, Some since => d <> ps_current s /\ ps_entered_at_ns s <= since
  | _, _ => False
  end /\
  (forall t, ps_last_transition_ns s = Some t -> t = ps_entered_at_ns s).
Proof.
  destruct (run_inv config start_ns history) as [(H1 & H2 & _ & H4) _].
  simpl. repeat split; try done. intros t Ht. rewrite Ht in H4. by apply Z.eqb_eq in H4.
Qed.

(** [evaluate] rejects exactly the inputs that are invalid or older than
    the current state, and a rejected input leaves the engine as it was. *)
Theorem evaluate_rejects_iff (input : PolicyInput) (observe : bool) (e : PolicyEngine) :
  (is_ok (snd (evaluate input observe e)) = true <->
   validate_input input = Ok tt /\ ps_entered_at_ns (pe_state e) <= in_timestamp_ns input) /\
  (is_ok (snd (evaluate input observe e)) = false -> fst (evaluate input observe e) = e).
Proof.
  destruct (evaluate input observe e) as [e' r] eqn:E.
  apply evaluate_inv in E as [(err & -> & -> & [Hv | [_ Ht]]) | (Hv & Ht & _ & _ & ->)]; simpl.
  - rewrite Hv. naive_solver.
  - split; [| done]. split; [done | lia].
  - done.
Qed.

(** the input that [validate] accepts: a non-negative time, a total that is
    not zero and bounds the available memory, used swap within total swap, a
    percentage in range, rates that are finite and not negative, PSI averages
    within 0 and 100 and a confidence within 0 and 1. *)
Theorem validate_input_ok (i : PolicyInput) :
  validate_input i = Ok tt <->
  0 <= in_timestamp_ns i /\ in_ram_total_bytes i <> 0 /\
  in_mem_available_bytes i <= in_ram_total_bytes i /\
  in_unit_range (f64_of_Z 100) (in_available_percent i) /\
  (forall total used, in_swap_total_bytes i = Some total -> in_swap_used_bytes i = Some used ->
     used <= total) /\
  (forall field v, (field, Some v) ∈ rate_fields i ->
     f64_is_finite v = true /\ f64_lt v f64_zero = false) /\
  (forall v, in_psi_memory_some_avg10 i = Some v -> in_unit_range (f64_of_Z 100) v) /\
  (forall v, in_psi_memory_full_avg10 i = Some v -> in_unit_range (f64_of_Z 100) v) /\
  (forall v, in_workload_confidence i = Some v -> in_unit_range f64_one v).
Proof.
  unfold validate_input. rewrite !seq_ok_policy, !check_all_ok, finite_range_ok.
  unfold bounded_fields. rewrite !Forall_cons_iff, !check_bounded_ok. simpl.
  rewrite Forall_forall. setoid_rewrite check_rate_ok.
  destruct (Z.ltb_spec (in_timestamp_ns i) 0), (Z.eqb_spec (in_ram_total_bytes i) 0),
    (Z.ltb_spec (in_ram_total_bytes i) (in_mem_available_bytes i));
    try (split; [intros (? & ? & ? & _); discriminate | intros; exfalso; lia]).
  assert (forall x, In x (rate_fields i) <-> x ∈ rate_fields i) as Hin
    by (intros; symmetry; apply list_elem_of_In).
  setoid_rewrite Hin.
  split.
  - intros (_ & _ & _ & H3 & H4 & H5 & H6 & H7 & H8 & _).
    split; [done |]. split; [done |]. split; [done |]. split; [done |].
    split; [| split; [intros field v Hf; by apply (H5 _ Hf) | by split]].
    intros total used Ht Hu. rewrite Ht, Hu in H4.
    destruct (Z.ltb_spec total used); [done | lia].
  - intros (_ & _ & _ & H3 & H4 & H5 & H6 & H7 & H8).
    split; [done |]. split; [done |]. split; [done |]. split; [done |].
    split; [| split; [| by split]].
    + destruct (in_swap_total_bytes i) as [total|], (in_swap_used_bytes i) as [used|]; try done.
      destruct (Z.ltb_spec total used); [| done]. specialize (H4 _ _ eq_refl eq_refl). lia.
    + intros [field w] Hf v Hv. simpl in Hv. subst w. by apply (H5 field).
Qed.


(** an action that mutates the system is planned exactly when the planner is
    not observing, no safety event is recent, and either the state is
    [Stabilizing] (a rollback) or it is a pressure state, the cgroup capabilities
    are complete and the actuator is available. *)
Theorem plan_actions_mutation_gate (state : PressureState) (input : PolicyInput) (observe : bool) :
  0 <= in_recent_safety_events input ->
  existsb pa_mutating (ap_planned (plan_actions state input observe)) = true <->
  observe = false /\ in_recent_safety_events input = 0 /\
  (state = Stabilizing \/
   pressured state = true /\ in_actuator_available input = true /\
   is_some_and (in_cgroup_capabilities input) mutation_ready = true).
Proof.
  intros Hs. unfold plan_actions.
  destruct (is_some_and _ mutation_ready), observe, (in_actuator_available input),
    (Z.ltb_spec 0 (in_recent_safety_events input)), state; simpl;
    (split; [intros Hb; try discriminate Hb | intros (? & ? & [? | (? & ? & ?)])]);
    try discriminate; try lia; try done; repeat split; try lia; auto.
Qed.

(** no action is lost: every action of the state is planned or, when its
    mutation is refused, rejected with a reason; actions that do not mutate are
    never refused. *)
Theorem plan_actions_accounts_for_all (state : PressureState) (input : PolicyInput)
    (observe : bool) :
  let p := plan_actions state input observe in
  (forall a, a ∈ state_actions state input ->
     a ∈ ap_planned p \/
     pa_mutating a = true /\ exists code, reject_mutation code a ∈ ap_rejected p) /\
  (forall a, a ∈ ap_planned p -> a ∈ state_actions state input) /\
  (0 < in_unknown_processes input ->
   exists r, r ∈ ap_rejected p /\ ra_reason_code r = "unknown_do_not_touch"%string).
Proof.
  destruct (plan_actions_cases state input observe) as [[Hp Hr] | (code & Hp & Hr)];
    simpl; rewrite Hp, Hr.
  - split; [auto |]. split; [done |]. intros Hu. apply Z.ltb_lt in Hu. rewrite Hu.
    eexists. split; [apply elem_of_app; right; apply list_elem_of_singleton; reflexivity | done].
  - split; [| split].
    + intros a Ha. destruct (pa_mutating a) eqn:E; [right | left].
      * split; [done |]. exists code. apply elem_of_app. left. apply list_elem_of_fmap.
        exists a. split; [done |]. by apply list_elem_of_filter.
      * by apply list_elem_of_filter.
    + intros a Ha. by apply list_elem_of_filter in Ha as [_ Ha].
    + intros Hu. apply Z.ltb_lt in Hu. rewrite Hu.
      eexists. split; [apply elem_of_app; right; apply list_elem_of_singleton; reflexivity | done].
Qed.

(** less available memory and stronger signals never lower the observed
    pressure level. *)
Theorem observed_monotone (i1 i2 : PolicyInput) (config : PressureConfig) :
  f64_le (in_available_percent i2) (in_available_percent i1) = true ->
  signal_le (in_psi_memory_some_avg10 i1) (in_psi_memory_some_avg10 i2) ->
  signal_le (in_psi_memory_full_avg10 i1) (in_psi_memory_full_avg10 i2) ->
  signal_le (in_major_faults_per_second i1) (in_major_faults_per_second i2) ->
  signal_le (in_swap_in_per_second i1) (in_swap_in_per_second i2) ->
  signal_le (in_swap_out_per_second i1) (in_swap_out_per_second i2) ->
  level (observed i1 config) <= level (observed i2 config).
Proof.
  intros Ha H1 H2 H3 H4 H5.
  assert (count_true (corroborating_signals i1 config)
          <= count_true (corroborating_signals i2 config)) as Hcount.
  { apply count_true_mono. unfold corroborating_signals.
    repeat (constructor; [by apply reaches_mono |]). constructor. }
  assert (forall p, f64_le (in_available_percent i1) (f64_of_Z p) = true ->
                    f64_le (in_available_percent i2) (f64_of_Z p) = true) as Hbelow
    by (intros p Hp; by eapply f64_le_trans).
  pose proof (reaches_mono _ _ (pressure_emergency_psi_full_avg10_threshold config) H2) as Hfull.
  rewrite !observed_levels. generalize dependent (count_true (corroborating_signals i1 config)).
  generalize (count_true (corroborating_signals i2 config)). intros c2 c1 Hc.
  pose proof (Hbelow (pressure_emergency_available_percent config)).
  pose proof (Hbelow (pressure_critical_available_percent config)).
  pose proof (Hbelow (pressure_pressure_available_percent config)).
  pose proof (Hbelow (pressure_watch_available_percent config)).
  destruct (f64_le (in_available_percent i1) (f64_of_Z (pressure_emergency_available_percent config))),
    (f64_le (in_available_percent i1) (f64_of_Z (pressure_critical_available_percent config))),
    (f64_le (in_available_percent i1) (f64_of_Z (pressure_pressure_available_percent config))),
    (f64_le (in_available_percent i1) (f64_of_Z (pressure_watch_available_percent config))),
    (reaches (in_psi_memory_full_avg10 i1) _);
  repeat match goal with H : true = true -> _ |- _ => rewrite (H eq_refl); clear H end;
  destruct (Z.leb_spec 2 c1), (Z.leb_spec 1 c1), (Z.leb_spec 2 c2), (Z.leb_spec 1 c2); try lia;
  simpl; repeat case_match; simpl in *; try lia; try discriminate.
Qed.

(** [RateTracker::update] reports a rate exactly when a previous sample
    exists, both counters were read, the counter did not go back and time moved
    forward; and it always remembers the present sample. *)
Theorem rate_available_iff (tracker : RateTracker) (current : CounterSample) :
  i64 (cs_timestamp_ns current) ->
  rt_previous (fst (rate_update tracker current)) = Some current /\
  Forall (fun '(counter, reported) =>
    is_some (reported (snd (rate_update tracker current))) = true <->
    exists previous a b,
      rt_previous tracker = Some previous /\
      counter previous = Some a /\ counter current = Some b /\ a <= b /\
      cs_timestamp_ns previous < cs_timestamp_ns current /\
      cs_timestamp_ns current - cs_timestamp_ns previous <= i64_max)
   [(cs_swap_in, rf_swap_in_per_second); (cs_swap_out, rf_swap_out_per_second);
    (cs_major_faults, rf_major_faults_per_second); (cs_pgscan, rf_pgscan_per_second);
    (cs_pgsteal, rf_pgsteal_per_second)].
Proof.
  intros Ht. split; [done |].
  unfold rate_update. destruct (rt_previous tracker) as [previous|]; simpl;
    repeat match goal with |- Forall _ _ => constructor end.
  1-5: cbn [rf_swap_in_per_second rf_swap_out_per_second rf_major_faults_per_second
            rf_pgscan_per_second rf_pgsteal_per_second];
    rewrite rate_some_iff; setoid_rewrite elapsed_seconds_some;
    (split; [naive_solver | intros (p & a & b & [= <-] & H); naive_solver]).
  all: split; [done | intros (p & a & b & [=] & _)].
Qed.

(** the error [TimeRegression] guards the time the current state was
    entered, not the time of the previous evaluation: an engine can accept an
    input that is older than the one it accepted just before. *)
Theorem older_input_accepted :
  exists (e : PolicyEngine) (i1 i2 : PolicyInput),
    in_timestamp_ns i2 < in_timestamp_ns i1 /\
    is_ok (snd (evaluate i1 true e)) = true /\
    is_ok (snd (evaluate i2 true (fst (evaluate i1 true e)))) = true.
Proof.
  exists (engine_new (pressure default_config) 0), (calm 100), (calm 50).
  repeat split; vm_compute; reflexivity.
Qed.

End Theorems.

(** ** Concrete inputs *)
Module Witnesses.
Import Facts Theorems.

Definition engine : PolicyEngine := engine_new (pressure default_config) 0.
Definition minute : Z := 60000000000.
Definition history : list (PolicyInput * bool) := [(calm minute, true)].
Definition last_decision : PolicyDecision :=
  decision_of (transition (pe_state (fst (run (pressure default_config) 0 history)))
                 (calm (2 * minute)) (pressure default_config)) (calm (2 * minute)) true.

(** under pressure since time 0 *)
Definition pressed : PolicyEngine :=
  from_state (pressure default_config)
    {| ps_current := Pressure; ps_previous := Some Watch; ps_entered_at_ns := 0;
       ps_candidate := None; ps_candidate_since_ns := None; ps_last_transition_ns := Some 0;
       ps_transition_reason := "candidate_hold_completed" |}.
Definition recovery : list (PolicyInput * bool) :=
  map (fun k => (calm (k * 10 * minute), true)) [1; 2; 3; 4].

Definition sample (ts faults : Z) : CounterSample :=
  {| cs_timestamp_ns := ts; cs_swap_in := None; cs_swap_out := None;
     cs_major_faults := Some faults; cs_pgscan := None; cs_pgsteal := None |}.

Lemma state_change_needs_sustained_evidence_witness :
  ps_current (pe_state (fst (evaluate (calm (2 * minute)) true
    (fst (run (pressure default_config) 0 history))))) = pd_current_state last_decision.
Proof.
  apply (state_change_needs_sustained_evidence (pressure default_config) 0 history
           (calm (2 * minute)) true (fst (run (pressure default_config) 0 history))
           (fst (evaluate (calm (2 * minute)) true (fst (run (pressure default_config) 0 history))))
           (snd (run (pressure default_config) 0 history)) last_decision).
  - vm_compute. discriminate.
  - vm_compute. discriminate.
  - vm_compute. reflexivity.
  - vm_compute. reflexivity.
  - vm_compute. reflexivity.
Defined.

Lemma state_changes_follow_edges_witness :
  if pd_state_changed last_decision
  then edge Watch Normal else Normal = Watch.
Proof.
  apply (state_changes_follow_edges (calm (2 * minute)) true
           (fst (run (pressure default_config) 0 history))
           (fst (evaluate (calm (2 * minute)) true
                   (fst (run (pressure default_config) 0 history)))) last_decision).
  vm_compute. reflexivity.
Defined.

Lemma recovery_passes_through_stabilizing_witness :
  exists pre, pre `prefix_of` recovery /\
    ps_current (pe_state (evaluate_all pre pressed)) = Stabilizing.
Proof.
  apply (recovery_passes_through_stabilizing recovery pressed).
  - reflexivity.
  - left. vm_compute. reflexivity.
Defined.

Lemma sustained_evidence_is_adopted_witness :
  exists pre, pre `prefix_of` [(calm minute, true); (calm (2 * minute), true)] /\
    ps_current (pe_state (evaluate_all pre engine)) = Normal.
Proof.
  apply (sustained_evidence_is_adopted engine Normal (calm minute, true)
           (calm (2 * minute), true) []).
  - discriminate.
  - discriminate.
  - repeat constructor; vm_compute; first [reflexivity | discriminate].
  - vm_compute. discriminate.
Defined.

Lemma plan_actions_mutation_gate_witness :
  existsb pa_mutating (ap_planned (plan_actions Stabilizing (calm 0) false)) = true.
Proof.
  apply (plan_actions_mutation_gate Stabilizing (calm 0) false); [discriminate |].
  repeat split. by left.
Defined.

Lemma observed_monotone_witness :
  level (observed (calm 0) (pressure default_config))
    <= level (observed (calm 1) (pressure default_config)).
Proof.
  apply (observed_monotone (calm 0) (calm 1) (pressure default_config));
    first [ vm_compute; reflexivity
          | exists f64_zero; split; vm_compute; reflexivity ].
Defined.

Lemma rate_available_iff_witness :
  rt_previous (fst (rate_update {| rt_previous := Some (sample 0 5) |} (sample 1 9)))
    = Some (sample 1 9).
Proof.
  apply (rate_available_iff {| rt_previous := Some (sample 0 5) |} (sample 1 9)).
  vm_compute. split; discriminate.
Defined.

End Witnesses.
