(* ===== verification/Damon.v ===== *)
(** crates/damon: capability probes, monitoring attributes, the parsers of the
    [damon_aggregated] tracepoint and of smaps, aggregation windows, the analysis
    of the hot, warm and cold zones, initial regions and the selection of a
    diagnostic size.

    The files under /sys and /proc are a [Files] record: what [std::fs] answers at
    the time of the probe. The export of a dataset to a file is in [DamonExport]. *)

From S2P Require Import Prelude F64 Text Config.

Definition LABEL_RULE_VERSION : string := "damon-labels-v1".
Definition DATASET_SCHEMA_VERSION : string := "nemor-damon-dataset-v1".
Definition MAX_DIAGNOSTIC_ZONE_BYTES : Z := 160 * 1024 * 1024.
Definition DIAGNOSTIC_ZONE_SIZES : list Z :=
  [8 * 1024 * 1024; 32 * 1024 * 1024; 64 * 1024 * 1024; 128 * 1024 * 1024;
   MAX_DIAGNOSTIC_ZONE_BYTES].

Inductive HypothesisStatus :=
| NotTested | Plausible | InconclusiveDueToThpBacking | SupportedByBasePageComparison
| NotSupported.

Inductive PageBackingProfile := ThpReference | BasePageNoHuge.
#[export] Instance PageBackingProfile_eq_dec : EqDecision PageBackingProfile.
Proof. solve_decision. Defined.

(** [DamonError::Invalid]; [Io] and [Json] come from the export only. *)
Inductive DamonError := Invalid (message : string).

(** ** Address ranges and regions *)

Record AddressRange := { ar_start : Z; ar_end : Z }.
#[export] Instance AddressRange_eq_dec : EqDecision AddressRange.
Proof. solve_decision. Defined.

Definition overlap (self other : AddressRange) : Z :=
  u64_sat_sub (Z.min (ar_end self) (ar_end other)) (Z.max (ar_start self) (ar_start other)).

Record TraceRegion := {
  tg_target_id : Z;
  tg_nr_regions : Z;
  tg_start : Z;
  tg_end : Z;
  tg_nr_accesses : Z;
  tg_age : Z
}.

Definition region_range (region : TraceRegion) : AddressRange :=
  {| ar_start := tg_start region; ar_end := tg_end region |}.

Record InitialRegionPlan := { irp_ranges : list AddressRange }.

(** the loop of [InitialRegionPlan::new], [previous] being the region before *)
Fixpoint check_regions (mapped : list AddressRange) (previous : option AddressRange)
    (ranges : list AddressRange) : result unit DamonError :=
  match ranges with
  | [] => Ok tt
  | range :: rest =>
      reject (ar_end range <=? ar_start range) (Invalid "initial region is empty") ;?
      reject (is_some_and previous (fun p => ar_start range <? ar_end p))
        (Invalid "initial regions must not overlap") ;?
      reject (negb (existsb (fun mapping => (ar_start mapping <=? ar_start range)
                                            && (ar_end range <=? ar_end mapping)) mapped))
        (Invalid "initial region is outside target mappings") ;?
      check_regions mapped (Some range) rest
  end.

Definition initial_region_plan (ranges mapped_ranges : list AddressRange) :
    result InitialRegionPlan DamonError :=
  reject (negb (Z.of_nat (length ranges) =? 3))
    (Invalid "validation requires exactly three initial regions") ;?
  let ranges := sort_by (fun a b => ar_start a <=? ar_start b) ranges in
  check_regions mapped_ranges None ranges ;?
  Ok {| irp_ranges := ranges |}.

Definition matches_readback (self : InitialRegionPlan) (readback : list AddressRange) : bool :=
  bool_decide (irp_ranges self = readback).

Definition requested_bytes (self : InitialRegionPlan) : Z :=
  foldl (fun sum range => u64_sat_add sum (u64_wrap (ar_end range - ar_start range))) 0
    (irp_ranges self).

(** ** Monitoring attributes *)

Record MonitoringAttrs := {
  ma_operation : string;
  ma_sample_us : Z;
  ma_aggr_us : Z;
  ma_update_us : Z;
  ma_min_regions : Z;
  ma_max_regions : Z;
  ma_addr_unit : option Z
}.

Definition validate_attrs (self : MonitoringAttrs) : result unit DamonError :=
  reject (negb (String.eqb (ma_operation self) "vaddr"))
    (Invalid "Phase 7 owned sessions require vaddr") ;?
  reject ((ma_sample_us self <? 100) || (ma_aggr_us self <? ma_sample_us self)
          || (ma_update_us self <? ma_aggr_us self))
    (Invalid "intervals must satisfy 100 <= sample <= aggregation <= update") ;?
  reject ((ma_min_regions self =? 0) || (ma_max_regions self <? ma_min_regions self)
          || (100000 <? ma_max_regions self))
    (Invalid "region bounds are invalid").

(** A division by zero panics; validated attributes exclude it. *)
Definition expected_samples (self : MonitoringAttrs) : option Z :=
  if ma_sample_us self =? 0 then None else Some (ma_aggr_us self / ma_sample_us self).

(** ** Probe evidence *)

Record ZoneBacking := {
  zb_start : Z;
  zb_end : Z;
  zb_range_size_bytes : Z;
  zb_size_kib : Z;
  zb_containing_vma_size_kib : Z;
  zb_rss_kib : Z;
  zb_pss_kib : Z;
  zb_swap_kib : Z;
  zb_kernel_page_size_kib : option Z;
  zb_mmu_page_size_kib : option Z;
  zb_anon_huge_pages_kib : Z;
  zb_thp_eligible : option bool;
  zb_vm_flags : list string;
  zb_backing : string;
  zb_containing_vma_start : option Z;
  zb_containing_vma_end : option Z;
  zb_shared_vma : bool;
  zb_shared_vma_group : option string;
  zb_explicit_nohugepage_requested : bool;
  zb_explicit_nohugepage_verified : bool
}.

Record ProbeEvidence := {
  pr_session_id : string;
  pr_source : string;
  pr_backing_profile : PageBackingProfile;
  pr_zone_size_bytes : Z;
  pr_windows : Z;
  pr_hot_nonzero_windows : Z;
  pr_hot_zero_windows : Z;
  pr_warm_nonzero_windows : Z;
  pr_cold_nonzero_windows : Z;
  pr_hot_ratio_mean : f64;
  pr_hot_ratio_p25 : f64;
  pr_hot_ratio_p50 : f64;
  pr_hot_ratio_p75 : f64;
  pr_hot_ratio_p95 : f64;
  pr_hot_raw_accesses_per_window : list Z;
  pr_warm_ratio_mean : f64;
  pr_warm_ratio_p25 : f64;
  pr_warm_ratio_p50 : f64;
  pr_warm_ratio_p75 : f64;
  pr_warm_ratio_p95 : f64;
  pr_warm_raw_accesses_per_window : list Z;
  pr_cold_ratio_mean : f64;
  pr_cold_ratio_p25 : f64;
  pr_cold_ratio_p50 : f64;
  pr_cold_ratio_p75 : f64;
  pr_cold_ratio_p95 : f64;
  pr_cold_raw_accesses_per_window : list Z;
  pr_outside_requested_ratio : f64;
  pr_kdamond_cpu_percent : f64;
  pr_capture_cpu_percent : f64;
  pr_backing_page_size_kib : option Z;
  pr_anon_huge_pages_kib : Z;
  pr_thp_eligible : option bool;
  pr_target_isolated : bool;
  pr_workload_active : bool;
  pr_capture_integrity : bool;
  pr_overhead_within_budget : bool;
  pr_base_page_backing_verified : bool;
  pr_zone_backing : gmap string ZoneBacking
}.

Definition stable_enough (self : ProbeEvidence) : bool :=
  String.eqb (pr_source self) "current_probe"
  && (8 <=? pr_windows self)
  && (pr_hot_nonzero_windows self =? pr_windows self)
  && (pr_cold_nonzero_windows self =? 0)
  && f64_gt (pr_hot_ratio_mean self) (pr_cold_ratio_mean self)
  && f64_gt (pr_hot_ratio_p50 self) (pr_cold_ratio_p50 self)
  && pr_target_isolated self
  && pr_workload_active self
  && pr_capture_integrity self
  && pr_overhead_within_budget self.

Definition zone_is_base_page (zone : ZoneBacking) : bool :=
  bool_decide (zb_kernel_page_size_kib zone = Some 4)
  && bool_decide (zb_mmu_page_size_kib zone = Some 4)
  && (zb_anon_huge_pages_kib zone =? 0)
  && zb_explicit_nohugepage_requested zone
  && zb_explicit_nohugepage_verified zone
  && (bool_decide (zb_thp_eligible zone = Some false) || contains_str (zb_vm_flags zone) "nh").

Definition verify_base_page_backing (backing : gmap string ZoneBacking) : bool :=
  forallb (fun name => is_some_and (backing !! name) zone_is_base_page)
    ["hot"; "warm"; "cold"]%string.

Definition select_base_page_probe (attempts : list ProbeEvidence) : option (Z * string) :=
  attempt ← find_first (fun attempt =>
      bool_decide (pr_backing_profile attempt = BasePageNoHuge)
      && pr_base_page_backing_verified attempt && stable_enough attempt) attempts;
  Some (pr_zone_size_bytes attempt,
        ("first robust base-page size: " ++ show_uint (pr_hot_nonzero_windows attempt) ++ "/"
         ++ show_uint (pr_windows attempt) ++ " HOT nonzero windows")%string).

(** [nonzero as f64 / windows.max(1) as f64] *)
Definition nonzero_fraction (p : ProbeEvidence) : f64 :=
  f64_div (f64_of_Z (pr_hot_nonzero_windows p)) (f64_of_Z (Z.max (pr_windows p) 1)).

Definition compare_page_backing (thp base : ProbeEvidence) : HypothesisStatus :=
  if negb (pr_zone_size_bytes thp =? pr_zone_size_bytes base)
     || negb (bool_decide (pr_backing_profile base = BasePageNoHuge))
     || negb (pr_base_page_backing_verified base)
  then NotTested
  else
    let improved :=
      (pr_hot_zero_windows base <? pr_hot_zero_windows thp)
      && f64_gt (nonzero_fraction base) (nonzero_fraction thp) in
    if improved && stable_enough base then SupportedByBasePageComparison
    else if improved then Plausible
    else NotSupported.

Definition bounded_size_ladder (mem_available_bytes headroom_bytes : Z) : list Z :=
  filter (fun size => u64_sat_add (u64_sat_mul size 3) headroom_bytes <= mem_available_bytes)
    DIAGNOSTIC_ZONE_SIZES.

Definition select_probe_size (attempts : list ProbeEvidence) : option (Z * string) :=
  attempt ← find_first stable_enough attempts;
  Some (pr_zone_size_bytes attempt,
        ("first stable ladder size: " ++ show_uint (pr_hot_nonzero_windows attempt) ++ "/"
         ++ show_uint (pr_windows attempt) ++ " HOT nonzero windows and HOT mean "
         ++ show_f64_fixed 6 (pr_hot_ratio_mean attempt) ++ " > COLD "
         ++ show_f64_fixed 6 (pr_cold_ratio_mean attempt))%string).

(** [attempts.windows(2)] *)
Fixpoint any_pair {A} (p : A -> A -> bool) (l : list A) : bool :=
  match l with
  | x :: l' => match l' with
               | y :: _ => p x y || any_pair p l'
               | [] => false
               end
  | [] => false
  end.

Definition size_scaling_supports_tlb_hypothesis (attempts : list ProbeEvidence) : bool :=
  any_pair (fun left right =>
      (pr_zone_size_bytes left <? pr_zone_size_bytes right)
      && (pr_hot_zero_windows right <? pr_hot_zero_windows left)
      && f64_gt (nonzero_fraction right) (nonzero_fraction left)) attempts.

(** ** Parsers *)

(** [trim_start_matches("0x")] *)
Fixpoint trim_start_hex (fuel : nat) (s : string) : string :=
  match fuel with
  | O => s
  | S fuel' => match strip_prefix "0x" s with
               | Some r => trim_start_hex fuel' r
               | None => s
               end
  end.

(** the [key=value] tokens, a later one replacing an earlier one *)
Definition trace_values (payload : string) : gmap string string :=
  foldl (fun values token =>
           match split_once "=" (trim_char "," token) with
           | Some (key, value) => <[key := trim_char "," value]> values
           | None => values
           end) ∅ (split_whitespace payload).

Definition find_value (values : gmap string string) (names : list string) : option string :=
  head (omap (fun name => values !! name) names).

Definition trace_number (values : gmap string string) (names : list string) :
    result Z DamonError :=
  let name := unwrap_or (head names) ""%string in
  let? value := ok_or (find_value values names) (Invalid ("missing " ++ name)) in
  ok_or (match strip_prefix "0x" value with
         | Some hex => parse_hex_u64 hex
         | None => parse_u64 value
         end) (Invalid ("invalid " ++ name)).

(** [position(|token| token.ends_with(':') && token.contains('-'))] and the rest *)
Fixpoint split_at_range (tokens : list string) : option (string * list string) :=
  match tokens with
  | [] => None
  | token :: rest =>
      if ends_with ":" token && str_contains_char "-" token then Some (token, rest)
      else split_at_range rest
  end.

Definition parse_address (value : string) : result Z DamonError :=
  ok_or (match parse_u64 value with
         | Some v => Some v
         | None => parse_hex_u64 (trim_start_hex (String.length value) value)
         end) (Invalid "invalid region address").

Definition token_number (tokens : list string) (index : nat) (what : string) : result Z DamonError :=
  let? token := ok_or (nth_error tokens index) (Invalid ("missing " ++ what)) in
  ok_or (parse_u64 token) (Invalid ("invalid " ++ what)).

Definition check_region (region : TraceRegion) : result TraceRegion DamonError :=
  if tg_end region <=? tg_start region then Err (Invalid "region range is empty") else Ok region.

Definition parse_positional_aggregated (payload : string) (values : gmap string string) :
    result TraceRegion DamonError :=
  let? target := ok_or (find_value values ["target_id"; "target_idx"]%string)
                   (Invalid "missing target_id") in
  let? target_id := ok_or (parse_u64 target) (Invalid "invalid target_id") in
  let? nr := ok_or (values !! "nr_regions"%string) (Invalid "missing nr_regions") in
  let? nr_regions := ok_or (parse_u32 nr) (Invalid "invalid nr_regions") in
  let? found := ok_or (split_at_range (split_whitespace payload)) (Invalid "missing region range") in
  let '(token, rest) := found in
  let? pair := ok_or (split_once "-" (trim_end_char ":" token)) (Invalid "invalid region range") in
  let '(first, second) := pair in
  let? start := parse_address first in
  let? stop := parse_address second in
  let? nr_accesses := token_number rest 0 "nr_accesses" in
  let? age := token_number rest 1 "age" in
  check_region {| tg_target_id := target_id; tg_nr_regions := nr_regions; tg_start := start;
                  tg_end := stop; tg_nr_accesses := nr_accesses; tg_age := age |}.

Definition parse_aggregated (line : string) : result TraceRegion DamonError :=
  let payload := match split_once "damon_aggregated:" line with
                 | Some (_, value) => value
                 | None => line
                 end in
  let values := trace_values payload in
  if is_none (values !! "start"%string) then parse_positional_aggregated payload values
  else
    let? target_id := trace_number values ["target_id"; "target_idx"]%string in
    let? nr := trace_number values ["nr_regions"]%string in
    let? nr_regions := ok_or (if nr <=? u32_max then Some nr else None)
                         (Invalid "nr_regions overflow") in
    let? start := trace_number values ["start"]%string in
    let? stop := trace_number values ["end"]%string in
    let? nr_accesses := trace_number values ["nr_accesses"; "accesses"]%string in
    let? age := trace_number values ["age"]%string in
    check_region {| tg_target_id := target_id; tg_nr_regions := nr_regions; tg_start := start;
                    tg_end := stop; tg_nr_accesses := nr_accesses; tg_age := age |}.

(** ** smaps *)

Definition parse_smaps_header (line : string) : option AddressRange :=
  token ← head (split_whitespace line);
  '(first, second) ← split_once "-" token;
  start ← parse_hex_u64 first;
  stop ← parse_hex_u64 second;
  Some {| ar_start := start; ar_end := stop |}.

(** the fields of [ZoneBacking] that the loop over the lines changes *)
Record SmapsState := MkSmaps {
  sm_size : Z;
  sm_rss : Z;
  sm_pss : Z;
  sm_swap : Z;
  sm_kernel_page : option Z;
  sm_mmu_page : option Z;
  sm_anon_huge : Z;
  sm_thp : option bool;
  sm_flags : list string;
  sm_vma : option AddressRange;
  sm_in_vma : bool;
  sm_overlaps : bool
}.

Definition smaps_start : SmapsState :=
  MkSmaps 0 0 0 0 None None 0 None [] None false false.

Definition smaps_field (key value : string) (s : SmapsState) : SmapsState :=
  let '(MkSmaps size rss pss swap kernel mmu huge thp flags vma inside over) := s in
  let words := split_whitespace value in
  let kib := match words with item :: _ => parse_u64 item | [] => None end in
  let add n := u64_sat_add n (unwrap_or kib 0) in
  if String.eqb key "Size" then MkSmaps (add size) rss pss swap kernel mmu huge thp flags vma inside over
  else if String.eqb key "Rss" then MkSmaps size (add rss) pss swap kernel mmu huge thp flags vma inside over
  else if String.eqb key "Pss" then MkSmaps size rss (add pss) swap kernel mmu huge thp flags vma inside over
  else if String.eqb key "Swap" then MkSmaps size rss pss (add swap) kernel mmu huge thp flags vma inside over
  else if String.eqb key "KernelPageSize" then MkSmaps size rss pss swap kib mmu huge thp flags vma inside over
  else if String.eqb key "MMUPageSize" then MkSmaps size rss pss swap kernel kib huge thp flags vma inside over
  else if String.eqb key "AnonHugePages" then MkSmaps size rss pss swap kernel mmu (add huge) thp flags vma inside over
  else if String.eqb key "THPeligible" then
    MkSmaps size rss pss swap kernel mmu huge
      (match words with item :: _ => Some (String.eqb item "1") | [] => None end) flags vma inside over
  else if String.eqb key "VmFlags" then
    MkSmaps size rss pss swap kernel mmu huge thp (flags ++ words) vma inside over
  else s.

Definition smaps_line (zone : AddressRange) (s : SmapsState) (line : string) : SmapsState :=
  match parse_smaps_header line with
  | Some range =>
      let '(MkSmaps size rss pss swap kernel mmu huge thp flags vma _ _) := s in
      let over := 0 <? overlap range zone in
      MkSmaps size rss pss swap kernel mmu huge thp flags
        (if over && is_none vma then Some range else vma) true over
  | None =>
      if negb (sm_overlaps s) || negb (sm_in_vma s) then s
      else let '(key, value) := unwrap_or (split_once ":" line) (line, ""%string) in
           smaps_field key value s
  end.

Definition backing_of (s : SmapsState) : string :=
  if 0 <? sm_anon_huge s then
    if bool_decide (sm_kernel_page s = Some 4) then "mixed_or_thp" else "thp"
  else if bool_decide (sm_kernel_page s = Some 4) && bool_decide (sm_mmu_page s = Some 4)
  then "4k" else "unknown".

Definition parse_smaps_zone (text : string) (zone : AddressRange) : ZoneBacking :=
  let s := foldl (smaps_line zone) smaps_start (lines text) in
  {| zb_start := ar_start zone;
     zb_end := ar_end zone;
     zb_range_size_bytes := u64_sat_sub (ar_end zone) (ar_start zone);
     zb_size_kib := sm_size s;
     zb_containing_vma_size_kib := sm_size s;
     zb_rss_kib := sm_rss s;
     zb_pss_kib := sm_pss s;
     zb_swap_kib := sm_swap s;
     zb_kernel_page_size_kib := sm_kernel_page s;
     zb_mmu_page_size_kib := sm_mmu_page s;
     zb_anon_huge_pages_kib := sm_anon_huge s;
     zb_thp_eligible := sm_thp s;
     zb_vm_flags := sort_dedup (sm_flags s);
     zb_backing := backing_of s;
     zb_containing_vma_start := ar_start <$> sm_vma s;
     zb_containing_vma_end := ar_end <$> sm_vma s;
     zb_shared_vma := false;
     zb_shared_vma_group := None;
     zb_explicit_nohugepage_requested := false;
     zb_explicit_nohugepage_verified := false |}.

(** ** Aggregation windows *)

(** the loop of [group_aggregation_windows] *)
Fixpoint group_loop (regions current : list TraceRegion) (expected : Z)
    (windows : list (list TraceRegion)) : list (list TraceRegion) :=
  match regions with
  | [] => windows
  | region :: rest =>
      let expected := if bool_decide (current = []) then tg_nr_regions region else expected in
      let '(current, expected) :=
        if (expected =? 0) || negb (tg_nr_regions region =? expected)
        then ([], tg_nr_regions region) else (current, expected) in
      let current := current ++ [region] in
      if Z.of_nat (length current) =? expected
      then group_loop rest [] 0 (windows ++ [current])
      else group_loop rest current expected windows
  end.

Definition group_aggregation_windows (regions : list TraceRegion) : list (list TraceRegion) :=
  group_loop regions [] 0 [].

(** ** Zone statistics *)

Definition normalized_ratio (accesses expected : Z) : f64 :=
  if expected =? 0 then f64_zero
  else f64_clamp (f64_div (f64_of_Z accesses) (f64_of_Z expected)) f64_zero f64_one.

Definition percentile (values : list f64) (percentile : Z) : f64 :=
  match values with
  | [] => f64_zero
  | _ => unwrap_or
           (nth_error values (Z.to_nat ((Z.of_nat (length values) - 1) * percentile / 100)))
           f64_zero
  end.

Definition median_u64 (values : list Z) : Z :=
  match values with
  | [] => 0
  | _ => unwrap_or (nth_error (sort_by Z.leb values) (Nat.div (length values - 1) 2)) 0
  end.

Record ZoneStatistics := {
  zs_windows_observed : Z;
  zs_region_samples : Z;
  zs_overlap_sample_bytes : Z;
  zs_snapshot_overlap_bytes_median : Z;
  zs_normalized_ratio_mean : f64;
  zs_normalized_ratio_p25 : f64;
  zs_normalized_ratio_p50 : f64;
  zs_normalized_ratio_p75 : f64;
  zs_normalized_ratio_p95 : f64;
  zs_age_mean : f64;
  zs_confidence : string
}.

Record WindowZoneDiagnostic := {
  wz_window_index : Z;
  wz_region_count : Z;
  wz_observed_bytes : Z;
  wz_target_overlap_bytes : Z;
  wz_outside_requested_bytes : Z;
  wz_hot_overlap_bytes : Z;
  wz_warm_overlap_bytes : Z;
  wz_cold_overlap_bytes : Z;
  wz_hot_normalized_ratio : f64;
  wz_warm_normalized_ratio : f64;
  wz_cold_normalized_ratio : f64;
  wz_hot_raw_accesses : Z;
  wz_warm_raw_accesses : Z;
  wz_cold_raw_accesses : Z;
  wz_hot_overlapping_regions : Z;
  wz_warm_overlapping_regions : Z;
  wz_cold_overlapping_regions : Z;
  wz_expected_samples_per_region : Z
}.

Record SignalEvidence := {
  sg_hot : ZoneStatistics;
  sg_warm : ZoneStatistics;
  sg_cold : ZoneStatistics;
  sg_other_region_samples : Z;
  sg_region_sample_bytes : Z;
  sg_snapshot_observed_bytes_median : Z;
  sg_requested_target_bytes : Z;
  sg_observed_target_bytes_per_snapshot : Z;
  sg_outside_requested_bytes : Z;
  sg_outside_requested_ratio : f64;
  sg_target_isolated : bool;
  sg_window_diagnostics : list WindowZoneDiagnostic;
  sg_hot_cold_margin : f64;
  sg_warm_cold_margin : f64;
  sg_hot_cold_distinguished : bool;
  sg_warm_coherent : bool;
  sg_accepted : bool;
  sg_reasons : list string
}.

Record ZoneAccumulator := {
  za_weighted_ratio : f64;
  za_weighted_age : f64;
  za_quality_weight : f64;
  za_overlap_bytes : Z;
  za_samples : Z;
  za_window_ratios : list f64;
  za_snapshots : list Z
}.

Definition ZoneAccumulator_default : ZoneAccumulator :=
  {| za_weighted_ratio := f64_zero; za_weighted_age := f64_zero; za_quality_weight := f64_zero;
     za_overlap_bytes := 0; za_samples := 0; za_window_ratios := []; za_snapshots := [] |}.

(** [overlap as f64 * overlap as f64 / region_size as f64] *)
Definition quality_weight (overlap region_size : Z) : f64 :=
  f64_div (f64_mul (f64_of_Z overlap) (f64_of_Z overlap)) (f64_of_Z region_size).

Definition zone_push (overlap region_size : Z) (ratio : f64) (age : Z) (self : ZoneAccumulator) :
    ZoneAccumulator :=
  if (overlap =? 0) || (region_size =? 0) then self
  else
    let w := quality_weight overlap region_size in
    {| za_weighted_ratio := f64_add (za_weighted_ratio self) (f64_mul ratio w);
       za_weighted_age := f64_add (za_weighted_age self) (f64_mul (f64_of_Z age) w);
       za_quality_weight := f64_add (za_quality_weight self) w;
       za_overlap_bytes := u64_sat_add (za_overlap_bytes self) overlap;
       za_samples := u64_sat_add (za_samples self) 1;
       za_window_ratios := za_window_ratios self;
       za_snapshots := za_snapshots self |}.

(** [window_ratios.push(..)] and [snapshots.push(..)] *)
Definition zone_end_window (ratio : f64) (snapshot : Z) (self : ZoneAccumulator) : ZoneAccumulator :=
  {| za_weighted_ratio := za_weighted_ratio self; za_weighted_age := za_weighted_age self;
     za_quality_weight := za_quality_weight self; za_overlap_bytes := za_overlap_bytes self;
     za_samples := za_samples self; za_window_ratios := za_window_ratios self ++ [ratio];
     za_snapshots := za_snapshots self ++ [snapshot] |}.

Definition weighted_mean (sum weight : f64) : f64 :=
  if f64_eq weight f64_zero then f64_zero else f64_div sum weight.

Definition zone_finish (windows : Z) (self : ZoneAccumulator) : ZoneStatistics :=
  let ratios := sort_by f64_total_le (za_window_ratios self) in
  {| zs_windows_observed := windows;
     zs_region_samples := za_samples self;
     zs_overlap_sample_bytes := za_overlap_bytes self;
     zs_snapshot_overlap_bytes_median := median_u64 (za_snapshots self);
     zs_normalized_ratio_mean := weighted_mean (za_weighted_ratio self) (za_quality_weight self);
     zs_normalized_ratio_p25 := percentile ratios 25;
     zs_normalized_ratio_p50 := percentile ratios 50;
     zs_normalized_ratio_p75 := percentile ratios 75;
     zs_normalized_ratio_p95 := percentile ratios 95;
     zs_age_mean := weighted_mean (za_weighted_age self) (za_quality_weight self);
     zs_confidence := if (5 <=? windows) && (5 <=? za_samples self) then "bounded" else "low" |}.

Record WindowAccumulator := {
  wa_weighted_ratio : f64;
  wa_quality_weight : f64;
  wa_raw_accesses : Z;
  wa_regions : Z
}.

Definition WindowAccumulator_default : WindowAccumulator :=
  {| wa_weighted_ratio := f64_zero; wa_quality_weight := f64_zero; wa_raw_accesses := 0;
     wa_regions := 0 |}.

Definition window_push (overlap region_size : Z) (ratio : f64) (raw_accesses : Z)
    (self : WindowAccumulator) : WindowAccumulator :=
  if (overlap =? 0) || (region_size =? 0) then self
  else
    let w := quality_weight overlap region_size in
    {| wa_weighted_ratio := f64_add (wa_weighted_ratio self) (f64_mul ratio w);
       wa_quality_weight := f64_add (wa_quality_weight self) w;
       wa_raw_accesses := u64_sat_add (wa_raw_accesses self) raw_accesses;
       wa_regions := u64_sat_add (wa_regions self) 1 |}.

Definition window_ratio (self : WindowAccumulator) : f64 :=
  weighted_mean (wa_weighted_ratio self) (wa_quality_weight self).

(** ** [analyze_zones] *)

(** the three zones, whose variables the source names [hot_*], [warm_*], [cold_*] *)
Record Zones (A : Type) := MkZones { z_hot : A; z_warm : A; z_cold : A }.
Arguments MkZones {A}.
Arguments z_hot {A}.
Arguments z_warm {A}.
Arguments z_cold {A}.
Definition zones_map {A B} (f : A -> B) (z : Zones A) : Zones B :=
  MkZones (f (z_hot z)) (f (z_warm z)) (f (z_cold z)).
Definition zones_map2 {A B C} (f : A -> B -> C) (x : Zones A) (y : Zones B) : Zones C :=
  MkZones (f (z_hot x) (z_hot y)) (f (z_warm x) (z_warm y)) (f (z_cold x) (z_cold y)).

(** the variables of one window *)
Record WindowState := {
  ws_footprint : Z;
  ws_snapshot : Zones Z;
  ws_window : Zones WindowAccumulator;
  ws_acc : Zones ZoneAccumulator;
  ws_other : Z;
  ws_region_sample_bytes : Z
}.

Definition region_step (expected : Z) (zones : Zones AddressRange) (s : WindowState)
    (region : TraceRegion) : WindowState :=
  let range := region_range region in
  let size := u64_sat_sub (tg_end region) (tg_start region) in
  let ratio := normalized_ratio (tg_nr_accesses region) expected in
  let overlaps := zones_map (overlap range) zones in
  {| ws_footprint := u64_sat_add (ws_footprint s) size;
     ws_snapshot := zones_map2 u64_sat_add (ws_snapshot s) overlaps;
     ws_window := zones_map2 (fun o w => window_push o size ratio (tg_nr_accesses region) w)
                    overlaps (ws_window s);
     ws_acc := zones_map2 (fun o a => zone_push o size ratio (tg_age region) a)
                 overlaps (ws_acc s);
     ws_other := if u64_wrap (z_hot overlaps + z_warm overlaps + z_cold overlaps) =? 0
                 then u64_sat_add (ws_other s) 1 else ws_other s;
     ws_region_sample_bytes := u64_sat_add (ws_region_sample_bytes s) size |}.

(** the variables of the whole analysis *)
Record AnalysisState := {
  as_acc : Zones ZoneAccumulator;
  as_other : Z;
  as_region_sample_bytes : Z;
  as_footprints : list Z;
  as_target_footprints : list Z;
  as_outside_footprints : list Z;
  as_diagnostics : list WindowZoneDiagnostic
}.

Definition analysis_start : AnalysisState :=
  {| as_acc := MkZones ZoneAccumulator_default ZoneAccumulator_default ZoneAccumulator_default;
     as_other := 0; as_region_sample_bytes := 0; as_footprints := []; as_target_footprints := [];
     as_outside_footprints := []; as_diagnostics := [] |}.

Definition window_step (expected : Z) (zones : Zones AddressRange) (s : AnalysisState)
    (window : list TraceRegion) : AnalysisState :=
  let w := foldl (region_step expected zones)
             {| ws_footprint := 0; ws_snapshot := MkZones 0 0 0;
                ws_window := MkZones WindowAccumulator_default WindowAccumulator_default
                               WindowAccumulator_default;
                ws_acc := as_acc s; ws_other := as_other s;
                ws_region_sample_bytes := as_region_sample_bytes s |} window in
  let snapshot := ws_snapshot w in
  let ratios := zones_map window_ratio (ws_window w) in
  let target := u64_sat_add (u64_sat_add (z_hot snapshot) (z_warm snapshot)) (z_cold snapshot) in
  let outside := u64_sat_sub (ws_footprint w) target in
  {| as_acc := zones_map2 (fun r a => a r)
                 ratios (zones_map2 (fun n a r => zone_end_window r n a) snapshot (ws_acc w));
     as_other := ws_other w;
     as_region_sample_bytes := ws_region_sample_bytes w;
     as_footprints := as_footprints s ++ [ws_footprint w];
     as_target_footprints := as_target_footprints s ++ [target];
     as_outside_footprints := as_outside_footprints s ++ [outside];
     as_diagnostics := as_diagnostics s ++
       [{| wz_window_index := Z.of_nat (length (as_diagnostics s));
           wz_region_count := Z.of_nat (length window);
           wz_observed_bytes := ws_footprint w;
           wz_target_overlap_bytes := target;
           wz_outside_requested_bytes := outside;
           wz_hot_overlap_bytes := z_hot snapshot;
           wz_warm_overlap_bytes := z_warm snapshot;
           wz_cold_overlap_bytes := z_cold snapshot;
           wz_hot_normalized_ratio := z_hot ratios;
           wz_warm_normalized_ratio := z_warm ratios;
           wz_cold_normalized_ratio := z_cold ratios;
           wz_hot_raw_accesses := wa_raw_accesses (z_hot (ws_window w));
           wz_warm_raw_accesses := wa_raw_accesses (z_warm (ws_window w));
           wz_cold_raw_accesses := wa_raw_accesses (z_cold (ws_window w));
           wz_hot_overlapping_regions := wa_regions (z_hot (ws_window w));
           wz_warm_overlapping_regions := wa_regions (z_warm (ws_window w));
           wz_cold_overlapping_regions := wa_regions (z_cold (ws_window w));
           wz_expected_samples_per_region := expected |}] |}.

Definition signal_of (windows : Z) (zones : Zones AddressRange) (s : AnalysisState) :
    SignalEvidence :=
  let requested :=
    foldl (fun sum range => u64_sat_add sum (u64_sat_sub (ar_end range) (ar_start range))) 0
      [z_hot zones; z_warm zones; z_cold zones] in
  let stats := zones_map (zone_finish windows) (as_acc s) in
  let hot := z_hot stats in
  let warm := z_warm stats in
  let cold := z_cold stats in
  let observed := median_u64 (as_footprints s) in
  let target := median_u64 (as_target_footprints s) in
  let outside := median_u64 (as_outside_footprints s) in
  let outside_ratio :=
    if observed =? 0 then f64_zero else f64_div (f64_of_Z outside) (f64_of_Z observed) in
  let isolated := (0 <? target) && f64_le outside_ratio (f64_lit 50 100) in
  let hot_cold_margin := f64_sub (zs_normalized_ratio_p50 hot) (zs_normalized_ratio_p50 cold) in
  let warm_cold_margin := f64_sub (zs_normalized_ratio_mean warm) (zs_normalized_ratio_mean cold) in
  let enough_windows := 3 <=? windows in
  let all_overlap :=
    (0 <? zs_region_samples hot) && (0 <? zs_region_samples warm)
    && (0 <? zs_region_samples cold) in
  let distinguished :=
    f64_ge hot_cold_margin (f64_lit 10 100)
    && f64_gt (zs_normalized_ratio_mean hot)
         (f64_add (zs_normalized_ratio_mean cold) (f64_lit 10 100)) in
  let coherent :=
    f64_ge warm_cold_margin (f64_lit 2 100)
    && f64_gt (zs_normalized_ratio_mean hot) (zs_normalized_ratio_mean warm) in
  let reasons :=
    push_if (negb coherent) "warm_not_coherent"
    (push_if (negb distinguished) "hot_not_distinguished_from_cold"
    (push_if (negb isolated) "target_regions_not_isolated"
    (push_if (negb all_overlap) "missing_zone_overlap"
    (push_if (negb enough_windows) "missing_aggregation_windows" [])))) in
  {| sg_hot := hot; sg_warm := warm; sg_cold := cold;
     sg_other_region_samples := as_other s;
     sg_region_sample_bytes := as_region_sample_bytes s;
     sg_snapshot_observed_bytes_median := observed;
     sg_requested_target_bytes := requested;
     sg_observed_target_bytes_per_snapshot := target;
     sg_outside_requested_bytes := outside;
     sg_outside_requested_ratio := outside_ratio;
     sg_target_isolated := isolated;
     sg_window_diagnostics := as_diagnostics s;
     sg_hot_cold_margin := hot_cold_margin;
     sg_warm_cold_margin := warm_cold_margin;
     sg_hot_cold_distinguished := distinguished;
     sg_warm_coherent := coherent;
     sg_accepted := bool_decide (reasons = []);
     sg_reasons := reasons |}.

(** [None] is the division by zero of [expected_samples], which the loop over
    the windows calls. *)
Definition analyze_zones (windows : list (list TraceRegion)) (attrs : MonitoringAttrs)
    (hot warm cold : AddressRange) : option SignalEvidence :=
  let zones := MkZones hot warm cold in
  expected ← (match windows with [] => Some 0 | _ => expected_samples attrs end);
  Some (signal_of (Z.of_nat (length windows)) zones
          (foldl (window_step expected zones) analysis_start windows)).

(** ** Samples of a dataset, overhead *)

Inductive ObservationalLabel := Hot | Warm | Cold | InsufficientHistory.
#[export] Instance ObservationalLabel_eq_dec : EqDecision ObservationalLabel.
Proof. solve_decision. Defined.

Record DamonRegionSample := {
  dr_schema_version : string;
  dr_session_id : string;
  dr_timestamp_ns : Z;
  dr_target_id : Z;
  dr_pid : Z;
  dr_stable_identity : string;
  dr_region_start : Z;
  dr_region_end : Z;
  dr_region_size : Z;
  dr_hot_overlap_bytes : Z;
  dr_warm_overlap_bytes : Z;
  dr_cold_overlap_bytes : Z;
  dr_hot_overlap_fraction : f64;
  dr_warm_overlap_fraction : f64;
  dr_cold_overlap_fraction : f64;
  dr_other_bytes : Z;
  dr_nr_accesses : Z;
  dr_age : Z;
  dr_sample_us : Z;
  dr_aggr_us : Z;
  dr_update_us : Z;
  dr_expected_samples : Z;
  dr_normalized_access_ratio : f64;
  dr_observational_label : ObservationalLabel;
  dr_label_rule_version : string;
  dr_confidence : string;
  dr_evidence : list string;
  dr_source : string;
  dr_kernel : string;
  dr_operation_set : string
}.

Definition label_of (history_windows : Z) (ratio : f64) : ObservationalLabel :=
  if history_windows <? 3 then InsufficientHistory
  else if f64_ge ratio (f64_lit 70 100) then Hot
  else if f64_ge ratio (f64_lit 20 100) then Warm
  else Cold.

Definition normalize (region : TraceRegion) (attrs : MonitoringAttrs) (history_windows : Z) :
    option DamonRegionSample :=
  expected ← expected_samples attrs;
  let ratio := normalized_ratio (tg_nr_accesses region) expected in
  Some {| dr_schema_version := DATASET_SCHEMA_VERSION;
          dr_session_id := ""; dr_timestamp_ns := 0;
          dr_target_id := tg_target_id region;
          dr_pid := 0; dr_stable_identity := "";
          dr_region_start := tg_start region;
          dr_region_end := tg_end region;
          dr_region_size := u64_wrap (tg_end region - tg_start region);
          dr_hot_overlap_bytes := 0; dr_warm_overlap_bytes := 0; dr_cold_overlap_bytes := 0;
          dr_hot_overlap_fraction := f64_zero; dr_warm_overlap_fraction := f64_zero;
          dr_cold_overlap_fraction := f64_zero;
          dr_other_bytes := u64_wrap (tg_end region - tg_start region);
          dr_nr_accesses := tg_nr_accesses region;
          dr_age := tg_age region;
          dr_sample_us := ma_sample_us attrs;
          dr_aggr_us := ma_aggr_us attrs;
          dr_update_us := ma_update_us attrs;
          dr_expected_samples := expected;
          dr_normalized_access_ratio := ratio;
          dr_observational_label := label_of history_windows ratio;
          dr_label_rule_version := LABEL_RULE_VERSION;
          dr_confidence := if 3 <=? history_windows then "bounded" else "low";
          dr_evidence := [("history_windows=" ++ show_uint history_windows)%string];
          dr_source := "damon_aggregated";
          dr_kernel := "";
          dr_operation_set := ma_operation attrs |}.

Record OverheadSample := {
  oh_kdamond_cpu_percent : f64;
  oh_capture_cpu_percent : f64;
  oh_target_slowdown_percent : f64;
  oh_events_per_second : f64;
  oh_regions_per_second : f64;
  oh_dropped_samples : Z
}.

Definition overhead_allowed (sample : OverheadSample) (config : DamonConfig) (safety_ceiling : f64) :
    bool :=
  let total := f64_add (oh_kdamond_cpu_percent sample) (oh_capture_cpu_percent sample) in
  f64_is_finite total
  && f64_le total (damon_max_cpu_overhead_percent config)
  && f64_le (damon_max_cpu_overhead_percent config) safety_ceiling
  && (oh_dropped_samples sample =? 0).

(** ** Capability probes *)

(** [io::ErrorKind], as far as the probes ask, with its name *)
Inductive ErrorKind := NotFound | PermissionDenied | OtherKind (name : string).

(** what the file system answers *)
Record Files := {
  file_text : string -> result string ErrorKind;      (* [fs::read_to_string] *)
  file_is_dir : string -> result bool ErrorKind;      (* [fs::metadata], then [is_dir] *)
  file_opens : string -> result unit ErrorKind;       (* [OpenOptions::write(true).open] *)
  dir_entries : string -> option (list (string * bool)) (* [fs::read_dir]: names, directories *)
}.

(** [Path::is_dir] *)
Definition is_dir (fs : Files) (path : string) : bool :=
  match file_is_dir fs path with Ok b => b | Err _ => false end.

Inductive Observation (A : Type) :=
| Observed (a : A)
| PrivilegeHidden
| Absent
| InspectionError (reason : string).
Arguments Observed {A} a.
Arguments PrivilegeHidden {A}.
Arguments Absent {A}.
Arguments InspectionError {A} reason.

Record DamonCapability := {
  dc_supported : bool;
  dc_sysfs_admin_available : bool;
  dc_tracefs_available : bool;
  dc_aggregated_tracepoint_available : bool;
  dc_available_operations : list string;
  dc_vaddr_supported : bool;
  dc_fvaddr_supported : bool;
  dc_paddr_supported : bool;
  dc_existing_kdamond_count : option Z;
  dc_existing_kdamond_pids : list Z;
  dc_active_external_session : bool;
  dc_special_module_conflict : bool;
  dc_optional_features : gmap string bool;
  dc_readable : bool;
  dc_writable : bool;
  dc_kernel : option string;
  dc_notes : list string;
  dc_dry_run : bool
}.

Record DamonObservability := {
  do_admin : Observation bool;
  do_kdamonds : Observation bool;
  do_nr_kdamonds : Observation Z;
  do_readable : Observation bool;
  do_writable : Observation bool;
  do_tracefs : Observation bool;
  do_aggregated_tracepoint : Observation bool;
  do_available_operations : Observation (list string);
  do_vaddr : Observation bool;
  do_active_external_session : Observation bool;
  do_special_module_conflict : Observation bool
}.

(** [classify_error], at the type the caller observes *)
Definition classify_error {A} (error : ErrorKind) : Observation A :=
  match error with
  | PermissionDenied => PrivilegeHidden
  | NotFound => Absent
  | OtherKind name => InspectionError name
  end.

Definition observe {A B} (f : A -> Observation B) (r : result A ErrorKind) : Observation B :=
  match r with Ok a => f a | Err e => classify_error e end.

Definition metadata_presence (fs : Files) (path : string) : Observation bool :=
  observe Observed (file_is_dir fs path).

(** the message of the [ParseIntError] of [str::parse::<u32>] *)
Fixpoint u32_digits_error (acc : Z) (s : string) : string :=
  match s with
  | EmptyString => ""
  | String c s' =>
      match digit_val c with
      | None => "invalid digit found in string"
      | Some d => if acc * 10 + d <=? u32_max then u32_digits_error (acc * 10 + d) s'
                  else "number too large to fit in target type"
      end
  end.
Definition u32_parse_error (s : string) : string :=
  match s with
  | EmptyString => "cannot parse integer from empty string"
  | String c s' =>
      if Ascii.eqb c "+" then
        if str_empty s' then "invalid digit found in string" else u32_digits_error 0 s'
      else u32_digits_error 0 s
  end.

Definition read_u32_observation (fs : Files) (path : string) : Observation Z :=
  observe (fun value => match parse_u32 (trim value) with
                        | Some n => Observed n
                        | None => InspectionError (u32_parse_error (trim value))
                        end) (file_text fs path).

Definition resolve (root absolute : string) : string :=
  path_join root (trim_start_char "/" absolute).

Definition read_u32 (fs : Files) (path : string) : option Z :=
  match file_text fs path with Ok s => parse_u32 (trim s) | Err _ => None end.

Definition read_bool (fs : Files) (path : string) : option bool :=
  match file_text fs path with
  | Err _ => None
  | Ok s => if contains_str ["Y"; "y"; "1"]%string (trim s) then Some true
            else if contains_str ["N"; "n"; "0"]%string (trim s) then Some false
            else None
  end.

(** [visit] of [contains_file]; [fuel] is 9 minus the depth *)
Fixpoint contains_file_loop (fuel : nat) (fs : Files) (path name : string) : bool :=
  match fuel with
  | O => false
  | S fuel' =>
      match dir_entries fs path with
      | None => false
      | Some entries =>
          existsb (fun '(entry, dir) =>
            String.eqb entry name
            || (dir && contains_file_loop fuel' fs (path_join path entry) name)) entries
      end
  end.
Definition contains_file (fs : Files) (root name : string) : bool :=
  contains_file_loop 9 fs root name.

(** [0..count] *)
Definition indices (count : Z) : list Z := map Z.of_nat (seq 0 (Z.to_nat count)).

(** the search for tracefs; the last candidate that is neither absent nor a
    plain file decides, a directory at once *)
Fixpoint find_tracefs (fs : Files) (paths : list string) (found : Observation bool) :
    option string * Observation bool :=
  match paths with
  | [] => (None, found)
  | path :: rest =>
      match metadata_presence fs path with
      | Observed true => (Some path, Observed true)
      | PrivilegeHidden => find_tracefs fs rest PrivilegeHidden
      | InspectionError reason => find_tracefs fs rest (InspectionError reason)
      | Observed false | Absent => find_tracefs fs rest found
      end
  end.

(** the loop over the contexts; [Err] is an early return of the whole probe *)
Fixpoint collect_operations (fs : Files) (kdamonds : string) (indices : list Z)
    (values : list string) : result (list string) (option string) :=
  match indices with
  | [] => Ok values
  | index :: rest =>
      match file_text fs (path_join (path_join kdamonds (show_uint index))
                            "contexts/0/avail_operations") with
      | Ok value => collect_operations fs kdamonds rest (values ++ split_whitespace value)
      | Err PermissionDenied => Err None
      | Err NotFound => collect_operations fs kdamonds rest values
      | Err (OtherKind reason) => Err (Some reason)
      end
  end.

Definition map_observation {A B} (f : A -> B) (o : Observation A) : Observation B :=
  match o with
  | Observed a => Observed (f a)
  | PrivilegeHidden => PrivilegeHidden
  | Absent => Absent
  | InspectionError reason => InspectionError reason
  end.

Definition nr_kdamonds_of (fs : Files) (admin kdamonds : Observation bool) (nr_path : string) :
    Observation Z :=
  match admin, kdamonds with
  | Observed true, Observed true => read_u32_observation fs nr_path
  | PrivilegeHidden, _ => PrivilegeHidden
  | _, PrivilegeHidden => PrivilegeHidden
  | Absent, _ => Absent
  | _, Absent => Absent
  | _, _ => InspectionError "DAMON admin inspection failed"
  end.

Definition tracepoint_of (fs : Files) (tracefs_path : option string) (tracefs : Observation bool) :
    Observation bool :=
  match tracefs_path with
  | Some path => metadata_presence fs (path_join path "events/damon/damon_aggregated")
  | None =>
      match tracefs with
      | PrivilegeHidden => PrivilegeHidden
      | InspectionError reason => InspectionError reason
      | _ => Absent
      end
  end.

Definition inspect_linux_observability (fs : Files) (root : string) : DamonObservability :=
  let admin_path := resolve root "/sys/kernel/mm/damon/admin" in
  let kdamonds_path := path_join admin_path "kdamonds" in
  let admin := metadata_presence fs admin_path in
  let kdamonds := metadata_presence fs kdamonds_path in
  let nr_path := path_join kdamonds_path "nr_kdamonds" in
  let nr_kdamonds := nr_kdamonds_of fs admin kdamonds nr_path in
  let readable := observe (fun _ => Observed true) (file_text fs nr_path) in
  let writable := observe (fun _ => Observed true) (file_opens fs nr_path) in
  let '(tracefs_path, tracefs) :=
    find_tracefs fs (map (resolve root) ["/sys/kernel/tracing"; "/sys/kernel/debug/tracing"]%string)
      Absent in
  let aggregated_tracepoint := tracepoint_of fs tracefs_path tracefs in
  let report operations vaddr active special :=
    {| do_admin := admin; do_kdamonds := kdamonds; do_nr_kdamonds := nr_kdamonds;
       do_readable := readable; do_writable := writable; do_tracefs := tracefs;
       do_aggregated_tracepoint := aggregated_tracepoint;
       do_available_operations := operations; do_vaddr := vaddr;
       do_active_external_session := active; do_special_module_conflict := special |} in
  let finish operations :=
    report operations (map_observation (fun values => contains_str values "vaddr") operations)
      PrivilegeHidden PrivilegeHidden in
  match nr_kdamonds with
  | Observed count =>
      match collect_operations fs kdamonds_path (indices count) [] with
      | Ok values => finish (Observed (sort_dedup values))
      | Err None => report PrivilegeHidden PrivilegeHidden PrivilegeHidden PrivilegeHidden
      | Err (Some reason) =>
          report (InspectionError reason) (InspectionError "operations unavailable")
            (InspectionError "sessions unavailable") (InspectionError "conflicts unavailable")
      end
  | PrivilegeHidden => finish PrivilegeHidden
  | Absent => finish Absent
  | InspectionError reason => finish (InspectionError reason)
  end.

(** what the loop of [inspect_linux] reads of one kdamond *)
Definition inspect_kdamond (fs : Files) (kdamonds : string) (s : list Z * bool * list string)
    (index : Z) : list Z * bool * list string :=
  let '(pids, active, operations) := s in
  let base := path_join kdamonds (show_uint index) in
  (match read_u32 fs (path_join base "pid") with Some pid => pids ++ [pid] | None => pids end,
   active || match file_text fs (path_join base "state") with
             | Ok value => String.eqb (trim value) "on"
             | Err _ => false
             end,
   match file_text fs (path_join base "contexts/0/avail_operations") with
   | Ok value => operations ++ split_whitespace value
   | Err _ => operations
   end).

Definition special_module (fs : Files) (root name : string) : bool :=
  let parameters := resolve root ("/sys/module/" ++ name ++ "/parameters") in
  unwrap_or (read_bool fs (path_join parameters "enabled")) false
  || is_some_and (read_u32 fs (path_join parameters "kdamond_pid")) (fun pid => 0 <? pid).

Definition inspect_linux (fs : Files) (root : string) (kernel : option string) : DamonCapability :=
  let admin := resolve root "/sys/kernel/mm/damon/admin" in
  let kdamonds := path_join admin "kdamonds" in
  let tracefs :=
    find_first (is_dir fs)
      (map (resolve root) ["/sys/kernel/tracing"; "/sys/kernel/debug/tracing"]%string) in
  let nr := read_u32 fs (path_join kdamonds "nr_kdamonds") in
  let '(pids, active, operations) :=
    match nr with
    | Some count => foldl (inspect_kdamond fs kdamonds) ([], false, []) (indices count)
    | None => ([], false, [])
    end in
  let operations := sort_dedup operations in
  let tracepoint :=
    is_some_and tracefs (fun path => is_dir fs (path_join path "events/damon/damon_aggregated")) in
  let special :=
    existsb (special_module fs root) ["damon_reclaim"; "damon_lru_sort"; "damon_stat"]%string in
  let readable := is_ok (file_text fs (path_join kdamonds "nr_kdamonds")) in
  let writable := is_ok (file_opens fs (path_join kdamonds "nr_kdamonds")) in
  {| dc_supported := is_dir fs admin;
     dc_sysfs_admin_available := is_dir fs admin;
     dc_tracefs_available := is_some tracefs;
     dc_aggregated_tracepoint_available := tracepoint;
     dc_available_operations := operations;
     dc_vaddr_supported := contains_str operations "vaddr";
     dc_fvaddr_supported := contains_str operations "fvaddr";
     dc_paddr_supported := contains_str operations "paddr";
     dc_existing_kdamond_count := nr;
     dc_existing_kdamond_pids := pids;
     dc_active_external_session := active;
     dc_special_module_conflict := special;
     dc_optional_features :=
       list_to_map (map (fun name => (name, contains_file fs kdamonds name))
                      ["refresh_ms"; "addr_unit"; "intervals_goal"]%string);
     dc_readable := readable;
     dc_writable := writable;
     dc_kernel := kernel;
     dc_notes :=
       push_if (is_some tracefs && negb tracepoint) "damon_aggregated_not_visible"
         (push_if (is_dir fs admin && negb readable) "sysfs_admin_present_but_not_readable" []);
     dc_dry_run := true |}.

Record DamonReport := {
  rep_capability : DamonCapability;
  rep_source : string;
  rep_session_state : string;
  rep_attrs_requested : option MonitoringAttrs;
  rep_attrs_effective : option MonitoringAttrs;
  rep_snapshots : Z;
  rep_regions : Z;
  rep_observed_bytes : Z;
  rep_hot_bytes : Z;
  rep_warm_bytes : Z;
  rep_cold_bytes : Z;
  rep_stable_cold_fraction : option f64;
  rep_event_rate : option f64;
  rep_overhead : option OverheadSample;
  rep_dropped_samples : Z;
  rep_confidence : string;
  rep_errors : list string;
  rep_zero_damos : bool;
  rep_dry_run : bool
}.

Definition observe_report (fs : Files) (config : DamonConfig) (kernel : option string) :
    DamonReport :=
  let capability := inspect_linux fs "/" kernel in
  {| rep_capability := capability;
     rep_source := if dc_aggregated_tracepoint_available capability then "available_not_owned"
                   else "capability_inventory";
     rep_session_state := if dc_active_external_session capability then "external"
                          else "not_configured";
     rep_attrs_requested := None; rep_attrs_effective := None;
     rep_snapshots := 0; rep_regions := 0; rep_observed_bytes := 0; rep_hot_bytes := 0;
     rep_warm_bytes := 0; rep_cold_bytes := 0; rep_stable_cold_fraction := None;
     rep_event_rate := None; rep_overhead := None; rep_dropped_samples := 0;
     rep_confidence := "none";
     rep_errors := if damon_enabled config
                   then ["normal daemon never starts a DAMON session"%string] else [];
     rep_zero_damos := true; rep_dry_run := true |}.

(** ** Lemmas *)
Module Facts.

(** an address of a range *)
Definition in_range (a : Z) (r : AddressRange) : Prop := ar_start r <= a < ar_end r.

Definition range_u64 (r : AddressRange) : Prop := u64 (ar_start r) /\ u64 (ar_end r).

Lemma overlap_pos a b : 0 < overlap a b <-> exists x, in_range x a /\ in_range x b.
Proof.
  unfold overlap, in_range, u64_sat_sub. split.
  - intros H. exists (Z.max (ar_start a) (ar_start b)). lia.
  - intros (x & H1 & H2). lia.
Qed.

(** A window as the kernel reports it: every region carries the window's length. *)
Definition window_ok (w : list TraceRegion) : Prop :=
  w <> [] /\ Forall (fun r => tg_nr_regions r = Z.of_nat (length w)) w.

(** the window under construction *)
Definition partial_ok (current : list TraceRegion) (expected : Z) : Prop :=
  current = [] \/
  (Forall (fun r => tg_nr_regions r = expected) current /\
   (expected = 0 \/ Z.of_nat (length current) < expected)).

Lemma group_loop_sound regions : forall current expected windows,
  Forall window_ok windows -> partial_ok current expected ->
  Forall (fun r => 0 <= tg_nr_regions r) (current ++ regions) ->
  Forall window_ok (group_loop regions current expected windows).
Proof.
  induction regions as [|r rest IH]; intros current expected windows Hw Hp Hn; [done |].
  assert (0 <= tg_nr_regions r) as Hr.
  { apply Forall_app in Hn as [_ Hn]. by apply Forall_cons_iff in Hn as [? _]. }
  assert (Forall (fun r => 0 <= tg_nr_regions r) rest) as Hrest.
  { apply Forall_app in Hn as [_ Hn]. by apply Forall_cons_iff in Hn as [_ ?]. }
  cbn [group_loop].
  set (exp := if bool_decide (current = []) then tg_nr_regions r else expected).
  assert ((current = [] /\ exp = tg_nr_regions r) \/ (current <> [] /\ exp = expected)) as Hexp.
  { subst exp. case_bool_decide; auto. }
  clearbody exp.
  destruct ((exp =? 0) || negb (tg_nr_regions r =? exp)) eqn:E.
  - (* the window starts again at [r] *)
    simpl length. destruct (Z.eqb_spec (Z.of_nat 1) (tg_nr_regions r)) as [H1|H1].
    + apply IH; [| by left | done]. apply Forall_app. split; [done |].
      constructor; [| constructor]. split; [done |]. constructor; [simpl; lia | constructor].
    + apply IH; [done | right | constructor; done].
      split; [constructor; [done | constructor] |]. simpl. lia.
  - apply orb_false_iff in E as [E1%Z.eqb_neq E2%negb_false_iff%Z.eqb_eq].
    assert (Forall (fun x => tg_nr_regions x = exp) (current ++ [r]) /\
            (current = [] \/ Z.of_nat (length current) < exp)) as [Hall Hlen].
    { rewrite Forall_app, Forall_singleton.
      destruct Hp as [-> | [Hp Hq]]; [by repeat split; [constructor | | left] |].
      destruct Hexp as [[-> _] | [_ ->]]; [by repeat split; [constructor | | left] |].
      split; [by split | right; lia]. }
    destruct (Z.eqb_spec (Z.of_nat (length (current ++ [r]))) exp) as [H1|H1].
    + apply IH; [| by left | done]. apply Forall_app. split; [done |].
      constructor; [| constructor]. split; [by destruct current |]. by rewrite H1.
    + apply IH; [done | right; split; [done |] | rewrite <- app_assoc; done].
      right. rewrite length_app in *. simpl in *. destruct Hlen as [-> | Hlen]; simpl in *; lia.
Qed.

Lemma group_loop_sublist regions : forall current expected windows,
  exists tail, group_loop regions current expected windows = windows ++ tail /\
               concat tail `sublist_of` (current ++ regions).
Proof.
  induction regions as [|r rest IH]; intros current expected windows.
  { exists []. rewrite app_nil_r. split; [done |]. apply sublist_nil_l. }
  cbn [group_loop].
  set (exp := if bool_decide (current = []) then tg_nr_regions r else expected).
  destruct (_ || _).
  - destruct (_ =? _).
    + destruct (IH [] 0 (windows ++ [[] ++ [r]])) as (tail & -> & Hs).
      exists ([r] :: tail). split; [by rewrite <- app_assoc |].
      simpl. apply sublist_inserts_l. by apply sublist_skip.
    + destruct (IH ([] ++ [r]) (tg_nr_regions r) windows) as (tail & -> & Hs).
      exists tail. split; [done |]. by apply sublist_inserts_l.
  - destruct (_ =? _).
    + destruct (IH [] 0 (windows ++ [current ++ [r]])) as (tail & -> & Hs).
      exists ((current ++ [r]) :: tail). split; [by rewrite <- app_assoc |].
      simpl. rewrite <- app_assoc. apply sublist_app; [done |]. by apply sublist_skip.
    + destruct (IH (current ++ [r]) exp windows) as (tail & -> & Hs).
      exists tail. split; [done |]. by rewrite <- app_assoc in Hs.
Qed.

Lemma group_loop_expected regions e1 e2 windows :
  group_loop regions [] e1 windows = group_loop regions [] e2 windows.
Proof. by destruct regions. Qed.

(** A whole window passes through the loop. *)
Lemma group_loop_window w : forall done_part rest windows,
  window_ok (done_part ++ w) -> w <> [] ->
  group_loop (w ++ rest) done_part (Z.of_nat (length (done_part ++ w))) windows =
  group_loop rest [] 0 (windows ++ [done_part ++ w]).
Proof.
  induction w as [|r w IH]; intros done_part rest windows [Hne Hall] Hw; [done |].
  simpl "++". cbn [group_loop].
  assert (tg_nr_regions r = Z.of_nat (length (done_part ++ r :: w))) as Hr.
  { apply Forall_app in Hall as [_ Hall]. by apply Forall_cons_iff in Hall as [? _]. }
  rewrite Hr. replace (if bool_decide (done_part = []) then _ else _)
    with (Z.of_nat (length (done_part ++ r :: w))) by (by case_bool_decide).
  rewrite Z.eqb_refl. simpl negb.
  destruct (Z.eqb_spec (Z.of_nat (length (done_part ++ r :: w))) 0) as [H0|_].
  { rewrite length_app in H0. simpl in H0. lia. }
  simpl "||". cbv iota.
  destruct w as [|r2 w].
  - rewrite Z.eqb_refl. done.
  - destruct (Z.eqb_spec (Z.of_nat (length (done_part ++ [r])))
                         (Z.of_nat (length (done_part ++ r :: r2 :: w)))) as [H1|_].
    { rewrite !length_app in H1. simpl in H1. lia. }
    replace (done_part ++ r :: r2 :: w) with ((done_part ++ [r]) ++ r2 :: w)
      by (by rewrite <- app_assoc).
    apply IH; [| done]. split; [by destruct done_part |].
    by rewrite <- app_assoc.
Qed.

(** ** Initial regions *)

Definition mapped_in (mapped : list AddressRange) (r : AddressRange) : Prop :=
  exists m, m ∈ mapped /\ ar_start m <= ar_start r /\ ar_end r <= ar_end m.

Definition before (a b : AddressRange) : Prop := ar_end a <= ar_start b.

Lemma check_regions_ok mapped ranges : forall previous,
  check_regions mapped previous ranges = Ok tt ->
  Forall (fun r => ar_start r < ar_end r /\ mapped_in mapped r) ranges /\
  StronglySorted before ranges /\
  (forall p, previous = Some p -> Forall (before p) ranges).
Proof.
  induction ranges as [|r rest IH]; intros previous H; [by repeat constructor |].
  cbn [check_regions] in H. inv_ok. bools.
  match goal with E : check_regions _ _ _ = Ok _ |- _ => idtac | _ => idtac end.
  destruct (IH _ H) as (Hall & Hs & Hp). specialize (Hp r eq_refl).
  split; [| split].
  - constructor; [| done]. split; [lia |].
    match goal with E : existsb _ _ = true |- _ =>
      apply existsb_elem in E as (m & Hm & Hb) end.
    bools. by exists m.
  - by constructor.
  - intros p ->. simpl in *. bools.
    assert (before p r) as Hpr by (unfold before; lia).
    constructor; [done |]. eapply Forall_impl; [| exact Hp].
    intros x Hx. unfold before in *. lia.
Qed.

Definition sizes (l : list AddressRange) : Z :=
  foldr (fun r sum => (ar_end r - ar_start r) + sum) 0 l.

(** Disjoint ascending ranges of 64-bit addresses have a 64-bit total size. *)
Lemma requested_fold l : forall sum low,
  StronglySorted before l ->
  Forall (fun r => low <= ar_start r /\ ar_start r < ar_end r /\ range_u64 r) l ->
  0 <= sum <= low -> low <= u64_max ->
  foldl (fun sum range => u64_sat_add sum (u64_wrap (ar_end range - ar_start range))) sum l
  = sum + sizes l /\ sum + sizes l <= u64_max.
Proof.
  induction l as [|r l IH]; intros sum low Hs Hall Hsum Hlow; simpl; [split; lia |].
  apply Forall_cons_iff in Hall as [(H1 & H2 & H3 & H4) Hall].
  inversion Hs as [|? ? Hs' Hb]; subst. unfold u64 in *.
  assert (u64_wrap (ar_end r - ar_start r) = ar_end r - ar_start r) as ->.
  { unfold u64_wrap. apply Z.mod_small. unfold u64_max in *. lia. }
  assert (u64_sat_add sum (ar_end r - ar_start r) = sum + (ar_end r - ar_start r)) as ->.
  { unfold u64_sat_add. lia. }
  destruct (IH (sum + (ar_end r - ar_start r)) (ar_end r)) as [-> H]; try done; try lia.
  apply Forall_forall. intros x Hx. rewrite Forall_forall in Hall, Hb.
  specialize (Hall x Hx). specialize (Hb x Hx). unfold before in Hb. naive_solver.
Qed.

(** ** Accounting of the bytes of a window *)

Definition region_size (r : TraceRegion) : Z := tg_end r - tg_start r.
Definition total_size (w : list TraceRegion) : Z := foldr (fun r sum => region_size r + sum) 0 w.

Definition zones_disjoint (z : Zones AddressRange) : Prop :=
  ar_start (z_hot z) <= ar_end (z_hot z) /\ ar_start (z_warm z) <= ar_end (z_warm z) /\
  ar_start (z_cold z) <= ar_end (z_cold z) /\
  (ar_end (z_hot z) <= ar_start (z_warm z) \/ ar_end (z_warm z) <= ar_start (z_hot z)) /\
  (ar_end (z_hot z) <= ar_start (z_cold z) \/ ar_end (z_cold z) <= ar_start (z_hot z)) /\
  (ar_end (z_warm z) <= ar_start (z_cold z) \/ ar_end (z_cold z) <= ar_start (z_warm z)).

Lemma overlaps_within r z :
  zones_disjoint z -> ar_start r <= ar_end r ->
  0 <= overlap r (z_hot z) /\ 0 <= overlap r (z_warm z) /\ 0 <= overlap r (z_cold z) /\
  overlap r (z_hot z) + overlap r (z_warm z) + overlap r (z_cold z) <= ar_end r - ar_start r.
Proof. unfold zones_disjoint, overlap, u64_sat_sub. lia. Qed.

(** the sums that a window keeps *)
Definition window_inv (s : WindowState) : Prop :=
  0 <= z_hot (ws_snapshot s) /\ 0 <= z_warm (ws_snapshot s) /\ 0 <= z_cold (ws_snapshot s) /\
  z_hot (ws_snapshot s) + z_warm (ws_snapshot s) + z_cold (ws_snapshot s) <= ws_footprint s.

Lemma region_fold expected z w : forall s,
  zones_disjoint z -> Forall (fun r => tg_start r <= tg_end r) w -> window_inv s ->
  ws_footprint s + total_size w <= u64_max ->
  let s' := foldl (region_step expected z) s w in
  window_inv s' /\ ws_footprint s' = ws_footprint s + total_size w.
Proof.
  induction w as [|r w IH]; intros s Hz Hw Hi Hsum; simpl; [split; [done | lia] |].
  apply Forall_cons_iff in Hw as [Hr Hw]. simpl in Hsum.
  assert (0 <= total_size w) as Hpos.
  { clear -Hw. induction Hw; simpl; [lia | unfold region_size; lia]. }
  destruct (overlaps_within (region_range r) z Hz Hr) as (H1 & H2 & H3 & H4). simpl in H4.
  unfold window_inv, region_size in *.
  assert (u64_sat_sub (tg_end r) (tg_start r) = tg_end r - tg_start r) as Hsz
    by (unfold u64_sat_sub; lia).
  destruct (IH (region_step expected z s r)) as [IH1 IH2]; try done.
  - simpl. rewrite Hsz. unfold u64_sat_add. lia.
  - simpl. rewrite Hsz. unfold u64_sat_add. lia.
  - split; [done |]. rewrite IH2. simpl. rewrite Hsz. unfold u64_sat_add. lia.
Qed.

(** what a window's diagnostic accounts for *)
Definition diagnostic_ok (window : list TraceRegion) (d : WindowZoneDiagnostic) : Prop :=
  wz_observed_bytes d = total_size window /\
  wz_target_overlap_bytes d =
    wz_hot_overlap_bytes d + wz_warm_overlap_bytes d + wz_cold_overlap_bytes d /\
  wz_observed_bytes d = wz_target_overlap_bytes d + wz_outside_requested_bytes d /\
  0 <= wz_outside_requested_bytes d.

Lemma window_fold expected z windows : forall s,
  zones_disjoint z ->
  Forall (fun w => Forall (fun r => tg_start r <= tg_end r) w /\ total_size w <= u64_max) windows ->
  exists ds, as_diagnostics (foldl (window_step expected z) s windows) = as_diagnostics s ++ ds /\
             Forall2 diagnostic_ok windows ds.
Proof.
  induction windows as [|w windows IH]; intros s Hz Hw; simpl.
  - exists []. by rewrite app_nil_r.
  - apply Forall_cons_iff in Hw as [[Hr Ht] Hw].
    destruct (IH (window_step expected z s w) Hz Hw) as (ds & -> & Hds).
    simpl. rewrite <- app_assoc. eexists. split; [reflexivity |]. constructor; [| done].
    match goal with |- context [foldl (region_step expected z) ?s0 w] =>
      destruct (region_fold expected z w s0) as [Hi Hf];
        try (unfold window_inv; simpl; first [done | lia]) end.

    simpl in Hf. unfold window_inv in Hi. unfold diagnostic_ok. simpl.
    match goal with |- context [foldl (region_step expected z) ?s0 w] =>
      generalize dependent (foldl (region_step expected z) s0 w) end.
    intros w' Hi Hf. unfold u64_sat_add, u64_sat_sub. lia.
Qed.

(** ** Operations that contexts list *)
Lemma collect_operations_sound fs kdamonds idx : forall values out v,
  collect_operations fs kdamonds idx values = Ok out -> v ∈ out ->
  v ∈ values \/
  exists index text,
    file_text fs (path_join (path_join kdamonds (show_uint index)) "contexts/0/avail_operations")
      = Ok text /\ v ∈ split_whitespace text.
Proof.
  induction idx as [|i idx IH]; intros values out v; simpl; [by intros [= ->]; left |].
  destruct (file_text _ _) as [text|[| |]] eqn:E; try done.
  - intros H Hv. destruct (IH _ _ _ H Hv) as [Hv' | Hv']; [| by right].
    apply elem_of_app in Hv' as [Hv' | Hv']; [by left | right; eauto].
  - apply IH.
Qed.

End Facts.

Module Theorems.
Import Facts.

(** every window that [group_aggregation_windows] emits is complete (it has
    as many regions as each of its regions announces), and the windows keep the
    order of the trace and use no region twice. *)
Theorem emitted_windows_complete (regions : list TraceRegion) :
  Forall (fun r => 0 <= tg_nr_regions r) regions ->
  Forall window_ok (group_aggregation_windows regions) /\
  concat (group_aggregation_windows regions) `sublist_of` regions.
Proof.
  intros Hn. unfold group_aggregation_windows. split.
  - apply group_loop_sound; [done | by left | done].
  - destruct (group_loop_sublist regions [] 0 []) as (tail & -> & Hs). done.
Qed.

(** a trace that is a sequence of complete windows is split back into exactly
    these windows. *)
Theorem windows_round_trip (windows : list (list TraceRegion)) :
  Forall window_ok windows -> group_aggregation_windows (concat windows) = windows.
Proof.
  unfold group_aggregation_windows. change windows with ([] ++ windows) at 3.
  generalize (@nil (list TraceRegion)) as acc. intros acc Hw. revert acc.
  induction Hw as [|w windows Hok Hw IH]; intros acc; simpl; [by rewrite app_nil_r |].
  destruct (decide (w = [])) as [->|Hne]; [by destruct Hok |].
  rewrite (group_loop_expected _ 0 (Z.of_nat (length ([] ++ w)))).
  rewrite (group_loop_window w [] (concat windows) acc Hok Hne).
  rewrite (IH (acc ++ [[] ++ w])), <- app_assoc. done.
Qed.

(** C40: an accepted initial plan is a reordering of the three requested ranges in
    ascending order, none empty, no two overlapping, each inside one mapping of
    the target; its requested bytes are the exact sum of the sizes. *)
Theorem initial_region_plan_sound (ranges mapped : list AddressRange) (plan : InitialRegionPlan) :
  initial_region_plan ranges mapped = Ok plan ->
  Forall range_u64 ranges ->
  irp_ranges plan ≡ₚ ranges /\ length ranges = 3%nat /\
  StronglySorted before (irp_ranges plan) /\
  Forall (fun r => ar_start r < ar_end r /\ mapped_in mapped r) (irp_ranges plan) /\
  requested_bytes plan = sizes (irp_ranges plan) /\ requested_bytes plan <= u64_max.
Proof.
  unfold initial_region_plan. intros H Hu. inv_ok. bools.
  match goal with E : check_regions _ _ _ = Ok ?u |- _ =>
    destruct u; apply check_regions_ok in E as (Hall & Hs & _) end.
  simpl. set (l := sort_by _ ranges) in *.
  assert (l ≡ₚ ranges) as Hp by apply sort_by_perm.
  assert (Forall range_u64 l) as Hul by (by rewrite Hp).
  destruct (requested_fold l 0 0 Hs) as [Hr Hmax]; [| lia | unfold u64_max; lia |].
  - apply Forall_forall. intros x Hx. rewrite Forall_forall in Hall, Hul.
    specialize (Hall x Hx). specialize (Hul x Hx). unfold range_u64, u64 in *. naive_solver lia.
  - repeat split; try done; [lia | unfold requested_bytes; simpl; lia..].
Qed.

(** when the zones are disjoint and a window's regions fit 64 bits, its
    diagnostic accounts for every observed byte: hot, warm, cold and outside bytes
    add up to the observed ones, without saturation. *)
Theorem window_bytes_accounted (windows : list (list TraceRegion)) (attrs : MonitoringAttrs)
    (hot warm cold : AddressRange) (e : SignalEvidence) :
  zones_disjoint (MkZones hot warm cold) ->
  Forall (fun w => Forall (fun r => tg_start r <= tg_end r) w /\ total_size w <= u64_max) windows ->
  analyze_zones windows attrs hot warm cold = Some e ->
  Forall2 diagnostic_ok windows (sg_window_diagnostics e).
Proof.
  intros Hz Hw. unfold analyze_zones. set (m := match windows with [] => Some 0 | _ => _ end).
  destruct m as [expected|]; simpl; [| done]. intros [= <-]. simpl.
  destruct (window_fold expected (MkZones hot warm cold) windows analysis_start Hz Hw)
    as (ds & -> & Hds). done.
Qed.

(** a probe that permissions hide is never reported as an absent interface,
    and [vaddr] is reported available only when a context lists it. *)
Theorem hidden_is_not_absent (fs : Files) (root : string) :
  let admin := resolve root "/sys/kernel/mm/damon/admin" in
  let kdamonds := path_join admin "kdamonds" in
  let o := inspect_linux_observability fs root in
  (file_is_dir fs admin = Err PermissionDenied \/ file_is_dir fs kdamonds = Err PermissionDenied ->
   do_nr_kdamonds o = PrivilegeHidden /\ do_available_operations o = PrivilegeHidden /\
   do_vaddr o = PrivilegeHidden) /\
  (do_vaddr o = Observed true ->
   exists index text,
     file_text fs (path_join (path_join kdamonds (show_uint index)) "contexts/0/avail_operations")
       = Ok text /\ "vaddr"%string ∈ split_whitespace text).
Proof.
  simpl. unfold inspect_linux_observability.
  set (admin := resolve root "/sys/kernel/mm/damon/admin").
  set (kdamonds := path_join admin "kdamonds").
  destruct (find_tracefs _ _ _) as [tracefs_path tracefs].
  split.
  - intros Hd.
    assert (nr_kdamonds_of fs (metadata_presence fs admin) (metadata_presence fs kdamonds)
              (path_join kdamonds "nr_kdamonds") = PrivilegeHidden) as ->; [| done].
    unfold metadata_presence, observe. destruct Hd as [-> | ->]; simpl; [done |].
    destruct (file_is_dir fs admin) as [[]|[]]; done.
  - destruct (nr_kdamonds_of _ _ _ _); try done.
    destruct (collect_operations _ _ _ _) as [values|[reason|]] eqn:E; try done.
    simpl. intros [= Hv]. rewrite contains_str_elem, elem_of_sort_dedup in Hv.
    apply (collect_operations_sound _ _ _ _ _ _ E) in Hv as [Hv | Hv]; [| done].
    by apply not_elem_of_nil in Hv.
Qed.

End Theorems.

(** ** Concrete inputs *)
Module Witnesses.
Import Facts Theorems.

Definition region (nr start stop : Z) : TraceRegion :=
  {| tg_target_id := 0; tg_nr_regions := nr; tg_start := start; tg_end := stop;
     tg_nr_accesses := 3; tg_age := 1 |}.
Definition range (start stop : Z) : AddressRange := {| ar_start := start; ar_end := stop |}.
Definition attrs : MonitoringAttrs :=
  {| ma_operation := "vaddr"; ma_sample_us := 5000; ma_aggr_us := 100000;
     ma_update_us := 1000000; ma_min_regions := 10; ma_max_regions := 1000;
     ma_addr_unit := None |}.

Lemma emitted_windows_complete_witness :
  Forall window_ok (group_aggregation_windows [region 2 0 10; region 1 0 9; region 2 0 5]).
Proof.
  apply (emitted_windows_complete [region 2 0 10; region 1 0 9; region 2 0 5]).
  repeat constructor; discriminate.
Defined.

Lemma windows_round_trip_witness :
  group_aggregation_windows (concat [[region 2 0 5; region 2 5 9]; [region 1 0 9]])
  = [[region 2 0 5; region 2 5 9]; [region 1 0 9]].
Proof.
  apply (windows_round_trip [[region 2 0 5; region 2 5 9]; [region 1 0 9]]).
  repeat constructor; discriminate.
Defined.

Lemma initial_region_plan_sound_witness :
  requested_bytes {| irp_ranges := [range 0 4; range 4 8; range 10 12] |} = 10.
Proof.
  apply (initial_region_plan_sound [range 4 8; range 10 12; range 0 4] [range 0 20]).
  - vm_compute. reflexivity.
  - repeat constructor; vm_compute; discriminate.
Defined.

Definition evidence : SignalEvidence :=
  signal_of 1 (MkZones (range 0 4) (range 4 8) (range 8 12))
    (foldl (window_step 20 (MkZones (range 0 4) (range 4 8) (range 8 12))) analysis_start
       [[region 2 0 6; region 2 6 20]]).

Lemma window_bytes_accounted_witness :
  Forall2 diagnostic_ok [[region 2 0 6; region 2 6 20]] (sg_window_diagnostics evidence).
Proof.
  apply (window_bytes_accounted [[region 2 0 6; region 2 6 20]] attrs
           (range 0 4) (range 4 8) (range 8 12) evidence).
  - unfold zones_disjoint. simpl. lia.
  - repeat constructor; vm_compute; discriminate.
  - reflexivity.
Defined.

End Witnesses.
