(* ===== verification/Damos.v ===== *)
(** crates/damos: the plan, its eligibility and quotas, the address fence, the
    evidence that a validation session must show (tried candidates, page residency,
    refault), the blacklist and the recovery of owned sessions. *)

From S2P Require Import Prelude F64 Text Config Classifier Actuator Policy Damon.

Definition RULE_VERSION : string := "damos-controlled-reclaim-v1".
Definition REPORT_SCHEMA : string := "nemor-damos-report-v1".
Definition AUDIT_REASON : string := "damos_plan_only_audit".
Definition VALIDATION_TIME_QUOTA_MS : Z := 5.
Definition VALIDATION_BYTE_QUOTA : Z := 8 * 1024 * 1024.
Definition VALIDATION_RESET_INTERVAL_MS : Z := 10000.
Definition VALIDATION_TOTAL_APPLIED_CEILING : Z := 16 * 1024 * 1024.
Definition VALIDATION_LIVE_MONITOR_MS : Z := 4000.
Definition VALIDATION_LIVE_DEADLINE_MS : Z := 5000.
Definition VALIDATION_MAX_NR_SNAPSHOTS : Z := 5.

Inductive DamosError := InvalidPlan (message : string) | Unsupported (message : string).

Inductive DamosAction := Stat | Pageout.

(** ** Capability *)

Record DamosCapability := {
  dmc_supported : bool;
  dmc_vaddr : option bool;
  dmc_actions : gset string;
  dmc_scheme_fields : gmap string bool;
  dmc_quota_fields : gmap string bool;
  dmc_filter_types : gset string;
  dmc_stats_fields : gmap string bool;
  dmc_address_fence_supported : bool;
  dmc_filter_allow_supported : bool;
  dmc_max_nr_snapshots_supported : bool;
  dmc_external_session_conflict : bool;
  dmc_special_module_conflict : bool;
  dmc_notes : list string
}.

(** the [for] loop over the mandatory quota fields *)
Fixpoint require_quota_fields (fields : gmap string bool) (names : list string) :
    result unit DamosError :=
  match names with
  | [] => Ok tt
  | field :: rest =>
      reject (negb (unwrap_or (fields !! field) false)) (Unsupported ("quota." ++ field)) ;?
      require_quota_fields fields rest
  end.

Definition live_pageout_ready (self : DamosCapability) : result unit DamosError :=
  reject (negb (dmc_supported self) || negb (bool_decide (dmc_vaddr self = Some true))
          || negb (bool_decide ("pageout"%string ∈ dmc_actions self)))
    (Unsupported "vaddr pageout") ;?
  require_quota_fields (dmc_quota_fields self) ["ms"; "bytes"; "reset_interval_ms"]%string ;?
  reject (negb (dmc_address_fence_supported self)) (Unsupported "core addr filter") ;?
  reject (dmc_external_session_conflict self || dmc_special_module_conflict self)
    (Unsupported "external DAMON conflict").

(** [Path::exists] *)
Definition path_exists (fs : Files) (path : string) : bool := is_ok (file_is_dir fs path).

(** [word.trim_matches(['[', ']'])] *)
Fixpoint trim_brackets_start (s : string) : string :=
  match s with
  | String c s' => if Ascii.eqb c "[" || Ascii.eqb c "]" then trim_brackets_start s' else s
  | EmptyString => EmptyString
  end.
Fixpoint trim_brackets_end (s : string) : string :=
  match s with
  | EmptyString => EmptyString
  | String c s' =>
      match trim_brackets_end s' with
      | EmptyString => if Ascii.eqb c "[" || Ascii.eqb c "]" then EmptyString
                       else String c EmptyString
      | r => String c r
      end
  end.
Definition trim_brackets (s : string) : string := trim_brackets_end (trim_brackets_start s).

Definition read_words (fs : Files) (root relative : string) : gset string :=
  match file_text fs (path_join root relative) with
  | Ok value => list_to_set (split_whitespace value)
  | Err _ => ∅
  end.

Definition present_fields (fs : Files) (root prefix : string) (names : list string) :
    gmap string bool :=
  list_to_map (map (fun name => (name, path_exists fs (path_join root (prefix ++ name)))) names).

Definition inspect_scheme_root (fs : Files) (root : string) (vaddr external conflict : bool) :
    DamosCapability :=
  let available := read_words fs root "avail_actions" in
  let actions := if bool_decide (available = ∅) then set_map trim_brackets (read_words fs root "action")
                 else available in
  let filter_types := read_words fs root "filters/avail_types" in
  {| dmc_supported := is_dir fs root;
     dmc_vaddr := Some vaddr;
     dmc_actions := actions;
     dmc_scheme_fields :=
       present_fields fs root ""
         ["action"; "apply_interval_us"; "access_pattern"; "quotas"; "watermarks"; "filters";
          "stats"]%string;
     dmc_quota_fields :=
       present_fields fs root "quotas/"
         ["ms"; "bytes"; "reset_interval_ms"; "effective_bytes"; "weights"; "goals"]%string;
     dmc_filter_types := filter_types;
     dmc_stats_fields :=
       present_fields fs root "stats/"
         ["nr_tried"; "sz_tried"; "nr_applied"; "sz_applied"; "sz_ops_filter_passed"; "qt_exceeds";
          "nr_snapshots"; "max_nr_snapshots"]%string;
     dmc_address_fence_supported := bool_decide ("addr"%string ∈ filter_types);
     dmc_filter_allow_supported :=
       existsb (fun relative => path_exists fs (path_join root relative))
         ["core_filters/0/allow"; "ops_filters/0/allow"; "filters/0/allow"]%string;
     dmc_max_nr_snapshots_supported := path_exists fs (path_join root "stats/max_nr_snapshots");
     dmc_external_session_conflict := external;
     dmc_special_module_conflict := conflict;
     dmc_notes := [] |}.

Definition observe_capability (damon : DamonCapability) : DamosCapability :=
  {| dmc_supported := dc_supported damon;
     dmc_vaddr := then_some (negb (bool_decide (dc_available_operations damon = [])))
                    (dc_vaddr_supported damon);
     dmc_actions := ∅; dmc_scheme_fields := ∅; dmc_quota_fields := ∅; dmc_filter_types := ∅;
     dmc_stats_fields := ∅; dmc_address_fence_supported := false;
     dmc_filter_allow_supported := false; dmc_max_nr_snapshots_supported := false;
     dmc_external_session_conflict := dc_active_external_session damon;
     dmc_special_module_conflict := dc_special_module_conflict damon;
     dmc_notes :=
       ["scheme/action/filter capability requires an owned manual validation allocation"%string] |}.

(** ** Targets, quotas, patterns *)

Record StableTargetIdentity := {
  st_pid : Z;
  st_start_ticks : Z;
  st_stable_key : string;
  st_owned : bool
}.

Record ColdObservation := {
  co_complete : bool;
  co_nr_accesses : Z;
  co_age : Z;
  co_range : AddressRange
}.

Record DamosQuota := {
  dq_time_ms : Z;
  dq_bytes : Z;
  dq_reset_interval_ms : Z;
  dq_total_applied_bytes : Z
}.

Record InclusiveRange := { ir_min : Z; ir_max : Z }.
Record AccessPattern := {
  ap_size : InclusiveRange;
  ap_nr_accesses : InclusiveRange;
  ap_age : InclusiveRange
}.

Definition validation_cold : AccessPattern :=
  {| ap_size := {| ir_min := 0; ir_max := u64_max |};
     ap_nr_accesses := {| ir_min := 0; ir_max := 0 |};
     ap_age := {| ir_min := 3; ir_max := u64_max |} |}.
Definition configured_age_min (self : AccessPattern) : Z := ir_min (ap_age self).

Definition validate_quota (self : DamosQuota) (max_time_ms max_bytes : Z) : result unit DamosError :=
  reject ((dq_time_ms self =? 0) && (dq_bytes self =? 0))
    (InvalidPlan "time and byte quotas cannot both be zero") ;?
  reject ((max_time_ms <? dq_time_ms self) || (max_bytes <? dq_bytes self))
    (InvalidPlan "quota exceeds absolute configuration ceiling") ;?
  reject ((dq_reset_interval_ms self =? 0) || (dq_total_applied_bytes self <? dq_bytes self))
    (InvalidPlan "invalid reset/total quota").

(** ** Eligibility *)

Record EligibilityInput := {
  el_identity : option StableTargetIdentity;
  el_identity_fresh : bool;
  el_background : bool;
  el_foreground : bool;
  el_gaming : bool;
  el_critical : bool;
  el_protected : bool;
  el_known_classification : bool;
  el_pressure : PressureState;
  el_cold_observations : list ColdObservation;
  el_valid_age_evidence : bool;
  el_recent_refault : bool;
  el_blacklisted : bool;
  el_safety_conflict : bool
}.

Inductive PlanDisposition := Eligible | Rejected | UnsupportedPlan.
#[export] Instance PlanDisposition_eq_dec : EqDecision PlanDisposition.
Proof. solve_decision. Defined.

Record EligibilityDecision := {
  ed_disposition : PlanDisposition;
  ed_reasons : list string;
  ed_rule_version : string
}.

Definition known_identity (identity : option StableTargetIdentity) : bool :=
  match identity with
  | Some identity =>
      st_owned identity && negb (st_pid identity =? 1) && negb (str_empty (st_stable_key identity))
  | None => false
  end.

(** the cold observations at the end of the list *)
Definition consecutive_cold (observations : list ColdObservation) : Z :=
  Z.of_nat (length (take_while (fun item => co_complete item && (co_nr_accesses item =? 0))
                      (rev observations))).

Definition ineligible_pressure (pressure : PressureState) : bool :=
  match pressure with Normal | Watch | Stabilizing => true | _ => false end.

Definition eligibility_reasons (input : EligibilityInput) : list string :=
  push_if (el_safety_conflict input) "safety_conflict"
  (push_if (el_recent_refault input || el_blacklisted input) "early_refault_blacklist"
  (push_if ((consecutive_cold (el_cold_observations input) <? 3)
            || negb (el_valid_age_evidence input)) "insufficient_cold_evidence"
  (push_if (ineligible_pressure (el_pressure input)) "not_under_eligible_pressure"
  (push_if (el_protected input) "protected_target"
  (push_if (el_critical input) "critical_protected"
  (push_if (el_gaming input) "gaming_protected"
  (push_if (el_foreground input) "foreground_protected"
  (push_if (negb (el_known_classification input) || negb (el_background input))
     "unknown_or_non_background"
  (push_if (negb (el_identity_fresh input)) "stale_identity"
  (push_if (negb (known_identity (el_identity input))) "unknown_identity" [])))))))))).

Definition evaluate_eligibility (input : EligibilityInput) : EligibilityDecision :=
  let reasons := eligibility_reasons input in
  {| ed_disposition := if bool_decide (reasons = []) then Eligible else Rejected;
     ed_reasons := reasons;
     ed_rule_version := RULE_VERSION |}.

(** ** The address fence *)

Inductive FilterApi := LegacyMatchingOnly | MatchingAllow.

Record AddressFence := {
  af_range : AddressRange;
  af_layer : string;
  af_filter_type : string;
  af_api : FilterApi;
  af_matching : bool;
  af_allow : option bool
}.

Definition validate_fence (self : AddressFence) (cold : AddressRange) : result unit DamosError :=
  let semantics := match af_api self with
                   | MatchingAllow => af_matching self && bool_decide (af_allow self = Some true)
                   | LegacyMatchingOnly => negb (af_matching self) && is_none (af_allow self)
                   end in
  reject (negb (String.eqb (af_layer self) "core") || negb (String.eqb (af_filter_type self) "addr")
          || negb semantics || negb (bool_decide (af_range self = cold)))
    (InvalidPlan "address fence does not exactly match COLD").

Definition fence_allows (self : AddressFence) (address : Z) : bool :=
  is_ok (validate_fence self (af_range self))
  && (ar_start (af_range self) <=? address) && (address <? ar_end (af_range self)).

(** ** Plans and statistics *)

Record DamosPlan := {
  dp_decision_id : string;
  dp_plan_id : string;
  dp_session_id : string;
  dp_scheme_id : Z;
  dp_target : StableTargetIdentity;
  dp_action : DamosAction;
  dp_pattern_accesses_min : Z;
  dp_pattern_accesses_max : Z;
  dp_pattern_age_min : Z;
  dp_pattern_age_max : Z;
  dp_apply_interval_us : Z;
  dp_quota : DamosQuota;
  dp_fence : AddressFence;
  dp_max_nr_snapshots : option Z;
  dp_dry_run : bool
}.

Definition validate_plan (self : DamosPlan) (max_time_ms max_bytes : Z) : result unit DamosError :=
  reject (str_empty (dp_decision_id self) || str_empty (dp_plan_id self)
          || str_empty (dp_session_id self)) (InvalidPlan "decision/plan/session link required") ;?
  reject (negb (st_owned (dp_target self)) || (st_pid (dp_target self) =? 1)
          || str_empty (st_stable_key (dp_target self)))
    (InvalidPlan "stable owned target required") ;?
  reject (negb (dp_pattern_accesses_min self =? 0) || negb (dp_pattern_accesses_max self =? 0)
          || (dp_pattern_age_min self <? 3) || (dp_pattern_age_max self <? dp_pattern_age_min self)
          || (dp_apply_interval_us self =? 0)) (InvalidPlan "unsafe access pattern") ;?
  validate_quota (dp_quota self) max_time_ms max_bytes.

Record TriedRegionSample := {
  tr_range : AddressRange;
  tr_size : Z;
  tr_nr_accesses : option Z;
  tr_age : option Z;
  tr_sz_filter_passed : option Z
}.

Record DamosStats := {
  ds_effective_quota_bytes : option Z;
  ds_nr_tried : option Z;
  ds_sz_tried : option Z;
  ds_nr_applied : option Z;
  ds_sz_applied : option Z;
  ds_sz_ops_filter_passed : option Z;
  ds_qt_exceeds : option Z;
  ds_nr_snapshots : option Z;
  ds_max_nr_snapshots : option Z;
  ds_tried_regions : list AddressRange;
  ds_tried_region_samples : list TriedRegionSample;
  ds_tried_regions_total_bytes : option Z;
  ds_first_tried_snapshot_index : option Z;
  ds_first_tried_region_age : option Z;
  ds_first_tried_timestamp_ns : option Z;
  ds_effective_quota_raw : option string;
  ds_effective_quota_interpretation : option string
}.

Definition validate_attempt2_bounds (pattern : AccessPattern) (quota : DamosQuota)
    (apply_interval_us live_deadline_ms max_nr_snapshots : Z) : result unit DamosError :=
  reject ((live_deadline_ms =? 0) || (dq_reset_interval_ms quota <=? live_deadline_ms))
    (InvalidPlan "quota reset interval must outlive live session") ;?
  reject (max_nr_snapshots =? 0) (InvalidPlan "snapshot ceiling must be nonzero") ;?
  let? snapshot_runtime_us := ok_or (u64_checked_mul max_nr_snapshots apply_interval_us)
                                (InvalidPlan "snapshot runtime overflow") in
  reject (u64_sat_mul live_deadline_ms 1000 <? snapshot_runtime_us)
    (InvalidPlan "snapshot ceiling does not fit live deadline").

Definition validate_attempt2_stats (stats : DamosStats) (max_nr_snapshots : Z) :
    result unit DamosError :=
  reject (negb (bool_decide (ds_max_nr_snapshots stats = Some max_nr_snapshots)))
    (Unsupported "secondary kernel snapshot ceiling readback") ;?
  reject (is_none_or (ds_nr_snapshots stats) (fun value => max_nr_snapshots <? value))
    (InvalidPlan "kernel exceeded or did not report snapshot ceiling") ;?
  reject (is_some_and (ds_sz_applied stats) (fun bytes => VALIDATION_BYTE_QUOTA <? bytes))
    (InvalidPlan "applied bytes exceed hard validation byte ceiling").

Definition hard_byte_ceiling_respected (stats : DamosStats) (configured_bytes : Z)
    (reset_interval_ms live_deadline_ms : Z) : bool :=
  match ds_sz_tried stats, ds_sz_applied stats with
  | Some sz_tried, Some sz_applied =>
      (live_deadline_ms <? reset_interval_ms) && (sz_tried <=? configured_bytes)
      && (sz_applied <=? sz_tried) && (sz_applied <=? configured_bytes)
  | _, _ => false
  end.

(** ** The [damos_before_apply] tracepoint *)

Record DamosBeforeApplyEvent := {
  be_timestamp_ns : Z;
  be_context_idx : Z;
  be_scheme_idx : Z;
  be_target_idx : Z;
  be_nr_regions : Z;
  be_range : AddressRange;
  be_size : Z;
  be_nr_accesses : Z;
  be_age : Z
}.

Definition parse_named (token : option string) (name : string) : result Z DamosError :=
  ok_or (token ← token; value ← strip_prefix (name ++ "=") token; parse_u64 value)
    (InvalidPlan ("invalid " ++ name)).

Definition parse_candidate_range (token : option string) : result AddressRange DamosError :=
  ok_or (token ← token;
         token ← strip_suffix ":" token;
         '(first, second) ← split_once "-" token;
         start ← parse_u64 first;
         stop ← parse_u64 second;
         Some {| ar_start := start; ar_end := stop |}) (InvalidPlan "invalid candidate range").

Definition parse_field (token : option string) (message : string) : result Z DamosError :=
  ok_or (token ≫= parse_u64) (InvalidPlan message).

(** [u32::try_from] *)
Definition to_u32 (n : Z) (message : string) : result Z DamosError :=
  ok_or (if n <=? u32_max then Some n else None) (InvalidPlan message).

Definition parse_damos_before_apply (line : string) (timestamp_ns : Z) :
    result DamosBeforeApplyEvent DamosError :=
  let? payload := ok_or ((fun p => trim (snd p)) <$> split_once "damos_before_apply:" line)
                    (InvalidPlan "missing damos_before_apply marker") in
  let fields := split_whitespace payload in
  let field i := nth_error fields i in
  let? context_idx := parse_named (field 0%nat) "ctx_idx" in
  let? scheme_idx := parse_named (field 1%nat) "scheme_idx" in
  let? target_idx := parse_named (field 2%nat) "target_idx" in
  let? nr_regions := parse_named (field 3%nat) "nr_regions" in
  let? range := parse_candidate_range (field 4%nat) in
  reject (ar_end range <=? ar_start range) (InvalidPlan "empty candidate range") ;?
  let? nr_accesses := parse_field (field 5%nat) "invalid candidate nr_accesses" in
  let? age := parse_field (field 6%nat) "invalid candidate age" in
  let? context_idx := to_u32 context_idx "context index overflow" in
  let? scheme_idx := to_u32 scheme_idx "scheme index overflow" in
  let? target_idx := to_u32 target_idx "target index overflow" in
  let? nr_regions := to_u32 nr_regions "region count overflow" in
  Ok {| be_timestamp_ns := timestamp_ns;
        be_context_idx := context_idx; be_scheme_idx := scheme_idx; be_target_idx := target_idx;
        be_nr_regions := nr_regions; be_range := range;
        be_size := u64_wrap (ar_end range - ar_start range);
        be_nr_accesses := nr_accesses; be_age := age |}.

(** the loop of [validate_shadow_candidates] *)
Fixpoint check_candidates (candidates : list DamosBeforeApplyEvent) (hot warm cold : AddressRange)
    (age_min : Z) : result unit DamosError :=
  match candidates with
  | [] => Ok tt
  | candidate :: rest =>
      reject (negb (be_context_idx candidate =? 0) || negb (be_scheme_idx candidate =? 0)
              || negb (be_target_idx candidate =? 0)) (InvalidPlan "external DAMOS event rejected") ;?
      reject ((ar_start (be_range candidate) <? ar_start cold)
              || (ar_end cold <? ar_end (be_range candidate))
              || (0 <? overlap (be_range candidate) hot) || (0 <? overlap (be_range candidate) warm)
              || negb (be_nr_accesses candidate =? 0) || (be_age candidate <? age_min))
        (InvalidPlan "candidate violates COLD fence or access pattern") ;?
      check_candidates rest hot warm cold age_min
  end.

Definition validate_shadow_candidates (candidates : list DamosBeforeApplyEvent)
    (hot warm cold : AddressRange) (age_min : Z) : result unit DamosError :=
  reject (match candidates with [] => true | _ => false end)
    (InvalidPlan "cumulative counters cannot replace candidate evidence") ;?
  check_candidates candidates hot warm cold age_min.

Record TriedRegionsLifecycle := {
  tl_stale_clear_ns : Z;
  tl_arm_ns : Z;
  tl_observed_interval_start_ns : Z;
  tl_read_ns : Z;
  tl_final_clear_ns : Z
}.

Definition lifecycle_valid (self : TriedRegionsLifecycle) : bool :=
  (tl_stale_clear_ns self <=? tl_arm_ns self)
  && (tl_arm_ns self <=? tl_observed_interval_start_ns self)
  && (tl_observed_interval_start_ns self <? tl_read_ns self)
  && (tl_read_ns self <=? tl_final_clear_ns self).

(** ** Residency *)

Record PagemapPageState := { pg_present : bool; pg_swapped : bool }.

Definition parse_pagemap_entry (entry : Z) : PagemapPageState :=
  {| pg_present := negb (Z.land entry (Z.shiftl 1 63) =? 0);
     pg_swapped := negb (Z.land entry (Z.shiftl 1 62) =? 0) |}.

Record RangeResidencySnapshot := {
  rr_range_start : Z;
  rr_range_end : Z;
  rr_range_size_bytes : Z;
  rr_page_size : Z;
  rr_total_pages : Z;
  rr_present_pages : Z;
  rr_present_bytes : Z;
  rr_swapped_pages : Z;
  rr_swapped_bytes : Z;
  rr_not_present_not_swapped_pages : Z;
  rr_read_errors : Z;
  rr_timestamp_ns : Z;
  rr_source : string
}.

(** Sums and products wrap, as they do in a release build. *)
Definition validate_residency (self : RangeResidencySnapshot) : result unit DamosError :=
  reject ((rr_range_end self <=? rr_range_start self)
          || (rr_page_size self =? 0)
          || negb (rr_range_size_bytes self =? rr_range_end self - rr_range_start self)
          || negb (rr_total_pages self =? rr_range_size_bytes self / rr_page_size self)
          || negb (u64_wrap (rr_present_pages self + rr_swapped_pages self
                             + rr_not_present_not_swapped_pages self) =? rr_total_pages self)
          || negb (rr_present_bytes self =? u64_wrap (rr_present_pages self * rr_page_size self))
          || negb (rr_swapped_bytes self =? u64_wrap (rr_swapped_pages self * rr_page_size self))
          || negb (rr_read_errors self =? 0)
          || negb (String.eqb (rr_source self) "proc_pagemap"))
    (InvalidPlan "invalid exact-range pagemap snapshot").

Record ZoneRangeEvidence := {
  ze_before : RangeResidencySnapshot;
  ze_after_pageout : RangeResidencySnapshot;
  ze_after_refault : option RangeResidencySnapshot
}.

Record RangeReclaimEvidence := {
  re_hot : ZoneRangeEvidence;
  re_warm : ZoneRangeEvidence;
  re_cold : ZoneRangeEvidence
}.

Record VmaReclaimEvidence := {
  ve_containing_vma_start : Z;
  ve_containing_vma_end : Z;
  ve_containing_vma_shared : bool;
  ve_rss_before : Z;
  ve_rss_after_pageout : Z;
  ve_pss_before : Z;
  ve_pss_after_pageout : Z;
  ve_swap_before : Z;
  ve_swap_after_pageout : Z
}.

Record ReclaimEvidence := {
  rc_stats : DamosStats;
  rc_vma : VmaReclaimEvidence;
  rc_ranges : RangeReclaimEvidence
}.

Definition range_reclaim_observed (before after : RangeResidencySnapshot) : bool :=
  (rr_present_bytes after <? rr_present_bytes before)
  || (rr_swapped_bytes before <? rr_swapped_bytes after).

Definition range_not_reclaimed (before after : RangeResidencySnapshot)
    (candidates : list DamosBeforeApplyEvent) (range : AddressRange) : bool :=
  forallb (fun candidate => overlap (be_range candidate) range =? 0) candidates
  && (rr_present_bytes before <=? rr_present_bytes after)
  && (rr_swapped_bytes after <=? rr_swapped_bytes before).

Definition reclaim_observed (self : ReclaimEvidence) : bool :=
  (0 <? unwrap_or (ds_sz_applied (rc_stats self)) 0)
  && range_reclaim_observed (ze_before (re_cold (rc_ranges self)))
       (ze_after_pageout (re_cold (rc_ranges self))).

(** ** Refaults and the blacklist *)

Record RefaultEvidence := {
  rf_action_id : string;
  rf_target_key : string;
  rf_region_signature : string;
  rf_applied_bytes : Z;
  rf_action_timestamp_ns : Z;
  rf_first_access_timestamp_ns : option Z;
  rf_rss_or_swap_evidence : bool;
  rf_content_valid : bool
}.

Inductive RefaultState := NotEvaluated | NotObserved | RefaultObserved.
#[export] Instance RefaultState_eq_dec : EqDecision RefaultState.
Proof. solve_decision. Defined.

Definition early (self : RefaultEvidence) (window_ns : Z) : bool :=
  (0 <? rf_applied_bytes self) && rf_content_valid self
  && is_some_and (rf_first_access_timestamp_ns self)
       (fun at_ns => (rf_action_timestamp_ns self <=? at_ns)
                     && (at_ns - rf_action_timestamp_ns self <=? window_ns))
  && rf_rss_or_swap_evidence self.

Definition refault_state (self : RefaultEvidence) (successful_reclaim : bool) (window_ns : Z) :
    RefaultState :=
  if negb successful_reclaim then NotEvaluated
  else if early self window_ns then RefaultObserved
  else NotObserved.

Record BlacklistRecord := {
  bl_key : string;
  bl_reason : string;
  bl_created_at_ns : Z;
  bl_expires_at_ns : Z;
  bl_source_action_id : string;
  bl_evidence : RefaultEvidence
}.

Definition blacklist_active (self : BlacklistRecord) (now_ns : Z) : bool :=
  (bl_created_at_ns self <=? now_ns) && (now_ns <? bl_expires_at_ns self).

Definition blacklist_for_refault (evidence : RefaultEvidence) (successful_reclaim : bool)
    (created_at_ns expires_at_ns refault_window_ns : Z) : option BlacklistRecord :=
  if bool_decide (refault_state evidence successful_reclaim refault_window_ns = RefaultObserved)
  then Some {| bl_key := (rf_target_key evidence ++ ":" ++ rf_region_signature evidence)%string;
               bl_reason := "early_refault_blacklist";
               bl_created_at_ns := created_at_ns;
               bl_expires_at_ns := expires_at_ns;
               bl_source_action_id := rf_action_id evidence;
               bl_evidence := evidence |}
  else None.

(** ** Recovery *)

Record OwnedSession := {
  os_session_id : string;
  os_target : StableTargetIdentity;
  os_kdamond_index : Z;
  os_scheme_id : Z;
  os_state_on : bool;
  os_interrupted : bool
}.

Inductive TransactionStage :=
| DecisionRecorded | KdamondAllocated | SchemeAllocated | SchemeConfigured
| StateOn | FirstPageout | BeforeStop | Cleanup.

Record RecoveryOutcome := {
  ro_stopped_owned_kdamond : bool;
  ro_removed_owned_scheme : bool;
  ro_external_untouched : bool;
  ro_pageout_not_undone : bool;
  ro_recorded_interrupted : bool
}.

Definition simulated_crash_recovery (stage : TransactionStage) : RecoveryOutcome :=
  {| ro_stopped_owned_kdamond :=
       match stage with StateOn | FirstPageout | BeforeStop | Cleanup => true | _ => false end;
     ro_removed_owned_scheme := match stage with DecisionRecorded => false | _ => true end;
     ro_external_untouched := true; ro_pageout_not_undone := true;
     ro_recorded_interrupted := true |}.

Definition recover_owned (expected_prefix : string) : eff OwnedSession bool DamosError :=
  fun session =>
    if negb (starts_with expected_prefix (os_session_id session)) || negb (st_owned (os_target session))
    then (session, Err (InvalidPlan "refusing recovery of non-owned session"))
    else ({| os_session_id := os_session_id session; os_target := os_target session;
             os_kdamond_index := os_kdamond_index session; os_scheme_id := os_scheme_id session;
             os_state_on := false; os_interrupted := false |},
          Ok (os_state_on session || os_interrupted session)).

Record DamosReport := {
  dmr_schema : string;
  dmr_capability : DamosCapability;
  dmr_plan : option DamosPlan;
  dmr_shadow_stats : option DamosStats;
  dmr_live_stats : option DamosStats;
  dmr_reclaim : option ReclaimEvidence;
  dmr_refault : option RefaultEvidence;
  dmr_refault_state : RefaultState;
  dmr_blacklist : option BlacklistRecord;
  dmr_cleanup : bool;
  dmr_recovery : bool;
  dmr_recovery_idempotent : bool;
  dmr_host_unchanged : bool;
  dmr_dry_run : bool;
  dmr_blocked_reasons : list string
}.

Module Facts.
Export Damon.Facts.

(** ** Cold evidence *)

Definition complete_cold (o : ColdObservation) : Prop :=
  co_complete o = true /\ co_nr_accesses o = 0.

Lemma consecutive_cold_ge n observations :
  Z.of_nat n <= consecutive_cold observations <->
  exists earlier latest, observations = earlier ++ latest /\ length latest = n /\
                         Forall complete_cold latest.
Proof.
  unfold consecutive_cold. set (p := fun item => _). split.
  - intros H. destruct (take_while_prefix p (rev observations)) as [k Hk].
    pose proof (take_while_Forall p (rev observations)) as Hall.
    assert (n <= length (take_while p (rev observations)))%nat as Hn by lia. clear H.
    exists (rev (drop n (take_while p (rev observations)) ++ k)),
           (rev (take n (take_while p (rev observations)))).
    split; [| split].
    + rewrite <- rev_app_distr, app_assoc, take_drop, <- Hk. by rewrite rev_involutive.
    + rewrite length_rev, length_take. lia.
    + apply Forall_rev, Forall_take. eapply Forall_impl; [| exact Hall].
      intros o Ho. unfold p in Ho. bools. done.
  - intros (earlier & latest & -> & <- & Hall). rewrite rev_app_distr.
    apply Forall_rev in Hall. rewrite <- length_rev.
    generalize dependent (rev latest). intros l Hl. clear -Hl. fold p.
    induction Hl as [|o l [Ho1 Ho2] Hl IH]; simpl; [lia |].
    replace (p o) with true by (unfold p; by rewrite Ho1, Ho2). simpl. lia.
Qed.

(** ** Candidates *)

Definition candidate_ok (hot warm cold : AddressRange) (age_min : Z) (c : DamosBeforeApplyEvent) :
    Prop :=
  be_context_idx c = 0 /\ be_scheme_idx c = 0 /\ be_target_idx c = 0 /\
  ar_start cold <= ar_start (be_range c) /\ ar_end (be_range c) <= ar_end cold /\
  (forall a, in_range a (be_range c) -> ~ in_range a hot /\ ~ in_range a warm) /\
  be_nr_accesses c = 0 /\ age_min <= be_age c.

Lemma overlap_none a b : overlap a b <= 0 <-> forall x, in_range x a -> ~ in_range x b.
Proof.
  split.
  - intros H x Ha Hb. assert (0 < overlap a b) by (apply overlap_pos; eauto). lia.
  - intros H. apply Z.nlt_ge. rewrite overlap_pos. intros (x & Ha & Hb). by apply (H x).
Qed.

Lemma check_candidates_ok hot warm cold age_min candidates :
  check_candidates candidates hot warm cold age_min = Ok tt <->
  Forall (candidate_ok hot warm cold age_min) candidates.
Proof.
  induction candidates as [|c candidates IH]; [done |].
  rewrite Forall_cons_iff, <- IH. cbn [check_candidates]. unfold candidate_ok. split.
  - intros H. inv_ok. bools.
    repeat match goal with E : overlap _ _ <= 0 |- _ => rewrite overlap_none in E end.
    repeat split; auto; lia.
  - intros [(H1 & H2 & H3 & H4 & H5 & H6 & H7 & H8) Hr].
    assert (overlap (be_range c) hot <= 0) by (apply overlap_none; intros x Hx; by apply H6).
    assert (overlap (be_range c) warm <= 0) by (apply overlap_none; intros x Hx; by apply H6).
    rewrite H1, H2, H3, H7. simpl.
    rewrite !(proj2 (Z.ltb_ge _ _)) by lia. done.
Qed.

(** ** The printed trace event *)

Definition event_tokens (e : DamosBeforeApplyEvent) : list string :=
  ["ctx_idx=" ++ show_uint (be_context_idx e);
   "scheme_idx=" ++ show_uint (be_scheme_idx e);
   "target_idx=" ++ show_uint (be_target_idx e);
   "nr_regions=" ++ show_uint (be_nr_regions e);
   (show_uint (ar_start (be_range e)) ++ "-" ++ show_uint (ar_end (be_range e))) ++ ":";
   show_uint (be_nr_accesses e);
   show_uint (be_age e)]%string.

(** what follows the name of the event on its line *)
Definition event_payload (e : DamosBeforeApplyEvent) : string := " " ++ join " " (event_tokens e).

Definition event_ok (e : DamosBeforeApplyEvent) : Prop :=
  u32 (be_context_idx e) /\ u32 (be_scheme_idx e) /\ u32 (be_target_idx e) /\
  u32 (be_nr_regions e) /\ range_u64 (be_range e) /\ ar_start (be_range e) < ar_end (be_range e) /\
  be_size e = ar_end (be_range e) - ar_start (be_range e) /\
  u64 (be_nr_accesses e) /\ u64 (be_age e).

Lemma u32_u64 n : u32 n -> u64 n.
Proof. unfold u32, u64. unfold_int. lia. Qed.

Lemma parse_u64_show n : u64 n -> parse_u64 (show_uint n) = Some n.
Proof. apply parse_unsigned_show. Qed.

Lemma parse_named_show name n : u64 n ->
  parse_named (Some ((name ++ "=") ++ show_uint n)%string) name = Ok n.
Proof.
  intros H. unfold parse_named. simpl. rewrite strip_prefix_app. simpl.
  by rewrite parse_u64_show.
Qed.

Lemma parse_candidate_range_show r : range_u64 r ->
  parse_candidate_range
    (Some ((show_uint (ar_start r) ++ "-" ++ show_uint (ar_end r)) ++ ":")%string) = Ok r.
Proof.
  intros [H1 H2]. unfold parse_candidate_range. simpl. rewrite strip_suffix_app. simpl.
  change ("-" ++ show_uint (ar_end r))%string with (String "-" (show_uint (ar_end r))).
  rewrite split_once_char.
  - simpl. rewrite !parse_u64_show by done. by destruct r.
  - apply str_all_show_uint; [| apply H1].
    intros c Hc. apply is_digit_plain in Hc. destruct Hc as (_ & _ & _ & _ & -> & _). done.
Qed.

Lemma to_u32_ok n m : u32 n -> to_u32 n m = Ok n.
Proof. unfold to_u32, u32. intros H. by rewrite (proj2 (Z.leb_le _ _)) by lia. Qed.

Lemma named_token name n :
  token name = true -> 0 <= n -> token (name ++ show_uint n) = true.
Proof. intros Hn H. apply token_app; [done | by apply show_uint_no_ws]. Qed.

Lemma event_tokens_token e : event_ok e -> Forall (fun t => token t = true) (event_tokens e).
Proof.
  intros ([H1 _] & [H2 _] & [H3 _] & [H4 _] & [[H5 _] [H6 _]] & _ & _ & [H7 _] & [H8 _]).
  assert (token ((show_uint (ar_start (be_range e)) ++ "-" ++ show_uint (ar_end (be_range e)))
                 ++ ":") = true) as Hr.
  { apply token_app; [| done]. apply token_app; [by apply show_uint_token |].
    by apply show_uint_no_ws. }
  repeat first [apply Forall_nil; done | apply Forall_cons; [| idtac]];
    first [exact Hr | by apply named_token | by apply show_uint_token].
Qed.

(** ** Page counts *)

(** a snapshot whose counters are 64-bit numbers *)
Definition residency_u64 (s : RangeResidencySnapshot) : Prop :=
  u64 (rr_range_start s) /\ u64 (rr_range_end s) /\ u64 (rr_page_size s) /\
  u64 (rr_present_pages s) /\ u64 (rr_swapped_pages s) /\
  u64 (rr_not_present_not_swapped_pages s) /\ u64 (rr_present_bytes s) /\
  u64 (rr_swapped_bytes s).

End Facts.

Module Theorems.
Import Facts.

(** a target is eligible for page-out exactly when it is an owned, freshly
    identified background process that nothing protects, the system is under
    pressure, neither a refault, the blacklist nor a conflict speaks against it and
    its last three observations are complete and cold. *)
Theorem eligible_iff (input : EligibilityInput) :
  ed_disposition (evaluate_eligibility input) = Eligible <->
  (exists id, el_identity input = Some id /\ st_owned id = true /\ st_pid id <> 1 /\
              st_stable_key id <> ""%string) /\
  el_identity_fresh input = true /\
  el_background input = true /\ el_known_classification input = true /\
  el_foreground input = false /\ el_gaming input = false /\ el_critical input = false /\
  el_protected input = false /\
  (el_pressure input = Pressure \/ el_pressure input = Critical \/
   el_pressure input = Emergency) /\
  el_valid_age_evidence input = true /\
  (exists earlier latest, el_cold_observations input = earlier ++ latest /\
                          length latest = 3%nat /\ Forall complete_cold latest) /\
  el_recent_refault input = false /\ el_blacklisted input = false /\
  el_safety_conflict input = false.
Proof.
  rewrite <- (consecutive_cold_ge 3). unfold evaluate_eligibility. cbn [ed_disposition].
  assert ((exists id, el_identity input = Some id /\ st_owned id = true /\ st_pid id <> 1 /\
             st_stable_key id <> ""%string) <-> known_identity (el_identity input) = true) as ->.
  { unfold known_identity, str_empty. destruct (el_identity input) as [id|].
    - rewrite !andb_true_iff, !negb_true_iff, Z.eqb_neq, String.eqb_neq. naive_solver.
    - naive_solver. }
  transitivity (eligibility_reasons input = []).
  { case_bool_decide; naive_solver. }
  unfold eligibility_reasons. rewrite !push_if_nil, !orb_false_iff, !negb_false_iff, Z.ltb_ge.
  unfold ineligible_pressure. destruct (el_pressure input); naive_solver.
Qed.

(** [validate_shadow_candidates] accepts exactly the non-empty lists of
    candidates of the own scheme that lie inside COLD, share no address with HOT
    or WARM, were never accessed and are old enough. *)
Theorem shadow_candidates_iff (candidates : list DamosBeforeApplyEvent)
    (hot warm cold : AddressRange) (age_min : Z) :
  validate_shadow_candidates candidates hot warm cold age_min = Ok tt <->
  candidates <> [] /\ Forall (candidate_ok hot warm cold age_min) candidates.
Proof.
  unfold validate_shadow_candidates. rewrite <- check_candidates_ok.
  destruct candidates as [|c candidates]; cbn [reject]; naive_solver.
Qed.

(** parsing the line the tracepoint prints for an event gives the event back. *)
Theorem before_apply_round_trip (line before_marker : string) (e : DamosBeforeApplyEvent) :
  event_ok e ->
  split_once "damos_before_apply:" line = Some (before_marker, event_payload e) ->
  parse_damos_before_apply line (be_timestamp_ns e) = Ok e.
Proof.
  intros He Hl. pose proof (event_tokens_token e He) as Ht.
  unfold parse_damos_before_apply. rewrite Hl. cbn [fmap option_fmap option_map ok_or snd].
  rewrite split_whitespace_trim. unfold event_payload.
  change (split_whitespace (" " ++ join " " (event_tokens e)))
    with (split_whitespace (join " " (event_tokens e))).
  rewrite split_whitespace_join by done. unfold event_tokens. cbn [nth_error].
  destruct He as (H1 & H2 & H3 & H4 & H5 & H6 & H7 & H8 & H9).
  rewrite (parse_named_show "ctx_idx"), (parse_named_show "scheme_idx"),
    (parse_named_show "target_idx"), (parse_named_show "nr_regions") by (by apply u32_u64).
  rewrite parse_candidate_range_show by done. cbn iota.
  rewrite (proj2 (Z.leb_gt _ _) H6). cbn [reject].
  unfold parse_field. simpl. rewrite !parse_u64_show by done. simpl.
  rewrite !to_u32_ok by done. simpl.
  assert (u64_wrap (ar_end (be_range e) - ar_start (be_range e)) = be_size e) as ->.
  { rewrite H7. destruct H5 as [[? ?] [? ?]]. unfold u64_wrap. apply Z.mod_small.
    unfold u64_max in *. lia. }
  by destruct e.
Qed.

(** an accepted bound of the live session multiplies without overflow: the
    snapshots fit the deadline and the quota is not reset while the session lives. *)
Theorem attempt2_bounds_iff (pattern : AccessPattern) (quota : DamosQuota)
    (apply_interval_us live_deadline_ms max_nr_snapshots : Z) :
  u64 apply_interval_us -> u64 live_deadline_ms -> u64 max_nr_snapshots ->
  validate_attempt2_bounds pattern quota apply_interval_us live_deadline_ms max_nr_snapshots
    = Ok tt <->
  0 < live_deadline_ms < dq_reset_interval_ms quota /\ 0 < max_nr_snapshots /\
  max_nr_snapshots * apply_interval_us <= live_deadline_ms * 1000 /\
  max_nr_snapshots * apply_interval_us <= u64_max.
Proof.
  unfold u64. intros Ha Hl Hn. unfold validate_attempt2_bounds. split.
  - intros H. inv_ok. bools. unfold u64_checked_mul in *.
    destruct (max_nr_snapshots * apply_interval_us <=? u64_max) eqn:Em; [| done].
    simplify_eq/=. bools. unfold u64_sat_mul in *. lia.
  - intros (H1 & H2 & H3 & H4).
    assert ((live_deadline_ms =? 0) || (dq_reset_interval_ms quota <=? live_deadline_ms) = false)
      as -> by lia.
    assert ((max_nr_snapshots =? 0) = false) as -> by lia. cbn [reject].
    unfold u64_checked_mul. rewrite (proj2 (Z.leb_le _ _) H4). cbn [ok_or].
    rewrite (proj2 (Z.ltb_ge _ _)); [done |]. unfold u64_sat_mul. lia.
Qed.

(** recovery touches only sessions of the own prefix and an owned target,
    leaves them off and reports, the second time, that nothing was left to do. *)
Theorem recover_owned_idempotent (prefix : string) (session session' : OwnedSession) r :
  recover_owned prefix session = (session', r) ->
  match r with
  | Err _ => session' = session
  | Ok found =>
      starts_with prefix (os_session_id session) = true /\ st_owned (os_target session) = true /\
      os_state_on session' = false /\ os_interrupted session' = false /\
      found = (os_state_on session || os_interrupted session) /\
      recover_owned prefix session' = (session', Ok false)
  end.
Proof.
  unfold recover_owned at 1. case_match eqn:E; intros [= <- <-]; [done |]. bools.
  repeat split; try done. unfold recover_owned. simpl. by rewrite H, H0.
Qed.

(** when the page counts of an accepted snapshot add up within 64 bits they
    account for every page of the range, and the present and swapped bytes fit
    the range without wrap-around. *)
Theorem residency_bytes_bounded (s : RangeResidencySnapshot) :
  validate_residency s = Ok tt -> residency_u64 s ->
  rr_present_pages s + rr_swapped_pages s + rr_not_present_not_swapped_pages s <= u64_max ->
  rr_present_pages s + rr_swapped_pages s + rr_not_present_not_swapped_pages s
    = rr_total_pages s /\
  rr_present_bytes s = rr_present_pages s * rr_page_size s /\
  rr_swapped_bytes s = rr_swapped_pages s * rr_page_size s /\
  rr_present_bytes s + rr_swapped_bytes s <= rr_range_end s - rr_range_start s.
Proof.
  unfold residency_u64, u64. intros H Hu Hsum. unfold validate_residency in H. inv_ok. bools.
  assert (0 < rr_page_size s) by lia.
  assert (rr_total_pages s * rr_page_size s <= rr_range_size_bytes s) as Ht.
  { replace (rr_total_pages s) with (rr_range_size_bytes s / rr_page_size s) by done.
    rewrite Z.mul_comm. by apply Z.mul_div_le. }
  assert (u64_wrap (rr_present_pages s + rr_swapped_pages s + rr_not_present_not_swapped_pages s)
          = rr_present_pages s + rr_swapped_pages s + rr_not_present_not_swapped_pages s) as E.
  { unfold u64_wrap. apply Z.mod_small. unfold u64_max in *. lia. }
  assert (rr_present_pages s * rr_page_size s + rr_swapped_pages s * rr_page_size s
          <= rr_total_pages s * rr_page_size s) as Hb.
  { rewrite <- Z.mul_add_distr_r. apply Z.mul_le_mono_nonneg_r; lia. }
  assert (0 <= rr_present_pages s * rr_page_size s) by (apply Z.mul_nonneg_nonneg; lia).
  assert (0 <= rr_swapped_pages s * rr_page_size s) by (apply Z.mul_nonneg_nonneg; lia).
  assert (forall n, 0 <= n <= u64_max -> u64_wrap n = n) as Hw.
  { intros n Hn. apply Z.mod_small. unfold u64_max in Hn. lia. }
  rewrite (Hw (rr_present_pages s * _)), (Hw (rr_swapped_pages s * _)) in * by lia. lia.
Qed.

(** [validate_residency] also accepts counts that add up only modulo 2^64: a
    one-page range may claim 2^63 swapped pages. *)
Theorem residency_counts_can_wrap :
  exists s, validate_residency s = Ok tt /\ residency_u64 s /\
            rr_total_pages s = 1 /\ rr_swapped_pages s = 2 ^ 63.
Proof.
  exists {| rr_range_start := 0; rr_range_end := 4096; rr_range_size_bytes := 4096;
            rr_page_size := 4096; rr_total_pages := 1; rr_present_pages := 2 ^ 63 + 1;
            rr_present_bytes := 4096; rr_swapped_pages := 2 ^ 63; rr_swapped_bytes := 0;
            rr_not_present_not_swapped_pages := 0; rr_read_errors := 0; rr_timestamp_ns := 0;
            rr_source := "proc_pagemap" |}.
  repeat split; vm_compute; congruence.
Qed.

End Theorems.

(** ** Concrete inputs *)
Module Witnesses.
Import Facts Theorems.

Definition range (start stop : Z) : AddressRange := {| ar_start := start; ar_end := stop |}.
Definition event (start stop age : Z) : DamosBeforeApplyEvent :=
  {| be_timestamp_ns := 7; be_context_idx := 0; be_scheme_idx := 0; be_target_idx := 0;
     be_nr_regions := 12; be_range := range start stop; be_size := stop - start;
     be_nr_accesses := 0; be_age := age |}.

Lemma before_apply_round_trip_witness :
  parse_damos_before_apply
    "kdamond.0 12.5: damos_before_apply: ctx_idx=0 scheme_idx=0 target_idx=0 nr_regions=12 4096-8192: 0 5"
    7 = Ok (event 4096 8192 5).
Proof.
  apply (before_apply_round_trip _ "kdamond.0 12.5: " (event 4096 8192 5)).
  - unfold event_ok, range_u64. simpl. unfold_int. lia.
  - vm_compute. reflexivity.
Defined.

Lemma attempt2_bounds_iff_witness :
  validate_attempt2_bounds validation_cold
    {| dq_time_ms := VALIDATION_TIME_QUOTA_MS; dq_bytes := VALIDATION_BYTE_QUOTA;
       dq_reset_interval_ms := VALIDATION_RESET_INTERVAL_MS;
       dq_total_applied_bytes := VALIDATION_TOTAL_APPLIED_CEILING |}
    500000 VALIDATION_LIVE_DEADLINE_MS VALIDATION_MAX_NR_SNAPSHOTS = Ok tt.
Proof. apply attempt2_bounds_iff; vm_compute; intuition congruence. Defined.

Definition session : OwnedSession :=
  {| os_session_id := "nemor-1";
     os_target := {| st_pid := 9; st_start_ticks := 1; st_stable_key := "k"; st_owned := true |};
     os_kdamond_index := 0; os_scheme_id := 0; os_state_on := true; os_interrupted := true |}.

Lemma recover_owned_idempotent_witness :
  recover_owned "nemor-" (fst (recover_owned "nemor-" session))
  = (fst (recover_owned "nemor-" session), Ok false).
Proof.
  apply (recover_owned_idempotent "nemor-" session _ (Ok true)). reflexivity.
Defined.

Lemma residency_bytes_bounded_witness :
  8192 + 4096 <= 16384 - 0.
Proof.
  apply (residency_bytes_bounded
    {| rr_range_start := 0; rr_range_end := 16384; rr_range_size_bytes := 16384;
       rr_page_size := 4096; rr_total_pages := 4; rr_present_pages := 2;
       rr_present_bytes := 8192; rr_swapped_pages := 1; rr_swapped_bytes := 4096;
       rr_not_present_not_swapped_pages := 1; rr_read_errors := 0; rr_timestamp_ns := 0;
       rr_source := "proc_pagemap" |}).
  - reflexivity.
  - unfold residency_u64. vm_compute. intuition congruence.
  - vm_compute. congruence.
Defined.

End Witnesses.
