(* ===== verification/Ksm.v ===== *)
(** crates/ksm/src/lib.rs: the kernel's same-page merging. What /sys and /proc report,
    who is eligible, the protocol of a validation session, the address scope that
    must be mergeable and nothing else, the profit controller and the recovery of an
    owned scanner over an abstract backend. *)

From S2P Require Import Prelude F64 Text Config Actuator Policy Damon.

Definition RULE_VERSION : string := "selective-ksm-v1".
Definition REPORT_SCHEMA : string := "nemor-ksm-report-v1".
Definition AUDIT_REASON : string := "ksm_observe_audit".
Definition PAGE_SIZE : Z := 4096.
Definition VALIDATION_MIN_SAVED_BYTES : Z := 8 * 1024 * 1024.
Definition VALIDATION_CPU_BUDGET_PERCENT : f64 := f64_of_Z 1.
Definition VALIDATION_CPU_RESOLUTION_PERCENT : f64 := f64_lit 25 100.

(** ** The CPU budget *)

Record CpuWindowMeasurement := {
  cw_window_seconds : f64;
  cw_cpu_tick_delta : Z;
  cw_cpu_seconds_delta : f64;
  cw_cpu_percent : f64;
  cw_measurement_resolution_percent : f64;
  cw_resolution_valid : bool;
  cw_budget_exceeded : option bool
}.

Definition minimum_cpu_budget_window_seconds (clk_tck : Z) : option f64 :=
  then_some (0 <? clk_tck)
    (f64_div (f64_of_Z 100) (f64_mul (f64_of_Z clk_tck) VALIDATION_CPU_RESOLUTION_PERCENT)).

Definition measure_cpu_window (tick_delta : Z) (window_seconds : f64) (clk_tck : Z) :
    option CpuWindowMeasurement :=
  if (clk_tck =? 0) || negb (f64_is_finite window_seconds) || f64_le window_seconds f64_zero
  then None
  else
    let cpu_tick_seconds := f64_div f64_one (f64_of_Z clk_tck) in
    let cpu_seconds_delta := f64_mul (f64_of_Z tick_delta) cpu_tick_seconds in
    let cpu_percent := f64_mul (f64_div cpu_seconds_delta window_seconds) (f64_of_Z 100) in
    let resolution := f64_div (f64_mul (f64_of_Z 100) cpu_tick_seconds) window_seconds in
    let resolution_valid := f64_le resolution VALIDATION_CPU_RESOLUTION_PERCENT in
    Some {| cw_window_seconds := window_seconds;
            cw_cpu_tick_delta := tick_delta;
            cw_cpu_seconds_delta := cpu_seconds_delta;
            cw_cpu_percent := cpu_percent;
            cw_measurement_resolution_percent := resolution;
            cw_resolution_valid := resolution_valid;
            cw_budget_exceeded :=
              then_some resolution_valid (f64_gt cpu_percent VALIDATION_CPU_BUDGET_PERCENT) |}.

Inductive KsmError :=
| Unsupported (message : string)
| Unsafe (message : string)
| Invalid (message : string)
| Io (message : string).

(** ** Capability *)

Record KsmCapability := {
  kc_supported : bool;
  kc_sysfs_available : bool;
  kc_sysfs_readable : bool;
  kc_sysfs_writable : bool;
  kc_run_supported : bool;
  kc_scanner_fields : gmap string bool;
  kc_advisor_fields : gmap string bool;
  kc_metric_fields : gmap string bool;
  kc_process_ksm_stat_available : bool;
  kc_madv_mergeable_supported : option bool;
  kc_madv_unmergeable_supported : option bool;
  kc_prctl_memory_merge_supported : option bool;
  kc_existing_run_state : option Z;
  kc_existing_external_mergeable_processes : Z;
  kc_existing_pages_shared : option Z;
  kc_existing_pages_sharing : option Z;
  kc_external_live_ksm_activity : bool;
  kc_residual_global_ksm_accounting : bool;
  kc_external_ksm_activity : bool;
  kc_notes : list string
}.

(** what the file system answers beyond [Files] *)
Record KsmFiles := {
  kf_fs : Files;
  kf_is_file : string -> bool;                  (* [Path::is_file] *)
  kf_metadata : string -> option (Z * Z);       (* [fs::metadata]: owner and mode *)
  kf_error_text : ErrorKind -> string           (* [Display] of an I/O error *)
}.

Definition read_optional_u64 (fs : KsmFiles) (root name : string) : option Z :=
  match file_text (kf_fs fs) (path_join root name) with
  | Ok text => parse_u64 (trim text)
  | Err _ => None
  end.

Definition current_selection (value : string) : string :=
  unwrap_or
    (find_map (fun item => strip_prefix "[" item ≫= strip_suffix "]") (split_whitespace value))
    (trim value).

Definition effective_uid (fs : KsmFiles) : option Z :=
  match file_text (kf_fs fs) "/proc/self/status" with
  | Err _ => None
  | Ok text =>
      fields ← find_map (strip_prefix "Uid:") (lines text);
      second ← nth_error (split_whitespace fields) 1;
      parse_u32 second
  end.

Definition path_writable_by_current_user (fs : KsmFiles) (path : string) : bool :=
  match kf_metadata fs path, effective_uid fs with
  | Some (owner, mode), Some uid =>
      (uid =? 0) || ((uid =? owner) && negb (Z.land mode 128 =? 0))
      || negb (Z.land mode 2 =? 0)
  | _, _ => false
  end.

Definition flags_of (present : string -> bool) (names : list string) : gmap string bool :=
  list_to_map (map (fun name => (name, present name)) names).

Definition to_u8 (n : Z) : option Z := if n <=? u8_max then Some n else None.

Definition inspect_capability (fs : KsmFiles) (root : string) (process_stat_available : bool) :
    KsmCapability :=
  let names := unwrap_or (dir_entries (kf_fs fs) root) [] in
  let fields : gset string := list_to_set (map fst names) in
  let present name := bool_decide (name ∈ fields) in
  let run := read_optional_u64 fs root "run" ≫= to_u8 in
  let pages_shared := read_optional_u64 fs root "pages_shared" in
  let pages_sharing := read_optional_u64 fs root "pages_sharing" in
  {| kc_supported := is_dir (kf_fs fs) root && present "run"%string;
     kc_sysfs_available := is_dir (kf_fs fs) root;
     kc_sysfs_readable :=
       kf_is_file fs (path_join root "run")
       && is_ok (file_text (kf_fs fs) (path_join root "run"));
     kc_sysfs_writable := path_writable_by_current_user fs (path_join root "run");
     kc_run_supported := present "run"%string;
     kc_scanner_fields :=
       flags_of present ["pages_to_scan"; "sleep_millisecs"; "smart_scan"]%string;
     kc_advisor_fields :=
       flags_of present
         ["advisor_mode"; "advisor_max_cpu"; "advisor_target_scan_time";
          "advisor_min_pages_to_scan"; "advisor_max_pages_to_scan"]%string;
     kc_metric_fields :=
       flags_of present
         ["general_profit"; "pages_scanned"; "pages_shared"; "pages_sharing"; "pages_unshared";
          "pages_volatile"; "pages_skipped"; "full_scans"; "stable_node_chains";
          "stable_node_dups"; "ksm_zero_pages"]%string;
     kc_process_ksm_stat_available := process_stat_available;
     kc_madv_mergeable_supported := None;
     kc_madv_unmergeable_supported := None;
     kc_prctl_memory_merge_supported := None;
     kc_existing_run_state := run;
     kc_existing_external_mergeable_processes := 0;
     kc_existing_pages_shared := pages_shared;
     kc_existing_pages_sharing := pages_sharing;
     kc_external_live_ksm_activity := false;
     kc_residual_global_ksm_accounting :=
       bool_decide (run = Some 0)
       && ((0 <? unwrap_or pages_shared 0) || (0 <? unwrap_or pages_sharing 0));
     kc_external_ksm_activity := negb (bool_decide (run = Some 0));
     kc_notes := [] |}.

(** ** Metrics *)

Record KsmSystemMetrics := {
  km_timestamp_ns : Z;
  km_run : option Z;
  km_pages_to_scan : option Z;
  km_sleep_millisecs : option Z;
  km_pages_scanned : option Z;
  km_pages_shared : option Z;
  km_pages_sharing : option Z;
  km_pages_unshared : option Z;
  km_pages_volatile : option Z;
  km_pages_skipped : option Z;
  km_full_scans : option Z;
  km_ksm_zero_pages : option Z;
  km_general_profit : option Z;
  km_stable_node_chains : option Z;
  km_stable_node_dups : option Z;
  km_cow_ksm : option Z;
  km_ksm_swpin_copy : option Z;
  km_ksmd_cpu_ticks : option Z
}.

(** a later line of the same key replaces an earlier one *)
Definition parse_vmstat_line (line : string) : option (string * Z) :=
  match split_whitespace line with
  | key :: rest =>
      if contains_str ["cow_ksm"; "ksm_swpin_copy"]%string key
      then match rest with value :: _ => n ← parse_u64 value; Some (key, n) | [] => None end
      else None
  | [] => None
  end.
Definition parse_vmstat_ksm (text : string) : gmap string Z :=
  foldl (fun m line => match parse_vmstat_line line with
                       | Some (key, n) => <[key := n]> m
                       | None => m
                       end) ∅ (lines text).

Definition parse_system_metrics (fs : KsmFiles) (root vmstat : string) (timestamp_ns : Z) :
    KsmSystemMetrics :=
  let read := read_optional_u64 fs root in
  let vm := parse_vmstat_ksm vmstat in
  {| km_timestamp_ns := timestamp_ns;
     km_run := read "run"%string;
     km_pages_to_scan := read "pages_to_scan"%string;
     km_sleep_millisecs := read "sleep_millisecs"%string;
     km_pages_scanned := read "pages_scanned"%string;
     km_pages_shared := read "pages_shared"%string;
     km_pages_sharing := read "pages_sharing"%string;
     km_pages_unshared := read "pages_unshared"%string;
     km_pages_volatile := read "pages_volatile"%string;
     km_pages_skipped := read "pages_skipped"%string;
     km_full_scans := read "full_scans"%string;
     km_ksm_zero_pages := read "ksm_zero_pages"%string;
     km_general_profit :=
       match file_text (kf_fs fs) (path_join root "general_profit") with
       | Ok text => parse_i64 (trim text)
       | Err _ => None
       end;
     km_stable_node_chains := read "stable_node_chains"%string;
     km_stable_node_dups := read "stable_node_dups"%string;
     km_cow_ksm := vm !! "cow_ksm"%string;
     km_ksm_swpin_copy := vm !! "ksm_swpin_copy"%string;
     km_ksmd_cpu_ticks := None |}.

Record StableProcessIdentity := {
  sp_pid : Z;
  sp_start_ticks : Z;
  sp_stable_key : string
}.

Definition owned_validation_identity (session_id : string) (pid start_ticks : Z) :
    StableProcessIdentity :=
  {| sp_pid := pid;
     sp_start_ticks := start_ticks;
     sp_stable_key := ("nemor-owned:" ++ session_id ++ ":" ++ show_uint pid ++ ":"
                       ++ show_uint start_ticks)%string |}.

Inductive KsmProfileKind := Vm | Browser | Electron | Synthetic | UnknownProfile.
#[export] Instance KsmProfileKind_eq_dec : EqDecision KsmProfileKind.
Proof. solve_decision. Defined.

Record KsmProcessMetrics := {
  kp_identity : StableProcessIdentity;
  kp_profile : option KsmProfileKind;
  kp_ksm_rmap_items : option Z;
  kp_ksm_zero_pages : option Z;
  kp_ksm_merging_pages : option Z;
  kp_ksm_process_profit : option Z;
  kp_ksm_merge_any : option bool;
  kp_ksm_mergeable : option bool;
  kp_current_mapped_ksm_bytes : option Z;
  kp_residual_accounting : bool;
  kp_rss_bytes : option Z;
  kp_pss_bytes : option Z
}.

(** [None] as soon as a [KSM:] line does not parse *)
Fixpoint smaps_ksm_loop (ls : list string) (found : bool) (total : Z) : option Z :=
  match ls with
  | [] => then_some found total
  | line :: rest =>
      match strip_prefix "KSM:" line with
      | None => smaps_ksm_loop rest found total
      | Some value =>
          item ← head (split_whitespace value);
          kib ← parse_u64 item;
          smaps_ksm_loop rest true (u64_sat_add total (u64_sat_mul kib 1024))
      end
  end.
Definition parse_smaps_ksm_bytes (text : string) : option Z :=
  smaps_ksm_loop (lines text) false 0.

Definition parse_yes_no (value : string) : option bool :=
  if contains_str ["yes"; "1"; "Y"]%string (trim value) then Some true
  else if contains_str ["no"; "0"; "N"]%string (trim value) then Some false
  else None.

(** [replace(':', " ")] *)
Fixpoint colons_to_spaces (s : string) : string :=
  match s with
  | EmptyString => EmptyString
  | String c s' => String (if Ascii.eqb c ":" then " "%char else c) (colons_to_spaces s')
  end.

Definition stat_values (text : string) : gmap string string :=
  foldl (fun m line => match split_whitespace (colons_to_spaces line) with
                       | key :: value :: _ => <[key := value]> m
                       | _ => m
                       end) ∅ (lines text).

Definition parse_process_ksm_stat (text : string) (identity : StableProcessIdentity) :
    KsmProcessMetrics :=
  let values := stat_values text in
  let unsigned key := values !! key ≫= parse_u64 in
  let signed key := values !! key ≫= parse_i64 in
  {| kp_identity := identity;
     kp_profile := None;
     kp_ksm_rmap_items := unsigned "ksm_rmap_items"%string;
     kp_ksm_zero_pages := unsigned "ksm_zero_pages"%string;
     kp_ksm_merging_pages := unsigned "ksm_merging_pages"%string;
     kp_ksm_process_profit := signed "ksm_process_profit"%string;
     kp_ksm_merge_any := values !! "ksm_merge_any"%string ≫= parse_yes_no;
     kp_ksm_mergeable := values !! "ksm_mergeable"%string ≫= parse_yes_no;
     kp_current_mapped_ksm_bytes := None;
     kp_residual_accounting := false;
     kp_rss_bytes := None;
     kp_pss_bytes := None |}.

(** ** Profiles and eligibility *)

Record KsmProfile := {
  pf_kind : KsmProfileKind;
  pf_expected_sharing_suitability : Z;
  pf_foreground_sensitive : bool;
  pf_gaming_sensitive : bool;
  pf_minimum_stable_observations : Z;
  pf_minimum_mergeable_bytes : Z;
  pf_maximum_scanner_cpu_percent : f64;
  pf_minimum_positive_profit_bytes : Z;
  pf_maximum_cow_events_per_second : Z;
  pf_inefficiency_windows : Z;
  pf_cooldown_seconds : Z
}.

Definition profile (kind : KsmProfileKind) : KsmProfile :=
  {| pf_kind := kind;
     pf_expected_sharing_suitability :=
       match kind with
       | Vm => 70 | Browser => 35 | Electron => 45 | Synthetic => 100 | UnknownProfile => 0
       end;
     pf_foreground_sensitive := true;
     pf_gaming_sensitive := true;
     pf_minimum_stable_observations := 3;
     pf_minimum_mergeable_bytes := 32 * 1024 * 1024;
     pf_maximum_scanner_cpu_percent := f64_of_Z 1;
     pf_minimum_positive_profit_bytes := 4096;
     pf_maximum_cow_events_per_second := 64;
     pf_inefficiency_windows := 3;
     pf_cooldown_seconds := 300 |}.

Record EligibilityInput := {
  ei_identity : option StableProcessIdentity;
  ei_identity_fresh : bool;
  ei_profile : KsmProfileKind;
  ei_already_mergeable : bool;
  ei_owned_cooperative : bool;
  ei_foreground : bool;
  ei_gaming : bool;
  ei_critical : bool;
  ei_protected : bool;
  ei_same_security_domain : bool;
  ei_pressure : PressureState;
  ei_stable_observations : Z;
  ei_mergeable_bytes : Z;
  ei_profit_bytes : option Z;
  ei_cow_events_per_second : option Z;
  ei_cpu_percent : option f64;
  ei_cooldown_active : bool;
  ei_external_ksm_activity : bool
}.

Inductive PlanDisposition := Eligible | Rejected | UnsupportedPlan.
#[export] Instance PlanDisposition_eq_dec : EqDecision PlanDisposition.
Proof. solve_decision. Defined.

Record EligibilityDecision := {
  ed_disposition : PlanDisposition;
  ed_reasons : list string;
  ed_rule_version : string
}.

Definition unsafe_pressure (pressure : PressureState) : bool :=
  match pressure with Critical | Emergency | Stabilizing => true | _ => false end.

Definition eligibility_reasons (input : EligibilityInput) (bounds : KsmProfile) : list string :=
  push_if (is_some_and (ei_cpu_percent input)
             (fun cpu => f64_gt cpu (pf_maximum_scanner_cpu_percent bounds))) "cpu_budget_exceeded"
  (push_if (is_some_and (ei_cow_events_per_second input)
              (fun rate => pf_maximum_cow_events_per_second bounds <? rate)) "cow_rate_excessive"
  (push_if (is_some_and (ei_profit_bytes input) (fun profit => profit <=? 0)) "profit_not_positive"
  (push_if (ei_cooldown_active input) "cooldown_active"
  (push_if (unsafe_pressure (ei_pressure input)) "global_state_not_safe"
  (push_if (ei_mergeable_bytes input <? pf_minimum_mergeable_bytes bounds) "ksm_not_mergeable"
  (push_if (ei_stable_observations input <? pf_minimum_stable_observations bounds)
     "insufficient_observation"
  (push_if (ei_external_ksm_activity input) "external_ksm_activity"
  (push_if (negb (ei_already_mergeable input) && negb (ei_owned_cooperative input))
     "cooperation_required"
  (push_if (negb (ei_same_security_domain input)) "external_security_domain"
  (push_if (ei_critical input || ei_protected input) "critical_process"
  (push_if (ei_gaming input) "gaming_protected"
  (push_if (ei_foreground input) "foreground_protected"
  (push_if (is_some (ei_identity input) && negb (ei_identity_fresh input)) "stale_identity"
  (push_if (is_none (ei_identity input)) "unknown_identity"
  (push_if (bool_decide (ei_profile input = UnknownProfile)) "unknown_profile"
     []))))))))))))))).

Definition evaluate_eligibility (input : EligibilityInput) (bounds : KsmProfile) :
    EligibilityDecision :=
  let reasons := eligibility_reasons input bounds in
  {| ed_disposition := if bool_decide (reasons = []) then Eligible else Rejected;
     ed_reasons := reasons;
     ed_rule_version := RULE_VERSION |}.

(** ** The protocol of a validation session *)

Inductive AdvisorMode := Fixed | ScanTime | UnknownMode.
#[export] Instance AdvisorMode_eq_dec : EqDecision AdvisorMode.
Proof. solve_decision. Defined.

Inductive ValidationProtocolState :=
| ReadyUnmergeable | Audited | DuplicateMergeable | ScannerRunning | ScannerStopped | Unmerged.
#[export] Instance ValidationProtocolState_eq_dec : EqDecision ValidationProtocolState.
Proof. solve_decision. Defined.

Record ValidationProtocol := {
  vp_state : ValidationProtocolState;
  vp_decision_id : option string;
  vp_plan_id : option string;
  vp_transaction_id : option string
}.

Definition protocol_default : ValidationProtocol :=
  {| vp_state := ReadyUnmergeable; vp_decision_id := None; vp_plan_id := None;
     vp_transaction_id := None |}.

Definition set_state (st : ValidationProtocolState) (self : ValidationProtocol) :
    ValidationProtocol :=
  {| vp_state := st; vp_decision_id := vp_decision_id self; vp_plan_id := vp_plan_id self;
     vp_transaction_id := vp_transaction_id self |}.

(** a step that is refused unless [guard] holds, and leaves the protocol as it was *)
Definition guarded (refused : ValidationProtocol -> bool) (reason : string)
    (f : ValidationProtocol -> ValidationProtocol) : eff ValidationProtocol unit KsmError :=
  let! self := eff_get in
  eff_reject (refused self) (Unsafe reason) ;!
  eff_upd f.

Definition not_in (st : ValidationProtocolState) (self : ValidationProtocol) : bool :=
  negb (bool_decide (vp_state self = st)).

Definition record_audit (decision_id plan_id transaction_id : string) :
    eff ValidationProtocol unit KsmError :=
  guarded (fun self => not_in ReadyUnmergeable self || str_empty decision_id
                       || str_empty plan_id || str_empty transaction_id) "audit_missing"
    (fun _ => {| vp_state := Audited; vp_decision_id := Some decision_id;
                 vp_plan_id := Some plan_id; vp_transaction_id := Some transaction_id |}).

Definition opt_in_duplicate : eff ValidationProtocol unit KsmError :=
  guarded (fun self => not_in Audited self || is_none (vp_decision_id self)
                       || is_none (vp_plan_id self) || is_none (vp_transaction_id self))
    "audit_missing" (set_state DuplicateMergeable).

Definition scanner_started : eff ValidationProtocol unit KsmError :=
  guarded (not_in DuplicateMergeable) "mergeable_scope_invalid" (set_state ScannerRunning).

Definition scanner_stopped : eff ValidationProtocol unit KsmError :=
  guarded (not_in ScannerRunning) "scanner_ownership_lost" (set_state ScannerStopped).

Definition unmerged : eff ValidationProtocol unit KsmError :=
  guarded (not_in ScannerStopped) "cleanup_failure" (set_state Unmerged).

(** ** The scanner plan *)

Record ScannerPlan := {
  sc_mode : AdvisorMode;
  sc_pages_to_scan : Z;
  sc_sleep_millisecs : Z;
  sc_owned_validation_only : bool;
  sc_blocked_reasons : list string
}.

Record KsmSnapshot := {
  ks_run : Z;
  ks_pages_to_scan : Z;
  ks_sleep_millisecs : Z;
  ks_preserve_only : gmap string string
}.

Definition advisor_mode (mode_text : string) : AdvisorMode :=
  let selection := current_selection mode_text in
  if String.eqb selection "none" then Fixed
  else if String.eqb selection "scan-time" then ScanTime
  else UnknownMode.

Definition plan_scanner (mode_text : string)
    (requested_pages requested_sleep min_pages max_pages min_sleep : Z) :
    result ScannerPlan KsmError :=
  let mode := advisor_mode mode_text in
  reject ((requested_pages <? min_pages) || (max_pages <? requested_pages)
          || (requested_sleep <? min_sleep)) (Unsafe "scanner bounds") ;?
  Ok {| sc_mode := mode;
        sc_pages_to_scan := requested_pages;
        sc_sleep_millisecs := requested_sleep;
        sc_owned_validation_only := true;
        sc_blocked_reasons := push_if (negb (bool_decide (mode = Fixed))) "advisor_mode_not_fixed" [] |}.

Definition plan_attempt_one_scanner (advisor_text : string) (baseline : KsmSnapshot)
    (min_pages max_pages min_sleep : Z) : result ScannerPlan KsmError :=
  plan_scanner advisor_text (ks_pages_to_scan baseline) (ks_sleep_millisecs baseline)
    min_pages max_pages min_sleep.

(** ** The areas of smaps *)

Record AddressRange := { kr_start : Z; kr_end : Z }.

Definition range_len (self : AddressRange) : Z := u64_sat_sub (kr_end self) (kr_start self).
Definition is_valid (self : AddressRange) : bool := kr_start self <? kr_end self.
Definition range_is_empty (self : AddressRange) : bool := negb (is_valid self).

Record SmapsArea := {
  sa_range : AddressRange;
  sa_mergeable : bool;
  sa_no_hugepage : bool;
  sa_kernel_page_size_bytes : option Z;
  sa_mmu_page_size_bytes : option Z;
  sa_anon_huge_pages_bytes : option Z;
  sa_thp_eligible : option bool;
  sa_vm_flags : list string
}.

Definition parse_hex_range (line : string) : option AddressRange :=
  token ← head (split_whitespace line);
  '(first, second) ← split_once "-" token;
  start ← parse_hex_u64 first;
  stop ← parse_hex_u64 second;
  Some {| kr_start := start; kr_end := stop |}.

Definition parse_smaps_kib (value : string) : option Z :=
  match split_whitespace value with
  | amount :: unit :: _ =>
      n ← parse_u64 amount; then_some (String.eqb unit "kB") (u64_sat_mul n 1024)
  | _ => None
  end.

Definition new_area (range : AddressRange) : SmapsArea :=
  {| sa_range := range; sa_mergeable := false; sa_no_hugepage := false;
     sa_kernel_page_size_bytes := None; sa_mmu_page_size_bytes := None;
     sa_anon_huge_pages_bytes := None; sa_thp_eligible := None; sa_vm_flags := [] |}.

(** what a line below the header of [a] records *)
Definition area_field (line : string) (a : SmapsArea) : SmapsArea :=
  match strip_prefix "KernelPageSize:" line, strip_prefix "MMUPageSize:" line,
        strip_prefix "AnonHugePages:" line, strip_prefix "THPeligible:" line,
        strip_prefix "VmFlags:" line with
  | Some value, _, _, _, _ =>
      {| sa_range := sa_range a; sa_mergeable := sa_mergeable a; sa_no_hugepage := sa_no_hugepage a;
         sa_kernel_page_size_bytes := parse_smaps_kib value;
         sa_mmu_page_size_bytes := sa_mmu_page_size_bytes a;
         sa_anon_huge_pages_bytes := sa_anon_huge_pages_bytes a;
         sa_thp_eligible := sa_thp_eligible a; sa_vm_flags := sa_vm_flags a |}
  | _, Some value, _, _, _ =>
      {| sa_range := sa_range a; sa_mergeable := sa_mergeable a; sa_no_hugepage := sa_no_hugepage a;
         sa_kernel_page_size_bytes := sa_kernel_page_size_bytes a;
         sa_mmu_page_size_bytes := parse_smaps_kib value;
         sa_anon_huge_pages_bytes := sa_anon_huge_pages_bytes a;
         sa_thp_eligible := sa_thp_eligible a; sa_vm_flags := sa_vm_flags a |}
  | _, _, Some value, _, _ =>
      {| sa_range := sa_range a; sa_mergeable := sa_mergeable a; sa_no_hugepage := sa_no_hugepage a;
         sa_kernel_page_size_bytes := sa_kernel_page_size_bytes a;
         sa_mmu_page_size_bytes := sa_mmu_page_size_bytes a;
         sa_anon_huge_pages_bytes := parse_smaps_kib value;
         sa_thp_eligible := sa_thp_eligible a; sa_vm_flags := sa_vm_flags a |}
  | _, _, _, Some value, _ =>
      {| sa_range := sa_range a; sa_mergeable := sa_mergeable a; sa_no_hugepage := sa_no_hugepage a;
         sa_kernel_page_size_bytes := sa_kernel_page_size_bytes a;
         sa_mmu_page_size_bytes := sa_mmu_page_size_bytes a;
         sa_anon_huge_pages_bytes := sa_anon_huge_pages_bytes a;
         sa_thp_eligible :=
           (fun n => negb (n =? 0)) <$> (head (split_whitespace value) ≫= parse_u8);
         sa_vm_flags := sa_vm_flags a |}
  | _, _, _, _, Some flags =>
      let flags := split_whitespace flags in
      {| sa_range := sa_range a;
         sa_mergeable := contains_str flags "mg"; sa_no_hugepage := contains_str flags "nh";
         sa_kernel_page_size_bytes := sa_kernel_page_size_bytes a;
         sa_mmu_page_size_bytes := sa_mmu_page_size_bytes a;
         sa_anon_huge_pages_bytes := sa_anon_huge_pages_bytes a;
         sa_thp_eligible := sa_thp_eligible a; sa_vm_flags := flags |}
  | None, None, None, None, None => a
  end.

(** [areas] and [current] of the loop *)
Definition smaps_area_line (s : list SmapsArea * option SmapsArea) (line : string) :
    list SmapsArea * option SmapsArea :=
  let '(areas, current) := s in
  match parse_hex_range line with
  | Some range => (areas ++ option_list current, Some (new_area range))
  | None => (areas, area_field line <$> current)
  end.

Definition parse_smaps_areas (text : string) : list SmapsArea :=
  let '(areas, current) := foldl smaps_area_line ([], None) (lines text) in
  areas ++ option_list current.

(** ** Scope *)

Record SmapsRangeOverlap := {
  so_vma_start : Z;
  so_vma_end : Z;
  so_overlap_start : Z;
  so_overlap_end : Z;
  so_overlap_bytes : Z;
  so_kernel_page_size_bytes : option Z;
  so_mmu_page_size_bytes : option Z;
  so_anon_huge_pages_bytes : option Z;
  so_thp_eligible : option bool;
  so_vm_flags : list string
}.

Record BasePageScopeEvidence := {
  bp_range : AddressRange;
  bp_host_page_size : Z;
  bp_start_aligned : bool;
  bp_end_aligned : bool;
  bp_length_aligned : bool;
  bp_covered_bytes : Z;
  bp_full_coverage : bool;
  bp_no_hugepage : bool;
  bp_non_mergeable : bool;
  bp_base_page_sizes : bool;
  bp_anon_huge_pages_zero : bool;
  bp_overlaps : list SmapsRangeOverlap;
  bp_passed : bool;
  bp_failure_reasons : list string
}.

Definition overlap_of (range : AddressRange) (area : SmapsArea) : option SmapsRangeOverlap :=
  let start := Z.max (kr_start (sa_range area)) (kr_start range) in
  let stop := Z.min (kr_end (sa_range area)) (kr_end range) in
  then_some (start <? stop)
    {| so_vma_start := kr_start (sa_range area);
       so_vma_end := kr_end (sa_range area);
       so_overlap_start := start;
       so_overlap_end := stop;
       so_overlap_bytes := stop - start;
       so_kernel_page_size_bytes := sa_kernel_page_size_bytes area;
       so_mmu_page_size_bytes := sa_mmu_page_size_bytes area;
       so_anon_huge_pages_bytes := sa_anon_huge_pages_bytes area;
       so_thp_eligible := sa_thp_eligible area;
       so_vm_flags := sa_vm_flags area |}.

Definition by_overlap_start (a b : SmapsRangeOverlap) : bool :=
  so_overlap_start a <=? so_overlap_start b.

Definition overlaps_of (areas : list SmapsArea) (range : AddressRange) : list SmapsRangeOverlap :=
  sort_by by_overlap_start (omap (overlap_of range) areas).

(** the loop over the sorted overlaps: [cursor] and [covered_bytes] *)
Fixpoint coverage (overlaps : list SmapsRangeOverlap) (cursor covered : Z) : Z * Z :=
  match overlaps with
  | [] => (cursor, covered)
  | o :: rest =>
      if cursor <? so_overlap_start o then (cursor, covered)
      else
        let newly_covered_start := Z.max cursor (so_overlap_start o) in
        if newly_covered_start <? so_overlap_end o
        then coverage rest (so_overlap_end o)
               (u64_sat_add covered (so_overlap_end o - newly_covered_start))
        else coverage rest cursor covered
  end.

(** [!overlaps.is_empty() && overlaps.iter().all(p)] *)
Definition all_overlaps (overlaps : list SmapsRangeOverlap) (p : SmapsRangeOverlap -> bool) : bool :=
  match overlaps with [] => false | _ => forallb p overlaps end.

Definition verify_base_page_scope (smaps : string) (range : AddressRange) (host_page_size : Z)
    (require_non_mergeable : bool) : BasePageScopeEvidence :=
  let overlaps := overlaps_of (parse_smaps_areas smaps) range in
  let aligned n := (0 <? host_page_size) && (n mod host_page_size =? 0) in
  let start_aligned := aligned (kr_start range) in
  let end_aligned := aligned (kr_end range) in
  let length_aligned := aligned (range_len range) in
  let '(cursor, covered_bytes) := coverage overlaps (kr_start range) 0 in
  let full_coverage :=
    is_valid range && (kr_end range <=? cursor) && (covered_bytes =? range_len range) in
  let no_hugepage := all_overlaps overlaps (fun item => contains_str (so_vm_flags item) "nh") in
  let non_mergeable :=
    all_overlaps overlaps (fun item => negb (contains_str (so_vm_flags item) "mg")) in
  let base_page_sizes :=
    all_overlaps overlaps (fun item =>
      bool_decide (so_kernel_page_size_bytes item = Some host_page_size)
      && bool_decide (so_mmu_page_size_bytes item = Some host_page_size)) in
  let anon_huge_pages_zero :=
    all_overlaps overlaps (fun item => bool_decide (so_anon_huge_pages_bytes item = Some 0)) in
  let failure_reasons :=
    push_if (require_non_mergeable && negb non_mergeable) "mergeable_before_audit"
    (push_if (negb no_hugepage) "nohugepage_flag_missing"
    (push_if (negb anon_huge_pages_zero) "anon_huge_pages_nonzero_or_missing"
    (push_if (negb base_page_sizes) "base_page_size_mismatch"
    (push_if (negb full_coverage) "smaps_range_coverage_gap"
    (push_if (negb (start_aligned && end_aligned && length_aligned))
       "owned_range_not_page_aligned" []))))) in
  {| bp_range := range;
     bp_host_page_size := host_page_size;
     bp_start_aligned := start_aligned;
     bp_end_aligned := end_aligned;
     bp_length_aligned := length_aligned;
     bp_covered_bytes := covered_bytes;
     bp_full_coverage := full_coverage;
     bp_no_hugepage := no_hugepage;
     bp_non_mergeable := non_mergeable;
     bp_base_page_sizes := base_page_sizes;
     bp_anon_huge_pages_zero := anon_huge_pages_zero;
     bp_overlaps := overlaps;
     bp_passed := bool_decide (failure_reasons = []);
     bp_failure_reasons := failure_reasons |}.

Definition by_area_start (a b : SmapsArea) : bool :=
  kr_start (sa_range a) <=? kr_start (sa_range b).

(** the loop over the relevant areas *)
Fixpoint covered_loop (requested : AddressRange) (predicate : SmapsArea -> bool)
    (relevant : list SmapsArea) (cursor : Z) : bool :=
  match relevant with
  | [] => false
  | area :: rest =>
      if (cursor <? kr_start (sa_range area)) || negb (predicate area) then false
      else
        let cursor := Z.max cursor (Z.min (kr_end (sa_range area)) (kr_end requested)) in
        if cursor =? kr_end requested then true
        else covered_loop requested predicate rest cursor
  end.

Definition fully_covered_with (requested : AddressRange) (areas : list SmapsArea)
    (predicate : SmapsArea -> bool) : bool :=
  if negb (is_valid requested) then false
  else
    let relevant :=
      List.filter (fun area => (kr_start requested <? kr_end (sa_range area))
                               && (kr_start (sa_range area) <? kr_end requested)) areas in
    covered_loop requested predicate (sort_by by_area_start relevant) (kr_start requested).

Record MergeableScopeEvidence := {
  me_duplicate_fully_mergeable : bool;
  me_duplicate_fully_nohugepage : bool;
  me_control_fully_non_mergeable : bool;
  me_control_fully_nohugepage : bool;
  me_unexpected_mergeable_bytes : Z;
  me_passed : bool
}.

(** the mergeable bytes of [area] outside [duplicate] *)
Definition unexpected_bytes (duplicate : AddressRange) (area : SmapsArea) : Z :=
  let duplicate_overlap :=
    u64_sat_sub (Z.min (kr_end (sa_range area)) (kr_end duplicate))
                (Z.max (kr_start (sa_range area)) (kr_start duplicate)) in
  u64_sat_sub (range_len (sa_range area)) duplicate_overlap.

Definition verify_exact_mergeable_scope (smaps : string) (duplicate control : AddressRange) :
    MergeableScopeEvidence :=
  let areas := parse_smaps_areas smaps in
  let a := fully_covered_with duplicate areas sa_mergeable in
  let b := fully_covered_with duplicate areas sa_no_hugepage in
  let c := fully_covered_with control areas (fun area => negb (sa_mergeable area)) in
  let d := fully_covered_with control areas sa_no_hugepage in
  let unexpected :=
    foldl (fun sum area => u64_wrap (sum + unexpected_bytes duplicate area)) 0
      (List.filter sa_mergeable areas) in
  {| me_duplicate_fully_mergeable := a;
     me_duplicate_fully_nohugepage := b;
     me_control_fully_non_mergeable := c;
     me_control_fully_nohugepage := d;
     me_unexpected_mergeable_bytes := unexpected;
     me_passed := a && b && c && d && (unexpected =? 0) |}.

Definition verify_exact_unmergeable_scope (smaps : string) (duplicate control : AddressRange) :
    bool :=
  let areas := parse_smaps_areas smaps in
  let p := fun area => negb (sa_mergeable area) && sa_no_hugepage area in
  fully_covered_with duplicate areas p && fully_covered_with control areas p.

(** ** Gates and the controller *)

Record ValidationProfitGate := {
  pg_saved_bytes : Z;
  pg_pages_scanned_delta : Z;
  pg_full_scans_delta : Z;
  pg_system_profit_delta : Z;
  pg_processes_positive : bool;
  pg_passed : bool;
  pg_reasons : list string
}.

Definition validation_profit_gate
    (saved_bytes pages_scanned_delta full_scans_delta system_profit_delta : Z)
    (processes_positive : bool) : ValidationProfitGate :=
  let reasons :=
    push_if (negb processes_positive) "non_positive_process_profit"
    (push_if (system_profit_delta <=? 0) "non_positive_system_profit"
    (push_if ((pages_scanned_delta =? 0) || (full_scans_delta =? 0)) "scanner_no_progress"
    (push_if (saved_bytes <? VALIDATION_MIN_SAVED_BYTES) "insufficient_saved_bytes" []))) in
  {| pg_saved_bytes := saved_bytes;
     pg_pages_scanned_delta := pages_scanned_delta;
     pg_full_scans_delta := full_scans_delta;
     pg_system_profit_delta := system_profit_delta;
     pg_processes_positive := processes_positive;
     pg_passed := bool_decide (reasons = []);
     pg_reasons := reasons |}.

Definition attempt_one_global_state_owned (baseline current : KsmSnapshot)
    (advisor_selected : option string) : bool :=
  (ks_run current =? 1)
  && (ks_pages_to_scan current =? ks_pages_to_scan baseline)
  && (ks_sleep_millisecs current =? ks_sleep_millisecs baseline)
  && bool_decide (advisor_selected = Some "none"%string)
  && bool_decide (ks_preserve_only current = ks_preserve_only baseline).

Inductive UnmergeDisposition := MadviseOwnedRange | TerminateOwnedChild.

Definition choose_unmerge_disposition (mem_available_bytes required_headroom_bytes : Z) :
    UnmergeDisposition :=
  if required_headroom_bytes <=? mem_available_bytes then MadviseOwnedRange
  else TerminateOwnedChild.

Inductive LiveSafetyDecision := Continue | StopOwnedScannerAndFail.

Definition evaluate_live_safety (external_mergeable_processes : Z) (global_state_owned : bool) :
    LiveSafetyDecision :=
  if (0 <? external_mergeable_processes) || negb global_state_owned then StopOwnedScannerAndFail
  else Continue.

Definition content_fingerprints_intact
    (initial_duplicate final_duplicate initial_control final_control : Z) : bool :=
  (initial_duplicate =? final_duplicate) && (initial_control =? final_control).

Record ProfitSample := {
  pr_wall_seconds : f64;
  pr_ksmd_cpu_seconds : f64;
  pr_pages_scanned_delta : Z;
  pr_saved_bytes : Z;
  pr_process_profit_bytes : option Z;
  pr_system_profit_bytes : option Z
}.

Record ProfitEvaluation := {
  pe_ksmd_mean_cpu_percent : f64;
  pe_ksmd_cpu_seconds_per_gib_saved : option f64;
  pe_pages_scanned_per_saved_page : option f64;
  pe_net_positive : bool
}.

Definition evaluate_profit (sample : ProfitSample) (meaningful_saved_bytes : Z) :
    ProfitEvaluation :=
  let saved_pages := pr_saved_bytes sample / PAGE_SIZE in
  {| pe_ksmd_mean_cpu_percent :=
       if f64_gt (pr_wall_seconds sample) f64_zero
       then f64_mul (f64_div (pr_ksmd_cpu_seconds sample) (pr_wall_seconds sample)) (f64_of_Z 100)
       else f64_zero;
     pe_ksmd_cpu_seconds_per_gib_saved :=
       then_some ((meaningful_saved_bytes <=? pr_saved_bytes sample) && (0 <? pr_saved_bytes sample))
         (f64_div (pr_ksmd_cpu_seconds sample)
            (f64_div (f64_of_Z (pr_saved_bytes sample)) (f64_of_Z (2 ^ 30))));
     pe_pages_scanned_per_saved_page :=
       then_some (0 <? saved_pages)
         (f64_div (f64_of_Z (pr_pages_scanned_delta sample)) (f64_of_Z saved_pages));
     pe_net_positive :=
       (meaningful_saved_bytes <=? pr_saved_bytes sample)
       && is_none_or (pr_process_profit_bytes sample) (fun profit => 0 <? profit)
       && is_none_or (pr_system_profit_bytes sample) (fun profit => 0 <? profit) |}.

Inductive ControllerState := Unknown | Evaluating | Profitable | Inefficient | Cooldown.
#[export] Instance ControllerState_eq_dec : EqDecision ControllerState.
Proof. solve_decision. Defined.

Record ControllerInput := {
  ci_elapsed_seconds : Z;
  ci_full_scans : Z;
  ci_evaluation : ProfitEvaluation;
  ci_cpu_budget_percent : f64;
  ci_cow_rate : Z;
  ci_maximum_cow_rate : Z;
  ci_cooldown_active : bool
}.

Definition controller_transition (state : ControllerState) (input : ControllerInput) :
    ControllerState :=
  if ci_cooldown_active input then Cooldown
  else
    match state with
    | Unknown => Evaluating
    | Evaluating =>
        if (ci_elapsed_seconds input <? 2) || (ci_full_scans input =? 0) then Evaluating
        else if f64_gt (pe_ksmd_mean_cpu_percent (ci_evaluation input)) (ci_cpu_budget_percent input)
                || (ci_maximum_cow_rate input <? ci_cow_rate input)
                || negb (pe_net_positive (ci_evaluation input)) then Inefficient
        else Profitable
    | other => other
    end.

(** ** Backends and recovery *)

Inductive ScannerOwnership := External | NemorOwnedValidation | NotRunning | UnknownOwner.
#[export] Instance ScannerOwnership_eq_dec : EqDecision ScannerOwnership.
Proof. solve_decision. Defined.

Record KsmTransaction := {
  kt_transaction_id : string;
  kt_decision_id : string;
  kt_plan_id : string;
  kt_ownership : ScannerOwnership;
  kt_baseline : KsmSnapshot;
  kt_child_identities : list StableProcessIdentity;
  kt_scanner_started : bool;
  kt_recovered : bool
}.

Class KsmBackend (B : Type) := {
  snapshot : B -> result KsmSnapshot KsmError;
  set_run : Z -> eff B unit KsmError;
  set_scanner : Z -> Z -> eff B unit KsmError;
  restore : KsmSnapshot -> eff B unit KsmError;
  mutations : B -> Z
}.

Record SimulatedBackend := {
  sb_current : KsmSnapshot;
  sb_mutation_count : Z;
  sb_fail_after : option Z
}.

Definition mutate : eff SimulatedBackend unit KsmError :=
  let! self := eff_get in
  eff_reject (bool_decide (sb_fail_after self = Some (sb_mutation_count self)))
    (Io "injected failure") ;!
  eff_upd (fun self => {| sb_current := sb_current self;
                          sb_mutation_count := u64_wrap (sb_mutation_count self + 1);
                          sb_fail_after := sb_fail_after self |}).

Definition upd_current (f : KsmSnapshot -> KsmSnapshot) : eff SimulatedBackend unit KsmError :=
  eff_upd (fun self => {| sb_current := f (sb_current self);
                          sb_mutation_count := sb_mutation_count self;
                          sb_fail_after := sb_fail_after self |}).

Definition simulated_set_run (value : Z) : eff SimulatedBackend unit KsmError :=
  eff_reject (value =? 2) (Unsafe "run=2 is globally forbidden") ;!
  mutate ;!
  upd_current (fun c => {| ks_run := value; ks_pages_to_scan := ks_pages_to_scan c;
                           ks_sleep_millisecs := ks_sleep_millisecs c;
                           ks_preserve_only := ks_preserve_only c |}).

Definition simulated_set_scanner (pages sleep_ms : Z) : eff SimulatedBackend unit KsmError :=
  mutate ;!
  upd_current (fun c => {| ks_run := ks_run c; ks_pages_to_scan := pages;
                           ks_sleep_millisecs := sleep_ms;
                           ks_preserve_only := ks_preserve_only c |}).

Definition simulated_restore (snapshot : KsmSnapshot) : eff SimulatedBackend unit KsmError :=
  simulated_set_run 0 ;!
  simulated_set_scanner (ks_pages_to_scan snapshot) (ks_sleep_millisecs snapshot) ;!
  simulated_set_run (ks_run snapshot).

#[export] Instance simulated_backend : KsmBackend SimulatedBackend := {
  snapshot self := Ok (sb_current self);
  set_run := simulated_set_run;
  set_scanner := simulated_set_scanner;
  restore := simulated_restore;
  mutations := sb_mutation_count
}.

Definition mark_recovered (t : KsmTransaction) : KsmTransaction :=
  {| kt_transaction_id := kt_transaction_id t; kt_decision_id := kt_decision_id t;
     kt_plan_id := kt_plan_id t; kt_ownership := kt_ownership t; kt_baseline := kt_baseline t;
     kt_child_identities := kt_child_identities t; kt_scanner_started := false;
     kt_recovered := true |}.

Definition recover_owned {B} `{KsmBackend B} : eff (KsmTransaction * B) bool KsmError :=
  let! transaction := eff_fst eff_get in
  if kt_recovered transaction then eff_ret false
  else
    eff_reject (negb (bool_decide (kt_ownership transaction = NemorOwnedValidation))
                || negb (starts_with "nemor-validation-" (kt_transaction_id transaction)))
      (Unsafe "uncertain recovery ownership") ;!
    eff_snd (restore (kt_baseline transaction)) ;!
    eff_fst (eff_upd mark_recovered) ;!
    eff_ret true.

Definition write_run_value {B} `{KsmBackend B} (value : Z) : eff B unit KsmError :=
  eff_reject (value =? 2) (Unsafe "run=2 is globally forbidden") ;!
  set_run value.

(** ** Other processes *)

Record ExternalKsmInspection := {
  ex_live_consumers : list KsmProcessMetrics;
  ex_residual_processes : list KsmProcessMetrics;
  ex_inspected_processes : Z
}.

Definition inspection_default : ExternalKsmInspection :=
  {| ex_live_consumers := []; ex_residual_processes := []; ex_inspected_processes := 0 |}.

Inductive ProcessKsmActivity := LiveExternal | ResidualAccounting | Inactive.
#[export] Instance ProcessKsmActivity_eq_dec : EqDecision ProcessKsmActivity.
Proof. solve_decision. Defined.

Definition classify_process_ksm_activity (metrics : KsmProcessMetrics) : ProcessKsmActivity :=
  if bool_decide (kp_ksm_mergeable metrics = Some true)
     || bool_decide (kp_ksm_merge_any metrics = Some true)
     || (0 <? unwrap_or (kp_current_mapped_ksm_bytes metrics) 0) then LiveExternal
  else if 0 <? unwrap_or (kp_ksm_merging_pages metrics) 0 then ResidualAccounting
  else Inactive.

Definition proc_start_ticks_from_root (fs : KsmFiles) (proc_root : string) (pid : Z) : option Z :=
  match file_text (kf_fs fs) (path_join (path_join proc_root (show_uint pid)) "stat") with
  | Err _ => None
  | Ok stat =>
      rest ← Linux.after_last ")" stat;
      field ← nth_error (split_whitespace rest) 19;
      parse_u64 field
  end.

Definition exact_owned_tuple (excluded_owned : gmap Z (option Z)) (pid : Z)
    (start_ticks : option Z) : bool :=
  match mjoin (excluded_owned !! pid), start_ticks with
  | Some expected, Some actual => expected =? actual
  | _, _ => false
  end.

Definition with_mapped (bytes : option Z) (residual : bool) (m : KsmProcessMetrics) :
    KsmProcessMetrics :=
  {| kp_identity := kp_identity m; kp_profile := kp_profile m;
     kp_ksm_rmap_items := kp_ksm_rmap_items m; kp_ksm_zero_pages := kp_ksm_zero_pages m;
     kp_ksm_merging_pages := kp_ksm_merging_pages m;
     kp_ksm_process_profit := kp_ksm_process_profit m;
     kp_ksm_merge_any := kp_ksm_merge_any m; kp_ksm_mergeable := kp_ksm_mergeable m;
     kp_current_mapped_ksm_bytes := bytes; kp_residual_accounting := residual;
     kp_rss_bytes := kp_rss_bytes m; kp_pss_bytes := kp_pss_bytes m |}.

(** a file that may be missing: [None] *)
Definition read_or_missing (fs : KsmFiles) (path : string) : result (option string) KsmError :=
  match file_text (kf_fs fs) path with
  | Ok text => Ok (Some text)
  | Err NotFound => Ok None
  | Err e => Err (Io ("read " ++ path ++ ": " ++ kf_error_text fs e))
  end.

(** the tail of the loop's body: an inspected process *)
Definition record_process (pid : Z) (start_ticks : option Z) (text smaps : string)
    (inspection : ExternalKsmInspection) : ExternalKsmInspection :=
  let identity := {| sp_pid := pid; sp_start_ticks := unwrap_or start_ticks 0;
                     sp_stable_key := "redacted" |} in
  let metrics := with_mapped (parse_smaps_ksm_bytes smaps) false
                   (parse_process_ksm_stat text identity) in
  let inspected := u64_sat_add (ex_inspected_processes inspection) 1 in
  match classify_process_ksm_activity metrics with
  | LiveExternal =>
      {| ex_live_consumers := ex_live_consumers inspection ++ [metrics];
         ex_residual_processes := ex_residual_processes inspection;
         ex_inspected_processes := inspected |}
  | ResidualAccounting =>
      {| ex_live_consumers := ex_live_consumers inspection;
         ex_residual_processes := ex_residual_processes inspection
           ++ [with_mapped (kp_current_mapped_ksm_bytes metrics) true metrics];
         ex_inspected_processes := inspected |}
  | Inactive =>
      {| ex_live_consumers := ex_live_consumers inspection;
         ex_residual_processes := ex_residual_processes inspection;
         ex_inspected_processes := inspected |}
  end.

(** the loop over the entries of the directory *)
Fixpoint inspect_entries (fs : KsmFiles) (proc_root : string)
    (excluded_owned : gmap Z (option Z)) (entries : list (string * bool))
    (inspection : ExternalKsmInspection) : result ExternalKsmInspection KsmError :=
  match entries with
  | [] => Ok inspection
  | (name, _) :: rest =>
      let continue := inspect_entries fs proc_root excluded_owned rest in
      match parse_u32 name with
      | None => continue inspection
      | Some pid =>
          let start_ticks := proc_start_ticks_from_root fs proc_root pid in
          if exact_owned_tuple excluded_owned pid start_ticks then continue inspection
          else
            let entry := path_join proc_root name in
            let? text := read_or_missing fs (path_join entry "ksm_stat") in
            let? smaps := read_or_missing fs (path_join entry "smaps") in
            match smaps with
            | None => continue inspection
            | Some smaps =>
                if str_empty smaps then continue inspection
                else continue (record_process pid start_ticks (unwrap_or text ""%string) smaps
                                 inspection)
            end
      end
  end.

Definition inspect_external_ksm_processes_owned (fs : KsmFiles) (proc_root : string)
    (excluded_owned : gmap Z (option Z)) : result ExternalKsmInspection KsmError :=
  match dir_entries (kf_fs fs) proc_root with
  | None => Err (Io ("cannot enumerate " ++ proc_root))
  | Some entries =>
      inspect_entries fs proc_root excluded_owned (take 4096 entries) inspection_default
  end.

Definition external_mergeable_processes_owned (fs : KsmFiles) (proc_root : string)
    (excluded_owned : gmap Z (option Z)) : list KsmProcessMetrics :=
  match inspect_external_ksm_processes_owned fs proc_root excluded_owned with
  | Ok inspection => ex_live_consumers inspection
  | Err _ => []
  end.

Definition external_mergeable_processes (fs : KsmFiles) (proc_root : string)
    (excluded : gset Z) : list KsmProcessMetrics :=
  external_mergeable_processes_owned fs proc_root
    (list_to_map (map (fun pid => (pid, None)) (elements excluded))).

(** ** Snapshots and the report *)

Definition read_advisor_mode (fs : KsmFiles) (root : string) : option string :=
  match file_text (kf_fs fs) (path_join root "advisor_mode") with
  | Ok value => Some (current_selection value)
  | Err _ => None
  end.

Definition required (fs : KsmFiles) (root name : string) : result Z KsmError :=
  ok_or (read_optional_u64 fs root name) (Unsupported ("missing " ++ name)).

Definition preserved_files : list string :=
  ["merge_across_nodes"; "use_zero_pages"; "max_page_sharing";
   "stable_node_chains_prune_millisecs"; "smart_scan"; "advisor_mode"]%string.

Definition preserve_only_of (fs : KsmFiles) (root : string) : gmap string string :=
  foldl (fun m name => match file_text (kf_fs fs) (path_join root name) with
                       | Ok value => <[name := trim value]> m
                       | Err _ => m
                       end) ∅ preserved_files.

Definition snapshot_from_root (fs : KsmFiles) (root : string) : result KsmSnapshot KsmError :=
  let? run := required fs root "run" in
  let? run := ok_or (to_u8 run) (Invalid "run overflow") in
  reject (1 <? run) (Unsafe "baseline run=2 is unsupported") ;?
  let? pages := required fs root "pages_to_scan" in
  let? sleep := required fs root "sleep_millisecs" in
  Ok {| ks_run := run;
        ks_pages_to_scan := pages;
        ks_sleep_millisecs := sleep;
        ks_preserve_only := preserve_only_of fs root |}.

Definition report_path : string := "/tmp/nemor-privileged-validation-report.json".

Record KsmReport := {
  kr_schema : string;
  kr_capability : KsmCapability;
  kr_system : KsmSystemMetrics;
  kr_processes : list KsmProcessMetrics;
  kr_profiles : list KsmProfile;
  kr_plan : option EligibilityDecision;
  kr_profit : option ProfitEvaluation;
  kr_controller : ControllerState;
  kr_dry_run : bool;
  kr_notes : list string
}.

Definition with_external (processes : list KsmProcessMetrics) (c : KsmCapability) : KsmCapability :=
  let live := negb (bool_decide (length processes = 0%nat)) in
  {| kc_supported := kc_supported c; kc_sysfs_available := kc_sysfs_available c;
     kc_sysfs_readable := kc_sysfs_readable c; kc_sysfs_writable := kc_sysfs_writable c;
     kc_run_supported := kc_run_supported c; kc_scanner_fields := kc_scanner_fields c;
     kc_advisor_fields := kc_advisor_fields c; kc_metric_fields := kc_metric_fields c;
     kc_process_ksm_stat_available := kc_process_ksm_stat_available c;
     kc_madv_mergeable_supported := kc_madv_mergeable_supported c;
     kc_madv_unmergeable_supported := kc_madv_unmergeable_supported c;
     kc_prctl_memory_merge_supported := kc_prctl_memory_merge_supported c;
     kc_existing_run_state := kc_existing_run_state c;
     kc_existing_external_mergeable_processes := Z.of_nat (length processes);
     kc_existing_pages_shared := kc_existing_pages_shared c;
     kc_existing_pages_sharing := kc_existing_pages_sharing c;
     kc_external_live_ksm_activity := live;
     kc_residual_global_ksm_accounting := kc_residual_global_ksm_accounting c;
     kc_external_ksm_activity := kc_external_ksm_activity c || live;
     kc_notes := kc_notes c |}.

Definition inspect_linux (fs : KsmFiles) (root proc_root : string) (timestamp_ns : Z) : KsmReport :=
  let process_available :=
    existsb (fun '(name, _) => kf_is_file fs (path_join (path_join proc_root name) "ksm_stat"))
      (unwrap_or (dir_entries (kf_fs fs) proc_root) []) in
  let processes := external_mergeable_processes fs proc_root ∅ in
  let vmstat := match file_text (kf_fs fs) (path_join proc_root "vmstat") with
                | Ok text => text
                | Err _ => ""%string
                end in
  {| kr_schema := REPORT_SCHEMA;
     kr_capability := with_external processes (inspect_capability fs root process_available);
     kr_system := parse_system_metrics fs root vmstat timestamp_ns;
     kr_processes := processes;
     kr_profiles := map profile [Vm; Browser; Electron];
     kr_plan := None;
     kr_profit := None;
     kr_controller := Unknown;
     kr_dry_run := true;
     kr_notes :=
       ["external processes are observe/plan-only; cooperation is required"; "run=2 is forbidden"]%string |}.

Module Facts.

(** an address of a range *)
Definition inside (a : Z) (r : AddressRange) : Prop := kr_start r <= a < kr_end r.

(** ** Coverage by areas *)

(** smaps lists disjoint, non-empty mappings *)
Definition areas_ok (areas : list SmapsArea) : Prop :=
  (forall a, a ∈ areas -> kr_start (sa_range a) < kr_end (sa_range a)) /\
  (forall a b x, a ∈ areas -> b ∈ areas -> inside x (sa_range a) -> inside x (sa_range b) -> a = b).

Definition covered (r : AddressRange) (areas : list SmapsArea) (p : SmapsArea -> Prop) : Prop :=
  forall x, inside x r -> exists a, a ∈ areas /\ inside x (sa_range a) /\ p a.

Lemma covered_loop_sound req p relevant : forall cursor,
  covered_loop req p relevant cursor = true -> cursor <= kr_end req ->
  forall x, cursor <= x < kr_end req ->
  exists a, a ∈ relevant /\ inside x (sa_range a) /\ p a = true.
Proof.
  induction relevant as [|a rest IH]; intros cursor H Hc x Hx; [done |].
  cbn [covered_loop] in H.
  destruct (cursor <? kr_start (sa_range a)) eqn:E1; [done |]. simpl in H.
  destruct (p a) eqn:E2; [| done]. simpl in H. apply Z.ltb_ge in E1.
  set (c' := Z.max cursor (Z.min (kr_end (sa_range a)) (kr_end req))) in *.
  destruct (Z_lt_le_dec x c') as [Hlt | Hge].
  - exists a. split; [left |]. unfold inside. split; [lia | done].
  - destruct (Z.eqb_spec c' (kr_end req)) as [He | He]; [lia |].
    destruct (IH c' H ltac:(lia) x ltac:(lia)) as (b & Hb & Hr). exists b. split; [by right | done].
Qed.

Lemma covered_loop_complete req (p : SmapsArea -> bool) relevant : forall cursor,
  StronglySorted (fun a b => by_area_start a b = true) relevant ->
  (forall a, a ∈ relevant -> p a = true) -> cursor < kr_end req ->
  (forall x, cursor <= x < kr_end req -> exists a, a ∈ relevant /\ inside x (sa_range a)) ->
  covered_loop req p relevant cursor = true.
Proof.
  induction relevant as [|a rest IH]; intros cursor Hs Hp Hc Hx.
  - destruct (Hx cursor ltac:(lia)) as (a & Ha & _). by apply not_elem_of_nil in Ha.
  - cbn [covered_loop]. inversion Hs as [|? ? Hs' Hall]; subst.
    assert (kr_start (sa_range a) <= cursor) as Hstart.
    { destruct (Hx cursor ltac:(lia)) as (b & Hb & Hin). unfold inside in Hin.
      apply elem_of_cons in Hb as [-> | Hb]; [lia |].
      rewrite Forall_forall in Hall. specialize (Hall b (proj1 (list_elem_of_In _ _) Hb)).
      apply Z.leb_le in Hall. lia. }
    rewrite (proj2 (Z.ltb_ge _ _) Hstart), (Hp a) by left. simpl.
    set (c' := Z.max cursor (Z.min (kr_end (sa_range a)) (kr_end req))) in *.
    destruct (Z.eqb_spec c' (kr_end req)) as [He | He]; [done |].
    apply IH; [done | intros b Hb; apply Hp; by right | lia |].
    intros x Hrange. destruct (Hx x ltac:(lia)) as (b & Hb & Hin).
    apply elem_of_cons in Hb as [-> | Hb]; [| by exists b]. unfold inside in Hin. lia.
Qed.

Lemma filter_elem {A} (f : A -> bool) (l : list A) x : x ∈ List.filter f l <-> x ∈ l /\ f x = true.
Proof. by rewrite !list_elem_of_In, filter_In. Qed.

Lemma by_area_start_total a b : by_area_start a b = false -> by_area_start b a = true.
Proof. unfold by_area_start. lia. Qed.
Lemma by_area_start_trans a b c :
  by_area_start a b = true -> by_area_start b c = true -> by_area_start a c = true.
Proof. unfold by_area_start. lia. Qed.

Lemma fully_covered_iff req areas p : areas_ok areas ->
  fully_covered_with req areas p = true <->
  kr_start req < kr_end req /\ covered req areas (fun a => p a = true).
Proof.
  intros [Hne Hdis]. unfold fully_covered_with, is_valid.
  destruct (Z.ltb_spec (kr_start req) (kr_end req)) as [Hv | Hv]; simpl; [| split; [done | lia]].
  set (relevant := List.filter _ areas). split.
  - intros H. split; [done |]. intros x Hx.
    destruct (covered_loop_sound _ _ _ _ H ltac:(lia) x Hx) as (a & Ha & Hin & Hp).
    rewrite elem_of_sort_by in Ha. unfold relevant in Ha. apply filter_elem in Ha as [Ha _]. eauto.
  - intros [_ Hc]. apply covered_loop_complete.
    + apply sort_by_strongly_sorted; [apply by_area_start_total | apply by_area_start_trans].
    + intros a Ha. rewrite elem_of_sort_by in Ha. unfold relevant in Ha.
      apply filter_elem in Ha as [Ha Hr]. bools. specialize (Hne a Ha).
      set (x := Z.max (kr_start req) (kr_start (sa_range a))).
      assert (inside x (sa_range a)) as Hx by (unfold inside; lia).
      destruct (Hc x) as (b & Hb & Hin & Hp); [unfold inside; lia |].
      by rewrite (Hdis a b x Ha Hb Hx Hin).
    + done.
    + intros x Hx. destruct (Hc x Hx) as (a & Ha & Hin & Hp). exists a. split; [| done].
      rewrite elem_of_sort_by. apply filter_elem. split; [done |]. unfold inside in Hin.
      apply andb_true_iff. split; apply Z.ltb_lt; lia.
Qed.

(** ** Mergeable bytes outside the range *)

Lemma unexpected_zero dup a : kr_start (sa_range a) < kr_end (sa_range a) ->
  unexpected_bytes dup a = 0 <-> forall x, inside x (sa_range a) -> inside x dup.
Proof.
  intros Hv. unfold unexpected_bytes, range_len, u64_sat_sub, inside. split; [lia |].
  intros H. pose proof (H (kr_start (sa_range a)) ltac:(lia)).
  pose proof (H (kr_end (sa_range a) - 1) ltac:(lia)). lia.
Qed.

Definition total_len (areas : list SmapsArea) : Z :=
  foldr (fun a sum => range_len (sa_range a) + sum) 0 areas.

Lemma unexpected_sum dup areas : forall sum,
  0 <= sum -> sum + total_len areas <= u64_max ->
  foldl (fun sum a => u64_wrap (sum + unexpected_bytes dup a)) sum areas = 0 <->
  sum = 0 /\ Forall (fun a => unexpected_bytes dup a = 0) areas.
Proof.
  induction areas as [|a areas IH]; intros sum H0 Hs; simpl in *.
  - split; [intros ->; by split | by intros [-> _]].
  - assert (0 <= unexpected_bytes dup a <= range_len (sa_range a)) as Hu.
    { unfold unexpected_bytes, range_len, u64_sat_sub. lia. }
    assert (0 <= total_len areas) as Ht.
    { clear. induction areas as [|a areas IH]; simpl; [lia |].
      unfold range_len, u64_sat_sub in *. lia. }
    assert (u64_wrap (sum + unexpected_bytes dup a) = sum + unexpected_bytes dup a) as ->.
    { unfold u64_wrap. apply Z.mod_small. unfold u64_max in Hs. lia. }
    rewrite IH by lia. rewrite Forall_cons_iff. split.
    + intros [H Hr]. repeat split; [lia | lia | done].
    + intros (-> & -> & Hr). by split.
Qed.

Lemma total_len_filter f areas : total_len (List.filter f areas) <= total_len areas.
Proof.
  induction areas as [|a areas IH]; simpl; [lia |].
  assert (0 <= range_len (sa_range a)) by (unfold range_len, u64_sat_sub; lia).
  destruct (f a); simpl; lia.
Qed.

(** ** Coverage by clipped overlaps *)

Lemma overlap_of_some r a o : overlap_of r a = Some o <->
  (exists x, inside x r /\ inside x (sa_range a)) /\
  so_overlap_start o = Z.max (kr_start (sa_range a)) (kr_start r) /\
  so_overlap_end o = Z.min (kr_end (sa_range a)) (kr_end r) /\
  so_vma_start o = kr_start (sa_range a) /\ so_vma_end o = kr_end (sa_range a) /\
  so_overlap_bytes o = so_overlap_end o - so_overlap_start o /\
  so_kernel_page_size_bytes o = sa_kernel_page_size_bytes a /\
  so_mmu_page_size_bytes o = sa_mmu_page_size_bytes a /\
  so_anon_huge_pages_bytes o = sa_anon_huge_pages_bytes a /\
  so_thp_eligible o = sa_thp_eligible a /\ so_vm_flags o = sa_vm_flags a.
Proof.
  unfold overlap_of, then_some, inside. split.
  - case_match eqn:E; [| done]. intros [= <-]. simpl. apply Z.ltb_lt in E. split; [| done].
    exists (Z.max (kr_start (sa_range a)) (kr_start r)). lia.
  - intros ((x & H1 & H2) & H3 & H4 & H5). rewrite (proj2 (Z.ltb_lt _ _)) by lia.
    destruct o; simpl in *. destruct_and!. subst. done.
Qed.

Lemma elem_of_overlaps areas r o :
  o ∈ overlaps_of areas r <-> exists a, a ∈ areas /\ overlap_of r a = Some o.
Proof. unfold overlaps_of. by rewrite elem_of_sort_by, list_elem_of_omap. Qed.

Lemma coverage_cursor ovs : forall cursor n c' n',
  coverage ovs cursor n = (c', n') -> 0 <= n ->
  (forall o, o ∈ ovs -> so_overlap_end o - cursor + n <= u64_max) ->
  cursor <= c' /\ n' = n + (c' - cursor) /\
  (forall x, cursor <= x < c' -> exists o, o ∈ ovs /\ so_overlap_start o <= x < so_overlap_end o).
Proof.
  induction ovs as [|o ovs IH]; intros cursor n c' n' H Hn Hb; cbn [coverage] in H.
  - simplify_eq. repeat split; lia.
  - destruct (cursor <? so_overlap_start o) eqn:E1; [simplify_eq; repeat split; lia |].
    apply Z.ltb_ge in E1. rewrite Z.max_l in H by done.
    destruct (cursor <? so_overlap_end o) eqn:E2.
    + apply Z.ltb_lt in E2. pose proof (Hb o ltac:(left)) as Ho.
      assert (u64_sat_add n (so_overlap_end o - cursor) = n + (so_overlap_end o - cursor)) as Hsat
        by (unfold u64_sat_add; lia).
      rewrite Hsat in H. destruct (IH _ _ _ _ H) as (H1 & H2 & H3); [lia | |].
      { intros o' Ho'. specialize (Hb o' ltac:(by right)). lia. }
      repeat split; [lia | lia |]. intros x Hx.
      destruct (Z_lt_le_dec x (so_overlap_end o)).
      * exists o. split; [left | lia].
      * destruct (H3 x ltac:(lia)) as (o' & Ho' & Hx'). exists o'. split; [by right | done].
    + destruct (IH _ _ _ _ H Hn) as (H1 & H2 & H3).
      { intros o' Ho'. apply Hb. by right. }
      repeat split; [lia | lia |]. intros x Hx.
      destruct (H3 x Hx) as (o' & Ho' & Hx'). exists o'. split; [by right | done].
Qed.

Lemma coverage_reaches stop ovs : forall cursor n,
  StronglySorted (fun a b => by_overlap_start a b = true) ovs -> cursor <= stop ->
  (forall o, o ∈ ovs -> so_overlap_end o <= stop) ->
  (forall x, cursor <= x < stop -> exists o, o ∈ ovs /\ so_overlap_start o <= x < so_overlap_end o) ->
  fst (coverage ovs cursor n) = stop.
Proof.
  induction ovs as [|o ovs IH]; intros cursor n Hs Hc Hb Hx; cbn [coverage].
  - simpl. destruct (Z_lt_le_dec cursor stop); [| lia].
    destruct (Hx cursor ltac:(lia)) as (o & Ho & _). by apply not_elem_of_nil in Ho.
  - inversion Hs as [|? ? Hs' Hall]; subst.
    destruct (cursor <? so_overlap_start o) eqn:E1; simpl.
    + apply Z.ltb_lt in E1. destruct (Z_lt_le_dec cursor stop); [| lia].
      destruct (Hx cursor ltac:(lia)) as (o' & Ho' & Hr).
      apply elem_of_cons in Ho' as [-> | Ho']; [lia |].
      rewrite Forall_forall in Hall. specialize (Hall o' (proj1 (list_elem_of_In _ _) Ho')).
      apply Z.leb_le in Hall. lia.
    + apply Z.ltb_ge in E1. rewrite Z.max_l by done. pose proof (Hb o ltac:(left)).
      destruct (cursor <? so_overlap_end o) eqn:E2.
      * apply Z.ltb_lt in E2. apply IH; [done | lia | intros; apply Hb; by right |].
        intros x Hr. destruct (Hx x ltac:(lia)) as (o' & Ho' & Hr').
        apply elem_of_cons in Ho' as [-> | Ho']; [lia | eauto].
      * apply Z.ltb_ge in E2. apply IH; [done | done | intros; apply Hb; by right |].
        intros x Hr. destruct (Hx x ltac:(lia)) as (o' & Ho' & Hr').
        apply elem_of_cons in Ho' as [-> | Ho']; [lia | eauto].
Qed.

Lemma all_overlaps_true ovs p : all_overlaps ovs p = true <->
  ovs <> [] /\ forall o, o ∈ ovs -> p o = true.
Proof.
  unfold all_overlaps. destruct ovs as [|o ovs]; [naive_solver |].
  rewrite forallb_elem. naive_solver.
Qed.

(** what an area must look like for the base pages of an owned range *)
Definition base_page_area (host_page_size : Z) (require_non_mergeable : bool) (a : SmapsArea) :
    Prop :=
  sa_kernel_page_size_bytes a = Some host_page_size /\
  sa_mmu_page_size_bytes a = Some host_page_size /\
  sa_anon_huge_pages_bytes a = Some 0 /\
  "nh"%string ∈ sa_vm_flags a /\
  (require_non_mergeable = true -> "mg"%string ∉ sa_vm_flags a).

Definition meets (r : AddressRange) (a : SmapsArea) : Prop :=
  exists x, inside x r /\ inside x (sa_range a).

Lemma overlaps_forall areas r (P : SmapsRangeOverlap -> Prop) (Q : SmapsArea -> Prop) :
  (forall a o, overlap_of r a = Some o -> P o <-> Q a) ->
  (forall o, o ∈ overlaps_of areas r -> P o) <->
  (forall a, a ∈ areas -> meets r a -> Q a).
Proof.
  intros HPQ. split.
  - intros H a Ha Hm.
    destruct (overlap_of r a) as [o|] eqn:E.
    + apply (HPQ a o E), H, elem_of_overlaps. eauto.
    + exfalso. destruct Hm as (x & Hx1 & Hx2). unfold overlap_of, then_some, inside in *.
      case_match; [done |]. lia.
  - intros H o Ho. apply elem_of_overlaps in Ho as (a & Ha & Ho).
    apply (HPQ a o Ho), H; [done |]. by apply overlap_of_some in Ho as [? _].
Qed.

Lemma overlaps_nonempty areas r : kr_start r < kr_end r -> covered r areas (fun _ => True) ->
  overlaps_of areas r <> [].
Proof.
  intros Hv Hc Hn. destruct (Hc (kr_start r)) as (a & Ha & Hin & _); [unfold inside; lia |].
  destruct (overlap_of r a) as [o|] eqn:E.
  - assert (o ∈ overlaps_of areas r) as Ho by (apply elem_of_overlaps; eauto).
    rewrite Hn in Ho. by apply not_elem_of_nil in Ho.
  - unfold overlap_of, then_some, inside in *. case_match; [done |]. lia.
Qed.

(** what the loop finds is the coverage by the areas *)
Lemma coverage_iff areas r : 0 <= kr_start r -> kr_end r <= u64_max -> kr_start r < kr_end r ->
  (let '(cursor, n) := coverage (overlaps_of areas r) (kr_start r) 0 in
   (kr_end r <=? cursor) && (n =? range_len r) = true) <-> covered r areas (fun _ => True).
Proof.
  intros H0 Hm Hv.
  assert (forall o, o ∈ overlaps_of areas r ->
            exists a, a ∈ areas /\ kr_start r <= so_overlap_start o /\ so_overlap_end o <= kr_end r /\
                      kr_start (sa_range a) <= so_overlap_start o /\
                      so_overlap_end o <= kr_end (sa_range a)) as Hclip.
  { intros o Ho. apply elem_of_overlaps in Ho as (a & Ha & Ho).
    apply overlap_of_some in Ho as (_ & -> & -> & _). exists a. split; [done |]. lia. }
  destruct (coverage (overlaps_of areas r) (kr_start r) 0) as [cursor n] eqn:E.
  destruct (coverage_cursor _ _ _ _ _ E) as (H1 & H2 & H3); [lia | |].
  { intros o Ho. destruct (Hclip o Ho) as (a & ? & ? & ? & _). lia. }
  split.
  - intros H x Hx. bools. unfold inside in *. destruct (H3 x ltac:(lia)) as (o & Ho & Hr).
    destruct (Hclip o Ho) as (a & Ha & ? & ? & ? & ?). exists a. split; [done |].
    unfold inside. split; [lia | done].
  - intros Hc. assert (cursor = kr_end r) as ->.
    { transitivity (fst (coverage (overlaps_of areas r) (kr_start r) 0)); [by rewrite E |].
      apply coverage_reaches; [| lia | |].
      - apply sort_by_strongly_sorted; unfold by_overlap_start; intros; lia.
      - intros o Ho. destruct (Hclip o Ho) as (a & ? & ? & ? & _). lia.
      - intros x Hx. destruct (Hc x Hx) as (a & Ha & Hin & _).
        destruct (overlap_of r a) as [o|] eqn:Eo.
        + exists o. split; [apply elem_of_overlaps; eauto |].
          apply overlap_of_some in Eo as (_ & -> & -> & _). unfold inside in Hin. lia.
        + unfold overlap_of, then_some, inside in *. case_match; [done |]. lia. }
    unfold range_len, u64_sat_sub. apply andb_true_iff. split; [lia |]. apply Z.eqb_eq. lia.
Qed.

(** ** Runs of the validation protocol *)

Inductive ProtocolOp :=
| RecordAudit (decision_id plan_id transaction_id : string)
| OptIn | Start | Stop | Unmerge.

Definition run_op (op : ProtocolOp) : eff ValidationProtocol unit KsmError :=
  match op with
  | RecordAudit d p t => record_audit d p t
  | OptIn => opt_in_duplicate
  | Start => scanner_started
  | Stop => scanner_stopped
  | Unmerge => unmerged
  end.

(** the protocol after a list of calls, and the accepted ones among them *)
Fixpoint run_ops (ops : list ProtocolOp) (p : ValidationProtocol) :
    ValidationProtocol * list ProtocolOp :=
  match ops with
  | [] => (p, [])
  | op :: rest =>
      let '(p', r) := run_op op p in
      let '(p'', accepted) := run_ops rest p' in
      (p'', if is_ok r then op :: accepted else accepted)
  end.

(** how far a state is, and the calls that remain in order *)
Definition progress (st : ValidationProtocolState) : nat :=
  match st with
  | ReadyUnmergeable => 0 | Audited => 1 | DuplicateMergeable => 2
  | ScannerRunning => 3 | ScannerStopped => 4 | Unmerged => 5
  end.

Definition session_order (d p t : string) : list ProtocolOp :=
  [RecordAudit d p t; OptIn; Start; Stop; Unmerge].

(** [v] is what the calls of a session recorded *)
Definition recorded (d p t : string) (v : ValidationProtocol) : Prop :=
  vp_state v <> ReadyUnmergeable ->
  vp_decision_id v = Some d /\ vp_plan_id v = Some p /\ vp_transaction_id v = Some t /\
  d <> ""%string /\ p <> ""%string /\ t <> ""%string.

Lemma guarded_run refused reason f v :
  guarded refused reason f v = if refused v then (v, Err (Unsafe reason)) else (f v, Ok tt).
Proof. unfold guarded, eff_bind, eff_get, eff_reject, eff_upd, reject. by destruct (refused v). Qed.

Lemma run_op_started op d p t v : vp_state v <> ReadyUnmergeable -> recorded d p t v ->
  (run_op op v = (v, snd (run_op op v)) /\ is_ok (snd (run_op op v)) = false) \/
  (exists v', run_op op v = (v', Ok tt) /\ recorded d p t v' /\
     vp_state v' <> ReadyUnmergeable /\
     session_order d p t !! progress (vp_state v) = Some op /\
     progress (vp_state v') = S (progress (vp_state v))).
Proof.
  intros Hs Hr. destruct (Hr Hs) as (H1 & H2 & H3 & Hne).
  destruct op; simpl;
    unfold record_audit, opt_in_duplicate, scanner_started, scanner_stopped, unmerged;
    rewrite guarded_run; unfold not_in;
    destruct v as [st di pi ti]; simpl in *; subst; destruct st; simpl; try done;
    first [by left | right; eexists; split; [reflexivity | done]].
Qed.

Lemma run_ops_started d p t ops : forall v v' accepted,
  vp_state v <> ReadyUnmergeable -> recorded d p t v -> run_ops ops v = (v', accepted) ->
  accepted = take (progress (vp_state v') - progress (vp_state v))
               (drop (progress (vp_state v)) (session_order d p t)) /\
  (progress (vp_state v) <= progress (vp_state v'))%nat /\
  vp_state v' <> ReadyUnmergeable /\ recorded d p t v'.
Proof.
  induction ops as [|op ops IH]; intros v v' accepted Hs Hr H; cbn [run_ops] in H.
  - simplify_eq. by rewrite Nat.sub_diag.
  - destruct (run_op_started op d p t v Hs Hr) as [[E Ho] | (v1 & E & Hr1 & Hs1 & Hop & Hp)];
      rewrite E in H.
    + destruct (run_ops ops v) as [v2 acc2] eqn:E2. rewrite Ho in H. simplify_eq. by apply IH.
    + destruct (run_ops ops v1) as [v2 acc2] eqn:E2. simpl in H. simplify_eq.
      destruct (IH _ _ _ Hs1 Hr1 E2) as (-> & Hle & Hs2 & Hr2). rewrite Hp in *.
      split; [| split; [lia | done]].
      replace (progress (vp_state v') - progress (vp_state v))%nat
        with (S (progress (vp_state v') - S (progress (vp_state v)))) by lia.
      rewrite (drop_S _ _ _ Hop). done.
Qed.

(** ** The simulated backend *)

(** the settings that a recovery restores *)
Definition agrees (baseline : KsmSnapshot) (b : SimulatedBackend) : Prop :=
  ks_run (sb_current b) = ks_run baseline /\
  ks_pages_to_scan (sb_current b) = ks_pages_to_scan baseline /\
  ks_sleep_millisecs (sb_current b) = ks_sleep_millisecs baseline.

Definition without_failure (b : SimulatedBackend) : SimulatedBackend :=
  {| sb_current := sb_current b; sb_mutation_count := sb_mutation_count b; sb_fail_after := None |}.

Lemma simulated_restore_ok snap b : ks_run snap <> 2 -> sb_fail_after b = None ->
  exists b', simulated_restore snap b = (b', Ok tt) /\ agrees snap b'.
Proof.
  intros Hr Hf. destruct b as [c n f]. simpl in Hf. subst f.
  unfold simulated_restore, simulated_set_run, simulated_set_scanner, upd_current, mutate,
    eff_bind, eff_reject, eff_get, eff_upd. simpl.
  rewrite (proj2 (Z.eqb_neq _ _) Hr). simpl. eexists. by split.
Qed.

Definition owned_transaction (t : KsmTransaction) : Prop :=
  kt_ownership t = NemorOwnedValidation /\
  starts_with "nemor-validation-" (kt_transaction_id t) = true.

Lemma recover_owned_run {B} `{KsmBackend B} (t : KsmTransaction) (b : B) :
  owned_transaction t -> kt_recovered t = false ->
  recover_owned (t, b) =
  match restore (kt_baseline t) b with
  | (b', Ok _) => ((mark_recovered t, b'), Ok true)
  | (b', Err e) => ((t, b'), Err e)
  end.
Proof.
  intros [Ho Hs] Hr. unfold recover_owned, eff_bind, eff_fst, eff_snd, eff_get, eff_reject,
    eff_upd, eff_ret. simpl. rewrite Hr, Ho, Hs. simpl.
  by destruct (restore (kt_baseline t) b) as [b' [[]|e]].
Qed.

End Facts.

Module Theorems.
Import Facts.

(** C34: for the disjoint mappings of smaps, [verify_exact_mergeable_scope] passes
    exactly when every address of DUPLICATE lies in a mergeable area without huge
    pages, every address of CONTROL in a non-mergeable one, and no mergeable area
    has an address outside DUPLICATE. *)
Theorem mergeable_scope_exact (smaps : string) (duplicate control : AddressRange) :
  let areas := parse_smaps_areas smaps in
  areas_ok areas -> total_len areas <= u64_max ->
  me_passed (verify_exact_mergeable_scope smaps duplicate control) = true <->
  kr_start duplicate < kr_end duplicate /\ kr_start control < kr_end control /\
  covered duplicate areas (fun a => sa_mergeable a = true /\ sa_no_hugepage a = true) /\
  covered control areas (fun a => sa_mergeable a = false /\ sa_no_hugepage a = true) /\
  (forall a x, a ∈ areas -> sa_mergeable a = true -> inside x (sa_range a) -> inside x duplicate).
Proof.
  intros areas Hok Hlen. unfold verify_exact_mergeable_scope. fold areas.
  cbn [me_passed]. rewrite !andb_true_iff, !fully_covered_iff, Z.eqb_eq by done.
  rewrite unexpected_sum by (pose proof (total_len_filter sa_mergeable areas); lia).
  assert (forall r (p q : SmapsArea -> Prop),
            covered r areas p /\ covered r areas q <-> covered r areas (fun a => p a /\ q a)) as Hand.
  { intros r p q. split.
    - intros [Hp Hq] x Hx. destruct (Hp x Hx) as (a & Ha & Hin & ?).
      destruct (Hq x Hx) as (b & Hb & Hin' & ?).
      pose proof (proj2 Hok a b x Ha Hb Hin Hin'). subst. eauto.
    - intros H. split; intros x Hx; destruct (H x Hx) as (a & ? & ? & ? & ?); eauto. }
  assert (covered control areas (fun a => negb (sa_mergeable a) = true) <->
          covered control areas (fun a => sa_mergeable a = false)) as ->.
  { unfold covered. split; intros H x Hx; destruct (H x Hx) as (a & ? & ? & Hn); exists a;
      rewrite negb_true_iff in *; done. }
  rewrite <- !Hand.
  assert (Forall (fun a => unexpected_bytes duplicate a = 0) (List.filter sa_mergeable areas) <->
          (forall a x, a ∈ areas -> sa_mergeable a = true -> inside x (sa_range a) ->
                       inside x duplicate)) as ->.
  { rewrite Forall_forall. split.
    - intros H a x Ha Hm. apply unexpected_zero; [by apply Hok |].
      apply H, list_elem_of_In, filter_elem. done.
    - intros H a Ha. apply list_elem_of_In, filter_elem in Ha as [Ha Hm].
      apply unexpected_zero; [by apply Hok |]. intros x. by apply H. }
  tauto.
Qed.

(** [verify_base_page_scope] passes exactly when the range is page-aligned, the
    mappings cover all its addresses, and every mapping that meets it has the host's
    page size, no huge pages, the [nh] flag and, before the audit, no [mg] flag. *)
Theorem base_page_scope_iff (smaps : string) (range : AddressRange) (host_page_size : Z)
    (require_non_mergeable : bool) :
  let areas := parse_smaps_areas smaps in
  0 <= kr_start range -> kr_end range <= u64_max ->
  bp_passed (verify_base_page_scope smaps range host_page_size require_non_mergeable) = true <->
  0 < host_page_size /\ kr_start range < kr_end range /\
  kr_start range mod host_page_size = 0 /\ kr_end range mod host_page_size = 0 /\
  covered range areas (fun _ => True) /\
  (forall a, a ∈ areas -> meets range a -> base_page_area host_page_size require_non_mergeable a).
Proof.
  intros areas H0 Hm. unfold verify_base_page_scope. fold areas.
  pose proof (coverage_iff areas range H0 Hm) as Hcov.
  pose proof (overlaps_nonempty areas range) as Hne.
  destruct (coverage (overlaps_of areas range) (kr_start range) 0) as [cursor n] eqn:Ec.
  cbn [bp_passed]. rewrite bool_decide_eq_true, !push_if_nil, !negb_false_iff.
  set (nonmerge := all_overlaps _ (fun item => negb _)).
  assert (require_non_mergeable && negb nonmerge = false <->
          (require_non_mergeable = true -> nonmerge = true)) as ->.
  { destruct require_non_mergeable, nonmerge; naive_solver. }
  unfold nonmerge, is_valid. rewrite !all_overlaps_true, <- !andb_assoc, !andb_true_iff.
  rewrite !Z.eqb_eq, !Z.ltb_lt. setoid_rewrite negb_true_iff.
  setoid_rewrite bool_decide_eq_true. setoid_rewrite andb_true_iff.
  setoid_rewrite bool_decide_eq_true. setoid_rewrite contains_str_elem.
  rewrite <- (overlaps_forall areas range
    (fun o => so_kernel_page_size_bytes o = Some host_page_size /\
              so_mmu_page_size_bytes o = Some host_page_size /\
              so_anon_huge_pages_bytes o = Some 0 /\
              "nh"%string ∈ so_vm_flags o /\
              (require_non_mergeable = true -> contains_str (so_vm_flags o) "mg" = false))).
  2: { intros a o Ho. apply overlap_of_some in Ho as (_ & _ & _ & _ & _ & _ & -> & -> & -> & _ & ->).
       unfold base_page_area. rewrite <- (not_true_iff_false (contains_str _ _)), contains_str_elem.
       done. }
  assert (kr_start range < kr_end range -> kr_start range mod host_page_size = 0 ->
          kr_end range mod host_page_size = 0 -> range_len range mod host_page_size = 0) as Hl.
  { intros Hv Hs He. unfold range_len, u64_sat_sub. rewrite Z.max_l by lia.
    by rewrite Zminus_mod, Hs, He. }
  split.
  - intros (Hmg & [_ Hnh] & [_ Hah] & [_ Hps] & (Hv & Hcu & Hn) & (Hp & Hs & _ & He & _) & _).
    repeat (split; [done |]). split.
    + apply Hcov; [done |]. by rewrite Hcu, Hn, Z.eqb_refl.
    + intros o Ho. destruct (Hps o Ho). repeat split; auto. intros Hr. by apply Hmg.
  - intros (Hp & Hv & Hs & He & Hc & Ho). specialize (Hne Hv Hc). apply Hcov in Hc; [| done].
    apply andb_true_iff in Hc as [Hcu Hn]. apply Z.eqb_eq in Hn.
    split; [| split; [| split; [| split; [| split]]]];
      try (split; [done |]; intros o Hin; by destruct (Ho o Hin) as (? & ? & ? & ? & ?)).
    + intros Hr. split; [done |]. intros o Hin. destruct (Ho o Hin) as (_ & _ & _ & _ & Hm').
      by apply Hm'.
    + done.
    + auto 10.
Qed.

(** whatever calls a client makes, the accepted ones are the beginning of
    audit, opt-in, start, stop, unmerge; the scanner never runs before an audit with
    three non-empty ids, and these ids are never replaced. *)
Theorem protocol_in_order (ops : list ProtocolOp) (v : ValidationProtocol)
    (accepted : list ProtocolOp) :
  run_ops ops protocol_default = (v, accepted) ->
  exists d p t, accepted = take (progress (vp_state v)) (session_order d p t) /\ recorded d p t v.
Proof.
  revert v accepted. induction ops as [|op ops IH]; intros v accepted H; cbn [run_ops] in H.
  - simplify_eq. by exists "a"%string, "b"%string, "c"%string.
  - destruct (run_op op protocol_default) as [v1 r] eqn:E.
    destruct (run_ops ops v1) as [v2 acc2] eqn:E2.
    destruct op as [d p t| | | |];
      try (injection E as <- <-; simpl in H; simplify_eq; by apply IH).
    simpl in E. unfold record_audit in E. rewrite guarded_run in E.
    destruct (not_in _ _ || _ || _ || _) eqn:Eg; injection E as <- <-; simpl in H; simplify_eq;
      [by apply IH |].
    unfold str_empty in Eg. bools.
    apply (run_ops_started d p t) in E2 as (-> & Hle & Hs & Hr); [| done | by intros _].
    exists d, p, t. split; [| done]. simpl in Hle |- *.
    destruct (progress (vp_state v)) as [|k] eqn:Ek; [lia |]. simpl. by rewrite Nat.sub_0_r.
Qed.

(** recovery restores the baseline at most once: for any backend, an owned,
    unrecovered transaction is restored and marked exactly when [restore] succeeds,
    any other one leaves backend and transaction alone, and recovering again after
    success changes nothing. *)
Theorem recover_owned_once {B} `{KsmBackend B} (t : KsmTransaction) (b : B) :
  (owned_transaction t -> kt_recovered t = false ->
   recover_owned (t, b) =
     match restore (kt_baseline t) b with
     | (b', Ok _) => ((mark_recovered t, b'), Ok true)
     | (b', Err e) => ((t, b'), Err e)
     end) /\
  (kt_recovered t = true -> recover_owned (t, b) = ((t, b), Ok false)) /\
  (~ owned_transaction t -> kt_recovered t = false ->
   exists e, recover_owned (t, b) = ((t, b), Err e)) /\
  (forall t' b', recover_owned (t, b) = ((t', b'), Ok true) ->
                 recover_owned (t', b') = ((t', b'), Ok false)).
Proof.
  split; [apply recover_owned_run |]. split; [| split].
  - intros Hr. unfold recover_owned, eff_bind, eff_fst, eff_get. simpl. by rewrite Hr.
  - intros Hn Hr. eexists. unfold recover_owned, eff_bind, eff_fst, eff_get, eff_reject. simpl.
    rewrite Hr.
    replace (negb (bool_decide (kt_ownership t = NemorOwnedValidation))
             || negb (starts_with "nemor-validation-" (kt_transaction_id t))) with true;
      [reflexivity |].
    symmetry. unfold owned_transaction in Hn. case_bool_decide; [| done]. simpl.
    destruct (starts_with _ _); naive_solver.
  - intros t' b' Hr.
    assert (kt_recovered t' = true) as Hr'.
    { unfold recover_owned in Hr. apply eff_bind_ok in Hr as (s1 & x & _ & Hr).
      destruct (kt_recovered x); [discriminate Hr |].
      apply eff_bind_ok in Hr as (s2 & [] & _ & Hr).
      apply eff_bind_ok in Hr as (s3 & [] & _ & Hr).
      apply eff_bind_ok in Hr as (s4 & [] & Hm & Hr). injection Hr as ->.
      apply eff_fst_ok in Hm. destruct s3 as [t3 b3]. simpl in Hm.
      unfold eff_upd in Hm. naive_solver. }
    unfold recover_owned, eff_bind, eff_fst, eff_get. simpl. by rewrite Hr'.
Qed.

(** a recovery that failed half-way (at any mutation of the simulated kernel)
    is completed by the next one: the baseline's run, pages and sleep are back and
    the transaction is recovered. *)
Theorem recovery_survives_failure (t : KsmTransaction) (b b1 : SimulatedBackend)
    (t1 : KsmTransaction) (r : result bool KsmError) :
  owned_transaction t -> kt_recovered t = false -> ks_run (kt_baseline t) <> 2 ->
  recover_owned (t, b) = ((t1, b1), r) -> is_ok r = false ->
  exists b2, recover_owned (t1, without_failure b1) = ((mark_recovered t, b2), Ok true) /\
             agrees (kt_baseline t) b2.
Proof.
  intros Ho Hr Hrun H Hf. rewrite recover_owned_run in H by done.
  destruct (restore (kt_baseline t) b) as [b' [[]|e]]; simplify_eq.
  destruct (simulated_restore_ok (kt_baseline t1) (without_failure b1) Hrun eq_refl)
    as (b2 & Hb2 & Ha).
  exists b2. split; [| done]. rewrite recover_owned_run by done. simpl. by rewrite Hb2.
Qed.

(** [external_mergeable_processes] ignores the set of excluded processes. *)
Theorem exclusion_ignored (fs : KsmFiles) (proc_root : string) (excluded : gset Z) :
  external_mergeable_processes fs proc_root excluded =
  external_mergeable_processes fs proc_root ∅.
Proof.
  unfold external_mergeable_processes, external_mergeable_processes_owned,
    inspect_external_ksm_processes_owned.
  destruct (dir_entries _ _) as [entries|]; [| done].
  assert (forall (l : list Z) pid start,
            exact_owned_tuple (list_to_map (map (fun pid => (pid, None)) l)) pid start = false) as Hx.
  { intros l pid start. unfold exact_owned_tuple.
    assert (mjoin ((list_to_map (map (fun pid => (pid, None)) l) : gmap Z (option Z)) !! pid)
            = None) as ->; [| done].
    induction l as [|p l IH]; simpl; [by rewrite lookup_empty |].
    rewrite lookup_insert. by case_decide. }
  assert (forall l l' i es,
            inspect_entries fs proc_root (list_to_map (map (fun pid => (pid, None)) l)) es i =
            inspect_entries fs proc_root (list_to_map (map (fun pid => (pid, None)) l')) es i) as He.
  { intros l l' i es. revert i. induction es as [|[name d] es IH]; intros i; [done |].
    cbn [inspect_entries]. destruct (parse_u32 name) as [pid|]; [| apply IH]. rewrite !Hx.
    destruct (read_or_missing fs (path_join (path_join proc_root name) "ksm_stat")); [| done].
    destruct (read_or_missing fs (path_join (path_join proc_root name) "smaps")) as [[s|]|];
      [| apply IH | done].
    destruct (str_empty s); apply IH. }
  by rewrite (He (elements excluded) (elements (∅ : gset Z))).
Qed.

(** a process may be merged exactly when it is a known, fresh, cooperative
    process of the own domain that nothing protects, observed long enough, while the
    system is not in distress and no measurement speaks against it. Unknown profit
    is not an obstacle, under pressure either. *)
Theorem ksm_eligible_iff (input : EligibilityInput) (bounds : KsmProfile) :
  ed_disposition (evaluate_eligibility input bounds) = Eligible <->
  ei_profile input <> UnknownProfile /\ ei_identity input <> None /\
  ei_identity_fresh input = true /\
  ei_foreground input = false /\ ei_gaming input = false /\ ei_critical input = false /\
  ei_protected input = false /\ ei_same_security_domain input = true /\
  (ei_already_mergeable input = true \/ ei_owned_cooperative input = true) /\
  ei_external_ksm_activity input = false /\
  pf_minimum_stable_observations bounds <= ei_stable_observations input /\
  pf_minimum_mergeable_bytes bounds <= ei_mergeable_bytes input /\
  (ei_pressure input = Normal \/ ei_pressure input = Watch \/ ei_pressure input = Pressure) /\
  ei_cooldown_active input = false /\
  (forall profit, ei_profit_bytes input = Some profit -> 0 < profit) /\
  (forall rate, ei_cow_events_per_second input = Some rate ->
                rate <= pf_maximum_cow_events_per_second bounds) /\
  (forall cpu, ei_cpu_percent input = Some cpu ->
               f64_gt cpu (pf_maximum_scanner_cpu_percent bounds) = false).
Proof.
  assert (forall A (o : option A) (p : A -> bool),
            is_some_and o p = false <-> forall x, o = Some x -> p x = false) as Hs.
  { intros A o p. destruct o; simpl; naive_solver. }
  transitivity (eligibility_reasons input bounds = []).
  { unfold evaluate_eligibility. simpl. case_bool_decide; naive_solver. }
  unfold eligibility_reasons. rewrite !push_if_nil, !Hs, !orb_false_iff.
  setoid_rewrite Z.leb_gt. setoid_rewrite Z.ltb_ge.
  rewrite bool_decide_eq_false, !andb_false_iff, !negb_false_iff.
  assert (unsafe_pressure (ei_pressure input) = false <->
          ei_pressure input = Normal \/ ei_pressure input = Watch \/ ei_pressure input = Pressure) as ->.
  { destruct (ei_pressure input); simpl; naive_solver. }
  destruct (ei_identity input) as [id|]; simpl; [| naive_solver].
  assert ((true = false \/ ei_identity_fresh input = true) <-> ei_identity_fresh input = true) as ->
    by naive_solver.
  assert (Some id <> None) by done. tauto.
Qed.

(** no call on the simulated kernel sets [run] to 2, and [write_run_value]
    refuses 2 without touching any backend. *)
Theorem run_two_forbidden :
  (forall (b : SimulatedBackend), ks_run (sb_current b) <> 2 ->
     (forall value, ks_run (sb_current (fst (set_run value b))) <> 2) /\
     (forall pages sleep, ks_run (sb_current (fst (set_scanner pages sleep b))) <> 2) /\
     (forall snap, ks_run (sb_current (fst (restore snap b))) <> 2)) /\
  (forall B (H : KsmBackend B) (b : B),
     write_run_value 2 b = (b, Err (Unsafe "run=2 is globally forbidden"))).
Proof.
  split; [| done].
  assert (forall value, frames (fun a b => ks_run (sb_current a) <> 2 -> ks_run (sb_current b) <> 2)
            (simulated_set_run value)) as Hrun.
  { intros value b. unfold simulated_set_run, mutate, upd_current, eff_bind, eff_reject, eff_get,
      eff_upd, reject. destruct (Z.eqb_spec value 2) as [|Hv]; [done |]. simpl.
    case_bool_decide; simpl; auto. }
  assert (forall p s, frames (fun a b => ks_run (sb_current a) <> 2 -> ks_run (sb_current b) <> 2)
            (simulated_set_scanner p s)) as Hscan.
  { intros p s b. unfold simulated_set_scanner, mutate, upd_current, eff_bind, eff_reject, eff_get,
      eff_upd, reject. simpl. case_bool_decide; simpl; auto. }
  intros b Hb. split; [| split].
  - intros value. by apply Hrun.
  - intros p s. by apply Hscan.
  - intros snap.
    assert (frames (fun a b => ks_run (sb_current a) <> 2 -> ks_run (sb_current b) <> 2)
              (simulated_restore snap)) as Hres.
    { unfold simulated_restore. repeat (apply frames_bind; auto; try tauto; intros []). }
    by apply Hres.
Qed.

End Theorems.

(** ** Concrete inputs *)
Module Witnesses.
Import Facts Theorems.

Definition nl : string := String "010" "".
Definition smaps : string :=
  ("1000-3000 rw-p" ++ nl ++ "KernelPageSize: 4 kB" ++ nl ++ "MMUPageSize: 4 kB" ++ nl
   ++ "AnonHugePages: 0 kB" ++ nl ++ "VmFlags: rd wr nh mg" ++ nl
   ++ "3000-4000 rw-p" ++ nl ++ "KernelPageSize: 4 kB" ++ nl ++ "MMUPageSize: 4 kB" ++ nl
   ++ "AnonHugePages: 0 kB" ++ nl ++ "VmFlags: rd wr nh" ++ nl)%string.
Definition range (start stop : Z) : AddressRange := {| kr_start := start; kr_end := stop |}.

Lemma areas_of_smaps_ok : areas_ok (parse_smaps_areas smaps).
Proof.
  assert (map (fun a => (kr_start (sa_range a), kr_end (sa_range a))) (parse_smaps_areas smaps)
          = [(4096, 12288); (12288, 16384)]) as E by (vm_compute; reflexivity).
  destruct (parse_smaps_areas smaps) as [|a [|b [|c l]]]; simplify_eq/=.
  unfold areas_ok, inside. setoid_rewrite elem_of_cons. setoid_rewrite list_elem_of_singleton.
  split.
  - intros x [-> | ->]; lia.
  - intros x y z [-> | ->] [-> | ->]; (done || lia).
Qed.

Lemma mergeable_scope_exact_witness :
  covered (range 4096 12288) (parse_smaps_areas smaps)
    (fun a => sa_mergeable a = true /\ sa_no_hugepage a = true).
Proof.
  apply (mergeable_scope_exact smaps (range 4096 12288) (range 12288 16384)).
  - exact areas_of_smaps_ok.
  - vm_compute. discriminate.
  - vm_compute. reflexivity.
Defined.

Lemma base_page_scope_iff_witness :
  covered (range 12288 16384) (parse_smaps_areas smaps) (fun _ => True).
Proof.
  apply (base_page_scope_iff smaps (range 12288 16384) 4096 true);
    vm_compute; first [reflexivity | discriminate].
Defined.

Definition audited_run : list ProtocolOp :=
  [Start; RecordAudit "d" "p" "t"; OptIn; Stop; Start; OptIn; Stop].

Lemma protocol_in_order_witness :
  exists d p t, snd (run_ops audited_run protocol_default) = take 4 (session_order d p t) /\
                recorded d p t (fst (run_ops audited_run protocol_default)).
Proof.
  apply (protocol_in_order audited_run (fst (run_ops audited_run protocol_default))
           (snd (run_ops audited_run protocol_default))).
  vm_compute. reflexivity.
Defined.

Definition baseline : KsmSnapshot :=
  {| ks_run := 0; ks_pages_to_scan := 100; ks_sleep_millisecs := 20; ks_preserve_only := ∅ |}.
Definition transaction : KsmTransaction :=
  {| kt_transaction_id := "nemor-validation-1"; kt_decision_id := "d"; kt_plan_id := "p";
     kt_ownership := NemorOwnedValidation; kt_baseline := baseline; kt_child_identities := [];
     kt_scanner_started := true; kt_recovered := false |}.
Definition failing : SimulatedBackend :=
  {| sb_current := {| ks_run := 1; ks_pages_to_scan := 500; ks_sleep_millisecs := 2;
                      ks_preserve_only := ∅ |};
     sb_mutation_count := 4; sb_fail_after := Some 5 |}.

Lemma recover_owned_once_witness :
  recover_owned (mark_recovered transaction, failing)
  = ((mark_recovered transaction, failing), Ok false).
Proof.
  destruct (recover_owned_once (mark_recovered transaction) failing) as (_ & H & _).
  exact (H eq_refl).
Defined.

Lemma recovery_survives_failure_witness :
  exists b2, recover_owned (transaction, without_failure (snd (fst (recover_owned (transaction, failing)))))
             = ((mark_recovered transaction, b2), Ok true) /\ agrees baseline b2.
Proof.
  apply (recovery_survives_failure transaction failing _ transaction (Err (Io "injected failure"))).
  - split; reflexivity.
  - reflexivity.
  - discriminate.
  - vm_compute. reflexivity.
  - reflexivity.
Defined.

Lemma run_two_forbidden_witness :
  ks_run (sb_current (fst (restore baseline failing))) <> 2.
Proof. apply run_two_forbidden. discriminate. Defined.

End Witnesses.
