(* ===== verification/Zram.v ===== *)
(** crates/zram: the inventory of devices, compression metrics and benchmarks, the
    profile planner, the mutation transaction with its rollback and recovery over an
    abstract backend, and the Linux backend over an abstract system. *)

From S2P Require Import Prelude F64 Text Config Classifier Policy.

(** ** error.rs *)

Inductive ZramError :=
| ReadError (path source : string)
| ParseError (field message : string)
| Blocked (message : string)
| Backend (operation message : string)
| Verification (message : string).

Definition zram_error_to_string (e : ZramError) : string :=
  match e with
  | ReadError path source => "cannot read zram interface " ++ path ++ ": " ++ source
  | ParseError field message => "invalid zram field `" ++ field ++ "`: " ++ message
  | Blocked m => "zram operation blocked: " ++ m
  | Backend operation message =>
      "zram backend operation `" ++ operation ++ "` failed: " ++ message
  | Verification m => "zram verification failed: " ++ m
  end%string.

(** ** inventory.rs: data *)

Inductive Provider := SystemdGenerator | DistroUdev | Manual | UnknownProvider.
#[export] Instance Provider_eq_dec : EqDecision Provider.
Proof. solve_decision. Defined.

Inductive Ownership := NemorOwned | Adopted | External | UnknownOwner.
#[export] Instance Ownership_eq_dec : EqDecision Ownership.
Proof. solve_decision. Defined.

Record WritableCapabilities := {
  wc_hot_add : bool;
  wc_hot_remove : bool;
  wc_algorithm : bool;
  wc_disksize : bool;
  wc_reset : bool
}.

Record MmStat := {
  mm_orig_data_size : option Z;
  mm_compr_data_size : option Z;
  mm_mem_used_total : option Z;
  mm_mem_limit : option Z;
  mm_mem_used_max : option Z;
  mm_same_pages : option Z;
  mm_pages_compacted : option Z;
  mm_huge_pages : option Z;
  mm_huge_pages_since : option Z
}.
Definition MmStat_default : MmStat :=
  {| mm_orig_data_size := None; mm_compr_data_size := None; mm_mem_used_total := None;
     mm_mem_limit := None; mm_mem_used_max := None; mm_same_pages := None;
     mm_pages_compacted := None; mm_huge_pages := None; mm_huge_pages_since := None |}.

Record DeviceInventory := {
  dv_name : string;
  dv_sysfs_path : string;
  dv_device_path : string;
  dv_active_swap : bool;
  dv_priority : option Z;
  dv_disksize : option Z;
  dv_initstate : option bool;
  dv_current_algorithm : option string;
  dv_available_algorithms : list string;
  dv_mm_stat : MmStat;
  dv_io_stat : option (list Z);
  dv_block_stat : option (list Z);
  dv_bd_stat : option (list Z);
  dv_recompression_available : bool;
  dv_provider : Provider;
  dv_ownership : Ownership;
  dv_writable : WritableCapabilities
}.

Record Inventory := {
  iv_available : bool;
  iv_devices : list DeviceInventory;
  iv_unavailable : list string
}.

(** ** inventory.rs: parsers *)

Definition parse_u64_field (field value : string) : result Z ZramError :=
  ok_or (parse_u64 value) (ParseError field (int_error false u64_max value)).

Fixpoint parse_all (field : string) (values : list string) : result (list Z) ZramError :=
  match values with
  | [] => Ok []
  | value :: rest =>
      let? n := parse_u64_field field value in
      let? ns := parse_all field rest in
      Ok (n :: ns)
  end.
Definition parse_numbers (field input : string) : result (list Z) ZramError :=
  parse_all field (split_whitespace input).

Definition parse_mm_stat (input : string) : result MmStat ZramError :=
  let? values := parse_numbers "mm_stat" input in
  let get i := nth_error values i in
  Ok {| mm_orig_data_size := get 0%nat; mm_compr_data_size := get 1%nat;
        mm_mem_used_total := get 2%nat; mm_mem_limit := get 3%nat;
        mm_mem_used_max := get 4%nat; mm_same_pages := get 5%nat;
        mm_pages_compacted := get 6%nat; mm_huge_pages := get 7%nat;
        mm_huge_pages_since := get 8%nat |}.

Definition algorithm_char (c : ascii) : bool :=
  is_ascii_alphanumeric c || Ascii.eqb c "-" || Ascii.eqb c "_".

(** the loop over the tokens of comp_algorithm *)
Fixpoint algorithms_loop (tokens : list string) (current : option string)
    (available : list string) : result (option string * list string) ZramError :=
  match tokens with
  | [] => Ok (current, available)
  | token :: rest =>
      let '(name, selected) :=
        match strip_prefix "[" token ≫= strip_suffix "]" with
        | Some value => (value, true)
        | None => (token, false)
        end in
      reject (str_empty name || negb (str_all algorithm_char name))
        (ParseError "comp_algorithm" "invalid algorithm token") ;?
      reject (selected && is_some current)
        (ParseError "comp_algorithm" "multiple selected algorithms") ;?
      algorithms_loop rest (if selected then Some name else current) (available ++ [name])
  end.
Definition parse_algorithms (input : string) : result (option string * list string) ZramError :=
  let? r := algorithms_loop (split_whitespace input) None [] in
  Ok (fst r, sort_dedup (snd r)).

(** a line of /proc/swaps: device, priority, size and used bytes *)
Definition parse_swap_line (line : string) : result (string * (Z * Z * Z)) ZramError :=
  match split_whitespace line with
  | [device; _; size; used; priority] =>
      let? size := parse_u64_field "proc_swaps" size in
      let? size := ok_or (u64_checked_mul size 1024) (ParseError "proc_swaps" "size overflow") in
      let? used' := parse_u64_field "proc_swaps" used in
      let? used' := ok_or (u64_checked_mul used' 1024) (ParseError "proc_swaps" "used overflow") in
      let? priority' := ok_or (parse_i32 priority)
                          (ParseError "proc_swaps" (int_error true (2 ^ 31 - 1) priority)) in
      Ok (device, (priority', size, used'))
  | _ => Err (ParseError "proc_swaps" "expected five columns")
  end.
Fixpoint swaps_loop (ls : list string) (swaps : gmap string (Z * Z * Z)) :
    result (gmap string (Z * Z * Z)) ZramError :=
  match ls with
  | [] => Ok swaps
  | line :: rest =>
      if str_empty (trim line) then swaps_loop rest swaps
      else
        let? entry := parse_swap_line line in
        swaps_loop rest (<[fst entry := snd entry]> swaps)
  end.
(** the first line is the header *)
Definition parse_swaps (input : string) : result (gmap string (Z * Z * Z)) ZramError :=
  swaps_loop (tail (lines input)) ∅.

Definition valid_name (name : string) : bool :=
  is_some_and (strip_prefix "zram" name)
    (fun suffix => negb (str_empty suffix) && str_all is_digit suffix).

(** ** metrics.rs *)

Record CompressionMetrics := {
  cm_logical_compression_ratio : option f64;
  cm_effective_memory_ratio : option f64;
  cm_allocator_efficiency : option f64;
  cm_memory_saved_bytes : option Z;
  cm_utilization_percent : option f64;
  cm_same_pages : option Z;
  cm_huge_pages : option Z;
  cm_cpu_cost_percent : option f64
}.

Definition ratio (numerator denominator : option Z) : option f64 :=
  match numerator, denominator with
  | Some n, Some d => if d =? 0 then None else Some (f64_div (f64_of_Z n) (f64_of_Z d))
  | _, _ => None
  end.

Definition percent (value total : Z) : option f64 :=
  then_some (0 <? total)
    (f64_div (f64_mul (f64_of_Z value) (f64_of_Z 100)) (f64_of_Z total)).

Definition from_mm_stat (stat : MmStat) (disksize : option Z) : CompressionMetrics :=
  let orig := mm_orig_data_size stat in
  let compressed := mm_compr_data_size stat in
  let used := mm_mem_used_total stat in
  {| cm_logical_compression_ratio := ratio orig compressed;
     cm_effective_memory_ratio := ratio orig used;
     cm_allocator_efficiency := ratio compressed used;
     cm_memory_saved_bytes := orig ← orig; used ← used; Some (u64_sat_sub orig used);
     cm_utilization_percent := orig ← orig; size ← disksize; percent orig size;
     cm_same_pages := mm_same_pages stat;
     cm_huge_pages := mm_huge_pages stat;
     cm_cpu_cost_percent := None |}.

Definition metrics (self : DeviceInventory) : CompressionMetrics :=
  from_mm_stat (dv_mm_stat self) (dv_disksize self).

(** ** benchmark.rs *)

Inductive DatasetKind := HighlyCompressible | MediumCompressible | DeterministicIncompressible.

Record BenchmarkResult := {
  br_algorithm : string;
  br_dataset : DatasetKind;
  br_input_bytes : Z;
  br_compressed_bytes : Z;
  br_memory_used_bytes : Z;
  br_cpu_time_ns : Z;
  br_wall_time_ns : Z;
  br_write_throughput_bytes_sec : option f64;
  br_read_throughput_bytes_sec : option f64;
  br_logical_ratio : option f64;
  br_effective_ratio : option f64;
  br_real_isolated_device : bool;
  br_rounds : Z;
  br_error : option string
}.

Definition result_valid (self : BenchmarkResult) : bool :=
  is_none (br_error self)
  && br_real_isolated_device self
  && (3 <=? br_rounds self)
  && (0 <? br_input_bytes self)
  && (0 <? br_wall_time_ns self)
  && is_some_and (br_logical_ratio self) f64_is_finite
  && is_some_and (br_effective_ratio self) f64_is_finite.

Record BenchmarkEvidence := {
  be_algorithm : string;
  be_median_write_throughput_bytes_sec : option f64;
  be_median_effective_ratio : option f64;
  be_median_cpu_time_ns : option Z;
  be_cpu_overhead_percent : option f64;
  be_datasets : Z;
  be_real : bool
}.

Record BenchmarkPlan := {
  bn_algorithms : list string;
  bn_datasets : list DatasetKind;
  bn_bytes_per_dataset : Z;
  bn_warmup_rounds : Z;
  bn_measured_rounds : Z;
  bn_dry_run : bool;
  bn_blocked_reasons : list string
}.

Definition benchmark_plan (algorithms : list string) (bytes maximum : Z) (observe : bool) :
    result BenchmarkPlan ZramError :=
  reject ((bytes =? 0) || (maximum <? bytes) || (268435456 <? maximum))
    (Blocked "benchmark dataset exceeds configured bound") ;?
  Ok {| bn_algorithms := sort_dedup algorithms;
        bn_datasets := [HighlyCompressible; MediumCompressible; DeterministicIncompressible];
        bn_bytes_per_dataset := bytes;
        bn_warmup_rounds := 1;
        bn_measured_rounds := 5;
        bn_dry_run := observe;
        bn_blocked_reasons := if observe then ["observe_mode"%string] else [] |}.

(** one step of the 32-bit xorshift generator *)
Definition xorshift (state : Z) : Z :=
  let s := Z.lxor state (Z.land (Z.shiftl state 13) u32_max) in
  let s := Z.lxor s (Z.shiftr s 17) in
  Z.lxor s (Z.land (Z.shiftl s 5) u32_max).

Fixpoint xorshift_bytes (length : nat) (state : Z) : list Z :=
  match length with
  | O => []
  | S n => let s := xorshift state in Z.land s 255 :: xorshift_bytes n s
  end.

Definition pattern : list Z :=
  map (fun c => Z.of_nat (nat_of_ascii c)) (String.list_ascii_of_string "nemor-capacity-pattern").

Definition deterministic_dataset (kind : DatasetKind) (length : nat) : list Z :=
  match kind with
  | HighlyCompressible => repeat 90 length
  | MediumCompressible => map (fun index => nth (index mod 22) pattern 0) (seq 0 length)
  | DeterministicIncompressible => xorshift_bytes length 2654435769
  end.

(** [values.get(values.len() / 2)] of the sorted values *)
Definition median {A} (le : A -> A -> bool) (values : list A) : option A :=
  nth_error (sort_by le values) (length values / 2)%nat.
Definition median_f64 (values : list f64) : option f64 :=
  median f64_le (List.filter f64_is_finite values).
Definition median_u64 (values : list Z) : option Z := median Z.leb values.

Definition evidence_of (results : list BenchmarkResult) (algorithm : string) :
    option BenchmarkEvidence :=
  let valid := List.filter
    (fun item => String.eqb (br_algorithm item) algorithm && result_valid item) results in
  match valid with
  | [] => None
  | _ =>
      Some {| be_algorithm := algorithm;
              be_median_write_throughput_bytes_sec :=
                median_f64 (omap br_write_throughput_bytes_sec valid);
              be_median_effective_ratio := median_f64 (omap br_effective_ratio valid);
              be_median_cpu_time_ns := median_u64 (map br_cpu_time_ns valid);
              be_cpu_overhead_percent := None;
              be_datasets := Z.of_nat (length valid);
              be_real := forallb br_real_isolated_device valid |}
  end.

Definition aggregate (results : list BenchmarkResult) : list BenchmarkEvidence :=
  omap (evidence_of results) (sort_dedup (map br_algorithm results)).

(** ** profile.rs *)

Definition PROFILE_RULE_VERSION : string := "zram-profile-rules-v1".

Inductive ZramProfile := Safe | Gaming | Capacity.
#[export] Instance ZramProfile_eq_dec : EqDecision ZramProfile.
Proof. solve_decision. Defined.

Definition parse_profile (value : string) : option ZramProfile :=
  if String.eqb value "safe" then Some Safe
  else if String.eqb value "gaming" then Some Gaming
  else if String.eqb value "capacity" then Some Capacity
  else None.

Record ProfileContext := {
  pc_requested : ZramProfile;
  pc_device : DeviceInventory;
  pc_benchmarks : list BenchmarkEvidence;
  pc_total_ram_bytes : Z;
  pc_mem_available_bytes : Z;
  pc_current_used_bytes : Z;
  pc_pressure_state : PressureState;
  pc_psi_full_avg10 : option f64;
  pc_swap_in_per_second : option f64;
  pc_gaming : bool;
  pc_pressure_worsening : bool;
  pc_safety_events : Z;
  pc_rollback_pending : bool;
  pc_provider_matches_snapshot : bool
}.

Record ZramProfilePlan := {
  zp_profile : ZramProfile;
  zp_target_device : string;
  zp_current_algorithm : option string;
  zp_selected_algorithm : option string;
  zp_current_disksize : option Z;
  zp_proposed_disksize : option Z;
  zp_current_priority : option Z;
  zp_proposed_priority : option Z;
  zp_benchmark_evidence : list BenchmarkEvidence;
  zp_reason : string;
  zp_confidence : f64;
  zp_requires_reinitialization : bool;
  zp_requires_swap_migration : bool;
  zp_allowed : bool;
  zp_blocked_reasons : list string;
  zp_dry_run : bool;
  zp_rule_version : string
}.

(** [Ordering::then_with] and [Option]'s order *)
Definition then_with (c d : comparison) : comparison := match c with Eq => d | _ => c end.
Definition option_compare {A} (cmp : A -> A -> comparison) (a b : option A) : comparison :=
  match a, b with
  | None, None => Eq
  | None, Some _ => Lt
  | Some _, None => Gt
  | Some a, Some b => cmp a b
  end.
(** [partial_cmp(..).unwrap_or(Equal)] *)
Definition f64_compare (a b : f64) : comparison :=
  if f64_lt a b then Lt else if f64_lt b a then Gt else Eq.

(** [min_by] keeps the first minimum, [max_by] the last maximum. *)
Definition min_by {A} (cmp : A -> A -> comparison) (l : list A) : option A :=
  match l with
  | [] => None
  | x :: l => Some (foldl (fun acc y => match cmp acc y with Gt => y | _ => acc end) x l)
  end.
Definition max_by {A} (cmp : A -> A -> comparison) (l : list A) : option A :=
  match l with
  | [] => None
  | x :: l => Some (foldl (fun acc y => match cmp acc y with Gt => acc | _ => y end) x l)
  end.

Definition gaming_order (left right : BenchmarkEvidence) : comparison :=
  then_with (option_compare Z.compare (be_median_cpu_time_ns left) (be_median_cpu_time_ns right))
    (String.compare (be_algorithm left) (be_algorithm right)).
Definition capacity_order (left right : BenchmarkEvidence) : comparison :=
  then_with
    (option_compare f64_compare (be_median_effective_ratio left) (be_median_effective_ratio right))
    (String.compare (be_algorithm right) (be_algorithm left)).

Definition candidate_valid (context : ProfileContext) (config : CompressionConfig)
    (item : BenchmarkEvidence) : bool :=
  be_real item
  && (3 <=? be_datasets item)
  && contains_str (dv_available_algorithms (pc_device context)) (be_algorithm item)
  && is_some (be_median_cpu_time_ns item)
  && is_none_or (be_cpu_overhead_percent item)
       (fun value => f64_is_finite value && f64_ge value f64_zero
                     && f64_le value (compression_max_cpu_overhead_percent config)).

(** the effective ratio a capacity candidate must reach *)
Definition capacity_threshold (context : ProfileContext) (config : CompressionConfig) : f64 :=
  let current := dv_current_algorithm (pc_device context) in
  let current_ratio :=
    unwrap_or (find_first (fun item => bool_decide (Some (be_algorithm item) = current))
                 (pc_benchmarks context) ≫= be_median_effective_ratio) f64_one in
  f64_mul current_ratio
    (f64_add f64_one
       (f64_div (compression_min_capacity_gain_percent config) (f64_of_Z 100))).

Definition select_algorithm (context : ProfileContext) (config : CompressionConfig) :
    option string :=
  let current := dv_current_algorithm (pc_device context) in
  if bool_decide (pc_requested context = Safe) then current
  else
    let valid := List.filter (candidate_valid context config) (pc_benchmarks context) in
    match valid with
    | [] => current
    | _ =>
        match pc_requested context with
        | Gaming =>
            be_algorithm <$>
              min_by gaming_order
                (List.filter (fun item => is_some (be_median_write_throughput_bytes_sec item)) valid)
        | Capacity =>
            match max_by capacity_order
                    (List.filter (fun item =>
                       is_some_and (be_median_effective_ratio item)
                         (fun ratio => f64_ge ratio (capacity_threshold context config))) valid) with
            | Some item => Some (be_algorithm item)
            | None => current
            end
        | Safe => current
        end
    end.

Definition proposed_disksize (context : ProfileContext) (config : CompressionConfig) : option Z :=
  let maximum :=
    u64_sat_mul (pc_total_ram_bytes context) (compression_max_zram_percent_ram config) / 100 in
  current ← dv_disksize (pc_device context);
  Some (match pc_requested context with
        | Safe | Gaming => current
        | Capacity =>
            Z.min (Z.max current (u64_sat_mul (pc_current_used_bytes context) 2)) maximum
        end).

Definition headroom_sufficient (context : ProfileContext) (config : CompressionConfig) : bool :=
  let minimum :=
    u64_sat_mul (pc_total_ram_bytes context) (compression_safe_headroom_percent config) / 100 in
  u64_sat_add minimum (pc_current_used_bytes context) <=? pc_mem_available_bytes context.

Definition confidence (context : ProfileContext) : f64 :=
  if bool_decide (pc_requested context = Safe) then f64_one
  else if existsb be_real (pc_benchmarks context) then f64_lit 9 10
  else f64_lit 4 10.

Definition explicit_owner (o : Ownership) : bool :=
  match o with NemorOwned | Adopted => true | _ => false end.

Definition profile_blocks (context : ProfileContext) (config : CompressionConfig)
    (requires_reinitialization observe : bool) : list string :=
  let device := pc_device context in
  push_if observe "observe_mode"
  (push_if (dv_active_swap device && requires_reinitialization && negb (wc_reset (dv_writable device)))
     "active_system_device_protected"
  (push_if (requires_reinitialization && negb (compression_allow_runtime_reconfigure config))
     "runtime_reconfiguration_disabled"
  (push_if (pc_gaming context && requires_reinitialization) "gaming_blocks_reinitialization"
  (push_if (pc_pressure_worsening context
            || is_some_and (pc_psi_full_avg10 context) (fun value => f64_ge value (f64_of_Z 2))
            || is_some_and (pc_swap_in_per_second context) (fun value => f64_gt value f64_zero))
     "pressure_trend_unsafe"
  (push_if (match pc_pressure_state context with Critical | Emergency => true | _ => false end)
     "pressure_state_blocks_reconfiguration"
  (push_if (negb (headroom_sufficient context config)) "insufficient_headroom"
  (push_if (0 <? pc_safety_events context) "recent_safety_event"
  (push_if (pc_rollback_pending context) "rollback_pending"
  (push_if (negb (pc_provider_matches_snapshot context)) "provider_mismatch"
  (push_if (bool_decide (dv_provider device = UnknownProvider)) "provider_unknown"
  (push_if (negb (explicit_owner (dv_ownership device))) "ownership_not_explicit" []))))))))))).

Definition plan_profile (context : ProfileContext) (config : CompressionConfig) (mode : string) :
    ZramProfilePlan :=
  let device := pc_device context in
  let selected := select_algorithm context config in
  let current := dv_current_algorithm device in
  let proposed_size := proposed_disksize context config in
  let requires_reinitialization :=
    (is_some selected && negb (bool_decide (selected = current)))
    || negb (bool_decide (proposed_size = dv_disksize device)) in
  let observe := String.eqb mode "observe" in
  let blocks := sort_dedup (profile_blocks context config requires_reinitialization observe) in
  {| zp_profile := pc_requested context;
     zp_target_device := dv_name device;
     zp_current_algorithm := current;
     zp_selected_algorithm := selected;
     zp_current_disksize := dv_disksize device;
     zp_proposed_disksize := proposed_size;
     zp_current_priority := dv_priority device;
     zp_proposed_priority := dv_priority device;
     zp_benchmark_evidence :=
       match selected with
       | Some algorithm =>
           List.filter (fun item => String.eqb (be_algorithm item) algorithm) (pc_benchmarks context)
       | None => []
       end;
     zp_reason :=
       match pc_requested context with
       | Safe => "preserve_current_configuration_without_strong_evidence"
       | Gaming => "select_measured_low_cpu_latency_candidate"
       | Capacity => "select_measured_effective_capacity_candidate"
       end;
     zp_confidence := confidence context;
     zp_requires_reinitialization := requires_reinitialization;
     zp_requires_swap_migration := dv_active_swap device && requires_reinitialization;
     zp_allowed := bool_decide (blocks = []);
     zp_blocked_reasons := blocks;
     zp_dry_run := observe || compression_dry_run config || negb (compression_enabled config);
     zp_rule_version := PROFILE_RULE_VERSION |}.

(** ** report.rs *)

Definition AUDIT_REASON : string := "zram_observe_audit".

Record ZramAuditReport := {
  zr_timestamp_ns : Z;
  zr_inventory : Inventory;
  zr_plans : list ZramProfilePlan;
  zr_benchmark_evidence : list BenchmarkEvidence;
  zr_rollback_pending : bool;
  zr_recovery_pending : bool;
  zr_dry_run : bool
}.

(** ** backend.rs: the interface *)

Class ZramBackend (B : Type) := {
  inspect : B -> result Inventory ZramError;
  create_isolated_managed_device : eff B DeviceInventory ZramError;
  configure_uninitialized : string -> string -> eff B unit ZramError;
  initialize : string -> Z -> eff B unit ZramError;
  activate : string -> Z -> eff B unit ZramError;
  deactivate : string -> eff B unit ZramError;
  verify : string -> B -> result DeviceInventory ZramError;
  reset_managed_device : string -> eff B unit ZramError;
  remove_managed_device : string -> eff B unit ZramError;
  effective_valid_swap_capacity : B -> result Z ZramError;
  is_owned : string -> B -> bool
}.

(** ** transaction.rs *)

Inductive MutationPhase :=
| Snapshot | ReplacementCreated | AlgorithmConfigured | Initialized
| Activated | OriginalDeactivated | Verified | RolledBack.
#[export] Instance MutationPhase_eq_dec : EqDecision MutationPhase.
Proof. solve_decision. Defined.

Record MutationSnapshot := {
  ms_session_id : Z;
  ms_timestamp_ns : Z;
  ms_provider : Provider;
  ms_original : DeviceInventory;
  ms_replacement_name : option string;
  ms_requested_plan : ZramProfilePlan;
  ms_phase : MutationPhase;
  ms_rollback_pending : bool;
  ms_last_error : option string
}.

Record TransactionOutcome := {
  to_applied : bool;
  to_verified : bool;
  to_rolled_back : bool;
  to_phase : MutationPhase
}.

Definition set_replacement (name : string) (s : MutationSnapshot) : MutationSnapshot :=
  {| ms_session_id := ms_session_id s; ms_timestamp_ns := ms_timestamp_ns s;
     ms_provider := ms_provider s; ms_original := ms_original s;
     ms_replacement_name := Some name; ms_requested_plan := ms_requested_plan s;
     ms_phase := ms_phase s; ms_rollback_pending := ms_rollback_pending s;
     ms_last_error := ms_last_error s |}.
Definition set_phase (phase : MutationPhase) (s : MutationSnapshot) : MutationSnapshot :=
  {| ms_session_id := ms_session_id s; ms_timestamp_ns := ms_timestamp_ns s;
     ms_provider := ms_provider s; ms_original := ms_original s;
     ms_replacement_name := ms_replacement_name s; ms_requested_plan := ms_requested_plan s;
     ms_phase := phase; ms_rollback_pending := ms_rollback_pending s;
     ms_last_error := ms_last_error s |}.
Definition set_pending (pending : bool) (s : MutationSnapshot) : MutationSnapshot :=
  {| ms_session_id := ms_session_id s; ms_timestamp_ns := ms_timestamp_ns s;
     ms_provider := ms_provider s; ms_original := ms_original s;
     ms_replacement_name := ms_replacement_name s; ms_requested_plan := ms_requested_plan s;
     ms_phase := ms_phase s; ms_rollback_pending := pending;
     ms_last_error := ms_last_error s |}.
Definition set_last_error (message : string) (s : MutationSnapshot) : MutationSnapshot :=
  {| ms_session_id := ms_session_id s; ms_timestamp_ns := ms_timestamp_ns s;
     ms_provider := ms_provider s; ms_original := ms_original s;
     ms_replacement_name := ms_replacement_name s; ms_requested_plan := ms_requested_plan s;
     ms_phase := ms_phase s; ms_rollback_pending := ms_rollback_pending s;
     ms_last_error := Some message |}.

Section Transaction.
Context {B : Type} `{ZramBackend B}.

(** the snapshot and the backend, both borrowed mutably *)
Definition State : Type := MutationSnapshot * B.

Definition with_snapshot {A} (m : eff MutationSnapshot A ZramError) : eff State A ZramError :=
  eff_fst m.
Definition phase_reached (phase : MutationPhase) : eff State unit ZramError :=
  with_snapshot (eff_upd (set_phase phase)).

Definition ensure_swap : eff State unit ZramError :=
  let! capacity := eff_snd (eff_read effective_valid_swap_capacity) in
  eff_reject (capacity =? 0) (Verification "no-swap-loss invariant violated").

Definition rolled_back_outcome : TransactionOutcome :=
  {| to_applied := false; to_verified := true; to_rolled_back := true; to_phase := RolledBack |}.

(** reactivate the original when it was active and no longer is *)
Definition restore_original : eff State unit ZramError :=
  let! snapshot := with_snapshot eff_get in
  let original := ms_original snapshot in
  if dv_active_swap original then
    let! current := eff_snd (eff_read (verify (dv_name original))) in
    if dv_active_swap current then eff_ret tt
    else
      eff_snd (activate (dv_name original) (unwrap_or (dv_priority original) 100)) ;!
      ensure_swap
  else eff_ret tt.

(** deactivate and remove the replacement, when it is owned *)
Definition discard_replacement : eff State unit ZramError :=
  let! snapshot := with_snapshot eff_get in
  match ms_replacement_name snapshot with
  | None => eff_ret tt
  | Some replacement =>
      let! owned := eff_snd (eff_read (fun b => Ok (is_owned replacement b))) in
      if owned then
        let! current := eff_snd (eff_read (verify replacement)) in
        (if dv_active_swap current
         then eff_snd (deactivate replacement) ;! ensure_swap
         else eff_ret tt) ;!
        eff_snd (remove_managed_device replacement)
      else eff_ret tt
  end.

Definition rollback : eff State TransactionOutcome ZramError :=
  let! snapshot := with_snapshot eff_get in
  if bool_decide (ms_phase snapshot = RolledBack) then eff_ret rolled_back_outcome
  else
    restore_original ;!
    discard_replacement ;!
    with_snapshot (eff_upd (fun s => set_pending false (set_phase RolledBack s))) ;!
    eff_ret rolled_back_outcome.

(** the original is deactivated only after the replacement serves as swap *)
Definition migrate (initial_capacity : Z) : eff State unit ZramError :=
  let! snapshot := with_snapshot eff_get in
  if zp_requires_swap_migration (ms_requested_plan snapshot) then
    eff_reject (initial_capacity =? 0) (Verification "migration cannot start without valid swap") ;!
    eff_snd (deactivate (dv_name (ms_original snapshot))) ;!
    phase_reached OriginalDeactivated ;!
    ensure_swap
  else eff_ret tt.

Definition apply_after_create (initial_capacity : Z) : eff State TransactionOutcome ZramError :=
  let! snapshot := with_snapshot eff_get in
  let plan := ms_requested_plan snapshot in
  let! replacement :=
    eff_read (fun _ => ok_or (ms_replacement_name snapshot) (Verification "replacement is missing")) in
  let! algorithm :=
    eff_read (fun _ => ok_or (zp_selected_algorithm plan)
                         (Blocked "selected algorithm unavailable")) in
  eff_snd (configure_uninitialized replacement algorithm) ;!
  phase_reached AlgorithmConfigured ;!
  let! disksize :=
    eff_read (fun _ =>
      ok_or (value ← zp_proposed_disksize plan; then_some (0 <? value) value)
        (Blocked "proposed disksize invalid")) in
  eff_snd (initialize replacement disksize) ;!
  phase_reached Initialized ;!
  let! initialized := eff_snd (eff_read (verify replacement)) in
  eff_reject (negb (bool_decide (dv_disksize initialized = Some disksize)))
    (Verification "replacement disksize readback mismatch") ;!
  eff_snd (activate replacement (unwrap_or (zp_proposed_priority plan) 100)) ;!
  phase_reached Activated ;!
  ensure_swap ;!
  migrate initial_capacity ;!
  let! verified := eff_snd (eff_read (verify replacement)) in
  eff_reject (negb (dv_active_swap verified)) (Verification "replacement is not active swap") ;!
  with_snapshot (eff_upd (fun s => set_pending false (set_phase Verified s))) ;!
  eff_ret {| to_applied := true; to_verified := true; to_rolled_back := false;
             to_phase := Verified |}.

Definition apply_plan : eff State TransactionOutcome ZramError :=
  let! snapshot := with_snapshot eff_get in
  let plan := ms_requested_plan snapshot in
  if zp_dry_run plan then
    eff_ret {| to_applied := false; to_verified := false; to_rolled_back := false;
               to_phase := Snapshot |}
  else
    eff_reject (negb (zp_allowed plan)) (Blocked (join "," (zp_blocked_reasons plan))) ;!
    eff_reject (negb (explicit_owner (dv_ownership (ms_original snapshot))))
      (Blocked "original ownership is ambiguous") ;!
    let! initial_capacity := eff_snd (eff_read effective_valid_swap_capacity) in
    let! replacement := eff_snd create_isolated_managed_device in
    with_snapshot (eff_upd (fun s => set_phase ReplacementCreated
                                       (set_replacement (dv_name replacement) s))) ;!
    let! result := eff_try (apply_after_create initial_capacity) in
    match result with
    | Ok outcome => eff_ret outcome
    | Err error =>
        with_snapshot (eff_upd (fun s =>
          set_pending true (set_last_error (zram_error_to_string error) s))) ;!
        eff_try rollback ;!
        eff_err error
    end.

Definition recover_pending : eff State TransactionOutcome ZramError :=
  let! snapshot := with_snapshot eff_get in
  let rolled_back := bool_decide (ms_phase snapshot = RolledBack) in
  if negb (ms_rollback_pending snapshot) || rolled_back then
    eff_ret {| to_applied := false; to_verified := true; to_rolled_back := rolled_back;
               to_phase := ms_phase snapshot |}
  else
    eff_reject (negb (explicit_owner (dv_ownership (ms_original snapshot))))
      (Blocked "recovery ownership is ambiguous") ;!
    rollback.
End Transaction.

(** ** inventory.rs over the system's files *)

Inductive IoKind := NotFound | Busy | OtherIo.
#[export] Instance IoKind_eq_dec : EqDecision IoKind.
Proof. solve_decision. Defined.
(** an [io::Error]: its kind (or the error number 16) and its text *)
Record IoError := { io_kind : IoKind; io_text : string }.

(** how a spawned helper ended before the command's deadline, or did not *)
Inductive HelperEnd :=
| HelperOk
| HelperFailed (status : string)
| HelperTimeout
| HelperSpawnError (text : string)
| HelperWaitError (text : string).

(** The system below the Linux backend: files, and the helpers it spawns. The
    polling loops against the clock are effects of the system: what the clock
    lets the loop see is the system's answer. *)
Class ZramSystem (W : Type) := {
  read_text : string -> W -> result string IoError;             (* [fs::read_to_string] *)
  list_dir : string -> W -> result (list (result string IoError)) IoError;
  path_exists : string -> W -> bool;
  owner_and_mode : string -> W -> option (Z * Z);               (* [fs::metadata] *)
  canonicalize : string -> W -> option string;
  read_hot_add : string -> eff W string IoError;                (* reading adds a device *)
  write_file : string -> string -> eff W unit IoError;
  await_exists : string -> eff W bool ZramError;                (* exists before the deadline *)
  clock_allows : eff W bool ZramError;                          (* sleep; still before the deadline *)
  run_helper : string -> list string -> string -> eff W HelperEnd ZramError
}.

Section Inventory.
Context {W : Type} `{ZramSystem W}.

Definition resolve (root absolute : string) : string := path_join root (trim_start_char "/" absolute).

Definition optional_text (path : string) (w : W) : result (option string) ZramError :=
  match read_text path w with
  | Ok value => Ok (Some value)
  | Err e => if bool_decide (io_kind e = NotFound) then Ok None
             else Err (ReadError path (io_text e))
  end.

(** [optional_text(path)?.map(parse).transpose()?] *)
Definition optional_parse {A} (parse : string -> result A ZramError) (path : string) (w : W) :
    result (option A) ZramError :=
  let? text := optional_text path w in
  match text with
  | None => Ok None
  | Some value => let? a := parse value in Ok (Some a)
  end.
Definition optional_u64 : string -> W -> result (option Z) ZramError :=
  optional_parse (fun value => parse_u64_field "sysfs_u64" (trim value)).
Definition optional_numbers : string -> W -> result (option (list Z)) ZramError :=
  optional_parse (parse_numbers "sysfs_statistics").

Definition detect_provider (root name : string) (w : W) : Provider :=
  let unit := ("systemd-zram-setup@" ++ name ++ ".service")%string in
  let swap_unit := ("dev-" ++ name ++ ".swap")%string in
  let there p := path_exists (resolve root p) w in
  if there ("/run/systemd/generator/" ++ unit)%string
     || there ("/run/systemd/system/" ++ unit)%string
     || there ("/run/systemd/generator/" ++ swap_unit)%string
     || there ("/run/systemd/generator/systemd-zram-setup@" ++ name ++ ".service.d")%string
  then SystemdGenerator
  else if String.eqb root "/" then UnknownProvider
  else if there "/run/udev"%string then DistroUdev
  else Manual.

Definition zram_effective_uid (w : W) : option Z :=
  match read_text "/proc/self/status" w with
  | Err _ => None
  | Ok text =>
      fields ← find_map (strip_prefix "Uid:") (lines text);
      second ← nth_error (split_whitespace fields) 1;
      parse_u32 second
  end.

Definition writable (path : string) (w : W) : bool :=
  match owner_and_mode path w, zram_effective_uid w with
  | Some (owner, mode), Some uid =>
      ((uid =? owner) && negb (Z.land mode 128 =? 0))
      || (negb (uid =? owner) && negb (Z.land mode 2 =? 0))
  | _, _ => false
  end.

(** the body of the loop for one zram device *)
Definition inspect_device (root name : string) (swaps : gmap string (Z * Z * Z)) (w : W) :
    result DeviceInventory ZramError :=
  let base := resolve root ("/sys/block/" ++ name) in
  let file f := path_join base f in
  let? algorithms := optional_parse parse_algorithms (file "comp_algorithm"%string) w in
  let algorithms := unwrap_or algorithms (None, []) in
  let? mm_stat := optional_parse parse_mm_stat (file "mm_stat"%string) w in
  let swap := swaps !! ("/dev/" ++ name)%string in
  let provider := detect_provider root name w in
  let? disksize := optional_u64 (file "disksize"%string) w in
  let? initstate := optional_u64 (file "initstate"%string) w in
  let? io_stat := optional_numbers (file "io_stat"%string) w in
  let? block_stat := optional_numbers (file "stat"%string) w in
  let? bd_stat := optional_numbers (file "bd_stat"%string) w in
  Ok {| dv_name := name;
        dv_sysfs_path := "/sys/block/" ++ name;
        dv_device_path := "/dev/" ++ name;
        dv_active_swap := is_some swap;
        dv_priority := (fun entry => fst (fst entry)) <$> swap;
        dv_disksize := disksize;
        dv_initstate := (fun value => negb (value =? 0)) <$> initstate;
        dv_current_algorithm := fst algorithms;
        dv_available_algorithms := snd algorithms;
        dv_mm_stat := unwrap_or mm_stat MmStat_default;
        dv_io_stat := io_stat;
        dv_block_stat := block_stat;
        dv_bd_stat := bd_stat;
        dv_recompression_available := path_exists (file "recomp_algorithm"%string) w;
        dv_provider := provider;
        dv_ownership := if bool_decide (provider = UnknownProvider) then UnknownOwner else External;
        dv_writable :=
          {| wc_hot_add := writable (resolve root "/sys/class/zram-control/hot_add") w;
             wc_hot_remove := writable (resolve root "/sys/class/zram-control/hot_remove") w;
             wc_algorithm := writable (file "comp_algorithm"%string) w;
             wc_disksize := writable (file "disksize"%string) w;
             wc_reset := writable (file "reset"%string) w |} |}.

(** the loop over /sys/block: devices and what they lack *)
Fixpoint inspect_loop (root : string) (swaps : gmap string (Z * Z * Z))
    (entries : list (result string IoError)) (devices : list DeviceInventory)
    (unavailable : list string) (w : W) :
    result (list DeviceInventory * list string) ZramError :=
  match entries with
  | [] => Ok (devices, unavailable)
  | Err e :: _ => Err (ReadError (resolve root "/sys/block") (io_text e))
  | Ok name :: rest =>
      if negb (valid_name name) then inspect_loop root swaps rest devices unavailable w
      else
        let? device := inspect_device root name swaps w in
        inspect_loop root swaps rest (devices ++ [device])
          (push_if (negb (dv_recompression_available device)) (name ++ ".recompression") unavailable)
          w
  end.

Definition inspect_linux (root : string) (w : W) : result Inventory ZramError :=
  let sys_block := resolve root "/sys/block" in
  match list_dir sys_block w with
  | Err e =>
      if bool_decide (io_kind e = NotFound)
      then Ok {| iv_available := false; iv_devices := []; iv_unavailable := ["sys_block"%string] |}
      else Err (ReadError sys_block (io_text e))
  | Ok entries =>
      let text := match read_text (resolve root "/proc/swaps") w with
                  | Ok text => text
                  | Err _ => ""%string
                  end in
      let? swaps := parse_swaps text in
      let? found := inspect_loop root swaps entries [] [] w in
      Ok {| iv_available := negb (bool_decide (length (fst found) = 0%nat));
            iv_devices := sort_by (fun a b => String.leb (dv_name a) (dv_name b)) (fst found);
            iv_unavailable := sort_strings (snd found) |}
  end.
End Inventory.

(** ** backend.rs: LinuxZramBackend *)

Record LinuxZramBackend (W : Type) := MkLinux {
  lz_root : string;
  lz_owned : gset string;
  lz_system : W
}.
Arguments MkLinux {W} _ _ _.
Arguments lz_root {W} _.
Arguments lz_owned {W} _.
Arguments lz_system {W} _.

Section Linux.
Context {W : Type} `{ZramSystem W}.
Abbreviation Self := (LinuxZramBackend W).

(** a call of the system from the backend *)
Definition on_system {A E} (f : E -> ZramError) (m : eff W A E) : eff Self A ZramError :=
  fun self =>
    let '(w, r) := m (lz_system self) in
    (MkLinux (lz_root self) (lz_owned self) w,
     match r with Ok a => Ok a | Err e => Err (f e) end).
Definition set_owned (f : gset string -> gset string) : eff Self unit ZramError :=
  eff_upd (fun self => MkLinux (lz_root self) (f (lz_owned self)) (lz_system self)).

Definition path (self : Self) (absolute : string) : string := resolve (lz_root self) absolute.

Definition require_owned (name : string) : eff Self unit ZramError :=
  let! self := eff_get in
  eff_reject (negb (valid_name name && bool_decide (name ∈ lz_owned self)))
    (Blocked "device is not registered as Nemor-owned").

Definition linux_inspect (self : Self) : result Inventory ZramError :=
  let? inventory := inspect_linux (lz_root self) (lz_system self) in
  Ok {| iv_available := iv_available inventory;
        iv_devices := map (fun d =>
          if bool_decide (dv_name d ∈ lz_owned self)
          then {| dv_name := dv_name d; dv_sysfs_path := dv_sysfs_path d;
                  dv_device_path := dv_device_path d; dv_active_swap := dv_active_swap d;
                  dv_priority := dv_priority d; dv_disksize := dv_disksize d;
                  dv_initstate := dv_initstate d; dv_current_algorithm := dv_current_algorithm d;
                  dv_available_algorithms := dv_available_algorithms d;
                  dv_mm_stat := dv_mm_stat d; dv_io_stat := dv_io_stat d;
                  dv_block_stat := dv_block_stat d; dv_bd_stat := dv_bd_stat d;
                  dv_recompression_available := dv_recompression_available d;
                  dv_provider := dv_provider d; dv_ownership := NemorOwned;
                  dv_writable := dv_writable d |}
          else d) (iv_devices inventory);
        iv_unavailable := iv_unavailable inventory |}.

Definition linux_verify (name : string) (self : Self) : result DeviceInventory ZramError :=
  reject (negb (valid_name name)) (Blocked "invalid zram device name") ;?
  let? inventory := linux_inspect self in
  ok_or (find_first (fun d => String.eqb (dv_name d) name) (iv_devices inventory))
    (Verification (name ++ " is absent")).

(** [path.ends_with("block/<name>")], by components of a canonical path *)
Definition ends_with_block (name path : string) : bool :=
  String.eqb path ("block/" ++ name) || ends_with ("/block/" ++ name) path.

Definition resume_isolated_managed_device (name : string) (baseline_names : gset string) :
    eff Self DeviceInventory ZramError :=
  eff_reject (negb (valid_name name) || String.eqb name "zram0"
              || bool_decide (name ∈ baseline_names))
    (Blocked "recovery device was present at baseline or is protected") ;!
  let! self := eff_get in
  eff_reject (negb (is_some_and (canonicalize (path self ("/sys/block/" ++ name)) (lz_system self))
                      (ends_with_block name)))
    (Blocked "recovery device is not a live canonical zram device") ;!
  set_owned (fun owned => {[name]} ∪ owned) ;!
  eff_read (linux_verify name).

Definition write_owned (name field value : string) : eff Self unit ZramError :=
  require_owned name ;!
  eff_reject (negb (contains_str ["comp_algorithm"; "disksize"; "reset"]%string field))
    (Blocked "sysfs property is not allow-listed") ;!
  let! self := eff_get in
  on_system (fun e => Backend "sysfs_write" (io_text e))
    (write_file (path self ("/sys/block/" ++ name ++ "/" ++ field)%string) value).

Definition command (executable device : string) (extra : list string) : eff Self unit ZramError :=
  eff_reject (negb (contains_str ["/usr/bin/mkswap"; "/usr/bin/swapon"; "/usr/bin/swapoff"]%string
                      executable)) (Blocked "helper executable is not allow-listed") ;!
  let! name := eff_read (fun _ => ok_or (Process.path_file_name device) (Blocked "invalid device path")) in
  require_owned name ;!
  eff_reject (negb (starts_with "/" device
                    && bool_decide (Process.path_components device
                                    = Process.path_components ("/dev/" ++ name))))
    (Blocked "device path is not canonical zram") ;!
  let! appeared := on_system (fun e => e) (await_exists device) in
  eff_reject (negb appeared) (Backend "wait_for_device_node" (device ++ " did not appear")) ;!
  let! ended := on_system (fun e => e) (run_helper executable extra device) in
  match ended with
  | HelperOk => eff_ret tt
  | HelperFailed status =>
      eff_err (Backend "allowlisted_helper" (executable ++ " exited with " ++ status))
  | HelperTimeout =>
      eff_err (Backend "allowlisted_helper_timeout" (executable ++ " exceeded timeout"))
  | HelperSpawnError text => eff_err (Backend "spawn_allowlisted_helper" text)
  | HelperWaitError text => eff_err (Backend "wait_allowlisted_helper" text)
  end.

Definition linux_create : eff Self DeviceInventory ZramError :=
  let! self := eff_get in
  let! text := on_system (fun e => Backend "hot_add" (io_text e))
                 (read_hot_add (path self "/sys/class/zram-control/hot_add")) in
  let! index := eff_read (fun _ => ok_or (parse_u32 (trim text))
                  (Backend "parse_hot_add_result" (int_error false u32_max (trim text)))) in
  let name := ("zram" ++ show_uint index)%string in
  set_owned (fun owned => {[name]} ∪ owned) ;!
  eff_read (linux_verify name).

Definition linux_configure (name algorithm : string) : eff Self unit ZramError :=
  let! device := eff_read (linux_verify name) in
  eff_reject (bool_decide (dv_initstate device = Some true))
    (Blocked "algorithm must be configured before initialization") ;!
  eff_reject (negb (contains_str (dv_available_algorithms device) algorithm))
    (Blocked "algorithm is unavailable") ;!
  write_owned name "comp_algorithm" algorithm.

Definition linux_initialize (name : string) (disksize : Z) : eff Self unit ZramError :=
  eff_reject (disksize =? 0) (Blocked "disksize must be greater than zero") ;!
  write_owned name "disksize" (show_uint disksize).

Definition linux_activate (name : string) (priority : Z) : eff Self unit ZramError :=
  require_owned name ;!
  let device := ("/dev/" ++ name)%string in
  command "/usr/bin/mkswap" device [] ;!
  command "/usr/bin/swapon" device ["--priority"%string; show_int priority].

Definition linux_deactivate (name : string) : eff Self unit ZramError :=
  require_owned name ;!
  command "/usr/bin/swapoff" ("/dev/" ++ name) [].

(** the loop around the write: a busy device is retried while the clock allows it;
    [fuel] bounds the polls, ten seconds of 50 ms make at most 200 *)
Fixpoint reset_loop (fuel : nat) (file : string) : eff Self unit ZramError :=
  let! written := fun self =>
    let '(w, r) := write_file file "1" (lz_system self) in
    (MkLinux (lz_root self) (lz_owned self) w, Ok r) in
  match written with
  | Ok _ => eff_ret tt
  | Err e =>
      if bool_decide (io_kind e = Busy) then
        let! again := on_system (fun e => e) clock_allows in
        match again, fuel with
        | true, S fuel' => reset_loop fuel' file
        | _, _ => eff_err (Backend "reset" (io_text e))
        end
      else eff_err (Backend "reset" (io_text e))
  end.

Definition linux_reset (name : string) : eff Self unit ZramError :=
  let! device := eff_read (linux_verify name) in
  eff_reject (dv_active_swap device) (Blocked "never reset active swap") ;!
  require_owned name ;!
  let! self := eff_get in
  reset_loop 200 (path self ("/sys/block/" ++ name ++ "/reset")%string).

Definition linux_remove (name : string) : eff Self unit ZramError :=
  let! device := eff_read (linux_verify name) in
  eff_reject (dv_active_swap device) (Blocked "never remove active swap") ;!
  linux_reset name ;!
  let! suffix := eff_read (fun _ => ok_or (strip_prefix "zram" name) (Blocked "invalid zram name")) in
  let! self := eff_get in
  on_system (fun e => Backend "hot_remove" (io_text e))
    (write_file (path self "/sys/class/zram-control/hot_remove") suffix) ;!
  set_owned (fun owned => owned ∖ {[name]}).

(** [try_fold] over the active devices *)
Fixpoint sum_capacity (ds : list DeviceInventory) (total : Z) : result Z ZramError :=
  match ds with
  | [] => Ok total
  | d :: rest =>
      if dv_active_swap d then
        let? total := ok_or (u64_checked_add total (unwrap_or (dv_disksize d) 0))
                        (Verification "swap capacity overflow") in
        sum_capacity rest total
      else sum_capacity rest total
  end.
Definition linux_capacity (self : Self) : result Z ZramError :=
  let? inventory := linux_inspect self in
  sum_capacity (iv_devices inventory) 0.

#[export] Instance linux_zram_backend : ZramBackend Self := {
  inspect := linux_inspect;
  create_isolated_managed_device := linux_create;
  configure_uninitialized := linux_configure;
  initialize := linux_initialize;
  activate := linux_activate;
  deactivate := linux_deactivate;
  verify := linux_verify;
  reset_managed_device := linux_reset;
  remove_managed_device := linux_remove;
  effective_valid_swap_capacity := linux_capacity;
  is_owned name self := bool_decide (name ∈ lz_owned self)
}.
End Linux.

(** ** What the transaction relies on: a kernel with a table of devices *)

(** some active device has a non-zero size *)
Definition has_swap (t : gmap string DeviceInventory) : Prop :=
  exists n d size, t !! n = Some d /\ dv_active_swap d = true /\ dv_disksize d = Some size /\
                   size <> 0.

(** [t'] differs from [t] in [name] at most *)
Definition touches (name : string) (t t' : gmap string DeviceInventory) : Prop :=
  forall n, n <> name -> t' !! n = t !! n.

(** the device of [name] in [t'] comes from the one in [t] by [R] *)
Definition entry (name : string) (t t' : gmap string DeviceInventory)
    (R : DeviceInventory -> DeviceInventory -> Prop) : Prop :=
  forall d, t !! name = Some d -> exists d', t' !! name = Some d' /\ R d d'.

(** A backend whose calls act on the named device of a table only, and whose reads
    report that table. [swap_kept] says that no moment of its history was without
    swap: a call keeps it when there is swap before and after. *)
Class LawfulZram (B : Type) `{ZramBackend B} := {
  devices : B -> gmap string DeviceInventory;
  swap_kept : B -> Prop;
  verify_law name b d : verify name b = Ok d -> devices b !! name = Some d;
  capacity_law b c : effective_valid_swap_capacity b = Ok c -> c <> 0 -> has_swap (devices b);
  create_law b b' r : create_isolated_managed_device b = (b', r) ->
    (swap_kept b -> has_swap (devices b) -> has_swap (devices b') -> swap_kept b') /\
    match r with
    | Ok d => devices b !! dv_name d = None /\ devices b' = <[dv_name d := d]> (devices b)
    | Err _ => exists name, devices b !! name = None /\ touches name (devices b) (devices b')
    end;
  configure_law name algorithm b b' r : configure_uninitialized name algorithm b = (b', r) ->
    (swap_kept b -> has_swap (devices b) -> has_swap (devices b') -> swap_kept b') /\
    touches name (devices b) (devices b');
  initialize_law name size b b' r : initialize name size b = (b', r) ->
    (swap_kept b -> has_swap (devices b) -> has_swap (devices b') -> swap_kept b') /\
    touches name (devices b) (devices b');
  activate_law name priority b b' r : activate name priority b = (b', r) ->
    (swap_kept b -> has_swap (devices b) -> has_swap (devices b') -> swap_kept b') /\
    touches name (devices b) (devices b') /\
    entry name (devices b) (devices b') (fun d d' =>
      dv_disksize d' = dv_disksize d /\
      (dv_active_swap d = true \/ is_ok r = true -> dv_active_swap d' = true));
  deactivate_law name b b' r : deactivate name b = (b', r) ->
    (swap_kept b -> has_swap (devices b) -> has_swap (devices b') -> swap_kept b') /\
    touches name (devices b) (devices b') /\
    entry name (devices b) (devices b') (fun d d' => dv_disksize d' = dv_disksize d);
  remove_law name b b' r : remove_managed_device name b = (b', r) ->
    (swap_kept b -> has_swap (devices b) -> has_swap (devices b') -> swap_kept b') /\
    touches name (devices b) (devices b')
}.

(** ** Lemmas *)
Module Facts.

Section NoSwapLoss.
Context {B : Type} `{LawfulZram B}.
Context (original : DeviceInventory) (t0 : gmap string DeviceInventory) (repl : string).
Context (Horiginal : t0 !! dv_name original = Some original).
Context (Hswap0 : has_swap t0).
Context (Hfresh : t0 !! repl = None).

Lemma repl_not_original : repl <> dv_name original.
Proof using Hfresh Horiginal. congruence. Qed.

(** the snapshot of this transaction *)
Definition snap_ok (s : MutationSnapshot) : Prop :=
  ms_original s = original /\ ms_replacement_name s = Some repl /\ ms_phase s <> RolledBack.

(** only the replacement differs from the table at the start *)
Definition fresh_stage (b : B) : Prop := swap_kept b /\ touches repl t0 (devices b).

Definition original_sized (b : B) : Prop :=
  exists d, devices b !! dv_name original = Some d /\ dv_disksize d = dv_disksize original.

(** anything may have happened to the original's activity, but there is swap *)
Definition late_stage (b : B) : Prop :=
  swap_kept b /\ has_swap (devices b) /\
  (forall n, n <> repl -> n <> dv_name original -> devices b !! n = t0 !! n) /\
  original_sized b.

(** the replacement serves as swap *)
Definition repl_active (b : B) : Prop :=
  exists d size, devices b !! repl = Some d /\ dv_active_swap d = true /\
                 dv_disksize d = Some size /\ size <> 0.

(** there is swap besides the replacement *)
Definition original_back (b : B) : Prop :=
  dv_active_swap original = true ->
  exists d, devices b !! dv_name original = Some d /\ dv_active_swap d = true.

Lemma touches_swap t : touches repl t0 t -> has_swap t.
Proof using Hfresh Hswap0.
  intros Ht. destruct Hswap0 as (n & d & size & Hn & Ha). exists n, d, size.
  rewrite Ht; [done | congruence].
Qed.

Lemma repl_active_swap b : repl_active b -> has_swap (devices b).
Proof. intros (d & size & Hd). by exists repl, d, size. Qed.

Lemma late_of_fresh b : fresh_stage b -> late_stage b.
Proof using Hfresh Horiginal Hswap0.
  intros [Hk Ht]. split; [done |]. split; [by apply touches_swap |]. split.
  - intros n Hn _. by apply Ht.
  - exists original. rewrite Ht by (apply not_eq_sym, repl_not_original). done.
Qed.

(** when the original is back there is swap whatever becomes of the replacement *)
Lemma original_back_swap b b' : late_stage b -> original_back b ->
  touches repl (devices b) (devices b') -> has_swap (devices b').
Proof using Hfresh Horiginal Hswap0.
  intros (_ & _ & Ho & d & Hd & Hsize) Hback Ht.
  destruct Hswap0 as (n & d0 & size & Hn & Ha & Hs & Hne).
  assert (n <> repl) as Hr by congruence.
  destruct (decide (n = dv_name original)) as [-> | Hno].
  - assert (d0 = original) as -> by congruence. destruct (Hback Ha) as (d' & Hd' & Ha').
    assert (d' = d) as -> by congruence.
    exists (dv_name original), d, size. rewrite Ht by done. repeat split; congruence.
  - exists n, d0, size. rewrite Ht, Ho by done. done.
Qed.

Lemma late_after_repl b b' : late_stage b -> original_back b ->
  (swap_kept b -> has_swap (devices b) -> has_swap (devices b') -> swap_kept b') ->
  touches repl (devices b) (devices b') -> late_stage b' /\ original_back b'.
Proof using Hfresh Horiginal Hswap0.
  intros Hl Hback Hk Ht. pose proof (original_back_swap b b' Hl Hback Ht) as Hsw.
  destruct Hl as (Hk0 & Hs0 & Ho & d & Hd & Hsize).
  assert (devices b' !! dv_name original = devices b !! dv_name original) as Heq
    by (apply Ht, not_eq_sym, repl_not_original).
  split.
  - split; [by apply Hk |]. split; [done |]. split.
    + intros n Hn Hno. rewrite Ht by done. by apply Ho.
    + exists d. by rewrite Heq.
  - unfold original_back. by rewrite Heq.
Qed.

(** ** Rollback *)

Definition Late (p : MutationSnapshot * B) : Prop := snap_ok (fst p) /\ late_stage (snd p).
Definition Back (p : MutationSnapshot * B) : Prop :=
  snap_ok (fst p) /\ late_stage (snd p) /\ original_back (snd p).

Lemma ensure_swap_triple (P : MutationSnapshot * B -> Prop) :
  triple P ensure_swap (fun _ p => P p /\ has_swap (devices (snd p))) P.
Proof.
  unfold ensure_swap.
  apply (triple_bind _ _ (fun c p => P p /\ effective_valid_swap_capacity (snd p) = Ok c)).
  - apply triple_snd. intros s. by apply triple_read.
  - intros c. apply triple_reject; [| by intros s [? _]].
    intros s [Hp Hc] Hne. split; [done |]. apply (capacity_law _ _ Hc). by apply Z.eqb_neq.
Qed.

Lemma restore_original_triple : triple Late restore_original (fun _ => Back) Late.
Proof using Hfresh Horiginal Hswap0.
  unfold restore_original.
  apply (triple_bind _ _ (fun s p => Late p /\ ms_original s = original)).
  { apply triple_fst. intros b. apply triple_get. intros s Hs. split; [done | apply Hs]. }
  intros s. apply (triple_pure (ms_original s = original)); [by intros p [_ ?] |]. intros ->.
  destruct (dv_active_swap original) eqn:Ha.
  2: { apply triple_ret. intros p [[Hs Hl] _]. split; [done |]. split; [done |].
       unfold original_back. congruence. }
  apply (triple_bind _ _ (fun d p => Late p /\ devices (snd p) !! dv_name original = Some d)).
  { apply triple_snd. intros s'. apply triple_read; [| by intros b [? _]].
    intros b d [Hl _] Hv. split; [done |]. exact (verify_law _ _ _ Hv). }
  intros d. destruct (dv_active_swap d) eqn:Hd.
  { apply triple_ret. intros p [[Hs Hl] Hv]. split; [done |]. split; [done |].
    intros _. eauto. }
  apply (triple_bind _ _ (fun _ => Back)).
  - apply triple_snd. intros s' b [[Hs (Hk & Hsw & Ho & do & Hdo & Hsize)] _]. simpl in *.
    destruct (activate (dv_name original) (unwrap_or (dv_priority original) 100) b)
      as [b' r] eqn:E. destruct (activate_law _ _ _ _ _ E) as (Hk' & Ht & He).
    destruct (He _ Hdo) as (d' & Hd' & Hsize' & Hact).
    assert (has_swap (devices b')) as Hsw'.
    { destruct Hsw as (n & dn & size & Hn & Hna & Hns & Hne).
      destruct (decide (n = dv_name original)) as [-> | Hno].
      - assert (dn = do) as -> by congruence. exists (dv_name original), d', size.
        repeat split; [done | apply Hact; by left | congruence | done].
      - exists n, dn, size. by rewrite Ht. }
    assert (late_stage b') as Hl'.
    { split; [by apply Hk' |]. split; [done |]. split.
      - intros n Hn Hno. rewrite Ht by done. by apply Ho.
      - exists d'. split; [done | congruence]. }
    destruct r as [[]|e]; simpl; [| done]. split; [done |]. split; [done |].
    intros _. exists d'. split; [done |]. apply Hact. by right.
  - intros _. eapply triple_weaken; [apply (ensure_swap_triple Back) | done | by intros _ p [? _] |].
    intros p (? & ? & _). done.
Qed.

Lemma on_replacement {A} (m : eff B A ZramError) :
  (forall b b' r, m b = (b', r) ->
     (swap_kept b -> has_swap (devices b) -> has_swap (devices b') -> swap_kept b') /\
     touches repl (devices b) (devices b')) ->
  triple Back (eff_snd m) (fun _ => Back) Back.
Proof using Hfresh Horiginal Hswap0.
  intros Hm. apply triple_snd. intros s b (Hs & Hl & Hb). simpl in *.
  destruct (m b) as [b' r] eqn:E. destruct (Hm _ _ _ E) as [Hk Ht].
  destruct (late_after_repl b b' Hl Hb Hk Ht) as [Hl' Hb'].
  by destruct r as [a|e].
Qed.

Lemma discard_replacement_triple : triple Back discard_replacement (fun _ => Back) Back.
Proof using Hfresh Horiginal Hswap0.
  unfold discard_replacement.
  apply (triple_bind _ _ (fun s p => Back p /\ ms_replacement_name s = Some repl)).
  { apply triple_fst. intros b. apply triple_get. intros s Hs. split; [done | apply Hs]. }
  intros s. apply (triple_pure (ms_replacement_name s = Some repl)); [by intros p [_ ?] |].
  intros ->. apply (triple_bind _ _ (fun _ => Back)).
  { apply triple_snd. intros s'. apply triple_read; [by intros b ? [? _] _ | by intros b [? _]]. }
  intros owned. destruct owned; [| by apply triple_ret].
  apply (triple_bind _ _ (fun _ => Back)).
  { apply triple_snd. intros s'. by apply triple_read. }
  intros d. apply (triple_bind _ _ (fun _ => Back)).
  - apply triple_if; [intros _ | intros _; by apply triple_ret].
    apply (triple_bind _ _ (fun _ => Back)).
    + apply on_replacement. intros b b' r E. destruct (deactivate_law _ _ _ _ E) as (? & ? & _). done.
    + intros _. eapply triple_weaken; [apply (ensure_swap_triple Back) | done | | done].
      by intros _ p [? _].
  - intros _. apply on_replacement. intros b b' r E. by apply (remove_law _ _ _ _ E).
Qed.

(** the snapshot after a rollback that succeeded *)
Definition rolled_back (p : MutationSnapshot * B) : Prop :=
  ms_phase (fst p) = RolledBack /\ ms_rollback_pending (fst p) = false /\
  late_stage (snd p) /\ original_back (snd p).

Lemma rollback_triple : triple Late rollback (fun _ => rolled_back) Late.
Proof using Hfresh Horiginal Hswap0.
  unfold rollback.
  apply (triple_bind _ _ (fun s p => Late p /\ ms_phase s <> RolledBack)).
  { apply triple_fst. intros b. apply triple_get. intros s Hs. split; [done | apply Hs]. }
  intros s. apply (triple_pure (ms_phase s <> RolledBack)); [by intros p [_ ?] |]. intros Hp.
  rewrite bool_decide_eq_false_2 by done.
  apply (triple_bind _ _ (fun _ => Back)).
  { eapply triple_weaken; [apply restore_original_triple | by intros p [? _] | done | done]. }
  intros _. apply (triple_bind _ _ (fun _ => Back)).
  { eapply triple_weaken; [apply discard_replacement_triple | done | done |].
    by intros p (? & ? & _). }
  intros _. apply (triple_bind _ _ (fun _ => rolled_back)).
  - apply triple_fst. intros b. apply triple_upd. intros s' (_ & ? & ?). done.
  - intros _. by apply triple_ret.
Qed.

(** ** The forward part *)

Definition Fresh (p : MutationSnapshot * B) : Prop := snap_ok (fst p) /\ fresh_stage (snd p).
Definition Serving (p : MutationSnapshot * B) : Prop :=
  snap_ok (fst p) /\ late_stage (snd p) /\ repl_active (snd p).

Lemma late_of_Fresh p : Fresh p -> Late p.
Proof using Hfresh Horiginal Hswap0. intros [? ?]. split; [done |]. by apply late_of_fresh. Qed.

Lemma fresh_step b b' : fresh_stage b ->
  (swap_kept b -> has_swap (devices b) -> has_swap (devices b') -> swap_kept b') ->
  touches repl (devices b) (devices b') -> fresh_stage b'.
Proof using Hfresh Hswap0.
  intros [Hk Ht] Hstep Ht'.
  assert (touches repl t0 (devices b')) as Ht''.
  { intros n Hn. rewrite Ht' by done. by apply Ht. }
  split; [| done]. apply Hstep; [done | |]; by apply touches_swap.
Qed.

Lemma fresh_call {A} (m : eff B A ZramError) :
  (forall b b' r, m b = (b', r) ->
     (swap_kept b -> has_swap (devices b) -> has_swap (devices b') -> swap_kept b') /\
     touches repl (devices b) (devices b')) ->
  triple Fresh (eff_snd m) (fun _ => Fresh) Late.
Proof using Hfresh Horiginal Hswap0.
  intros Hm. apply triple_snd. intros s b [Hs Hf]. simpl in *.
  destruct (m b) as [b' r] eqn:E. destruct (Hm _ _ _ E) as [Hk Ht].
  pose proof (fresh_step b b' Hf Hk Ht) as Hf'.
  destruct r; [done |]. by apply late_of_Fresh.
Qed.

Lemma phase_triple (P : B -> Prop) phase X : phase <> RolledBack ->
  triple (fun p => snap_ok (fst p) /\ P (snd p)) (phase_reached phase)
    (fun _ p => snap_ok (fst p) /\ P (snd p)) X.
Proof.
  intros Hp. unfold phase_reached, with_snapshot. apply triple_fst. intros b.
  apply triple_upd. intros s [(? & ? & ?) ?]. done.
Qed.

Lemma pure_read {A} (P X : MutationSnapshot * B -> Prop) (r : result A ZramError) :
  (forall p, P p -> X p) ->
  triple P (eff_read (fun _ => r)) (fun a p => P p /\ r = Ok a) X.
Proof. intros HX. by apply triple_read. Qed.

Lemma activate_replacement_triple disksize priority : disksize <> 0 ->
  triple (fun p => Fresh p /\ exists d, devices (snd p) !! repl = Some d /\
                                        dv_disksize d = Some disksize)
    (eff_snd (activate repl priority)) (fun _ => Serving) Late.
Proof using Hfresh Horiginal Hswap0.
  intros Hsize. apply triple_snd. intros s b [[Hs Hf] (d & Hd & Hds)]. simpl in *.
  destruct (activate repl priority b) as [b' r] eqn:E.
  destruct (activate_law _ _ _ _ _ E) as (Hk & Ht & He).
  pose proof (fresh_step b b' Hf Hk Ht) as Hf'. destruct (He _ Hd) as (d' & Hd' & Hds' & Ha).
  destruct r as [[]|e].
  - split; [done |]. split; [by apply late_of_fresh |]. exists d', disksize.
    repeat split; [done | apply Ha; by right | congruence | done].
  - by apply late_of_Fresh.
Qed.

Lemma migrate_triple capacity : triple Serving (migrate capacity) (fun _ => Serving) Late.
Proof using Hfresh Horiginal Hswap0.
  assert (forall p, Serving p -> Late p) as Hlate by (by intros p (? & ? & ?)).
  unfold migrate.
  apply (triple_bind _ _ (fun s p => Serving p /\ ms_original s = original)).
  { apply triple_fst. intros b. apply triple_get. intros s Hs. split; [done | apply Hs]. }
  intros s. apply (triple_pure (ms_original s = original)); [by intros p [_ ?] |]. intros ->.
  apply triple_if; intros _; [| by apply triple_ret; intros p [? _]].
  apply (triple_bind _ _ (fun _ => Serving)).
  { apply triple_reject; [by intros p [? _] | intros p [? _]; auto]. }
  intros _. apply (triple_bind _ _ (fun _ => Serving)).
  { apply triple_snd. intros s' b (Hs & (Hk & Hsw & Ho & do & Hdo & Hsz) & Hr). simpl in *.
    destruct (deactivate (dv_name original) b) as [b' r] eqn:E.
    destruct (deactivate_law _ _ _ _ E) as (Hk' & Ht & He).
    assert (repl_active b') as Hr'.
    { destruct Hr as (d & size & Hd & Hrest). exists d, size.
      rewrite Ht by apply repl_not_original. done. }
    assert (late_stage b') as Hl'.
    { split; [apply Hk'; [done | done | by apply repl_active_swap] |].
      split; [by apply repl_active_swap |]. split.
      - intros n Hn Hno. rewrite Ht by done. by apply Ho.
      - destruct (He _ Hdo) as (d' & Hd' & Hsz'). exists d'. split; [done | congruence]. }
    by destruct r. }
  intros _. apply (triple_bind _ _ (fun _ => Serving)).
  { apply (phase_triple (fun b => late_stage b /\ repl_active b)). done. }
  intros _. eapply triple_weaken; [apply (ensure_swap_triple Serving) | done | | done].
  by intros _ p [? _].
Qed.

(** a transaction that returned *)
Definition committed (p : MutationSnapshot * B) : Prop :=
  ms_phase (fst p) = Verified /\ ms_rollback_pending (fst p) = false /\
  late_stage (snd p) /\ repl_active (snd p).

Lemma apply_after_create_triple capacity :
  triple Fresh (apply_after_create capacity) (fun o p => to_applied o = true /\ committed p) Late.
Proof using Hfresh Horiginal Hswap0.
  assert (forall p, Serving p -> Late p) as Hlate by (by intros p (? & ? & ?)).
  unfold apply_after_create.
  apply (triple_bind _ _ (fun s p => Fresh p /\ ms_replacement_name s = Some repl)).
  { apply triple_fst. intros b. apply triple_get. intros s Hs. split; [done | apply Hs]. }
  intros s. apply (triple_pure (ms_replacement_name s = Some repl)); [by intros p [_ ?] |].
  intros Hrepl. rewrite Hrepl. generalize (ms_requested_plan s). intros plan.
  apply (triple_bind _ _ (fun name p => Fresh p /\ name = repl)).
  { apply triple_read; [by intros p name [? _] [= ->] |].
    intros p [? _]. by apply late_of_Fresh. }
  intros name. apply (triple_pure (name = repl)); [by intros p [_ ?] |]. intros ->.
  apply (triple_bind _ _ (fun _ => Fresh)).
  { apply triple_read; [by intros p a [? _] _ |]. intros p [? _]. by apply late_of_Fresh. }
  intros algorithm. apply (triple_bind _ _ (fun _ => Fresh)).
  { apply fresh_call. intros b b' r E. exact (configure_law _ _ _ _ _ E). }
  intros _. apply (triple_bind _ _ (fun _ => Fresh)); [by apply phase_triple |].
  intros _. apply (triple_bind _ _ (fun size p => Fresh p /\ size <> 0)).
  { apply triple_read; [| intros p ?; by apply late_of_Fresh].
    intros p size Hp. destruct (zp_proposed_disksize plan) as [v|]; simpl; [| done].
    unfold then_some. destruct (Z.ltb_spec 0 v); simpl; [| done]. intros [= <-].
    split; [done | lia]. }
  intros size. apply (triple_pure (size <> 0)); [by intros p [_ ?] |]. intros Hsize.
  apply (triple_bind _ _ (fun _ => Fresh)).
  { eapply triple_weaken; [apply fresh_call | by intros p [? _] | done | done].
    intros b b' r E. exact (initialize_law _ _ _ _ _ E). }
  intros _. apply (triple_bind _ _ (fun _ => Fresh)); [by apply phase_triple |].
  intros _. apply (triple_bind _ _ (fun d p => Fresh p /\ devices (snd p) !! repl = Some d)).
  { apply triple_snd. intros s'. apply triple_read; [| intros b ?; by apply late_of_Fresh].
    intros b d Hp Hv. split; [done |]. exact (verify_law _ _ _ Hv). }
  intros d. apply (triple_bind _ _ (fun _ p => Fresh p /\ exists d, devices (snd p) !! repl = Some d /\
                                                  dv_disksize d = Some size)).
  { apply triple_reject; [| intros p [? _]; by apply late_of_Fresh].
    intros p [Hp Hd] Hc. split; [done |]. exists d. split; [done |]. by bools. }
  intros _. apply (triple_bind _ _ (fun _ => Serving)); [by apply activate_replacement_triple |].
  intros _. apply (triple_bind _ _ (fun _ => Serving)).
  { eapply triple_weaken;
      [apply (phase_triple (fun b => late_stage b /\ repl_active b)) | | |]; done. }
  intros _. apply (triple_bind _ _ (fun _ => Serving)).
  { eapply triple_weaken; [apply (ensure_swap_triple Serving) | done | by intros _ p [? _] | done]. }
  intros _. apply (triple_bind _ _ (fun _ => Serving)); [apply migrate_triple |].
  intros _. apply (triple_bind _ _ (fun _ => Serving)).
  { apply triple_snd. intros s'. apply triple_read; [done |]. intros b Hb. by apply Hlate. }
  intros d'. apply (triple_bind _ _ (fun _ => Serving)); [by apply triple_reject; auto |].
  intros _. apply (triple_bind _ _ (fun _ => committed)).
  - apply triple_fst. intros b. apply triple_upd. intros s' (_ & ? & ?). done.
  - intros _. by apply triple_ret.
Qed.

End NoSwapLoss.

(** ** What a transaction keeps of its snapshot *)

Definition same_snapshot {B} (p q : MutationSnapshot * B) : Prop := fst q = fst p.
#[export] Instance same_snapshot_refl {B} : Reflexive (@same_snapshot B).
Proof. done. Qed.
#[export] Instance same_snapshot_trans {B} : Transitive (@same_snapshot B).
Proof. unfold same_snapshot. intros p q r -> ->. done. Qed.

Definition same_replacement {B} (p q : MutationSnapshot * B) : Prop :=
  ms_replacement_name (fst q) = ms_replacement_name (fst p).
#[export] Instance same_replacement_refl {B} : Reflexive (@same_replacement B).
Proof. done. Qed.
#[export] Instance same_replacement_trans {B} : Transitive (@same_replacement B).
Proof. unfold same_replacement. intros p q r -> ->. done. Qed.

Section Snapshots.
Context {B : Type} `{ZramBackend B}.

Lemma backend_call_frame {A} (m : eff B A ZramError) : frames same_snapshot (eff_snd m).
Proof.
  apply (frames_weaken (fun p q => True /\ fst q = fst p)); [| by intros p q [_ ?]].
  apply (frames_snd (fun _ _ => True)). done.
Qed.

Lemma snapshot_get_frame : frames (@same_snapshot B) (with_snapshot eff_get).
Proof. intros [s b]. done. Qed.

Ltac frame_step :=
  first [ apply backend_call_frame | apply snapshot_get_frame | apply frames_ret; apply _
        | apply frames_reject; apply _ | apply frames_bind; [apply _ | | intros ?]
        | apply frames_if ].

Lemma ensure_swap_frame : frames same_snapshot (ensure_swap (B := B)).
Proof. unfold ensure_swap. repeat frame_step. Qed.

Lemma restore_original_frame : frames same_snapshot (restore_original (B := B)).
Proof.
  unfold restore_original. repeat first [apply ensure_swap_frame | frame_step].
Qed.

Lemma discard_replacement_frame : frames same_snapshot (discard_replacement (B := B)).
Proof.
  unfold discard_replacement.
  apply frames_bind; [apply _ | apply snapshot_get_frame |]. intros s.
  destruct (ms_replacement_name s); repeat first [apply ensure_swap_frame | frame_step].
Qed.

(** a rollback that fails leaves the snapshot as it was *)
Lemma rollback_err (s s' : MutationSnapshot) (b b' : B) e :
  rollback (s, b) = ((s', b'), Err e) -> s' = s.
Proof.
  pose proof (restore_original_frame (s, b)) as Hr. unfold rollback, eff_bind at 1. simpl.
  case_bool_decide; [done |]. unfold eff_bind, same_snapshot in *.
  destruct (restore_original (s, b)) as [[s1 b1] [[]|]]; simpl in *; [| congruence].
  pose proof (discard_replacement_frame (s1, b1)) as Hd. unfold same_snapshot in Hd.
  destruct (discard_replacement (s1, b1)) as [[s2 b2] [[]|]]; simpl in *; [done |].
  intros [= <- _ _]. congruence.
Qed.

Lemma apply_after_create_replacement capacity :
  frames same_replacement (apply_after_create (B := B) capacity).
Proof.
  assert (forall A (m : eff (MutationSnapshot * B) A ZramError),
            frames same_snapshot m -> frames same_replacement m) as Hs.
  { intros A m Hm. apply (frames_weaken _ _ _ Hm). unfold same_snapshot, same_replacement.
    by intros p q ->. }
  assert (forall phase, frames same_replacement (phase_reached (B := B) phase)) as Hp
    by (by intros phase [s b]).
  assert (forall A (r : result A ZramError),
            frames (@same_replacement B) (eff_read (fun _ => r))) as Hread by (by intros A r [s b]).
  unfold apply_after_create, migrate.
  repeat first
    [ apply Hp | apply Hread | apply Hs, ensure_swap_frame | apply Hs, backend_call_frame
    | apply Hs, snapshot_get_frame | by intros [s b]
    | apply frames_reject; apply _ | apply frames_ret; apply _
    | apply frames_bind; [apply _ | | intros ?] | apply frames_if ].
Qed.
End Snapshots.

(** the three ways [apply_plan] ends: before it touched the backend, with a failed
    creation, or with a replacement *)
Lemma apply_plan_run {B} `{LawfulZram B} (s s' : MutationSnapshot) (b b' : B)
    (r : result TransactionOutcome ZramError) :
  devices b !! dv_name (ms_original s) = Some (ms_original s) ->
  has_swap (devices b) -> swap_kept b ->
  apply_plan (s, b) = ((s', b'), r) ->
  (s' = s /\ b' = b /\ match r with
                       | Ok o => to_applied o = false /\ zp_dry_run (ms_requested_plan s) = true
                       | Err _ => True
                       end) \/
  (s' = s /\ exists e, has_swap (devices b') /\ swap_kept b' /\ r = Err e) \/
  (exists repl, devices b !! repl = None /\
     ((exists o, r = Ok o /\ to_applied o = true /\
       committed (ms_original s) (devices b) repl (s', b') /\ ms_replacement_name s' = Some repl) \/
      (exists e, r = Err e /\
         (rolled_back (ms_original s) (devices b) repl (s', b') \/
          ((ms_rollback_pending s' = true /\ ms_last_error s' = Some (zram_error_to_string e)) /\
           Late (ms_original s) (devices b) repl (s', b')))))).
Proof.
  intros Ho Hsw Hk. unfold apply_plan. unfold eff_bind at 1. simpl.
  destruct (zp_dry_run (ms_requested_plan s)) eqn:Hdry.
  { intros [= <- <- <-]. by left. }
  unfold eff_bind at 1, eff_reject. destruct (negb (zp_allowed _)); simpl.
  { intros [= <- <- <-]. by left. }
  unfold eff_bind at 1. destruct (negb (explicit_owner _)); simpl.
  { intros [= <- <- <-]. by left. }
  unfold eff_bind at 1, eff_read. cbn [eff_snd].
  destruct (effective_valid_swap_capacity b) as [capacity|e]; simpl.
  2: { intros [= <- <- <-]. by left. }
  unfold eff_bind at 1. cbn [eff_snd].
  destruct (create_isolated_managed_device b) as [b1 [d|e]] eqn:Ec;
    destruct (create_law _ _ _ Ec) as [Hk1 Hc].
  2: { intros [= <- <- <-]. right. left. split; [done |]. exists e.
       destruct Hc as (name & Hn & Ht).
       assert (has_swap (devices b1)) as Hsw1; [| auto].
       destruct Hsw as (n & dn & size & Hdn & Hrest). exists n, dn, size.
       rewrite Ht by congruence. done. }
  destruct Hc as [Hfresh Hb1]. set (repl := dv_name d) in *.
  unfold eff_bind at 1. cbn [with_snapshot eff_fst eff_upd fst snd].
  set (s1 := set_phase ReplacementCreated (set_replacement repl s)).
  assert (Fresh (ms_original s) (devices b) repl (s1, b1)) as Hf.
  { split; [done |]. assert (touches repl (devices b) (devices b1)) as Ht.
    { intros n Hn. rewrite Hb1. by rewrite lookup_insert_ne. }
    split; [| done]. apply Hk1; [done | done |]. by apply (touches_swap (devices b) repl). }
  pose proof (apply_after_create_triple (ms_original s) (devices b) repl Ho Hsw Hfresh capacity
                (s1, b1) Hf) as Hrun.
  pose proof (apply_after_create_replacement capacity (s1, b1)) as Hname.
  unfold eff_bind at 1. unfold eff_try at 1.
  destruct (apply_after_create capacity (s1, b1)) as [[s2 b2] [o|e]] eqn:Ea; simpl.
  - intros [= <- <- <-]. right. right. exists repl. split; [done |]. left. exists o.
    split; [done |]. cbn iota beta in Hrun. destruct Hrun as [Happ Hcm]. split; [done |]. split; [done |].
    exact Hname.
  - set (s3 := set_pending true (set_last_error (zram_error_to_string e) s2)).
    assert (Late (ms_original s) (devices b) repl (s3, b2)) as Hl3 by done.
    pose proof (rollback_triple (ms_original s) (devices b) repl Ho Hsw Hfresh (s3, b2) Hl3) as Hrb.
    unfold eff_bind, eff_try. cbn [with_snapshot eff_fst eff_upd]. fold s3.
    destruct (rollback (s3, b2)) as [[s4 b4] [o|e']] eqn:Er; simpl.
    + intros [= <- <- <-]. right. right. exists repl. split; [done |]. right. exists e.
      split; [done |]. by left.
    + intros [= <- <- <-]. right. right. exists repl. split; [done |]. right. exists e.
      split; [done |]. right. apply rollback_err in Er as ->. split; [done |]. apply Hrb.
Qed.

(** ** The best candidate *)

Section Best.
Context {A : Type} (cmp : A -> A -> comparison) (R : A -> A -> Prop) (P : A -> Prop).
Context (Rrefl : forall x, P x -> R x x) (Rtrans : forall x y z, R x y -> R y z -> R x z).

Lemma fold_best (step : A -> A -> A) l : forall x,
  (forall x y, P x -> P y -> (step x y = x /\ R x y) \/ (step x y = y /\ R y x)) ->
  P x -> (forall y, y ∈ l -> P y) ->
  foldl step x l ∈ x :: l /\ R (foldl step x l) x /\ (forall y, y ∈ l -> R (foldl step x l) y).
Proof using Rrefl Rtrans.
  induction l as [|y l IH]; intros x Hstep Hx Hl; simpl.
  - split; [by left |]. split; [auto |]. intros y Hy. by apply not_elem_of_nil in Hy.
  - assert (P y) as Hy by (apply Hl; left).
    assert (forall z, z ∈ l -> P z) as Hl' by (intros z Hz; apply Hl; by right).
    destruct (Hstep x y Hx Hy) as [[-> Hr] | [-> Hr]].
    + destruct (IH x Hstep Hx Hl') as (H1 & H2 & H3). split; [| split; [done |]].
      * apply elem_of_cons in H1 as [H1 | H1]; [rewrite H1; by left | by do 2 right].
      * intros z Hz. apply elem_of_cons in Hz as [-> | Hz]; [eauto | auto].
    + destruct (IH y Hstep Hy Hl') as (H1 & H2 & H3). split; [| split; [eauto |]].
      * right. done.
      * intros z Hz. apply elem_of_cons in Hz as [-> | Hz]; [done | auto].
Qed.

Lemma min_by_best l m :
  (forall x y, P x -> P y -> match cmp x y with Gt => R y x | _ => R x y end) ->
  (forall y, y ∈ l -> P y) -> min_by cmp l = Some m ->
  m ∈ l /\ forall y, y ∈ l -> R m y.
Proof using Rrefl Rtrans.
  intros Hc Hl. destruct l as [|x l]; simpl; [done |]. intros [= <-].
  destruct (fold_best (fun acc y => match cmp acc y with Gt => y | _ => acc end) l x)
    as (H1 & H2 & H3).
  - intros a b Ha Hb. specialize (Hc a b Ha Hb). destruct (cmp a b); auto.
  - apply Hl. left.
  - intros y Hy. apply Hl. by right.
  - split; [done |]. intros y Hy. apply elem_of_cons in Hy as [-> | Hy]; auto.
Qed.

Lemma max_by_best l m :
  (forall x y, P x -> P y -> match cmp x y with Gt => R x y | _ => R y x end) ->
  (forall y, y ∈ l -> P y) -> max_by cmp l = Some m ->
  m ∈ l /\ forall y, y ∈ l -> R m y.
Proof using Rrefl Rtrans.
  intros Hc Hl. destruct l as [|x l]; simpl; [done |]. intros [= <-].
  destruct (fold_best (fun acc y => match cmp acc y with Gt => acc | _ => y end) l x)
    as (H1 & H2 & H3).
  - intros a b Ha Hb. specialize (Hc a b Ha Hb). destruct (cmp a b); auto.
  - apply Hl. left.
  - intros y Hy. apply Hl. by right.
  - split; [done |]. intros y Hy. apply elem_of_cons in Hy as [-> | Hy]; auto.
Qed.
End Best.

Lemma elem_of_filter_b {A} (f : A -> bool) (l : list A) x :
  x ∈ List.filter f l <-> x ∈ l /\ f x = true.
Proof. by rewrite !list_elem_of_In, filter_In. Qed.

(** [a] costs no more CPU time than [b] *)
Definition cheaper (a b : BenchmarkEvidence) : Prop :=
  unwrap_or (be_median_cpu_time_ns a) 0 <= unwrap_or (be_median_cpu_time_ns b) 0.
(** [a] compresses at least as well as [b] *)
Definition denser (a b : BenchmarkEvidence) : Prop :=
  exists ra rb, be_median_effective_ratio a = Some ra /\ be_median_effective_ratio b = Some rb /\
                f64_le rb ra = true.

Lemma gaming_order_cheaper x y :
  is_some (be_median_cpu_time_ns x) = true -> is_some (be_median_cpu_time_ns y) = true ->
  match gaming_order x y with Gt => cheaper y x | _ => cheaper x y end.
Proof.
  unfold gaming_order, cheaper, then_with.
  destruct (be_median_cpu_time_ns x) as [a|], (be_median_cpu_time_ns y) as [b|]; try done.
  intros _ _. simpl. destruct (Z.compare_spec a b); [| lia..].
  subst. destruct (String.compare _ _); lia.
Qed.

Definition has_ratio (x : BenchmarkEvidence) : Prop :=
  exists r, be_median_effective_ratio x = Some r /\ f64_is_nan r = false.

Lemma capacity_order_denser x y : has_ratio x -> has_ratio y ->
  match capacity_order x y with Gt => denser x y | _ => denser y x end.
Proof.
  intros (a & Ha & Hna) (b & Hb & Hnb). unfold capacity_order, denser, then_with.
  rewrite Ha, Hb. simpl. unfold f64_compare.
  destruct (f64_lt a b) eqn:E1; [eauto 10 using f64_lt_le |].
  destruct (f64_lt b a) eqn:E2; [eauto 10 using f64_lt_le |].
  assert (f64_le a b = true) by (destruct (f64_le a b) eqn:E; [done |]; apply f64_not_le_lt in E; congruence).
  assert (f64_le b a = true) by (destruct (f64_le b a) eqn:E; [done |]; apply f64_not_le_lt in E; congruence).
  destruct (String.compare _ _); eauto 10.
Qed.

Lemma nonempty_match {A C} (l : list A) (x y : C) :
  l <> [] -> match l with [] => x | _ => y end = y.
Proof. by destruct l. Qed.

Lemma select_gaming context config a :
  pc_requested context = Gaming -> select_algorithm context config = Some a ->
  Some a = dv_current_algorithm (pc_device context) \/
  exists item, item ∈ pc_benchmarks context /\ be_algorithm item = a /\
    candidate_valid context config item = true /\
    forall other, other ∈ pc_benchmarks context -> candidate_valid context config other = true ->
      is_some (be_median_write_throughput_bytes_sec other) = true -> cheaper item other.
Proof.
  intros Hr. unfold select_algorithm. rewrite Hr. simpl.
  set (valid := List.filter (candidate_valid context config) _).
  set (fast := List.filter _ valid).
  destruct (decide (valid = [])) as [-> | Hne]; [by left |]. rewrite nonempty_match by done.
  destruct (min_by gaming_order fast) as [m|] eqn:Em; simpl; [| done]. intros [= <-]. right.
  apply (min_by_best gaming_order cheaper (fun x => is_some (be_median_cpu_time_ns x) = true))
    in Em as [Hm Hbest].
  - unfold fast in Hm. apply elem_of_filter_b in Hm as [Hm _].
    apply elem_of_filter_b in Hm as [Hm1 Hm2]. exists m. repeat split; try done.
    intros other Ho Hv Ht. apply Hbest. unfold fast. apply elem_of_filter_b. split; [| done].
    by apply elem_of_filter_b.
  - unfold cheaper. lia.
  - unfold cheaper. lia.
  - apply gaming_order_cheaper.
  - intros y Hy. unfold fast in Hy. apply elem_of_filter_b in Hy as [Hy _].
    apply elem_of_filter_b in Hy as [_ Hy].
    unfold candidate_valid in Hy. by bools.
Qed.

Lemma select_capacity context config a :
  pc_requested context = Capacity -> select_algorithm context config = Some a ->
  Some a = dv_current_algorithm (pc_device context) \/
  exists item ratio, item ∈ pc_benchmarks context /\ be_algorithm item = a /\
    candidate_valid context config item = true /\
    be_median_effective_ratio item = Some ratio /\
    f64_ge ratio (capacity_threshold context config) = true /\
    forall other r, other ∈ pc_benchmarks context -> candidate_valid context config other = true ->
      be_median_effective_ratio other = Some r ->
      f64_ge r (capacity_threshold context config) = true -> f64_le r ratio = true.
Proof.
  intros Hr. unfold select_algorithm. rewrite Hr. simpl.
  set (valid := List.filter (candidate_valid context config) _).
  set (dense := List.filter _ valid).
  destruct (decide (valid = [])) as [-> | Hne]; [by left |]. rewrite nonempty_match by done.
  destruct (max_by capacity_order dense) as [m|] eqn:Em; simpl; [| by left]. intros [= <-]. right.
  assert (forall y, y ∈ dense <-> (y ∈ pc_benchmarks context /\
            candidate_valid context config y = true) /\
            is_some_and (be_median_effective_ratio y)
              (fun ratio => f64_ge ratio (capacity_threshold context config)) = true) as Hd.
  { intros y. unfold dense. unfold valid. by rewrite !elem_of_filter_b. }
  apply (max_by_best capacity_order denser has_ratio) in Em as [Hm Hbest].
  - apply Hd in Hm as [[Hm1 Hm2] Hm3].
    destruct (be_median_effective_ratio m) as [ratio|] eqn:Er; [| done]. simpl in Hm3.
    exists m, ratio. repeat split; try done. intros other r Ho Hv Hor Hge.
    destruct (Hbest other) as (ra & rb & Ha & Hb & Hle).
    { apply Hd. rewrite Hor. done. }
    congruence.
  - intros x (r & Hx & Hn). exists r, r. repeat split; try done. by apply f64_le_refl.
  - intros x y z (r1 & r2 & H1 & H2 & H3) (r3 & r4 & H4 & H5 & H6).
    exists r1, r4. repeat split; try done. assert (r3 = r2) as -> by congruence.
    by eapply f64_le_trans.
  - apply capacity_order_denser.
  - intros y Hy. apply Hd in Hy as [_ Hy].
    destruct (be_median_effective_ratio y) as [r|] eqn:Er; [| done]. simpl in Hy.
    exists r. split; [done |]. unfold f64_ge in Hy. by apply f64_le_not_nan in Hy as [_ ?].
Qed.

(** ** Calls that the Linux backend refuses *)

Section Refused.
Context {W : Type} `{ZramSystem W} (self : LinuxZramBackend W).

(** an error, and nothing changed *)
Definition refused {A} (m : eff (LinuxZramBackend W) A ZramError) : Prop :=
  fst (m self) = self /\ is_ok (snd (m self)) = false.

Lemma refused_bind {A C} (m : eff (LinuxZramBackend W) A ZramError)
    (k : A -> eff (LinuxZramBackend W) C ZramError) : refused m -> refused (eff_bind m k).
Proof. unfold refused, eff_bind. by destruct (m self) as [s [a|e]]; simpl; intros [-> ?]. Qed.

Lemma refused_read {A C} (f : LinuxZramBackend W -> result A ZramError)
    (k : A -> eff (LinuxZramBackend W) C ZramError) :
  (forall a, refused (k a)) -> refused (eff_bind (eff_read f) k).
Proof. intros Hk. unfold refused, eff_bind, eff_read. destruct (f self); [apply Hk | done]. Qed.

Lemma refused_reject {C} c (e : ZramError) (k : unit -> eff (LinuxZramBackend W) C ZramError) :
  refused (k tt) -> refused (eff_bind (eff_reject c e) k).
Proof. intros Hk. unfold refused, eff_bind, eff_reject. destruct c; [done | exact Hk]. Qed.

Lemma require_owned_refused name : name ∉ lz_owned self -> refused (require_owned name).
Proof.
  intros Hn. unfold refused, require_owned, eff_bind, eff_get. simpl.
  rewrite bool_decide_eq_false_2 by done. by rewrite andb_false_r.
Qed.
End Refused.
End Facts.

Module Theorems.
Import Facts.

Section Plans.
Context {B : Type} `{LawfulZram B}.

(** C4: on any backend that keeps to its contract, applying a plan never leaves the
    system without swap: not at the end, whatever call failed, and at no moment in
    between. *)
Theorem no_swap_loss (s s' : MutationSnapshot) (b b' : B) (r : result TransactionOutcome ZramError) :
  devices b !! dv_name (ms_original s) = Some (ms_original s) ->
  has_swap (devices b) -> swap_kept b ->
  apply_plan (s, b) = ((s', b'), r) ->
  has_swap (devices b') /\ swap_kept b'.
Proof.
  intros Ho Hs Hk Ha. destruct (apply_plan_run s s' b b' r Ho Hs Hk Ha)
    as [(-> & -> & _) | [(-> & e & Hsw & Hkept & _) | (repl & Hfresh & Hcase)]]; [done | done |].
  destruct Hcase as [(_ & _ & _ & (_ & _ & Hl & _) & _) | (_ & _ & [(_ & _ & Hl & _) | (_ & _ & Hl)])];
    by destruct Hl as (? & ? & _).
Qed.

(** after applying a plan the snapshot tells the truth: a returned application
    is verified with the replacement serving as swap; an error either created no
    device, or was rolled back with the original swap active again, or is marked
    pending for recovery together with the error. *)
Theorem apply_plan_outcome (s s' : MutationSnapshot) (b b' : B)
    (r : result TransactionOutcome ZramError) :
  devices b !! dv_name (ms_original s) = Some (ms_original s) ->
  has_swap (devices b) -> swap_kept b ->
  apply_plan (s, b) = ((s', b'), r) ->
  match r with
  | Ok o =>
      if to_applied o then
        ms_phase s' = Verified /\ ms_rollback_pending s' = false /\
        exists repl, ms_replacement_name s' = Some repl /\ devices b !! repl = None /\
                     repl_active repl b'
      else s' = s /\ b' = b /\ zp_dry_run (ms_requested_plan s) = true
  | Err e =>
      s' = s \/
      (ms_phase s' = RolledBack /\ ms_rollback_pending s' = false /\
       original_back (ms_original s) b') \/
      (ms_rollback_pending s' = true /\ ms_last_error s' = Some (zram_error_to_string e))
  end.
Proof.
  intros Ho Hs Hk Ha. destruct (apply_plan_run s s' b b' r Ho Hs Hk Ha)
    as [(-> & -> & Hd) | [(-> & e & _ & _ & ->) | (repl & Hfresh & Hcase)]].
  - destruct r as [o|e]; [| by left]. destruct Hd as [-> ?]. done.
  - by left.
  - destruct Hcase as [(o & -> & -> & (Hphase & Hpend & Hl & Hr) & Hn)
                        | (e & -> & [(Hp & Hpend & Hl & Hb) | (Hp & Hl)])].
    + split; [done |]. split; [done |]. by exists repl.
    + right. by left.
    + right. right. done.
Qed.

(** when the rollback of a failed application failed too, recovery finishes it:
    there is swap throughout, and a recovery that returns has the original swap
    active again, clears the pending mark and does nothing the next time. *)
Theorem recovery_completes_rollback (s s1 s2 : MutationSnapshot) (b b1 b2 : B) (e : ZramError)
    (r : result TransactionOutcome ZramError) :
  devices b !! dv_name (ms_original s) = Some (ms_original s) ->
  has_swap (devices b) -> swap_kept b -> ms_rollback_pending s = false ->
  apply_plan (s, b) = ((s1, b1), Err e) -> ms_rollback_pending s1 = true ->
  recover_pending (s1, b1) = ((s2, b2), r) ->
  has_swap (devices b2) /\ swap_kept b2 /\
  (is_ok r = true ->
   ms_phase s2 = RolledBack /\ ms_rollback_pending s2 = false /\
   original_back (ms_original s) b2 /\
   exists o, recover_pending (s2, b2) = ((s2, b2), Ok o) /\ to_rolled_back o = true).
Proof.
  intros Ho Hs Hk Hnp Ha Hp Hr.
  destruct (apply_plan_run s s1 b b1 (Err e) Ho Hs Hk Ha)
    as [(-> & _) | [(-> & _) | (repl & Hfresh & Hcase)]]; [congruence.. |].
  destruct Hcase as [(o & [=] & _) | (e' & _ & [(_ & Hn & _) | (_ & Hl)])];
    [simpl in Hn; congruence |].
  assert (ms_phase s1 <> RolledBack) as Hph by apply Hl.
  unfold recover_pending, eff_bind at 1 in Hr. simpl in Hr.
  rewrite Hp, bool_decide_eq_false_2 in Hr by done. simpl in Hr.
  unfold eff_bind, eff_reject in Hr. destruct (negb (explicit_owner _)); simpl in Hr.
  { injection Hr as <- <- <-. destruct Hl as [_ (? & ? & _)]. done. }
  pose proof (rollback_triple (ms_original s) (devices b) repl Ho Hs Hfresh (s1, b1) Hl) as Hrb.
  rewrite Hr in Hrb. destruct r as [o|e1].
  - destruct Hrb as (H1 & H2 & (? & ? & _) & H3). simpl in *. split; [done |]. split; [done |].
    intros _. split; [done |]. split; [done |]. split; [done |]. eexists. unfold recover_pending, eff_bind. simpl.
    rewrite H1, H2. simpl. by split.
  - destruct Hrb as [_ (? & ? & _)]. done.
Qed.
End Plans.

(** an algorithm other than the current one is only selected on measured
    evidence: a real benchmark of at least three datasets of an available algorithm
    within the CPU budget, that no other such candidate beats (in CPU time for the
    gaming profile, in effective ratio and above the required gain for capacity). *)
Theorem selected_algorithm_justified (context : ProfileContext) (config : CompressionConfig)
    (a : string) :
  zp_selected_algorithm (plan_profile context config "apply") = Some a ->
  Some a <> dv_current_algorithm (pc_device context) ->
  exists item, item ∈ pc_benchmarks context /\ be_algorithm item = a /\
    be_real item = true /\ 3 <= be_datasets item /\
    a ∈ dv_available_algorithms (pc_device context) /\
    (forall cpu, be_cpu_overhead_percent item = Some cpu ->
       f64_le cpu (compression_max_cpu_overhead_percent config) = true) /\
    match pc_requested context with
    | Safe => False
    | Gaming =>
        forall other, other ∈ pc_benchmarks context -> candidate_valid context config other = true ->
          is_some (be_median_write_throughput_bytes_sec other) = true -> cheaper item other
    | Capacity =>
        exists ratio, be_median_effective_ratio item = Some ratio /\
          f64_ge ratio (capacity_threshold context config) = true /\
          forall other r, other ∈ pc_benchmarks context ->
            candidate_valid context config other = true -> be_median_effective_ratio other = Some r ->
            f64_ge r (capacity_threshold context config) = true -> f64_le r ratio = true
    end.
Proof.
  cbn [zp_selected_algorithm plan_profile]. intros Hs Hne.
  assert (forall item, candidate_valid context config item = true ->
            be_real item = true /\ 3 <= be_datasets item /\
            be_algorithm item ∈ dv_available_algorithms (pc_device context) /\
            (forall cpu, be_cpu_overhead_percent item = Some cpu ->
               f64_le cpu (compression_max_cpu_overhead_percent config) = true)) as Hv.
  { intros item Hi. unfold candidate_valid in Hi. bools. repeat split; try done.
    - by apply contains_str_elem.
    - intros cpu Hc. match goal with E : is_none_or _ _ = true |- _ => rewrite Hc in E; simpl in E end.
      by bools. }
  destruct (pc_requested context) eqn:Hr.
  - unfold select_algorithm in Hs. rewrite Hr in Hs. simpl in Hs. congruence.
  - destruct (select_gaming context config a Hr Hs) as [? | (item & Hi & <- & Hc & Hbest)];
      [congruence |]. destruct (Hv item Hc) as (? & ? & ? & ?). by exists item.
  - destruct (select_capacity context config a Hr Hs)
      as [? | (item & ratio & Hi & <- & Hc & Hrat & Hge & Hbest)]; [congruence |].
    destruct (Hv item Hc) as (? & ? & ? & ?). exists item. repeat (split; [done |]). by exists ratio.
Qed.

(** a plan is allowed exactly when the device is explicitly owned, its provider
    known and unchanged, nothing is pending or unsafe, there is headroom, and a
    reinitialisation, if it needs one, is configured, not during a game and
    possible. *)
Theorem plan_allowed_iff (context : ProfileContext) (config : CompressionConfig) (mode : string) :
  let p := plan_profile context config mode in
  let device := pc_device context in
  zp_allowed p = true <->
  mode <> "observe"%string /\
  (dv_ownership device = NemorOwned \/ dv_ownership device = Adopted) /\
  dv_provider device <> UnknownProvider /\ pc_provider_matches_snapshot context = true /\
  pc_rollback_pending context = false /\ pc_safety_events context <= 0 /\
  headroom_sufficient context config = true /\
  pc_pressure_state context <> Critical /\ pc_pressure_state context <> Emergency /\
  pc_pressure_worsening context = false /\
  (forall psi, pc_psi_full_avg10 context = Some psi -> f64_ge psi (f64_of_Z 2) = false) /\
  (forall rate, pc_swap_in_per_second context = Some rate -> f64_gt rate f64_zero = false) /\
  (zp_requires_reinitialization p = true ->
   pc_gaming context = false /\ compression_allow_runtime_reconfigure config = true /\
   (dv_active_swap device = true -> wc_reset (dv_writable device) = true)).
Proof.
  intros p device.
  assert (forall A (o : option A) (f : A -> bool),
            is_some_and o f = false <-> forall x, o = Some x -> f x = false) as Hs.
  { intros A o f. destruct o; simpl; naive_solver. }
  transitivity (profile_blocks context config (zp_requires_reinitialization p)
                  (String.eqb mode "observe") = []).
  { unfold p. cbn [plan_profile zp_allowed zp_requires_reinitialization].
    by rewrite bool_decide_eq_true, sort_dedup_nil. }
  generalize (zp_requires_reinitialization p). intros reinit. clear p.
  unfold profile_blocks. rewrite !push_if_nil, !orb_false_iff, !Hs, !negb_false_iff,
    String.eqb_neq, Z.ltb_ge, bool_decide_eq_false. fold device.
  assert (match pc_pressure_state context with Critical | Emergency => true | _ => false end = false
          <-> pc_pressure_state context <> Critical /\ pc_pressure_state context <> Emergency) as ->
    by (destruct (pc_pressure_state context); naive_solver).
  assert (explicit_owner (dv_ownership device) = true <->
          dv_ownership device = NemorOwned \/ dv_ownership device = Adopted) as ->
    by (destruct (dv_ownership device); simpl; naive_solver).
  destruct reinit, (pc_gaming context), (compression_allow_runtime_reconfigure config),
    (dv_active_swap device), (wc_reset (dv_writable device)); simpl; naive_solver.
Qed.

(** the Linux backend never touches a device that it does not own: every
    mutating call on such a name returns an error and leaves the system, and the set
    of owned devices, exactly as they were. *)
Theorem linux_touches_only_owned {W} `{ZramSystem W} (self : LinuxZramBackend W) (name : string) :
  name ∉ lz_owned self ->
  forall priority disksize algorithm,
  Forall (refused self)
    [activate name priority; deactivate name; initialize name disksize;
     configure_uninitialized name algorithm; reset_managed_device name;
     remove_managed_device name].
Proof.
  intros Hn priority disksize algorithm. pose proof (require_owned_refused self name Hn) as Hr.
  assert (forall field value, refused self (write_owned name field value)) as Hw
    by (intros; by apply refused_bind).
  assert (refused self (linux_reset name)) as Hreset.
  { apply refused_read. intros d. apply refused_reject. by apply refused_bind. }
  repeat apply Forall_cons; try apply Forall_nil; simpl.
  - by apply refused_bind.
  - by apply refused_bind.
  - apply refused_reject. apply Hw.
  - apply refused_read. intros d. do 2 apply refused_reject. apply Hw.
  - exact Hreset.
  - apply refused_read. intros d. apply refused_reject. by apply refused_bind.
Qed.
End Theorems.

(** ** Concrete inputs *)
Module Witnesses.
Import Facts Theorems.

(** A kernel as a table of devices with its history; a call fails when the script
    says so. It shows that the contract [LawfulZram] can be met. *)
Record TableKernel := MkKernel {
  tk_devices : gmap string DeviceInventory;
  tk_history : list (gmap string DeviceInventory);
  tk_script : list bool
}.

Definition device (name : string) (active : bool) (size : Z) : DeviceInventory :=
  {| dv_name := name; dv_sysfs_path := ""; dv_device_path := ""; dv_active_swap := active;
     dv_priority := Some 100; dv_disksize := Some size; dv_initstate := Some active;
     dv_current_algorithm := Some "zstd"%string;
     dv_available_algorithms := ["lz4"; "zstd"]%string; dv_mm_stat := MmStat_default;
     dv_io_stat := None; dv_block_stat := None; dv_bd_stat := None;
     dv_recompression_available := false; dv_provider := Manual; dv_ownership := NemorOwned;
     dv_writable := {| wc_hot_add := true; wc_hot_remove := true; wc_algorithm := true;
                       wc_disksize := true; wc_reset := true |} |}.

Definition with_active (active : bool) (d : DeviceInventory) : DeviceInventory :=
  {| dv_name := dv_name d; dv_sysfs_path := dv_sysfs_path d; dv_device_path := dv_device_path d;
     dv_active_swap := active; dv_priority := dv_priority d; dv_disksize := dv_disksize d;
     dv_initstate := dv_initstate d; dv_current_algorithm := dv_current_algorithm d;
     dv_available_algorithms := dv_available_algorithms d; dv_mm_stat := dv_mm_stat d;
     dv_io_stat := dv_io_stat d; dv_block_stat := dv_block_stat d; dv_bd_stat := dv_bd_stat d;
     dv_recompression_available := dv_recompression_available d;
     dv_provider := dv_provider d; dv_ownership := dv_ownership d; dv_writable := dv_writable d |}.

(** a call: the script decides whether it fails; a success records the new table *)
Definition call {A} (a : A) (f : gmap string DeviceInventory -> gmap string DeviceInventory) :
    eff TableKernel A ZramError :=
  fun k =>
    match tk_script k with
    | true :: rest => (MkKernel (tk_devices k) (tk_history k) rest, Err (Backend "kernel" "script"))
    | script => (MkKernel (f (tk_devices k)) (f (tk_devices k) :: tk_history k) (tail script), Ok a)
    end.

Definition capacity_of (k : TableKernel) : Z :=
  if existsb (fun '(_, d) => dv_active_swap d
                             && match dv_disksize d with Some n => negb (n =? 0) | None => false end)
       (map_to_list (tk_devices k)) then 1 else 0.

#[local] Instance table_kernel : ZramBackend TableKernel := {
  inspect k := Ok {| iv_available := true; iv_devices := map snd (map_to_list (tk_devices k));
                     iv_unavailable := [] |};
  create_isolated_managed_device k :=
    match tk_devices k !! "zram1"%string with
    | Some _ => (k, Err (Backend "hot_add" "exists"))
    | None => call (device "zram1" false 0) (insert "zram1"%string (device "zram1" false 0)) k
    end;
  configure_uninitialized name algorithm := call tt id;
  initialize name size := call tt (alter (fun d => device (dv_name d) (dv_active_swap d) size) name);
  activate name priority := call tt (alter (with_active true) name);
  deactivate name := call tt (alter (with_active false) name);
  verify name k := ok_or (tk_devices k !! name) (Verification "absent");
  reset_managed_device name := call tt id;
  remove_managed_device name := call tt (delete name);
  effective_valid_swap_capacity k := Ok (capacity_of k);
  is_owned name k := String.eqb name "zram1"
}.

Lemma call_law {A} (a : A) f k k' r : call a f k = (k', r) ->
  (Forall has_swap (tk_history k) -> has_swap (tk_devices k) -> has_swap (tk_devices k') ->
   Forall has_swap (tk_history k')) /\
  (tk_devices k' = f (tk_devices k) \/ (tk_devices k' = tk_devices k /\ is_ok r = false)).
Proof.
  unfold call. destruct (tk_script k) as [|[] script]; intros [= <- <-]; simpl; auto.
Qed.

Lemma alter_touches name g (t : gmap string DeviceInventory) : touches name t (alter g name t).
Proof. intros n Hn. by apply lookup_alter_ne. Qed.
Lemma same_touches name (t : gmap string DeviceInventory) : touches name t t.
Proof. done. Qed.

#[local] Instance table_lawful : LawfulZram TableKernel.
Proof.
  refine {| devices := tk_devices; swap_kept k := Forall has_swap (tk_history k) |}.
  - intros name k d. unfold verify. simpl. destruct (tk_devices k !! name); simpl; congruence.
  - intros k c. simpl. intros [= <-]. unfold capacity_of. case_match eqn:E; [| done]. intros _.
    apply existsb_elem in E as ([n d] & Hin & Hd). apply elem_of_map_to_list in Hin. bools.
    destruct (dv_disksize d) as [size|] eqn:Es; [| done]. bools. by exists n, d, size.
  - intros k k' r. simpl. destruct (tk_devices k !! "zram1"%string) as [d1|] eqn:E1.
    + intros [= <- <-]. split; [done |]. exists (fresh (dom (tk_devices k))).
      split; [apply not_elem_of_dom, is_fresh | done].
    + intros Hc. pose proof (call_law _ _ _ _ _ Hc) as [Hk Ht]. split; [done |].
      unfold call in Hc. destruct (tk_script k) as [|[] script]; injection Hc as <- <-; try done.
      by exists "zram1"%string.
  - intros name algorithm k k' r Hc. pose proof (call_law _ _ _ _ _ Hc) as [Hk Ht].
    split; [done |]. by destruct Ht as [-> | [-> _]].
  - intros name size k k' r Hc. pose proof (call_law _ _ _ _ _ Hc) as [Hk Ht].
    split; [done |]. destruct Ht as [-> | [-> _]]; [apply alter_touches | done].
  - intros name priority k k' r Hc. pose proof (call_law _ _ _ _ _ Hc) as [Hk Ht].
    split; [done |]. destruct Ht as [-> | [-> Hr]].
    + split; [apply alter_touches |]. intros d Hd. rewrite lookup_alter, decide_True, Hd by done.
      simpl. by eexists.
    + split; [done |]. intros d Hd. exists d. split; [done |]. split; [done |].
      intros [? | ?]; congruence.
  - intros name k k' r Hc. pose proof (call_law _ _ _ _ _ Hc) as [Hk Ht].
    split; [done |]. destruct Ht as [-> | [-> Hr]].
    + split; [apply alter_touches |]. intros d Hd. rewrite lookup_alter, decide_True, Hd by done.
      simpl. by eexists.
    + split; [done |]. intros d Hd. by exists d.
  - intros name k k' r Hc. pose proof (call_law _ _ _ _ _ Hc) as [Hk Ht].
    split; [done |]. destruct Ht as [-> | [-> Hr]]; [| done].
    intros n Hn. by apply lookup_delete_ne.
Defined.

Definition plan : ZramProfilePlan :=
  {| zp_profile := Gaming; zp_target_device := "zram0"; zp_current_algorithm := Some "zstd"%string;
     zp_selected_algorithm := Some "lz4"%string; zp_current_disksize := Some 1000;
     zp_proposed_disksize := Some 2000; zp_current_priority := Some 100;
     zp_proposed_priority := Some 101; zp_benchmark_evidence := []; zp_reason := "";
     zp_confidence := f64_one; zp_requires_reinitialization := true;
     zp_requires_swap_migration := true; zp_allowed := true; zp_blocked_reasons := [];
     zp_dry_run := false; zp_rule_version := PROFILE_RULE_VERSION |}.
Definition start : MutationSnapshot :=
  {| ms_session_id := 1; ms_timestamp_ns := 1; ms_provider := Manual;
     ms_original := device "zram0" true 1000; ms_replacement_name := None;
     ms_requested_plan := plan; ms_phase := Snapshot; ms_rollback_pending := false;
     ms_last_error := None |}.
(** the fifth call fails (the original's deactivation), and so does the rollback's
    first one *)
Definition kernel (script : list bool) : TableKernel :=
  let t := {["zram0"%string := device "zram0" true 1000]} in MkKernel t [t] script.
Definition failing : TableKernel := kernel [false; false; false; false; true; true].

Lemma kernel_has_swap script : has_swap (tk_devices (kernel script)).
Proof. by exists "zram0"%string, (device "zram0" true 1000), 1000. Qed.
Lemma kernel_kept script : Forall has_swap (tk_history (kernel script)).
Proof. repeat constructor. apply (kernel_has_swap script). Qed.

Lemma run_parts {A C D} (x : A * C * D) d : snd x = d -> x = ((fst (fst x), snd (fst x)), d).
Proof. intros <-. by destruct x as [[a c] d]. Qed.

Lemma no_swap_loss_witness :
  has_swap (tk_devices (snd (fst (apply_plan (start, failing))))) /\
  Forall has_swap (tk_history (snd (fst (apply_plan (start, failing))))).
Proof.
  apply (@no_swap_loss _ _ table_lawful start (fst (fst (apply_plan (start, failing)))) failing
           (snd (fst (apply_plan (start, failing)))) (snd (apply_plan (start, failing)))).
  - reflexivity.
  - apply kernel_has_swap.
  - apply kernel_kept.
  - by apply run_parts.
Defined.

Lemma applied : snd (apply_plan (start, kernel [])) =
  Ok {| to_applied := true; to_verified := true; to_rolled_back := false; to_phase := Verified |}.
Proof. vm_compute. reflexivity. Qed.
Lemma applied_name :
  ms_replacement_name (fst (fst (apply_plan (start, kernel [])))) = Some "zram1"%string.
Proof. vm_compute. reflexivity. Qed.

Lemma apply_plan_outcome_witness :
  repl_active "zram1" (snd (fst (apply_plan (start, kernel [])))).
Proof.
  destruct (@apply_plan_outcome _ _ table_lawful start _ (kernel []) _ _
    (ltac:(reflexivity)) (kernel_has_swap []) (kernel_kept []) (run_parts _ _ applied))
    as (_ & _ & repl & Hr & _ & Ha).
  assert (Some repl = Some "zram1"%string) as Hn by (rewrite <- Hr; exact applied_name).
  injection Hn as ->. exact Ha.
Defined.

Lemma recovery_completes_rollback_witness :
  let p := fst (apply_plan (start, failing)) in
  ms_phase (fst (fst (recover_pending p))) = RolledBack.
Proof.
  apply (@recovery_completes_rollback _ _ table_lawful start (fst (fst (apply_plan (start, failing))))
    (fst (fst (recover_pending (fst (apply_plan (start, failing)))))) failing
    (snd (fst (apply_plan (start, failing))))
    (snd (fst (recover_pending (fst (apply_plan (start, failing))))))
    (Backend "kernel" "script") (snd (recover_pending (fst (apply_plan (start, failing)))))).
  - reflexivity.
  - apply kernel_has_swap.
  - apply kernel_kept.
  - reflexivity.
  - apply run_parts. vm_compute. reflexivity.
  - vm_compute. reflexivity.
  - rewrite <- surjective_pairing. by apply run_parts.
  - vm_compute. reflexivity.
Defined.

Definition evidence (algorithm : string) (cpu : Z) : BenchmarkEvidence :=
  {| be_algorithm := algorithm; be_median_write_throughput_bytes_sec := Some f64_one;
     be_median_effective_ratio := Some (f64_of_Z 2); be_median_cpu_time_ns := Some cpu;
     be_cpu_overhead_percent := None; be_datasets := 3; be_real := true |}.
Definition context : ProfileContext :=
  {| pc_requested := Gaming; pc_device := device "zram0" true 1000;
     pc_benchmarks := [evidence "zstd" 30; evidence "lz4" 10];
     pc_total_ram_bytes := 10000; pc_mem_available_bytes := 5000; pc_current_used_bytes := 250;
     pc_pressure_state := Normal; pc_psi_full_avg10 := None; pc_swap_in_per_second := None;
     pc_gaming := false; pc_pressure_worsening := false; pc_safety_events := 0;
     pc_rollback_pending := false; pc_provider_matches_snapshot := true |}.

Lemma selected_algorithm_justified_witness :
  exists item, item ∈ pc_benchmarks context /\ be_algorithm item = "lz4"%string.
Proof.
  destruct (selected_algorithm_justified context (compression default_config) "lz4")
    as (item & Hi & Ha & _).
  - vm_compute. reflexivity.
  - discriminate.
  - by exists item.
Defined.

(** a system without files *)
Definition absent : IoError := {| io_kind := NotFound; io_text := "absent" |}.
#[local] Instance empty_system : ZramSystem unit := {
  read_text _ _ := Err absent;
  list_dir _ _ := Err absent;
  path_exists _ _ := false;
  owner_and_mode _ _ := None;
  canonicalize _ _ := None;
  read_hot_add _ := eff_err absent;
  write_file _ _ := eff_ret tt;
  await_exists _ := eff_ret true;
  clock_allows := eff_ret true;
  run_helper _ _ _ := eff_ret HelperOk
}.

Lemma linux_touches_only_owned_witness :
  let self := MkLinux "/" {["zram1"%string]} tt in
  is_ok (snd (deactivate "zram0" self)) = false /\ is_ok (snd (deactivate "zram1" self)) = true.
Proof.
  intros self. split; [| vm_compute; reflexivity].
  assert ("zram0"%string ∉ lz_owned self) as Hn by (simpl; set_solver).
  pose proof (linux_touches_only_owned self "zram0" Hn 100 0 "") as H.
  apply Forall_cons_iff in H as [_ H]. apply Forall_cons_iff in H as [[_ H] _]. exact H.
Defined.

End Witnesses.
