(* ===== verification/Tiering.v ===== *)
(** crates/tiering without its boot validation protocols: the storage topology, the
    zswap inventory, the swapfile and pool plans, the backend recommendation, the
    write budget, the zswap parameters and the swapfile transaction with its
    rollback, over an abstract backend and over the Linux one. *)

From S2P Require Import Prelude F64 Text Config Classifier Policy.

(** ** Paths: a [Path] is compared by its components *)

Definition path_key (p : string) : bool * bool * list string :=
  (starts_with "/" p, String.eqb p "." || starts_with "./" p, Process.path_components p).
Definition path_eq (p q : string) : bool := bool_decide (path_key p = path_key q).
(** a set of paths, and its [contains] *)
Definition path_mem (p : string) (ps : list string) : bool := existsb (path_eq p) ps.
Definition is_absolute (p : string) : bool := starts_with "/" p.
(** [Path::parent], as components: none of the root and of the empty path *)
Definition parent_components (p : string) : option (list string) :=
  match Process.path_components p with
  | [] => None
  | components => Some (removelast components)
  end.
(** [Path::starts_with] of an absolute path *)
Definition path_under (base p : string) : bool :=
  is_absolute p
  && bool_decide (take (length (Process.path_components base)) (Process.path_components p)
                  = Process.path_components base).

Definition resolve (root absolute : string) : string := path_join root (trim_start_char "/" absolute).

(** ** The system below *)

Inductive IoKind := NotFound | OtherIo.
#[export] Instance IoKind_eq_dec : EqDecision IoKind.
Proof. solve_decision. Defined.
Record IoError := { io_kind : IoKind; io_text : string }.

Record DirEntry := { de_name : string; de_is_file : result bool IoError }.
(** what [symlink_metadata] tells of a path *)
Record Metadata := { md_is_symlink : bool; md_is_file : bool; md_uid : Z; md_mode : Z }.

(** how a spawned helper ended before its deadline, or did not *)
Inductive HelperEnd :=
| HelperOk
| HelperFailed (status : string)
| HelperTimeout
| HelperSpawnError (text : string)
| HelperWaitError (text : string).

Class TieringSystem (W : Type) := {
  read_text : string -> W -> result string IoError;
  path_exists : string -> W -> bool;
  is_dir : string -> W -> bool;
  opens_for_write : string -> W -> bool;
  canonicalize : string -> W -> option string;
  read_dir : string -> W -> result (list (result DirEntry IoError)) IoError;
  udevadm_info : string -> W -> option string;                  (* stdout of a success *)
  symlink_metadata : string -> W -> result Metadata IoError;
  write_file : string -> string -> eff W unit IoError;
  remove_file : string -> eff W unit IoError;
  run_helper : string -> list string -> eff W HelperEnd IoError
}.

(** ** topology.rs *)

Definition STORAGE_PROFILE_VERSION : string := "nemor-storage-profile-v1".

Inductive StorageClass := ClassNvme | SolidStateNonNvme | ClassRotational | ClassUnknown.
Inductive StorageProfile :=
| NvmeSsd | SataSsd | SasSsd | UsbSsd | OtherNonRotational | Rotational | Composite | Virtual
| Ambiguous.
#[export] Instance StorageClass_eq_dec : EqDecision StorageClass.
Proof. solve_decision. Defined.
#[export] Instance StorageProfile_eq_dec : EqDecision StorageProfile.
Proof. solve_decision. Defined.

Definition boot_supported (p : StorageProfile) : bool :=
  match p with NvmeSsd | SataSsd => true | _ => false end.

(** the serialised and the debug names *)
Definition profile_name (p : StorageProfile) : string :=
  match p with
  | NvmeSsd => "nvme_ssd" | SataSsd => "sata_ssd" | SasSsd => "sas_ssd" | UsbSsd => "usb_ssd"
  | OtherNonRotational => "other_non_rotational" | Rotational => "rotational"
  | Composite => "composite" | Virtual => "virtual" | Ambiguous => "ambiguous"
  end.
Definition debug_profile (p : StorageProfile) : string :=
  match p with
  | NvmeSsd => "NvmeSsd" | SataSsd => "SataSsd" | SasSsd => "SasSsd" | UsbSsd => "UsbSsd"
  | OtherNonRotational => "OtherNonRotational" | Rotational => "Rotational"
  | Composite => "Composite" | Virtual => "Virtual" | Ambiguous => "Ambiguous"
  end.

Record BlockDevice := {
  bd_name : string;
  bd_class : StorageClass;
  bd_rotational : option bool;
  bd_logical_block_size : option Z;
  bd_physical_block_size : option Z;
  bd_discard_max_bytes : option Z;
  bd_model : option string;
  bd_transport : option string;
  bd_serial : option string;
  bd_wwn : option string;
  bd_capacity_bytes : option Z
}.

Record StorageTopology := {
  tp_mount_source : string;
  tp_filesystem : string;
  tp_chain : list string;
  tp_physical : option BlockDevice;
  tp_ambiguous : bool;
  tp_profile_version : string;
  tp_profile : option StorageProfile;
  tp_device_identity : option string;
  tp_filesystem_identity : option string
}.

Definition valid_block_name (name : string) : bool :=
  negb (str_empty name)
  && (String.length name <=? 64)%nat
  && str_all (fun c => is_ascii_alphanumeric c || Ascii.eqb c "." || Ascii.eqb c "_"
                       || Ascii.eqb c "-") name.

Definition profile_for (device : BlockDevice) : StorageProfile :=
  let transport name := bool_decide (bd_transport device = Some name) in
  if transport "virtual"%string then Virtual
  else if bool_decide (bd_rotational device = Some true) then Rotational
  else if negb (bool_decide (bd_rotational device = Some false)) then Ambiguous
  else if transport "nvme"%string && bool_decide (bd_class device = ClassNvme) then NvmeSsd
  else if transport "sata"%string || transport "ata"%string then SataSsd
  else if transport "sas"%string then SasSsd
  else if transport "usb"%string then UsbSsd
  else OtherNonRotational.

Definition result_ok {A E} (r : result A E) : option A :=
  match r with Ok a => Some a | Err _ => None end.
Definition non_empty (s : string) : option string := then_some (negb (str_empty s)) s.
Definition or_else {A} (a b : option A) : option A := match a with Some _ => a | None => b end.

(** the lines [key=value] of udevadm that are kept *)
Definition udev_lines (text : string) : gmap string string :=
  foldl (fun m entry => <[fst entry := snd entry]> m) ∅
    (List.filter (fun entry => contains_str ["ID_BUS"; "ID_SERIAL_SHORT"; "ID_WWN"]%string (fst entry))
       (omap (split_once "=") (lines text))).

Section Topology.
Context {W : Type} `{TieringSystem W}.

Definition read_u64 (path : string) (w : W) : option Z :=
  text ← result_ok (read_text path w); parse_u64 (trim text).

Definition read_trimmed (path : string) (w : W) : option string :=
  text ← result_ok (read_text path w); non_empty (trim text).

Definition read_names (path : string) (w : W) : list string :=
  match read_dir path w with
  | Err _ => []
  | Ok entries =>
      sort_strings (List.filter valid_block_name (omap (fun e => de_name <$> result_ok e) entries))
  end.

(** the directory above the real path of a partition *)
Definition partition_parent (path : string) (w : W) : option string :=
  if negb (path_exists (path_join path "partition") w) then None
  else
    real ← canonicalize path w;
    parent ← parent_components real;
    name ← list.last parent;
    then_some (negb (String.eqb name "..")) name.

Definition udev_properties (root name : string) (w : W) : gmap string string :=
  if negb (path_eq root "/") || negb (valid_block_name name) then ∅
  else match udevadm_info name w with
       | Some text => udev_lines text
       | None => ∅
       end.

(** the transport that the real path of the device suggests *)
Definition transport_of_path (text : string) : option string :=
  if str_contains "/nvme/" text || str_contains "/nvme" text then Some "nvme"%string
  else if str_contains "/ata" text then Some "sata"%string
  else if str_contains "/usb" text then Some "usb"%string
  else if str_contains "/virtual/" text then Some "virtual"%string
  else None.

Definition inspect_block (root name : string) (w : W) : option BlockDevice :=
  let base := resolve root ("/sys/class/block/" ++ name) in
  let file f := path_join base f in
  let rotational := (fun value => negb (value =? 0)) <$> read_u64 (file "queue/rotational"%string) w in
  let subsystem_is_nvme :=
    is_some_and (canonicalize (file "device/subsystem"%string) w) (str_contains "/nvme")
    || str_contains "nvme" (unwrap_or (result_ok (read_text (file "device/subsystem"%string) w)) "") in
  let udev := udev_properties root name w in
  let transport :=
    or_else (udev !! "ID_BUS"%string)
      (or_else (read_trimmed (file "device/transport"%string) w)
         (canonicalize base w ≫= transport_of_path)) in
  let class :=
    if subsystem_is_nvme && bool_decide (transport = Some "nvme"%string) then ClassNvme
    else match rotational with
         | Some false => SolidStateNonNvme
         | Some true => ClassRotational
         | None => ClassUnknown
         end in
  Some {| bd_name := name;
          bd_class := class;
          bd_rotational := rotational;
          bd_logical_block_size := read_u64 (file "queue/logical_block_size"%string) w;
          bd_physical_block_size := read_u64 (file "queue/physical_block_size"%string) w;
          bd_discard_max_bytes := read_u64 (file "queue/discard_max_bytes"%string) w;
          bd_model := text ← result_ok (read_text (file "device/model"%string) w);
                      non_empty (String.substring 0 80 (trim text));
          bd_transport := transport;
          bd_serial := or_else (udev !! "ID_SERIAL_SHORT"%string)
                         (read_trimmed (file "device/serial"%string) w);
          bd_wwn := or_else (udev !! "ID_WWN"%string) (read_trimmed (file "device/wwid"%string) w);
          bd_capacity_bytes := (fun sectors => u64_sat_mul sectors 512) <$>
                               read_u64 (file "size"%string) w |}.

(** how the walk from the mounted device to the physical one ended *)
Record Walk := { wk_chain : list string; wk_ambiguous : bool; wk_composite : bool }.

(** the loop of [inspect_storage]; the source bounds it by eight rounds *)
Fixpoint walk_chain (fuel : nat) (root : string) (w : W) (current : string) (seen : gset string)
    (chain : list string) : Walk :=
  match fuel with
  | O => {| wk_chain := chain; wk_ambiguous := false; wk_composite := false |}
  | S fuel =>
      if negb (valid_block_name current) || bool_decide (current ∈ seen)
      then {| wk_chain := chain; wk_ambiguous := true; wk_composite := false |}
      else
        let seen := {[current]} ∪ seen in
        let chain := chain ++ [current] in
        let class_path := resolve root ("/sys/class/block/" ++ current) in
        if negb (path_exists class_path w)
        then {| wk_chain := chain; wk_ambiguous := true; wk_composite := false |}
        else
          match partition_parent class_path w with
          | Some parent => walk_chain fuel root w parent seen chain
          | None =>
              match read_names (path_join class_path "slaves") w with
              | [] => {| wk_chain := chain; wk_ambiguous := false; wk_composite := false |}
              | [one] => walk_chain fuel root w one seen chain
              | slaves => {| wk_chain := chain ++ slaves; wk_ambiguous := true;
                             wk_composite := true |}
              end
          end
  end.

Definition device_identity (device : BlockDevice) : string :=
  (bd_name device ++ ":" ++ unwrap_or (bd_serial device) "unavailable" ++ ":"
   ++ unwrap_or (bd_wwn device) "unavailable" ++ ":"
   ++ show_uint (unwrap_or (bd_capacity_bytes device) 0))%string.

Definition inspect_storage (root mount_source filesystem : string) (w : W) : StorageTopology :=
  let start := unwrap_or (strip_prefix "/dev/" mount_source) mount_source in
  let walk := walk_chain 8 root w start ∅ [] in
  let physical :=
    if wk_ambiguous walk then None
    else list.last (wk_chain walk) ≫= fun name => inspect_block root name w in
  {| tp_mount_source := mount_source;
     tp_filesystem := filesystem;
     tp_chain := wk_chain walk;
     tp_physical := physical;
     tp_ambiguous := wk_ambiguous walk;
     tp_profile_version := STORAGE_PROFILE_VERSION;
     tp_profile := if wk_composite walk then Some Composite
                   else if wk_ambiguous walk then Some Ambiguous
                   else profile_for <$> physical;
     tp_device_identity := device_identity <$> physical;
     tp_filesystem_identity := Some (filesystem ++ ":" ++ mount_source)%string |}.
End Topology.

(** ** inventory.rs *)

Record ZswapParameters := {
  zp_enabled : option bool;
  zp_compressor : option string;
  zp_zpool : option string;
  zp_max_pool_percent : option Z;
  zp_accept_threshold_percent : option Z;
  zp_shrinker_enabled : option bool;
  zp_same_filled_pages_enabled : option bool;
  zp_non_same_filled_pages_enabled : option bool
}.

Record DebugCounter := { dc_name : string; dc_value : option Z }.

Record ProviderState := {
  pv_kernel_cmdline_zswap : list string;
  pv_systemd_zram : bool;
  pv_zram_generator_vendor_config : bool;
  pv_zram_generator_etc_config : bool;
  pv_cachyos_zswap_disable_rule : bool;
  pv_persistence_sources : list string;
  pv_conflict : bool;
  pv_bootloader : option string;
  pv_command_line_source : option string;
  pv_systemd_boot : bool
}.

Record ZswapInventory := {
  zi_supported : bool;
  zi_parameters : ZswapParameters;
  zi_parameter_writable : gmap string bool;
  zi_debugfs_available : bool;
  zi_debug_counters : list DebugCounter;
  zi_cgroup_values : gmap string string;
  zi_provider : ProviderState;
  zi_unavailable : list string;
  zi_dry_run : bool
}.

Definition zswap_parameter_names : list string :=
  ["enabled"; "compressor"; "zpool"; "max_pool_percent"; "accept_threshold_percent";
   "shrinker_enabled"; "same_filled_pages_enabled"; "non_same_filled_pages_enabled"].
Definition zswap_cgroup_names : list string :=
  ["memory.zswap.current"; "memory.zswap.max"; "memory.zswap.writeback"; "memory.swap.current";
   "memory.swap.peak"; "memory.swap.events"].

Definition parse_flag (value : string) : option bool :=
  if contains_str ["Y"; "1"; "y"]%string value then Some true
  else if contains_str ["N"; "0"; "n"]%string value then Some false
  else None.

Section Inventory.
Context {W : Type} `{TieringSystem W}.

Definition optional_string (path : string) (w : W) : result (option string) IoError :=
  match read_text path w with
  | Ok value => Ok (Some (trim value))
  | Err e => if bool_decide (io_kind e = NotFound) then Ok None else Err e
  end.
Definition optional_bool (path : string) (w : W) : result (option bool) IoError :=
  let? value := optional_string path w in Ok (value ≫= parse_flag).
Definition optional_u8 (path : string) (w : W) : result (option Z) IoError :=
  let? value := optional_string path w in Ok (value ≫= parse_u8).

Definition inspect_provider (root : string) (w : W) : ProviderState :=
  let at_root path := resolve root path in
  let there path := path_exists (at_root path) w in
  let text path := unwrap_or (result_ok (read_text (at_root path) w)) ""%string in
  let kernel_cmdline_zswap :=
    List.filter (starts_with "zswap.") (split_whitespace (text "/proc/cmdline"%string)) in
  let vendor := there "/usr/lib/systemd/zram-generator.conf"%string in
  let etc := there "/etc/systemd/zram-generator.conf"%string in
  let systemd_zram := there "/run/systemd/generator/dev-zram0.swap"%string || vendor || etc in
  let disable_rule := str_contains "/sys/module/zswap/parameters/enabled"
                        (text "/usr/lib/udev/rules.d/30-zram.rules"%string) in
  let kernel_cmdline := there "/etc/kernel/cmdline"%string in
  let systemd_boot :=
    there "/boot/loader/loader.conf"%string
    || there "/sys/firmware/efi/efivars/LoaderInfo-4a67b082-0a4c-41cf-b6c7-440b29bb8c4f"%string in
  let cmdline_disabled :=
    existsb (fun value => String.eqb value "zswap.enabled=0" || String.eqb value "zswap.enabled=N")
      kernel_cmdline_zswap in
  {| pv_kernel_cmdline_zswap := kernel_cmdline_zswap;
     pv_systemd_zram := systemd_zram;
     pv_zram_generator_vendor_config := vendor;
     pv_zram_generator_etc_config := etc;
     pv_cachyos_zswap_disable_rule := disable_rule;
     pv_persistence_sources :=
       sort_strings (List.filter (fun path => path_exists path w)
         (map at_root ["/etc/kernel/cmdline"; "/etc/default/grub"; "/boot/loader/loader.conf";
                       "/etc/systemd/zram-generator.conf"; "/etc/udev/rules.d/30-zram.rules"]%string));
     pv_conflict := systemd_zram && (cmdline_disabled || disable_rule);
     pv_bootloader :=
       if kernel_cmdline && systemd_boot then Some "systemd-boot/kernel-install-uki"%string
       else if kernel_cmdline then Some "kernel-install/uki"%string
       else if there "/etc/default/grub"%string then Some "grub"%string
       else if there "/boot/loader/loader.conf"%string then Some "systemd-boot"%string
       else None;
     pv_command_line_source := then_some kernel_cmdline (at_root "/etc/kernel/cmdline"%string);
     pv_systemd_boot := systemd_boot |}.

(** the loop over the entries of debugfs *)
Fixpoint debug_loop (root : string) (entries : list (result DirEntry IoError)) (w : W) :
    result (list DebugCounter) IoError :=
  match entries with
  | [] => Ok []
  | entry :: rest =>
      let? entry := entry in
      let? is_file := de_is_file entry in
      let? counters := debug_loop root rest w in
      Ok (if is_file : bool then
            {| dc_name := de_name entry;
               dc_value := text ← result_ok (read_text (path_join root (de_name entry)) w);
                           parse_u64 (trim text) |} :: counters
          else counters)
  end.

Definition inspect_linux (root : string) (dry_run : bool) (w : W) : result ZswapInventory IoError :=
  let parameters_root := resolve root "/sys/module/zswap/parameters" in
  let file name := path_join parameters_root name in
  let missing := List.filter (fun name => negb (path_exists (file name) w)) zswap_parameter_names in
  let unavailable := map (fun name => "zswap.parameters." ++ name)%string missing in
  let? enabled := optional_bool (file "enabled"%string) w in
  let? compressor := optional_string (file "compressor"%string) w in
  let? zpool := optional_string (file "zpool"%string) w in
  let? max_pool := optional_u8 (file "max_pool_percent"%string) w in
  let? accept := optional_u8 (file "accept_threshold_percent"%string) w in
  let? shrinker := optional_bool (file "shrinker_enabled"%string) w in
  let? same_filled := optional_bool (file "same_filled_pages_enabled"%string) w in
  let? non_same_filled := optional_bool (file "non_same_filled_pages_enabled"%string) w in
  let debug_root := resolve root "/sys/kernel/debug/zswap" in
  let debugfs := is_dir debug_root w in
  let? counters :=
    if debugfs then let? entries := read_dir debug_root w in debug_loop debug_root entries w
    else Ok [] in
  Ok {| zi_supported := is_dir parameters_root w;
        zi_parameters :=
          {| zp_enabled := enabled; zp_compressor := compressor; zp_zpool := zpool;
             zp_max_pool_percent := max_pool; zp_accept_threshold_percent := accept;
             zp_shrinker_enabled := shrinker; zp_same_filled_pages_enabled := same_filled;
             zp_non_same_filled_pages_enabled := non_same_filled |};
        zi_parameter_writable :=
          list_to_map (map (fun name => (name, opens_for_write (file name) w)) zswap_parameter_names);
        zi_debugfs_available := debugfs;
        zi_debug_counters := sort_by (fun a b => String.leb (dc_name a) (dc_name b)) counters;
        zi_cgroup_values :=
          list_to_map (omap (fun name =>
            (fun value => (name, trim value)) <$>
            result_ok (read_text (resolve root ("/sys/fs/cgroup/" ++ name)) w)) zswap_cgroup_names);
        zi_provider := inspect_provider root w;
        zi_unavailable := sort_strings (push_if (negb debugfs) "zswap.debugfs" unavailable);
        zi_dry_run := dry_run |}.
End Inventory.

(** ** metrics.rs *)

Definition SECTOR_BYTES : Z := 512.

Record BlockStat := {
  bs_reads_completed : Z;
  bs_sectors_read : Z;
  bs_writes_completed : Z;
  bs_sectors_written : Z;
  bs_write_ticks_ms : Z;
  bs_io_ticks_ms : Z
}.

Record BlockIoDelta := {
  io_interval_ns : Z;
  io_writes_completed : Z;
  io_write_sectors : Z;
  io_write_bytes : Z;
  io_write_iops : f64;
  io_write_throughput_bytes_sec : f64;
  io_write_ticks_ms : Z;
  io_io_ticks_ms : Z
}.

Record WriteSample := { ws_timestamp_ns : Z; ws_bytes : Z; ws_attributable : bool }.
Record WriteBudget := { wb_max_mib_per_second : Z; wb_daily_budget_gib : Z }.
Record BudgetDecision := {
  bu_allowed : bool;
  bu_instantaneous_mib_per_second : f64;
  bu_rolling_minute_mib_per_second : f64;
  bu_rolling_hour_gib : f64;
  bu_daily_gib : f64;
  bu_annual_tb : f64;
  bu_reasons : list string
}.
Record TbEstimate := {
  te_measurement_seconds : f64;
  te_bytes_per_day : f64;
  te_gib_per_day : f64;
  te_decimal_tb_per_year : f64;
  te_rated_tbw : option f64;
  te_endurance_percent_per_year : option f64;
  te_source : string;
  te_confidence : string;
  te_attributable : bool
}.

Fixpoint stat_values (tokens : list string) : result (list Z) string :=
  match tokens with
  | [] => Ok []
  | t :: rest =>
      let? n := ok_or (parse_u64 t) "invalid block stat value"%string in
      let? ns := stat_values rest in
      Ok (n :: ns)
  end.
Definition parse_block_stat (input : string) : result BlockStat string :=
  let? fields := stat_values (split_whitespace input) in
  match fields with
  | reads :: _ :: sectors_read :: _ :: writes :: _ :: sectors_written :: write_ticks :: _
    :: io_ticks :: _ :: _ =>
      Ok {| bs_reads_completed := reads; bs_sectors_read := sectors_read;
            bs_writes_completed := writes; bs_sectors_written := sectors_written;
            bs_write_ticks_ms := write_ticks; bs_io_ticks_ms := io_ticks |}
  | _ => Err "block stat requires at least eleven fields"%string
  end.

Definition delta (self previous : BlockStat) (interval_ns : Z) : option BlockIoDelta :=
  if (interval_ns =? 0)
     || (bs_writes_completed self <? bs_writes_completed previous)
     || (bs_sectors_written self <? bs_sectors_written previous)
     || (bs_write_ticks_ms self <? bs_write_ticks_ms previous)
     || (bs_io_ticks_ms self <? bs_io_ticks_ms previous)
  then None
  else
    let writes := bs_writes_completed self - bs_writes_completed previous in
    let sectors := bs_sectors_written self - bs_sectors_written previous in
    bytes ← u64_checked_mul sectors SECTOR_BYTES;
    let seconds := f64_div (f64_of_Z interval_ns) (f64_of_Z 1000000000) in
    Some {| io_interval_ns := interval_ns;
            io_writes_completed := writes;
            io_write_sectors := sectors;
            io_write_bytes := bytes;
            io_write_iops := f64_div (f64_of_Z writes) seconds;
            io_write_throughput_bytes_sec := f64_div (f64_of_Z bytes) seconds;
            io_write_ticks_ms := bs_write_ticks_ms self - bs_write_ticks_ms previous;
            io_io_ticks_ms := bs_io_ticks_ms self - bs_io_ticks_ms previous |}.

(** the bytes of the samples of the last [window_ns] *)
Definition window_bytes (samples : list WriteSample) (now_ns window_ns : Z) : Z :=
  foldl (fun total sample => u64_sat_add total (ws_bytes sample)) 0
    (List.filter (fun sample => u64_sat_sub now_ns (ws_timestamp_ns sample) <=? window_ns) samples).

Definition evaluate (self : WriteBudget) (samples : list WriteSample) (now_ns : Z) : BudgetDecision :=
  let bytes window := f64_of_Z (window_bytes samples now_ns window) in
  let second := bytes 1000000000 in
  let minute := bytes 60000000000 in
  let hour := bytes 3600000000000 in
  let day := bytes 86400000000000 in
  let mib := f64_of_Z 1048576 in
  let gib := f64_of_Z 1073741824 in
  let instantaneous := f64_div second mib in
  let rolling_minute := f64_div (f64_div minute mib) (f64_of_Z 60) in
  let daily := f64_div day gib in
  let max := f64_of_Z (wb_max_mib_per_second self) in
  let reasons :=
    push_if (f64_gt daily (f64_of_Z (wb_daily_budget_gib self))) "daily_write_budget_exceeded"
    (push_if (f64_gt rolling_minute max) "rolling_minute_write_budget_exceeded"
    (push_if (f64_gt instantaneous max) "instantaneous_write_budget_exceeded" [])) in
  {| bu_allowed := bool_decide (reasons = []);
     bu_instantaneous_mib_per_second := instantaneous;
     bu_rolling_minute_mib_per_second := rolling_minute;
     bu_rolling_hour_gib := f64_div hour gib;
     bu_daily_gib := daily;
     bu_annual_tb := f64_div (f64_mul day (f64_of_Z 365)) (f64_of_Z 1000000000000);
     bu_reasons := reasons |}.

Definition estimate_tbw (bytes : Z) (measurement_seconds : f64) (rated_tbw : option f64)
    (source : string) (attributable : bool) : option TbEstimate :=
  if (bytes =? 0) || negb (f64_is_finite measurement_seconds)
     || f64_le measurement_seconds f64_zero
  then None
  else
    let bytes_per_day :=
      f64_div (f64_mul (f64_of_Z bytes) (f64_of_Z 86400)) measurement_seconds in
    let tb_per_year := f64_div (f64_mul bytes_per_day (f64_of_Z 365)) (f64_of_Z 1000000000000) in
    Some {| te_measurement_seconds := measurement_seconds;
            te_bytes_per_day := bytes_per_day;
            te_gib_per_day := f64_div bytes_per_day (f64_of_Z 1073741824);
            te_decimal_tb_per_year := tb_per_year;
            te_rated_tbw := rated_tbw;
            te_endurance_percent_per_year :=
              value ← rated_tbw;
              then_some (f64_is_finite value && f64_gt value f64_zero)
                (f64_mul (f64_div tb_per_year value) (f64_of_Z 100));
            te_source := source;
            te_confidence := if attributable then "bounded_attributable" else "host_wide_noisy";
            te_attributable := attributable |}.

(** ** swapfile.rs *)

Inductive FilesystemKind := Ext4 | Btrfs | Unsupported.
Inductive SwapfileOwnership := NemorOwned | Adopted | External | UnknownOwner.
#[export] Instance FilesystemKind_eq_dec : EqDecision FilesystemKind.
Proof. solve_decision. Defined.
#[export] Instance SwapfileOwnership_eq_dec : EqDecision SwapfileOwnership.
Proof. solve_decision. Defined.

Record SwapfileContext := {
  sc_path : string;
  sc_parent_canonical : string;
  sc_mountpoint : string;
  sc_filesystem : FilesystemKind;
  sc_topology : StorageTopology;
  sc_total_ram_bytes : Z;
  sc_zram_size_bytes : Z;
  sc_free_bytes : Z;
  sc_filesystem_size_bytes : Z;
  sc_capacity_target_bytes : Z;
  sc_btrfs_nocow : bool;
  sc_btrfs_preallocated : bool;
  sc_has_holes : bool;
  sc_active_external : bool;
  sc_ownership : SwapfileOwnership;
  sc_gaming : bool;
  sc_severe_pressure : bool
}.

Record SwapfilePlan := {
  sp_path : string;
  sp_mountpoint : string;
  sp_filesystem : FilesystemKind;
  sp_backing_device : string;
  sp_physical_device_class : StorageClass;
  sp_proposed_size : Z;
  sp_priority : Z;
  sp_free_bytes : Z;
  sp_required_headroom_bytes : Z;
  sp_ownership : SwapfileOwnership;
  sp_create_required : bool;
  sp_format_required : bool;
  sp_activate_required : bool;
  sp_persistence_requested : bool;
  sp_allowed : bool;
  sp_blocked_reasons : list string;
  sp_dry_run : bool
}.

(** an absolute path has no [.] component, so only [..] can be found *)
Definition validate_candidate_path (path parent_canonical : string) : result unit string :=
  reject (negb (is_absolute path) || bool_decide (".."%string ∈ Process.path_components path))
    "swapfile path must be absolute and normalized"%string ;?
  reject (negb (bool_decide (Process.path_file_name path = Some "nemor-tiering.swap"%string)))
    "swapfile name is outside the Nemor-owned namespace"%string ;?
  let? parent := ok_or (parent_components path) "swapfile parent is missing"%string in
  reject (negb (is_absolute parent_canonical
                && bool_decide (parent = Process.path_components parent_canonical)))
    "swapfile parent canonicalization mismatch"%string.

Definition filesystem_reasons (context : SwapfileContext) (blocked : list string) : list string :=
  match sc_filesystem context with
  | Ext4 => push_if (sc_has_holes context) "ext4_swapfile_has_holes" blocked
  | Btrfs =>
      push_if (negb (sc_btrfs_preallocated context) || sc_has_holes context)
        "btrfs_swapfile_requires_valid_preallocation"
        (push_if (negb (sc_btrfs_nocow context)) "btrfs_swapfile_requires_nocow" blocked)
  | Unsupported => blocked ++ ["unsupported_filesystem"%string]
  end.

Definition proposed_swapfile_size (context : SwapfileContext) (config : TieringConfig) : Z :=
  let percent_limit :=
    u64_sat_mul (sc_filesystem_size_bytes context) (tiering_max_swapfile_percent_disk config) / 100 in
  Z.min (Z.min (Z.max (sc_capacity_target_bytes context) (sc_total_ram_bytes context / 4))
               (u64_sat_mul (sc_total_ram_bytes context) 2))
        percent_limit.

Definition required_headroom (config : TieringConfig) : Z :=
  u64_sat_mul (tiering_min_free_disk_gib config) 1073741824.

Definition swapfile_reasons (context : SwapfileContext) (config : TieringConfig) : list string :=
  let blocked :=
    match validate_candidate_path (sc_path context) (sc_parent_canonical context) with
    | Ok _ => []
    | Err error => [error]
    end in
  let blocked := push_if (sc_active_external context) "candidate_is_external_active_swap" blocked in
  let blocked := push_if (negb (bool_decide (sc_ownership context = NemorOwned)))
                   "swapfile_not_nemor_owned" blocked in
  let blocked := filesystem_reasons context blocked in
  let topology := sc_topology context in
  push_if (sc_free_bytes context <?
           u64_sat_add (proposed_swapfile_size context config) (required_headroom config))
    "insufficient_disk_headroom"
  (push_if (negb (tiering_allow_swapfile_create config)) "swapfile_creation_disabled"
  (push_if (sc_severe_pressure context) "severe_pressure_blocks_reconfiguration"
  (push_if (sc_gaming context) "gaming_defers_structural_io"
  (push_if (is_none_or (profile_name <$> tp_profile topology)
              (fun profile => negb (contains_str (tiering_supported_storage_profiles config) profile)))
     "storage_profile_not_authorized"
  (push_if (tp_ambiguous topology || is_none (tp_physical topology)) "backing_storage_ambiguous"
     blocked))))).

Definition plan_swapfile (context : SwapfileContext) (config : TieringConfig) : SwapfilePlan :=
  let blocked := swapfile_reasons context config in
  {| sp_path := sc_path context;
     sp_mountpoint := sc_mountpoint context;
     sp_filesystem := sc_filesystem context;
     sp_backing_device := tp_mount_source (sc_topology context);
     sp_physical_device_class :=
       unwrap_or (bd_class <$> tp_physical (sc_topology context)) ClassUnknown;
     sp_proposed_size := proposed_swapfile_size context config;
     sp_priority := 10;
     sp_free_bytes := sc_free_bytes context;
     sp_required_headroom_bytes := required_headroom config;
     sp_ownership := sc_ownership context;
     sp_create_required := true;
     sp_format_required := true;
     sp_activate_required := true;
     sp_persistence_requested := tiering_allow_persistent_reconfigure config;
     sp_allowed := bool_decide (blocked = []);
     sp_blocked_reasons := blocked;
     sp_dry_run := tiering_dry_run config |}.

(** ** plan.rs *)

Definition TIERING_RULE_VERSION : string := "tiering-rules-v5-storage-profile-comparison".
Definition TIERING_AUDIT_REASON : string := "tiering_observe_audit".

Inductive BackendKind := Zram | ZswapStorageBacked | ZswapNvme | BackendExternal | Mixed.
Inductive PoolIntent := Conservative | IntentGaming | IntentCapacity.
#[export] Instance BackendKind_eq_dec : EqDecision BackendKind.
Proof. solve_decision. Defined.
#[export] Instance PoolIntent_eq_dec : EqDecision PoolIntent.
Proof. solve_decision. Defined.

Record BenchmarkEvidence := {
  be_backend : BackendKind;
  be_real : bool;
  be_cpu_time_ns : Z;
  be_wall_time_ns : Z;
  be_compression_ratio : option f64;
  be_swap_latency_ns : option Z;
  be_backing_write_bytes : option Z;
  be_oom : bool
}.

Record PoolPlan := {
  pp_intent : PoolIntent;
  pp_compressor : option string;
  pp_zpool : option string;
  pp_max_pool_percent : Z;
  pp_accept_threshold_percent : Z;
  pp_shrinker_enabled : bool;
  pp_backing_swapfile : option string;
  pp_rule_version : string;
  pp_blocked_reasons : list string;
  pp_requires_reboot : bool;
  pp_dry_run : bool
}.

Record PoolContext := {
  po_intent : PoolIntent;
  po_inventory : ZswapInventory;
  po_swapfile : SwapfilePlan;
  po_benchmark : option BenchmarkEvidence;
  po_budget : BudgetDecision;
  po_pressure : PressureState;
  po_gaming : bool
}.

Definition severe (pressure : PressureState) : bool :=
  match pressure with Critical | Emergency => true | _ => false end.

Definition pool_reasons (context : PoolContext) (config : TieringConfig) : list string :=
  push_if (negb (tiering_allow_runtime_reconfigure config)) "runtime_reconfigure_disabled"
  (push_if (negb (bu_allowed (po_budget context))) "write_budget_exceeded"
  (push_if (severe (po_pressure context)) "severe_pressure_blocks_global_change"
  (push_if (po_gaming context) "gaming_defers_global_zswap_change"
  (push_if (negb (sp_allowed (po_swapfile context))) "backing_swapfile_unavailable"
  (push_if (negb (zi_supported (po_inventory context))) "zswap_unsupported" []))))).

Definition shrinker_allowed (context : PoolContext) (config : TieringConfig) : bool :=
  let benchmark_ready :=
    is_some_and (po_benchmark context)
      (fun value => be_real value && negb (be_oom value) && is_some (be_backing_write_bytes value)) in
  tiering_allow_shrinker config
  && bool_decide (po_intent context = IntentCapacity)
  && benchmark_ready
  && bu_allowed (po_budget context)
  && negb (po_gaming context)
  && match po_pressure context with Normal | Watch => true | _ => false end.

(** [clamp] panics when the configured minimum exceeds 100: a panic is [None] *)
Definition plan_pool (context : PoolContext) (config : TieringConfig) : option PoolPlan :=
  let parameters := zi_parameters (po_inventory context) in
  max_pool ← clamp (tiering_zswap_pool_max_percent config) (tiering_zswap_pool_min_percent config) 100;
  Some {| pp_intent := po_intent context;
          pp_compressor := zp_compressor parameters;
          pp_zpool := zp_zpool parameters;
          pp_max_pool_percent := max_pool;
          pp_accept_threshold_percent := unwrap_or (zp_accept_threshold_percent parameters) 90;
          pp_shrinker_enabled := shrinker_allowed context config;
          pp_backing_swapfile := then_some (sp_allowed (po_swapfile context)) (sp_path (po_swapfile context));
          pp_rule_version := TIERING_RULE_VERSION;
          pp_blocked_reasons := pool_reasons context config;
          pp_requires_reboot := pv_conflict (zi_provider (po_inventory context))
                                || negb (unwrap_or (zp_enabled parameters) false);
          pp_dry_run := tiering_dry_run config |}.

Record BootFilePlan := {
  bf_path : string;
  bf_action : string;
  bf_backup_required : bool;
  bf_checksum_required : bool
}.

Record BootTieringPlan := {
  bp_bootloader : option string;
  bp_zram_disable_requirement : bool;
  bp_zswap_kernel_params : list string;
  bp_cachyos_udev_override : option string;
  bp_backing_swapfile : string;
  bp_files : list BootFilePlan;
  bp_post_reboot_validation : list string;
  bp_rollback : list string;
  bp_requires_user_approval : bool;
  bp_allowed : bool;
  bp_blocked_reasons : list string
}.

Definition cmdline_path (bootloader : option string) : option string :=
  name ← bootloader;
  if String.eqb name "grub" then Some "/etc/default/grub"%string
  else if String.eqb name "systemd-boot" then Some "/boot/loader/loader.conf"%string
  else if String.eqb name "kernel-install/uki" then Some "/etc/kernel/cmdline"%string
  else None.

Definition boot_file (action path : string) : BootFilePlan :=
  {| bf_path := path; bf_action := action; bf_backup_required := true; bf_checksum_required := true |}.

Definition boot_plan (inventory : ZswapInventory) (swapfile : SwapfilePlan) : BootTieringPlan :=
  let provider := zi_provider inventory in
  let bootloader := pv_bootloader provider in
  let override_path :=
    then_some (pv_cachyos_zswap_disable_rule provider) "/etc/udev/rules.d/30-zram.rules"%string in
  let files :=
    match cmdline_path bootloader with
    | Some path => [boot_file "add bounded zswap kernel parameters" path]
    | None => []
    end
    ++ match override_path with
       | Some path => [boot_file "Nemor-owned override; never modify /usr/lib" path]
       | None => []
       end in
  let blocked :=
    push_if (existsb (fun file => path_under "/usr/lib" (bf_path file)) files) "vendor_path_forbidden"
    (push_if (bool_decide (bootloader = Some "systemd-boot/kernel-install-uki"%string))
       "validation_only_manifest_required"
    (push_if (match sp_physical_device_class swapfile with
              | ClassNvme | SolidStateNonNvme => false
              | _ => true
              end) "storage_profile_unsupported"
    (push_if (negb (sp_allowed swapfile)) "swapfile_plan_blocked"
    (push_if (is_none bootloader) "bootloader_unknown" [])))) in
  {| bp_bootloader := bootloader;
     bp_zram_disable_requirement := pv_systemd_zram provider;
     bp_zswap_kernel_params :=
       ["zswap.enabled=1"; "zswap.max_pool_percent=<planned>";
        "zswap.accept_threshold_percent=<planned>"];
     bp_cachyos_udev_override := override_path;
     bp_backing_swapfile := sp_path swapfile;
     bp_files := files;
     bp_post_reboot_validation :=
       ["verify zswap parameter readback"; "verify exact profile-bound storage-backed swapfile";
        "verify daemon remains observe-only"];
     bp_rollback :=
       ["restore checksummed backups"; "remove only Nemor-owned override";
        "reboot and verify CachyOS baseline"];
     bp_requires_user_approval := true;
     bp_allowed := bool_decide (blocked = []);
     bp_blocked_reasons := blocked |}%string.

(** boot_validation_v6.rs: the evidence that authorises the storage-backed backend *)

Definition PROFILE_BENCHMARK_EVIDENCE_V6 : string := "tiering-profile-benchmark-v6".
Definition ZRAM_BASELINE_EVIDENCE_V6 : string := "tiering-zram-baseline-v4".
Definition WORKLOAD_PROTOCOL_V6 : string := "tiering-bounded-workload-v3".

Record SameHostZramBaselineEvidenceV6 := {
  zb_schema : string;
  zb_validation_id : string;
  zb_source_commit : string;
  zb_source_state_sha256 : string;
  zb_environment_sha256 : string;
  zb_topology_sha256 : string;
  zb_workload_sha256 : string;
  zb_real : bool;
  zb_oom : bool;
  zb_safety_failure : bool;
  zb_cleanup_passed : bool;
  zb_final_restore_passed : bool;
  zb_archive_sha256 : string;
  zb_raw_evidence_sha256 : string;
  zb_workload_protocol : string
}.

Record SameHostProfileEvidenceV6 := {
  pe_schema : string;
  pe_validation_id : string;
  pe_profile : StorageProfile;
  pe_source_commit : string;
  pe_source_state_sha256 : string;
  pe_environment_sha256 : string;
  pe_topology_sha256 : string;
  pe_workload_sha256 : string;
  pe_real : bool;
  pe_oom : bool;
  pe_safety_failure : bool;
  pe_cleanup_passed : bool;
  pe_final_restore_passed : bool;
  pe_write_budget_passed : bool;
  pe_backing_write_bytes : option Z;
  pe_latency_ns : option Z;
  pe_archive_sha256 : string;
  pe_raw_evidence_sha256 : string;
  pe_workload_protocol : string;
  pe_backing_write_confidence : string
}.

Definition is_hexdigit (c : ascii) : bool := is_some (hex_val c).
Definition is_sha256 (value : string) : bool :=
  Nat.eqb (String.length value) 64 && str_all is_hexdigit value.

Definition matching_same_host_evidence_v6 (b : SameHostZramBaselineEvidenceV6)
    (p : SameHostProfileEvidenceV6) (profile : StorageProfile) : bool :=
  String.eqb (zb_schema b) ZRAM_BASELINE_EVIDENCE_V6
  && String.eqb (pe_schema p) PROFILE_BENCHMARK_EVIDENCE_V6
  && bool_decide (pe_profile p = profile)
  && String.eqb (zb_validation_id b) (pe_validation_id p)
  && String.eqb (zb_source_commit b) (pe_source_commit p)
  && String.eqb (zb_source_state_sha256 b) (pe_source_state_sha256 p)
  && String.eqb (zb_environment_sha256 b) (pe_environment_sha256 p)
  && String.eqb (zb_topology_sha256 b) (pe_topology_sha256 p)
  && String.eqb (zb_workload_sha256 b) (pe_workload_sha256 p)
  && zb_real b
  && pe_real p
  && negb (zb_oom b)
  && negb (pe_oom p)
  && negb (zb_safety_failure b)
  && negb (pe_safety_failure p)
  && zb_cleanup_passed b
  && pe_cleanup_passed p
  && zb_final_restore_passed b
  && pe_final_restore_passed p
  && pe_write_budget_passed p
  && is_some (pe_backing_write_bytes p)
  && is_some (pe_latency_ns p)
  && is_sha256 (zb_archive_sha256 b)
  && is_sha256 (pe_archive_sha256 p)
  && is_sha256 (zb_raw_evidence_sha256 b)
  && is_sha256 (pe_raw_evidence_sha256 p)
  && String.eqb (zb_workload_protocol b) WORKLOAD_PROTOCOL_V6
  && String.eqb (pe_workload_protocol p) WORKLOAD_PROTOCOL_V6
  && String.eqb (pe_backing_write_confidence p) "bounded-physical-device-attributed".

(** [profile_evidence], [source_state] and [environment_identity] are carried but
    never read. *)
Record RecommendationInput := {
  ri_current : BackendKind;
  ri_gaming : bool;
  ri_pressure : PressureState;
  ri_storage : StorageTopology;
  ri_zram_benchmark : option BenchmarkEvidence;
  ri_zswap_benchmark : option BenchmarkEvidence;
  ri_same_host_zram_baseline : option SameHostZramBaselineEvidenceV6;
  ri_same_host_profile_evidence : option SameHostProfileEvidenceV6;
  ri_budget : BudgetDecision;
  ri_safety_events : Z
}.

Record BackendRecommendation := {
  br_selected : BackendKind;
  br_alternative : BackendKind;
  br_confidence : string;
  br_reasons : list string;
  br_evidence : list string;
  br_blocked : bool;
  br_requires_reboot : bool;
  br_rule_version : string;
  br_production_activation : bool
}.

Definition MAX_LATENCY_REGRESSION_PERCENT : Z := 10.

Definition comparison_policy_passes (input : RecommendationInput) : bool :=
  match ri_zram_benchmark input, ri_zswap_benchmark input with
  | Some zram, Some profile =>
      if negb (be_real zram) || negb (be_real profile) || be_oom zram || be_oom profile then false
      else
        match be_swap_latency_ns zram, be_swap_latency_ns profile with
        | Some base_latency, Some profile_latency =>
            let latency_ok :=
              profile_latency <=?
              u64_sat_mul base_latency (100 + MAX_LATENCY_REGRESSION_PERCENT) / 100 in
            let benefit :=
              match be_compression_ratio zram, be_compression_ratio profile with
              | Some base, Some candidate => f64_gt candidate base
              | _, _ => false
              end in
            latency_ok && benefit && is_some (be_backing_write_bytes profile)
        | _, _ => false
        end
  | _, _ => false
  end.

(** the same-host baseline matches the profile of this storage *)
Definition baseline_ready (input : RecommendationInput) : bool :=
  is_some_and (ri_same_host_zram_baseline input) (fun baseline =>
    is_some_and (ri_same_host_profile_evidence input) (fun evidence =>
      is_some_and (tp_profile (ri_storage input)) (fun profile =>
        matching_same_host_evidence_v6 baseline evidence profile))).

(** the selected backend and the reasons, by the chain of conditions *)
Definition select_backend (input : RecommendationInput) : BackendKind * list string :=
  let profile := tp_profile (ri_storage input) in
  if ri_gaming input then (Zram, ["gaming_preserves_low_write_current_zram"])
  else if severe (ri_pressure input) then (Zram, ["severe_pressure_blocks_structural_switch"])
  else if 0 <? ri_safety_events input then (Zram, ["recent_safety_event"])
  else if negb (bu_allowed (ri_budget input)) then (Zram, ["write_budget_exceeded"])
  else if negb (is_some_and profile boot_supported) then (Zram, ["storage_profile_unsupported"])
  else if negb (baseline_ready input) then
    (Zram, ["same_host_zram_baseline_missing";
            match profile with
            | Some SataSsd => "sata_boot_validation_missing"
            | Some NvmeSsd => "nvme_boot_validation_missing"
            | _ => "profile_boot_validation_missing"
            end])
  else if negb (comparison_policy_passes input) then
    (Zram, ["storage_profile_comparison_missing_or_not_beneficial"])
  else (ZswapStorageBacked, ["matching_same_host_profile_evidence"]).

Definition recommend_backend (input : RecommendationInput) : BackendRecommendation :=
  let '(selected, reasons) := select_backend input in
  let storage_backed := bool_decide (selected = ZswapStorageBacked) in
  {| br_selected := selected;
     br_alternative := if bool_decide (selected = Zram) then ZswapStorageBacked else Zram;
     br_confidence := if storage_backed then "measured"
                      else if bool_decide (ri_current input = Zram) then "conservative"
                      else "low";
     br_reasons := reasons;
     br_evidence :=
       (match storage_backed, tp_profile (ri_storage input) with
        | true, Some profile => [("profile=" ++ debug_profile profile)%string]
        | _, _ => []
        end
        ++ (if is_some_and (ri_zram_benchmark input) be_real then ["zram_real_baseline"] else []))%list;
     br_blocked := bool_decide (selected = Zram) && negb (bool_decide (ri_current input = Zram));
     br_requires_reboot := negb (bool_decide (selected = ri_current input));
     br_rule_version := TIERING_RULE_VERSION;
     br_production_activation := false |}%string.

(** ** zswap_backend.rs *)

Definition PARAMETERS : list string :=
  ["enabled"; "compressor"; "zpool"; "max_pool_percent"; "accept_threshold_percent";
   "shrinker_enabled"].

(** ** backend.rs: the swapfile transaction *)

Inductive BackendError :=
| Blocked (message : string)
| Operation (operation message : string)
| Verification (message : string).
Definition backend_error_to_string (e : BackendError) : string :=
  match e with
  | Blocked m => "tiering mutation blocked: " ++ m
  | Operation operation m => "tiering operation `" ++ operation ++ "` failed: " ++ m
  | Verification m => "tiering verification failed: " ++ m
  end.

Class SwapfileBackend (B : Type) := {
  active_swaps : B -> result (list string) BackendError;
  create_owned : string -> FilesystemKind -> Z -> eff B unit BackendError;
  activate_owned : string -> Z -> eff B unit BackendError;
  deactivate_owned : string -> eff B unit BackendError;
  remove_owned : string -> eff B unit BackendError;
  is_owned : string -> B -> bool
}.

Record MutationSnapshot := {
  ms_path : string;
  ms_baseline_swaps : list string;
  ms_created : bool;
  ms_activated : bool;
  ms_rollback_pending : bool;
  ms_rolled_back : bool;
  ms_last_error : option string
}.
Record TransactionOutcome := {
  to_created : bool;
  to_activated : bool;
  to_verified : bool;
  to_rolled_back : bool
}.

Definition mark_created (s : MutationSnapshot) : MutationSnapshot :=
  {| ms_path := ms_path s; ms_baseline_swaps := ms_baseline_swaps s; ms_created := true;
     ms_activated := ms_activated s; ms_rollback_pending := true;
     ms_rolled_back := ms_rolled_back s; ms_last_error := ms_last_error s |}.
Definition mark_activated (s : MutationSnapshot) : MutationSnapshot :=
  {| ms_path := ms_path s; ms_baseline_swaps := ms_baseline_swaps s; ms_created := ms_created s;
     ms_activated := true; ms_rollback_pending := ms_rollback_pending s;
     ms_rolled_back := ms_rolled_back s; ms_last_error := ms_last_error s |}.
Definition mark_rolled_back (s : MutationSnapshot) : MutationSnapshot :=
  {| ms_path := ms_path s; ms_baseline_swaps := ms_baseline_swaps s; ms_created := ms_created s;
     ms_activated := ms_activated s; ms_rollback_pending := false;
     ms_rolled_back := true; ms_last_error := ms_last_error s |}.
Definition record_error (message : string) (s : MutationSnapshot) : MutationSnapshot :=
  {| ms_path := ms_path s; ms_baseline_swaps := ms_baseline_swaps s; ms_created := ms_created s;
     ms_activated := ms_activated s; ms_rollback_pending := ms_rollback_pending s;
     ms_rolled_back := ms_rolled_back s; ms_last_error := Some message |}.

Section Transaction.
Context {B : Type} `{SwapfileBackend B}.

(** the snapshot and the backend, both borrowed mutably *)
Abbreviation State := (MutationSnapshot * B)%type.

Definition snapshot_upd (f : MutationSnapshot -> MutationSnapshot) : eff State unit BackendError :=
  eff_fst (eff_upd f).

(** some swap of the baseline is still active, when there was one *)
Definition baseline_active (snapshot : MutationSnapshot) (active : list string) : bool :=
  bool_decide (ms_baseline_swaps snapshot = [])
  || existsb (fun path => path_mem path active) (ms_baseline_swaps snapshot).

Definition rolled_back_outcome : TransactionOutcome :=
  {| to_created := false; to_activated := false; to_verified := true; to_rolled_back := true |}.

Definition rollback_swapfile : eff State TransactionOutcome BackendError :=
  let! snapshot := eff_fst eff_get in
  let path := ms_path snapshot in
  if ms_rolled_back snapshot then eff_ret rolled_back_outcome
  else
    let! owned := eff_snd (eff_read (fun b => Ok (is_owned path b))) in
    eff_reject (negb owned && (ms_created snapshot || ms_activated snapshot))
      (Blocked "rollback ownership is ambiguous") ;!
    let! active := (if ms_activated snapshot
                    then let! swaps := eff_snd (eff_read active_swaps) in
                         eff_ret (path_mem path swaps)
                    else eff_ret false) in
    (if active : bool then
       eff_snd (deactivate_owned path) ;!
       let! swaps := eff_snd (eff_read active_swaps) in
       eff_reject (negb (baseline_active snapshot swaps))
         (Verification "rollback would lose all baseline swap")
     else eff_ret tt) ;!
    (if ms_created snapshot then eff_snd (remove_owned path) else eff_ret tt) ;!
    snapshot_upd mark_rolled_back ;!
    eff_ret rolled_back_outcome.

(** the closure whose error triggers the rollback *)
Definition create_and_activate (plan : SwapfilePlan) : eff State TransactionOutcome BackendError :=
  eff_snd (create_owned (sp_path plan) (sp_filesystem plan) (sp_proposed_size plan)) ;!
  snapshot_upd mark_created ;!
  eff_snd (activate_owned (sp_path plan) (sp_priority plan)) ;!
  snapshot_upd mark_activated ;!
  let! active := eff_snd (eff_read active_swaps) in
  eff_reject (negb (path_mem (sp_path plan) active)) (Verification "owned swapfile is not active") ;!
  let! snapshot := eff_fst eff_get in
  eff_reject (negb (baseline_active snapshot active)) (Verification "no-swap-loss invariant violated") ;!
  eff_ret {| to_created := true; to_activated := true; to_verified := true; to_rolled_back := false |}.

Definition apply_swapfile (plan : SwapfilePlan) : eff State TransactionOutcome BackendError :=
  if sp_dry_run plan then
    eff_ret {| to_created := false; to_activated := false; to_verified := false;
               to_rolled_back := false |}
  else
    eff_reject (negb (sp_allowed plan)) (Blocked (join "," (sp_blocked_reasons plan))) ;!
    let! result := eff_try (create_and_activate plan) in
    match result with
    | Ok outcome => eff_ret outcome
    | Err error =>
        snapshot_upd (record_error (backend_error_to_string error)) ;!
        eff_try rollback_swapfile ;!
        eff_err error
    end.
End Transaction.

(** ** backend.rs: LinuxSwapfileBackend *)

Record LinuxSwapfileBackend (W : Type) := MkLinux { ls_owned : list string; ls_system : W }.
Arguments MkLinux {W} _ _.
Arguments ls_owned {W} _.
Arguments ls_system {W} _.

Definition validation_id_ok (id : string) : bool :=
  (8 <=? String.length id)%nat && (String.length id <=? 64)%nat
  && str_all (fun c => is_ascii_lowercase c || is_digit c || Ascii.eqb c "-") id.

(** the three places a swapfile of Nemor may have *)
Definition require_path (value : string) : result unit BackendError :=
  let validation :=
    starts_with "/var/tmp/nemor-validation-tiering-" value
    && ends_with ".swap" value
    && negb (str_contains "/" (unwrap_or (strip_prefix "/var/tmp/" value) "")) in
  let phase6 :=
    is_some_and (strip_prefix "/var/lib/nemor/validation/phase6/" value ≫= strip_suffix "/backing.swap")
      validation_id_ok in
  let production := String.eqb value "/var/lib/nemor/swap/nemor-tiering.swap" in
  reject (negb ((validation || phase6 || production)
                && is_absolute value
                && negb (bool_decide (".."%string ∈ Process.path_components value))))
    (Blocked "path is outside the closed Nemor swapfile namespace").

Section Linux.
Context {W : Type} `{TieringSystem W}.
Abbreviation Self := (LinuxSwapfileBackend W).

Definition on_system {A E} (f : E -> BackendError) (m : eff W A E) : eff Self A BackendError :=
  fun self =>
    let '(w, r) := m (ls_system self) in
    (MkLinux (ls_owned self) w, match r with Ok a => Ok a | Err e => Err (f e) end).
Definition set_owned (f : list string -> list string) : eff Self unit BackendError :=
  eff_upd (fun self => MkLinux (f (ls_owned self)) (ls_system self)).
Definition owns (path : string) (self : Self) : bool := path_mem path (ls_owned self).

Definition resume_owned (path : string) : eff Self unit BackendError :=
  eff_read (fun _ => require_path path) ;!
  let! metadata := eff_read (fun self =>
    match symlink_metadata path (ls_system self) with
    | Ok m => Ok m
    | Err e => Err (Operation "inspect_owned_swapfile" (io_text e))
    end) in
  eff_reject (md_is_symlink metadata || negb (md_is_file metadata) || negb (md_uid metadata =? 0)
              || negb (Z.land (md_mode metadata) 511 =? 384))
    (Blocked "persisted swapfile ownership or permissions are invalid") ;!
  set_owned (fun owned => path :: owned).

Definition helper_allowed (executable : string) : bool :=
  contains_str ["/usr/bin/btrfs"; "/usr/bin/fallocate"; "/usr/bin/chmod"; "/usr/bin/mkswap";
                "/usr/bin/swapon"; "/usr/bin/swapoff"]%string executable.

Definition helper (executable : string) (args : list string) : eff Self unit BackendError :=
  eff_reject (negb (helper_allowed executable)) (Blocked "helper is outside the executable allow-list") ;!
  let! ended := on_system (fun e => Operation "helper" (io_text e)) (run_helper executable args) in
  match ended with
  | HelperOk => eff_ret tt
  | HelperFailed status => eff_err (Operation "helper" (executable ++ " exited with " ++ status))
  | HelperTimeout => eff_err (Operation "helper_timeout" executable)
  | HelperSpawnError text => eff_err (Operation "spawn_helper" text)
  | HelperWaitError text => eff_err (Operation "wait_helper" text)
  end.

Definition linux_active_swaps (self : Self) : result (list string) BackendError :=
  match read_text "/proc/swaps" (ls_system self) with
  | Err e => Err (Operation "read_proc_swaps" (io_text e))
  | Ok text => Ok (omap (fun line => head (split_whitespace line)) (tail (lines text)))
  end.

(** the helpers of an ext4 file: the first two return early on failure *)
Definition create_ext4 (path : string) (size : Z) : eff Self (result unit BackendError) BackendError :=
  helper "/usr/bin/fallocate" ["--length"%string; show_uint size; path] ;!
  helper "/usr/bin/chmod" ["0600"%string; path] ;!
  eff_try (helper "/usr/bin/mkswap" [path]).

Definition linux_create_owned (path : string) (filesystem : FilesystemKind) (size : Z) :
    eff Self unit BackendError :=
  eff_read (fun _ => require_path path) ;!
  let! exists_already := eff_read (fun self => Ok (path_exists path (ls_system self))) in
  eff_reject exists_already (Blocked "refusing to adopt an existing swapfile") ;!
  let! result :=
    match filesystem with
    | Btrfs => eff_try (helper "/usr/bin/btrfs"
                 ["filesystem"%string; "mkswapfile"%string; "--size"%string; show_uint size; path])
    | Ext4 => create_ext4 path size
    | Unsupported => eff_err (Blocked "unsupported filesystem")
    end in
  match result with
  | Err error =>
      let! left := eff_read (fun self => Ok (path_exists path (ls_system self))) in
      (if left : bool then
         eff_try (on_system (fun e => Operation "remove" (io_text e)) (remove_file path)) ;! eff_ret tt
       else eff_ret tt) ;!
      eff_err error
  | Ok _ => set_owned (fun owned => path :: owned)
  end.

Definition linux_activate_owned (path : string) (priority : Z) : eff Self unit BackendError :=
  eff_read (fun _ => require_path path) ;!
  let! self := eff_get in
  eff_reject (negb (owns path self)) (Blocked "swapfile is not owned") ;!
  helper "/usr/bin/swapon" ["--priority"%string; show_int priority; path].

Definition linux_deactivate_owned (path : string) : eff Self unit BackendError :=
  eff_read (fun _ => require_path path) ;!
  let! self := eff_get in
  eff_reject (negb (owns path self)) (Blocked "swapfile is not owned") ;!
  helper "/usr/bin/swapoff" [path].

(** the path leaves the owned set before the file is removed *)
Definition linux_remove_owned (path : string) : eff Self unit BackendError :=
  eff_read (fun _ => require_path path) ;!
  let! self := eff_get in
  eff_reject (negb (owns path self)) (Blocked "swapfile is not owned") ;!
  set_owned (List.filter (fun owned => negb (path_eq path owned))) ;!
  on_system (fun e => Operation "remove_owned_swapfile" (io_text e)) (remove_file path).

#[export] Instance linux_swapfile_backend : SwapfileBackend Self := {
  active_swaps := linux_active_swaps;
  create_owned := linux_create_owned;
  activate_owned := linux_activate_owned;
  deactivate_owned := linux_deactivate_owned;
  remove_owned := linux_remove_owned;
  is_owned := owns
}.
End Linux.

(** ** zswap_backend.rs: LinuxZswapBackend *)

Record LinuxZswapBackend (W : Type) := MkZswap {
  lw_root : string;
  lw_allow_mutation : bool;
  lw_system : W
}.
Arguments MkZswap {W} _ _ _.
Arguments lw_root {W} _.
Arguments lw_allow_mutation {W} _.
Arguments lw_system {W} _.

Definition validate_value (name value : string) : result unit BackendError :=
  reject (str_empty value || (32 <? String.length value)%nat
          || negb (str_all (fun c => is_ascii_alphanumeric c || Ascii.eqb c "_" || Ascii.eqb c "-")
                     value)) (Blocked "zswap parameter value is malformed") ;?
  reject (contains_str ["enabled"; "shrinker_enabled"]%string name
          && negb (contains_str ["Y"; "N"; "1"; "0"]%string value))
    (Blocked "zswap boolean value is invalid") ;?
  if contains_str ["max_pool_percent"; "accept_threshold_percent"]%string name then
    let? number := ok_or (parse_u8 value) (Blocked "zswap percentage is invalid") in
    reject ((number =? 0) || (100 <? number)) (Blocked "zswap percentage is outside 1..=100")
  else Ok tt.

Section Zswap.
Context {W : Type} `{TieringSystem W}.
Abbreviation Zelf := (LinuxZswapBackend W).

Definition for_explicit_transaction (allow_mutation : bool) (w : W) : Zelf :=
  MkZswap "/" allow_mutation w.
Definition zswap_observe (w : W) : Zelf := MkZswap "/" false w.

Definition parameter_path (name : string) (self : Zelf) : result string BackendError :=
  reject (negb (contains_str PARAMETERS name))
    (Blocked "zswap parameter is outside the closed allow-list") ;?
  Ok (path_join (resolve (lw_root self) "/sys/module/zswap/parameters") name).

Definition read_parameter (name : string) (self : Zelf) : result (option string) BackendError :=
  let? path := parameter_path name self in
  match read_text path (lw_system self) with
  | Ok value => Ok (Some (trim value))
  | Err e => if bool_decide (io_kind e = NotFound) then Ok None
             else Err (Operation "read_zswap_parameter" (io_text e))
  end.

Definition set_parameter (name value : string) : eff Zelf unit BackendError :=
  let! self := eff_get in
  eff_reject (negb (lw_allow_mutation self))
    (Blocked "zswap runtime mutation was not explicitly enabled") ;!
  eff_read (fun _ => validate_value name value) ;!
  let! path := eff_read (parameter_path name) in
  (fun self =>
     let '(w, r) := write_file path value (lw_system self) in
     (MkZswap (lw_root self) (lw_allow_mutation self) w,
      match r with Ok u => Ok u | Err e => Err (Operation "write_zswap_parameter" (io_text e)) end)) ;!
  let! readback := eff_read (read_parameter name) in
  eff_reject (negb (bool_decide (readback = Some value)))
    (Verification ("zswap " ++ name ++ " readback mismatch")).

Definition read_block_stat (device : string) (self : Zelf) : result BlockStat BackendError :=
  reject (str_empty device || str_contains "/" device
          || negb (str_all (fun c => is_ascii_alphanumeric c || Ascii.eqb c "-") device))
    (Blocked "block device name is outside the closed allow-list") ;?
  let path := path_join (path_join (resolve (lw_root self) "/sys/class/block") device) "stat" in
  match read_text path (lw_system self) with
  | Err e => Err (Operation "read_block_stat" (io_text e))
  | Ok value => match parse_block_stat value with
                | Ok s => Ok s
                | Err error => Err (Verification error)
                end
  end.
End Zswap.

(** ** report.rs *)

Record TieringAuditReport := {
  tr_timestamp_ns : Z;
  tr_zswap : ZswapInventory;
  tr_current_backend : BackendKind;
  tr_root_storage : StorageTopology;
  tr_budget : BudgetDecision;
  tr_recommendation : BackendRecommendation;
  tr_rollback_pending : bool;
  tr_recovery_pending : bool;
  tr_requires_boot_validation : bool;
  tr_dry_run : bool
}.

(** the source and the file system of the root's line of mountinfo *)
Fixpoint mount_loop (ls : list string) : option (string * string) :=
  match ls with
  | [] => None
  | line :: rest =>
      sides ← split_once " - " line;
      if negb (bool_decide (nth_error (split_whitespace (fst sides)) 4 = Some "/"%string))
      then mount_loop rest
      else
        let right := split_whitespace (snd sides) in
        source ← nth_error right 1;
        filesystem ← head right;
        Some (source, filesystem)
  end.

Definition no_budget : BudgetDecision :=
  {| bu_allowed := true; bu_instantaneous_mib_per_second := f64_zero;
     bu_rolling_minute_mib_per_second := f64_zero; bu_rolling_hour_gib := f64_zero;
     bu_daily_gib := f64_zero; bu_annual_tb := f64_zero;
     bu_reasons := ["no_write_delta_interval_yet"%string] |}.

Section Report.
Context {W : Type} `{TieringSystem W}.

Definition root_mount (w : W) : option (string * string) :=
  input ← result_ok (read_text "/proc/self/mountinfo" w);
  mount_loop (lines input).

Definition inspect_host (config : TieringConfig) (timestamp : Z) (w : W) :
    result TieringAuditReport string :=
  let? zswap := match inspect_linux "/" true w with
                | Ok inventory => Ok inventory
                | Err e => Err (io_text e)
                end in
  let '(source, filesystem) := unwrap_or (root_mount w) ("unknown", "unknown")%string in
  let root_storage := inspect_storage "/" source filesystem w in
  let enabled := bool_decide (zp_enabled (zi_parameters zswap) = Some true) in
  let current_backend := if enabled then Mixed else Zram in
  Ok {| tr_timestamp_ns := timestamp;
        tr_zswap := zswap;
        tr_current_backend := current_backend;
        tr_root_storage := root_storage;
        tr_budget := no_budget;
        tr_recommendation :=
          recommend_backend
            {| ri_current := current_backend;
               ri_gaming := false;
               ri_pressure := Watch;
               ri_storage := root_storage;
               ri_zram_benchmark := None;
               ri_zswap_benchmark := None;
               ri_same_host_zram_baseline := None;
               ri_same_host_profile_evidence := None;
               ri_budget := no_budget;
               ri_safety_events := 0 |};
        tr_rollback_pending := false;
        tr_recovery_pending := false;
        tr_requires_boot_validation := negb enabled || pv_conflict (zi_provider zswap);
        tr_dry_run := tiering_dry_run config |}.
End Report.

(** ** What the transaction relies on *)

(** a path other than [path] *)
Definition elsewhere (path p : string) : Prop := path_eq p path = false.

(** A backend with a set of active swaps and of files, whose calls act on the named
    path only, whose reads report the active swaps, and whose successful calls did
    what they say. A failed call may have acted or not. *)
Class LawfulSwapfile (B : Type) `{SwapfileBackend B} := {
  swap_on : B -> string -> Prop;
  file_at : B -> string -> Prop;
  proper_law b p q : path_eq p q = true ->
    (swap_on b p <-> swap_on b q) /\ (file_at b p <-> file_at b q);
  active_law b l : active_swaps b = Ok l -> forall p, path_mem p l = true <-> swap_on b p;
  create_law path fs size b b' r : create_owned path fs size b = (b', r) ->
    (forall p, swap_on b' p <-> swap_on b p) /\
    (forall p, elsewhere path p -> file_at b' p <-> file_at b p) /\
    (r = Ok tt -> ~ file_at b path);
  activate_law path priority b b' r : activate_owned path priority b = (b', r) ->
    (forall p, elsewhere path p -> swap_on b' p <-> swap_on b p) /\
    (forall p, file_at b' p <-> file_at b p);
  deactivate_law path b b' r : deactivate_owned path b = (b', r) ->
    (forall p, elsewhere path p -> swap_on b' p <-> swap_on b p) /\
    (forall p, file_at b' p <-> file_at b p) /\
    (r = Ok tt -> ~ swap_on b' path);
  remove_law path b b' r : remove_owned path b = (b', r) ->
    (forall p, swap_on b' p <-> swap_on b p) /\
    (forall p, elsewhere path p -> file_at b' p <-> file_at b p) /\
    (r = Ok tt -> ~ file_at b' path)
}.

(** The kernel and the file system below the Linux backend: /proc/swaps lists the
    active swaps, a helper acts on its last argument only, and only swapon and
    swapoff change what is active. *)
Class LawfulSystem (W : Type) `{TieringSystem W} := {
  sys_swap : W -> string -> Prop;
  sys_file : W -> string -> Prop;
  sys_proper w p q : path_eq p q = true ->
    (sys_swap w p <-> sys_swap w q) /\ (sys_file w p <-> sys_file w q);
  swaps_law w text : read_text "/proc/swaps" w = Ok text ->
    forall p, path_mem p (omap (fun line => head (split_whitespace line)) (tail (lines text))) = true
              <-> sys_swap w p;
  exists_law w p : path_exists p w = true <-> sys_file w p;
  helper_law executable args path w w' r :
    run_helper executable (args ++ [path]) w = (w', r) ->
    (forall p, elsewhere path p -> (sys_swap w' p <-> sys_swap w p) /\
                                   (sys_file w' p <-> sys_file w p)) /\
    ((executable = "/usr/bin/swapon" \/ executable = "/usr/bin/swapoff")%string ->
       forall p, sys_file w' p <-> sys_file w p) /\
    (executable <> "/usr/bin/swapon"%string -> executable <> "/usr/bin/swapoff"%string ->
       forall p, sys_swap w' p <-> sys_swap w p) /\
    (executable = "/usr/bin/swapoff"%string -> r = Ok HelperOk -> ~ sys_swap w' path);
  remove_file_law path w w' r : remove_file path w = (w', r) ->
    (forall p, sys_swap w' p <-> sys_swap w p) /\
    (forall p, elsewhere path p -> sys_file w' p <-> sys_file w p) /\
    (r = Ok tt -> ~ sys_file w' path)
}.

(** ** Lemmas *)
Module Facts.

Lemma path_eq_refl p : path_eq p p = true.
Proof. by apply bool_decide_eq_true_2. Qed.
Lemma path_mem_refl p l : path_mem p (p :: l) = true.
Proof. unfold path_mem. simpl. by rewrite path_eq_refl. Qed.

(** only [path] may differ *)
Definition apart {B} `{LawfulSwapfile B} (path : string) (b b' : B) : Prop :=
  forall p, elsewhere path p -> (swap_on b' p <-> swap_on b p) /\ (file_at b' p <-> file_at b p).
(** the same for the snapshot and the backend, the path of the snapshot being kept *)
Definition apart_state {B} `{LawfulSwapfile B} (path : string) (p q : MutationSnapshot * B) : Prop :=
  apart path (snd p) (snd q) /\ ms_path (fst q) = ms_path (fst p).

Section Transaction.
Context {B : Type} `{LawfulSwapfile B}.
#[export] Instance apart_preorder path : PreOrder (apart (B := B) path).
Proof.
  split; [done |]. intros a b c Hab Hbc p Hp. specialize (Hab p Hp). specialize (Hbc p Hp).
  tauto.
Qed.
#[export] Instance apart_state_preorder path : PreOrder (apart_state (B := B) path).
Proof.
  split; [done |]. intros a b c [Hab Pab] [Hbc Pbc]. split; [by etrans | congruence].
Qed.

Context (path : string).

Lemma frames_backend {A} (m : eff B A BackendError) :
  frames (apart path) m -> frames (apart_state path) (eff_snd m).
Proof.
  intros Hm. eapply frames_weaken; [exact (frames_snd _ _ Hm) |].
  intros [s b] [s' b'] [Hb Hs]. simpl in *. subst s'. done.
Qed.
Lemma frames_snapshot f : (forall s, ms_path (f s) = ms_path s) ->
  frames (apart_state path) (snapshot_upd (B := B) f).
Proof. intros Hf [s b]. split; [done | apply Hf]. Qed.

Lemma frames_create fs size : frames (apart path) (create_owned (B := B) path fs size).
Proof.
  intros b. destruct (create_owned path fs size b) as [b' r] eqn:E.
  apply create_law in E as (Hs & Hf & _). intros p Hp. split; [apply Hs | by apply Hf].
Qed.
Lemma frames_activate priority : frames (apart path) (activate_owned (B := B) path priority).
Proof.
  intros b. destruct (activate_owned path priority b) as [b' r] eqn:E.
  apply activate_law in E as (Hs & Hf). intros p Hp. split; [by apply Hs | apply Hf].
Qed.
Lemma frames_deactivate : frames (apart path) (deactivate_owned (B := B) path).
Proof.
  intros b. destruct (deactivate_owned path b) as [b' r] eqn:E.
  apply deactivate_law in E as (Hs & Hf & _). intros p Hp. split; [by apply Hs | apply Hf].
Qed.
Lemma frames_remove : frames (apart path) (remove_owned (B := B) path).
Proof.
  intros b. destruct (remove_owned path b) as [b' r] eqn:E.
  apply remove_law in E as (Hs & Hf & _). intros p Hp. split; [apply Hs | by apply Hf].
Qed.
End Transaction.

(** one frame per step of the program, the preorder found by resolution *)
Ltac frame :=
  repeat first
    [ apply frames_bind; [apply _ | | intros ?]
    | apply frames_if
    | apply frames_try
    | match goal with |- frames _ (match ?r with Ok _ => _ | Err _ => _ end) => destruct r end
    | apply frames_ret; apply _
    | apply frames_err; apply _
    | apply frames_reject; apply _
    | apply frames_backend
    | apply frames_read; apply _
    | apply frames_snapshot; done
    | apply frames_create | apply frames_activate | apply frames_deactivate
    | apply frames_remove ].

Lemma frames_rollback {B} `{LawfulSwapfile B} path s (b : B) : ms_path s = path ->
  apart_state path (s, b) (fst (rollback_swapfile (s, b))).
Proof.
  intros <-. unfold rollback_swapfile.
  rewrite (eff_bind_run _ _ _ (s, b) s) by done. revert b.
  match goal with |- forall b, _ _ (fst (?m (s, b))) =>
    enough (frames (apart_state (ms_path s)) m) as Hm by (intros b; exact (Hm (s, b))) end.
  frame.
Qed.

Lemma frames_apply {B} `{LawfulSwapfile B} path plan s (b : B) : ms_path s = path -> sp_path plan = path ->
  apart_state path (s, b) (fst (apply_swapfile plan (s, b))).
Proof.
  intros Hs Hp. unfold apply_swapfile. destruct (sp_dry_run plan); [done |].
  unfold eff_reject. destruct (sp_allowed plan); [| done]. simpl negb. cbv iota.
  rewrite (eff_bind_run _ _ _ (s, b) tt) by done.
  assert (frames (apart_state path) (create_and_activate (B := B) plan)) as Hc.
  { unfold create_and_activate. rewrite Hp. frame. intros [s0 b0]; done. }
  specialize (Hc (s, b)). unfold eff_bind at 1. unfold eff_try at 1.
  destruct (create_and_activate plan (s, b)) as [[s1 b1] r]. simpl in Hc.
  destruct r as [o|e]; [exact Hc |]. destruct Hc as [Hc Pc]. simpl in *.
  unfold eff_bind, eff_try. simpl.
  pose proof (frames_rollback path (record_error (backend_error_to_string e) s1) b1) as [Hr Pr].
  { simpl. congruence. }
  destruct (rollback_swapfile _) as [[s2 b2] r2]. simpl in *.
  split; simpl; [by etrans | congruence].
Qed.

(** what a successful transaction did *)
Lemma apply_ok {B} `{LawfulSwapfile B} plan s (b : B) s' b' o :
  apply_swapfile plan (s, b) = ((s', b'), Ok o) -> sp_dry_run plan = false ->
  sp_allowed plan = true /\
  s' = mark_activated (mark_created s) /\
  ~ file_at b (sp_path plan) /\ swap_on b' (sp_path plan) /\
  exists active, active_swaps b' = Ok active /\ baseline_active s' active = true.
Proof.
  intros Hrun Hdry. unfold apply_swapfile in Hrun. rewrite Hdry in Hrun.
  apply eff_bind_ok in Hrun as ([s0 b0] & [] & E0 & Hrun).
  apply eff_reject_ok in E0 as [Hal [= -> ->]]. bools.
  apply eff_bind_ok in Hrun as ([s1 b1] & r & E1 & Hrun).
  unfold eff_try in E1. destruct (create_and_activate plan (s, b)) as [t r'] eqn:Ec.
  injection E1 as -> ->. destruct r as [o'|e].
  2:{ apply eff_bind_ok in Hrun as (? & ? & _ & Hrun).
      apply eff_bind_ok in Hrun as (? & ? & _ & Hrun). discriminate Hrun. }
  injection Hrun as -> -> ->. unfold create_and_activate in Ec.
  apply eff_bind_ok in Ec as ([sa ba] & [] & Ea & Ec).
  apply eff_snd_ok in Ea as [Ea Es]. simpl in Ea, Es. subst sa.
  apply eff_bind_ok in Ec as ([sb bb] & [] & Eb & Ec). injection Eb as <- <-.
  apply eff_bind_ok in Ec as ([sc bc] & [] & Ed & Ec).
  apply eff_snd_ok in Ed as [Ed Es]. simpl in Ed, Es. subst sc.
  apply eff_bind_ok in Ec as ([sd bd] & [] & Ee & Ec). injection Ee as <- <-.
  apply eff_bind_ok in Ec as ([se be] & active & Ef & Ec).
  apply eff_snd_ok in Ef as [Ef Es]. simpl in Ef, Es. subst se.
  unfold eff_read in Ef. injection Ef as <- Hactive.
  apply eff_bind_ok in Ec as (? & [] & Eg & Ec). apply eff_reject_ok in Eg as [Hmem ->].
  apply eff_bind_ok in Ec as ([sf bf] & snapshot & Eh & Ec). injection Eh as <- <- <-.
  apply eff_bind_ok in Ec as (? & [] & Ei & Ec). apply eff_reject_ok in Ei as [Hbase ->].
  injection Ec as <- <- <-. bools.
  apply create_law in Ea as (_ & _ & Hfile).
  split_and!; auto.
  - by apply (active_law bc active Hactive).
  - exists active. split; [done |]. by destruct (baseline_active _ _).
Qed.

(** what a successful rollback of a complete transaction did *)
Lemma rollback_ok {B} `{LawfulSwapfile B} s (b : B) s' b' o :
  rollback_swapfile (s, b) = ((s', b'), Ok o) ->
  ms_rolled_back s = false -> ms_created s = true -> ms_activated s = true ->
  s' = mark_rolled_back s /\ ~ swap_on b' (ms_path s) /\ ~ file_at b' (ms_path s).
Proof.
  intros Hrun Hrb Hcr Hac. unfold rollback_swapfile in Hrun.
  rewrite (eff_bind_run _ _ _ (s, b) s) in Hrun by done. cbv zeta in Hrun.
  rewrite Hrb, Hcr, Hac in Hrun.
  apply eff_bind_ok in Hrun as ([s0 b0] & owned & E0 & Hrun). injection E0 as <- <- <-.
  apply eff_bind_ok in Hrun as (? & [] & E1 & Hrun). apply eff_reject_ok in E1 as [_ ->].
  apply eff_bind_ok in Hrun as ([s1 b1] & act & E2 & Hrun).
  apply eff_bind_ok in E2 as ([s2 b2] & swaps & E3 & E2). injection E2 as <- <- <-.
  apply eff_snd_ok in E3 as [E3 Es]. simpl in E3, Es. subst s2.
  unfold eff_read in E3. injection E3 as <- Hswaps.
  apply eff_bind_ok in Hrun as ([s3 b3] & [] & E4 & Hrun).
  apply eff_bind_ok in Hrun as ([s4 b4] & [] & E5 & Hrun).
  apply eff_snd_ok in E5 as [E5 Es]. simpl in E5, Es. subst s4.
  apply eff_bind_ok in Hrun as ([s6 b6] & [] & E6 & Hrun). injection E6 as <- <-.
  injection Hrun as <- <- <-.
  apply remove_law in E5 as (Hsame & _ & Hgone).
  assert (~ swap_on b3 (ms_path s) /\ s3 = s) as [Hoff ->].
  { destruct (path_mem (ms_path s) swaps) eqn:Hmem.
    - apply eff_bind_ok in E4 as ([s7 b7] & [] & E7 & E4).
      apply eff_snd_ok in E7 as [E7 Es]. simpl in E7, Es. subst s7.
      apply eff_bind_ok in E4 as ([s8 b8] & sw & E8 & E4).
      apply eff_snd_ok in E8 as [E8 Es]. simpl in E8, Es. subst s8.
      unfold eff_read in E8. injection E8 as <- _.
      apply eff_reject_ok in E4 as [_ [= -> ->]].
      apply deactivate_law in E7 as (_ & _ & Hd). split; [by apply Hd | done].
    - injection E4 as <- <-. split; [| done]. intros Hon.
      apply (active_law b swaps Hswaps) in Hon. congruence. }
  split_and!; [done | rewrite Hsame; exact Hoff | by apply Hgone].
Qed.

(** ** The Linux backend *)
Section LinuxFacts.
Context {W : Type} `{LawfulSystem W}.
Abbreviation Self := (LinuxSwapfileBackend W).

Definition same_swaps (a b : Self) : Prop :=
  forall p, sys_swap (ls_system b) p <-> sys_swap (ls_system a) p.
Definition same_files (a b : Self) : Prop :=
  forall p, sys_file (ls_system b) p <-> sys_file (ls_system a) p.
Definition swaps_elsewhere (path : string) (a b : Self) : Prop :=
  forall p, elsewhere path p -> sys_swap (ls_system b) p <-> sys_swap (ls_system a) p.
Definition files_elsewhere (path : string) (a b : Self) : Prop :=
  forall p, elsewhere path p -> sys_file (ls_system b) p <-> sys_file (ls_system a) p.
(** what a call of the transaction that is neither swapon nor swapoff keeps *)
Definition no_swap_change (path : string) (a b : Self) : Prop :=
  same_swaps a b /\ files_elsewhere path a b.
(** what swapon and swapoff keep *)
Definition no_file_change (path : string) (a b : Self) : Prop :=
  swaps_elsewhere path a b /\ same_files a b.

#[export] Instance no_swap_change_preorder path : PreOrder (no_swap_change path).
Proof.
  split; [done |]. intros a b c [Sab Fab] [Sbc Fbc]. split; intros p.
  - specialize (Sab p). specialize (Sbc p). tauto.
  - intros Hp. specialize (Fab p Hp). specialize (Fbc p Hp). tauto.
Qed.
#[export] Instance no_file_change_preorder path : PreOrder (no_file_change path).
Proof.
  split; [done |]. intros a b c [Sab Fab] [Sbc Fbc]. split; intros p.
  - intros Hp. specialize (Sab p Hp). specialize (Sbc p Hp). tauto.
  - specialize (Fab p). specialize (Fbc p). tauto.
Qed.

(** an operation of the system, seen from the backend *)
Lemma frames_system {A E} (R : Self -> Self -> Prop) (f : E -> BackendError) (m : eff W A E) :
  (forall self, R self (MkLinux (ls_owned self) (fst (m (ls_system self))))) ->
  frames R (on_system f m).
Proof. intros Hm self. specialize (Hm self). unfold on_system. by destruct (m _). Qed.

Lemma frames_helper (R : Self -> Self -> Prop) `{!PreOrder R} executable args :
  (forall self, R self (MkLinux (ls_owned self)
                                (fst (run_helper executable args (ls_system self))))) ->
  frames R (helper executable args).
Proof.
  intros HR. unfold helper. apply frames_bind; [apply _ | apply frames_reject; apply _ | intros _].
  apply frames_bind; [apply _ | by apply frames_system | intros [|?| |?|?]].
  - apply frames_ret. apply _.
  - apply frames_err. apply _.
  - apply frames_err. apply _.
  - apply frames_err. apply _.
  - apply frames_err. apply _.
Qed.

Lemma helper_no_swap_change executable args path :
  executable <> "/usr/bin/swapon"%string -> executable <> "/usr/bin/swapoff"%string ->
  frames (no_swap_change path) (helper executable (args ++ [path])).
Proof.
  intros Hon Hoff. apply frames_helper; [apply _ |]. intros self.
  destruct (run_helper _ _ _) as [w' r] eqn:E. simpl.
  apply helper_law in E as (He & _ & Hs & _). split; intros p; simpl.
  - by apply Hs.
  - intros Hp. by apply He.
Qed.
Lemma helper_no_file_change executable args path :
  executable = "/usr/bin/swapon"%string \/ executable = "/usr/bin/swapoff"%string ->
  frames (no_file_change path) (helper executable (args ++ [path])).
Proof.
  intros Hx. apply frames_helper; [apply _ |]. intros self.
  destruct (run_helper _ _ _) as [w' r] eqn:E. simpl.
  apply helper_law in E as (He & Hf & _ & _). split; intros p; simpl.
  - intros Hp. by apply He.
  - by apply Hf.
Qed.

Lemma helper_ok executable args (self self' : Self) :
  helper executable args self = (self', Ok tt) ->
  run_helper executable args (ls_system self) = (ls_system self', Ok HelperOk) /\
  ls_owned self' = ls_owned self.
Proof.
  unfold helper. intros Hrun. apply eff_bind_ok in Hrun as (s & [] & E & Hrun).
  apply eff_reject_ok in E as [_ ->].
  apply eff_bind_ok in Hrun as (s & ended & E & Hrun).
  unfold on_system in E. destruct (run_helper _ _ _) as [w' [r|r]]; [| discriminate E].
  injection E as <- ->. destruct ended; try discriminate Hrun. by injection Hrun as <-.
Qed.

Lemma frames_owned path f : frames (no_swap_change path) (set_owned (W := W) f).
Proof. by intros self. Qed.

Lemma frames_remove_file path f :
  frames (no_swap_change path) (on_system f (remove_file path)).
Proof.
  apply frames_system. intros self. destruct (remove_file path _) as [w' r] eqn:E.
  apply remove_file_law in E as (Hs & Hf & _). split; [exact Hs | exact Hf].
Qed.

(** the paths of the read-only part of an operation *)
Ltac linux_frame :=
  repeat first
    [ match goal with |- frames _ (helper _ _) => idtac | |- frames _ (create_ext4 _ _) => idtac end
    | apply frames_bind; [apply _ | | intros ?]
    | apply frames_if
    | apply frames_try
    | match goal with |- frames _ (match ?r with _ => _ end) => destruct r end
    | apply frames_ret; apply _
    | apply frames_err; apply _
    | apply frames_reject; apply _
    | apply frames_read; apply _
    | apply frames_get; apply _
    | apply frames_owned
    | apply frames_remove_file ].

Lemma create_ext4_frame path size : frames (no_swap_change path) (create_ext4 (W := W) path size).
Proof.
  unfold create_ext4. linux_frame.
  - by apply (helper_no_swap_change "/usr/bin/fallocate" ["--length"%string; show_uint size]).
  - by apply (helper_no_swap_change "/usr/bin/chmod" ["0600"%string]).
  - by apply (helper_no_swap_change "/usr/bin/mkswap" []).
Qed.

Lemma create_frame path fs size : frames (no_swap_change path) (linux_create_owned (W := W) path fs size).
Proof.
  unfold linux_create_owned. linux_frame; [apply create_ext4_frame |].
  by apply (helper_no_swap_change "/usr/bin/btrfs"
              ["filesystem"%string; "mkswapfile"%string; "--size"%string; show_uint size]).
Qed.
Lemma activate_frame path priority :
  frames (no_file_change path) (linux_activate_owned (W := W) path priority).
Proof.
  unfold linux_activate_owned. linux_frame.
  apply (helper_no_file_change "/usr/bin/swapon" ["--priority"%string; show_int priority]). by left.
Qed.
Lemma deactivate_frame path : frames (no_file_change path) (linux_deactivate_owned (W := W) path).
Proof.
  unfold linux_deactivate_owned. linux_frame.
  apply (helper_no_file_change "/usr/bin/swapoff" []). by right.
Qed.
Lemma remove_frame path : frames (no_swap_change path) (linux_remove_owned (W := W) path).
Proof. unfold linux_remove_owned. linux_frame. Qed.

(** *** What success means *)

Lemma create_ok path fs size (self self' : Self) :
  linux_create_owned path fs size self = (self', Ok tt) ->
  require_path path = Ok tt /\ ~ sys_file (ls_system self) path /\
  ls_owned self' = path :: ls_owned self.
Proof.
  unfold linux_create_owned. intros Hrun.
  apply eff_bind_ok in Hrun as (s & [] & E & Hrun).
  unfold eff_read in E. injection E as <- Hpath.
  apply eff_bind_ok in Hrun as (s & there & E & Hrun).
  unfold eff_read in E. injection E as <- Hthere.
  apply eff_bind_ok in Hrun as (s & [] & E & Hrun). apply eff_reject_ok in E as [-> ->].
  split; [done |]. split.
  { intros Hf. apply exists_law in Hf. congruence. }
  apply eff_bind_ok in Hrun as (s & r & E & Hrun). destruct r as [[]|e].
  - injection Hrun as <-. simpl. f_equal.
    destruct fs; [| | discriminate E].
    + unfold create_ext4 in E. apply eff_bind_ok in E as (s1 & [] & E1 & E).
      apply eff_bind_ok in E as (s2 & [] & E2 & E).
      apply helper_ok in E1 as [_ <-]. apply helper_ok in E2 as [_ <-].
      unfold eff_try in E. destruct (helper _ _ s2) as [s3 r] eqn:E3. injection E as -> ->.
      by apply helper_ok in E3 as [_ <-].
    + unfold eff_try in E. destruct (helper _ _ self) as [s3 r] eqn:E3. injection E as -> ->.
      by apply helper_ok in E3 as [_ <-].
  - apply eff_bind_ok in Hrun as (? & ? & _ & Hrun).
    apply eff_bind_ok in Hrun as (? & ? & _ & Hrun). discriminate Hrun.
Qed.

Lemma deactivate_ok path (self self' : Self) :
  linux_deactivate_owned path self = (self', Ok tt) ->
  require_path path = Ok tt /\ owns path self = true /\ ~ sys_swap (ls_system self') path.
Proof.
  unfold linux_deactivate_owned. intros Hrun.
  apply eff_bind_ok in Hrun as (s & [] & E & Hrun).
  unfold eff_read in E. injection E as <- Hpath.
  apply eff_bind_ok in Hrun as (s & t & E & Hrun). injection E as <- <-.
  apply eff_bind_ok in Hrun as (s & [] & E & Hrun). apply eff_reject_ok in E as [Hown ->]. bools.
  split_and!; [done | done |].
  apply helper_ok in Hrun as [Hrun _].
  by apply (helper_law "/usr/bin/swapoff" []) in Hrun as (_ & _ & _ & Hoff); apply Hoff.
Qed.

Lemma remove_ok path (self self' : Self) :
  linux_remove_owned path self = (self', Ok tt) ->
  require_path path = Ok tt /\ owns path self = true /\ ~ sys_file (ls_system self') path.
Proof.
  unfold linux_remove_owned. intros Hrun.
  apply eff_bind_ok in Hrun as (s & [] & E & Hrun).
  unfold eff_read in E. injection E as <- Hpath.
  apply eff_bind_ok in Hrun as (s & t & E & Hrun). injection E as <- <-.
  apply eff_bind_ok in Hrun as (s & [] & E & Hrun). apply eff_reject_ok in E as [Hown ->]. bools.
  apply eff_bind_ok in Hrun as (s & [] & E & Hrun). injection E as <-.
  split_and!; [done | done |].
  unfold on_system in Hrun. simpl in Hrun. destruct (remove_file path _) as [w' [[]|r]] eqn:E;
    [| discriminate Hrun]. injection Hrun as <-.
  by apply remove_file_law in E as (_ & _ & Hgone); apply Hgone.
Qed.

(** The Linux backend keeps the contract of the transaction. *)
#[export] Instance linux_lawful : LawfulSwapfile Self.
Proof.
  refine {| swap_on self := sys_swap (ls_system self); file_at self := sys_file (ls_system self) |}.
  - intros b p q. apply sys_proper.
  - intros b l Hl. unfold active_swaps, linux_swapfile_backend, linux_active_swaps in Hl.
    destruct (read_text _ _) as [text|] eqn:E; [| discriminate Hl]. injection Hl as <-.
    by apply swaps_law.
  - intros path fs size b b' r E.
    pose proof (create_frame path fs size b) as Hf. simpl in E. rewrite E in Hf.
    destruct Hf as [Hs Hf]. split_and!; [exact Hs | exact Hf |].
    intros ->. by apply create_ok in E as (_ & Hno & _).
  - intros path priority b b' r E.
    pose proof (activate_frame path priority b) as Hf. simpl in E. rewrite E in Hf.
    destruct Hf as [Hs Hf]. split; [exact Hs | exact Hf].
  - intros path b b' r E.
    pose proof (deactivate_frame path b) as Hf. simpl in E. rewrite E in Hf.
    destruct Hf as [Hs Hf]. split_and!; [exact Hs | exact Hf |].
    intros ->. by apply deactivate_ok in E as (_ & _ & Hno).
  - intros path b b' r E.
    pose proof (remove_frame path b) as Hf. simpl in E. rewrite E in Hf.
    destruct Hf as [Hs Hf]. split_and!; [exact Hs | exact Hf |].
    intros ->. by apply remove_ok in E as (_ & _ & Hno).
Defined.
End LinuxFacts.

(** ** The plans *)

Lemma filesystem_reasons_nil context blocked :
  filesystem_reasons context blocked = [] <->
  blocked = [] /\ sc_has_holes context = false /\
  (sc_filesystem context = Ext4 \/
   sc_filesystem context = Btrfs /\ sc_btrfs_nocow context = true /\
     sc_btrfs_preallocated context = true).
Proof.
  unfold filesystem_reasons. destruct (sc_filesystem context).
  - rewrite push_if_nil. naive_solver.
  - rewrite !push_if_nil, orb_false_iff, !negb_false_iff. naive_solver.
  - split; [| naive_solver]. intros H. by apply app_eq_nil in H as [_ ?].
Qed.

(** the last three conditions of the chain, as one *)
Definition measured_benefit (input : RecommendationInput) : Prop :=
  exists zram profile base_latency profile_latency base candidate,
    ri_zram_benchmark input = Some zram /\ ri_zswap_benchmark input = Some profile /\
    be_real zram = true /\ be_real profile = true /\ be_oom zram = false /\ be_oom profile = false /\
    be_swap_latency_ns zram = Some base_latency /\ be_swap_latency_ns profile = Some profile_latency /\
    profile_latency <= u64_sat_mul base_latency 110 / 100 /\
    be_compression_ratio zram = Some base /\ be_compression_ratio profile = Some candidate /\
    f64_gt candidate base = true /\
    is_some (be_backing_write_bytes profile) = true.

Lemma comparison_policy_iff input :
  comparison_policy_passes input = true <-> measured_benefit input.
Proof.
  unfold comparison_policy_passes, measured_benefit. split.
  - intros H. destruct (ri_zram_benchmark input) as [zram|]; [| done].
    destruct (ri_zswap_benchmark input) as [profile|]; [| done].
    destruct (negb (be_real zram) || _ || _ || _) eqn:Ep; [done |].
    destruct (be_swap_latency_ns zram) as [bl|] eqn:E1; [| done].
    destruct (be_swap_latency_ns profile) as [pl|] eqn:E2; [| done].
    destruct (be_compression_ratio zram) as [b|] eqn:E3; [| bools; done].
    destruct (be_compression_ratio profile) as [c|] eqn:E4; [| bools; done].
    bools. exists zram, profile, bl, pl, b, c. by split_and!.
  - intros (z & p & bl & pl & b & c & -> & -> & -> & -> & -> & -> & -> & -> & Hl & -> & -> & -> & ->).
    simpl. apply Z.leb_le in Hl. change (100 + MAX_LATENCY_REGRESSION_PERCENT) with 110.
    by rewrite Hl.
Qed.

Lemma baseline_ready_iff input :
  baseline_ready input = true <->
  exists baseline evidence profile,
    ri_same_host_zram_baseline input = Some baseline /\
    ri_same_host_profile_evidence input = Some evidence /\
    tp_profile (ri_storage input) = Some profile /\
    matching_same_host_evidence_v6 baseline evidence profile = true.
Proof.
  unfold baseline_ready, is_some_and. split.
  - destruct (ri_same_host_zram_baseline input) as [b|]; [| done].
    destruct (ri_same_host_profile_evidence input) as [e|]; [| done].
    destruct (tp_profile _) as [p|]; [| done]. intros H. by exists b, e, p.
  - by intros (b & e & p & -> & -> & -> & ?).
Qed.

(** ** The topology *)
Section TopologyFacts.
Context {W : Type} `{TieringSystem W}.
Context (root : string) (w : W).

Definition class_path (name : string) : string := resolve root ("/sys/class/block/" ++ name).

(** [b] is the only device directly below [a] *)
Definition only_lower (a b : string) : Prop :=
  partition_parent (class_path a) w = Some b \/
  (partition_parent (class_path a) w = None /\ read_names (path_join (class_path a) "slaves") w = [b]).

(** a chain of devices, each above the next, the last above [next] *)
Inductive device_chain : list string -> string -> Prop :=
| chain_nil next : device_chain [] next
| chain_cons name rest next :
    valid_block_name name = true -> path_exists (class_path name) w = true ->
    only_lower name (hd next rest) -> device_chain rest next ->
    device_chain (name :: rest) next.

Lemma walk_chain_long ds next : device_chain ds next -> forall seen chain,
  NoDup ds -> (forall d, d ∈ ds -> d ∉ seen) ->
  walk_chain (length ds) root w (hd next ds) seen chain =
    {| wk_chain := chain ++ ds; wk_ambiguous := false; wk_composite := false |}.
Proof.
  induction 1 as [next|name rest next Hv He Hl Hc IH]; intros seen chain Hnd Hseen.
  { simpl. by rewrite app_nil_r. }
  apply list.NoDup_cons in Hnd as [Hnotin Hnd]. simpl.
  rewrite Hv, bool_decide_eq_false_2 by (apply Hseen; set_solver). simpl.
  fold (class_path name). rewrite He. simpl.
  assert (walk_chain (length rest) root w (hd next rest) ({[name]} ∪ seen) (chain ++ [name])
          = {| wk_chain := chain ++ name :: rest; wk_ambiguous := false; wk_composite := false |})
    as Hrest.
  { rewrite IH; [by rewrite <-app_assoc | done | set_solver]. }
  destruct Hl as [-> | [-> ->]]; exact Hrest.
Qed.

Lemma device_chain_last ds next : device_chain ds next -> ds <> [] ->
  exists lowest, list.last ds = Some lowest /\ only_lower lowest next.
Proof.
  induction 1 as [|name rest next Hv He Hl Hc IH]; [done |]. intros _.
  destruct rest as [|second rest]; [by exists name |].
  destruct IH as (lowest & Hlast & Hlow); [done |]. by exists lowest.
Qed.

(** the devices of a walk are valid and exist; the chain names no device twice *)
Lemma walk_chain_sound fuel : forall current seen chain,
  NoDup chain -> (forall d, d ∈ chain <-> d ∈ seen) ->
  Forall (fun d => valid_block_name d = true /\ path_exists (class_path d) w = true) chain ->
  let walk := walk_chain fuel root w current seen chain in
  wk_ambiguous walk = false ->
  NoDup (wk_chain walk) /\ (length (wk_chain walk) <= length chain + fuel)%nat /\
  Forall (fun d => valid_block_name d = true /\ path_exists (class_path d) w = true) (wk_chain walk).
Proof.
  induction fuel as [|fuel IH]; intros current seen chain Hnd Hseen Hall; simpl.
  { intros _. split_and!; [done | lia | done]. }
  destruct (negb (valid_block_name current) || bool_decide (current ∈ seen)) eqn:Ev; [done |].
  fold (class_path current). destruct (path_exists (class_path current) w) eqn:Ee; [| done].
  bools. simpl.
  assert (NoDup (chain ++ [current])) as Hnd'.
  { apply list.NoDup_app. split_and!; [done | | apply list.NoDup_singleton].
    intros x Hx Hy. apply list_elem_of_singleton in Hy as ->. apply Hseen in Hx. contradiction. }
  assert (forall d, d ∈ chain ++ [current] <-> d ∈ {[current]} ∪ seen) as Hseen'.
  { intros d. specialize (Hseen d). set_solver. }
  assert (Forall (fun d => valid_block_name d = true /\ path_exists (class_path d) w = true)
            (chain ++ [current])) as Hall'.
  { apply Forall_app. auto. }
  pose proof (fun c => IH c _ _ Hnd' Hseen' Hall') as Hnext. rewrite length_app in Hnext. simpl in Hnext.
  destruct (partition_parent _ w); [intros Ha; destruct (Hnext _ Ha) as (? & ? & ?); split_and!; [done | lia | done] |].
  destruct (read_names _ w) as [|one [|two rest]]; simpl.
  - intros _. rewrite length_app. simpl. split_and!; [done | lia | done].
  - intros Ha; destruct (Hnext _ Ha) as (? & ? & ?); split_and!; [done | lia | done].
  - done.
Qed.

Lemma walk_chain_sound_from fuel current walk :
  walk = walk_chain fuel root w current ∅ [] -> wk_ambiguous walk = false ->
  NoDup (wk_chain walk) /\ (length (wk_chain walk) <= fuel)%nat /\
  Forall (fun d => valid_block_name d = true /\ path_exists (class_path d) w = true) (wk_chain walk).
Proof.
  intros -> Ha. apply (walk_chain_sound fuel current ∅ []); [constructor | set_solver | constructor | exact Ha].
Qed.

Lemma inspect_storage_parts mount_source filesystem walk :
  walk = walk_chain 8 root w (unwrap_or (strip_prefix "/dev/" mount_source) mount_source) ∅ [] ->
  tp_chain (inspect_storage root mount_source filesystem w) = wk_chain walk /\
  tp_ambiguous (inspect_storage root mount_source filesystem w) = wk_ambiguous walk /\
  tp_physical (inspect_storage root mount_source filesystem w) =
    (if wk_ambiguous walk then None
     else list.last (wk_chain walk) ≫= fun name => inspect_block root name w).
Proof. intros ->. split; [reflexivity |]. split; reflexivity. Qed.
End TopologyFacts.

(** ** The pool *)
Lemma validated_pool config :
  validate config = Ok tt ->
  u8 (tiering_zswap_pool_min_percent (tiering config)) ->
  u8 (tiering_zswap_pool_max_percent (tiering config)) ->
  1 <= tiering_zswap_pool_min_percent (tiering config)
    <= tiering_zswap_pool_max_percent (tiering config) /\
  tiering_zswap_pool_max_percent (tiering config) <= 100.
Proof.
  intros (_ & _ & _ & _ & _ & _ & Hv & _)%validate_parts Hmin Hmax.
  unfold validate_tiering in Hv. split_checks. bools.
  match goal with H : Forall _ [_; _; _] |- _ =>
    rewrite !Forall_cons_iff in H; destruct H as (_ & _ & Hp & _) end.
  apply validate_percentage_ok in Hp as (_ & _ & Hp).
  apply f64_of_u8_le_inv in Hp; [| done | unfold_int; lia].
  unfold_int. lia.
Qed.

(** ** The zswap parameters *)
Section ZswapFacts.
Context {W : Type} `{TieringSystem W}.

Lemma set_parameter_ok name value (self self' : LinuxZswapBackend W) :
  set_parameter name value self = (self', Ok tt) ->
  lw_allow_mutation self = true /\ validate_value name value = Ok tt /\
  exists path, parameter_path name self = Ok path /\
    write_file path value (lw_system self) = (lw_system self', Ok tt) /\
    read_parameter name self' = Ok (Some value).
Proof.
  unfold set_parameter. intros Hrun.
  apply eff_bind_ok in Hrun as (s & t & E & Hrun). injection E as <- <-.
  apply eff_bind_ok in Hrun as (s & [] & E & Hrun). apply eff_reject_ok in E as [Ha ->]. bools.
  apply eff_bind_ok in Hrun as (s & [] & E & Hrun). unfold eff_read in E. injection E as <- Hv.
  apply eff_bind_ok in Hrun as (s & path & E & Hrun). unfold eff_read in E. injection E as <- Hp.
  apply eff_bind_ok in Hrun as (s & [] & E & Hrun).
  destruct (write_file path value _) as [w [[]|e]] eqn:Ew; [| discriminate E]. injection E as <-.
  apply eff_bind_ok in Hrun as (s & readback & E & Hrun). unfold eff_read in E. injection E as <- Hr.
  apply eff_reject_ok in Hrun as [Hc ->]. bools. subst readback.
  split_and!; [done | done | by exists path].
Qed.

Lemma set_parameter_err name value (self self' : LinuxZswapBackend W) e :
  set_parameter name value self = (self', Err e) ->
  self' = self \/
  lw_allow_mutation self = true /\ validate_value name value = Ok tt /\
  exists path, parameter_path name self = Ok path /\
    lw_system self' = fst (write_file path value (lw_system self)).
Proof.
  unfold set_parameter, eff_bind, eff_get, eff_reject, eff_read. intros Hrun.
  destruct (lw_allow_mutation self) eqn:Ea; simpl in Hrun; [| left; congruence].
  destruct (validate_value name value) as [[]|] eqn:Ev; [| left; congruence].
  destruct (parameter_path name self) as [path|] eqn:Ep; [| left; congruence].
  right. split_and!; [done.. |]. exists path. split; [done |].
  destruct (write_file path value _) as [w [[]|e']]; [| by injection Hrun as <- _].
  destruct (read_parameter name _) as [rb|]; [| by injection Hrun as <- _].
  destruct (bool_decide _); simpl in Hrun; [discriminate | by injection Hrun as <- _].
Qed.
End ZswapFacts.
End Facts.

(** ** Theorems *)
Module Theorems.
Import Facts.

(** C9: Whatever happens during the transaction, an error and its rollback included,
    [apply_swapfile] leaves every other swap and file as it was; a dry run changes
    nothing; on success the file was not there before, is an active swap now, and a
    swap of the baseline is still active. *)
Theorem apply_swapfile_touches_only_its_file {B} `{LawfulSwapfile B} plan s (b : B) s' b' r :
  ms_path s = sp_path plan -> apply_swapfile plan (s, b) = ((s', b'), r) ->
  apart (sp_path plan) b b' /\
  (sp_dry_run plan = true -> s' = s /\ b' = b) /\
  (forall o, r = Ok o -> sp_dry_run plan = false ->
     sp_allowed plan = true /\
     ~ file_at b (sp_path plan) /\ swap_on b' (sp_path plan) /\
     (ms_baseline_swaps s <> [] ->
        exists swap, swap ∈ ms_baseline_swaps s /\ swap_on b' swap)).
Proof.
  intros Hp Hrun. split_and!.
  - pose proof (frames_apply (sp_path plan) plan s b Hp eq_refl) as [Hf _].
    by rewrite Hrun in Hf.
  - unfold apply_swapfile in Hrun. intros Hdry. rewrite Hdry in Hrun. by injection Hrun as -> ->.
  - intros o -> Hdry. apply apply_ok in Hrun as (Ha & -> & Hfile & Hon & active & Hact & Hbase); [| done].
    split_and!; [done.. |]. intros Hne. unfold baseline_active in Hbase. simpl in Hbase.
    rewrite bool_decide_eq_false_2 in Hbase by done. simpl in Hbase.
    apply existsb_elem in Hbase as (swap & Hin & Hmem).
    exists swap. split; [done |]. by apply (active_law b' active Hact).
Qed.

(** C37: A transaction that succeeded and is then rolled back gives back exactly the
    swaps and the files there were. *)
Theorem apply_rollback_round_trip {B} `{LawfulSwapfile B} plan s (b : B) s1 b1 o1 s2 b2 o2 :
  ms_path s = sp_path plan -> ms_rolled_back s = false -> sp_dry_run plan = false ->
  ~ swap_on b (sp_path plan) ->
  apply_swapfile plan (s, b) = ((s1, b1), Ok o1) ->
  rollback_swapfile (s1, b1) = ((s2, b2), Ok o2) ->
  (forall p, swap_on b2 p <-> swap_on b p) /\ (forall p, file_at b2 p <-> file_at b p) /\
  ms_rolled_back s2 = true /\ ms_rollback_pending s2 = false.
Proof.
  intros Hp Hrb Hdry Hoff Happ Hroll.
  pose proof (frames_apply (sp_path plan) plan s b Hp eq_refl) as [Hf1 _]. rewrite Happ in Hf1.
  apply apply_ok in Happ as (_ & -> & Hnofile & _); [| done].
  pose proof (frames_rollback (sp_path plan) (mark_activated (mark_created s)) b1 Hp) as [Hf2 _].
  rewrite Hroll in Hf2. simpl in Hf1, Hf2.
  apply rollback_ok in Hroll as (-> & Hs & Hf); [| done..]. simpl in Hs, Hf. rewrite Hp in Hs, Hf.
  split_and!; [| | done | done]; intros p; destruct (path_eq p (sp_path plan)) eqn:E.
  - rewrite (proj1 (proper_law b2 _ _ E)), (proj1 (proper_law b _ _ E)). tauto.
  - destruct (Hf1 p E), (Hf2 p E). tauto.
  - rewrite (proj2 (proper_law b2 _ _ E)), (proj2 (proper_law b _ _ E)). tauto.
  - destruct (Hf1 p E), (Hf2 p E). tauto.
Qed.

(** C35: The Linux backend implements what the transaction assumes: /proc/swaps gives the
    active swaps; creating and removing change no swap and no other file; swapon and
    swapoff change no file and no other swap; each of them acts only on a path of
    Nemor's namespace, which it owns unless it creates it; success means that the
    file was new, is no longer active, is gone. *)
Theorem linux_backend_contract {W} `{LawfulSystem W} path (self : LinuxSwapfileBackend W) :
  (forall l, linux_active_swaps self = Ok l ->
     forall p, path_mem p l = true <-> sys_swap (ls_system self) p) /\
  (forall fs size self' r, linux_create_owned path fs size self = (self', r) ->
     no_swap_change path self self' /\
     (r = Ok tt -> require_path path = Ok tt /\ ~ sys_file (ls_system self) path /\
                   owns path self' = true)) /\
  (forall priority self' r, linux_activate_owned path priority self = (self', r) ->
     no_file_change path self self') /\
  (forall self' r, linux_deactivate_owned path self = (self', r) ->
     no_file_change path self self' /\
     (r = Ok tt -> ~ sys_swap (ls_system self') path)) /\
  (forall self' r, linux_remove_owned path self = (self', r) ->
     no_swap_change path self self' /\
     (r = Ok tt -> ~ sys_file (ls_system self') path)) /\
  (require_path path <> Ok tt \/ owns path self = false ->
     (forall priority, fst (linux_activate_owned path priority self) = self) /\
     fst (linux_deactivate_owned path self) = self /\
     fst (linux_remove_owned path self) = self).
Proof.
  split_and!.
  - intros l Hl. exact (active_law (B := LinuxSwapfileBackend W) self l Hl).
  - intros fs size self' r E. split.
    + pose proof (create_frame path fs size self) as Hf. by rewrite E in Hf.
    + intros ->. apply create_ok in E as (? & ? & Ho). split_and!; [done.. |].
      unfold owns. rewrite Ho. apply path_mem_refl.
  - intros priority self' r E. pose proof (activate_frame path priority self) as Hf.
    by rewrite E in Hf.
  - intros self' r E. split.
    + pose proof (deactivate_frame path self) as Hf. by rewrite E in Hf.
    + intros ->. by destruct (deactivate_ok _ _ _ E) as (_ & _ & ?).
  - intros self' r E. split.
    + pose proof (remove_frame path self) as Hf. by rewrite E in Hf.
    + intros ->. by destruct (remove_ok _ _ _ E) as (_ & _ & ?).
  - unfold linux_activate_owned, linux_deactivate_owned, linux_remove_owned, eff_bind, eff_read,
      eff_get. destruct (require_path path) as [[]|]; [| done].
    intros [| ->]; done.
Qed.

(** A rollback whose last step fails cannot be retried: the path has left the set
    of owned paths although the file is still there, and every later rollback of the
    same snapshot is refused as ambiguous. *)
Theorem remove_failure_blocks_rollback {W} `{TieringSystem W} path (self self' : LinuxSwapfileBackend W) e s :
  linux_remove_owned path self = (self', Err e) ->
  require_path path = Ok tt -> owns path self = true ->
  ms_path s = path -> ms_created s = true -> ms_rolled_back s = false ->
  (exists w' io, remove_file path (ls_system self) = (w', Err io)) /\
  owns path self' = false /\
  rollback_swapfile (s, self') = ((s, self'), Err (Blocked "rollback ownership is ambiguous")).
Proof.
  intros Hrun Hpath Hown Hms Hcr Hrb.
  assert (owns path self' = false) as Hno.
  { unfold linux_remove_owned, eff_bind, eff_read, eff_get, eff_reject in Hrun.
    rewrite Hpath, Hown in Hrun. simpl in Hrun. unfold on_system in Hrun. simpl in Hrun.
    destruct (remove_file path (ls_system self)) as [w' r]. injection Hrun as <- _.
    unfold owns, path_mem. simpl. apply not_true_is_false. intros Hx.
    apply existsb_elem in Hx as (q & Hq & Heq).
    apply list_elem_of_In, filter_In in Hq as [_ Hq]. by rewrite Heq in Hq. }
  split_and!; [| done |].
  - unfold linux_remove_owned, eff_bind, eff_read, eff_get, eff_reject in Hrun.
    rewrite Hpath, Hown in Hrun. simpl in Hrun. unfold on_system in Hrun. simpl in Hrun.
    destruct (remove_file path (ls_system self)) as [w' [|io]]; [discriminate Hrun |]. by exists w', io.
  - unfold rollback_swapfile. rewrite (eff_bind_run _ _ _ (s, self') s) by done. cbv zeta.
    rewrite Hrb, Hms. rewrite (eff_bind_run _ _ _ (s, self') false) by (simpl; by rewrite Hno).
    rewrite Hcr. done.
Qed.

(** The storage-backed backend is recommended exactly when nothing speaks against
    it and the same host measured a benefit: no game, no severe pressure, no safety
    event, a write budget that holds, an SSD profile whose evidence matches the
    baseline, and a benchmark whose latency is within 110 % of the baseline and
    whose compression ratio is better. It is never activated in production. *)
Theorem recommend_storage_backed_iff (input : RecommendationInput) :
  br_production_activation (recommend_backend input) = false /\
  (br_selected (recommend_backend input) = ZswapStorageBacked <->
   ri_gaming input = false /\ severe (ri_pressure input) = false /\ ri_safety_events input <= 0 /\
   bu_allowed (ri_budget input) = true /\
   (exists baseline evidence profile,
      ri_same_host_zram_baseline input = Some baseline /\
      ri_same_host_profile_evidence input = Some evidence /\
      tp_profile (ri_storage input) = Some profile /\ boot_supported profile = true /\
      matching_same_host_evidence_v6 baseline evidence profile = true) /\
   measured_benefit input) /\
  (br_selected (recommend_backend input) <> ZswapStorageBacked ->
   br_selected (recommend_backend input) = Zram).
Proof.
  assert (br_selected (recommend_backend input) = fst (select_backend input)) as ->.
  { unfold recommend_backend. by destruct (select_backend input). }
  split; [unfold recommend_backend; by destruct (select_backend input) |].
  unfold select_backend. rewrite <- comparison_policy_iff.
  destruct (ri_gaming input); [naive_solver |].
  destruct (severe (ri_pressure input)); [naive_solver |].
  destruct (Z.ltb_spec 0 (ri_safety_events input)); [split; [split; [done | intros; lia] | done] |].
  destruct (bu_allowed (ri_budget input)); [| naive_solver]. simpl.
  destruct (is_some_and (tp_profile (ri_storage input)) boot_supported) eqn:Eb; simpl.
  2:{ split; [split; [done |] | done]. intros (_ & _ & _ & _ & (b & e & p & _ & _ & Hp & Hs & _) & _).
      unfold is_some_and in Eb. rewrite Hp in Eb. congruence. }
  destruct (baseline_ready input) eqn:Er; simpl.
  2:{ split; [split; [done |] | done]. intros (_ & _ & _ & _ & (b & e & p & ? & ? & ? & _ & ?) & _).
      assert (baseline_ready input = true) by (apply baseline_ready_iff; by exists b, e, p).
      congruence. }
  destruct (comparison_policy_passes input); simpl.
  - split; [| done]. split; [| done]. intros _. split_and!; try done.
    apply baseline_ready_iff in Er as (b & e & p & ? & ? & Hp & ?). exists b, e, p.
    unfold is_some_and in Eb. rewrite Hp in Eb. done.
  - split; [| done]. split; [done |]. by intros (_ & _ & _ & _ & _ & ?).
Qed.

(** A swapfile plan is allowed exactly when the path is Nemor's own, the file
    system can hold it, the backing device is known and authorised, nothing urgent
    is going on, the configuration allows it and the headroom is left; and the
    proposed size is at most the configured share of the file system and twice the
    RAM. *)
Theorem plan_swapfile_allowed_iff (context : SwapfileContext) (config : TieringConfig) :
  let plan := plan_swapfile context config in
  (sp_allowed plan = true <->
   validate_candidate_path (sc_path context) (sc_parent_canonical context) = Ok tt /\
   sc_active_external context = false /\ sc_ownership context = NemorOwned /\
   sc_has_holes context = false /\
   (sc_filesystem context = Ext4 \/
    sc_filesystem context = Btrfs /\ sc_btrfs_nocow context = true /\
      sc_btrfs_preallocated context = true) /\
   tp_ambiguous (sc_topology context) = false /\
   is_some (tp_physical (sc_topology context)) = true /\
   (exists profile, tp_profile (sc_topology context) = Some profile /\
      profile_name profile ∈ tiering_supported_storage_profiles config) /\
   sc_gaming context = false /\ sc_severe_pressure context = false /\
   tiering_allow_swapfile_create config = true /\
   u64_sat_add (sp_proposed_size plan) (sp_required_headroom_bytes plan) <= sc_free_bytes context) /\
  (sp_allowed plan = true <-> sp_blocked_reasons plan = []) /\
  sp_proposed_size plan
    <= u64_sat_mul (sc_filesystem_size_bytes context) (tiering_max_swapfile_percent_disk config) / 100 /\
  sp_proposed_size plan <= u64_sat_mul (sc_total_ram_bytes context) 2.
Proof.
  simpl. split_and!.
  - rewrite bool_decide_eq_true. unfold swapfile_reasons. rewrite !push_if_nil, filesystem_reasons_nil.
    rewrite !push_if_nil, orb_false_iff, !negb_false_iff, bool_decide_eq_true, Z.ltb_ge.
    assert ((match validate_candidate_path (sc_path context) (sc_parent_canonical context) with
             | Ok _ => [] | Err error => [error] end = [])
            <-> validate_candidate_path (sc_path context) (sc_parent_canonical context) = Ok tt) as ->.
    { destruct (validate_candidate_path _ _) as [[]|]; naive_solver. }
    assert (is_none_or (profile_name <$> tp_profile (sc_topology context))
              (fun profile => negb (contains_str (tiering_supported_storage_profiles config) profile)) = false
            <-> exists profile, tp_profile (sc_topology context) = Some profile /\
                  profile_name profile ∈ tiering_supported_storage_profiles config) as ->.
    { destruct (tp_profile (sc_topology context)) as [p|]; simpl.
      - rewrite negb_false_iff, contains_str_elem. naive_solver.
      - naive_solver. }
    unfold is_none. rewrite negb_false_iff. tauto.
  - apply bool_decide_eq_true.
  - unfold proposed_swapfile_size. lia.
  - unfold proposed_swapfile_size. lia.
Qed.

(** With a validated configuration the zswap pool plan never panics; its limit is the
    configured one, between 1 and 100 %, and the shrinker is planned only for a
    capacity intent with a real benchmark, a budget that holds and no game. *)
Theorem plan_pool_total (context : PoolContext) (config : Config) :
  validate config = Ok tt ->
  u8 (tiering_zswap_pool_min_percent (tiering config)) ->
  u8 (tiering_zswap_pool_max_percent (tiering config)) ->
  exists plan, plan_pool context (tiering config) = Some plan /\
    pp_max_pool_percent plan = tiering_zswap_pool_max_percent (tiering config) /\
    1 <= pp_max_pool_percent plan <= 100 /\
    (pp_shrinker_enabled plan = true ->
       po_intent context = IntentCapacity /\ bu_allowed (po_budget context) = true /\
       po_gaming context = false /\
       exists benchmark, po_benchmark context = Some benchmark /\ be_real benchmark = true /\
         be_oom benchmark = false) /\
    (pp_backing_swapfile plan <> None -> sp_allowed (po_swapfile context) = true).
Proof.
  intros Hv Hmin Hmax. destruct (validated_pool config Hv Hmin Hmax) as [[H1 H2] H3].
  unfold plan_pool, clamp.
  destruct (Z.ltb_spec 100 (tiering_zswap_pool_min_percent (tiering config))); [lia |].
  destruct (Z.ltb_spec (tiering_zswap_pool_max_percent (tiering config))
              (tiering_zswap_pool_min_percent (tiering config))); [lia |].
  destruct (Z.ltb_spec 100 (tiering_zswap_pool_max_percent (tiering config))); [lia |].
  simpl. eexists. split_and!; try reflexivity; simpl; try lia.
  - unfold shrinker_allowed, is_some_and. intros Hs. bools.
    destruct (po_benchmark context) as [benchmark|]; [| done]. bools.
    split_and!; try done. by exists benchmark.
  - unfold then_some. by destruct (sp_allowed _).
Qed.

(** [set_parameter] writes at most one file, the one of an allow-listed parameter
    below the backend's root, and only when mutation was enabled and the value
    passed [validate_value]; success means that the value was read back. *)
Theorem set_parameter_confined {W} `{TieringSystem W} name value (self : LinuxZswapBackend W) :
  let '(self', r) := set_parameter name value self in
  (self' = self \/
   lw_allow_mutation self = true /\ name ∈ PARAMETERS /\ validate_value name value = Ok tt /\
   lw_system self' =
     fst (write_file (path_join (resolve (lw_root self) "/sys/module/zswap/parameters") name)
            value (lw_system self))) /\
  (r = Ok tt -> read_parameter name self' = Ok (Some value)).
Proof.
  assert (forall path, parameter_path name self = Ok path ->
            name ∈ PARAMETERS /\
            path = path_join (resolve (lw_root self) "/sys/module/zswap/parameters") name) as Hpath.
  { intros path Hp. unfold parameter_path in Hp. inv_ok. bools.
    split; [by apply contains_str_elem | done]. }
  destruct (set_parameter name value self) as [self' [[]|e]] eqn:Hrun.
  - apply set_parameter_ok in Hrun as (Ha & Hv & path & Hp & Hw & Hr).
    apply Hpath in Hp as [Hin ->]. split; [right | done]. split_and!; try done. by rewrite Hw.
  - apply set_parameter_err in Hrun as [-> | (Ha & Hv & path & Hp & Hw)]; (split; [| done]).
    + by left.
    + apply Hpath in Hp as [Hin ->]. by right.
Qed.

(** A topology that is not reported ambiguous lists at most eight devices, all
    different, valid and present, and its physical device is the last of them. *)
Theorem inspect_storage_sound {W} `{TieringSystem W} root mount_source filesystem (w : W) :
  let topology := inspect_storage root mount_source filesystem w in
  tp_ambiguous topology = false ->
  NoDup (tp_chain topology) /\ (length (tp_chain topology) <= 8)%nat /\
  Forall (fun d => valid_block_name d = true /\
                   path_exists (resolve root ("/sys/class/block/" ++ d)) w = true) (tp_chain topology) /\
  (forall device, tp_physical topology = Some device -> list.last (tp_chain topology) = Some (bd_name device)).
Proof.
  intros topology Ha. unfold topology in *.
  remember (walk_chain 8 root w (unwrap_or (strip_prefix "/dev/" mount_source) mount_source) ∅ [])
    as walk eqn:Hwalk.
  destruct (inspect_storage_parts root w mount_source filesystem walk Hwalk) as (Hc & Hamb & Hp).
  rewrite Hc, Hp. rewrite Hamb in Ha.
  destruct (walk_chain_sound_from root w _ _ walk Hwalk Ha) as (Hn & Hl & Hall).
  split_and!; [exact Hn | exact Hl | exact Hall |].
  intros device. rewrite Ha.
  destruct (list.last (wk_chain walk)) as [name|]; [| discriminate].
  intros Hd. injection Hd as <-. reflexivity.
Qed.

(** The walk stops after eight devices without saying so: when a ninth device lies
    below the eighth, the topology is still not ambiguous and names the eighth
    device as the physical one. *)
Theorem inspect_storage_truncates {W} `{TieringSystem W} root mount_source filesystem (w : W) ds next :
  device_chain root w ds next -> length ds = 8%nat -> NoDup ds ->
  hd next ds = unwrap_or (strip_prefix "/dev/" mount_source) mount_source ->
  let topology := inspect_storage root mount_source filesystem w in
  tp_ambiguous topology = false /\ tp_chain topology = ds /\
  exists device, tp_physical topology = Some device /\ list.last ds = Some (bd_name device) /\
    only_lower root w (bd_name device) next.
Proof.
  intros Hc Hlen Hnd Hhd topology. unfold topology.
  assert (walk_chain 8 root w (unwrap_or (strip_prefix "/dev/" mount_source) mount_source) ∅ []
          = {| wk_chain := ds; wk_ambiguous := false; wk_composite := false |}) as Hw.
  { rewrite <- Hhd, <- Hlen. rewrite (walk_chain_long root w ds next Hc); [done | done | set_solver]. }
  destruct (device_chain_last root w ds next Hc) as (eighth & Hlast & Hlow); [by destruct ds |].
  destruct (inspect_storage_parts root w mount_source filesystem _ (eq_sym Hw)) as (-> & -> & ->).
  cbn [wk_chain wk_ambiguous]. split; [reflexivity |]. split; [reflexivity |]. rewrite Hlast.
  eexists. split; [reflexivity |]. split; [reflexivity | exact Hlow].
Qed.
End Theorems.

(** ** Witnesses *)
Module Witnesses.
Import Facts Theorems.

(** A host with its swaps and files as two lists of paths; it shows that
    [LawfulSystem] can be met. *)
Record DemoHost := MkHost { dh_swaps : list string; dh_files : list string; dh_read_only : bool }.

Definition swaps_text (swaps : list string) : string :=
  join (String (Ascii.ascii_of_nat 10) "")
    ("Filename Type Size Used Priority" :: map (fun s => s ++ " file 1024 0 10") swaps)%string.
Definition swap_names (text : string) : list string :=
  omap (fun line => head (split_whitespace line)) (tail (lines text)).
Definition shown (h : DemoHost) : list string := swap_names (swaps_text (dh_swaps h)).

(** swapon and swapoff, which fail unless /proc/swaps can show the change *)
Definition set_swaps (h : DemoHost) (swaps expected : list string) : DemoHost * result HelperEnd IoError :=
  if bool_decide (swap_names (swaps_text swaps) = expected)
  then (MkHost swaps (dh_files h) (dh_read_only h), Ok HelperOk)
  else (h, Ok (HelperFailed "1")).
Definition others (path : string) (l : list string) : list string :=
  List.filter (fun p => negb (path_eq path p)) l.

Definition demo_helper (executable : string) (args : list string) (h : DemoHost) :
    DemoHost * result HelperEnd IoError :=
  match list.last args with
  | None => (h, Ok (HelperFailed "2"))
  | Some path =>
      if String.eqb executable "/usr/bin/swapon"
      then set_swaps h (dh_swaps h ++ [path]) (shown h ++ [path])
      else if String.eqb executable "/usr/bin/swapoff"
      then set_swaps h (others path (dh_swaps h)) (others path (shown h))
      else (MkHost (dh_swaps h) (path :: others path (dh_files h)) (dh_read_only h), Ok HelperOk)
  end.

Definition no_such : IoError := {| io_kind := NotFound; io_text := "not found" |}.

#[export] Instance demo_system : TieringSystem DemoHost := {
  read_text path h := if String.eqb path "/proc/swaps" then Ok (swaps_text (dh_swaps h)) else Err no_such;
  path_exists path h := path_mem path (dh_files h);
  is_dir _ _ := false;
  opens_for_write _ _ := false;
  canonicalize _ _ := None;
  read_dir _ _ := Err no_such;
  udevadm_info _ _ := None;
  symlink_metadata _ _ := Err no_such;
  write_file _ _ h := (h, Err no_such);
  remove_file path h :=
    if dh_read_only h then (h, Err {| io_kind := OtherIo; io_text := "read-only" |})
    else (MkHost (dh_swaps h) (others path (dh_files h)) (dh_read_only h), Ok tt);
  run_helper := demo_helper
}.

Lemma path_mem_app p l k : path_mem p (l ++ k) = path_mem p l || path_mem p k.
Proof. apply existsb_app. Qed.
Lemma path_eq_sym p q : path_eq p q = path_eq q p.
Proof. by apply bool_decide_ext. Qed.
Lemma path_eq_trans p q r : path_eq p q = true -> path_eq p r = path_eq q r.
Proof. unfold path_eq. intros H. bools. by rewrite H. Qed.
Lemma path_mem_others p path l :
  path_mem p (others path l) = path_mem p l && negb (path_eq path p).
Proof.
  induction l as [|q l IH]; [done |]. unfold others in *. simpl.
  destruct (path_eq path q) eqn:E; simpl; rewrite IH.
  - destruct (path_eq p q) eqn:Ep; simpl; [| done].
    rewrite (path_eq_sym path p), (path_eq_trans p q path Ep), path_eq_sym, E.
    simpl. by rewrite andb_false_r.
  - destruct (path_eq p q) eqn:Ep; simpl; [| done].
    by rewrite (path_eq_sym path p), (path_eq_trans p q path Ep), path_eq_sym, E.
Qed.

#[export] Instance demo_lawful : LawfulSystem DemoHost.
Proof.
  refine {| sys_swap h p := path_mem p (shown h) = true; sys_file h p := path_mem p (dh_files h) = true |}.
  - intros w p q E. assert (forall l, path_mem p l = path_mem q l) as Hl.
    { intros l. induction l as [|x l IH]; [done |]. simpl. by rewrite (path_eq_trans p q x E), IH. }
    by rewrite !Hl.
  - intros w text [= <-] p. done.
  - done.
  - intros executable args path w w' r E. simpl in E. unfold demo_helper in E.
    rewrite last_snoc in E.
    destruct (String.eqb_spec executable "/usr/bin/swapon") as [->|Hon].
    + unfold set_swaps in E. case_bool_decide as Hd; injection E as <- <-.
      * split_and!; try done. intros p Hp. split; [| done]. unfold shown at 1. simpl. rewrite Hd.
        rewrite path_mem_app. simpl. unfold elsewhere in Hp. rewrite Hp. by rewrite !orb_false_r.
      * by split_and!.
    + destruct (String.eqb_spec executable "/usr/bin/swapoff") as [->|Hoff].
      * unfold set_swaps in E. case_bool_decide as Hd; injection E as <- <-.
        -- split_and!; try done.
           ++ intros p Hp. split; [| done]. unfold shown at 1. simpl. rewrite Hd, path_mem_others.
              unfold elsewhere in Hp. by rewrite path_eq_sym, Hp, andb_true_r.
           ++ intros _ _. unfold shown. simpl. by rewrite Hd, path_mem_others, path_eq_refl, andb_false_r.
        -- by split_and!.
      * injection E as <- <-. split_and!; try done.
        -- intros p Hp. split; [done |]. simpl. unfold elsewhere in Hp. rewrite Hp, path_mem_others. simpl.
           by rewrite path_eq_sym, Hp, andb_true_r.
        -- by intros [|].
  - intros path w w' r E. simpl in E. destruct (dh_read_only w); injection E as <- <-.
    + by split_and!.
    + split_and!; [done | |].
      * intros p Hp. simpl. rewrite path_mem_others. unfold elsewhere in Hp.
        by rewrite path_eq_sym, Hp, andb_true_r.
      * intros _. simpl. by rewrite path_mem_others, path_eq_refl, andb_false_r.
Defined.

Definition nemor_swap : string := "/var/lib/nemor/swap/nemor-tiering.swap".
Definition demo_plan : SwapfilePlan :=
  {| sp_path := nemor_swap; sp_mountpoint := "/"; sp_filesystem := Ext4;
     sp_backing_device := "/dev/nvme0n1p2"; sp_physical_device_class := ClassNvme;
     sp_proposed_size := 1073741824; sp_priority := 10; sp_free_bytes := 107374182400;
     sp_required_headroom_bytes := 10737418240; sp_ownership := NemorOwned;
     sp_create_required := true; sp_format_required := true; sp_activate_required := true;
     sp_persistence_requested := false; sp_allowed := true; sp_blocked_reasons := [];
     sp_dry_run := false |}%string.
Definition demo_snapshot : MutationSnapshot :=
  {| ms_path := nemor_swap; ms_baseline_swaps := ["/dev/zram0"%string]; ms_created := false;
     ms_activated := false; ms_rollback_pending := false; ms_rolled_back := false;
     ms_last_error := None |}.
Definition demo_backend : LinuxSwapfileBackend DemoHost :=
  MkLinux [] (MkHost ["/dev/zram0"%string] ["/etc/fstab"%string] false).
Definition applied := apply_swapfile demo_plan (demo_snapshot, demo_backend).
Definition rolled_back := rollback_swapfile (fst applied).

(** the transaction succeeds on the Linux backend over the demonstration host *)
Lemma apply_swapfile_touches_only_its_file_witness :
  snd applied = Ok {| to_created := true; to_activated := true; to_verified := true;
                      to_rolled_back := false |} /\
  apart nemor_swap demo_backend (snd (fst applied)) /\
  swap_on (snd (fst applied)) nemor_swap.
Proof.
  assert (snd applied = Ok {| to_created := true; to_activated := true; to_verified := true;
                              to_rolled_back := false |}) as Hok by (vm_compute; reflexivity).
  destruct (apply_swapfile_touches_only_its_file demo_plan demo_snapshot demo_backend
              (fst (fst applied)) (snd (fst applied)) (snd applied)) as (Ha & _ & Hs).
  - reflexivity.
  - unfold applied. by destruct (apply_swapfile _ _) as [[? ?] ?].
  - split_and!; [exact Hok | exact Ha |].
    destruct (Hs _ Hok) as (_ & _ & Hon & _); [reflexivity | exact Hon].
Defined.

Lemma apply_rollback_round_trip_witness :
  (forall p, swap_on (snd (fst rolled_back)) p <-> swap_on demo_backend p) /\
  ms_rolled_back (fst (fst rolled_back)) = true.
Proof.
  destruct (apply_rollback_round_trip demo_plan demo_snapshot demo_backend
              (fst (fst applied)) (snd (fst applied))
              {| to_created := true; to_activated := true; to_verified := true; to_rolled_back := false |}
              (fst (fst rolled_back)) (snd (fst rolled_back)) rolled_back_outcome)
    as (Hs & _ & Hr & _).
  - reflexivity.
  - reflexivity.
  - reflexivity.
  - vm_compute. discriminate.
  - vm_compute. reflexivity.
  - vm_compute. reflexivity.
  - split; [exact Hs | exact Hr].
Defined.

Definition stuck_backend : LinuxSwapfileBackend DemoHost :=
  MkLinux [nemor_swap] (MkHost [] [nemor_swap] true).
Lemma remove_failure_blocks_rollback_witness :
  snd (rollback_swapfile (mark_created demo_snapshot, fst (linux_remove_owned nemor_swap stuck_backend)))
  = Err (Blocked "rollback ownership is ambiguous").
Proof.
  destruct (remove_failure_blocks_rollback nemor_swap stuck_backend
              (fst (linux_remove_owned nemor_swap stuck_backend))
              (Operation "remove_owned_swapfile" "read-only") (mark_created demo_snapshot))
    as (_ & _ & Hr).
  - vm_compute. reflexivity.
  - vm_compute. reflexivity.
  - vm_compute. reflexivity.
  - reflexivity.
  - reflexivity.
  - reflexivity.
  - by rewrite Hr.
Defined.

Definition demo_topology : StorageTopology :=
  {| tp_mount_source := "/dev/da"; tp_filesystem := "ext4"; tp_chain := ["da"]; tp_physical := None;
     tp_ambiguous := true; tp_profile_version := STORAGE_PROFILE_VERSION; tp_profile := None;
     tp_device_identity := None; tp_filesystem_identity := None |}%string.
Definition demo_inventory : ZswapInventory :=
  {| zi_supported := true;
     zi_parameters :=
       {| zp_enabled := Some true; zp_compressor := Some "zstd"%string; zp_zpool := None;
          zp_max_pool_percent := Some 20; zp_accept_threshold_percent := None;
          zp_shrinker_enabled := None; zp_same_filled_pages_enabled := None;
          zp_non_same_filled_pages_enabled := None |};
     zi_parameter_writable := ∅; zi_debugfs_available := false; zi_debug_counters := [];
     zi_cgroup_values := ∅;
     zi_provider :=
       {| pv_kernel_cmdline_zswap := []; pv_systemd_zram := false;
          pv_zram_generator_vendor_config := false; pv_zram_generator_etc_config := false;
          pv_cachyos_zswap_disable_rule := false; pv_persistence_sources := []; pv_conflict := false;
          pv_bootloader := None; pv_command_line_source := None; pv_systemd_boot := false |};
     zi_unavailable := []; zi_dry_run := true |}.
Definition demo_pool : PoolContext :=
  {| po_intent := IntentCapacity; po_inventory := demo_inventory; po_swapfile := demo_plan;
     po_benchmark := None; po_budget := no_budget; po_pressure := Normal; po_gaming := false |}.

Lemma plan_pool_total_witness :
  exists plan, plan_pool demo_pool (tiering default_config) = Some plan /\
    1 <= pp_max_pool_percent plan <= 100.
Proof.
  destruct (plan_pool_total demo_pool default_config) as (plan & Hp & _ & Hb & _).
  - vm_compute. reflexivity.
  - vm_compute. split; discriminate.
  - vm_compute. split; discriminate.
  - exists plan. split; [exact Hp | exact Hb].
Defined.

(** a stack of block devices, each on top of the next *)
Record Stack := MkStack { st_devices : list string }.
Definition slaves_of (h : Stack) (path : string) : option string :=
  find_map (fun '(above, below) =>
    then_some (String.eqb path (path_join (class_path "/" above) "slaves")) below)
    (zip (st_devices h) (tail (st_devices h))).
#[export] Instance stack_system : TieringSystem Stack := {
  read_text _ _ := Err no_such;
  path_exists path h := contains_str (map (class_path "/") (st_devices h)) path;
  is_dir _ _ := false;
  opens_for_write _ _ := false;
  canonicalize _ _ := None;
  read_dir path h :=
    match slaves_of h path with
    | Some name => Ok [Ok {| de_name := name; de_is_file := Ok false |}]
    | None => Err no_such
    end;
  udevadm_info _ _ := None;
  symlink_metadata _ _ := Err no_such;
  write_file _ _ h := (h, Err no_such);
  remove_file _ h := (h, Err no_such);
  run_helper _ _ h := (h, Err no_such)
}.

Lemma inspect_storage_sound_witness :
  let topology := inspect_storage "/" "/dev/dm-0" "ext4" (MkStack ["dm-0"; "dm-1"; "sda"]%string) in
  NoDup (tp_chain topology) /\ (length (tp_chain topology) <= 8)%nat.
Proof.
  destruct (inspect_storage_sound "/" "/dev/dm-0" "ext4" (MkStack ["dm-0"; "dm-1"; "sda"]%string))
    as (Hn & Hl & _).
  - vm_compute. reflexivity.
  - split; [exact Hn | exact Hl].
Defined.

Definition deep : list string := ["da"; "db"; "dc"; "dd"; "de"; "df"; "dg"; "dh"; "di"].
Lemma inspect_storage_truncates_witness :
  let topology := inspect_storage "/" "/dev/da" "ext4" (MkStack deep) in
  tp_ambiguous topology = false /\ bd_name <$> tp_physical topology = Some "dh"%string.
Proof.
  destruct (inspect_storage_truncates "/" "/dev/da" "ext4" (MkStack deep) (take 8 deep) "di")
    as (Ha & _ & device & Hp & Hlast & _).
  - repeat (apply chain_cons; [vm_compute; reflexivity | vm_compute; reflexivity
                              | right; split; vm_compute; reflexivity |]).
    apply chain_nil.
  - reflexivity.
  - apply (bool_decide_unpack _). vm_compute. exact I.
  - reflexivity.
  - split; [exact Ha |]. rewrite Hp. symmetry. exact Hlast.
Defined.
End Witnesses.
