(* ===== verification/BootContract.v ===== *)
(** crates/tiering/src/boot_validation_v6.rs, the contract: the data of the validation
    of the storage-backed backend across a reboot, and what a manifest, a preflight,
    the observations after the reboot and the restored baseline must satisfy.
    [Codec] stands for the [serde_json], [sha2] and [hex] crates. *)

From S2P Require Import Prelude F64 Text Config Classifier Policy Tiering.

(** ** Constants *)

Definition BOOT_VALIDATION_CONTRACT_VERSION_V6 : string := "tiering-boot-validation-v6".
Definition PREPARED_MANIFEST_SCHEMA_V6 : string := "tiering-boot-prepared-manifest-v6".
Definition DURABLE_TRANSACTION_SCHEMA_V6 : string := "tiering-boot-transaction-v6".
Definition PREFLIGHT_SCHEMA_V6 : string := "tiering-boot-preflight-v6".
Definition APPLY_EVIDENCE_SCHEMA_V6 : string := "tiering-boot-apply-evidence-v6".
Definition POST_BOOT_EVIDENCE_SCHEMA_V6 : string := "tiering-post-boot-evidence-v6".
Definition FINAL_RESTORE_SCHEMA_V6 : string := "tiering-final-restore-evidence-v6".
Definition ACTIVATION_EVIDENCE_SCHEMA_V6 : string := "tiering-activation-evidence-v6".
Definition RECOVERY_EVIDENCE_SCHEMA_V6 : string := "tiering-recovery-evidence-v6".
Definition TRANSACTION_ROOT_V6 : string := "/var/lib/nemor/validation/phase6".
Definition ENTRY_ROOT : string := "/boot/loader/entries".
Definition UNIT_ROOT : string := "/etc/systemd/system".

Inductive BootValidationCommandV6 :=
| CmdPrepare | CmdUserPreflight | CmdRootPreflight | CmdMeasureBaseline | CmdApply
| CmdVerifyApplied | CmdSelectOneShot | CmdPostBootValidate | CmdSelectBaselineRollback
| CmdVerifyFinalRestore | CmdRecover | CmdVerifyIdempotence.

Definition mutating (self : BootValidationCommandV6) : bool :=
  match self with
  | CmdApply | CmdMeasureBaseline | CmdSelectOneShot | CmdPostBootValidate
  | CmdSelectBaselineRollback | CmdVerifyFinalRestore | CmdRecover => true
  | _ => false
  end.
Definition requires_authenticated_root (self : BootValidationCommandV6) : bool :=
  match self with CmdPrepare | CmdUserPreflight => false | _ => true end.

Inductive BootValidationV6Error :=
| Version
| Identity (what : string)
| Topology
| Path
| Entry
| Swap
| ZswapContract
| Payload
| SudoIdentity
| Preflight (reason : string)
| Transition
| Readback (what : string)
| Measurement (what : string).

Definition is_commit (value : string) : bool :=
  Nat.eqb (String.length value) 40 && str_all is_hexdigit value.
(** the same grammar as the phase 6 swapfiles of backend.rs *)
Definition valid_id : string -> bool := validation_id_ok.

(** ** Data *)

Record BinaryIdentityV6 := {
  bi_path : string;
  bi_sha256 : string;
  bi_embedded_commit : string
}.

Record StagedBinaryPlanV6 := {
  sb_source : BinaryIdentityV6;
  sb_destination : string;
  sb_destination_mode : Z;
  sb_destination_uid : Z;
  sb_destination_gid : Z;
  sb_require_single_link : bool;
  sb_source_uid : Z;
  sb_source_gid : Z;
  sb_source_mode : Z;
  sb_source_link_count : Z;
  sb_source_device : Z;
  sb_source_inode : Z
}.

Record BlockLayerIdentityV6 := {
  bl_path : string;
  bl_kind : string;
  bl_major : Z;
  bl_minor : Z;
  bl_parent : option string
}.

Record PhysicalDeviceIdentityV6 := {
  pd_path : string;
  pd_major : Z;
  pd_minor : Z;
  pd_transport : string;
  pd_rotational : bool;
  pd_model : string;
  pd_serial : option string;
  pd_wwn : option string;
  pd_capacity_bytes : Z;
  pd_logical_block_size : Z;
  pd_physical_block_size : Z
}.

Record FilesystemIdentityV6 := {
  fi_filesystem : string;
  fi_uuid_or_fsid : string;
  fi_mount_source : string;
  fi_mount_point : string;
  fi_mount_id : Z;
  fi_device_major : Z;
  fi_device_minor : Z
}.

Record StorageTopologyIdentityV6 := {
  ti_storage_profile_version : string;
  ti_profile : StorageProfile;
  ti_chain : list BlockLayerIdentityV6;
  ti_physical : PhysicalDeviceIdentityV6;
  ti_filesystem : FilesystemIdentityV6;
  ti_composite : bool;
  ti_ambiguous : bool;
  ti_confidence : string
}.

Record SwapIdentityV6 := {
  si_path : string;
  si_kind : string;
  si_size_bytes : Z;
  si_priority : Z;
  si_uuid : option string;
  si_active : bool
}.

Record ZramIdentityV6 := {
  zr_device : string;
  zr_provider : string;
  zr_active : bool;
  zr_priority : Z;
  zr_disksize_bytes : Z;
  zr_compressor : string;
  zr_memory_limit_bytes : Z;
  zr_unit : string
}.

Record ZswapIdentityV6 := {
  zs_parameters : gmap string string
}.

Record BootEntryIdentityV6 := {
  be_id : string;
  be_path : string;
  be_sha256 : string;
  be_title : string;
  be_linux_or_efi : string;
  be_initrds : list string;
  be_options : string
}.

Record ReferencedBootFileV6 := {
  rf_path : string;
  rf_sha256 : string
}.

Inductive OwnedArtifactKindV6 := Type1Entry | ValidationUnit | HelperBinary.
#[export] Instance OwnedArtifactKindV6_eq_dec : EqDecision OwnedArtifactKindV6.
Proof. solve_decision. Defined.

Record OwnedArtifactV6 := {
  oa_kind : OwnedArtifactKindV6;
  oa_path : string;
  oa_sha256 : string;
  oa_mode : Z;
  oa_owner_uid : Z;
  oa_owner_gid : Z;
  oa_content : string
}.

Record BootIdentityV6 := {
  bo_bootloader : string;
  bo_bootloader_version : string;
  bo_current_entry : BootEntryIdentityV6;
  bo_default_entry : BootEntryIdentityV6;
  bo_boot_order : list string;
  bo_prior_one_shot : option string;
  bo_esp_mount : string;
  bo_esp_device : string;
  bo_esp_filesystem : string;
  bo_esp_uuid : string;
  bo_esp_mount_id : Z;
  bo_esp_device_major : Z;
  bo_esp_device_minor : Z;
  bo_secure_boot : string;
  bo_kernel_release : string;
  bo_referenced_files : list ReferencedBootFileV6;
  bo_current_command_line : string
}.

Record WorkloadContractV6 := {
  wc_protocol : string;
  wc_seed : Z;
  wc_bytes : Z;
  wc_iterations : Z;
  wc_timeout_seconds : Z;
  wc_maximum_write_bytes : Z
}.

Record PreparedManifestPayloadV6 := {
  pm_contract_version : string;
  pm_rule_version : string;
  pm_validation_id : string;
  pm_prepared_uid : Z;
  pm_prepared_gid : Z;
  pm_source_commit : string;
  pm_source_state_sha256 : string;
  pm_binaries : gmap string BinaryIdentityV6;
  pm_config_path : string;
  pm_config_sha256 : string;
  pm_material_environment_sha256 : string;
  pm_topology : StorageTopologyIdentityV6;
  pm_baseline_swaps : list SwapIdentityV6;
  pm_protected_zram : ZramIdentityV6;
  pm_baseline_zswap : ZswapIdentityV6;
  pm_experimental_zswap : gmap string string;
  pm_boot : BootIdentityV6;
  pm_experimental_entry : BootEntryIdentityV6;
  pm_validation_marker : string;
  pm_swapfile : SwapIdentityV6;
  pm_owned_artifacts : list OwnedArtifactV6;
  pm_transaction_root : string;
  pm_workload : WorkloadContractV6;
  pm_staged_helper : StagedBinaryPlanV6;
  pm_recovery_entry : string;
  pm_production_activation : bool
}.

Record TieringBootValidationPreparedManifestV6 := {
  mf_schema : string;
  mf_payload : PreparedManifestPayloadV6;
  mf_payload_sha256 : string
}.

Inductive TransactionStageV6 :=
 | Prepared | RootPreflighted | BaselineMeasuring | BaselineMeasured | Applying | Applied
 | OneShotSelecting | OneShotSelected | ExperimentalBootDetected | ActivationPreparing
 | ZswapDisabling | ZswapParametersApplying | ZswapEnabling | SwapActivating
 | ActivationVerified | ActivationFailed | PostBootMeasuring | PostBootValidated
 | BaselineSelecting | BaselineSelected | BaselineBoot | BaselineVerified | Cleaning
 | Restored | Recovered | Failed.
#[export] Instance TransactionStageV6_eq_dec : EqDecision TransactionStageV6.
Proof. solve_decision. Defined.

Record MutationRecordV6 := {
  mr_operation : string;
  mr_target : string;
  mr_completed : bool;
  mr_evidence_sha256 : option string;
  mr_boot_id : string
}.

Record PostBootSummaryV6 := {
  ps_backing_write_bytes : Z;
  ps_latency_ns : Z;
  ps_write_budget_passed : bool;
  ps_oom : bool;
  ps_safety_failure : bool;
  ps_backing_write_confidence : string
}.

Record DurableTransactionPayloadV6 := {
  dp_validation_id : string;
  dp_manifest_sha256 : string;
  dp_stage : TransactionStageV6;
  dp_baseline_boot_id : string;
  dp_current_boot_id : string;
  dp_artifact_registry : list string;
  dp_swapfile_registry : list string;
  dp_unit_registry : list string;
  dp_transient_unit_registry : list string;
  dp_applied_swap_identity : option SwapIdentityV6;
  dp_evidence_hashes : gmap string string;
  dp_mutation_records : list MutationRecordV6;
  dp_primary_error : option string;
  dp_failed_from_stage : option TransactionStageV6;
  dp_secondary_errors : list string;
  dp_recovery_state : string;
  dp_idempotence_verified : bool;
  dp_activation_parameter_index : Z;
  dp_original_primary_error : option string;
  dp_terminal_archive_sha256 : option string;
  dp_post_boot_summary : option PostBootSummaryV6
}.

Record DurableTransactionV6 := {
  tx_schema : string;
  tx_payload : DurableTransactionPayloadV6;
  tx_payload_sha256 : string
}.

Record PreflightObservationV6 := {
  po_schema : string;
  po_uid : Z;
  po_gid : Z;
  po_sudo_uid : option Z;
  po_sudo_gid : option Z;
  po_host_identity_sha256 : string;
  po_source_matches : bool;
  po_binaries_match : bool;
  po_config_matches : bool;
  po_topology_matches : bool;
  po_boot_matches : bool;
  po_bootloader_type_matches : bool;
  po_bootloader_version_matches : bool;
  po_current_entry_semantics_match : bool;
  po_current_entry_hash_matches : bool;
  po_current_entry_path_matches : bool;
  po_default_entry_semantics_match : bool;
  po_default_entry_hash_matches : bool;
  po_default_entry_path_matches : bool;
  po_referenced_boot_files_match : bool;
  po_kernel_release_matches : bool;
  po_command_line_matches : bool;
  po_esp_device_matches : bool;
  po_esp_filesystem_matches : bool;
  po_esp_uuid_matches : bool;
  po_esp_mount_matches : bool;
  po_boot_order_matches : bool;
  po_one_shot_matches : bool;
  po_zram_matches : bool;
  po_zswap_matches : bool;
  po_parents_safe : bool;
  po_transaction_hierarchy_safe : bool;
  po_staged_source_binary_matches : bool;
  po_validation_destinations_absent : bool;
  po_esp_free_bytes : Z;
  po_swap_free_bytes : Z;
  po_package_update_absent : bool;
  po_secure_boot_compatible : bool;
  po_ac_power : option bool;
  po_stale_state_absent : bool;
  po_validation_process_absent : bool;
  po_unrelated_mutation_absent : bool;
  po_mutation_count : Z;
  po_ready : bool
}.

Record RuntimeBinaryIdentityV6 := {
  rb_path : string;
  rb_sha256 : string;
  rb_pid : Z;
  rb_start_ticks : Z
}.

Record RuntimeObserveOnlyEvidenceV6 := {
  ro_config_sha256 : string;
  ro_configured_observe_only : bool;
  ro_nemord_active : bool;
  ro_nemord_binary : option RuntimeBinaryIdentityV6;
  ro_effective_mode : option string;
  ro_production_tiering_unit_absent : bool;
  ro_unexpected_nemor_units : list string;
  ro_unexpected_nemor_cgroups : list string;
  ro_production_activation : bool
}.

Record ActualPostBootObservationV6 := {
  ab_schema : string;
  ab_boot_id : string;
  ab_booted_entry : string;
  ab_command_line : string;
  ab_kernel_release : string;
  ab_zswap : ZswapIdentityV6;
  ab_swaps : list SwapIdentityV6;
  ab_protected_zram : ZramIdentityV6;
  ab_topology : StorageTopologyIdentityV6;
  ab_unit_active : bool;
  ab_workload_scope_absent : bool;
  ab_daemon_observe_only : bool;
  ab_production_activation : bool;
  ab_zswap_counters : gmap string (option Z);
  ab_zswap_counters_before : gmap string (option Z);
  ab_zswap_counter_deltas : gmap string (option Z);
  ab_cgroup_path : string;
  ab_workload_pid : Z;
  ab_workload_start_ticks : Z;
  ab_workload_ready : bool;
  ab_workload_started : bool;
  ab_workload_stopped : bool;
  ab_progress_steps : Z;
  ab_cgroup_oom_delta : option Z;
  ab_cgroup_oom_kill_delta : option Z;
  ab_host_oom_kill_delta : option Z;
  ab_memory_current_bytes : option Z;
  ab_memory_peak_bytes : option Z;
  ab_swap_current_bytes : option Z;
  ab_scoped_psi_some_micros : option Z;
  ab_block_write_bytes : option Z;
  ab_block_write_attribution : string;
  ab_latency_ns : option Z;
  ab_bytes_touched : Z;
  ab_throughput_bytes_per_second : option Z;
  ab_compression_ratio_milli : option Z;
  ab_refault_observed : bool;
  ab_refault_content_verified : bool;
  ab_oom : bool;
  ab_oom_kill : bool;
  ab_workload_completed : bool;
  ab_workload_timeout : bool;
  ab_runtime_observation : RuntimeObserveOnlyEvidenceV6
}.

Record BaselineRestoreObservationV6 := {
  rs_schema : string;
  rs_boot_id : string;
  rs_booted_entry : string;
  rs_command_line : string;
  rs_zswap : ZswapIdentityV6;
  rs_protected_zram : ZramIdentityV6;
  rs_swaps : list SwapIdentityV6;
  rs_default_entry : string;
  rs_boot_order : list string;
  rs_one_shot : option string;
  rs_production_activation : bool
}.

Record BaselineMeasurementObservationV6 := {
  bm_schema : string;
  bm_validation_id : string;
  bm_boot_id : string;
  bm_zram : ZramIdentityV6;
  bm_zswap : ZswapIdentityV6;
  bm_swaps : list SwapIdentityV6;
  bm_workload_protocol : string;
  bm_workload_sha256 : string;
  bm_bytes_touched : Z;
  bm_latency_ns : option Z;
  bm_cgroup_oom_delta : option Z;
  bm_cgroup_oom_kill_delta : option Z;
  bm_content_verified : bool;
  bm_cleanup_passed : bool;
  bm_scope_absent : bool;
  bm_production_activation : bool
}.

(** the assignments to the fields of a transaction *)

Definition set_stage (stage : TransactionStageV6) (p : DurableTransactionPayloadV6) :
    DurableTransactionPayloadV6 :=
  {| dp_validation_id := dp_validation_id p; dp_manifest_sha256 := dp_manifest_sha256 p;
     dp_stage := stage; dp_baseline_boot_id := dp_baseline_boot_id p;
     dp_current_boot_id := dp_current_boot_id p;
     dp_artifact_registry := dp_artifact_registry p;
     dp_swapfile_registry := dp_swapfile_registry p; dp_unit_registry := dp_unit_registry p;
     dp_transient_unit_registry := dp_transient_unit_registry p;
     dp_applied_swap_identity := dp_applied_swap_identity p;
     dp_evidence_hashes := dp_evidence_hashes p;
     dp_mutation_records := dp_mutation_records p; dp_primary_error := dp_primary_error p;
     dp_failed_from_stage := dp_failed_from_stage p;
     dp_secondary_errors := dp_secondary_errors p; dp_recovery_state := dp_recovery_state p;
     dp_idempotence_verified := dp_idempotence_verified p;
     dp_activation_parameter_index := dp_activation_parameter_index p;
     dp_original_primary_error := dp_original_primary_error p;
     dp_terminal_archive_sha256 := dp_terminal_archive_sha256 p;
     dp_post_boot_summary := dp_post_boot_summary p |}.

Definition set_records (records : list MutationRecordV6) (p : DurableTransactionPayloadV6) :
    DurableTransactionPayloadV6 :=
  {| dp_validation_id := dp_validation_id p; dp_manifest_sha256 := dp_manifest_sha256 p;
     dp_stage := dp_stage p; dp_baseline_boot_id := dp_baseline_boot_id p;
     dp_current_boot_id := dp_current_boot_id p;
     dp_artifact_registry := dp_artifact_registry p;
     dp_swapfile_registry := dp_swapfile_registry p; dp_unit_registry := dp_unit_registry p;
     dp_transient_unit_registry := dp_transient_unit_registry p;
     dp_applied_swap_identity := dp_applied_swap_identity p;
     dp_evidence_hashes := dp_evidence_hashes p; dp_mutation_records := records;
     dp_primary_error := dp_primary_error p; dp_failed_from_stage := dp_failed_from_stage p;
     dp_secondary_errors := dp_secondary_errors p; dp_recovery_state := dp_recovery_state p;
     dp_idempotence_verified := dp_idempotence_verified p;
     dp_activation_parameter_index := dp_activation_parameter_index p;
     dp_original_primary_error := dp_original_primary_error p;
     dp_terminal_archive_sha256 := dp_terminal_archive_sha256 p;
     dp_post_boot_summary := dp_post_boot_summary p |}.

Definition set_applied_swap (identity : SwapIdentityV6) (p : DurableTransactionPayloadV6) :
    DurableTransactionPayloadV6 :=
  {| dp_validation_id := dp_validation_id p; dp_manifest_sha256 := dp_manifest_sha256 p;
     dp_stage := dp_stage p; dp_baseline_boot_id := dp_baseline_boot_id p;
     dp_current_boot_id := dp_current_boot_id p;
     dp_artifact_registry := dp_artifact_registry p;
     dp_swapfile_registry := dp_swapfile_registry p; dp_unit_registry := dp_unit_registry p;
     dp_transient_unit_registry := dp_transient_unit_registry p;
     dp_applied_swap_identity := Some identity; dp_evidence_hashes := dp_evidence_hashes p;
     dp_mutation_records := dp_mutation_records p; dp_primary_error := dp_primary_error p;
     dp_failed_from_stage := dp_failed_from_stage p;
     dp_secondary_errors := dp_secondary_errors p; dp_recovery_state := dp_recovery_state p;
     dp_idempotence_verified := dp_idempotence_verified p;
     dp_activation_parameter_index := dp_activation_parameter_index p;
     dp_original_primary_error := dp_original_primary_error p;
     dp_terminal_archive_sha256 := dp_terminal_archive_sha256 p;
     dp_post_boot_summary := dp_post_boot_summary p |}.

Definition insert_evidence (name hash : string) (p : DurableTransactionPayloadV6) :
    DurableTransactionPayloadV6 :=
  {| dp_validation_id := dp_validation_id p; dp_manifest_sha256 := dp_manifest_sha256 p;
     dp_stage := dp_stage p; dp_baseline_boot_id := dp_baseline_boot_id p;
     dp_current_boot_id := dp_current_boot_id p;
     dp_artifact_registry := dp_artifact_registry p;
     dp_swapfile_registry := dp_swapfile_registry p; dp_unit_registry := dp_unit_registry p;
     dp_transient_unit_registry := dp_transient_unit_registry p;
     dp_applied_swap_identity := dp_applied_swap_identity p;
     dp_evidence_hashes := <[name := hash]> (dp_evidence_hashes p);
     dp_mutation_records := dp_mutation_records p; dp_primary_error := dp_primary_error p;
     dp_failed_from_stage := dp_failed_from_stage p;
     dp_secondary_errors := dp_secondary_errors p; dp_recovery_state := dp_recovery_state p;
     dp_idempotence_verified := dp_idempotence_verified p;
     dp_activation_parameter_index := dp_activation_parameter_index p;
     dp_original_primary_error := dp_original_primary_error p;
     dp_terminal_archive_sha256 := dp_terminal_archive_sha256 p;
     dp_post_boot_summary := dp_post_boot_summary p |}.

Definition set_summary (summary : PostBootSummaryV6) (p : DurableTransactionPayloadV6) :
    DurableTransactionPayloadV6 :=
  {| dp_validation_id := dp_validation_id p; dp_manifest_sha256 := dp_manifest_sha256 p;
     dp_stage := dp_stage p; dp_baseline_boot_id := dp_baseline_boot_id p;
     dp_current_boot_id := dp_current_boot_id p;
     dp_artifact_registry := dp_artifact_registry p;
     dp_swapfile_registry := dp_swapfile_registry p; dp_unit_registry := dp_unit_registry p;
     dp_transient_unit_registry := dp_transient_unit_registry p;
     dp_applied_swap_identity := dp_applied_swap_identity p;
     dp_evidence_hashes := dp_evidence_hashes p;
     dp_mutation_records := dp_mutation_records p; dp_primary_error := dp_primary_error p;
     dp_failed_from_stage := dp_failed_from_stage p;
     dp_secondary_errors := dp_secondary_errors p; dp_recovery_state := dp_recovery_state p;
     dp_idempotence_verified := dp_idempotence_verified p;
     dp_activation_parameter_index := dp_activation_parameter_index p;
     dp_original_primary_error := dp_original_primary_error p;
     dp_terminal_archive_sha256 := dp_terminal_archive_sha256 p;
     dp_post_boot_summary := Some summary |}.

Definition set_failed (primary : string) (secondary : list string) (p : DurableTransactionPayloadV6) :
    DurableTransactionPayloadV6 :=
  {| dp_validation_id := dp_validation_id p; dp_manifest_sha256 := dp_manifest_sha256 p;
     dp_stage := Failed; dp_baseline_boot_id := dp_baseline_boot_id p;
     dp_current_boot_id := dp_current_boot_id p;
     dp_artifact_registry := dp_artifact_registry p;
     dp_swapfile_registry := dp_swapfile_registry p; dp_unit_registry := dp_unit_registry p;
     dp_transient_unit_registry := dp_transient_unit_registry p;
     dp_applied_swap_identity := dp_applied_swap_identity p;
     dp_evidence_hashes := dp_evidence_hashes p;
     dp_mutation_records := dp_mutation_records p; dp_primary_error := Some primary;
     dp_failed_from_stage := Some (dp_stage p);
     dp_secondary_errors := dp_secondary_errors p ++ secondary;
     dp_recovery_state := dp_recovery_state p;
     dp_idempotence_verified := dp_idempotence_verified p;
     dp_activation_parameter_index := dp_activation_parameter_index p;
     dp_original_primary_error := dp_original_primary_error p;
     dp_terminal_archive_sha256 := dp_terminal_archive_sha256 p;
     dp_post_boot_summary := dp_post_boot_summary p |}.

(** ** Derived [PartialEq]: paths are compared by their components *)

Definition option_eqb {A} (eqb : A -> A -> bool) (a b : option A) : bool :=
  match a, b with
  | Some x, Some y => eqb x y
  | None, None => true
  | _, _ => false
  end.
Fixpoint list_eqb {A} (eqb : A -> A -> bool) (a b : list A) : bool :=
  match a, b with
  | [], [] => true
  | x :: a', y :: b' => eqb x y && list_eqb eqb a' b'
  | _, _ => false
  end.

Definition binary_eqb (a b : BinaryIdentityV6) : bool :=
  path_eq (bi_path a) (bi_path b) && String.eqb (bi_sha256 a) (bi_sha256 b)
  && String.eqb (bi_embedded_commit a) (bi_embedded_commit b).
Definition layer_eqb (a b : BlockLayerIdentityV6) : bool :=
  path_eq (bl_path a) (bl_path b) && String.eqb (bl_kind a) (bl_kind b)
  && (bl_major a =? bl_major b) && (bl_minor a =? bl_minor b)
  && option_eqb path_eq (bl_parent a) (bl_parent b).
Definition physical_eqb (a b : PhysicalDeviceIdentityV6) : bool :=
  path_eq (pd_path a) (pd_path b) && (pd_major a =? pd_major b) && (pd_minor a =? pd_minor b)
  && String.eqb (pd_transport a) (pd_transport b)
  && Bool.eqb (pd_rotational a) (pd_rotational b) && String.eqb (pd_model a) (pd_model b)
  && option_eqb String.eqb (pd_serial a) (pd_serial b)
  && option_eqb String.eqb (pd_wwn a) (pd_wwn b)
  && (pd_capacity_bytes a =? pd_capacity_bytes b)
  && (pd_logical_block_size a =? pd_logical_block_size b)
  && (pd_physical_block_size a =? pd_physical_block_size b).
Definition filesystem_eqb (a b : FilesystemIdentityV6) : bool :=
  String.eqb (fi_filesystem a) (fi_filesystem b)
  && String.eqb (fi_uuid_or_fsid a) (fi_uuid_or_fsid b)
  && path_eq (fi_mount_source a) (fi_mount_source b)
  && path_eq (fi_mount_point a) (fi_mount_point b) && (fi_mount_id a =? fi_mount_id b)
  && (fi_device_major a =? fi_device_major b) && (fi_device_minor a =? fi_device_minor b).
Definition topology_eqb (a b : StorageTopologyIdentityV6) : bool :=
  String.eqb (ti_storage_profile_version a) (ti_storage_profile_version b)
  && bool_decide (ti_profile a = ti_profile b) && list_eqb layer_eqb (ti_chain a) (ti_chain b)
  && physical_eqb (ti_physical a) (ti_physical b)
  && filesystem_eqb (ti_filesystem a) (ti_filesystem b)
  && Bool.eqb (ti_composite a) (ti_composite b) && Bool.eqb (ti_ambiguous a) (ti_ambiguous b)
  && String.eqb (ti_confidence a) (ti_confidence b).
Definition swap_eqb (a b : SwapIdentityV6) : bool :=
  path_eq (si_path a) (si_path b) && String.eqb (si_kind a) (si_kind b)
  && (si_size_bytes a =? si_size_bytes b) && (si_priority a =? si_priority b)
  && option_eqb String.eqb (si_uuid a) (si_uuid b) && Bool.eqb (si_active a) (si_active b).
Definition zram_eqb (a b : ZramIdentityV6) : bool :=
  path_eq (zr_device a) (zr_device b) && String.eqb (zr_provider a) (zr_provider b)
  && Bool.eqb (zr_active a) (zr_active b) && (zr_priority a =? zr_priority b)
  && (zr_disksize_bytes a =? zr_disksize_bytes b)
  && String.eqb (zr_compressor a) (zr_compressor b)
  && (zr_memory_limit_bytes a =? zr_memory_limit_bytes b)
  && String.eqb (zr_unit a) (zr_unit b).
Definition zswap_eqb (a b : ZswapIdentityV6) : bool :=
  bool_decide (zs_parameters a = zs_parameters b).
Definition record_eqb (a b : MutationRecordV6) : bool :=
  String.eqb (mr_operation a) (mr_operation b) && path_eq (mr_target a) (mr_target b)
  && Bool.eqb (mr_completed a) (mr_completed b)
  && option_eqb String.eqb (mr_evidence_sha256 a) (mr_evidence_sha256 b)
  && String.eqb (mr_boot_id a) (mr_boot_id b).
Definition option_str_eqb : option string -> option string -> bool := option_eqb String.eqb.
Definition list_str_eqb : list string -> list string -> bool := list_eqb String.eqb.

(** ** What is serialised: [serde_json::to_vec], [to_vec_pretty] and [hex::encode(Sha256::digest(..))] *)

Inductive Document :=
| DManifestPayload (p : PreparedManifestPayloadV6)
| DManifest (m : TieringBootValidationPreparedManifestV6)
| DTransactionPayload (p : DurableTransactionPayloadV6)
| DTransaction (t : DurableTransactionV6)
| DPreflight (o : PreflightObservationV6)
| DBaselineMeasurement (o : BaselineMeasurementObservationV6)
| DPostBoot (o : ActualPostBootObservationV6)
| DBaselineRestore (o : BaselineRestoreObservationV6)
| DSwap (s : SwapIdentityV6)
| DEntry (e : BootEntryIdentityV6)
| DTopology (t : StorageTopologyIdentityV6)
| DWorkload (w : WorkloadContractV6)
| DString (s : string)
| DApplyEvidence (schema validation_id : string) (swap : option SwapIdentityV6)
    (artifact_registry : list string) (mutation_records : list MutationRecordV6)
| DOneShotEvidence (schema requested : string) (effective default : option string)
    (boot_order : option (list string))
| DZramBaseline (b : SameHostZramBaselineEvidenceV6)
| DProfile (p : SameHostProfileEvidenceV6)
| DActivation (schema : string) (tx : DurableTransactionPayloadV6) (entry marker helper_sha256 : string)
    (swap : SwapIdentityV6) (zswap : ZswapIdentityV6) (default_entry : string)
    (boot_order : list string)
| DRecovery (schema : string) (tx : DurableTransactionPayloadV6)
| DStatus (schema : string) (stage : TransactionStageV6) (validation_id terminal_class : string)
    (primary_error : option string) (secondary_errors : list string).

Class Codec := {
  to_vec : Document -> string;
  to_vec_pretty : Document -> string;
  sha256_hex : string -> string
}.

Section Contract.
Context `{Codec}.

Definition canonical_json_sha256_v6 (value : Document) : string := sha256_hex (to_vec value).
Definition canonical_bytes_sha256 (bytes : string) : string := sha256_hex bytes.

(** ** The manifest *)

Definition validate_topology (self : StorageTopologyIdentityV6) :
    result unit BootValidationV6Error :=
  let physical := ti_physical self in
  reject (negb (String.eqb (ti_storage_profile_version self) STORAGE_PROFILE_VERSION)
          || negb (boot_supported (ti_profile self))
          || bool_decide (ti_chain self = [])
          || ti_composite self
          || ti_ambiguous self
          || pd_rotational physical
          || (pd_capacity_bytes physical =? 0)
          || (pd_logical_block_size physical =? 0)
          || (pd_physical_block_size physical =? 0)
          || str_empty (trim (fi_uuid_or_fsid (ti_filesystem self)))
          || negb (path_eq (fi_mount_point (ti_filesystem self)) "/")) Topology ;?
  let stable := is_some_and (pd_serial physical) (fun v => negb (str_empty v))
                || is_some_and (pd_wwn physical) (fun v => negb (str_empty v)) in
  reject (negb stable || negb (String.eqb (ti_confidence self) "high")) Topology ;?
  let transport_ok :=
    match ti_profile self with
    | NvmeSsd => String.eqb (pd_transport physical) "nvme"
    | SataSsd => String.eqb (pd_transport physical) "ata"
                 || String.eqb (pd_transport physical) "sata"
    | _ => false
    end in
  reject (negb transport_ok
          || negb (option_eqb path_eq (bl_path <$> list.last (ti_chain self))
                     (Some (pd_path physical)))) Topology.

Definition ZSWAP_NAMES : list string :=
  ["enabled"; "compressor"; "zpool"; "max_pool_percent"; "accept_threshold_percent";
   "shrinker_enabled"]%string.

Definition validate_zswap (self : ZswapIdentityV6) : result unit BootValidationV6Error :=
  reject (existsb (fun k => negb (is_some (zs_parameters self !! k))) ZSWAP_NAMES) ZswapContract.

Definition validate_experimental_zswap (values : gmap string string) :
    result unit BootValidationV6Error :=
  reject (existsb (fun kv => negb (contains_str ZSWAP_NAMES (fst kv))) (map_to_list values)
          || negb (option_str_eqb (values !! "enabled"%string) (Some "Y"%string))
          || negb (Nat.eqb (size values) (length ZSWAP_NAMES))) ZswapContract.

Definition render_type1_entry_v6 (entry : BootEntryIdentityV6) : string :=
  ("title " ++ be_title entry ++ newline ++ "linux " ++ be_linux_or_efi entry ++ newline
   ++ String.concat "" (map (fun initrd => "initrd " ++ initrd ++ newline) (be_initrds entry))
   ++ "options " ++ be_options entry ++ newline)%string.

Definition entry_name (validation_id : string) : string :=
  ("nemor-phase6-" ++ validation_id ++ ".conf")%string.
Definition unit_name (validation_id : string) : string :=
  ("nemor-phase6-" ++ validation_id ++ ".service")%string.

Definition render_validation_unit_v6 (p : PreparedManifestPayloadV6) (validator : string) :
    string :=
  String.concat newline
    ["[Unit]"; "Description=Nemor Phase 6 validation-only activation";
     "ConditionKernelCommandLine=" ++ pm_validation_marker p;
     "After=systemd-udev-settle.service dev-zram0.swap"; "";
     "[Service]"; "Type=oneshot";
     "ExecStart=" ++ validator ++ " experimental-activate --validation-id " ++ pm_validation_id p;
     "RemainAfterExit=yes"; "NoNewPrivileges=yes"; "ProtectSystem=strict"; "ProtectHome=yes";
     "PrivateTmp=yes";
     "ReadWritePaths=" ++ pm_transaction_root p ++ " /sys/module/zswap/parameters"; "";
     "[Install]"; "WantedBy=multi-user.target"; ""]%string.

Definition find_kind (kind : OwnedArtifactKindV6) (p : PreparedManifestPayloadV6) :
    option OwnedArtifactV6 :=
  find_first (fun a => bool_decide (oa_kind a = kind)) (pm_owned_artifacts p).

Definition validate_boot_identity (p : PreparedManifestPayloadV6) :
    result unit BootValidationV6Error :=
  let b := pm_boot p in
  let experimental := pm_experimental_entry p in
  reject (negb (String.eqb (bo_bootloader b) "systemd-boot-type1")
          || negb (String.eqb (bo_secure_boot b) "disabled")
          || str_empty (be_id (bo_current_entry b))
          || str_empty (be_id (bo_default_entry b))
          || is_some (bo_prior_one_shot b)
          || negb (is_sha256 (be_sha256 (bo_current_entry b)))
          || negb (is_sha256 (be_sha256 (bo_default_entry b)))
          || String.eqb (be_id experimental) (be_id (bo_current_entry b))
          || String.eqb (be_id experimental) (be_id (bo_default_entry b))
          || negb (path_eq (be_path experimental)
                     (path_join ENTRY_ROOT (entry_name (pm_validation_id p))))) Entry ;?
  reject (negb (path_eq (be_linux_or_efi experimental) (be_linux_or_efi (bo_current_entry b)))
          || negb (list_eqb path_eq (be_initrds experimental) (be_initrds (bo_current_entry b)))
          || negb (str_contains (pm_validation_marker p) (be_options experimental))
          || negb (str_contains "zswap.enabled=1" (be_options experimental))
          || negb (str_contains ("systemd.wants=" ++ unit_name (pm_validation_id p))
                     (be_options experimental))) Entry ;?
  let refs := map rf_path (bo_referenced_files b) in
  reject (negb (path_mem (be_linux_or_efi experimental) refs)
          || existsb (fun v => negb (path_mem v refs)) (be_initrds experimental)
          || existsb (fun r => negb (is_sha256 (rf_sha256 r))) (bo_referenced_files b)) Entry.

Definition validate_boot_artifacts (p : PreparedManifestPayloadV6) :
    result unit BootValidationV6Error :=
  let? entry_artifact := ok_or (find_kind Type1Entry p) Entry in
  reject (negb (String.eqb (oa_content entry_artifact)
                  (render_type1_entry_v6 (pm_experimental_entry p)))) Entry ;?
  reject (negb (String.eqb (oa_sha256 entry_artifact)
                  (be_sha256 (pm_experimental_entry p)))) Entry ;?
  let? unit_artifact := ok_or (find_kind ValidationUnit p) Entry in
  let? helper := ok_or (find_kind HelperBinary p) (Identity "staged helper artifact") in
  reject (negb (path_eq (oa_path helper) (sb_destination (pm_staged_helper p)))
          || negb (String.eqb (oa_sha256 helper) (bi_sha256 (sb_source (pm_staged_helper p))))
          || negb (oa_mode helper =? 493)
          || negb (str_empty (oa_content helper))) (Identity "staged helper artifact") ;?
  reject (negb (String.eqb (oa_content unit_artifact)
                  (render_validation_unit_v6 p (sb_destination (pm_staged_helper p))))) Entry.

Definition validate_boot (p : PreparedManifestPayloadV6) : result unit BootValidationV6Error :=
  validate_boot_identity p ;? validate_boot_artifacts p.

Definition validate_swap (p : PreparedManifestPayloadV6) : result unit BootValidationV6Error :=
  let swapfile := pm_swapfile p in
  let zram := pm_protected_zram p in
  reject (negb (path_eq (si_path swapfile) (path_join (pm_transaction_root p) "backing.swap"))
          || si_active swapfile
          || is_some (si_uuid swapfile)
          || negb (String.eqb (si_kind swapfile) "file")
          || (si_size_bytes swapfile <? 64 * 1024 * 1024)
          || (2 * 1024 * 1024 * 1024 <? si_size_bytes swapfile)
          || (si_priority swapfile <=? zr_priority zram)
          || (32767 <? si_priority swapfile)
          || negb (path_eq (zr_device zram) "/dev/zram0")
          || negb (zr_active zram)) Swap.

Definition helper_path (p : PreparedManifestPayloadV6) : string :=
  path_join (pm_transaction_root p) "bin/nemor-tiering-boot-validation".

(** a leading dot, the only [Component::CurDir] there is, makes a path relative *)
Definition validate_owned_path (p : PreparedManifestPayloadV6) (a : OwnedArtifactV6) :
    result unit BootValidationV6Error :=
  reject (negb (is_absolute (oa_path a))
          || contains_str (Process.path_components (oa_path a)) ".."
          || path_under "/usr/lib" (oa_path a)) Path ;?
  let allowed :=
    match oa_kind a with
    | Type1Entry => path_eq (oa_path a) (be_path (pm_experimental_entry p))
    | ValidationUnit =>
        path_eq (oa_path a) (path_join UNIT_ROOT (unit_name (pm_validation_id p)))
    | HelperBinary => path_eq (oa_path a) (helper_path p)
    end in
  reject (negb allowed) Path.

(** the closure of [any], with the paths seen so far *)
Fixpoint baseline_swap_rejected (swapfile : string) (seen : list string)
    (swaps : list SwapIdentityV6) : bool :=
  match swaps with
  | [] => false
  | swap :: rest =>
      negb (si_active swap) || path_eq (si_path swap) swapfile || path_mem (si_path swap) seen
      || baseline_swap_rejected swapfile (si_path swap :: seen) rest
  end.

Definition validate_baseline_swaps (p : PreparedManifestPayloadV6) :
    result unit BootValidationV6Error :=
  let zram := pm_protected_zram p in
  reject (bool_decide (pm_baseline_swaps p = [])
          || baseline_swap_rejected (si_path (pm_swapfile p)) [] (pm_baseline_swaps p)
          || negb (existsb (fun swap =>
                     path_eq (si_path swap) (zr_device zram)
                     && (si_priority swap =? zr_priority zram)
                     && (si_size_bytes swap =? zr_disksize_bytes zram))
                     (pm_baseline_swaps p))) (Identity "baseline swaps").

Definition validate_staged_helper (p : PreparedManifestPayloadV6) :
    result unit BootValidationV6Error :=
  let? validator := ok_or (pm_binaries p !! "nemor-tiering-boot-validation"%string)
                      (Identity "validator binary") in
  let helper := pm_staged_helper p in
  reject (negb (binary_eqb (sb_source helper) validator)
          || negb (path_eq (sb_destination helper) (helper_path p))
          || negb (sb_destination_mode helper =? 493)
          || negb (sb_destination_uid helper =? 0)
          || negb (sb_destination_gid helper =? 0)
          || negb (sb_require_single_link helper)
          || negb (sb_source_link_count helper =? 1)
          || negb (Z.land (sb_source_mode helper) 18 =? 0)
          || (sb_source_device helper =? 0)
          || (sb_source_inode helper =? 0)) (Identity "staged helper").

(** the loop over the artifacts, with the paths seen so far *)
Fixpoint validate_artifacts (p : PreparedManifestPayloadV6) (seen : list string)
    (artifacts : list OwnedArtifactV6) : result unit BootValidationV6Error :=
  match artifacts with
  | [] => Ok tt
  | artifact :: rest =>
      validate_owned_path p artifact ;?
      reject (path_mem (oa_path artifact) seen
              || negb (oa_owner_uid artifact =? 0)
              || negb (oa_owner_gid artifact =? 0)
              || negb (existsb (Z.eqb (oa_mode artifact)) [384; 448; 420; 493])
              || (negb (bool_decide (oa_kind artifact = HelperBinary))
                  && negb (String.eqb (canonical_bytes_sha256 (oa_content artifact))
                             (oa_sha256 artifact)))) (Identity "artifact") ;?
      validate_artifacts p (oa_path artifact :: seen) rest
  end.

Definition validate_workload (w : WorkloadContractV6) : result unit BootValidationV6Error :=
  reject (negb (String.eqb (wc_protocol w) WORKLOAD_PROTOCOL_V6)
          || (wc_bytes w =? 0)
          || (256 * 1024 * 1024 <? wc_bytes w)
          || (wc_iterations w =? 0)
          || (wc_timeout_seconds w =? 0)
          || (600 <? wc_timeout_seconds w)
          || (wc_maximum_write_bytes w =? 0)) (Identity "workload").

Definition validate_sources (p : PreparedManifestPayloadV6) : result unit BootValidationV6Error :=
  reject (negb (valid_id (pm_validation_id p)) || negb (is_commit (pm_source_commit p)))
    (Identity "source") ;?
  reject (negb (String.eqb (pm_validation_marker p)
                  ("nemor.phase6_validation=" ++ pm_validation_id p))
          || negb (is_absolute (pm_config_path p))) (Identity "bounded inputs") ;?
  reject (existsb (fun hash => negb (is_sha256 hash))
            [pm_source_state_sha256 p; pm_config_sha256 p; pm_material_environment_sha256 p])
    (Identity "hash") ;?
  reject (bool_decide (pm_binaries p = ∅)
          || existsb (fun kb => negb (is_absolute (bi_path (snd kb)))
                                || negb (is_sha256 (bi_sha256 (snd kb)))
                                || negb (String.eqb (bi_embedded_commit (snd kb))
                                           (pm_source_commit p)))
               (map_to_list (pm_binaries p))) (Identity "binary").

Definition zswap_changed (p : PreparedManifestPayloadV6) (name : string) : bool :=
  negb (option_str_eqb (pm_experimental_zswap p !! name)
          (zs_parameters (pm_baseline_zswap p) !! name)).

Definition validate_payload (p : PreparedManifestPayloadV6) : result unit BootValidationV6Error :=
  validate_sources p ;?
  validate_staged_helper p ;?
  validate_topology (pm_topology p) ;?
  validate_zswap (pm_baseline_zswap p) ;?
  validate_baseline_swaps p ;?
  validate_experimental_zswap (pm_experimental_zswap p) ;?
  reject (existsb (zswap_changed p) (tail ZSWAP_NAMES)) ZswapContract ;?
  validate_boot p ;?
  validate_swap p ;?
  reject (pm_production_activation p
          || negb (String.eqb (pm_recovery_entry p) (be_id (bo_current_entry (pm_boot p))))
          || negb (path_eq (pm_transaction_root p)
                     (path_join TRANSACTION_ROOT_V6 (pm_validation_id p)))) (Identity "recovery") ;?
  validate_artifacts p [] (pm_owned_artifacts p) ;?
  validate_workload (pm_workload p).

Definition seal_manifest (payload : PreparedManifestPayloadV6) :
    TieringBootValidationPreparedManifestV6 :=
  {| mf_schema := PREPARED_MANIFEST_SCHEMA_V6; mf_payload := payload;
     mf_payload_sha256 := canonical_json_sha256_v6 (DManifestPayload payload) |}.

Definition validate_manifest (self : TieringBootValidationPreparedManifestV6) :
    result unit BootValidationV6Error :=
  let p := mf_payload self in
  reject (negb (String.eqb (mf_schema self) PREPARED_MANIFEST_SCHEMA_V6)
          || negb (String.eqb (pm_contract_version p) BOOT_VALIDATION_CONTRACT_VERSION_V6)
          || negb (String.eqb (pm_rule_version p) TIERING_RULE_VERSION)) Version ;?
  reject (negb (String.eqb (canonical_json_sha256_v6 (DManifestPayload p))
                  (mf_payload_sha256 self))) Payload ;?
  validate_payload p.

(** ** Preflight *)

Definition derived_preflight_ready_v6 (manifest : TieringBootValidationPreparedManifestV6)
    (o : PreflightObservationV6) : bool :=
  forallb id
    [po_source_matches o; po_binaries_match o; po_config_matches o; po_topology_matches o;
     po_boot_matches o; po_bootloader_type_matches o; po_bootloader_version_matches o;
     po_current_entry_semantics_match o; po_current_entry_hash_matches o;
     po_current_entry_path_matches o; po_default_entry_semantics_match o;
     po_default_entry_hash_matches o; po_default_entry_path_matches o;
     po_referenced_boot_files_match o; po_kernel_release_matches o; po_command_line_matches o;
     po_esp_device_matches o; po_esp_filesystem_matches o; po_esp_uuid_matches o;
     po_esp_mount_matches o; po_boot_order_matches o; po_one_shot_matches o; po_zram_matches o;
     po_zswap_matches o; po_parents_safe o; po_transaction_hierarchy_safe o;
     po_staged_source_binary_matches o; po_validation_destinations_absent o;
     po_package_update_absent o; po_secure_boot_compatible o; po_stale_state_absent o;
     po_validation_process_absent o; po_unrelated_mutation_absent o]
  && negb (option_eqb Bool.eqb (po_ac_power o) (Some false))
  && (1024 * 1024 <=? po_esp_free_bytes o)
  && (u64_sat_add (si_size_bytes (pm_swapfile (mf_payload manifest))) (64 * 1024 * 1024)
      <=? po_swap_free_bytes o).

Definition option_z_eqb : option Z -> option Z -> bool := option_eqb Z.eqb.

Definition validate_preflight_v6 (manifest : TieringBootValidationPreparedManifestV6)
    (o : PreflightObservationV6) (root : bool) : result unit BootValidationV6Error :=
  let p := mf_payload manifest in
  validate_manifest manifest ;?
  reject (negb (String.eqb (po_schema o) PREFLIGHT_SCHEMA_V6) || negb (po_mutation_count o =? 0))
    (Preflight "not_non_mutating") ;?
  reject (negb (String.eqb (po_host_identity_sha256 o) (pm_material_environment_sha256 p)))
    (Identity "material environment") ;?
  reject (root && (negb (po_uid o =? 0)
                   || negb (option_z_eqb (po_sudo_uid o) (Some (pm_prepared_uid p)))
                   || negb (option_z_eqb (po_sudo_gid o) (Some (pm_prepared_gid p)))))
    SudoIdentity ;?
  reject (negb root && (negb (po_uid o =? pm_prepared_uid p)
                        || negb (po_gid o =? pm_prepared_gid p)))
    (Identity "preparing user") ;?
  let derived_ready := derived_preflight_ready_v6 manifest o in
  reject (negb (Bool.eqb (po_ready o) derived_ready))
    (Preflight "serialized_readiness_contradiction") ;?
  reject (negb derived_ready) (Preflight "authoritative_gate_failed").

(** ** Acceptance of the observations after a reboot *)

Definition validate_transaction (self : DurableTransactionV6) : result unit BootValidationV6Error :=
  reject (negb (String.eqb (tx_schema self) DURABLE_TRANSACTION_SCHEMA_V6)
          || negb (String.eqb (canonical_json_sha256_v6 (DTransactionPayload (tx_payload self)))
                     (tx_payload_sha256 self))) Payload.

Definition runtime_binary_rejected (binary : RuntimeBinaryIdentityV6) : bool :=
  negb (is_absolute (rb_path binary)) || negb (is_sha256 (rb_sha256 binary))
  || (rb_pid binary =? 0) || (rb_start_ticks binary =? 0).

Definition runtime_rejected (r : RuntimeObserveOnlyEvidenceV6) : bool :=
  negb (ro_configured_observe_only r)
  || ro_production_activation r
  || negb (ro_production_tiering_unit_absent r)
  || negb (Bool.eqb (ro_nemord_active r) (is_some (ro_nemord_binary r)))
  || is_none (ro_effective_mode r)
  || is_some_and (ro_nemord_binary r) runtime_binary_rejected
  || negb (bool_decide (ro_unexpected_nemor_units r = []))
  || negb (bool_decide (ro_unexpected_nemor_cgroups r = [])).

Definition workload_rejected (p : PreparedManifestPayloadV6) (o : ActualPostBootObservationV6) :
    bool :=
  negb (ab_workload_completed o)
  || ab_workload_timeout o
  || negb (ab_workload_ready o)
  || negb (ab_workload_started o)
  || negb (ab_workload_stopped o)
  || (ab_workload_pid o =? 0)
  || (ab_workload_start_ticks o =? 0)
  || str_empty (ab_cgroup_path o)
  || (ab_progress_steps o =? 0)
  || (ab_bytes_touched o =? 0)
  || negb (ab_refault_content_verified o)
  || is_none (ab_cgroup_oom_delta o)
  || is_none (ab_cgroup_oom_kill_delta o)
  || negb (option_z_eqb (ab_cgroup_oom_delta o) (Some 0))
  || negb (option_z_eqb (ab_cgroup_oom_kill_delta o) (Some 0))
  || negb (contains_str ["physical-device-host-wide-noisy"; "bounded-physical-device-attributed"]
             (ab_block_write_attribution o))
  || is_none (ab_block_write_bytes o)
  || is_none (ab_latency_ns o)
  || is_none (ab_throughput_bytes_per_second o)
  || is_none (ab_compression_ratio_milli o)
  || negb (ab_refault_observed o)
  || is_some_and (ab_block_write_bytes o) (fun v => wc_maximum_write_bytes (pm_workload p) <? v)
  || ab_oom o
  || ab_oom_kill o
  || negb (ab_daemon_observe_only o).

Definition find_swap (path : string) (swaps : list SwapIdentityV6) : option SwapIdentityV6 :=
  find_first (fun s => path_eq (si_path s) path) swaps.

Definition validate_actual_post_boot_v6 (manifest : TieringBootValidationPreparedManifestV6)
    (tx : DurableTransactionV6) (o : ActualPostBootObservationV6) :
    result unit BootValidationV6Error :=
  validate_manifest manifest ;?
  validate_transaction tx ;?
  reject (negb (String.eqb (ab_schema o) POST_BOOT_EVIDENCE_SCHEMA_V6)
          || negb (bool_decide (dp_stage (tx_payload tx) = PostBootMeasuring))
          || String.eqb (ab_boot_id o) (dp_baseline_boot_id (tx_payload tx)))
    (Measurement "boot identity") ;?
  let p := mf_payload manifest in
  reject (negb (String.eqb (ab_booted_entry o) (be_id (pm_experimental_entry p)))
          || negb (String.eqb (ab_kernel_release o) (bo_kernel_release (pm_boot p)))
          || negb (String.eqb (ab_command_line o) (be_options (pm_experimental_entry p)))
          || negb (str_contains (pm_validation_marker p) (ab_command_line o)))
    (Measurement "boot readback") ;?
  reject (negb (zswap_eqb (ab_zswap o) {| zs_parameters := pm_experimental_zswap p |})
          || negb (zram_eqb (ab_protected_zram o) (pm_protected_zram p))
          || negb (topology_eqb (ab_topology o) (pm_topology p))
          || negb (ab_unit_active o)
          || negb (ab_workload_scope_absent o)) (Measurement "runtime identity") ;?
  let? swap := ok_or (find_swap (si_path (pm_swapfile p)) (ab_swaps o))
                 (Measurement "swap absent") in
  reject (negb (si_active swap)
          || negb (si_priority swap =? si_priority (pm_swapfile p))
          || workload_rejected p o
          || runtime_rejected (ab_runtime_observation o)
          || ab_production_activation o) (Measurement "safety or measurement gate").

Definition verify_baseline_before_cleanup_v6 (manifest : TieringBootValidationPreparedManifestV6)
    (tx : DurableTransactionV6) (o : BaselineRestoreObservationV6) :
    result unit BootValidationV6Error :=
  let p := mf_payload manifest in
  let boot := pm_boot p in
  reject (negb (String.eqb (rs_schema o) FINAL_RESTORE_SCHEMA_V6)
          || negb (bool_decide (dp_stage (tx_payload tx) = BaselineBoot))
          || String.eqb (rs_boot_id o) (dp_baseline_boot_id (tx_payload tx))
          || negb (String.eqb (rs_booted_entry o) (be_id (bo_current_entry boot)))
          || negb (String.eqb (rs_command_line o) (bo_current_command_line boot))
          || str_contains (pm_validation_marker p) (rs_command_line o)
          || negb (zswap_eqb (rs_zswap o) (pm_baseline_zswap p))
          || negb (zram_eqb (rs_protected_zram o) (pm_protected_zram p))
          || negb (list_eqb swap_eqb (rs_swaps o) (pm_baseline_swaps p))
          || negb (String.eqb (rs_default_entry o) (be_id (bo_default_entry boot)))
          || negb (list_str_eqb (rs_boot_order o) (bo_boot_order boot))
          || negb (option_str_eqb (rs_one_shot o) (bo_prior_one_shot boot))
          || rs_production_activation o) (Readback "baseline must be proven before deletion").

(** the acceptance of the measurement in [initialize_and_measure_baseline_v6] *)
Definition baseline_measurement_rejected (p : PreparedManifestPayloadV6) (baseline_boot_id : string)
    (o : BaselineMeasurementObservationV6) : bool :=
  negb (String.eqb (bm_schema o) ZRAM_BASELINE_EVIDENCE_V6)
  || negb (String.eqb (bm_validation_id o) (pm_validation_id p))
  || negb (String.eqb (bm_boot_id o) baseline_boot_id)
  || negb (zram_eqb (bm_zram o) (pm_protected_zram p))
  || negb (zswap_eqb (bm_zswap o) (pm_baseline_zswap p))
  || negb (list_eqb swap_eqb (bm_swaps o) (pm_baseline_swaps p))
  || negb (String.eqb (bm_workload_protocol o) WORKLOAD_PROTOCOL_V6)
  || negb (is_sha256 (bm_workload_sha256 o))
  || (bm_bytes_touched o =? 0)
  || is_none (bm_latency_ns o)
  || negb (option_z_eqb (bm_cgroup_oom_delta o) (Some 0))
  || negb (option_z_eqb (bm_cgroup_oom_kill_delta o) (Some 0))
  || negb (bm_content_verified o)
  || negb (bm_cleanup_passed o)
  || negb (bm_scope_absent o)
  || bm_production_activation o.
End Contract.

(** ** A concrete codec and manifest *)
Module Sample.

(** digits of a polynomial hash, and documents that show what identifies them *)
Definition hex_digit (n : Z) : ascii :=
  match n with
  | 0 => "0" | 1 => "1" | 2 => "2" | 3 => "3" | 4 => "4" | 5 => "5" | 6 => "6" | 7 => "7"
  | 8 => "8" | 9 => "9" | 10 => "a" | 11 => "b" | 12 => "c" | 13 => "d" | 14 => "e" | _ => "f"
  end%char.
Fixpoint digits (n : nat) (z : Z) : string :=
  match n with
  | O => ""%string
  | S n' => String (hex_digit (z mod 16)) (digits n' (z / 16))
  end.
Fixpoint rolling (acc : Z) (s : string) : Z :=
  match s with
  | EmptyString => acc
  | String c s' => rolling (Z.land (acc * 257 + Z.of_N (N_of_ascii c)) 1152921504606846975) s'
  end.
Definition show_record (r : MutationRecordV6) : string :=
  (mr_operation r ++ " " ++ mr_target r ++ " " ++ (if mr_completed r then "1" else "0") ++ ";")%string.
Definition show_transaction (p : DurableTransactionPayloadV6) : string :=
  (dp_validation_id p ++ " " ++ dp_manifest_sha256 p ++ " "
   ++ (if bool_decide (dp_stage p = Applied) then "applied" else "other") ++ " "
   ++ dp_baseline_boot_id p ++ " " ++ dp_current_boot_id p ++ " "
   ++ String.concat "" (map show_record (dp_mutation_records p)))%string.
Definition show_document (d : Document) : string :=
  match d with
  | DManifestPayload p => "manifest payload " ++ pm_validation_id p
  | DManifest m => "manifest " ++ pm_validation_id (mf_payload m)
  | DTransactionPayload p => "payload " ++ show_transaction p
  | DTransaction t => "transaction " ++ show_transaction (tx_payload t) ++ tx_payload_sha256 t
  | DString s => "string " ++ s
  | _ => "document"
  end.
#[export] Instance codec : Codec := {
  to_vec := show_document;
  to_vec_pretty := show_document;
  sha256_hex s := digits 64 (rolling 7 s)
}.

Definition id : string := "20240102-abcd".
Definition root : string := path_join TRANSACTION_ROOT_V6 id.
Definition hash : string := digits 64 0.
Definition marker : string := "nemor.phase6_validation=" ++ id.
Definition commit : string := digits 40 0.
Definition kernel : string := "/vmlinuz-linux".
Definition initrd : string := "/initramfs-linux.img".
Definition current : BootEntryIdentityV6 :=
  {| be_id := "arch.conf"; be_path := "/boot/loader/entries/arch.conf"; be_sha256 := hash;
     be_title := "Arch Linux"; be_linux_or_efi := kernel; be_initrds := [initrd];
     be_options := "root=UUID=1 rw" |}.
Definition options : string :=
  "root=UUID=1 rw " ++ marker ++ " systemd.wants=" ++ unit_name id ++ " zswap.enabled=1".
Definition entry_with (h : string) : BootEntryIdentityV6 :=
  {| be_id := entry_name id; be_path := path_join ENTRY_ROOT (entry_name id); be_sha256 := h;
     be_title := "Nemor validation"; be_linux_or_efi := kernel; be_initrds := [initrd];
     be_options := options |}.
Definition entry_sha256 : string := canonical_bytes_sha256 (render_type1_entry_v6 (entry_with "")).
Definition entry : BootEntryIdentityV6 := entry_with entry_sha256.
Definition helper : string := path_join root "bin/nemor-tiering-boot-validation".
Definition binary : BinaryIdentityV6 :=
  {| bi_path := "/usr/bin/nemor-tiering-boot-validation"; bi_sha256 := hash;
     bi_embedded_commit := commit |}.
Definition plan : StagedBinaryPlanV6 :=
  {| sb_source := binary; sb_destination := helper; sb_destination_mode := 493;
     sb_destination_uid := 0; sb_destination_gid := 0; sb_require_single_link := true;
     sb_source_uid := 1000; sb_source_gid := 1000; sb_source_mode := 493;
     sb_source_link_count := 1; sb_source_device := 5; sb_source_inode := 9 |}.
Definition zswap (enabled : string) : gmap string string :=
  list_to_map [("enabled", enabled); ("compressor", "zstd"); ("zpool", "zsmalloc");
               ("max_pool_percent", "20"); ("accept_threshold_percent", "90");
               ("shrinker_enabled", "Y")]%string.
Definition zram : ZramIdentityV6 :=
  {| zr_device := "/dev/zram0"; zr_provider := "systemd-zram-generator"; zr_active := true;
     zr_priority := 100; zr_disksize_bytes := 4294967296; zr_compressor := "zstd";
     zr_memory_limit_bytes := 0; zr_unit := "dev-zram0.swap" |}.
Definition baseline_swap : SwapIdentityV6 :=
  {| si_path := "/dev/zram0"; si_kind := "partition"; si_size_bytes := 4294967296;
     si_priority := 100; si_uuid := None; si_active := true |}.
Definition swapfile : SwapIdentityV6 :=
  {| si_path := path_join root "backing.swap"; si_kind := "file"; si_size_bytes := 268435456;
     si_priority := 200; si_uuid := None; si_active := false |}.
Definition topology : StorageTopologyIdentityV6 :=
  {| ti_storage_profile_version := STORAGE_PROFILE_VERSION; ti_profile := NvmeSsd;
     ti_chain := [{| bl_path := "/dev/nvme0n1"; bl_kind := "disk"; bl_major := 259; bl_minor := 0;
                     bl_parent := None |}];
     ti_physical := {| pd_path := "/dev/nvme0n1"; pd_major := 259; pd_minor := 0;
                       pd_transport := "nvme"; pd_rotational := false; pd_model := "disk";
                       pd_serial := Some "serial"%string; pd_wwn := None;
                       pd_capacity_bytes := 1000204886016; pd_logical_block_size := 512;
                       pd_physical_block_size := 512 |};
     ti_filesystem := {| fi_filesystem := "btrfs"; fi_uuid_or_fsid := "uuid";
                         fi_mount_source := "/dev/nvme0n1"; fi_mount_point := "/";
                         fi_mount_id := 20; fi_device_major := 0; fi_device_minor := 30 |};
     ti_composite := false; ti_ambiguous := false; ti_confidence := "high" |}.
Definition boot : BootIdentityV6 :=
  {| bo_bootloader := "systemd-boot-type1"; bo_bootloader_version := "255";
     bo_current_entry := current; bo_default_entry := current; bo_boot_order := ["0001"%string];
     bo_prior_one_shot := None; bo_esp_mount := "/boot"; bo_esp_device := "/dev/nvme0n1p1";
     bo_esp_filesystem := "vfat"; bo_esp_uuid := "esp"; bo_esp_mount_id := 30;
     bo_esp_device_major := 259; bo_esp_device_minor := 1; bo_secure_boot := "disabled";
     bo_kernel_release := "6.6.0";
     bo_referenced_files := [{| rf_path := kernel; rf_sha256 := hash |};
                             {| rf_path := initrd; rf_sha256 := hash |}];
     bo_current_command_line := "root=UUID=1 rw" |}.
Definition artifact (kind : OwnedArtifactKindV6) (path content : string) (mode : Z) : OwnedArtifactV6 :=
  {| oa_kind := kind; oa_path := path; oa_sha256 := canonical_bytes_sha256 content;
     oa_mode := mode; oa_owner_uid := 0; oa_owner_gid := 0; oa_content := content |}.
Definition payload_with (artifacts : list OwnedArtifactV6) : PreparedManifestPayloadV6 :=
  {| pm_contract_version := BOOT_VALIDATION_CONTRACT_VERSION_V6;
     pm_rule_version := TIERING_RULE_VERSION; pm_validation_id := id; pm_prepared_uid := 1000;
     pm_prepared_gid := 1000; pm_source_commit := commit; pm_source_state_sha256 := hash;
     pm_binaries := {[ "nemor-tiering-boot-validation"%string := binary ]};
     pm_config_path := "/etc/nemor.toml"; pm_config_sha256 := hash;
     pm_material_environment_sha256 := hash; pm_topology := topology;
     pm_baseline_swaps := [baseline_swap]; pm_protected_zram := zram;
     pm_baseline_zswap := {| zs_parameters := zswap "N" |}; pm_experimental_zswap := zswap "Y";
     pm_boot := boot; pm_experimental_entry := entry; pm_validation_marker := marker;
     pm_swapfile := swapfile; pm_owned_artifacts := artifacts; pm_transaction_root := root;
     pm_workload := {| wc_protocol := WORKLOAD_PROTOCOL_V6; wc_seed := 1; wc_bytes := 67108864;
                       wc_iterations := 4; wc_timeout_seconds := 120;
                       wc_maximum_write_bytes := 268435456 |};
     pm_staged_helper := plan; pm_recovery_entry := "arch.conf"; pm_production_activation := false |}.
Definition payload : PreparedManifestPayloadV6 :=
  payload_with
    [artifact Type1Entry (path_join ENTRY_ROOT (entry_name id)) (render_type1_entry_v6 entry) 384;
     artifact ValidationUnit (path_join UNIT_ROOT (unit_name id))
       (render_validation_unit_v6 (payload_with []) helper) 420;
     {| oa_kind := HelperBinary; oa_path := helper; oa_sha256 := hash; oa_mode := 493;
        oa_owner_uid := 0; oa_owner_gid := 0; oa_content := "" |}].
Definition manifest : TieringBootValidationPreparedManifestV6 := seal_manifest payload.

Definition preflight : PreflightObservationV6 :=
  {| po_schema := PREFLIGHT_SCHEMA_V6; po_uid := 0; po_gid := 0; po_sudo_uid := Some 1000;
     po_sudo_gid := Some 1000; po_host_identity_sha256 := hash; po_source_matches := true;
     po_binaries_match := true; po_config_matches := true; po_topology_matches := true;
     po_boot_matches := true; po_bootloader_type_matches := true;
     po_bootloader_version_matches := true; po_current_entry_semantics_match := true;
     po_current_entry_hash_matches := true; po_current_entry_path_matches := true;
     po_default_entry_semantics_match := true; po_default_entry_hash_matches := true;
     po_default_entry_path_matches := true; po_referenced_boot_files_match := true;
     po_kernel_release_matches := true; po_command_line_matches := true;
     po_esp_device_matches := true; po_esp_filesystem_matches := true; po_esp_uuid_matches := true;
     po_esp_mount_matches := true; po_boot_order_matches := true; po_one_shot_matches := true;
     po_zram_matches := true; po_zswap_matches := true; po_parents_safe := true;
     po_transaction_hierarchy_safe := true; po_staged_source_binary_matches := true;
     po_validation_destinations_absent := true; po_esp_free_bytes := 2097152;
     po_swap_free_bytes := 335544320; po_package_update_absent := true;
     po_secure_boot_compatible := true; po_ac_power := None; po_stale_state_absent := true;
     po_validation_process_absent := true; po_unrelated_mutation_absent := true;
     po_mutation_count := 0; po_ready := true |}.

Example manifest_valid : validate_manifest manifest = Ok tt.
Proof. vm_compute. reflexivity. Qed.
End Sample.

(** ** Lemmas *)
Module Facts.
Section Facts.
Context `{Codec}.

Lemma path_eq_key p q : path_eq p q = true <-> path_key p = path_key q.
Proof. apply bool_decide_eq_true. Qed.
Lemma path_mem_keys p l : path_mem p l = true <-> path_key p ∈ map path_key l.
Proof.
  unfold path_mem. rewrite existsb_exists, list_elem_of_In, in_map_iff. split.
  - intros (q & Hq & Heq%path_eq_key). by exists q.
  - intros (q & Heq & Hq). exists q. split; [done |]. by apply path_eq_key.
Qed.

(** what the loop over the artifacts requires of each of them *)
Definition artifact_ok (p : PreparedManifestPayloadV6) (a : OwnedArtifactV6) : Prop :=
  is_absolute (oa_path a) = true /\ path_under "/usr/lib" (oa_path a) = false /\
  path_key (oa_path a) =
    path_key (match oa_kind a with
              | Type1Entry => be_path (pm_experimental_entry p)
              | ValidationUnit => path_join UNIT_ROOT (unit_name (pm_validation_id p))
              | HelperBinary => helper_path p
              end) /\
  oa_owner_uid a = 0 /\ oa_owner_gid a = 0 /\ In (oa_mode a) [384; 448; 420; 493] /\
  (oa_kind a <> HelperBinary -> sha256_hex (oa_content a) = oa_sha256 a).

Lemma owned_path_ok p a : validate_owned_path p a = Ok tt ->
  is_absolute (oa_path a) = true /\ path_under "/usr/lib" (oa_path a) = false /\
  path_key (oa_path a) =
    path_key (match oa_kind a with
              | Type1Entry => be_path (pm_experimental_entry p)
              | ValidationUnit => path_join UNIT_ROOT (unit_name (pm_validation_id p))
              | HelperBinary => helper_path p
              end).
Proof.
  unfold validate_owned_path. intros Hv. inv_ok. bools.
  repeat split; try done. by destruct (oa_kind a); apply path_eq_key.
Qed.
Lemma artifacts_ok p l : forall seen, validate_artifacts p seen l = Ok tt ->
  Forall (artifact_ok p) l /\ NoDup (map (fun a => path_key (oa_path a)) l) /\
  Forall (fun a => path_mem (oa_path a) seen = false) l.
Proof.
  induction l as [|a l IH]; intros seen Hv; cbn [validate_artifacts map] in *; [by repeat constructor |].
  destruct (validate_owned_path p a) as [[]|] eqn:Ep; [| done]. inv_ok. bools.
  destruct (owned_path_ok p a Ep) as (Hp1 & Hp2 & Hp3).
  destruct (IH _ Hv) as (Ha & Hn & Hs). split; [constructor; [| done] | split].
  - unfold artifact_ok. repeat split; try done; try lia.
    + match goal with E : existsb _ _ = true |- _ => apply existsb_exists in E as (mode & Hm & ?%Z.eqb_eq) end.
      congruence.
    + intros Hk. match goal with E : negb (bool_decide _) && _ = false |- _ => rename E into Eh end.
      rewrite bool_decide_eq_false_2 in Eh by done. simpl in Eh. apply negb_false_iff in Eh.
      by apply String.eqb_eq.
  - apply list.NoDup_cons. split; [| done]. intros Hin%list_elem_of_In%in_map_iff.
    destruct Hin as (b & Hb & Hin). rewrite Forall_forall in Hs. specialize (Hs b Hin).
    apply not_true_iff_false in Hs. apply Hs. apply path_mem_keys. rewrite Hb. left.
  - constructor; [done |]. eapply Forall_impl; [| exact Hs]. intros b Hb. simpl in Hb.
    unfold path_mem in *. simpl in Hb. by apply orb_false_iff in Hb as [_ ?].
Qed.

Lemma find_kind_some k p a : find_kind k p = Some a -> In a (pm_owned_artifacts p) /\ oa_kind a = k.
Proof.
  unfold find_kind. induction (pm_owned_artifacts p) as [|b l IH]; simpl; [done |].
  destruct (bool_decide (oa_kind b = k)) eqn:Ek.
  - intros [= ->]. apply bool_decide_eq_true in Ek. auto.
  - intros Hf. destruct (IH Hf). auto.
Qed.
(** three different kinds, each of them once *)
Lemma one_of_each p e u h :
  Forall (artifact_ok p) (pm_owned_artifacts p) ->
  NoDup (map (fun a => path_key (oa_path a)) (pm_owned_artifacts p)) ->
  find_kind Type1Entry p = Some e -> find_kind ValidationUnit p = Some u ->
  find_kind HelperBinary p = Some h -> Permutation (pm_owned_artifacts p) [e; u; h].
Proof.
  intros Ha Hn [He Ke]%find_kind_some [Hu Ku]%find_kind_some [Hh Kh]%find_kind_some.
  rewrite Forall_forall in Ha.
  assert (Hkind : forall a b, In a (pm_owned_artifacts p) -> In b (pm_owned_artifacts p) ->
                  oa_kind a = oa_kind b -> a = b).
  { intros a b Hia Hib Hk.
    destruct (Ha a Hia) as (_ & _ & Pa & _). destruct (Ha b Hib) as (_ & _ & Pb & _).
    rewrite Hk, <-Pb in Pa. clear -Hn Hia Hib Pa.
    induction (pm_owned_artifacts p) as [|c l IH]; [done |]. simpl in Hn.
    apply list.NoDup_cons in Hn as [Hc Hn].
    assert (Hnot : forall x, In x l -> path_key (oa_path x) = path_key (oa_path c) -> False).
    { intros x Hx E. apply Hc. rewrite <-E. apply list_elem_of_In, in_map_iff. by exists x. }
    destruct Hia as [->|Hia], Hib as [->|Hib]; [done | | | by apply IH]; exfalso; eauto. }
  apply NoDup_Permutation.
  - apply (NoDup_fmap_1 (fun a => path_key (oa_path a))). exact Hn.
  - repeat constructor; rewrite ?list_elem_of_In; simpl; intuition congruence.
  - intros a. rewrite !list_elem_of_In. split.
    + intros Hi. simpl. destruct (oa_kind a) eqn:Ek; [left | right; left | right; right; left];
        apply Hkind; congruence.
    + simpl. intuition congruence.
Qed.

Lemma manifest_payload m : validate_manifest m = Ok tt ->
  validate_payload (mf_payload m) = Ok tt /\
  canonical_json_sha256_v6 (DManifestPayload (mf_payload m)) = mf_payload_sha256 m.
Proof.
  unfold validate_manifest. intros Hv. inv_ok. bools. split; [done |].
  first [done | by apply String.eqb_eq].
Qed.
Lemma payload_parts p : validate_payload p = Ok tt ->
  validate_sources p = Ok tt /\ validate_staged_helper p = Ok tt /\
  validate_topology (pm_topology p) = Ok tt /\ validate_baseline_swaps p = Ok tt /\
  validate_boot_identity p = Ok tt /\ validate_boot_artifacts p = Ok tt /\
  validate_swap p = Ok tt /\ validate_artifacts p [] (pm_owned_artifacts p) = Ok tt /\
  validate_workload (pm_workload p) = Ok tt /\
  pm_recovery_entry p = be_id (bo_current_entry (pm_boot p)) /\
  path_key (pm_transaction_root p) = path_key (path_join TRANSACTION_ROOT_V6 (pm_validation_id p)).
Proof.
  unfold validate_payload, validate_boot. intros Hv.
  repeat match goal with
  | E : match ?r with Ok _ => _ | Err _ => _ end = Ok tt |- _ =>
      let E' := fresh "E" in destruct r as [[]|] eqn:E'; [| discriminate E]
  end.
  repeat match goal with E : reject _ _ = Ok _ |- _ => apply reject_ok in E end. bools.
  repeat split; try done; first [done | by apply String.eqb_eq | by apply path_eq_key].
Qed.

Lemma identity_facts p : validate_boot_identity p = Ok tt ->
  be_id (pm_experimental_entry p) <> be_id (bo_current_entry (pm_boot p)) /\
  be_id (pm_experimental_entry p) <> be_id (bo_default_entry (pm_boot p)) /\
  path_key (be_linux_or_efi (pm_experimental_entry p)) =
    path_key (be_linux_or_efi (bo_current_entry (pm_boot p))) /\
  str_contains (pm_validation_marker p) (be_options (pm_experimental_entry p)) = true /\
  path_key (be_path (pm_experimental_entry p)) =
    path_key (path_join ENTRY_ROOT (entry_name (pm_validation_id p))).
Proof.
  unfold validate_boot_identity. intros Hv. inv_ok. bools.
  repeat split; try done; by apply path_eq_key.
Qed.
Lemma swap_facts p : validate_swap p = Ok tt ->
  path_key (si_path (pm_swapfile p)) = path_key (path_join (pm_transaction_root p) "backing.swap") /\
  64 * 1024 * 1024 <= si_size_bytes (pm_swapfile p) <= 2 * 1024 * 1024 * 1024.
Proof.
  unfold validate_swap. intros Hv. apply reject_ok in Hv. bools.
  split; [by apply path_eq_key | lia].
Qed.
Lemma sources_id p : validate_sources p = Ok tt -> valid_id (pm_validation_id p) = true.
Proof. unfold validate_sources. intros Hv. inv_ok. by bools. Qed.
Lemma boot_artifacts_facts p : validate_boot_artifacts p = Ok tt -> exists e u h,
  find_kind Type1Entry p = Some e /\ find_kind ValidationUnit p = Some u /\
  find_kind HelperBinary p = Some h /\
  oa_content e = render_type1_entry_v6 (pm_experimental_entry p) /\
  oa_content u = render_validation_unit_v6 p (sb_destination (pm_staged_helper p)) /\
  oa_sha256 h = bi_sha256 (sb_source (pm_staged_helper p)).
Proof.
  unfold validate_boot_artifacts, ok_or.
  destruct (find_kind Type1Entry p) as [e|]; [| done].
  destruct (find_kind ValidationUnit p) as [u|]; [| by intros Hv; inv_ok].
  destruct (find_kind HelperBinary p) as [h|]; [| by intros Hv; inv_ok].
  intros Hv. inv_ok. bools. by exists e, u, h.
Qed.
Lemma three_artifacts p :
  validate_boot_artifacts p = Ok tt -> validate_boot_identity p = Ok tt ->
  Forall (artifact_ok p) (pm_owned_artifacts p) ->
  NoDup (map (fun a => path_key (oa_path a)) (pm_owned_artifacts p)) ->
  exists e u h,
    Permutation (pm_owned_artifacts p) [e; u; h] /\
    path_key (oa_path e) = path_key (path_join ENTRY_ROOT (entry_name (pm_validation_id p))) /\
    path_key (oa_path u) = path_key (path_join UNIT_ROOT (unit_name (pm_validation_id p))) /\
    path_key (oa_path h) = path_key (helper_path p) /\
    oa_content e = render_type1_entry_v6 (pm_experimental_entry p) /\
    oa_content u = render_validation_unit_v6 p (sb_destination (pm_staged_helper p)) /\
    sha256_hex (oa_content e) = oa_sha256 e /\ sha256_hex (oa_content u) = oa_sha256 u /\
    oa_sha256 h = bi_sha256 (sb_source (pm_staged_helper p)).
Proof.
  intros Hb (_ & _ & _ & _ & He)%identity_facts Ha Hn.
  destruct (boot_artifacts_facts p Hb) as (e & u & h & Fe & Fu & Fh & Ce & Cu & Ch).
  pose proof (one_of_each p e u h Ha Hn Fe Fu Fh) as Hperm.
  apply find_kind_some in Fe as [Ie Ke], Fu as [Iu Ku], Fh as [Ih Kh].
  rewrite Forall_forall in Ha.
  destruct (Ha e Ie) as (_ & _ & Pe & _ & _ & _ & De).
  destruct (Ha u Iu) as (_ & _ & Pu & _ & _ & _ & Du).
  destruct (Ha h Ih) as (_ & _ & Ph & _).
  rewrite Ke in Pe, De. rewrite Ku in Pu, Du. rewrite Kh in Ph.
  exists e, u, h. split; [done |]. split; [by rewrite Pe |].
  split; [done |]. split; [done |]. split; [done |]. split; [done |].
  split; [by apply De |]. split; [by apply Du | done].
Qed.
Lemma baseline_swaps_apart p : validate_baseline_swaps p = Ok tt ->
  Forall (fun s => path_key (si_path s) <> path_key (si_path (pm_swapfile p))) (pm_baseline_swaps p).
Proof.
  unfold validate_baseline_swaps. intros Hv. inv_ok. bools.
  match goal with E : baseline_swap_rejected _ _ _ = false |- _ => revert E end. clear.
  generalize (@nil string). induction (pm_baseline_swaps p) as [|s l IH]; intros seen Hr; [constructor |].
  cbn [baseline_swap_rejected] in Hr. bools. constructor; [| by eapply IH].
  rewrite <-path_eq_key. congruence.
Qed.

Lemma derived_ready_iff m o : validate_manifest m = Ok tt ->
  derived_preflight_ready_v6 m o = true <->
  Forall (fun agrees => agrees o = true)
    [po_source_matches; po_binaries_match; po_config_matches; po_topology_matches;
     po_boot_matches; po_bootloader_type_matches; po_bootloader_version_matches;
     po_current_entry_semantics_match; po_current_entry_hash_matches;
     po_current_entry_path_matches; po_default_entry_semantics_match;
     po_default_entry_hash_matches; po_default_entry_path_matches;
     po_referenced_boot_files_match; po_kernel_release_matches; po_command_line_matches;
     po_esp_device_matches; po_esp_filesystem_matches; po_esp_uuid_matches;
     po_esp_mount_matches; po_boot_order_matches; po_one_shot_matches; po_zram_matches;
     po_zswap_matches; po_parents_safe; po_transaction_hierarchy_safe;
     po_staged_source_binary_matches; po_validation_destinations_absent;
     po_package_update_absent; po_secure_boot_compatible; po_stale_state_absent;
     po_validation_process_absent; po_unrelated_mutation_absent] /\
  po_ac_power o <> Some false /\ 1024 * 1024 <= po_esp_free_bytes o /\
  si_size_bytes (pm_swapfile (mf_payload m)) + 64 * 1024 * 1024 <= po_swap_free_bytes o.
Proof.
  intros Hv. destruct (manifest_payload m Hv) as [Hp _].
  destruct (payload_parts _ Hp) as (_ & _ & _ & _ & _ & _ & [_ Hsize]%swap_facts & _).
  assert (Hall : forall fs : list (PreflightObservationV6 -> bool),
    forallb id (map (fun f => f o) fs) = true <-> Forall (fun agrees => agrees o = true) fs).
  { intros fs. rewrite forallb_forall, Forall_forall. setoid_rewrite in_map_iff. split.
    - intros Ha f Hf. apply (Ha (f o)). by exists f.
    - intros Ha b (f & <- & Hf). by apply Ha. }
  rewrite <-Hall. unfold derived_preflight_ready_v6, u64_sat_add.
  rewrite !andb_true_iff, !Z.leb_le, Z.min_l by (unfold u64_max; lia).
  assert (Hac : negb (option_eqb Bool.eqb (po_ac_power o) (Some false)) = true <->
                po_ac_power o <> Some false)
    by (destruct (po_ac_power o) as [[]|]; simpl; intuition congruence).
  rewrite Hac. cbn [map]. tauto.
Qed.
Lemma user_iff (o : PreflightObservationV6) p (root : bool) :
  (if root then po_uid o = 0 /\ po_sudo_uid o = Some (pm_prepared_uid p) /\
                po_sudo_gid o = Some (pm_prepared_gid p)
   else po_uid o = pm_prepared_uid p /\ po_gid o = pm_prepared_gid p) <->
  (if root
   then negb (po_uid o =? 0) || negb (option_z_eqb (po_sudo_uid o) (Some (pm_prepared_uid p)))
        || negb (option_z_eqb (po_sudo_gid o) (Some (pm_prepared_gid p)))
   else negb (po_uid o =? pm_prepared_uid p) || negb (po_gid o =? pm_prepared_gid p)) = false.
Proof.
  assert (He : forall a b, option_z_eqb a (Some b) = true <-> a = Some b).
  { intros [a|] b; simpl; [rewrite Z.eqb_eq | ]; intuition congruence. }
  destruct root; rewrite !orb_false_iff, !negb_false_iff, ?He, !Z.eqb_eq; tauto.
Qed.
End Facts.
End Facts.

(** ** Theorems *)
Module Theorems.
Section Theorems.
Context `{Codec}.

(** C10: a manifest that [validate] accepts owns exactly three files, one of each kind: the
    loader entry that boots the kernel of the current entry with the marker, the unit that
    the entry wants, and the helper; they are at the three paths that the validation id
    determines, owned by root, with the content that the digests name. Its swapfile lies in
    its transaction root and is none of the swaps of the baseline, and the entry to recover
    with is the current one, which the experimental entry does not replace. *)
Theorem manifest_confines m (Hv : validate_manifest m = Ok tt) :
  let p := mf_payload m in
  let id := pm_validation_id p in
  let entry := pm_experimental_entry p in
  let root := path_key (path_join TRANSACTION_ROOT_V6 id) in
  valid_id id = true /\
  path_key (pm_transaction_root p) = root /\
  (exists e u h,
     Permutation (pm_owned_artifacts p) [e; u; h] /\
     path_key (oa_path e) = path_key (path_join ENTRY_ROOT (entry_name id)) /\
     path_key (oa_path u) = path_key (path_join UNIT_ROOT (unit_name id)) /\
     path_key (oa_path h) = path_key (helper_path p) /\
     oa_content e = render_type1_entry_v6 entry /\
     oa_content u = render_validation_unit_v6 p (sb_destination (pm_staged_helper p)) /\
     sha256_hex (oa_content e) = oa_sha256 e /\ sha256_hex (oa_content u) = oa_sha256 u /\
     oa_sha256 h = bi_sha256 (sb_source (pm_staged_helper p))) /\
  Forall (fun a => oa_owner_uid a = 0 /\ oa_owner_gid a = 0 /\ is_absolute (oa_path a) = true /\
                   path_under "/usr/lib" (oa_path a) = false) (pm_owned_artifacts p) /\
  path_key (si_path (pm_swapfile p)) = path_key (path_join (pm_transaction_root p) "backing.swap") /\
  64 * 1024 * 1024 <= si_size_bytes (pm_swapfile p) <= 2 * 1024 * 1024 * 1024 /\
  Forall (fun s => path_key (si_path s) <> path_key (si_path (pm_swapfile p))) (pm_baseline_swaps p) /\
  pm_recovery_entry p = be_id (bo_current_entry (pm_boot p)) /\
  be_id entry <> be_id (bo_current_entry (pm_boot p)) /\
  be_id entry <> be_id (bo_default_entry (pm_boot p)) /\
  path_key (be_linux_or_efi entry) = path_key (be_linux_or_efi (bo_current_entry (pm_boot p))) /\
  str_contains (pm_validation_marker p) (be_options entry) = true.
Proof.
  intros p id entry root. destruct (Facts.manifest_payload m Hv) as [Hp _].
  destruct (Facts.payload_parts _ Hp)
    as (Hs & _ & _ & Hb & Hi & Ha & Hw & Hl & _ & Hr & Hroot).
  destruct (Facts.artifacts_ok _ _ _ Hl) as (Hok & Hn & _).
  destruct (Facts.identity_facts _ Hi) as (I1 & I2 & I3 & I4 & I5).
  destruct (Facts.swap_facts _ Hw) as (S1 & S2).
  split; [apply (Facts.sources_id _ Hs) |]. split; [exact Hroot |].
  split; [by apply Facts.three_artifacts |].
  split; [eapply Forall_impl; [| exact Hok]; by intros a (? & ? & _ & ? & ? & _) |].
  split; [exact S1 |]. split; [exact S2 |].
  split; [by apply Facts.baseline_swaps_apart |]. done.
Qed.

(** a preflight is accepted exactly when it mutated nothing, belongs to the host of the
    manifest and to its user (as root through [sudo] from that user), every observation
    agrees, no power supply is known to be missing and the partitions have the space that
    the swapfile needs: what the observation says of its own readiness changes nothing. *)
Theorem preflight_accepted_iff m o root (Hv : validate_manifest m = Ok tt) :
  validate_preflight_v6 m o root = Ok tt <->
  po_schema o = PREFLIGHT_SCHEMA_V6 /\ po_mutation_count o = 0 /\
  po_host_identity_sha256 o = pm_material_environment_sha256 (mf_payload m) /\
  (if root then po_uid o = 0 /\ po_sudo_uid o = Some (pm_prepared_uid (mf_payload m)) /\
                po_sudo_gid o = Some (pm_prepared_gid (mf_payload m))
   else po_uid o = pm_prepared_uid (mf_payload m) /\ po_gid o = pm_prepared_gid (mf_payload m)) /\
  po_ready o = true /\
  Forall (fun agrees => agrees o = true)
    [po_source_matches; po_binaries_match; po_config_matches; po_topology_matches;
     po_boot_matches; po_bootloader_type_matches; po_bootloader_version_matches;
     po_current_entry_semantics_match; po_current_entry_hash_matches;
     po_current_entry_path_matches; po_default_entry_semantics_match;
     po_default_entry_hash_matches; po_default_entry_path_matches;
     po_referenced_boot_files_match; po_kernel_release_matches; po_command_line_matches;
     po_esp_device_matches; po_esp_filesystem_matches; po_esp_uuid_matches;
     po_esp_mount_matches; po_boot_order_matches; po_one_shot_matches; po_zram_matches;
     po_zswap_matches; po_parents_safe; po_transaction_hierarchy_safe;
     po_staged_source_binary_matches; po_validation_destinations_absent;
     po_package_update_absent; po_secure_boot_compatible; po_stale_state_absent;
     po_validation_process_absent; po_unrelated_mutation_absent] /\
  po_ac_power o <> Some false /\ 1024 * 1024 <= po_esp_free_bytes o /\
  si_size_bytes (pm_swapfile (mf_payload m)) + 64 * 1024 * 1024 <= po_swap_free_bytes o.
Proof.
  rewrite <-(Facts.derived_ready_iff m o Hv). unfold validate_preflight_v6. rewrite Hv.
  unfold reject. rewrite <-(String.eqb_eq (po_schema o)), <-(Z.eqb_eq (po_mutation_count o)).
  rewrite <-(String.eqb_eq (po_host_identity_sha256 o)), Facts.user_iff.
  destruct (String.eqb (po_schema o) _); simpl; [| intuition discriminate].
  destruct (po_mutation_count o =? 0); simpl; [| intuition discriminate].
  destruct (String.eqb (po_host_identity_sha256 o) _); simpl; [| intuition discriminate].
  destruct root; simpl;
    [destruct (negb (po_uid o =? 0) || _ || _) | destruct (negb (po_uid o =? _) || _)];
    simpl; try (intuition discriminate).
  all: destruct (po_ready o), (derived_preflight_ready_v6 m o); simpl; intuition discriminate.
Qed.
End Theorems.
End Theorems.

(** ** Witnesses *)
Module Witnesses.
#[local] Existing Instance Sample.codec.
Lemma manifest_confines_witness :
  validate_manifest Sample.manifest = Ok tt /\
  Forall (fun s => path_key (si_path s) <> path_key (si_path (pm_swapfile Sample.payload)))
    (pm_baseline_swaps Sample.payload).
Proof.
  split; [vm_compute; reflexivity |].
  apply (Theorems.manifest_confines Sample.manifest). vm_compute. reflexivity.
Defined.
Lemma preflight_accepted_iff_witness :
  validate_manifest Sample.manifest = Ok tt /\
  validate_preflight_v6 Sample.manifest Sample.preflight true = Ok tt /\
  validate_preflight_v6 Sample.manifest Sample.preflight false <> Ok tt.
Proof.
  assert (Hv : validate_manifest Sample.manifest = Ok tt) by (vm_compute; reflexivity).
  split; [exact Hv |]. split.
  - apply (Theorems.preflight_accepted_iff Sample.manifest Sample.preflight true Hv).
    repeat constructor; vm_compute; congruence.
  - intros Ha. apply (Theorems.preflight_accepted_iff Sample.manifest Sample.preflight false Hv) in Ha.
    destruct Ha as (_ & _ & _ & [Hu _] & _). vm_compute in Hu. congruence.
Defined.
End Witnesses.
