(* ===== verification/BootTransaction.v ===== *)
(** crates/tiering/src/boot_validation_v6.rs, the lifecycle: the durable transaction
    and its stages, and the operations that measure the baseline, apply, select the
    boot entry, measure after the reboot and restore, over the trait
    BootLifecycleBackendV6. Shown: what a success of the application means, and that the
    cleanup deletes nothing before the baseline is verified. [Sample.Sim] is a backend on
    which the lifecycle runs. *)

From S2P Require Import Prelude F64 Text Config Classifier Policy Tiering BootContract.

(** ** Stages *)

(** the pairs of [legal_transition_v6], by the stage left *)
Definition legal_transition_v6 (from to : TransactionStageV6) : bool :=
  match from, to with
  | _, Failed => true
  | Prepared, (RootPreflighted | Recovered) => true
  | RootPreflighted, (BaselineMeasuring | Recovered) => true
  | BaselineMeasuring, (BaselineMeasured | Recovered) => true
  | BaselineMeasured, (Applying | Recovered) => true
  | Applying, (Applied | Recovered) => true
  | Applied, (OneShotSelecting | Recovered) => true
  | OneShotSelecting, (OneShotSelected | Recovered) => true
  | OneShotSelected, (ExperimentalBootDetected | Recovered) => true
  | ExperimentalBootDetected, ActivationPreparing => true
  | ActivationPreparing, (ZswapDisabling | ActivationFailed | BaselineSelecting | Recovered) => true
  | ZswapDisabling,
      (ZswapParametersApplying | ActivationFailed | BaselineSelecting | Recovered) => true
  | ZswapParametersApplying,
      (ZswapParametersApplying | ZswapEnabling | ActivationFailed | BaselineSelecting
       | Recovered) => true
  | ZswapEnabling, (SwapActivating | ActivationFailed | BaselineSelecting | Recovered) => true
  | SwapActivating, (ActivationVerified | ActivationFailed | BaselineSelecting | Recovered) => true
  | ActivationVerified, (PostBootMeasuring | BaselineSelecting) => true
  | ActivationFailed, (BaselineSelecting | Recovered) => true
  | PostBootMeasuring, (PostBootValidated | BaselineSelecting) => true
  | PostBootValidated, BaselineSelecting => true
  | BaselineSelecting, BaselineSelected => true
  | BaselineSelected, BaselineBoot => true
  | BaselineBoot, BaselineVerified => true
  | BaselineVerified, (Cleaning | Recovered) => true
  | Cleaning, (Restored | Recovered) => true
  | Failed, (BaselineSelecting | Recovered) => true
  | _, _ => false
  end.

Definition recovery_action_v6 (stage : TransactionStageV6) (currently_experimental : bool) : string :=
  match stage with
  | Prepared | RootPreflighted | BaselineMeasuring | BaselineMeasured | Applying | Applied =>
      "remove_exact_owned_before_reboot"
  | OneShotSelecting | OneShotSelected =>
      if currently_experimental then "select_exact_baseline_oneshot_preserve_artifacts"
      else "clear_exact_owned_oneshot_then_remove"
  | ExperimentalBootDetected | ActivationPreparing | ZswapDisabling | ZswapParametersApplying
  | ZswapEnabling | SwapActivating | ActivationVerified | ActivationFailed | PostBootMeasuring
  | PostBootValidated | BaselineSelecting => "select_exact_baseline_oneshot_preserve_artifacts"
  | BaselineSelected | BaselineBoot => "verify_baseline_preserve_artifacts"
  | BaselineVerified | Cleaning => "resume_exact_cleanup"
  | Restored | Recovered => "no_op"
  | Failed => "inspect_primary_error_and_resume_stage_aware"
  end.

(** ** The durable transaction *)

Section Transaction.
Context `{Codec}.
Abbreviation Tx := DurableTransactionV6.
Abbreviation E := BootValidationV6Error.

Definition seal (payload : DurableTransactionPayloadV6) : Tx :=
  {| tx_schema := DURABLE_TRANSACTION_SCHEMA_V6; tx_payload := payload;
     tx_payload_sha256 := canonical_json_sha256_v6 (DTransactionPayload payload) |}.

Definition tx_new (manifest : TieringBootValidationPreparedManifestV6) (boot_id : string) :
    result Tx E :=
  validate_manifest manifest ;?
  let p := mf_payload manifest in
  Ok (seal
    {| dp_validation_id := pm_validation_id p;
       dp_manifest_sha256 := canonical_json_sha256_v6 (DManifest manifest);
       dp_stage := Prepared; dp_baseline_boot_id := boot_id; dp_current_boot_id := boot_id;
       dp_artifact_registry := map oa_path (pm_owned_artifacts p);
       dp_swapfile_registry := [si_path (pm_swapfile p)];
       dp_unit_registry :=
         map oa_path (List.filter (fun a => bool_decide (oa_kind a = ValidationUnit))
                        (pm_owned_artifacts p));
       dp_transient_unit_registry :=
         [("nemor-phase6-workload-" ++ pm_validation_id p ++ ".scope")%string];
       dp_applied_swap_identity := None; dp_evidence_hashes := ∅; dp_mutation_records := [];
       dp_primary_error := None; dp_failed_from_stage := None; dp_secondary_errors := [];
       dp_recovery_state := "not_required"; dp_idempotence_verified := false;
       dp_activation_parameter_index := 0; dp_original_primary_error := None;
       dp_terminal_archive_sha256 := None; dp_post_boot_summary := None |}).

(** an assignment to the payload, and the one to [payload_sha256] that follows it *)
Definition modify {F} (f : DurableTransactionPayloadV6 -> DurableTransactionPayloadV6) :
    eff Tx unit F :=
  eff_upd (fun tx => {| tx_schema := tx_schema tx; tx_payload := f (tx_payload tx);
                        tx_payload_sha256 := tx_payload_sha256 tx |}).
Definition refresh {F} : eff Tx unit F :=
  eff_upd (fun tx => {| tx_schema := tx_schema tx; tx_payload := tx_payload tx;
                        tx_payload_sha256 :=
                          canonical_json_sha256_v6 (DTransactionPayload (tx_payload tx)) |}).

Definition transition (next : TransactionStageV6) : eff Tx unit E :=
  eff_read validate_transaction ;!
  let! tx := eff_get in
  eff_reject (negb (legal_transition_v6 (dp_stage (tx_payload tx)) next)) Transition ;!
  modify (set_stage next) ;!
  refresh.

Definition push_intent (operation target : string) (p : DurableTransactionPayloadV6) :
    DurableTransactionPayloadV6 :=
  set_records (dp_mutation_records p ++
    [{| mr_operation := operation; mr_target := target; mr_completed := false;
        mr_evidence_sha256 := None; mr_boot_id := dp_current_boot_id p |}]) p.
Definition record_intent {F} (operation target : string) : eff Tx unit F :=
  modify (push_intent operation target) ;! refresh.

Definition completed (evidence_sha256 : string) (r : MutationRecordV6) : MutationRecordV6 :=
  {| mr_operation := mr_operation r; mr_target := mr_target r; mr_completed := true;
     mr_evidence_sha256 := Some evidence_sha256; mr_boot_id := mr_boot_id r |}.
(** the assignments through [last_mut] *)
Fixpoint update_last {A} (f : A -> A) (l : list A) : list A :=
  match l with
  | [] => []
  | [x] => [f x]
  | x :: l' => x :: update_last f l'
  end.
Definition complete_last (evidence_sha256 : string) : eff Tx unit E :=
  let! tx := eff_get in
  eff_reject (bool_decide (dp_mutation_records (tx_payload tx) = [])) Transition ;!
  modify (fun p => set_records (update_last (completed evidence_sha256) (dp_mutation_records p)) p) ;!
  refresh.
End Transaction.

(** ** The backend *)

Class BootLifecycleBackendV6 (B : Type) := {
  persist_transaction : DurableTransactionV6 -> eff B unit string;
  create_transaction_root : TieringBootValidationPreparedManifestV6 -> eff B unit string;
  copy_prepared_manifest : TieringBootValidationPreparedManifestV6 -> eff B unit string;
  persist_evidence : string -> string -> eff B unit string;
  create_swapfile : TieringBootValidationPreparedManifestV6 -> eff B SwapIdentityV6 string;
  create_artifact : OwnedArtifactV6 -> eff B unit string;
  stage_helper : StagedBinaryPlanV6 -> eff B unit string;
  staged_helper_matches : StagedBinaryPlanV6 -> B -> bool;
  artifact_matches : OwnedArtifactV6 -> B -> bool;
  artifact_absent : OwnedArtifactV6 -> B -> bool;
  sync_parents : TieringBootValidationPreparedManifestV6 -> eff B unit string;
  remove_artifact : OwnedArtifactV6 -> eff B unit string;
  remove_swapfile : TieringBootValidationPreparedManifestV6 -> eff B unit string;
  swapfile_absent : TieringBootValidationPreparedManifestV6 -> B -> bool;
  finalize_runtime_cleanup : TieringBootValidationPreparedManifestV6 -> eff B unit string;
  set_one_shot : string -> eff B unit string;
  read_one_shot : B -> result (option string) string;
  permanent_default : B -> result string string;
  boot_order : B -> result (list string) string;
  current_boot_is_experimental : TieringBootValidationPreparedManifestV6 -> B -> bool;
  collect_zram_baseline :
    TieringBootValidationPreparedManifestV6 -> eff B BaselineMeasurementObservationV6 string;
  collect_post_boot :
    TieringBootValidationPreparedManifestV6 -> eff B ActualPostBootObservationV6 string;
  collect_baseline :
    TieringBootValidationPreparedManifestV6 -> B -> result BaselineRestoreObservationV6 string;
  seal_archive : DurableTransactionV6 -> eff B unit string
}.

(** ** The operations *)

Section Lifecycle.
Context `{Codec} {B : Type} `{BootLifecycleBackendV6 B}.
Abbreviation Tx := DurableTransactionV6.
Abbreviation E := BootValidationV6Error.
Abbreviation Manifest := TieringBootValidationPreparedManifestV6.
(** the transaction and the backend, both borrowed mutably *)
Abbreviation State := (DurableTransactionV6 * B)%type.

(** [backend.operation(..).map_err(|_| BootValidationV6Error::Readback(what))] *)
Definition or_readback {A} (what : string) (m : eff B A string) : eff State A E :=
  eff_snd (eff_map_err (fun _ => Readback what) m).

Definition persist_or_fail : eff State unit E :=
  let! tx := eff_fst eff_get in
  or_readback "durable transaction persistence" (persist_transaction tx).

Definition fail_transaction {A} (primary : string) (secondary : list string) : eff State A E :=
  eff_fst (modify (set_failed primary secondary) ;! refresh) ;!
  let! tx := eff_fst eff_get in
  let! persisted := eff_snd (eff_attempt (persist_transaction tx)) in
  eff_err (Readback "bounded mutation failed; transaction retained").

(** [backend.operation(..).map_err(|primary| fail_transaction(..))?] *)
Definition or_fail {A} (m : eff B A string) : eff State A E :=
  let! r := eff_snd (eff_attempt m) in
  match r with
  | Ok a => eff_ret a
  | Err primary => fail_transaction primary []
  end.

(** [tx.record_intent(..)] and the [persist_or_fail] that follows it *)
Definition intend (operation target : string) : eff State unit E :=
  eff_fst (record_intent operation target) ;! persist_or_fail.
(** [tx.transition(..)?] and the [persist_or_fail] that follows it *)
Definition enter (next : TransactionStageV6) : eff State unit E :=
  eff_fst (transition next) ;! persist_or_fail.
(** [tx.complete_last(..)?] and the [persist_or_fail] that follows it *)
Definition complete (evidence_sha256 : string) : eff State unit E :=
  eff_fst (complete_last evidence_sha256) ;! persist_or_fail.

(** [backend.persist_evidence(..)?] and the entry in [evidence_hashes] *)
Definition archive (name what bytes : string) : eff State unit E :=
  or_readback what (persist_evidence name bytes) ;!
  eff_fst (modify (insert_evidence name (canonical_bytes_sha256 bytes))).

(** the [Vec] of the errors of a rollback *)
Definition error_of (m : eff B unit string) : eff State (list string) E :=
  let! r := eff_snd (eff_attempt m) in
  eff_ret (match r with Ok _ => [] | Err error => [error] end).

Fixpoint remove_artifacts (artifacts : list OwnedArtifactV6) : eff State (list string) E :=
  match artifacts with
  | [] => eff_ret []
  | artifact :: rest =>
      let! error := error_of (remove_artifact artifact) in
      let! errors := remove_artifacts rest in
      eff_ret (error ++ errors)
  end.

Definition rollback_partial_apply (manifest : Manifest) (created : list OwnedArtifactV6) :
    eff State (list string) E :=
  let! secondary := remove_artifacts (rev created) in
  let! error := error_of (remove_swapfile manifest) in
  eff_ret (secondary ++ error).

(** [rollback_partial_apply] and the [fail_transaction] that follows it *)
Definition abort_apply {A} (manifest : Manifest) (created : list OwnedArtifactV6)
    (primary : string) (secondary : list string) : eff State A E :=
  let! errors := rollback_partial_apply manifest created in
  fail_transaction primary (secondary ++ errors).

Definition initialize_body (manifest : Manifest) (root_preflight : PreflightObservationV6) :
    eff State unit E :=
  let p := mf_payload manifest in
  or_readback "create transaction root" (create_transaction_root manifest) ;!
  or_readback "copy prepared manifest" (copy_prepared_manifest manifest) ;!
  persist_or_fail ;!
  archive "root-preflight-v6.json" "persist root preflight" (to_vec (DPreflight root_preflight)) ;!
  eff_fst refresh ;!
  enter RootPreflighted ;!
  intend "stage_trusted_baseline_helper" (sb_destination (pm_staged_helper p)) ;!
  or_fail (stage_helper (pm_staged_helper p)) ;!
  let! staged := eff_snd (eff_read (fun b => Ok (staged_helper_matches (pm_staged_helper p) b))) in
  (if staged : bool then eff_ret tt
   else fail_transaction "staged baseline helper readback mismatch" []) ;!
  complete (bi_sha256 (sb_source (pm_staged_helper p))) ;!
  enter BaselineMeasuring ;!
  let! observation := or_fail (collect_zram_baseline manifest) in
  let! tx := eff_fst eff_get in
  (if baseline_measurement_rejected p (dp_baseline_boot_id (tx_payload tx)) observation
   then fail_transaction "same-host zram baseline rejected" []
   else eff_ret tt) ;!
  archive "zram-baseline-evidence-v4.json" "persist zram baseline"
    (to_vec (DBaselineMeasurement observation)) ;!
  eff_fst refresh ;!
  enter BaselineMeasured.

(** the transaction is a local variable: on an error only what was persisted is left *)
Definition initialize_and_measure_baseline_v6 (manifest : Manifest)
    (root_preflight : PreflightObservationV6) (boot_id : string) : eff B Tx E :=
  eff_read (fun _ => validate_preflight_v6 manifest root_preflight true) ;!
  let! tx := eff_read (fun _ => tx_new manifest boot_id) in
  fun b =>
    let '((tx', b'), r) := initialize_body manifest root_preflight (tx, b) in
    (b', match r with Ok _ => Ok tx' | Err e => Err e end).

Definition applied_swap_rejected (manifest : Manifest) (applied_swap : SwapIdentityV6) : bool :=
  let swapfile := pm_swapfile (mf_payload manifest) in
  negb (path_eq (si_path applied_swap) (si_path swapfile))
  || negb (si_size_bytes applied_swap =? si_size_bytes swapfile)
  || si_active applied_swap
  || is_none (si_uuid applied_swap).

Definition create_swap_step (manifest : Manifest) : eff State unit E :=
  intend "create_btrfs_swapfile" (si_path (pm_swapfile (mf_payload manifest))) ;!
  let! applied_swap := or_fail (create_swapfile manifest) in
  eff_fst (modify (set_applied_swap applied_swap) ;! refresh) ;!
  persist_or_fail ;!
  (if applied_swap_rejected manifest applied_swap then
     let! secondary := error_of (remove_swapfile manifest) in
     fail_transaction "created swap identity mismatch" secondary
   else eff_ret tt) ;!
  complete (canonical_json_sha256_v6 (DSwap applied_swap)).

(** the loop over the artifacts, with [completed_artifacts] *)
Fixpoint apply_artifacts (manifest : Manifest) (completed_artifacts artifacts : list OwnedArtifactV6) :
    eff State (list OwnedArtifactV6) E :=
  match artifacts with
  | [] => eff_ret completed_artifacts
  | artifact :: rest =>
      if bool_decide (oa_kind artifact = HelperBinary) then
        let! matches := eff_snd (eff_read (fun b =>
          Ok (staged_helper_matches (pm_staged_helper (mf_payload manifest)) b))) in
        (if matches : bool then eff_ret tt
         else fail_transaction "pre-staged helper changed before apply" []) ;!
        apply_artifacts manifest completed_artifacts rest
      else
        intend "create_new_artifact" (oa_path artifact) ;!
        let! created := eff_snd (eff_attempt (create_artifact artifact)) in
        match created with
        | Err primary => abort_apply manifest completed_artifacts primary []
        | Ok _ =>
            let! matches := eff_snd (eff_read (fun b => Ok (artifact_matches artifact b))) in
            (if matches : bool then eff_ret tt
             else
               let! secondary := error_of (remove_artifact artifact) in
               abort_apply manifest completed_artifacts
                 ("artifact readback failed: " ++ oa_path artifact) secondary) ;!
            complete (oa_sha256 artifact) ;!
            apply_artifacts manifest (completed_artifacts ++ [artifact]) rest
        end
  end.

(** [backend.permanent_default().ok().as_deref() == Some(..)] and the like *)
Definition boot_unchanged (manifest : Manifest) (b : B) : bool :=
  let boot := pm_boot (mf_payload manifest) in
  option_str_eqb (result_ok (permanent_default b)) (Some (be_id (bo_default_entry boot)))
  && option_eqb list_str_eqb (result_ok (boot_order b)) (Some (bo_boot_order boot)).
Definition one_shot_is (entry : string) (b : B) : bool :=
  option_str_eqb (mjoin (result_ok (read_one_shot b))) (Some entry).

Definition apply_exact_transaction_v6 (manifest : Manifest) : eff State unit E :=
  eff_read (fun _ => validate_manifest manifest) ;!
  eff_fst (eff_read validate_transaction) ;!
  let! tx := eff_fst eff_get in
  eff_reject (negb (bool_decide (dp_stage (tx_payload tx) = BaselineMeasured))
              || negb (String.eqb (dp_manifest_sha256 (tx_payload tx))
                         (canonical_json_sha256_v6 (DManifest manifest)))
              || negb (is_some (dp_evidence_hashes (tx_payload tx)
                                  !! "zram-baseline-evidence-v4.json"%string))) Transition ;!
  enter Applying ;!
  let p := mf_payload manifest in
  let helpers := List.filter (fun a => bool_decide (oa_kind a = HelperBinary))
                   (pm_owned_artifacts p) in
  create_swap_step manifest ;!
  let! completed_artifacts := apply_artifacts manifest helpers (pm_owned_artifacts p) in
  let! synced := eff_snd (eff_attempt (sync_parents manifest)) in
  match synced with
  | Err primary => abort_apply manifest completed_artifacts primary []
  | Ok _ =>
      let! unchanged := eff_snd (eff_read (fun b => Ok (boot_unchanged manifest b))) in
      (if unchanged : bool then eff_ret tt
       else abort_apply manifest completed_artifacts "default or BootOrder changed" []) ;!
      let! tx := eff_fst eff_get in
      let t := tx_payload tx in
      archive "apply-evidence-v6.json" "persist apply evidence"
        (to_vec (DApplyEvidence APPLY_EVIDENCE_SCHEMA_V6 (dp_validation_id t)
                   (dp_applied_swap_identity t) (dp_artifact_registry t)
                   (dp_mutation_records t))) ;!
      eff_fst refresh ;!
      enter Applied
  end.

Definition select_exact_one_shot_v6 (manifest : Manifest) : eff State unit E :=
  eff_read (fun _ => validate_manifest manifest) ;!
  eff_fst (eff_read validate_transaction) ;!
  let p := mf_payload manifest in
  let entry := be_id (pm_experimental_entry p) in
  let! staged := eff_snd (eff_read (fun b => Ok (staged_helper_matches (pm_staged_helper p) b))) in
  eff_reject (negb staged) (Readback "staged helper") ;!
  enter OneShotSelecting ;!
  intend "set_oneshot" (be_path (pm_experimental_entry p)) ;!
  or_fail (set_one_shot entry) ;!
  let! b := eff_snd eff_get in
  (if one_shot_is entry b && boot_unchanged manifest b then eff_ret tt
   else fail_transaction "one-shot readback mismatch" []) ;!
  archive "one-shot-evidence-v6.json" "persist one-shot evidence"
    (to_vec (DOneShotEvidence "tiering-one-shot-evidence-v6" entry
               (mjoin (result_ok (read_one_shot b))) (result_ok (permanent_default b))
               (result_ok (boot_order b)))) ;!
  eff_fst refresh ;!
  eff_fst (complete_last (canonical_json_sha256_v6 (DEntry (pm_experimental_entry p)))) ;!
  enter OneShotSelected.

Definition summary_of (p : PreparedManifestPayloadV6) (o : ActualPostBootObservationV6) :
    PostBootSummaryV6 :=
  {| ps_backing_write_bytes := unwrap_or (ab_block_write_bytes o) 0;
     ps_latency_ns := unwrap_or (ab_latency_ns o) 0;
     ps_write_budget_passed := is_some_and (ab_block_write_bytes o)
                                 (fun bytes => bytes <=? wc_maximum_write_bytes (pm_workload p));
     ps_oom := ab_oom o || ab_oom_kill o;
     ps_safety_failure := ab_production_activation o || negb (ab_daemon_observe_only o)
                          || negb (ab_workload_completed o);
     ps_backing_write_confidence := ab_block_write_attribution o |}.

Definition collect_and_validate_post_boot_v6 (manifest : Manifest) :
    eff State ActualPostBootObservationV6 E :=
  let p := mf_payload manifest in
  let! tx := eff_fst eff_get in
  eff_reject (negb (bool_decide (dp_stage (tx_payload tx) = ActivationVerified))) Transition ;!
  let! staged := eff_snd (eff_read (fun b => Ok (staged_helper_matches (pm_staged_helper p) b))) in
  eff_reject (negb staged) (Readback "staged helper after reboot") ;!
  enter PostBootMeasuring ;!
  let! observation := or_fail (collect_post_boot manifest) in
  eff_fst (eff_read (fun tx => validate_actual_post_boot_v6 manifest tx observation)) ;!
  archive "post-boot-evidence-v6.json" "persist post-boot evidence"
    (to_vec (DPostBoot observation)) ;!
  eff_fst (modify (set_summary (summary_of p observation)) ;! refresh) ;!
  enter PostBootValidated ;!
  eff_ret observation.

Definition select_baseline_rollback_v6 (manifest : Manifest) : eff State unit E :=
  let p := mf_payload manifest in
  enter BaselineSelecting ;!
  intend "set_baseline_oneshot" (be_path (bo_current_entry (pm_boot p))) ;!
  or_fail (set_one_shot (pm_recovery_entry p)) ;!
  let! b := eff_snd eff_get in
  (if one_shot_is (pm_recovery_entry p) b && boot_unchanged manifest b then eff_ret tt
   else fail_transaction "baseline one-shot readback mismatch" []) ;!
  eff_fst (complete_last (canonical_json_sha256_v6 (DString (pm_recovery_entry p)))) ;!
  enter BaselineSelected.

Fixpoint clean_artifacts (artifacts : list OwnedArtifactV6) : eff State unit E :=
  match artifacts with
  | [] => eff_ret tt
  | artifact :: rest =>
      intend "remove_exact_artifact" (oa_path artifact) ;!
      or_fail (remove_artifact artifact) ;!
      complete "absent" ;!
      clean_artifacts rest
  end.

Definition zram_authority (manifest : Manifest) (archive_sha256 raw : string) :
    SameHostZramBaselineEvidenceV6 :=
  let p := mf_payload manifest in
  {| zb_schema := ZRAM_BASELINE_EVIDENCE_V6; zb_validation_id := pm_validation_id p;
     zb_source_commit := pm_source_commit p; zb_source_state_sha256 := pm_source_state_sha256 p;
     zb_environment_sha256 := pm_material_environment_sha256 p;
     zb_topology_sha256 := canonical_json_sha256_v6 (DTopology (pm_topology p));
     zb_workload_sha256 := canonical_json_sha256_v6 (DWorkload (pm_workload p));
     zb_real := true; zb_oom := false; zb_safety_failure := false; zb_cleanup_passed := true;
     zb_final_restore_passed := true; zb_archive_sha256 := archive_sha256;
     zb_raw_evidence_sha256 := raw; zb_workload_protocol := WORKLOAD_PROTOCOL_V6 |}.

Definition profile_authority (manifest : Manifest) (archive_sha256 raw : string)
    (summary : PostBootSummaryV6) : SameHostProfileEvidenceV6 :=
  let p := mf_payload manifest in
  {| pe_schema := PROFILE_BENCHMARK_EVIDENCE_V6; pe_validation_id := pm_validation_id p;
     pe_profile := ti_profile (pm_topology p); pe_source_commit := pm_source_commit p;
     pe_source_state_sha256 := pm_source_state_sha256 p;
     pe_environment_sha256 := pm_material_environment_sha256 p;
     pe_topology_sha256 := canonical_json_sha256_v6 (DTopology (pm_topology p));
     pe_workload_sha256 := canonical_json_sha256_v6 (DWorkload (pm_workload p));
     pe_real := true; pe_oom := ps_oom summary; pe_safety_failure := ps_safety_failure summary;
     pe_cleanup_passed := true; pe_final_restore_passed := true;
     pe_write_budget_passed := ps_write_budget_passed summary;
     pe_backing_write_bytes := Some (ps_backing_write_bytes summary);
     pe_latency_ns := Some (ps_latency_ns summary); pe_archive_sha256 := archive_sha256;
     pe_raw_evidence_sha256 := raw; pe_workload_protocol := WORKLOAD_PROTOCOL_V6;
     pe_backing_write_confidence := ps_backing_write_confidence summary |}.

(** the end of [verify_then_cleanup_v6], after the deletions *)
Definition publish_authorities (manifest : Manifest) : eff State unit E :=
  let! tx := eff_fst eff_get in
  let t := tx_payload tx in
  let! baseline_raw := eff_read (fun _ =>
    ok_or (dp_evidence_hashes t !! "zram-baseline-evidence-v2.json"%string)
      (Readback "baseline raw evidence")) in
  let! profile_raw := eff_read (fun _ =>
    ok_or (dp_evidence_hashes t !! "post-boot-evidence-v6.json"%string)
      (Readback "profile raw evidence")) in
  let! summary := eff_read (fun _ =>
    ok_or (dp_post_boot_summary t) (Readback "profile summary")) in
  archive "same-host-zram-baseline-v2.json" "persist same-host authority"
    (to_vec (DZramBaseline (zram_authority manifest (dp_manifest_sha256 t) baseline_raw))) ;!
  archive "same-host-profile-v6.json" "persist same-host authority"
    (to_vec (DProfile (profile_authority manifest (dp_manifest_sha256 t) profile_raw summary))) ;!
  eff_fst refresh ;!
  enter Restored ;!
  let! restored := eff_fst eff_get in
  or_readback "seal evidence archive" (seal_archive restored).

Definition verify_then_cleanup_v6 (manifest : Manifest) : eff State unit E :=
  let p := mf_payload manifest in
  let! tx := eff_fst eff_get in
  (if bool_decide (dp_stage (tx_payload tx) = BaselineSelected) then enter BaselineBoot
   else eff_ret tt) ;!
  let! baseline := eff_snd (eff_read (fun b =>
    match collect_baseline manifest b with
    | Ok o => Ok o
    | Err _ => Err (Readback "collect baseline")
    end)) in
  eff_fst (eff_read (fun tx => verify_baseline_before_cleanup_v6 manifest tx baseline)) ;!
  archive "baseline-restore-evidence-v6.json" "persist baseline evidence"
    (to_vec (DBaselineRestore baseline)) ;!
  eff_fst refresh ;!
  enter BaselineVerified ;!
  enter Cleaning ;!
  clean_artifacts (rev (pm_owned_artifacts p)) ;!
  intend "remove_exact_swapfile" (si_path (pm_swapfile p)) ;!
  or_fail (remove_swapfile manifest) ;!
  eff_fst (complete_last "absent") ;!
  let! present := eff_snd (eff_read (fun b =>
    Ok (existsb (fun artifact => negb (artifact_absent artifact b)) (pm_owned_artifacts p)
        || negb (swapfile_absent manifest b)))) in
  (if present : bool then fail_transaction "final exact-owned absence verification failed" []
   else eff_ret tt) ;!
  or_fail (finalize_runtime_cleanup manifest) ;!
  publish_authorities manifest.
End Lifecycle.

(** ** Lemmas *)
Module Facts.

(** what the steps of a transaction make of it *)
Abbreviation Tx := DurableTransactionV6.
Definition touched (f : DurableTransactionPayloadV6 -> DurableTransactionPayloadV6) (t : Tx) : Tx :=
  {| tx_schema := tx_schema t; tx_payload := f (tx_payload t);
     tx_payload_sha256 := tx_payload_sha256 t |}.
Definition refreshed `{Codec} (t : Tx) : Tx :=
  {| tx_schema := tx_schema t; tx_payload := tx_payload t;
     tx_payload_sha256 := canonical_json_sha256_v6 (DTransactionPayload (tx_payload t)) |}.
Definition staged `{Codec} (next : TransactionStageV6) (t : Tx) : Tx :=
  refreshed (touched (set_stage next) t).
Definition announced `{Codec} (operation target : string) (t : Tx) : Tx :=
  refreshed (touched (push_intent operation target) t).
Definition set_completed (h : string) (p : DurableTransactionPayloadV6) : DurableTransactionPayloadV6 :=
  set_records (update_last (completed h) (dp_mutation_records p)) p.
Definition finished `{Codec} (h : string) (t : Tx) : Tx := refreshed (touched (set_completed h) t).

Section Facts.
Context `{Codec} {B : Type} `{BootLifecycleBackendV6 B}.
Abbreviation State := (DurableTransactionV6 * B)%type.

(** what [apply_exact_transaction_v6] builds in the transaction *)
Definition shows (stage : TransactionStageV6) (records : list MutationRecordV6) (boot_id : string)
    (swap : option SwapIdentityV6) (t : Tx) : Prop :=
  let p := tx_payload t in
  dp_stage p = stage /\ dp_mutation_records p = records /\ dp_current_boot_id p = boot_id /\
  dp_applied_swap_identity p = swap.
Definition record_of (completed : bool) (operation target evidence boot_id : string) :
    MutationRecordV6 :=
  {| mr_operation := operation; mr_target := target; mr_completed := completed;
     mr_evidence_sha256 := if completed then Some evidence else None; mr_boot_id := boot_id |}.
Definition done_record := record_of true.
Definition open_record (operation target boot_id : string) := record_of false operation target "" boot_id.

Lemma update_last_snoc {A} (f : A -> A) l x : update_last f (l ++ [x]) = l ++ [f x].
Proof.
  induction l as [|y l IH]; [done |]. simpl. rewrite IH. by destruct l.
Qed.

(** *** Triples on the transaction alone *)
Section OnTx.
Context {F : Type}.
Definition of_tx (P : Tx -> Prop) (s : State) : Prop := P (fst s).
Definition anything (s : State) : Prop := True.

Lemma tx_fst {A} (g : eff Tx A F) P (Q : A -> Tx -> Prop) :
  (forall t, P t -> match g t with (t', Ok a) => Q a t' | (_, Err _) => True end) ->
  triple (of_tx P) (eff_fst g) (fun a => of_tx (Q a)) anything.
Proof.
  intros Hg [t b] Ht. specialize (Hg t Ht). unfold of_tx, eff_fst in *. simpl in *.
  by destruct (g t) as [t' [a|e]].
Qed.
Lemma tx_snd {A} (g : eff B A F) P :
  triple (of_tx P) (eff_snd (S := Tx) g) (fun _ => of_tx P) anything.
Proof. intros [t b] Ht. unfold eff_snd. by destruct (g b) as [b' [a|e]]. Qed.
Lemma tx_read {A} (r : result A F) P :
  triple (of_tx P) (eff_read (fun _ => r)) (fun a s => r = Ok a /\ of_tx P s) anything.
Proof. intros s Hs. unfold eff_read. by destruct r. Qed.
Lemma tx_pure (p : Prop) (P : Tx -> Prop) {A} (m : eff State A F) Q X :
  (p -> triple (of_tx P) m Q X) -> triple (fun s => p /\ of_tx P s) m Q X.
Proof. intros Hm s [Hp Hs]. by apply Hm. Qed.
End OnTx.

(** *** The steps of [apply_exact_transaction_v6] *)

Lemma persist_tx P : triple (of_tx P) (persist_or_fail (B := B)) (fun _ => of_tx P) anything.
Proof.
  eapply triple_bind; [apply (tx_fst _ P (fun _ => P)); by intros t Ht |].
  intros t. apply tx_snd.
Qed.
Lemma intend_tx st rs bid sw op target :
  triple (of_tx (shows st rs bid sw)) (intend op target)
    (fun _ => of_tx (shows st (rs ++ [open_record op target bid]) bid sw)) anything.
Proof.
  eapply triple_bind; [| intros u; apply persist_tx].
  apply (tx_fst _ _ (fun _ => shows st (rs ++ [open_record op target bid]) bid sw)).
  intros t (<- & <- & <- & <-). done.
Qed.
Lemma complete_tx st rs bid sw op target h :
  triple (of_tx (shows st (rs ++ [open_record op target bid]) bid sw)) (complete h)
    (fun _ => of_tx (shows st (rs ++ [done_record op target h bid]) bid sw)) anything.
Proof.
  eapply triple_bind; [| intros u; apply persist_tx].
  apply (tx_fst _ _ (fun _ => shows st (rs ++ [done_record op target h bid]) bid sw)).
  intros t (H1 & H2 & H3 & H4). unfold complete_last, eff_bind, eff_get, eff_reject.
  destruct (bool_decide _); [done |]. unfold shows. cbn. by rewrite H1, H2, H3, H4, update_last_snoc.
Qed.
Lemma transition_tx (E : gmap string string -> Prop) st rs bid sw next :
  triple (of_tx (fun t => shows st rs bid sw t /\ E (dp_evidence_hashes (tx_payload t))))
    (eff_fst (transition next))
    (fun _ => of_tx (fun t => shows next rs bid sw t /\ E (dp_evidence_hashes (tx_payload t))))
    anything.
Proof.
  apply (tx_fst _ _ (fun _ t => shows next rs bid sw t /\ E (dp_evidence_hashes (tx_payload t)))).
  intros t [(<- & <- & <- & <-) He].
  unfold transition, eff_bind, eff_read, eff_get, eff_reject.
  destruct (validate_transaction t); [| done]. by destruct (negb _).
Qed.
Lemma fail_tx {A} P primary secondary (Q : A -> State -> Prop) :
  triple P (fail_transaction (B := B) primary secondary) Q anything.
Proof.
  intros [t b] _. unfold fail_transaction, eff_bind, eff_fst, eff_snd, eff_get, eff_upd, eff_attempt,
    modify, refresh. simpl. by destruct (persist_transaction _ b) as [b' r].
Qed.
Lemma or_fail_tx {A} P (g : eff B A string) :
  triple (of_tx P) (or_fail g) (fun _ => of_tx P) anything.
Proof.
  eapply triple_bind; [apply tx_snd |]. intros [a|e]; [by apply triple_ret | apply fail_tx].
Qed.
Lemma abort_tx {A} P m created primary secondary (Q : A -> State -> Prop) :
  triple P (abort_apply m created primary secondary) Q anything.
Proof.
  intros s _. unfold abort_apply, eff_bind at 1.
  destruct (rollback_partial_apply m created s) as [s' [es|e]]; [| done].
  by apply (fail_tx (fun _ => True)).
Qed.
Lemma fail_unless_tx P (c : bool) (g : eff State unit BootValidationV6Error) :
  (c = false -> triple (of_tx P) g (fun _ _ => False) anything) ->
  triple (of_tx P) (if c then eff_ret tt else g) (fun _ s => c = true /\ of_tx P s) anything.
Proof.
  intros Hg. destruct c; [by apply triple_ret |].
  eapply triple_weaken; [by apply Hg | done | done | done].
Qed.

Definition swap_record (m : TieringBootValidationPreparedManifestV6) (swap : SwapIdentityV6)
    (boot_id : string) : MutationRecordV6 :=
  done_record "create_btrfs_swapfile" (si_path (pm_swapfile (mf_payload m)))
    (canonical_json_sha256_v6 (DSwap swap)) boot_id.
Definition artifact_records (artifacts : list OwnedArtifactV6) (boot_id : string) :
    list MutationRecordV6 :=
  map (fun a => done_record "create_new_artifact" (oa_path a) (oa_sha256 a) boot_id)
    (List.filter (fun a => negb (bool_decide (oa_kind a = HelperBinary))) artifacts).

Lemma create_swap_tx m st rs bid sw :
  triple (of_tx (shows st rs bid sw)) (create_swap_step m)
    (fun _ => of_tx (fun t => exists swap, applied_swap_rejected m swap = false /\
       shows st (rs ++ [swap_record m swap bid]) bid (Some swap) t)) anything.
Proof.
  unfold create_swap_step. eapply triple_bind; [apply intend_tx | intros u].
  eapply triple_bind; [apply or_fail_tx | intros swap].
  eapply triple_bind.
  { apply (tx_fst _ _ (fun _ => shows st (rs ++ [open_record "create_btrfs_swapfile"
             (si_path (pm_swapfile (mf_payload m))) bid]) bid (Some swap))).
    intros t (<- & <- & <- & <-). done. }
  intros v. eapply triple_bind; [apply persist_tx | intros v'].
  eapply triple_bind with (R := fun _ s => applied_swap_rejected m swap = false /\
    of_tx (shows st (rs ++ [open_record "create_btrfs_swapfile"
             (si_path (pm_swapfile (mf_payload m))) bid]) bid (Some swap)) s).
  { destruct (applied_swap_rejected m swap); [| by apply triple_ret].
    eapply triple_bind with (R := fun _ => anything); [| intros es; apply fail_tx].
    intros s _. by destruct (error_of _ s) as [? []]. }
  intros w. apply tx_pure. intros Hr.
  eapply triple_post; [apply complete_tx |]. intros w' [t b] Ht. by exists swap.
Qed.

Lemma apply_artifacts_tx m bid sw artifacts : forall created rs,
  triple (of_tx (shows Applying rs bid sw)) (apply_artifacts m created artifacts)
    (fun _ => of_tx (shows Applying (rs ++ artifact_records artifacts bid) bid sw)) anything.
Proof.
  induction artifacts as [|a rest IH]; intros created rs; simpl.
  { apply triple_ret. intros s. unfold artifact_records. simpl. by rewrite app_nil_r. }
  unfold artifact_records. simpl. destruct (bool_decide (oa_kind a = HelperBinary)); simpl.
  - eapply triple_bind; [apply tx_snd | intros c].
    eapply triple_bind; [apply fail_unless_tx; intros _; apply fail_tx | intros u].
    apply tx_pure. intros _. apply IH.
  - eapply triple_bind; [apply intend_tx | intros u].
    eapply triple_bind; [apply tx_snd | intros [v|primary]; [| apply abort_tx]].
    eapply triple_bind; [apply tx_snd | intros c].
    eapply triple_bind.
    { apply fail_unless_tx. intros _. eapply triple_bind with (R := fun _ => anything);
        [| intros es; apply abort_tx]. intros s _. by destruct (error_of _ s) as [? []]. }
    intros w. apply tx_pure. intros _.
    eapply triple_bind; [apply complete_tx | intros x].
    eapply triple_post; [apply IH |]. intros l s. by rewrite <-app_assoc.
Qed.

(** the archive and what is inserted in [evidence_hashes] *)
Lemma archive_tx st rs bid sw name what bytes :
  triple (of_tx (shows st rs bid sw)) (archive name what bytes)
    (fun _ => of_tx (fun t => shows st rs bid sw t /\
       dp_evidence_hashes (tx_payload t) !! name = Some (canonical_bytes_sha256 bytes))) anything.
Proof.
  eapply triple_bind; [apply tx_snd | intros u].
  apply (tx_fst _ _ (fun _ t => shows st rs bid sw t /\
    dp_evidence_hashes (tx_payload t) !! name = Some (canonical_bytes_sha256 bytes))).
  intros t (<- & <- & <- & <-). split; [done |]. apply lookup_insert_eq.
Qed.
Lemma enter_tx (E : gmap string string -> Prop) st rs bid sw next :
  triple (of_tx (fun t => shows st rs bid sw t /\ E (dp_evidence_hashes (tx_payload t)))) (enter next)
    (fun _ => of_tx (fun t => shows next rs bid sw t /\ E (dp_evidence_hashes (tx_payload t)))) anything.
Proof.
  eapply triple_bind; [apply transition_tx | intros u]. apply persist_tx.
Qed.

Lemma refresh_tx {F} (E : gmap string string -> Prop) st rs bid sw :
  triple (of_tx (fun t => shows st rs bid sw t /\ E (dp_evidence_hashes (tx_payload t))))
    (eff_fst (refresh (F := F)))
    (fun _ => of_tx (fun t => shows st rs bid sw t /\ E (dp_evidence_hashes (tx_payload t)))) anything.
Proof. intros [t b] Ht. exact Ht. Qed.
Lemma enter_plain_tx st rs bid sw next :
  triple (of_tx (shows st rs bid sw)) (enter next) (fun _ => of_tx (shows next rs bid sw)) anything.
Proof.
  intros s Hs. pose proof (enter_tx (fun _ => True) st rs bid sw next s (conj Hs I)) as He.
  destruct (enter next s) as [s' [u|e]]; [exact (proj1 He) | done].
Qed.

(** what a success of [apply_exact_transaction_v6] means *)
Definition applied_outcome (m : TieringBootValidationPreparedManifestV6)
    (rs : list MutationRecordV6) (bid : string) (t : Tx) : Prop :=
  exists swap, applied_swap_rejected m swap = false /\
    let records := rs ++ swap_record m swap bid
                     :: artifact_records (pm_owned_artifacts (mf_payload m)) bid in
    shows Applied records bid (Some swap) t /\
    exists validation_id registry,
      dp_evidence_hashes (tx_payload t) !! "apply-evidence-v6.json"%string =
        Some (canonical_json_sha256_v6
                (DApplyEvidence APPLY_EVIDENCE_SCHEMA_V6 validation_id (Some swap) registry records)).

Lemma finish_tx m rs bid swap : applied_swap_rejected m swap = false ->
  triple (of_tx (shows Applying (rs ++ [swap_record m swap bid]) bid (Some swap)))
    (let! completed_artifacts :=
       apply_artifacts m (List.filter (fun a => bool_decide (oa_kind a = HelperBinary))
                            (pm_owned_artifacts (mf_payload m))) (pm_owned_artifacts (mf_payload m)) in
     let! synced := eff_snd (eff_attempt (sync_parents m)) in
     match synced with
     | Err primary => abort_apply m completed_artifacts primary []
     | Ok _ =>
         let! unchanged := eff_snd (eff_read (fun b => Ok (boot_unchanged m b))) in
         (if unchanged : bool then eff_ret tt
          else abort_apply m completed_artifacts "default or BootOrder changed" []) ;!
         let! tx := eff_fst eff_get in
         let t := tx_payload tx in
         archive "apply-evidence-v6.json" "persist apply evidence"
           (to_vec (DApplyEvidence APPLY_EVIDENCE_SCHEMA_V6 (dp_validation_id t)
                      (dp_applied_swap_identity t) (dp_artifact_registry t)
                      (dp_mutation_records t))) ;!
         eff_fst refresh ;!
         enter Applied
     end)
    (fun _ => of_tx (fun t => BaselineMeasured = BaselineMeasured /\ applied_outcome m rs bid t)) anything.
Proof.
  intros Hswap. eapply triple_bind; [apply apply_artifacts_tx | intros created].
  rewrite <-app_assoc. simpl.
  eapply triple_bind; [apply tx_snd | intros [u|primary]; [| apply abort_tx]].
  eapply triple_bind; [apply tx_snd | intros unchanged].
  eapply triple_bind; [apply fail_unless_tx; intros _; apply abort_tx | intros v].
  apply tx_pure. intros _.
  set (records := rs ++ _).
  eapply triple_bind with (R := fun tx s => shows Applying records bid (Some swap) tx /\
                                  of_tx (shows Applying records bid (Some swap)) s).
  { intros [t b] Ht. by split. }
  intros tx. apply tx_pure. intros (_ & Hr & _ & Hsw). cbv zeta. rewrite Hr, Hsw.
  eapply triple_bind; [apply archive_tx | intros w].
  set (hash := canonical_bytes_sha256 _).
  eapply triple_bind;
    [apply (refresh_tx (fun evidence => evidence !! "apply-evidence-v6.json"%string = Some hash)) |].
  intros x. eapply triple_post;
    [apply (enter_tx (fun evidence => evidence !! "apply-evidence-v6.json"%string = Some hash)) |].
  intros y [t b] [Ht He]. split; [done |]. exists swap. split; [done |]. split; [exact Ht |].
  by eexists _, _.
Qed.
Lemma apply_tx m st rs bid sw :
  triple (of_tx (shows st rs bid sw)) (apply_exact_transaction_v6 m)
    (fun _ => of_tx (fun t => st = BaselineMeasured /\ applied_outcome m rs bid t)) anything.
Proof.
  unfold apply_exact_transaction_v6.
  eapply triple_bind with (R := fun _ => of_tx (shows st rs bid sw)).
  { eapply triple_post; [apply tx_read | by intros u s [_ ?]]. }
  intros u0. eapply triple_bind with (R := fun _ => of_tx (shows st rs bid sw)).
  { apply (tx_fst _ _ (fun _ => shows st rs bid sw)). intros t Ht. unfold eff_read.
    by destruct (validate_transaction t). }
  intros u1. eapply triple_bind with (R := fun t => fun s => shows st rs bid sw t /\ of_tx (shows st rs bid sw) s).
  { intros [t b] Ht. by split. }
  intros t. apply tx_pure. intros (Hst & _).
  eapply triple_bind with (R := fun _ s => st = BaselineMeasured /\ of_tx (shows st rs bid sw) s).
  { intros s Hs. unfold eff_reject. destruct (negb _ || _ || _) eqn:Ec; [done |].
    bools. split; [congruence | done]. }
  intros u2. apply tx_pure. intros ->.
  eapply triple_bind; [apply enter_plain_tx | intros u3].
  eapply triple_bind; [apply create_swap_tx | intros u4].
  intros s (swap & Hswap & Hs). revert s Hs. apply (finish_tx m rs bid swap Hswap).
Qed.

(** *** What the backend keeps *)

Lemma persist_keeps (P : B -> Prop) :
  (forall x b, P b -> P (fst (persist_transaction x b))) ->
  triple (fun s => P (snd s)) (persist_or_fail (B := B)) (fun _ s => P (snd s)) (fun s => P (snd s)).
Proof.
  intros Hp [t b] Hb. unfold persist_or_fail, or_readback, eff_bind, eff_fst, eff_get, eff_snd, eff_map_err.
  specialize (Hp t b Hb). by destruct (persist_transaction t b) as [b' [u|e]].
Qed.
Lemma enter_keeps (P : B -> Prop) next :
  (forall x b, P b -> P (fst (persist_transaction x b))) ->
  triple (fun s => P (snd s)) (enter (B := B) next) (fun _ s => P (snd s)) (fun s => P (snd s)).
Proof.
  intros Hp. eapply triple_bind; [| intros u; by apply persist_keeps].
  intros [t b] Hb. unfold eff_fst. by destruct (transition next t) as [t' [u|e]].
Qed.
End Facts.
End Facts.

(** ** Theorems *)
Module Theorems.
Section Theorems.
Context `{Codec} {B : Type} `{BootLifecycleBackendV6 B}.
Abbreviation Manifest := TieringBootValidationPreparedManifestV6.

(** C16: when [apply_exact_transaction_v6] succeeds, on whatever backend, the transaction
    has gone from BaselineMeasured to Applied; the records it added are the swapfile and
    then every artifact but the helper in the order of the manifest, each of them completed
    with the digest of what was created, the swap it remembers is the planned one with a
    UUID and inactive, and the evidence whose digest it keeps lists exactly these records. *)
Theorem apply_outcome (m : Manifest) t (b : B) t' b'
    (Hrun : apply_exact_transaction_v6 m (t, b) = ((t', b'), Ok tt)) :
  dp_stage (tx_payload t) = BaselineMeasured /\ dp_stage (tx_payload t') = Applied /\
  exists swap validation_id registry,
    let boot_id := dp_current_boot_id (tx_payload t) in
    dp_applied_swap_identity (tx_payload t') = Some swap /\
    applied_swap_rejected m swap = false /\
    dp_mutation_records (tx_payload t') =
      dp_mutation_records (tx_payload t)
      ++ Facts.done_record "create_btrfs_swapfile" (si_path (pm_swapfile (mf_payload m)))
           (canonical_json_sha256_v6 (DSwap swap)) boot_id
      :: map (fun a => Facts.done_record "create_new_artifact" (oa_path a) (oa_sha256 a) boot_id)
           (List.filter (fun a => negb (bool_decide (oa_kind a = HelperBinary)))
              (pm_owned_artifacts (mf_payload m))) /\
    dp_evidence_hashes (tx_payload t') !! "apply-evidence-v6.json"%string =
      Some (canonical_json_sha256_v6
              (DApplyEvidence APPLY_EVIDENCE_SCHEMA_V6 validation_id (Some swap) registry
                 (dp_mutation_records (tx_payload t')))).
Proof.
  pose proof (Facts.apply_tx m _ _ _ _ (t, b) (conj eq_refl (conj eq_refl (conj eq_refl eq_refl))))
    as Ht.
  rewrite Hrun in Ht. destruct Ht as (Hst & swap & Hs & (H1 & H2 & _ & H4) & vid & reg & He).
  simpl in *. split; [done |]. split; [done |]. exists swap, vid, reg.
  split; [done |]. split; [done |]. split; [exact H2 |]. rewrite H2. exact He.
Qed.

(** C14: [verify_then_cleanup_v6] deletes nothing unless the restored baseline has been
    observed and verified. Whatever [persist_transaction] keeps on a backend, where no
    observation of the baseline passes the verification, is still so afterwards, and the
    operation fails. *)
Theorem cleanup_needs_verified_baseline (m : Manifest) (P : B -> Prop) t (b : B)
    (Hpersist : forall x b, P b -> P (fst (persist_transaction x b)))
    (Hunproven : forall x b o, P b -> collect_baseline m b = Ok o ->
       verify_baseline_before_cleanup_v6 m x o <> Ok tt)
    (Hb : P b) :
  P (snd (fst (verify_then_cleanup_v6 m (t, b)))) /\ is_ok (snd (verify_then_cleanup_v6 m (t, b))) = false.
Proof.
  set (Pb := fun s : DurableTransactionV6 * B => P (snd s)).
  assert (Ht : triple Pb (verify_then_cleanup_v6 m) (fun _ _ => False) Pb).
  { unfold verify_then_cleanup_v6.
    eapply triple_bind with (R := fun _ => Pb); [by intros [x y] Hx | intros tx].
    eapply triple_bind with (R := fun _ => Pb).
    { destruct (bool_decide _); [by apply Facts.enter_keeps | by apply triple_ret]. }
    intros u. eapply triple_bind with (R := fun o s => collect_baseline m (snd s) = Ok o /\ Pb s).
    { intros [x y] Hx. unfold eff_snd, eff_read. simpl.
      destruct (collect_baseline m y) eqn:Ec; [by split | exact Hx]. }
    intros o. eapply triple_bind with (R := fun _ _ => False); [| by intros v s].
    intros [x y] [Ho Hx]. unfold eff_fst, eff_read. simpl.
    destruct (verify_baseline_before_cleanup_v6 m x o) as [[]|e] eqn:Ev; [| exact Hx].
    exact (Hunproven x y o Hx Ho Ev). }
  specialize (Ht (t, b) Hb). by destruct (verify_then_cleanup_v6 m (t, b)) as [s [u|e]].
Qed.
End Theorems.
End Theorems.

(** ** A simulated backend *)
Module Sample.
Import BootContract.Sample.

(** every operation succeeds; what is created is present until it is removed *)
Record Sim := {
  sim_transaction : option DurableTransactionV6;
  sim_one_shot : option string;
  sim_present : list string;
  sim_restored : result BaselineRestoreObservationV6 string;
  sim_experimental : bool
}.
Definition put (path : string) : eff Sim unit string :=
  eff_upd (fun s => {| sim_transaction := sim_transaction s; sim_one_shot := sim_one_shot s;
                       sim_present := path :: sim_present s; sim_restored := sim_restored s;
       sim_experimental := sim_experimental s |}).
Definition take (path : string) : eff Sim unit string :=
  eff_upd (fun s => {| sim_transaction := sim_transaction s; sim_one_shot := sim_one_shot s;
                       sim_present := List.filter (fun p => negb (String.eqb p path)) (sim_present s);
                       sim_restored := sim_restored s;
       sim_experimental := sim_experimental s |}).
Definition has (path : string) (s : Sim) : bool := contains_str (sim_present s) path.
Definition measured : BaselineMeasurementObservationV6 :=
  {| bm_schema := ZRAM_BASELINE_EVIDENCE_V6; bm_validation_id := id; bm_boot_id := "boot-1";
     bm_zram := zram; bm_zswap := pm_baseline_zswap payload; bm_swaps := pm_baseline_swaps payload;
     bm_workload_protocol := WORKLOAD_PROTOCOL_V6; bm_workload_sha256 := hash;
     bm_bytes_touched := 67108864; bm_latency_ns := Some 1000; bm_cgroup_oom_delta := Some 0;
     bm_cgroup_oom_kill_delta := Some 0; bm_content_verified := true; bm_cleanup_passed := true;
     bm_scope_absent := true; bm_production_activation := false |}.
#[export] Instance simulated : BootLifecycleBackendV6 Sim := {
  persist_transaction t := eff_upd (fun s =>
    {| sim_transaction := Some t; sim_one_shot := sim_one_shot s; sim_present := sim_present s;
       sim_restored := sim_restored s;
       sim_experimental := sim_experimental s |});
  create_transaction_root m := eff_ret tt;
  copy_prepared_manifest m := eff_ret tt;
  persist_evidence name bytes := eff_ret tt;
  create_swapfile m :=
    let swap := pm_swapfile (mf_payload m) in
    put (si_path swap) ;!
    eff_ret {| si_path := si_path swap; si_kind := si_kind swap; si_size_bytes := si_size_bytes swap;
               si_priority := si_priority swap; si_uuid := Some "uuid"%string; si_active := false |};
  create_artifact a := put (oa_path a);
  stage_helper plan := put (sb_destination plan);
  staged_helper_matches plan := has (sb_destination plan);
  artifact_matches a := has (oa_path a);
  artifact_absent a s := negb (has (oa_path a) s);
  sync_parents m := eff_ret tt;
  remove_artifact a := take (oa_path a);
  remove_swapfile m := take (si_path (pm_swapfile (mf_payload m)));
  swapfile_absent m s := negb (has (si_path (pm_swapfile (mf_payload m))) s);
  finalize_runtime_cleanup m := eff_ret tt;
  set_one_shot entry := eff_upd (fun s =>
    {| sim_transaction := sim_transaction s; sim_one_shot := Some entry;
       sim_present := sim_present s; sim_restored := sim_restored s;
       sim_experimental := sim_experimental s |});
  read_one_shot s := Ok (sim_one_shot s);
  permanent_default s := Ok "arch.conf"%string;
  boot_order s := Ok ["0001"%string];
  current_boot_is_experimental m s := sim_experimental s;
  collect_zram_baseline m := eff_ret measured;
  collect_post_boot m := eff_err "not booted"%string;
  collect_baseline m s := sim_restored s;
  seal_archive t := eff_ret tt
}.
Definition fresh : Sim :=
  {| sim_transaction := None; sim_one_shot := None; sim_present := [];
     sim_restored := Err "not restored"%string; sim_experimental := false |}.
Definition blank : DurableTransactionV6 := seal
  {| dp_validation_id := ""; dp_manifest_sha256 := ""; dp_stage := Prepared;
     dp_baseline_boot_id := ""; dp_current_boot_id := ""; dp_artifact_registry := [];
     dp_swapfile_registry := []; dp_unit_registry := []; dp_transient_unit_registry := [];
     dp_applied_swap_identity := None; dp_evidence_hashes := ∅; dp_mutation_records := [];
     dp_primary_error := None; dp_failed_from_stage := None; dp_secondary_errors := [];
     dp_recovery_state := ""; dp_idempotence_verified := false;
     dp_activation_parameter_index := 0; dp_original_primary_error := None;
     dp_terminal_archive_sha256 := None; dp_post_boot_summary := None |}.
(** the lifecycle up to the end of [initialize_and_measure_baseline_v6], and further *)
Definition after_baseline : DurableTransactionV6 * Sim :=
  match initialize_and_measure_baseline_v6 manifest preflight "boot-1" fresh with
  | (s, Ok t) => (t, s)
  | (s, Err _) => (blank, s)
  end.
Definition after_apply : DurableTransactionV6 * Sim :=
  fst (apply_exact_transaction_v6 manifest after_baseline).
Definition after_selection : DurableTransactionV6 * Sim :=
  fst (select_exact_one_shot_v6 manifest after_apply).
Definition at_stage_of (s : DurableTransactionV6 * Sim) : TransactionStageV6 := dp_stage (tx_payload (fst s)).
(** the host after the reboot into the experimental entry *)
Definition after_reboot : DurableTransactionV6 * Sim :=
  let s := snd after_selection in
  (fst after_selection,
   {| sim_transaction := sim_transaction s; sim_one_shot := None; sim_present := sim_present s;
      sim_restored := sim_restored s; sim_experimental := true |}).
Example lifecycle_stages :
  map at_stage_of [after_baseline; after_apply; after_selection]
  = [BaselineMeasured; Applied; OneShotSelected].
Proof. vm_compute. reflexivity. Qed.
End Sample.

(** ** Witnesses *)
Module Witnesses.
#[local] Existing Instance BootContract.Sample.codec.
#[local] Existing Instance Sample.simulated.
Lemma apply_outcome_witness :
  exists t b, apply_exact_transaction_v6 BootContract.Sample.manifest Sample.after_baseline
                = ((t, b), Ok tt) /\
              dp_stage (tx_payload t) = Applied.
Proof.
  exists (fst Sample.after_apply), (snd Sample.after_apply).
  assert (Hrun : apply_exact_transaction_v6 BootContract.Sample.manifest
                   (fst Sample.after_baseline, snd Sample.after_baseline)
                 = ((fst Sample.after_apply, snd Sample.after_apply), Ok tt))
    by (vm_compute; reflexivity).
  split; [vm_compute; reflexivity |].
  apply (Theorems.apply_outcome _ _ _ _ _ Hrun).
Defined.

(** nothing leaves the simulated host while the baseline cannot be observed *)
Lemma cleanup_needs_verified_baseline_witness :
  let s := Sample.after_selection in
  let kept := fun b => Sample.sim_present b = Sample.sim_present (snd s) /\
                       Sample.sim_restored b = Sample.sim_restored (snd s) in
  kept (snd (fst (verify_then_cleanup_v6 BootContract.Sample.manifest (fst s, snd s)))).
Proof.
  intros s kept.
  apply (Theorems.cleanup_needs_verified_baseline BootContract.Sample.manifest kept (fst s) (snd s)).
  - intros x b Hb. exact Hb.
  - intros x b o [_ Hr] Ho. simpl in Ho. rewrite Hr in Ho. vm_compute in Ho. discriminate Ho.
  - by split.
Defined.
End Witnesses.
