(* ===== verification/BootHost.v ===== *)
(** crates/test-support/src/bin/nemor-tiering-boot-validation.rs, what the validator
    reads of the host: the parsers, the collection of the identities, the prepared
    manifest, the preflight and the post-boot observation. [BootSystem] extends the
    system calls of [Tiering] with those of this program; the errors of [anyhow] are
    their texts, and those of the standard library that no code looks at are named by
    what failed. *)

From S2P Require Import Prelude F64 Text Config Classifier Policy Tiering BootContract.

(** ** The system below *)

Record FileStat := {
  fs_is_dir : bool;
  fs_is_file : bool;
  fs_is_symlink : bool;
  fs_uid : Z;
  fs_gid : Z;
  fs_mode : Z;               (* & 0o7777 *)
  fs_nlink : Z;
  fs_dev : Z;
  fs_ino : Z;
  fs_len : Z
}.

(** the report of the worker: the second line it prints *)
Record WorkerReportV1 := {
  wr_protocol : string;
  wr_validation_id : string;
  wr_pid : Z;
  wr_start_ticks : Z;
  wr_cgroup_path : string;
  wr_ready : bool;
  wr_started : bool;
  wr_stopped : bool;
  wr_progress_steps : Z;
  wr_bytes_touched : Z;
  wr_service_latency_ns : Z;
  wr_content_verified : bool;
  wr_refault_content_verified : bool;
  wr_memory_events_before : gmap string (option Z);
  wr_memory_events_after : gmap string (option Z);
  wr_memory_current : option Z;
  wr_memory_peak : option Z;
  wr_swap_current : option Z;
  wr_psi_some_micros : option Z;
  wr_cgroup_io_write_bytes_before : option Z;
  wr_cgroup_io_write_bytes_after : option Z
}.
Inductive WorkerEnd :=
| WorkerExited
| WorkerFailed (status : string)
| WorkerDeadline.
(** the worker in its scope: the event and the id of the first line, unless that is late
    or is not JSON, how it ended before the deadline, and the second line *)
Record WorkerRun := {
  wk_ready : result (option string * option string) string;
  wk_end : WorkerEnd;
  wk_report : result WorkerReportV1 string;
  wk_elapsed_seconds : Z
}.

Class BootSystem (W : Type) := {
  #[export] boot_tiering_system :: TieringSystem W;
  command_stdout : string -> list string -> W -> result string string;
  run_exact : string -> list string -> eff W unit string;
  file_stat : string -> W -> result FileStat IoError;      (* [symlink_metadata] *)
  path_is_file : string -> W -> bool;                      (* follows links *)
  device_number : string -> W -> result Z string;          (* the rdev of [fs::metadata] *)
  read_link : string -> W -> result string string;
  env_var : string -> W -> option string;
  process_id : W -> Z;
  current_exe : W -> result string string;                 (* canonical *)
  write_text : string -> string -> eff W unit string;      (* [fs::write] *)
  open_new : string -> Z -> eff W unit string;             (* exclusive, with a mode *)
  write_synced : string -> string -> eff W unit string;    (* what is opened so, and its sync *)
  create_dir : string -> eff W unit string;
  set_mode : string -> Z -> eff W unit string;
  remove_dir : string -> eff W unit string;
  rename : string -> string -> eff W unit string;
  sync_dir : string -> eff W unit string;                  (* opens a directory and syncs it *)
  run_worker : list string -> eff W WorkerRun string
}.

(** ** Text *)

Definition find_line {A} (f : string -> option A) (text : string) : option A :=
  find_map f (lines text).

Definition parse_field (t n : string) : option string :=
  find_line (fun l => trim <$> strip_prefix n (trim l)) t ≫= non_empty.

Definition starts_with_whitespace (s : string) : bool :=
  match s with String c _ => is_ws c | EmptyString => false end.
Definition entry_line_value (line key : string) : option string :=
  rest ← strip_prefix key (trim line);
  v ← then_some (starts_with_whitespace rest) (trim rest);
  non_empty v.
Definition entry_value (text key : string) : option string :=
  find_line (fun l => entry_line_value l key) text.

Definition zswap_option_dropped (item : string) : bool :=
  starts_with "zswap." item || starts_with "nemor.phase6_validation=" item
  || starts_with "systemd.wants=nemor-phase6-" item.
Definition zswap_option_value (name value : string) : string :=
  if contains_str ["enabled"; "shrinker_enabled"]%string name then
    if String.eqb value "Y" then "1" else if String.eqb value "N" then "0" else value
  else value.
Definition zswap_option (zswap : gmap string string) (name : string) : option string :=
  value ← zswap !! name;
  Some ("zswap." ++ name ++ "=" ++ zswap_option_value name value)%string.
(** the [expect] on a missing parameter is [None] *)
Definition build_experimental_options (baseline marker unit_name : string)
    (zswap : gmap string string) : option string :=
  parameters ← mapM (zswap_option zswap) ZSWAP_NAMES;
  Some (join " "
    (List.filter (fun item => negb (zswap_option_dropped item)) (split_whitespace baseline)
     ++ [marker; ("systemd.wants=" ++ unit_name)%string] ++ parameters)).

Definition major (device : Z) : Z :=
  Z.lor (Z.land (Z.shiftr device 8) 4095)
    (Z.land (Z.shiftr device 32) (u64_max - 4095)).
Definition minor (device : Z) : Z :=
  Z.lor (Z.land device 255) (Z.land (Z.shiftr device 12) (u64_max - 255)).
Definition as_u32 (n : Z) : Z := n mod 2 ^ 32.

Definition map_error {A E F} (f : E -> F) (r : result A E) : result A F :=
  match r with Ok a => Ok a | Err e => Err (f e) end.

(** [text.lines().skip(1).map(..).collect()] *)
Definition swap_of_line (line : string) : result SwapIdentityV6 string :=
  let f := split_whitespace line in
  match f with
  | path :: kind :: size :: _ :: priority :: _ =>
      let? size := ok_or (parse_u64 size) "invalid size" in
      let? priority := ok_or (parse_i32 priority) "invalid priority" in
      Ok {| si_path := path; si_kind := kind; si_size_bytes := u64_sat_mul size 1024;
            si_priority := priority; si_uuid := None; si_active := true |}
  | _ => Err "malformed /proc/swaps"
  end.
Fixpoint collect_results {A E} (l : list (result A E)) : result (list A) E :=
  match l with
  | [] => Ok []
  | Ok a :: l' => let? r := collect_results l' in Ok (a :: r)
  | Err e :: _ => Err e
  end.
Definition swaps_of_text (text : string) : result (list SwapIdentityV6) string :=
  collect_results (map swap_of_line (tail (lines text))).

Definition selected_value (value : string) : result string string :=
  let? after := ok_or (snd <$> split_once "[" value) "selected zswap value" in
  ok_or (fst <$> split_once "]" after) "selected zswap value".

(** [find_map] of the line whose first field is the key; a value that does not parse
    does not end the search *)
Definition event_value (key text : string) : option Z :=
  find_line (fun line =>
    '(name, value) ← split_once " " line;
    if String.eqb name key then parse_u64 value else None) text.
Definition vmstat_of_text (name text : string) : option Z :=
  find_line (fun line =>
    '(k, v) ← split_once " " line;
    if String.eqb k name then parse_u64 (trim v) else None) text.
Definition psi_total_of_text (text : string) : option Z :=
  find_line (fun line =>
    fields ← strip_prefix "some " line;
    find_map (fun field => strip_prefix "total=" field ≫= parse_u64)
      (split_whitespace fields)) text.
Definition io_write_bytes_of_text (major minor : Z) (text : string) : option Z :=
  let device := (show_uint major ++ ":" ++ show_uint minor)%string in
  find_line (fun line =>
    match split_whitespace line with
    | [] => None
    | first :: fields =>
        if String.eqb first device
        then find_map (fun field => strip_prefix "wbytes=" field ≫= parse_u64) fields
        else None
    end) text.
(** [stat.rfind(')')], two bytes further; the [None] of the model is also the panic of a
    text that ends there *)
Definition start_ticks_of_text (stat : string) : option Z :=
  '(_, rest) ← rsplit_char ")" stat;
  match rest with
  | String _ rest => split_whitespace rest !! 19%nat ≫= parse_u64
  | EmptyString => None
  end.
Definition mount_id_of_text (text : string) : option Z :=
  find_line (fun l =>
    match split_whitespace l with
    | id :: rest =>
        id ← parse_u64 id;
        match rest !! 3%nat with
        | Some point => if String.eqb point "/" then Some id else None
        | None => None
        end
    | [] => None
    end) text.
Definition boot_order_of_text (text : string) : list string :=
  match parse_field text "BootOrder:" with
  | Some s => map trim (split_char "," s)
  | None => []
  end.

(** ** Counters *)

Definition counter_at (m : gmap string (option Z)) (name : string) : option Z := mjoin (m !! name).
Definition counter_deltas (before after : gmap string (option Z)) : gmap string (option Z) :=
  map_imap (fun name before =>
    Some (value ← before; now ← counter_at after name; u64_checked_sub now value)) before.
Definition counter_delta_named (before after : gmap string (option Z)) (name : string) : option Z :=
  now ← counter_at after name;
  value ← counter_at before name;
  u64_checked_sub now value.

(** ** Paths above a path, nearest first *)

Definition path_of (absolute : bool) (components : list string) : string :=
  ((if absolute then "/" else "") ++ join "/" components)%string.
(** the components, last first *)
Fixpoint ancestors_of (absolute : bool) (rcomponents : list string) : list string :=
  match rcomponents with
  | [] => []
  | _ :: parents => path_of absolute (rev parents) :: ancestors_of absolute parents
  end.
Definition path_ancestors (p : string) : list string :=
  ancestors_of (is_absolute p) (rev (Process.path_components p)).
Definition path_parent (p : string) : option string := head (path_ancestors p).
(** the loop [while !parent.exists()]: what is left at the first that exists *)
Fixpoint from_existing (exists_at : string -> bool) (paths : list string) : option (list string) :=
  match paths with
  | [] => None
  | p :: rest => if exists_at p then Some (p :: rest) else from_existing exists_at rest
  end.

(** ** Collection *)

Section Host.
Context `{Codec} {W : Type} `{BootSystem W}.
Context (BUILD_GIT_HEAD : string).

Definition read_string (path : string) (w : W) : result string string :=
  map_error io_text (read_text path w).
Definition read_trimmed (path : string) (w : W) : result string string :=
  let? text := read_string path w in Ok (trim text).
Definition command_output (program : string) (args : list string) (w : W) : result string string :=
  let? stdout := command_stdout program args w in Ok (trim stdout).
Definition git_output (args : list string) (w : W) : result string string :=
  command_output "/usr/bin/git" args w.
Definition read_u64 (path : string) (w : W) : result Z string :=
  let? text := read_trimmed path w in ok_or (parse_u64 text) "invalid number".
Definition read_u64_optional (path : string) (w : W) : option Z :=
  text ← result_ok (read_string path w); parse_u64 (trim text).
Definition sha256_file (path : string) (w : W) : result string string :=
  let? bytes := read_string path w in Ok (sha256_hex bytes).
Definition current_uid (w : W) : result Z string :=
  let? text := command_output "/usr/bin/id" ["-u"%string] w in ok_or (parse_u32 text) "invalid uid".
Definition current_gid (w : W) : result Z string :=
  let? text := command_output "/usr/bin/id" ["-g"%string] w in ok_or (parse_u32 text) "invalid gid".
Definition env_u32 (n : string) (w : W) : result Z string :=
  let? text := ok_or (env_var n w) (n ++ " absent")%string in ok_or (parse_u32 text) "invalid number".
Definition block_written_bytes (device : string) (w : W) : option Z :=
  name ← Process.path_file_name device;
  stat ← result_ok (read_trimmed (path_join (path_join "/sys/class/block" name) "stat") w);
  field ← split_whitespace stat !! 6%nat;
  v ← parse_u64 field;
  Some (v * 512).
Definition vmstat_value (name : string) (w : W) : option Z :=
  result_ok (read_string "/proc/vmstat" w) ≫= vmstat_of_text name.
Definition process_start_ticks (pid : Z) (w : W) : option Z :=
  result_ok (read_string ("/proc/" ++ show_uint pid ++ "/stat") w) ≫= start_ticks_of_text.

(** the files of the two directories; the later one wins *)
Definition collect_zswap_counters (w : W) : gmap string (option Z) :=
  foldl (fun out root =>
    match read_dir root w with
    | Err _ => out
    | Ok entries =>
        foldl (fun out entry =>
          match entry with
          | Ok e =>
              match de_is_file e with
              | Ok true =>
                  <[de_name e := read_u64_optional (path_join root (de_name e)) w]> out
              | _ => out
              end
          | Err _ => out
          end) out entries
    end) ∅ ["/sys/kernel/debug/zswap"; "/sys/kernel/mm/zswap"]%string.

Definition collect_swaps (w : W) : result (list SwapIdentityV6) string :=
  let? text := read_string "/proc/swaps" w in swaps_of_text text.

Definition collect_zram (swaps : list SwapIdentityV6) (w : W) : result ZramIdentityV6 string :=
  let? swap := ok_or (find_swap "/dev/zram0" swaps) "protected zram0 swap" in
  let? disksize := read_u64 "/sys/block/zram0/disksize" w in
  let? compressor := read_trimmed "/sys/block/zram0/comp_algorithm" w in
  Ok {| zr_device := si_path swap; zr_provider := "systemd-zram-generator"; zr_active := true;
        zr_priority := si_priority swap; zr_disksize_bytes := disksize;
        zr_compressor := compressor;
        zr_memory_limit_bytes := unwrap_or (result_ok (read_u64 "/sys/block/zram0/mem_limit" w)) 0;
        zr_unit := "dev-zram0.swap" |}.

Definition zswap_path (name : string) : string := path_join "/sys/module/zswap/parameters" name.
Definition read_zswap_parameter (name : string) (w : W) : result string string :=
  let? value := read_trimmed (zswap_path name) w in
  if contains_str ["compressor"; "zpool"]%string name then selected_value value else Ok value.
Fixpoint read_parameters (names : list string) (w : W) : result (gmap string string) string :=
  match names with
  | [] => Ok ∅
  | name :: rest =>
      let? value := read_zswap_parameter name w in
      let? parameters := read_parameters rest w in
      Ok (<[name := value]> parameters)
  end.
Definition collect_zswap (w : W) : result ZswapIdentityV6 string :=
  let? parameters := read_parameters ZSWAP_NAMES w in Ok {| zs_parameters := parameters |}.

Definition entry_of_text (id path text : string) : result BootEntryIdentityV6 string :=
  let? title := ok_or (entry_value text "title") "entry title" in
  reject (is_some (entry_value text "efi") || is_some (entry_value text "uki"))
    "Type #2 UKI or EFI-only Type #1 entry has no verified clone builder" ;?
  let? linux := ok_or (entry_value text "linux") "entry linux" in
  let? options := ok_or (entry_value text "options") "entry options" in
  Ok {| be_id := id; be_path := path; be_sha256 := sha256_hex text; be_title := title;
        be_linux_or_efi := linux;
        be_initrds := omap (fun l => entry_line_value l "initrd") (lines text);
        be_options := options |}.
Definition parse_type1_entry (id : string) (w : W) : result BootEntryIdentityV6 string :=
  reject (negb (ends_with ".conf" id) || str_contains "/" id || str_contains ".." id)
    "Type #2 UKI or ambiguous entry is unsupported" ;?
  let path := path_join ENTRY_ROOT id in
  let? text := read_string path w in
  entry_of_text id path text.

Definition layer_of (chain : list string) (index : nat) (name : string) (w : W) :
    result BlockLayerIdentityV6 string :=
  let path := ("/dev/" ++ name)%string in
  let? rdev := device_number path w in
  let parent := (fun n => ("/dev/" ++ n)%string) <$> chain !! S index in
  Ok {| bl_path := path; bl_kind := if is_some parent then "part" else "disk";
        bl_major := as_u32 (major rdev); bl_minor := as_u32 (minor rdev); bl_parent := parent |}.

Definition physical_identity (physical : BlockDevice) (rdev : Z) :
    result PhysicalDeviceIdentityV6 string :=
  let? transport := ok_or (bd_transport physical) "transport" in
  let? rotational := ok_or (bd_rotational physical) "rotational" in
  let? model := ok_or (bd_model physical) "model" in
  let? capacity := ok_or (bd_capacity_bytes physical) "capacity" in
  let? logical := ok_or (bd_logical_block_size physical) "logical block size" in
  let? physical_size := ok_or (bd_physical_block_size physical) "physical block size" in
  Ok {| pd_path := ("/dev/" ++ bd_name physical)%string; pd_major := as_u32 (major rdev);
        pd_minor := as_u32 (minor rdev); pd_transport := transport; pd_rotational := rotational;
        pd_model := model; pd_serial := bd_serial physical; pd_wwn := bd_wwn physical;
        pd_capacity_bytes := capacity; pd_logical_block_size := logical;
        pd_physical_block_size := physical_size |}.

Definition collect_topology (w : W) : result StorageTopologyIdentityV6 string :=
  let? line := command_output "/usr/bin/findmnt" ["-nro"; "SOURCE,FSTYPE"; "/"]%string w in
  let f := split_whitespace line in
  let? source := ok_or (f !! 0%nat) "root source" in
  let? filesystem := ok_or (f !! 1%nat) "root filesystem" in
  let old := inspect_storage "/" source filesystem w in
  reject (tp_ambiguous old) "ambiguous storage topology" ;?
  let? physical := ok_or (tp_physical old) "physical device" in
  let? profile := ok_or (tp_profile old) "storage profile" in
  let? chain := collect_results (imap (fun i name => layer_of (tp_chain old) i name w)
                                   (tp_chain old)) in
  let? rdev := device_number ("/dev/" ++ bd_name physical) w in
  let? root_rdev := device_number source w in
  let? mountinfo := read_string "/proc/self/mountinfo" w in
  let? mount_id := ok_or (mount_id_of_text mountinfo) "root mount id" in
  let? uuid := match command_output "/usr/bin/blkid"
                       ["-s"; "UUID"; "-o"; "value"; source]%string w with
               | Ok uuid => Ok uuid
               | Err _ => command_output "/usr/bin/btrfs" ["filesystem"; "show"; "/"]%string w
               end in
  let? physical := physical_identity physical rdev in
  Ok {| ti_storage_profile_version := STORAGE_PROFILE_VERSION; ti_profile := profile;
        ti_chain := chain; ti_physical := physical;
        ti_filesystem :=
          {| fi_filesystem := filesystem; fi_uuid_or_fsid := trim uuid;
             fi_mount_source := source; fi_mount_point := "/"; fi_mount_id := mount_id;
             fi_device_major := as_u32 (major root_rdev);
             fi_device_minor := as_u32 (minor root_rdev) |};
        ti_composite := false; ti_ambiguous := false; ti_confidence := "high" |}.

Definition boot_file_path (path : string) : string :=
  path_join "/boot" (unwrap_or (strip_prefix "/" path) path).
Fixpoint referenced_files (paths : list string) (w : W) :
    result (list ReferencedBootFileV6) string :=
  match paths with
  | [] => Ok []
  | path :: rest =>
      let actual := boot_file_path path in
      reject (negb (path_is_file actual w))
        ("Type #1 referenced boot file missing: " ++ actual)%string ;?
      let? sha256 := sha256_file actual w in
      let? files := referenced_files rest w in
      Ok ({| rf_path := path; rf_sha256 := sha256 |} :: files)
  end.

Definition status_field (status first second : string) : option string :=
  or_else (parse_field status first) (parse_field status second).
Definition booted_entry_of (status : string) : option string :=
  status_field status "Current Boot Loader Entry:" "Current Entry:".
Definition default_entry_of (status : string) : option string :=
  status_field status "Default Boot Loader Entry:" "Default Entry:".
Definition one_shot_of (status : string) : option string :=
  status_field status "One Shot Boot Loader Entry:" "One-shot Boot Loader Entry:".

Definition bootctl_status (w : W) : result string string :=
  command_output "/usr/bin/bootctl" ["status"%string] w.

Definition collect_boot_identity (w : W) : result BootIdentityV6 string :=
  let? status := bootctl_status w in
  reject (negb (str_contains "Secure Boot: disabled" status)) "Secure Boot is not disabled" ;?
  let? current_id := ok_or (booted_entry_of status) "current entry" in
  let? default_id := ok_or (default_entry_of status) "default entry" in
  reject (is_some (one_shot_of status)) "existing one-shot state conflicts" ;?
  let? current := parse_type1_entry current_id w in
  let? default := parse_type1_entry default_id w in
  let? referenced := referenced_files (be_linux_or_efi current :: be_initrds current) w in
  let? esp := command_output "/usr/bin/findmnt" ["-nro"; "SOURCE,FSTYPE"; "/boot"]%string w in
  let e := split_whitespace esp in
  let? esp_device := ok_or (e !! 0%nat) "ESP device" in
  let? esp_filesystem := ok_or (e !! 1%nat) "ESP filesystem" in
  let? esp_uuid := command_output "/usr/bin/blkid"
                     ["-s"; "UUID"; "-o"; "value"; esp_device]%string w in
  let? efi := command_output "/usr/bin/efibootmgr" ["-v"%string] w in
  let? identity := command_output "/usr/bin/findmnt" ["-nro"; "ID,MAJ:MIN"; "/boot"]%string w in
  let fields := split_whitespace identity in
  let? id := ok_or (fields !! 0%nat) "ESP mount id" in
  let? esp_mount_id := ok_or (parse_u64 id) "invalid mount id" in
  let? device := ok_or (fields !! 1%nat) "ESP major:minor" in
  let? numbers := ok_or (split_once ":" device) "ESP major:minor grammar" in
  let? version := command_output "/usr/bin/bootctl" ["--version"%string] w in
  let? esp_major := ok_or (parse_u32 (fst numbers)) "invalid major" in
  let? esp_minor := ok_or (parse_u32 (snd numbers)) "invalid minor" in
  let? kernel := read_trimmed "/proc/sys/kernel/osrelease" w in
  let? command_line := read_trimmed "/proc/cmdline" w in
  Ok {| bo_bootloader := "systemd-boot-type1"; bo_bootloader_version := version;
        bo_current_entry := current; bo_default_entry := default;
        bo_boot_order := boot_order_of_text efi; bo_prior_one_shot := None;
        bo_esp_mount := "/boot"; bo_esp_device := esp_device;
        bo_esp_filesystem := esp_filesystem; bo_esp_uuid := trim esp_uuid;
        bo_esp_mount_id := esp_mount_id; bo_esp_device_major := esp_major;
        bo_esp_device_minor := esp_minor; bo_secure_boot := "disabled";
        bo_kernel_release := kernel; bo_referenced_files := referenced;
        bo_current_command_line := command_line |}.

Definition material_environment_hash (w : W) : result string string :=
  let zero := String "000" "" in
  let? release := read_string "/etc/os-release" w in
  let? version := read_string "/proc/version" w in
  let? command_line := read_string "/proc/cmdline" w in
  let? virt := command_output "/usr/bin/systemd-detect-virt" [] w in
  Ok (sha256_hex (release ++ zero ++ version ++ zero ++ command_line ++ zero ++ virt)).

(** [Config::from_toml] *)
Context (from_toml : string -> result TieringConfig string).
Definition production_state (config_path : string) (w : W) : result (bool * bool) string :=
  let? text := read_string config_path w in
  let? tiering := from_toml text in
  let observe_only := tiering_dry_run tiering
                      && negb (tiering_allow_runtime_reconfigure tiering)
                      && negb (tiering_allow_persistent_reconfigure tiering)
                      && negb (tiering_allow_swapfile_create tiering) in
  Ok (observe_only, negb observe_only).

(** ** prepare *)

Record PrepareArgs := {
  pa_validation_id : string;
  pa_config : string;
  pa_validator_binary : string;
  pa_swap_size_bytes : Z;
  pa_swap_priority : Z;
  pa_maximum_write_bytes : Z;
  pa_timeout_seconds : Z
}.

(** what [collect_prepared_payload] has collected when it builds the payload *)
Record PreparedInputs := {
  pi_uid : Z;
  pi_gid : Z;
  pi_source_commit : string;
  pi_validator : BinaryIdentityV6;
  pi_validator_stat : FileStat;
  pi_config : string;
  pi_config_sha256 : string;
  pi_environment : string;
  pi_topology : StorageTopologyIdentityV6;
  pi_swaps : list SwapIdentityV6;
  pi_zram : ZramIdentityV6;
  pi_zswap : ZswapIdentityV6;
  pi_boot : BootIdentityV6
}.

Definition artifact (kind : OwnedArtifactKindV6) (path content : string) (mode : Z) :
    OwnedArtifactV6 :=
  {| oa_kind := kind; oa_path := path; oa_sha256 := sha256_hex content; oa_mode := mode;
     oa_owner_uid := 0; oa_owner_gid := 0; oa_content := content |}.

Definition experimental_entry_of (id : string) (current : BootEntryIdentityV6) (options : string) :
    BootEntryIdentityV6 :=
  {| be_id := entry_name id; be_path := path_join "/boot/loader/entries" (entry_name id);
     be_sha256 := ""; be_title := be_title current; be_linux_or_efi := be_linux_or_efi current;
     be_initrds := be_initrds current; be_options := options |}.
Definition with_sha256 (sha256 : string) (e : BootEntryIdentityV6) : BootEntryIdentityV6 :=
  {| be_id := be_id e; be_path := be_path e; be_sha256 := sha256; be_title := be_title e;
     be_linux_or_efi := be_linux_or_efi e; be_initrds := be_initrds e;
     be_options := be_options e |}.

Definition staged_helper_of (args : PrepareArgs) (i : PreparedInputs) (tx_root : string) :
    StagedBinaryPlanV6 :=
  let stat := pi_validator_stat i in
  {| sb_source := pi_validator i;
     sb_destination := path_join tx_root "bin/nemor-tiering-boot-validation";
     sb_destination_mode := 493; sb_destination_uid := 0; sb_destination_gid := 0;
     sb_require_single_link := true; sb_source_uid := fs_uid stat; sb_source_gid := fs_gid stat;
     sb_source_mode := fs_mode stat; sb_source_link_count := fs_nlink stat;
     sb_source_device := fs_dev stat; sb_source_inode := fs_ino stat |}.

(** the payload without its artifacts *)
Definition payload_base (args : PrepareArgs) (i : PreparedInputs) (entry : BootEntryIdentityV6) :
    PreparedManifestPayloadV6 :=
  let id := pa_validation_id args in
  let tx_root := path_join TRANSACTION_ROOT_V6 id in
  {| pm_contract_version := BOOT_VALIDATION_CONTRACT_VERSION_V6;
     pm_rule_version := TIERING_RULE_VERSION; pm_validation_id := id;
     pm_prepared_uid := pi_uid i; pm_prepared_gid := pi_gid i;
     pm_source_commit := pi_source_commit i;
     pm_source_state_sha256 :=
       sha256_hex (pi_source_commit i ++ newline ++ "clean" ++ newline)%string;
     pm_binaries := {[ "nemor-tiering-boot-validation"%string := pi_validator i ]};
     pm_config_path := pi_config i; pm_config_sha256 := pi_config_sha256 i;
     pm_material_environment_sha256 := pi_environment i; pm_topology := pi_topology i;
     pm_baseline_swaps := pi_swaps i; pm_protected_zram := pi_zram i;
     pm_baseline_zswap := pi_zswap i;
     pm_experimental_zswap := <["enabled"%string := "Y"%string]> (zs_parameters (pi_zswap i));
     pm_boot := pi_boot i; pm_experimental_entry := entry;
     pm_validation_marker := ("nemor.phase6_validation=" ++ id)%string;
     pm_swapfile :=
       {| si_path := path_join tx_root "backing.swap"; si_kind := "file";
          si_size_bytes := pa_swap_size_bytes args; si_priority := pa_swap_priority args;
          si_uuid := None; si_active := false |};
     pm_owned_artifacts := []; pm_transaction_root := tx_root;
     pm_workload :=
       {| wc_protocol := WORKLOAD_PROTOCOL_V6; wc_seed := 336170143570;
          wc_bytes := 32 * 1024 * 1024; wc_iterations := 2;
          wc_timeout_seconds := pa_timeout_seconds args;
          wc_maximum_write_bytes := pa_maximum_write_bytes args |};
     pm_staged_helper := staged_helper_of args i tx_root;
     pm_recovery_entry := be_id (bo_current_entry (pi_boot i));
     pm_production_activation := false |}.

Definition with_artifacts (artifacts : list OwnedArtifactV6) (p : PreparedManifestPayloadV6) :
    PreparedManifestPayloadV6 :=
  {| pm_contract_version := pm_contract_version p; pm_rule_version := pm_rule_version p;
     pm_validation_id := pm_validation_id p; pm_prepared_uid := pm_prepared_uid p;
     pm_prepared_gid := pm_prepared_gid p; pm_source_commit := pm_source_commit p;
     pm_source_state_sha256 := pm_source_state_sha256 p; pm_binaries := pm_binaries p;
     pm_config_path := pm_config_path p; pm_config_sha256 := pm_config_sha256 p;
     pm_material_environment_sha256 := pm_material_environment_sha256 p;
     pm_topology := pm_topology p; pm_baseline_swaps := pm_baseline_swaps p;
     pm_protected_zram := pm_protected_zram p; pm_baseline_zswap := pm_baseline_zswap p;
     pm_experimental_zswap := pm_experimental_zswap p; pm_boot := pm_boot p;
     pm_experimental_entry := pm_experimental_entry p;
     pm_validation_marker := pm_validation_marker p; pm_swapfile := pm_swapfile p;
     pm_owned_artifacts := artifacts; pm_transaction_root := pm_transaction_root p;
     pm_workload := pm_workload p; pm_staged_helper := pm_staged_helper p;
     pm_recovery_entry := pm_recovery_entry p;
     pm_production_activation := pm_production_activation p |}.

(** the second half of [collect_prepared_payload]; [None] is the panic of [expect] *)
Definition payload_of (args : PrepareArgs) (i : PreparedInputs) :
    option PreparedManifestPayloadV6 :=
  let id := pa_validation_id args in
  let current := bo_current_entry (pi_boot i) in
  options ← build_experimental_options (be_options current)
              ("nemor.phase6_validation=" ++ id) (unit_name id)
              (<["enabled"%string := "Y"%string]> (zs_parameters (pi_zswap i)));
  let unsealed := experimental_entry_of id current options in
  let entry_content := render_type1_entry_v6 unsealed in
  let entry := with_sha256 (sha256_hex entry_content) unsealed in
  let base := payload_base args i entry in
  let helper := pm_staged_helper base in
  let unit_content := render_validation_unit_v6 base (sb_destination helper) in
  Some (with_artifacts
    [artifact Type1Entry (be_path entry) entry_content 384;
     artifact ValidationUnit (path_join "/etc/systemd/system" (unit_name id)) unit_content 420;
     {| oa_kind := HelperBinary; oa_path := sb_destination helper;
        oa_sha256 := bi_sha256 (sb_source helper); oa_mode := 493; oa_owner_uid := 0;
        oa_owner_gid := 0; oa_content := "" |}] base).

Definition collect_inputs (args : PrepareArgs) (w : W) : result PreparedInputs string :=
  let length := Z.of_nat (String.length (pa_validation_id args)) in
  reject (negb ((8 <=? length) && (length <=? 64))) "invalid validation id" ;?
  let? uid := current_uid w in
  let? gid := current_gid w in
  let? source_commit := git_output ["rev-parse"; "HEAD"]%string w in
  reject (negb (String.eqb source_commit BUILD_GIT_HEAD)) "binary/source commit mismatch" ;?
  let? source_state := git_output ["status"; "--porcelain=v1"; "--untracked-files=no"]%string w in
  reject (negb (str_empty source_state)) "tracked source is dirty" ;?
  let? validator := ok_or (canonicalize (pa_validator_binary args) w) "validator binary" in
  let? supplied := map_error io_text (file_stat (pa_validator_binary args) w) in
  reject (negb (fs_is_file supplied) || fs_is_symlink supplied)
    "validator source must be a regular non-symlink file" ;?
  let? stat := map_error io_text (file_stat validator w) in
  reject (negb (fs_nlink stat =? 1) || negb (Z.land (fs_mode stat) 18 =? 0))
    "validator source ownership/mode/link identity is unsafe" ;?
  let? validator_hash := sha256_file validator w in
  let? embedded_commit := command_output validator ["build-git-head"%string] w in
  reject (negb (String.eqb embedded_commit source_commit))
    "validator embedded commit does not match exact source" ;?
  let? config := ok_or (canonicalize (pa_config args) w) "config" in
  let? config_sha256 := sha256_file config w in
  let? state := production_state config w in
  reject (negb (bool_decide (state = (true, false))))
    "configuration is not observe-only with production activation disabled" ;?
  let? topology := collect_topology w in
  let? swaps := collect_swaps w in
  let? zram := collect_zram swaps w in
  let? zswap := collect_zswap w in
  let? boot := collect_boot_identity w in
  let? environment := material_environment_hash w in
  Ok {| pi_uid := uid; pi_gid := gid; pi_source_commit := source_commit;
        pi_validator := {| bi_path := validator; bi_sha256 := validator_hash;
                           bi_embedded_commit := embedded_commit |};
        pi_validator_stat := stat; pi_config := config; pi_config_sha256 := config_sha256;
        pi_environment := environment; pi_topology := topology; pi_swaps := swaps;
        pi_zram := zram; pi_zswap := zswap; pi_boot := boot |}.

Definition collect_prepared_payload (args : PrepareArgs) (w : W) :
    result PreparedManifestPayloadV6 string :=
  let? inputs := collect_inputs args w in
  ok_or (payload_of args inputs) "validated zswap key".

(** ** Preflight *)

Definition require_authenticated_root (m : TieringBootValidationPreparedManifestV6) (w : W) :
    result unit string :=
  let message := "exact authenticated SUDO_UID/SUDO_GID required"%string in
  let? uid := current_uid w in
  reject (negb (uid =? 0)) message ;?
  let? sudo_uid := env_u32 "SUDO_UID" w in
  reject (negb (sudo_uid =? pm_prepared_uid (mf_payload m))) message ;?
  let? sudo_gid := env_u32 "SUDO_GID" w in
  reject (negb (sudo_gid =? pm_prepared_gid (mf_payload m))) message.

Definition require_private_owned_parent (p : string) (uid : Z) (w : W) : result unit string :=
  let? m := map_error io_text (file_stat p w) in
  reject (negb (fs_is_dir m) || fs_is_symlink m || negb (fs_uid m =? uid)
          || negb (Z.land (fs_mode m) 63 =? 0)) "prepared parent must be private and user-owned".

(** a directory of root that no one else writes *)
Definition safe_directory (w : W) (path : string) : bool :=
  is_some_and (result_ok (file_stat path w)) (fun m =>
    fs_is_dir m && negb (fs_is_symlink m) && (fs_uid m =? 0) && (Z.land (fs_mode m) 18 =? 0)).
Definition path_absent_and_parent_safe (p : string) (w : W) : bool :=
  if path_exists p w || contains_str (Process.path_components p) ".."
     || String.eqb p "." || starts_with "./" p
  then false
  else is_some_and (from_existing (fun q => path_exists q w) (path_ancestors p))
         (forallb (safe_directory w)).

(** the loop of [transaction_hierarchy_safe] up to /var/lib *)
Fixpoint hierarchy_loop (device : option Z) (paths : list string) (w : W) : bool :=
  match paths with
  | [] => false
  | path :: rest =>
      let go device := if path_eq path "/var/lib" then true else hierarchy_loop device rest w in
      if path_exists path w then
        match file_stat path w with
        | Err _ => false
        | Ok m =>
            if negb (fs_is_dir m) || fs_is_symlink m || negb (fs_uid m =? 0)
               || (path_under "/var/lib/nemor" path && negb (fs_mode m =? 448))
               || is_some_and device (fun expected => negb (expected =? fs_dev m))
            then false
            else go (Some (unwrap_or device (fs_dev m)))
        end
      else go device
  end.
Definition transaction_hierarchy_safe (root : string) (w : W) : bool :=
  path_under TRANSACTION_ROOT_V6 root && negb (path_exists root w)
  && hierarchy_loop None (path_ancestors root) w.

Definition staged_source_matches (plan : StagedBinaryPlanV6) (w : W) : bool :=
  is_some_and (result_ok (file_stat (bi_path (sb_source plan)) w)) (fun m =>
    fs_is_file m && negb (fs_is_symlink m) && (fs_uid m =? sb_source_uid plan)
    && (fs_gid m =? sb_source_gid plan) && (fs_mode m =? sb_source_mode plan)
    && (fs_nlink m =? sb_source_link_count plan) && (fs_dev m =? sb_source_device plan)
    && (fs_ino m =? sb_source_inode plan)
    && option_str_eqb (result_ok (sha256_file (bi_path (sb_source plan)) w))
         (Some (bi_sha256 (sb_source plan)))).

Definition free_bytes (p : string) (w : W) : result Z string :=
  let? s := command_output "/usr/bin/df" ["-B1"; "--output=avail"; p]%string w in
  let? line := ok_or (list.last (lines s)) "df" in
  ok_or (parse_u64 (trim line)) "invalid number".

(** the loop over the power supplies, with [seen] *)
Fixpoint ac_power_loop (seen : bool) (entries : list (result DirEntry IoError)) (w : W) :
    option bool :=
  match entries with
  | [] => then_some seen false
  | Err _ :: rest => ac_power_loop seen rest w
  | Ok e :: rest =>
      let path := path_join "/sys/class/power_supply" (de_name e) in
      if option_str_eqb (result_ok (read_trimmed (path_join path "type") w)) (Some "Mains"%string)
      then
        if option_str_eqb (result_ok (read_trimmed (path_join path "online") w)) (Some "1"%string)
        then Some true
        else ac_power_loop true rest w
      else ac_power_loop seen rest w
  end.
Definition ac_power (w : W) : option bool :=
  entries ← result_ok (read_dir "/sys/class/power_supply" w);
  ac_power_loop false entries w.

Definition no_other_validator_process (w : W) : bool :=
  match read_dir "/proc" w with
  | Err _ => false
  | Ok entries =>
      let pids := omap (fun e => e ← result_ok e; parse_u32 (de_name e)) entries in
      negb (existsb (fun p =>
              negb (p =? process_id w)
              && is_some_and (result_ok (read_string ("/proc/" ++ show_uint p ++ "/cmdline") w))
                   (str_contains "nemor-tiering-boot-validation")) pids)
  end.

Definition entry_eqb (a b : BootEntryIdentityV6) : bool :=
  String.eqb (be_id a) (be_id b) && path_eq (be_path a) (be_path b)
  && String.eqb (be_sha256 a) (be_sha256 b) && String.eqb (be_title a) (be_title b)
  && path_eq (be_linux_or_efi a) (be_linux_or_efi b)
  && list_eqb path_eq (be_initrds a) (be_initrds b)
  && String.eqb (be_options a) (be_options b).
Definition referenced_eqb (a b : ReferencedBootFileV6) : bool :=
  path_eq (rf_path a) (rf_path b) && String.eqb (rf_sha256 a) (rf_sha256 b).

Definition is_ok_and {A E} (r : result A E) (p : A -> bool) : bool := is_some_and (result_ok r) p.

Definition collect_preflight (m : TieringBootValidationPreparedManifestV6) (root : bool) (w : W) :
    result PreflightObservationV6 string :=
  (match validate_manifest m with Ok _ => Ok tt | Err _ => Err "invalid manifest"%string end) ;?
  let p := mf_payload m in
  let expected := pm_boot p in
  let boot := collect_boot_identity w in
  let swaps := unwrap_or (result_ok (collect_swaps w)) [] in
  let current := is_ok_and boot (fun v =>
    entry_eqb (bo_current_entry v) (bo_current_entry expected)) in
  let default := is_ok_and boot (fun v =>
    entry_eqb (bo_default_entry v) (bo_default_entry expected)) in
  let? uid := current_uid w in
  let? gid := current_gid w in
  let? sudo_uid := if root then let? n := env_u32 "SUDO_UID" w in Ok (Some n) else Ok None in
  let? sudo_gid := if root then let? n := env_u32 "SUDO_GID" w in Ok (Some n) else Ok None in
  let? environment := material_environment_hash w in
  let commit := pm_source_commit p in
  let with_ready ready :=
    {| po_schema := PREFLIGHT_SCHEMA_V6; po_uid := uid; po_gid := gid; po_sudo_uid := sudo_uid;
       po_sudo_gid := sudo_gid; po_host_identity_sha256 := environment;
       po_source_matches :=
         String.eqb BUILD_GIT_HEAD commit
         && option_str_eqb (result_ok (git_output ["rev-parse"; "HEAD"]%string w)) (Some commit)
         && String.eqb (sha256_hex (commit ++ newline ++ "clean" ++ newline))
              (pm_source_state_sha256 p)
         && is_ok_and (git_output ["status"; "--porcelain=v1"; "--untracked-files=no"]%string w)
              str_empty;
       po_binaries_match :=
         forallb (fun kb => let b : BinaryIdentityV6 := snd kb in
                            option_str_eqb (result_ok (sha256_file (bi_path b) w))
                              (Some (bi_sha256 b))
                            && String.eqb (bi_embedded_commit b) BUILD_GIT_HEAD)
           (map_to_list (pm_binaries p));
       po_config_matches :=
         option_str_eqb (result_ok (sha256_file (pm_config_path p) w)) (Some (pm_config_sha256 p));
       po_topology_matches := is_ok_and (collect_topology w) (fun v => topology_eqb v (pm_topology p));
       po_boot_matches := is_ok_and boot (fun v =>
         entry_eqb (bo_current_entry v) (bo_current_entry expected)
         && entry_eqb (bo_default_entry v) (bo_default_entry expected)
         && String.eqb (bo_esp_uuid v) (bo_esp_uuid expected));
       po_bootloader_type_matches := is_ok_and boot (fun v =>
         String.eqb (bo_bootloader v) (bo_bootloader expected));
       po_bootloader_version_matches := is_ok_and boot (fun v =>
         String.eqb (bo_bootloader_version v) (bo_bootloader_version expected));
       po_current_entry_semantics_match := current; po_current_entry_hash_matches := current;
       po_current_entry_path_matches := current; po_default_entry_semantics_match := default;
       po_default_entry_hash_matches := default; po_default_entry_path_matches := default;
       po_referenced_boot_files_match := is_ok_and boot (fun v =>
         list_eqb referenced_eqb (bo_referenced_files v) (bo_referenced_files expected));
       po_kernel_release_matches := is_ok_and boot (fun v =>
         String.eqb (bo_kernel_release v) (bo_kernel_release expected));
       po_command_line_matches := is_ok_and boot (fun v =>
         String.eqb (bo_current_command_line v) (bo_current_command_line expected));
       po_esp_device_matches := is_ok_and boot (fun v =>
         String.eqb (bo_esp_device v) (bo_esp_device expected));
       po_esp_filesystem_matches := is_ok_and boot (fun v =>
         String.eqb (bo_esp_filesystem v) (bo_esp_filesystem expected));
       po_esp_uuid_matches := is_ok_and boot (fun v =>
         String.eqb (bo_esp_uuid v) (bo_esp_uuid expected));
       po_esp_mount_matches := is_ok_and boot (fun v =>
         path_eq (bo_esp_mount v) (bo_esp_mount expected)
         && (bo_esp_mount_id v =? bo_esp_mount_id expected)
         && (bo_esp_device_major v =? bo_esp_device_major expected)
         && (bo_esp_device_minor v =? bo_esp_device_minor expected));
       po_boot_order_matches := is_ok_and boot (fun v =>
         list_str_eqb (bo_boot_order v) (bo_boot_order expected));
       po_one_shot_matches := is_ok_and boot (fun v =>
         option_str_eqb (bo_prior_one_shot v) (bo_prior_one_shot expected));
       po_zram_matches := is_ok_and (collect_zram swaps w) (fun v => zram_eqb v (pm_protected_zram p));
       po_zswap_matches := is_ok_and (collect_zswap w) (fun v => zswap_eqb v (pm_baseline_zswap p));
       po_parents_safe :=
         forallb (fun a => path_absent_and_parent_safe (oa_path a) w) (pm_owned_artifacts p)
         && path_absent_and_parent_safe (si_path (pm_swapfile p)) w;
       po_transaction_hierarchy_safe := transaction_hierarchy_safe (pm_transaction_root p) w;
       po_staged_source_binary_matches := staged_source_matches (pm_staged_helper p) w;
       po_validation_destinations_absent :=
         forallb (fun a => negb (path_exists (oa_path a) w)) (pm_owned_artifacts p);
       po_esp_free_bytes := unwrap_or (result_ok (free_bytes (bo_esp_mount expected) w)) 0;
       po_swap_free_bytes := unwrap_or (result_ok (free_bytes "/" w)) 0;
       po_package_update_absent :=
         negb (existsb (fun p => path_exists p w)
                 ["/var/lib/pacman/db.lck"; "/run/systemd/system-update"]%string);
       po_secure_boot_compatible := is_ok_and boot (fun v =>
         String.eqb (bo_secure_boot v) "disabled");
       po_ac_power := ac_power w;
       po_stale_state_absent :=
         negb (path_exists (pm_transaction_root p) w)
         && forallb (fun a => negb (path_exists (oa_path a) w)) (pm_owned_artifacts p)
         && negb (path_exists (si_path (pm_swapfile p)) w);
       po_validation_process_absent := no_other_validator_process w;
       po_unrelated_mutation_absent :=
         is_ok_and (command_output "/usr/bin/systemctl"
                      ["list-jobs"; "--no-legend"; "--no-pager"]%string w)
           (fun value => str_empty (trim value));
       po_mutation_count := 0; po_ready := ready |} in
  Ok (with_ready (derived_preflight_ready_v6 m (with_ready false))).

(** ** The workload *)

Definition read_memory_events (path : string) (w : W) : gmap string (option Z) :=
  list_to_map (map (fun key => (key, result_ok (read_string path w) ≫= event_value key))
                 ["oom"; "oom_kill"]%string).
Definition read_psi_total (path : string) (w : W) : option Z :=
  result_ok (read_string path w) ≫= psi_total_of_text.
Definition read_cgroup_io_write_bytes (path : string) (major minor : Z) (w : W) : option Z :=
  result_ok (read_string path w) ≫= io_write_bytes_of_text major minor.
Definition unified_cgroup_path (w : W) : result string string :=
  let? text := read_string "/proc/self/cgroup" w in
  ok_or (find_line (strip_prefix "0::") text) "unified cgroup path".

(** the byte [index] of the two buffers *)
Definition primary_byte (seed index : Z) : Z := (index mod 256 + seed mod 256) mod 256.
Definition pressure_byte (seed iteration index : Z) : Z :=
  ((index mod 256 + iteration mod 256) mod 256 + seed mod 256) mod 256.
Definition workload_bytes_touched (bytes iterations : Z) : Z :=
  let pressure := u64_sat_mul bytes 2 in
  u64_sat_add (u64_sat_add (u64_sat_add bytes (u64_sat_mul pressure iterations)) bytes) bytes.

Definition worker_args (m : TieringBootValidationPreparedManifestV6) : list string :=
  let p := mf_payload m in
  let bytes := wc_bytes (pm_workload p) in
  ["--scope"; "--pipe"; "--wait"; "--collect"; "--quiet"; "--unit";
   "nemor-phase6-workload-" ++ pm_validation_id p ++ ".scope"; "--property";
   "MemoryMax=" ++ show_uint (u64_sat_mul bytes 2); "--property";
   "MemorySwapMax=" ++ show_uint (u64_sat_mul bytes 3);
   sb_destination (pm_staged_helper p); "bounded-workload"; "--validation-id";
   pm_validation_id p]%string.

(** the handshakes of [run_bounded_workload_scope] with the worker *)
Definition accept_worker (id : string) (run : WorkerRun) : result WorkerReportV1 string :=
  let? ready := wk_ready run in
  reject (negb (option_str_eqb (fst ready) (Some "ready"%string))
          || negb (option_str_eqb (snd ready) (Some id)))
    "bounded worker ready handshake mismatch" ;?
  match wk_end run with
  | WorkerFailed status => Err ("bounded workload scope exited " ++ status)%string
  | WorkerDeadline => Err "bounded workload scope timeout"%string
  | WorkerExited =>
      let? report := wk_report run in
      reject (negb (String.eqb (wr_protocol report) WORKLOAD_PROTOCOL_V6)
              || negb (String.eqb (wr_validation_id report) id)
              || negb (wr_ready report) || negb (wr_started report) || negb (wr_stopped report))
        "bounded worker terminal handshake mismatch" ;?
      Ok report
  end.
Definition run_bounded_workload_scope (m : TieringBootValidationPreparedManifestV6) :
    eff W (WorkerReportV1 * Z) string :=
  let! run := run_worker (worker_args m) in
  eff_read (fun _ => let? report := accept_worker (pm_validation_id (mf_payload m)) run in
                     Ok (report, wk_elapsed_seconds run)).

(** ** After the reboot *)

Definition systemctl_value (unit property : string) (w : W) : result string string :=
  command_output "/usr/bin/systemctl"
    ["show"; unit; "--property=" ++ property; "--value"]%string w.

Definition collect_runtime_observe_only (m : TieringBootValidationPreparedManifestV6) (w : W) :
    result RuntimeObserveOnlyEvidenceV6 string :=
  let p := mf_payload m in
  let? state := production_state (pm_config_path p) w in
  let nemord_active :=
    is_ok_and (command_output "/usr/bin/systemctl" ["is-active"; "nemord.service"]%string w)
      (String.eqb "active") in
  let? nemord_binary :=
    if nemord_active then
      let? text := systemctl_value "nemord.service" "MainPID" w in
      let? pid := ok_or (parse_u32 text) "invalid pid" in
      let? path := read_link ("/proc/" ++ show_uint pid ++ "/exe") w in
      let? sha256 := sha256_file path w in
      let? ticks := ok_or (process_start_ticks pid w) "nemord start ticks" in
      Ok (Some {| rb_path := path; rb_sha256 := sha256; rb_pid := pid; rb_start_ticks := ticks |})
    else Ok None in
  let? effective_mode :=
    if nemord_active then
      let? mode := systemctl_value "nemord.service" "ExecStart" w in Ok (Some mode)
    else Ok (Some "absent"%string) in
  let validation_unit := unit_name (pm_validation_id p) in
  let expected name := String.eqb name "nemord.service" || String.eqb name validation_unit in
  let units := unwrap_or (result_ok (command_output "/usr/bin/systemctl"
                 ["list-units"; "--all"; "--plain"; "--no-legend"; "--type=service"]%string w)) "" in
  let cgroups := match read_dir "/sys/fs/cgroup/system.slice" w with
                 | Ok entries => omap (fun e => de_name <$> result_ok e) entries
                 | Err _ => []
                 end in
  let? config_sha256 := sha256_file (pm_config_path p) w in
  Ok {| ro_config_sha256 := config_sha256; ro_configured_observe_only := fst state;
        ro_nemord_active := nemord_active; ro_nemord_binary := nemord_binary;
        ro_effective_mode := effective_mode;
        ro_production_tiering_unit_absent :=
          is_ok_and (systemctl_value "nemor-tiering.service" "LoadState" w)
            (String.eqb "not-found");
        ro_unexpected_nemor_units :=
          List.filter (fun unit => starts_with "nemor" unit && negb (expected unit))
            (omap (fun line => head (split_whitespace line)) (lines units));
        ro_unexpected_nemor_cgroups :=
          List.filter (fun name => str_contains "nemor" name && negb (expected name)) cgroups;
        ro_production_activation := snd state |}.

Definition write_attribution (writes cgroup_writes : option Z) : string :=
  if is_some writes && option_z_eqb writes cgroup_writes && is_some_and writes (fun b => 0 <? b)
  then "bounded-physical-device-attributed" else "physical-device-host-wide-noisy".
Definition difference (before after : option Z) : option Z :=
  a ← before; b ← after; u64_checked_sub b a.
Definition ratio_milli (stored pool : option Z) : option Z :=
  pages ← stored; bytes ← pool;
  Some (if bytes =? 0 then 0 else u64_sat_mul (u64_sat_mul pages 4096) 1000 / bytes).
Definition positive (delta : option Z) : bool := is_some_and delta (fun d => 0 <? d).

Definition collect_post_boot (m : TieringBootValidationPreparedManifestV6) :
    eff W ActualPostBootObservationV6 string :=
  let p := mf_payload m in
  let device := pd_path (ti_physical (pm_topology p)) in
  let! boot_id := eff_read (read_trimmed "/proc/sys/kernel/random/boot_id") in
  let! status := eff_read bootctl_status in
  let! booted_entry := eff_read (fun _ => ok_or (booted_entry_of status) "booted entry") in
  let! w_before := eff_get in
  let! worker_run := run_bounded_workload_scope m in
  let worker := fst worker_run in
  eff_reject (wc_timeout_seconds (pm_workload p) <? snd worker_run) "workload timeout" ;!
  eff_read (fun w =>
    let writes := difference (block_written_bytes device w_before) (block_written_bytes device w) in
    let counters_before := collect_zswap_counters w_before in
    let counters := collect_zswap_counters w in
    let deltas := counter_deltas counters_before counters in
    let? state := production_state (pm_config_path p) w in
    let delta := counter_delta_named (wr_memory_events_before worker)
                   (wr_memory_events_after worker) in
    let? command_line := read_trimmed "/proc/cmdline" w in
    let? kernel := read_trimmed "/proc/sys/kernel/osrelease" w in
    let? zswap := collect_zswap w in
    let? swaps := collect_swaps w in
    let? zram := collect_zram swaps w in
    let? topology := collect_topology w in
    let? runtime := collect_runtime_observe_only m w in
    Ok {| ab_schema := POST_BOOT_EVIDENCE_SCHEMA_V6; ab_boot_id := boot_id;
          ab_booted_entry := booted_entry; ab_command_line := command_line;
          ab_kernel_release := kernel; ab_zswap := zswap; ab_swaps := swaps;
          ab_protected_zram := zram; ab_topology := topology;
          ab_unit_active :=
            is_ok_and (command_output "/usr/bin/systemctl"
                         ["is-active"%string; unit_name (pm_validation_id p)] w)
              (String.eqb "active");
          ab_workload_scope_absent :=
            is_ok_and (systemctl_value
                         ("nemor-phase6-workload-" ++ pm_validation_id p ++ ".scope") "LoadState" w)
              (String.eqb "not-found");
          ab_daemon_observe_only := fst state; ab_production_activation := snd state;
          ab_zswap_counters := counters; ab_zswap_counters_before := counters_before;
          ab_zswap_counter_deltas := deltas; ab_cgroup_path := wr_cgroup_path worker;
          ab_workload_pid := wr_pid worker; ab_workload_start_ticks := wr_start_ticks worker;
          ab_workload_ready := wr_ready worker; ab_workload_started := wr_started worker;
          ab_workload_stopped := wr_stopped worker; ab_progress_steps := wr_progress_steps worker;
          ab_cgroup_oom_delta := delta "oom"%string;
          ab_cgroup_oom_kill_delta := delta "oom_kill"%string;
          ab_host_oom_kill_delta :=
            difference (vmstat_value "oom_kill" w_before) (vmstat_value "oom_kill" w);
          ab_memory_current_bytes := wr_memory_current worker;
          ab_memory_peak_bytes := wr_memory_peak worker;
          ab_swap_current_bytes := wr_swap_current worker;
          ab_scoped_psi_some_micros := wr_psi_some_micros worker;
          ab_block_write_bytes := writes;
          ab_block_write_attribution :=
            write_attribution writes
              (difference (wr_cgroup_io_write_bytes_before worker)
                 (wr_cgroup_io_write_bytes_after worker));
          ab_latency_ns := Some (wr_service_latency_ns worker);
          ab_bytes_touched := wr_bytes_touched worker;
          ab_throughput_bytes_per_second :=
            Some (u64_sat_mul (wr_bytes_touched worker) 1000000000
                  / Z.max (wr_service_latency_ns worker) 1);
          ab_compression_ratio_milli :=
            ratio_milli (counter_at deltas "stored_pages") (counter_at deltas "pool_total_size");
          ab_refault_observed :=
            is_some_and (wr_swap_current worker) (fun bytes => 0 <? bytes)
            && wr_refault_content_verified worker;
          ab_refault_content_verified := wr_refault_content_verified worker;
          ab_oom := positive (delta "oom"%string); ab_oom_kill := positive (delta "oom_kill"%string);
          ab_workload_completed := true; ab_workload_timeout := false;
          ab_runtime_observation := runtime |}).

Definition linux_boot_order (w : W) : result (list string) string :=
  let? v := command_output "/usr/bin/efibootmgr" ["-v"%string] w in
  Ok (boot_order_of_text v).

Definition collect_restored (m : TieringBootValidationPreparedManifestV6) (w : W) :
    result BaselineRestoreObservationV6 string :=
  let? status := bootctl_status w in
  let? booted := ok_or (booted_entry_of status) "entry" in
  let? default := ok_or (default_entry_of status) "default" in
  let? swaps := collect_swaps w in
  let? boot_id := read_trimmed "/proc/sys/kernel/random/boot_id" w in
  let? command_line := read_trimmed "/proc/cmdline" w in
  let? zswap := collect_zswap w in
  let? zram := collect_zram swaps w in
  (match validate_manifest m with Ok _ => Ok tt | Err _ => Err "invalid manifest"%string end) ;?
  let? boot_order := linux_boot_order w in
  Ok {| rs_schema := FINAL_RESTORE_SCHEMA_V6; rs_boot_id := boot_id; rs_booted_entry := booted;
        rs_command_line := command_line; rs_zswap := zswap; rs_protected_zram := zram;
        rs_swaps := swaps; rs_default_entry := default; rs_boot_order := boot_order;
        rs_one_shot := one_shot_of status; rs_production_activation := false |}.

Definition collect_measurement (m : TieringBootValidationPreparedManifestV6) :
    eff W BaselineMeasurementObservationV6 string :=
  let p := mf_payload m in
  let! worker_run := run_bounded_workload_scope m in
  let worker := fst worker_run in
  eff_read (fun w =>
    let? swaps := collect_swaps w in
    let? boot_id := read_trimmed "/proc/sys/kernel/random/boot_id" w in
    let? zram := collect_zram swaps w in
    let? zswap := collect_zswap w in
    let delta := counter_delta_named (wr_memory_events_before worker)
                   (wr_memory_events_after worker) in
    Ok {| bm_schema := ZRAM_BASELINE_EVIDENCE_V6; bm_validation_id := pm_validation_id p;
          bm_boot_id := boot_id; bm_zram := zram; bm_zswap := zswap; bm_swaps := swaps;
          bm_workload_protocol := WORKLOAD_PROTOCOL_V6;
          bm_workload_sha256 := canonical_json_sha256_v6 (DWorkload (pm_workload p));
          bm_bytes_touched := wr_bytes_touched worker;
          bm_latency_ns := Some (wr_service_latency_ns worker);
          bm_cgroup_oom_delta := delta "oom"%string;
          bm_cgroup_oom_kill_delta := delta "oom_kill"%string;
          bm_content_verified := wr_content_verified worker; bm_cleanup_passed := true;
          bm_scope_absent := true; bm_production_activation := false |}).
End Host.

(** ** Lemmas *)
Module Facts.

(** a value that [parse_type1_entry] can give back: one line without white space around it *)
Definition tidy (v : string) : Prop := trim v = v /\ v <> ""%string /\ str_all plain_char v = true.

Lemma trim_start_length s : (String.length (trim_start s) <= String.length s)%nat.
Proof. induction s as [|c s IH]; simpl; [done |]. destruct (is_ws c); simpl; lia. Qed.
Lemma trim_end_length s : (String.length (trim_end s) <= String.length s)%nat.
Proof.
  induction s as [|c s IH]; simpl; [done |]. destruct (trim_end s) as [|x r]; simpl in *; [| lia].
  destruct (is_ws c); simpl; lia.
Qed.
Lemma trim_start_same s : String.length (trim_start s) = String.length s -> trim_start s = s.
Proof.
  destruct s as [|c s]; simpl; [done |]. destruct (is_ws c); [| done].
  pose proof (trim_start_length s). lia.
Qed.
Lemma trim_same s : trim s = s -> trim_start s = s /\ trim_end s = s.
Proof.
  unfold trim. intros Ht. assert (Hs : trim_start s = s).
  { apply trim_start_same. pose proof (trim_start_length s). pose proof (trim_end_length (trim_start s)).
    rewrite Ht in *. lia. }
  by rewrite Hs in Ht.
Qed.
Lemma trim_end_app a b : trim_end b = b -> b <> ""%string -> trim_end (a ++ b) = (a ++ b)%string.
Proof.
  intros Hb Hn. induction a as [|c a IH]; [done |]. rewrite app_str_cons. cbn [trim_end]. rewrite IH.
  destruct (a ++ b)%string eqn:E; [| done]. by destruct a, b.
Qed.
Lemma trim_keyword c key v : is_ws c = false -> tidy v ->
  trim (String c key ++ v) = (String c key ++ v)%string.
Proof.
  intros Hc (Ht & Hn & _). apply trim_same in Ht as [_ He]. unfold trim.
  rewrite app_str_cons. cbn [trim_start]. rewrite Hc. rewrite <-app_str_cons. by apply trim_end_app.
Qed.
Lemma trim_space v : tidy v -> trim (" " ++ v) = v.
Proof. intros (Ht & _). exact Ht. Qed.
Lemma str_all_plain_app a b : str_all plain_char a = true -> str_all plain_char b = true ->
  str_all plain_char (a ++ b) = true.
Proof.
  intros Ha Hb. induction a as [|c a IH]; [done |]. rewrite app_str_cons. cbn [str_all] in *.
  apply andb_true_iff in Ha as [-> Ha]. by rewrite IH.
Qed.

(** a line of the entry *)
Lemma key_line c key v : is_ws c = false -> tidy v ->
  trim (String c key ++ " " ++ v) = (String c key ++ " " ++ v)%string.
Proof.
  intros Hc Hv. rewrite app_str_assoc.
  change (String c key ++ " ")%string with (String c (key ++ " ")).
  by apply trim_keyword.
Qed.
Lemma tidy_value v : tidy v -> non_empty (trim (" " ++ v)) = Some v.
Proof.
  intros Hv. rewrite trim_space by done. destruct Hv as (_ & Hn & _). by destruct v.
Qed.
Definition KEYS : list string := ["title"; "linux"; "initrd"; "options"]%string.
(** each of the keys finds its own lines and no others, and nothing else does *)
Lemma entry_line k key v : In k KEYS -> In key (["efi"; "uki"]%string ++ KEYS) -> tidy v ->
  entry_line_value (k ++ " " ++ v) key = if String.eqb k key then Some v else None.
Proof.
  intros Hk Hkey Hv. unfold entry_line_value.
  assert (Ht : trim (k ++ " " ++ v) = (k ++ " " ++ v)%string).
  { simpl in Hk. destruct Hk as [<-|[<-|[<-|[<-|[]]]]]; by apply key_line. }
  rewrite Ht. pose proof (tidy_value v Hv) as Hn.
  simpl in Hk, Hkey.
  destruct Hk as [<-|[<-|[<-|[<-|[]]]]], Hkey as [<-|[<-|[<-|[<-|[<-|[<-|[]]]]]]]; simpl; try done;
    exact Hn.
Qed.
Lemma plain_line k v : In k KEYS -> tidy v -> str_all plain_char (k ++ " " ++ v) = true.
Proof.
  intros Hk (_ & _ & Hp). apply str_all_plain_app; [| by apply str_all_plain_app].
  simpl in Hk. by destruct Hk as [<-|[<-|[<-|[<-|[]]]]].
Qed.

Definition entry_lines (e : BootEntryIdentityV6) : list (string * string) :=
  [("title", be_title e); ("linux", be_linux_or_efi e)]%string
  ++ map (pair "initrd"%string) (be_initrds e) ++ [("options"%string, be_options e)].
Definition show_line (kv : string * string) : string := (fst kv ++ " " ++ snd kv)%string.
Lemma lines_shown l : Forall (fun kv => In (fst kv) KEYS /\ tidy (snd kv)) l ->
  lines (String.concat "" (map (fun kv => show_line kv ++ newline)%string l)) = map show_line l.
Proof.
  induction 1 as [|[k v] l [Hk Hv] Hl IH]; [done |]. simpl map.
  assert (Hc : forall x ys, String.concat "" (x :: ys) = (x ++ String.concat "" ys)%string).
  { intros x [|y ys]; simpl; [by rewrite app_str_nil_r | done]. }
  rewrite Hc, <-app_str_assoc. rewrite lines_cons by (by apply plain_line). by rewrite IH.
Qed.
Lemma find_shown key l : In key (["efi"; "uki"]%string ++ KEYS) ->
  Forall (fun kv => In (fst kv) KEYS /\ tidy (snd kv)) l ->
  find_map (fun line => entry_line_value line key) (map show_line l) =
    snd <$> find_first (fun kv => String.eqb (fst kv) key) l.
Proof.
  intros Hkey. induction 1 as [|[k v] l [Hk Hv] Hl IH]; [done |].
  cbn [map find_map find_first fst snd]. unfold show_line at 1. cbn [fst snd].
  rewrite entry_line by done. by destruct (String.eqb k key).
Qed.
Lemma omap_shown key l : In key (["efi"; "uki"]%string ++ KEYS) ->
  Forall (fun kv => In (fst kv) KEYS /\ tidy (snd kv)) l ->
  omap (fun line => entry_line_value line key) (map show_line l) =
    map snd (List.filter (fun kv => String.eqb (fst kv) key) l).
Proof.
  intros Hkey. induction 1 as [|[k v] l [Hk Hv] Hl IH]; [done |].
  change (omap _ _) with (from_option (fun x => x :: omap (fun line => entry_line_value line key) (map show_line l))
    (omap (fun line => entry_line_value line key) (map show_line l))
    (entry_line_value (k ++ " " ++ v) key)).
  rewrite entry_line by done. simpl. destruct (String.eqb k key); simpl; by rewrite IH.
Qed.
Lemma rendered_lines e :
  render_type1_entry_v6 e
    = String.concat "" (map (fun kv => show_line kv ++ newline)%string (entry_lines e)).
Proof.
  assert (Hc : forall x ys, String.concat "" (x :: ys) = (x ++ String.concat "" ys)%string).
  { intros x [|y ys]; simpl; [by rewrite app_str_nil_r | done]. }
  assert (Hi : forall l tl, String.concat "" (map (fun kv => show_line kv ++ newline)%string
                               (map (pair "initrd"%string) l ++ tl))
               = (String.concat "" (map (fun i => "initrd " ++ i ++ newline) l)
                  ++ String.concat "" (map (fun kv => show_line kv ++ newline) tl))%string).
  { induction l as [|i l IH]; intros tl; [done |]. simpl map. simpl app. rewrite !Hc.
    simpl map. rewrite IH. unfold show_line. cbn [fst snd]. by rewrite <-!app_str_assoc. }
  unfold render_type1_entry_v6, entry_lines. simpl map. simpl app. rewrite !Hc, Hi. simpl map.
  rewrite Hc. unfold show_line. cbn [fst snd]. simpl String.concat. rewrite app_str_nil_r.
  by rewrite <-!app_str_assoc.
Qed.
Lemma entry_lines_tidy e : tidy (be_title e) -> tidy (be_linux_or_efi e) ->
  Forall tidy (be_initrds e) -> tidy (be_options e) ->
  Forall (fun kv => In (fst kv) KEYS /\ tidy (snd kv)) (entry_lines e).
Proof.
  intros Ht Hl Hi Ho. unfold entry_lines. cbn [app].
  rewrite !Forall_cons_iff, Forall_app, Forall_cons_iff, Forall_map. unfold KEYS. simpl.
  split; [by auto |]. split; [by auto |]. split; [| by split; [split; [tauto |] |]].
  eapply Forall_impl; [| exact Hi]. simpl. auto.
Qed.
Lemma entry_value_shown e : Forall (fun kv => In (fst kv) KEYS /\ tidy (snd kv)) (entry_lines e) ->
  forall key, In key (["efi"; "uki"]%string ++ KEYS) ->
  entry_value (render_type1_entry_v6 e) key =
    snd <$> find_first (fun kv => String.eqb (fst kv) key) (entry_lines e).
Proof.
  intros Hl key Hk. unfold entry_value, find_line. rewrite rendered_lines, (lines_shown _ Hl).
  by apply find_shown.
Qed.
Lemma last_lines e key : In key ["efi"; "uki"; "options"]%string ->
  find_first (fun kv => String.eqb (fst kv) key)
    (map (pair "initrd"%string) (be_initrds e) ++ [("options"%string, be_options e)]) =
  if String.eqb key "options" then Some ("options"%string, be_options e) else None.
Proof.
  intros Hk. simpl in Hk.
  destruct Hk as [<-|[<-|[<-|[]]]]; induction (be_initrds e) as [|i l IH]; simpl; auto.
Qed.
End Facts.

(** ** Theorems *)
Module Theorems.
Section Theorems.
Context `{Codec}.

(** parsing the loader entry that the manifest renders gives the entry back, with the
    digest of its text: the preflight that reads the installed file compares it with the
    plan field by field. *)
Theorem entry_round_trip (e : BootEntryIdentityV6)
    (Htitle : Facts.tidy (be_title e)) (Hlinux : Facts.tidy (be_linux_or_efi e))
    (Hinitrds : Forall Facts.tidy (be_initrds e)) (Hoptions : Facts.tidy (be_options e)) :
  entry_of_text (be_id e) (be_path e) (render_type1_entry_v6 e) =
    Ok {| be_id := be_id e; be_path := be_path e; be_sha256 := sha256_hex (render_type1_entry_v6 e);
          be_title := be_title e; be_linux_or_efi := be_linux_or_efi e; be_initrds := be_initrds e;
          be_options := be_options e |}.
Proof.
  pose proof (Facts.entry_lines_tidy e Htitle Hlinux Hinitrds Hoptions) as Hl.
  pose proof (Facts.entry_value_shown e Hl) as Hf.
  assert (V1 : entry_value (render_type1_entry_v6 e) "title" = Some (be_title e))
    by (by rewrite Hf by (simpl; tauto)).
  assert (V2 : entry_value (render_type1_entry_v6 e) "linux" = Some (be_linux_or_efi e))
    by (by rewrite Hf by (simpl; tauto)).
  assert (V3 : forall key, In key ["efi"; "uki"; "options"]%string ->
    entry_value (render_type1_entry_v6 e) key
    = if String.eqb key "options" then Some (be_options e) else None).
  { intros key Hk. rewrite Hf by (simpl in *; tauto). unfold Facts.entry_lines. cbn [app find_first fst].
    assert (String.eqb "title" key = false /\ String.eqb "linux" key = false) as [-> ->]
      by (simpl in Hk; by destruct Hk as [<-|[<-|[<-|[]]]]).
    rewrite Facts.last_lines by done. by destruct (String.eqb key "options"). }
  unfold entry_of_text. rewrite V1, V2, !V3 by (simpl; tauto). simpl.
  repeat f_equal. rewrite Facts.rendered_lines, (Facts.lines_shown _ Hl).
  rewrite Facts.omap_shown by (simpl; tauto || exact Hl).
  unfold Facts.entry_lines. simpl. clear. induction (be_initrds e) as [|i l IH]; simpl; [done |].
  by rewrite IH.
Qed.
End Theorems.
End Theorems.

(** ** Witnesses *)
Module Witnesses.
#[local] Existing Instance BootContract.Sample.codec.
(** the entry of the sample manifest is the one that parsing its text gives *)
Lemma entry_round_trip_witness :
  entry_of_text (be_id BootContract.Sample.entry) (be_path BootContract.Sample.entry)
    (render_type1_entry_v6 BootContract.Sample.entry) = Ok BootContract.Sample.entry.
Proof.
  rewrite (Theorems.entry_round_trip BootContract.Sample.entry);
    [vm_compute; reflexivity | | | |]; repeat constructor; try discriminate; vm_compute; reflexivity.
Defined.
End Witnesses.
