(* ===== verification/BootLifecycle.v ===== *)
(** crates/test-support/src/bin/nemor-tiering-boot-validation.rs, the privileged
    program: LinuxLifecycleBackend, the transaction on disk and its reconciliation after
    a crash, the activation after the reboot with its rollback, and [recover].
    [Decoder] stands for the deserialisers of the [serde_json] crate. *)

From S2P Require Import Prelude F64 Text Config Classifier Policy Tiering.
From S2P Require Import BootContract BootTransaction BootHost.

Class Decoder := {
  decode_transaction : string -> option DurableTransactionV6;
  decode_manifest : string -> option TieringBootValidationPreparedManifestV6
}.

(** the texts of [thiserror] *)
Definition boot_error_to_string (e : BootValidationV6Error) : string :=
  match e with
  | Version => "v6 schema or contract mismatch"
  | Identity what => "malformed or mismatched integrity identity: " ++ what
  | Topology => "unsupported or ambiguous storage topology"
  | Path => "unsafe validation-owned path"
  | Entry => "unsafe Type #1 loader entry"
  | Swap => "invalid validation-only swap contract"
  | ZswapContract => "invalid zswap parameter contract"
  | Payload => "payload integrity mismatch"
  | SudoIdentity => "authenticated sudo identity mismatch"
  | Preflight reason => "preflight blocked: " ++ reason
  | Transition => "illegal transaction transition"
  | Readback what => "host readback mismatch: " ++ what
  | Measurement what => "post-boot measurement rejected: " ++ what
  end.

Definition set_current_boot_id (boot_id : string) (p : DurableTransactionPayloadV6) :
    DurableTransactionPayloadV6 :=
  {| dp_validation_id := dp_validation_id p; dp_manifest_sha256 := dp_manifest_sha256 p;
     dp_stage := dp_stage p; dp_baseline_boot_id := dp_baseline_boot_id p;
     dp_current_boot_id := boot_id; dp_artifact_registry := dp_artifact_registry p;
     dp_swapfile_registry := dp_swapfile_registry p; dp_unit_registry := dp_unit_registry p;
     dp_transient_unit_registry := dp_transient_unit_registry p;
     dp_applied_swap_identity := dp_applied_swap_identity p;
     dp_evidence_hashes := dp_evidence_hashes p;
     dp_mutation_records := dp_mutation_records p; dp_primary_error := dp_primary_error p;
     dp_failed_from_stage := dp_failed_from_stage p;
     dp_secondary_errors := dp_secondary_errors p; dp_recovery_state := dp_recovery_state p;
     dp_idempotence_verified := dp_idempotence_verified p;
     dp_activation_parameter_index := dp_activation_parameter_index p;
     dp_original_primary_error := dp_original_primary_error p;
     dp_terminal_archive_sha256 := dp_terminal_archive_sha256 p;
     dp_post_boot_summary := dp_post_boot_summary p |}.

Definition next_parameter (p : DurableTransactionPayloadV6) : DurableTransactionPayloadV6 :=
  {| dp_validation_id := dp_validation_id p; dp_manifest_sha256 := dp_manifest_sha256 p;
     dp_stage := dp_stage p; dp_baseline_boot_id := dp_baseline_boot_id p;
     dp_current_boot_id := dp_current_boot_id p;
     dp_artifact_registry := dp_artifact_registry p;
     dp_swapfile_registry := dp_swapfile_registry p; dp_unit_registry := dp_unit_registry p;
     dp_transient_unit_registry := dp_transient_unit_registry p;
     dp_applied_swap_identity := dp_applied_swap_identity p;
     dp_evidence_hashes := dp_evidence_hashes p;
     dp_mutation_records := dp_mutation_records p; dp_primary_error := dp_primary_error p;
     dp_failed_from_stage := dp_failed_from_stage p;
     dp_secondary_errors := dp_secondary_errors p; dp_recovery_state := dp_recovery_state p;
     dp_idempotence_verified := dp_idempotence_verified p;
     dp_activation_parameter_index := dp_activation_parameter_index p + 1;
     dp_original_primary_error := dp_original_primary_error p;
     dp_terminal_archive_sha256 := dp_terminal_archive_sha256 p;
     dp_post_boot_summary := dp_post_boot_summary p |}.

Definition set_primary_error (primary : string) (p : DurableTransactionPayloadV6) :
    DurableTransactionPayloadV6 :=
  {| dp_validation_id := dp_validation_id p; dp_manifest_sha256 := dp_manifest_sha256 p;
     dp_stage := dp_stage p; dp_baseline_boot_id := dp_baseline_boot_id p;
     dp_current_boot_id := dp_current_boot_id p;
     dp_artifact_registry := dp_artifact_registry p;
     dp_swapfile_registry := dp_swapfile_registry p; dp_unit_registry := dp_unit_registry p;
     dp_transient_unit_registry := dp_transient_unit_registry p;
     dp_applied_swap_identity := dp_applied_swap_identity p;
     dp_evidence_hashes := dp_evidence_hashes p;
     dp_mutation_records := dp_mutation_records p; dp_primary_error := Some primary;
     dp_failed_from_stage := dp_failed_from_stage p;
     dp_secondary_errors := dp_secondary_errors p; dp_recovery_state := dp_recovery_state p;
     dp_idempotence_verified := dp_idempotence_verified p;
     dp_activation_parameter_index := dp_activation_parameter_index p;
     dp_original_primary_error := match dp_original_primary_error p with
                                | Some original => Some original
                                | None => Some primary
                                end;
     dp_terminal_archive_sha256 := dp_terminal_archive_sha256 p;
     dp_post_boot_summary := dp_post_boot_summary p |}.

Definition extend_secondary (secondary : list string) (p : DurableTransactionPayloadV6) :
    DurableTransactionPayloadV6 :=
  {| dp_validation_id := dp_validation_id p; dp_manifest_sha256 := dp_manifest_sha256 p;
     dp_stage := dp_stage p; dp_baseline_boot_id := dp_baseline_boot_id p;
     dp_current_boot_id := dp_current_boot_id p;
     dp_artifact_registry := dp_artifact_registry p;
     dp_swapfile_registry := dp_swapfile_registry p; dp_unit_registry := dp_unit_registry p;
     dp_transient_unit_registry := dp_transient_unit_registry p;
     dp_applied_swap_identity := dp_applied_swap_identity p;
     dp_evidence_hashes := dp_evidence_hashes p;
     dp_mutation_records := dp_mutation_records p; dp_primary_error := dp_primary_error p;
     dp_failed_from_stage := dp_failed_from_stage p;
     dp_secondary_errors := dp_secondary_errors p ++ secondary;
     dp_recovery_state := dp_recovery_state p;
     dp_idempotence_verified := dp_idempotence_verified p;
     dp_activation_parameter_index := dp_activation_parameter_index p;
     dp_original_primary_error := dp_original_primary_error p;
     dp_terminal_archive_sha256 := dp_terminal_archive_sha256 p;
     dp_post_boot_summary := dp_post_boot_summary p |}.

Definition set_recovery_state (state : string) (p : DurableTransactionPayloadV6) :
    DurableTransactionPayloadV6 :=
  {| dp_validation_id := dp_validation_id p; dp_manifest_sha256 := dp_manifest_sha256 p;
     dp_stage := dp_stage p; dp_baseline_boot_id := dp_baseline_boot_id p;
     dp_current_boot_id := dp_current_boot_id p;
     dp_artifact_registry := dp_artifact_registry p;
     dp_swapfile_registry := dp_swapfile_registry p; dp_unit_registry := dp_unit_registry p;
     dp_transient_unit_registry := dp_transient_unit_registry p;
     dp_applied_swap_identity := dp_applied_swap_identity p;
     dp_evidence_hashes := dp_evidence_hashes p;
     dp_mutation_records := dp_mutation_records p; dp_primary_error := dp_primary_error p;
     dp_failed_from_stage := dp_failed_from_stage p;
     dp_secondary_errors := dp_secondary_errors p; dp_recovery_state := state;
     dp_idempotence_verified := dp_idempotence_verified p;
     dp_activation_parameter_index := dp_activation_parameter_index p;
     dp_original_primary_error := dp_original_primary_error p;
     dp_terminal_archive_sha256 := dp_terminal_archive_sha256 p;
     dp_post_boot_summary := dp_post_boot_summary p |}.

(** ** LinuxLifecycleBackend *)

Section Linux.
Context `{Codec} `{Decoder} {W : Type} `{BootSystem W}.
Context (from_toml : string -> result TieringConfig string).
Abbreviation Manifest := TieringBootValidationPreparedManifestV6.
(** [self.manifest] *)
Context (self : TieringBootValidationPreparedManifestV6).

Definition on_io {A} (m : eff W A IoError) : eff W A string := eff_map_err io_text m.

Definition sync_parent (p : string) : eff W unit string :=
  let! parent := eff_read (fun _ => ok_or (path_parent p) "parent"%string) in
  sync_dir parent.
Definition write_new_bytes (p bytes : string) (mode : Z) : eff W unit string :=
  open_new p mode ;! write_synced p bytes ;! sync_parent p.
Definition write_new_json (p : string) (v : Document) (mode : Z) : eff W unit string :=
  write_new_bytes p (to_vec_pretty v ++ newline) mode.

(** [Path::with_extension] of a file name that has an extension *)
Definition with_extension (p extension : string) : string :=
  match rsplit_char "." p with
  | Some (stem, _) => (stem ++ "." ++ extension)%string
  | None => (p ++ "." ++ extension)%string
  end.
Definition atomic_replace_json (p : string) (v : Document) : eff W unit string :=
  let tmp := with_extension p "new" in
  let! exists_already := eff_read (fun w => Ok (path_exists tmp w)) in
  eff_reject exists_already "stale transaction temp file" ;!
  write_new_json tmp v 384 ;!
  rename tmp p ;!
  sync_parent p.

Definition read_transaction (p : string) (w : W) : result DurableTransactionV6 string :=
  let? text := read_string p w in ok_or (decode_transaction text) "parse sealed JSON".
Definition read_manifest_json (p : string) (w : W) : result Manifest string :=
  let? text := read_string p w in ok_or (decode_manifest text) "parse sealed JSON".

Definition transaction_root : string := pm_transaction_root (mf_payload self).
Definition tx_path : string := path_join transaction_root "transaction-v6.json".

Definition linux_persist_transaction (tx : DurableTransactionV6) : eff W unit string :=
  atomic_replace_json tx_path (DTransaction tx).

(** the errors of the removals of what a failed creation has created *)
Fixpoint remove_created (created : list string) : eff W (list string) string :=
  match created with
  | [] => eff_ret []
  | path :: rest =>
      let! r := eff_attempt (remove_dir path) in
      let! errors := remove_created rest in
      eff_ret (match r with Ok _ => errors | Err e => e :: errors end)
  end.
Definition unsafe_hierarchy (m : FileStat) : bool :=
  negb (fs_is_dir m) || fs_is_symlink m || negb (fs_uid m =? 0) || negb (fs_gid m =? 0)
  || negb (fs_mode m =? 448).
(** the loop over the components; [created], last first *)
Fixpoint create_hierarchy (created components : list string) : eff W unit string :=
  match components with
  | [] => eff_ret tt
  | path :: rest =>
      let! exists_already := eff_read (fun w => Ok (path_exists path w)) in
      if exists_already : bool then
        let! m := eff_read (fun w => map_error io_text (file_stat path w)) in
        eff_reject (unsafe_hierarchy m) ("unsafe existing transaction hierarchy: " ++ path)%string ;!
        create_hierarchy created rest
      else
        let! r := eff_attempt (create_dir path ;! set_mode path 448 ;! sync_parent path) in
        match r with
        | Ok _ => create_hierarchy (path :: created) rest
        | Err primary =>
            let! secondary := remove_created created in
            eff_err ("transaction hierarchy component failed: " ++ primary ++ "; secondary="
                     ++ join ", " secondary)%string
        end
  end.
Definition linux_create_transaction_root (m : Manifest) : eff W unit string :=
  create_hierarchy []
    ["/var/lib/nemor"; "/var/lib/nemor/validation"; TRANSACTION_ROOT_V6;
     pm_transaction_root (mf_payload m)]%string.

Definition linux_copy_prepared_manifest (m : Manifest) : eff W unit string :=
  write_new_json (path_join (pm_transaction_root (mf_payload m)) "prepared-manifest-v6.json")
    (DManifest m) 384.

Definition unsafe_evidence_name (name : string) : bool :=
  str_contains "/" name || str_contains ".." name || negb (ends_with ".json" name).
Definition linux_persist_evidence (name bytes : string) : eff W unit string :=
  eff_reject (unsafe_evidence_name name) "unsafe evidence name" ;!
  write_new_bytes (path_join transaction_root name) bytes 384.

(** a transaction of [LinuxSwapfileBackend::default()] *)
Definition on_swapfile {A} (m : eff (LinuxSwapfileBackend W) A BackendError) : eff W A string :=
  fun w => let '(b, r) := m (MkLinux [] w) in (ls_system b, map_error backend_error_to_string r).

Definition blkid (tag path : string) (w : W) : result string string :=
  command_output "/usr/bin/blkid" ["-s"; tag; "-o"; "value"; path]%string w.
Definition with_uuid (uuid : string) (s : SwapIdentityV6) : SwapIdentityV6 :=
  {| si_path := si_path s; si_kind := si_kind s; si_size_bytes := si_size_bytes s;
     si_priority := si_priority s; si_uuid := Some uuid; si_active := si_active s |}.
Definition linux_create_swapfile (m : Manifest) : eff W SwapIdentityV6 string :=
  let swapfile := pm_swapfile (mf_payload m) in
  on_swapfile (linux_create_owned (si_path swapfile) Btrfs (si_size_bytes swapfile)) ;!
  let! metadata := eff_read (fun w => map_error io_text (file_stat (si_path swapfile) w)) in
  eff_reject (negb (fs_is_file metadata) || fs_is_symlink metadata || negb (fs_uid metadata =? 0)
              || negb (Z.land (fs_mode metadata) 511 =? 384)
              || negb (fs_len metadata =? si_size_bytes swapfile))
    "created swapfile structural identity mismatch" ;!
  let! kind := eff_read (blkid "TYPE" (si_path swapfile)) in
  let! uuid := eff_read (blkid "UUID" (si_path swapfile)) in
  eff_reject (negb (String.eqb kind "swap") || str_empty uuid) "mkswap identity readback mismatch" ;!
  eff_ret (with_uuid uuid swapfile).

Definition linux_create_artifact (a : OwnedArtifactV6) : eff W unit string :=
  write_new_bytes (oa_path a) (oa_content a) (oa_mode a).

Definition linux_staged_helper_matches (plan : StagedBinaryPlanV6) (w : W) : bool :=
  is_some_and (result_ok (file_stat (sb_destination plan) w)) (fun metadata =>
    fs_is_file metadata && negb (fs_is_symlink metadata)
    && (fs_uid metadata =? sb_destination_uid plan) && (fs_gid metadata =? sb_destination_gid plan)
    && (fs_mode metadata =? sb_destination_mode plan) && (fs_nlink metadata =? 1)
    && option_str_eqb (result_ok (sha256_file (sb_destination plan) w))
         (Some (bi_sha256 (sb_source plan)))
    && option_str_eqb (result_ok (command_output (sb_destination plan) ["build-git-head"%string] w))
         (Some (bi_embedded_commit (sb_source plan)))).

(** the copy, its sync and the sync of its directory, undone when one fails *)
Definition linux_stage_helper (plan : StagedBinaryPlanV6) : eff W unit string :=
  let! unchanged := eff_read (fun w => Ok (staged_source_matches plan w)) in
  eff_reject (negb unchanged) "staged-helper source changed before copy" ;!
  let! parent := eff_read (fun _ => ok_or (path_parent (sb_destination plan))
                                      "staged-helper parent"%string) in
  create_dir parent ;!
  set_mode parent 448 ;!
  sync_dir parent ;!
  let! source := eff_read (read_string (bi_path (sb_source plan))) in
  open_new (sb_destination plan) (sb_destination_mode plan) ;!
  let! copied := eff_attempt (write_synced (sb_destination plan) source ;!
                              sync_parent (sb_destination plan)) in
  match copied with
  | Err primary =>
      let! cleanup := eff_attempt (remove_file (sb_destination plan)) in
      eff_err ("staged-helper copy failed: " ++ primary ++ "; cleanup="
               ++ match cleanup with Ok _ => "None" | Err e => io_text e end)%string
  | Ok _ =>
      let! staged := eff_read (fun w => Ok (linux_staged_helper_matches plan w)) in
      eff_reject (negb staged) "staged-helper readback mismatch"
  end.

Definition absent (path : string) (w : W) : bool :=
  match file_stat path w with
  | Err e => bool_decide (io_kind e = NotFound)
  | Ok _ => false
  end.
Definition exact_file_matches (a : OwnedArtifactV6) (w : W) : bool :=
  is_some_and (result_ok (file_stat (oa_path a) w)) (fun m =>
    fs_is_file m && negb (fs_is_symlink m) && (fs_uid m =? oa_owner_uid a)
    && (fs_gid m =? oa_owner_gid a) && (fs_mode m =? oa_mode a) && (fs_nlink m =? 1))
  && option_str_eqb (result_ok (sha256_file (oa_path a) w)) (Some (oa_sha256 a)).

Fixpoint sync_all (paths : list string) : eff W unit string :=
  match paths with
  | [] => eff_ret tt
  | p :: rest => sync_dir p ;! sync_all rest
  end.
Definition linux_sync_parents (m : Manifest) : eff W unit string :=
  sync_all (omap (fun a => path_parent (oa_path a)) (pm_owned_artifacts (mf_payload m))).

Definition linux_remove_artifact (a : OwnedArtifactV6) : eff W unit string :=
  let! gone := eff_read (fun w => Ok (absent (oa_path a) w)) in
  if gone : bool then eff_ret tt
  else
    let! exact := eff_read (fun w => Ok (exact_file_matches a w)) in
    eff_reject (negb exact) "artifact is absent or no longer exact-owned" ;!
    on_io (remove_file (oa_path a)) ;!
    sync_parent (oa_path a).

Definition linux_remove_swapfile (m : Manifest) : eff W unit string :=
  let p := si_path (pm_swapfile (mf_payload m)) in
  let! exists_still := eff_read (fun w => Ok (path_exists p w)) in
  if negb exists_still then eff_ret tt
  else
    let! tx := eff_read (read_transaction tx_path) in
    let! expected := eff_read (fun _ =>
      ok_or (dp_applied_swap_identity (tx_payload tx) ≫= si_uuid)
        "durable swap UUID is unavailable"%string) in
    let! actual := eff_read (blkid "UUID" p) in
    eff_reject (negb (String.eqb actual expected))
      "refusing to remove swapfile with mismatched UUID" ;!
    on_swapfile (resume_owned p ;! linux_remove_owned p).

Definition linux_finalize_runtime_cleanup (m : Manifest) : eff W unit string :=
  let p := mf_payload m in
  run_exact "/usr/bin/systemctl" ["daemon-reload"%string] ;!
  let! load := eff_read (systemctl_value (unit_name (pm_validation_id p)) "LoadState") in
  eff_reject (negb (String.eqb load "not-found"))
    "validation unit remains loaded after final cleanup" ;!
  let bin := path_join (pm_transaction_root p) "bin" in
  let! present := eff_read (fun w => Ok (path_exists bin w)) in
  if present : bool then
    let! metadata := eff_read (fun w => map_error io_text (file_stat bin w)) in
    let! empty :=
      (if unsafe_hierarchy metadata then eff_ret false
       else eff_read (fun w => let? entries := map_error io_text (read_dir bin w) in
                               Ok (bool_decide (length entries = 0%nat)))) in
    eff_reject (negb empty) "staged-helper directory is not exact-owned and empty" ;!
    remove_dir bin ;!
    sync_parent bin
  else eff_ret tt.

Definition linux_read_one_shot (w : W) : result (option string) string :=
  let? status := bootctl_status w in Ok (one_shot_of status).
Definition linux_permanent_default (w : W) : result string string :=
  ok_or (result_ok (bootctl_status w) ≫= default_entry_of) "default unavailable"%string.

(** *** The archive *)

Definition required_members (tx : DurableTransactionV6) : gset string :=
  let t := tx_payload tx in
  list_to_set (["prepared-manifest-v6.json"; "transaction-v6.json"; "root-preflight-v6.json";
                "STATUS"]%string
               ++ map fst (map_to_list (dp_evidence_hashes t))
               ++ (if bool_decide (dp_stage t = Restored)
                   then ["one-shot-evidence-v6.json"; "post-boot-evidence-v6.json";
                         "baseline-restore-evidence-v6.json"]%string
                   else ["recovery-evidence-v6.json"%string])).

Fixpoint ledger_members (required : gset string) (root : string)
    (entries : list (result DirEntry IoError)) (w : W) : result (list string) string :=
  match entries with
  | [] => Ok []
  | entry :: rest =>
      let? e := map_error io_text entry in
      let name := de_name e in
      let? stat := map_error io_text (file_stat (path_join root name) w) in
      reject (fs_is_symlink stat) "ledger member symlink rejected"%string ;?
      if fs_is_file stat && negb (String.eqb name "SHA256SUMS") then
        reject (negb (bool_decide (name ∈ required))) ("unexpected ledger member: " ++ name)%string ;?
        reject (negb (fs_uid stat =? 0) || negb (fs_gid stat =? 0) || negb (fs_mode stat =? 384)
                || negb (fs_nlink stat =? 1)) ("unsafe ledger metadata: " ++ name)%string ;?
        let? files := ledger_members required root rest w in
        Ok (name :: files)
      else ledger_members required root rest w
  end.

(** the loop of [verify_sha256sums], with [seen] *)
Fixpoint verify_sums (root : string) (seen sums : list string) (w : W) : result unit string :=
  match sums with
  | [] => reject (bool_decide (seen = [])) "empty SHA256SUMS"%string
  | line :: rest =>
      let? parts := ok_or (split_once "  " line) "malformed SHA256SUMS"%string in
      let hash := fst parts in
      let name := snd parts in
      reject (negb (is_sha256 hash) || str_empty name || str_contains "/" name
              || str_contains ".." name || contains_str seen name)
        "SHA256SUMS grammar or duplicate path failed"%string ;?
      let path := path_join root name in
      let? metadata := map_error io_text (file_stat path w) in
      let? actual := (if negb (fs_is_file metadata) || fs_is_symlink metadata
                         || negb (fs_uid metadata =? 0) || negb (fs_gid metadata =? 0)
                         || negb (fs_mode metadata =? 384) || negb (fs_nlink metadata =? 1)
                      then Ok None
                      else let? h := sha256_file path w in Ok (Some h)) in
      reject (negb (option_str_eqb actual (Some hash))) "SHA256SUMS verification failed"%string ;?
      verify_sums root (name :: seen) rest w
  end.
Definition verify_sha256sums (root : string) (w : W) : result unit string :=
  let? text := read_string (path_join root "SHA256SUMS") w in verify_sums root [] (lines text) w.

Fixpoint sums_of (root : string) (files : list string) (w : W) : result string string :=
  match files with
  | [] => Ok ""%string
  | name :: rest =>
      let? hash := sha256_file (path_join root name) w in
      let? sums := sums_of root rest w in
      Ok (hash ++ "  " ++ name ++ newline ++ sums)%string
  end.

Definition status_document (tx : DurableTransactionV6) : Document :=
  let t := tx_payload tx in
  DStatus "tiering-boot-validation-status-v6" (dp_stage t) (dp_validation_id t)
    (if bool_decide (dp_stage t = Restored) then "baseline-restored" else "recovered-before-reboot")
    (or_else (dp_original_primary_error t) (dp_primary_error t)) (dp_secondary_errors t).

Definition linux_seal_archive (tx : DurableTransactionV6) : eff W unit string :=
  let root := transaction_root in
  let stage := dp_stage (tx_payload tx) in
  eff_reject (negb (bool_decide (stage = Restored)) && negb (bool_decide (stage = Recovered)))
    "archive may be sealed only for an immutable terminal class" ;!
  let status := path_join root "STATUS" in
  let bytes := to_vec_pretty (status_document tx) in
  let! present := eff_read (fun w => Ok (path_exists status w)) in
  (if present : bool then
     let! text := eff_read (read_string status) in
     eff_reject (negb (String.eqb text bytes)) "existing STATUS is not exact"
   else write_new_bytes status bytes 384) ;!
  let sums_path := path_join root "SHA256SUMS" in
  let! sealed := eff_read (fun w => Ok (path_exists sums_path w)) in
  if sealed : bool then eff_read (verify_sha256sums root)
  else
    let required := required_members tx in
    let! files := eff_read (fun w =>
      let? entries := map_error io_text (read_dir root w) in
      ledger_members required root entries w) in
    eff_reject (negb (bool_decide (list_to_set files = required))) "incomplete ledger membership" ;!
    let! sums := eff_read (sums_of root (sort_strings files)) in
    write_new_bytes sums_path sums 384 ;!
    eff_read (verify_sha256sums root) ;!
    sync_dir root.

#[export] Instance linux_lifecycle_backend : BootLifecycleBackendV6 W := {
  persist_transaction := linux_persist_transaction;
  create_transaction_root := linux_create_transaction_root;
  copy_prepared_manifest := linux_copy_prepared_manifest;
  persist_evidence := linux_persist_evidence;
  create_swapfile := linux_create_swapfile;
  create_artifact := linux_create_artifact;
  stage_helper := linux_stage_helper;
  staged_helper_matches := linux_staged_helper_matches;
  artifact_matches := exact_file_matches;
  artifact_absent a := absent (oa_path a);
  sync_parents := linux_sync_parents;
  remove_artifact := linux_remove_artifact;
  remove_swapfile := linux_remove_swapfile;
  swapfile_absent m := absent (si_path (pm_swapfile (mf_payload m)));
  finalize_runtime_cleanup := linux_finalize_runtime_cleanup;
  set_one_shot entry := run_exact "/usr/bin/bootctl" ["set-oneshot"%string; entry];
  read_one_shot := linux_read_one_shot;
  permanent_default := linux_permanent_default;
  boot_order := linux_boot_order;
  current_boot_is_experimental m w :=
    is_ok_and (read_trimmed "/proc/cmdline" w)
      (str_contains (pm_validation_marker (mf_payload m)));
  collect_zram_baseline := collect_measurement;
  collect_post_boot m := collect_post_boot from_toml m;
  collect_baseline := collect_restored;
  seal_archive := linux_seal_archive
}.
End Linux.

(** ** The transaction on disk *)

Section Disk.
Context `{Codec} `{Decoder} {W : Type} `{BootSystem W}.
Abbreviation Manifest := TieringBootValidationPreparedManifestV6.

Definition checked {A} (r : result A BootValidationV6Error) : result A string :=
  map_error boot_error_to_string r.

(** [slice::starts_with] *)
Fixpoint records_start_with (records old : list MutationRecordV6) : bool :=
  match old, records with
  | [], _ => true
  | o :: old', r :: records' => record_eqb r o && records_start_with records' old'
  | _ :: _, [] => false
  end.

Definition initial_candidate (manifest : Manifest) (candidate : DurableTransactionV6) : bool :=
  let c := tx_payload candidate in
  String.eqb (dp_validation_id c) (pm_validation_id (mf_payload manifest))
  && String.eqb (dp_manifest_sha256 c) (canonical_json_sha256_v6 (DManifest manifest))
  && bool_decide (dp_stage c = Prepared)
  && bool_decide (length (dp_mutation_records c) = 0%nat).
Definition valid_successor (old candidate : DurableTransactionV6) : bool :=
  let o := tx_payload old in
  let c := tx_payload candidate in
  String.eqb (dp_validation_id o) (dp_validation_id c)
  && String.eqb (dp_manifest_sha256 o) (dp_manifest_sha256 c)
  && String.eqb (dp_baseline_boot_id o) (dp_baseline_boot_id c)
  && records_start_with (dp_mutation_records c) (dp_mutation_records o)
  && (bool_decide (dp_stage c = dp_stage o) || legal_transition_v6 (dp_stage o) (dp_stage c)).

Definition reconcile_transaction_new (path : string) : eff W unit string :=
  let candidate_path := with_extension path "new" in
  let! pending := eff_read (fun w => Ok (path_exists candidate_path w)) in
  if negb pending then eff_ret tt
  else
    let! candidate := eff_read (read_transaction candidate_path) in
    eff_read (fun _ => checked (validate_transaction candidate)) ;!
    let! present := eff_read (fun w => Ok (path_exists path w)) in
    if negb present then
      let! parent := eff_read (fun _ => ok_or (path_parent path) "transaction parent"%string) in
      let! manifest := eff_read (read_manifest_json (path_join parent "prepared-manifest-v6.json")) in
      eff_read (fun _ => checked (validate_manifest manifest)) ;!
      eff_reject (negb (initial_candidate manifest candidate))
        "orphan transaction .new is not the initial exact candidate" ;!
      rename candidate_path path ;!
      sync_parent path
    else
      let! old := eff_read (read_transaction path) in
      eff_read (fun _ => checked (validate_transaction old)) ;!
      eff_reject (negb (valid_successor old candidate))
        "stale transaction .new is not a valid monotonic successor" ;!
      rename candidate_path path ;!
      sync_parent path.

Definition load_transaction (id : string) : eff W (Manifest * DurableTransactionV6) string :=
  eff_reject (negb (valid_id id)) "invalid validation id" ;!
  let root := path_join TRANSACTION_ROOT_V6 id in
  let! m := eff_read (read_manifest_json (path_join root "prepared-manifest-v6.json")) in
  let transaction_path := path_join root "transaction-v6.json" in
  reconcile_transaction_new transaction_path ;!
  let! t := eff_read (read_transaction transaction_path) in
  eff_read (fun _ => checked (validate_manifest m)) ;!
  eff_read (fun _ => checked (validate_transaction t)) ;!
  eff_reject (negb (String.eqb (pm_validation_id (mf_payload m)) id)
              || negb (String.eqb (dp_validation_id (tx_payload t)) id)
              || negb (String.eqb (dp_manifest_sha256 (tx_payload t))
                         (canonical_json_sha256_v6 (DManifest m)))) "transaction identity mismatch" ;!
  eff_ret (m, t).

Definition require_stage (t : DurableTransactionV6) (s : TransactionStageV6) : result unit string :=
  reject (negb (bool_decide (dp_stage (tx_payload t) = s))) "illegal stage"%string.
End Disk.

(** ** The activation after the reboot, and [recover] *)

Section Activation.
Context `{Codec} {B : Type} `{BootLifecycleBackendV6 B} `{BootSystem B}.
Abbreviation Manifest := TieringBootValidationPreparedManifestV6.
Abbreviation State := (DurableTransactionV6 * B)%type.
Abbreviation M := (eff (DurableTransactionV6 * B) unit string).

Definition on_tx {A} (m : eff DurableTransactionV6 A BootValidationV6Error) : eff State A string :=
  eff_fst (eff_map_err boot_error_to_string m).
Definition persist : M :=
  let! tx := eff_fst eff_get in eff_snd (persist_transaction tx).
Definition ENABLED : string := "/sys/module/zswap/parameters/enabled".

(** an intent, what it announces, and the record of its completion *)
Definition announce (operation target : string) : M :=
  eff_fst (record_intent operation target) ;! persist.
Definition finish (evidence : string) : M :=
  on_tx (complete_last evidence) ;! persist.
Definition go_to (stage : TransactionStageV6) : M :=
  on_tx (transition stage) ;! persist.

(** a step of the rollback: its error is kept, its success recorded *)
Definition undo (operation target evidence : string) (m : eff B unit string) :
    eff State (list string) string :=
  announce operation target ;!
  let! r := eff_snd (eff_attempt m) in
  match r with
  | Err error => eff_ret [error]
  | Ok _ => finish evidence ;! eff_ret []
  end.

Fixpoint undo_parameters (parameters : list (string * string)) : eff State (list string) string :=
  match parameters with
  | [] => eff_ret []
  | (name, value) :: rest =>
      let! errors :=
        (if String.eqb name "enabled" then eff_ret []
         else
           announce "rollback_zswap_parameter" (zswap_path name) ;!
           let! r := eff_snd (eff_attempt (write_text (zswap_path name) value)) in
           match r with
           | Err error => eff_ret [error]
           | Ok _ =>
               let! read := eff_snd (eff_read (fun b => Ok (result_ok (read_zswap_parameter name b)))) in
               if option_str_eqb read (Some value) then
                 finish (sha256_hex value) ;! eff_ret []
               else eff_ret [("baseline zswap readback mismatch: " ++ name)%string]
           end) in
      let! more := undo_parameters rest in
      eff_ret (errors ++ more)
  end.

(** a [BTreeMap] is iterated in the order of its keys *)
Definition entries (m : gmap string string) : list (string * string) :=
  sort_by (fun a b => String.leb (fst a) (fst b)) (map_to_list m).

Definition validation_swap_active (m : Manifest) (b : B) : bool :=
  is_ok_and (collect_swaps b)
    (existsb (fun swap => path_eq (si_path swap) (si_path (pm_swapfile (mf_payload m)))
                          && si_active swap)).

Definition undo_zswap (m : Manifest) : eff State (list string) string :=
  let baseline := zs_parameters (pm_baseline_zswap (mf_payload m)) in
  announce "rollback_zswap_disable" ENABLED ;!
  let! r := eff_snd (eff_attempt (write_text ENABLED "N")) in
  match r with
  | Err error => eff_ret [error]
  | Ok _ =>
      finish (sha256_hex "N") ;!
      let! errors := undo_parameters (entries baseline) in
      let enabled := unwrap_or (baseline !! "enabled"%string) "N"%string in
      let! more := undo "rollback_zswap_enabled" ENABLED (sha256_hex enabled)
                     (write_text ENABLED enabled) in
      eff_ret (errors ++ more)
  end.

Definition select_after_failure (m : Manifest) : eff State (list string) string :=
  let p := mf_payload m in
  announce "select_baseline_after_activation_failure" (be_path (bo_current_entry (pm_boot p))) ;!
  let! r := eff_snd (eff_attempt (set_one_shot (pm_recovery_entry p))) in
  match r with
  | Err error => eff_ret [error]
  | Ok _ =>
      let! selected := eff_snd (eff_read (fun b => Ok (one_shot_is (pm_recovery_entry p) b))) in
      if selected : bool then
        on_tx (complete_last (canonical_json_sha256_v6 (DString (pm_recovery_entry p)))) ;!
        eff_ret []
      else eff_ret ["baseline one-shot readback mismatch"%string]
  end.

Definition activation_failure {A} (m : Manifest) (primary : string) : eff State A string :=
  let swap_path := si_path (pm_swapfile (mf_payload m)) in
  eff_fst (modify (set_primary_error primary)) ;!
  let! active := eff_snd (eff_read (fun b => Ok (validation_swap_active m b))) in
  let! first := (if active : bool
                 then undo "rollback_swapoff" swap_path (sha256_hex "inactive")
                        (run_exact "/usr/bin/swapoff" [swap_path])
                 else eff_ret []) in
  let! second := undo_zswap m in
  let! third := select_after_failure m in
  eff_fst (modify (extend_secondary (first ++ second ++ third))) ;!
  go_to ActivationFailed ;!
  eff_err ("activation failed and bounded rollback was attempted: " ++ primary)%string.

(** [if let Err(primary) = .. { return activation_failure(..) }] *)
Definition or_activation_failure (m : Manifest) (op : eff B unit string) : M :=
  let! r := eff_snd (eff_attempt op) in
  match r with Ok _ => eff_ret tt | Err primary => activation_failure m primary end.
(** the readback [if .. != .. { return activation_failure(..) }] *)
Definition readback (m : Manifest) (message : string) (ok : B -> result bool string) : M :=
  let! same := eff_snd (eff_read ok) in
  if same : bool then eff_ret tt else activation_failure m message.

Fixpoint write_parameters (m : Manifest) (parameters : list (string * string)) : M :=
  match parameters with
  | [] => eff_ret tt
  | (name, value) :: rest =>
      (if String.eqb name "enabled" then eff_ret tt
       else
         announce "write_zswap_parameter" (zswap_path name) ;!
         or_activation_failure m (write_text (zswap_path name) value) ;!
         let! read := eff_snd (eff_read (read_zswap_parameter name)) in
         (if String.eqb read value then eff_ret tt
          else activation_failure m ("zswap readback mismatch for " ++ name)) ;!
         on_tx (complete_last (sha256_hex read)) ;!
         eff_fst (modify next_parameter) ;!
         persist) ;!
      write_parameters m rest
  end.

(** the checks before anything changes; the swap that was applied and the boot id *)
Definition swaps_changed (p : PreparedManifestPayloadV6) (current : list SwapIdentityV6) : bool :=
  existsb (fun swap =>
    is_some_and (find_swap (si_path swap) (pm_baseline_swaps p))
      (fun baseline => negb (swap_eqb baseline swap))
    && negb (path_eq (si_path swap) (si_path (pm_swapfile p)))) current.

Definition activation_preconditions (m : Manifest) (t : DurableTransactionV6) (b : B) :
    result (SwapIdentityV6 * string) string :=
  let p := mf_payload m in
  let? uid := current_uid b in
  reject (negb (uid =? 0)) "root required"%string ;?
  require_stage t OneShotSelected ;?
  let? boot_id := read_trimmed "/proc/sys/kernel/random/boot_id" b in
  reject (String.eqb boot_id (dp_baseline_boot_id (tx_payload t)))
    "experimental activation requires a new boot id"%string ;?
  let? cmd := read_trimmed "/proc/cmdline" b in
  reject (negb (contains_str (split_whitespace cmd) (pm_validation_marker p)))
    "validation marker absent"%string ;?
  let? swaps := collect_swaps b in
  let? zram := collect_zram swaps b in
  reject (negb (zram_eqb zram (pm_protected_zram p)) || negb (zr_active zram)
          || (zr_priority zram <=? 0) || bool_decide (length (pm_baseline_swaps p) = 0%nat)
          || swaps_changed p swaps)
    "protected zram or baseline swap precondition changed"%string ;?
  let? status := bootctl_status b in
  let? booted := ok_or (booted_entry_of status) "booted entry"%string in
  let mismatch := Err "experimental boot/helper/unit identity mismatch"%string in
  (if negb (String.eqb booted (be_id (pm_experimental_entry p)))
      || negb (staged_helper_matches (pm_staged_helper p) b) then mismatch
   else
     let? exe := current_exe b in
     if negb (path_eq exe (sb_destination (pm_staged_helper p))) then mismatch
     else
       let? default := permanent_default b in
       if negb (String.eqb default (be_id (bo_default_entry (pm_boot p)))) then mismatch
       else
         let? order := boot_order b in
         if negb (list_str_eqb order (bo_boot_order (pm_boot p))) then mismatch
         else
           let? cgroup := read_trimmed "/proc/self/cgroup" b in
           if negb (str_contains (unit_name (pm_validation_id p)) cgroup) then mismatch else Ok tt) ;?
  let? applied := ok_or (dp_applied_swap_identity (tx_payload t)) "applied swap identity"%string in
  let invalid := Err "validation swap identity or inactive baseline mismatch"%string in
  (match si_uuid applied with
   | None => invalid
   | Some expected =>
       let? uuid := blkid "UUID" (si_path (pm_swapfile p)) b in
       if negb (String.eqb uuid expected) then invalid
       else
         let? swaps := collect_swaps b in
         if existsb (fun s => path_eq (si_path s) (si_path (pm_swapfile p)) && si_active s) swaps
         then invalid else Ok tt
   end) ;?
  Ok (applied, boot_id).

Definition activate_zswap (m : Manifest) : M :=
  on_tx (transition ZswapDisabling) ;!
  announce "disable_zswap" ENABLED ;!
  or_activation_failure m (write_text ENABLED "N") ;!
  let! disabled := eff_snd (eff_read (read_trimmed ENABLED)) in
  finish (sha256_hex disabled) ;!
  go_to ZswapParametersApplying ;!
  write_parameters m (entries (pm_experimental_zswap (mf_payload m))) ;!
  on_tx (transition ZswapEnabling) ;!
  announce "enable_zswap" ENABLED ;!
  or_activation_failure m (write_text ENABLED "Y") ;!
  readback m "zswap enable readback mismatch"
    (fun b => let? v := read_trimmed ENABLED b in Ok (String.eqb v "Y")) ;!
  finish (sha256_hex "Y").

Definition activate_swap (m : Manifest) (applied : SwapIdentityV6) : M :=
  let p := mf_payload m in
  let swapfile := pm_swapfile p in
  on_tx (transition SwapActivating) ;!
  announce "activate_validation_swap" (si_path swapfile) ;!
  or_activation_failure m
    (run_exact "/usr/bin/swapon"
       ["--priority"%string; show_int (si_priority swapfile); si_path swapfile]) ;!
  readback m "validation swap readback mismatch" (fun b =>
    let? swaps := collect_swaps b in
    Ok (existsb (fun s => path_eq (si_path s) (si_path swapfile)
                          && (si_priority s =? si_priority swapfile)) swaps)) ;!
  on_tx (complete_last (canonical_json_sha256_v6 (DSwap applied))) ;!
  let! tx := eff_fst eff_get in
  let! evidence := eff_snd (eff_read (fun b =>
    let? zswap := collect_zswap b in
    let? default := permanent_default b in
    let? order := boot_order b in
    Ok (to_vec_pretty (DActivation ACTIVATION_EVIDENCE_SCHEMA_V6 (tx_payload tx)
          (be_id (pm_experimental_entry p)) (pm_validation_marker p)
          (bi_sha256 (sb_source (pm_staged_helper p))) applied zswap default order)))) in
  eff_snd (persist_evidence "activation-evidence-v6.json" evidence) ;!
  eff_fst (modify (insert_evidence "activation-evidence-v6.json" (sha256_hex evidence)) ;! refresh) ;!
  go_to ActivationVerified.

(** [experimental_activate], after [load_transaction] and [LinuxLifecycleBackend::new] *)
Definition experimental_activate (m : Manifest) : M :=
  let! t := eff_fst eff_get in
  let! checks := eff_snd (eff_read (activation_preconditions m t)) in
  let '(applied, boot_id) := checks in
  eff_fst (modify (set_current_boot_id boot_id)) ;!
  go_to ExperimentalBootDetected ;!
  go_to ActivationPreparing ;!
  activate_zswap m ;!
  activate_swap m applied.

(** *** recover *)

Definition lib_op (m : eff State unit BootValidationV6Error) : M :=
  eff_map_err boot_error_to_string m.

Definition clear_one_shot (m : Manifest) : M :=
  let entry := pm_experimental_entry (mf_payload m) in
  let! pending := eff_snd (eff_read read_one_shot) in
  eff_reject (negb (option_str_eqb pending (Some (be_id entry))))
    "one-shot state is not exact-owned; preserving all artifacts" ;!
  announce "recovery_clear_exact_oneshot" (be_path entry) ;!
  eff_snd (run_exact "/usr/bin/bootctl" ["set-oneshot"%string; ""%string]) ;!
  let! left := eff_snd (eff_read read_one_shot) in
  eff_reject (is_some left) "owned one-shot state did not clear" ;!
  finish (sha256_hex "cleared").

Fixpoint recover_artifacts (artifacts : list OwnedArtifactV6) : M :=
  match artifacts with
  | [] => eff_ret tt
  | art :: rest =>
      let! matches := eff_snd (eff_read (fun b => Ok (artifact_matches art b))) in
      (if matches : bool then
         announce "recovery_remove_exact_artifact" (oa_path art) ;!
         eff_snd (remove_artifact art) ;!
         finish (sha256_hex "absent")
       else eff_ret tt) ;!
      recover_artifacts rest
  end.

Definition recover_owned (m : Manifest) : M :=
  let p := mf_payload m in
  recover_artifacts (rev (pm_owned_artifacts p)) ;!
  announce "recovery_remove_exact_swapfile" (si_path (pm_swapfile p)) ;!
  eff_snd (remove_swapfile m) ;!
  on_tx (complete_last (sha256_hex "absent")) ;!
  eff_snd (finalize_runtime_cleanup m) ;!
  on_tx (transition Recovered) ;!
  eff_fst (modify (set_recovery_state "recovered_before_reboot") ;! refresh) ;!
  persist ;!
  let! tx := eff_fst eff_get in
  let recovery := to_vec_pretty (DRecovery RECOVERY_EVIDENCE_SCHEMA_V6 (tx_payload tx)) in
  eff_snd (persist_evidence "recovery-evidence-v6.json" recovery) ;!
  eff_fst (modify (insert_evidence "recovery-evidence-v6.json" (sha256_hex recovery)) ;! refresh) ;!
  persist ;!
  let! recovered := eff_fst eff_get in
  eff_snd (seal_archive recovered).

Definition recovery_stage (t : DurableTransactionV6) : TransactionStageV6 :=
  unwrap_or (dp_failed_from_stage (tx_payload t)) (dp_stage (tx_payload t)).

(** [recover], after [load_transaction] and the authentication *)
Definition recover (m : Manifest) (idempotence : bool) : M :=
  let! t := eff_fst eff_get in
  let! experimental := eff_snd (eff_read (fun b => Ok (current_boot_is_experimental m b))) in
  let action := recovery_action_v6 (recovery_stage t) experimental in
  if String.eqb action "no_op" then
    if idempotence then eff_snd (eff_read (verify_sha256sums (pm_transaction_root (mf_payload m))))
    else eff_ret tt
  else if String.eqb action "select_exact_baseline_oneshot_preserve_artifacts" then
    lib_op (select_baseline_rollback_v6 m)
  else if contains_str ["verify_baseline_preserve_artifacts"; "resume_exact_cleanup"] action then
    lib_op (verify_then_cleanup_v6 m)
  else if contains_str ["remove_exact_owned_before_reboot"; "clear_exact_owned_oneshot_then_remove"]
            action then
    eff_reject idempotence "idempotence verification cannot mutate" ;!
    (if String.eqb action "clear_exact_owned_oneshot_then_remove" then clear_one_shot m
     else eff_ret tt) ;!
    recover_owned m
  else eff_err ("recovery requires diagnosis: " ++ action)%string.
End Activation.

(** ** Lemmas *)
Module Facts.
Import BootTransaction.Facts.
Section Facts.
Context `{Codec}.

Lemma option_eqb_refl {A} (eqb : A -> A -> bool) o : (forall x, eqb x x = true) -> option_eqb eqb o o = true.
Proof. intros He. destruct o; simpl; auto. Qed.
Lemma record_eqb_refl r : record_eqb r r = true.
Proof.
  unfold record_eqb. rewrite !String.eqb_refl, Tiering.Facts.path_eq_refl, eqb_reflx.
  rewrite (option_eqb_refl _ _ String.eqb_refl). done.
Qed.
Lemma starts_with_self l k : records_start_with (l ++ k) l = true.
Proof. induction l as [|r l IH]; simpl; [by destruct k |]. by rewrite record_eqb_refl. Qed.
(** completing the last record changes it *)
Lemma completed_differs h l r : mr_completed r = false ->
  records_start_with (update_last (completed h) (l ++ [r])) (l ++ [r]) = false.
Proof.
  intros Hr. rewrite update_last_snoc. induction l as [|x l IH]; simpl.
  - unfold record_eqb, completed. simpl. rewrite Hr. by rewrite andb_false_r.
  - by rewrite record_eqb_refl.
Qed.
Lemma refreshed_valid t : tx_schema t = DURABLE_TRANSACTION_SCHEMA_V6 ->
  validate_transaction (refreshed t) = Ok tt.
Proof. intros Hs. unfold validate_transaction. cbn. by rewrite Hs, !String.eqb_refl. Qed.
Lemma valid_schema t : validate_transaction t = Ok tt -> tx_schema t = DURABLE_TRANSACTION_SCHEMA_V6.
Proof. unfold validate_transaction. intros Hv%reject_ok. by bools. Qed.
Lemma stages_reflect s : bool_decide (s = s :> TransactionStageV6) = true.
Proof. by apply bool_decide_eq_true. Qed.

Lemma announced_successor op target old : valid_successor old (announced op target old) = true.
Proof.
  unfold valid_successor, announced, refreshed, touched, push_intent. cbn.
  by rewrite !String.eqb_refl, starts_with_self, stages_reflect.
Qed.
Lemma staged_successor next old : legal_transition_v6 (dp_stage (tx_payload old)) next = true ->
  valid_successor old (staged next old) = true.
Proof.
  intros Hl. unfold valid_successor, staged, refreshed, touched. cbn.
  pose proof (starts_with_self (dp_mutation_records (tx_payload old)) []) as Hr.
  rewrite app_nil_r in Hr. by rewrite !String.eqb_refl, Hr, Hl, orb_true_r.
Qed.
Lemma finished_no_successor h old r :
  list.last (dp_mutation_records (tx_payload old)) = Some r -> mr_completed r = false ->
  valid_successor old (finished h old) = false.
Proof.
  intros [l Hl]%list.last_Some Hr.
  unfold valid_successor, finished, set_completed, refreshed, touched. cbn.
  by rewrite Hl, completed_differs, andb_false_r.
Qed.

Lemma transition_ok next old candidate : transition next old = (candidate, Ok tt) ->
  candidate = staged next old /\ legal_transition_v6 (dp_stage (tx_payload old)) next = true.
Proof.
  unfold transition, eff_bind, eff_read, eff_get, eff_reject.
  destruct (validate_transaction old); [| done].
  destruct (legal_transition_v6 _ next); simpl; [| done]. by intros [= <-].
Qed.
Lemma complete_last_ok h old candidate : complete_last h old = (candidate, Ok tt) ->
  candidate = finished h old.
Proof.
  unfold complete_last, eff_bind, eff_get, eff_reject. destruct (bool_decide _); [done |].
  by intros [= <-].
Qed.
End Facts.

Section Reconcile.
Context `{Codec} `{Decoder} {W : Type} `{BootSystem W}.

(** what [reconcile_transaction_new] does when both files are readable and valid *)
Lemma reconcile_both path (old candidate : DurableTransactionV6) (w : W) :
  path_exists (with_extension path "new") w = true -> path_exists path w = true ->
  read_transaction (with_extension path "new") w = Ok candidate ->
  read_transaction path w = Ok old ->
  validate_transaction candidate = Ok tt -> validate_transaction old = Ok tt ->
  reconcile_transaction_new path w =
    if valid_successor old candidate
    then (rename (with_extension path "new") path ;! sync_parent path) w
    else (w, Err "stale transaction .new is not a valid monotonic successor"%string).
Proof.
  intros H1' H2' H3' H4' H5' H6'. unfold reconcile_transaction_new, eff_bind at 1, eff_read at 1.
  rewrite H1'. cbn [negb]. unfold eff_bind at 1, eff_read at 1. rewrite H3'.
  unfold eff_bind at 1, eff_read at 1, checked at 1. rewrite H5'. cbn [map_error].
  unfold eff_bind at 1, eff_read at 1. rewrite H2'. cbn [negb].
  unfold eff_bind at 1, eff_read at 1. rewrite H4'.
  unfold eff_bind at 1, eff_read at 1, checked at 1. rewrite H6'. cbn [map_error].
  unfold eff_bind at 1, eff_reject. by destruct (valid_successor old candidate).
Qed.
End Reconcile.

Section Refusals.
Context `{Codec} {B : Type} `{BootLifecycleBackendV6 B} `{BootSystem B}.
Abbreviation Manifest := TieringBootValidationPreparedManifestV6.

(** the boot id that the activation has read is not the one of the baseline *)
Lemma activation_boot_id (m : Manifest) t (b : B) applied boot_id :
  activation_preconditions m t b = Ok (applied, boot_id) ->
  boot_id <> dp_baseline_boot_id (tx_payload t).
Proof.
  unfold activation_preconditions. cbv zeta.
  destruct (current_uid b); [| done]. destruct (reject (negb (_ =? 0)) _); [| done].
  destruct (require_stage t OneShotSelected); [| done].
  destruct (read_trimmed "/proc/sys/kernel/random/boot_id" b) as [id|]; [| done].
  unfold reject at 1. destruct (String.eqb id _) eqn:Ei; [done |].
  intros Ha. assert (boot_id = id) as ->; [| by apply String.eqb_neq].
  repeat match type of Ha with
  | match ?r with Ok _ => _ | Err _ => _ end = Ok _ => destruct r; [| discriminate Ha]
  end. congruence.
Qed.
Lemma stale_refused boot_id t next : validate_transaction t = Ok tt ->
  canonical_json_sha256_v6 (DTransactionPayload (set_current_boot_id boot_id (tx_payload t)))
    <> canonical_json_sha256_v6 (DTransactionPayload (tx_payload t)) ->
  transition next (touched (set_current_boot_id boot_id) t)
    = (touched (set_current_boot_id boot_id) t, Err Payload).
Proof.
  intros Hv Hd. unfold validate_transaction in Hv. apply reject_ok in Hv. bools.
  assert (Hr : validate_transaction (touched (set_current_boot_id boot_id) t) = Err Payload).
  { unfold validate_transaction, reject, touched. cbn.
    destruct (String.eqb (canonical_json_sha256_v6 _) (tx_payload_sha256 t)) eqn:E;
      [apply String.eqb_eq in E; congruence | by rewrite orb_true_r]. }
  unfold transition, eff_bind, eff_read. by rewrite Hr.
Qed.
(** the activation after its checks, when the first transition is refused *)
Lemma go_to_stale (m : Manifest) boot_id applied t (b : B) e :
  transition ExperimentalBootDetected (touched (set_current_boot_id boot_id) t)
    = (touched (set_current_boot_id boot_id) t, Err e) ->
  (eff_fst (modify (set_current_boot_id boot_id)) ;!
   go_to ExperimentalBootDetected ;!
   go_to ActivationPreparing ;!
   activate_zswap m ;!
   activate_swap m applied) (t, b)
    = ((touched (set_current_boot_id boot_id) t, b), Err (boot_error_to_string e)).
Proof.
  intros Ht. unfold eff_bind at 1, eff_fst at 1, modify, eff_upd.
  unfold eff_bind at 1, go_to at 1, on_tx. unfold eff_bind at 1, eff_fst at 1, eff_map_err at 1.
  unfold touched in *. by rewrite Ht.
Qed.
Lemma transition_refused next t : legal_transition_v6 (dp_stage (tx_payload t)) next = false ->
  exists e, transition next t = (t, Err e).
Proof.
  intros Hl. unfold transition, eff_bind, eff_read, eff_get, eff_reject.
  destruct (validate_transaction t) as [u|e]; [| by exists e]. rewrite Hl. by eexists.
Qed.
Lemma selection_refused (m : Manifest) t (b : B) :
  legal_transition_v6 (dp_stage (tx_payload t)) BaselineSelecting = false ->
  exists e, lib_op (select_baseline_rollback_v6 m) (t, b) = ((t, b), Err e).
Proof.
  intros Hl. destruct (transition_refused _ _ Hl) as [e He].
  assert (Hr : select_baseline_rollback_v6 m (t, b) = ((t, b), Err e)).
  { unfold select_baseline_rollback_v6, eff_bind at 1, enter at 1, eff_bind at 1, eff_fst at 1.
    by rewrite He. }
  unfold lib_op, eff_map_err. rewrite Hr. by eexists.
Qed.
Lemma cleanup_refused (m : Manifest) t (b : B) :
  bool_decide (dp_stage (tx_payload t) = BaselineSelected) = false ->
  bool_decide (dp_stage (tx_payload t) = BaselineBoot) = false ->
  exists e, lib_op (verify_then_cleanup_v6 m) (t, b) = ((t, b), Err e).
Proof.
  intros H1' H2'. assert (Hr : exists e, verify_then_cleanup_v6 m (t, b) = ((t, b), Err e)).
  { unfold verify_then_cleanup_v6. unfold eff_bind at 1, eff_fst at 1, eff_get at 1. cbv beta iota.
    unfold eff_bind at 1. rewrite H1'. cbn [eff_ret]. unfold eff_bind at 1, eff_snd at 1, eff_read at 1.
    destruct (collect_baseline m b) as [o|e]; [| by eexists].
    unfold eff_bind at 1, eff_fst at 1, eff_read at 1.
    assert (Hv : exists e, verify_baseline_before_cleanup_v6 m t o = Err e).
    { unfold verify_baseline_before_cleanup_v6, reject. rewrite H2'. simpl negb.
      rewrite orb_true_r. by eexists. }
    destruct Hv as [e ->]. by exists e. }
  destruct Hr as [e Hr]. unfold lib_op, eff_map_err. rewrite Hr. by eexists.
Qed.
End Refusals.
End Facts.

(** ** Theorems *)
Module Theorems.
Import BootTransaction.Facts.
Section Disk.
Context `{Codec} `{Decoder} {W : Type} `{BootSystem W}.

(** C20: what a crash between the two halves of a replacement of the transaction leaves: when
    the new file announces an operation or changes the stage, the next start completes the
    replacement; when it completes an operation, the start is refused, nothing changes, and
    so is every later one. *)
Theorem interrupted_replacement path (old candidate : DurableTransactionV6) (w : W)
    (Hnew : path_exists (with_extension path "new") w = true) (Hpath : path_exists path w = true)
    (Rnew : read_transaction (with_extension path "new") w = Ok candidate)
    (Rold : read_transaction path w = Ok old) (Vold : validate_transaction old = Ok tt) :
  let completes := reconcile_transaction_new path w =
                     (rename (with_extension path "new") path ;! sync_parent path) w in
  (forall operation target,
     record_intent (F := string) operation target old = (candidate, Ok tt) -> completes) /\
  (forall next, transition next old = (candidate, Ok tt) -> completes) /\
  (forall h r, complete_last h old = (candidate, Ok tt) ->
     list.last (dp_mutation_records (tx_payload old)) = Some r -> mr_completed r = false ->
     reconcile_transaction_new path w =
       (w, Err "stale transaction .new is not a valid monotonic successor"%string)).
Proof.
  pose proof (Facts.valid_schema _ Vold) as Hs. split; [| split].
  - intros op target Hc. assert (candidate = announced op target old) as -> by (by injection Hc).
    rewrite (Facts.reconcile_both path old _ w Hnew Hpath Rnew Rold (Facts.refreshed_valid (touched _ old) Hs) Vold).
    by rewrite Facts.announced_successor.
  - intros next [-> Hl]%Facts.transition_ok.
    rewrite (Facts.reconcile_both path old _ w Hnew Hpath Rnew Rold (Facts.refreshed_valid (touched _ old) Hs) Vold).
    by rewrite Facts.staged_successor.
  - intros h r ->%Facts.complete_last_ok Hr Hc.
    rewrite (Facts.reconcile_both path old _ w Hnew Hpath Rnew Rold (Facts.refreshed_valid (touched _ old) Hs) Vold).
    by rewrite (Facts.finished_no_successor h old r).
Qed.
End Disk.

Section Recovery.
Context `{Codec} {B : Type} `{BootLifecycleBackendV6 B} `{BootSystem B}.
Abbreviation Manifest := TieringBootValidationPreparedManifestV6.

(** [experimental_activate] never activates anything. The boot id that it assigns is
    not in the digest that its first transition checks: when the digest of the transaction
    with the boot id of the checks is another one, it fails for every valid transaction of
    the baseline boot before anything is persisted or changed. *)
Theorem activation_always_refused (m : Manifest) t (b : B)
    (Hvalid : validate_transaction t = Ok tt)
    (Hboot : dp_current_boot_id (tx_payload t) = dp_baseline_boot_id (tx_payload t))
    (Hdigest : forall applied boot_id, activation_preconditions m t b = Ok (applied, boot_id) ->
       boot_id <> dp_current_boot_id (tx_payload t) ->
       canonical_json_sha256_v6 (DTransactionPayload (set_current_boot_id boot_id (tx_payload t)))
       <> canonical_json_sha256_v6 (DTransactionPayload (tx_payload t))) :
  snd (fst (experimental_activate m (t, b))) = b /\ is_ok (snd (experimental_activate m (t, b))) = false.
Proof.
  assert (Hr : exists t' e, experimental_activate m (t, b) = ((t', b), Err e));
    [| destruct Hr as (t' & e & Hr); by rewrite Hr].
  unfold experimental_activate, eff_bind at 1, eff_fst at 1, eff_get at 1. cbv beta iota.
  unfold eff_bind at 1, eff_snd at 1, eff_read at 1.
  destruct (activation_preconditions m t b) as [[applied boot_id]|e] eqn:Ep; [| by eexists _, _].
  pose proof (Facts.activation_boot_id _ _ _ _ _ Ep) as Hid. rewrite <-Hboot in Hid.
  eexists _, _. apply Facts.go_to_stale, Facts.stale_refused; [done | by apply (Hdigest applied)].
Qed.

(** C21: [recover] cannot leave these places. A transaction that never failed is stuck after
    the reboot into the experimental entry (it still says that the entry was selected), during
    the selection of the baseline, and once the baseline is verified. One that failed is
    judged by the stage it failed in: when that is one of those that go back to the baseline,
    it is stuck while the baseline is being selected, and when the baseline had been selected
    before, it is stuck unless its stage says that it still is. In all of them the chosen
    action is an operation whose first transition is illegal or whose verification wants
    another stage: every attempt fails and leaves the transaction and the host as they are. *)
Theorem recover_dead_ends (m : Manifest) idempotence t (b : B)
    (Hstage : let stage := dp_stage (tx_payload t) in
       let experimental := current_boot_is_experimental m b in
       match dp_failed_from_stage (tx_payload t) with
       | None =>
           ((stage = OneShotSelecting \/ stage = OneShotSelected) /\ experimental = true)
           \/ In stage [ExperimentalBootDetected; BaselineSelecting; BaselineVerified; Cleaning]
       | Some from =>
           (recovery_action_v6 from experimental = "select_exact_baseline_oneshot_preserve_artifacts"%string
            /\ stage = BaselineSelecting)
           \/ (In from [BaselineSelected; BaselineBoot; BaselineVerified; Cleaning]
               /\ ~ In stage [BaselineSelected; BaselineBoot])
       end) :
  fst (recover m idempotence (t, b)) = (t, b) /\ is_ok (snd (recover m idempotence (t, b))) = false.
Proof.
  assert (Hr : exists e, recover m idempotence (t, b) = ((t, b), Err e));
    [| destruct Hr as [e Hr]; by rewrite Hr].
  unfold recover, eff_bind at 1, eff_fst at 1, eff_get at 1. cbv beta iota.
  unfold eff_bind at 1, eff_snd at 1, eff_read at 1. unfold recovery_stage. cbv zeta in Hstage.
  destruct (dp_failed_from_stage (tx_payload t)) as [from|]; simpl unwrap_or.
  - destruct Hstage as [[Ha E] | [Hfrom Hstage]].
    + match goal with |- context [recovery_action_v6 ?place ?boot] =>
        change (recovery_action_v6 place boot) with (recovery_action_v6 from (current_boot_is_experimental m b)) end.
      rewrite Ha. simpl. apply Facts.selection_refused. by rewrite E.
    + assert (bool_decide (dp_stage (tx_payload t) = BaselineSelected) = false /\
              bool_decide (dp_stage (tx_payload t) = BaselineBoot) = false) as [H1' H2'].
      { rewrite !bool_decide_eq_false. split; intros E; apply Hstage; rewrite E; simpl; auto. }
      destruct Hfrom as [<-|[<-|[<-|[<-|[]]]]]; simpl; by apply Facts.cleanup_refused.
  - destruct Hstage as [[[E|E] He]|[E|[E|[E|[E|[]]]]]]; (rewrite E || (symmetry in E; rewrite E)); rewrite ?He; simpl.
    all: first [by apply Facts.selection_refused; rewrite E | by apply Facts.cleanup_refused; rewrite E].
Qed.
End Recovery.
End Theorems.

(** ** The simulated host after the reboot *)
Module Sample.
Import BootContract.Sample BootTransaction.Sample.

Definition path : string := path_join root "transaction-v6.json".
Definition texts : gmap string string := list_to_map
  [("/proc/sys/kernel/random/boot_id", "boot-2" ++ newline);
   ("/proc/cmdline", options ++ newline);
   ("/proc/self/cgroup", "0::/system.slice/" ++ unit_name id ++ newline);
   ("/proc/swaps", "Filename Type Size Used Priority" ++ newline
                   ++ "/dev/zram0 partition 4194304 0 100" ++ newline);
   ("/sys/block/zram0/disksize", "4294967296" ++ newline);
   ("/sys/block/zram0/comp_algorithm", "zstd" ++ newline);
   (path, "old"); (with_extension path "new", "candidate")]%string.
Definition stdout (program : string) : option string :=
  if String.eqb program "/usr/bin/id" then Some "0"%string
  else if String.eqb program "/usr/bin/bootctl" then Some ("Current Entry: " ++ entry_name id)%string
  else if String.eqb program "/usr/bin/blkid" then Some "uuid"%string
  else None.
Definition missing {A} : result A IoError := Err {| io_kind := NotFound; io_text := "missing" |}.
Definition refused {A} : eff Sim A string := eff_err "not simulated"%string.
Definition refused_io {A} : eff Sim A IoError := eff_err {| io_kind := NotFound; io_text := "" |}.
#[export] Instance files : TieringSystem Sim := {
  read_text p s := match texts !! p with Some text => Ok text | None => missing end;
  path_exists p s := is_some (texts !! p);
  is_dir p s := false;
  opens_for_write p s := false;
  canonicalize p s := None;
  read_dir p s := missing;
  udevadm_info p s := None;
  symlink_metadata p s := missing;
  write_file p text := refused_io;
  remove_file p := refused_io;
  run_helper executable args := refused_io
}.
#[export] Instance host : BootSystem Sim := {
  boot_tiering_system := files;
  command_stdout program args s := ok_or (stdout program) "failed"%string;
  run_exact program args := eff_ret tt;
  file_stat p s := missing;
  path_is_file p s := false;
  device_number p s := Err "missing"%string;
  read_link p s := Err "missing"%string;
  env_var n s := None;
  process_id s := 1;
  current_exe s := Ok helper;
  write_text p text := eff_ret tt;
  open_new p mode := refused;
  write_synced p text := refused;
  create_dir p := refused;
  set_mode p mode := refused;
  remove_dir p := refused;
  rename p q := eff_ret tt;
  sync_dir p := eff_ret tt;
  run_worker args := refused
}.
(** a transaction that announces the swapfile, and its completion *)
Definition announced_swap : DurableTransactionV6 :=
  fst (record_intent (F := string) "create_btrfs_swapfile" (si_path swapfile) (fst after_baseline)).
#[export] Instance decoder : Decoder := {
  decode_transaction text :=
    if String.eqb text "old" then Some announced_swap
    else if String.eqb text "candidate" then Some (fst (complete_last hash announced_swap))
    else None;
  decode_manifest text := None
}.
End Sample.

(** ** Witnesses *)
Module Witnesses.
#[local] Existing Instance BootContract.Sample.codec.
#[local] Existing Instance BootTransaction.Sample.simulated.
#[local] Existing Instance Sample.host.
#[local] Existing Instance Sample.decoder.
Import BootTransaction.Sample.

(** the completion of the creation of the swapfile was not renamed into its place *)
Lemma interrupted_replacement_witness :
  reconcile_transaction_new Sample.path fresh
    = (fresh, Err "stale transaction .new is not a valid monotonic successor"%string).
Proof.
  eapply (Theorems.interrupted_replacement Sample.path Sample.announced_swap
            (fst (complete_last BootContract.Sample.hash Sample.announced_swap)) fresh)
    with (h := BootContract.Sample.hash); vm_compute; reflexivity.
Defined.

(** all the checks of the activation pass, and still it is refused *)
Lemma activation_always_refused_witness :
  is_ok (activation_preconditions BootContract.Sample.manifest (fst after_reboot) (snd after_reboot))
    = true /\
  is_ok (snd (experimental_activate BootContract.Sample.manifest (fst after_reboot, snd after_reboot)))
    = false.
Proof.
  split; [vm_compute; reflexivity |].
  apply (Theorems.activation_always_refused BootContract.Sample.manifest (fst after_reboot)
           (snd after_reboot)); [vm_compute; reflexivity | vm_compute; reflexivity |].
  intros applied boot_id Hp _.
  assert (Hid : boot_id = "boot-2"%string) by (vm_compute in Hp; congruence).
  rewrite Hid. vm_compute. discriminate.
Defined.

Lemma recover_dead_ends_witness :
  dp_stage (tx_payload (fst after_reboot)) = OneShotSelected /\
  is_ok (snd (recover BootContract.Sample.manifest false (fst after_reboot, snd after_reboot))) = false.
Proof.
  split; [vm_compute; reflexivity |].
  apply (Theorems.recover_dead_ends BootContract.Sample.manifest false (fst after_reboot)
           (snd after_reboot)).
  vm_compute. left. split; [right |]; reflexivity.
Defined.
End Witnesses.
