(* ===== verification/BootTrace.v ===== *)
(** The order of events of the boot validation. [Traced] is a backend that records what
    was persisted and every change it was asked for; a [session] is a lifecycle on it,
    interrupted anywhere by crashes, failures and reboots. The theorems say which
    events a session can contain and in which order. *)

From S2P Require Import Prelude F64 Text Config Classifier Policy Tiering.
From S2P Require Import BootContract BootTransaction BootHost BootLifecycle.

Abbreviation Tx := DurableTransactionV6.
Abbreviation Manifest := TieringBootValidationPreparedManifestV6.

(** ** Traces, the newest event first *)

Inductive Event :=
| Persist (t : DurableTransactionV6) (ok : bool)
| CreateRoot
| CopyManifest
| PersistEvidence (name : string)
| StageHelper (destination : string)
| CreateSwapfile (path : string)
| CreateArtifact (path : string)
| SyncParents
| RemoveArtifact (path : string)
| RemoveSwapfile (path : string)
| SetOneShot (entry : string)
| MeasureBaseline
| MeasurePostBoot
| FinalizeCleanup
| SealArchive
| WriteText (path : string)
| RunExact (program : string) (args : list string)
| OtherChange.

Record Traced (B : Type) := MkTraced { tr_events : list Event; tr_inner : B }.
Arguments MkTraced {B} _ _.
Arguments tr_events {B} _.
Arguments tr_inner {B} _.

(** an operation that is recorded whether or not it succeeds *)
Definition recorded {B A E} (e : Event) (m : eff B A E) : eff (Traced B) A E :=
  fun s => let '(b, r) := m (tr_inner s) in (MkTraced (e :: tr_events s) b, r).
Definition recorded_persist {B} (t : DurableTransactionV6) (m : eff B unit string) :
    eff (Traced B) unit string :=
  fun s => let '(b, r) := m (tr_inner s) in
           (MkTraced (Persist t (is_ok r) :: tr_events s) b, r).

#[export] Instance traced_backend {B} `{BootLifecycleBackendV6 B} :
    BootLifecycleBackendV6 (Traced B) := {
  persist_transaction t := recorded_persist t (persist_transaction t);
  create_transaction_root m := recorded CreateRoot (create_transaction_root m);
  copy_prepared_manifest m := recorded CopyManifest (copy_prepared_manifest m);
  persist_evidence name bytes := recorded (PersistEvidence name) (persist_evidence name bytes);
  create_swapfile m :=
    recorded (CreateSwapfile (si_path (pm_swapfile (mf_payload m)))) (create_swapfile m);
  create_artifact a := recorded (CreateArtifact (oa_path a)) (create_artifact a);
  stage_helper plan := recorded (StageHelper (sb_destination plan)) (stage_helper plan);
  staged_helper_matches plan s := staged_helper_matches plan (tr_inner s);
  artifact_matches a s := artifact_matches a (tr_inner s);
  artifact_absent a s := artifact_absent a (tr_inner s);
  sync_parents m := recorded SyncParents (sync_parents m);
  remove_artifact a := recorded (RemoveArtifact (oa_path a)) (remove_artifact a);
  remove_swapfile m :=
    recorded (RemoveSwapfile (si_path (pm_swapfile (mf_payload m)))) (remove_swapfile m);
  swapfile_absent m s := swapfile_absent m (tr_inner s);
  finalize_runtime_cleanup m := recorded FinalizeCleanup (finalize_runtime_cleanup m);
  set_one_shot entry := recorded (SetOneShot entry) (set_one_shot entry);
  read_one_shot s := read_one_shot (tr_inner s);
  permanent_default s := permanent_default (tr_inner s);
  boot_order s := boot_order (tr_inner s);
  current_boot_is_experimental m s := current_boot_is_experimental m (tr_inner s);
  collect_zram_baseline m := recorded MeasureBaseline (collect_zram_baseline m);
  BootTransaction.collect_post_boot m :=
    recorded MeasurePostBoot (BootTransaction.collect_post_boot m);
  collect_baseline m s := collect_baseline m (tr_inner s);
  seal_archive t := recorded SealArchive (seal_archive t)
}.

#[export] Instance traced_tiering {B} `{TieringSystem B} : TieringSystem (Traced B) := {
  read_text p s := read_text p (tr_inner s);
  path_exists p s := path_exists p (tr_inner s);
  is_dir p s := is_dir p (tr_inner s);
  opens_for_write p s := opens_for_write p (tr_inner s);
  canonicalize p s := canonicalize p (tr_inner s);
  read_dir p s := read_dir p (tr_inner s);
  udevadm_info p s := udevadm_info p (tr_inner s);
  symlink_metadata p s := symlink_metadata p (tr_inner s);
  write_file p text := recorded OtherChange (write_file p text);
  remove_file p := recorded OtherChange (remove_file p);
  run_helper executable args := recorded OtherChange (run_helper executable args)
}.

#[export] Instance traced_system {B} `{BootSystem B} : BootSystem (Traced B) := {
  boot_tiering_system := traced_tiering;
  command_stdout program args s := command_stdout program args (tr_inner s);
  run_exact program args := recorded (RunExact program args) (run_exact program args);
  file_stat p s := file_stat p (tr_inner s);
  path_is_file p s := path_is_file p (tr_inner s);
  device_number p s := device_number p (tr_inner s);
  read_link p s := read_link p (tr_inner s);
  env_var n s := env_var n (tr_inner s);
  process_id s := process_id (tr_inner s);
  current_exe s := current_exe (tr_inner s);
  write_text p text := recorded (WriteText p) (write_text p text);
  open_new p mode := recorded OtherChange (open_new p mode);
  write_synced p text := recorded OtherChange (write_synced p text);
  create_dir p := recorded OtherChange (create_dir p);
  set_mode p mode := recorded OtherChange (set_mode p mode);
  remove_dir p := recorded OtherChange (remove_dir p);
  rename p q := recorded OtherChange (rename p q);
  sync_dir p := recorded OtherChange (sync_dir p);
  run_worker args := recorded OtherChange (run_worker args)
}.

(** ** What a trace may contain *)

(** the transaction of the last [Persist], when that succeeded *)
Fixpoint last_persisted (tr : list Event) : option Tx :=
  match tr with
  | [] => None
  | Persist t ok :: _ => if ok then Some t else None
  | _ :: tr' => last_persisted tr'
  end.
Definition is_persist (e : Event) : bool :=
  match e with Persist _ _ => true | _ => false end.
(** what the disk may hold: a replacement that failed may have happened *)
Fixpoint on_disk (tr : list Event) (t : Tx) : Prop :=
  match tr with
  | [] => False
  | Persist t' ok :: tr' => t = t' \/ (ok = false /\ on_disk tr' t)
  | _ :: tr' => on_disk tr' t
  end.

Definition stage_of (t : Tx) : TransactionStageV6 := dp_stage (tx_payload t).
Definition records_of (t : Tx) : list MutationRecordV6 := dp_mutation_records (tx_payload t).
Definition at_stage (s : TransactionStageV6) (t : Tx) : bool := bool_decide (stage_of t = s).

(** the last record announces this operation and is not completed *)
Definition pending (operation target : string) (t : Tx) : bool :=
  match list.last (records_of t) with
  | Some r => String.eqb (mr_operation r) operation && String.eqb (mr_target r) target
              && negb (mr_completed r)
  | None => false
  end.
Definition intended (target : string) (t : Tx) : bool :=
  path_mem target (map mr_target (records_of t)).
(** the helper is staged, under an intent of its own, before the other artifacts *)
Definition staged_before (m : Manifest) (path : string) : bool :=
  existsb (fun a => bool_decide (oa_kind a = HelperBinary) && String.eqb (oa_path a) path)
    (pm_owned_artifacts (mf_payload m)).
Definition removable (m : Manifest) (t : Tx) (path : string) : bool :=
  intended path t || staged_before m path.
Definition activating (t : Tx) : bool :=
  existsb (fun s => at_stage s t)
    [ZswapDisabling; ZswapParametersApplying; ZswapEnabling; SwapActivating].
Definition before_reboot (t : Tx) : bool :=
  contains_str ["remove_exact_owned_before_reboot"; "clear_exact_owned_oneshot_then_remove"]
    (recovery_action_v6 (recovery_stage t) false).

(** an event is authorised by the transaction that is on the disk when it happens *)
Definition authorised (m : Manifest) (e : Event) (last : option Tx) : bool :=
  let p := mf_payload m in
  let swap := si_path (pm_swapfile p) in
  match e, last with
  | Persist _ _, _ => true
  | (CreateRoot | CopyManifest), None => true
  | PersistEvidence _, _ => true
  | StageHelper path, Some t =>
      at_stage RootPreflighted t && pending "stage_trusted_baseline_helper" path t
  | MeasureBaseline, Some t => at_stage BaselineMeasuring t
  | CreateSwapfile path, Some t => at_stage Applying t && pending "create_btrfs_swapfile" path t
  | CreateArtifact path, Some t => at_stage Applying t && pending "create_new_artifact" path t
  | SyncParents, Some t => at_stage Applying t
  | RemoveArtifact path, Some t =>
      (at_stage Applying t && removable m t path)
      || (at_stage Cleaning t && pending "remove_exact_artifact" path t)
      || (before_reboot t && pending "recovery_remove_exact_artifact" path t)
  | RemoveSwapfile path, Some t =>
      (at_stage Applying t && intended path t)
      || (at_stage Cleaning t && pending "remove_exact_swapfile" path t)
      || (before_reboot t && pending "recovery_remove_exact_swapfile" path t)
  | SetOneShot entry, Some t =>
      (at_stage OneShotSelecting t
       && pending "set_oneshot" (be_path (pm_experimental_entry p)) t
       && String.eqb entry (be_id (pm_experimental_entry p)))
      || (at_stage BaselineSelecting t
          && pending "set_baseline_oneshot" (be_path (bo_current_entry (pm_boot p))) t
          && String.eqb entry (pm_recovery_entry p))
      || (activating t
          && pending "select_baseline_after_activation_failure"
               (be_path (bo_current_entry (pm_boot p))) t
          && String.eqb entry (pm_recovery_entry p))
  | MeasurePostBoot, Some t => at_stage PostBootMeasuring t
  | FinalizeCleanup, Some t =>
      (at_stage Cleaning t && pending "remove_exact_swapfile" swap t)
      || (before_reboot t && pending "recovery_remove_exact_swapfile" swap t)
  | SealArchive, Some t => at_stage Restored t || at_stage Recovered t
  | WriteText path, Some t =>
      activating t
      && existsb (fun operation => pending operation path t)
           ["disable_zswap"; "write_zswap_parameter"; "enable_zswap"; "rollback_zswap_disable";
            "rollback_zswap_parameter"; "rollback_zswap_enabled"]%string
  | RunExact program args, Some t =>
      (activating t && String.eqb program "/usr/bin/swapon"
       && pending "activate_validation_swap" swap t)
      || (activating t && String.eqb program "/usr/bin/swapoff"
          && pending "rollback_swapoff" swap t)
      || (before_reboot t && String.eqb program "/usr/bin/bootctl"
          && pending "recovery_clear_exact_oneshot" (be_path (pm_experimental_entry p)) t)
  | _, _ => false
  end.

Fixpoint disciplined (m : Manifest) (tr : list Event) : Prop :=
  match tr with
  | [] => True
  | e :: tr' => authorised m e (last_persisted tr') = true /\ disciplined m tr'
  end.

(** the same intent, which once completed stays so *)
Definition same_intent (o r : MutationRecordV6) : Prop :=
  mr_operation r = mr_operation o /\ mr_target r = mr_target o /\ mr_boot_id r = mr_boot_id o /\
  (mr_completed o = true -> mr_completed r = true).
Fixpoint extends (old new : list MutationRecordV6) : Prop :=
  match old, new with
  | [], _ => True
  | o :: old', r :: new' => same_intent o r /\ extends old' new'
  | _ :: _, [] => False
  end.

Definition same_identity (t0 t : Tx) : Prop :=
  dp_validation_id (tx_payload t) = dp_validation_id (tx_payload t0) /\
  dp_manifest_sha256 (tx_payload t) = dp_manifest_sha256 (tx_payload t0) /\
  dp_baseline_boot_id (tx_payload t) = dp_baseline_boot_id (tx_payload t0).
Definition advances (t0 t : Tx) : Prop :=
  same_identity t0 t /\ extends (records_of t0) (records_of t) /\
  (stage_of t = stage_of t0 \/ legal_transition_v6 (stage_of t0) (stage_of t) = true).

(** every persisted transaction is the first, or follows one that may be on the disk *)
Fixpoint chained (tr : list Event) : Prop :=
  match tr with
  | [] => True
  | Persist t _ :: tr' =>
      (Forall (fun e => is_persist e = false) tr' \/ exists t0, on_disk tr' t0 /\ advances t0 t) /\
      chained tr'
  | _ :: tr' => chained tr'
  end.

(** ** Sessions *)

Inductive Command := CApply | CSelectOneShot | CActivate | CPostBoot | CSelectBaseline | CCleanup
  | CRecover (idempotence : bool).

Section Session.
Context `{Codec} {B : Type} `{BootLifecycleBackendV6 B} `{BootSystem B}.
Abbreviation State := (DurableTransactionV6 * Traced B)%type.

(** the commands of the program on the transaction that it has loaded *)
Definition run_command (m : Manifest) (c : Command) : eff State unit string :=
  match c with
  | CApply => lib_op (apply_exact_transaction_v6 m)
  | CSelectOneShot => lib_op (select_exact_one_shot_v6 m)
  | CActivate => experimental_activate m
  | CPostBoot => lib_op (collect_and_validate_post_boot_v6 m ;! eff_ret tt)
  | CSelectBaseline => lib_op (select_baseline_rollback_v6 m)
  | CCleanup => lib_op (verify_then_cleanup_v6 m)
  | CRecover idempotence => recover m idempotence
  end.

(** a lifecycle: the baseline is measured first, then any commands in any order, each on a
    transaction that the disk may hold; a crash cuts a command short, and the world below
    may change between two of them *)
Inductive session (m : Manifest) : list Event -> Prop :=
| session_start preflight boot_id b tr :
    tr `suffix_of`
      tr_events (fst (initialize_and_measure_baseline_v6 m preflight boot_id (MkTraced [] b))) ->
    session m tr
| session_command c b t tr0 tr :
    session m tr0 -> on_disk tr0 t ->
    tr0 `suffix_of` tr ->
    tr `suffix_of` tr_events (snd (fst (run_command m c (t, MkTraced tr0 b)))) ->
    session m tr.
End Session.

(** ** The rules of the proofs *)

Module Facts.
Import BootTransaction.Facts.

(** the hash that [verify_then_cleanup_v6] looks for *)
Definition keyless (t : Tx) : Prop :=
  dp_evidence_hashes (tx_payload t) !! "zram-baseline-evidence-v2.json"%string = None.
Definition unrestored_event (e : Event) : Prop :=
  match e with Persist t _ => keyless t /\ stage_of t <> Restored | _ => True end.

(** *** Records *)

Lemma same_intent_refl r : same_intent r r.
Proof. by repeat split. Qed.
Lemma extends_refl l : extends l l.
Proof. induction l; simpl; auto using same_intent_refl. Qed.
Lemma same_intent_trans a b c : same_intent a b -> same_intent b c -> same_intent a c.
Proof. unfold same_intent. intuition congruence. Qed.
Lemma extends_trans a : forall b c, extends a b -> extends b c -> extends a c.
Proof.
  induction a as [|x a IH]; intros [|y b] [|z c]; simpl; try done.
  intros [? ?] [? ?]. split; eauto using same_intent_trans.
Qed.
Lemma extends_app l k : extends l (l ++ k).
Proof. induction l; simpl; auto using same_intent_refl. Qed.
Lemma extends_completed h l : extends l (update_last (completed h) l).
Proof.
  induction l as [|x [|y l] IH]; simpl in *; [done | |].
  - by repeat split.
  - split; [apply same_intent_refl | exact IH].
Qed.

(** an assignment that keeps the identity and the stage, and no record is lost *)
Definition inert (f : DurableTransactionPayloadV6 -> DurableTransactionPayloadV6) : Prop :=
  forall p, dp_validation_id (f p) = dp_validation_id p /\
            dp_manifest_sha256 (f p) = dp_manifest_sha256 p /\
            dp_baseline_boot_id (f p) = dp_baseline_boot_id p /\
            dp_stage (f p) = dp_stage p /\
            dp_failed_from_stage (f p) = dp_failed_from_stage p /\
            extends (dp_mutation_records p) (dp_mutation_records (f p)) /\
            (dp_evidence_hashes p !! "zram-baseline-evidence-v2.json"%string = None ->
             dp_evidence_hashes (f p) !! "zram-baseline-evidence-v2.json"%string = None).
Ltac solve_inert :=
  intros p; unfold push_intent, set_completed; repeat split; cbn; auto using extends_refl, extends_app, extends_completed.
Lemma inert_intent op target : inert (push_intent op target).
Proof. solve_inert. Qed.
Lemma inert_completed h : inert (set_completed h).
Proof. solve_inert. Qed.
Lemma inert_applied_swap i : inert (set_applied_swap i).
Proof. solve_inert. Qed.
Lemma inert_summary x : inert (set_summary x).
Proof. solve_inert. Qed.
Lemma inert_boot_id x : inert (set_current_boot_id x).
Proof. solve_inert. Qed.
Lemma inert_parameter : inert next_parameter.
Proof. solve_inert. Qed.
Lemma inert_primary x : inert (set_primary_error x).
Proof. solve_inert. Qed.
Lemma inert_secondary x : inert (extend_secondary x).
Proof. solve_inert. Qed.
Lemma inert_recovery_state x : inert (set_recovery_state x).
Proof. solve_inert. Qed.
Lemma inert_evidence name h :
  name <> "zram-baseline-evidence-v2.json"%string -> inert (insert_evidence name h).
Proof. intros Hn. solve_inert. intros Hp. by rewrite lookup_insert_ne. Qed.

Lemma advances_refl t : advances t t.
Proof. unfold advances, same_identity. auto using extends_refl. Qed.
Lemma advances_touched f t0 t : inert f -> advances t0 t -> advances t0 (touched f t).
Proof.
  intros Hf (Hi & Hr & Hs). destruct (Hf (tx_payload t)) as (H1 & H2 & H3 & H4 & _ & H5 & _).
  unfold advances, same_identity, stage_of, records_of, touched in *. cbn in *.
  rewrite H1, H2, H3, H4. eauto using extends_trans.
Qed.
Lemma advances_refreshed `{Codec} t0 t : advances t0 t -> advances t0 (refreshed t).
Proof. done. Qed.
Lemma advances_staged t0 t next :
  advances t0 t -> stage_of t = stage_of t0 -> legal_transition_v6 (stage_of t) next = true ->
  advances t0 (touched (set_stage next) t).
Proof. intros (Hi & Hr & _) Hst Hl. split; [exact Hi |]. split; [exact Hr |]. right. by rewrite <-Hst. Qed.
Lemma legal_failed s : legal_transition_v6 s Failed = true.
Proof. by destruct s. Qed.
Lemma advances_failed t0 t primary secondary :
  advances t0 t -> advances t0 (touched (set_failed primary secondary) t).
Proof.
  intros (Hi & Hr & _). split; [exact Hi |]. split; [exact Hr |]. right.
  unfold stage_of at 2. cbn. apply legal_failed.
Qed.

(** *** The assertions *)

(** predicates that no inert assignment falsifies *)
Definition steady (K : Tx -> bool) : Prop :=
  (forall f t, inert f -> K t = true -> K (touched f t) = true) /\
  (forall h t, K t = true ->
     K {| tx_schema := tx_schema t; tx_payload := tx_payload t; tx_payload_sha256 := h |} = true) /\
  (forall t, K t = true -> stage_of t <> Restored).

Lemma steady_at s : s <> Restored -> steady (at_stage s).
Proof.
  intros Hs. unfold at_stage, stage_of. split; [| split].
  - intros f t Hf Ht%bool_decide_eq_true. apply bool_decide_eq_true. cbn.
    destruct (Hf (tx_payload t)) as (_ & _ & _ & E & _). by rewrite E.
  - done.
  - intros t Ht%bool_decide_eq_true E. unfold stage_of in E. congruence.
Qed.
Lemma steady_activating : steady activating.
Proof.
  assert (He : forall t t', stage_of t' = stage_of t -> activating t' = activating t).
  { intros t t' E. unfold activating, at_stage. by rewrite E. }
  split; [| split].
  - intros f t Hf <-. apply He. apply (Hf (tx_payload t)).
  - intros h t <-. by apply He.
  - intros t Ht E. unfold activating, at_stage in Ht. by rewrite E in Ht.
Qed.
Definition unrestored (t : Tx) : bool := negb (at_stage Restored t).
Definition recovering (t : Tx) : bool := unrestored t && before_reboot t.
Lemma recovering_before_reboot t : recovering t = true -> before_reboot t = true.
Proof. by intros [_ ?]%andb_true_iff. Qed.
Lemma steady_recovering : steady recovering.
Proof.
  unfold recovering, unrestored, at_stage, before_reboot, recovery_stage, stage_of. split; [| split].
  - intros f t Hf. cbn.
    destruct (Hf (tx_payload t)) as (_ & _ & _ & E1 & E2 & _). by rewrite E1, E2.
  - done.
  - intros t [Ht _]%andb_true_iff E. apply negb_true_iff, bool_decide_eq_false in Ht. done.
Qed.

(** an intent stays in the records *)
Lemma intended_extends target old new :
  extends old new -> path_mem target (map mr_target old) = true ->
  path_mem target (map mr_target new) = true.
Proof.
  revert new. induction old as [|o old IH]; intros [|r new]; simpl; try done.
  intros [(_ & Ht & _) He]. unfold path_mem in *. cbn. rewrite Ht. rewrite !orb_true_iff.
  intros [?|?]; [by left | right; by apply IH].
Qed.
Lemma intended_touched f target t : inert f -> intended target t = true ->
  intended target (touched f t) = true.
Proof.
  intros Hf. apply intended_extends. apply (Hf (tx_payload t)).
Qed.

Section Rules.
Context `{Codec} {B : Type} `{BootLifecycleBackendV6 B} `{BootSystem B}.
Context (m : Manifest).
Abbreviation State := (DurableTransactionV6 * Traced B)%type.

Definition events (s : State) : list Event := tr_events (snd s).
Definition good_trace (tr : list Event) : Prop :=
  disciplined m tr /\ chained tr /\ Forall unrestored_event tr.
Definition good (s : State) : Prop := good_trace (events s).

(** what the disk may hold, which the transaction in memory comes from *)
Definition based (o : option Tx) (t : Tx) (tr : list Event) : Prop :=
  match o with
  | Some t0 => on_disk tr t0 /\ advances t0 t
  | None => Forall (fun e => is_persist e = false) tr
  end.
Definition holds (o : option Tx) (t : Tx) (s : State) : Prop :=
  fst s = t /\ good s /\ based o t (events s) /\ keyless t.

(** the transaction in memory satisfies [K], what was persisted last [D]; it is not
    ahead of the disk by a transition when [q] *)
Definition during (q : bool) (K : Tx -> bool) (D : option Tx -> bool) (s : State) : Prop :=
  exists d t, holds (Some d) t s /\ (q = true -> stage_of t = stage_of d) /\ K t = true /\
              D (last_persisted (events s)) = true.
Definition disk (K : Tx -> bool) (o : option Tx) : bool :=
  match o with Some t => K t | None => false end.
Definition whatever (o : option Tx) : bool := true.

Lemma during_good q K D s : during q K D s -> good s.
Proof. by intros (d & t & (_ & ? & _) & _). Qed.
Lemma during_weaken q (K K' : Tx -> bool) (D D' : option Tx -> bool) s :
  (forall t, K t = true -> K' t = true) ->
  (forall o, D o = true -> D' o = true) -> during q K D s -> during q K' D' s.
Proof. intros HK HD (d & t & ? & ? & ? & ?). exists d, t. auto. Qed.
Lemma during_free q K D s : during q K D s -> during false K whatever s.
Proof. intros (d & t & ? & ? & ? & ?). by exists d, t. Qed.

Lemma last_persisted_on_disk tr t : last_persisted tr = Some t -> on_disk tr t.
Proof.
  induction tr as [|[] tr IH]; simpl; try done.
  destruct ok; [intros [= ->]; by left | done].
Qed.
Lemma last_event e tr : is_persist e = false -> last_persisted (e :: tr) = last_persisted tr.
Proof. by destruct e. Qed.
Lemma based_event e o t tr : is_persist e = false -> based o t tr -> based o t (e :: tr).
Proof.
  intros He. destruct o as [t0|]; simpl.
  - intros [Hd Ha]. split; [by destruct e | done].
  - intros Hn. by constructor.
Qed.
(** a trace goes on with an event that is no [Persist], or with one *)
Lemma good_event e tr : good_trace tr -> is_persist e = false ->
  authorised m e (last_persisted tr) = true -> good_trace (e :: tr).
Proof.
  intros (Hd & Hc & Hu) Hp Ha. split; [done |]. split; [by destruct e |].
  constructor; [by destruct e | done].
Qed.
Lemma good_persist o t ok tr : good_trace tr -> based o t tr -> keyless t -> stage_of t <> Restored ->
  good_trace (Persist t ok :: tr).
Proof.
  intros (Hd & Hc & Hu) Hb Hk Hs. split; [done |]. split.
  - split; [| exact Hc]. destruct o as [t0|]; [right; by exists t0 | by left].
  - by constructor.
Qed.

(** *** Steps on the transaction *)

Lemma holds_touched o t f s : inert f -> holds o t s -> holds o (touched f t) (touched f (fst s), snd s).
Proof.
  intros Hf (Ht & Hg & Hb & Hk). split; [by rewrite <-Ht |]. split; [exact Hg |]. split.
  - destruct o as [t0|]; [| exact Hb]. destruct Hb as [Hd Ha].
    split; [exact Hd | by apply advances_touched].
  - by apply (Hf (tx_payload t)).
Qed.
Lemma holds_refreshed o t s : holds o t s -> holds o (refreshed t) (refreshed (fst s), snd s).
Proof. intros (<- & ? & ? & ?). done. Qed.
Lemma during_touched q K D f s : steady K -> inert f -> during q K D s ->
  during q K D (touched f (fst s), snd s).
Proof.
  intros (HK & _) Hf (d & t & Hh & Hs & Ht & HD). exists d, (touched f t).
  split; [by apply holds_touched |]. split; [| split; [by apply HK | exact HD]].
  intros Hq. rewrite <-(Hs Hq). apply (Hf (tx_payload t)).
Qed.
Lemma during_refreshed q K D s : steady K -> during q K D s -> during q K D (refreshed (fst s), snd s).
Proof.
  intros (_ & HK & _) (d & t & Hh & Hs & Ht & HD). exists d, (refreshed t).
  split; [by apply holds_refreshed |]. split; [exact Hs | split; [by apply HK | exact HD]].
Qed.

Lemma modify_spec {F} q K D f : steady K -> inert f ->
  triple (during q K D) (eff_fst (modify (F := F) f)) (fun _ => during q K D) good.
Proof. intros HK Hf [tx x] Hs. exact (during_touched q K D f (tx, x) HK Hf Hs). Qed.
Lemma refresh_spec {F} q K D : steady K ->
  triple (during q K D) (eff_fst (refresh (F := F))) (fun _ => during q K D) good.
Proof. intros HK [tx x] Hs. exact (during_refreshed q K D (tx, x) HK Hs). Qed.
Lemma update_spec {F} q K D f : steady K -> inert f ->
  triple (during q K D) (eff_fst (modify (F := F) f ;! refresh)) (fun _ => during q K D) good.
Proof.
  intros HK Hf [tx x] Hs.
  exact (during_refreshed q K D (touched f tx, x) HK (during_touched q K D f (tx, x) HK Hf Hs)).
Qed.
Lemma complete_last_spec q K D h : steady K ->
  triple (during q K D) (eff_fst (complete_last h)) (fun _ => during q K D) good.
Proof.
  intros HK [tx x] Hs. unfold complete_last, eff_bind, eff_get, eff_reject, eff_fst.
  destruct (bool_decide _); simpl; [by eapply during_good |].
  exact (during_refreshed q K D (touched (set_completed h) tx, x) HK
           (during_touched q K D (set_completed h) (tx, x) HK (inert_completed h) Hs)).
Qed.
Lemma transition_spec K D next :
  triple (during true K D) (eff_fst (transition next))
    (fun _ => during false (at_stage next) whatever) good.
Proof.
  intros [tx x] (d & t & (Ht & Hg & [Hd Ha] & Hk) & Hs & _). simpl in Ht. subst tx.
  unfold transition, eff_bind, eff_read, eff_get, eff_reject, eff_fst. simpl.
  destruct (validate_transaction t) as [[]|e]; [| exact Hg].
  destruct (legal_transition_v6 _ next) eqn:El; simpl; [| exact Hg].
  exists d, (staged next t). split; [| split; [done | split; [| done]]].
  - split; [done |]. split; [exact Hg |]. split; [| exact Hk].
    split; [exact Hd |]. apply (advances_staged d t next Ha (Hs eq_refl) El).
  - by apply bool_decide_eq_true.
Qed.
Lemma inspect_spec {A F} P (g : eff State A F) :
  (forall s, fst (g s) = s) -> (forall s, P s -> good s) -> triple P g (fun _ => P) good.
Proof.
  intros Hf Hp s Hs. specialize (Hf s). destruct (g s) as [s' [a|e]]; simpl in Hf; subst; auto.
Qed.
Lemma get_spec {F} P : (forall s, P s -> good s) ->
  triple P (eff_fst (T := Traced B) (eff_get (E := F))) (fun a s => a = fst s /\ P s) good.
Proof. intros Hp [tx x] Hs. by split. Qed.

(** *** Steps on the backend *)

Lemma persisted_holds t ok d tr x :
  good_trace tr -> based (Some d) t tr -> keyless t -> stage_of t <> Restored ->
  tr_events x = Persist t ok :: tr -> good (t, x) /\ (ok = true -> holds (Some t) t (t, x)).
Proof.
  intros Hg Hb Hk Hs Hx.
  assert (Hn : good (t, x)) by (unfold good, events; simpl; rewrite Hx; by eapply good_persist).
  split; [exact Hn |]. intros ->. split; [done |]. split; [exact Hn |]. split; [| exact Hk].
  unfold events; simpl; rewrite Hx. split; [by left | apply advances_refl].
Qed.
Lemma persist_op_spec {F} q K D (f : Tx -> bool) (g : string -> F) : steady K ->
  triple (fun s => during q K D s /\ f (fst s) = true)
    (let! tx := eff_fst eff_get in eff_snd (eff_map_err g (recorded_persist (B := B) tx (persist_transaction tx))))
    (fun _ => during true K (disk (fun t => K t && f t))) good.
Proof.
  intros HK [tx x] [(d & t & (Ht & Hg & Hb & Hk) & _ & HKt & _) Hf]. simpl in Ht, Hf. subst tx.
  unfold eff_bind, eff_fst, eff_get, eff_snd, eff_map_err, recorded_persist.
  destruct (persist_transaction t (tr_inner x)) as [b r]. simpl.
  destruct (persisted_holds t (is_ok r) d (tr_events x)
              (MkTraced (Persist t (is_ok r) :: tr_events x) b) Hg Hb Hk) as [Hn Hok];
    [by apply HK | done |].
  destruct r as [u|e]; [| exact Hn]. exists t, t. split; [by apply Hok |].
  split; [done |]. split; [done |]. simpl. by rewrite HKt, Hf.
Qed.
Lemma fail_transaction_spec {A} q K D primary secondary Q :
  triple (during q K D) (fail_transaction (B := Traced B) (A := A) primary secondary) Q good.
Proof.
  intros [tx x] (d & t & (Ht & Hg & [Hd Ha] & Hk) & _). simpl in Ht. subst tx.
  unfold fail_transaction, eff_bind, eff_fst, eff_snd, eff_get, eff_upd, eff_attempt, eff_err,
    modify, refresh. simpl. unfold recorded_persist.
  destruct (persist_transaction _ (tr_inner x)) as [b r]. simpl.
  eapply (good_persist (Some d)); [exact Hg | | exact Hk | done].
  split; [exact Hd | by apply advances_failed].
Qed.

(** an operation whose event is authorised by what was persisted last *)
Definition allows (D : option Tx -> bool) (e : Event) : Prop :=
  is_persist e = false /\ forall o, D o = true -> authorised m e o = true.
Lemma during_event q K D e tx x b : allows D e ->
  during q K D (tx, x) -> during q K D (tx, MkTraced (e :: tr_events x) b).
Proof.
  intros [Hp Ha] (d & t & (Ht & Hg & Hb & Hk) & Hs & HK & HD). unfold events in *. simpl in *.
  exists d, t. split; [| split; [exact Hs | split; [exact HK |]]].
  - split; [exact Ht |]. split; [by apply good_event; auto |]. split; [| exact Hk].
    by apply based_event.
  - unfold events. simpl. by destruct e.
Qed.
Lemma attempt_spec {A F G} q K D e (g : eff B A F) : allows D e ->
  triple (during q K D) (eff_snd (eff_attempt (F := G) (recorded e g))) (fun _ => during q K D) good.
Proof.
  intros He [tx x] Hs. unfold eff_snd, eff_attempt, recorded.
  destruct (g (tr_inner x)) as [b r]. simpl. by apply during_event.
Qed.
Lemma op_spec {A F G} q K D e (g : eff B A F) (f : F -> G) : allows D e ->
  triple (during q K D) (eff_snd (eff_map_err f (recorded e g))) (fun _ => during q K D) good.
Proof.
  intros He s Hs. pose proof (attempt_spec (G := G) q K D e g He s Hs) as Hq.
  destruct s as [tx x]. unfold eff_snd, eff_map_err, eff_attempt in *.
  destruct (recorded e g x) as [x' [a|err]]; [exact Hq | by eapply during_good].
Qed.
Lemma plain_op_spec {A F} q K D e (g : eff B A F) : allows D e ->
  triple (during q K D) (eff_snd (recorded e g)) (fun _ => during q K D) good.
Proof.
  intros He s Hs. pose proof (op_spec q K D e g (fun x => x) He s Hs) as Hq.
  destruct s as [tx x]. unfold eff_snd, eff_map_err in *.
  by destruct (recorded e g x) as [x' [a|err]].
Qed.
Lemma or_fail_spec {A} q K D e (g : eff B A string) : allows D e ->
  triple (during q K D) (or_fail (recorded e g)) (fun _ => during q K D) good.
Proof.
  intros He. eapply triple_bind; [by apply attempt_spec |].
  intros [a|err]; [by apply triple_ret |]. apply fail_transaction_spec.
Qed.
Lemma error_of_spec q K D e (g : eff B unit string) : allows D e ->
  triple (during q K D) (error_of (recorded e g)) (fun _ => during q K D) good.
Proof.
  intros He. eapply triple_bind; [by apply attempt_spec |]. intros r. by apply triple_ret.
Qed.
Lemma allows_evidence D name : allows D (PersistEvidence name).
Proof. done. Qed.

(** *** The steps of the operations of the library *)

Lemma allows_disk (K : Tx -> bool) e : is_persist e = false ->
  (forall t, K t = true -> authorised m e (Some t) = true) -> allows (disk K) e.
Proof. intros He Ha. split; [exact He |]. intros [t|]; [apply Ha | done]. Qed.
Lemma disk_weaken (K K' : Tx -> bool) q KM s : (forall t, K t = true -> K' t = true) ->
  during q KM (disk K) s -> during q KM (disk K') s.
Proof. intros HK. apply during_weaken; [done |]. intros [t|]; [apply HK | done]. Qed.

Definition is_pending (K : Tx -> bool) (op target : string) (t : Tx) : bool := K t && pending op target t.

Lemma list_last_snoc {A} (l : list A) x : list.last (l ++ [x]) = Some x.
Proof. apply list.last_snoc. Qed.
Lemma pending_announced op target t : pending op target (announced op target t) = true.
Proof.
  unfold pending, records_of, announced. cbn. rewrite list_last_snoc. cbn. by rewrite !String.eqb_refl.
Qed.
Definition with_intent (K : Tx -> bool) (target : string) (t : Tx) : bool := K t && intended target t.
Lemma steady_with_intent K target : steady K -> steady (with_intent K target).
Proof.
  intros (K1 & K2 & K3). unfold with_intent. split; [| split].
  - intros f t Hf [Ht Hi]%andb_true_iff. apply andb_true_iff. split; [by apply K1 |].
    by apply intended_touched.
  - intros h t [Ht Hi]%andb_true_iff. apply andb_true_iff. split; [by apply K2 | exact Hi].
  - intros t [Ht _]%andb_true_iff. by apply K3.
Qed.
Lemma intended_announced op target t : intended target (announced op target t) = true.
Proof.
  unfold intended, records_of, announced, path_mem. cbn. rewrite map_app, existsb_app. cbn.
  by rewrite Tiering.Facts.path_eq_refl, orb_true_r.
Qed.
Lemma record_intent_spec {F} q K D op target : steady K ->
  triple (during q K D) (eff_fst (record_intent (F := F) op target))
    (fun _ s => during q (with_intent K target) D s /\ pending op target (fst s) = true) good.
Proof.
  intros HK [tx x] Hs. split; [| apply (pending_announced op target tx)].
  pose proof (during_refreshed q K D (touched (push_intent op target) tx, x) HK
    (during_touched q K D _ (tx, x) HK (inert_intent op target) Hs)) as (d & t & Hh & Hq & Ht & HD).
  exists d, t. split; [exact Hh |]. split; [exact Hq |]. split; [| exact HD].
  apply andb_true_iff. split; [exact Ht |]. destruct Hh as [<- _].
  apply (intended_announced op target tx).
Qed.
Lemma persist_or_fail_spec q K D : steady K ->
  triple (during q K D) persist_or_fail (fun _ => during true K (disk K)) good.
Proof.
  intros HK. eapply triple_weaken; [apply (persist_op_spec q K D (fun _ => true) _ HK) | done | | done].
  intros u s. apply disk_weaken. by intros t [? _]%andb_true_iff.
Qed.
Lemma intend_kept_spec q K D op target : steady K ->
  triple (during q K D) (intend op target)
    (fun _ => during true (with_intent K target) (disk (is_pending (with_intent K target) op target)))
    good.
Proof.
  intros HK. eapply triple_bind; [by apply record_intent_spec |]. intros ?.
  apply (persist_op_spec q _ D (pending op target) _ (steady_with_intent K target HK)).
Qed.
Lemma with_intent_left K target t : with_intent K target t = true -> K t = true.
Proof. by intros [? _]%andb_true_iff. Qed.
Lemma forget_intent K op target s :
  during true (with_intent K target) (disk (is_pending (with_intent K target) op target)) s ->
  during true K (disk (is_pending K op target)) s.
Proof.
  apply during_weaken; [intros t; apply with_intent_left |]. intros [t|]; [| done].
  unfold is_pending, disk. intros [Ht ?]%andb_true_iff. apply andb_true_iff. split; [| done].
  by eapply with_intent_left.
Qed.
Lemma intend_spec q K D op target : steady K ->
  triple (during q K D) (intend op target) (fun _ => during true K (disk (is_pending K op target))) good.
Proof.
  intros HK. eapply triple_weaken; [by apply intend_kept_spec | done | | done].
  intros u s. apply forget_intent.
Qed.
Lemma enter_spec K D next : next <> Restored ->
  triple (during true K D) (enter next)
    (fun _ => during true (at_stage next) (disk (at_stage next))) good.
Proof.
  intros Hn. eapply triple_bind; [apply transition_spec |]. intros ?.
  by apply persist_or_fail_spec, steady_at.
Qed.
Lemma complete_spec q K D h : steady K ->
  triple (during q K D) (complete h) (fun _ => during true K (disk K)) good.
Proof.
  intros HK. eapply triple_bind; [by apply complete_last_spec |]. intros ?.
  by apply persist_or_fail_spec.
Qed.
Lemma archive_spec q K D name what bytes :
  steady K -> name <> "zram-baseline-evidence-v2.json"%string ->
  triple (during q K D) (archive name what bytes) (fun _ => during q K D) good.
Proof.
  intros HK Hn. eapply triple_bind; [by apply op_spec |]. intros ?.
  by apply modify_spec; [| apply inert_evidence].
Qed.
Lemma fail_unless_spec q K D (c : bool) primary :
  triple (during q K D) (if c then eff_ret tt else fail_transaction (B := Traced B) primary [])
    (fun _ => during q K D) good.
Proof. destruct c; [by apply triple_ret | apply fail_transaction_spec]. Qed.
Lemma fail_if_spec q K D (c : bool) primary :
  triple (during q K D) (if c then fail_transaction (B := Traced B) primary [] else eff_ret tt)
    (fun _ => during q K D) good.
Proof. destruct c; [apply fail_transaction_spec | by apply triple_ret]. Qed.
Lemma remove_artifacts_spec q K D artifacts :
  Forall (fun a => allows D (RemoveArtifact (oa_path a))) artifacts ->
  triple (during q K D) (remove_artifacts artifacts) (fun _ => during q K D) good.
Proof.
  induction 1 as [|a rest Ha Hr IH]; [by apply triple_ret |].
  eapply triple_bind; [by apply error_of_spec |]. intros e.
  eapply triple_bind; [exact IH |]. intros es. by apply triple_ret.
Qed.
Lemma abort_apply_spec {A} q K D created primary secondary Q :
  Forall (fun a => allows D (RemoveArtifact (oa_path a))) created ->
  allows D (RemoveSwapfile (si_path (pm_swapfile (mf_payload m)))) ->
  triple (during q K D) (abort_apply (A := A) m created primary secondary) Q good.
Proof.
  intros Hc Hs. eapply triple_bind; [| intros es; apply fail_transaction_spec].
  eapply triple_bind; [by apply remove_artifacts_spec, Forall_rev |]. intros e.
  eapply triple_bind; [by apply error_of_spec |]. intros es. by apply triple_ret.
Qed.

(** *** The operations of the library *)

Ltac by_pending :=
  let d := fresh "d" in let Hd := fresh "Hd" in let Hp := fresh "Hp" in
  intros d Hd; unfold is_pending in Hd; apply andb_true_iff in Hd; destruct Hd as [Hd Hp];
  try (apply with_intent_left in Hd); try (apply recovering_before_reboot in Hd); simpl in *; rewrite ?Hd, ?Hp, ?String.eqb_refl;
  rewrite ?orb_true_r; done.
Ltac by_stage :=
  let d := fresh "d" in let Hd := fresh "Hd" in intros d Hd; simpl in *; by rewrite ?Hd, ?orb_true_r.
Ltac allowed := apply allows_disk; [done |]; first [by_pending | by_stage].

Lemma pure_read_spec {A F} P (r : result A F) : (forall s, P s -> good s) ->
  triple P (eff_read (S := State) (fun _ => r)) (fun _ => P) good.
Proof. intros Hp. apply inspect_spec; [| done]. intros s. by destruct r. Qed.
Lemma read_backend_spec {A F} P (f : Traced B -> result A F) : (forall s, P s -> good s) ->
  triple P (eff_snd (T := Traced B) (S := Tx) (eff_read f)) (fun _ => P) good.
Proof. intros Hp. apply inspect_spec; [| done]. intros [t x]. unfold eff_snd, eff_read. by destruct (f x). Qed.
Lemma read_tx_spec {A F} P (f : Tx -> result A F) : (forall s, P s -> good s) ->
  triple P (eff_fst (T := Traced B) (eff_read f)) (fun _ => P) good.
Proof. intros Hp. apply inspect_spec; [| done]. intros [t x]. unfold eff_fst, eff_read. by destruct (f t). Qed.
Lemma get_tx_spec {F} P : (forall s, P s -> good s) ->
  triple P (eff_fst (T := Traced B) (eff_get (E := F))) (fun _ => P) good.
Proof. intros Hp. by apply inspect_spec; [intros [] |]. Qed.
Lemma get_backend_spec {F} P : (forall s, P s -> good s) ->
  triple P (eff_snd (T := Traced B) (S := Tx) (eff_get (E := F))) (fun _ => P) good.
Proof. intros Hp. by apply inspect_spec; [intros [] |]. Qed.
Lemma reject_spec {F} P (c : bool) (e : F) : (forall s, P s -> good s) ->
  triple P (eff_reject (S := State) c e) (fun _ => P) good.
Proof. intros Hp. apply inspect_spec; [| done]. intros s. by destruct c. Qed.

Create HintDb trace discriminated.
Hint Resolve pure_read_spec read_backend_spec read_tx_spec get_tx_spec get_backend_spec reject_spec
  fail_unless_spec fail_if_spec during_good : trace.
Hint Resolve steady_at steady_activating steady_with_intent refresh_spec modify_spec update_spec
  complete_last_spec archive_spec persist_or_fail_spec complete_spec enter_spec intend_spec
  inert_intent inert_completed inert_applied_swap inert_summary inert_boot_id inert_parameter
  inert_primary inert_secondary inert_recovery_state inert_evidence : trace.
Hint Extern 1 (_ <> _) => discriminate : trace.

(** one step that keeps the assertion *)
Ltac keep := eapply triple_bind; [solve [eauto with trace] | cbv beta; intros ?].
Ltac fallible := eapply triple_bind; [eapply or_fail_spec; allowed | cbv beta; intros ?].
Ltac decide_if := match goal with |- triple _ (if ?c then _ else _) _ _ => destruct c end.
Ltac ends := eapply triple_post; [solve [eauto with trace] | intros ? ?; apply during_good].

Lemma select_exact_one_shot_spec K D : steady K ->
  triple (during true K D) (select_exact_one_shot_v6 m) (fun _ => good) good.
Proof.
  intros HK. unfold select_exact_one_shot_v6.
  do 6 keep. fallible. do 5 keep. ends.
Qed.
Lemma collect_and_validate_post_boot_spec K D : steady K ->
  triple (during true K D) (collect_and_validate_post_boot_v6 m) (fun _ => good) good.
Proof.
  intros HK. unfold collect_and_validate_post_boot_v6.
  do 5 keep. fallible. do 4 keep.
  apply triple_ret. intros s. apply during_good.
Qed.
Lemma select_baseline_rollback_spec K D : steady K ->
  triple (during true K D) (select_baseline_rollback_v6 m) (fun _ => good) good.
Proof.
  intros HK. unfold select_baseline_rollback_v6.
  do 2 keep. fallible. do 3 keep. ends.
Qed.
Lemma clean_artifacts_spec K D artifacts : K = at_stage Cleaning ->
  triple (during true K D) (clean_artifacts artifacts)
    (fun _ => during true K whatever) good.
Proof.
  intros ->. revert D. induction artifacts as [|a rest IH]; intros D.
  - apply triple_ret. intros s (d & t & ? & ? & ? & _). by exists d, t.
  - keep. fallible. keep. apply IH.
Qed.
Lemma publish_authorities_spec K D :
  triple (during true K D) (publish_authorities m) (fun _ _ => False) good.
Proof.
  eapply triple_bind; [apply get_spec, during_good | intros t].
  intros s [-> Hs]. assert (Hk : keyless (fst s)) by (by destruct Hs as (d & t & (<- & _ & _ & ?) & _)).
  unfold eff_bind at 1, eff_read. rewrite Hk. simpl. by eapply during_good.
Qed.
Lemma steady_unrestored : steady unrestored.
Proof.
  unfold unrestored, at_stage, stage_of. split; [| split].
  - intros f t Hf. cbn. destruct (Hf (tx_payload t)) as (_ & _ & _ & E & _). by rewrite E.
  - done.
  - intros t Ht%negb_true_iff%bool_decide_eq_false. exact Ht.
Qed.
Hint Resolve steady_unrestored : trace.
Lemma during_unrestored q K D s : steady K -> during q K D s -> during q unrestored whatever s.
Proof.
  intros (_ & _ & K3). apply during_weaken; [| done].
  intros t Ht. apply negb_true_iff, bool_decide_eq_false. exact (K3 t Ht).
Qed.
Lemma verify_then_cleanup_spec K D : steady K ->
  triple (during true K D) (verify_then_cleanup_v6 m) (fun _ => good) good.
Proof.
  intros HK. unfold verify_then_cleanup_v6. keep.
  eapply triple_bind with (R := fun _ => during true unrestored whatever).
  { destruct (bool_decide _).
    - eapply triple_weaken; [by apply enter_spec | done | | done].
      intros ? s. by apply during_unrestored, steady_at.
    - apply triple_ret. intros s. by apply during_unrestored. }
  intros ?. do 6 keep.
  eapply triple_bind; [by apply clean_artifacts_spec | cbv beta; intros ?].
  keep. fallible. do 3 keep.
  eapply triple_bind; [eapply or_fail_spec; allowed | cbv beta; intros ?].
  eapply triple_weaken; [apply publish_authorities_spec | done | done | done].
Qed.

(** *** Applying *)

Definition swap_path : string := si_path (pm_swapfile (mf_payload m)).
Definition applying (created : list OwnedArtifactV6) (t : Tx) : bool :=
  at_stage Applying t && intended swap_path t && forallb (fun a => removable m t (oa_path a)) created.
Lemma steady_applying created : steady (applying created).
Proof.
  destruct (steady_at Applying) as (K1 & K2 & K3); [done |]. unfold applying. split; [| split].
  - intros f t Hf. rewrite !andb_true_iff. intros [[Ht Hi] Hc].
    split; [split; [by apply K1 | by apply intended_touched] |].
    rewrite forallb_forall in Hc |- *. intros a Ha. specialize (Hc a Ha).
    unfold removable in *. rewrite orb_true_iff in *. destruct Hc; [left | by right].
    by apply intended_touched.
  - done.
  - intros t [[Ht _]%andb_true_iff _]%andb_true_iff. by apply K3.
Qed.
Hint Resolve steady_applying : trace.

Lemma pending_intended op target t : pending op target t = true -> intended target t = true.
Proof.
  unfold pending, intended, records_of. destruct (list.last _) as [r|] eqn:El; [| done].
  apply list.last_Some in El as [l ->].
  intros [[_ Ht%String.eqb_eq]%andb_true_iff _]%andb_true_iff. subst target.
  unfold path_mem. rewrite map_app, existsb_app. simpl. by rewrite Tiering.Facts.path_eq_refl, orb_true_r.
Qed.
Lemma allows_applying created e :
  (forall t, applying created t = true -> authorised m e (Some t) = true) ->
  is_persist e = false -> allows (disk (applying created)) e.
Proof. intros Ha He. by apply allows_disk. Qed.
Lemma created_removable created (K : Tx -> bool) :
  (forall t, K t = true -> applying created t = true) ->
  Forall (fun a => allows (disk K) (RemoveArtifact (oa_path a))) created /\
  allows (disk K) (RemoveSwapfile swap_path) /\ allows (disk K) SyncParents.
Proof.
  intros HK. unfold applying in HK. repeat split; try done.
  - apply Forall_forall. intros a Ha. apply allows_disk; [done |]. intros t Ht.
    specialize (HK t Ht). rewrite !andb_true_iff in HK. destruct HK as [[H1' _] Hc].
    rewrite forallb_forall in Hc. simpl. by rewrite H1', (Hc a Ha).
  - intros [t|]; [| done]. intros Ht. specialize (HK t Ht). rewrite !andb_true_iff in HK.
    destruct HK as [[H1' H2'] _]. simpl. by rewrite H1', H2'.
  - intros [t|]; [| done]. intros Ht. specialize (HK t Ht). rewrite !andb_true_iff in HK.
    destruct HK as [[H1' _] _]. simpl. by rewrite H1'.
Qed.

Lemma create_swap_step_spec D :
  triple (during true (at_stage Applying) D) (create_swap_step m)
    (fun _ => during true (applying []) (disk (applying []))) good.
Proof.
  assert (Hst : steady (with_intent (at_stage Applying) swap_path)) by auto with trace.
  unfold create_swap_step.
  eapply triple_bind; [by apply intend_kept_spec, steady_at | cbv beta; intros ?].
  eapply triple_bind; [eapply or_fail_spec; allowed | cbv beta; intros swap].
  do 2 keep.
  assert (Hr : allows (disk (with_intent (at_stage Applying) swap_path)) (RemoveSwapfile swap_path)).
  { apply allows_disk; [done |]. intros t [Hs Hi]%andb_true_iff. simpl. by rewrite Hs, Hi. }
  eapply triple_bind with
    (R := fun _ => during true (with_intent (at_stage Applying) swap_path)
                     (disk (with_intent (at_stage Applying) swap_path))).
  { destruct (applied_swap_rejected _ _); [| by apply triple_ret].
    eapply triple_bind; [by apply error_of_spec | intros ?; apply fail_transaction_spec]. }
  intros ?. eapply triple_weaken; [by apply complete_spec | done | | done].
  intros ? s. apply during_weaken; [| intros [t|]; [simpl | done]];
    intros ?; unfold applying, with_intent; simpl; by rewrite andb_true_r.
Qed.

Lemma apply_artifacts_spec artifacts : forall created,
  incl artifacts (pm_owned_artifacts (mf_payload m)) ->
  triple (during true (applying created) (disk (applying created)))
    (apply_artifacts m created artifacts)
    (fun created => during true (applying created) (disk (applying created))) good.
Proof.
  induction artifacts as [|a rest IH]; intros created Hin; simpl.
  { by apply triple_ret. }
  assert (Hrest : incl rest (pm_owned_artifacts (mf_payload m))) by (intros x Hx; apply Hin; by right).
  destruct (bool_decide (oa_kind a = HelperBinary)) eqn:Ek.
  { do 2 keep. by apply IH. }
  set (KI := with_intent (applying created) (oa_path a)).
  assert (HK : steady KI) by (apply steady_with_intent, steady_applying).
  assert (HKI : forall t, is_pending KI "create_new_artifact" (oa_path a) t = true ->
                 applying created t = true) by (intros t [[? _]%andb_true_iff _]%andb_true_iff; done).
  destruct (created_removable created _ HKI) as (Hc & Hs & _).
  eapply triple_bind; [by apply intend_kept_spec, steady_applying | cbv beta; intros ?].
  eapply triple_bind.
  { eapply attempt_spec. apply allows_disk; [done |].
    intros t [[[[Ht _]%andb_true_iff _]%andb_true_iff _]%andb_true_iff Hp]%andb_true_iff.
    simpl. by rewrite Ht, Hp. }
  cbv beta. intros [[]|primary]; [| by apply abort_apply_spec].
  keep.
  eapply triple_bind with
    (R := fun _ => during true KI (disk (is_pending KI "create_new_artifact" (oa_path a)))).
  { decide_if; [by apply triple_ret |].
    eapply triple_bind; [eapply error_of_spec | intros ?; by apply abort_apply_spec].
    apply allows_disk; [done |].
    intros t [[[[Ht _]%andb_true_iff _]%andb_true_iff Hi]%andb_true_iff _]%andb_true_iff.
    simpl. unfold removable. by rewrite Ht, Hi. }
  intros ?.
  assert (Hadd : forall t, KI t = true -> applying (created ++ [a]) t = true).
  { intros t [Ha Hi]%andb_true_iff. unfold applying in *. rewrite forallb_app. simpl.
    apply andb_true_iff in Ha as [-> ->]. unfold removable at 1. by rewrite Hi. }
  eapply triple_bind; [by apply complete_spec | cbv beta; intros ?].
  eapply triple_weaken; [by apply IH | | done | done].
  intros s. apply during_weaken; [exact Hadd | intros [t|]; [apply Hadd | done]].
Qed.

Lemma helpers_removable t artifacts :
  (forall a, In a artifacts -> In a (pm_owned_artifacts (mf_payload m))) ->
  forallb (fun a => removable m t (oa_path a))
    (List.filter (fun a => bool_decide (oa_kind a = HelperBinary)) artifacts) = true.
Proof.
  intros Hin. rewrite forallb_forall. intros a [Ha Hk]%filter_In. apply orb_true_iff. right.
  apply existsb_exists. exists a. split; [by apply Hin |]. by rewrite Hk, String.eqb_refl.
Qed.
Lemma applying_helpers t :
  applying [] t = true ->
  applying (List.filter (fun a => bool_decide (oa_kind a = HelperBinary))
              (pm_owned_artifacts (mf_payload m))) t = true.
Proof. unfold applying. by rewrite helpers_removable. Qed.

Lemma apply_exact_transaction_spec K D : steady K ->
  triple (during true K D) (apply_exact_transaction_v6 m) (fun _ => good) good.
Proof.
  intros HK. unfold apply_exact_transaction_v6.
  do 5 keep.
  eapply triple_bind; [apply create_swap_step_spec | cbv beta; intros ?].
  eapply triple_bind.
  { eapply triple_weaken; [apply apply_artifacts_spec, incl_refl | | done | done].
    intros s. apply during_weaken; [| intros [t|]; [| done]]; apply applying_helpers. }
  cbv beta. intros created.
  destruct (created_removable created (applying created)) as (Hc & Hs & Hsync); [done |].
  eapply triple_bind; [by eapply attempt_spec |].
  cbv beta. intros [[]|primary]; [| by apply abort_apply_spec].
  keep.
  eapply triple_bind with (R := fun _ => during true (applying created) (disk (applying created))).
  { decide_if; [by apply triple_ret | by apply abort_apply_spec]. }
  intros ?. do 3 keep. ends.
Qed.

(** *** Measuring the baseline *)

Lemma fresh_holds preflight_tx b : keyless preflight_tx ->
  stage_of preflight_tx <> Restored -> holds None preflight_tx (preflight_tx, MkTraced [] b).
Proof. intros Hk Hs. split; [done |]. split; [by repeat split; constructor |]. by split; [constructor |]. Qed.
Lemma first_op_spec {A F G} t e (g : eff B A F) (f : F -> G) :
  is_persist e = false -> authorised m e None = true ->
  triple (holds None t) (eff_snd (eff_map_err f (recorded e g))) (fun _ => holds None t) good.
Proof.
  intros Hp Ha [tx x] (Ht & Hg & Hb & Hk). unfold eff_snd, eff_map_err, recorded.
  assert (Hl : last_persisted (events (tx, x)) = None).
  { clear -Hb. simpl in Hb. induction Hb as [|e' l He Hl IH]; [done |]. by rewrite last_event. }
  unfold events in Hl. simpl in Hl.
  destruct (g (tr_inner x)) as [b r]. simpl.
  assert (Hn : good_trace (e :: tr_events x)) by (apply good_event; [done | done | by rewrite Hl]).
  destruct r; [| exact Hn]. split; [exact Ht |]. split; [exact Hn |]. split; [by constructor | done].
Qed.
Lemma first_persist_spec t : stage_of t <> Restored ->
  triple (holds None t) persist_or_fail
    (fun _ => during true unrestored whatever) good.
Proof.
  intros Hs [tx x] (Ht & Hg & Hb & Hk). simpl in Ht. subst tx.
  unfold persist_or_fail, or_readback, eff_bind, eff_fst, eff_get, eff_snd, eff_map_err. simpl.
  unfold recorded_persist. destruct (persist_transaction t (tr_inner x)) as [b r]. simpl.
  assert (Hn : good_trace (Persist t (is_ok r) :: tr_events x)) by (by eapply (good_persist None)).
  destruct r as [u|e]; [| exact Hn]. exists t, t. split; [| split; [done | split; [| done]]].
  - split; [done |]. split; [exact Hn |]. split; [| done]. split; [by left | apply advances_refl].
  - by apply negb_true_iff, bool_decide_eq_false.
Qed.
Lemma initialize_body_spec preflight t : stage_of t <> Restored ->
  triple (holds None t) (initialize_body m preflight) (fun _ => good) good.
Proof.
  intros Hs. unfold initialize_body.
  eapply triple_bind; [by apply first_op_spec | cbv beta; intros ?].
  eapply triple_bind; [by apply first_op_spec | cbv beta; intros ?].
  eapply triple_bind; [by apply first_persist_spec | cbv beta; intros ?].
  do 4 keep. fallible. do 4 keep. fallible. do 4 keep. ends.
Qed.

(** *** The activation and [recover] *)

Lemma on_tx_spec {A} P (g : eff Tx A BootValidationV6Error) (Q : A -> State -> Prop) X :
  triple P (eff_fst g) Q X -> triple P (on_tx g) Q X.
Proof.
  intros Ht [tx x] Hs. specialize (Ht _ Hs). unfold on_tx, eff_fst, eff_map_err in *.
  by destruct (g tx) as [tx' [a|e]].
Qed.
Lemma persist_pending_spec q K D (f : Tx -> bool) : steady K ->
  triple (fun s => during q K D s /\ f (fst s) = true) persist
    (fun _ => during true K (disk (fun t => K t && f t))) good.
Proof.
  intros HK s Hs. pose proof (persist_op_spec q K D f (fun x => x) HK s Hs) as Hq.
  destruct s as [tx x]. unfold persist, eff_bind, eff_fst, eff_get, eff_snd, eff_map_err in *. simpl in *.
  by destruct (recorded_persist tx (persist_transaction tx) x) as [x' [a|e]].
Qed.
Lemma persist_spec q K D : steady K ->
  triple (during q K D) persist (fun _ => during true K (disk K)) good.
Proof.
  intros HK. eapply triple_weaken; [apply (persist_pending_spec q K D (fun _ => true) HK) | done | | done].
  intros u s. apply disk_weaken. by intros t [? _]%andb_true_iff.
Qed.
Lemma announce_spec q K D op target : steady K ->
  triple (during q K D) (announce op target) (fun _ => during true K (disk (is_pending K op target))) good.
Proof.
  intros HK. eapply triple_bind; [by apply record_intent_spec |]. intros u.
  eapply triple_weaken;
    [apply (persist_pending_spec q _ D (pending op target) (steady_with_intent K target HK)) | done
    | | done].
  intros v s. apply forget_intent.
Qed.
Lemma complete_on_tx_spec q K D h : steady K ->
  triple (during q K D) (on_tx (complete_last h)) (fun _ => during q K D) good.
Proof. intros HK. by apply on_tx_spec, complete_last_spec. Qed.
Lemma finish_spec q K D h : steady K ->
  triple (during q K D) (finish h) (fun _ => during true K (disk K)) good.
Proof.
  intros HK. eapply triple_bind; [by apply complete_on_tx_spec |]. intros u. by apply persist_spec.
Qed.
Lemma go_to_spec K D next : next <> Restored ->
  triple (during true K D) (go_to next) (fun _ => during true (at_stage next) (disk (at_stage next))) good.
Proof.
  intros Hn. eapply triple_bind; [apply on_tx_spec, transition_spec |]. intros u.
  by apply persist_spec, steady_at.
Qed.
Hint Resolve complete_on_tx_spec announce_spec finish_spec go_to_spec persist_spec : trace.

Lemma during_whatever q K D s : during q K D s -> during q K whatever s.
Proof. by apply during_weaken. Qed.
Lemma ret_spec {A F} q K D (a : A) :
  triple (during q K D) (eff_ret (E := F) a) (fun _ => during q K whatever) good.
Proof. apply triple_ret. intros s. apply during_whatever. Qed.
Hint Resolve ret_spec : trace.
Ltac try_op := eapply triple_bind; [eapply attempt_spec; allowed | cbv beta; intros [?|?]].
Ltac ends_free := eapply triple_post; [solve [eauto with trace] | intros ? ?; apply during_whatever].

Lemma undo_spec D operation target evidence e (g : eff B unit string) :
  allows (disk (is_pending activating operation target)) e ->
  triple (during true activating D) (undo operation target evidence (recorded e g))
    (fun _ => during true activating whatever) good.
Proof.
  intros He. unfold undo. keep.
  eapply triple_bind; [by eapply attempt_spec |]. cbv beta. intros [u|error]; [keep |]; eauto with trace.
Qed.
Lemma undo_parameters_spec parameters : forall D,
  triple (during true activating D) (undo_parameters parameters)
    (fun _ => during true activating whatever) good.
Proof.
  induction parameters as [|[name value] rest IH]; intros D; [apply ret_spec |].
  eapply triple_bind with (R := fun _ => during true activating whatever).
  - decide_if; [by eauto with trace |]. keep. try_op; [| by eauto with trace].
    keep. decide_if; [keep |]; eauto with trace.
  - intros errors. eapply triple_bind; [apply IH |]. cbv beta. eauto with trace.
Qed.
Lemma undo_zswap_spec D :
  triple (during true activating D) (undo_zswap m) (fun _ => during true activating whatever) good.
Proof.
  unfold undo_zswap. keep. try_op; [keep | by eauto with trace].
  eapply triple_bind; [apply undo_parameters_spec | cbv beta; intros errors].
  eapply triple_bind; [eapply undo_spec; allowed | cbv beta; intros more]. eauto with trace.
Qed.
Lemma select_after_failure_spec D :
  triple (during true activating D) (select_after_failure m)
    (fun _ => during true activating whatever) good.
Proof.
  unfold select_after_failure. keep. try_op; [keep | by eauto with trace].
  decide_if; [keep |]; eauto with trace.
Qed.
Lemma activation_failure_spec {A} D primary Q :
  triple (during true activating D) (activation_failure (A := A) m primary) Q good.
Proof.
  unfold activation_failure. do 2 keep.
  eapply triple_bind with (R := fun _ => during true activating whatever).
  { decide_if; [eapply undo_spec; allowed | by eauto with trace]. }
  intros first.
  eapply triple_bind; [apply undo_zswap_spec | cbv beta; intros second].
  eapply triple_bind; [apply select_after_failure_spec | cbv beta; intros third].
  do 2 keep. apply triple_err. intros s. apply during_good.
Qed.
Lemma or_activation_failure_spec D e (g : eff B unit string) : allows D e ->
  triple (during true activating D) (or_activation_failure m (recorded e g))
    (fun _ => during true activating D) good.
Proof.
  intros He. eapply triple_bind; [by apply attempt_spec |].
  intros [u|primary]; [by apply triple_ret | apply activation_failure_spec].
Qed.
Lemma failure_unless_spec D (c : bool) primary :
  triple (during true activating D) (if c then eff_ret tt else activation_failure m primary)
    (fun _ => during true activating D) good.
Proof. destruct c; [by apply triple_ret | apply activation_failure_spec]. Qed.
Lemma readback_spec D message ok :
  triple (during true activating D) (readback m message ok) (fun _ => during true activating D) good.
Proof. unfold readback. keep. apply failure_unless_spec. Qed.
Lemma activating_at s t : In s [ZswapDisabling; ZswapParametersApplying; ZswapEnabling; SwapActivating] ->
  at_stage s t = true -> activating t = true.
Proof. intros Hs Ht. apply existsb_exists. by exists s. Qed.
Lemma start_activating_spec K D s :
  In s [ZswapDisabling; ZswapParametersApplying; ZswapEnabling; SwapActivating] ->
  triple (during true K D) (on_tx (transition s)) (fun _ => during false activating whatever) good.
Proof.
  intros Hs. eapply triple_weaken; [apply on_tx_spec, transition_spec | done | | done].
  intros u x. apply during_weaken; [| done]. intros t. by apply activating_at.
Qed.
Hint Resolve failure_unless_spec readback_spec : trace.
Ltac risky := eapply triple_bind; [eapply or_activation_failure_spec; allowed | cbv beta; intros ?].
Ltac activates := eapply triple_bind; [apply start_activating_spec; simpl; tauto | cbv beta; intros ?].

Lemma write_parameters_spec parameters : forall D,
  triple (during true activating D) (write_parameters m parameters)
    (fun _ => during true activating whatever) good.
Proof.
  induction parameters as [|[name value] rest IH]; intros D; [apply ret_spec |].
  eapply triple_bind with (R := fun _ => during true activating whatever); [| intros u; apply IH].
  decide_if; [by eauto with trace |]. keep. risky. do 4 keep. ends_free.
Qed.
Lemma activate_zswap_spec K D : 
  triple (during true K D) (activate_zswap m) (fun _ => during true activating whatever) good.
Proof.
  unfold activate_zswap. activates. keep. risky. do 3 keep.
  eapply triple_bind.
  { eapply triple_weaken; [apply (write_parameters_spec _ whatever) | | done | done].
    intros s. apply during_weaken; [| done]. intros t. apply activating_at. simpl. tauto. }
  cbv beta. intros u. activates. keep. risky. keep. ends_free.
Qed.
Lemma activate_swap_spec D applied :
  triple (during true activating D) (activate_swap m applied) (fun _ => good) good.
Proof.
  unfold activate_swap. activates. keep. risky. do 4 keep.
  eapply triple_bind; [by apply plain_op_spec | cbv beta; intros u].
  keep. ends.
Qed.
Lemma experimental_activate_spec K D : steady K ->
  triple (during true K D) (experimental_activate m) (fun _ => good) good.
Proof.
  intros HK. unfold experimental_activate. do 2 keep.
  destruct (_ : SwapIdentityV6 * string) as [applied boot_id].
  do 3 keep.
  eapply triple_bind; [apply activate_zswap_spec | cbv beta; intros u]. apply activate_swap_spec.
Qed.

Ltac performs := eapply triple_bind; [eapply plain_op_spec; allowed | cbv beta; intros ?].
Hint Resolve steady_recovering : trace.

Lemma clear_one_shot_spec D :
  triple (during true recovering D) (clear_one_shot m) (fun _ => during true recovering whatever) good.
Proof. unfold clear_one_shot. do 3 keep. performs. do 2 keep. ends_free. Qed.
Lemma recover_artifacts_spec artifacts : forall D,
  triple (during true recovering D) (recover_artifacts artifacts)
    (fun _ => during true recovering whatever) good.
Proof.
  induction artifacts as [|a rest IH]; intros D; [apply ret_spec |].
  eapply triple_bind; [by apply read_backend_spec, during_good | cbv beta; intros matches].
  eapply triple_bind with (R := fun _ => during true recovering whatever); [| intros u; apply IH].
  decide_if; [| apply ret_spec]. keep. performs. ends_free.
Qed.
Lemma recover_owned_spec D :
  triple (during true recovering D) (recover_owned m) (fun _ => good) good.
Proof.
  unfold recover_owned.
  eapply triple_bind; [apply recover_artifacts_spec | cbv beta; intros ?].
  keep. performs. keep. performs.
  eapply triple_bind; [apply on_tx_spec, transition_spec | cbv beta; intros ?].
  do 3 keep.
  eapply triple_bind; [by apply plain_op_spec | cbv beta; intros ?].
  do 3 keep.
  eapply triple_post; [eapply plain_op_spec; allowed | intros ? ?; apply during_good].
Qed.
Lemma before_reboot_action t experimental :
  contains_str ["remove_exact_owned_before_reboot"; "clear_exact_owned_oneshot_then_remove"]
    (recovery_action_v6 (recovery_stage t) experimental) = true -> before_reboot t = true.
Proof. unfold before_reboot. by destruct (recovery_stage t), experimental. Qed.
Lemma recover_spec D idempotence :
  triple (during true unrestored D) (recover m idempotence) (fun _ => good) good.
Proof.
  unfold recover.
  eapply triple_bind; [apply get_spec, during_good | cbv beta; intros t].
  assert (Hg : forall s, t = fst s /\ during true unrestored D s -> good s)
    by (intros s [_ ?]; by eapply during_good).
  eapply triple_bind; [by apply read_backend_spec | cbv beta; intros experimental].
  destruct (String.eqb _ "no_op").
  { destruct idempotence; [| by apply triple_ret].
    eapply triple_post; [by apply read_backend_spec | intros ? s; apply Hg]. }
  destruct (String.eqb _ "select_exact_baseline_oneshot_preserve_artifacts").
  { apply triple_map_err. eapply triple_weaken;
      [by apply (select_baseline_rollback_spec unrestored D), steady_unrestored | by intros s [_ ?] | done
      | done]. }
  destruct (contains_str ["verify_baseline_preserve_artifacts"%string; _] _).
  { apply triple_map_err. eapply triple_weaken;
      [by apply (verify_then_cleanup_spec unrestored D), steady_unrestored | by intros s [_ ?] | done
      | done]. }
  destruct (contains_str _ _) eqn:Ea; [| by apply triple_err].
  apply before_reboot_action in Ea.
  apply triple_weaken with (P' := during true recovering whatever) (Q' := fun _ => good) (X' := good);
    [| | done | done].
  - keep. eapply triple_bind with (R := fun _ => during true recovering whatever).
    + destruct (String.eqb _ _); [apply clear_one_shot_spec | apply ret_spec].
    + intros ?. apply recover_owned_spec.
  - intros s [-> (d & t' & Hh & Hs & Ht & _)]. exists d, t'. split; [exact Hh |].
    split; [exact Hs |]. split; [| done]. destruct Hh as [Ht' _]. rewrite Ht' in Ea.
    by apply andb_true_iff.
Qed.

Lemma run_command_spec D c :
  triple (during true unrestored D) (run_command m c) (fun _ => good) good.
Proof.
  destruct c; simpl; [| | | | | | apply recover_spec].
  all: try (apply triple_map_err).
  - apply apply_exact_transaction_spec, steady_unrestored.
  - apply select_exact_one_shot_spec, steady_unrestored.
  - apply experimental_activate_spec, steady_unrestored.
  - eapply triple_bind; [apply collect_and_validate_post_boot_spec, steady_unrestored |].
    intros o. by apply triple_ret.
  - apply select_baseline_rollback_spec, steady_unrestored.
  - apply verify_then_cleanup_spec, steady_unrestored.
Qed.

(** *** Sessions *)

Lemma triple_outcome {S A F} (P : S -> Prop) (g : eff S A F) (X : S -> Prop) s :
  triple P g (fun _ => X) X -> P s -> X (fst (g s)).
Proof. intros Ht Hs. specialize (Ht s Hs). by destruct (g s) as [s' [a|e]]. Qed.
Lemma good_suffix tr tr' : tr `suffix_of` tr' -> good_trace tr' -> good_trace tr.
Proof.
  intros [l ->]. induction l as [|e l IH]; [done |]. intros (Hd & Hc & Hu). apply IH. simpl in *.
  split; [by apply Hd |]. split; [by destruct e; try apply Hc | by inversion Hu].
Qed.
Lemma on_disk_unrestored tr t : Forall unrestored_event tr -> on_disk tr t ->
  keyless t /\ stage_of t <> Restored.
Proof.
  induction 1 as [|e tr He Htr IH]; [done |].
  destruct e; simpl; try exact IH. intros [->|[_ Hd]]; [exact He | by apply IH].
Qed.
Lemma initialize_good preflight boot_id b :
  good_trace (tr_events (fst (initialize_and_measure_baseline_v6 m preflight boot_id (MkTraced [] b)))).
Proof.
  assert (Hn : good_trace []) by (by repeat split; constructor).
  unfold initialize_and_measure_baseline_v6, eff_bind, eff_read.
  destruct (validate_preflight_v6 _ _ _); [| exact Hn].
  destruct (tx_new m boot_id) as [t|e] eqn:Et; [| exact Hn].
  assert (Hk : keyless t /\ stage_of t = Prepared).
  { unfold tx_new in Et. destruct (validate_manifest m); [| done]. injection Et as <-. by split. }
  destruct Hk as [Hk Hs].
  assert (Hs' : stage_of t <> Restored) by congruence.
  pose proof (triple_outcome _ _ _ _ (initialize_body_spec preflight t Hs')
                (fresh_holds t b Hk Hs')) as Hg.
  by destruct (initialize_body m preflight (t, MkTraced [] b)) as [[t' x] r].
Qed.
Lemma session_good tr : session m tr -> good_trace tr.
Proof.
  induction 1 as [preflight boot_id b tr Hsuf | c b t tr0 tr Hs IH Hd H0' Hsuf].
  - eapply good_suffix; [exact Hsuf | apply initialize_good].
  - eapply good_suffix; [exact Hsuf |].
    pose proof IH as (_ & _ & Hu). destruct (on_disk_unrestored _ _ Hu Hd) as [Hk Hst].
    apply (triple_outcome _ _ _ (t, MkTraced tr0 b) (run_command_spec whatever c)).
    exists t, t. split; [| split; [done | split; [| done]]].
    + split; [done |]. split; [exact IH |]. split; [| exact Hk]. split; [exact Hd | apply advances_refl].
    + by apply negb_true_iff, bool_decide_eq_false.
Qed.
End Rules.
End Facts.

(** ** Theorems *)
Module Theorems.
Section Theorems.
Context `{Codec} {B : Type} `{BootLifecycleBackendV6 B} `{BootSystem B}.
Context (m : Manifest).

(** C1: in every session - whatever commands are run, in whatever order, on whatever host,
    and wherever one is cut short by a crash or a failure - each change of the host is
    authorised by the transaction that was persisted last: that transaction is in the stage
    of the change and its last record announces exactly this change and is not completed, a
    rollback of the application removes only what was announced before it, the boot entry
    that is selected is the experimental or the baseline one as the stage says, and nothing
    changes the host while the last persistence has failed. *)
Theorem session_write_ahead newer e older (Hsession : session m (newer ++ e :: older)) :
  authorised m e (last_persisted older) = true.
Proof.
  apply Facts.session_good in Hsession.
  apply (Facts.good_suffix m (e :: older)) in Hsession; [apply Hsession | by exists newer].
Qed.

(** C5: in every session each transaction that is persisted, but the first, continues one
    that may be on the disk: it belongs to the same validation, manifest and baseline boot,
    keeps every record with its target and boot id and never reopens a completed one, and
    is in the same stage or in one that a legal transition leads to. *)
Theorem session_chained newer t ok older (Hsession : session m (newer ++ Persist t ok :: older)) :
  (exists e, In e older /\ is_persist e = true) ->
  exists t0, on_disk older t0 /\ same_identity t0 t /\ extends (records_of t0) (records_of t) /\
             (stage_of t = stage_of t0 \/ legal_transition_v6 (stage_of t0) (stage_of t) = true).
Proof.
  intros (e & He & Hp). apply Facts.session_good in Hsession.
  apply (Facts.good_suffix m (Persist t ok :: older)) in Hsession; [| by exists newer].
  destruct Hsession as (_ & [[Hnone|(t0 & Hd & Ha)] _] & _); [| by exists t0].
  rewrite Forall_forall in Hnone. by rewrite (Hnone e He) in Hp.
Qed.

(** C19: no session ever persists a restored transaction, and only recovered ones are
    sealed: the cleanup looks for the evidence of the baseline under a name under which
    nothing is archived, after it has deleted everything. *)
Theorem session_never_restored newer e older (Hsession : session m (newer ++ e :: older)) :
  (forall t ok, e = Persist t ok ->
     stage_of t <> Restored /\
     dp_evidence_hashes (tx_payload t) !! "zram-baseline-evidence-v2.json"%string = None) /\
  (e = SealArchive -> exists t, last_persisted older = Some t /\ stage_of t = Recovered).
Proof.
  apply Facts.session_good in Hsession.
  apply (Facts.good_suffix m (e :: older)) in Hsession; [| by exists newer].
  destruct Hsession as ([Ha _] & _ & Hu). split.
  - intros t ok ->. apply Forall_cons_iff in Hu as [[? ?] _]. by split.
  - intros ->. destruct (last_persisted older) as [t|] eqn:El; [| done]. exists t. split; [done |].
    apply Forall_cons_iff in Hu as [_ Hu].
    destruct (Facts.on_disk_unrestored _ _ Hu (Facts.last_persisted_on_disk _ _ El)) as [_ Hn].
    simpl in Ha. unfold at_stage in Ha.
    apply orb_true_iff in Ha as [Ha%bool_decide_eq_true|Ha%bool_decide_eq_true]; done.
Qed.
End Theorems.
End Theorems.

(** ** Witnesses *)
Module Witnesses.
#[local] Existing Instance BootContract.Sample.codec.
#[local] Existing Instance BootTransaction.Sample.simulated.
#[local] Existing Instance BootLifecycle.Sample.host.
Import BootTransaction.Sample.
Abbreviation manifest := BootContract.Sample.manifest.

Definition baseline_trace : list Event :=
  tr_events (fst (initialize_and_measure_baseline_v6 manifest BootContract.Sample.preflight "boot-1"
                    (MkTraced [] fresh))).
Definition applied_trace : list Event :=
  tr_events (snd (fst (run_command manifest CApply
                         (fst after_baseline, MkTraced baseline_trace (snd after_baseline))))).
(** the trace from the last event of a kind on *)
Fixpoint since (f : Event -> bool) (tr : list Event) : list Event :=
  match tr with
  | [] => []
  | e :: tr' => if f e then tr else since f tr'
  end.
Lemma since_suffix f tr : since f tr `suffix_of` tr.
Proof.
  induction tr as [|e tr IH]; simpl; [done |]. destruct (f e); [done |].
  by apply suffix_cons_r.
Qed.
Definition creates (e : Event) : bool := match e with CreateSwapfile _ => true | _ => false end.
Definition swapfile_trace : list Event := since creates applied_trace.

Lemma baseline_session : session manifest baseline_trace.
Proof. by apply (session_start _ BootContract.Sample.preflight "boot-1" fresh). Qed.
Lemma applied_session tr : tr `suffix_of` applied_trace -> baseline_trace `suffix_of` tr ->
  session manifest tr.
Proof.
  intros Hsuf Hbase.
  apply (session_command _ CApply (snd after_baseline) (fst after_baseline) baseline_trace);
    [exact baseline_session | | exact Hbase | exact Hsuf].
  apply Facts.last_persisted_on_disk. vm_compute. reflexivity.
Qed.
Lemma swapfile_session : session manifest swapfile_trace.
Proof.
  apply applied_session; [apply since_suffix |].
  exists (firstn (length swapfile_trace - length baseline_trace) swapfile_trace).
  vm_compute. reflexivity.
Qed.

(** the swapfile of a session that applies the manifest *)
Lemma session_write_ahead_witness :
  exists path older, swapfile_trace = CreateSwapfile path :: older /\
    authorised manifest (CreateSwapfile path) (last_persisted older) = true.
Proof.
  exists (si_path BootContract.Sample.swapfile), (tail swapfile_trace).
  assert (He : swapfile_trace
               = CreateSwapfile (si_path BootContract.Sample.swapfile) :: tail swapfile_trace)
    by (vm_compute; reflexivity).
  split; [exact He |].
  pose proof swapfile_session as Hs. rewrite He in Hs.
  exact (Theorems.session_write_ahead manifest [] _ _ Hs).
Defined.
(** the last transaction that the measurement of the baseline persists, which continues
    an earlier one, and is not restored *)
Lemma baseline_persisted :
  session manifest ([] ++ Persist (fst after_baseline) true :: tail baseline_trace).
Proof.
  assert (He : baseline_trace = Persist (fst after_baseline) true :: tail baseline_trace)
    by (vm_compute; reflexivity).
  pose proof baseline_session as Hs. rewrite He in Hs. exact Hs.
Qed.
Lemma session_chained_witness :
  exists t0, on_disk (tail baseline_trace) t0 /\
             extends (records_of t0) (records_of (fst after_baseline)).
Proof.
  destruct (Theorems.session_chained manifest [] _ _ _ baseline_persisted) as (t0 & Hd & _ & Hx & _).
  - apply existsb_exists. vm_compute. reflexivity.
  - exists t0. split; [exact Hd | exact Hx].
Defined.
Lemma session_never_restored_witness :
  stage_of (fst after_baseline) = BaselineMeasured /\ stage_of (fst after_baseline) <> Restored.
Proof.
  split; [vm_compute; reflexivity |].
  apply (proj1 (Theorems.session_never_restored manifest [] _ _ baseline_persisted) _ _ eq_refl).
Defined.
End Witnesses.
