(* ===== verification/Privileged.v ===== *)
(** crates/test-support/src/bin/nemor-privileged-validation.rs, the rules of the privileged
    validation: which checks a verdict needs, how a captured trace becomes windows, what may
    be a target, the pages of the KSM workload and its accounting. What reads and writes the
    host is in [PrivilegedHost]. Bytes are [Z]s; a text is taken to be valid UTF-8. *)

From S2P Require Import Prelude F64 Text Config Classifier Policy Damon Damos Ksm.

Definition PREFIX : string := "nemor-validation-".
Definition REPORT_PATH : string := "/tmp/nemor-privileged-validation-report.json".
Definition STATE_DIR : string := "/tmp/nemor-privileged-validation".

Definition DAMON_REQUIRED_GATES : list string :=
  ["capability"; "available_operations"; "vaddr_selected"; "attrs_readback"; "target_identity";
   "synthetic_workload_ready"; "target_regions_readback"; "base_page_backing_verified";
   "zero_damos_before_start"; "trace_instance_isolated"; "final_trace_instance_ready";
   "kdamond_started"; "aggregated_trace_bytes_received"; "damon_payloads_parsed";
   "trace_clock_compatible"; "timestamp_values_parsed"; "timestamp_correlation_valid";
   "raw_regions_present"; "synthetic_workload_active"; "post_run_fingerprint";
   "hot_cold_evidence"; "warm_evidence"; "overhead_budget"; "dataset_jsonl"; "dataset_csv";
   "kdamond_stopped"; "cleanup"; "recovery"; "recovery_idempotent"; "host_unchanged"]%string.
Definition DAMOS_REQUIRED_GATES : list string :=
  ["capability"; "vaddr_pageout_supported"; "synthetic_workload_ready";
   "base_page_backing_verified"; "stable_target_identity"; "pagemap_range_evidence";
   "stable_cold_evidence"; "gaming_foreground_protection"; "policy_decision_recorded";
   "plan_audited"; "quota_within_ceiling"; "quota_reset_after_session";
   "snapshot_ceiling_allows_eligibility"; "quota_readback"; "cold_address_fence";
   "cold_address_filter_semantics_verified"; "shadow_config_readback";
   "shadow_candidate_evidence"; "shadow_first_eligibility"; "shadow_session_passed";
   "shadow_hot_overlap_zero"; "shadow_warm_overlap_zero"; "shadow_cleanup";
   "live_session_independent"; "live_config_readback"; "live_candidate_evidence";
   "live_snapshot_ceiling"; "pageout_action_readback"; "kdamond_started"; "kdamond_stopped";
   "damos_stats_present"; "sz_applied_positive"; "reclaim_effect_observed"; "quota_respected";
   "hard_byte_ceiling_respected"; "hot_not_reclaimed"; "warm_not_reclaimed";
   "control_slowdown_within_budget"; "zero_oom"; "scheme_removed"; "refault_content_valid";
   "refault_detected"; "blacklist_created"; "blacklist_blocks_next_plan"; "cleanup"; "recovery";
   "recovery_idempotent"; "host_unchanged"]%string.
Definition KSM_REQUIRED_GATES : list string :=
  ["capability"; "isolated_baseline"; "advisor_none"; "baseline_scanner_preserved";
   "owned_targets_ready_unmergeable"; "audit_before_mergeable"; "exact_mergeable_scope_verified";
   "external_rechecks"; "scanner_started"; "scanner_ownership_preserved"; "scanner_progress";
   "minimum_saved_bytes"; "positive_system_profit"; "positive_process_profit"; "cpu_budget";
   "scanner_stopped"; "owned_content_intact"; "owned_mergeability_absent_final"; "cleanup";
   "configuration_restored"; "host_unchanged"]%string.
Definition KSM_INEFFICIENT_REQUIRED_GATES : list string :=
  ["capability"; "isolated_baseline"; "advisor_none"; "baseline_scanner_preserved";
   "owned_targets_ready_unmergeable"; "audit_before_mergeable"; "exact_mergeable_scope_verified";
   "external_rechecks"; "scanner_started"; "scanner_ownership_preserved"; "scanner_progress";
   "sufficient_inefficiency_evidence"; "controller_inefficient_transition";
   "controller_auto_disable"; "scanner_stopped"; "cooldown_entered"; "cooldown_rejects_next_plan";
   "cpu_budget"; "owned_content_intact"; "owned_mergeability_absent_final"; "cleanup";
   "configuration_restored"; "host_unchanged"]%string.

(** ** The command line *)

Inductive Scope :=
| ScopePreflight | ScopeCgroups | ScopeZram | ScopeTiering | ScopeDamon | ScopeDamos | ScopeKsm
| ScopeKsmInefficient | ScopeAll.
Inductive KsmScenario := Positive | Inefficient.
#[export] Instance KsmScenario_eq_dec : EqDecision KsmScenario.
Proof. solve_decision. Defined.
Inductive InternalWorker :=
| CgroupCrash | ZramCrash | NemorValidationSleeper | DamonTarget | DamonCrash | KsmTarget.

Record Cli := {
  cl_build_git_head : bool;
  cl_preflight : bool;
  cl_cgroups : bool;
  cl_zram : bool;
  cl_tiering : bool;
  cl_damon : bool;
  cl_damos : bool;
  cl_ksm : bool;
  cl_ksm_inefficient : bool;
  cl_all : bool;
  cl_cleanup_owned_residue : bool;
  cl_ksm_bootstrap_preflight : bool;
  cl_internal_worker : option InternalWorker;
  cl_external_target_descriptor : option string;
  cl_external_target_transaction_id : option string;
  cl_external_target_session_id : option string;
  cl_external_target_nonce : option string;
  cl_external_target_creator_pid : option Z;
  cl_external_target_creator_start_ticks : option Z;
  cl_report_path : option string;
  cl_report_root : option string
}.

Definition scope (self : Cli) : result Scope string :=
  reject (is_some (cl_internal_worker self) || cl_ksm_bootstrap_preflight self)
    "internal worker has no public validation scope"%string ;?
  reject (is_some (cl_external_target_descriptor self) && negb (cl_damos self))
    "external target validation is restricted to --damos"%string ;?
  let selected :=
    [(cl_preflight self, ScopePreflight); (cl_cgroups self, ScopeCgroups);
     (cl_zram self, ScopeZram); (cl_tiering self, ScopeTiering); (cl_damon self, ScopeDamon);
     (cl_damos self, ScopeDamos); (cl_ksm self, ScopeKsm);
     (cl_ksm_inefficient self, ScopeKsmInefficient); (cl_all self, ScopeAll)] in
  match omap (fun es => then_some (fst es) (snd es)) selected with
  | [scope] => Ok scope
  | _ => Err "select exactly one of --preflight, --cgroups, --zram, --tiering, --damon, --damos, --ksm, --ksm-inefficient, or --all"%string
  end.

(** ** Checks and verdicts *)

Inductive GateState := NotEvaluated | Pass | Fail.
#[export] Instance GateState_eq_dec : EqDecision GateState.
Proof. solve_decision. Defined.
Record Check_ := {
  ck_name : string;
  ck_passed : bool;
  ck_state : GateState;
  ck_detail : string
}.

Definition check (name : string) (passed : bool) (detail : string) : Check_ :=
  {| ck_name := name; ck_passed := passed; ck_state := if passed then Pass else Fail;
     ck_detail := detail |}.
Definition set_check (checks : list Check_) (authoritative : Check_) : list Check_ :=
  List.filter (fun item => negb (String.eqb (ck_name item) (ck_name authoritative))) checks
  ++ [authoritative].
(** the closure of [retain], with the names it has inserted *)
Fixpoint retain_new (names : gset string) (checks : list Check_) : list Check_ :=
  match checks with
  | [] => []
  | item :: rest =>
      if bool_decide (ck_name item ∈ names) then retain_new names rest
      else item :: retain_new ({[ck_name item]} ∪ names) rest
  end.
Definition deduplicate_checks (checks : list Check_) : list Check_ :=
  rev (retain_new ∅ (rev checks)).

Definition has_check (p : Check_ -> bool) (checks : list Check_) (name : string) : bool :=
  existsb (fun item => String.eqb (ck_name item) name && p item) checks.
Definition required_checks_pass (checks : list Check_) (required : list string) : bool :=
  forallb (has_check ck_passed checks) required.
(** of [DamonEvidence] what this reads *)
Definition damon_required_gates (zero_damos : bool) (checks : list Check_) : bool :=
  zero_damos && forallb (has_check ck_passed checks) DAMON_REQUIRED_GATES.

Definition not_reached (detail name : string) : Check_ :=
  {| ck_name := name; ck_passed := false; ck_state := NotEvaluated; ck_detail := detail |}.
(** the loop over the required gates *)
Fixpoint fill_gates (detail : string) (required : list string) (checks : list Check_) : list Check_ :=
  match required with
  | [] => checks
  | name :: rest =>
      fill_gates detail rest
        (if has_check (fun _ => true) checks name then checks
         else checks ++ [not_reached detail name])
  end.
Definition fill_damos_not_evaluated_gates (checks : list Check_) : list Check_ :=
  fill_gates "not reached after earlier validation abort" DAMOS_REQUIRED_GATES checks.
Definition fill_ksm_not_evaluated_gates (checks : list Check_) (required_gates : list string) :
    list Check_ :=
  fill_gates "not reached after earlier KSM validation abort" required_gates checks.

(** the verdict in [KsmEvidence] and in [DamosEvidence], and their checks *)
Record Verdict := {
  vd_checks : list Check_;
  vd_required_gates_passed : bool;
  vd_failure_class : option string;
  vd_failure_reason : option string
}.

Definition gates_failed (failed : Check_ -> bool) (checks : list Check_) (required : list string) :
    string :=
  ("mandatory_gates_failed:" ++ join "," (List.filter (has_check failed checks) required))%string.
Definition ensure_damos_failure_taxonomy (evidence : Verdict) : Verdict :=
  {| vd_checks := vd_checks evidence;
     vd_required_gates_passed := vd_required_gates_passed evidence;
     vd_failure_class := Some (unwrap_or (vd_failure_class evidence) "validation_failure"%string);
     vd_failure_reason := Some (unwrap_or (vd_failure_reason evidence)
       (gates_failed (fun item => bool_decide (ck_state item = Fail)) (vd_checks evidence)
          DAMOS_REQUIRED_GATES)) |}.

Definition ksm_failure (evidence : Verdict) (reason detail : string) : Verdict * string :=
  let class :=
    if contains_str ["insufficient_saved_bytes"; "non_positive_system_profit";
                     "non_positive_process_profit"; "scanner_no_progress"] reason
    then "profitability_failure"
    else if String.eqb reason "cpu_budget_exceeded" then "performance_failure"
    else if contains_str ["unexpected_positive_gain"; "insufficient_scan_evidence";
                          "controller_did_not_disable"; "cooldown_not_entered";
                          "cooldown_rejection_missing"] reason
    then "inefficient_validation_failure"
    else if String.eqb reason "cleanup_failure" then "cleanup_failure"
    else if String.eqb reason "recovery_failure" then "recovery_failure"
    else if contains_str ["external_ksm_interference"; "scanner_ownership_lost"] reason
    then "ownership_failure"
    else if contains_str ["base_page_backing_not_verified"; "owned_range_not_page_aligned"] reason
    then "workload_setup_failure"
    else "safety_failure" in
  ({| vd_checks := vd_checks evidence;
      vd_required_gates_passed := vd_required_gates_passed evidence;
      vd_failure_class := Some class; vd_failure_reason := Some reason |},
   reason ++ ": " ++ detail)%string.

Record KsmAuthoritativeOutcome := {
  ko_success : bool;
  ko_error : option string;
  ko_exit_code : Z
}.
Definition required_gates (scenario : KsmScenario) : list string :=
  if bool_decide (scenario = Inefficient) then KSM_INEFFICIENT_REQUIRED_GATES else KSM_REQUIRED_GATES.
Definition finalize_ksm_outcome (evidence : Verdict) (scenario : KsmScenario) :
    Verdict * KsmAuthoritativeOutcome :=
  let required := required_gates scenario in
  let checks := fill_ksm_not_evaluated_gates (deduplicate_checks (vd_checks evidence)) required in
  let passed := required_checks_pass checks required in
  let success := passed && is_none (vd_failure_class evidence)
                 && is_none (vd_failure_reason evidence) in
  let class := if success then vd_failure_class evidence
               else Some (unwrap_or (vd_failure_class evidence) "validation_failure"%string) in
  let reason := if success then vd_failure_reason evidence
                else Some (unwrap_or (vd_failure_reason evidence)
                             (gates_failed (fun c => negb (bool_decide (ck_state c = Pass))) checks
                                required)) in
  ({| vd_checks := checks; vd_required_gates_passed := passed; vd_failure_class := class;
      vd_failure_reason := reason |},
   {| ko_success := success;
      ko_error := if success then None
                  else Some ("ksm: " ++ unwrap_or reason
                               "authoritative KSM validation failure")%string;
      ko_exit_code := if success then 0 else 1 |}).

(** ** Captured traces *)

Inductive UserspaceClock := Monotonic | MonotonicRaw | Boottime.
#[export] Instance UserspaceClock_eq_dec : EqDecision UserspaceClock.
Proof. solve_decision. Defined.
Definition report_name (self : UserspaceClock) : string :=
  match self with
  | Monotonic => "CLOCK_MONOTONIC"
  | MonotonicRaw => "CLOCK_MONOTONIC_RAW"
  | Boottime => "CLOCK_BOOTTIME"
  end.
Record TraceClockPlan := {
  tp_available : list string;
  tp_requested : string;
  tp_effective : string;
  tp_userspace_clock : UserspaceClock;
  tp_readback : bool
}.

Inductive ValidationFailureClass :=
| NoFailure | SafetyFailure | InstrumentationFailure | SignalFailure | OverheadFailure
| DatasetFailure.

Record TraceCaptureDiagnostic := {
  td_session_id : string;
  td_instance_path : string;
  td_event_enable : bool;
  td_tracing_on : bool;
  td_capture_worker_ready : bool;
  td_trace_bytes_read : Z;
  td_trace_lines_read : Z;
  td_damon_event_lines_seen : Z;
  td_damon_events_parsed : Z;
  td_timestamp_values_parsed : Z;
  td_parse_failures : Z;
  td_timestamp_failures : Z;
  td_incomplete_lines : Z;
  td_bytes_after_kdamond_stop : Z;
  td_available_trace_clocks : list string;
  td_requested_trace_clock : option string;
  td_effective_trace_clock : option string;
  td_userspace_clock : option string;
  td_trace_clock_readback : bool;
  td_timestamp_correlation_valid : bool;
  td_trace_events_total : Z;
  td_trace_events_in_monitoring_window : Z;
  td_trace_events_outside_monitoring_window : Z;
  td_trace_events_unmatched : Z;
  td_trace_timestamp_min : option Z;
  td_trace_timestamp_max : option Z;
  td_workload_monitoring_start_monotonic : option Z;
  td_workload_monitoring_end_monotonic : option Z;
  td_raw_first : list string;
  td_raw_last : list string
}.
Record DamosTraceDiagnostic := {
  dt_available : bool;
  dt_instance_path : string;
  dt_trace_clock : option string;
  dt_userspace_clock : option string;
  dt_trace_clock_readback : bool;
  dt_event_enable_readback : bool;
  dt_tracing_on_readback : bool;
  dt_capture_worker_ready : bool;
  dt_trace_bytes_read : Z;
  dt_trace_lines_read : Z;
  dt_event_lines_seen : Z;
  dt_events_parsed : Z;
  dt_parse_failures : Z;
  dt_timestamp_failures : Z;
  dt_bytes_after_stop : Z;
  dt_raw_first : list string;
  dt_raw_last : list string
}.
Record CapturedEvent := {
  ce_timestamp_ns : option Z;
  ce_region : TraceRegion
}.

Definition classify_capture (diagnostic : TraceCaptureDiagnostic) : ValidationFailureClass :=
  if (td_trace_bytes_read diagnostic =? 0) || (td_damon_event_lines_seen diagnostic =? 0)
     || (td_damon_events_parsed diagnostic =? 0) || (0 <? td_parse_failures diagnostic)
     || (0 <? td_timestamp_failures diagnostic) || negb (td_trace_clock_readback diagnostic)
     || negb (td_timestamp_correlation_valid diagnostic)
  then InstrumentationFailure else NoFailure.

Definition sessions_are_independent (probes : list string) (final_session : string) : bool :=
  negb (str_empty final_session)
  && forallb (fun probe => negb (String.eqb probe final_session)) probes
  && Nat.eqb (size (list_to_set probes : gset string)) (length probes).

(** of [DamonCapability] what this changes *)
Definition record_validated_operation (capability : list string * bool) (operation : string) :
    list string * bool :=
  let '(available_operations, vaddr_supported) := capability in
  (if existsb (String.eqb operation) available_operations then available_operations
   else available_operations ++ [operation],
   vaddr_supported || String.eqb operation "vaddr").

(** [seconds.fraction], both digits *)
Definition timestamp_token (token : string) : bool :=
  is_some_and (split_once "." token) (fun '(seconds, fraction) =>
    negb (str_empty seconds) && negb (str_empty fraction)
    && str_all is_digit seconds && str_all is_digit fraction).
Definition byte_of (c : ascii) : Z := Z.of_nat (nat_of_ascii c).
(** the fold over the first digits and the loop that pads to nine *)
Definition nanoseconds_of (fraction : string) : Z :=
  let digits := firstn 9 (String.list_ascii_of_string fraction) in
  foldl (fun value digit => value * 10 + Z.max (byte_of digit - 48) 0) 0 digits
  * 10 ^ (9 - Z.of_nat (length digits)).
Definition parse_u128 : string -> option Z := parse_unsigned 10 u128_max digit_val.
Definition trace_timestamp_ns_for (line marker : string) : option Z :=
  '(prefix, _) ← split_once marker line;
  token ← find_first timestamp_token (map (trim_end_char ":") (rev (split_whitespace prefix)));
  '(seconds, fraction) ← split_once "." token;
  seconds ← parse_u128 seconds;
  Some ((seconds * 1000000000 + nanoseconds_of fraction) mod 2 ^ 128).
Definition trace_timestamp_ns (line : string) : option Z :=
  trace_timestamp_ns_for line "damon_aggregated:".

(** the loop over the regions with their time stamps *)
Fixpoint timed_loop (regions : list (Z * TraceRegion)) (current : list TraceRegion)
    (expected end_ns : Z) (windows : list (Z * list TraceRegion)) : list (Z * list TraceRegion) :=
  match regions with
  | [] => windows
  | (timestamp, region) :: rest =>
      let '(expected, end_ns) :=
        if bool_decide (current = []) then (tg_nr_regions region, timestamp)
        else (expected, end_ns) in
      let '(current, expected, end_ns) :=
        if (expected =? 0) || negb (tg_nr_regions region =? expected)
        then ([], tg_nr_regions region, timestamp) else (current, expected, end_ns) in
      let current := current ++ [region] in
      let end_ns := Z.max end_ns timestamp in
      if Z.of_nat (length current) =? expected
      then timed_loop rest [] 0 end_ns (windows ++ [(end_ns, current)])
      else timed_loop rest current expected end_ns windows
  end.
Definition group_timed_aggregation_windows (regions : list (Z * TraceRegion)) :
    list (Z * list TraceRegion) :=
  timed_loop regions [] 0 0 [].

(** ** The workload beside the trace *)

Record WorkloadProgress := {
  wp_hot_cycles : Z;
  wp_warm_cycles : Z;
  wp_hot_pages_touched : Z;
  wp_warm_pages_touched : Z;
  wp_cold_cycles : Z;
  wp_workload_started_ns : Z;
  wp_workload_stopped_ns : Z;
  wp_hot_fingerprint : Z;
  wp_warm_fingerprint : Z;
  wp_cold_fingerprint : Z
}.
Record WorkloadWindowProgress := {
  ww_window_index : Z;
  ww_start_ns : Z;
  ww_end_ns : Z;
  ww_hot_cycles_delta : Z;
  ww_warm_cycles_delta : Z;
  ww_hot_pages_touched_delta : Z;
  ww_warm_pages_touched_delta : Z
}.
Record AlignedWindowDiagnostic := {
  aw_window_index : Z;
  aw_start_uptime_ns : Z;
  aw_end_uptime_ns : Z;
  aw_partial : bool;
  aw_hot_cycles_delta : Z;
  aw_warm_cycles_delta : Z;
  aw_hot_pages_touched_delta : Z;
  aw_warm_pages_touched_delta : Z;
  aw_overlap_duration_ns : Z;
  aw_alignment_method : string;
  aw_alignment_estimated : bool
}.

(** the closure over a pair, and [windows(2).enumerate()] *)
Definition progress_between (index : Z) (first second : Z * WorkloadProgress) :
    WorkloadWindowProgress :=
  let delta counter := u64_sat_sub (counter (snd second)) (counter (snd first)) in
  {| ww_window_index := index; ww_start_ns := fst first; ww_end_ns := fst second;
     ww_hot_cycles_delta := delta wp_hot_cycles; ww_warm_cycles_delta := delta wp_warm_cycles;
     ww_hot_pages_touched_delta := delta wp_hot_pages_touched;
     ww_warm_pages_touched_delta := delta wp_warm_pages_touched |}.
Fixpoint window_progress_from (index : Z) (points : list (Z * WorkloadProgress)) :
    list WorkloadWindowProgress :=
  match points with
  | first :: ((second :: _) as rest) =>
      progress_between index first second :: window_progress_from (index + 1) rest
  | _ => []
  end.
Definition workload_window_progress (progress_points : list (Z * WorkloadProgress)) :
    list WorkloadWindowProgress :=
  window_progress_from 0 progress_points.

(** [f64::round] and the cast to [u64], which saturates *)
Definition round_to_u64 (x : f64) : Z :=
  match x with
  | SpecFloat.S754_finite false m e =>
      Z.min u64_max
        (if 0 <=? e then Zpos m * 2 ^ e else (2 * Zpos m + 2 ^ (- e)) / 2 ^ (- e + 1))
  | SpecFloat.S754_infinity false => u64_max
  | _ => 0
  end.
Definition u128_sat_add (a b : Z) : Z := Z.min (a + b) u128_max.
(** the overlap of a point's interval with the window *)
Definition overlap_ns (window_start_ns window_end_ns : Z) (point : WorkloadWindowProgress) : Z :=
  u64_sat_sub (Z.min (ww_end_ns point) window_end_ns) (Z.max (ww_start_ns point) window_start_ns).
Definition prorate_step (window_start_ns window_end_ns : Z)
    (counter : WorkloadWindowProgress -> Z) (acc : f64 * Z) (point : WorkloadWindowProgress) :
    f64 * Z :=
  let interval_ns := u64_sat_sub (ww_end_ns point) (ww_start_ns point) in
  let overlap := overlap_ns window_start_ns window_end_ns point in
  if (interval_ns =? 0) || (overlap =? 0) then acc
  else (f64_add (fst acc)
          (f64_div (f64_mul (f64_of_Z (counter point)) (f64_of_Z overlap)) (f64_of_Z interval_ns)),
        u128_sat_add (snd acc) overlap).
Definition prorated_counter_delta (progress : list WorkloadWindowProgress)
    (window_start_ns window_end_ns : Z) (counter : WorkloadWindowProgress -> Z) : Z * Z :=
  let '(estimated, total_overlap) :=
    foldl (prorate_step window_start_ns window_end_ns counter) (f64_zero, 0) progress in
  (round_to_u64 estimated, total_overlap).

(** the closure over the windows, [aggr_ns] long, that end at [end_ns] *)
Definition align_window (aggr_ns monitoring_start_ns monitoring_end_ns : Z)
    (progress : list WorkloadWindowProgress) (index : nat)
    (window : Z * list TraceRegion) : AlignedWindowDiagnostic :=
  let end_ns := fst window in
  let start_ns := u64_sat_sub end_ns aggr_ns in
  let delta counter := fst (prorated_counter_delta progress start_ns end_ns counter) in
  {| aw_window_index := Z.of_nat index;
     aw_start_uptime_ns := Z.min start_ns u64_max;
     aw_end_uptime_ns := Z.min end_ns u64_max;
     aw_partial := (start_ns <? monitoring_start_ns) || (monitoring_end_ns <? end_ns);
     aw_hot_cycles_delta := delta ww_hot_cycles_delta;
     aw_warm_cycles_delta := delta ww_warm_cycles_delta;
     aw_hot_pages_touched_delta := delta ww_hot_pages_touched_delta;
     aw_warm_pages_touched_delta := delta ww_warm_pages_touched_delta;
     aw_overlap_duration_ns :=
       snd (prorated_counter_delta progress start_ns end_ns ww_hot_cycles_delta);
     aw_alignment_method := "interval_overlap_prorated";
     aw_alignment_estimated := true |}.
Definition align_complete_windows (timed_windows : list (Z * list TraceRegion))
    (aggr_us monitoring_start_ns monitoring_end_ns : Z)
    (progress : list WorkloadWindowProgress) :
    list AlignedWindowDiagnostic * list (list TraceRegion) :=
  let alignment :=
    imap (align_window (aggr_us * 1000) monitoring_start_ns monitoring_end_ns progress)
      timed_windows in
  (alignment,
   omap (fun aw => then_some (negb (aw_partial (fst aw))) (snd (snd aw)))
     (zip alignment timed_windows)).

Definition LIFECYCLE : list string :=
  ["t0_child_spawn"; "t1_allocations_complete"; "t2_workers_ready"; "t3_parent_received_ready";
   "t4_trace_capture_ready"; "t5_damon_configured"; "t6_kdamond_started";
   "t7_workload_start_sent"; "t8_monitoring_window_end"; "t9_kdamond_stopped";
   "t10_workload_stop_sent"]%string.
(** [windows(2).all(p)] *)
Fixpoint all_pairs {A} (p : A -> A -> bool) (l : list A) : bool :=
  match l with
  | x :: ((y :: _) as l') => p x y && all_pairs p l'
  | _ => true
  end.
Definition synthetic_lifecycle_order_valid (timeline : gmap string Z) : bool :=
  all_pairs (fun a b =>
    is_some_and (timeline !! a) (fun left =>
      is_some_and (timeline !! b) (fun right => (0 <? left) && (left <=? right)))) LIFECYCLE.

Definition tried_regions_lifecycle (timestamps : gmap string Z) : option TriedRegionsLifecycle :=
  stale_clear ← timestamps !! "clear_stale_tried_regions"%string;
  arm ← timestamps !! "request_arm_tried_regions"%string;
  observed ← timestamps !! "apply_interval_observation_start"%string;
  read ← timestamps !! "tried_regions_read"%string;
  final_clear ← timestamps !! "final_clear_tried_regions"%string;
  Some {| tl_stale_clear_ns := stale_clear; tl_arm_ns := arm;
          tl_observed_interval_start_ns := observed; tl_read_ns := read;
          tl_final_clear_ns := final_clear |}.

(** [trim_matches(['[', ']'])] *)
Definition is_bracket (c : ascii) : bool := Ascii.eqb c "[" || Ascii.eqb c "]".
Fixpoint trim_start_brackets (s : string) : string :=
  match s with
  | String c s' => if is_bracket c then trim_start_brackets s' else s
  | EmptyString => EmptyString
  end.
Fixpoint trim_end_brackets (s : string) : string :=
  match s with
  | EmptyString => EmptyString
  | String c s' =>
      match trim_end_brackets s' with
      | EmptyString => if is_bracket c then EmptyString else String c EmptyString
      | r => String c r
      end
  end.
Definition parse_trace_clocks (value : string) : result (list string * string) string :=
  let available := map (fun item => trim_end_brackets (trim_start_brackets item))
                     (split_whitespace value) in
  let? effective :=
    ok_or (find_map (fun item => strip_prefix "[" item ≫= strip_suffix "]")
             (split_whitespace value)) "trace clock selection unavailable"%string in
  Ok (available, effective).
Definition choose_trace_clock (available : list string) : result (string * UserspaceClock) string :=
  ok_or (find_first (fun nc => contains_str available (fst nc))
           [("mono", Monotonic); ("mono_raw", MonotonicRaw); ("boot", Boottime)]%string)
    "no trace clock directly correlatable with userspace"%string.

(** ** Ranges and targets *)

(** [{:x}] *)
Definition hex_char (d : Z) : ascii :=
  ascii_of_nat (Z.to_nat (if d <? 10 then 48 + d else 87 + d)).
Fixpoint show_hex_fuel (fuel : nat) (n : Z) (acc : string) : string :=
  match fuel with
  | O => acc
  | S fuel' =>
      let acc := String (hex_char (n mod 16)) acc in
      if n / 16 =? 0 then acc else show_hex_fuel fuel' (n / 16) acc
  end.
Definition show_hex (n : Z) : string := show_hex_fuel (S (Z.to_nat (Z.log2 n))) n "".

(** the values of the map, in the order of the keys *)
Definition ordered_values {A} (m : gmap string A) : list A :=
  map snd (sort_by (fun a b => String.leb (fst a) (fst b)) (map_to_list m)).
Definition with_shared_group (group : string) (zone : ZoneBacking) : ZoneBacking :=
  {| zb_start := zb_start zone; zb_end := zb_end zone;
     zb_range_size_bytes := zb_range_size_bytes zone; zb_size_kib := zb_size_kib zone;
     zb_containing_vma_size_kib := zb_containing_vma_size_kib zone; zb_rss_kib := zb_rss_kib zone;
     zb_pss_kib := zb_pss_kib zone; zb_swap_kib := zb_swap_kib zone;
     zb_kernel_page_size_kib := zb_kernel_page_size_kib zone;
     zb_mmu_page_size_kib := zb_mmu_page_size_kib zone;
     zb_anon_huge_pages_kib := zb_anon_huge_pages_kib zone; zb_thp_eligible := zb_thp_eligible zone;
     zb_vm_flags := zb_vm_flags zone; zb_backing := zb_backing zone;
     zb_containing_vma_start := zb_containing_vma_start zone;
     zb_containing_vma_end := zb_containing_vma_end zone;
     zb_shared_vma := true; zb_shared_vma_group := Some group;
     zb_explicit_nohugepage_requested := zb_explicit_nohugepage_requested zone;
     zb_explicit_nohugepage_verified := zb_explicit_nohugepage_verified zone |}.
Definition mark_shared_vma_group (backing : gmap string ZoneBacking) :
    gmap string ZoneBacking * bool :=
  match head (ordered_values backing) with
  | None => (backing, false)
  | Some first =>
      let start := zb_containing_vma_start first in
      let stop := zb_containing_vma_end first in
      let shared :=
        Nat.ltb 1 (size backing) && is_some start && is_some stop
        && forallb (fun zone => bool_decide (zb_containing_vma_start zone = start)
                                && bool_decide (zb_containing_vma_end zone = stop))
             (ordered_values backing) in
      (if shared
       then with_shared_group (show_hex (unwrap_or start 0) ++ "-" ++ show_hex (unwrap_or stop 0))
              <$> backing
       else backing, shared)
  end.

Definition protected_eligibility (pid start_ticks : Z) (cold : Damon.AddressRange) :
    Damos.EligibilityInput :=
  {| el_identity := Some {| st_pid := pid; st_start_ticks := start_ticks;
                            st_stable_key := "synthetic:" ++ show_uint start_ticks;
                            st_owned := true |};
     el_identity_fresh := true; el_background := true; el_foreground := false;
     el_gaming := false; el_critical := false; el_protected := false;
     el_known_classification := true; el_pressure := Pressure;
     el_cold_observations :=
       replicate 3 {| co_complete := true; co_nr_accesses := 0; co_age := 3; co_range := cold |};
     el_valid_age_evidence := true; el_recent_refault := false; el_blacklisted := false;
     el_safety_conflict := false |}.

Inductive CandidateKind := Child | CandidateUnknown | CandidateCritical | CandidateGame.
#[export] Instance CandidateKind_eq_dec : EqDecision CandidateKind.
Proof. solve_decision. Defined.
Definition authorize_candidate (registered : gmap Z (string * Z)) (pid : Z) (identity : string)
    (start_ticks : Z) (kind : CandidateKind) : result unit string :=
  let? expected := ok_or (registered !! pid) "PID was not created by this harness"%string in
  reject (negb (String.eqb identity (fst expected))) "identity mismatch"%string ;?
  reject (negb (start_ticks =? snd expected)) "start_ticks mismatch"%string ;?
  reject (negb (bool_decide (kind = Child)))
    "unknown, critical, protected, and game candidates are rejected"%string.

Definition fixed_identity : string := join "" (replicate 64 "a"%string).
(** the cases and the checks made of them *)
Definition safety_checks (valid_identity : string) (pid start : Z) : list Check_ :=
  let registered : gmap Z (string * Z) := {[pid := (fixed_identity, start)]} in
  let next_pid := u32_sat_add pid 1 in
  let cases : list (string * Z * string * Z * CandidateKind) :=
    [("pid_not_registered", next_pid, fixed_identity, start, Child);
     ("identity_mismatch", pid, join "" (replicate 64 "b"), start, Child);
     ("start_ticks_mismatch", pid, fixed_identity, u64_sat_add start 1, Child);
     ("unknown_rejected", pid, fixed_identity, start, CandidateUnknown);
     ("critical_without_allowlist", pid, fixed_identity, start, CandidateCritical);
     ("game_without_allowlist", pid, fixed_identity, start, CandidateGame)]%string in
  map (fun '(name, case_pid, identity, ticks, kind) =>
         check name (negb (is_ok (authorize_candidate registered case_pid identity ticks kind)))
           "fail-closed before mutation") cases
  ++ [check "registered_child_allowlisted"
        (is_ok (authorize_candidate registered pid valid_identity start Child))
        ("pid=" ++ show_uint pid)].

Definition require_new_test_zram_name (name : string) (baseline_names : gset string) :
    result unit string :=
  reject (String.eqb name "zram0" || bool_decide (name ∈ baseline_names)
          || negb (is_some_and (strip_prefix "zram" name) (fun suffix =>
                     negb (str_empty suffix) && str_all is_digit suffix)))
    "hot-added device is protected, pre-existing, or non-canonical"%string.
Definition select_algorithm (available : list string) : result string string :=
  ok_or (find_first (contains_str available) ["zstd"; "lz4"; "lzo-rle"; "lzo"]%string)
    "no bounded validation algorithm is supported"%string.

(** ** The pages of the KSM workload *)

Definition rotate_left (value k : Z) : Z :=
  Z.lor (u64_wrap (Z.shiftl value k)) (Z.shiftr value (64 - k)).
Definition splitmix64 (value : Z) : Z :=
  let value := u64_wrap (value + 0x9e3779b97f4a7c15) in
  let value := u64_wrap (Z.lxor value (Z.shiftr value 30) * 0xbf58476d1ce4e5b9) in
  let value := u64_wrap (Z.lxor value (Z.shiftr value 27) * 0x94d049bb133111eb) in
  Z.lxor value (Z.shiftr value 31).
(** the loop over the bytes of the session *)
Fixpoint session_seed (seed : Z) (session : string) : Z :=
  match session with
  | EmptyString => seed
  | String byte rest =>
      session_seed (u64_wrap (Z.lxor seed (byte_of byte) * 0x100000001b3)) rest
  end.
Definition page_seed (session : string) (child_id page_index : Z) : Z :=
  let seed := session_seed 0xcbf29ce484222325 session in
  let seed := Z.lxor seed (rotate_left child_id 17) in
  Z.lxor seed (u64_wrap (page_index * 0x9e3779b97f4a7c15)).
Definition to_le_bytes (value : Z) : list Z :=
  map (fun i => Z.land (Z.shiftr value (8 * Z.of_nat i)) 255) (seq 0 8).
(** [chunks_mut(8)]: the last chunk takes what it has room for *)
Fixpoint fill_chunks (seed : Z) (word_index length : nat) (fuel : nat) : list Z :=
  match fuel with
  | O => []
  | S fuel' =>
      if Nat.eqb length 0 then []
      else firstn length (to_le_bytes (splitmix64 (Z.lxor seed (Z.of_nat word_index))))
           ++ fill_chunks seed (S word_index) (length - 8) fuel'
  end.
Definition fill_unique_ksm_page (length : nat) (session : string) (child_id page_index : Z) :
    list Z :=
  fill_chunks (page_seed session child_id page_index) 0 length length.
Definition ksm_page_digest (page : list Z) : Z :=
  foldl (fun hash byte => u64_wrap (Z.lxor hash byte * 0x100000001b3)) 0xcbf29ce484222325 page.

(** ** The targets of KSM *)

Record WorkerAdviceResult := {
  wa_requested : bool;
  wa_succeeded : bool;
  wa_error : option string;
  wa_raw_os_error : option Z
}.
(** of an error of [madvise], its text and its number *)
Definition worker_advice_result (result : result unit (string * option Z)) : WorkerAdviceResult :=
  match result with
  | Ok _ => {| wa_requested := true; wa_succeeded := true; wa_error := None; wa_raw_os_error := None |}
  | Err (text, number) =>
      {| wa_requested := true; wa_succeeded := false; wa_error := Some text;
         wa_raw_os_error := number |}
  end.
Record KsmTargetMetadata := {
  kt_pid : Z;
  kt_start_ticks : option Z;
  kt_duplicate : Z * Z;
  kt_control : Z * Z;
  kt_duplicate_bytes : Z;
  kt_control_bytes : Z;
  kt_duplicate_fingerprint : Z;
  kt_control_fingerprint : Z;
  kt_state : string;
  kt_host_page_size : Z;
  kt_duplicate_nohugepage : WorkerAdviceResult;
  kt_control_nohugepage : WorkerAdviceResult;
  kt_duplicate_prefault_completed : bool;
  kt_control_prefault_completed : bool;
  kt_workload_kind : string;
  kt_duplicate_page_hashes : list Z
}.
(** [duplicate_page_hashes.truncate(16)] *)
Definition bounded_target (target : KsmTargetMetadata) : KsmTargetMetadata :=
  {| kt_pid := kt_pid target; kt_start_ticks := kt_start_ticks target;
     kt_duplicate := kt_duplicate target; kt_control := kt_control target;
     kt_duplicate_bytes := kt_duplicate_bytes target; kt_control_bytes := kt_control_bytes target;
     kt_duplicate_fingerprint := kt_duplicate_fingerprint target;
     kt_control_fingerprint := kt_control_fingerprint target; kt_state := kt_state target;
     kt_host_page_size := kt_host_page_size target;
     kt_duplicate_nohugepage := kt_duplicate_nohugepage target;
     kt_control_nohugepage := kt_control_nohugepage target;
     kt_duplicate_prefault_completed := kt_duplicate_prefault_completed target;
     kt_control_prefault_completed := kt_control_prefault_completed target;
     kt_workload_kind := kt_workload_kind target;
     kt_duplicate_page_hashes := firstn 16 (kt_duplicate_page_hashes target) |}.
Record KsmBootstrapEvidence := {
  kb_child_id : Z;
  kb_pid : option Z;
  kb_start_ticks : option Z;
  kb_protocol_state : option string;
  kb_target : option KsmTargetMetadata;
  kb_duplicate_scope : option BasePageScopeEvidence;
  kb_control_scope : option BasePageScopeEvidence;
  kb_duplicate_base_page_verified : bool;
  kb_control_base_page_verified : bool;
  kb_fingerprints_present : bool;
  kb_failure_reason : option string;
  kb_child_exit : option string
}.
Definition scope_of (smaps : string) (page_size : Z) (range : Z * Z) : BasePageScopeEvidence :=
  verify_base_page_scope smaps {| kr_start := fst range; kr_end := snd range |} page_size true.
(** [{:?}] of an optional text without characters that are escaped *)
Definition debug_text (o : option string) : string :=
  match o with
  | Some s => "Some(" ++ String "034" s ++ String "034" ")"
  | None => "None"
  end%string.
Definition bootstrap_reasons (target : KsmTargetMetadata) (duplicate control : BasePageScopeEvidence) :
    list string :=
  let advice name (result : WorkerAdviceResult) :=
    if wa_succeeded result then [] else [name ++ "_nohugepage=" ++ debug_text (wa_error result)]%string in
  (if String.eqb (kt_state target) "ready_unmergeable" then []
   else ["protocol_state=" ++ kt_state target])%string
  ++ advice "duplicate"%string (kt_duplicate_nohugepage target)
  ++ advice "control"%string (kt_control_nohugepage target)
  ++ map (fun reason => "duplicate:" ++ reason)%string (bp_failure_reasons duplicate)
  ++ map (fun reason => "control:" ++ reason)%string (bp_failure_reasons control).
(** [collect_ksm_bootstrap_evidence], of the text of smaps it reads *)
Definition bootstrap_evidence (child_id : Z) (target : KsmTargetMetadata) (smaps : string) :
    KsmBootstrapEvidence :=
  let duplicate := scope_of smaps (kt_host_page_size target) (kt_duplicate target) in
  let control := scope_of smaps (kt_host_page_size target) (kt_control target) in
  let reasons := bootstrap_reasons target duplicate control in
  {| kb_child_id := child_id; kb_pid := Some (kt_pid target); kb_start_ticks := kt_start_ticks target;
     kb_protocol_state := Some (kt_state target); kb_target := Some (bounded_target target);
     kb_duplicate_scope := Some duplicate; kb_control_scope := Some control;
     kb_duplicate_base_page_verified :=
       wa_succeeded (kt_duplicate_nohugepage target) && kt_duplicate_prefault_completed target
       && bp_passed duplicate;
     kb_control_base_page_verified :=
       wa_succeeded (kt_control_nohugepage target) && kt_control_prefault_completed target
       && bp_passed control;
     kb_fingerprints_present :=
       kt_duplicate_prefault_completed target && kt_control_prefault_completed target;
     kb_failure_reason := if bool_decide (reasons = []) then None else Some (join "; " reasons);
     kb_child_exit := None |}.
(** the conjunction with which the bootstrap preflight ends, the exits of the children apart *)
Definition bootstrap_item_passed (item : KsmBootstrapEvidence) : bool :=
  kb_duplicate_base_page_verified item && kb_control_base_page_verified item
  && is_some_and (kb_protocol_state item) (String.eqb "ready_unmergeable").

(** ** The accounting of KSM *)

Definition owned_process_profit_positive (processes : list KsmProcessMetrics) : bool :=
  Nat.eqb (length processes) 2
  && forallb (fun process =>
       (0 <? unwrap_or (kp_ksm_merging_pages process) 0)
       && is_none_or (kp_ksm_process_profit process) (fun profit => 0 <? profit)) processes.
Definition owned_processes_evaluated (processes : list KsmProcessMetrics) : bool :=
  Nat.eqb (length processes) 2
  && forallb (fun process => 0 <? unwrap_or (kp_ksm_rmap_items process) 0) processes.
Definition owned_processes_inefficient (processes : list KsmProcessMetrics) : bool :=
  let threshold := pf_minimum_positive_profit_bytes (profile Synthetic) in
  owned_processes_evaluated processes
  && forallb (fun process =>
       (u64_sat_mul (unwrap_or (kp_ksm_merging_pages process) 0) PAGE_SIZE <=? Z.max threshold 0)
       && is_some_and (kp_ksm_process_profit process) (fun profit => profit <=? threshold)) processes.

Definition i128_sat_sub (a b : Z) : Z := Z.max (- 2 ^ 127) (Z.min (a - b) (2 ^ 127 - 1)).
Definition signed_optional_delta (before after : option Z) : option Z :=
  after ← after; before ← before; Some (i128_sat_sub after before).

Definition ksm_saved_bytes (before after : KsmSystemMetrics) (baseline : KsmSnapshot) : Z :=
  let sharing := u64_sat_sub (unwrap_or (km_pages_sharing after) 0)
                   (unwrap_or (km_pages_sharing before) 0) in
  let zero_pages_enabled :=
    is_some_and (ks_preserve_only baseline !! "use_zero_pages"%string) (String.eqb "1") in
  let zero_pages :=
    if zero_pages_enabled
    then u64_sat_sub (unwrap_or (km_ksm_zero_pages after) 0) (unwrap_or (km_ksm_zero_pages before) 0)
    else 0 in
  u64_sat_mul (u64_sat_add sharing zero_pages) PAGE_SIZE.

Definition DELTA_FIELDS : list (string * (KsmSystemMetrics -> option Z)) :=
  [("pages_scanned", km_pages_scanned); ("pages_shared", km_pages_shared);
   ("pages_sharing", km_pages_sharing); ("pages_unshared", km_pages_unshared);
   ("pages_volatile", km_pages_volatile); ("pages_skipped", km_pages_skipped);
   ("full_scans", km_full_scans); ("ksm_zero_pages", km_ksm_zero_pages);
   ("general_profit", km_general_profit); ("cow_ksm", km_cow_ksm);
   ("ksm_swpin_copy", km_ksm_swpin_copy)]%string.
Definition ksm_counter_deltas (before after : KsmSystemMetrics) : gmap string Z :=
  foldl (fun deltas nf =>
    match snd nf before, snd nf after with
    | Some before, Some after => <[fst nf := i128_sat_sub after before]> deltas
    | _, _ => deltas
    end) ∅ DELTA_FIELDS.

Definition ticks_percent (delta : Z) (ticks_per_second seconds : f64) : f64 :=
  f64_mul (f64_div (f64_div (f64_of_Z delta) ticks_per_second) seconds) (f64_of_Z 100).

(** ** Lemmas *)
Module Facts.

Definition named (name : string) (c : Check_) : bool := String.eqb (ck_name c) name.
Definition names (checks : list Check_) : list string := map ck_name checks.
(** the check of that name that was recorded last *)
Definition last_check (name : string) (checks : list Check_) : option Check_ :=
  find_first (named name) (rev checks).

Lemma has_check_app p a b name : has_check p (a ++ b) name = has_check p a name || has_check p b name.
Proof. apply existsb_app. Qed.
Lemma has_check_rev p checks name : has_check p (rev checks) name = has_check p checks name.
Proof.
  induction checks as [|c checks IH]; [done |]. simpl rev. rewrite has_check_app, IH.
  simpl. rewrite orb_false_r. apply orb_comm.
Qed.
Lemma has_check_name checks name : has_check (fun _ => true) checks name = true <-> name ∈ names checks.
Proof.
  unfold has_check, names. rewrite existsb_elem, list_elem_of_fmap. split.
  - intros (c & Hc & E). rewrite andb_true_r in E. apply String.eqb_eq in E. by exists c.
  - intros (c & -> & Hc). exists c. by rewrite String.eqb_refl.
Qed.
Lemma has_check_absent p checks name : name ∉ names checks -> has_check p checks name = false.
Proof.
  intros Hn. apply not_true_iff_false. intros Hp. apply Hn. apply existsb_elem in Hp as (c & Hc & E).
  apply andb_true_iff in E as [E _]. apply String.eqb_eq in E as <-. by apply list_elem_of_fmap_2.
Qed.
(** where names do not repeat, a name has one check *)
Lemma has_check_first p checks name : NoDup (names checks) ->
  has_check p checks name = is_some_and (find_first (named name) checks) p.
Proof.
  unfold names. induction checks as [|c checks IH]; [done |]. intros Hn. inversion Hn as [|? ? Hc Hr]; subst.
  cbn [has_check existsb find_first]. unfold named at 1. destruct (String.eqb_spec (ck_name c) name) as [<-|].
  - change (existsb _ checks) with (has_check p checks (ck_name c)).
    rewrite (has_check_absent p checks (ck_name c)) by exact Hc. simpl. by rewrite orb_false_r.
  - simpl. by apply IH.
Qed.

Lemma retain_new_first name checks : forall seen,
  find_first (named name) (retain_new seen checks)
  = if bool_decide (name ∈ seen) then None else find_first (named name) checks.
Proof.
  induction checks as [|c checks IH]; intros seen; simpl; [by case_bool_decide |].
  case_bool_decide as Hc.
  - rewrite IH. case_bool_decide as Hn; [done |]. unfold named at 2.
    destruct (String.eqb_spec (ck_name c) name) as [<-|]; done.
  - cbn [find_first]. unfold named at 1 3. destruct (String.eqb_spec (ck_name c) name) as [<-|Hne].
    + by rewrite bool_decide_eq_false_2.
    + rewrite IH. repeat case_bool_decide; set_solver.
Qed.
Lemma retain_new_nodup checks : forall seen,
  NoDup (names (retain_new seen checks)) /\ forall n, n ∈ names (retain_new seen checks) -> n ∉ seen.
Proof.
  unfold names. induction checks as [|c checks IH]; intros seen; simpl; [split; [constructor | set_solver] |].
  case_bool_decide as Hc; [apply IH |]. destruct (IH ({[ck_name c]} ∪ seen)) as [Hd Hs]. simpl. split.
  - constructor; [| done]. intros Hin. apply Hs in Hin. set_solver.
  - intros n [->|Hn]%elem_of_cons; [done |]. apply Hs in Hn. set_solver.
Qed.
Lemma retain_new_id checks : forall seen, NoDup (names checks) ->
  (forall n, n ∈ names checks -> n ∉ seen) -> retain_new seen checks = checks.
Proof.
  unfold names. induction checks as [|c checks IH]; intros seen Hn Hs; [done |]. simpl in *.
  inversion Hn as [|? ? Hc Hr]; subst. rewrite bool_decide_eq_false_2 by (apply Hs; set_solver).
  f_equal. apply IH; [done |]. intros n Hin. specialize (Hs n). set_solver.
Qed.

Lemma names_rev checks : names (rev checks) = rev (names checks).
Proof. apply map_rev. Qed.
Lemma NoDup_rev_names checks : NoDup (names (rev checks)) <-> NoDup (names checks).
Proof. rewrite names_rev. by rewrite <-Permutation_rev. Qed.

Lemma deduplicate_nodup checks : NoDup (names (deduplicate_checks checks)).
Proof. apply NoDup_rev_names, retain_new_nodup. Qed.
Lemma deduplicate_id checks : NoDup (names checks) -> deduplicate_checks checks = checks.
Proof.
  intros Hn. unfold deduplicate_checks.
  rewrite retain_new_id; [apply rev_involutive | by apply NoDup_rev_names | set_solver].
Qed.
Lemma deduplicate_has p checks name :
  has_check p (deduplicate_checks checks) name = is_some_and (last_check name checks) p.
Proof.
  unfold deduplicate_checks. rewrite has_check_rev, has_check_first by apply retain_new_nodup.
  by rewrite retain_new_first.
Qed.

(** filling in what was not reached *)
Lemma fill_gates_nodup detail required : forall checks, NoDup (names checks) ->
  NoDup (names (fill_gates detail required checks)).
Proof.
  induction required as [|g required IH]; intros checks Hn; [done |]. simpl.
  destruct (has_check _ checks g) eqn:E; apply IH; [done |].
  unfold names. rewrite map_app. apply list.NoDup_app. split; [exact Hn |]. split; [| apply list.NoDup_singleton].
  intros n Hin ->%list_elem_of_singleton. apply (not_true_iff_false _) in E. by apply E, has_check_name.
Qed.
Lemma fill_gates_names detail required : forall checks,
  (forall n, n ∈ names checks -> n ∈ names (fill_gates detail required checks)) /\
  (forall g, g ∈ required -> g ∈ names (fill_gates detail required checks)).
Proof.
  induction required as [|g required IH]; intros checks; [split; [done | set_solver] |]. simpl.
  assert (Hg : g ∈ names (if has_check (fun _ => true) checks g then checks
                          else checks ++ [not_reached detail g])).
  { destruct (has_check _ checks g) eqn:E; [by apply has_check_name |].
    unfold names. rewrite map_app. set_solver. }
  specialize (IH (if has_check (fun _ => true) checks g then checks
                  else checks ++ [not_reached detail g])) as [Hk Hr]. split.
  - intros n Hn. apply Hk. destruct (has_check _ checks g); [done |].
    unfold names. rewrite map_app. by apply elem_of_app; left.
  - intros n [->|Hn]%elem_of_cons; auto.
Qed.
Lemma fill_gates_id detail required : forall checks,
  (forall g, g ∈ required -> g ∈ names checks) -> fill_gates detail required checks = checks.
Proof.
  induction required as [|g required IH]; intros checks Hg; [done |]. simpl.
  rewrite (proj2 (has_check_name checks g)) by (apply Hg; set_solver).
  apply IH. intros n Hn. apply Hg. set_solver.
Qed.
Lemma fill_gates_passed detail required name : forall checks,
  has_check ck_passed (fill_gates detail required checks) name = has_check ck_passed checks name.
Proof.
  induction required as [|g required IH]; intros checks; [done |]. simpl. rewrite IH.
  destruct (has_check _ checks g); [done |]. rewrite has_check_app. simpl. by rewrite andb_false_r, !orb_false_r.
Qed.

(** the required gates pass when the last check of each does *)
Lemma required_pass_last checks required detail :
  required_checks_pass (fill_gates detail required (deduplicate_checks checks)) required = true <->
  forall g, g ∈ required -> exists c, last_check g checks = Some c /\ ck_passed c = true.
Proof.
  unfold required_checks_pass. rewrite forallb_elem. apply forall_proper. intros g.
  rewrite fill_gates_passed, deduplicate_has. destruct (last_check g checks); simpl; naive_solver.
Qed.
End Facts.

Module PageFacts.

Lemma xorshift_inj k x y : 0 < k -> 0 <= x -> 0 <= y ->
  Z.lxor x (Z.shiftr x k) = Z.lxor y (Z.shiftr y k) -> x = y.
Proof.
  intros Hk Hx Hy H.
  assert (Hd : Z.shiftr (Z.lxor x y) k = Z.lxor x y).
  { rewrite Z.shiftr_lxor. apply Z.lxor_eq.
    assert (E : Z.lxor (Z.lxor x (Z.shiftr x k)) (Z.lxor y (Z.shiftr y k)) = 0)
      by (rewrite H; apply Z.lxor_nilpotent).
    rewrite <- E. apply Z.bits_inj'. intros n Hn. rewrite !Z.lxor_spec.
    destruct (Z.testbit x n), (Z.testbit y n), (Z.testbit (Z.shiftr x k) n),
      (Z.testbit (Z.shiftr y k) n); done. }
  apply Z.lxor_eq. assert (H0 : 0 <= Z.lxor x y) by (apply Z.lxor_nonneg; lia).
  destruct (Z.eq_dec (Z.lxor x y) 0) as [|Hne]; [done | exfalso].
  rewrite Z.shiftr_div_pow2 in Hd by lia.
  assert (1 < 2 ^ k) by (apply Z.pow_gt_1; lia).
  pose proof (Z.div_lt (Z.lxor x y) (2 ^ k)). lia.
Qed.
Lemma mul_wrap_inj c inv x y : u64_wrap (c * inv) = 1 -> u64 x -> u64 y ->
  u64_wrap (x * c) = u64_wrap (y * c) -> x = y.
Proof.
  unfold_int. intros Hi Hx Hy H.
  assert (E : forall z, 0 <= z <= 2 ^ 64 - 1 -> ((z * c) mod 2 ^ 64 * inv) mod 2 ^ 64 = z).
  { intros z Hz. rewrite Z.mul_mod_idemp_l, <- Z.mul_assoc, <- Z.mul_mod_idemp_r, Hi, Z.mul_1_r by done.
    apply Z.mod_small. lia. }
  by rewrite <- (E x Hx), <- (E y Hy), H.
Qed.
Lemma wrap_u64 z : u64 (u64_wrap z).
Proof. unfold_int. pose proof (Z.mod_pos_bound z (2 ^ 64)). lia. Qed.
Lemma u64_bound z : u64 z <-> 0 <= z < 2 ^ 64.
Proof. unfold_int. lia. Qed.
Lemma lxor_u64 x y : u64 x -> u64 y -> u64 (Z.lxor x y).
Proof.
  rewrite !u64_bound. intros Hx Hy. split; [apply Z.lxor_nonneg; lia |].
  destruct (Z.eq_dec (Z.lxor x y) 0) as [->|Hne]; [done |].
  apply Z.log2_lt_pow2; [assert (0 <= Z.lxor x y) by (apply Z.lxor_nonneg; lia); lia |].
  pose proof (Z.log2_lxor x y). 
  assert (Hl : forall z, 0 <= z < 2 ^ 64 -> Z.log2 z < 64).
  { intros z Hz. destruct (Z.eq_dec z 0) as [->|]; [done |]. apply Z.log2_lt_pow2; lia. }
  pose proof (Hl x Hx). pose proof (Hl y Hy). lia.
Qed.
Lemma shiftr_u64 x k : 0 <= k -> u64 x -> u64 (Z.shiftr x k).
Proof.
  rewrite !u64_bound. intros Hk Hx. rewrite Z.shiftr_div_pow2 by done.
  assert (0 < 2 ^ k) by (apply Z.pow_pos_nonneg; lia).
  split; [apply Z.div_pos; lia | apply Z.div_lt_upper_bound; nia].
Qed.
#[local] Hint Resolve wrap_u64 lxor_u64 shiftr_u64 : nemor.
Lemma u64_nonneg x : u64 x -> 0 <= x.
Proof. unfold_int. lia. Qed.

Lemma splitmix64_u64 x : u64 (splitmix64 x).
Proof. unfold splitmix64. apply lxor_u64; [apply wrap_u64 | apply shiftr_u64; [lia | apply wrap_u64]]. Qed.
Lemma xorshift_u64 x k : 0 <= k -> u64 (Z.lxor (u64_wrap x) (Z.shiftr (u64_wrap x) k)).
Proof. intros Hk. apply lxor_u64; [apply wrap_u64 | apply shiftr_u64; [done | apply wrap_u64]]. Qed.
(** a permutation of the 64-bit words: its three rounds can be undone *)
Lemma splitmix64_inj x y : u64 x -> u64 y -> splitmix64 x = splitmix64 y -> x = y.
Proof.
  unfold splitmix64. intros Hx Hy H.
  apply xorshift_inj in H; [| lia | apply u64_nonneg, wrap_u64 | apply u64_nonneg, wrap_u64].
  apply (mul_wrap_inj _ 0x319642b2d24d8ec3) in H;
    [| vm_compute; reflexivity | by apply xorshift_u64 | by apply xorshift_u64].
  apply xorshift_inj in H; [| lia | apply u64_nonneg, wrap_u64 | apply u64_nonneg, wrap_u64].
  apply (mul_wrap_inj _ 0x96de1b173f119089) in H;
    [| vm_compute; reflexivity | by apply xorshift_u64 | by apply xorshift_u64].
  apply xorshift_inj in H; [| lia | apply u64_nonneg, wrap_u64 | apply u64_nonneg, wrap_u64].
  revert H. unfold_int. intros H.
  assert (E : forall z, 0 <= z <= 2 ^ 64 - 1 ->
    ((z + 0x9e3779b97f4a7c15) mod 2 ^ 64 - 0x9e3779b97f4a7c15) mod 2 ^ 64 = z).
  { intros z Hz. rewrite Zminus_mod_idemp_l. rewrite Z.add_simpl_r. apply Z.mod_small. lia. }
  by rewrite <- (E x Hx), <- (E y Hy), H.
Qed.

Lemma le_bytes_inj x y : u64 x -> u64 y -> to_le_bytes x = to_le_bytes y -> x = y.
Proof.
  rewrite !u64_bound. intros Hx Hy H. apply Z.bits_inj'. intros n Hn.
  assert (Hhigh : forall z, 0 <= z < 2 ^ 64 -> 64 <= n -> Z.testbit z n = false).
  { intros z Hz Hb. destruct (Z.eq_dec z 0) as [->|]; [apply Z.bits_0 |].
    apply Z.bits_above_log2; [lia |]. apply Z.log2_lt_pow2; [lia |].
    apply Z.lt_le_trans with (2 ^ 64); [lia | apply Z.pow_le_mono_r; lia]. }
  destruct (Z.lt_ge_cases n 64) as [Hlt|Hge]; [| by rewrite !Hhigh].
  assert (Hb : forall i, (i < 8)%nat ->
    Z.land (Z.shiftr x (8 * Z.of_nat i)) 255 = Z.land (Z.shiftr y (8 * Z.of_nat i)) 255).
  { intros i Hi. apply (f_equal (fun l => nth i l 0)) in H.
    do 8 (destruct i as [|i]; [exact H |]). lia. }
  assert (Hi : 0 <= n / 8 < 8) by (split; [apply Z.div_pos; lia | apply Z.div_lt_upper_bound; lia]).
  specialize (Hb (Z.to_nat (n / 8)) ltac:(lia)). rewrite Z2Nat.id in Hb by lia. clear H.
  rename Hb into H. apply (f_equal (fun z => Z.testbit z (n mod 8))) in H.
  pose proof (Z.mod_pos_bound n 8). pose proof (Z.div_pos n 8).
  rewrite !Z.land_spec in H. change 255 with (Z.ones 8) in H.
  rewrite Z.ones_spec_low, !andb_true_r, !Z.shiftr_spec in H by lia.
  replace (n mod 8 + 8 * (n / 8)) with n in H by (rewrite Z.add_comm; apply Z.div_mod; lia). done.
Qed.

(** a whole word of a page *)
Lemma fill_chunks_word seed word : forall index len fuel, (8 * (word + 1) <= len)%nat -> (len <= fuel)%nat ->
  firstn 8 (skipn (8 * word) (fill_chunks seed index len fuel))
  = to_le_bytes (splitmix64 (Z.lxor seed (Z.of_nat (index + word)))).
Proof.
  induction word as [|word IH]; intros index len fuel Hl Hf.
  - destruct fuel as [|fuel]; [lia |]. cbn [fill_chunks]. destruct (Nat.eqb_spec len 0); [lia |].
    rewrite (firstn_all2 (n := len)) by (unfold to_le_bytes; rewrite length_map, length_seq; lia).
    rewrite Nat.add_0_r. done.
  - destruct fuel as [|fuel]; [lia |]. cbn [fill_chunks]. destruct (Nat.eqb_spec len 0); [lia |].
    rewrite (firstn_all2 (n := len)) by (unfold to_le_bytes; rewrite length_map, length_seq; lia).
    replace (8 * S word)%nat with (8 + 8 * word)%nat by lia.
    change 8%nat with (length (to_le_bytes (splitmix64 (Z.lxor seed (Z.of_nat index))))) at 2.
    rewrite skipn_app, skipn_all2 by lia.
    rewrite app_nil_l, Nat.add_comm, Nat.add_sub.
    rewrite IH by lia. by replace (S index + word)%nat with (index + S word)%nat by lia.
Qed.

Lemma rotate_child c : u8 c -> rotate_left c 17 = c * 2 ^ 17.
Proof.
  unfold rotate_left. unfold_int. intros Hc.
  rewrite Z.shiftl_mul_pow2, Z.shiftr_div_pow2 by done.
  rewrite (Z.div_small c) by lia. rewrite Z.lor_0_r. apply Z.mod_small. lia.
Qed.
Lemma lxor_inj a x y : Z.lxor a x = Z.lxor a y -> x = y.
Proof.
  intros H. apply (f_equal (Z.lxor a)) in H.
  by rewrite <- !Z.lxor_assoc, Z.lxor_nilpotent, !Z.lxor_0_l in H.
Qed.
Lemma page_seed_inj session c d i j : u8 c -> u8 d -> u64 i -> u64 j -> c = d \/ i = j ->
  page_seed session c i = page_seed session d j -> c = d /\ i = j.
Proof.
  intros Hc Hd Hi Hj Hor. unfold page_seed. rewrite !rotate_child by done.
  set (s := session_seed _ session). clearbody s. intros H.
  destruct Hor as [<-|<-]; split; try done.
  - apply lxor_inj in H. apply (mul_wrap_inj _ 0xf1de83e19937733d) in H;
      [done | vm_compute; reflexivity | done | done].
  - rewrite !(Z.lxor_comm _ (u64_wrap _)) in H. apply lxor_inj, lxor_inj in H. lia.
Qed.
Lemma session_seed_u64 session : forall seed, u64 seed -> u64 (session_seed seed session).
Proof. induction session as [|b session IH]; intros seed Hs; [done |]. simpl. apply IH, wrap_u64. Qed.
Lemma page_seed_u64 session c i : u8 c -> u64 (page_seed session c i).
Proof.
  intros Hc. unfold page_seed. apply lxor_u64; [| apply wrap_u64]. apply lxor_u64.
  - apply session_seed_u64. unfold_int. lia.
  - rewrite rotate_child by done. revert Hc. unfold_int. lia.
Qed.
End PageFacts.

Module TraceFacts.

Lemma timed_loop_group regions : forall current expected end_ns windows,
  map snd (timed_loop regions current expected end_ns windows)
  = group_loop (map snd regions) current expected (map snd windows).
Proof.
  induction regions as [|[t r] regions IH]; intros current expected end_ns windows; [done |].
  cbn [timed_loop map snd group_loop]. case_bool_decide; simpl fst; cbv zeta iota.
  - destruct ((tg_nr_regions r =? 0) || negb (tg_nr_regions r =? tg_nr_regions r));
      destruct (_ =? _); rewrite IH, ?map_app; done.
  - destruct ((expected =? 0) || negb (tg_nr_regions r =? expected));
      destruct (_ =? _); rewrite IH, ?map_app; done.
Qed.

(** a stretch of the trace that ends at its latest time stamp *)
Definition ends_at (end_ns : Z) (part : list (Z * TraceRegion)) : Prop :=
  end_ns ∈ map fst part /\ Forall (fun tr => fst tr <= end_ns) part.
Lemma ends_at_one t r : ends_at (Z.max t t) [(t, r)].
Proof. rewrite Z.max_id. split; [simpl; set_solver | by repeat constructor]. Qed.
Lemma ends_at_snoc e part t r : ends_at e part -> ends_at (Z.max e t) (part ++ [(t, r)]).
Proof.
  intros [Hin Hall]. split.
  - rewrite map_app. simpl. apply elem_of_app. destruct (Z.max_spec e t) as [[_ ->]|[_ ->]]; set_solver.
  - apply Forall_app. split; [eapply Forall_impl; [| exact Hall]; simpl; intros; lia |].
    repeat constructor. simpl. lia.
Qed.
(** the windows are stretches of the trace, in its order *)
Definition stretch (regions : list (Z * TraceRegion)) (window : Z * list TraceRegion) : Prop :=
  exists before part after, regions = before ++ part ++ after /\ map snd part = snd window /\
    ends_at (fst window) part.
Lemma timed_loop_stretch regions : forall before part current expected end_ns windows,
  map snd part = current -> (part <> [] -> ends_at end_ns part) ->
  Forall (stretch (before ++ part ++ regions)) windows ->
  Forall (stretch (before ++ part ++ regions)) (timed_loop regions current expected end_ns windows).
Proof.
  induction regions as [|[t r] regions IH]; intros before part current expected end_ns windows Hm He Hw;
    [done |].
  (* the state after the region was pushed to [part'], the trace before it being [before'] *)
  assert (Hstep : forall before' part' e expected', before' ++ part' = before ++ part ->
      ends_at e (part' ++ [(t, r)]) ->
      Forall (stretch (before ++ part ++ (t, r) :: regions))
        (if Z.of_nat (length (map snd part' ++ [r])) =? expected'
         then timed_loop regions [] 0 e (windows ++ [(e, map snd part' ++ [r])])
         else timed_loop regions (map snd part' ++ [r]) expected' e windows)).
  { intros before' part' e expected' Hb Hends.
    assert (Hall : before ++ part ++ (t, r) :: regions = before' ++ (part' ++ [(t, r)]) ++ regions)
      by (rewrite (app_assoc before part), <- Hb, <- !app_assoc; done).
    assert (Hpm : map snd part' ++ [r] = map snd (part' ++ [(t, r)])) by (by rewrite map_app).
    rewrite Hall in *. rewrite Hpm. destruct (_ =? _); [| apply IH; [done | done | done]].
    replace (before' ++ (part' ++ [(t, r)]) ++ regions)
      with ((before' ++ part' ++ [(t, r)]) ++ [] ++ regions) in * by (by rewrite <- !app_assoc).
    apply IH; [done | done |]. apply Forall_app. split; [done |]. constructor; [| constructor].
    exists before', (part' ++ [(t, r)]), regions. by rewrite <- !app_assoc. }
  cbn [timed_loop]. subst current. case_bool_decide as Hc; cbv zeta iota.
  - apply map_eq_nil in Hc as ->.
    destruct ((tg_nr_regions r =? 0) || negb (tg_nr_regions r =? tg_nr_regions r));
      apply (Hstep (before ++ []) []); rewrite ?app_nil_r; try done; apply ends_at_one.
  - destruct ((expected =? 0) || negb (tg_nr_regions r =? expected)).
    + apply (Hstep (before ++ part) []); [by rewrite app_nil_r | apply ends_at_one].
    + apply (Hstep before part); [done |]. apply ends_at_snoc, He. by intros ->.
Qed.

(** ** Progress intervals *)

Fixpoint ascending (points : list (Z * WorkloadProgress)) : Prop :=
  match points with
  | a :: ((b :: _) as rest) => fst a <= fst b /\ ascending rest
  | _ => True
  end.
Lemma ascending_last points : forall p, ascending (p :: points) ->
  fst p <= fst (List.last (p :: points) p).
Proof.
  assert (Hd : forall (l : list (Z * WorkloadProgress)) a x y,
    List.last (a :: l) x = List.last (a :: l) y).
  { induction l as [|b l IH]; intros a x y; [done |]. exact (IH b x y). }
  induction points as [|q points IH]; intros p; [simpl; lia |]. intros [Hle Ha].
  specialize (IH q Ha).
  change (List.last (p :: q :: points) p) with (List.last (q :: points) p).
  rewrite (Hd points q p q). lia.
Qed.
Lemma last_default {A} (l : list A) : forall a x y, List.last (a :: l) x = List.last (a :: l) y.
Proof. induction l as [|b l IH]; intros a x y; [done | exact (IH b x y)]. Qed.

(** consecutive intervals overlap a window as their union does *)
Lemma prorate_overlap counter lo hi points : forall p index acc,
  ascending (p :: points) -> 0 <= snd acc ->
  snd acc + u64_sat_sub (Z.min (fst (List.last (p :: points) p)) hi) (Z.max (fst p) lo) <= u128_max ->
  snd (foldl (prorate_step lo hi counter) acc (window_progress_from index (p :: points)))
  = snd acc + u64_sat_sub (Z.min (fst (List.last (p :: points) p)) hi) (Z.max (fst p) lo).
Proof.
  induction points as [|q points IH]; intros p index acc Ha Hacc Hm.
  - destruct p as [t x]. simpl in *. unfold u64_sat_sub. lia.
  - destruct Ha as [Hle Ha]. pose proof (ascending_last points q Ha) as Hl.
    change (List.last (p :: q :: points) p) with (List.last (q :: points) p) in *.
    rewrite (last_default points q p q) in *.
    change (window_progress_from index (p :: q :: points))
      with (progress_between index p q :: window_progress_from (index + 1) (q :: points)).
    cbn [foldl].
    assert (Hs : snd (prorate_step lo hi counter acc (progress_between index p q))
                 = snd acc + u64_sat_sub (Z.min (fst q) hi) (Z.max (fst p) lo)).
    { unfold prorate_step, overlap_ns. cbn [progress_between ww_end_ns ww_start_ns].
      destruct ((u64_sat_sub (fst q) (fst p) =? 0) || _) eqn:E.
      - apply orb_true_iff in E as [E|E]; apply Z.eqb_eq in E; unfold u64_sat_sub in *; lia.
      - cbn [snd]. unfold u128_sat_add, u64_sat_sub in *. lia. }
    rewrite IH; [rewrite Hs | done | rewrite Hs | rewrite Hs]; unfold u64_sat_sub in *; lia.
Qed.

(** ** Complete windows *)

Definition inside (aggr_us monitoring_start_ns monitoring_end_ns : Z) (window : Z * list TraceRegion) : bool :=
  (monitoring_start_ns <=? u64_sat_sub (fst window) (aggr_us * 1000))
  && (fst window <=? monitoring_end_ns).
Lemma omap_complete (p : Z * list TraceRegion -> bool) timed : forall f,
  (forall k w, negb (aw_partial (f k w)) = p w) ->
  omap (fun aw => then_some (negb (aw_partial (fst aw))) (snd (snd aw))) (zip (imap f timed) timed)
  = map snd (List.filter p timed).
Proof.
  induction timed as [|w timed IH]; intros f Hf; [done |].
  specialize (IH (f ∘ S) ltac:(intros; apply Hf)).
  change (imap f (w :: timed)) with (f 0%nat w :: imap (f ∘ S) timed).
  cbn [zip_with List.filter]. rewrite <- (Hf 0%nat w).
  match goal with |- omap ?g (?x :: ?l) = _ =>
    change (omap g (x :: l)) with (from_option (fun y => y :: omap g l) (omap g l) (g x)) end.
  rewrite IH. cbn [fst snd]. by destruct (negb _).
Qed.
Lemma align_inside aggr lo hi progress index w :
  negb (aw_partial (align_window (aggr * 1000) lo hi progress index w)) = inside aggr lo hi w.
Proof. unfold inside. cbn [align_window aw_partial]. by rewrite negb_orb, <- !Z.leb_antisym. Qed.

(** ** Time stamps *)

Lemma split_ws_app_token a t : forall cur, token t = true ->
  split_ws_from cur (a ++ " " ++ t ++ " ") = split_ws_from cur a ++ [t].
Proof.
  unfold token. intros cur Ht. apply andb_true_iff in Ht as [Hne Hall]. apply negb_true_iff in Hne.
  revert cur. induction a as [|c a IH]; intros cur; autorewrite with str; cbn [split_ws_from].
  - change (is_ws " ") with true. cbv iota. rewrite split_ws_token by done.
    autorewrite with str. cbn [split_ws_from]. change (is_ws " ") with true. cbv iota.
    rewrite Hne. by destruct (str_empty cur).
  - autorewrite with str in IH. rewrite !IH. destruct (is_ws c); [| done]. by rewrite app_assoc.
Qed.
Lemma trim_end_colon s : str_contains_char ":" s = false -> trim_end_char ":" (s ++ ":") = s.
Proof.
  intros Hs. unfold trim_end_char, trim_end_matches.
  assert (Hlen : String.length (s ++ ":") = S (String.length s)).
  { clear. induction s as [|c s IH]; [done |]. autorewrite with str. simpl. by rewrite IH. }
  rewrite Hlen. cbn [trim_end_matches_fuel]. rewrite strip_suffix_app.
  destruct (String.length s); [done |]. cbn [trim_end_matches_fuel].
  rewrite strip_suffix_plain; [done |]. unfold str_contains_char in Hs. by apply negb_false_iff in Hs.
Qed.
Lemma digits_fold s : forall max acc v, parse_digits 10 max digit_val acc s = Some v ->
  foldl (fun value digit => value * 10 + Z.max (byte_of digit - 48) 0) acc (String.list_ascii_of_string s) = v.
Proof.
  induction s as [|c s IH]; intros max acc v; cbn [parse_digits]; [by intros [= <-] |].
  destruct (digit_val c) as [d|] eqn:E; [| done]. destruct (_ <=? max); [| done]. intros H.
  cbn [String.list_ascii_of_string foldl]. apply (IH max). rewrite <- H. do 2 f_equal.
  unfold digit_val in E. unfold byte_of. destruct (_ && _) eqn:B in E; [| done]. injection E as <-. bools. lia.
Qed.
Lemma parse_digits_bounds s : forall max acc v, 0 <= acc -> parse_digits 10 max digit_val acc s = Some v ->
  str_all is_digit s = true /\
  acc * 10 ^ Z.of_nat (String.length s) <= v < (acc + 1) * 10 ^ Z.of_nat (String.length s).
Proof.
  induction s as [|c s IH]; intros max acc v Ha; cbn [parse_digits str_all String.length].
  - intros [= <-]. split; [done |]. change (10 ^ Z.of_nat 0) with 1. lia.
  - destruct (digit_val c) as [d|] eqn:E; [| done]. destruct (_ <=? max); [| done].
    assert (Hd : 0 <= d < 10).
    { unfold digit_val in E. destruct (_ && _) eqn:B in E; [| done]. injection E as <-. bools. lia. }
    intros H. apply IH in H as [Hall Hb]; [| lia]. assert (is_digit c = true) as -> by (unfold is_digit; by rewrite E). rewrite Hall. split; [done |].
    rewrite Nat2Z.inj_succ, Z.pow_succ_r by lia.
    assert (0 < 10 ^ Z.of_nat (String.length s)) by (apply Z.pow_pos_nonneg; lia). nia.
Qed.
Lemma length_list_ascii s : length (String.list_ascii_of_string s) = String.length s.
Proof. induction s; simpl; congruence. Qed.
Lemma digits_plain s (p : ascii -> bool) : str_all is_digit s = true ->
  (forall c, is_digit c = true -> p c = true) -> str_all p s = true.
Proof. intros Hs Hp. by eapply str_all_impl. Qed.
Lemma digit_not_dot c : is_digit c = true -> negb (Ascii.eqb "." c) = true.
Proof. destruct c as [[] [] [] [] [] [] [] []]; vm_compute; intros H; first [discriminate H | reflexivity]. Qed.
Lemma digit_not_ws c : is_digit c = true -> negb (is_ws c) = true.
Proof. intros Hc. apply is_digit_plain in Hc as (-> & _). done. Qed.
Lemma digit_not_colon c : is_digit c = true -> negb (Ascii.eqb ":" c) = true.
Proof. intros Hc. apply is_digit_plain in Hc as (_ & _ & _ & _ & _ & ->). done. Qed.
End TraceFacts.

(** ** Theorems *)
Module Theorems.

(** C30: the verdict of a KSM validation. It succeeds exactly when the check recorded last under
    the name of each required gate passed and no failure was recorded; otherwise it has a
    class and a reason, an error and the exit code 1. The checks it reports have distinct
    names, and each required gate is one of them. Taking the verdict again changes nothing. *)
Theorem finalize_ksm_outcome_correct (evidence : Verdict) (scenario : KsmScenario) :
  let required := required_gates scenario in
  let '(final, outcome) := finalize_ksm_outcome evidence scenario in
  (ko_success outcome = true <->
     (forall g, g ∈ required ->
        exists c, Facts.last_check g (vd_checks evidence) = Some c /\ ck_passed c = true) /\
     vd_failure_class evidence = None /\ vd_failure_reason evidence = None) /\
  (ko_success outcome = true -> ko_error outcome = None /\ ko_exit_code outcome = 0) /\
  (ko_success outcome = false ->
     is_some (vd_failure_class final) = true /\ is_some (vd_failure_reason final) = true /\
     is_some (ko_error outcome) = true /\ ko_exit_code outcome = 1) /\
  NoDup (Facts.names (vd_checks final)) /\
  (forall g, g ∈ required -> g ∈ Facts.names (vd_checks final)) /\
  finalize_ksm_outcome final scenario = (final, outcome).
Proof.
  unfold finalize_ksm_outcome, fill_ksm_not_evaluated_gates.
  set (required := required_gates scenario). set (detail := "not reached after earlier KSM validation abort"%string).
  set (checks := fill_gates detail required (deduplicate_checks (vd_checks evidence))).
  assert (Hd : NoDup (Facts.names checks)) by apply Facts.fill_gates_nodup, Facts.deduplicate_nodup.
  assert (Hg : forall g, g ∈ required -> g ∈ Facts.names checks) by apply Facts.fill_gates_names.
  cbn zeta. cbn [ko_success ko_error ko_exit_code vd_checks vd_failure_class vd_failure_reason].
  rewrite (Facts.deduplicate_id checks Hd), (Facts.fill_gates_id detail required checks Hg).
  pose proof (Facts.required_pass_last (vd_checks evidence) required detail) as Hp.
  fold checks in Hp. destruct (required_checks_pass checks required) eqn:Epass; cbn [andb].
  2: { repeat split; try done. intros [Hall _]. apply Hp in Hall. done. }
  destruct (vd_failure_class evidence), (vd_failure_reason evidence); cbn;
    repeat split; try done; try (by intros [_ [? ?]]); by apply Hp.
Qed.

(** the windows of a trace with time stamps are the windows that [nemor-damon] makes of its
    regions, and each one is a stretch of the trace whose end is its latest time stamp. *)
Theorem timed_windows_agree (regions : list (Z * TraceRegion)) :
  map snd (group_timed_aggregation_windows regions) = group_aggregation_windows (map snd regions) /\
  Forall (TraceFacts.stretch regions) (group_timed_aggregation_windows regions).
Proof.
  split; [apply TraceFacts.timed_loop_group |].
  apply (TraceFacts.timed_loop_stretch regions [] []); done.
Qed.

(** of the windows, the complete ones are those whose whole interval lies in the monitoring
    interval, in their order; and the progress of a workload whose points ascend overlaps a
    window for exactly as long as the interval between its first and its last point does: no
    moment counts twice, none is lost. *)
Theorem alignment_exact (timed : list (Z * list TraceRegion)) (aggr_us lo hi : Z)
    (p : Z * WorkloadProgress) (points : list (Z * WorkloadProgress)) :
  TraceFacts.ascending (p :: points) -> Forall (fun w => 0 <= fst w <= u128_max) timed -> 0 <= aggr_us ->
  let '(alignment, complete) :=
    align_complete_windows timed aggr_us lo hi (workload_window_progress (p :: points)) in
  complete = map snd (List.filter (TraceFacts.inside aggr_us lo hi) timed) /\
  Forall2 (fun w a =>
    aw_partial a = negb (TraceFacts.inside aggr_us lo hi w) /\
    aw_overlap_duration_ns a
    = u64_sat_sub (Z.min (fst (List.last (p :: points) p)) (fst w))
        (Z.max (fst p) (u64_sat_sub (fst w) (aggr_us * 1000)))) timed alignment.
Proof.
  intros Ha Hw Hg. unfold align_complete_windows. split.
  - apply TraceFacts.omap_complete. intros k w. apply TraceFacts.align_inside.
  - apply Forall2_same_length_lookup_2; [by rewrite length_imap |].
    intros i w a Hi Hl. rewrite list_lookup_imap, Hi in Hl. injection Hl as <-.
    split; [rewrite <- (negb_involutive (aw_partial _)); by rewrite TraceFacts.align_inside |].
    rewrite Forall_lookup in Hw. specialize (Hw i w Hi).
    cbn [align_window aw_overlap_duration_ns]. unfold prorated_counter_delta, workload_window_progress.
    match goal with |- context [foldl ?f ?a ?l] =>
      pose proof (TraceFacts.prorate_overlap ww_hot_cycles_delta
        (u64_sat_sub (fst w) (aggr_us * 1000)) (fst w) points p 0 a Ha) as Ho end.
    destruct (foldl _ _ _) as [estimated total]. cbn [snd fst] in *. apply Ho; unfold u64_sat_sub; lia.
Qed.

(** the pages a KSM workload must not have merged: of one session, two pages of one child, or
    the pages of two children at one index, agree in none of their 64-bit words. *)
Theorem unique_pages_differ (session : string) (c d i j : Z) (len word : nat) :
  u8 c -> u8 d -> u64 i -> u64 j -> (c = d /\ i <> j) \/ (c <> d /\ i = j) ->
  (8 * (word + 1) <= len)%nat -> Z.of_nat word <= u64_max ->
  firstn 8 (skipn (8 * word) (fill_unique_ksm_page len session c i))
  <> firstn 8 (skipn (8 * word) (fill_unique_ksm_page len session d j)).
Proof.
  intros Hc Hd Hi Hj Hne Hl Hw. unfold fill_unique_ksm_page.
  rewrite !PageFacts.fill_chunks_word by done. rewrite Nat.add_0_l. intros H.
  apply PageFacts.le_bytes_inj in H; [| apply PageFacts.splitmix64_u64 ..].
  assert (Hword : u64 (Z.of_nat word)) by (unfold u64; lia).
  apply PageFacts.splitmix64_inj in H; [| by apply PageFacts.lxor_u64; [apply PageFacts.page_seed_u64 |] ..].
  rewrite !(Z.lxor_comm _ (Z.of_nat word)) in H. apply PageFacts.lxor_inj in H.
  apply PageFacts.page_seed_inj in H; [lia | done | done | done | done | lia].
Qed.

(** the time stamp before the marker of a trace line, seconds and up to nine decimals, is
    read in nanoseconds exactly, whatever task name and flags stand before it. *)
Theorem trace_timestamp_read (line marker task rest fraction : string) (seconds value : Z) :
  split_once marker line
    = Some ((task ++ " " ++ (show_uint seconds ++ "." ++ fraction ++ ":") ++ " ")%string, rest) ->
  u64 seconds -> fraction <> ""%string -> (String.length fraction <= 9)%nat ->
  parse_digits 10 u64_max digit_val 0 fraction = Some value ->
  trace_timestamp_ns_for line marker
  = Some (seconds * 10 ^ 9 + value * 10 ^ (9 - Z.of_nat (String.length fraction))).
Proof.
  intros Hline Hs Hne Hlen Hv. unfold trace_timestamp_ns_for. rewrite Hline.
  destruct (TraceFacts.parse_digits_bounds _ _ _ _ (Z.le_refl 0) Hv) as [Hdigits Hvr].
  assert (Hsec : str_all is_digit (show_uint seconds) = true) by (apply show_uint_digits; unfold u64 in Hs; lia).
  set (stamp := (show_uint seconds ++ String "." fraction)%string).
  assert (Hst : (show_uint seconds ++ "." ++ fraction ++ ":")%string = (stamp ++ ":")%string)
    by (unfold stamp; by rewrite <- app_str_assoc).
  rewrite Hst.
  assert (Hp : forall p : ascii -> bool, (forall c, is_digit c = true -> p c = true) -> p "."%char = true ->
    str_all p stamp = true).
  { intros p Hd Hdot. unfold stamp. rewrite str_all_app. cbn [str_all]. rewrite Hdot.
    by rewrite !(TraceFacts.digits_plain _ p) by done. }
  assert (Hsplit : split_once "." stamp = Some (show_uint seconds, fraction)).
  { apply split_once_char. apply (TraceFacts.digits_plain _ _ Hsec), TraceFacts.digit_not_dot. }
  assert (Htok : token (stamp ++ ":") = true).
  { apply token_app; [| done]. unfold token. apply andb_true_iff. split.
    - unfold stamp. rewrite str_empty_app. cbn. by rewrite andb_false_r.
    - apply Hp; [apply TraceFacts.digit_not_ws | done]. }
  assert (Hcolon : str_contains_char ":" stamp = false).
  { unfold str_contains_char. apply negb_false_iff, Hp; [apply TraceFacts.digit_not_colon | done]. }
  cbn [mbind option_bind]. unfold split_whitespace.
  rewrite (TraceFacts.split_ws_app_token task (stamp ++ ":") "" Htok), rev_app_distr.
  cbn [rev app map find_first]. rewrite TraceFacts.trim_end_colon by done.
  assert (Ht : timestamp_token stamp = true).
  { unfold timestamp_token. rewrite Hsplit. cbn [is_some_and].
    rewrite Hsec, Hdigits, !andb_true_r. apply andb_true_iff. split; apply negb_true_iff, String.eqb_neq;
      [apply show_uint_nonempty | done]. }
  rewrite Ht. cbn [mbind option_bind]. rewrite Hsplit. cbn [mbind option_bind].
  unfold parse_u128. rewrite parse_unsigned_show by (revert Hs; unfold_int; lia). cbn [mbind option_bind].
  f_equal. assert (Hns : nanoseconds_of fraction = value * 10 ^ (9 - Z.of_nat (String.length fraction))).
  { unfold nanoseconds_of. rewrite firstn_all2 by (by rewrite TraceFacts.length_list_ascii).
    by rewrite (TraceFacts.digits_fold _ _ _ _ Hv), TraceFacts.length_list_ascii. }
  rewrite Hns. apply Z.mod_small. change 1000000000 with (10 ^ 9).
  assert (Hpow : 10 ^ 9 = 10 ^ Z.of_nat (String.length fraction)
                          * 10 ^ (9 - Z.of_nat (String.length fraction)))
    by (rewrite <- Z.pow_add_r by lia; f_equal; lia).
  assert (0 < 10 ^ (9 - Z.of_nat (String.length fraction))) by (apply Z.pow_pos_nonneg; lia).
  assert (0 <= value * 10 ^ (9 - Z.of_nat (String.length fraction)) < 10 ^ 9) by (rewrite Hpow; nia).
  revert Hs. unfold_int. lia.
Qed.
End Theorems.

(** ** Witnesses *)
Module Witnesses.

(** a scenario run in which every gate passed, one of them only the second time *)
Definition passing : Verdict :=
  {| vd_checks := check "capability" false "retried"
       :: map (fun name => check name true "") KSM_REQUIRED_GATES;
     vd_required_gates_passed := false; vd_failure_class := None; vd_failure_reason := None |}.
Example passing_run : ko_success (snd (finalize_ksm_outcome passing Positive)) = true.
Proof. vm_compute. reflexivity. Qed.
(** the gates of the other scenario are other ones *)
Example wrong_scenario : ko_error (snd (finalize_ksm_outcome passing Inefficient))
  = Some "ksm: mandatory_gates_failed:sufficient_inefficiency_evidence,controller_inefficient_transition,controller_auto_disable,cooldown_entered,cooldown_rejects_next_plan"%string.
Proof. vm_compute. reflexivity. Qed.

Definition region (nr start : Z) : TraceRegion :=
  {| tg_target_id := 0; tg_nr_regions := nr; tg_start := start; tg_end := start + 4096;
     tg_nr_accesses := 1; tg_age := 0 |}.
Definition trace : list (Z * TraceRegion) :=
  [(900, region 3 0); (1000, region 2 0); (1010, region 2 4096); (2000, region 2 0);
   (1990, region 2 4096)].
Example timed_trace : map fst (group_timed_aggregation_windows trace) = [1010; 2000].
Proof. vm_compute. reflexivity. Qed.

Definition progress (hot : Z) : WorkloadProgress :=
  {| wp_hot_cycles := hot; wp_warm_cycles := 0; wp_hot_pages_touched := 0;
     wp_warm_pages_touched := 0; wp_cold_cycles := 0; wp_workload_started_ns := 0;
     wp_workload_stopped_ns := 0; wp_hot_fingerprint := 0; wp_warm_fingerprint := 0;
     wp_cold_fingerprint := 0 |}.
Definition first_point : Z * WorkloadProgress := (1200, progress 0).
Definition later_points : list (Z * WorkloadProgress) := [(1700, progress 50); (2500, progress 90)].
Definition points : list (Z * WorkloadProgress) := first_point :: later_points.
Definition timed : list (Z * list TraceRegion) := group_timed_aggregation_windows trace.
Lemma alignment_exact_witness :
  let '(alignment, complete) :=
    align_complete_windows timed 1 500 2500 (workload_window_progress (first_point :: later_points)) in
  complete = map snd (List.filter (TraceFacts.inside 1 500 2500) timed) /\
  Forall2 (fun w a =>
    aw_partial a = negb (TraceFacts.inside 1 500 2500 w) /\
    aw_overlap_duration_ns a
    = u64_sat_sub (Z.min (fst (List.last (first_point :: later_points) first_point)) (fst w))
        (Z.max (fst first_point) (u64_sat_sub (fst w) (1 * 1000)))) timed alignment.
Proof.
  apply (Theorems.alignment_exact timed 1 500 2500 first_point later_points).
  - cbn. lia.
  - assert (H : timed = [(1010, [region 2 0; region 2 4096]); (2000, [region 2 0; region 2 4096])])
      by (vm_compute; reflexivity).
    rewrite H. clear H. repeat constructor; vm_compute; discriminate.
  - lia.
Defined.
(** only the second window is complete: it overlaps the progress for 800 of its 1000 ns *)
Example aligned :
  let '(alignment, complete) :=
    align_complete_windows (group_timed_aggregation_windows trace) 1 500 2500
      (workload_window_progress points) in
  map aw_partial alignment = [true; false] /\ map aw_overlap_duration_ns alignment = [0; 800] /\
  map aw_hot_cycles_delta alignment = [0; 65] /\ length complete = 1%nat.
Proof. vm_compute. repeat split. Qed.

Lemma unique_pages_differ_witness :
  firstn 8 (skipn (8 * 1) (fill_unique_ksm_page 24 "session" 1 7))
  <> firstn 8 (skipn (8 * 1) (fill_unique_ksm_page 24 "session" 2 7)).
Proof.
  apply (Theorems.unique_pages_differ "session" 1 2 7 7 24 1); unfold_int; lia.
Defined.

Lemma trace_timestamp_read_witness :
  trace_timestamp_ns_for "kdamond.0-1143  [001] .....  79357.842179: damon_aggregated: target_id=0"
    "damon_aggregated:" = Some (79357 * 10 ^ 9 + 842179 * 10 ^ (9 - 6)).
Proof.
  apply (Theorems.trace_timestamp_read _ _ "kdamond.0-1143  [001] ..... " " target_id=0" "842179").
  - vm_compute. reflexivity.
  - unfold_int. lia.
  - discriminate.
  - simpl. lia.
  - vm_compute. reflexivity.
Defined.
End Witnesses.
