(* ===== verification/PrivilegedHost.v ===== *)
(** crates/test-support/src/bin/nemor-privileged-validation.rs, what the privileged
    validation reads and writes: the captured traces, the owned trace instance, the DAMON
    resources and their recovery after a crash, the DAMOS statistics and the residency of
    a range, the KSM processes, the host before and after, the reports, and the store of
    cgroup mutations that survives a crash. [HarnessSystem] is the host; an error is its
    text, as [anyhow] shows it. *)

From S2P Require Import Prelude F64 Text Config Classifier Policy Actuator Zram Tiering BootContract BootHost.
From S2P Require Import Damon Damos Ksm Privileged.

(** a directory entry: its name and whether it is a directory *)
Record HostEntry := { he_name : string; he_is_dir : result bool IoError }.

Class HarnessSystem (W : Type) := {
  host_text : string -> W -> result string IoError;             (* [fs::read_to_string] *)
  host_exists : string -> W -> bool;
  host_is_dir : string -> W -> bool;
  host_entries : string -> W -> result (list (result HostEntry IoError)) IoError;
  host_stat : string -> W -> result FileStat IoError;           (* [symlink_metadata] *)
  host_canonical : string -> W -> result string IoError;
  host_pagemap : Z -> Z -> W -> result Z IoError;               (* eight bytes of pagemap *)
  host_now : W -> Z;                                            (* ns since the epoch *)
  host_stdout : string -> list string -> W -> result string string; (* of a success *)
  host_write : string -> string -> eff W unit IoError;          (* [fs::write] *)
  host_create_new : string -> Z -> eff W unit IoError;          (* exclusive, with a mode *)
  host_append_synced : string -> string -> eff W unit IoError;  (* [write_all], [sync_all] *)
  host_create_dir : string -> eff W unit IoError;
  host_remove_dir : string -> eff W unit IoError;
  host_remove_file : string -> eff W unit IoError;
  host_rename : string -> string -> eff W unit IoError;
  host_sync_dir : string -> eff W unit IoError
}.

(** the error of the library passed on, or behind the context that replaces its text *)
Definition io {A} (r : result A IoError) : result A string := map_error io_text r.
Definition contextual {A} (context : string) (r : result A IoError) : result A string :=
  map_error (fun _ => context) r.

Definition damos_error_text (e : DamosError) : string :=
  match e with
  | Damos.InvalidPlan m => "invalid DAMOS plan: " ++ m
  | Damos.Unsupported m => "mandatory DAMOS capability missing: " ++ m
  end%string.

Section Harness.
Context {W : Type} `{HarnessSystem W}.

(** [?] on a call of the library that changes the host *)
Definition host {A} (m : eff W A IoError) : eff W A string := eff_map_err io_text m.
Definition read_trimmed (path : string) (w : W) : result string string :=
  let? text := contextual ("read " ++ path) (host_text path w) in Ok (trim text).
(** [read_trimmed(path).ok().as_deref() == Some(value)] *)
Definition reads_as (path value : string) (w : W) : bool :=
  is_some_and (result_ok (read_trimmed path w)) (String.eqb value).
Definition read_number (parse : string -> option Z) (path : string) (w : W) : option Z :=
  result_ok (read_trimmed path w) ≫= parse.
Definition write_readback (path value : string) : eff W unit string :=
  eff_map_err (fun _ => "write " ++ path)%string (host_write path value) ;!
  let! text := eff_read (read_trimmed path) in
  eff_reject (negb (String.eqb text value)) ("readback mismatch for " ++ path)%string.

Definition proc_file (pid : Z) (name : string) : string :=
  ("/proc/" ++ show_uint pid ++ "/" ++ name)%string.
(** the fields after the command's name *)
Definition stat_fields (value : string) : result (list string) string :=
  let? parts := ok_or (rsplit_char ")" value) "invalid proc stat"%string in
  Ok (split_whitespace (snd parts)).
Definition proc_start_ticks (pid : Z) (w : W) : result (option Z) string :=
  match host_text (proc_file pid "stat") w with
  | Ok value =>
      let? fields := stat_fields value in
      Ok (nth_error fields 19 ≫= parse_u64)
  | Err error =>
      if bool_decide (io_kind error = Tiering.NotFound) then Ok None else Err (io_text error)
  end.
Definition proc_cpu_ticks (pid : Z) (w : W) : result Z string :=
  let? value := io (host_text (proc_file pid "stat") w) in
  let? fields := stat_fields value in
  let field n := unwrap_or (nth_error fields n ≫= parse_u64) 0 in
  Ok (u64_wrap (field 11%nat + field 12%nat)).

(** ** Captured traces *)

Definition RAW_LIMIT : nat := 4.
Definition last_lines (l : list string) : list string := rev (firstn RAW_LIMIT (rev l)).
Definition event_enable (instance event : string) : string :=
  path_join instance ("events/damon/" ++ event ++ "/enable").

(** the fold over the lines: the events, and what could not be read *)
Definition damos_line (acc : list DamosBeforeApplyEvent * Z * Z) (line : string) :
    list DamosBeforeApplyEvent * Z * Z :=
  let '(events, parse_failures, timestamp_failures) := acc in
  match trace_timestamp_ns_for line "damos_before_apply:" with
  | Some timestamp =>
      match parse_damos_before_apply line timestamp with
      | Ok event => (events ++ [event], parse_failures, timestamp_failures)
      | Err _ => (events, parse_failures + 1, timestamp_failures)
      end
  | None => (events, parse_failures, timestamp_failures + 1)
  end.
Definition parse_damos_trace_capture (instance : string) (clock : TraceClockPlan)
    (worker_ready : bool) (bytes : string) (bytes_after_stop : Z) (w : W) :
    DamosTraceDiagnostic * list DamosBeforeApplyEvent :=
  let lines_seen := List.filter (str_contains "damos_before_apply:") (lines bytes) in
  let '(events, parse_failures, timestamp_failures) := foldl damos_line ([], 0, 0) lines_seen in
  ({| dt_available := true; dt_instance_path := instance;
      dt_trace_clock := Some (tp_effective clock);
      dt_userspace_clock := Some (report_name (tp_userspace_clock clock));
      dt_trace_clock_readback := tp_readback clock;
      dt_event_enable_readback := reads_as (event_enable instance "damos_before_apply") "1" w;
      dt_tracing_on_readback := reads_as (path_join instance "tracing_on") "1" w;
      dt_capture_worker_ready := worker_ready;
      dt_trace_bytes_read := Z.of_nat (String.length bytes);
      dt_trace_lines_read := Z.of_nat (length (lines bytes));
      dt_event_lines_seen := Z.of_nat (length lines_seen);
      dt_events_parsed := Z.of_nat (length events);
      dt_parse_failures := parse_failures; dt_timestamp_failures := timestamp_failures;
      dt_bytes_after_stop := bytes_after_stop;
      dt_raw_first := firstn RAW_LIMIT lines_seen; dt_raw_last := last_lines lines_seen |}, events).

Definition damon_line (acc : list CapturedEvent * Z * Z) (line : string) : list CapturedEvent * Z * Z :=
  let '(events, parse_failures, timestamp_failures) := acc in
  match parse_aggregated line with
  | Ok region =>
      let timestamp_ns := trace_timestamp_ns line in
      (events ++ [{| ce_timestamp_ns := timestamp_ns; ce_region := region |}], parse_failures,
       if is_none timestamp_ns then timestamp_failures + 1 else timestamp_failures)
  | Err _ => (events, parse_failures + 1, timestamp_failures)
  end.
Definition parse_trace_capture (session_id instance : string) (worker_ready : bool)
    (bytes : string) (bytes_after_stop : Z) (w : W) : TraceCaptureDiagnostic * list CapturedEvent :=
  let damon_lines := List.filter (str_contains "damon_aggregated:") (lines bytes) in
  let '(events, parse_failures, timestamp_failures) := foldl damon_line ([], 0, 0) damon_lines in
  ({| td_session_id := session_id; td_instance_path := instance;
      td_event_enable := reads_as (event_enable instance "damon_aggregated") "1" w;
      td_tracing_on := reads_as (path_join instance "tracing_on") "1" w;
      td_capture_worker_ready := worker_ready;
      td_trace_bytes_read := Z.of_nat (String.length bytes);
      td_trace_lines_read := Z.of_nat (length (lines bytes));
      td_damon_event_lines_seen := Z.of_nat (length damon_lines);
      td_damon_events_parsed := Z.of_nat (length events);
      td_timestamp_values_parsed :=
        Z.of_nat (length (List.filter (fun event => is_some (ce_timestamp_ns event)) events));
      td_parse_failures := parse_failures; td_timestamp_failures := timestamp_failures;
      td_incomplete_lines := if negb (str_empty bytes) && negb (ends_with newline bytes) then 1 else 0;
      td_bytes_after_kdamond_stop := bytes_after_stop;
      td_available_trace_clocks := []; td_requested_trace_clock := None;
      td_effective_trace_clock := None; td_userspace_clock := None;
      td_trace_clock_readback := false; td_timestamp_correlation_valid := false;
      td_trace_events_total := Z.of_nat (length events);
      td_trace_events_in_monitoring_window := 0; td_trace_events_outside_monitoring_window := 0;
      td_trace_events_unmatched := 0; td_trace_timestamp_min := None; td_trace_timestamp_max := None;
      td_workload_monitoring_start_monotonic := None; td_workload_monitoring_end_monotonic := None;
      td_raw_first := firstn RAW_LIMIT damon_lines; td_raw_last := last_lines damon_lines |}, events).

Definition configure_owned_trace_clock (instance : string) : eff W TraceClockPlan string :=
  let allowed_root :=
    existsb (fun root => path_under root instance)
      ["/sys/kernel/tracing/instances"; "/sys/kernel/debug/tracing/instances"]%string in
  eff_reject (negb allowed_root
              || negb (is_some_and (Process.path_file_name instance) (starts_with PREFIX)))
    "trace_clock write rejected outside owned tracefs instance"%string ;!
  let path := path_join instance "trace_clock" in
  let! first := eff_read (fun w => let? text := read_trimmed path w in parse_trace_clocks text) in
  let! chosen := eff_read (fun _ => choose_trace_clock (fst first)) in
  let '(requested, userspace_clock) := chosen in
  eff_map_err (fun _ => "write " ++ path)%string (host_write path requested) ;!
  let! second := eff_read (fun w => let? text := read_trimmed path w in parse_trace_clocks text) in
  let effective := snd second in
  let readback := String.eqb effective requested in
  eff_reject (negb readback) "owned trace clock readback mismatch"%string ;!
  eff_ret {| tp_available := fst first; tp_requested := requested; tp_effective := effective;
             tp_userspace_clock := userspace_clock; tp_readback := readback |}.

Definition mapped_range (line : string) : result Damon.AddressRange string :=
  let? range := ok_or (head (split_whitespace line)) "malformed proc maps line"%string in
  let? bounds := ok_or (split_once "-" range) "malformed proc maps range"%string in
  let? start := ok_or (parse_hex_u64 (fst bounds)) "invalid number"%string in
  let? stop := ok_or (parse_hex_u64 (snd bounds)) "invalid number"%string in
  Ok {| ar_start := start; ar_end := stop |}.
Definition proc_mapped_ranges (pid : Z) (w : W) : result (list Damon.AddressRange) string :=
  let? maps := io (host_text (proc_file pid "maps") w) in
  collect_results (map mapped_range (lines maps)).

(** ** The DAMON resources of a session *)

Record DamonCleanup := {
  dc_admin : string;
  dc_trace_instance : string;
  dc_kdamond_created : bool;
  dc_kdamond_on : bool;
  dc_trace_created : bool;
  dc_trace_enabled : bool;
  dc_tracing_on : bool;
  dc_trace_event : string
}.
Definition new_for_event (admin trace_instance trace_event : string) : DamonCleanup :=
  {| dc_admin := admin; dc_trace_instance := trace_instance; dc_kdamond_created := false;
     dc_kdamond_on := false; dc_trace_created := false; dc_trace_enabled := false;
     dc_tracing_on := false; dc_trace_event := trace_event |}.
Definition new_cleanup (admin trace_instance : string) : DamonCleanup :=
  new_for_event admin trace_instance "damon_aggregated".
(** the flags, by the order in which [cleanup] takes them back *)
Inductive Held := KdamondOn | KdamondCreated | TracingOn | TraceEnabled | TraceCreated.
#[export] Instance Held_eq_dec : EqDecision Held.
Proof. solve_decision. Defined.
Definition held (self : DamonCleanup) (h : Held) : bool :=
  match h with
  | KdamondOn => dc_kdamond_on self
  | KdamondCreated => dc_kdamond_created self
  | TracingOn => dc_tracing_on self
  | TraceEnabled => dc_trace_enabled self
  | TraceCreated => dc_trace_created self
  end.
Definition set_held (h : Held) (value : bool) (self : DamonCleanup) : DamonCleanup :=
  let flag k := if bool_decide (k = h) then value else held self k in
  {| dc_admin := dc_admin self; dc_trace_instance := dc_trace_instance self;
     dc_kdamond_created := flag KdamondCreated; dc_kdamond_on := flag KdamondOn;
     dc_trace_created := flag TraceCreated; dc_trace_enabled := flag TraceEnabled;
     dc_tracing_on := flag TracingOn; dc_trace_event := dc_trace_event self |}.

(** what gives it back, and whether it is there to be given back *)
Definition give_back (self : DamonCleanup) (h : Held) : eff W unit IoError :=
  match h with
  | KdamondOn => host_write (path_join (dc_admin self) "0/state") "off"
  | KdamondCreated => host_write (path_join (dc_admin self) "nr_kdamonds") "0"
  | TracingOn => host_write (path_join (dc_trace_instance self) "tracing_on") "0"
  | TraceEnabled =>
      host_write (path_join (path_join (path_join (dc_trace_instance self) "events/damon")
                    (dc_trace_event self)) "enable") "0"
  | TraceCreated => host_remove_dir (dc_trace_instance self)
  end.
Definition needs (h : Held) (s : DamonCleanup * W) : bool :=
  held (fst s) h
  && match h with TraceCreated => host_exists (dc_trace_instance (fst s)) (snd s) | _ => true end.
(** [if self.flag { .. ?; self.flag = false; }] *)
Definition undo (h : Held) : eff (DamonCleanup * W) unit string :=
  let! s := eff_get in
  if needs h s
  then eff_snd (host (give_back (fst s) h)) ;! eff_fst (eff_upd (set_held h false))
  else eff_ret tt.
Definition cleanup : eff (DamonCleanup * W) unit string :=
  undo KdamondOn ;! undo KdamondCreated ;! undo TracingOn ;! undo TraceEnabled ;! undo TraceCreated.
(** [Drop::drop] *)
Definition drop_cleanup (s : DamonCleanup * W) : W := snd (fst (cleanup s)).

Definition tracefs_root (w : W) : result string string :=
  ok_or (find_first (fun path => host_is_dir (path_join path "instances") w)
           ["/sys/kernel/tracing"; "/sys/kernel/debug/tracing"]%string)
    "tracefs instances are unavailable"%string.
(** entries that cannot be read are left out *)
Definition trace_instances (w : W) : result (gset string) string :=
  let? root := tracefs_root w in
  let? entries := io (host_entries (path_join root "instances") w) in
  Ok (list_to_set (omap (fun entry =>
        e ← result_ok entry;
        then_some (is_ok (he_is_dir e) && bool_decide (result_ok (he_is_dir e) = Some true))
          (he_name e)) entries)).

Definition KDAMONDS : string := "/sys/kernel/mm/damon/admin/kdamonds".
Definition RECOVERY_STATE : string := path_join STATE_DIR "damon-recovery.json".
(** serde_json reads the state: whether [zero_damos] is [true], and the trace instance where
    that is a string *)
Context (recovery_state : string -> result (bool * option string) string).

Definition owned_recovery_trace (root trace : string) : bool :=
  is_some_and (Process.path_file_name trace) (starts_with "nemor-validation-recovery-")
  && bool_decide (parent_components trace
                  = Some (Process.path_components (path_join root "instances")))
  && Bool.eqb (is_absolute trace) (is_absolute root).
(** the branch on the kdamond that exists *)
Definition recover_kdamond : eff W unit string :=
  let! w := eff_get in
  if host_exists (path_join KDAMONDS "0") w then
    (if reads_as (path_join KDAMONDS "0/state") "on" w
     then host (host_write (path_join KDAMONDS "0/state") "off")
     else eff_ret tt) ;!
    let! schemes := eff_read (read_trimmed (path_join KDAMONDS "0/contexts/0/schemes/nr_schemes")) in
    eff_reject (negb (String.eqb schemes "0")) "recovery refuses non-zero schemes"%string ;!
    host (host_write (path_join KDAMONDS "nr_kdamonds") "0")
  else eff_ret tt.
Definition recover_damon_crash : eff W unit string :=
  let! w := eff_get in
  if negb (host_exists RECOVERY_STATE w) then eff_ret tt
  else
    let! state := eff_read (fun w => let? text := io (host_text RECOVERY_STATE w) in recovery_state text) in
    eff_reject (negb (fst state)) "recovery state does not prove zero DAMOS"%string ;!
    let! trace := eff_read (fun _ => ok_or (snd state) "missing recovery trace instance"%string) in
    let! owned := eff_read (fun w =>
      if is_some_and (Process.path_file_name trace) (starts_with "nemor-validation-recovery-")
      then let? root := tracefs_root w in Ok (owned_recovery_trace root trace)
      else Ok false) in
    eff_reject (negb owned) "recovery trace ownership is invalid"%string ;!
    recover_kdamond ;!
    let! w := eff_get in
    (if host_exists trace w then host (host_remove_dir trace) else eff_ret tt) ;!
    host (host_remove_file RECOVERY_STATE).

(** ** DAMOS *)

Definition region_dir (root : string) (index : nat) : string :=
  path_join root (show_uint (Z.of_nat index)).
(** the loop over the regions of a directory *)
Definition tried_region (root : string) (w : W) (index : nat) : option TriedRegionSample :=
  let item := region_dir root index in
  start ← read_number parse_u64 (path_join item "start") w;
  stop ← read_number parse_u64 (path_join item "end") w;
  Some {| tr_range := {| ar_start := start; ar_end := stop |};
          tr_size := u64_sat_sub stop start;
          tr_nr_accesses := read_number parse_u64 (path_join item "nr_accesses") w;
          tr_age := read_number parse_u64 (path_join item "age") w;
          tr_sz_filter_passed := read_number parse_u64 (path_join item "sz_filter_passed") w |}.
Definition region_count (root : string) (w : W) : Z :=
  let count := unwrap_or (read_number parse_u64 (path_join root "nr_regions") w) 0 in
  if negb (count =? 0) then count
  else match host_entries root w with
       | Ok entries =>
           Z.of_nat (length (omap (fun entry =>
             e ← result_ok entry; then_some (str_all is_digit (he_name e)) e) entries))
       | Err _ => 0
       end.
Definition tried_regions_of (root : string) (w : W) : list TriedRegionSample :=
  omap (tried_region root w) (seq 0 (Z.to_nat (region_count root w))).
Definition quota_interpretation (raw : string) : string :=
  if String.eqb raw "0"
  then "kernel-reported effective size quota is zero after explicit refresh; this is not interpreted as disabled quota because configured ms/bytes are nonzero"
  else "kernel-reported effective size quota after explicit refresh".
Definition read_damos_stats (scheme : string) (w : W) : DamosStats :=
  let read name := read_number parse_u64 (path_join (path_join scheme "stats") name) w in
  let roots := [path_join scheme "tried_regions"; path_join scheme "stats/tried_regions"] in
  let samples := flat_map (fun root => tried_regions_of root w) roots in
  let effective_quota_raw := result_ok (read_trimmed (path_join scheme "quotas/effective_bytes") w) in
  {| ds_effective_quota_bytes := effective_quota_raw ≫= parse_u64;
     ds_nr_tried := read "nr_tried"; ds_sz_tried := read "sz_tried";
     ds_nr_applied := read "nr_applied"; ds_sz_applied := read "sz_applied";
     ds_sz_ops_filter_passed := read "sz_ops_filter_passed"; ds_qt_exceeds := read "qt_exceeds";
     ds_nr_snapshots := read "nr_snapshots"; ds_max_nr_snapshots := read "max_nr_snapshots";
     ds_tried_regions := map tr_range samples; ds_tried_region_samples := samples;
     ds_tried_regions_total_bytes :=
       find_map (fun root => read_number parse_u64 (path_join root "total_bytes") w) roots;
     ds_first_tried_snapshot_index := None; ds_first_tried_region_age := None;
     ds_first_tried_timestamp_ns := None;
     ds_effective_quota_raw := effective_quota_raw;
     ds_effective_quota_interpretation := quota_interpretation <$> effective_quota_raw |}.

(** the loop over the pages: those present, swapped and neither *)
Fixpoint count_pages (pid offset : Z) (pages : nat) (w : W) (counts : Z * Z * Z) :
    result (Z * Z * Z) string :=
  match pages with
  | O => Ok counts
  | S pages' =>
      let? entry := io (host_pagemap pid offset w) in
      let state := parse_pagemap_entry entry in
      let '(present, swapped, none) := counts in
      match pg_present state, pg_swapped state with
      | true, false => count_pages pid (offset + 8) pages' w (present + 1, swapped, none)
      | false, true => count_pages pid (offset + 8) pages' w (present, swapped + 1, none)
      | false, false => count_pages pid (offset + 8) pages' w (present, swapped, none + 1)
      | true, true => Err "invalid pagemap entry has present and swapped set"%string
      end
  end.
(** the host is read at [w] and, once the pages have been counted, again at [later] *)
Definition read_range_residency (pid expected_start_ticks : Z) (range : Damon.AddressRange)
    (w later : W) : result RangeResidencySnapshot string :=
  let? start_ticks := proc_start_ticks pid w in
  reject (negb (bool_decide (start_ticks = Some expected_start_ticks)))
    "stale target identity before pagemap snapshot"%string ;?
  let? size := ok_or (u64_checked_sub (ar_end range) (ar_start range)) "invalid pagemap range"%string in
  reject ((size =? 0) || negb (ar_start range mod 4096 =? 0) || negb (size mod 4096 =? 0))
    "pagemap range is not base-page aligned"%string ;?
  let total_pages := size / 4096 in
  reject (32 * 1024 * 1024 / 4096 <? total_pages)
    "pagemap range exceeds bounded synthetic COLD size"%string ;?
  let? offset := ok_or (u64_checked_mul (ar_start range / 4096) 8) "pagemap offset overflow"%string in
  let? counts := count_pages pid offset (Z.to_nat total_pages) w (0, 0, 0) in
  let '(present, swapped, none) := counts in
  let? start_ticks := proc_start_ticks pid later in
  reject (negb (bool_decide (start_ticks = Some expected_start_ticks)))
    "stale target identity after pagemap snapshot"%string ;?
  let snapshot :=
    {| rr_range_start := ar_start range; rr_range_end := ar_end range; rr_range_size_bytes := size;
       rr_page_size := 4096; rr_total_pages := total_pages; rr_present_pages := present;
       rr_present_bytes := present * 4096; rr_swapped_pages := swapped;
       rr_swapped_bytes := swapped * 4096; rr_not_present_not_swapped_pages := none;
       rr_read_errors := 0; rr_timestamp_ns := host_now later; rr_source := "proc_pagemap" |} in
  let? _ := map_error damos_error_text (validate_residency snapshot) in
  Ok snapshot.

(** a line that names the counter and does not parse does not end the search *)
Definition oom_kill_of_line (line : string) : option Z :=
  match split_whitespace line with
  | name :: value :: _ => if String.eqb name "oom_kill" then parse_u64 value else None
  | _ => None
  end.
Definition oom_kill_count (w : W) : Z :=
  unwrap_or (text ← result_ok (host_text "/proc/vmstat" w); find_line oom_kill_of_line text) 0.

(** ** KSM *)

(** the metrics of an owned process, with what its mappings say *)
Definition owned_metrics (session_id : string) (pid expected : Z) (stat smaps : string) :
    KsmProcessMetrics :=
  let metrics := parse_process_ksm_stat stat (owned_validation_identity session_id pid expected) in
  let mapped := parse_smaps_ksm_bytes smaps in
  with_mapped mapped
    (bool_decide (kp_ksm_mergeable metrics = Some false)
     && negb (bool_decide (kp_ksm_merge_any metrics = Some true))
     && (unwrap_or mapped 0 =? 0) && (0 <? unwrap_or (kp_ksm_merging_pages metrics) 0)) metrics.
Definition observe_owned_ksm_process (session_id : string) (w : W) (target : KsmTargetMetadata) :
    result KsmProcessMetrics string :=
  let pid := kt_pid target in
  let? expected := ok_or (kt_start_ticks target) "owned KSM target start_ticks unavailable"%string in
  let? current := proc_start_ticks pid w in
  reject (negb (bool_decide (current = Some expected)))
    "owned KSM target PID/start_ticks became stale"%string ;?
  let? stat := io (host_text (proc_file pid "ksm_stat") w) in
  let? smaps := io (host_text (proc_file pid "smaps") w) in
  Ok (owned_metrics session_id pid expected stat smaps).
Definition observe_owned_ksm_processes (targets : list KsmTargetMetadata) (session_id : string) (w : W) :
    result (list KsmProcessMetrics) string :=
  collect_results (map (observe_owned_ksm_process session_id w) targets).

Definition collect_ksm_bootstrap_evidence (child_id : Z) (target : KsmTargetMetadata) (w : W) :
    result KsmBootstrapEvidence string :=
  let? smaps := io (host_text (proc_file (kt_pid target) "smaps") w) in
  Ok (bootstrap_evidence child_id target smaps).
(** the scanner that the guard knows to be started, and the checks of the evidence; the time
    stamp of the stop is left out *)
Definition stop_owned_ksm_scanner (root : string) :
    eff ((list Check_ * bool) * W) bool string :=
  eff_snd (host (host_write (path_join root "run") ("0" ++ newline)%string)) ;!
  eff_fst (eff_upd (fun s => (fst s, false))) ;!
  let! text := eff_snd (eff_read (fun w => io (host_text (path_join root "run") w))) in
  let stopped := String.eqb (trim text) "0" in
  eff_fst (eff_upd (fun s => (set_check (fst s) (check "scanner_stopped" stopped
    "owned run transition 1->0 was attempted and read back on the common post-run path"), snd s))) ;!
  eff_ret stopped.

(** the loop over /proc: the first process called [ksmd] decides *)
Fixpoint ksmd_ticks (entries : list (result HostEntry IoError)) (w : W) : option Z :=
  match entries with
  | [] => None
  | entry :: rest =>
      match result_ok entry with
      | None => ksmd_ticks rest w
      | Some e =>
          let file name := path_join (path_join "/proc" (he_name e)) name in
          if is_none (parse_u32 (he_name e)) then ksmd_ticks rest w
          else
            match host_text (file "comm"%string) w with
            | Err _ => ksmd_ticks rest w
            | Ok comm =>
                if negb (String.eqb (trim comm) "ksmd") then ksmd_ticks rest w
                else
                  stat ← result_ok (host_text (file "stat"%string) w);
                  fields ← result_ok (stat_fields stat);
                  user ← nth_error fields 11 ≫= parse_u64;
                  system ← nth_error fields 12 ≫= parse_u64;
                  Some (u64_sat_add user system)
            end
      end
  end.
Definition read_ksmd_cpu_ticks (w : W) : option Z :=
  entries ← result_ok (host_entries "/proc" w);
  ksmd_ticks entries w.

(** ** The host before and after *)

Record SwapEntry := {
  se_path : string;
  se_kind : string;
  se_size_kib : Z;
  se_used_kib : Z;
  se_priority : Z
}.
Record ProtectedZram := {
  pz_disksize : Z;
  pz_initstate : bool;
  pz_algorithm : string;
  pz_mem_limit : option Z;
  pz_active : bool;
  pz_priority : option Z;
  pz_provider : string;
  pz_ownership : string
}.
#[export] Instance ProtectedZram_eq_dec : EqDecision ProtectedZram.
Proof. solve_decision. Defined.
Record HostSnapshot := {
  hs_timestamp_ns : Z;
  hs_swaps : list SwapEntry;
  hs_zram_devices : gset string;
  hs_zram0 : option ProtectedZram;
  hs_validation_cgroups : gset string;
  hs_validation_processes : gset Z
}.

Definition validate_baseline (snapshot : HostSnapshot) : result unit string :=
  reject (negb (bool_decide (hs_validation_cgroups snapshot = ∅))
          || negb (bool_decide (hs_validation_processes snapshot = ∅)))
    "pre-existing validation resource makes ownership ambiguous"%string ;?
  reject (is_none_or (hs_zram0 snapshot) (fun device => negb (pz_active device)))
    "/dev/zram0 must be present and active"%string.

Definition compare_protected_zram (before after : HostSnapshot) : result unit string :=
  reject (negb (bool_decide (hs_zram0 before = hs_zram0 after)))
    "protected zram0 structural configuration changed"%string.
Definition structure (entry : SwapEntry) : string * string * Z * Z :=
  (se_path entry, se_kind entry, se_size_kib entry, se_priority entry).
Definition structural (entries : list SwapEntry) : gset (string * string * Z * Z) :=
  list_to_set (map structure entries).
Definition compare_host (before after : HostSnapshot) : result unit string :=
  reject (negb (bool_decide (structural (hs_swaps before) = structural (hs_swaps after))))
    "swap topology differs"%string ;?
  reject (negb (bool_decide (hs_zram_devices before = hs_zram_devices after)))
    "zram device topology differs"%string ;?
  let? _ := compare_protected_zram before after in
  reject (negb (bool_decide (hs_validation_cgroups after = ∅)))
    "validation cgroup residue detected"%string ;?
  reject (negb (bool_decide (hs_validation_processes after = ∅)))
    "validation process residue detected"%string.

Definition swap_entry (line : string) : result SwapEntry string :=
  match split_whitespace line with
  | [path; kind; size; used; priority] =>
      let? size := ok_or (parse_u64 size) "invalid number"%string in
      let? used := ok_or (parse_u64 used) "invalid number"%string in
      let? priority := ok_or (parse_i32 priority) "invalid number"%string in
      Ok {| se_path := path; se_kind := kind; se_size_kib := size; se_used_kib := used;
            se_priority := priority |}
  | _ => Err "unexpected /proc/swaps row"%string
  end.
Definition read_swaps (w : W) : result (list SwapEntry) string :=
  let? text := io (host_text "/proc/swaps" w) in
  let? entries := collect_results (map swap_entry
    (List.filter (fun line => negb (str_empty (trim line))) (tail (lines text)))) in
  Ok (sort_by (fun a b => String.leb (se_path a) (se_path b)) entries).

(** the recursion stops below eight directories: [levels] is nine less the depth *)
Fixpoint visit_cgroups (levels : nat) (path : string) (w : W) (found : gset string) :
    result (gset string) string :=
  match levels with
  | O => Ok found
  | S levels' =>
      let? entries := io (host_entries path w) in
      foldl (fun acc entry =>
        let? found := acc in
        let? e := io entry in
        let? dir := io (he_is_dir e) in
        if negb dir then Ok found
        else
          let child := path_join path (he_name e) in
          visit_cgroups levels' child w
            (if starts_with PREFIX (he_name e) then {[child]} ∪ found else found))
        (Ok found) entries
  end.
Definition validation_cgroups (w : W) : result (gset string) string :=
  visit_cgroups 9 "/sys/fs/cgroup" w ∅.
(** an entry that cannot be read ends the search, a command line that cannot is empty *)
Fixpoint collect_processes (entries : list (result HostEntry IoError)) (w : W) (found : gset Z) :
    result (gset Z) string :=
  match entries with
  | [] => Ok found
  | entry :: rest =>
      let? e := io entry in
      match parse_u32 (he_name e) with
      | None => collect_processes rest w found
      | Some pid =>
          let command :=
            unwrap_or (result_ok (host_text (path_join (path_join "/proc" (he_name e)) "cmdline") w)) "" in
          collect_processes rest w (if str_contains PREFIX command then {[pid]} ∪ found else found)
      end
  end.
Definition validation_processes (w : W) : result (gset Z) string :=
  let? entries := io (host_entries "/proc" w) in collect_processes entries w ∅.
Definition ensure_no_new_cgroups (baseline : HostSnapshot) (w : W) : result unit string :=
  let? now := validation_cgroups w in
  reject (negb (bool_decide (now = hs_validation_cgroups baseline)))
    "validation cgroup cleanup incomplete"%string.

(** the loop over the swaps that are expected *)
Fixpoint expect_swaps (expected : list string) (swaps : list SwapEntry) : result unit string :=
  match expected with
  | [] => Ok tt
  | name :: rest =>
      reject (negb (existsb (fun entry => String.eqb (se_path entry) ("/dev/" ++ name)) swaps))
        ("expected test swap " ++ name ++ " is not active")%string ;?
      expect_swaps rest swaps
  end.
Definition verify_swap_checkpoint (baseline : HostSnapshot) (expected : list string) (w : W) :
    result unit string :=
  let? swaps := read_swaps w in
  let? protected := ok_or (find_first (fun entry => String.eqb (se_path entry) "/dev/zram0")
                             (hs_swaps baseline)) "baseline zram0 swap missing"%string in
  reject (negb (existsb (fun entry =>
      String.eqb (se_path entry) (se_path protected) && (se_priority entry =? se_priority protected)
      && (se_size_kib entry =? se_size_kib protected)) swaps))
    "protected zram0 missing or structurally changed at checkpoint"%string ;?
  let? _ := expect_swaps expected swaps in
  reject (bool_decide (swaps = [])) "no-swap-loss invariant violated"%string.

Definition safety_path (path : string) : bool :=
  path_under "/sys/fs/cgroup" path
  && is_some_and (Process.path_file_name path) (fun name =>
       starts_with PREFIX name && ends_with ".scope" name).
Definition group_name_char (c : ascii) : bool :=
  is_ascii_alphanumeric c || Ascii.eqb c "." || Ascii.eqb c "_" || Ascii.eqb c "-".
Definition require_validation_group (name : string) : result unit string :=
  reject (negb (safety_path (path_join "/sys/fs/cgroup" name)) || str_contains "/" name
          || negb (str_all group_name_char name))
    "cgroup name is outside fixed validation namespace"%string.

(** the loop: the deepest mount point above the path, the first of equals *)
Definition mount_step (path : string) (best : option (nat * string * string)) (line : string) :
    option (nat * string * string) :=
  match split_once " - " line with
  | None => best
  | Some (mount, device) =>
      match split_whitespace mount, split_whitespace device with
      | _ :: _ :: _ :: _ :: mountpoint :: _, filesystem :: source :: _ =>
          if path_under mountpoint path
          then
            (* the root is a component *)
            let depth := S (length (Process.path_components mountpoint)) in
            if is_none_or best (fun current => Nat.ltb (fst (fst current)) depth)
            then Some (depth, source, filesystem) else best
          else best
      | _, _ => best
      end
  end.
Definition mount_for (path : string) (w : W) : result (string * string) string :=
  let? text := io (host_text "/proc/self/mountinfo" w) in
  let? best := ok_or (foldl (mount_step path) None (lines text)) ("no mount found for " ++ path)%string in
  Ok (snd (fst best), snd best).

(** ** Small readings *)

Definition read_command (executable : string) (args : list string) (w : W) : result string string :=
  reject (negb (contains_str ["/usr/bin/git"; "/usr/bin/uname"; "/usr/bin/getconf"]%string executable))
    "read-only executable is not allow-listed"%string ;?
  let? stdout := host_stdout executable args w in
  Ok (trim stdout).
Definition clock_ticks_per_second (w : W) : result f64 string :=
  let? text := read_command "/usr/bin/getconf" ["CLK_TCK"%string] w in
  ok_or (parse_f64 text) (float_error text).
(** a line that names the field and does not parse does not end the search *)
Definition mem_available_of_line (line : string) : option Z :=
  rest ← strip_prefix "MemAvailable:" line;
  value ← head (split_whitespace rest);
  parse_u64 value.
Definition mem_available_bytes (w : W) : result Z string :=
  let? text := io (host_text "/proc/meminfo" w) in
  let? kib := ok_or (find_line mem_available_of_line text) "MemAvailable unavailable"%string in
  ok_or (u64_checked_mul kib 1024) "MemAvailable overflow"%string.
Definition read_os_id (w : W) : result string string :=
  let? text := io (host_text "/etc/os-release" w) in
  ok_or (find_line (fun line => trim_char "034" <$> strip_prefix "ID=" line) text)
    "missing os-release ID"%string.
Definition process_cpu_ns (w : W) : result Z string :=
  let? text := io (host_text "/proc/self/schedstat" w) in
  let? first := ok_or (head (split_whitespace text)) "missing schedstat runtime"%string in
  ok_or (parse_u64 first) "invalid schedstat runtime"%string.
Definition signal_damon_target (name : string) : eff W unit string :=
  eff_reject (negb (contains_str ["damon-start"; "damon-stop"; "damon-refault"]%string name))
    "invalid synthetic lifecycle signal"%string ;!
  host (host_write (path_join STATE_DIR name) "1").

(** ** Reports *)

Record ExplicitReportDestination := {
  ed_path : string;
  ed_root : string;
  ed_root_device : Z;
  ed_root_inode : Z
}.
Definition explicit_report_destination (report_path report_root : option string) (w : W) :
    result (option ExplicitReportDestination) string :=
  match report_path, report_root with
  | Some path, Some root =>
      reject (negb (is_absolute path) || negb (is_absolute root))
        "explicit report path and root must be absolute"%string ;?
      reject (negb (is_some_and (Process.path_file_name path)
                      (contains_str ["damos-component-report.json"; "raw-damos-report.json"]%string)))
        "explicit report filename is not allow-listed"%string ;?
      reject (negb (bool_decide (parent_components path = Some (Process.path_components root))))
        "explicit report must be a direct child of its authorized root"%string ;?
      let? root_meta := contextual ("inspect explicit report root " ++ root) (host_stat root w) in
      reject (fs_is_symlink root_meta || negb (fs_is_dir root_meta))
        "explicit report root must be a non-symlink directory"%string ;?
      let? canonical := io (host_canonical root w) in
      reject (negb (path_eq canonical root)) "explicit report root is not canonical"%string ;?
      reject (is_ok (host_stat path w)) "explicit report path already exists"%string ;?
      Ok (Some {| ed_path := path; ed_root := root; ed_root_device := fs_dev root_meta;
                  ed_root_inode := fs_ino root_meta |})
  | None, None => Ok None
  | _, _ => Err "explicit report path and root must be supplied together"%string
  end.
(** the metadata of the open file is that of its path *)
Definition write_explicit_report (bytes : string) (destination : ExplicitReportDestination) :
    eff W unit string :=
  let path := ed_path destination in
  let root := ed_root destination in
  let! root_meta := eff_read (fun w => io (host_stat root w)) in
  let! w := eff_get in
  let! same := eff_read (fun w =>
    if fs_is_symlink root_meta || negb (fs_is_dir root_meta)
       || negb (fs_dev root_meta =? ed_root_device destination)
       || negb (fs_ino root_meta =? ed_root_inode destination)
    then Ok false
    else let? canonical := io (host_canonical root w) in Ok (path_eq canonical root)) in
  eff_reject (negb same) "explicit report root identity changed before write"%string ;!
  eff_reject (is_ok (host_stat path w)) "explicit report path appeared before write"%string ;!
  eff_map_err (fun _ => "create explicit report " ++ path)%string (host_create_new path 384) ;!
  host (host_append_synced path bytes) ;!
  let! metadata := eff_read (fun w => io (host_stat path w)) in
  let! violates := eff_read (fun w =>
    if negb (fs_is_file metadata) || negb (Z.land (fs_mode metadata) 511 =? 384)
       || negb (fs_nlink metadata =? 1)
    then Ok true
    else let? root_meta := io (host_stat root w) in Ok (negb (fs_dev metadata =? fs_dev root_meta))) in
  eff_reject violates "explicit report metadata violates the report contract"%string ;!
  host (host_sync_dir root).

Definition report_archive_path (run_id : Z) : string :=
  ("/tmp/nemor-privileged-validation-report-" ++ show_uint run_id ++ ".json")%string.
Definition write_archived_report (bytes archive latest staging_dir : string) : eff W unit string :=
  let staged_archive := path_join staging_dir "report-archive.json" in
  host (host_write staged_archive bytes) ;!
  let! w := eff_get in
  eff_reject (host_exists archive w) "run-scoped report already exists"%string ;!
  host (host_rename staged_archive archive) ;!
  let staged_latest := path_join staging_dir "report-latest.json" in
  host (host_write staged_latest bytes) ;!
  host (host_rename staged_latest latest).
(** [bytes] is the report serialised, and [started_ns] its run *)
Definition write_report (bytes : string) (started_ns : Z)
    (destination : option ExplicitReportDestination) : eff W unit string :=
  match destination with
  | Some destination => write_explicit_report bytes destination
  | None => write_archived_report bytes (report_archive_path started_ns) REPORT_PATH STATE_DIR
  end.
Definition create_state_dir : eff W unit string :=
  let! w := eff_get in
  eff_reject (host_exists STATE_DIR w)
    (STATE_DIR ++ " already exists; ownership is ambiguous")%string ;!
  host (host_create_dir STATE_DIR).

(** the lower-case debug name *)
Definition provider_name (p : Provider) : string :=
  match p with
  | SystemdGenerator => "systemdgenerator"
  | DistroUdev => "distroudev"
  | Manual => "manual"
  | UnknownProvider => "unknown"
  end.
Definition protected_zram (device : DeviceInventory) : ProtectedZram :=
  {| pz_disksize := unwrap_or (dv_disksize device) 0;
     pz_initstate := unwrap_or (dv_initstate device) false;
     pz_algorithm := unwrap_or (dv_current_algorithm device) ""%string;
     pz_mem_limit := mm_mem_limit (dv_mm_stat device); pz_active := dv_active_swap device;
     pz_priority := dv_priority device; pz_provider := provider_name (dv_provider device);
     pz_ownership := "external_protected" |}.
(** [inspected] is what [zram::inspect_linux] finds on the same host *)
Definition snapshot_host (inspected : result Inventory string) (w : W) : result HostSnapshot string :=
  let? inventory := inspected in
  let? swaps := read_swaps w in
  let? cgroups := validation_cgroups w in
  let? processes := validation_processes w in
  Ok {| hs_timestamp_ns := host_now w; hs_swaps := swaps;
        hs_zram_devices := list_to_set (map dv_name (iv_devices inventory));
        hs_zram0 := protected_zram
          <$> find_first (fun device => String.eqb (dv_name device) "zram0") (iv_devices inventory);
        hs_validation_cgroups := cgroups; hs_validation_processes := processes |}.
End Harness.

(** ** The store of cgroup mutations, in one file *)

Module Store.
Record JsonSnapshotStore := {
  js_path : string;
  js_next_id : Z;
  js_snapshots : gmap Z Actuator.MutationSnapshot;
  js_managed_groups : gset string
}.
Definition new_store (path : string) : JsonSnapshotStore :=
  {| js_path := path; js_next_id := 0; js_snapshots := ∅; js_managed_groups := ∅ |}.
Definition with_path (path : string) (self : JsonSnapshotStore) : JsonSnapshotStore :=
  {| js_path := path; js_next_id := js_next_id self; js_snapshots := js_snapshots self;
     js_managed_groups := js_managed_groups self |}.
Definition set_snapshots (next_id : Z) (f : gmap Z Actuator.MutationSnapshot -> gmap Z Actuator.MutationSnapshot)
    (self : JsonSnapshotStore) : JsonSnapshotStore :=
  {| js_path := js_path self; js_next_id := next_id; js_snapshots := f (js_snapshots self);
     js_managed_groups := js_managed_groups self |}.
Definition set_groups (f : gset string -> gset string) (self : JsonSnapshotStore) : JsonSnapshotStore :=
  {| js_path := js_path self; js_next_id := js_next_id self; js_snapshots := js_snapshots self;
     js_managed_groups := f (js_managed_groups self) |}.

Section Store.
Context {W : Type} `{HarnessSystem W}.
(** serde_json, which writes and reads the store *)
Context (to_json : JsonSnapshotStore -> string) (from_json : string -> result JsonSnapshotStore string).

Definition load (path : string) (w : W) : result JsonSnapshotStore string :=
  let? text := contextual ("read " ++ path) (host_text path w) in
  let? value := from_json text in
  Ok (with_path path value).
Definition flush : eff (JsonSnapshotStore * W) unit ActuatorError :=
  let! s := eff_get in
  eff_map_err (fun e => Persistence (io_text e))
    (eff_snd (host_write (js_path (fst s)) (to_json (fst s)))).
Definition json_persist (snapshot : Actuator.MutationSnapshot) :
    eff (JsonSnapshotStore * W) Z ActuatorError :=
  let! s := eff_get in
  let id := u64_sat_add (js_next_id (fst s)) 1 in
  eff_fst (eff_upd (set_snapshots id (<[id := Actuator.set_id id snapshot]>))) ;!
  flush ;! eff_ret id.
Definition json_update (snapshot : Actuator.MutationSnapshot) :
    eff (JsonSnapshotStore * W) unit ActuatorError :=
  let! s := eff_get in
  eff_reject (is_none (js_snapshots (fst s) !! Actuator.ms_id snapshot))
    (Persistence "unknown snapshot") ;!
  eff_fst (eff_upd (fun self =>
    set_snapshots (js_next_id self) (<[Actuator.ms_id snapshot := snapshot]>) self)) ;!
  flush.
Definition json_pending (s : JsonSnapshotStore * W) :
    result (list Actuator.MutationSnapshot) ActuatorError :=
  Ok (filter (fun s => Actuator.ms_applied s && negb (Actuator.ms_rolled_back s) = true)
        (Memory.values (js_snapshots (fst s)))).
Definition json_set_groups (f : gset string -> gset string) :
    eff (JsonSnapshotStore * W) unit ActuatorError :=
  eff_fst (eff_upd (set_groups f)) ;! flush.
Definition json_store : SnapshotStore (JsonSnapshotStore * W) := {|
  persist := json_persist;
  update := json_update;
  pending := json_pending;
  record_managed_group name _ _ := json_set_groups (fun g => {[name]} ∪ g);
  remove_managed_group name := json_set_groups (fun g => g ∖ {[name]})
|}.
End Store.
End Store.

(** ** Lemmas *)
Module Facts.
Section Facts.
Context {W : Type} `{HarnessSystem W}.

(** [undo] leaves the other flags alone, and clears its own or fails *)
Lemma undo_one_spec h (s : DamonCleanup * W) :
  let '(s', r) := undo h s in
  dc_trace_instance (fst s') = dc_trace_instance (fst s) /\
  (forall k, k <> h -> held (fst s') k = held (fst s) k) /\
  match r with
  | Ok _ => needs h s' = false
  | Err _ => fst s' = fst s
  end.
Proof.
  unfold undo, eff_bind, eff_get. destruct (needs h s) eqn:En; [| by repeat split].
  destruct s as [c w]. unfold eff_snd, eff_fst, eff_upd, host, eff_map_err. cbn [fst].
  destruct (give_back c h w) as [w' [[]|e]]; [| by repeat split].
  cbn [fst]. repeat split.
  - intros k Hk. by destruct h, k.
  - unfold needs. cbn [fst]. by destruct h.
Qed.
Lemma undo_idle h (s : DamonCleanup * W) : needs h s = false -> undo h s = (s, Ok tt).
Proof. intros E. unfold undo, eff_bind, eff_get. by rewrite E. Qed.
(** where nothing but the flags of others changes, what was not needed stays so *)
Lemma needs_flag h (s : DamonCleanup * W) : h <> TraceCreated -> needs h s = held (fst s) h.
Proof. unfold needs. intros Hh. rewrite <- (andb_true_r (held _ _)) at 2. by destruct h. Qed.

(** [undo] of each, in an order *)
Fixpoint undo_all (order : list Held) : eff (DamonCleanup * W) unit string :=
  match order with
  | [] => eff_ret tt
  | h :: order' => undo h ;! undo_all order'
  end.
Definition ORDER : list Held := [KdamondOn; KdamondCreated; TracingOn; TraceEnabled; TraceCreated].
Lemma cleanup_undo_all (s : DamonCleanup * W) : cleanup s = undo_all ORDER s.
Proof.
  unfold cleanup, ORDER, undo_all, eff_bind.
  repeat match goal with |- context [undo ?h ?s] => destruct (undo h s) as [? [[]|?]]; [| done] end.
  done.
Qed.

(** the order ends with the instance, if it has it, and names nothing twice *)
Definition proper (order : list Held) : Prop :=
  NoDup order /\ forall pre h post, order = pre ++ h :: post -> h = TraceCreated -> post = [].
Lemma proper_tail h order : proper (h :: order) -> proper order /\ h ∉ order /\ (order <> [] -> h <> TraceCreated).
Proof.
  intros [Hn Hl]. inversion Hn as [|? ? Hnot Hr]; subst. repeat split; [done | | done |].
  - intros pre k post ->. apply (Hl (h :: pre) k post eq_refl).
  - intros Hne Ht. by apply Hne, (Hl [] h order eq_refl).
Qed.
Lemma undo_all_spec order : proper order -> forall s : DamonCleanup * W,
  let '(s', r) := undo_all order s in
  (forall k, k ∉ order -> held (fst s') k = held (fst s) k) /\
  match r with
  | Ok _ => forall k, k ∈ order -> needs k s' = false
  | Err _ => exists pre h post, order = pre ++ h :: post /\
      (forall k, k ∈ pre -> held (fst s') k = false) /\
      (forall k, k ∈ h :: post -> held (fst s') k = held (fst s) k)
  end.
Proof.
  induction order as [|h order IH]; intros Hp s; [split; [done | set_solver] |].
  apply proper_tail in Hp as (Hp & Hnot & Hlast). cbn [undo_all]. unfold eff_bind.
  pose proof (undo_one_spec h s) as Hu. destruct (undo h s) as [s1 [[]|e]] eqn:Es.
  2: { destruct Hu as (_ & _ & Heq). rewrite Heq. split; [done |]. exists [], h, order.
       split; [done |]. split; [set_solver | done]. }
  destruct Hu as (_ & Hk & Hneed). specialize (IH Hp s1).
  destruct (undo_all order s1) as [s2 [[]|e]] eqn:E2; destruct IH as [Hout Hr].
  - split; [intros k [Hn Hn']%not_elem_of_cons; by rewrite Hout, Hk |].
    intros k [->|Hin]%elem_of_cons; [| by apply Hr].
    destruct order as [|h2 order]; [injection E2 as <-; done |].
    rewrite needs_flag in * by (by apply Hlast). by rewrite Hout.
  - split; [intros k [Hn Hn']%not_elem_of_cons; by rewrite Hout, Hk |].
    destruct Hr as (pre & h2 & post & -> & Hpre & Hrest). exists (h :: pre), h2, post.
    split; [done |]. split.
    + intros k [->|Hin]%elem_of_cons; [| by apply Hpre]. rewrite Hout by done.
      rewrite <- needs_flag; [done | apply Hlast; by destruct pre].
    + intros k Hin. rewrite Hrest by done. apply Hk. intros ->. apply Hnot, elem_of_app. by right.
Qed.
Lemma undo_all_idle order (s : DamonCleanup * W) : (forall k, k ∈ order -> needs k s = false) ->
  undo_all order s = (s, Ok tt).
Proof.
  induction order as [|h order IH]; intros Hn; [done |]. cbn [undo_all]. unfold eff_bind.
  rewrite undo_idle by (apply Hn; set_solver). apply IH. intros k Hk. apply Hn. set_solver.
Qed.
Lemma order_proper : proper ORDER.
Proof.
  split; [apply (bool_decide_unpack (NoDup ORDER)); vm_compute; exact I |].
  unfold ORDER. intros pre h post E ->.
  repeat (destruct pre as [|? pre]; simplify_eq/=; try done).
Qed.
Lemma held_in_order k : k ∈ ORDER.
Proof. unfold ORDER. destruct k; set_solver. Qed.
End Facts.
End Facts.

Module HostFacts.
Section HostFacts.
Context {W : Type} `{HarnessSystem W}.

(** a validation cgroup in one of the levels of directories below a path *)
Inductive residue (w : W) : nat -> string -> string -> Prop :=
| residue_here n path entries e :
    host_entries path w = Ok entries -> Ok e ∈ entries -> he_is_dir e = Ok true ->
    starts_with PREFIX (he_name e) = true -> residue w (S n) path (path_join path (he_name e))
| residue_below n path entries e q :
    host_entries path w = Ok entries -> Ok e ∈ entries -> he_is_dir e = Ok true ->
    residue w n (path_join path (he_name e)) q -> residue w (S n) path q.

(** what the entries of a directory add *)
Definition entry_residue (w : W) (n : nat) (path : string) (entries : list (result HostEntry IoError))
    (q : string) : Prop :=
  exists e, Ok e ∈ entries /\ he_is_dir e = Ok true /\
    ((starts_with PREFIX (he_name e) = true /\ q = path_join path (he_name e)) \/
     residue w n (path_join path (he_name e)) q).
Lemma residue_inv w n path q : residue w (S n) path q <->
  exists entries, host_entries path w = Ok entries /\ entry_residue w n path entries q.
Proof.
  split.
  - inversion 1; subst; eexists; split; [eassumption | | eassumption |]; eexists;
      (split; [eassumption |]); (split; [eassumption |]); [left; by split | by right].
  - intros (entries & He & e & Hin & Hd & [[Hp ->]|Hr]); [by eapply residue_here | by eapply residue_below].
Qed.

Definition visit_entry (levels : nat) (path : string) (w : W) (acc : result (gset string) string)
    (entry : result HostEntry IoError) : result (gset string) string :=
  let? found := acc in
  let? e := io entry in
  let? dir := io (he_is_dir e) in
  if negb dir then Ok found
  else
    let child := path_join path (he_name e) in
    visit_cgroups levels child w
      (if starts_with PREFIX (he_name e) then {[child]} ∪ found else found).
Lemma visit_err levels path w entries e : foldl (visit_entry levels path w) (Err e) entries = Err e.
Proof. by induction entries. Qed.
Lemma visit_fold levels path w :
  (forall p f out, visit_cgroups levels p w f = Ok out -> forall q, q ∈ out <-> q ∈ f \/ residue w levels p q) ->
  forall entries f out, foldl (visit_entry levels path w) (Ok f) entries = Ok out ->
  forall q, q ∈ out <-> q ∈ f \/ entry_residue w levels path entries q.
Proof.
  intros IH. induction entries as [|entry entries IHe]; intros f out Hf q.
  { injection Hf as ->. unfold entry_residue. set_solver. }
  cbn [foldl] in Hf. destruct (visit_entry levels path w (Ok f) entry) as [f'|x] eqn:Ev;
    [| by rewrite visit_err in Hf].
  rewrite (IHe f' out Hf q). clear IHe Hf. unfold visit_entry, io, map_error in Ev.
  destruct entry as [e|x]; [| done].
  assert (Hsplit : entry_residue w levels path (Ok e :: entries) q <->
    (he_is_dir e = Ok true /\ ((starts_with PREFIX (he_name e) = true /\ q = path_join path (he_name e)) \/
       residue w levels (path_join path (he_name e)) q)) \/ entry_residue w levels path entries q).
  { unfold entry_residue. split.
    - intros (e' & [[= ->]|Hin]%elem_of_cons & Hr); [left; exact Hr | right; by exists e'].
    - intros [Hr|(e' & Hin & Hr)]; [exists e | exists e']; (split; [| exact Hr]); set_solver. }
  rewrite Hsplit. destruct (he_is_dir e) as [[]|]; cbn [negb] in Ev; [| | done].
  - rewrite (IH _ _ _ Ev q). destruct (starts_with PREFIX (he_name e)); set_solver.
  - injection Ev as <-. assert (Hne : Ok (E := IoError) false <> Ok true) by done. tauto.
Qed.
Lemma visit_cgroups_spec levels : forall path (w : W) f out,
  visit_cgroups levels path w f = Ok out -> forall q, q ∈ out <-> q ∈ f \/ residue w levels path q.
Proof.
  induction levels as [|levels IH]; intros path w f out Hv q.
  { injection Hv as ->. split; [by left | intros [?|Hr]; [done | inversion Hr]]. }
  cbn [visit_cgroups] in Hv. destruct (host_entries path w) as [entries|x] eqn:He; [| done].
  cbn [io map_error] in Hv. rewrite residue_inv, He.
  rewrite (visit_fold levels path w (fun p f' o => IH p w f' o) entries f out Hv q).
  split; (intros [?|Hr]; [by left | right]).
  - by exists entries.
  - destruct Hr as (es & [= ->] & Hr). done.
Qed.

(** a process whose command line names the validation *)
Definition validation_process (w : W) (entries : list (result HostEntry IoError)) (pid : Z) : Prop :=
  exists e command, Ok e ∈ entries /\ parse_u32 (he_name e) = Some pid /\
    host_text (path_join (path_join "/proc" (he_name e)) "cmdline") w = Ok command /\
    str_contains PREFIX command = true.
Lemma collect_processes_spec (w : W) entries : forall f out, collect_processes entries w f = Ok out ->
  forall pid, pid ∈ out <-> pid ∈ f \/ validation_process w entries pid.
Proof.
  assert (Hcons : forall e entries pid, validation_process w (Ok e :: entries) pid <->
    (parse_u32 (he_name e) = Some pid /\ exists command,
       host_text (path_join (path_join "/proc" (he_name e)) "cmdline") w = Ok command /\
       str_contains PREFIX command = true) \/ validation_process w entries pid).
  { intros e es pid. unfold validation_process. split.
    - intros (e' & c & [[= ->]|Hin]%elem_of_cons & Hr); [left; naive_solver | right; by exists e', c].
    - intros [(Hp & c & Hc)|(e' & c & Hin & Hr)]; [exists e, c | exists e', c]; set_solver. }
  induction entries as [|[e|x] entries IH]; intros f out Hf pid; [| | done].
  { injection Hf as ->. unfold validation_process. set_solver. }
  cbn [collect_processes io map_error] in Hf. rewrite Hcons.
  destruct (parse_u32 (he_name e)) as [p|] eqn:Ep; [| rewrite (IH _ _ Hf pid); naive_solver].
  rewrite (IH _ _ Hf pid). clear IH Hf Hcons.
  destruct (host_text _ w) as [command|x]; cbn [result_ok unwrap_or]; 
    [| change (str_contains PREFIX "") with false; naive_solver].
  destruct (str_contains PREFIX command) eqn:Ec.
  - rewrite elem_of_union, elem_of_singleton. split.
    + intros [[->|Hin]|Hv]; [right; left; split; [done | by exists command] | by left | by right; right].
    + intros [Hin|[([= ->] & _)|Hv]]; [by left; right | by left; left | by right].
  - split; [intros [Hin|Hv]; [by left | by right; right] |].
    intros [Hin|[(_ & c & [= <-] & Hs)|Hv]]; [by left | congruence | by right].
Qed.

(** ** Pages *)

Definition present_page (entry : Z) : bool :=
  pg_present (parse_pagemap_entry entry) && negb (pg_swapped (parse_pagemap_entry entry)).
Definition swapped_page (entry : Z) : bool :=
  pg_swapped (parse_pagemap_entry entry) && negb (pg_present (parse_pagemap_entry entry)).
Definition count (p : Z -> bool) (entries : list Z) : Z := Z.of_nat (length (List.filter p entries)).
(** the entries of consecutive pages *)
Definition entries_at (w : W) (pid offset : Z) (entries : list Z) : Prop :=
  forall i entry, entries !! i = Some entry -> host_pagemap pid (offset + 8 * Z.of_nat i) w = Ok entry.
Lemma count_cons p x l : count p (x :: l) = (if p x then 1 else 0) + count p l.
Proof. unfold count. simpl. destruct (p x); simpl length; lia. Qed.
Lemma count_pages_spec pid (w : W) pages : forall offset present swapped none p s n,
  count_pages pid offset pages w (present, swapped, none) = Ok (p, s, n) ->
  exists entries, length entries = pages /\ entries_at w pid offset entries /\
    p = present + count present_page entries /\ s = swapped + count swapped_page entries /\
    p + s + n = present + swapped + none + Z.of_nat pages.
Proof.
  induction pages as [|pages IH]; intros offset present swapped none p s n; cbn [count_pages].
  { intros [= <- <- <-]. exists []. unfold entries_at, count. simpl. repeat split; [| lia ..].
    intros i entry Hi. by rewrite lookup_nil in Hi. }
  destruct (host_pagemap pid offset w) as [entry|x] eqn:Ee; cbn [io map_error]; [| done].
  intros Hc.
  assert (Hstep : exists dp ds dn, dp = (if present_page entry then 1 else 0) /\
    ds = (if swapped_page entry then 1 else 0) /\ dp + ds + dn = 1 /\
    count_pages pid (offset + 8) pages w (present + dp, swapped + ds, none + dn) = Ok (p, s, n)).
  { unfold present_page, swapped_page.
    destruct (pg_present _), (pg_swapped _); cbn [andb negb]; [done | ..];
      [exists 1, 0, 0 | exists 0, 1, 0 | exists 0, 0, 1]; rewrite ?Z.add_0_r; done. }
  destruct Hstep as (dp & ds & dn & Hdp & Hds & Hone & Hrest).
  apply IH in Hrest as (entries & Hl & Hat & Hp & Hs & Hsum).
  exists (entry :: entries). repeat split.
  - simpl. by rewrite Hl.
  - intros [|i] e He; [injection He as <-; by rewrite Z.add_0_r |].
    rewrite <- (Hat i e He). f_equal. lia.
  - rewrite count_cons, <- Hdp. lia.
  - rewrite count_cons, <- Hds. lia.
  - lia.
Qed.
Lemma count_bounds p (l : list Z) : 0 <= count p l <= Z.of_nat (length l).
Proof. unfold count. pose proof (List.filter_length_le p l). lia. Qed.

Lemma compare_host_ok before after : compare_host before after = Ok tt <->
  structural (hs_swaps before) = structural (hs_swaps after) /\
  hs_zram_devices before = hs_zram_devices after /\ hs_zram0 before = hs_zram0 after /\
  hs_validation_cgroups after = ∅ /\ hs_validation_processes after = ∅.
Proof.
  unfold compare_host, compare_protected_zram, reject.
  repeat (case_bool_decide; cbn [negb]; [| naive_solver]). naive_solver.
Qed.
End HostFacts.
End HostFacts.

(** an operation that changes a store, and what it answers *)
Inductive StoreOp :=
| OpPersist (snapshot : Actuator.MutationSnapshot)
| OpUpdate (snapshot : Actuator.MutationSnapshot)
| OpRecord (name : string) (session : Z) (kind : Actuator.BackendKind)
| OpRemove (name : string).
Definition run_op {S} (store : SnapshotStore S) (op : StoreOp) : eff S (option Z) ActuatorError :=
  match op with
  | OpPersist snapshot => let! id := persist snapshot in eff_ret (Some id)
  | OpUpdate snapshot => update snapshot ;! eff_ret None
  | OpRecord name session kind => record_managed_group name session kind ;! eff_ret None
  | OpRemove name => remove_managed_group name ;! eff_ret None
  end.

Module StoreFacts.
Import Store.
Section StoreFacts.
Context {W : Type} `{HarnessSystem W}.
Context (to_json : JsonSnapshotStore -> string).

(** the store without its file *)
Definition memory (self : JsonSnapshotStore) : Memory.MemorySnapshotStore :=
  {| Memory.next_id := js_next_id self; Memory.snapshots := js_snapshots self;
     Memory.managed_groups := js_managed_groups self |}.

(** a flush writes the store as it is and changes nothing of it *)
Lemma flush_run (s s' : JsonSnapshotStore * W) r : flush to_json s = (s', r) ->
  fst s' = fst s /\
  match r with
  | Ok _ => host_write (js_path (fst s)) (to_json (fst s)) (snd s) = (snd s', Ok tt)
  | Err e => exists error, e = Persistence (io_text error) /\
      host_write (js_path (fst s)) (to_json (fst s)) (snd s) = (snd s', Err error)
  end.
Proof.
  destruct s as [self w]. unfold flush, eff_bind, eff_get, eff_map_err, eff_snd. cbn [fst snd].
  destruct (host_write _ _ w) as [w' [[]|e]]; intros [= <- <-]; (split; [done |]); [done | by eexists].
Qed.
(** what an operation on the store in a file is to the store in memory *)
Definition written_through (from_json : string -> result JsonSnapshotStore string) (op : StoreOp)
    (s s' : JsonSnapshotStore * W) (r : result (option Z) ActuatorError) : Prop :=
  match r with
  | Ok answer =>
      run_op Memory.memory_store op (memory (fst s)) = (memory (fst s'), Ok answer) /\
      load from_json (js_path (fst s)) (snd s') = Ok (fst s') /\
      json_pending s' = Memory.mem_pending (memory (fst s'))
  | Err e =>
      (s' = s /\ run_op Memory.memory_store op (memory (fst s)) = (memory (fst s), Err e)) \/
      (exists answer error, e = Persistence (io_text error) /\
        host_write (js_path (fst s)) (to_json (fst s')) (snd s) = (snd s', Err error) /\
        run_op Memory.memory_store op (memory (fst s)) = (memory (fst s'), Ok answer))
  end.

(** a change of the store followed by a flush is written through, when the store in memory
    makes the same change *)
Lemma change_written_through (from_json : string -> result JsonSnapshotStore string)
    (Hwrite : forall path text (w w' : W), host_write path text w = (w', Ok tt) -> host_text path w' = Ok text)
    op f answer (s s' : JsonSnapshotStore * W) r :
  from_json (to_json (fst s')) = Ok (fst s') ->
  (forall x, js_path (f x) = js_path x) ->
  run_op Memory.memory_store op (memory (fst s)) = (memory (f (fst s)), Ok answer) ->
  (eff_fst (eff_upd f) ;! flush to_json ;! eff_ret answer) s = (s', r) ->
  written_through from_json op s s' r.
Proof.
  intros Hcodec Hpath Hmem. destruct s as [self w]. unfold eff_bind, eff_fst, eff_upd. cbn [fst] in *.
  destruct (flush to_json (f self, w)) as [s1 [u|e]] eqn:Ef; apply flush_run in Ef as [Hf Hr];
    cbn [fst snd] in Hf, Hr; intros [= <- <-]; unfold written_through; rewrite Hf in *.
  - split; [done |]. split; [| by unfold json_pending; rewrite Hf].
    rewrite Hpath in Hr. apply Hwrite in Hr. unfold load. cbn [fst snd]. rewrite Hr. cbn [contextual map_error].
    rewrite Hcodec. rewrite <- (Hpath self). by destruct (f self).
  - right. destruct Hr as (error & -> & Hw). rewrite Hpath in Hw. by exists answer, error.
Qed.
End StoreFacts.
End StoreFacts.

(** ** Theorems *)
Module Theorems.
Section Theorems.
Context {W : Type} `{HarnessSystem W}.

(** taking back what a DAMON session holds. A run that succeeds leaves nothing held that is
    still there, and running it again does nothing; a run that fails stopped at one of the
    resources: those before it are given back, it and those after it are still held, so
    that the next run resumes there. *)
Theorem cleanup_resumes (s : DamonCleanup * W) :
  let '(s', r) := cleanup s in
  match r with
  | Ok _ => (forall h, needs h s' = false) /\ cleanup s' = (s', Ok tt)
  | Err _ => exists pre h post, Facts.ORDER = pre ++ h :: post /\
      (forall k, k ∈ pre -> held (fst s') k = false) /\
      (forall k, k ∈ h :: post -> held (fst s') k = held (fst s) k)
  end.
Proof.
  rewrite Facts.cleanup_undo_all. pose proof (Facts.undo_all_spec _ Facts.order_proper s) as Hu.
  destruct (Facts.undo_all Facts.ORDER s) as [s' [u|e]]; destruct Hu as [_ Hr]; [| exact Hr].
  split; [intros h; apply Hr, Facts.held_in_order |].
  rewrite Facts.cleanup_undo_all. by apply Facts.undo_all_idle.
Qed.

(** the recovery of a crashed DAMON session, when it succeeded, is done: running it again
    changes nothing. What it relies on is that a file that was removed is gone. *)
Theorem recovery_idempotent (recovery_state : string -> result (bool * option string) string)
    (Hgone : forall path (w w' : W), host_remove_file path w = (w', Ok tt) -> host_exists path w' = false)
    (w w' : W) :
  recover_damon_crash recovery_state w = (w', Ok tt) ->
  recover_damon_crash recovery_state w' = (w', Ok tt).
Proof.
  intros Hr. assert (Hg : host_exists RECOVERY_STATE w' = false).
  { unfold recover_damon_crash in Hr. apply eff_bind_ok in Hr as (w1 & w2 & [= <- <-] & Hr).
    destruct (host_exists RECOVERY_STATE w) eqn:E; cbn [negb] in Hr; [| by injection Hr as <-].
    inv_eff. revert Hr. unfold host, eff_map_err.
    match goal with |- context [host_remove_file ?p ?v] => destruct (host_remove_file p v) as [v' [[]|e]] eqn:Er end;
      [| done].
    intros [= <-]. by apply (Hgone _ _ _ Er). }
  unfold recover_damon_crash, eff_bind, eff_get. by rewrite Hg.
Qed.

(** C31: the order in which the recovery treats a kdamond that runs with schemes: it stops it,
    and refuses only then. The host has changed although the recovery was refused. *)
Theorem recovery_stops_before_refusing
    (recovery_state : string -> result (bool * option string) string) (w w1 : W)
    (text trace root schemes : string) :
  host_exists RECOVERY_STATE w = true -> host_text RECOVERY_STATE w = Ok text ->
  recovery_state text = Ok (true, Some trace) ->
  is_some_and (Process.path_file_name trace) (starts_with "nemor-validation-recovery-") = true ->
  tracefs_root w = Ok root -> owned_recovery_trace root trace = true ->
  host_exists (path_join KDAMONDS "0") w = true ->
  reads_as (path_join KDAMONDS "0/state") "on" w = true ->
  host_write (path_join KDAMONDS "0/state") "off" w = (w1, Ok tt) ->
  read_trimmed (path_join KDAMONDS "0/contexts/0/schemes/nr_schemes") w1 = Ok schemes ->
  schemes <> "0"%string ->
  recover_damon_crash recovery_state w = (w1, Err "recovery refuses non-zero schemes"%string).
Proof.
  intros He Ht Hs Hn Hroot Ho Hk Hon Hoff Hsch Hne.
  unfold recover_damon_crash, eff_bind, eff_get, eff_read, eff_reject. rewrite He. cbn [negb].
  rewrite Ht. cbn [io map_error]. rewrite Hs. cbn [fst snd negb eff_ret ok_or]. rewrite Hn, Hroot, Ho.
  cbn [negb eff_ret]. unfold recover_kdamond, eff_bind, eff_get, eff_read, eff_reject. rewrite Hk, Hon.
  unfold host, eff_map_err. rewrite Hoff, Hsch.
  apply String.eqb_neq in Hne. by rewrite Hne.
Qed.

(** C28: what it means that the host is accepted as unchanged: between the two snapshots the set
    of swaps with their kinds, sizes and priorities, the zram devices and the protected one
    are the same; and in the later host no directory of the first nine levels of the
    cgroups and no process of which the command line can be read belongs to the validation. *)
Theorem accepted_host_has_no_residue (inspected inspected' : result Inventory string) (w w' : W)
    (before after : HostSnapshot) :
  snapshot_host inspected w = Ok before -> snapshot_host inspected' w' = Ok after ->
  compare_host before after = Ok tt ->
  (forall e, e ∈ structural (hs_swaps before) <-> e ∈ structural (hs_swaps after)) /\
  hs_zram_devices before = hs_zram_devices after /\ hs_zram0 before = hs_zram0 after /\
  (forall path, ~ HostFacts.residue w' 9 "/sys/fs/cgroup" path) /\
  (forall entries pid, host_entries "/proc" w' = Ok entries ->
     ~ HostFacts.validation_process w' entries pid).
Proof.
  intros _ Ha Hc. apply HostFacts.compare_host_ok in Hc as (Hs & Hz & H0z & Hcg & Hpr).
  split; [intros e; by rewrite Hs |]. split; [done |]. split; [done |].
  unfold snapshot_host in Ha. inv_ok. cbn [hs_validation_cgroups hs_validation_processes] in *. subst.
  split.
  - intros path Hr. match goal with Hv : validation_cgroups w' = Ok ∅ |- _ =>
      pose proof (proj2 (HostFacts.visit_cgroups_spec _ _ _ _ _ Hv path) (or_intror Hr)) end. set_solver.
  - intros entries pid He Hv. match goal with Hp : validation_processes w' = Ok ∅ |- _ =>
      unfold validation_processes in Hp; rewrite He in Hp; cbn [io map_error] in Hp;
      pose proof (proj2 (HostFacts.collect_processes_spec _ _ _ _ Hp pid) (or_intror Hv)) end. set_solver.
Qed.

(** the residency of a range that a snapshot reports: the process was the expected one
    before the pages were read and after; the range is of whole pages, at most 32 MiB of
    them; every page was read once, and the pages present, swapped and neither are as many
    as the entries of pagemap say, together all pages of the range. *)
Theorem residency_counts (pid start_ticks : Z) (range : Damon.AddressRange) (w later : W)
    (s : RangeResidencySnapshot) :
  read_range_residency pid start_ticks range w later = Ok s ->
  proc_start_ticks pid w = Ok (Some start_ticks) /\ proc_start_ticks pid later = Ok (Some start_ticks) /\
  rr_range_size_bytes s = ar_end range - ar_start range /\
  rr_range_size_bytes s = 4096 * rr_total_pages s /\ 0 < rr_total_pages s <= 8192 /\
  exists entries, Z.of_nat (length entries) = rr_total_pages s /\
    HostFacts.entries_at w pid (ar_start range / 4096 * 8) entries /\
    rr_present_pages s = HostFacts.count HostFacts.present_page entries /\
    rr_swapped_pages s = HostFacts.count HostFacts.swapped_page entries /\
    rr_present_pages s + rr_swapped_pages s + rr_not_present_not_swapped_pages s = rr_total_pages s /\
    rr_present_bytes s = 4096 * rr_present_pages s /\ rr_swapped_bytes s = 4096 * rr_swapped_pages s.
Proof.
  unfold read_range_residency. intros Hr. inv_ok.
  match goal with Hc : count_pages _ _ _ _ _ = Ok ?c |- _ => destruct c as [[p q] n] eqn:Ec; rename Hc into Hcount end.
  inv_ok. bools. simpl. unfold u64_checked_sub, u64_checked_mul in *.
  repeat match goal with
  | Hs : ok_or (if ?c then _ else None) _ = Ok _ |- _ =>
      let E := fresh "B" in destruct c eqn:E; [injection Hs as <- | discriminate Hs]
  end.
  bools. apply HostFacts.count_pages_spec in Hcount as (entries & Hl & Hat & Hp & Hq & Hsum).
  set (size := ar_end range - ar_start range) in *.
  assert (Hdiv : size = 4096 * (size / 4096)) by (apply Z.div_exact; lia).
  assert (Hpos : 0 < size / 4096) by lia.
  assert (Hbig : size / 4096 <= 8192) by (change 8192 with (32 * 1024 * 1024 / 4096); lia).
  split; [congruence |]. split; [congruence |].
  split; [done |]. split; [done |]. split; [done |].
  exists entries. rewrite Hl, Z2Nat.id in * by lia. repeat split; try done; lia.
Qed.

(** C29: the store in a file is the store in memory, written through. An operation that succeeds
    answers what the store in memory answers, leaves the same store, and what is then loaded
    from the file is that store. One that fails is either refused by both with nothing
    changed, or it is done in memory, and the write of exactly that store to the file failed
    with the error that is reported. It relies on a file holding what was written to it and
    on reading back what was serialised; and a [persist] relies on a last id below 2^64 - 1,
    where one store would saturate and the other wrap around. *)
Theorem json_store_refines (to_json : Store.JsonSnapshotStore -> string)
    (from_json : string -> result Store.JsonSnapshotStore string)
    (Hwrite : forall path text (w w' : W), host_write path text w = (w', Ok tt) -> host_text path w' = Ok text)
    (op : StoreOp) (s s' : Store.JsonSnapshotStore * W) (r : result (option Z) ActuatorError) :
  from_json (to_json (fst s')) = Ok (fst s') ->
  match op with OpPersist _ => 0 <= Store.js_next_id (fst s) < u64_max | _ => True end ->
  run_op (Store.json_store to_json) op s = (s', r) ->
  match r with
  | Ok answer =>
      run_op Memory.memory_store op (StoreFacts.memory (fst s)) = (StoreFacts.memory (fst s'), Ok answer) /\
      Store.load from_json (Store.js_path (fst s)) (snd s') = Ok (fst s') /\
      Store.json_pending s' = Memory.mem_pending (StoreFacts.memory (fst s'))
  | Err e =>
      (s' = s /\ run_op Memory.memory_store op (StoreFacts.memory (fst s)) = (StoreFacts.memory (fst s), Err e)) \/
      (exists answer error, e = Persistence (io_text error) /\
        host_write (Store.js_path (fst s)) (to_json (fst s')) (snd s) = (snd s', Err error) /\
        run_op Memory.memory_store op (StoreFacts.memory (fst s)) = (StoreFacts.memory (fst s'), Ok answer))
  end.
Proof.
  intros Hcodec Hid Hrun. change (StoreFacts.written_through to_json from_json op s s' r).
  pose proof (fun f answer => StoreFacts.change_written_through to_json from_json Hwrite op f answer s s' r Hcodec) as Hflush.
  destruct s as [self w]. cbn [fst snd] in *.
  destruct op as [snapshot|snapshot|name session kind|name].
  - assert (Hsat : u64_wrap (Store.js_next_id self + 1) = u64_sat_add (Store.js_next_id self) 1).
    { revert Hid. unfold_int. intros Hid. rewrite Z.mod_small, Z.min_l by lia. done. }
    set (id := u64_sat_add (Store.js_next_id self) 1) in *.
    apply (Hflush (Store.set_snapshots id (<[id := Actuator.set_id id snapshot]>)) (Some id)); [done | |].
    + simpl. unfold Memory.mem_persist, eff_bind, eff_ret. simpl. by rewrite Hsat.
    + rewrite <- Hrun. cbn [run_op persist Store.json_store]. unfold Store.json_persist, eff_bind, eff_get, eff_ret. cbn [fst].
      fold id. cbn [eff_fst eff_upd]. by destruct (Store.flush _ _) as [? [?|?]].
  - destruct (Store.js_snapshots self !! Actuator.ms_id snapshot) as [old|] eqn:El.
    + apply (Hflush (fun self => Store.set_snapshots (Store.js_next_id self) (<[Actuator.ms_id snapshot := snapshot]>) self)
               None); [done | |].
      * simpl. unfold Memory.mem_update, eff_bind, eff_ret. simpl. by rewrite El.
      * rewrite <- Hrun. cbn [run_op update Store.json_store]. unfold Store.json_update, eff_bind, eff_get, eff_reject, eff_ret. cbn [fst].
        rewrite El. change (is_none (Some old)) with false. cbn iota. cbn [eff_fst eff_upd]. by destruct (Store.flush _ _) as [? [?|?]].
    + revert Hrun. cbn [run_op update Store.json_store].
      unfold Store.json_update, eff_bind, eff_get, eff_reject, eff_ret. cbn [fst]. rewrite El. intros [= <- <-].
      left. split; [done |]. simpl. unfold Memory.mem_update, eff_bind. simpl. by rewrite El.
  - apply (Hflush (Store.set_groups (fun g => {[name]} ∪ g)) None); [done | done |].
    rewrite <- Hrun. cbn [run_op record_managed_group Store.json_store]. unfold Store.json_set_groups, eff_bind, eff_ret.
    cbn [eff_fst eff_upd]. by destruct (Store.flush _ _) as [? [?|?]].
  - apply (Hflush (Store.set_groups (fun g => g ∖ {[name]})) None); [done | done |].
    rewrite <- Hrun. cbn [run_op remove_managed_group Store.json_store]. unfold Store.json_set_groups, eff_bind, eff_ret.
    cbn [eff_fst eff_upd]. by destruct (Store.flush _ _) as [? [?|?]].
Qed.
End Theorems.
End Theorems.

(** ** A host of files and directories *)
Module Sample.

(** a file has a text, a directory none *)
Record Files := { nodes : gmap string (option string) }.
Definition missing {A} : result A IoError := Err {| io_kind := Tiering.NotFound; io_text := "missing" |}.
Definition text_at (path : string) (w : Files) : result string IoError :=
  match nodes w !! path with Some (Some text) => Ok text | _ => missing end.
(** the names directly below a directory *)
Definition child_name (path node : string) : option string :=
  name ← strip_prefix (path ++ "/") node;
  then_some (negb (str_contains "/" name)) name.
Definition put (path : string) (node : option string) (w : Files) : Files :=
  {| nodes := <[path := node]> (nodes w) |}.
Definition take_away (path : string) (is_file : bool) : eff Files unit IoError := fun w =>
  match nodes w !! path with
  | Some node =>
      if Bool.eqb (is_some node) is_file then ({| nodes := delete path (nodes w) |}, Ok tt)
      else (w, missing)
  | None => (w, missing)
  end.
#[export] Instance files : HarnessSystem Files := {
  host_text := text_at;
  host_exists path w := is_some (nodes w !! path);
  host_is_dir path w := bool_decide (nodes w !! path = Some None);
  host_entries path w :=
    if bool_decide (nodes w !! path = Some None)
    then Ok (omap (fun node =>
           name ← child_name path (fst node);
           Some (Ok {| he_name := name; he_is_dir := Ok (is_none (snd node)) |}))
         (map_to_list (nodes w)))
    else missing;
  host_stat path w := missing;
  host_canonical path w := Ok path;
  host_pagemap pid offset w := Ok (if Z.even (offset / 8) then 2 ^ 63 else 2 ^ 62);
  host_now w := 0;
  host_stdout program args w := Err "failed"%string;
  host_write path text := fun w => (put path (Some text) w, Ok tt);
  host_create_new path mode := fun w => (put path (Some ""%string) w, Ok tt);
  host_append_synced path text := fun w => (put path (Some text) w, Ok tt);
  host_create_dir path := fun w => (put path None w, Ok tt);
  host_remove_dir path := take_away path false;
  host_remove_file path := take_away path true;
  host_rename path target := fun w => (w, Ok tt);
  host_sync_dir path := fun w => (w, Ok tt)
}.

Lemma removed_is_gone path (w w' : Files) : host_remove_file path w = (w', Ok tt) -> host_exists path w' = false.
Proof.
  simpl. unfold take_away. destruct (nodes w !! path) as [node|]; [| done].
  destruct (Bool.eqb _ _); [| done]. intros [= <-]. simpl. by rewrite lookup_delete_eq.
Qed.
Lemma written_is_read path text (w w' : Files) : host_write path text w = (w', Ok tt) -> host_text path w' = Ok text.
Proof. simpl. unfold text_at, put. intros [= <-]. simpl. by rewrite lookup_insert_eq. Qed.

Definition host_of (l : list (string * option string)) : Files := {| nodes := list_to_map l |}.
Definition trace : string := "/sys/kernel/tracing/instances/nemor-validation-recovery-7".
(** after a crash, the kdamond running with that many schemes *)
Definition crashed (schemes : string) : Files := host_of
  [("/sys/kernel/tracing/instances", None); (trace, None); (RECOVERY_STATE, Some "state"%string);
   (path_join KDAMONDS "0", None); (path_join KDAMONDS "0/state", Some ("on" ++ newline)%string);
   (path_join KDAMONDS "0/contexts/0/schemes/nr_schemes", Some schemes);
   (path_join KDAMONDS "nr_kdamonds", Some "1"%string)]%string.
Definition decode (text : string) : result (bool * option string) string := Ok (true, Some trace).

(** a quiet host *)
Definition quiet (used : string) : Files := host_of
  [("/sys/fs/cgroup", None); ("/sys/fs/cgroup/user.slice", None); ("/sys/fs/cgroup/cgroup.procs", Some "");
   ("/proc", None); ("/proc/1", None); ("/proc/1/cmdline", Some "/sbin/init");
   ("/proc/1/stat", Some "1 (init) S 0 1 1 0 -1 4194560 1 2 3 4 5 6 7 8 20 0 1 0 42 9");
   ("/proc/swaps", Some ("Filename Type Size Used Priority" ++ newline
                         ++ "/dev/zram0 partition 8388604 " ++ used ++ " 100" ++ newline))]%string.
Definition no_zram : Inventory := {| iv_available := true; iv_devices := []; iv_unavailable := [] |}.
Definition snapshot_of (w : Files) : HostSnapshot :=
  match snapshot_host (Ok no_zram) w with
  | Ok s => s
  | Err _ => {| hs_timestamp_ns := 0; hs_swaps := []; hs_zram_devices := ∅; hs_zram0 := None;
                hs_validation_cgroups := ∅; hs_validation_processes := ∅ |}
  end.
Definition mutation : Actuator.MutationSnapshot :=
  {| Actuator.ms_id := 0; Actuator.ms_session_id := 1; Actuator.ms_timestamp_ns := 5;
     Actuator.ms_process_catalog_id := 2; Actuator.ms_identity := "id"; Actuator.ms_pid := 77;
     Actuator.ms_start_time_ticks := 42; Actuator.ms_original_group := "/user.slice";
     Actuator.ms_target_group := "nemor-background.slice";
     Actuator.ms_original_properties := {| rp_memory_low := None; rp_memory_high := None |};
     Actuator.ms_requested_properties := {| rp_memory_low := None; rp_memory_high := None |};
     Actuator.ms_reason := "background"; Actuator.ms_applied := true; Actuator.ms_verified := false;
     Actuator.ms_rolled_back := false; Actuator.ms_last_error := None |}.
Definition store_after : Store.JsonSnapshotStore :=
  Store.set_snapshots 1 (<[1 := Actuator.set_id 1 mutation]>) (Store.new_store "/run/store.json").
Definition to_json (self : Store.JsonSnapshotStore) : string := "json".
Definition from_json (text : string) : result Store.JsonSnapshotStore string := Ok store_after.
End Sample.

(** ** Witnesses *)
Module Witnesses.
Import Sample.
#[local] Existing Instance Sample.files.

(** a session that could not remove its instance, and the run that did *)
Definition session : DamonCleanup :=
  set_held KdamondOn true (set_held TraceCreated true (new_cleanup KDAMONDS trace)).
Example cleaned :
  let w := snd (fst (cleanup (session, crashed "0"))) in
  host_text (path_join KDAMONDS "0/state") w = Ok "off"%string /\ host_exists trace w = false /\
  host_text (path_join KDAMONDS "nr_kdamonds") w = Ok "1"%string.
Proof. vm_compute. repeat split. Qed.

Definition recovered : Files := fst (recover_damon_crash decode (crashed "0")).
Lemma recovery_idempotent_witness : recover_damon_crash decode recovered = (recovered, Ok tt).
Proof.
  apply (Theorems.recovery_idempotent decode removed_is_gone (crashed "0")). vm_compute. reflexivity.
Defined.
Example recovered_host : host_exists trace recovered = false /\ host_exists RECOVERY_STATE recovered = false /\
  host_text (path_join KDAMONDS "nr_kdamonds") recovered = Ok "0"%string.
Proof. vm_compute. repeat split. Qed.

Definition stopped : Files := fst (host_write (path_join KDAMONDS "0/state") "off" (crashed "2")).
Lemma recovery_stops_before_refusing_witness :
  recover_damon_crash decode (crashed "2") = (stopped, Err "recovery refuses non-zero schemes"%string).
Proof.
  apply (Theorems.recovery_stops_before_refusing decode (crashed "2") stopped "state" trace "/sys/kernel/tracing" "2");
    try (vm_compute; reflexivity). discriminate.
Defined.

Lemma accepted_host_has_no_residue_witness :
  (forall e, e ∈ structural (hs_swaps (snapshot_of (quiet "0")))
             <-> e ∈ structural (hs_swaps (snapshot_of (quiet "512")))) /\
  hs_zram_devices (snapshot_of (quiet "0")) = hs_zram_devices (snapshot_of (quiet "512")) /\
  hs_zram0 (snapshot_of (quiet "0")) = hs_zram0 (snapshot_of (quiet "512")) /\
  (forall path, ~ HostFacts.residue (quiet "512") 9 "/sys/fs/cgroup" path) /\
  (forall entries pid, host_entries "/proc" (quiet "512") = Ok entries ->
     ~ HostFacts.validation_process (quiet "512") entries pid).
Proof.
  apply (Theorems.accepted_host_has_no_residue (Ok no_zram) (Ok no_zram) (quiet "0") (quiet "512")
           (snapshot_of (quiet "0")) (snapshot_of (quiet "512"))); vm_compute; reflexivity.
Defined.

Definition range : Damon.AddressRange := {| ar_start := 8192; ar_end := 24576 |}.
Definition pages : RangeResidencySnapshot :=
  {| rr_range_start := 8192; rr_range_end := 24576; rr_range_size_bytes := 16384; rr_page_size := 4096;
     rr_total_pages := 4; rr_present_pages := 2; rr_present_bytes := 8192; rr_swapped_pages := 2;
     rr_swapped_bytes := 8192; rr_not_present_not_swapped_pages := 0; rr_read_errors := 0;
     rr_timestamp_ns := 0; rr_source := "proc_pagemap" |}.
Lemma residency_counts_witness :
  proc_start_ticks 1 (quiet "0") = Ok (Some 42) /\ proc_start_ticks 1 (quiet "1") = Ok (Some 42) /\
  rr_range_size_bytes pages = ar_end range - ar_start range /\
  rr_range_size_bytes pages = 4096 * rr_total_pages pages /\ 0 < rr_total_pages pages <= 8192 /\
  exists entries, Z.of_nat (length entries) = rr_total_pages pages /\
    HostFacts.entries_at (quiet "0") 1 (ar_start range / 4096 * 8) entries /\
    rr_present_pages pages = HostFacts.count HostFacts.present_page entries /\
    rr_swapped_pages pages = HostFacts.count HostFacts.swapped_page entries /\
    rr_present_pages pages + rr_swapped_pages pages + rr_not_present_not_swapped_pages pages
      = rr_total_pages pages /\
    rr_present_bytes pages = 4096 * rr_present_pages pages /\
    rr_swapped_bytes pages = 4096 * rr_swapped_pages pages.
Proof. apply (Theorems.residency_counts 1 42 range (quiet "0") (quiet "1") pages). vm_compute. reflexivity. Defined.

Definition store : Store.JsonSnapshotStore := Store.new_store "/run/store.json".
Definition persisted : Files := put "/run/store.json" (Some "json"%string) (quiet "0").
Lemma json_store_refines_witness :
  run_op Memory.memory_store (OpPersist mutation) (StoreFacts.memory store)
    = (StoreFacts.memory store_after, Ok (Some 1)) /\
  Store.load from_json "/run/store.json" persisted = Ok store_after /\
  Store.json_pending (store_after, persisted) = Memory.mem_pending (StoreFacts.memory store_after).
Proof.
  apply (Theorems.json_store_refines to_json from_json written_is_read (OpPersist mutation)
           (store, quiet "0") (store_after, persisted) (Ok (Some 1))).
  - reflexivity.
  - vm_compute. split; [discriminate | reflexivity].
  - vm_compute. reflexivity.
Defined.
End Witnesses.
