(* ===== verification/Daemon.v ===== *)
(** crates/nemord/src/lib.rs: the sampling loop, which composes the collectors, the
    classifier, the policy engine and the read-only audits over the traits
    TelemetryCollector and TelemetryStorage. An iteration of the loop is a step on
    an event that the runtime made ready; the timers and the clock are what the
    events carry. Log records are not modelled, the set of capabilities already
    logged is. *)

From S2P Require Import Prelude F64 Text Config Classifier Collector Workload Actuator Policy.
From S2P Require Import Damon Damos Ksm Zram Tiering.

(** an [anyhow] error as its messages, the outermost context first; or a panic *)
Inductive DaemonError :=
| Failed (contexts : list string)
| Panicked (message : string).

Definition with_context {A} (context : string) (r : result A string) : result A DaemonError :=
  match r with Ok a => Ok a | Err e => Err (Failed [context; e]) end.

(** ** The traits *)

Class TelemetryCollector (C : Type) := {
  system_sample : Z -> eff C SystemSample CollectorError;
  process_samples : Z -> bool -> nat -> eff C ProcessCollection CollectorError
}.

Class TelemetryStorage (S : Type) := {
  store_system : Z -> SystemSample -> eff S unit string;
  store_processes : Z -> list ProcessSample -> eff S nat string;
  store_classified : Z -> list ProcessClassification -> option WorkloadTransition -> eff S nat string;
  retain_after : Z -> eff S (Z * Z) string;
  store_policy : Z -> PolicyDecision -> Z -> eff S bool string;
  policy_history_counts : Z -> S -> result (Z * Z) string;
  store_zram_audit : Z -> ZramAuditReport -> eff S unit string;
  store_tiering_audit : Z -> TieringAuditReport -> eff S unit string;
  store_damon_audit : Z -> DamonReport -> eff S unit string;
  store_damos_audit : Z -> DamosReport -> eff S unit string;
  store_ksm_audit : Z -> KsmReport -> eff S unit string
}.

(** [impl TelemetryCollector for SystemCollector] *)
#[export] Instance system_collector {W} `{Collector.TelemetrySource W} :
    TelemetryCollector (Collector.Tracking * W) := {
  system_sample ts := fun self => (self, Collector.sample_system ts (snd self));
  process_samples ts read_smaps budget := fun self =>
    eff_fst (Collector.sample_processes ts read_smaps budget (snd self)) self
}.

(** ** The state of the loop *)

Record Loop (C S : Type) := MkLoop {
  lp_collector : C;
  lp_storage : S;
  lp_next_smaps : Z;
  lp_next_classification : Z;
  lp_next_policy : Z;
  lp_classifier : ClassifierState;
  lp_policy_engine : PolicyEngine;
  lp_rate_tracker : RateTracker;
  lp_latest_rates : RateFeatures;
  lp_latest_system : option SystemSample;
  lp_logged_capabilities : gset string
}.
Arguments MkLoop {C S} _ _ _ _ _ _ _ _ _ _ _.
Arguments lp_collector {C S} _.
Arguments lp_storage {C S} _.
Arguments lp_next_smaps {C S} _.
Arguments lp_next_classification {C S} _.
Arguments lp_next_policy {C S} _.
Arguments lp_classifier {C S} _.
Arguments lp_policy_engine {C S} _.
Arguments lp_rate_tracker {C S} _.
Arguments lp_latest_rates {C S} _.
Arguments lp_latest_system {C S} _.
Arguments lp_logged_capabilities {C S} _.

(** What the inspections of one evaluation find; each looks at its own moment. *)
Record Host (W V : Type) := MkHost {
  ho_zram : W;
  ho_tiering : V;
  ho_damon : Damon.Files;
  ho_ksm : Ksm.KsmFiles
}.
Arguments MkHost {W V} _ _ _ _.
Arguments ho_zram {W V} _.
Arguments ho_tiering {W V} _.
Arguments ho_damon {W V} _.
Arguments ho_ksm {W V} _.

(** What [select!] may take: the shutdown future's result, or a tick with the
    nanoseconds since the epoch that the clock shows, if any. A process tick also
    carries the monotonic time. *)
Inductive Event (W V : Type) :=
| ShutdownReady (signal : result string string)
| SystemTick (clock : option Z)
| ProcessTick (clock : option Z) (now : Z) (host : Host W V)
| RetentionTick (clock : option Z).
Arguments ShutdownReady {W V} _.
Arguments SystemTick {W V} _.
Arguments ProcessTick {W V} _ _ _.
Arguments RetentionTick {W V} _.

(** the branches that are ready when [select!] is polled *)
Record Ready (W V : Type) := {
  rd_shutdown : option (result string string);
  rd_system : option (option Z);
  rd_process : option (option Z * Z * Host W V);
  rd_retention : option (option Z)
}.
Arguments rd_shutdown {W V} _.
Arguments rd_system {W V} _.
Arguments rd_process {W V} _.
Arguments rd_retention {W V} _.

(** [biased]: the branches are polled in order *)
Definition select_branch {W V} (ready : Ready W V) : option (Event W V) :=
  match rd_shutdown ready, rd_system ready, rd_process ready, rd_retention ready with
  | Some signal, _, _, _ => Some (ShutdownReady signal)
  | None, Some clock, _, _ => Some (SystemTick clock)
  | None, None, Some (clock, now, host), _ => Some (ProcessTick clock now host)
  | None, None, None, Some clock => Some (RetentionTick clock)
  | None, None, None, None => None
  end.

(** ** The parts of an iteration that do not touch the state *)

Definition millis (ms : Z) : Z := ms * 1000000.

Definition logged_keys (sample : SystemSample) : list string :=
  map (fun capability =>
         capability ++ ":" ++ (if contains_str (ss_capabilities_unavailable sample) capability
                               then "unavailable" else "available"))%string
      ["psi_memory"; "psi_cpu"; "psi_io"; "zram"; "zswap"]%string.
Definition log_capabilities_once (sample : SystemSample) (logged : gset string) : gset string :=
  list_to_set (logged_keys sample) ∪ logged.

Definition counters_of (sample : SystemSample) : CounterSample :=
  {| cs_timestamp_ns := ss_timestamp_ns sample;
     cs_swap_in := ss_swap_in_pages sample;
     cs_swap_out := ss_swap_out_pages sample;
     cs_major_faults := ss_major_faults sample;
     cs_pgscan := ss_pgscan sample;
     cs_pgsteal := ss_pgsteal sample |}.

(** [try_fold(0, checked_add)] *)
Fixpoint checked_sum (values : list Z) (total : Z) : option Z :=
  match values with
  | [] => Some total
  | v :: rest => total ← u64_checked_add total v; checked_sum rest total
  end.

Definition foreground_of (classified : list ProcessClassification) : ForegroundState :=
  let has f process := bool_decide (pc_foreground process = f) in
  if existsb (has FgForeground) classified then FgForeground
  else if negb (bool_decide (length classified = 0%nat)) && forallb (has FgBackground) classified
  then FgBackground
  else FgUnknown.

Definition count_of (p : ProcessClassification -> bool) (classified : list ProcessClassification) : Z :=
  Z.of_nat (length (List.filter p classified)).

Definition policy_input (timestamp : Z) (system : SystemSample) (rates : RateFeatures)
    (classified : list ProcessClassification) (outcome : ClassificationOutcome)
    (capabilities : option CgroupCapabilities) (recent_decisions recent_safety_events : Z) :
    PolicyInput :=
  {| in_timestamp_ns := timestamp;
     in_ram_total_bytes := ss_mem_total_bytes system;
     in_mem_available_bytes := ss_mem_available_bytes system;
     in_available_percent :=
       f64_div (f64_mul (f64_of_Z (ss_mem_available_bytes system)) (f64_of_Z 100))
               (f64_of_Z (ss_mem_total_bytes system));
     in_swap_total_bytes := checked_sum (map se_size_bytes (sw_entries (ss_swap system))) 0;
     in_swap_used_bytes := checked_sum (map se_used_bytes (sw_entries (ss_swap system))) 0;
     in_swap_in_per_second := rf_swap_in_per_second rates;
     in_swap_out_per_second := rf_swap_out_per_second rates;
     in_major_faults_per_second := rf_major_faults_per_second rates;
     in_pgscan_per_second := rf_pgscan_per_second rates;
     in_pgsteal_per_second := rf_pgsteal_per_second rates;
     in_psi_memory_some_avg10 := psi_some_avg10 (Some system);
     in_psi_memory_full_avg10 := psi_full_avg10 (Some system);
     in_workload_class := outcome_class outcome;
     in_workload_confidence :=
       match outcome with Classified d => Some (wd_confidence d) | Unclassified _ => None end;
     in_gaming := existsb pc_is_game classified;
     in_critical_processes := count_of pc_is_critical classified;
     in_protected_processes := count_of pc_protected classified;
     in_unknown_processes := count_of (fun p => bool_decide (pc_category p = CatUnknown)) classified;
     in_foreground := foreground_of classified;
     in_cgroup_capabilities := capabilities;
     in_actuator_available := is_some_and capabilities Actuator.mutation_ready;
     in_recent_safety_events := recent_safety_events;
     in_recent_decisions := recent_decisions |}.

(** [classified.chunks(n)] for a positive [n] *)
Fixpoint chunks_loop {A} (fuel n : nat) (l : list A) : list (list A) :=
  match fuel, l with
  | S fuel, _ :: _ => take n l :: chunks_loop fuel n (drop n l)
  | _, _ => []
  end.
Definition chunks {A} (n : nat) (l : list A) : list (list A) := chunks_loop (length l) n l.

(** the batches with the transition that accompanies each: only the last has it *)
Fixpoint with_transition {A} (batches : list (list A)) (transition : option WorkloadTransition) :
    list (list A * option WorkloadTransition) :=
  match batches with
  | [] => []
  | [batch] => [(batch, transition)]
  | batch :: rest => (batch, None) :: with_transition rest transition
  end.

Definition batches_of (size : Z) (classified : list ProcessClassification)
    (transition : option WorkloadTransition) :
    result (list (list ProcessClassification * option WorkloadTransition)) DaemonError :=
  if bool_decide (length classified = 0%nat) then Ok [([], transition)]
  else if size =? 0 then Err (Panicked "attempt to divide by zero")
  else Ok (with_transition (chunks (Z.to_nat size) classified) transition).

Definition requested_profile (decision : PolicyDecision) : ZramProfile :=
  unwrap_or
    (find_map (fun planned =>
       match pa_kind planned with
       | SelectZramProfile profile =>
           Some match profile with
                | IntentSafe => Zram.Safe
                | Policy.IntentGaming => Zram.Gaming
                | Policy.IntentCapacity => Zram.Capacity
                end
       | _ => None
       end) (pd_planned_actions decision)) Zram.Safe.

Definition zram_context (decision : PolicyDecision) (device : DeviceInventory) : ProfileContext :=
  let features := pd_input_features decision in
  {| pc_requested := requested_profile decision;
     pc_device := device;
     pc_benchmarks := [];
     pc_total_ram_bytes := in_ram_total_bytes features;
     pc_mem_available_bytes := in_mem_available_bytes features;
     pc_current_used_bytes := unwrap_or (mm_mem_used_total (dv_mm_stat device)) 0;
     pc_pressure_state := pd_current_state decision;
     pc_psi_full_avg10 := in_psi_memory_full_avg10 features;
     pc_swap_in_per_second := in_swap_in_per_second features;
     pc_gaming := in_gaming features;
     pc_pressure_worsening :=
       match pd_current_state decision with Critical | Emergency => true | _ => false end;
     pc_safety_events := in_recent_safety_events features;
     pc_rollback_pending := false;
     pc_provider_matches_snapshot := true |}.

Definition zram_audit {W} `{Zram.ZramSystem W} (decision : PolicyDecision) (config : Config) (w : W) :
    result ZramAuditReport Zram.ZramError :=
  let? inventory := Zram.inspect_linux "/" w in
  Ok {| zr_timestamp_ns := pd_timestamp_ns decision;
        zr_inventory := inventory;
        zr_plans := map (fun device =>
          Zram.plan_profile (zram_context decision device) (compression config)
            (general_mode (general config))) (iv_devices inventory);
        zr_benchmark_evidence := [];
        zr_rollback_pending := false;
        zr_recovery_pending := false;
        zr_dry_run := true |}.

Definition damon_audit (config : Config) (fs : Damon.Files) : DamonReport :=
  Damon.observe_report fs (damon config)
    (match Damon.file_text fs "/proc/sys/kernel/osrelease" with
     | Ok value => Some (trim value)
     | Err _ => None
     end).

Definition no_damos_capability : DamosCapability :=
  {| dmc_supported := false; dmc_vaddr := None; dmc_actions := ∅; dmc_scheme_fields := ∅;
     dmc_quota_fields := ∅; dmc_filter_types := ∅; dmc_stats_fields := ∅;
     dmc_address_fence_supported := false; dmc_filter_allow_supported := false;
     dmc_max_nr_snapshots_supported := false; dmc_external_session_conflict := false;
     dmc_special_module_conflict := false; dmc_notes := [] |}.
Definition damos_audit : DamosReport :=
  {| dmr_schema := Damos.REPORT_SCHEMA;
     dmr_capability := no_damos_capability;
     dmr_plan := None;
     dmr_shadow_stats := None;
     dmr_live_stats := None;
     dmr_reclaim := None;
     dmr_refault := None;
     dmr_refault_state := NotEvaluated;
     dmr_blacklist := None;
     dmr_cleanup := true;
     dmr_recovery := true;
     dmr_recovery_idempotent := true;
     dmr_host_unchanged := true;
     dmr_dry_run := true;
     dmr_blocked_reasons := ["production_live_apply_forbidden"%string] |}.

Definition structural_error : ClassificationOutcome :=
  Unclassified {| we_rule_version := Workload.RULE_VERSION; we_selected_class := "unknown";
                  we_confidence := f64_zero; we_evidence := []; we_rejected_candidates := [];
                  we_protection_reasons := ["structural_classifier_error"%string] |}.

(** ** The loop *)
Section SamplingLoop.
Context {C S W V : Type} `{TelemetryCollector C} `{TelemetryStorage S}
  `{Zram.ZramSystem W} `{Tiering.TieringSystem V}.
Context (sha256_hex : string -> string) (session : Z) (config : Config)
  (capabilities : option CgroupCapabilities).

Abbreviation Self := (Loop C S).

Definition set_collector (c : C) (self : Self) : Self :=
  MkLoop c (lp_storage self) (lp_next_smaps self) (lp_next_classification self)
    (lp_next_policy self) (lp_classifier self) (lp_policy_engine self) (lp_rate_tracker self)
    (lp_latest_rates self) (lp_latest_system self) (lp_logged_capabilities self).
Definition set_storage (s : S) (self : Self) : Self :=
  MkLoop (lp_collector self) s (lp_next_smaps self) (lp_next_classification self)
    (lp_next_policy self) (lp_classifier self) (lp_policy_engine self) (lp_rate_tracker self)
    (lp_latest_rates self) (lp_latest_system self) (lp_logged_capabilities self).
Definition set_next_smaps (t : Z) (self : Self) : Self :=
  MkLoop (lp_collector self) (lp_storage self) t (lp_next_classification self)
    (lp_next_policy self) (lp_classifier self) (lp_policy_engine self) (lp_rate_tracker self)
    (lp_latest_rates self) (lp_latest_system self) (lp_logged_capabilities self).
Definition set_classifier (t : Z) (c : ClassifierState) (self : Self) : Self :=
  MkLoop (lp_collector self) (lp_storage self) (lp_next_smaps self) t
    (lp_next_policy self) c (lp_policy_engine self) (lp_rate_tracker self)
    (lp_latest_rates self) (lp_latest_system self) (lp_logged_capabilities self).
Definition set_next_policy (t : Z) (self : Self) : Self :=
  MkLoop (lp_collector self) (lp_storage self) (lp_next_smaps self) (lp_next_classification self)
    t (lp_classifier self) (lp_policy_engine self) (lp_rate_tracker self)
    (lp_latest_rates self) (lp_latest_system self) (lp_logged_capabilities self).
Definition set_policy_engine (e : PolicyEngine) (self : Self) : Self :=
  MkLoop (lp_collector self) (lp_storage self) (lp_next_smaps self) (lp_next_classification self)
    (lp_next_policy self) (lp_classifier self) e (lp_rate_tracker self)
    (lp_latest_rates self) (lp_latest_system self) (lp_logged_capabilities self).
Definition set_logged (logged : gset string) (self : Self) : Self :=
  MkLoop (lp_collector self) (lp_storage self) (lp_next_smaps self) (lp_next_classification self)
    (lp_next_policy self) (lp_classifier self) (lp_policy_engine self) (lp_rate_tracker self)
    (lp_latest_rates self) (lp_latest_system self) logged.
(** the rates and the latest sample, after a sample was stored *)
Definition set_system (sample : SystemSample) (self : Self) : Self :=
  let '(tracker, rates) := rate_update (lp_rate_tracker self) (counters_of sample) in
  MkLoop (lp_collector self) (lp_storage self) (lp_next_smaps self) (lp_next_classification self)
    (lp_next_policy self) (lp_classifier self) (lp_policy_engine self) tracker
    rates (Some sample) (lp_logged_capabilities self).

Definition on_collector {A} (m : eff C A CollectorError) :
    eff Self (result A CollectorError) DaemonError :=
  fun self => let '(c, r) := m (lp_collector self) in (set_collector c self, Ok r).
Definition on_storage {A} (context : string) (m : eff S A string) : eff Self A DaemonError :=
  fun self => let '(s, r) := m (lp_storage self) in (set_storage s self, with_context context r).
Definition on_engine {A} (m : eff PolicyEngine A PolicyError) :
    eff Self (result A PolicyError) DaemonError :=
  fun self => let '(e, r) := m (lp_policy_engine self) in (set_policy_engine e self, Ok r).
(** [collector::unix_timestamp_ns().context(..)?] *)
Definition timestamp (context : string) (clock : option Z) : eff Self Z DaemonError :=
  eff_read (fun _ => match unix_timestamp_ns clock with
                     | Ok t => Ok t
                     | Err _ => Err (Failed [context])
                     end).

(** the branch of [system_interval] *)
Definition system_tick (clock : option Z) : eff Self unit DaemonError :=
  let! ts := timestamp "cannot create system sample timestamp" clock in
  let! sampled := on_collector (system_sample ts) in
  match sampled with
  | Err _ => eff_ret tt
  | Ok sample =>
      eff_upd (fun self => set_logged (log_capabilities_once sample (lp_logged_capabilities self)) self) ;!
      on_storage "fatal system telemetry storage error" (store_system session sample) ;!
      eff_upd (set_system sample)
  end.

(** the audits of an inserted decision *)
Definition store_audits (decision : PolicyDecision) (host : Host W V) : eff Self unit DaemonError :=
  match zram_audit decision config (ho_zram host) with
  | Ok audit => on_storage "cannot persist zram observe audit" (store_zram_audit session audit)
  | Err _ => eff_ret tt
  end ;!
  match Tiering.inspect_host (tiering config) (pd_timestamp_ns decision) (ho_tiering host) with
  | Ok audit => on_storage "cannot persist tiering observe audit" (store_tiering_audit session audit)
  | Err _ => eff_ret tt
  end ;!
  on_storage "cannot persist DAMON observe audit"
    (store_damon_audit session (damon_audit config (ho_damon host))) ;!
  on_storage "cannot persist DAMOS plan-only audit" (store_damos_audit session damos_audit) ;!
  on_storage "cannot persist KSM observe-only audit"
    (store_ksm_audit session
       (Ksm.inspect_linux (ho_ksm host) "/sys/kernel/mm/ksm" "/proc" (pd_timestamp_ns decision))).

(** the evaluation of the policy, the sample being known *)
Definition policy_step (ts : Z) (system : SystemSample) (classified : list ProcessClassification)
    (outcome : ClassificationOutcome) (host : Host W V) : eff Self unit DaemonError :=
  let! self := eff_get in
  let! counts := eff_read (fun self =>
    with_context "cannot read bounded policy history" (policy_history_counts ts (lp_storage self))) in
  let input := policy_input ts system (lp_latest_rates self) classified outcome capabilities
                 (fst counts) (snd counts) in
  let! evaluated := on_engine (Policy.evaluate input true) in
  match evaluated with
  | Err _ => eff_ret tt
  | Ok decision =>
      let! inserted := on_storage "cannot persist policy decision"
        (store_policy session decision (policy_decision_heartbeat_seconds (policy config))) in
      if inserted : bool then store_audits decision host else eff_ret tt
  end.

(** the classification when it is due, with the transition it caused *)
Definition classification_step (ts now : Z) (classified : list ProcessClassification) :
    eff Self (option (ClassificationOutcome * option WorkloadTransition)) DaemonError :=
  fun self =>
    if now <? lp_next_classification self then (self, Ok None)
    else
      let next := now + millis (classification_interval_ms (classification config)) in
      if ts <? 0 then (set_classifier next (lp_classifier self) self, Ok (Some (structural_error, None)))
      else
        let '(classifier, evaluated) :=
          classifier_evaluate ts (lp_latest_system self) classified (lp_classifier self) in
        (set_classifier next classifier self, Ok (Some evaluated)).

Definition policy_tick (ts now : Z) (classified : list ProcessClassification)
    (outcome : ClassificationOutcome) (host : Host W V) : eff Self unit DaemonError :=
  let! self := eff_get in
  if policy_enabled (policy config) && (lp_next_policy self <=? now)
  then
    eff_upd (set_next_policy (now + millis (policy_evaluation_interval_ms (policy config)))) ;!
    match lp_latest_system self with
    | Some system => policy_step ts system classified outcome host
    | None => eff_ret tt
    end
  else eff_ret tt.

Fixpoint store_batches (batches : list (list ProcessClassification * option WorkloadTransition)) :
    eff Self unit DaemonError :=
  match batches with
  | [] => eff_ret tt
  | (batch, transition) :: rest =>
      on_storage "fatal classification storage error" (store_classified session batch transition) ;!
      store_batches rest
  end.

(** the branch of [process_interval] *)
Definition process_tick (clock : option Z) (now : Z) (host : Host W V) : eff Self unit DaemonError :=
  let! ts := timestamp "cannot create process sample timestamp" clock in
  let! self := eff_get in
  let read_smaps := lp_next_smaps self <=? now in
  (if read_smaps : bool
   then eff_upd (set_next_smaps (now + millis (telemetry_smaps_rollup_interval_ms (telemetry config))))
   else eff_ret tt) ;!
  let! collected := on_collector
    (process_samples ts read_smaps (Z.to_nat (telemetry_smaps_rollup_budget (telemetry config)))) in
  match collected with
  | Err _ => eff_ret tt
  | Ok processes =>
      let! self := eff_get in
      let classified := classify_processes sha256_hex (co_samples processes) (lp_classifier self) in
      let! classification := classification_step ts now classified in
      match classification with
      | Some (outcome, _) => policy_tick ts now classified outcome host
      | None => eff_ret tt
      end ;!
      let! batches := eff_read (fun _ =>
        batches_of (telemetry_sqlite_batch_size (telemetry config)) classified
          (classification ≫= snd)) in
      store_batches batches
  end.

Definition retention_ns : Z := telemetry_retention_days (telemetry config) * (24 * 60 * 60 * 1000000000).

(** the branch of [retention_interval] *)
Definition retention_tick (clock : option Z) : eff Self unit DaemonError :=
  let! now := timestamp "cannot create retention timestamp" clock in
  eff_reject (i64_max <? retention_ns) (Failed ["retention duration overflows nanoseconds"%string]) ;!
  let! cutoff := eff_read (fun _ =>
    ok_or (i64_checked_sub now retention_ns) (Failed ["retention cutoff underflows timestamp"%string])) in
  on_storage "fatal telemetry retention error" (retain_after cutoff) ;!
  eff_ret tt.

(** one iteration: the signal when the loop returns *)
Definition step (event : Event W V) : eff Self (option string) DaemonError :=
  match event with
  | ShutdownReady signal =>
      eff_read (fun _ => match signal with
                         | Ok name => Ok (Some name)
                         | Err e => Err (Failed ["shutdown signal future failed"%string; e])
                         end)
  | SystemTick clock => system_tick clock ;! eff_ret None
  | ProcessTick clock now host => process_tick clock now host ;! eff_ret None
  | RetentionTick clock => retention_tick clock ;! eff_ret None
  end.

(** the loop on the events that [select!] takes, until one ends it *)
Fixpoint run_events (events : list (Event W V)) : eff Self (option string) DaemonError :=
  match events with
  | [] => eff_ret None
  | event :: rest =>
      let! ended := step event in
      match ended with
      | Some signal => eff_ret (Some signal)
      | None => run_events rest
      end
  end.

(** the state before the loop; [Instant::now()] is read three times *)
Definition loop_start (c : C) (s : S) (instants : Z * Z * Z) : Self :=
  let '(smaps, due, policy_due) := instants in
  MkLoop c s smaps due policy_due (classifier_new (classification config) (pressure config))
    (engine_new (pressure config) 0) {| rt_previous := None |} RateFeatures_default None ∅.

Definition run_sampling_loop (polls : list (Ready W V)) (instants : Z * Z * Z) (c : C) (s : S) :
    Self * result (option string) DaemonError :=
  run_events (omap select_branch polls) (loop_start c s instants).
End SamplingLoop.

(** ** The observer: what the loop promises *)

(** the decision of an evaluation that observes *)
Definition decision_observed (d : PolicyDecision) : Prop :=
  pd_dry_run d = true /\ Forall (fun a => pa_mutating a = false) (pd_planned_actions d).
Definition zram_observed (audit : ZramAuditReport) : Prop :=
  zr_dry_run audit = true /\
  Forall (fun plan => zp_dry_run plan = true /\ zp_allowed plan = false) (zr_plans audit).
Definition tiering_observed (audit : TieringAuditReport) : Prop :=
  br_production_activation (tr_recommendation audit) = false /\
  br_selected (tr_recommendation audit) = Tiering.Zram.
Definition ksm_observed (report : KsmReport) : Prop := kr_dry_run report = true /\ kr_plan report = None.

Section Observer.
Context {S : Type} `{TelemetryStorage S} (session : Z).

(** One call of the storage: telemetry, a retention, or an audit of something that
    only observed. *)
Inductive storage_call (s : S) : S -> Prop :=
| call_system sample : storage_call s (fst (store_system session sample s))
| call_classified batch transition : storage_call s (fst (store_classified session batch transition s))
| call_retain cutoff : storage_call s (fst (retain_after cutoff s))
| call_policy decision heartbeat : decision_observed decision ->
    storage_call s (fst (store_policy session decision heartbeat s))
| call_zram audit : zram_observed audit -> storage_call s (fst (store_zram_audit session audit s))
| call_tiering audit : tiering_observed audit ->
    storage_call s (fst (store_tiering_audit session audit s))
| call_damon report : rep_zero_damos report = true -> rep_dry_run report = true ->
    storage_call s (fst (store_damon_audit session report s))
| call_damos report : dmr_plan report = None -> dmr_dry_run report = true ->
    storage_call s (fst (store_damos_audit session report s))
| call_ksm report : ksm_observed report -> storage_call s (fst (store_ksm_audit session report s)).

(** The observer evaluates the policy in observe mode and calls the storage; it has
    no other action. *)
Inductive observer_step : PolicyEngine * S -> PolicyEngine * S -> Prop :=
| observer_evaluates e s input :
    observer_step (e, s) (fst (Policy.evaluate input true e), s)
| observer_stores e s s' : storage_call s s' -> observer_step (e, s) (e, s').
End Observer.

(** ** Lemmas *)
Module Facts.

Lemma filter_not_mutating (l : list PlannedAction) :
  Forall (fun a => pa_mutating a = false) (filter (fun a => pa_mutating a = false) l).
Proof.
  induction l as [|a l IH]; [constructor |]. rewrite filter_cons.
  destruct (decide (pa_mutating a = false)); [by constructor | done].
Qed.

Lemma plan_actions_observed state input :
  Forall (fun a => pa_mutating a = false) (ap_planned (plan_actions state input true)).
Proof.
  unfold plan_actions. rewrite !Policy.Facts.reject_mutations_eq.
  destruct state; cbn [ap_planned]; repeat case_match; simplify_eq; cbn [ap_planned];
    first [ apply filter_not_mutating | repeat constructor ].
Qed.

Lemma evaluate_observed input e e' d :
  Policy.evaluate input true e = (e', Ok d) -> decision_observed d.
Proof.
  unfold Policy.evaluate. destruct (validate_input input); [| done].
  destruct (_ <? _); [done |]. intros [= _ <-]. split; [done |].
  apply plan_actions_observed.
Qed.

Lemma plan_observed context config :
  zp_dry_run (plan_profile context config "observe") = true /\
  zp_allowed (plan_profile context config "observe") = false.
Proof.
  unfold plan_profile. cbn [zp_dry_run zp_allowed]. split; [done |].
  apply bool_decide_eq_false. rewrite sort_dedup_nil. unfold profile_blocks.
  rewrite push_if_nil. by intros [? _].
Qed.
Lemma zram_audit_observed {W} `{Zram.ZramSystem W} d config (w : W) audit :
  zram_audit d config w = Ok audit -> general_mode (general config) = "observe"%string ->
  zram_observed audit.
Proof.
  unfold zram_audit. intros Ha Hm. inv_ok. split; [done |]. simpl.
  apply Forall_forall. intros plan Hin. apply in_map_iff in Hin as (device & <- & _).
  rewrite Hm. apply plan_observed.
Qed.

Lemma recommend_without_baseline input :
  ri_same_host_zram_baseline input = None ->
  br_production_activation (recommend_backend input) = false /\
  br_selected (recommend_backend input) = Tiering.Zram.
Proof.
  intros Hb. unfold recommend_backend, select_backend, baseline_ready. rewrite Hb.
  repeat (case_match; simplify_eq; try done).
Qed.

Lemma inspect_host_observed {V} `{Tiering.TieringSystem V} config ts (v : V) audit :
  Tiering.inspect_host config ts v = Ok audit -> tiering_observed audit.
Proof.
  unfold Tiering.inspect_host. destruct (Tiering.inspect_linux _ _ _); [| discriminate].
  destruct (unwrap_or _ _) as [source fs]. intros [= <-].
  by apply recommend_without_baseline.
Qed.

Lemma validated_observes config :
  validate config = Ok tt -> general_mode (general config) = "observe"%string.
Proof. intros Hv. by apply validate_observe_only_lemma in Hv as [? _]. Qed.

(** [frames] where the continuation may use what the first part returned *)
Lemma frames_bind_run {S A B E} (R : S -> S -> Prop) `{!PreOrder R} (m : eff S A E) (k : A -> eff S B E) :
  frames R m -> (forall s s' a, m s = (s', Ok a) -> R s' (fst (k a s'))) -> frames R (eff_bind m k).
Proof.
  intros Hm Hk s. specialize (Hm s). unfold eff_bind.
  destruct (m s) as [s' [a|e]] eqn:E'; simpl in *; [| done].
  etrans; [exact Hm | by eapply Hk].
Qed.

Section Refinement.
Context {C S W V : Type} `{TelemetryCollector C} `{TelemetryStorage S}
  `{Zram.ZramSystem W} `{Tiering.TieringSystem V}.
Context (sha256_hex : string -> string) (session : Z) (config : Config)
  (capabilities : option CgroupCapabilities).
Context (Hvalid : validate config = Ok tt).
Abbreviation Self := (Loop C S).

(** what the observer sees of the loop *)
Definition view (self : Self) : PolicyEngine * S := (lp_policy_engine self, lp_storage self).
Definition simulates (a b : Self) : Prop := star (observer_step session) (view a) (view b).

#[local] Instance simulates_preorder : PreOrder simulates.
Proof. split; [intros a; constructor |]. intros a b c. apply star_trans. Qed.

Lemma simulates_view a b : view a = view b -> simulates a b.
Proof. unfold simulates. intros ->. constructor. Qed.
Lemma simulates_step a b : observer_step session (view a) (view b) -> simulates a b.
Proof. intros Hs. eapply star_snoc; [constructor | exact Hs]. Qed.

Lemma frames_on_collector {A} (m : eff C A CollectorError) : frames simulates (on_collector (S := S) m).
Proof. intros self. unfold on_collector. destruct (m _). by apply simulates_view. Qed.
Lemma frames_set f : (forall self, view (f self) = view self) -> frames simulates (eff_upd (E := DaemonError) f).
Proof. intros Hf. apply frames_upd. intros self. by apply simulates_view. Qed.
Lemma frames_on_storage {A} context (m : eff S A string) :
  (forall s, storage_call session s (fst (m s))) -> frames simulates (on_storage (C := C) context m).
Proof.
  intros Hm self. unfold on_storage. specialize (Hm (lp_storage self)).
  destruct (m _) as [s r]. apply simulates_step. by apply observer_stores.
Qed.
Lemma frames_timestamp context clock : frames simulates (timestamp (C := C) (S := S) context clock).
Proof. apply frames_read. apply _. Qed.

Ltac loop_frames :=
  repeat first
    [ apply frames_on_collector
    | apply frames_timestamp
    | apply frames_set; done
    | apply frames_on_storage; intros; constructor; done
    | apply frames_bind; [apply _ | | intros ?]
    | apply frames_ret; apply _
    | apply frames_err; apply _
    | apply frames_get; apply _
    | apply frames_read; apply _
    | apply frames_reject; apply _
    | apply frames_if
    | match goal with |- frames _ (match ?r with _ => _ end) => destruct r eqn:? end ].

Lemma frames_system_tick clock : frames simulates (system_tick session (C := C) (S := S) clock).
Proof.
  unfold system_tick. loop_frames.
Qed.
#[local] Opaque system_tick.

Lemma frames_store_audits d host : frames simulates (store_audits (C := C) (S := S) session config d host).
Proof.
  unfold store_audits. loop_frames.
  - apply frames_on_storage. intros s. constructor.
    eapply zram_audit_observed; [eassumption | by apply validated_observes].
  - apply frames_on_storage. intros s. constructor. by eapply inspect_host_observed.
Qed.
#[local] Opaque store_audits.

Lemma frames_policy_step ts system classified outcome (host : Host W V) :
  frames simulates (policy_step (C := C) (S := S) session config capabilities ts system classified outcome host).
Proof.
  unfold policy_step. apply frames_bind; [apply _ | apply frames_get; apply _ | intros self].
  apply frames_bind; [apply _ | apply frames_read; apply _ | intros counts]. cbv zeta.
  apply frames_bind_run; [apply _ | |].
  - intros l. unfold on_engine. destruct (Policy.evaluate _ _ _) as [e r] eqn:E.
    apply simulates_step. unfold view. simpl.
    pose proof (observer_evaluates session (lp_policy_engine l) (lp_storage l)
                  (policy_input ts system (lp_latest_rates self) classified outcome capabilities
                     (fst counts) (snd counts))) as Hs.
    by rewrite E in Hs.
  - intros l l' evaluated E. unfold on_engine in E.
    destruct (Policy.evaluate _ _ _) as [e r] eqn:Ee. injection E as <- <-.
    destruct r as [d|]; [| reflexivity]. apply evaluate_observed in Ee.
    match goal with |- simulates ?l (fst (?m ?l)) => enough (frames simulates m) as Hf by apply Hf end.
    apply frames_bind; [apply _ | | intros inserted].
    + apply frames_on_storage. intros s. by constructor.
    + apply frames_if; [apply frames_store_audits | apply frames_ret; apply _].
Qed.
#[local] Opaque policy_step.

Lemma frames_classification_step ts now classified :
  frames simulates (classification_step (C := C) (S := S) config ts now classified).
Proof.
  intros self. unfold classification_step. destruct (now <? _); [reflexivity |].
  destruct (ts <? 0); [by apply simulates_view |].
  destruct (classifier_evaluate _ _ _ _). by apply simulates_view.
Qed.
#[local] Opaque classification_step.

Lemma frames_store_batches batches : frames simulates (store_batches (C := C) (S := S) session batches).
Proof.
  induction batches as [|[batch transition] rest IH]; [apply frames_ret; apply _ |].
  apply frames_bind; [apply _ | | intros _; exact IH].
  apply frames_on_storage. intros s. constructor.
Qed.
#[local] Opaque store_batches.

Lemma frames_policy_tick ts now classified outcome (host : Host W V) :
  frames simulates (policy_tick (C := C) (S := S) session config capabilities ts now classified outcome host).
Proof.
  unfold policy_tick. loop_frames. apply frames_policy_step.
Qed.
#[local] Opaque policy_tick.

Lemma frames_process_tick clock now (host : Host W V) :
  frames simulates (process_tick (C := C) (S := S) sha256_hex session config capabilities clock now host).
Proof.
  unfold process_tick. loop_frames.
  all: first [ apply frames_classification_step | apply frames_policy_tick | apply frames_store_batches ].
Qed.
#[local] Opaque process_tick.

Lemma frames_step event :
  frames simulates (step (C := C) (S := S) (W := W) (V := V) sha256_hex session config capabilities event).
Proof.
  destruct event; unfold step.
  - apply frames_read. apply _.
  - apply frames_bind; [apply _ | apply frames_system_tick | intros _; apply frames_ret; apply _].
  - apply frames_bind; [apply _ | apply frames_process_tick | intros _; apply frames_ret; apply _].
  - apply frames_bind; [apply _ | | intros _; apply frames_ret; apply _].
    unfold retention_tick. loop_frames.
Qed.

Lemma frames_run_events events :
  frames simulates (run_events (C := C) (S := S) (W := W) (V := V) sha256_hex session config capabilities events).
Proof.
  induction events as [|event rest IH]; [apply frames_ret; apply _ |].
  apply frames_bind; [apply _ | apply frames_step | intros [signal|]; [apply frames_ret; apply _ | exact IH]].
Qed.
End Refinement.

(** ** Termination without an error *)

(** [m] never returns an error *)
Definition total {S A E} (m : eff S A E) : Prop := forall s, is_ok (snd (m s)) = true.

(** a storage whose calls all succeed *)
Record infallible (S : Type) `{TelemetryStorage S} : Prop := {
  inf_system session sample : total (store_system (S := S) session sample);
  inf_classified session batch transition : total (store_classified (S := S) session batch transition);
  inf_retain cutoff : total (retain_after (S := S) cutoff);
  inf_policy session decision heartbeat : total (store_policy (S := S) session decision heartbeat);
  inf_counts ts (s : S) : is_ok (policy_history_counts ts s) = true;
  inf_zram session audit : total (store_zram_audit (S := S) session audit);
  inf_tiering session audit : total (store_tiering_audit (S := S) session audit);
  inf_damon session report : total (store_damon_audit (S := S) session report);
  inf_damos session report : total (store_damos_audit (S := S) session report);
  inf_ksm session report : total (store_ksm_audit (S := S) session report)
}.

(** the clock shows a time after the epoch that fits an [i64] *)
Definition clock_valid (clock : option Z) : Prop :=
  exists t, clock = Some t /\ 0 <= t <= i64_max.
Definition event_valid {W V} (event : Event W V) : Prop :=
  match event with
  | ShutdownReady signal => is_ok signal = true
  | SystemTick clock | ProcessTick clock _ _ | RetentionTick clock => clock_valid clock
  end.

Lemma total_bind {S A B E} (m : eff S A E) (k : A -> eff S B E) :
  total m -> (forall a, total (k a)) -> total (eff_bind m k).
Proof.
  intros Hm Hk s. specialize (Hm s). unfold eff_bind.
  destruct (m s) as [s' [a|e]]; [apply Hk | done].
Qed.
Lemma total_ret {S A E} (a : A) : total (eff_ret (S := S) (E := E) a).
Proof. by intros s. Qed.
Lemma total_get {S E} : total (@eff_get S E).
Proof. by intros s. Qed.
Lemma total_upd {S E} f : total (@eff_upd S E f).
Proof. by intros s. Qed.
Lemma total_read {S A E} (f : S -> result A E) : (forall s, is_ok (f s) = true) -> total (eff_read f).
Proof. intros Hf s. apply Hf. Qed.
Lemma total_if {S A E} (c : bool) (m n : eff S A E) : total m -> total n -> total (if c then m else n).
Proof. by destruct c. Qed.
Lemma with_context_ok {A} context (r : result A string) : is_ok (with_context context r) = is_ok r.
Proof. by destruct r. Qed.

Section Total.
Context {C S W V : Type} `{TelemetryCollector C} `{TelemetryStorage S}
  `{Zram.ZramSystem W} `{Tiering.TieringSystem V}.
Context (sha256_hex : string -> string) (session : Z) (config : Config)
  (capabilities : option CgroupCapabilities).
Context (Hvalid : validate config = Ok tt) (Hstorage : infallible S).

Lemma validated_telemetry :
  1 <= telemetry_retention_days (telemetry config) <= 3650 /\
  1 <= telemetry_sqlite_batch_size (telemetry config) <= 10000.
Proof.
  pose proof Hvalid as (_ & _ & Hv & _)%validate_parts. unfold validate_telemetry in Hv.
  split_checks. unfold in_range in *. bools. lia.
Qed.

Lemma total_on_collector {A} (m : eff C A CollectorError) : total (on_collector (S := S) m).
Proof. intros self. unfold on_collector. by destruct (m _). Qed.
Lemma total_on_storage {A} context (m : eff S A string) :
  total m -> total (on_storage (C := C) context m).
Proof.
  intros Hm self. unfold on_storage. specialize (Hm (lp_storage self)). destruct (m _).
  simpl. by rewrite with_context_ok.
Qed.
Lemma total_timestamp context clock : clock_valid clock -> total (timestamp (C := C) (S := S) context clock).
Proof.
  intros (t & -> & Ht). apply total_read. intros _. unfold unix_timestamp_ns. simpl.
  destruct (Z.leb_spec t i64_max); [done | lia].
Qed.
Lemma total_on_engine {A} (m : eff PolicyEngine A PolicyError) : total (on_engine (C := C) (S := S) m).
Proof. intros self. unfold on_engine. by destruct (m _). Qed.

Ltac totals :=
  repeat first
    [ apply total_on_collector
    | apply total_on_engine
    | apply total_timestamp; done
    | apply total_on_storage; by apply Hstorage
    | apply total_bind; [| intros ?]
    | apply total_ret | apply total_get | apply total_upd
    | apply total_if
    | match goal with |- total (match ?r with _ => _ end) => destruct r eqn:? end ].

Lemma total_store_audits d host : total (store_audits (C := C) (S := S) (W := W) (V := V) session config d host).
Proof. unfold store_audits. totals. Qed.

Lemma total_policy_step ts system classified outcome (host : Host W V) :
  total (policy_step (C := C) (S := S) session config capabilities ts system classified outcome host).
Proof.
  unfold policy_step. apply total_bind; [apply total_get | intros self].
  apply total_bind; [| intros counts].
  { apply total_read. intros s. rewrite with_context_ok. by apply Hstorage. }
  apply total_bind; [apply total_on_engine | intros [d|e]; [| apply total_ret]].
  apply total_bind; [apply total_on_storage; by apply Hstorage | intros [|]; [| apply total_ret]].
  apply total_store_audits.
Qed.

Lemma total_classification_step ts now classified :
  total (classification_step (C := C) (S := S) config ts now classified).
Proof.
  intros self. unfold classification_step. destruct (now <? _); [done |].
  destruct (ts <? 0); [done |]. by destruct (classifier_evaluate _ _ _ _).
Qed.

Lemma total_store_batches batches : total (store_batches (C := C) (S := S) session batches).
Proof.
  induction batches as [|[batch transition] rest IH]; [apply total_ret |].
  apply total_bind; [apply total_on_storage; by apply Hstorage | done].
Qed.

Lemma batches_ok classified transition :
  is_ok (batches_of (telemetry_sqlite_batch_size (telemetry config)) classified transition) = true.
Proof.
  pose proof validated_telemetry as [_ ?]. unfold batches_of.
  destruct (bool_decide _); [done |].
  destruct (Z.eqb_spec (telemetry_sqlite_batch_size (telemetry config)) 0); [lia | done].
Qed.

Lemma total_process_tick clock now (host : Host W V) : clock_valid clock ->
  total (process_tick (C := C) (S := S) sha256_hex session config capabilities clock now host).
Proof.
  intros Hc. unfold process_tick. apply total_bind; [by apply total_timestamp | intros ts].
  apply total_bind; [apply total_get | intros self]. cbv zeta.
  apply total_bind; [apply total_if; [apply total_upd | apply total_ret] | intros _].
  apply total_bind; [apply total_on_collector | intros [processes|e]; [| apply total_ret]].
  apply total_bind; [apply total_get | intros self'].
  apply total_bind; [apply total_classification_step | intros classification].
  apply total_bind.
  { destruct classification as [[outcome transition]|]; [| apply total_ret].
    unfold policy_tick. apply total_bind; [apply total_get | intros l].
    apply total_if; [| apply total_ret]. apply total_bind; [apply total_upd | intros _].
    destruct (lp_latest_system l); [apply total_policy_step | apply total_ret]. }
  intros _. apply total_bind; [apply total_read; intros _; apply batches_ok | intros batches].
  apply total_store_batches.
Qed.

Lemma total_retention_tick clock : clock_valid clock ->
  total (retention_tick (C := C) (S := S) config clock).
Proof.
  intros (t & -> & Ht). pose proof validated_telemetry as [? _].
  assert (retention_ns config <= 3650 * 86400000000000) by (unfold retention_ns; lia).
  assert (0 <= retention_ns config) by (unfold retention_ns; lia).
  intros self. unfold retention_tick, timestamp, unix_timestamp_ns, eff_bind, eff_read, eff_reject,
    i64_checked_sub. simpl.
  destruct (Z.leb_spec t i64_max); [| lia]. simpl.
  destruct (Z.ltb_spec i64_max (retention_ns config)); [unfold_int; lia |]. simpl.
  destruct (Z.leb_spec i64_min (t - retention_ns config)); [| unfold_int; lia].
  destruct (Z.leb_spec (t - retention_ns config) i64_max); [| unfold_int; lia]. simpl.
  pose proof (total_on_storage "fatal telemetry retention error" _ (inf_retain S Hstorage (t - retention_ns config)) self) as Hr.
  by destruct (on_storage _ _ _) as [s' [a|e]].
Qed.

Lemma total_step event : event_valid event ->
  total (step (C := C) (S := S) (W := W) (V := V) sha256_hex session config capabilities event).
Proof.
  intros He. destruct event; unfold step; simpl in He.
  - apply total_read. intros _. by destruct signal.
  - apply total_bind; [| intros _; apply total_ret]. unfold system_tick. totals.
  - apply total_bind; [by apply total_process_tick | intros _; apply total_ret].
  - apply total_bind; [by apply total_retention_tick | intros _; apply total_ret].
Qed.

Lemma total_run_events events : Forall event_valid events ->
  total (run_events (C := C) (S := S) (W := W) (V := V) sha256_hex session config capabilities events).
Proof.
  induction 1 as [|event rest He _ IH]; [apply total_ret |].
  apply total_bind; [by apply total_step | intros [signal|]; [apply total_ret | done]].
Qed.
End Total.

(** ** Batches *)

Lemma chunks_loop_concat {A} fuel n (l : list A) : (0 < n)%nat -> (length l <= fuel)%nat ->
  concat (chunks_loop fuel n l) = l /\
  Forall (fun chunk => chunk <> [] /\ (length chunk <= n)%nat) (chunks_loop fuel n l).
Proof.
  intros Hn. revert l. induction fuel as [|fuel IH]; intros [|x l] Hlen; try done.
  { simpl in Hlen. lia. }
  cbn [chunks_loop concat]. destruct (IH (drop n (x :: l))) as [Hc Hf].
  { rewrite length_drop. simpl in *. lia. }
  split; [rewrite Hc; apply take_drop |].
  constructor; [| exact Hf]. split; [destruct n; [lia | done] |]. rewrite length_take. lia.
Qed.

Lemma with_transition_fst {A} (batches : list (list A)) t : map fst (with_transition batches t) = batches.
Proof.
  induction batches as [|b [|b' rest] IH]; [done | done |].
  cbn [with_transition map fst] in *. by rewrite IH.
Qed.
Lemma with_transition_snd {A} (batches : list (list A)) t : batches <> [] ->
  map snd (with_transition batches t) = repeat None (length batches - 1) ++ [t].
Proof.
  induction batches as [|b [|b' rest] IH]; [done | done |]. intros _.
  cbn [with_transition map snd length] in *. rewrite IH by done.
  replace (Datatypes.S (Datatypes.S (length rest)) - 1)%nat with (Datatypes.S (length rest)) by lia.
  replace (Datatypes.S (length rest) - 1)%nat with (length rest) by lia. done.
Qed.
End Facts.

(** ** A host for the demonstrations *)
Module Demo.

(** nothing can be read *)
Record NoHost := MkNoHost {}.
#[export] Instance no_zram : Zram.ZramSystem NoHost := {
  read_text _ _ := Err {| Zram.io_kind := Zram.NotFound; Zram.io_text := "not found" |};
  list_dir _ _ := Err {| Zram.io_kind := Zram.NotFound; Zram.io_text := "not found" |};
  path_exists _ _ := false;
  owner_and_mode _ _ := None;
  canonicalize _ _ := None;
  read_hot_add _ := eff_err {| Zram.io_kind := Zram.NotFound; Zram.io_text := "not found" |};
  write_file _ _ := eff_err {| Zram.io_kind := Zram.NotFound; Zram.io_text := "not found" |};
  await_exists _ := eff_ret false;
  clock_allows := eff_ret false;
  run_helper _ _ _ := eff_ret (Zram.HelperSpawnError "not found")
}.
#[export] Instance no_tiering : Tiering.TieringSystem NoHost := {
  read_text _ _ := Err {| Tiering.io_kind := Tiering.NotFound; Tiering.io_text := "not found" |};
  path_exists _ _ := false;
  is_dir _ _ := false;
  opens_for_write _ _ := false;
  canonicalize _ _ := None;
  read_dir _ _ := Err {| Tiering.io_kind := Tiering.NotFound; Tiering.io_text := "not found" |};
  udevadm_info _ _ := None;
  symlink_metadata _ _ := Err {| Tiering.io_kind := Tiering.NotFound; Tiering.io_text := "not found" |};
  write_file _ _ := eff_err {| Tiering.io_kind := Tiering.NotFound; Tiering.io_text := "not found" |};
  remove_file _ := eff_err {| Tiering.io_kind := Tiering.NotFound; Tiering.io_text := "not found" |};
  run_helper _ _ := eff_err {| Tiering.io_kind := Tiering.NotFound; Tiering.io_text := "not found" |}
}.
Definition no_files : Damon.Files :=
  {| Damon.file_text _ := Err Damon.NotFound; Damon.file_is_dir _ := Err Damon.NotFound;
     Damon.file_opens _ := Err Damon.NotFound; Damon.dir_entries _ := None |}.
Definition no_host : Host NoHost NoHost :=
  MkHost (MkNoHost) (MkNoHost) no_files
    {| kf_fs := no_files; kf_is_file _ := false; kf_metadata _ := None; kf_error_text _ := "not found" |}.

(** a collector whose system samples are scripted and fail afterwards *)
Definition Script := list (Z -> SystemSample).
#[export] Instance scripted : TelemetryCollector Script := {
  system_sample ts := fun script =>
    match script with
    | sample :: rest => (rest, Ok (sample ts))
    | [] => ([], Err (RequiredRead "fixture" "/fixture"
                        {| Collector.io_kind := Collector.NotFound; Collector.io_text := "fixture" |}))
    end;
  process_samples _ _ _ := eff_ret {| co_samples := []; co_stats := stats_default |}
}.

(** a storage in memory *)
Record Memory := MkMemory {
  me_samples : list SystemSample;
  me_decisions : list PolicyDecision;
  me_cutoffs : list Z
}.
#[export] Instance in_memory : TelemetryStorage Memory := {
  store_system _ sample := eff_upd (fun m => MkMemory (me_samples m ++ [sample]) (me_decisions m) (me_cutoffs m));
  store_processes _ _ := eff_ret 0%nat;
  store_classified _ _ _ := eff_ret 0%nat;
  retain_after cutoff := fun m => (MkMemory (me_samples m) (me_decisions m) (me_cutoffs m ++ [cutoff]), Ok (0, 0));
  store_policy _ d _ := fun m => (MkMemory (me_samples m) (me_decisions m ++ [d]) (me_cutoffs m), Ok true);
  policy_history_counts _ _ := Ok (0, 0);
  store_zram_audit _ _ := eff_ret tt;
  store_tiering_audit _ _ := eff_ret tt;
  store_damon_audit _ _ := eff_ret tt;
  store_damos_audit _ _ := eff_ret tt;
  store_ksm_audit _ _ := eff_ret tt
}.

(** 10 of 100 bytes available, with a PSI average of 20 % *)
Definition low_memory (ts : Z) : SystemSample :=
  {| ss_timestamp_ns := ts; ss_mem_total_bytes := 100; ss_mem_available_bytes := 10;
     ss_anon_bytes := None; ss_file_cache_bytes := None; ss_slab_bytes := None;
     ss_swap_used_bytes := None; ss_swap_in_pages := None; ss_swap_out_pages := None;
     ss_major_faults := None; ss_minor_faults := None; ss_pgscan := None; ss_pgsteal := None;
     ss_workingset_refault := None; ss_psi_memory := Some {| psi_some := Some {| psi_avg10 := f64_of_Z 20; psi_avg60 := f64_zero;
       psi_avg300 := f64_zero; psi_total_us := 0 |}; psi_full := None |}; ss_psi_cpu := None; ss_psi_io := None;
     ss_swap := {| sw_entries := []; sw_configuration := SwapNone |};
     ss_zram := Collector.no_zram; ss_zswap := no_zswap; ss_capabilities_unavailable := [] |}.

Definition second (n : Z) : Z := n * 1000000000.
(** one sample, then five rounds in which the system cannot be read *)
Definition stale_events : list (Event NoHost NoHost) :=
  SystemTick (Some (second 1000)) ::
  flat_map (fun n => [SystemTick (Some (second (1000 + n)));
                      ProcessTick (Some (second (1000 + n))) (second n) no_host]) [5; 10; 15; 20; 25].
Definition stale_run : Loop Script Memory * result (option string) DaemonError :=
  run_events (fun s => s) 1 default_config None stale_events
    (loop_start default_config [low_memory] (MkMemory [] [] []) (0, 0, 0)).
End Demo.

(** ** Theorems *)
Module Theorems.
Import Facts Demo.

(** C3: Under a validated configuration the loop implements the observer: whatever the
    collector, the storage and the host answer, what happens to the policy engine and
    to the storage is a sequence of evaluations in observe mode and of storage calls
    that record telemetry, apply the retention, or record a decision without
    mutations and audits that neither ran nor allowed anything. *)
Theorem loop_refines_observer {C S W V} `{TelemetryCollector C} `{TelemetryStorage S}
    `{Zram.ZramSystem W} `{Tiering.TieringSystem V}
    sha256_hex session config capabilities (events : list (Event W V)) (self : Loop C S) :
  validate config = Ok tt ->
  star (observer_step session) (lp_policy_engine self, lp_storage self)
    (let self' := fst (run_events sha256_hex session config capabilities events self) in
     (lp_policy_engine self', lp_storage self')).
Proof. intros Hv. by apply (frames_run_events sha256_hex session config capabilities Hv events). Qed.

(** C15: The loop never stops by itself: with a validated configuration, a storage whose
    calls succeed and a clock that works, no failure of the collector, no rejected
    policy input and no unavailable audit ends it or makes it panic. *)
Theorem loop_never_fails {C S W V} `{TelemetryCollector C} `{TelemetryStorage S}
    `{Zram.ZramSystem W} `{Tiering.TieringSystem V}
    sha256_hex session config capabilities (events : list (Event W V)) (self : Loop C S) :
  validate config = Ok tt -> infallible S -> Forall event_valid events ->
  exists ended, snd (run_events sha256_hex session config capabilities events self) = Ok ended.
Proof.
  intros Hv Hs He.
  pose proof (total_run_events sha256_hex session config capabilities Hv Hs events He self) as Ht.
  destruct (snd _) as [ended|]; [by exists ended | done].
Qed.

(** A system sample that cannot be read changes nothing but the collector, and the
    loop goes on; a sample that cannot be stored ends the loop at once, with the
    storage's error below its context. *)
Theorem system_tick_errors {C S W V} `{TelemetryCollector C} `{TelemetryStorage S}
    `{Zram.ZramSystem W} `{Tiering.TieringSystem V}
    sha256_hex session config capabilities t (events : list (Event W V)) (self : Loop C S) :
  0 <= t <= i64_max ->
  let run := run_events sha256_hex session config capabilities in
  match system_sample t (lp_collector self) with
  | (c, Err _) => run (SystemTick (Some t) :: events) self = run events (set_collector c self)
  | (c, Ok sample) =>
      forall s e, store_system session sample (lp_storage self) = (s, Err e) ->
        snd (run (SystemTick (Some t) :: events) self) =
          Err (Failed ["fatal system telemetry storage error"; e]%string)
  end.
Proof.
  intros Ht. cbn [run_events step]. unfold eff_bind at 1 2. unfold system_tick.
  destruct (system_sample t (lp_collector self)) as [c [sample|e]] eqn:Ec.
  - intros s e Es. unfold eff_bind at 1 2, timestamp, eff_read, unix_timestamp_ns. simpl.
    destruct (Z.leb_spec t i64_max); [| lia]. simpl. unfold eff_bind, on_collector. rewrite Ec.
    unfold eff_bind, eff_upd, on_storage. simpl. by rewrite Es.
  - unfold eff_bind at 1 2, timestamp, eff_read, unix_timestamp_ns. simpl.
    destruct (Z.leb_spec t i64_max); [| lia]. simpl. unfold eff_bind, on_collector. by rewrite Ec.
Qed.

(** A shutdown that is ready wins over every tick that is ready too, ends the loop
    with its signal, and leaves the state as the iterations before made it. *)
Theorem shutdown_wins {C S W V} `{TelemetryCollector C} `{TelemetryStorage S}
    `{Zram.ZramSystem W} `{Tiering.TieringSystem V}
    sha256_hex session config capabilities (before after : list (Ready W V)) (ready : Ready W V)
    signal instants (c : C) (s : S) self :
  rd_shutdown ready = Some (Ok signal) ->
  run_sampling_loop sha256_hex session config capabilities before instants c s = (self, Ok None) ->
  run_sampling_loop sha256_hex session config capabilities (before ++ ready :: after) instants c s
  = (self, Ok (Some signal)).
Proof.
  intros Hr. unfold run_sampling_loop. generalize (loop_start config c s instants). intros start.
  assert (select_branch ready = Some (ShutdownReady (Ok signal))) as Hs.
  { unfold select_branch. by rewrite Hr. }
  rewrite omap_app. cbn [omap list_omap]. rewrite Hs.
  generalize (omap select_branch before). intros events. revert start.
  induction events as [|event rest IH]; intros start Hrun.
  - simpl in *. by injection Hrun as ->.
  - cbn [run_events app] in *. apply eff_bind_ok in Hrun as (s1 & ended & Hstep & Hrun).
    unfold eff_bind. rewrite Hstep. destruct ended; [discriminate Hrun | by apply IH].
Qed.

(** The classified processes are stored in order, each once, in batches that are not
    empty and within the configured size, and the workload transition goes with the
    last batch only; without processes one empty batch carries it. *)
Theorem batches_partition size classified transition batches :
  0 <= size -> batches_of size classified transition = Ok batches ->
  concat (map fst batches) = classified /\
  map snd batches = repeat None (length batches - 1) ++ [transition] /\
  (classified <> [] ->
   Forall (fun batch => fst batch <> [] /\ Z.of_nat (length (fst batch)) <= size) batches).
Proof.
  intros Hsize. unfold batches_of. case_bool_decide as Hnil.
  { intros [= <-]. apply length_zero_iff_nil in Hnil as ->. done. }
  destruct (Z.eqb_spec size 0) as [|Hne]; [done |]. intros [= <-].
  destruct (chunks_loop_concat (length classified) (Z.to_nat size) classified) as [Hc Hf]; [lia | lia |].
  fold (chunks (Z.to_nat size) classified) in Hc, Hf.
  assert (chunks (Z.to_nat size) classified <> []) as Hne'.
  { intros E. rewrite E in Hc. simpl in Hc. by subst classified. }
  rewrite with_transition_fst, with_transition_snd by done. split_and!; [done | |].
  - rewrite <- (length_map fst (with_transition _ _)), with_transition_fst. done.
  - intros _. rewrite <- (with_transition_fst (chunks _ _) transition) in Hf.
    apply Forall_map in Hf. eapply Forall_impl; [| exact Hf].
    intros [batch t] [? ?]. simpl in *. split; [done | lia].
Qed.

(** The policy has no notion of the age of a sample: after one sample with low
    memory, 25 seconds in which the system cannot be read let the loop raise the
    pressure state on that one measurement. *)
Theorem stale_sample_escalates :
  length (me_samples (lp_storage (fst stale_run))) = 1%nat /\
  ss_timestamp_ns <$> lp_latest_system (fst stale_run) = Some (second 1000) /\
  map (fun d => (pd_timestamp_ns d, pd_current_state d, pd_state_changed d))
    (me_decisions (lp_storage (fst stale_run)))
  = [(second 1005, Watch, false); (second 1010, Watch, false); (second 1015, Pressure, true);
     (second 1020, Pressure, false); (second 1025, Pressure, false)].
Proof. split; [vm_compute; reflexivity |]. split; vm_compute; reflexivity. Qed.
End Theorems.

(** ** Witnesses *)
Module Witnesses.
Import Facts Demo Theorems.

Lemma config_valid : validate default_config = Ok tt.
Proof. vm_compute. reflexivity. Qed.

Definition demo_start : Loop Script Memory :=
  loop_start default_config [low_memory] (MkMemory [] [] []) (0, 0, 0).

Lemma loop_refines_observer_witness :
  star (observer_step 1) (engine_new (pressure default_config) 0, MkMemory [] [] [])
    (lp_policy_engine (fst stale_run), lp_storage (fst stale_run)).
Proof.
  exact (loop_refines_observer (fun s => s) 1 default_config None stale_events demo_start config_valid).
Defined.

Lemma memory_infallible : infallible Memory.
Proof. by constructor. Qed.

Lemma loop_never_fails_witness : exists ended, snd stale_run = Ok ended.
Proof.
  apply (loop_never_fails (fun s => s) 1 default_config None stale_events demo_start).
  - exact config_valid.
  - exact memory_infallible.
  - repeat constructor; eexists; (split; [reflexivity | vm_compute; split; discriminate]).
Defined.

(** a storage that refuses every write *)
Record Broken := MkBroken {}.
#[export] Instance broken_storage : TelemetryStorage Broken := {
  store_system _ _ := eff_err "disk full"%string;
  store_processes _ _ := eff_err "disk full"%string;
  store_classified _ _ _ := eff_err "disk full"%string;
  retain_after _ := eff_err "disk full"%string;
  store_policy _ _ _ := eff_err "disk full"%string;
  policy_history_counts _ _ := Err "disk full"%string;
  store_zram_audit _ _ := eff_err "disk full"%string;
  store_tiering_audit _ _ := eff_err "disk full"%string;
  store_damon_audit _ _ := eff_err "disk full"%string;
  store_damos_audit _ _ := eff_err "disk full"%string;
  store_ksm_audit _ _ := eff_err "disk full"%string
}.
Definition broken_start : Loop Script Broken :=
  loop_start default_config [low_memory] MkBroken (0, 0, 0).
Lemma system_tick_errors_witness :
  snd (run_events (W := NoHost) (V := NoHost) (fun s => s) 1 default_config None
         [SystemTick (Some 5)] broken_start)
  = Err (Failed ["fatal system telemetry storage error"; "disk full"]%string).
Proof.
  pose proof (system_tick_errors (W := NoHost) (V := NoHost) (fun s => s) 1 default_config None 5 []
                broken_start) as Hs.
  assert (0 <= 5 <= i64_max) as Ht by (vm_compute; split; discriminate).
  specialize (Hs Ht). cbn [system_sample scripted broken_start loop_start lp_collector] in Hs.
  by eapply Hs.
Defined.

Definition ready_tick : Ready NoHost NoHost :=
  {| rd_shutdown := None; rd_system := Some (Some 5); rd_process := None; rd_retention := None |}.
Definition ready_all : Ready NoHost NoHost :=
  {| rd_shutdown := Some (Ok "SIGTERM"%string); rd_system := Some (Some 6); rd_process := None;
     rd_retention := Some (Some 6) |}.
Lemma shutdown_wins_witness :
  snd (run_sampling_loop (fun s => s) 1 default_config None [ready_tick; ready_all; ready_tick]
         (0, 0, 0) [low_memory] (MkMemory [] [] [])) = Ok (Some "SIGTERM"%string).
Proof.
  pose proof (shutdown_wins (fun s => s) 1 default_config None [ready_tick] [ready_tick] ready_all
                "SIGTERM" (0, 0, 0) [low_memory] (MkMemory [] [] [])
                (fst (run_sampling_loop (fun s => s) 1 default_config None [ready_tick]
                        (0, 0, 0) [low_memory] (MkMemory [] [] [])))) as Hs.
  cbn [app] in Hs. rewrite Hs.
  - reflexivity.
  - reflexivity.
  - vm_compute. reflexivity.
Defined.

Definition demo_process : ProcessClassification :=
  {| pc_sample :=
       {| timestamp_ns := 0; pid := 1; executable := None; executable_name := None; parent_pid := None;
          process_group_id := None; session_id := None; tty_nr := None;
          foreground_process_group_id := None; start_time_ticks := None; cgroup_path := None;
          rss_bytes := None; pss_bytes := None; uss_bytes := None; swap_bytes := None;
          minor_faults := None; major_faults := None; cpu_percent := None; Classifier.io_read_bytes := None;
          Classifier.io_write_bytes := None |};
     pc_executable := ""; pc_command_signature := ""; pc_application_name := None;
     pc_category := CatUnknown; pc_is_game := false; pc_is_critical := false; pc_protected := true;
     pc_protected_game := false; pc_cold_candidate := false; pc_foreground := FgUnknown;
     pc_foreground_confidence := f64_zero; pc_confidence := f64_zero; pc_reasons := [] |}.
Definition demo_batches : list (list ProcessClassification * option WorkloadTransition) :=
  [([demo_process; demo_process], None); ([demo_process], None)].
Lemma batches_partition_witness :
  batches_of 2 [demo_process; demo_process; demo_process] None = Ok demo_batches /\
  concat (map fst demo_batches) = [demo_process; demo_process; demo_process].
Proof.
  split; [reflexivity |].
  apply (batches_partition 2 [demo_process; demo_process; demo_process] None demo_batches).
  - discriminate.
  - reflexivity.
Defined.
End Witnesses.
