(* ===== verification/Storage.v ===== *)
(** crates/storage/src/lib.rs: the database of the daemon over the schema of migrations/.
    The SQL statements of the source are functions on the tables, with the constraints of
    the schema; what SQLite decides itself, whether a statement is refused and which row
    ids are skipped, is a list of choices that the connection consumes. JSON and the
    checksum of the migrations are the class [StorageCodec]. *)

From S2P Require Import Prelude F64 Text Config Classifier Collector Workload Damos Actuator Policy Common.

(** ** SQLite *)

(** What the engine does with a statement beside what the statement says: refuse it (a full
    disk, a lock, an input or output error), or skip some row ids. *)
Record Choice := { ch_refusal : option string; ch_skip : nat }.
Definition granted : Choice := {| ch_refusal := None; ch_skip := 0 |}.

(** A table with [id INTEGER PRIMARY KEY AUTOINCREMENT]: the rows by their id, in the order
    they were inserted, and the largest id ever used. *)
Record Table (R : Type) := MkTable { tb_rows : list (Z * R); tb_sequence : Z }.
Arguments MkTable {R} _ _.
Arguments tb_rows {R} _.
Arguments tb_sequence {R} _.

Section Tables.
Context {R : Type}.
Definition empty_table : Table R := MkTable [] 0.
Definition insert_row (skip : nat) (row : R) (t : Table R) : result (Table R * Z) string :=
  let id := tb_sequence t + 1 + Z.of_nat skip in
  if i64_max <? id then Err "database or disk is full"%string
  else Ok (MkTable (tb_rows t ++ [(id, row)]) id, id).
(** the rows changed, and their number *)
Definition update_rows (p : Z * R -> bool) (f : R -> R) (t : Table R) : Table R * Z :=
  (MkTable (map (fun row => if p row then (fst row, f (snd row)) else row) (tb_rows t)) (tb_sequence t),
   Z.of_nat (length (filter (fun row => p row = true) (tb_rows t)))).
Definition delete_rows (p : Z * R -> bool) (t : Table R) : Table R * Z :=
  (MkTable (filter (fun row => p row = false) (tb_rows t)) (tb_sequence t),
   Z.of_nat (length (filter (fun row => p row = true) (tb_rows t)))).
Definition rows_where (p : Z * R -> bool) (t : Table R) : list (Z * R) :=
  filter (fun row => p row = true) (tb_rows t).
Definition find_row (p : Z * R -> bool) (t : Table R) : option (Z * R) := find_first p (tb_rows t).
Definition has_id (t : Table R) (id : Z) : bool := existsb (fun row => fst row =? id) (tb_rows t).
Definition count_where (p : Z * R -> bool) (t : Table R) : Z := Z.of_nat (length (rows_where p t)).

(** [ORDER BY key DESC, id DESC] *)
Definition newer (key : R -> Z) (a b : Z * R) : bool :=
  (key (snd b) <? key (snd a)) || (key (snd b) =? key (snd a)) && (fst b <=? fst a).
Definition newest_first (key : R -> Z) (rows : list (Z * R)) : list (Z * R) := sort_by (newer key) rows.
(** [ORDER BY key ASC, id ASC] *)
Definition oldest_first (key : R -> Z) (rows : list (Z * R)) : list (Z * R) :=
  sort_by (fun a b => newer key b a) rows.
(** [ORDER BY id] *)
Definition by_id (rows : list (Z * R)) : list (Z * R) := sort_by (fun a b => fst a <=? fst b) rows.
(** [ORDER BY id DESC LIMIT 1] *)
Definition last_row (rows : list (Z * R)) : option (Z * R) := head (newest_first (fun _ => 0) rows).
End Tables.

(** a REAL column: SQLite stores NULL for a NaN *)
Definition real (x : f64) : option f64 := if f64_is_nan x then None else Some x.

(** the connection: the database and the choices of the engine to come *)
Record Connection (D : Type) := MkConnection { cn_data : D; cn_choices : list Choice }.
Arguments MkConnection {D} _ _.
Arguments cn_data {D} _.
Arguments cn_choices {D} _.

Definition next_choice (l : list Choice) : Choice * list Choice :=
  match l with [] => (granted, []) | c :: l' => (c, l') end.

Section Statements.
Context {D : Type} (schema : D -> list string).

(** One statement, which needs its tables. It changes the database or fails as a whole. *)
Definition statement {A} (tables : list string) (f : nat -> D -> result (D * A) string) :
    eff (Connection D) A string := fun c =>
  let '(choice, rest) := next_choice (cn_choices c) in
  let kept := MkConnection (cn_data c) rest in
  match ch_refusal choice with
  | Some message => (kept, Err message)
  | None =>
      match find_first (fun t => negb (contains_str (schema (cn_data c)) t)) tables with
      | Some t => (kept, Err ("no such table: " ++ t)%string)
      | None =>
          match f (ch_skip choice) (cn_data c) with
          | Ok (d, a) => (MkConnection d rest, Ok a)
          | Err e => (kept, Err e)
          end
      end
  end.
Definition query {A} (tables : list string) (f : D -> A) : eff (Connection D) A string :=
  statement tables (fun _ d => Ok (d, f d)).
(** [Connection::prepare] *)
Definition prepare (tables : list string) : eff (Connection D) unit string :=
  query tables (fun _ => tt).
End Statements.

(** [anyhow::Context], as [{:#}] shows the chain *)
Definition in_context {S A} (context : string) (m : eff S A string) : eff S A string :=
  eff_map_err (fun e => context ++ ": " ++ e)%string m.

(** BEGIN IMMEDIATE, the body and COMMIT; the transaction is rolled back when it is dropped
    without a commit *)
Definition transaction {D A} (begin_context commit_context : string)
    (body : eff (Connection D) A string) : eff (Connection D) A string := fun c =>
  match in_context begin_context (prepare (fun _ => []) []) c with
  | (c1, Err e) => (c1, Err e)
  | (c1, Ok _) =>
      match (let! a := body in
             in_context commit_context (prepare (fun _ => []) []) ;! eff_ret a) c1 with
      | (c2, Ok a) => (c2, Ok a)
      | (c2, Err e) => (MkConnection (cn_data c) (cn_choices c2), Err e)
      end
  end.

(** ** The schema: the rows of the tables that the crate uses *)

Record HostRow := { hr_host : HostMetadata; hr_updated_at : string }.
Record SessionRow := {
  se_host_id : Z;
  se_mode : string;
  se_daemon_version : string;
  se_config_hash : string;
  se_started_at : string;
  se_ended_at : option string;
  se_clean_shutdown : bool
}.
Record CatalogRow := {
  ca_executable : string;
  ca_command_signature : string;
  ca_application_name : option string;
  ca_category : string;
  ca_is_game : bool;
  ca_is_critical : bool;
  ca_default_priority : Z
}.
Record ProcessRow := {
  pr_session_id : Z;
  pr_catalog_id : option Z;
  pr_timestamp_ns : Z;
  pr_pid : Z;
  pr_cgroup_path : option string;
  pr_rss_bytes : option Z;
  pr_pss_bytes : option Z;
  pr_uss_bytes : option Z;
  pr_swap_bytes : option Z;
  pr_minor_faults : option Z;
  pr_major_faults : option Z;
  pr_cpu_percent : option f64;
  pr_io_read_bytes : option Z;
  pr_io_write_bytes : option Z;
  pr_foreground : bool;
  pr_foreground_state : option string
}.
Record SystemRow := {
  sy_session_id : Z;
  sy_timestamp_ns : Z;
  sy_mem_total_bytes : Z;
  sy_mem_available_bytes : Z;
  sy_anon_bytes : option Z;
  sy_file_cache_bytes : option Z;
  sy_slab_bytes : option Z;
  sy_swap_used_bytes : option Z;
  sy_swap_in_pages : option Z;
  sy_swap_out_pages : option Z;
  sy_major_faults : option Z;
  sy_minor_faults : option Z;
  sy_pgscan : option Z;
  sy_pgsteal : option Z;
  sy_workingset_refault : option Z;
  sy_psi_memory_some_avg10 : option f64;
  sy_psi_memory_full_avg10 : option f64;
  sy_psi_io_some_avg10 : option f64;
  sy_zram_orig_bytes : option Z;
  sy_zram_compressed_bytes : option Z;
  sy_zswap_stored_pages : option Z;
  sy_zswap_pool_bytes : option Z;
  sy_psi_cpu_some_avg10 : option f64;
  sy_psi_cpu_full_avg10 : option f64;
  sy_swap_configuration : string;
  sy_swap_entries_json : string;
  sy_zram_present : bool;
  sy_zram_memory_used_bytes : option Z;
  sy_zram_devices_json : string;
  sy_zswap_present : bool;
  sy_zswap_enabled : option bool;
  sy_capabilities_unavailable_json : string
}.
Record EventRow := {
  ev_session_id : Z;
  ev_timestamp_ns : Z;
  ev_previous_class : option string;
  ev_new_class : string;
  ev_confidence : f64;
  ev_reason_json : string
}.
Record DecisionRow := {
  de_session_id : Z;
  de_timestamp_ns : Z;
  de_pressure_state : string;
  de_policy_name : string;
  de_input_features_json : string;
  de_actions_json : string;
  de_expected_gain_bytes : option Z;
  de_expected_cost_score : option f64;
  de_model_version : option string;
  de_rule_version : option string
}.
Record SafetyRow := {
  sa_session_id : option Z;
  sa_timestamp_ns : Z;
  sa_severity : string;
  sa_event_type : string;
  sa_message : string;
  sa_context_json : option string
}.
Record ConfigurationRow := {
  cf_session_id : option Z;
  cf_created_at : string;
  cf_reason : string;
  cf_config_json : string;
  cf_system_values_json : string
}.
Record BenchmarkRow := {
  be_host_id : Z;
  be_name : string;
  be_workload : string;
  be_profile : string;
  be_baseline : Z;
  be_started_at : string;
  be_ended_at : option string;
  be_status : string;
  be_parameters_json : string;
  be_notes : option string
}.
Record CgroupRow := {
  cg_session_id : Z;
  cg_timestamp_ns : Z;
  cg_process_catalog_id : Z;
  cg_identity : string;
  cg_pid : Z;
  cg_start_time_ticks : Z;
  cg_original_group : string;
  cg_target_group : string;
  cg_original_properties_json : string;
  cg_requested_properties_json : string;
  cg_reason : string;
  cg_applied : bool;
  cg_verified : bool;
  cg_rolled_back : bool;
  cg_last_error : option string
}.
Record GroupRow := {
  gr_session_id : Z;
  gr_backend : string;
  gr_owned_by_nemor : bool;
  gr_state : string;
  gr_updated_at : string
}.
(** the tables of DAMOS, which the crate only reads *)
Record PlanRow := {
  pl_decision_id : string;
  pl_plan_id : string;
  pl_session_id : string;
  pl_disposition : string;
  pl_reason_codes_json : string;
  pl_created_at : string
}.
Record BlacklistRow := {
  bk_stable_identity : string;
  bk_region_signature : string;
  bk_reason : string;
  bk_source_action_id : string;
  bk_evidence_json : string;
  bk_created_at_ns : Z;
  bk_expires_at_ns : Z
}.

(** the tables, by their name *)
Inductive TableName :=
| Hosts | Sessions | ProcessCatalog | ProcessSamples | SystemSamples | WorkloadEvents
| PolicyDecisions | SafetyEvents | ConfigurationSnapshots | BenchmarkRuns | CgroupSnapshots
| DamosActionPlans | DamosRefaultBlacklist.
#[export] Instance TableName_eq_dec : EqDecision TableName.
Proof. solve_decision. Defined.
Definition table_name (t : TableName) : string :=
  match t with
  | Hosts => "hosts" | Sessions => "sessions" | ProcessCatalog => "process_catalog"
  | ProcessSamples => "process_samples" | SystemSamples => "system_samples"
  | WorkloadEvents => "workload_events" | PolicyDecisions => "policy_decisions"
  | SafetyEvents => "safety_events" | ConfigurationSnapshots => "configuration_snapshots"
  | BenchmarkRuns => "benchmark_runs" | CgroupSnapshots => "cgroup_snapshots"
  | DamosActionPlans => "damos_action_plans" | DamosRefaultBlacklist => "damos_refault_blacklist"
  end%string.
Definition Row (t : TableName) : Type :=
  match t with
  | Hosts => HostRow | Sessions => SessionRow | ProcessCatalog => CatalogRow
  | ProcessSamples => ProcessRow | SystemSamples => SystemRow | WorkloadEvents => EventRow
  | PolicyDecisions => DecisionRow | SafetyEvents => SafetyRow
  | ConfigurationSnapshots => ConfigurationRow | BenchmarkRuns => BenchmarkRow
  | CgroupSnapshots => CgroupRow | DamosActionPlans => PlanRow
  | DamosRefaultBlacklist => BlacklistRow
  end.

(** sqlite_master, the settings of the connection and the tables; schema_migrations and
    cgroup_managed_groups, whose keys the program chooses, are maps *)
Record Database := {
  db_schema : list string;
  db_journal_mode : string;
  db_foreign_keys : bool;
  db_migrations : gmap Z string;
  db_groups : gmap string GroupRow;
  db_table : forall t, Table (Row t)
}.
Definition new_database (journal_mode : string) : Database :=
  {| db_schema := []; db_journal_mode := journal_mode; db_foreign_keys := false;
     db_migrations := ∅; db_groups := ∅; db_table _ := empty_table |}.
Definition set_schema (schema : list string) (d : Database) : Database :=
  {| db_schema := schema; db_journal_mode := db_journal_mode d; db_foreign_keys := db_foreign_keys d;
     db_migrations := db_migrations d; db_groups := db_groups d; db_table := db_table d |}.
Definition set_journal_mode (mode : string) (d : Database) : Database :=
  {| db_schema := db_schema d; db_journal_mode := mode; db_foreign_keys := db_foreign_keys d;
     db_migrations := db_migrations d; db_groups := db_groups d; db_table := db_table d |}.
Definition set_foreign_keys (on : bool) (d : Database) : Database :=
  {| db_schema := db_schema d; db_journal_mode := db_journal_mode d; db_foreign_keys := on;
     db_migrations := db_migrations d; db_groups := db_groups d; db_table := db_table d |}.
Definition set_migrations (m : gmap Z string) (d : Database) : Database :=
  {| db_schema := db_schema d; db_journal_mode := db_journal_mode d; db_foreign_keys := db_foreign_keys d;
     db_migrations := m; db_groups := db_groups d; db_table := db_table d |}.
Definition set_groups (g : gmap string GroupRow) (d : Database) : Database :=
  {| db_schema := db_schema d; db_journal_mode := db_journal_mode d; db_foreign_keys := db_foreign_keys d;
     db_migrations := db_migrations d; db_groups := g; db_table := db_table d |}.
Definition set_table (t : TableName) (table : Table (Row t)) (d : Database) : Database :=
  {| db_schema := db_schema d; db_journal_mode := db_journal_mode d; db_foreign_keys := db_foreign_keys d;
     db_migrations := db_migrations d; db_groups := db_groups d;
     db_table := fun t' =>
       match decide (t = t') with
       | left e => eq_rect t (fun t => Table (Row t)) table t' e
       | right _ => db_table d t'
       end |}.

(** ** The statements on these tables *)

(** the foreign keys of a row: it refers to rows that exist *)
Definition references (t : TableName) (id : Z) (d : Database) : bool := has_id (db_table d t) id.
Definition sound_row (t : TableName) (row : Row t) (d : Database) : bool :=
  match t return Row t -> bool with
  | Sessions => fun r => references Hosts (se_host_id r) d
  | ProcessSamples => fun r =>
      references Sessions (pr_session_id r) d
      && is_none_or (pr_catalog_id r) (fun c => references ProcessCatalog c d)
  | SystemSamples => fun r => references Sessions (sy_session_id r) d
  | WorkloadEvents => fun r => references Sessions (ev_session_id r) d
  | PolicyDecisions => fun r => references Sessions (de_session_id r) d
  | SafetyEvents => fun r => is_none_or (sa_session_id r) (fun s => references Sessions s d)
  | ConfigurationSnapshots => fun r => is_none_or (cf_session_id r) (fun s => references Sessions s d)
  | BenchmarkRuns => fun r => references Hosts (be_host_id r) d
  | CgroupSnapshots => fun r =>
      references Sessions (cg_session_id r) d && references ProcessCatalog (cg_process_catalog_id r) d
  | _ => fun _ => true
  end row.
Definition foreign_key_failed : string := "FOREIGN KEY constraint failed".
Definition insert_into (t : TableName) (skip : nat) (row : Row t) (d : Database) :
    result (Database * Z) string :=
  let? inserted := insert_row skip row (db_table d t) in
  reject (db_foreign_keys d && negb (sound_row t row d)) foreign_key_failed ;?
  Ok (set_table t (fst inserted) d, snd inserted).

Definition on_table {A} (t : TableName) (f : nat -> Database -> result (Database * A) string) :
    eff (Connection Database) A string :=
  statement db_schema [table_name t] f.
Definition select {A} (t : TableName) (f : Table (Row t) -> A) : eff (Connection Database) A string :=
  query db_schema [table_name t] (fun d => f (db_table d t)).
Definition insert (t : TableName) (row : Row t) : eff (Connection Database) Z string :=
  on_table t (fun skip d => insert_into t skip row d).

(** ** JSON and checksums *)

Record PolicyActionAudit := {
  au_previous_state : option PressureState;
  au_state_changed : bool;
  au_state_since_ns : Z;
  au_candidate_state : option PressureState;
  au_evidence : list PolicyEvidence;
  au_rejected_candidates : list CandidateRejection;
  au_planned_actions : list PlannedAction;
  au_rejected_actions : list RejectedAction;
  au_dry_run : bool;
  au_transition_reason : string
}.
Definition audit_of (value : PolicyDecision) : PolicyActionAudit :=
  {| au_previous_state := pd_previous_state value; au_state_changed := pd_state_changed value;
     au_state_since_ns := pd_state_since_ns value; au_candidate_state := pd_candidate_state value;
     au_evidence := pd_evidence value; au_rejected_candidates := pd_rejected_candidates value;
     au_planned_actions := pd_planned_actions value; au_rejected_actions := pd_rejected_actions value;
     au_dry_run := pd_dry_run value; au_transition_reason := pd_transition_reason value |}.

(** [serde_json] on the types that are stored, and [migration_checksum], the SHA-256 of a text *)
Class StorageCodec := {
  features_to_json : PolicyInput -> result string string;
  features_from_json : string -> result PolicyInput string;
  audit_to_json : PolicyActionAudit -> result string string;
  audit_from_json : string -> result PolicyActionAudit string;
  swap_entries_to_json : list SwapEntry -> result string string;
  zram_devices_to_json : list ZramDevice -> result string string;
  strings_to_json : list string -> result string string;
  strings_from_json : string -> result (list string) string;
  explanation_to_json : WorkloadExplanation -> result string string;
  explanation_from_json : string -> result WorkloadExplanation string;
  properties_to_json : RequestedProperties -> result string string;
  properties_from_json : string -> result RequestedProperties string;
  evidence_from_json : string -> result RefaultEvidence string;
  migration_checksum : string -> string
}.

#[export] Instance ZramProfileIntent_eq_dec : EqDecision ZramProfileIntent.
Proof. solve_decision. Defined.
#[export] Instance MemoryBackendIntent_eq_dec : EqDecision MemoryBackendIntent.
Proof. solve_decision. Defined.
#[export] Instance ActionKind_eq_dec : EqDecision ActionKind.
Proof. solve_decision. Defined.
#[export] Instance RequestedProperties_eq_dec : EqDecision RequestedProperties.
Proof. solve_decision. Defined.
#[export] Instance CgroupPlan_eq_dec : EqDecision CgroupPlan.
Proof. solve_decision. Defined.
#[export] Instance PlannedAction_eq_dec : EqDecision PlannedAction.
Proof. solve_decision. Defined.
#[export] Instance RejectedAction_eq_dec : EqDecision RejectedAction.
Proof. solve_decision. Defined.

(** ** Conversions *)

Definition i64_try_from_int : string := "out of range integral type conversion attempted".
Definition sql_u64 (value : Z) (field : string) : result Z string :=
  if value <=? i64_max then Ok value
  else Err ("`" ++ field ++ "` exceeds SQLite INTEGER range: " ++ i64_try_from_int)%string.
Definition transpose {A E} (o : option (result A E)) : result (option A) E :=
  match o with
  | None => Ok None
  | Some (Ok a) => Ok (Some a)
  | Some (Err e) => Err e
  end.
Definition sql_optional_u64 (value : option Z) (field : string) : result (option Z) string :=
  transpose ((fun value => sql_u64 value field) <$> value).
Definition u64_of_i64 (value : Z) (context : string) : result Z string :=
  if 0 <=? value then Ok value else Err (context ++ ": " ++ i64_try_from_int)%string.
Definition optional_i64_to_u64 (value : option Z) (field : string) : result (option Z) string :=
  transpose ((fun value => u64_of_i64 value (field ++ " is negative")%string) <$> value).
Fixpoint checked_sum_loop (field : string) (total : Z) (values : list Z) : result Z string :=
  match values with
  | [] => Ok total
  | v :: values' =>
      let? total := ok_or (u64_checked_add total v) (field ++ " aggregate overflows")%string in
      checked_sum_loop field total values'
  end.
Definition checked_sum (values : list Z) (field : string) : result (option Z) string :=
  let? total := checked_sum_loop field 0 values in
  Ok (then_some (bool_decide (values <> [])) total).

Definition state_text (state : PressureState) : string :=
  match state with
  | Normal => "NORMAL" | Watch => "WATCH" | Pressure => "PRESSURE" | Critical => "CRITICAL"
  | Emergency => "EMERGENCY" | Stabilizing => "STABILIZING"
  end%string.
Definition parse_pressure_state (value : string) : result PressureState string :=
  if String.eqb value "NORMAL" then Ok Normal
  else if String.eqb value "WATCH" then Ok Watch
  else if String.eqb value "PRESSURE" then Ok Pressure
  else if String.eqb value "CRITICAL" then Ok Critical
  else if String.eqb value "EMERGENCY" then Ok Emergency
  else if String.eqb value "STABILIZING" then Ok Stabilizing
  else Err ("unknown pressure state `" ++ value ++ "`")%string.
Definition parse_workload_class (value : string) : result WorkloadClass string :=
  if String.eqb value "idle" then Ok Idle
  else if String.eqb value "desktop" then Ok Desktop
  else if String.eqb value "browser_heavy" then Ok BrowserHeavy
  else if String.eqb value "development" then Ok Development
  else if String.eqb value "gaming" then Ok Gaming
  else if String.eqb value "gaming_background_heavy" then Ok GamingBackgroundHeavy
  else if String.eqb value "virtualization" then Ok Virtualization
  else if String.eqb value "memory_pressure" then Ok MemoryPressure
  else if String.eqb value "critical_pressure" then Ok CriticalPressure
  else Err ("unknown workload class `" ++ value ++ "` in database")%string.
(** [serde_json] of [SwapConfiguration] without its quotes, and [Display] of [ForegroundState] *)
Definition show_swap_configuration (c : SwapConfiguration) : string :=
  match c with
  | SwapNone => "none" | Swapfile => "swapfile" | Partition => "partition"
  | SwapZram => "zram" | SwapMixed => "mixed"
  end%string.
Definition show_foreground (f : ForegroundState) : string :=
  match f with FgForeground => "foreground" | FgBackground => "background" | FgUnknown => "unknown" end%string.
Definition show_backend (k : BackendKind) : string :=
  match k with LinuxCgroupfs => "linux_cgroupfs" | Simulated => "simulated" end%string.

(** ** Opening and migrating *)

(** A migration as it is written: its version, its text and the objects that its statements
    create; "t.c" is the column that ALTER TABLE t ADD COLUMN c adds. *)
Record Migration := { mg_version : Z; mg_source : string; mg_objects : list string;
  mg_columns : list (string * string) }.
Definition MIGRATION_VERSION : Z := 9.

(** the objects of migrations/0001_initial.sql to 0009_benchmark_performance.sql *)
Definition initial_objects : list string :=
  ["schema_migrations"; "hosts"; "sessions"; "process_catalog"; "process_samples";
   "idx_process_samples_session_time"; "system_samples"; "idx_system_samples_session_time";
   "workload_events"; "policy_decisions"; "action_results"; "benchmark_runs"; "benchmark_metrics";
   "model_registry"; "safety_events"; "configuration_snapshots"]%string.
Definition telemetry_columns : list (string * string) :=
  map (pair "system_samples"%string)
    ["psi_cpu_some_avg10"; "psi_cpu_full_avg10"; "swap_configuration"; "swap_entries_json";
     "zram_present"; "zram_memory_used_bytes"; "zram_devices_json"; "zswap_present";
     "zswap_enabled"; "capabilities_unavailable_json"]%string.
Definition cgroup_objects : list string :=
  ["cgroup_snapshots"; "idx_cgroup_snapshots_recovery"; "cgroup_managed_groups"]%string.
Definition damon_objects : list string :=
  ["damon_sessions"; "damon_region_samples"; "damon_overhead_samples";
   "idx_damon_sessions_host_time"; "idx_damon_regions_session_time";
   "idx_damon_overhead_session_time"]%string.
Definition damos_objects : list string :=
  ["damos_action_plans"; "damos_action_results"; "damos_refault_blacklist";
   "idx_damos_plans_created"; "idx_damos_results_plan"; "idx_damos_blacklist_active"]%string.
Definition ksm_objects : list string :=
  ["ksm_system_samples"; "idx_ksm_system_samples_session_time"; "ksm_process_samples";
   "idx_ksm_process_samples_session_time"; "ksm_evaluations";
   "idx_ksm_evaluations_session_time"]%string.
Definition benchmark_objects : list string :=
  ["benchmark_experiments"; "idx_benchmark_experiments_scenario"; "benchmark_run_manifests";
   "idx_benchmark_run_manifests_experiment"; "benchmark_samples"; "idx_benchmark_samples_run_time";
   "benchmark_events"; "idx_benchmark_events_run_time"; "benchmark_summaries";
   "benchmark_comparisons"; "idx_benchmark_comparisons_experiment"]%string.
Definition performance_columns : list (string * string) :=
  [("benchmark_experiments", "comparison_purpose");
   ("benchmark_experiments", "manifest_json");
   ("benchmark_experiments", "ended_at_ns");
   ("benchmark_experiments", "valid");
   ("benchmark_run_manifests", "run_seed");
   ("benchmark_run_manifests", "benchmark_binary_sha256");
   ("benchmark_run_manifests", "observer_binary_sha256");
   ("benchmark_run_manifests", "config_hash");
   ("benchmark_comparisons", "comparison_purpose")]%string.
(** the migrations in their order, given their texts *)
Definition migrations (source : Z -> string) : list Migration :=
  let m v objects columns :=
    {| mg_version := v; mg_source := source v; mg_objects := objects; mg_columns := columns |} in
  [m 1 initial_objects []; m 2 [] telemetry_columns;
   m 3 ["idx_workload_events_session_time"] [("process_samples", "foreground_state")];
   m 4 cgroup_objects []; m 5 damon_objects []; m 6 damos_objects []; m 7 ksm_objects [];
   m 8 benchmark_objects []; m 9 [] performance_columns]%string.

Section Storage.
Context `{StorageCodec}.

(** [execute_batch] of a migration inside a transaction: an object that exists already, or a
    column of a table that does not, is an error *)
Definition column_name (c : string * string) : string := (fst c ++ "." ++ snd c)%string.
Definition run_ddl (m : Migration) (d : Database) : result (Database * unit) string :=
  let schema := db_schema d ++ mg_objects m in
  reject (existsb (contains_str (db_schema d)) (mg_objects m)) "object already exists"%string ;?
  reject (existsb (fun c => negb (contains_str schema (fst c))) (mg_columns m)) "no such table"%string ;?
  reject (existsb (fun c => contains_str schema (column_name c)) (mg_columns m)) "duplicate column name"%string ;?
  Ok (set_schema (schema ++ map column_name (mg_columns m)) d, tt).

Definition version_text (context : string) (version : Z) (rest : string) : string :=
  (context ++ show_int version ++ rest)%string.
Definition mismatch (version : Z) (stored expected : string) : string :=
  version_text "migration version " version (" checksum mismatch: stored " ++ stored ++ ", expected " ++ expected).
Definition stored_checksum (version : Z) : eff (Connection Database) (option string) string :=
  in_context (version_text "cannot read migration version " version "")
    (query db_schema ["schema_migrations"%string] (fun d => db_migrations d !! version)).

Definition verify_migration_source (version : Z) (source : string) : eff (Connection Database) unit string :=
  let checksum := migration_checksum source in
  let! stored := stored_checksum version in
  match stored with
  | Some stored => eff_reject (negb (String.eqb stored checksum)) (mismatch version stored checksum)
  | None => eff_err (version_text "required migration version " version " is not recorded")
  end.

(** INSERT INTO schema_migrations: the version is the primary key *)
Definition record_migration (version : Z) (checksum : string) : eff (Connection Database) unit string :=
  statement db_schema ["schema_migrations"%string] (fun _ d =>
    match db_migrations d !! version with
    | Some _ => Err "UNIQUE constraint failed: schema_migrations.version"%string
    | None => Ok (set_migrations (<[version := checksum]> (db_migrations d)) d, tt)
    end).

Definition apply_ddl (m : Migration) : eff (Connection Database) unit string :=
  let version := mg_version m in
  transaction (version_text "cannot begin migration version " version " transaction")
    (version_text "cannot commit migration version " version "")
    (in_context (version_text "cannot apply migration version " version " DDL")
       (statement db_schema [] (fun _ d => run_ddl m d)) ;!
     in_context (version_text "cannot record migration version " version "")
       (record_migration version (migration_checksum (mg_source m)))).

Definition apply_migration (m : Migration) (creates_table : bool) : eff (Connection Database) unit string :=
  let version := mg_version m in
  let! schema_table_exists := in_context "cannot inspect schema_migrations table"
    (query db_schema [] (fun d => contains_str (db_schema d) "schema_migrations")) in
  if schema_table_exists : bool then
    let! stored := stored_checksum version in
    match stored with
    | Some stored =>
        let expected := migration_checksum (mg_source m) in
        eff_reject (negb (String.eqb stored expected)) (mismatch version stored expected)
    | None =>
        eff_reject creates_table
          (version_text "schema_migrations exists but required migration version " version " is not recorded") ;!
        apply_ddl m
    end
  else
    eff_reject (negb creates_table)
      (version_text "cannot apply migration version " version " before migration version 1") ;!
    apply_ddl m.

Fixpoint apply_all (l : list Migration) : eff (Connection Database) unit string :=
  match l with
  | [] => eff_ret tt
  | m :: l' => apply_migration m (mg_version m =? 1) ;! apply_all l'
  end.
Definition migrate (source : Z -> string) : eff (Connection Database) unit string :=
  apply_all (migrations source).
Definition migrate_source (source : string) : eff (Connection Database) unit string :=
  verify_migration_source 1 source.

(** [PRAGMA journal_mode = WAL]: the engine answers the mode that is in force *)
Definition initialize_connection (granted_mode : string) : eff (Connection Database) unit string :=
  let! journal_mode := in_context "cannot enable SQLite WAL journal mode"
    (statement db_schema [] (fun _ d => Ok (set_journal_mode granted_mode d, granted_mode))) in
  eff_reject (negb (eq_ignore_ascii_case journal_mode "wal"))
    ("SQLite refused WAL journal mode and reported " ++ journal_mode)%string ;!
  in_context "cannot enable SQLite foreign keys"
    (statement db_schema [] (fun _ d => Ok (set_foreign_keys true d, tt))).

(** [Storage::open], after the parent directory and the file were opened *)
Definition open_storage (granted_mode : string) (source : Z -> string) : eff (Connection Database) unit string :=
  initialize_connection granted_mode ;! migrate source.

(** ** Hosts and sessions *)

(** [utc_now] and CURRENT_TIMESTAMP are the argument [now]. A [u64] parameter has to fit into
    an INTEGER. *)
Definition upsert_host (host : HostMetadata) (now : string) : eff (Connection Database) Z string :=
  in_context ("cannot upsert host " ++ hm_machine_id host)%string
    (on_table Hosts (fun skip d =>
       let same (r : Z * Row Hosts) := String.eqb (hm_machine_id (hr_host (snd r))) (hm_machine_id host) in
       let row : Row Hosts := {| hr_host := host; hr_updated_at := now |} in
       reject ((i64_max <? hm_ram_total_bytes host) || (i64_max <? hm_swap_total_bytes host)) i64_try_from_int ;?
       match find_row same (db_table d Hosts) with
       | Some _ => Ok (set_table Hosts (fst (update_rows same (fun _ => row) (db_table d Hosts))) d, tt)
       | None => let? inserted := insert_into Hosts skip row d in Ok (fst inserted, tt)
       end)) ;!
  in_context ("cannot retrieve host " ++ hm_machine_id host)%string
    (on_table Hosts (fun _ d =>
       let? row := ok_or (find_row (fun r : Z * Row Hosts =>
           String.eqb (hm_machine_id (hr_host (snd r))) (hm_machine_id host)) (db_table d Hosts))
         "Query returned no rows"%string in
       Ok (d, fst row))).

Definition open_session (host_id : Z) (daemon_version config_hash now : string) :
    eff (Connection Database) Z string :=
  in_context "cannot create daemon session"
    (insert Sessions
       {| se_host_id := host_id; se_mode := "observe"; se_daemon_version := daemon_version;
          se_config_hash := config_hash; se_started_at := now; se_ended_at := None;
          se_clean_shutdown := false |}).

Definition is_open (session_id : Z) (r : Z * Row Sessions) : bool :=
  (fst r =? session_id) && is_none (se_ended_at (snd r)).
Definition close_row (now : string) (clean : bool) (r : Row Sessions) : Row Sessions :=
  {| se_host_id := se_host_id r; se_mode := se_mode r; se_daemon_version := se_daemon_version r;
     se_config_hash := se_config_hash r; se_started_at := se_started_at r; se_ended_at := Some now;
     se_clean_shutdown := clean |}.
Definition session_text (before : string) (session_id : Z) (after : string) : string :=
  (before ++ show_int session_id ++ after)%string.
Definition close_session (session_id : Z) (clean_shutdown : bool) (now : string) :
    eff (Connection Database) unit string :=
  transaction (session_text "cannot begin closure transaction for session " session_id "")
    (session_text "cannot commit closure of session " session_id "")
    (let! changed := in_context (session_text "cannot close session " session_id "")
       (on_table Sessions (fun _ d =>
          let updated := update_rows (is_open session_id) (close_row now clean_shutdown) (db_table d Sessions) in
          Ok (set_table Sessions (fst updated) d, snd updated))) in
     eff_reject (negb (changed =? 1)) (session_text "session " session_id " was not open or did not exist")).

(** ** Audits *)

Definition insert_configuration_snapshot (session_id : Z) (reason : string)
    (configuration system_values : result string string) (now : string) :
    eff (Connection Database) Z string :=
  eff_reject (str_empty reason || (64 <? Z.of_nat (String.length reason))%Z)
    "invalid configuration snapshot reason"%string ;!
  let! config_json := in_context "cannot serialize snapshot plan" (eff_read (fun _ => configuration)) in
  let! system_values_json := in_context "cannot serialize snapshot state" (eff_read (fun _ => system_values)) in
  insert ConfigurationSnapshots
    {| cf_session_id := Some session_id; cf_created_at := now; cf_reason := reason;
       cf_config_json := config_json; cf_system_values_json := system_values_json |}.

Definition insert_zram_benchmark (host_id : Z) (profile : string) (real_isolated_device : bool)
    (results : result string string) (now : string) : eff (Connection Database) Z string :=
  eff_reject (negb (contains_str ["safe"; "gaming"; "capacity"]%string profile))
    "invalid zram benchmark profile"%string ;!
  let! parameters := in_context "cannot serialize zram benchmark results" (eff_read (fun _ => results)) in
  let status := if real_isolated_device then "completed_real"%string else "simulated_fixture"%string in
  insert BenchmarkRuns
    {| be_host_id := host_id; be_name := "zram-isolated"; be_workload := "deterministic-fixtures";
       be_profile := profile; be_baseline := 0; be_started_at := now; be_ended_at := Some now;
       be_status := status; be_parameters_json := parameters;
       be_notes := Some "Phase 5 bounded benchmark" |}%string.

Definition record_cgroup_safety_event (session_id : option Z) (timestamp_ns : Z)
    (severity event_type message : string) (context_json : option string) :
    eff (Connection Database) unit string :=
  eff_reject (negb (contains_str ["info"; "warning"; "error"]%string severity)
              || negb (starts_with "cgroup_" event_type)) "invalid cgroup safety event"%string ;!
  insert SafetyEvents
    {| sa_session_id := session_id; sa_timestamp_ns := timestamp_ns; sa_severity := severity;
       sa_event_type := event_type; sa_message := message; sa_context_json := context_json |} ;!
  eff_ret tt.

(** ** Policy decisions *)

(** [i64::try_from(u128::from(h).saturating_mul(10^9)).unwrap_or(i64::MAX)] *)
Definition heartbeat_ns_of (heartbeat_seconds : Z) : Z := Z.min (heartbeat_seconds * 1000000000) i64_max.
Definition same_plan (old_audit audit : PolicyActionAudit) : bool :=
  bool_decide (au_planned_actions old_audit = au_planned_actions audit)
  && bool_decide (au_rejected_actions old_audit = au_rejected_actions audit).
Definition latest_of_session (session_id : Z) (t : Table DecisionRow) : option (Z * DecisionRow) :=
  head (newest_first de_timestamp_ns (rows_where (fun r => de_session_id (snd r) =? session_id) t)).
Definition insert_policy_decision (session_id : Z) (decision : PolicyDecision) (heartbeat_seconds : Z) :
    eff (Connection Database) bool string :=
  let! features := in_context "cannot serialize policy input features"
    (eff_read (fun _ => features_to_json (pd_input_features decision))) in
  let audit := audit_of decision in
  let! actions := in_context "cannot serialize policy action audit" (eff_read (fun _ => audit_to_json audit)) in
  let! previous := in_context "cannot read previous policy decision"
    (select PolicyDecisions (latest_of_session session_id)) in
  let state := state_text (pd_current_state decision) in
  let heartbeat_ns := heartbeat_ns_of heartbeat_seconds in
  let! duplicate :=
    match previous with
    | None => eff_ret false
    | Some (_, row) =>
        let! old_audit := in_context "invalid previous policy audit JSON"
          (eff_read (fun _ => audit_from_json (de_actions_json row))) in
        eff_ret (String.eqb (de_pressure_state row) state && same_plan old_audit audit
                 && (i64_sat_sub (pd_timestamp_ns decision) (de_timestamp_ns row) <? heartbeat_ns))
    end in
  if duplicate : bool then eff_ret false
  else
    insert PolicyDecisions
      {| de_session_id := session_id; de_timestamp_ns := pd_timestamp_ns decision;
         de_pressure_state := state; de_policy_name := pd_policy_name decision;
         de_input_features_json := features; de_actions_json := actions;
         de_expected_gain_bytes := None; de_expected_cost_score := None; de_model_version := None;
         de_rule_version := Some (pd_rule_version decision) |} ;!
    eff_ret true.

(** LIKE 'cgroup_%': an underscore matches any one character, letters match in either case *)
Definition like_cgroup (event_type : string) : bool :=
  (7 <=? String.length event_type)%nat && eq_ignore_ascii_case (String.substring 0 6 event_type) "cgroup".
Definition policy_history_counts (timestamp_ns : Z) : eff (Connection Database) (Z * Z) string :=
  let! decision_count := select PolicyDecisions (fun t =>
    Z.of_nat (length (take 20 (newest_first de_timestamp_ns (tb_rows t))))) in
  let cutoff := i64_sat_sub timestamp_ns 300000000000 in
  let! safety_count := select SafetyEvents (fun t =>
    Z.of_nat (length (take 20 (newest_first sa_timestamp_ns
      (rows_where (fun r => (cutoff <=? sa_timestamp_ns (snd r)) && like_cgroup (sa_event_type (snd r))) t))))) in
  eff_ret (decision_count, safety_count).

(** ** Samples *)

Definition avg10 (value : option PsiSample) (part : PsiSample -> option PsiLine) : option f64 :=
  psi_avg10 <$> (value ≫= part).
Definition opt_real (x : option f64) : option f64 := x ≫= real.
(** the columns of a sample that are converted one by one, each with [?] *)
Definition system_row (session_id : Z) (sample : SystemSample)
    (zram_original zram_compressed zram_memory : option Z)
    (swap_entries_json zram_devices_json capabilities_json : string) : result SystemRow string :=
  let? mem_total := sql_u64 (ss_mem_total_bytes sample) "mem_total_bytes" in
  let? mem_available := sql_u64 (ss_mem_available_bytes sample) "mem_available_bytes" in
  let? anon := sql_optional_u64 (ss_anon_bytes sample) "anon_bytes" in
  let? file_cache := sql_optional_u64 (ss_file_cache_bytes sample) "file_cache_bytes" in
  let? slab := sql_optional_u64 (ss_slab_bytes sample) "slab_bytes" in
  let? swap_used := sql_optional_u64 (ss_swap_used_bytes sample) "swap_used_bytes" in
  let? swap_in := sql_optional_u64 (ss_swap_in_pages sample) "swap_in_pages" in
  let? swap_out := sql_optional_u64 (ss_swap_out_pages sample) "swap_out_pages" in
  let? major := sql_optional_u64 (ss_major_faults sample) "major_faults" in
  let? minor := sql_optional_u64 (ss_minor_faults sample) "minor_faults" in
  let? scan := sql_optional_u64 (ss_pgscan sample) "pgscan" in
  let? steal := sql_optional_u64 (ss_pgsteal sample) "pgsteal" in
  let? refault := sql_optional_u64 (ss_workingset_refault sample) "workingset_refault" in
  let? original := sql_optional_u64 zram_original "zram_orig_bytes" in
  let? compressed := sql_optional_u64 zram_compressed "zram_compressed_bytes" in
  let? stored := sql_optional_u64 (zw_stored_pages (ss_zswap sample)) "zswap_stored_pages" in
  let? pool := sql_optional_u64 (zw_pool_bytes (ss_zswap sample)) "zswap_pool_bytes" in
  let? memory := sql_optional_u64 zram_memory "zram_memory_used_bytes" in
  Ok {| sy_session_id := session_id; sy_timestamp_ns := ss_timestamp_ns sample;
        sy_mem_total_bytes := mem_total; sy_mem_available_bytes := mem_available;
        sy_anon_bytes := anon; sy_file_cache_bytes := file_cache; sy_slab_bytes := slab;
        sy_swap_used_bytes := swap_used; sy_swap_in_pages := swap_in; sy_swap_out_pages := swap_out;
        sy_major_faults := major; sy_minor_faults := minor; sy_pgscan := scan; sy_pgsteal := steal;
        sy_workingset_refault := refault;
        sy_psi_memory_some_avg10 := opt_real (avg10 (ss_psi_memory sample) psi_some);
        sy_psi_memory_full_avg10 := opt_real (avg10 (ss_psi_memory sample) psi_full);
        sy_psi_io_some_avg10 := opt_real (avg10 (ss_psi_io sample) psi_some);
        sy_zram_orig_bytes := original; sy_zram_compressed_bytes := compressed;
        sy_zswap_stored_pages := stored; sy_zswap_pool_bytes := pool;
        sy_psi_cpu_some_avg10 := opt_real (avg10 (ss_psi_cpu sample) psi_some);
        sy_psi_cpu_full_avg10 := opt_real (avg10 (ss_psi_cpu sample) psi_full);
        sy_swap_configuration := show_swap_configuration (sw_configuration (ss_swap sample));
        sy_swap_entries_json := swap_entries_json; sy_zram_present := zs_available (ss_zram sample);
        sy_zram_memory_used_bytes := memory; sy_zram_devices_json := zram_devices_json;
        sy_zswap_present := zw_available (ss_zswap sample); sy_zswap_enabled := zw_enabled (ss_zswap sample);
        sy_capabilities_unavailable_json := capabilities_json |}.
Definition insert_system_sample (session_id : Z) (sample : SystemSample) :
    eff (Connection Database) unit string :=
  let devices := zs_devices (ss_zram sample) in
  let lift {A} (r : result A string) : eff (Connection Database) A string := eff_read (fun _ => r) in
  let! zram_original := lift (checked_sum (omap zd_original_data_bytes devices) "zram original data") in
  let! zram_compressed := lift (checked_sum (omap zd_compressed_data_bytes devices) "zram compressed data") in
  let! zram_memory := lift (checked_sum (omap zd_memory_used_bytes devices) "zram memory used") in
  let! swap_entries_json := in_context "cannot serialize swap entries"
    (lift (swap_entries_to_json (sw_entries (ss_swap sample)))) in
  let! zram_devices_json := in_context "cannot serialize zram devices" (lift (zram_devices_to_json devices)) in
  let! capabilities_json := in_context "cannot serialize unavailable capabilities"
    (lift (strings_to_json (ss_capabilities_unavailable sample))) in
  let! row := lift (system_row session_id sample zram_original zram_compressed zram_memory
                      swap_entries_json zram_devices_json capabilities_json) in
  in_context (session_text "cannot insert system telemetry sample for session " session_id "")
    (insert SystemSamples row) ;!
  eff_ret tt.

Definition process_row (session_id : Z) (catalog_id : option Z) (sample : ProcessSample) (foreground : bool)
    (foreground_state : option string) : result ProcessRow string :=
  let? rss := sql_optional_u64 (rss_bytes sample) "rss_bytes" in
  let? pss := sql_optional_u64 (pss_bytes sample) "pss_bytes" in
  let? uss := sql_optional_u64 (uss_bytes sample) "uss_bytes" in
  let? swap := sql_optional_u64 (swap_bytes sample) "swap_bytes" in
  let? minor := sql_optional_u64 (minor_faults sample) "minor_faults" in
  let? major := sql_optional_u64 (major_faults sample) "major_faults" in
  let? read := sql_optional_u64 (io_read_bytes sample) "io_read_bytes" in
  let? write := sql_optional_u64 (io_write_bytes sample) "io_write_bytes" in
  Ok {| pr_session_id := session_id; pr_catalog_id := catalog_id; pr_timestamp_ns := timestamp_ns sample;
        pr_pid := pid sample; pr_cgroup_path := cgroup_path sample; pr_rss_bytes := rss;
        pr_pss_bytes := pss; pr_uss_bytes := uss; pr_swap_bytes := swap; pr_minor_faults := minor;
        pr_major_faults := major; pr_cpu_percent := opt_real (cpu_percent sample);
        pr_io_read_bytes := read; pr_io_write_bytes := write; pr_foreground := foreground;
        pr_foreground_state := foreground_state |}.
Fixpoint insert_samples (session_id : Z) (samples : list ProcessSample) : eff (Connection Database) unit string :=
  match samples with
  | [] => eff_ret tt
  | sample :: samples' =>
      let! row := eff_read (fun _ => process_row session_id None sample false None) in
      in_context ("cannot insert process " ++ show_uint (pid sample) ++ " telemetry for session "
                  ++ show_int session_id)%string
        (insert ProcessSamples row) ;!
      insert_samples session_id samples'
  end.
Definition insert_process_samples (session_id : Z) (samples : list ProcessSample) :
    eff (Connection Database) Z string :=
  match samples with
  | [] => eff_ret 0
  | _ =>
      transaction (session_text "cannot begin process sample batch for session " session_id "")
        (session_text "cannot commit process batch for session " session_id "")
        (in_context "cannot prepare process telemetry batch"
           (prepare db_schema [table_name ProcessSamples]) ;!
         insert_samples session_id samples) ;!
      eff_ret (Z.of_nat (length samples))
  end.

(** ** Classified samples *)

Definition persisted_category (process : ProcessClassification) : string :=
  show_category (if f64_ge (pc_confidence process) (f64_lit 1 2) then pc_category process else CatUnknown).
Definition catalog_key (executable signature : string) (r : Z * CatalogRow) : bool :=
  String.eqb (ca_executable (snd r)) executable && String.eqb (ca_command_signature (snd r)) signature.
(** the entry that is inserted, and DO UPDATE SET on the entry that exists *)
Definition catalog_row (process : ProcessClassification) : CatalogRow :=
  {| ca_executable := pc_executable process; ca_command_signature := pc_command_signature process;
     ca_application_name := pc_application_name process; ca_category := persisted_category process;
     ca_is_game := pc_is_game process; ca_is_critical := pc_is_critical process;
     ca_default_priority := 50 |}.
Definition merge_catalog (excluded existing : CatalogRow) : CatalogRow :=
  {| ca_executable := ca_executable existing; ca_command_signature := ca_command_signature existing;
     ca_application_name := match ca_application_name excluded with
                            | Some name => Some name
                            | None => ca_application_name existing
                            end;
     ca_category := if String.eqb (ca_category excluded) "unknown" then ca_category existing
                    else ca_category excluded;
     ca_is_game := ca_is_game existing || ca_is_game excluded;
     ca_is_critical := ca_is_critical existing || ca_is_critical excluded;
     ca_default_priority := ca_default_priority existing |}.
Definition upsert_catalog (process : ProcessClassification) : eff (Connection Database) unit string :=
  on_table ProcessCatalog (fun skip d =>
    let key := catalog_key (pc_executable process) (pc_command_signature process) in
    match find_row key (db_table d ProcessCatalog) with
    | Some _ =>
        Ok (set_table ProcessCatalog
              (fst (update_rows key (merge_catalog (catalog_row process)) (db_table d ProcessCatalog))) d, tt)
    | None => let? inserted := insert_into ProcessCatalog skip (catalog_row process) d in Ok (fst inserted, tt)
    end).
Definition insert_classified (session_id : Z) (process : ProcessClassification) :
    eff (Connection Database) unit string :=
  let sample := pc_sample process in
  in_context ("cannot upsert process catalog entry for PID " ++ show_uint (pid sample))%string
    (upsert_catalog process) ;!
  let! catalog_id := in_context "cannot retrieve process catalog entry"
    (on_table ProcessCatalog (fun _ d =>
       let? row := ok_or (find_row (catalog_key (pc_executable process) (pc_command_signature process))
                            (db_table d ProcessCatalog)) "Query returned no rows"%string in
       Ok (d, fst row))) in
  let foreground := bool_decide (pc_foreground process = FgForeground) in
  let! row := eff_read (fun _ => process_row session_id (Some catalog_id) sample foreground
                                   (Some (show_foreground (pc_foreground process)))) in
  in_context ("cannot insert classified process " ++ show_uint (pid sample) ++ " for session "
              ++ show_int session_id)%string
    (insert ProcessSamples row) ;!
  eff_ret tt.
Fixpoint insert_all_classified (session_id : Z) (processes : list ProcessClassification) :
    eff (Connection Database) unit string :=
  match processes with
  | [] => eff_ret tt
  | process :: processes' => insert_classified session_id process ;! insert_all_classified session_id processes'
  end.

Definition latest_event (session_id : Z) (t : Table EventRow) : option (Z * EventRow) :=
  head (newest_first ev_timestamp_ns (rows_where (fun r => ev_session_id (snd r) =? session_id) t)).
Definition insert_transition (session_id : Z) (transition : WorkloadTransition) :
    eff (Connection Database) unit string :=
  let! last := in_context "cannot inspect latest workload event"
    (select WorkloadEvents (latest_event session_id)) in
  if bool_decide ((fun r => ev_new_class (snd r)) <$> last = Some (show_class (wt_new_class transition)))
  then eff_ret tt
  else
    let! reason_json := in_context "cannot serialize workload explanation"
      (eff_read (fun _ => explanation_to_json (wt_explanation transition))) in
    in_context "cannot insert workload transition"
      (on_table WorkloadEvents (fun skip d =>
         let? confidence := ok_or (real (wt_confidence transition))
           "NOT NULL constraint failed: workload_events.confidence"%string in
         insert_into WorkloadEvents skip
           {| ev_session_id := session_id; ev_timestamp_ns := wt_timestamp_ns transition;
              ev_previous_class := show_class <$> wt_previous_class transition;
              ev_new_class := show_class (wt_new_class transition); ev_confidence := confidence;
              ev_reason_json := reason_json |} d)) ;!
    eff_ret tt.
Definition insert_classification_batch (session_id : Z) (processes : list ProcessClassification)
    (transition : option WorkloadTransition) : eff (Connection Database) Z string :=
  transaction (session_text "cannot begin classification batch for session " session_id "")
    (session_text "cannot commit classification batch for session " session_id "")
    (insert_all_classified session_id processes ;!
     match transition with
     | Some transition => insert_transition session_id transition
     | None => eff_ret tt
     end) ;!
  eff_ret (Z.of_nat (length processes)).

(** ** Retention *)

Record RetentionResult := { re_system_samples : Z; re_process_samples : Z }.
Definition delete_from (t : TableName) (p : Z * Row t -> bool) : eff (Connection Database) Z string :=
  on_table t (fun _ d =>
    let deleted := delete_rows p (db_table d t) in Ok (set_table t (fst deleted) d, snd deleted)).
Definition enforce_retention (cutoff_timestamp_ns : Z) : eff (Connection Database) RetentionResult string :=
  transaction "cannot begin telemetry retention transaction" "cannot commit telemetry retention transaction"
    (let! process_samples := in_context "cannot delete expired process samples"
       (delete_from ProcessSamples (fun r => pr_timestamp_ns (snd r) <? cutoff_timestamp_ns)) in
     let! system_samples := in_context "cannot delete expired system samples"
       (delete_from SystemSamples (fun r => sy_timestamp_ns (snd r) <? cutoff_timestamp_ns)) in
     eff_ret {| re_system_samples := system_samples; re_process_samples := process_samples |}).

(** ** The store of cgroup mutations *)

Definition persistence {A} (m : eff (Connection Database) A string) : eff (Connection Database) A ActuatorError :=
  eff_map_err Persistence m.
Definition lift {S A E} (r : result A E) : eff S A E := eff_read (fun _ => r).

(** [impl SnapshotStore for Storage] *)
Definition storage_persist (snapshot : MutationSnapshot) : eff (Connection Database) Z ActuatorError :=
  let! original := persistence (lift (properties_to_json (ms_original_properties snapshot))) in
  let! requested := persistence (lift (properties_to_json (ms_requested_properties snapshot))) in
  eff_reject (i64_max <? ms_start_time_ticks snapshot) (Persistence "start ticks overflow") ;!
  persistence (insert CgroupSnapshots
    {| cg_session_id := ms_session_id snapshot; cg_timestamp_ns := ms_timestamp_ns snapshot;
       cg_process_catalog_id := ms_process_catalog_id snapshot; cg_identity := ms_identity snapshot;
       cg_pid := ms_pid snapshot; cg_start_time_ticks := ms_start_time_ticks snapshot;
       cg_original_group := ms_original_group snapshot; cg_target_group := ms_target_group snapshot;
       cg_original_properties_json := original; cg_requested_properties_json := requested;
       cg_reason := ms_reason snapshot; cg_applied := ms_applied snapshot;
       cg_verified := ms_verified snapshot; cg_rolled_back := ms_rolled_back snapshot;
       cg_last_error := ms_last_error snapshot |}).
Definition set_outcome (snapshot : MutationSnapshot) (row : CgroupRow) : CgroupRow :=
  {| cg_session_id := cg_session_id row; cg_timestamp_ns := cg_timestamp_ns row;
     cg_process_catalog_id := cg_process_catalog_id row; cg_identity := cg_identity row;
     cg_pid := cg_pid row; cg_start_time_ticks := cg_start_time_ticks row;
     cg_original_group := cg_original_group row; cg_target_group := cg_target_group row;
     cg_original_properties_json := cg_original_properties_json row;
     cg_requested_properties_json := cg_requested_properties_json row; cg_reason := cg_reason row;
     cg_applied := ms_applied snapshot; cg_verified := ms_verified snapshot;
     cg_rolled_back := ms_rolled_back snapshot; cg_last_error := ms_last_error snapshot |}.
Definition storage_update (snapshot : MutationSnapshot) : eff (Connection Database) unit ActuatorError :=
  eff_reject (i64_max <? ms_id snapshot) (Persistence "snapshot id overflow") ;!
  persistence (on_table CgroupSnapshots (fun _ d =>
    Ok (set_table CgroupSnapshots
          (fst (update_rows (fun r => fst r =? ms_id snapshot) (set_outcome snapshot)
                  (db_table d CgroupSnapshots))) d, tt))).
Definition is_pending (row : CgroupRow) : bool := cg_applied row && negb (cg_rolled_back row).
(** one row of the loop, with its properties parsed *)
Definition snapshot_of_row (row : Z * CgroupRow) : result MutationSnapshot string :=
  let? original := properties_from_json (cg_original_properties_json (snd row)) in
  let? requested := properties_from_json (cg_requested_properties_json (snd row)) in
  Ok {| ms_id := fst row; ms_session_id := cg_session_id (snd row);
        ms_timestamp_ns := cg_timestamp_ns (snd row);
        ms_process_catalog_id := cg_process_catalog_id (snd row); ms_identity := cg_identity (snd row);
        ms_pid := cg_pid (snd row); ms_start_time_ticks := cg_start_time_ticks (snd row);
        ms_original_group := cg_original_group (snd row); ms_target_group := cg_target_group (snd row);
        ms_original_properties := original; ms_requested_properties := requested;
        ms_reason := cg_reason (snd row); ms_applied := cg_applied (snd row);
        ms_verified := cg_verified (snd row); ms_rolled_back := cg_rolled_back (snd row);
        ms_last_error := cg_last_error (snd row) |}.
Fixpoint map_ok {A B E} (f : A -> result B E) (l : list A) : result (list B) E :=
  match l with
  | [] => Ok []
  | x :: l' => let? y := f x in let? ys := map_ok f l' in Ok (y :: ys)
  end.
Definition storage_pending (c : Connection Database) : result (list MutationSnapshot) ActuatorError :=
  snd (persistence (prepare db_schema [table_name CgroupSnapshots] ;!
                    let! rows := select CgroupSnapshots (fun t =>
                      by_id (rows_where (fun r => is_pending (snd r)) t)) in
                    lift (map_ok snapshot_of_row rows)) c).
Definition on_groups (f : Database -> result (gmap string GroupRow) string) :
    eff (Connection Database) unit ActuatorError :=
  persistence (statement db_schema ["cgroup_managed_groups"%string] (fun _ d =>
    let? groups := f d in Ok (set_groups groups d, tt))).
Definition storage_record_group (now name : string) (session_id : Z) (backend : BackendKind) :
    eff (Connection Database) unit ActuatorError :=
  on_groups (fun d =>
    reject (db_foreign_keys d && negb (references Sessions session_id d)) foreign_key_failed ;?
    Ok (<[name := {| gr_session_id := session_id; gr_backend := show_backend backend;
                     gr_owned_by_nemor := true; gr_state := "active"; gr_updated_at := now |}]> (db_groups d))).
Definition storage_remove_group (name : string) : eff (Connection Database) unit ActuatorError :=
  on_groups (fun d => Ok (delete name (db_groups d))).
Definition storage_store (now : string) : SnapshotStore (Connection Database) := {|
  persist := storage_persist;
  update := storage_update;
  pending := storage_pending;
  record_managed_group := storage_record_group now;
  remove_managed_group := storage_remove_group
|}.

(** ** What the command line reads *)

(** a database opened read-only: [opened] is the answer of the engine *)
Definition reading {A} (context : option string) (opened : result (Connection Database) string)
    (m : eff (Connection Database) A string) : result A string :=
  let? c := match context, opened with
            | Some context, Err e => Err (context ++ ": " ++ e)%string
            | _, _ => opened
            end in
  snd (m c).
Definition read_only_context (path : string) : option string :=
  Some ("cannot open database " ++ path ++ " read-only")%string.

Record LatestConfigurationSnapshot := {
  lc_id : Z;
  lc_session_id : option Z;
  lc_created_at : string;
  lc_reason : string;
  lc_config_json : string;
  lc_system_values_json : string
}.
Definition latest_configuration_snapshot (opened : result (Connection Database) string) (reason : string) :
    result LatestConfigurationSnapshot string :=
  reading None opened
    (let! row := select ConfigurationSnapshots (fun t =>
       last_row (rows_where (fun r => String.eqb (cf_reason (snd r)) reason) t)) in
     lift match row with
          | None => Err "no matching configuration snapshot is available"%string
          | Some (id, r) =>
              Ok {| lc_id := id; lc_session_id := cf_session_id r; lc_created_at := cf_created_at r;
                    lc_reason := cf_reason r; lc_config_json := cf_config_json r;
                    lc_system_values_json := cf_system_values_json r |}
          end).

Record LatestPolicyDecision := {
  lp_id : Z;
  lp_session_id : Z;
  lp_timestamp_ns : Z;
  lp_pressure_state : PressureState;
  lp_policy_name : string;
  lp_input_features : PolicyInput;
  lp_audit : PolicyActionAudit;
  lp_expected_gain_bytes : option Z;
  lp_expected_cost_score : option f64;
  lp_model_version : option string;
  lp_rule_version : string
}.
Definition with_text {A} (context : string) (r : result A string) : result A string :=
  match r with Ok a => Ok a | Err e => Err (context ++ ": " ++ e)%string end.
Definition decision_of_row (row : Z * DecisionRow) : result LatestPolicyDecision string :=
  let r := snd row in
  let? state := parse_pressure_state (de_pressure_state r) in
  let? features := with_text "invalid policy input JSON" (features_from_json (de_input_features_json r)) in
  let? audit := with_text "invalid policy action JSON" (audit_from_json (de_actions_json r)) in
  let? gain := optional_i64_to_u64 (de_expected_gain_bytes r) "expected gain" in
  Ok {| lp_id := fst row; lp_session_id := de_session_id r; lp_timestamp_ns := de_timestamp_ns r;
        lp_pressure_state := state; lp_policy_name := de_policy_name r; lp_input_features := features;
        lp_audit := audit; lp_expected_gain_bytes := gain;
        lp_expected_cost_score := de_expected_cost_score r; lp_model_version := de_model_version r;
        lp_rule_version := unwrap_or (de_rule_version r) "unknown"%string |}.
Definition query_policy_decisions (limit : Z) : eff (Connection Database) (list LatestPolicyDecision) string :=
  prepare db_schema [table_name PolicyDecisions] ;!
  let! rows := select PolicyDecisions (fun t =>
    take (Z.to_nat (if limit <=? i64_max then limit else 100)) (newest_first de_timestamp_ns (tb_rows t))) in
  lift (map_ok decision_of_row rows).
Definition latest_policy_decision (path : string) (opened : result (Connection Database) string) :
    result LatestPolicyDecision string :=
  let? decisions := reading (read_only_context path) opened (query_policy_decisions 1) in
  ok_or (head decisions) "database contains no policy decisions"%string.
Definition recent_policy_decisions (path : string) (opened : result (Connection Database) string) (limit : Z) :
    result (list LatestPolicyDecision) string :=
  reading (read_only_context path) opened (query_policy_decisions (Z.max 1 (Z.min limit 100))).

Record DamosHistoryEntry := {
  dh_plan_id : string;
  dh_decision_id : string;
  dh_session_id : string;
  dh_disposition : string;
  dh_reasons_json : string;
  dh_created_at : string
}.
Definition damos_history (opened : result (Connection Database) string) (limit : Z) :
    result (list DamosHistoryEntry) string :=
  reject ((limit =? 0) || (100 <? limit)) "DAMOS history limit must be between 1 and 100"%string ;?
  reading None opened
    (prepare db_schema [table_name DamosActionPlans] ;!
     select DamosActionPlans (fun t =>
       map (fun row => {| dh_plan_id := pl_plan_id (snd row); dh_decision_id := pl_decision_id (snd row);
                          dh_session_id := pl_session_id (snd row); dh_disposition := pl_disposition (snd row);
                          dh_reasons_json := pl_reason_codes_json (snd row);
                          dh_created_at := pl_created_at (snd row) |})
         (take (Z.to_nat limit) (newest_first (fun _ => 0) (tb_rows t))))).
(** [u128::try_from(..).unwrap_or(0)] *)
Definition blacklist_of_row (row : Z * BlacklistRow) : result BlacklistRecord string :=
  let r := snd row in
  let? evidence := evidence_from_json (bk_evidence_json r) in
  Ok {| bl_key := bk_stable_identity r ++ ":" ++ bk_region_signature r; bl_reason := bk_reason r;
        bl_created_at_ns := Z.max 0 (bk_created_at_ns r); bl_expires_at_ns := Z.max 0 (bk_expires_at_ns r);
        bl_source_action_id := bk_source_action_id r; bl_evidence := evidence |}%string.
Definition damos_blacklist (opened : result (Connection Database) string) (now_ns : Z) :
    result (list BlacklistRecord) string :=
  reading None opened
    (prepare db_schema [table_name DamosRefaultBlacklist] ;!
     let! rows := select DamosRefaultBlacklist (fun t =>
       oldest_first bk_expires_at_ns (rows_where (fun r => now_ns <? bk_expires_at_ns (snd r)) t)) in
     lift (map_ok blacklist_of_row rows)).

(** ** Reports *)

Record LatestTelemetryReport := {
  lt_session_id : Z;
  lt_started_at : string;
  lt_ended_at : option string;
  lt_system_samples : Z;
  lt_process_samples : Z;
  lt_min_mem_available_bytes : option Z;
  lt_max_swap_used_bytes : option Z;
  lt_max_psi_memory_some_avg10 : option f64;
  lt_max_psi_memory_full_avg10 : option f64;
  lt_delta_major_faults : option Z;
  lt_delta_swap_in_pages : option Z;
  lt_delta_swap_out_pages : option Z;
  lt_zram_observed : bool;
  lt_zswap_observed : bool;
  lt_capabilities_unavailable : list string
}.
Definition no_sessions : string := "database contains no sessions".
Definition latest_session (context : string) : eff (Connection Database) (Z * SessionRow) string :=
  let! row := in_context context (select Sessions (fun t => last_row (tb_rows t))) in
  lift (ok_or row no_sessions).
Definition query_count (t : TableName) (p : Z * Row t -> bool) : eff (Connection Database) Z string :=
  in_context "cannot count telemetry samples" (select t (count_where p)).
(** MIN and MAX over the values that are not NULL *)
Definition fold_values {A} (f : A -> A -> A) (l : list (option A)) : option A :=
  foldl (fun best v => match best, v with
                       | Some b, Some x => Some (f b x)
                       | None, v => v
                       | best, None => best
                       end) None l.
Definition query_counter_delta (session_id : Z) (column : string) (field : SystemRow -> option Z) :
    eff (Connection Database) (option Z) string :=
  in_context ("cannot prepare `" ++ column ++ "` delta query")%string
    (prepare db_schema [table_name SystemSamples]) ;!
  let! values := in_context ("cannot query `" ++ column ++ "` delta")%string
    (select SystemSamples (fun t =>
       omap (fun r => field (snd r))
         (oldest_first sy_timestamp_ns (rows_where (fun r => sy_session_id (snd r) =? session_id) t)))) in
  match head values, head (rev values) with
  | Some first, Some final =>
      let! first := lift (u64_of_i64 first ("negative `" ++ column ++ "` counter")) in
      let! final := lift (u64_of_i64 final ("negative `" ++ column ++ "` counter")) in
      eff_ret (u64_checked_sub final first)
  | _, _ => eff_ret None
  end%string.

(** the aggregates of one SELECT *)
Record Aggregates := {
  ag_min_mem_available : option Z;
  ag_max_swap_used : option Z;
  ag_max_memory_some : option f64;
  ag_max_memory_full : option f64;
  ag_zram_observed : bool;
  ag_zswap_observed : bool
}.
Definition aggregates (session_id : Z) (t : Table SystemRow) : Aggregates :=
  let rows := map snd (rows_where (fun r => sy_session_id (snd r) =? session_id) t) in
  {| ag_min_mem_available := fold_values Z.min (map (fun r => Some (sy_mem_available_bytes r)) rows);
     ag_max_swap_used := fold_values Z.max (map sy_swap_used_bytes rows);
     ag_max_memory_some := fold_values f64_max (map sy_psi_memory_some_avg10 rows);
     ag_max_memory_full := fold_values f64_max (map sy_psi_memory_full_avg10 rows);
     ag_zram_observed := existsb sy_zram_present rows;
     ag_zswap_observed := existsb sy_zswap_present rows |}.
Definition telemetry_report : eff (Connection Database) LatestTelemetryReport string :=
  let! session := latest_session "cannot read latest telemetry session" in
  let session_id := fst session in
  let! system_samples := query_count SystemSamples (fun r => sy_session_id (snd r) =? session_id) in
  let! process_samples := query_count ProcessSamples (fun r => pr_session_id (snd r) =? session_id) in
  let! values := in_context "cannot aggregate latest telemetry session"
    (select SystemSamples (aggregates session_id)) in
  in_context "cannot prepare capability report query" (prepare db_schema [table_name SystemSamples]) ;!
  let! rows := in_context "cannot query unavailable capabilities"
    (select SystemSamples (rows_where (fun r => sy_session_id (snd r) =? session_id))) in
  let! capabilities := lift (map_ok (fun r => with_text "invalid capability JSON in database"
    (strings_from_json (sy_capabilities_unavailable_json (snd r)))) rows) in
  let! min_available := lift (optional_i64_to_u64 (ag_min_mem_available values) "minimum memory") in
  let! max_swap := lift (optional_i64_to_u64 (ag_max_swap_used values) "maximum swap") in
  let! major := query_counter_delta session_id "major_faults" sy_major_faults in
  let! swap_in := query_counter_delta session_id "swap_in_pages" sy_swap_in_pages in
  let! swap_out := query_counter_delta session_id "swap_out_pages" sy_swap_out_pages in
  eff_ret {| lt_session_id := session_id; lt_started_at := se_started_at (snd session);
             lt_ended_at := se_ended_at (snd session); lt_system_samples := system_samples;
             lt_process_samples := process_samples; lt_min_mem_available_bytes := min_available;
             lt_max_swap_used_bytes := max_swap;
             lt_max_psi_memory_some_avg10 := ag_max_memory_some values;
             lt_max_psi_memory_full_avg10 := ag_max_memory_full values; lt_delta_major_faults := major;
             lt_delta_swap_in_pages := swap_in; lt_delta_swap_out_pages := swap_out;
             lt_zram_observed := ag_zram_observed values; lt_zswap_observed := ag_zswap_observed values;
             lt_capabilities_unavailable := sort_dedup (concat capabilities) |}.
Definition latest_telemetry_report (path : string) (opened : result (Connection Database) string) :
    result LatestTelemetryReport string :=
  reading (read_only_context path) opened telemetry_report.

Record LatestWorkloadReport := {
  lw_session_id : Z;
  lw_available : bool;
  lw_current_class : option WorkloadClass;
  lw_confidence : option f64;
  lw_rule_version : option string;
  lw_last_change_timestamp_ns : option Z;
  lw_top_reasons : list string;
  lw_gaming_signals : list string;
  lw_pressure_signal : option string;
  lw_game_processes : Z;
  lw_critical_processes : Z;
  lw_unknown_processes : Z;
  lw_message : string
}.
(** the rows of the join at one time: SELECT pc.category, COUNT( * ) .. GROUP BY pc.category *)
Definition categories_at (session_id timestamp_ns : Z) (d : Database) : list string :=
  omap (fun r => pr_catalog_id (snd r) ≫= (fun id =>
          (fun c => ca_category (snd c)) <$> find_row (fun c => fst c =? id) (db_table d ProcessCatalog)))
    (rows_where (fun r : Z * Row ProcessSamples =>
       (pr_session_id (snd r) =? session_id) && (pr_timestamp_ns (snd r) =? timestamp_ns))
       (db_table d ProcessSamples)).
Definition count_of (category : string) (l : list string) : Z :=
  Z.of_nat (length (filter (fun c => c = category) l)).
Definition latest_process_category_counts (session_id : Z) : eff (Connection Database) (Z * Z * Z) string :=
  let! timestamp := in_context "cannot read latest process timestamp"
    (select ProcessSamples (fun t =>
       fold_values Z.max (map (fun r => Some (pr_timestamp_ns (snd r)))
         (rows_where (fun r => pr_session_id (snd r) =? session_id) t)))) in
  match timestamp with
  | None => eff_ret (0, 0, 0)
  | Some timestamp =>
      let tables := [table_name ProcessSamples; table_name ProcessCatalog] in
      in_context "cannot prepare process category count query" (prepare db_schema tables) ;!
      let! categories := in_context "cannot query process category counts"
        (query db_schema tables (categories_at session_id timestamp)) in
      eff_ret (count_of "game" categories, count_of "critical" categories, count_of "unknown" categories)
  end.
Definition evidence_text (e : Evidence) : string := (ev_code e ++ ": " ++ ev_observed e)%string.
Definition workload_report : eff (Connection Database) LatestWorkloadReport string :=
  let! session := latest_session "cannot read latest session" in
  let session_id := fst session in
  let! event := in_context "cannot read latest workload event"
    (select WorkloadEvents (latest_event session_id)) in
  let! counts := latest_process_category_counts session_id in
  let '(games, critical, unknown) := counts in
  match event with
  | None =>
      eff_ret {| lw_session_id := session_id; lw_available := false; lw_current_class := None;
                 lw_confidence := None; lw_rule_version := None; lw_last_change_timestamp_ns := None;
                 lw_top_reasons := []; lw_gaming_signals := []; lw_pressure_signal := None;
                 lw_game_processes := games; lw_critical_processes := critical;
                 lw_unknown_processes := unknown;
                 lw_message := "no stabilized workload classification is available" |}
  | Some (_, row) =>
      let! current := lift (parse_workload_class (ev_new_class row)) in
      let! explanation := lift (with_text "invalid workload explanation JSON"
                                  (explanation_from_json (ev_reason_json row))) in
      let evidence := we_evidence explanation in
      eff_ret {| lw_session_id := session_id; lw_available := true; lw_current_class := Some current;
                 lw_confidence := Some (ev_confidence row);
                 lw_rule_version := Some (we_rule_version explanation);
                 lw_last_change_timestamp_ns := Some (ev_timestamp_ns row);
                 lw_top_reasons := map evidence_text evidence;
                 lw_gaming_signals :=
                   map ev_code (filter (fun e => str_contains "game" (ev_code e) = true) evidence)
                   ++ filter (fun r => str_contains "game" r = true) (we_protection_reasons explanation);
                 lw_pressure_signal :=
                   evidence_text <$> find_first (fun e => str_contains "pressure" (ev_code e)) evidence;
                 lw_game_processes := games; lw_critical_processes := critical;
                 lw_unknown_processes := unknown;
                 lw_message := "latest stabilized deterministic workload classification" |}
  end%string.
Definition latest_workload_report (path : string) (opened : result (Connection Database) string) :
    result LatestWorkloadReport string :=
  reading (read_only_context path) opened workload_report.

Record CgroupStorageStatus := {
  cs_managed_groups : Z;
  cs_assignments : Z;
  cs_rollback_pending : Z;
  cs_stale_recovery_state : Z;
  cs_last_safety_error : option string
}.
Definition no_cgroup_status : CgroupStorageStatus :=
  {| cs_managed_groups := 0; cs_assignments := 0; cs_rollback_pending := 0;
     cs_stale_recovery_state := 0; cs_last_safety_error := None |}.
Definition cgroup_storage_status : eff (Connection Database) CgroupStorageStatus string :=
  let! has_schema := query db_schema [] (fun d => contains_str (db_schema d) "cgroup_snapshots") in
  if negb has_schema then eff_ret no_cgroup_status
  else
    let! managed_groups := query db_schema ["cgroup_managed_groups"%string] (fun d =>
      Z.of_nat (size (filter (fun kv => gr_owned_by_nemor (snd kv) = true) (db_groups d)))) in
    let! assignments := select CgroupSnapshots (count_where (fun r => is_pending (snd r))) in
    let! rollback_pending := select CgroupSnapshots (count_where (fun r => is_pending (snd r))) in
    let! stale := select CgroupSnapshots (count_where (fun r =>
      negb (cg_rolled_back (snd r)) && is_some (cg_last_error (snd r)))) in
    let! last_safety_error := select SafetyEvents (fun t =>
      (fun r => sa_message (snd r)) <$> last_row (rows_where (fun r =>
        like_cgroup (sa_event_type (snd r)) && contains_str ["warning"; "error"]%string (sa_severity (snd r))) t)) in
    eff_ret {| cs_managed_groups := managed_groups; cs_assignments := assignments;
               cs_rollback_pending := rollback_pending; cs_stale_recovery_state := stale;
               cs_last_safety_error := last_safety_error |}.
(** [present] is [path.exists()] *)
Definition inspect_cgroup_status (path : string) (present : bool)
    (opened : result (Connection Database) string) : result CgroupStorageStatus string :=
  if negb present then Ok no_cgroup_status
  else reading (read_only_context path) opened cgroup_storage_status.

Definition map_host (row : Z * HostRow) : HostSummary :=
  let host := hr_host (snd row) in
  {| hs_id := fst row; hs_machine_id := hm_machine_id host; hs_hostname := hm_hostname host;
     hs_distro := hm_distro host; hs_distro_version := hm_distro_version host;
     hs_kernel_version := hm_kernel_version host |}.
Definition map_session (row : Z * SessionRow) : SessionSummary :=
  let r := snd row in
  {| sm_id := fst row; sm_host_id := se_host_id r; sm_mode := se_mode r;
     sm_daemon_version := se_daemon_version r; sm_started_at := se_started_at r;
     sm_ended_at := se_ended_at r; sm_clean_shutdown := se_clean_shutdown r |}.
Definition session_state (last_session : option SessionSummary) : StatusState * string :=
  match last_session with
  | None => (NoSessions, "the database is initialized but contains no sessions")
  | Some session =>
      if is_none (sm_ended_at session)
      then (SessionOpen, "the latest session record has no end time; this does not prove the daemon is running")
      else if sm_clean_shutdown session then (ClosedClean, "the latest session was closed cleanly")
      else (ClosedUnclean, "the latest session has an end time but was not marked as a clean shutdown")
  end%string.
(** [ORDER BY updated_at DESC, id DESC]: a text is compared by its bytes *)
Definition latest_host (rows : list (Z * HostRow)) : option (Z * HostRow) :=
  head (sort_by (fun a b => (String.ltb (hr_updated_at (snd b)) (hr_updated_at (snd a))
                             || String.eqb (hr_updated_at (snd b)) (hr_updated_at (snd a)) && (fst b <=? fst a))) rows).
Definition database_status (path : string) : eff (Connection Database) StatusReport string :=
  in_context "cannot enable foreign keys on status connection"
    (statement db_schema [] (fun _ d => Ok (set_foreign_keys true d, tt))) ;!
  let! journal_mode := in_context "cannot read SQLite journal mode" (query db_schema [] db_journal_mode) in
  eff_reject (negb (eq_ignore_ascii_case journal_mode "wal"))
    ("database " ++ path ++ " is not in WAL mode (reported " ++ journal_mode ++ ")")%string ;!
  let! schema_version := in_context "cannot read schema version"
    (query db_schema ["schema_migrations"%string] (fun d =>
       fold_values Z.max (map (fun kv => Some (fst kv)) (map_to_list (db_migrations d))))) in
  let! last_host := in_context "cannot read latest host" (select Hosts (fun t => latest_host (tb_rows t))) in
  let! last_session := in_context "cannot read latest session" (select Sessions (fun t => last_row (tb_rows t))) in
  let summary := map_session <$> last_session in
  let '(state, description) := session_state summary in
  eff_ret {| sr_database_path := path; sr_database_present := true; sr_schema_version := schema_version;
             sr_last_host := map_host <$> last_host; sr_last_session := summary; sr_state := state;
             sr_state_description := description |}.
Definition inspect_status (path : string) (present : bool) (opened : result (Connection Database) string) :
    result StatusReport string :=
  if negb present then
    Ok {| sr_database_path := path; sr_database_present := false; sr_schema_version := None;
          sr_last_host := None; sr_last_session := None; sr_state := DatabaseMissing;
          sr_state_description := "the configured database file does not exist" |}%string
  else reading (read_only_context path) opened (database_status path).
End Storage.

(** ** The operations as a value, for sequences of them *)

Inductive StorageOp :=
| OpHost (host : HostMetadata) (now : string)
| OpOpenSession (host_id : Z) (daemon_version config_hash now : string)
| OpCloseSession (session_id : Z) (clean : bool) (now : string)
| OpConfiguration (session_id : Z) (reason : string) (configuration values : result string string) (now : string)
| OpBenchmark (host_id : Z) (profile : string) (real : bool) (results : result string string) (now : string)
| OpSafetyEvent (session_id : option Z) (timestamp_ns : Z) (severity event_type message : string) (context : option string)
| OpDecision (session_id : Z) (decision : PolicyDecision) (heartbeat_seconds : Z)
| OpSystemSample (session_id : Z) (sample : SystemSample)
| OpProcessSamples (session_id : Z) (samples : list ProcessSample)
| OpClassified (session_id : Z) (processes : list ProcessClassification) (transition : option WorkloadTransition)
| OpRetention (cutoff_ns : Z)
| OpPersist (snapshot : MutationSnapshot)
| OpUpdate (snapshot : MutationSnapshot)
| OpRecordGroup (now name : string) (session_id : Z) (backend : BackendKind)
| OpRemoveGroup (name : string).

Section Run.
Context `{StorageCodec}.
Definition forget {S A} (m : eff S A string) : eff S unit string := m ;! eff_ret tt.
Definition run_op (op : StorageOp) : eff (Connection Database) unit string :=
  match op with
  | OpHost host now => forget (upsert_host host now)
  | OpOpenSession host v hash now => forget (open_session host v hash now)
  | OpCloseSession session clean now => close_session session clean now
  | OpConfiguration session reason c v now => forget (insert_configuration_snapshot session reason c v now)
  | OpBenchmark host profile real results now => forget (insert_zram_benchmark host profile real results now)
  | OpSafetyEvent session ts severity event message context =>
      record_cgroup_safety_event session ts severity event message context
  | OpDecision session decision heartbeat => forget (insert_policy_decision session decision heartbeat)
  | OpSystemSample session sample => insert_system_sample session sample
  | OpProcessSamples session samples => forget (insert_process_samples session samples)
  | OpClassified session processes transition => forget (insert_classification_batch session processes transition)
  | OpRetention cutoff => forget (enforce_retention cutoff)
  | OpPersist snapshot => forget (eff_map_err error_to_string (storage_persist snapshot))
  | OpUpdate snapshot => eff_map_err error_to_string (storage_update snapshot)
  | OpRecordGroup now name session backend =>
      eff_map_err error_to_string (storage_record_group now name session backend)
  | OpRemoveGroup name => eff_map_err error_to_string (storage_remove_group name)
  end.
(** operations one after the other; one that fails is followed by the next *)
Definition run_ops (ops : list StorageOp) (c : Connection Database) : Connection Database :=
  foldl (fun c op => fst (run_op op c)) c ops.
End Run.

(** ** Consistency of a database *)

Definition ids_sound {R} (t : Table R) : Prop :=
  StronglySorted Z.lt (map fst (tb_rows t)) /\
  Forall (fun row => 0 < fst row <= tb_sequence t) (tb_rows t) /\ 0 <= tb_sequence t <= i64_max.
Definition machine_ids (rows : list (Z * HostRow)) : list string :=
  map (fun r => hm_machine_id (hr_host (snd r))) rows.
Definition catalog_keys (rows : list (Z * CatalogRow)) : list (string * string) :=
  map (fun r => (ca_executable (snd r), ca_command_signature (snd r))) rows.
(** what a table holds by itself: unique keys, and no shutdown of a session that is open *)
Definition own_sound (t : TableName) : Table (Row t) -> Prop :=
  match t return Table (Row t) -> Prop with
  | Hosts => fun t => NoDup (machine_ids (tb_rows t))
  | ProcessCatalog => fun t => NoDup (catalog_keys (tb_rows t))
  | Sessions => fun t => Forall (fun r => se_ended_at (snd r) = None -> se_clean_shutdown (snd r) = false) (tb_rows t)
  | _ => fun _ => True
  end.
Record consistent (d : Database) : Prop := {
  co_foreign_keys : db_foreign_keys d = true;
  co_ids : forall t, ids_sound (db_table d t);
  co_own : forall t, own_sound t (db_table d t);
  co_references : forall t row, row ∈ tb_rows (db_table d t) -> sound_row t (snd row) d = true;
  co_groups : forall name g, db_groups d !! name = Some g -> references Sessions (gr_session_id g) d = true
}.
