(* ===== verification/StorageFacts.v ===== *)
(** crates/storage: what the operations of [Storage] do to a database. The tables and the
    frames of the operations, the consistency of a database over its lifetimes, the progress
    of the migrations, the batches, and the store of the cgroup mutations as a journal. *)

From stdpp Require sorting.
From S2P Require Import Prelude F64 Text Config Classifier Collector Workload Damos Actuator Policy Common Storage.

(** ** Lemmas *)
Module Facts.
Section Facts.

Lemma find_first_false {A} (p : A -> bool) l : find_first p l = None -> forall x, x ∈ l -> p x = false.
Proof.
  induction l as [|y l IH]; simpl; [set_solver |]. destruct (p y) eqn:E; [done |].
  intros Hn x [->|Hx]%elem_of_cons; [done | by apply IH].
Qed.

Lemma table_same t table d : db_table (set_table t table d) t = table.
Proof.
  simpl. destruct (decide (t = t)) as [e|]; [| done]. by rewrite (proof_irrel e eq_refl).
Qed.
Lemma table_other t t' table d : t <> t' -> db_table (set_table t table d) t' = db_table d t'.
Proof. intros Hne. simpl. by destruct (decide (t = t')). Qed.

(** a row refers to rows of these tables, never of its own *)
Definition parent (t : TableName) : Prop := t = Hosts \/ t = Sessions \/ t = ProcessCatalog.
Definition keeps_parents (d d' : Database) : Prop :=
  forall t id, parent t -> references t id d = true -> references t id d' = true.
Lemma sound_row_mono t row d d' : keeps_parents d d' -> sound_row t row d = true -> sound_row t row d' = true.
Proof.
  intros Hk. assert (K : forall t id, parent t -> references t id d = true -> references t id d' = true) by exact Hk.
  destruct t; simpl in *; try done; rewrite ?andb_true_iff; try (apply K; unfold parent; tauto).
  - intros [Hs Hc]. split; [apply K; unfold parent; tauto |].
    destruct (pr_catalog_id row); [apply K; unfold parent; tauto | done].
  - destruct (sa_session_id row); [apply K; unfold parent; tauto | done].
  - destruct (cf_session_id row); [apply K; unfold parent; tauto | done].
  - intros [Hs Hc]. split; apply K; unfold parent; tauto.
Qed.
Lemma sound_row_own t table row d : sound_row t row (set_table t table d) = sound_row t row d.
Proof. by destruct t. Qed.

Lemma has_id_elem {R} (t : Table R) id : has_id t id = true <-> id ∈ map fst (tb_rows t).
Proof.
  unfold has_id. rewrite existsb_elem, list_elem_of_fmap. split.
  - intros (row & Hin & Hid). apply Z.eqb_eq in Hid. by exists row.
  - intros (row & -> & Hin). exists row. by rewrite Z.eqb_refl.
Qed.

(** the tables after a change *)
Lemma consistent_set t (table : Table (Row t)) d :
  consistent d -> ids_sound table -> own_sound t table ->
  (parent t -> forall id, id ∈ map fst (tb_rows (db_table d t)) -> id ∈ map fst (tb_rows table)) ->
  (forall row, row ∈ tb_rows table -> sound_row t (snd row) d = true) ->
  consistent (set_table t table d).
Proof.
  intros [Hfk Hids Hown Href Hgroups] Hi Ho Hp Hr.
  assert (Hkeep : keeps_parents d (set_table t table d)).
  { intros t' id Hpt Hold. unfold references in *. destruct (decide (t = t')) as [<-|Hne].
    - rewrite table_same. apply has_id_elem, Hp, has_id_elem; done.
    - by rewrite table_other. }
  constructor; simpl db_foreign_keys; simpl db_groups; [done | | | |].
  - intros t'. destruct (decide (t = t')) as [<-|Hne]; [by rewrite table_same | by rewrite table_other].
  - intros t'. destruct (decide (t = t')) as [<-|Hne]; [by rewrite table_same | by rewrite table_other].
  - intros t' row. destruct (decide (t = t')) as [<-|Hne].
    + rewrite table_same, sound_row_own. apply Hr.
    + rewrite table_other by done. intros Hin. by eapply sound_row_mono, Href.
  - intros name g Hg. apply Hkeep; [unfold parent; tauto | by eapply Hgroups].
Qed.

(** an update keeps the ids, a deletion some of them *)
Lemma update_ids {R} p f (t : Table R) : map fst (tb_rows (fst (update_rows p f t))) = map fst (tb_rows t).
Proof. simpl. rewrite map_map. apply map_ext. intros row. by destruct (p row). Qed.
Lemma update_elem {R} p f (t : Table R) row : row ∈ tb_rows (fst (update_rows p f t)) ->
  exists old, old ∈ tb_rows t /\ fst row = fst old /\
    (snd row = snd old \/ (p old = true /\ snd row = f (snd old))).
Proof.
  simpl. rewrite list_elem_of_fmap. intros (old & -> & Hin). exists old. split; [done |].
  destruct (p old) eqn:E; simpl; auto.
Qed.
Lemma Forall_ids {R} (P : Z -> Prop) (rows : list (Z * R)) :
  Forall (fun row => P (fst row)) rows <-> Forall P (map fst rows).
Proof. symmetry. apply Forall_fmap. Qed.
Lemma update_ids_sound {R} p f (t : Table R) : ids_sound t -> ids_sound (fst (update_rows p f t)).
Proof.
  intros (Hs & Hb & Hq). split; [by rewrite update_ids |]. split; [| done].
  apply (Forall_ids (fun id => 0 < id <= tb_sequence t)). rewrite update_ids. by apply (Forall_ids (fun id => 0 < id <= tb_sequence t)).
Qed.
Lemma sorted_filter {R} (p : Z * R -> Prop) `{!forall x, Decision (p x)} (rows : list (Z * R)) :
  StronglySorted Z.lt (map fst rows) -> StronglySorted Z.lt (map fst (filter p rows)).
Proof.
  induction rows as [|row rows IH]; intros Hs; [done |]. inversion Hs as [| ? ? Hs' Hall]; subst.
  rewrite filter_cons. destruct (decide (p row)); [| by apply IH]. simpl. constructor; [by apply IH |].
  apply (Forall_ids (Z.lt (fst row))). apply (Forall_ids (Z.lt (fst row))) in Hall.
  rewrite list.Forall_forall in *. intros x [_ Hx]%list_elem_of_filter. by apply Hall.
Qed.
Lemma delete_ids_sound {R} p (t : Table R) : ids_sound t -> ids_sound (fst (delete_rows p t)).
Proof.
  intros (Hs & Hb & Hq). split; [by apply sorted_filter |]. split; [| done].
  simpl. rewrite list.Forall_forall in *. intros x Hx. apply list_elem_of_filter in Hx as [_ Hx]. by apply Hb.
Qed.
Lemma insert_row_ok {R} skip (row : R) t t' id : insert_row skip row t = Ok (t', id) ->
  tb_sequence t < id <= i64_max /\ tb_rows t' = tb_rows t ++ [(id, row)] /\ tb_sequence t' = id.
Proof.
  unfold insert_row. destruct (i64_max <? _) eqn:E; [done |]. apply Z.ltb_ge in E.
  intros [= <- <-]. simpl. split; [lia | done].
Qed.
Lemma insert_ids_sound {R} skip (row : R) t t' id : insert_row skip row t = Ok (t', id) ->
  ids_sound t -> ids_sound t'.
Proof.
  intros (Hid & Hrows & Hseq)%insert_row_ok (Hs & Hb & Hq). unfold ids_sound. rewrite Hrows, Hseq, map_app.
  split; [| split; [| lia]].
  - apply (Forall_ids (fun id => 0 < id <= tb_sequence t)) in Hb as Hb'. clear -Hs Hb' Hid. induction (map fst (tb_rows t)) as [|x l IH]; simpl in *.
    + repeat constructor.
    + inversion Hs; inversion Hb'; subst. constructor; [by apply IH |]. apply Forall_app. split; [done |].
      repeat constructor. simpl. lia.
  - apply Forall_app. split; [| repeat constructor; simpl; lia].
    eapply Forall_impl, Hb. intros x Hx. simpl in *. lia.
Qed.
End Facts.
End Facts.

(** ** What an operation keeps of the database *)
Module Keeps.
Import Facts.

Definition on_data (R : Database -> Database -> Prop) (c c' : Connection Database) : Prop :=
  R (cn_data c) (cn_data c').
#[export] Instance on_data_refl R `{!Reflexive R} : Reflexive (on_data R).
Proof. intros c. unfold on_data. reflexivity. Qed.
#[export] Instance on_data_trans R `{!Transitive R} : Transitive (on_data R).
Proof. intros c1 c2 c3. unfold on_data. apply transitivity. Qed.

Lemma ok_pair {A B E} (a a' : A) (b b' : B) : @Ok (A * B) E (a, b) = Ok (a', b') -> a' = a /\ b' = b.
Proof. by intros [= -> ->]. Qed.

Section Keeps.
Context (R : Database -> Database -> Prop) `{!Reflexive R, !Transitive R}.

Lemma keeps_statement {A} tables (f : nat -> Database -> result (Database * A) string) :
  (forall skip d d' a, f skip d = Ok (d', a) -> R d d') ->
  frames (on_data R) (statement db_schema tables f).
Proof.
  intros Hf c. unfold statement, on_data.
  destruct (next_choice _) as [choice rest]. destruct (ch_refusal choice); [done |].
  destruct (find_first _ _); [done |].
  destruct (f _ _) as [[d a]|e] eqn:E; simpl; [by eapply Hf | done].
Qed.
Lemma keeps_query {A} tables (f : Database -> A) : frames (on_data R) (query db_schema tables f).
Proof. apply keeps_statement. by intros _ d d' a [= <- _]. Qed.
Lemma keeps_prepare tables : frames (on_data R) (prepare db_schema tables).
Proof. apply keeps_query. Qed.
Lemma keeps_map_err {A E F} (f : E -> F) (m : eff (Connection Database) A E) :
  frames (on_data R) m -> frames (on_data R) (eff_map_err f m).
Proof. intros Hm c. specialize (Hm c). unfold eff_map_err. by destruct (m c). Qed.
Lemma keeps_transaction {A} begin_context commit_context (body : eff (Connection Database) A string) :
  frames (on_data R) body -> frames (on_data R) (transaction begin_context commit_context body).
Proof.
  intros Hb c. unfold transaction.
  assert (Hbegin : on_data R c (fst (in_context begin_context (prepare (fun _ => []) []) c))).
  { unfold in_context, eff_map_err, prepare, query, statement, on_data.
    destruct (next_choice _) as [choice rest]. by destruct (ch_refusal choice). }
  destruct (in_context begin_context _ c) as [c1 [[]|e]]; [| done]. simpl in Hbegin.
  unfold eff_bind. specialize (Hb c1). destruct (body c1) as [c2 [a|e]]; [| by unfold on_data]. simpl in Hb.
  assert (Hcommit : on_data R c2 (fst (in_context commit_context (prepare (fun _ => []) []) c2))).
  { unfold in_context, eff_map_err, prepare, query, statement, on_data.
    destruct (next_choice _) as [choice rest]. by destruct (ch_refusal choice). }
  destruct (in_context commit_context _ c2) as [c3 [[]|e]]; simpl; [| by unfold on_data].
  etransitivity; [exact Hbegin |]. by etransitivity.
Qed.
Lemma keeps_lift {A E} (r : result A E) : frames (on_data R) (lift r).
Proof. apply frames_read, _. Qed.
End Keeps.

(** what a statement that succeeded did *)
Lemma statement_ok {A} tables (f : nat -> Database -> result (Database * A) string) c c' a :
  statement db_schema tables f c = (c', Ok a) -> exists skip, f skip (cn_data c) = Ok (cn_data c', a).
Proof.
  unfold statement. destruct (next_choice _) as [choice rest]. destruct (ch_refusal choice); [done |].
  destruct (find_first _ _); [done |]. destruct (f _ _) as [[d x]|e] eqn:Ef; [| done].
  intros [= <- <-]. by exists (ch_skip choice).
Qed.
(** it had its tables *)
Lemma statement_schema {A} tables (f : nat -> Database -> result (Database * A) string) c c' a :
  statement db_schema tables f c = (c', Ok a) -> forallb (contains_str (db_schema (cn_data c))) tables = true.
Proof.
  unfold statement. destruct (next_choice _) as [choice rest]. destruct (ch_refusal choice); [done |].
  destruct (find_first _ _) eqn:E; [done |]. intros _. apply forallb_elem. intros t Ht.
  pose proof (find_first_false _ _ E t Ht) as Hn. by apply negb_false_iff.
Qed.
(** a statement that fails changes nothing *)
Lemma statement_err {A} tables (f : nat -> Database -> result (Database * A) string) c c' e :
  statement db_schema tables f c = (c', Err e) -> cn_data c' = cn_data c.
Proof.
  unfold statement. destruct (next_choice _) as [choice rest]. destruct (ch_refusal choice); [by intros [= <- _] |].
  destruct (find_first _ _); [by intros [= <- _] |]. destruct (f _ _) as [[d x]|e0]; [done |]. by intros [= <- _].
Qed.
Lemma map_err_ok {S A E F} (f : E -> F) (m : eff S A E) s s' a :
  eff_map_err f m s = (s', Ok a) <-> m s = (s', Ok a).
Proof. unfold eff_map_err. destruct (m s) as [s1 [x|e]]; naive_solver. Qed.

(** the operations that change nothing but their table *)
Lemma insert_into_ok t skip row d d' id : insert_into t skip row d = Ok (d', id) ->
  exists table, insert_row skip row (db_table d t) = Ok (table, id) /\ d' = set_table t table d /\
    (db_foreign_keys d = true -> sound_row t row d = true).
Proof.
  unfold insert_into. destruct (insert_row _ _ _) as [[table id']|e]; [| done].
  destruct (reject _ _) as [[]|e] eqn:Er; [| done]. apply reject_ok in Er. intros [= <- <-].
  exists table. split; [done |]. split; [done |]. intros Hf. rewrite Hf in Er. by destruct (sound_row t row d).
Qed.

Definition stays (d d' : Database) : Prop := consistent d -> consistent d'.
#[export] Instance stays_refl : Reflexive stays.
Proof. intros d Hc. exact Hc. Qed.
#[export] Instance stays_trans : Transitive stays.
Proof. intros d1 d2 d3 H1 H2 Hc. by apply H2, H1. Qed.

Lemma insert_stays t skip row d d' id : insert_into t skip row d = Ok (d', id) ->
  (forall table, insert_row skip row (db_table d t) = Ok (table, id) -> own_sound t (db_table d t) -> own_sound t table) ->
  stays d d'.
Proof.
  intros (table & Hrow & -> & Hsound)%insert_into_ok Hown Hc.
  pose proof (insert_row_ok _ _ _ _ _ Hrow) as (_ & Hrows & _).
  apply consistent_set; [done | | by apply (Hown table), co_own | |].
  - by eapply insert_ids_sound, co_ids.
  - intros _ id'. rewrite Hrows, map_app. set_solver.
  - intros r. rewrite Hrows. intros [Hr | ->%list_elem_of_singleton]%elem_of_app.
    + by eapply co_references.
    + by apply Hsound, co_foreign_keys.
Qed.
Lemma update_stays t p f d :
  (forall r, sound_row t r d = true -> sound_row t (f r) d = true) ->
  (own_sound t (db_table d t) -> own_sound t (fst (update_rows p f (db_table d t)))) ->
  stays d (set_table t (fst (update_rows p f (db_table d t))) d).
Proof.
  intros Hf Hown Hc. apply consistent_set; [done | apply update_ids_sound, Hc | apply Hown, Hc | |].
  - intros _ id. by rewrite update_ids.
  - intros row (old & Hin & _ & Hrow)%update_elem. pose proof (co_references _ Hc t old Hin).
    destruct Hrow as [-> | [_ ->]]; auto.
Qed.
Lemma delete_stays t p d : ~ parent t -> stays d (set_table t (fst (delete_rows p (db_table d t))) d).
Proof.
  intros Hp Hc. apply consistent_set; [done | apply delete_ids_sound, Hc | | done |].
  - destruct t; simpl; try done; exfalso; apply Hp; unfold parent; tauto.
  - intros row [_ Hin]%list_elem_of_filter. by eapply co_references.
Qed.
Lemma insert_op_stays t row : own_sound t = (fun _ => True) -> frames (on_data stays) (insert t row).
Proof.
  intros Ht. apply keeps_statement; [apply _ |]. intros skip d d' id Hi. eapply insert_stays; [done |].
  intros table _. by rewrite Ht.
Qed.
End Keeps.

(** ** Every operation keeps a database consistent *)
Module Operations.
Import Facts Keeps.

(** a key that an update does not change, and that an insertion adds when nothing has it *)
Lemma update_key {R K} (key : Z * R -> K) p f (t : Table R) :
  (forall row, p row = true -> key (fst row, f (snd row)) = key row) ->
  map key (tb_rows (fst (update_rows p f t))) = map key (tb_rows t).
Proof.
  intros Hk. simpl. rewrite map_map. apply map_ext. intros row. destruct (p row) eqn:E; [by apply Hk | done].
Qed.
Lemma insert_key {R K} (key : Z * R -> K) skip row (t t' : Table R) id :
  insert_row skip row t = Ok (t', id) -> ~ key (id, row) ∈ map key (tb_rows t) ->
  NoDup (map key (tb_rows t)) -> NoDup (map key (tb_rows t')).
Proof.
  intros (_ & -> & _)%insert_row_ok Hnew Hd. rewrite map_app. apply list.NoDup_app. split; [done |].
  split; [| simpl; apply list.NoDup_singleton]. simpl. set_solver.
Qed.

Lemma set_groups_stays g d :
  (forall name r, g !! name = Some r ->
     db_groups d !! name = Some r \/ references Sessions (gr_session_id r) d = true \/ db_foreign_keys d = false) ->
  stays d (set_groups g d).
Proof.
  intros Hg [Hfk Hids Hown Href Hgroups]. constructor; try done.
  intros name r Hr. destruct (Hg name r Hr) as [Hold | [Href' | Hoff]]; [by eapply Hgroups | done | congruence].
Qed.

Section Operations.
Context `{StorageCodec}.

Lemma upsert_host_stays host now : frames (on_data stays) (upsert_host host now).
Proof.
  unfold upsert_host. apply frames_bind; [apply _.. | |intros _].
  - apply keeps_map_err, keeps_statement; [apply _ |]. intros skip d d' a. cbv zeta.
    set (same := fun r : Z * Row Hosts => _). destruct (reject _ _) as [[]|]; [cbv iota | done].
    assert (Hsame : forall r, same r = true <-> hm_machine_id (hr_host (snd r)) = hm_machine_id host)
      by (intros r; apply String.eqb_eq).
    destruct (find_row same (db_table d Hosts)) as [found|] eqn:Ef.
    + intros [-> _]%ok_pair. apply update_stays; [done |]. cbn [own_sound]. unfold machine_ids. intros Hd.
      erewrite (update_key (fun r : Z * HostRow => hm_machine_id (hr_host (snd r)))); [done |].
      intros row Hrow%Hsame. by symmetry.
    + intros Hi. inv_ok. destruct a0 as [d1 id]. eapply insert_stays; [done |]. intros table Ht.
      apply (insert_key (fun r : Z * HostRow => hm_machine_id (hr_host (snd r))) _ _ _ _ _ Ht). simpl.
      intros (r & Hr & Hin)%list_elem_of_fmap. apply (find_first_false _ _ Ef) in Hin.
      apply not_true_iff_false in Hin. by apply Hin, Hsame.
  - apply keeps_map_err, keeps_statement; [apply _ |]. intros skip d d' a Hi. inv_ok. done.
Qed.

Lemma upsert_catalog_stays process : frames (on_data stays) (upsert_catalog process).
Proof.
  apply keeps_statement; [apply _ |]. intros skip d d' a. cbv zeta.
  set (key := catalog_key _ _). set (row := catalog_row process).
  assert (Hkey : forall r, key r = true <->
    (ca_executable (snd r), ca_command_signature (snd r)) = (ca_executable row, ca_command_signature row)).
  { intros r. unfold key, catalog_key. rewrite andb_true_iff, !String.eqb_eq. simpl. split; [by intros [-> ->] | by intros [= -> ->]]. }
  destruct (find_row key (db_table d ProcessCatalog)) as [found|] eqn:Ef.
  - intros [-> _]%ok_pair. apply update_stays; [done |]. cbn [own_sound]. unfold catalog_keys. intros Hd.
    rewrite (update_key (fun r : Z * CatalogRow => (ca_executable (snd r), ca_command_signature (snd r)))); done.
  - intros Hi. inv_ok. destruct a0 as [d1 id]. eapply insert_stays; [done |]. intros table Ht.
    apply (insert_key (fun r : Z * CatalogRow => (ca_executable (snd r), ca_command_signature (snd r))) _ _ _ _ _ Ht).
    intros (r & Hr & Hin)%list_elem_of_fmap. apply (find_first_false _ _ Ef) in Hin.
    apply not_true_iff_false in Hin. by apply Hin, Hkey.
Qed.

Lemma session_stays host version hash now : frames (on_data stays) (open_session host version hash now).
Proof.
  apply keeps_map_err, keeps_statement; [apply _ |]. intros skip d d' id Hi. eapply insert_stays; [done |].
  intros table (_ & Hrows & _)%insert_row_ok Hown. simpl in *. rewrite Hrows. apply Forall_app. split; [done |].
  by repeat constructor.
Qed.
Lemma close_stays session clean now : frames (on_data stays) (close_session session clean now).
Proof.
  apply keeps_transaction; [apply _.. |]. apply frames_bind; [apply _.. | | intros; apply frames_reject, _].
  apply keeps_map_err, keeps_statement; [apply _ |]. intros skip d d' a [-> _]%ok_pair. apply update_stays; [done |].
  simpl. rewrite !list.Forall_forall. intros Hown row (old & -> & Hin)%list_elem_of_fmap.
  destruct (is_open _ _); [done | by apply Hown].
Qed.
Lemma transition_stays session transition : frames (on_data stays) (insert_transition session transition).
Proof.
  unfold insert_transition. apply frames_bind; [apply _.. | apply keeps_map_err, keeps_query, _ | intros last].
  apply frames_if; [apply frames_ret, _ |].
  apply frames_bind; [apply _.. | apply keeps_map_err, frames_read, _ | intros json].
  apply frames_bind; [apply _.. | | intros; apply frames_ret, _].
  apply keeps_map_err, keeps_statement; [apply _ |]. intros skip d d' id Hi. inv_ok.
  by eapply insert_stays.
Qed.
Lemma delete_op_stays t p : ~ parent t -> frames (on_data stays) (delete_from t p).
Proof. intros Hp. apply keeps_statement; [apply _ |]. intros skip d d' n [-> _]%ok_pair. by apply delete_stays. Qed.
Lemma update_mutation_stays snapshot : frames (on_data stays) (storage_update snapshot).
Proof.
  apply frames_bind; [apply _.. | apply frames_reject, _ | intros _].
  apply keeps_map_err, keeps_statement; [apply _ |]. intros skip d d' a [-> _]%ok_pair. by apply update_stays.
Qed.
Lemma record_group_stays now name session backend :
  frames (on_data stays) (storage_record_group now name session backend).
Proof.
  apply keeps_map_err, keeps_statement; [apply _ |]. intros skip d d' a Hi. inv_ok. bools.
  apply set_groups_stays. intros other r. rewrite lookup_insert. destruct (decide (name = other)) as [_|_]; [| by left].
  intros [= <-]. right. simpl. destruct (references Sessions session d); [by left |].
  destruct (db_foreign_keys d); [done | by right].
Qed.
Lemma remove_group_stays name : frames (on_data stays) (storage_remove_group name).
Proof.
  apply keeps_map_err, keeps_statement; [apply _ |]. intros skip d d' a [= <- _].
  apply set_groups_stays. intros other r [_ Hr]%lookup_delete_Some. by left.
Qed.
End Operations.
End Operations.

(** [keeps] takes a program apart down to its statements *)
Ltac keeps_step :=
  match goal with
  | |- frames _ (eff_bind _ _) => apply frames_bind; [apply _.. | | intros ?]
  | |- frames _ (eff_ret _) => apply frames_ret, _
  | |- frames _ (eff_err _) => apply frames_err, _
  | |- frames _ (eff_read _) => apply frames_read, _
  | |- frames _ (lift _) => apply frames_read, _
  | |- frames _ (eff_reject _ _) => apply frames_reject, _
  | |- frames _ (forget _) => unfold forget
  | |- frames _ (in_context _ _) => apply Keeps.keeps_map_err
  | |- frames _ (persistence _) => apply Keeps.keeps_map_err
  | |- frames _ (eff_map_err _ _) => apply Keeps.keeps_map_err
  | |- frames _ (select _ _) => apply Keeps.keeps_query, _
  | |- frames _ (query _ _ _) => apply Keeps.keeps_query, _
  | |- frames _ (prepare _ _) => apply Keeps.keeps_prepare, _
  | |- frames _ (transaction _ _ _) => apply Keeps.keeps_transaction; [apply _.. |]
  | |- frames _ (insert _ _) => apply Keeps.insert_op_stays; reflexivity
  | |- frames _ (let _ := _ in _) => cbv zeta
  | |- frames _ (match ?x with _ => _ end) => destruct x
  end.
Ltac keeps := repeat keeps_step.

Module Lifetime.
Import Facts Keeps Operations.
Section Lifetime.
Context `{StorageCodec}.

Lemma samples_stay session samples : frames (on_data stays) (insert_samples session samples).
Proof. induction samples as [|sample samples IH]; simpl; keeps. apply IH. Qed.
Lemma classified_stay session processes : frames (on_data stays) (insert_all_classified session processes).
Proof.
  induction processes as [|process processes IH]; simpl; [keeps |]. unfold insert_classified.
  keeps; [apply upsert_catalog_stays | | apply IH].
  apply keeps_statement; [apply _ |]. intros skip d d' answer Hi. inv_ok. done.
Qed.
Lemma run_op_stays op : frames (on_data stays) (run_op op).
Proof.
  destruct op; simpl run_op; keeps.
  - apply upsert_host_stays.
  - apply session_stays.
  - apply close_stays.
  - unfold insert_configuration_snapshot. keeps.
  - unfold insert_zram_benchmark. keeps.
  - unfold record_cgroup_safety_event. keeps.
  - unfold insert_policy_decision. keeps.
  - unfold insert_system_sample. keeps.
  - unfold insert_process_samples. keeps. apply samples_stay.
  - unfold insert_classification_batch. keeps; [apply classified_stay | apply transition_stays].
  - unfold enforce_retention. keeps; apply delete_op_stays; unfold parent; by intros [? | [? | ?]].
  - unfold storage_persist. keeps.
  - apply update_mutation_stays.
  - apply record_group_stays.
  - apply remove_group_stays.
Qed.
Lemma run_ops_stay ops : forall c, stays (cn_data c) (cn_data (run_ops ops c)).
Proof.
  induction ops as [|op ops IH]; intros c; simpl; [apply stays_refl |]. etransitivity; [apply run_op_stays | apply IH].
Qed.

(** opening touches neither rows nor groups *)
Definition same_rows (d d' : Database) : Prop := db_table d' = db_table d /\ db_groups d' = db_groups d.
#[export] Instance same_rows_refl : Reflexive same_rows.
Proof. by intros d. Qed.
#[export] Instance same_rows_trans : Transitive same_rows.
Proof. intros d1 d2 d3 [H1 G1] [H2 G2]. split; congruence. Qed.
Definition same_rows_and_keys (d d' : Database) : Prop :=
  same_rows d d' /\ db_foreign_keys d' = db_foreign_keys d /\ db_journal_mode d' = db_journal_mode d.
#[export] Instance same_rows_and_keys_refl : Reflexive same_rows_and_keys.
Proof. by intros d. Qed.
#[export] Instance same_rows_and_keys_trans : Transitive same_rows_and_keys.
Proof. intros d1 d2 d3 (H1 & G1 & J1) (H2 & G2 & J2). split_and!; [by etransitivity | congruence..]. Qed.

Lemma apply_migration_rows m creates : frames (on_data same_rows_and_keys) (apply_migration m creates).
Proof.
  unfold apply_migration, stored_checksum, apply_ddl, record_migration. keeps.
  all: apply keeps_statement; [apply _ |]; intros skip d d' [].
  all: try (unfold run_ddl; intros Hi; inv_ok; done).
  all: destruct (_ !! _); [done |]; by intros [= <-].
Qed.
Lemma migrate_rows source : frames (on_data same_rows_and_keys) (migrate source).
Proof.
  unfold migrate. generalize (migrations source). intros l. induction l as [|m l IH]; simpl; keeps; [| apply IH].
  apply apply_migration_rows.
Qed.
Lemma open_rows granted source : frames (on_data same_rows) (open_storage granted source).
Proof.
  unfold open_storage, initialize_connection. keeps.
  - apply keeps_statement; [apply _ |]. by intros _ d d' answer [= <- _].
  - apply keeps_statement; [apply _ |]. by intros _ d d' answer [= <-].
  - eapply frames_weaken; [apply migrate_rows |]. by intros c c' [? _].
Qed.
Lemma open_keys granted source c c' : open_storage granted source c = (c', Ok tt) ->
  db_foreign_keys (cn_data c') = true.
Proof.
  unfold open_storage, initialize_connection. intros Ho. inv_eff.
  match type of Ho with _ ?c1 = _ =>
    pose proof (migrate_rows source c1) as Hk; rewrite Ho in Hk; destruct Hk as (_ & Hk & _) end.
  simpl in Hk. rewrite Hk. clear Ho Hk.
  unfold in_context in *. rewrite !map_err_ok in *.
  match goal with Hs : statement _ _ _ ?c1 = (?c2, _) |- context [?c2] =>
    apply statement_ok in Hs as [skip Hs]; by apply ok_pair in Hs as [-> _] end.
Qed.
(** an opened database is in the mode that the program asked for *)
Lemma open_mode granted source c c' : open_storage granted source c = (c', Ok tt) ->
  eq_ignore_ascii_case (db_journal_mode (cn_data c')) "wal" = true.
Proof.
  unfold open_storage, initialize_connection. intros Ho. inv_eff.
  match type of Ho with _ ?c1 = _ =>
    pose proof (migrate_rows source c1) as Hk; rewrite Ho in Hk; destruct Hk as (_ & _ & Hk) end.
  simpl in Hk. rewrite Hk. clear Ho Hk.
  unfold in_context in *. rewrite !map_err_ok in *.
  apply statement_ok in E as [_ [-> _]%ok_pair], E0 as [_ [-> ->]%ok_pair]. simpl.
  by apply negb_false_iff.
Qed.
Lemma consistent_keys d on : consistent (set_foreign_keys true d) <-> consistent (set_foreign_keys true (set_foreign_keys on d)).
Proof. done. Qed.
Lemma same_rows_consistent d d' : same_rows d d' -> consistent (set_foreign_keys true d) ->
  consistent (set_foreign_keys true d').
Proof.
  intros [Ht Hg] [_ Hids Hown Href Hgroups]. simpl in *.
  constructor; simpl; rewrite ?Ht, ?Hg; try done.
  - intros t row Hin. specialize (Href t row Hin). destruct t; simpl in *; unfold references in *; simpl in *; by rewrite ?Ht.
  - intros name g Hn. unfold references. simpl. rewrite Ht. by eapply Hgroups.
Qed.
Lemma new_consistent mode : consistent (set_foreign_keys true (new_database mode)).
Proof.
  constructor; simpl; try done.
  - intros t. unfold ids_sound, i64_max. simpl. split_and!; [constructor | constructor | lia | lia].
  - intros t. destruct t; simpl; constructor.
  - intros t row Hin. by apply elem_of_nil in Hin.
Qed.

(** The databases that exist: a new file, what an opening leaves, failed or not, on a new
    connection, and what operations leave after an opening that succeeded. *)
Inductive reachable : Database -> Prop :=
| ReachNew mode : reachable (new_database mode)
| ReachOpen d choices granted source :
    reachable d ->
    reachable (cn_data (fst (open_storage granted source (MkConnection (set_foreign_keys false d) choices))))
| ReachRun d choices granted source c ops :
    reachable d ->
    open_storage granted source (MkConnection (set_foreign_keys false d) choices) = (c, Ok tt) ->
    reachable (cn_data (run_ops ops c)).
Lemma opened_consistent granted source c c' r : open_storage granted source c = (c', r) ->
  consistent (set_foreign_keys true (cn_data c)) -> consistent (set_foreign_keys true (cn_data c')).
Proof.
  intros Ho. pose proof (open_rows granted source c) as Hr. rewrite Ho in Hr. by apply same_rows_consistent.
Qed.
Lemma keys_on d : db_foreign_keys d = true -> set_foreign_keys true d = d.
Proof. destruct d. simpl. by intros ->. Qed.
Lemma reachable_consistent d : reachable d -> consistent (set_foreign_keys true d).
Proof.
  induction 1 as [mode | d choices granted source Hd IH | d choices granted source c ops Hd IH Ho].
  - apply new_consistent.
  - destruct (open_storage _ _ _) as [c r] eqn:Ho. by apply (opened_consistent _ _ _ _ _ Ho).
  - pose proof (opened_consistent _ _ _ _ _ Ho IH) as Hc. apply open_keys in Ho. rewrite (keys_on _ Ho) in Hc.
    apply (run_ops_stay ops c) in Hc. rewrite keys_on; [done | by apply co_foreign_keys].
Qed.
End Lifetime.
End Lifetime.

(** ** Programs whose statements the database allows: they fail only when the engine refuses *)
Module Calm.
Import Keeps.
Section Calm.
Context (strict : bool).

(** when [strict], the engine refuses nothing any more *)
Definition calm (c : Connection Database) : Prop := strict = true -> cn_choices c = [].
Definition at_calm (P : Database -> Prop) (c : Connection Database) : Prop := P (cn_data c) /\ calm c.
Definition refused (P : Database -> Prop) (c : Connection Database) : Prop := P (cn_data c) /\ strict = false.

Lemma calm_start (P : Database -> Prop) d choices : P d -> (strict = true -> choices = []) -> at_calm P (MkConnection d choices).
Proof. done. Qed.
Lemma calm_statement {A} (P : Database -> Prop) (Q : A -> Database -> Prop) tables
    (f : nat -> Database -> result (Database * A) string) :
  (forall d, P d -> forallb (contains_str (db_schema d)) tables = true) ->
  (forall skip d, P d -> exists d' a, f skip d = Ok (d', a) /\ Q a d') ->
  triple (at_calm P) (statement db_schema tables f) (fun a => at_calm (Q a)) (refused P).
Proof.
  intros Ht Hf c [Hp Hc]. unfold statement, refused, calm, at_calm in *.
  destruct (next_choice (cn_choices c)) as [choice rest] eqn:En.
  destruct (ch_refusal choice) eqn:Er; simpl.
  - split; [done |]. destruct strict; [| done]. rewrite (Hc eq_refl) in En. by simplify_eq/=.
  - destruct (find_first _ tables) as [t|] eqn:Ef.
    + exfalso. apply find_first_some in Ef as [Hin Hn].
      pose proof (proj1 (forallb_elem _ _) (Ht _ Hp) t Hin) as Hy. by rewrite Hy in Hn.
    + destruct (Hf (ch_skip choice) (cn_data c) Hp) as (d' & a & -> & Hq). simpl. split; [done |].
      intros Hs. rewrite (Hc Hs) in En. by simplify_eq/=.
Qed.
(** inside a transaction the state left by a refusal does not matter *)
Lemma refused_any {A} P (m : eff (Connection Database) A string) Q P' :
  triple P m Q (refused P') -> triple P m Q (fun _ => strict = false).
Proof. intros Hm. eapply triple_weaken; [exact Hm | done | done |]. by intros c [_ Hs]. Qed.
Lemma calm_query {A} (P : Database -> Prop) tables (f : Database -> A) :
  (forall d, P d -> forallb (contains_str (db_schema d)) tables = true) ->
  triple (at_calm P) (query db_schema tables f) (fun a => at_calm (fun d => P d /\ a = f d)) (refused P).
Proof. intros Ht. apply calm_statement; [done |]. intros _ d Hp. by exists d, (f d). Qed.
Lemma calm_transaction {A} (P : Database -> Prop) (Q : A -> Database -> Prop) begin_context commit_context body :
  triple (at_calm P) body (fun a => at_calm (Q a)) (fun _ => strict = false) ->
  triple (at_calm P) (transaction begin_context commit_context body) (fun a => at_calm (Q a)) (refused P).
Proof.
  intros Hb c [Hp Hc]. unfold calm in Hc.
  assert (Hcontrol : forall context (R : Database -> Prop),
    triple (at_calm R) (in_context context (prepare (fun _ : Database => []) []))
      (fun _ => at_calm R) (fun _ => strict = false)).
  { intros context R. apply triple_map_err. intros c1 [Hr1 Hc1]. unfold prepare, query, statement, at_calm, calm in *.
    destruct (next_choice (cn_choices c1)) as [choice rest] eqn:En.
    destruct (ch_refusal choice) eqn:Er; simpl.
    - destruct strict; [| done]. rewrite (Hc1 eq_refl) in En. by simplify_eq/=.
    - split; [done |]. intros Hs. rewrite (Hc1 Hs) in En. by simplify_eq/=. }
  unfold transaction. pose proof (Hcontrol begin_context (fun d => P d /\ d = cn_data c) c) as H1.
  assert (H0 : at_calm (fun d => P d /\ d = cn_data c) c) by done. specialize (H1 H0).
  assert (Hkeep : cn_data (fst (in_context begin_context (prepare (fun _ : Database => []) []) c)) = cn_data c).
  { unfold in_context, eff_map_err, prepare, query, statement.
    destruct (next_choice _) as [choice rest]. by destruct (ch_refusal choice). }
  destruct (in_context begin_context _ c) as [c1 [[]|e]]; simpl in Hkeep; [| by rewrite <- Hkeep in Hp].
  destruct H1 as [[Hp1 _] Hc1].
  assert (Ht : triple (at_calm P)
    (let! a := body in in_context commit_context (prepare (fun _ => []) []) ;! eff_ret a)
    (fun a => at_calm (Q a)) (fun _ => strict = false)).
  { eapply triple_bind; [exact Hb |]. intros a. eapply triple_bind; [apply Hcontrol |].
    intros []. by apply triple_ret. }
  specialize (Ht c1 (conj Hp1 Hc1)). destruct (eff_bind body _ c1) as [c2 [a|e]]; [done |]. by split.
Qed.
End Calm.
End Calm.

(** ** The progress of the migrations *)
Module Migrations.
Import Facts Keeps Lifetime Calm.

(** a query whose answer the state determines *)
Lemma calm_answer {A B} strict (P : Database -> Prop) tables (f : Database -> A) v context
    (k : A -> eff (Connection Database) B string) Q (X : Connection Database -> Prop) :
  (forall d, P d -> forallb (contains_str (db_schema d)) tables = true) ->
  (forall d, P d -> f d = v) -> (forall c, refused strict P c -> X c) ->
  triple (at_calm strict P) (k v) Q X ->
  triple (at_calm strict P) (let! a := in_context context (query db_schema tables f) in k a) Q X.
Proof.
  intros Ht Hf HX Hk. eapply triple_bind.
  { eapply triple_weaken; [by apply triple_map_err, (calm_query strict P tables f) | done | | exact HX]. by intros. }
  intros a. eapply (triple_pure (a = v)); [intros c [[Hp ->] _]; by apply Hf |]. intros ->.
  eapply triple_weaken; [exact Hk | | done | done]. intros c [[Hp _] Hc]. by split.
Qed.

Section Migrations.
Context `{StorageCodec} (source : Z -> string).

Definition created (m : Migration) : list string := mg_objects m ++ map column_name (mg_columns m).
Definition schema_at (n : nat) : list string := concat (map created (take n (migrations source))).
Definition recorded_at (n : nat) : gmap Z string :=
  foldl (fun r m => <[mg_version m := migration_checksum (mg_source m)]> r) ∅ (take n (migrations source)).
(** the first [n] migrations are applied and recorded, the others neither *)
Definition migrated (n : nat) (d : Database) : Prop :=
  db_schema d = schema_at n /\ db_migrations d = recorded_at n.

Lemma nth_migration k m : migrations source !! k = Some m ->
  mg_version m = Z.of_nat k + 1 /\ mg_source m = source (Z.of_nat k + 1) /\ (k < 9)%nat.
Proof. do 9 (destruct k; [intros [= <-]; split_and!; [done | done | lia] |]). done. Qed.
Lemma ddl_runs k m d : migrations source !! k = Some m -> db_schema d = schema_at k ->
  run_ddl m d = Ok (set_schema (schema_at (S k)) d, tt).
Proof.
  intros Hm Hd. unfold run_ddl. rewrite Hd.
  do 9 (destruct k; [injection Hm as <-; vm_compute; reflexivity |]). done.
Qed.
Lemma schema_table n : (n <= 9)%nat -> contains_str (schema_at n) "schema_migrations" = (0 <? n)%nat.
Proof. intros Hn. do 10 (destruct n; [vm_compute; reflexivity |]). lia. Qed.
Lemma recorded_succ k m : migrations source !! k = Some m ->
  recorded_at (S k) = <[mg_version m := migration_checksum (mg_source m)]> (recorded_at k).
Proof. intros Hm. unfold recorded_at. by rewrite (take_S_r _ _ _ Hm), foldl_snoc. Qed.
Lemma recorded_lookup n v : (n <= 9)%nat ->
  recorded_at n !! v = if (1 <=? v) && (v <=? Z.of_nat n) then Some (migration_checksum (source v)) else None.
Proof.
  induction n as [|n IH]; intros Hn.
  - unfold recorded_at. simpl. rewrite lookup_empty. destruct (_ && _) eqn:E; [| done]. bools. lia.
  - assert (is_Some (migrations source !! n)) as [m Hm] by (apply lookup_lt_is_Some; simpl; lia).
    rewrite (recorded_succ _ _ Hm). destruct (nth_migration _ _ Hm) as (-> & -> & _).
    destruct (decide (v = Z.of_nat n + 1)) as [->|Hne].
    + rewrite lookup_insert_eq. replace (_ && _) with true; [done |]. symmetry. rewrite andb_true_iff, !Z.leb_le. lia.
    + rewrite lookup_insert_ne by done. rewrite IH by lia.
      assert ((1 <=? v) && (v <=? Z.of_nat (S n)) = (1 <=? v) && (v <=? Z.of_nat n)) as ->; [| done].
      apply eq_true_iff_eq. rewrite !andb_true_iff, !Z.leb_le. lia.
Qed.

Lemma ddl_calm strict k m : migrations source !! k = Some m ->
  triple (at_calm strict (migrated k)) (apply_ddl m) (fun _ => at_calm strict (migrated (S k)))
    (refused strict (migrated k)).
Proof.
  intros Hm. destruct (nth_migration _ _ Hm) as (Hv & _ & Hk). unfold apply_ddl. apply calm_transaction.
  eapply (triple_bind _ _ (fun _ => at_calm strict (fun d => db_schema d = schema_at (S k) /\ db_migrations d = recorded_at k))).
  - apply triple_map_err. eapply refused_any, calm_statement; [done |]. intros _ d [Hd Hr]. rewrite (ddl_runs _ _ _ Hm Hd). by eexists _, _.
  - intros []. apply triple_map_err. eapply refused_any, calm_statement.
    + intros d [Hd _]. simpl. rewrite Hd, schema_table by lia. done.
    + intros _ d [Hd Hr]. rewrite Hr, recorded_lookup, Hv by lia.
      replace (_ && _) with false; [| symmetry; rewrite andb_false_iff, !Z.leb_gt; lia].
      eexists _, _. split; [done |]. split; [done |]. simpl. by rewrite (recorded_succ _ _ Hm), Hv.
Qed.
Lemma migration_calm strict k n m : migrations source !! k = Some m -> (k <= n <= 9)%nat ->
  triple (at_calm strict (migrated n)) (apply_migration m (mg_version m =? 1))
    (fun _ => at_calm strict (migrated (n `max` S k))) (refused strict (migrated n)).
Proof.
  intros Hm Hn. destruct (nth_migration _ _ Hm) as (Hv & Hsrc & Hk). unfold apply_migration.
  eapply (calm_answer _ _ _ _ (0 <? n)%nat); [done | intros d [-> _]; apply schema_table, (proj2 Hn) | done |].
  destruct (0 <? n)%nat eqn:E0; [apply Nat.ltb_lt in E0 | apply Nat.ltb_ge in E0].
  - unfold stored_checksum.
    eapply (calm_answer _ _ _ _ (recorded_at n !! mg_version m)); [| by intros d [_ ->] | done |].
    { intros d [Hd _]. simpl. rewrite Hd, schema_table by lia. destruct n; [lia | done]. }
    rewrite recorded_lookup, Hv by lia. destruct (decide (k < n)%nat) as [Hlt|Hge].
    + replace (_ && _) with true by (symmetry; rewrite andb_true_iff, !Z.leb_le; lia). rewrite Hsrc.
      rewrite String.eqb_refl. apply triple_ret. intros c Hc. by replace (n `max` S k)%nat with n by lia.
    + replace (_ && _) with false by (symmetry; rewrite andb_false_iff, !Z.leb_gt; lia). assert (n = k) as -> by lia.
      replace (Z.of_nat k + 1 =? 1) with false by (symmetry; apply Z.eqb_neq; lia).
      apply (triple_bind _ _ (fun _ => at_calm strict (migrated k))); [by apply triple_ret |].
      intros _. replace (k `max` S k)%nat with (S k) by lia. by apply ddl_calm.
  - assert (n = 0%nat) as -> by lia. assert (k = 0%nat) as -> by lia. rewrite Hv. simpl Z.eqb.
    apply (triple_bind _ _ (fun _ => at_calm strict (migrated 0))); [by apply triple_ret |].
    intros _. by apply ddl_calm.
Qed.

(** the migrations from one on, on a database that has at least those before it *)
Lemma apply_all_calm strict k : forall n, (k <= n <= 9)%nat ->
  triple (at_calm strict (migrated n)) (apply_all (drop k (migrations source)))
    (fun _ => at_calm strict (migrated 9))
    (fun c => exists n', (n <= n' <= 9)%nat /\ refused strict (migrated n') c).
Proof.
  remember (9 - k)%nat as left eqn:El. revert k El. induction left as [|left IH]; intros k El n Hn.
  - assert (k = 9%nat) as -> by lia. assert (n = 9%nat) as -> by lia. by apply triple_ret.
  - assert (is_Some (migrations source !! k)) as [m Hm] by (apply lookup_lt_is_Some; simpl; lia).
    rewrite (drop_S _ _ _ Hm). simpl. eapply triple_bind.
    + eapply triple_weaken; [by apply (migration_calm strict k n) | done | by intros |].
      intros c Hc. exists n. split; [lia | exact Hc].
    + intros []. eapply triple_weaken; [apply (IH (S k) ltac:(lia) (n `max` S k)%nat); lia | done | done |].
      intros c (n' & Hn' & Hc). exists n'. split; [lia | done].
Qed.
Lemma open_calm strict n : (n <= 9)%nat ->
  triple (at_calm strict (migrated n)) (open_storage "wal" source)
    (fun _ => at_calm strict (migrated 9))
    (fun c => exists n', (n <= n' <= 9)%nat /\ refused strict (migrated n') c).
Proof.
  intros Hn. unfold open_storage, initialize_connection.
  assert (Hweak : forall c, refused strict (migrated n) c ->
    exists n', (n <= n' <= 9)%nat /\ refused strict (migrated n') c) by (intros c Hc; exists n; split; [lia | exact Hc]).
  eapply (triple_bind _ _ (fun _ => at_calm strict (migrated n))).
  - apply (triple_bind _ _ (fun mode c => mode = "wal"%string /\ at_calm strict (migrated n) c)).
    + apply triple_map_err. eapply triple_weaken; [| done | | exact Hweak].
      * apply (calm_statement strict (migrated n) (fun mode d => mode = "wal"%string /\ migrated n d)); [done |].
        intros _ d Hd. eexists _, _. split; [done |]. split; [done | exact Hd].
      * intros mode c [[-> Hd] Hc]. done.
    + intros mode. eapply (triple_pure (mode = "wal"%string)); [by intros c [-> _] |]. intros ->.
      apply (triple_bind _ _ (fun _ => at_calm strict (migrated n))); [apply triple_ret; intros c Hc; exact (proj2 Hc) |].
      intros []. apply triple_map_err.
      eapply triple_weaken; [apply (calm_statement strict (migrated n) (fun _ => migrated n)) | done | done | exact Hweak]; [done |].
      intros _ d Hd. eexists _, _. split; [done | exact Hd].
  - intros []. apply (apply_all_calm strict 0). lia.
Qed.
Lemma open_refused_mode granted c c' : eq_ignore_ascii_case granted "wal" = false ->
  open_storage granted source c <> (c', Ok tt).
Proof.
  intros Hg Ho. unfold open_storage, initialize_connection in Ho. inv_eff. unfold in_context in *. rewrite !map_err_ok in *.
  match goal with Hs : statement _ _ _ _ = (_, Ok ?x), Hn : negb (eq_ignore_ascii_case ?x _) = false |- _ =>
    apply statement_ok in Hs as [skip Hs]; apply ok_pair in Hs as [_ ->]; by rewrite Hg in Hn end.
Qed.

(** the settings of the connection are not the schema *)
Lemma initialize_migrated n granted c : migrated n (cn_data c) -> migrated n (cn_data (fst (initialize_connection granted c))).
Proof.
  assert (frames (on_data (fun d d' => migrated n d -> migrated n d')) (initialize_connection granted)) as Hf; [| apply Hf].
  assert (Reflexive (fun d d' => migrated n d -> migrated n d')) by (intros d Hd; exact Hd).
  assert (Transitive (fun d d' => migrated n d -> migrated n d')) by (intros d1 d2 d3 H1 H2 Hd; by apply H2, H1).
  unfold initialize_connection. keeps.
  - apply keeps_statement; [apply _ |]. by intros _ d d' answer [= <- _].
  - apply keeps_statement; [apply _ |]. by intros _ d d' answer [= <-].
Qed.

(** another text for a migration that is recorded *)
Section Changed.
Context (source' : Z -> string) (n : nat) (Hn : (n <= 9)%nat).

Lemma recorded_checked d k m : migrations source' !! k = Some m -> (k < n)%nat -> migrated n d ->
  triple (at_calm false (eq d)) (apply_migration m (mg_version m =? 1))
    (fun _ c => at_calm false (eq d) c /\
       migration_checksum (source (Z.of_nat k + 1)) = migration_checksum (source' (Z.of_nat k + 1)))
    (refused false (eq d)).
Proof.
  intros Hm Hk [Hd Hr]. assert (mg_version m = Z.of_nat k + 1 /\ mg_source m = source' (Z.of_nat k + 1)) as [Hv Hsrc].
  { clear -Hm. do 9 (destruct k; [by injection Hm as <- |]). done. }
  unfold apply_migration.
  eapply (calm_answer _ _ _ _ true); [done | intros ? <-; rewrite Hd, schema_table by lia; by apply Nat.ltb_lt; lia | done |].
  unfold stored_checksum.
  eapply (calm_answer _ _ _ _ (recorded_at n !! mg_version m)); [| by intros ? <-; rewrite Hr | done |].
  { intros ? <-. simpl. rewrite Hd, schema_table by lia. destruct n; [lia | done]. }
  rewrite recorded_lookup, Hv by lia. replace (_ && _) with true by (symmetry; rewrite andb_true_iff, !Z.leb_le; lia).
  rewrite Hsrc. apply triple_reject.
  - intros c Hc Heq. apply negb_false_iff, String.eqb_eq in Heq. done.
  - intros c [Hc _]. done.
Qed.
Lemma changed_refused d left : forall k, (left = 9 - k)%nat -> (k <= n)%nat -> migrated n d ->
  (exists v, (k < v <= n)%nat /\
     migration_checksum (source (Z.of_nat v)) <> migration_checksum (source' (Z.of_nat v))) ->
  triple (at_calm false (eq d)) (apply_all (drop k (migrations source'))) (fun _ _ => False) (refused false (eq d)).
Proof.
  induction left as [|left IH]; intros k El Hk Hd (v & Hv & Hne); [lia |].
  assert (is_Some (migrations source' !! k)) as [m Hm] by (apply lookup_lt_is_Some; simpl; lia).
  rewrite (drop_S _ _ _ Hm). simpl. eapply triple_bind; [by apply (recorded_checked d k m); [| lia |] |].
  intros []. apply (triple_pure (migration_checksum (source (Z.of_nat k + 1)) = migration_checksum (source' (Z.of_nat k + 1))));
    [by intros c [_ Heq] |]. intros Heq.
  eapply triple_weaken; [apply (IH (S k)); [lia | | done |] | by intros c [Hc _] | done | done]; [lia |].
  exists v. split; [| done]. destruct (decide (v = S k)) as [->|]; [| lia].
  exfalso. apply Hne. by rewrite Nat2Z.inj_succ, <- Z.add_1_r.
Qed.
End Changed.
End Migrations.
End Migrations.

(** ** What a batch of classified processes writes *)
Module Batch.
Import Facts Keeps Operations.

Lemma control_keeps context (c : Connection Database) :
  cn_data (fst (in_context context (prepare (fun _ : Database => []) []) c)) = cn_data c.
Proof.
  unfold in_context, eff_map_err, prepare, query, statement.
  destruct (next_choice _) as [choice rest]. by destruct (ch_refusal choice).
Qed.
(** a transaction commits what its body did, or leaves the database as it was *)
Lemma transaction_cases {A} begin_context commit_context (body : eff (Connection Database) A string) c c' r :
  transaction begin_context commit_context body c = (c', r) ->
  match r with
  | Err _ => cn_data c' = cn_data c
  | Ok a => exists c1 c2, cn_data c1 = cn_data c /\ body c1 = (c2, Ok a) /\ cn_data c' = cn_data c2
  end.
Proof.
  unfold transaction. pose proof (control_keeps begin_context c) as Hb.
  destruct (in_context begin_context _ c) as [c1 [[]|e]]; simpl in Hb; [| by intros [= <- <-]].
  unfold eff_bind. destruct (body c1) as [c2 [a|e]] eqn:Eb; [| by intros [= <- <-]].
  pose proof (control_keeps commit_context c2) as Hc.
  destruct (in_context commit_context _ c2) as [c3 [[]|e]]; simpl in Hc; [| by intros [= <- <-]].
  intros [= <- <-]. by exists c1, c2.
Qed.
Lemma query_ok {A} tables (f : Database -> A) c c' a :
  query db_schema tables f c = (c', Ok a) -> cn_data c' = cn_data c /\ a = f (cn_data c).
Proof. intros (skip & [-> ->]%ok_pair)%statement_ok. done. Qed.
Lemma insert_ok t row c c' id : insert t row c = (c', Ok id) ->
  cn_data c' = set_table t (MkTable (tb_rows (db_table (cn_data c) t) ++ [(id, row)]) id) (cn_data c).
Proof.
  intros (skip & (table & (_ & Hrows & Hseq)%insert_row_ok & -> & _)%insert_into_ok)%statement_ok.
  destruct table. simpl in *. by subst.
Qed.

(** an entry of the catalog keeps its key and loses no flag, name or category *)
Definition entry_grows (e e' : CatalogRow) : Prop :=
  ca_executable e' = ca_executable e /\ ca_command_signature e' = ca_command_signature e /\
  (ca_is_game e = true -> ca_is_game e' = true) /\ (ca_is_critical e = true -> ca_is_critical e' = true) /\
  (ca_category e <> "unknown"%string -> ca_category e' <> "unknown"%string) /\
  (is_some (ca_application_name e) = true -> is_some (ca_application_name e') = true).
Definition catalog_grows (d d' : Database) : Prop :=
  forall id e, (id, e) ∈ tb_rows (db_table d ProcessCatalog) ->
  exists e', (id, e') ∈ tb_rows (db_table d' ProcessCatalog) /\ entry_grows e e'.
#[export] Instance entry_grows_refl : Reflexive entry_grows.
Proof. by intros e. Qed.
#[export] Instance entry_grows_trans : Transitive entry_grows.
Proof. intros e1 e2 e3 (?&?&?&?&?&?) (?&?&?&?&?&?). split_and!; try congruence; auto. Qed.
#[export] Instance catalog_grows_refl : Reflexive catalog_grows.
Proof. intros d id e He. by exists e. Qed.
#[export] Instance catalog_grows_trans : Transitive catalog_grows.
Proof.
  intros d1 d2 d3 H12 H23 id e He. destruct (H12 id e He) as (e2 & He2 & G12).
  destruct (H23 id e2 He2) as (e3 & He3 & G23). exists e3. split; [done |]. by etransitivity.
Qed.

(** the row that stores a classified process, and the entry of the catalog it refers to *)
Definition stored_as (session : Z) (d : Database) (process : ProcessClassification) (row : Z * ProcessRow) : Prop :=
  let sample := pc_sample process in
  process_row session (pr_catalog_id (snd row)) sample
    (bool_decide (pc_foreground process = FgForeground)) (Some (show_foreground (pc_foreground process)))
    = Ok (snd row) /\
  exists id e, pr_catalog_id (snd row) = Some id /\ (id, e) ∈ tb_rows (db_table d ProcessCatalog) /\
    ca_executable e = pc_executable process /\ ca_command_signature e = pc_command_signature process /\
    (pc_is_game process = true -> ca_is_game e = true) /\
    (pc_is_critical process = true -> ca_is_critical e = true).
Lemma stored_grows session d d' process row : catalog_grows d d' ->
  stored_as session d process row -> stored_as session d' process row.
Proof.
  intros Hg (Hr & id & e & Hid & He & Hx & Hs & Hga & Hcr). split; [done |].
  destruct (Hg id e He) as (e' & He' & Gx & Gs & Gg & Gc & _). exists id, e'.
  split_and!; try done; try congruence; auto.
Qed.
(** the tables that a batch does not write *)
Definition only_samples (d d' : Database) : Prop :=
  db_groups d' = db_groups d /\
  forall t, t <> ProcessCatalog -> t <> ProcessSamples -> db_table d' t = db_table d t.
#[export] Instance only_samples_refl : Reflexive only_samples.
Proof. by intros d. Qed.
#[export] Instance only_samples_trans : Transitive only_samples.
Proof.
  intros d1 d2 d3 [G1 T1] [G2 T2]. split; [congruence |]. intros t Hc Hs. rewrite T2, T1; done.
Qed.

Section Batch.
Context `{StorageCodec}.

Lemma merge_grows excluded existing : entry_grows existing (merge_catalog excluded existing).
Proof.
  unfold entry_grows, merge_catalog. simpl. split_and!; try done.
  - by intros ->.
  - by intros ->.
  - intros Hne. destruct (String.eqb (ca_category excluded) "unknown") eqn:E; [done |]. by apply String.eqb_neq in E.
  - by destruct (ca_application_name excluded).
Qed.
Lemma catalog_key_true executable signature r : catalog_key executable signature r = true <->
  ca_executable (snd r) = executable /\ ca_command_signature (snd r) = signature.
Proof. unfold catalog_key. by rewrite andb_true_iff, !String.eqb_eq. Qed.
Lemma upsert_catalog_ok process c c' : upsert_catalog process c = (c', Ok tt) ->
  catalog_grows (cn_data c) (cn_data c') /\ only_samples (cn_data c) (cn_data c') /\
  db_table (cn_data c') ProcessSamples = db_table (cn_data c) ProcessSamples /\
  (forall id e, (id, e) ∈ tb_rows (db_table (cn_data c') ProcessCatalog) ->
     catalog_key (pc_executable process) (pc_command_signature process) (id, e) = true ->
     (pc_is_game process = true -> ca_is_game e = true) /\
     (pc_is_critical process = true -> ca_is_critical e = true)).
Proof.
  intros (skip & Hf)%statement_ok. cbv zeta in Hf. generalize dependent (cn_data c'). generalize (cn_data c).
  clear c c'. intros d d' Hf.
  destruct (find_row (catalog_key (pc_executable process) (pc_command_signature process)) (db_table d ProcessCatalog))
    as [found|] eqn:Ef.
  - apply ok_pair in Hf as [-> _]. split_and!.
    + intros id e He. rewrite table_same. simpl.
      destruct (catalog_key (pc_executable process) (pc_command_signature process) (id, e)) eqn:Ek.
      * exists (merge_catalog (catalog_row process) e). split; [| apply merge_grows].
        apply list_elem_of_fmap. exists (id, e). by rewrite Ek.
      * exists e. split; [| done]. apply list_elem_of_fmap. exists (id, e). by rewrite Ek.
    + split; [done |]. intros t Ht _. by rewrite table_other.
    + by rewrite table_other.
    + intros id e. rewrite table_same. simpl. intros ([id' e'] & He & Hin)%list_elem_of_fmap Hkey.
      destruct (catalog_key _ _ (id', e')) eqn:Ek; simplify_eq/=; [| congruence].
      split; intros ->; apply orb_true_r.
  - destruct (insert_into _ _ _ _) as [[d1 id1]|] eqn:Ei; [| done]. apply ok_pair in Hf as [-> _].
    apply insert_into_ok in Ei as (table & (_ & Hrows & _)%insert_row_ok & -> & _). split_and!.
    + intros id e He. exists e. split; [| done]. simpl fst. rewrite table_same, Hrows. set_solver.
    + split; [done |]. intros t Ht _. by apply table_other.
    + by apply table_other.
    + intros id e. simpl fst. rewrite table_same, Hrows. intros [Hin | [= -> ->]%list_elem_of_singleton]%elem_of_app Hkey;
        [| done]. by rewrite (find_first_false _ _ Ef _ Hin) in Hkey.
Qed.
Lemma insert_classified_ok session process c c' : insert_classified session process c = (c', Ok tt) ->
  catalog_grows (cn_data c) (cn_data c') /\ only_samples (cn_data c) (cn_data c') /\
  exists row, tb_rows (db_table (cn_data c') ProcessSamples) = tb_rows (db_table (cn_data c) ProcessSamples) ++ [row] /\
    stored_as session (cn_data c') process row.
Proof.
  unfold insert_classified. intros Hi. inv_eff. unfold in_context in *. rewrite !map_err_ok in *.
  destruct a. rename a0 into catalog_id, a1 into stored, a2 into new_id, s2 into c2.
  apply upsert_catalog_ok in E as (Hg & Ho & Hp & Hflags). apply insert_ok in E2.
  apply statement_ok in E0 as (skip & Hq).
  destruct (find_row (catalog_key (pc_executable process) (pc_command_signature process)) _) as [[found e]|] eqn:Ef; [| done].
  apply ok_pair in Hq as [Hd ->]. apply find_first_some in Ef as [Hin Hkey]. simpl fst in *. rewrite Hd in *.
  assert (Htables : forall t, t <> ProcessSamples -> db_table (cn_data c2) t = db_table (cn_data s) t).
  { intros t Ht. rewrite E2. by apply table_other. }
  assert (Hsame : catalog_grows (cn_data s) (cn_data c2)).
  { intros id x Hx. exists x. by rewrite Htables. }
  split; [by etransitivity |]. split.
  { etransitivity; [exact Ho |]. split; [by rewrite E2 |]. intros t _ Ht. by apply Htables. }
  exists (new_id, stored). split; [by rewrite E2, table_same, Hp |].
  assert (Hcat : pr_catalog_id stored = Some found).
  { unfold process_row in E1. inv_ok. done. }
  unfold stored_as. simpl snd. rewrite Hcat. split; [done |]. exists found, e.
  destruct (Hflags found e Hin Hkey). apply catalog_key_true in Hkey as [? ?]. rewrite Htables by done. by split_and!.
Qed.
Lemma insert_all_ok session processes : forall c c', insert_all_classified session processes c = (c', Ok tt) ->
  catalog_grows (cn_data c) (cn_data c') /\ only_samples (cn_data c) (cn_data c') /\
  exists rows, tb_rows (db_table (cn_data c') ProcessSamples) = tb_rows (db_table (cn_data c) ProcessSamples) ++ rows /\
    Forall2 (stored_as session (cn_data c')) processes rows.
Proof.
  induction processes as [|process processes IH]; cbn [insert_all_classified]; intros c c' Hi; inv_eff.
  - split; [done |]. split; [done |]. exists []. by rewrite app_nil_r.
  - destruct a. apply insert_classified_ok in E as (G1 & O1 & row & R1 & S1).
    apply IH in Hi as (G2 & O2 & rows & R2 & S2).
    split; [by etransitivity |]. split; [by etransitivity |]. exists (row :: rows).
    rewrite R2, R1, <- app_assoc. split; [done |]. constructor; [by eapply stored_grows | done].
Qed.

(** a transition is stored unless it repeats the class stored last for the session *)
Definition event_of (session : Z) (transition : WorkloadTransition) (row : EventRow) : Prop :=
  ev_session_id row = session /\ ev_timestamp_ns row = wt_timestamp_ns transition /\
  ev_previous_class row = show_class <$> wt_previous_class transition /\
  ev_new_class row = show_class (wt_new_class transition) /\ ev_confidence row = wt_confidence transition /\
  explanation_to_json (wt_explanation transition) = Ok (ev_reason_json row).
Lemma insert_transition_ok session transition c c' : insert_transition session transition c = (c', Ok tt) ->
  let events := db_table (cn_data c) WorkloadEvents in
  let last := (fun r => ev_new_class (snd r)) <$> latest_event session events in
  db_groups (cn_data c') = db_groups (cn_data c) /\
  (forall t, t <> WorkloadEvents -> db_table (cn_data c') t = db_table (cn_data c) t) /\
  if bool_decide (last = Some (show_class (wt_new_class transition)))
  then db_table (cn_data c') WorkloadEvents = events
  else exists id row, tb_rows (db_table (cn_data c') WorkloadEvents) = tb_rows events ++ [(id, row)] /\
         event_of session transition row.
Proof.
  unfold insert_transition. intros Hi. apply eff_bind_ok in Hi as (s & last & E & Hi).
  unfold in_context in *. rewrite map_err_ok in E. apply query_ok in E as [Hs ->]. cbv zeta.
  destruct (bool_decide _) eqn:Eb.
  - inv_eff. by rewrite Hs.
  - inv_eff. rewrite !map_err_ok in *. injection E as <- Ejson. rewrite <- Hs.
    apply statement_ok in E0 as (skip & Hi). unfold real in Hi. destruct (f64_is_nan _); [done |].
    apply insert_into_ok in Hi as (table & (_ & Hrows & _)%insert_row_ok & -> & _).
    split; [done |]. split; [intros t Ht; by apply table_other |].
    eexists _, _. rewrite table_same. by split.
Qed.
End Batch.
End Batch.

(** ** The store of cgroup mutations as a journal *)
Module Journal.
Import Facts Keeps Operations Batch.

(** rows whose ids ascend *)
Definition ascending {R} (l : list (Z * R)) : Prop := StronglySorted Z.lt (map fst l).
Lemma sorted_nodup l : StronglySorted Z.lt l -> NoDup l.
Proof.
  induction 1 as [| x l _ IH Hall]; constructor; [| done]. rewrite list.Forall_forall in Hall.
  intros Hin%Hall. lia.
Qed.
Lemma ascending_unique {R} (l : list (Z * R)) id r r' : ascending l -> (id, r) ∈ l -> (id, r') ∈ l -> r = r'.
Proof.
  intros Hs%sorted_nodup H1 H2. assert (Some r = Some r') as [= <-]; [| done].
  by rewrite <- (elem_of_list_to_map_1 (M := gmap Z) l id r), <- (elem_of_list_to_map_1 (M := gmap Z) l id r').
Qed.
(** sorting by the ids *)
Lemma sort_ascending {R} (l l' : list (Z * R)) : ascending l -> l' ≡ₚ l ->
  sort_by (fun a b => fst a <=? fst b) l' = l.
Proof.
  intros Hs Hp. apply (sorting.StronglySorted_unique_strong (fun a b => (fst a <=? fst b) = true)).
  - intros [i r] [i' r'] Hx Hy H1 H2. rewrite elem_of_sort_by, Hp in Hx. simpl in *. bools.
    assert (i = i') as <- by lia. f_equal. by eapply ascending_unique.
  - apply sort_by_strongly_sorted; intros; rewrite ?Z.leb_le, ?Z.leb_gt in *; lia.
  - clear -Hs. unfold ascending in Hs. induction l as [|x l IH]; [constructor |]. inversion Hs as [| ? ? Hs' Hall]; subst.
    constructor; [by apply IH |]. apply (Forall_ids (Z.lt (fst x))) in Hall.
    eapply Forall_impl, Hall. intros y Hy. apply Z.leb_le. simpl in Hy. lia.
  - by rewrite sort_by_perm.
Qed.
Lemma ascending_filter {R} (p : Z * R -> bool) l : ascending l -> ascending (filter (fun x => p x = true) l).
Proof. apply sorted_filter. Qed.

Section Journal.
Context `{StorageCodec}.

(** the snapshots that the rows of the table stand for *)
Definition decoded (row : Z * CgroupRow) : option (Z * MutationSnapshot) :=
  match snapshot_of_row row with Ok s => Some (fst row, s) | Err _ => None end.
Definition entries (d : Database) : list (Z * MutationSnapshot) := omap decoded (tb_rows (db_table d CgroupSnapshots)).
Definition journal (d : Database) : gmap Z MutationSnapshot := list_to_map (entries d).
Definition cgroup_ids (d : Database) : Prop := ids_sound (db_table d CgroupSnapshots).

Lemma decoded_id row id s : decoded row = Some (id, s) -> id = fst row.
Proof. unfold decoded. destruct (snapshot_of_row row); [by intros [= <- _] | done]. Qed.
Lemma ascending_entries rows : ascending rows -> ascending (omap decoded rows).
Proof.
  unfold ascending. induction rows as [|row rows IH]; simpl; [done |]. intros Hs. inversion Hs as [| ? ? Hs' Hall]; subst.
  destruct (decoded row) as [[id s]|] eqn:E; [| by apply IH]. apply decoded_id in E as ->. simpl. constructor; [by apply IH |].
  rewrite list.Forall_forall in *. intros id' ([id2 s2] & -> & Hin)%list_elem_of_fmap.
  apply list_elem_of_omap in Hin as (row2 & Hin & ->%decoded_id). apply Hall, list_elem_of_fmap. by exists row2.
Qed.
Lemma journal_lookup d id s : cgroup_ids d ->
  (journal d !! id = Some s <->
   exists row, (id, row) ∈ tb_rows (db_table d CgroupSnapshots) /\ snapshot_of_row (id, row) = Ok s).
Proof.
  intros (Hs & _ & _). unfold journal.
  rewrite <- elem_of_list_to_map by (by apply sorted_nodup, ascending_entries).
  unfold entries. rewrite list_elem_of_omap. unfold decoded. split.
  - intros ([id' row] & Hin & Hd). destruct (snapshot_of_row _) eqn:E; [| done]. injection Hd as <- <-. by exists row.
  - intros (row & Hin & Hd). exists (id, row). by rewrite Hd.
Qed.

(** [pending] *)
Lemma map_ok_decoded rows l : map_ok snapshot_of_row rows = Ok l -> map snd (omap decoded rows) = l.
Proof.
  revert l. induction rows as [|row rows IH]; simpl; intros l Hm; [by injection Hm as <- |]. unfold decoded.
  destruct (snapshot_of_row row) as [s|]; [| done]. destruct (map_ok _ rows) as [l'|]; [| done].
  injection Hm as <-. simpl. f_equal. by apply IH.
Qed.
Lemma pending_entries rows :
  map snd (omap decoded (filter (fun row => is_pending (snd row) = true) rows)) =
  filter (fun s => ms_applied s && negb (ms_rolled_back s) = true) (map snd (omap decoded rows)).
Proof.
  induction rows as [|row rows IH]; [done |].
  assert (Hflags : forall id s, decoded row = Some (id, s) -> ms_applied s && negb (ms_rolled_back s) = is_pending (snd row)).
  { unfold decoded. intros id s Hs. destruct (snapshot_of_row row) as [s'|] eqn:E; [| done]. injection Hs as _ <-.
    unfold snapshot_of_row in E. inv_ok. done. }
  rewrite filter_cons. cbn [omap list_omap]. destruct (decoded row) as [[id s]|] eqn:E.
  - specialize (Hflags id s eq_refl). cbn [map snd]. rewrite filter_cons, Hflags.
    destruct (decide (is_pending (snd row) = true)); [| exact IH].
    cbn [omap list_omap]. rewrite E. cbn [map snd]. by rewrite IH.
  - destruct (decide _); [| exact IH]. cbn [omap list_omap]. by rewrite E.
Qed.
Lemma pending_journal c l next groups : cgroup_ids (cn_data c) -> storage_pending c = Ok l ->
  Memory.mem_pending {| Memory.next_id := next; Memory.snapshots := journal (cn_data c);
                        Memory.managed_groups := groups |} = Ok l.
Proof.
  intros (Hs & _ & _) Hp. unfold storage_pending in Hp.
  destruct (persistence _ c) as [c' r] eqn:E. simpl in Hp. subst r. apply map_err_ok in E. inv_eff.
  unfold prepare, select in *.
  repeat match goal with Hq : query _ _ _ _ = (_, Ok _) |- _ => apply query_ok in Hq as [? ->] end.
  unfold lift in *. inv_eff. subst.
  repeat match goal with Hd : cn_data _ = cn_data _ |- _ => rewrite Hd in *; clear Hd end.
  unfold Memory.mem_pending. f_equal. simpl. unfold Memory.values, journal.
  rewrite (sort_ascending (entries (cn_data c))); [| by apply ascending_entries |].
  - unfold entries. rewrite <- pending_entries. apply map_ok_decoded.
    unfold by_id in E. erewrite (sort_ascending _ (rows_where _ _)) in E; [exact E | by apply ascending_filter | done].
  - apply map_to_list_to_map, sorted_nodup, ascending_entries, Hs.
Qed.

(** [update] *)
Definition same_outcome (snapshot : MutationSnapshot) : MutationSnapshot -> MutationSnapshot :=
  set_flags (ms_applied snapshot) (ms_verified snapshot) (ms_rolled_back snapshot) (ms_last_error snapshot).
Lemma outcome_decoded snapshot id row s : snapshot_of_row (id, set_outcome snapshot row) = Ok s <->
  exists s0, snapshot_of_row (id, row) = Ok s0 /\ s = same_outcome snapshot s0.
Proof.
  unfold snapshot_of_row. simpl. destruct (properties_from_json _) as [p|]; [| naive_solver].
  destruct (properties_from_json _) as [q|]; [| naive_solver]. split.
  - intros [= <-]. by eexists.
  - by intros (s0 & [= <-] & ->).
Qed.
Lemma update_journal snapshot c c' : cgroup_ids (cn_data c) -> storage_update snapshot c = (c', Ok tt) ->
  journal (cn_data c') = alter (same_outcome snapshot) (ms_id snapshot) (journal (cn_data c)).
Proof.
  intros Hids Hu. unfold storage_update, persistence in Hu. inv_eff. apply map_err_ok in Hu.
  apply statement_ok in Hu as (skip & [Hd _]%ok_pair).
  assert (Hids' : cgroup_ids (cn_data c')).
  { rewrite Hd. unfold cgroup_ids. rewrite table_same. by apply update_ids_sound. }
  apply map_eq. intros id. apply option_eq. intros s. rewrite journal_lookup by done.
  rewrite Hd, table_same, lookup_alter. simpl. setoid_rewrite list_elem_of_fmap.
  destruct (decide (ms_id snapshot = id)) as [<-|Hne].
  - rewrite fmap_Some. setoid_rewrite journal_lookup; [| done]. split.
    + intros (row & ([id0 row0] & Heq & Hin) & Hs). simpl in Heq. destruct (id0 =? ms_id snapshot) eqn:E.
      * injection Heq as <- ->. apply outcome_decoded in Hs as (s0 & Hs0 & ->). exists s0. split; [by exists row0 | done].
      * injection Heq as <- <-. by rewrite Z.eqb_refl in E.
    + intros (s0 & (row & Hin & Hs0) & ->). exists (set_outcome snapshot row). split; [| apply outcome_decoded; by exists s0].
      exists (ms_id snapshot, row). by rewrite Z.eqb_refl.
  - rewrite journal_lookup by done. split.
    + intros (row & ([id0 row0] & Heq & Hin) & Hs). simpl in Heq.
      destruct (id0 =? ms_id snapshot) eqn:E; injection Heq as <- ->; [by apply Z.eqb_eq in E |]. by exists row0.
    + intros (row & Hin & Hs). exists row. split; [| done]. exists (id, row). simpl.
      destruct (id =? ms_id snapshot) eqn:E; [by apply Z.eqb_eq in E |]. done.
Qed.

(** [persist] *)
Lemma persist_journal snapshot c c' id : cgroup_ids (cn_data c) ->
  (forall p text, properties_to_json p = Ok text -> properties_from_json text = Ok p) ->
  storage_persist snapshot c = (c', Ok id) ->
  (forall id', is_Some (journal (cn_data c) !! id') -> id' < id) /\
  journal (cn_data c') = <[id := set_id id snapshot]> (journal (cn_data c)).
Proof.
  intros Hids Hround Hp. unfold storage_persist, persistence, lift in Hp. inv_eff. rewrite !map_err_ok in *. inv_eff.
  apply statement_ok in Hp as (skip & (table & Hrow & Hd & _)%insert_into_ok).
  pose proof (insert_row_ok _ _ _ _ _ Hrow) as (Hid & Hrows & _).
  assert (Hids' : cgroup_ids (cn_data c')).
  { rewrite Hd. unfold cgroup_ids. rewrite table_same. by eapply insert_ids_sound. }
  assert (Hnew : forall id', is_Some (journal (cn_data c) !! id') -> id' < id).
  { intros id' [s Hs]. apply journal_lookup in Hs as (row & Hin & _); [| done]. destruct Hids as (_ & Hb & _).
    rewrite list.Forall_forall in Hb. eapply Z.le_lt_trans; [apply (Hb _ Hin) | apply Hid]. }
  split; [done |]. apply map_eq. intros id'. apply option_eq. intros s.
  rewrite journal_lookup by done. rewrite Hd, table_same, Hrows, lookup_insert.
  setoid_rewrite elem_of_app. setoid_rewrite list_elem_of_singleton.
  match goal with Hrow : insert_row _ ?row _ = _ |- _ =>
    assert (Hs : snapshot_of_row (id, row) = Ok (set_id id snapshot)) end.
  { unfold snapshot_of_row. simpl. 
    repeat match goal with Hj : properties_to_json _ = Ok _ |- _ => apply Hround in Hj; rewrite Hj end. done. }
  destruct (decide (id = id')) as [<-|Hne].
  - split.
    + intros (row & [Hin | Heq] & Hr).
      * exfalso. assert (id < id); [| lia]. apply Hnew. exists s. apply journal_lookup; [done |]. by exists row.
      * injection Heq as ->. congruence.
    + intros [= <-]. eexists. split; [by right | exact Hs].
  - rewrite journal_lookup by done. split.
    + intros (row & [Hin | Heq] & Hr); [by exists row | by injection Heq as -> _].
    + intros (row & Hin & Hr). exists row. split; [by left | done].
Qed.

(** a call that fails *)
Lemma insert_refused {t row c c' e} : insert t row c = (c', Err e) -> cn_data c' = cn_data c.
Proof. apply statement_err. Qed.
Lemma map_err_err {S A E F} (f : E -> F) (m : eff S A E) s s' e :
  eff_map_err f m s = (s', Err e) -> exists e0, m s = (s', Err e0).
Proof. unfold eff_map_err. destruct (m s) as [s1 [x|e0]]; naive_solver. Qed.
Lemma persist_refused snapshot c c' e : storage_persist snapshot c = (c', Err e) -> cn_data c' = cn_data c.
Proof.
  unfold storage_persist, persistence, lift, eff_bind, eff_map_err, eff_read, eff_reject, eff_ret.
  destruct (properties_to_json _); [| by intros [= <- _]]. destruct (properties_to_json _); [| by intros [= <- _]].
  destruct (i64_max <? _); [by intros [= <- _] |]. match goal with |- context [insert CgroupSnapshots ?row c] =>
    destruct (insert CgroupSnapshots row c) as [c1 [id|e1]] eqn:E end; [done |].
  intros [= <- _]. by eapply insert_refused.
Qed.
Lemma update_accepted snapshot c : ms_id snapshot <= i64_max ->
  contains_str (db_schema (cn_data c)) (table_name CgroupSnapshots) = true ->
  ch_refusal (fst (next_choice (cn_choices c))) = None ->
  exists c', storage_update snapshot c = (c', Ok tt).
Proof.
  intros Hid Hthere Hgrants. unfold storage_update, persistence, eff_bind, eff_map_err, eff_reject, eff_ret.
  rewrite (proj2 (Z.ltb_ge _ _) Hid). unfold on_table, statement.
  destruct (next_choice _) as [choice rest]. simpl in Hgrants. rewrite Hgrants. cbn [find_first].
  rewrite Hthere. by eexists.
Qed.
Lemma update_refused snapshot c c' e : storage_update snapshot c = (c', Err e) -> cn_data c' = cn_data c.
Proof.
  unfold storage_update, persistence, eff_bind, eff_map_err, eff_reject, eff_ret.
  destruct (i64_max <? _); [by intros [= <- _] |]. unfold on_table.
  destruct (statement _ _ _ c) as [c1 [id|e1]] eqn:E; [done |]. intros [= <- _]. by eapply statement_err.
Qed.
End Journal.
End Journal.

(** ** The history of the policy decisions *)
Module History.
Import Facts Keeps Operations Batch Journal.

(** the row that is newer than every row *)
Lemma newest {R} (key : R -> Z) (l : list (Z * R)) x : ascending l -> x ∈ l ->
  (forall y, y ∈ l -> newer key x y = true) -> head (newest_first key l) = Some x.
Proof.
  intros Hs Hx Hnew. unfold newest_first.
  pose proof (elem_of_sort_by (newer key) x l) as Hin. pose proof (sort_by_perm (newer key) l) as Hp.
  assert (Hsorted : StronglySorted (fun a b => newer key a b = true) (sort_by (newer key) l)).
  { apply sort_by_strongly_sorted; unfold newer.
    - intros a b. rewrite orb_false_iff, orb_true_iff, andb_true_iff, andb_false_iff, !Z.ltb_lt, !Z.ltb_ge, !Z.leb_le, !Z.leb_gt, !Z.eqb_eq, !Z.eqb_neq. lia.
    - intros a b d. rewrite !orb_true_iff, !andb_true_iff, !Z.ltb_lt, !Z.leb_le, !Z.eqb_eq. lia. }
  destruct (sort_by (newer key) l) as [|y l'] eqn:E; [by apply Hin, elem_of_nil in Hx |]. simpl. f_equal.
  apply Hin, elem_of_cons in Hx as [-> | Hx']; [done |].
  inversion Hsorted as [| ? ? _ Hall]; subst. rewrite list.Forall_forall in Hall. specialize (Hall x Hx').
  assert (Hy : y ∈ l) by (rewrite <- Hp; by left). assert (Hxl : x ∈ l) by (rewrite <- Hp; by right).
  specialize (Hnew y Hy). unfold newer in *. rewrite orb_true_iff, andb_true_iff, Z.ltb_lt, Z.leb_le, Z.eqb_eq in *.
  destruct x as [i r], y as [i' r']. simpl in *. assert (i = i') as <- by lia. f_equal. by eapply ascending_unique.
Qed.

Lemma take_one {A} (l : list A) x : head l = Some x -> take 1 l = [x].
Proof. destruct l; [done |]. by intros [= ->]. Qed.
Lemma parse_state_text state : parse_pressure_state (state_text state) = Ok state.
Proof. by destruct state. Qed.

Section History.
Context `{StorageCodec}.
Definition decision_row (session : Z) (decision : PolicyDecision) (features actions : string) : DecisionRow :=
  {| de_session_id := session; de_timestamp_ns := pd_timestamp_ns decision;
     de_pressure_state := state_text (pd_current_state decision); de_policy_name := pd_policy_name decision;
     de_input_features_json := features; de_actions_json := actions;
     de_expected_gain_bytes := None; de_expected_cost_score := None; de_model_version := None;
     de_rule_version := Some (pd_rule_version decision) |}.
(** what the command line shows of it *)
Definition shown (id session : Z) (decision : PolicyDecision) : LatestPolicyDecision :=
  {| lp_id := id; lp_session_id := session; lp_timestamp_ns := pd_timestamp_ns decision;
     lp_pressure_state := pd_current_state decision; lp_policy_name := pd_policy_name decision;
     lp_input_features := pd_input_features decision; lp_audit := audit_of decision;
     lp_expected_gain_bytes := None; lp_expected_cost_score := None; lp_model_version := None;
     lp_rule_version := pd_rule_version decision |}.
(** the decision that makes a new one redundant *)
Definition repeats (session : Z) (decision : PolicyDecision) (heartbeat_seconds : Z) (d : Database) : Prop :=
  exists row audit, latest_of_session session (db_table d PolicyDecisions) = Some row /\
    de_pressure_state (snd row) = state_text (pd_current_state decision) /\
    audit_from_json (de_actions_json (snd row)) = Ok audit /\
    au_planned_actions audit = pd_planned_actions decision /\
    au_rejected_actions audit = pd_rejected_actions decision /\
    i64_sat_sub (pd_timestamp_ns decision) (de_timestamp_ns (snd row)) < heartbeat_seconds * 1000000000.

Lemma decision_cases session decision heartbeat c c' r : insert_policy_decision session decision heartbeat c = (c', r) ->
  match r with
  | Err _ => cn_data c' = cn_data c
  | Ok false => cn_data c' = cn_data c /\ repeats session decision heartbeat (cn_data c)
  | Ok true => exists c1 id features actions, cn_data c1 = cn_data c /\
      features_to_json (pd_input_features decision) = Ok features /\ audit_to_json (audit_of decision) = Ok actions /\
      insert PolicyDecisions (decision_row session decision features actions) c1 = (c', Ok id)
  end.
Proof.
  unfold insert_policy_decision, in_context, eff_bind, eff_map_err, eff_read, eff_ret, select.
  destruct (features_to_json _) as [features|]; [| by intros [= <- <-]].
  destruct (audit_to_json _) as [actions|]; [| by intros [= <- <-]].
  destruct (query _ _ _ c) as [c1 [previous|e]] eqn:Eq; [| apply statement_err in Eq; by intros [= <- <-]].
  apply query_ok in Eq as [Hd ->]. cbv zeta.
  assert (Hinsert : forall c2 r2, (let (s', r0) := insert PolicyDecisions (decision_row session decision features actions) c1 in
      match r0 with Ok _ => (s', Ok true) | Err e => (s', Err e) end) = (c2, r2) ->
    match r2 with
    | Err _ => cn_data c2 = cn_data c
    | Ok false => False
    | Ok true => exists c1 id f a, cn_data c1 = cn_data c /\ Ok features = @Ok _ string f /\ Ok actions = @Ok _ string a /\
        insert PolicyDecisions (decision_row session decision f a) c1 = (c2, Ok id)
    end).
  { intros c2 r2. destruct (insert PolicyDecisions _ c1) as [c3 [id|e]] eqn:Ei.
    - intros [= <- <-]. by exists c1, id, features, actions.
    - intros [= <- <-]. apply insert_refused in Ei. congruence. }
  destruct (latest_of_session session _) as [[id row]|] eqn:El.
  - destruct (audit_from_json _) as [old|] eqn:Ea; [| by intros [= <- <-]].
    destruct (_ && _) eqn:Edup.
    + intros [= <- <-]. split; [done |]. unfold same_plan in Edup.
      rewrite !andb_true_iff, !bool_decide_eq_true, String.eqb_eq, Z.ltb_lt in Edup.
      destruct Edup as [[Hstate [Hplan Hrej]] Hage]. unfold heartbeat_ns_of in Hage. exists (id, row), old.
      split_and!; try done. simpl. lia.
    + intros Hi. apply Hinsert in Hi. by destruct r as [[]|].
  - intros Hi. apply Hinsert in Hi. by destruct r as [[]|].
Qed.

Lemma round_trip path session decision c1 c' id features actions :
  (forall input text, features_to_json input = Ok text -> features_from_json text = Ok input) ->
  (forall audit text, audit_to_json audit = Ok text -> audit_from_json text = Ok audit) ->
  ids_sound (db_table (cn_data c1) PolicyDecisions) ->
  (forall row, row ∈ tb_rows (db_table (cn_data c1) PolicyDecisions) -> de_timestamp_ns (snd row) <= pd_timestamp_ns decision) ->
  features_to_json (pd_input_features decision) = Ok features -> audit_to_json (audit_of decision) = Ok actions ->
  insert PolicyDecisions (decision_row session decision features actions) c1 = (c', Ok id) ->
  latest_policy_decision path (Ok (MkConnection (cn_data c') [])) = Ok (shown id session decision).
Proof.
  intros Hf Ha Hids Hclock Ef Ea Hi. pose proof Hi as Hschema.
  apply statement_ok in Hi as (skip & (table & Hrow & Hd & _)%insert_into_ok).
  pose proof (insert_ids_sound _ _ _ _ _ Hrow Hids) as (Hs & _).
  pose proof (insert_row_ok _ _ _ _ _ Hrow) as (Hid & Hrows & _).
  assert (Hnewest : head (newest_first de_timestamp_ns (tb_rows table)) = Some (id, decision_row session decision features actions)).
  { apply newest; [exact Hs | rewrite Hrows; set_solver |]. intros y. rewrite Hrows.
    intros [Hy | ->%list_elem_of_singleton]%elem_of_app; unfold newer;
      rewrite orb_true_iff, andb_true_iff, Z.ltb_lt, Z.eqb_eq, Z.leb_le; simpl; [| lia].
    specialize (Hclock y Hy). destruct Hids as (_ & Hb & _). rewrite list.Forall_forall in Hb. specialize (Hb y Hy).
    cbn [Row] in *. lia. }
  assert (Hshown : decision_of_row (id, decision_row session decision features actions) = Ok (shown id session decision)).
  { unfold decision_of_row, decision_row. cbv zeta. cbn [fst snd de_pressure_state de_input_features_json de_actions_json].
    by rewrite parse_state_text, (Hf _ _ Ef), (Ha _ _ Ea). }
  assert (Htable : db_table (cn_data c') PolicyDecisions = table) by (rewrite Hd; apply table_same).
  assert (Hthere : contains_str (db_schema (cn_data c')) "policy_decisions" = true).
  { rewrite Hd. apply statement_schema in Hschema. by apply andb_true_iff in Hschema as [? _]. }
  unfold latest_policy_decision, reading, query_policy_decisions, prepare, select, query, statement, eff_bind, lift, eff_read.
  simpl. rewrite Hthere. simpl. rewrite Hthere. simpl. rewrite Htable.
  apply take_one in Hnewest. change (Z.to_nat 1) with 1%nat. cbn [Row] in *. rewrite Hnewest. cbn [map_ok].
  by rewrite Hshown.
Qed.
End History.
End History.

(** ** Theorems *)
Module Theorems.
Import Facts Keeps Lifetime Calm Migrations Batch.
Section Theorems.
Context `{StorageCodec}.

(** C22: a batch of classified processes is stored as a whole or not at all. When it fails the
    database is what it was. When it succeeds, one row was appended for each process, in
    their order, with its figures and its foreground state, referring to an entry of the
    catalog with the identity of the process; no entry of the catalog lost its category,
    its name or a flag; the transition was stored unless it repeats the last class of the
    session; and nothing else changed. *)
Theorem classification_batch_exact (session : Z) (processes : list ProcessClassification)
    (transition : option WorkloadTransition) (c c' : Connection Database) (r : result Z string) :
  insert_classification_batch session processes transition c = (c', r) ->
  let d := cn_data c in
  let d' := cn_data c' in
  match r with
  | Err _ => d' = d
  | Ok n =>
      n = Z.of_nat (length processes) /\
      (exists rows, tb_rows (db_table d' ProcessSamples) = tb_rows (db_table d ProcessSamples) ++ rows /\
         Forall2 (Batch.stored_as session d') processes rows) /\
      Batch.catalog_grows d d' /\
      (let last := (fun r => ev_new_class (snd r)) <$> latest_event session (db_table d WorkloadEvents) in
       match transition with
       | None => db_table d' WorkloadEvents = db_table d WorkloadEvents
       | Some transition =>
           if bool_decide (last = Some (show_class (wt_new_class transition)))
           then db_table d' WorkloadEvents = db_table d WorkloadEvents
           else exists id row, tb_rows (db_table d' WorkloadEvents) = tb_rows (db_table d WorkloadEvents) ++ [(id, row)] /\
                  Batch.event_of session transition row
       end) /\
      db_groups d' = db_groups d /\
      (forall t, t <> ProcessCatalog -> t <> ProcessSamples -> t <> WorkloadEvents -> db_table d' t = db_table d t)
  end.
Proof.
  unfold insert_classification_batch, eff_bind at 1. intros Hi.
  destruct (transaction _ _ _ c) as [c1 [u|e]] eqn:Et; injection Hi as <- <-;
    apply Batch.transaction_cases in Et; [| done].
  destruct Et as (b & b' & Hb & Et & Hd). rewrite <- Hb, Hd. clear Hb Hd c c1. cbv zeta.
  apply eff_bind_ok in Et as (b1 & [] & Hall & Ht). destruct u.
  apply Batch.insert_all_ok in Hall as (Hg & [Hgr Ho] & rows & Hrows & Hstored).
  destruct transition as [transition|].
  - apply Batch.insert_transition_ok in Ht as (Hgr' & Ho' & Hev). rewrite (Ho WorkloadEvents) in Hev by done.
    assert (Hg' : Batch.catalog_grows (cn_data b1) (cn_data b')).
    { intros id e He. exists e. by rewrite Ho'. }
    split; [done |]. split; [exists rows; split; [by rewrite Ho' |]|].
    { eapply list.Forall2_impl; [exact Hstored |]. intros p row Hs. by eapply Batch.stored_grows. }
    split; [by etransitivity |]. split; [exact Hev |]. split; [congruence |].
    intros t H1 H2 H3. by rewrite Ho', Ho.
  - injection Ht as <-. split; [done |]. split; [by exists rows |]. split; [done |].
    split; [by apply Ho |]. split; [done |]. intros t H1 H2 _. by apply Ho.
Qed.

(** C7: every database that the operations can lead to, over any number of openings, failed
    ones among them, with any refusal of the engine at any statement, is consistent: the row
    ids of every table ascend and stay in the range of its sequence, a machine has one host
    and a command one entry of the catalog, an open session is not marked as shut down, and
    every row and every managed group refers to rows that exist. *)
Theorem storage_stays_consistent d : reachable d -> consistent (set_foreign_keys true d).
Proof. apply reachable_consistent. Qed.

(** C12: an opening goes on from the last migration that was recorded. Whatever the engine
    refuses, the database holds a prefix of the migrations, not shorter than before, each
    with its objects and its record, and no row is touched; when it succeeds all nine are
    applied; and it succeeds when the engine refuses nothing. *)
Theorem open_resumes_migrations (source : Z -> string) (n : nat) d choices c r :
  (n <= 9)%nat -> migrated source n d ->
  open_storage "wal" source (MkConnection d choices) = (c, r) ->
  same_rows d (cn_data c) /\
  (exists n', (n <= n' <= 9)%nat /\ migrated source n' (cn_data c) /\ (r = Ok tt -> n' = 9%nat)) /\
  (choices = [] -> r = Ok tt).
Proof.
  intros Hn Hm Ho. split; [pose proof (open_rows "wal" source (MkConnection d choices)) as Hr; by rewrite Ho in Hr |].
  split.
  - assert (Hs : at_calm false (migrated source n) (MkConnection d choices)) by (by apply calm_start).
    pose proof (open_calm source false n Hn _ Hs) as Ht. rewrite Ho in Ht.
    destruct r as [[]|e]; simpl in Ht; [exists 9%nat; split; [lia |]; by destruct Ht |].
    destruct Ht as (n' & Hn' & Hd & _). exists n'. by split_and!; [lia | lia | |].
  - intros ->. assert (Hs : at_calm true (migrated source n) (MkConnection d [])) by (by apply calm_start).
    pose proof (open_calm source true n Hn _ Hs) as Ht.
    rewrite Ho in Ht. destruct r as [[]|e]; [done |]. by destruct Ht as (n' & _ & _ & ?).
Qed.

(** C24: a database whose recorded migrations are not those of the program is refused,
    whichever of them differs and whatever journal mode the engine grants, and neither its
    schema, nor the record of its migrations, nor a row changes. *)
Theorem changed_migration_refused (source source' : Z -> string) (n : nat) d choices granted c r :
  (n <= 9)%nat -> migrated source n d ->
  (exists v, (0 < v <= n)%nat /\
     migration_checksum (source (Z.of_nat v)) <> migration_checksum (source' (Z.of_nat v))) ->
  open_storage granted source' (MkConnection d choices) = (c, r) ->
  (exists e, r = Err e) /\ migrated source n (cn_data c) /\ same_rows d (cn_data c).
Proof.
  intros Hn Hm Hv Ho. pose proof (open_rows granted source' (MkConnection d choices)) as Hr. rewrite Ho in Hr.
  unfold on_data in Hr. simpl in Hr.
  pose proof (initialize_migrated source n granted (MkConnection d choices) Hm) as Hi.
  unfold open_storage, eff_bind in Ho. destruct (initialize_connection _ _) as [c1 [[]|e]] eqn:Ei;
    [| injection Ho as <- <-; split; [by exists e | by split]].
  assert (Hs : at_calm false (eq (cn_data c1)) c1) by (by split).
  pose proof (changed_refused source source' n Hn (cn_data c1) 9 0 ltac:(lia) ltac:(lia) Hi Hv c1 Hs) as Ht.
  change (apply_all (drop 0 (migrations source')) c1) with (migrate source' c1) in Ht.
  rewrite Ho in Ht.
  destruct r as [[]|e]; [done |]. destruct Ht as [Hd _]. rewrite <- Hd. split; [by exists e |].
  split; [done |]. rewrite <- Hd in Hr. exact Hr.
Qed.

(** C13: the table of cgroup mutations is a journal of snapshots by their id. [persist] adds
    the snapshot under an id above all others, [update] changes the outcome of the snapshot
    with its id and nothing else, [pending] answers the snapshots that are applied and not
    rolled back, as the store in memory does, and a call that fails changes nothing. An
    [update] is accepted whenever the engine does not refuse its statement, whether a
    snapshot with its id exists or not: with an unknown id, which the store in memory
    refuses, it succeeds and leaves the journal as it is. *)
Theorem snapshot_store_refines_journal (now : string) c :
  (forall p text, properties_to_json p = Ok text -> properties_from_json text = Ok p) ->
  Journal.cgroup_ids (cn_data c) ->
  let store := storage_store now in
  let snapshots := Journal.journal (cn_data c) in
  (forall snapshot c' r, @persist _ store snapshot c = (c', r) ->
     match r with
     | Ok id => (forall id', is_Some (snapshots !! id') -> id' < id) /\
                Journal.journal (cn_data c') = <[id := set_id id snapshot]> snapshots
     | Err _ => cn_data c' = cn_data c
     end) /\
  (forall snapshot c' r, @update _ store snapshot c = (c', r) ->
     match r with
     | Ok _ => Journal.journal (cn_data c') =
                 alter (set_flags (ms_applied snapshot) (ms_verified snapshot) (ms_rolled_back snapshot)
                          (ms_last_error snapshot)) (ms_id snapshot) snapshots
     | Err _ => cn_data c' = cn_data c
     end) /\
  (forall snapshot next groups,
     ms_id snapshot <= i64_max ->
     contains_str (db_schema (cn_data c)) (table_name CgroupSnapshots) = true ->
     ch_refusal (fst (next_choice (cn_choices c))) = None ->
     exists c', @update _ store snapshot c = (c', Ok tt) /\
       (snapshots !! ms_id snapshot = None ->
          Journal.journal (cn_data c') = snapshots /\
          let memory := {| Memory.next_id := next; Memory.snapshots := snapshots; Memory.managed_groups := groups |} in
          Memory.mem_update snapshot memory = (memory, Err (Persistence "unknown snapshot")))) /\
  (forall l next groups, @pending _ store c = Ok l ->
     Memory.mem_pending {| Memory.next_id := next; Memory.snapshots := snapshots;
                           Memory.managed_groups := groups |} = Ok l).
Proof.
  intros Hround Hids. simpl. split_and!.
  - intros snapshot c' [id|e] Hp; [by apply Journal.persist_journal in Hp | by eapply Journal.persist_refused].
  - intros snapshot c' [[]|e] Hu; [by apply Journal.update_journal in Hu | by eapply Journal.update_refused].
  - intros snapshot next groups Hid Hthere Hgrants.
    destruct (Journal.update_accepted snapshot c Hid Hthere Hgrants) as [c' Hu]. exists c'. split; [exact Hu |].
    intros Hnone. split.
    + apply Journal.update_journal in Hu as ->; [| exact Hids]. apply alter_id. intros s. by rewrite Hnone.
    + unfold Memory.mem_update. simpl. by rewrite Hnone.
  - intros l next groups. by apply Journal.pending_journal.
Qed.

(** C23: a policy decision is stored unless it repeats the last one of its session: the same
    state, the same planned and rejected actions, within the heartbeat. One that is stored,
    while the clock does not go back, is what the command line shows as the latest decision,
    field by field. A decision that repeats, and a call that fails, change nothing. *)
Theorem policy_decision_round_trip (path : string) session decision heartbeat c c' r :
  (forall input text, features_to_json input = Ok text -> features_from_json text = Ok input) ->
  (forall audit text, audit_to_json audit = Ok text -> audit_from_json text = Ok audit) ->
  ids_sound (db_table (cn_data c) PolicyDecisions) ->
  (forall row, row ∈ tb_rows (db_table (cn_data c) PolicyDecisions) ->
     de_timestamp_ns (snd row) <= pd_timestamp_ns decision) ->
  insert_policy_decision session decision heartbeat c = (c', r) ->
  match r with
  | Ok true => exists id,
      latest_policy_decision path (Ok (MkConnection (cn_data c') [])) = Ok (History.shown id session decision)
  | Ok false => cn_data c' = cn_data c /\ History.repeats session decision heartbeat (cn_data c)
  | Err _ => cn_data c' = cn_data c
  end.
Proof.
  intros Hf Ha Hids Hclock Hi. apply History.decision_cases in Hi. destruct r as [[]|e]; [| done | done].
  destruct Hi as (c1 & id & features & actions & Hd & Ef & Ea & Hi). exists id. rewrite <- Hd in *.
  by eapply History.round_trip.
Qed.
End Theorems.
End Theorems.

(** ** Concrete inputs *)
Module Witnesses.
Import Facts Keeps Lifetime Migrations Theorems.

(** JSON of a few values *)
Definition quiet_input : PolicyInput :=
  {| in_timestamp_ns := 0; in_ram_total_bytes := 0; in_mem_available_bytes := 0; in_available_percent := f64_zero;
     in_swap_total_bytes := None; in_swap_used_bytes := None; in_swap_in_per_second := None;
     in_swap_out_per_second := None; in_major_faults_per_second := None; in_pgscan_per_second := None;
     in_pgsteal_per_second := None; in_psi_memory_some_avg10 := None; in_psi_memory_full_avg10 := None;
     in_workload_class := None; in_workload_confidence := None; in_gaming := false; in_critical_processes := 0;
     in_protected_processes := 0; in_unknown_processes := 0; in_foreground := FgUnknown;
     in_cgroup_capabilities := None; in_actuator_available := false; in_recent_safety_events := 0;
     in_recent_decisions := 0 |}.
Definition quiet_audit : PolicyActionAudit :=
  {| au_previous_state := None; au_state_changed := false; au_state_since_ns := 0; au_candidate_state := None;
     au_evidence := []; au_rejected_candidates := []; au_planned_actions := []; au_rejected_actions := [];
     au_dry_run := true; au_transition_reason := "" |}.
Definition input_to_json (input : PolicyInput) : result string string :=
  match input with
  | Build_PolicyInput 0 0 0 (SpecFloat.S754_zero false) None None None None None None None None None None None false
      0 0 0 FgUnknown None false 0 0 => Ok "{}"%string
  | _ => Err "unsupported"%string
  end.
Definition audit_to_text (audit : PolicyActionAudit) : result string string :=
  match audit with
  | Build_PolicyActionAudit None false 0 None [] [] [] [] true "" => Ok "{}"%string
  | _ => Err "unsupported"%string
  end.
Definition unlimited : RequestedProperties := {| rp_memory_low := None; rp_memory_high := None |}.
Definition limited : RequestedProperties := {| rp_memory_low := None; rp_memory_high := Some 10307921510 |}.
Definition properties_to_text (p : RequestedProperties) : result string string :=
  if decide (p = unlimited) then Ok "none"%string
  else if decide (p = limited) then Ok "high"%string
  else Err "unsupported"%string.
Definition properties_from_text (text : string) : result RequestedProperties string :=
  Ok (if String.eqb text "high" then limited else unlimited).
#[local] Instance demo_codec : StorageCodec := {|
  features_to_json := input_to_json;
  features_from_json _ := Ok quiet_input;
  audit_to_json := audit_to_text;
  audit_from_json _ := Ok quiet_audit;
  swap_entries_to_json _ := Ok "[]"%string;
  zram_devices_to_json _ := Ok "[]"%string;
  strings_to_json _ := Ok "[]"%string;
  strings_from_json _ := Ok [];
  explanation_to_json _ := Ok "{}"%string;
  explanation_from_json _ := Ok Classifier.Witnesses.explanation;
  properties_to_json := properties_to_text;
  properties_from_json := properties_from_text;
  evidence_from_json _ := Err "unsupported"%string;
  migration_checksum text := text
|}.
Lemma input_round input text : input_to_json input = Ok text -> Ok quiet_input = @Ok _ string input.
Proof. unfold input_to_json. repeat case_match; done. Qed.
Lemma audit_round audit text : audit_to_text audit = Ok text -> Ok quiet_audit = @Ok _ string audit.
Proof. unfold audit_to_text. repeat case_match; done. Qed.
Lemma properties_round p text : properties_to_text p = Ok text -> properties_from_text text = Ok p.
Proof. unfold properties_to_text. destruct (decide _) as [->|]; [by intros [= <-] |]. destruct (decide _) as [->|]; [by intros [= <-] | done]. Qed.

Definition demo_source (version : Z) : string := ("migration " ++ show_int version)%string.
Definition machine : HostMetadata :=
  {| hm_machine_id := "m"; hm_hostname := "h"; hm_distro := "d"; hm_distro_version := None;
     hm_kernel_version := "6"; hm_cpu_model := None; hm_cpu_cores := Some 8; hm_ram_total_bytes := 2 ^ 34;
     hm_swap_total_bytes := 0; hm_gpu_model := None; hm_storage_model := None |}.
Definition first_file : Connection Database := MkConnection (new_database "delete") [].
Definition opened : Connection Database := fst (open_storage "wal" demo_source first_file).
Definition start : list StorageOp := [OpHost machine "now"; OpOpenSession 1 "0.1.0" "hash" "now"].
Definition ready : Connection Database := run_ops start opened.
Definition batch := insert_classification_batch 1 [Actuator.Witnesses.indexer] (Some Classifier.Witnesses.to_gaming) ready.
(** an engine that refuses the ninth statement *)
Definition full_disk : list Choice := repeat granted 8 ++ [{| ch_refusal := Some "disk full"%string; ch_skip := 0 |}].

Lemma classification_batch_exact_witness :
  snd batch = Ok 1 /\
  (exists rows, tb_rows (db_table (cn_data (fst batch)) ProcessSamples) = tb_rows (db_table (cn_data ready) ProcessSamples) ++ rows /\
     Forall2 (Batch.stored_as 1 (cn_data (fst batch))) [Actuator.Witnesses.indexer] rows).
Proof.
  assert (H : insert_classification_batch 1 [Actuator.Witnesses.indexer] (Some Classifier.Witnesses.to_gaming) ready
              = (fst batch, Ok 1)) by (vm_compute; reflexivity).
  split; [vm_compute; reflexivity |].
  destruct (classification_batch_exact 1 [Actuator.Witnesses.indexer] (Some Classifier.Witnesses.to_gaming) ready
    (fst batch) (Ok 1) H) as (_ & Hrows & _). exact Hrows.
Defined.

Lemma storage_stays_consistent_witness : consistent (set_foreign_keys true (cn_data ready)).
Proof.
  apply storage_stays_consistent.
  apply (ReachRun (new_database "delete") [] "wal" demo_source opened start); [apply ReachNew |].
  vm_compute; reflexivity.
Defined.

Lemma open_resumes_migrations_witness :
  exists n', (0 <= n' <= 9)%nat /\
    migrated demo_source n' (cn_data (fst (open_storage "wal" demo_source (MkConnection (new_database "delete") full_disk)))).
Proof.
  pose (o := open_storage "wal" demo_source (MkConnection (new_database "delete") full_disk)).
  destruct (proj1 (proj2 (open_resumes_migrations demo_source 0 (new_database "delete") full_disk (fst o) (snd o)
    ltac:(lia) ltac:(split; reflexivity) ltac:(vm_compute; reflexivity)))) as (n' & Hn & Hm & _).
  exact (ex_intro _ n' (conj Hn Hm)).
Defined.

Lemma changed_migration_refused_witness :
  exists e, snd (open_storage "wal" (fun _ => "edited"%string) (MkConnection (cn_data opened) [])) = Err e.
Proof.
  pose (o := open_storage "wal" (fun _ => "edited"%string) (MkConnection (cn_data opened) [])).
  destruct (changed_migration_refused demo_source (fun _ => "edited"%string) 9 (cn_data opened) [] "wal" (fst o) (snd o))
    as ((e & He) & _).
  - lia.
  - split; vm_compute; reflexivity.
  - exists 9%nat. split; [lia | discriminate].
  - vm_compute; reflexivity.
  - exact (ex_intro _ e He).
Defined.

Definition moved : MutationSnapshot :=
  {| ms_id := 0; ms_session_id := 1; ms_timestamp_ns := 9; ms_process_catalog_id := 1; ms_identity := "i";
     ms_pid := 42; ms_start_time_ticks := 9; ms_original_group := "/user.slice"; ms_target_group := "nemor-background";
     ms_original_properties := unlimited; ms_requested_properties := limited; ms_reason := "soft limit";
     ms_applied := true; ms_verified := false; ms_rolled_back := false; ms_last_error := None |}.
Definition catalogued : Connection Database :=
  fst (forget (upsert_catalog Actuator.Witnesses.indexer) (MkConnection (cn_data ready) [])).
Definition persisted := storage_persist moved catalogued.
Lemma snapshot_store_refines_journal_witness :
  Journal.journal (cn_data (fst persisted)) = <[1 := set_id 1 moved]> (Journal.journal (cn_data catalogued)) /\
  snd persisted = Ok 1.
Proof.
  assert (H : @persist _ (storage_store "now") moved catalogued = (fst persisted, Ok 1)) by (vm_compute; reflexivity).
  split; [| vm_compute; reflexivity].
  destruct (@snapshot_store_refines_journal demo_codec "now" catalogued properties_round) as (Hp & _).
  - unfold Journal.cgroup_ids, ids_sound. vm_compute. repeat constructor; discriminate.
  - destruct (Hp moved (fst persisted) (Ok 1) H) as [_ Hj]. exact Hj.
Defined.

Definition quiet_decision : PolicyDecision :=
  {| pd_timestamp_ns := 5; pd_current_state := Normal; pd_previous_state := None; pd_state_changed := false;
     pd_state_since_ns := 0; pd_candidate_state := None; pd_policy_name := "observe"; pd_rule_version := "1";
     pd_input_features := quiet_input; pd_evidence := []; pd_rejected_candidates := []; pd_planned_actions := [];
     pd_rejected_actions := []; pd_expected_gain_bytes := None; pd_expected_cost_score := None;
     pd_dry_run := true; pd_transition_reason := "" |}.
Definition decided := insert_policy_decision 1 quiet_decision 60 ready.
Lemma policy_decision_round_trip_witness :
  exists id, latest_policy_decision "db" (Ok (MkConnection (cn_data (fst decided)) [])) = Ok (History.shown id 1 quiet_decision).
Proof.
  assert (H : insert_policy_decision 1 quiet_decision 60 ready = (fst decided, Ok true)) by (vm_compute; reflexivity).
  assert (E : tb_rows (db_table (cn_data ready) PolicyDecisions) = []) by (vm_compute; reflexivity).
  apply (@policy_decision_round_trip demo_codec "db" 1 quiet_decision 60 ready (fst decided) (Ok true) input_round audit_round).
  - unfold ids_sound. vm_compute. repeat constructor; discriminate.
  - intros row Hin. rewrite E in Hin. destruct (proj1 (elem_of_nil row) Hin).
  - exact H.
Defined.
End Witnesses.
