(* ===== verification/Nemord.v ===== *)
(** crates/nemord: the daemon over its database. [storage_telemetry] is the source's
    [impl TelemetryStorage for Storage], with JSON as the class [AuditCodec]; [run] is
    [run] of main.rs: it opens the database, registers the host, opens a session, samples
    until a signal and closes the session. The probes that are only logged are left out. *)

From S2P Require Import Prelude F64 Text Config Classifier Collector Workload Actuator Policy.
From S2P Require Import Damon Damos Ksm Zram Tiering Daemon Common Storage StorageFacts.

(** ** The storage of the daemon *)

(** [serde_json] on the audits, and the part of each that is stored as its configuration *)
Class AuditCodec := {
  zram_plans_to_json : list ZramProfilePlan -> result string string;
  zram_to_json : ZramAuditReport -> result string string;
  recommendation_to_json : BackendRecommendation -> result string string;
  tiering_to_json : TieringAuditReport -> result string string;
  damon_capability_to_json : DamonCapability -> result string string;
  damon_to_json : DamonReport -> result string string;
  damos_plan_to_json : option DamosPlan -> result string string;
  damos_to_json : DamosReport -> result string string;
  ksm_capability_to_json : KsmCapability -> result string string;
  ksm_to_json : KsmReport -> result string string
}.

Section Telemetry.
Context `{StorageCodec} `{AuditCodec} (now : Connection Database -> string).

(** CURRENT_TIMESTAMP is what the clock shows at the insertion. *)
Definition store_audit (session_id : Z) (reason : string) (configuration system_values : result string string) :
    eff (Connection Database) unit string := fun c =>
  (insert_configuration_snapshot session_id reason configuration system_values (now c) ;! eff_ret tt) c.
(** [impl TelemetryStorage for Storage] *)
Definition storage_telemetry : TelemetryStorage (Connection Database) := {|
  store_system := insert_system_sample;
  store_processes session samples :=
    let! n := insert_process_samples session samples in eff_ret (Z.to_nat n);
  store_classified session samples transition :=
    let! n := insert_classification_batch session samples transition in eff_ret (Z.to_nat n);
  retain_after cutoff :=
    let! r := enforce_retention cutoff in eff_ret (re_system_samples r, re_process_samples r);
  store_policy := insert_policy_decision;
  Daemon.policy_history_counts ts c := snd (Storage.policy_history_counts ts c);
  store_zram_audit session audit :=
    store_audit session Zram.AUDIT_REASON (zram_plans_to_json (zr_plans audit)) (zram_to_json audit);
  store_tiering_audit session audit :=
    store_audit session TIERING_AUDIT_REASON (recommendation_to_json (tr_recommendation audit)) (tiering_to_json audit);
  store_damon_audit session audit :=
    store_audit session "damon_observe_audit" (damon_capability_to_json (rep_capability audit)) (damon_to_json audit);
  store_damos_audit session audit :=
    store_audit session Damos.AUDIT_REASON (damos_plan_to_json (dmr_plan audit)) (damos_to_json audit);
  store_ksm_audit session audit :=
    store_audit session Ksm.AUDIT_REASON (ksm_capability_to_json (kr_capability audit)) (ksm_to_json audit)
|}.
End Telemetry.

(** ** main.rs *)

(** what the runtime gives to one run of the daemon *)
Record Runtime (W V : Type) := {
  rn_journal_mode : string;
  rn_migrations : Z -> string;
  rn_host : result HostMetadata string;
  rn_version : string;
  rn_config_hash : string;
  rn_registered_at : string;
  rn_started_at : string;
  rn_ended_at : string;
  rn_instants : Z * Z * Z;
  rn_polls : list (Ready W V)
}.
Arguments rn_journal_mode {W V} _.
Arguments rn_migrations {W V} _.
Arguments rn_host {W V} _.
Arguments rn_version {W V} _.
Arguments rn_config_hash {W V} _.
Arguments rn_registered_at {W V} _.
Arguments rn_started_at {W V} _.
Arguments rn_ended_at {W V} _.
Arguments rn_instants {W V} _.
Arguments rn_polls {W V} _.

Section Run.
Context `{StorageCodec} `{AuditCodec} (now : Connection Database -> string).
Context {C W V : Type} `{TelemetryCollector C} `{Zram.ZramSystem W} `{Tiering.TieringSystem V}.
Context (sha256_hex : string -> string) (config : Config) (capabilities : option CgroupCapabilities).

(** [with_context] on an error of the storage, or of the loop *)
Definition at_step {A} (context : string) (m : eff (Connection Database) A string) :
    eff (Connection Database) A DaemonError := fun c =>
  let '(c', r) := m c in (c', with_context context r).
Definition in_loop {A} (r : result A DaemonError) : result A DaemonError :=
  match r with
  | Err (Failed contexts) => Err (Failed ("telemetry sampling loop failed"%string :: contexts))
  | r => r
  end.
(** the sampling loop on the storage that the run opened *)
Definition sample_until_signal (collector : C) (rn : Runtime W V) (session_id : Z) :
    eff (Connection Database) (option string) DaemonError := fun c =>
  let '(self, r) := run_sampling_loop (H0 := storage_telemetry now) sha256_hex session_id config capabilities
                      (rn_polls rn) (rn_instants rn) collector c in
  (lp_storage self, in_loop r).

(** the signal that ended the run, or [None] while the loop is still waiting *)
Definition run (collector : C) (rn : Runtime W V) : eff (Connection Database) (option string) DaemonError :=
  at_step ("cannot initialize database " ++ general_database_path (general config))%string
    (open_storage (rn_journal_mode rn) (rn_migrations rn)) ;!
  let! host := eff_read (fun _ => with_context "cannot collect required host metadata" (rn_host rn)) in
  let! host_id := at_step "cannot register host" (upsert_host host (rn_registered_at rn)) in
  let! session_id := at_step "cannot open daemon session"
    (open_session host_id (rn_version rn) (rn_config_hash rn) (rn_started_at rn)) in
  let! signal := sample_until_signal collector rn session_id in
  match signal with
  | None => eff_ret None
  | Some name =>
      at_step "cannot close daemon session cleanly" (close_session session_id true (rn_ended_at rn)) ;!
      eff_ret (Some name)
  end.
End Run.

(** ** What the daemon leaves in the database *)
Module Facts.
Import StorageFacts.Facts Keeps Operations Lifetime Batch.

(** consistent again, and with the same sessions, schema and journal mode *)
Definition same_frame (d d' : Database) : Prop :=
  db_schema d' = db_schema d /\ db_journal_mode d' = db_journal_mode d.
#[export] Instance same_frame_refl : Reflexive same_frame.
Proof. by intros d. Qed.
#[export] Instance same_frame_trans : Transitive same_frame.
Proof. intros d1 d2 d3 [S1 J1] [S2 J2]. split; congruence. Qed.
Definition same_sessions (d d' : Database) : Prop := db_table d' Sessions = db_table d Sessions /\ same_frame d d'.
Definition quiet (d d' : Database) : Prop := stays d d' /\ same_sessions d d'.
#[export] Instance same_sessions_refl : Reflexive same_sessions.
Proof. by intros d. Qed.
#[export] Instance same_sessions_trans : Transitive same_sessions.
Proof. intros d1 d2 d3 [H1 F1] [H2 F2]. split; [congruence | by etransitivity]. Qed.
#[export] Instance quiet_refl : Reflexive quiet.
Proof. intros d. by split. Qed.
#[export] Instance quiet_trans : Transitive quiet.
Proof. intros d1 d2 d3 [H1 S1] [H2 S2]. split; [by etransitivity | by etransitivity]. Qed.
Lemma frames_quiet {A} (m : eff (Connection Database) A string) :
  frames (on_data stays) m -> frames (on_data same_sessions) m -> frames (on_data quiet) m.
Proof. intros H1 H2 c. by split; [apply H1 | apply H2]. Qed.

Lemma set_elsewhere t table d : t <> Sessions -> same_sessions d (set_table t table d).
Proof. intros Ht. split; [by apply table_other | done]. Qed.
Lemma insert_elsewhere t row : t <> Sessions -> frames (on_data same_sessions) (insert t row).
Proof.
  intros Ht. apply keeps_statement; [apply _ |]. intros skip d d' id (table & _ & -> & _)%insert_into_ok.
  by apply set_elsewhere.
Qed.
Lemma delete_elsewhere t p : t <> Sessions -> frames (on_data same_sessions) (delete_from t p).
Proof. intros Ht. apply keeps_statement; [apply _ |]. intros skip d d' n [-> _]%ok_pair. by apply set_elsewhere. Qed.
(** [keeps] for a program that writes other tables *)
Ltac elsewhere :=
  repeat first [keeps_step | apply insert_elsewhere; discriminate | apply delete_elsewhere; discriminate].

Section Calls.
Context `{StorageCodec}.
Lemma catalog_elsewhere process : frames (on_data same_sessions) (upsert_catalog process).
Proof.
  apply keeps_statement; [apply _ |]. intros skip d d' a. cbv zeta. destruct (find_row _ _).
  - intros [-> _]%ok_pair. by apply set_elsewhere.
  - intros Hi. inv_ok. destruct a0 as [d1 id].
    match goal with Hi : insert_into _ _ _ _ = _ |- _ => apply insert_into_ok in Hi as (table & _ & -> & _) end.
    by apply set_elsewhere.
Qed.
Lemma classified_elsewhere session processes : frames (on_data same_sessions) (insert_all_classified session processes).
Proof.
  induction processes as [|process processes IH]; simpl; [elsewhere |]. unfold insert_classified.
  elsewhere; [apply catalog_elsewhere | | apply IH].
  apply keeps_statement; [apply _ |]. intros skip d d' answer Hi. inv_ok. done.
Qed.
Lemma transition_elsewhere session transition : frames (on_data same_sessions) (insert_transition session transition).
Proof.
  unfold insert_transition. elsewhere. apply keeps_statement; [apply _ |]. intros skip d d' id Hi. inv_ok.
  match goal with Hi : insert_into _ _ _ _ = _ |- _ => apply insert_into_ok in Hi as (table & _ & -> & _) end.
  by apply set_elsewhere.
Qed.
Lemma batch_quiet session processes transition :
  frames (on_data quiet) (insert_classification_batch session processes transition).
Proof.
  apply frames_quiet; unfold insert_classification_batch.
  - keeps; [apply classified_stay | apply transition_stays].
  - elsewhere; [apply classified_elsewhere | apply transition_elsewhere].
Qed.
Lemma system_quiet session sample : frames (on_data quiet) (insert_system_sample session sample).
Proof. apply frames_quiet; unfold insert_system_sample; [keeps | elsewhere]. Qed.
Lemma retention_quiet cutoff : frames (on_data quiet) (enforce_retention cutoff).
Proof.
  apply frames_quiet; unfold enforce_retention; [keeps | elsewhere].
  all: apply delete_op_stays; unfold parent; by intros [? | [? | ?]].
Qed.
Lemma decision_quiet session decision heartbeat : frames (on_data quiet) (insert_policy_decision session decision heartbeat).
Proof. apply frames_quiet; unfold insert_policy_decision; [keeps | elsewhere]. Qed.
Lemma snapshot_quiet session reason a b now : frames (on_data quiet) (insert_configuration_snapshot session reason a b now).
Proof. apply frames_quiet; unfold insert_configuration_snapshot; [keeps | elsewhere]. Qed.
End Calls.

Section Loop.
Context `{StorageCodec} `{AuditCodec} (now : Connection Database -> string).
Lemma audit_quiet session reason a b : frames (on_data quiet) (store_audit now session reason a b).
Proof.
  intros c. unfold store_audit, eff_bind. pose proof (snapshot_quiet session reason a b (now c) c) as Hs.
  by destruct (insert_configuration_snapshot _ _ _ _ _ c) as [c' [id|e]].
Qed.
(** every call of the loop to its storage *)
Lemma call_quiet session c c' : storage_call (H := storage_telemetry now) session c c' ->
  on_data quiet c c'.
Proof.
  intros Hc. destruct Hc; simpl; try apply audit_quiet.
  - apply system_quiet.
  - apply frames_bind; [apply _.. | apply batch_quiet | intros ?; apply frames_ret, _].
  - apply frames_bind; [apply _.. | apply retention_quiet | intros ?; apply frames_ret, _].
  - apply decision_quiet.
Qed.
Lemma observer_quiet session a b : star (observer_step (H := storage_telemetry now) session) a b ->
  on_data quiet (snd a) (snd b).
Proof.
  induction 1 as [x | x y z _ IH Hstep]; [reflexivity |]. etransitivity; [exact IH |].
  destruct Hstep as [e s input | e s s' Hc]; simpl; [reflexivity | by eapply call_quiet].
Qed.

Context {C W V : Type} `{TelemetryCollector C} `{Zram.ZramSystem W} `{Tiering.TieringSystem V}.
Context (sha256_hex : string -> string) (config : Config) (capabilities : option CgroupCapabilities).
Lemma loop_quiet collector (rn : Runtime W V) session : validate config = Ok tt ->
  frames (on_data quiet) (sample_until_signal now sha256_hex config capabilities collector rn session).
Proof.
  intros Hv c. unfold sample_until_signal, run_sampling_loop.
  match goal with |- context [run_events (H0 := ?i) ?sha ?s ?cfg ?caps ?events ?start] =>
    pose proof (Daemon.Facts.frames_run_events (H0 := i) sha s cfg caps Hv events start) as Hf;
    destruct (run_events (H0 := i) sha s cfg caps events start) as [self r] eqn:E end.
  simpl in *. apply observer_quiet in Hf. unfold Daemon.Facts.view in Hf. simpl in Hf.
  unfold loop_start in Hf. by destruct (rn_instants rn) as [[smaps due] policy_due].
Qed.
End Loop.

(** ** One run *)
Section Sessions.
Context `{StorageCodec}.

Lemma host_quiet host now : frames (on_data quiet) (upsert_host host now).
Proof.
  apply frames_quiet; [apply upsert_host_stays |]. unfold upsert_host. elsewhere.
  - apply keeps_statement; [apply _ |]. intros skip d d' a. cbv zeta. destruct (reject _ _) as [[]|]; [cbv iota | done].
    destruct (find_row _ _).
    + intros [-> _]%ok_pair. by apply set_elsewhere.
    + intros Hi. inv_ok. destruct a0 as [d1 id].
      match goal with Hi : insert_into _ _ _ _ = _ |- _ => apply insert_into_ok in Hi as (table & _ & -> & _) end.
      by apply set_elsewhere.
  - apply keeps_statement; [apply _ |]. intros skip d d' answer Hi. inv_ok. done.
Qed.
Definition open_row (host_id : Z) (version hash now : string) : SessionRow :=
  {| se_host_id := host_id; se_mode := "observe"; se_daemon_version := version; se_config_hash := hash;
     se_started_at := now; se_ended_at := None; se_clean_shutdown := false |}.
Definition session_rows (d : Database) : list (Z * SessionRow) := tb_rows (db_table d Sessions).
Lemma session_opened host_id version hash now c c' id : open_session host_id version hash now c = (c', Ok id) ->
  session_rows (cn_data c') = session_rows (cn_data c) ++ [(id, open_row host_id version hash now)].
Proof.
  intros Ho. unfold open_session, in_context in Ho. apply map_err_ok, insert_ok in Ho. unfold session_rows.
  by rewrite Ho, table_same.
Qed.
Lemma session_frame host_id version hash now : frames (on_data same_frame) (open_session host_id version hash now).
Proof.
  unfold open_session. keeps. apply keeps_statement; [apply _ |].
  by intros skip d d' id (table & _ & -> & _)%insert_into_ok.
Qed.
Lemma close_frame id clean now : frames (on_data same_frame) (close_session id clean now).
Proof.
  unfold close_session. keeps. apply keeps_statement; [apply _ |]. by intros skip d d' n [-> _]%ok_pair.
Qed.
Lemma session_not_opened host_id version hash now c c' e : open_session host_id version hash now c = (c', Err e) ->
  cn_data c' = cn_data c.
Proof. intros Ho. apply Journal.map_err_err in Ho as [e0 Ho]. by eapply Journal.insert_refused. Qed.
(** the session of the run is the last row, the only one with its id *)
Lemma session_closed id now c c' host version hash start rows :
  StronglySorted Z.lt (map fst (session_rows (cn_data c))) ->
  session_rows (cn_data c) = rows ++ [(id, open_row host version hash start)] ->
  close_session id true now c = (c', Ok tt) ->
  session_rows (cn_data c') = rows ++ [(id, close_row now true (open_row host version hash start))].
Proof.
  intros Hs Hrows Hc. apply transaction_cases in Hc as (c1 & c2 & Hd1 & Hb & Hd2). inv_eff.
  match goal with Hu : in_context _ _ _ = _ |- _ => apply map_err_ok, statement_ok in Hu as (skip & [Hd _]%ok_pair) end.
  unfold session_rows in *. rewrite Hd2. 
  match goal with Hd : cn_data ?x = set_table _ _ _ |- context [cn_data ?x] => rewrite Hd, table_same end.
  rewrite Hd1. simpl. change (Row Sessions) with SessionRow in *. rewrite Hrows, map_app. simpl.
  rewrite Hrows, map_app in Hs. simpl in Hs. f_equal.
  - rewrite <- (map_id rows) at 2. apply map_ext_in. intros row Hin%list_elem_of_In.
    assert (is_open id row = false) as ->; [| done]. unfold is_open. apply andb_false_iff. left. apply Z.eqb_neq. intros E.
    pose proof (Journal.sorted_nodup _ Hs) as Hn. apply list.NoDup_app in Hn as (_ & Hn & _). apply (Hn id); [| by left].
    rewrite <- E. by apply list_elem_of_fmap_2.
  - unfold is_open. by rewrite Z.eqb_refl.
Qed.
End Sessions.

(** the steps of a run, on a consistent database with the given sessions, and with a schema
    and a journal mode that satisfy [I] *)
Section Invariant.
Context (I : Database -> Prop).
Definition keeping (rows : list (Z * SessionRow)) (c : Connection Database) : Prop :=
  consistent (cn_data c) /\ session_rows (cn_data c) = rows /\ I (cn_data c).
Definition left_with (rows : list (Z * SessionRow)) (c : Connection Database) : Prop :=
  consistent (set_foreign_keys true (cn_data c)) /\ session_rows (cn_data c) = rows.
Lemma keeping_left rows c : keeping rows c -> left_with rows c.
Proof. intros (Hc & Hr & _). split; [| done]. rewrite Lifetime.keys_on; [done | by apply co_foreign_keys]. Qed.
Lemma triple_at_step {A} context (m : eff (Connection Database) A string) P Q X :
  triple P m Q X -> triple P (at_step context m) Q X.
Proof. intros Hm c Hc. specialize (Hm c Hc). unfold at_step. by destruct (m c) as [c' [a|e]]. Qed.

Context (HI : forall d d', same_frame d d' -> I d -> I d').
Lemma triple_quiet {A E} (m : eff (Connection Database) A E) rows :
  frames (on_data quiet) m -> triple (keeping rows) m (fun _ => keeping rows) (keeping rows).
Proof.
  intros Hm c (Hc & Hr & Hi). destruct (Hm c) as [Hs [Ht Hf]].
  assert (keeping rows (fst (m c))) as Hk.
  { split; [by apply Hs |]. split; [unfold session_rows in *; by rewrite Ht | by eapply HI]. }
  by destruct (m c) as [c' [a|e]].
Qed.

Context `{StorageCodec}.
Lemma triple_session host_id version hash now rows :
  triple (keeping rows) (open_session host_id version hash now)
    (fun id => keeping (rows ++ [(id, open_row host_id version hash now)])) (keeping rows).
Proof.
  intros c (Hc & Hr & Hi). pose proof (session_stays host_id version hash now c Hc) as Hc'.
  pose proof (session_frame host_id version hash now c) as Hf.
  destruct (open_session _ _ _ _ c) as [c' [id|e]] eqn:E; simpl in Hc', Hf.
  - apply session_opened in E. split; [done |]. split; [by rewrite E, Hr | by eapply HI].
  - apply session_not_opened in E. split; [done |]. by rewrite E.
Qed.
Lemma triple_close id now host version hash start rows :
  triple (keeping (rows ++ [(id, open_row host version hash start)])) (close_session id true now)
    (fun _ => keeping (rows ++ [(id, close_row now true (open_row host version hash start))]))
    (keeping (rows ++ [(id, open_row host version hash start)])).
Proof.
  intros c (Hc & Hr & Hi). pose proof (close_stays id true now c Hc) as Hc'.
  pose proof (close_frame id true now c) as Hf.
  destruct (close_session _ _ _ c) as [c' [[]|e]] eqn:E; simpl in Hc', Hf.
  - split; [done |]. split; [| by eapply HI]. eapply session_closed; [| exact Hr | exact E]. apply (co_ids _ Hc Sessions).
  - apply transaction_cases in E. split; [done |]. by rewrite E.
Qed.

Context `{AuditCodec} (now : Connection Database -> string).
Context {C W V : Type} `{TelemetryCollector C} `{Zram.ZramSystem W} `{Tiering.TieringSystem V}.
Context (sha256_hex : string -> string) (config : Config) (capabilities : option CgroupCapabilities).
(** one run, on a database whose opening establishes [I] *)
Lemma triple_run (P : Connection Database -> Prop) before (collector : C) (rn : Runtime W V) :
  let opened host := open_row host (rn_version rn) (rn_config_hash rn) (rn_started_at rn) in
  validate config = Ok tt ->
  triple P (open_storage (rn_journal_mode rn) (rn_migrations rn)) (fun _ => keeping before) (left_with before) ->
  triple P (run now sha256_hex config capabilities collector rn)
    (fun signal c' => exists id host, match signal with
       | Some _ => keeping (before ++ [(id, close_row (rn_ended_at rn) true (opened host))]) c'
       | None => keeping (before ++ [(id, opened host)]) c'
       end)
    (fun c' => left_with before c' \/ exists id host, left_with (before ++ [(id, opened host)]) c').
Proof.
  intros opened Hv Hopen. unfold run.
  eapply triple_bind; [eapply triple_at_step, triple_weaken; [exact Hopen | done | done | by left] | intros []].
  apply (triple_bind _ _ (fun _ => keeping before)).
  { apply triple_read; [by intros | intros c1 Hk; left; by apply keeping_left]. }
  intros host. eapply triple_bind.
  { eapply triple_at_step, triple_weaken; [apply (triple_quiet _ before), host_quiet | done | done |].
    intros c1 Hk. left. by apply keeping_left. }
  intros host_id. eapply triple_bind.
  { eapply triple_at_step, triple_weaken; [apply triple_session | done | done |].
    intros c1 Hk. left. by apply keeping_left. }
  intros id. eapply triple_bind.
  { eapply triple_weaken; [apply triple_quiet, loop_quiet, Hv | done | done |].
    intros c1 Hk. right. exists id, host_id. by apply keeping_left. }
  intros [name|].
  - eapply triple_bind.
    + eapply triple_at_step, triple_weaken; [apply triple_close | done | done |].
      intros c1 Hk. right. exists id, host_id. by apply keeping_left.
    + intros []. apply triple_ret. intros c1 Hk. by exists id, host_id.
  - apply triple_ret. intros c1 Hk. by exists id, host_id.
Qed.
End Invariant.

(** an opening keeps the rows, whatever it does to the schema *)
Section Steps.
Context `{StorageCodec}.
Lemma triple_open (I P : Database -> Prop) granted source rows :
  (forall c c', P (cn_data c) -> open_storage granted source c = (c', Ok tt) -> I (cn_data c')) ->
  triple (fun c => left_with rows c /\ P (cn_data c)) (open_storage granted source)
    (fun _ => keeping I rows) (left_with rows).
Proof.
  intros HI c [[Hc Hr] Hp]. pose proof (Lifetime.open_rows granted source c) as [Ht _].
  destruct (open_storage granted source c) as [c' r] eqn:E. pose proof (Lifetime.opened_consistent _ _ _ _ _ E Hc) as Hc'.
  assert (left_with rows c') as Hl. { split; [done |]. unfold session_rows in *. simpl in Ht. by rewrite Ht. }
  destruct r as [[]|e]; [| done]. destruct Hl as [_ Hl]. split; [| split; [done | by eapply HI]].
  by rewrite (Lifetime.keys_on _ (Lifetime.open_keys _ _ _ _ E)) in Hc'.
Qed.
End Steps.
End Facts.

(** ** Theorems *)
Module Theorems.
Import Facts.
Section Theorems.
Context `{StorageCodec} `{AuditCodec} (now : Connection Database -> string).
Context {C W V : Type} `{TelemetryCollector C} `{Zram.ZramSystem W} `{Tiering.TieringSystem V}.
Context (sha256_hex : string -> string) (config : Config) (capabilities : option CgroupCapabilities).

(** C8: whatever the collector, the host and the engine of the database do, one run of the
    daemon keeps the database consistent and the sessions of earlier runs as they were, and
    adds at most one session. A run that a signal ended closed its session as a clean
    shutdown; a run that failed left its session open, if it had opened one, and so did a
    run that has not ended. No run marks a session as closed unclean. *)
Theorem run_records_one_session (collector : C) (rn : Runtime W V) c c' r :
  validate config = Ok tt ->
  consistent (set_foreign_keys true (cn_data c)) ->
  run now sha256_hex config capabilities collector rn c = (c', r) ->
  let opened host := open_row host (rn_version rn) (rn_config_hash rn) (rn_started_at rn) in
  consistent (set_foreign_keys true (cn_data c')) /\
  exists rows, session_rows (cn_data c') = session_rows (cn_data c) ++ rows /\
    match r with
    | Ok (Some _) => exists id host, rows = [(id, close_row (rn_ended_at rn) true (opened host))]
    | Ok None => exists id host, rows = [(id, opened host)]
    | Err _ => rows = [] \/ exists id host, rows = [(id, opened host)]
    end.
Proof.
  intros Hv Hc Hr. cbv zeta.
  assert (Ht := triple_run (fun _ => True) (fun _ _ _ _ => I) now sha256_hex config capabilities
    _ (session_rows (cn_data c)) collector rn Hv
    (triple_open (fun _ => True) (fun _ => True) _ _ _ (fun _ _ _ _ => I))).
  specialize (Ht c (conj (conj Hc eq_refl) I)). rewrite Hr in Ht.
  destruct r as [[name|]|e].
  1,2: destruct Ht as (id & host & Hk); apply keeping_left in Hk as [Hk Hrows]; split; [done |];
    eexists; split; [exact Hrows | by exists id, host].
  destruct Ht as [[Hk Hrows] | (id & host & Hk & Hrows)].
  - split; [done |]. exists []. split; [by rewrite app_nil_r | by left].
  - split; [done |]. eexists. split; [exact Hrows |]. right. by exists id, host.
Qed.
End Theorems.
End Theorems.

(** ** Concrete inputs *)
Module Witnesses.
Import Facts Theorems Daemon.Demo.
Import StorageFacts.Witnesses.

#[local] Instance any_codec : StorageCodec := {|
  features_to_json _ := Ok "{}"%string;
  features_from_json _ := Ok quiet_input;
  audit_to_json _ := Ok "{}"%string;
  audit_from_json _ := Ok quiet_audit;
  swap_entries_to_json _ := Ok "[]"%string;
  zram_devices_to_json _ := Ok "[]"%string;
  strings_to_json _ := Ok "[]"%string;
  strings_from_json _ := Ok [];
  explanation_to_json _ := Ok "{}"%string;
  explanation_from_json _ := Ok Classifier.Witnesses.explanation;
  properties_to_json := properties_to_text;
  properties_from_json := properties_from_text;
  evidence_from_json _ := Err "unsupported"%string;
  migration_checksum text := text
|}.

#[local] Instance demo_audits : AuditCodec := {|
  zram_plans_to_json _ := Ok "[]"%string;
  zram_to_json _ := Ok "{}"%string;
  recommendation_to_json _ := Ok "{}"%string;
  tiering_to_json _ := Ok "{}"%string;
  damon_capability_to_json _ := Ok "{}"%string;
  damon_to_json _ := Ok "{}"%string;
  damos_plan_to_json _ := Ok "null"%string;
  damos_to_json _ := Ok "{}"%string;
  ksm_capability_to_json _ := Ok "{}"%string;
  ksm_to_json _ := Ok "{}"%string
|}.
(** a sample, a round of the processes, a retention and the signal *)
Definition nothing : Ready NoHost NoHost :=
  {| rd_shutdown := None; rd_system := None; rd_process := None; rd_retention := None |}.
Definition polls : list (Ready NoHost NoHost) :=
  [{| rd_shutdown := None; rd_system := Some (Some (second 1000)); rd_process := None; rd_retention := None |};
   {| rd_shutdown := None; rd_system := None; rd_process := Some (Some (second 1001), 0, no_host); rd_retention := None |};
   nothing;
   {| rd_shutdown := None; rd_system := None; rd_process := None; rd_retention := Some (Some (second 100000000)) |};
   {| rd_shutdown := Some (Ok "SIGTERM"%string); rd_system := None; rd_process := None; rd_retention := None |}].
Definition runtime (polls : list (Ready NoHost NoHost)) : Runtime NoHost NoHost :=
  {| rn_journal_mode := "wal"; rn_migrations := demo_source; rn_host := Ok machine; rn_version := "0.1.0";
     rn_config_hash := "hash"; rn_registered_at := "t0"; rn_started_at := "t1"; rn_ended_at := "t2";
     rn_instants := (0, 0, 0); rn_polls := polls |}.
Definition demo_run (polls : list (Ready NoHost NoHost)) (choices : list Choice) :=
  run (fun _ => "t"%string) (fun s => s) default_config None [low_memory] (runtime polls)
    (MkConnection (new_database "delete") choices).

Example clean_run : snd (demo_run polls []) = Ok (Some "SIGTERM"%string) /\
  session_rows (cn_data (fst (demo_run polls []))) = [(1, close_row "t2" true (open_row 1 "0.1.0" "hash" "t1"))].
Proof. split; vm_compute; reflexivity. Qed.

Lemma run_records_one_session_witness :
  consistent (set_foreign_keys true (cn_data (fst (demo_run polls [])))) /\
  exists rows, session_rows (cn_data (fst (demo_run polls []))) = [] ++ rows /\
    exists id host, rows = [(id, close_row "t2" true (open_row host "0.1.0" "hash" "t1"))].
Proof.
  assert (H : run (fun _ => "t"%string) (fun s => s) default_config None [low_memory] (runtime polls)
    (MkConnection (new_database "delete") []) = (fst (demo_run polls []), Ok (Some "SIGTERM"%string)))
    by (vm_compute; reflexivity).
  exact (run_records_one_session (fun _ => "t"%string) (fun s => s) default_config None [low_memory] (runtime polls)
    (MkConnection (new_database "delete") []) (fst (demo_run polls [])) (Ok (Some "SIGTERM"%string))
    Daemon.Witnesses.config_valid (Lifetime.new_consistent "delete") H).
Defined.
End Witnesses.
