(* ===== verification/DamonExport.v ===== *)
(** crates/damon: [export_dataset], which writes the samples of a session to a new file, over
    a class of the operations on files that it calls. *)

From S2P Require Import Prelude F64 Text Config Classifier Policy Damon Tiering BootContract BootHost.

Inductive ExportFormat := Jsonl | Csv.

(** [DamonError] with the errors of the operating system and of serde *)
Inductive ExportError :=
| ExportInvalid (message : string)
| ExportIo (error : string)
| ExportJson (error : string).
Definition export_error_to_string (e : ExportError) : string :=
  match e with
  | ExportInvalid message => "DAMON input is invalid: " ++ message
  | ExportIo error => "DAMON I/O failed: " ++ error
  | ExportJson error => "DAMON serialization failed: " ++ error
  end%string.

(** [Path::exists], [fs::canonicalize], [OpenOptions::create_new], and [write_all] on the file
    that was opened under the path *)
Class ExportSystem (W : Type) := {
  export_exists : string -> W -> bool;
  export_canonicalize : string -> W -> result string string;
  create_new : string -> eff W unit string;
  write_all : string -> string -> eff W unit string
}.

Definition debug_label (l : ObservationalLabel) : string :=
  match l with Hot => "Hot" | Warm => "Warm" | Cold => "Cold" | InsufficientHistory => "InsufficientHistory" end%string.
Definition csv_header : string :=
  "schema_version,session_id,timestamp_ns,target_id,pid,stable_identity,region_start,region_end,region_size,hot_overlap_bytes,warm_overlap_bytes,cold_overlap_bytes,hot_overlap_fraction,warm_overlap_fraction,cold_overlap_fraction,other_bytes,nr_accesses,age,sample_us,aggr_us,update_us,expected_samples,normalized_access_ratio,label,rule_version,confidence,source,kernel,operation_set".
Definition csv_fields (value : DamonRegionSample) : list string :=
  [dr_schema_version value; dr_session_id value; show_uint (dr_timestamp_ns value); show_uint (dr_target_id value);
   show_uint (dr_pid value); dr_stable_identity value; show_uint (dr_region_start value);
   show_uint (dr_region_end value); show_uint (dr_region_size value); show_uint (dr_hot_overlap_bytes value);
   show_uint (dr_warm_overlap_bytes value); show_uint (dr_cold_overlap_bytes value);
   show_f64_fixed 6 (dr_hot_overlap_fraction value); show_f64_fixed 6 (dr_warm_overlap_fraction value);
   show_f64_fixed 6 (dr_cold_overlap_fraction value); show_uint (dr_other_bytes value);
   show_uint (dr_nr_accesses value); show_uint (dr_age value); show_uint (dr_sample_us value);
   show_uint (dr_aggr_us value); show_uint (dr_update_us value); show_uint (dr_expected_samples value);
   show_f64_fixed 6 (dr_normalized_access_ratio value); debug_label (dr_observational_label value);
   dr_label_rule_version value; dr_confidence value; dr_source value; dr_kernel value; dr_operation_set value].
Definition csv_line (value : DamonRegionSample) : string := (join "," (csv_fields value) ++ newline)%string.

Section Dataset.
(** [serde_json::to_writer] *)
Context (to_json : DamonRegionSample -> result string string).

Fixpoint jsonl_lines (records : list DamonRegionSample) : result string ExportError :=
  match records with
  | [] => Ok ""%string
  | record :: records =>
      let? line := map_error ExportJson (to_json record) in
      let? lines := jsonl_lines records in
      Ok (line ++ newline ++ lines)%string
  end.
Definition dataset (format : ExportFormat) (records : list DamonRegionSample) : result string ExportError :=
  match format with
  | Jsonl => jsonl_lines records
  | Csv => Ok (csv_header ++ newline ++ join "" (map csv_line records))%string
  end.

Context {W : Type} `{ExportSystem W}.
(** an absolute path has no [.] component, so only [..] can be found *)
Definition validate_export_path (path : string) (w : W) : result unit ExportError :=
  reject (negb (is_absolute path) || export_exists path w
          || bool_decide (".."%string ∈ Process.path_components path)) (ExportInvalid "unsafe export path") ;?
  let? parent := ok_or (path_parent path) (ExportInvalid "export parent is missing") in
  let? canonical := map_error ExportIo (export_canonicalize parent w) in
  reject (negb (path_eq canonical parent)) (ExportInvalid "export parent is not canonical").

Definition export_dataset (path : string) (format : ExportFormat) (records : list DamonRegionSample) (max_bytes : Z) :
    eff W Z ExportError :=
  eff_read (validate_export_path path) ;!
  let! output := eff_read (fun _ => dataset format records) in
  let length := Z.of_nat (String.length output) in
  eff_reject (max_bytes <? length) (ExportInvalid "export exceeds configured bound") ;!
  eff_map_err ExportIo (create_new path) ;!
  eff_map_err ExportIo (write_all path output) ;!
  eff_ret length.
End Dataset.

(** What the file system promises: a created file is new and empty, a write that fails has
    written a beginning of the text, and no other file changes. *)
Class LawfulExport (W : Type) `{ExportSystem W} := {
  contents : string -> W -> option string;
  create_law path w w' r : create_new path w = (w', r) ->
    (forall p, path_eq p path = false -> contents p w' = contents p w) /\
    match r with
    | Ok _ => contents path w = None /\ contents path w' = Some ""%string
    | Err _ => contents path w' = contents path w
    end;
  write_law path text w w' r : write_all path text w = (w', r) -> contents path w = Some ""%string ->
    (forall p, path_eq p path = false -> contents p w' = contents p w) /\
    match r with
    | Ok _ => contents path w' = Some text
    | Err _ => exists start rest, text = (start ++ rest)%string /\ contents path w' = Some start
    end
}.

Module Facts.
Section Facts.
Context (to_json : DamonRegionSample -> result string string) {W : Type} `{LawfulExport W}.

(** the steps after the checks: what is left of the file *)
Definition only_file (path : string) (w w' : W) : Prop :=
  forall p, path_eq p path = false -> contents p w' = contents p w.
Lemma write_steps path text (n : Z) w w' r :
  eff_bind (eff_map_err ExportIo (create_new path)) (fun _ =>
    eff_bind (eff_map_err ExportIo (write_all path text)) (fun _ => eff_ret n)) w = (w', r) ->
  only_file path w w' /\
  match r with
  | Ok m => m = n /\ contents path w = None /\ contents path w' = Some text
  | Err _ => contents path w' = contents path w \/
      contents path w = None /\ exists start rest, text = (start ++ rest)%string /\ contents path w' = Some start
  end.
Proof.
  unfold eff_bind, eff_map_err, eff_ret, only_file.
  destruct (create_new path w) as [w1 [u|e]] eqn:Ec; apply create_law in Ec as [Ho Hc].
  - destruct Hc as [Hnone Hempty]. destruct (write_all path text w1) as [w2 [u2|e2]] eqn:Ew; intros [= <- <-];
      apply write_law in Ew as [Ho' Hw]; try exact Hempty;
      (split; [intros p Hp; by rewrite Ho', Ho |]); [done | by right].
  - intros [= <- <-]. split; [exact Ho | by left].
Qed.
(** an absolute path without [..], in a directory that is its own canonical path *)
Definition confined (path : string) (w : W) : Prop :=
  is_absolute path = true /\ (".."%string ∉ Process.path_components path) /\
  exists parent canonical, path_parent path = Some parent /\ export_canonicalize parent w = Ok canonical /\
    path_eq canonical parent = true.
Lemma validate_ok path (w : W) : validate_export_path path w = Ok tt -> confined path w.
Proof.
  unfold validate_export_path, reject, map_error. intros Hv. inv_ok.
  apply orb_false_iff in E4 as [[Habs Hex]%orb_false_iff Hdots]. apply negb_false_iff in Habs, E3.
  apply bool_decide_eq_false in Hdots. split_and!; try done. exists a0, a1.
  destruct (path_parent path); [| done]. by injection E0 as ->.
Qed.
End Facts.
End Facts.

(** ** Theorems *)
Module Theorems.
Import Facts.
(** C25: an export never changes a file that exists, nor any file besides the one it was asked
    for, and it creates that one only under an absolute path without [..] in a canonical
    directory. When it succeeds the file is new and holds exactly the dataset, within the bound;
    when it fails the file is as it was, or new with a beginning of the dataset, which is left
    there. *)
Theorem export_writes_new_file {W} `{LawfulExport W} to_json path format records max_bytes (w w' : W) r :
  export_dataset to_json path format records max_bytes w = (w', r) ->
  only_file path w w' /\
  match r with
  | Ok n => confined path w /\ contents path w = None /\
      exists text, dataset to_json format records = Ok text /\ contents path w' = Some text /\
        n = Z.of_nat (String.length text) /\ n <= max_bytes
  | Err _ => contents path w' = contents path w \/
      confined path w /\ contents path w = None /\ exists start rest,
        dataset to_json format records = Ok (start ++ rest)%string /\ contents path w' = Some start
  end.
Proof.
  unfold export_dataset. intros He.
  assert (Hstop : forall e, (w, Err e) = (w', r) -> only_file path w w' /\
    match r with Ok _ => False | Err _ => contents path w' = contents path w end) by (by intros e [= <- <-]).
  unfold eff_bind at 1, eff_read in He. destruct (validate_export_path path w) as [[]|e] eqn:Ev;
    [| destruct (Hstop _ He); destruct r; by auto].
  unfold eff_bind at 1, eff_read in He. destruct (dataset to_json format records) as [text|e] eqn:Ed;
    [| destruct (Hstop _ He); destruct r; by auto].
  cbv zeta in He. unfold eff_bind at 1, eff_reject in He. destruct (_ <? _) eqn:Eb;
    [destruct (Hstop _ He); destruct r; by auto |]. cbv beta iota delta [eff_ret] in He.
  apply write_steps in He as [Ho Hr]. apply validate_ok in Ev. split; [exact Ho |]. destruct r as [n|e].
  - destruct Hr as (-> & Hnone & Hc). split_and!; try done. exists text. split_and!; try done. lia.
  - destruct Hr as [Hc | (Hnone & start & rest & -> & Hc)]; [by left | right].
    split_and!; [done.. |]. by exists start, rest.
Qed.
End Theorems.

(** ** Concrete inputs *)
Module Witnesses.
Import Facts Theorems.
(** a disk without links, where a file is known by the components of its path *)
#[local] Abbreviation Disk := (gmap (bool * bool * list string) string).
#[local] Instance disk : ExportSystem Disk := {
  export_exists p d := bool_decide (is_Some (d !! path_key p));
  export_canonicalize p d := Ok p;
  create_new p := fun d =>
    match d !! path_key p with
    | Some _ => (d, Err "file exists"%string)
    | None => (<[path_key p := ""%string]> d, Ok tt)
    end;
  write_all p text := fun d => (<[path_key p := text]> d, Ok tt)
}.
#[local] Instance disk_lawful : LawfulExport Disk.
Proof.
  refine {| contents p d := d !! path_key p |}.
  - intros path w w' r. unfold create_new, disk. destruct (w !! path_key path) eqn:E; intros [= <- <-]; [done |].
    split; [| by rewrite lookup_insert_eq].
    intros p Hp%bool_decide_eq_false. by rewrite lookup_insert_ne.
  - intros path text w w' r [= <- <-] _. split; [| by rewrite lookup_insert_eq].
    intros p Hp%bool_decide_eq_false. by rewrite lookup_insert_ne.
Defined.

Definition exported := export_dataset (fun _ => Ok "{}"%string) "/var/lib/nemor/export.csv" Csv [] 1000 (∅ : Disk).
Lemma export_writes_new_file_witness :
  snd exported = Ok 381 /\ contents "/var/lib/nemor/export.csv" (fst exported) = Some (csv_header ++ newline)%string.
Proof.
  assert (Hs : snd exported = Ok 381) by (vm_compute; reflexivity).
  pose proof (eq_trans (surjective_pairing exported) (f_equal (pair (fst exported)) Hs)) as H.
  destruct (export_writes_new_file (fun _ => Ok "{}"%string) "/var/lib/nemor/export.csv" Csv [] 1000 ∅ (fst exported)
    (Ok 381) H) as (_ & _ & _ & text & Ht & Hc & _).
  injection Ht as <-. exact (conj Hs Hc).
Defined.
End Witnesses.
