(* ===== verification/Nemorctl.v ===== *)
(** crates/nemorctl/src/lib.rs: the commands of the command line, over the answers of the
    host and a database opened read-only, and main.rs: the text and the exit status of each
    command. [loaded] is the answer of [LoadedConfig::load]. JSON and the derived debug text
    are parameters; the parsing of the arguments and the benchmark commands are left out. *)

From stdpp Require sorting.
From S2P Require Import Prelude F64 Text Config Classifier Collector Workload Actuator Policy.
From S2P Require Import Damon Damos Ksm Zram Tiering BootContract BootHost Daemon Common Storage StorageFacts Nemord DamonExport.

(** What the checks of [doctor] ask of the host: [File::open] and whether the opened path is
    a regular file, [read_dir], [exists], the text of a file. *)
Class CommandHost (W : Type) := {
  open_file : string -> W -> result (result bool string) string;
  read_directory : string -> W -> result unit string;
  path_there : string -> W -> bool;
  file_contents : string -> W -> result string string
}.

(** ** The checks *)

Definition check_result (name : string) (status : CheckStatus) (message : string) (details : option string) : CheckResult :=
  {| cr_name := name; cr_status := status; cr_message := message; cr_details := details |}.
Definition pass_with_details (name message : string) (details : option string) : CheckResult :=
  check_result name CheckPass message details.
Definition pass (name message : string) : CheckResult := pass_with_details name message None.
Definition warn (name message : string) (details : option string) : CheckResult :=
  check_result name CheckWarn message details.
Definition fail_check (name message : string) : CheckResult := check_result name CheckFail message None.

Section Doctor.
Context {W : Type} `{CommandHost W}.

Definition readable_file (name path : string) (missing_status : CheckStatus) (success : string) (w : W) : CheckResult :=
  match open_file path w with
  | Ok (Ok true) => pass_with_details name success (Some ("path=" ++ path)%string)
  | Ok (Ok false) => check_result name missing_status "path is not a regular file" (Some ("path=" ++ path)%string)
  | Ok (Err error) =>
      check_result name missing_status "cannot inspect opened path" (Some ("path=" ++ path ++ ", error=" ++ error)%string)
  | Err error =>
      check_result name missing_status "required path is unavailable or unreadable"
        (Some ("path=" ++ path ++ ", error=" ++ error)%string)
  end.
Definition readable_directory (name path : string) (missing_status : CheckStatus) (success : string) (w : W) : CheckResult :=
  match read_directory path w with
  | Ok _ => pass_with_details name success (Some ("path=" ++ path)%string)
  | Err error =>
      check_result name missing_status "directory is unavailable or unreadable"
        (Some ("path=" ++ path ++ ", error=" ++ error)%string)
  end.
(** the value of the first line with the key ID *)
Definition distribution_id (contents : string) : option string :=
  find_map (fun line =>
    match split_once "=" line with
    | Some (key, value) => then_some (String.eqb (trim key) "ID") (trim_char "'" (trim_char "034" (trim value)))
    | None => None
    end) (lines contents).
Definition distribution_check (path : string) (w : W) : CheckResult :=
  match file_contents path w with
  | Ok contents =>
      match distribution_id contents with
      | Some distribution =>
          if str_empty distribution then fail_check "distribution" "os-release does not contain a valid ID"
          else pass_with_details "distribution" "Linux distribution is identifiable" (Some ("id=" ++ distribution)%string)
      | None => fail_check "distribution" "os-release does not contain a valid ID"
      end
  | Err error =>
      check_result "distribution" CheckFail "Linux distribution is not identifiable"
        (Some ("path=" ++ path ++ ", error=" ++ error)%string)
  end.
Definition parent_directory (path : string) : string :=
  match path_parent path with
  | Some parent => if str_empty parent then "." else parent
  | None => "."
  end.
Definition database_path_checks (database_path : string) (w : W) : list CheckResult :=
  [if path_there database_path w
   then readable_file "database_path" database_path CheckFail "database file exists and is readable" w
   else warn "database_path" "database file does not exist yet" (Some database_path);
   readable_directory "database_directory" (parent_directory database_path) CheckFail
     "database parent directory exists and is readable" w].

Record DoctorEnvironment := { de_paths : LinuxPaths; de_operating_system : string }.

Section Commands.
Context (config_path : string) (loaded : result Config string).

(** [LoadedConfig::load(..).context(..)] *)
Definition with_config {A} (context : string) (k : Config -> result A string) : result A string :=
  match loaded with Ok config => k config | Err e => Err (context ++ ": " ++ e)%string end.
Definition input_context (command : string) : string :=
  (command ++ " input configuration " ++ config_path ++ " is invalid")%string.

Definition doctor_checks (environment : DoctorEnvironment) (config : Config) (w : W) : list CheckResult :=
  let paths := de_paths environment in
  [if String.eqb (de_operating_system environment) "linux" then pass "operating_system" "running on Linux"
   else fail_check "operating_system" ("Linux is required; detected " ++ de_operating_system environment);
   readable_file "kernel" (kernel_release_path paths) CheckFail "kernel release is identifiable" w;
   readable_directory "proc" (Common.proc_dir paths) CheckFail "/proc is available and readable" w;
   readable_file "proc_meminfo" (meminfo_path paths) CheckFail "/proc/meminfo is readable" w;
   readable_file "proc_vmstat" (vmstat_path paths) CheckFail "/proc/vmstat is readable" w;
   readable_file "psi_memory" (psi_memory_path paths) CheckWarn "memory PSI is available" w;
   readable_file "psi_cpu" (psi_cpu_path paths) CheckWarn "CPU PSI is available" w;
   readable_file "psi_io" (psi_io_path paths) CheckWarn "I/O PSI is available" w;
   readable_file "cgroups_v2" (cgroup_controllers_path paths) CheckWarn "cgroups v2 controllers are detectable" w;
   readable_file "os_release" (os_release_path paths) CheckFail "/etc/os-release is readable" w;
   distribution_check (os_release_path paths) w;
   readable_file "machine_id" (machine_id_path paths) CheckFail "/etc/machine-id is readable" w;
   readable_file "configuration" config_path CheckFail "configuration is readable and valid" w]%string
  ++ database_path_checks (general_database_path (general config)) w.
Definition doctor (environment : DoctorEnvironment) (w : W) : result DoctorReport string :=
  with_config (input_context "doctor") (fun config =>
    Ok {| dr_checks := doctor_checks environment config w |}).
End Commands.
End Doctor.

(** ** The reports *)

(** [serde_json::from_str] on the audits that the daemon stored *)
Class AuditDecoder := {
  zram_from_json : string -> result ZramAuditReport string;
  tiering_from_json : string -> result TieringAuditReport string;
  damon_from_json : string -> result DamonReport string
}.

Record CgroupStatus := {
  cgs_cgroup_v2 : bool;
  cgs_memory_controller : bool;
  cgs_enabled : bool;
  cgs_dry_run : bool;
  cgs_backend : Actuator.BackendKind;
  cgs_managed_groups : Z;
  cgs_assignments : Z;
  cgs_rollback_pending : Z;
  cgs_stale_recovery_state : Z;
  cgs_last_safety_error : option string
}.
Record PolicyStatus := {
  pst_enabled : bool;
  pst_policy_name : string;
  pst_rule_version : string;
  pst_current_state : PressureState;
  pst_previous_state : option PressureState;
  pst_state_since_ns : Z;
  pst_candidate_state : option PressureState;
  pst_dry_run : bool;
  pst_evidence : list PolicyEvidence;
  pst_planned_actions : list PlannedAction;
  pst_rejected_actions : list RejectedAction
}.
Record ZramDeviceStatus := { zds_inventory : DeviceInventory; zds_metrics : CompressionMetrics }.
Record ZramStatus := {
  zst_available : bool;
  zst_devices : list ZramDeviceStatus;
  zst_enabled : bool;
  zst_dry_run : bool;
  zst_rollback_pending : bool;
  zst_recovery_pending : bool
}.
Record CommandContract := {
  bc_name : BootValidationCommandV6;
  bc_mutating : bool;
  bc_authenticated_root : bool;
  bc_separately_authorized : bool
}.
Record BootContractReport := {
  br_contract_version : string;
  br_prepared_manifest_schema : string;
  br_durable_transaction_schema : string;
  br_preflight_schema : string;
  br_workload_protocol : string;
  br_contract_rule_version : string;
  br_normal_cli_mutation : bool;
  br_production_activation_command : bool;
  br_commands : list CommandContract
}.

Section Reports.
Context `{StorageCodec} `{AuditDecoder}.
Context (config_path : string) (loaded : result Config string).
(** the database of the configuration: whether its file exists, and [open_with_flags] *)
Context (present : string -> bool) (opened : string -> result (Connection Database) string).
Abbreviation with_config := (with_config loaded).
Abbreviation input_context := (input_context config_path).
Definition database_path (config : Config) : string := general_database_path (general config).

Definition status : result StatusReport string :=
  with_config (input_context "status") (fun config =>
    let path := database_path config in inspect_status path (present path) (opened path)).
Definition report_latest : result LatestTelemetryReport string :=
  with_config (input_context "report") (fun config =>
    let path := database_path config in latest_telemetry_report path (opened path)).
Definition workload_latest : result LatestWorkloadReport string :=
  with_config (input_context "workload") (fun config =>
    let path := database_path config in latest_workload_report path (opened path)).
Definition cgroups_status (found : result CgroupCapabilities ActuatorError) : result CgroupStatus string :=
  with_config (input_context "cgroups status") (fun config =>
    let? capabilities := Linux.map_err error_to_string found in
    let path := database_path config in
    let? stored := inspect_cgroup_status path (present path) (opened path) in
    Ok {| cgs_cgroup_v2 := cap_cgroup_v2 capabilities; cgs_memory_controller := cap_memory_controller capabilities;
          cgs_enabled := cgroups_enabled (cgroups config);
          cgs_dry_run := String.eqb (general_mode (general config)) "observe" || cgroups_dry_run (cgroups config)
                         || negb (cgroups_enabled (cgroups config));
          cgs_backend := LinuxCgroupfs; cgs_managed_groups := cs_managed_groups stored;
          cgs_assignments := cs_assignments stored; cgs_rollback_pending := cs_rollback_pending stored;
          cgs_stale_recovery_state := cs_stale_recovery_state stored;
          cgs_last_safety_error := cs_last_safety_error stored |}).
Definition policy_latest : result LatestPolicyDecision string :=
  with_config (input_context "policy latest") (fun config =>
    let path := database_path config in latest_policy_decision path (opened path)).
Definition policy_status : result PolicyStatus string :=
  with_config (input_context "policy status") (fun config =>
    let path := database_path config in
    let? latest := latest_policy_decision path (opened path) in
    let audit := lp_audit latest in
    Ok {| pst_enabled := policy_enabled (policy config); pst_policy_name := Policy.POLICY_NAME;
          pst_rule_version := Policy.RULE_VERSION; pst_current_state := lp_pressure_state latest;
          pst_previous_state := au_previous_state audit; pst_state_since_ns := au_state_since_ns audit;
          pst_candidate_state := au_candidate_state audit; pst_dry_run := au_dry_run audit;
          pst_evidence := au_evidence audit; pst_planned_actions := au_planned_actions audit;
          pst_rejected_actions := au_rejected_actions audit |}).

Section Zram.
Context {W : Type} `{Zram.ZramSystem W}.
Definition zram_status (w : W) : result ZramStatus string :=
  with_config "invalid zram status configuration" (fun config =>
    let? inventory := Linux.map_err zram_error_to_string (Zram.inspect_linux "/" w) in
    Ok {| zst_available := iv_available inventory;
          zst_devices := map (fun device => {| zds_inventory := device; zds_metrics := metrics device |})
                           (iv_devices inventory);
          zst_enabled := compression_enabled (compression config);
          zst_dry_run := String.eqb (general_mode (general config)) "observe" || compression_dry_run (compression config);
          zst_rollback_pending := false; zst_recovery_pending := false |}).

Definition meminfo_value (input name : string) : result Z string :=
  let? value := ok_or (find_map (strip_prefix name) (lines input) ≫= (fun value => head (split_whitespace value)))
    "required meminfo field is unavailable" in
  let? kib := ok_or (parse_u64 value) ("invalid meminfo value: " ++ int_error false u64_max value)%string in
  ok_or (u64_checked_mul kib 1024) "meminfo value overflow".
(** [read_memory_capacity] on the answer for /proc/meminfo *)
Definition read_memory_capacity (meminfo : result string string) : result (Z * Z) string :=
  let? input := with_text "cannot read /proc/meminfo" meminfo in
  let? total := meminfo_value input "MemTotal:" in
  let? available := meminfo_value input "MemAvailable:" in
  Ok (total, available).
Definition profile_context (total_ram_bytes available_bytes : Z) (device : DeviceInventory) (requested : ZramProfile) :
    ProfileContext :=
  {| pc_requested := requested; pc_device := device; pc_benchmarks := [];
     pc_total_ram_bytes := total_ram_bytes; pc_mem_available_bytes := available_bytes;
     pc_current_used_bytes := unwrap_or (mm_mem_used_total (dv_mm_stat device)) 0;
     pc_pressure_state := Watch; pc_psi_full_avg10 := None; pc_swap_in_per_second := None;
     pc_gaming := match requested with Zram.Gaming => true | _ => false end;
     pc_pressure_worsening := false; pc_safety_events := 0; pc_rollback_pending := false;
     pc_provider_matches_snapshot := true |}.
Definition zram_profiles (meminfo : result string string) (w : W) : result (list ZramProfilePlan) string :=
  with_config "invalid zram profile configuration" (fun config =>
    let? inventory := Linux.map_err zram_error_to_string (Zram.inspect_linux "/" w) in
    let? capacity := read_memory_capacity meminfo in
    Ok (flat_map (fun device => map (fun requested =>
          plan_profile (profile_context (fst capacity) (snd capacity) device requested) (compression config)
            (general_mode (general config))) [Zram.Safe; Zram.Gaming; Zram.Capacity]) (iv_devices inventory))).
End Zram.

(** the audit that was stored last for a reason *)
Definition stored_audit {A} (context reason : string) (decode : string -> result A string) (invalid : string) : result A string :=
  with_config context (fun config =>
    let? snapshot := latest_configuration_snapshot (opened (database_path config)) reason in
    with_text invalid (decode (lc_system_values_json snapshot))).
Definition zram_report_latest : result ZramAuditReport string :=
  stored_audit "invalid zram report configuration" Zram.AUDIT_REASON zram_from_json "invalid stored zram audit JSON".
Definition tiering_report_latest : result TieringAuditReport string :=
  stored_audit "invalid tiering report configuration" TIERING_AUDIT_REASON tiering_from_json
    "invalid stored tiering audit JSON".
Definition damon_report_latest : result DamonReport string :=
  stored_audit "invalid DAMON report configuration" "damon_observe_audit" damon_from_json
    "invalid stored DAMON audit JSON".
Definition damon_sessions : result (list string) string :=
  with_config "invalid DAMON sessions configuration" (fun config =>
    Ok match latest_configuration_snapshot (opened (database_path config)) "damon_observe_audit" with
       | Ok snapshot => [lc_created_at snapshot]
       | Err _ => []
       end).

Section DamonExports.
Context {X : Type} `{ExportSystem X} (to_json : DamonRegionSample -> result string string).
(** the command line has no samples to export *)
Definition damon_export (format : ExportFormat) (output : string) : eff X Z string :=
  let! config := eff_read (fun _ => with_config "invalid DAMON export configuration" Ok) in
  eff_map_err export_error_to_string
    (export_dataset to_json output format [] (damon_export_max_bytes (damon config))).
End DamonExports.

Section Tiering.
Context {V : Type} `{Tiering.TieringSystem V}.
Definition tiering_status (v : V) : result TieringAuditReport string :=
  with_config "invalid tiering status configuration" (fun config => Tiering.inspect_host (tiering config) 0 v).
Definition tiering_recommend (v : V) : result BackendRecommendation string :=
  let? report := tiering_status v in Ok (tr_recommendation report).
End Tiering.
Definition tiering_boot_contract : BootContractReport :=
  {| br_contract_version := BOOT_VALIDATION_CONTRACT_VERSION_V6;
     br_prepared_manifest_schema := PREPARED_MANIFEST_SCHEMA_V6;
     br_durable_transaction_schema := DURABLE_TRANSACTION_SCHEMA_V6;
     br_preflight_schema := PREFLIGHT_SCHEMA_V6; br_workload_protocol := WORKLOAD_PROTOCOL_V6;
     br_contract_rule_version := TIERING_RULE_VERSION; br_normal_cli_mutation := false;
     br_production_activation_command := false;
     br_commands := map (fun command =>
         {| bc_name := command; bc_mutating := mutating command;
            bc_authenticated_root := requires_authenticated_root command;
            bc_separately_authorized := mutating command |})
       [CmdPrepare; CmdUserPreflight; CmdRootPreflight; CmdMeasureBaseline; CmdApply; CmdVerifyApplied;
        CmdSelectOneShot; CmdPostBootValidate; CmdSelectBaselineRollback; CmdVerifyFinalRestore;
        CmdRecover; CmdVerifyIdempotence] |}.

Definition osrelease_path : string := "/proc/sys/kernel/osrelease".
Definition damon_status (fs : Damon.Files) : result DamonReport string :=
  with_config "invalid DAMON status configuration" (fun config =>
    Ok (Damon.observe_report fs (damon config)
          (Some match Damon.file_text fs osrelease_path with Ok text => trim text | Err _ => EmptyString end))).
Definition damos_status (fs : Damon.Files) : result DamosReport string :=
  with_config "invalid DAMOS status configuration" (fun config =>
    let capability := Damon.inspect_linux fs "/"
      match Damon.file_text fs osrelease_path with Ok text => Some (trim text) | Err _ => None end in
    Ok {| dmr_schema := Damos.REPORT_SCHEMA; dmr_capability := observe_capability capability;
          dmr_plan := None; dmr_shadow_stats := None; dmr_live_stats := None; dmr_reclaim := None;
          dmr_refault := None; dmr_refault_state := NotEvaluated; dmr_blacklist := None;
          dmr_cleanup := true; dmr_recovery := true; dmr_recovery_idempotent := true;
          dmr_host_unchanged := true; dmr_dry_run := true;
          dmr_blocked_reasons := [if damos_live_apply (damos config) then "production_live_apply_forbidden"
                                  else "validation_harness_only"]%string |}).
(** an error of the database is an empty history *)
Definition or_empty {A} (r : result (list A) string) : result (list A) string :=
  match r with Ok l => Ok l | Err _ => Ok [] end.
Definition damos_history : result (list DamosHistoryEntry) string :=
  with_config "invalid DAMOS history configuration" (fun config =>
    or_empty (Storage.damos_history (opened (database_path config)) 20)).
Definition damos_plan_latest : result (option DamosHistoryEntry) string :=
  let? history := damos_history in Ok (head history).
(** [clock]: the nanoseconds since the epoch, if the clock is not before it *)
Definition damos_blacklist (clock : option Z) : result (list BlacklistRecord) string :=
  with_config "invalid DAMOS blacklist configuration" (fun config =>
    or_empty (Storage.damos_blacklist (opened (database_path config))
                match clock with Some n => Z.min n i64_max | None => 0 end)).

Definition ksm_status (fs : Ksm.KsmFiles) (clock : option Z) : result KsmReport string :=
  with_config "invalid KSM status configuration" (fun _ =>
    Ok (Ksm.inspect_linux fs "/sys/kernel/mm/ksm" "/proc" (unwrap_or clock 0))).
Definition ksm_processes (fs : Ksm.KsmFiles) : result (list KsmProcessMetrics) string :=
  with_config "invalid KSM process configuration" (fun _ => Ok (external_mergeable_processes fs "/proc" ∅)).
Definition ksm_plan_latest (fs : Ksm.KsmFiles) (clock : option Z) : result (option Ksm.EligibilityDecision) string :=
  let? report := ksm_status fs clock in Ok (kr_plan report).
Definition ksm_report_latest : Ksm.KsmFiles -> option Z -> result KsmReport string := ksm_status.
Definition ksm_history : result (list ProfitEvaluation) string :=
  with_config "invalid KSM history configuration" (fun _ => Ok []).
End Reports.

(** ** The text of a report; the JSON is serde's *)

Definition show_bool (b : bool) : string := if b then "true" else "false".
Definition line (label value : string) : string := (label ++ ": " ++ value)%string.
Definition text_of (lines : list string) : string := (join newline lines ++ newline)%string.
Definition render_check (check : CheckResult) : string :=
  let status := match cr_status check with CheckPass => "PASS" | CheckWarn => "WARN" | CheckFail => "FAIL" end in
  ("[" ++ status ++ "] " ++ cr_name check ++ ": " ++ cr_message check ++ newline ++
   match cr_details check with Some details => "       " ++ details ++ newline | None => "" end)%string.
Definition render_doctor (report : DoctorReport) : string := join "" (map render_check (dr_checks report)).
Definition state_name (state : StatusState) : string :=
  match state with
  | DatabaseMissing => "database_missing" | NoSessions => "no_sessions" | SessionOpen => "session_open"
  | ClosedClean => "closed_clean" | ClosedUnclean => "closed_unclean"
  end%string.
Definition host_line (host : option HostSummary) : string :=
  line "Last host" match host with
                   | Some host => hs_hostname host ++ " (" ++ hs_distro host ++ ", kernel " ++ hs_kernel_version host ++ ")"
                   | None => "n/a"
                   end%string.
Definition session_lines (session : option SessionSummary) : list string :=
  match session with
  | Some session =>
      [line "Session id" (show_int (sm_id session)); line "Mode" (sm_mode session);
       line "Started" (sm_started_at session); line "Ended" (unwrap_or (sm_ended_at session) "n/a");
       line "Clean shutdown" (show_bool (sm_clean_shutdown session));
       line "Daemon version" (sm_daemon_version session)]
  | None => [line "Last session" "n/a"]
  end%string.
Definition render_status (report : StatusReport) : string :=
  text_of
    ([line "Database" (sr_database_path report); line "Database present" (show_bool (sr_database_present report));
      line "Schema version" match sr_schema_version report with Some v => show_int v | None => "n/a" end%string;
      line "State" (state_name (sr_state report)); line "Description" (sr_state_description report);
      host_line (sr_last_host report)]
     ++ session_lines (sr_last_session report)).
Definition debug_backend (k : Actuator.BackendKind) : string :=
  match k with LinuxCgroupfs => "LinuxCgroupfs" | Simulated => "Simulated" end%string.
Definition render_cgroups_status (report : CgroupStatus) : string :=
  text_of [line "Cgroup v2" (show_bool (cgs_cgroup_v2 report));
    line "Memory controller" (show_bool (cgs_memory_controller report));
    line "Enabled" (show_bool (cgs_enabled report)); line "Dry run" (show_bool (cgs_dry_run report));
    line "Backend" (debug_backend (cgs_backend report)); line "Managed groups" (show_uint (cgs_managed_groups report));
    line "Assignments" (show_uint (cgs_assignments report));
    line "Rollback pending" (show_uint (cgs_rollback_pending report));
    line "Stale recovery state" (show_uint (cgs_stale_recovery_state report));
    line "Last safety error" (unwrap_or (cgs_last_safety_error report) "none")]%string.
Definition debug_state (state : PressureState) : string :=
  match state with
  | Normal => "Normal" | Watch => "Watch" | Pressure => "Pressure" | Critical => "Critical"
  | Emergency => "Emergency" | Stabilizing => "Stabilizing"
  end%string.
Definition debug_option_state (state : option PressureState) : string :=
  match state with Some state => "Some(" ++ debug_state state ++ ")" | None => "None" end%string.
Definition render_policy_status (report : PolicyStatus) : string :=
  let count {A} (l : list A) := show_uint (Z.of_nat (length l)) in
  text_of [line "Enabled" (show_bool (pst_enabled report)); line "Policy" (pst_policy_name report);
    line "Rule version" (pst_rule_version report); line "Current state" (debug_state (pst_current_state report));
    line "Previous state" (debug_option_state (pst_previous_state report));
    line "State since" (show_int (pst_state_since_ns report));
    line "Candidate state" (debug_option_state (pst_candidate_state report));
    line "Dry run" (show_bool (pst_dry_run report)); line "Evidence" (count (pst_evidence report));
    line "Planned actions" (count (pst_planned_actions report));
    line "Rejected actions" (count (pst_rejected_actions report))]%string.
Definition render_policy_latest (report : LatestPolicyDecision) : string :=
  text_of [line "Decision id" (show_int (lp_id report)); line "Session id" (show_int (lp_session_id report));
    line "Timestamp" (show_int (lp_timestamp_ns report)); line "State" (debug_state (lp_pressure_state report));
    line "Policy" (lp_policy_name report); line "Rule version" (lp_rule_version report);
    line "Dry run" (show_bool (au_dry_run (lp_audit report)));
    line "Model version" (unwrap_or (lp_model_version report) "none")]%string.
Definition optional_u64 (value : option Z) : string :=
  match value with Some value => show_uint value | None => "n/a" end%string.
Definition optional_f64 (value : option f64) : string :=
  match value with Some value => show_f64_fixed 2 value | None => "n/a" end%string.
Definition names (separator : string) (l : list string) : string :=
  match l with [] => "none" | _ => join separator l end%string.
Definition render_report (report : LatestTelemetryReport) : string :=
  text_of [line "Session id" (show_int (lt_session_id report)); line "Started" (lt_started_at report);
    line "Ended" (unwrap_or (lt_ended_at report) "n/a");
    line "System samples" (show_uint (lt_system_samples report));
    line "Process samples" (show_uint (lt_process_samples report));
    line "Minimum MemAvailable" (optional_u64 (lt_min_mem_available_bytes report));
    line "Maximum swap used" (optional_u64 (lt_max_swap_used_bytes report));
    line "Maximum PSI memory some avg10" (optional_f64 (lt_max_psi_memory_some_avg10 report));
    line "Maximum PSI memory full avg10" (optional_f64 (lt_max_psi_memory_full_avg10 report));
    line "Delta major faults" (optional_u64 (lt_delta_major_faults report));
    line "Delta swap-in" (optional_u64 (lt_delta_swap_in_pages report));
    line "Delta swap-out" (optional_u64 (lt_delta_swap_out_pages report));
    line "Zram observed" (show_bool (lt_zram_observed report));
    line "Zswap observed" (show_bool (lt_zswap_observed report));
    line "Capabilities unavailable" (names ", " (lt_capabilities_unavailable report))]%string.
Definition render_workload (report : LatestWorkloadReport) : string :=
  text_of [line "Session id" (show_int (lw_session_id report));
    line "Classification available" (show_bool (lw_available report));
    line "Current workload" (default "unknown" (show_class <$> lw_current_class report));
    line "Confidence" (optional_f64 (lw_confidence report));
    line "Rule version" (unwrap_or (lw_rule_version report) "n/a");
    line "Last change timestamp_ns" (default "n/a" (show_int <$> lw_last_change_timestamp_ns report));
    line "Top reasons" (names "; " (lw_top_reasons report));
    line "Gaming signals" (names ", " (lw_gaming_signals report));
    line "Pressure signal" (unwrap_or (lw_pressure_signal report) "none");
    line "Game processes" (show_uint (lw_game_processes report));
    line "Critical processes" (show_uint (lw_critical_processes report));
    line "Unknown processes" (show_uint (lw_unknown_processes report)); line "Status" (lw_message report)]%string.

(** ** main.rs *)

(** the subcommands that print a report; [damon export] is [main_export] *)
Inductive Command :=
| CommandDoctor
| CommandStatus
| CommandReportLatest
| CommandWorkloadLatest
| CommandCgroupsStatus
| CommandPolicyStatus
| CommandPolicyLatest
| CommandZramStatus
| CommandZramProfiles
| CommandZramReportLatest
| CommandTieringStatus
| CommandTieringRecommend
| CommandTieringBootContract
| CommandTieringReportLatest
| CommandDamonStatus
| CommandDamonSessions
| CommandDamonReportLatest
| CommandDamosStatus
| CommandDamosPlanLatest
| CommandDamosHistory
| CommandDamosBlacklist
| CommandKsmStatus
| CommandKsmProcesses
| CommandKsmPlanLatest
| CommandKsmReportLatest
| CommandKsmHistory.
(** the report that a command prints *)
Inductive Answer :=
| AnswerDoctor (report : DoctorReport)
| AnswerStatus (report : StatusReport)
| AnswerReport (report : LatestTelemetryReport)
| AnswerWorkload (report : LatestWorkloadReport)
| AnswerCgroups (report : CgroupStatus)
| AnswerPolicyStatus (report : PolicyStatus)
| AnswerPolicyLatest (report : LatestPolicyDecision)
| AnswerZramStatus (report : ZramStatus)
| AnswerZramProfiles (plans : list ZramProfilePlan)
| AnswerZramReport (report : ZramAuditReport)
| AnswerTiering (report : TieringAuditReport)
| AnswerRecommendation (recommendation : BackendRecommendation)
| AnswerBootContract (report : BootContractReport)
| AnswerDamon (report : DamonReport)
| AnswerDamonSessions (sessions : list string)
| AnswerDamos (report : DamosReport)
| AnswerDamosPlan (plan : option DamosHistoryEntry)
| AnswerDamosHistory (history : list DamosHistoryEntry)
| AnswerDamosBlacklist (records : list BlacklistRecord)
| AnswerKsm (report : KsmReport)
| AnswerKsmProcesses (processes : list KsmProcessMetrics)
| AnswerKsmPlan (plan : option Ksm.EligibilityDecision)
| AnswerKsmHistory (history : list ProfitEvaluation).

(** what the host answers to one command *)
Record CommandInput (D W V : Type) := {
  in_doctor : D;
  in_environment : DoctorEnvironment;
  in_present : string -> bool;
  in_opened : string -> result (Connection Database) string;
  in_cgroups : result CgroupCapabilities ActuatorError;
  in_zram : W;
  in_meminfo : result string string;
  in_tiering : V;
  in_damon : Damon.Files;
  in_ksm : Ksm.KsmFiles;
  in_clock : option Z
}.
Arguments in_doctor {D W V} _.
Arguments in_environment {D W V} _.
Arguments in_present {D W V} _.
Arguments in_opened {D W V} _.
Arguments in_cgroups {D W V} _.
Arguments in_zram {D W V} _.
Arguments in_meminfo {D W V} _.
Arguments in_tiering {D W V} _.
Arguments in_damon {D W V} _.
Arguments in_ksm {D W V} _.
Arguments in_clock {D W V} _.

Section Main.
Context `{StorageCodec} `{AuditDecoder}.
Context {D W V : Type} `{CommandHost D} `{Zram.ZramSystem W} `{Tiering.TieringSystem V}.
(** [serde_json::to_string_pretty] and the derived [{:#?}] of a report *)
Context (to_string_pretty : Answer -> result string string) (debug : Answer -> string).
Context (config_path : string) (loaded : result Config string) (input : CommandInput D W V).

Definition answer (command : Command) : result Answer string :=
  let opened := in_opened input in
  let present := in_present input in
  let said {A} (shown : A -> Answer) (r : result A string) : result Answer string := let? a := r in Ok (shown a) in
  match command with
  | CommandDoctor => said AnswerDoctor (doctor config_path loaded (in_environment input) (in_doctor input))
  | CommandStatus => said AnswerStatus (status config_path loaded present opened)
  | CommandReportLatest => said AnswerReport (report_latest config_path loaded opened)
  | CommandWorkloadLatest => said AnswerWorkload (workload_latest config_path loaded opened)
  | CommandCgroupsStatus => said AnswerCgroups (cgroups_status config_path loaded present opened (in_cgroups input))
  | CommandPolicyStatus => said AnswerPolicyStatus (policy_status config_path loaded opened)
  | CommandPolicyLatest => said AnswerPolicyLatest (policy_latest config_path loaded opened)
  | CommandZramStatus => said AnswerZramStatus (zram_status loaded (in_zram input))
  | CommandZramProfiles => said AnswerZramProfiles (zram_profiles loaded (in_meminfo input) (in_zram input))
  | CommandZramReportLatest => said AnswerZramReport (zram_report_latest loaded opened)
  | CommandTieringStatus => said AnswerTiering (tiering_status loaded (in_tiering input))
  | CommandTieringRecommend => said AnswerRecommendation (tiering_recommend loaded (in_tiering input))
  | CommandTieringBootContract => Ok (AnswerBootContract tiering_boot_contract)
  | CommandTieringReportLatest => said AnswerTiering (tiering_report_latest loaded opened)
  | CommandDamonStatus => said AnswerDamon (damon_status loaded (in_damon input))
  | CommandDamonSessions => said AnswerDamonSessions (damon_sessions loaded opened)
  | CommandDamonReportLatest => said AnswerDamon (damon_report_latest loaded opened)
  | CommandDamosStatus => said AnswerDamos (damos_status loaded (in_damon input))
  | CommandDamosPlanLatest => said AnswerDamosPlan (damos_plan_latest loaded opened)
  | CommandDamosHistory => said AnswerDamosHistory (damos_history loaded opened)
  | CommandDamosBlacklist => said AnswerDamosBlacklist (damos_blacklist loaded opened (in_clock input))
  | CommandKsmStatus => said AnswerKsm (ksm_status loaded (in_ksm input) (in_clock input))
  | CommandKsmProcesses => said AnswerKsmProcesses (ksm_processes loaded (in_ksm input))
  | CommandKsmPlanLatest => said AnswerKsmPlan (ksm_plan_latest loaded (in_ksm input) (in_clock input))
  | CommandKsmReportLatest => said AnswerKsm (ksm_report_latest loaded (in_ksm input) (in_clock input))
  | CommandKsmHistory => said AnswerKsmHistory (ksm_history loaded)
  end.

(** [render_*]: JSON, or the text of the report *)
Definition serialize_context (a : Answer) : string :=
  match a with
  | AnswerDoctor _ => "cannot serialize doctor report"
  | AnswerStatus _ => "cannot serialize status report"
  | AnswerReport _ => "cannot serialize telemetry report"
  | AnswerWorkload _ => "cannot serialize workload report"
  | AnswerCgroups _ => "cannot serialize cgroup status report"
  | AnswerPolicyStatus _ => "cannot serialize policy status"
  | AnswerPolicyLatest _ => "cannot serialize latest policy decision"
  | _ => "cannot serialize zram output"
  end%string.
Definition plain (a : Answer) : string :=
  match a with
  | AnswerDoctor report => render_doctor report
  | AnswerStatus report => render_status report
  | AnswerReport report => render_report report
  | AnswerWorkload report => render_workload report
  | AnswerCgroups report => render_cgroups_status report
  | AnswerPolicyStatus report => render_policy_status report
  | AnswerPolicyLatest report => render_policy_latest report
  | a => (debug a ++ newline)%string
  end.
Definition render (a : Answer) (json : bool) : result string string :=
  if json then with_text (serialize_context a) (to_string_pretty a) else Ok (plain a).

(** the printed text and the code of a command *)
Definition run_command (command : Command) (json : bool) : result (string * Z) string :=
  let? a := answer command in
  let? output := render a json in
  Ok (output, match a with AnswerDoctor report => exit_code report | _ => 0 end).
(** standard output, standard error and the exit status of the process *)
Definition exit_with (r : result (string * Z) string) : string * string * Z :=
  match r with
  | Ok (output, code) => (output, ""%string, if (0 <=? code) && (code <=? 255) then code else 1)
  | Err error => (""%string, ("error: " ++ error ++ newline)%string, 1)
  end.
Definition main (command : Command) (json : bool) : string * string * Z := exit_with (run_command command json).
(** [damon export], the only command that writes *)
Definition main_export {X} `{ExportSystem X} (to_json : DamonRegionSample -> result string string)
    (format : ExportFormat) (output : string) (x : X) : X * (string * string * Z) :=
  let '(x', r) := damon_export loaded to_json format output x in
  (x', exit_with (let? exported := r in Ok (("exported_bytes=" ++ show_uint exported ++ newline)%string, 0))).
End Main.

(** ** Lemmas *)
Module Facts.
Import StorageFacts.Facts Keeps Batch.

(** the last row for a reason, and its values *)
Definition snapshots (d : Database) : list (Z * ConfigurationRow) := tb_rows (db_table d ConfigurationSnapshots).
Definition last_for (reason values : string) (d : Database) : Prop :=
  ids_sound (db_table d ConfigurationSnapshots) /\
  contains_str (db_schema d) "configuration_snapshots" = true /\
  exists before id row after, snapshots d = before ++ (id, row) :: after /\
    cf_reason row = reason /\ cf_system_values_json row = values /\
    Forall (fun r => cf_reason (snd r) <> reason) after.

Lemma consistent_ids d t : consistent (set_foreign_keys true d) -> ids_sound (db_table d t).
Proof. intros Hc. exact (co_ids _ Hc t). Qed.

Section Snapshots.
Context `{StorageCodec} `{AuditCodec} (now : Connection Database -> string).
Lemma store_audit_ok session reason configuration system_values c c' :
  store_audit now session reason configuration system_values c = (c', Ok tt) ->
  ids_sound (db_table (cn_data c) ConfigurationSnapshots) ->
  exists id row text, system_values = Ok text /\
    snapshots (cn_data c') = snapshots (cn_data c) ++ [(id, row)] /\
    cf_reason row = reason /\ cf_system_values_json row = text /\
    ids_sound (db_table (cn_data c') ConfigurationSnapshots) /\
    db_schema (cn_data c') = db_schema (cn_data c) /\
    contains_str (db_schema (cn_data c)) "configuration_snapshots" = true.
Proof.
  unfold store_audit. intros Hs Hids. inv_eff. unfold insert_configuration_snapshot, in_context in *. inv_eff.
  rewrite !map_err_ok in *. inv_eff.
  match goal with Hi : insert ConfigurationSnapshots ?row ?c0 = (?c1, Ok ?id) |- _ =>
    pose proof Hi as Hschema; apply statement_schema in Hschema;
    apply statement_ok in Hi as (skip & (table & Hrow & Hd & _)%insert_into_ok); exists id, row end.
  pose proof (insert_row_ok _ _ _ _ _ Hrow) as (_ & Hrows & _).
  eexists. split; [eassumption |]. unfold snapshots. rewrite Hd, table_same. split; [exact Hrows |].
  split; [done |]. split; [done |]. split; [by eapply insert_ids_sound |]. split; [done |].
  by apply andb_true_iff in Hschema as [? _].
Qed.
Lemma last_stored session reason configuration system_values c c' :
  store_audit now session reason configuration system_values c = (c', Ok tt) ->
  ids_sound (db_table (cn_data c) ConfigurationSnapshots) ->
  exists text, system_values = Ok text /\ last_for reason text (cn_data c').
Proof.
  intros Hs Hi. apply store_audit_ok in Hs as (id & row & text & Hj & Hrows & Hr & Hv & Hids & Hsch & Hthere); [| done].
  exists text. split; [done |]. split; [done |]. split; [by rewrite Hsch |].
  exists (snapshots (cn_data c)), id, row, []. by split_and!; [..| constructor].
Qed.
Lemma last_kept session reason other configuration system_values values c c' : reason <> other ->
  store_audit now session other configuration system_values c = (c', Ok tt) ->
  last_for reason values (cn_data c) -> last_for reason values (cn_data c').
Proof.
  intros Hne Hs (Hids & Hthere & before & id & row & after & Hrows & Hr & Hv & Hafter).
  apply store_audit_ok in Hs as (id' & row' & text & _ & Hrows' & Hr' & _ & Hids' & Hsch & _); [| done].
  split; [done |]. split; [by rewrite Hsch |]. exists before, id, row, (after ++ [(id', row')]).
  split; [by rewrite Hrows', Hrows, <- app_assoc |]. split_and!; try done.
  apply Forall_app. split; [done |]. repeat constructor. simpl. congruence.
Qed.
End Snapshots.

Lemma on_storage_ok {C S A} context (m : eff S A string) (self self' : Loop C S) a :
  on_storage context m self = (self', Ok a) -> m (lp_storage self) = (lp_storage self', Ok a).
Proof.
  unfold on_storage, with_context. destruct (m (lp_storage self)) as [s [x|e]]; [| done]. by intros [= <- ->].
Qed.

(** the row with the largest id *)
Lemma last_row_app {R} (l : list (Z * R)) x : Journal.ascending (l ++ [x]) -> last_row (l ++ [x]) = Some x.
Proof.
  intros Hs. apply History.newest; [exact Hs | set_solver |]. intros y Hy. unfold newer.
  apply orb_true_iff. right. apply andb_true_iff. split; [done |]. apply Z.leb_le.
  apply elem_of_app in Hy as [Hy | ->%list_elem_of_singleton]; [| lia].
  unfold Journal.ascending in Hs. rewrite map_app in Hs.
  assert (fst y < fst x); [| lia].
  eapply (sorting.StronglySorted_app_1_elem_of Z.lt); [exact Hs | by apply list_elem_of_fmap_2 | by left].
Qed.
Lemma latest_of reason values d : last_for reason values d ->
  exists snapshot, latest_configuration_snapshot (Ok (MkConnection d [])) reason = Ok snapshot /\
    lc_system_values_json snapshot = values.
Proof.
  intros ((Hs & _ & _) & Hthere & before & id & row & after & Hrows & Hr & Hv & Hafter).
  set (asked := fun r : Z * ConfigurationRow => String.eqb (cf_reason (snd r)) reason).
  assert (Hlast : last_row (rows_where asked (db_table d ConfigurationSnapshots)) = Some (id, row)).
  { apply (Journal.ascending_filter asked) in Hs. unfold rows_where, snapshots in *. cbn [Row] in *.
    assert (Hnone : filter (fun r => asked r = true) after = []).
    { clear -Hafter. induction Hafter as [|r l Hne _ IH]; [done |]. rewrite filter_cons_False; [exact IH |].
      by intros E%String.eqb_eq. }
    assert (Hthis : filter (fun r => asked r = true) (before ++ (id, row) :: after) =
      filter (fun r => asked r = true) before ++ [(id, row)]).
    { rewrite list.filter_app, filter_cons_True, Hnone; [done | by apply String.eqb_eq]. }
    rewrite Hrows, Hthis in *. by apply last_row_app. }
  eexists. split.
  - unfold latest_configuration_snapshot, reading, select, query, statement, eff_bind, lift, eff_read. simpl.
    rewrite Hthere. simpl. unfold asked in Hlast. rewrite Hlast. simpl. reflexivity.
  - done.
Qed.
Lemma stored_audit_shown {A} config opened context reason (decode : string -> result A string) invalid d text a :
  opened (database_path config) = Ok (MkConnection d []) -> last_for reason text d -> decode text = Ok a ->
  stored_audit (Ok config) opened context reason decode invalid = Ok a.
Proof.
  intros Ho Hl Hd. apply latest_of in Hl as (snapshot & Hs & Hv). unfold stored_audit, with_config.
  rewrite Ho, Hs. simpl. by rewrite Hv, Hd.
Qed.

(** ** The checks of [doctor] *)
Section Doctor.
Context {D : Type} `{CommandHost D}.
Definition regular (path : string) (w : D) : bool :=
  match open_file path w with Ok (Ok true) => true | _ => false end.
Definition listed (path : string) (w : D) : bool :=
  match read_directory path w with Ok _ => true | Err _ => false end.
Definition identified (path : string) (w : D) : bool :=
  match file_contents path w with
  | Ok contents => match distribution_id contents with Some id => negb (str_empty id) | None => false end
  | Err _ => false
  end.
(** what a host has to have; PSI and cgroups v2 are not among it *)
Definition required (config_path : string) (environment : DoctorEnvironment) (config : Config) (w : D) : bool :=
  let paths := de_paths environment in
  let database := general_database_path (general config) in
  forallb id
    [String.eqb (de_operating_system environment) "linux"; regular (kernel_release_path paths) w;
     listed (Common.proc_dir paths) w; regular (meminfo_path paths) w; regular (vmstat_path paths) w;
     regular (os_release_path paths) w; identified (os_release_path paths) w; regular (machine_id_path paths) w;
     regular config_path w; negb (path_there database w) || regular database w; listed (parent_directory database) w].

Definition failed (c : CheckResult) : bool := bool_decide (cr_status c = CheckFail).
Lemma failed_file name path status success w :
  failed (readable_file name path status success w) = bool_decide (status = CheckFail) && negb (regular path w).
Proof. unfold readable_file, regular, failed. by destruct (open_file path w) as [[[]|]|], status. Qed.
Lemma failed_directory name path status success w :
  failed (readable_directory name path status success w) = bool_decide (status = CheckFail) && negb (listed path w).
Proof. unfold readable_directory, listed, failed. by destruct (read_directory path w), status. Qed.
Lemma failed_distribution path w : failed (distribution_check path w) = negb (identified path w).
Proof.
  unfold distribution_check, identified, failed. destruct (file_contents path w) as [contents|]; [| done].
  destruct (distribution_id contents) as [id|]; [| done]. by destruct (str_empty id).
Qed.
Lemma doctor_failures config_path environment config w :
  existsb failed (doctor_checks config_path environment config w) = negb (required config_path environment config w).
Proof.
  unfold doctor_checks, database_path_checks. cbn [app existsb].
  rewrite !failed_file, !failed_directory, failed_distribution. unfold required. cbn [forallb].
  assert (Hos : failed (if String.eqb (de_operating_system environment) "linux"
      then pass "operating_system" "running on Linux"
      else fail_check "operating_system" ("Linux is required; detected " ++ de_operating_system environment)) =
    negb (String.eqb (de_operating_system environment) "linux")) by (by destruct (String.eqb _ _)).
  rewrite Hos.
  assert (Hdb : forall path, failed (if path_there path w
      then readable_file "database_path" path CheckFail "database file exists and is readable" w
      else warn "database_path" "database file does not exist yet" (Some path)) =
    negb (negb (path_there path w) || regular path w)).
  { intros path. destruct (path_there path w); [apply failed_file | done]. }
  rewrite Hdb.
  unfold id. rewrite !negb_andb. reflexivity.
Qed.
End Doctor.

(** ** What a command may show of a configuration that was validated *)
Definition observes (a : Answer) : Prop :=
  match a with
  | AnswerCgroups report => cgs_dry_run report = true
  | AnswerZramStatus report =>
      zst_dry_run report = true /\ zst_rollback_pending report = false /\ zst_recovery_pending report = false
  | AnswerZramProfiles plans => Forall (fun plan => zp_dry_run plan = true /\ zp_allowed plan = false) plans
  | AnswerRecommendation recommendation =>
      br_production_activation recommendation = false /\ br_selected recommendation = Tiering.Zram
  | AnswerBootContract report =>
      br_normal_cli_mutation report = false /\ br_production_activation_command report = false /\
      Forall (fun command => bc_mutating command = true -> bc_authenticated_root command = true) (br_commands report)
  | AnswerDamos report => dmr_dry_run report = true /\ dmr_plan report = None /\ dmr_live_stats report = None
  | AnswerKsmPlan plan => plan = None
  | AnswerKsm report => ksm_observed report
  | _ => True
  end.
(** the reports that are made from the host; those of the database show what was stored *)
Definition from_host (command : Command) (a : Answer) : Prop :=
  match command, a with
  | CommandDamonStatus, AnswerDamon report => rep_dry_run report = true /\ rep_zero_damos report = true
  | CommandTieringStatus, AnswerTiering report => tiering_observed report
  | _, _ => observes a
  end.
Lemma with_config_ok {A} loaded context (k : Config -> result A string) a :
  with_config loaded context k = Ok a -> exists config, loaded = Ok config /\ k config = Ok a.
Proof. unfold with_config. destruct loaded as [config|]; [| done]. by exists config. Qed.

(** ** The status after a run *)
Section Status.
Import Nemord.Facts Migrations Calm.
Context `{StorageCodec}.
(** the tables and the journal mode that the status asks for *)
Definition served (d : Database) : Prop :=
  forallb (contains_str (db_schema d)) ["schema_migrations"; "hosts"; "sessions"]%string = true /\
  eq_ignore_ascii_case (db_journal_mode d) "wal" = true.
Lemma served_frame d d' : same_frame d d' -> served d -> served d'.
Proof. intros [Hs Hj] [Ht Hw]. unfold served. by rewrite Hs, Hj. Qed.
Lemma opened_served n granted source : (n <= 9)%nat -> granted = "wal"%string ->
  forall c c', migrated source n (cn_data c) -> open_storage granted source c = (c', Ok tt) -> served (cn_data c').
Proof.
  intros Hn -> c c' Hm Ho. split; [| by eapply Lifetime.open_mode].
  pose proof (open_calm source false n Hn c (conj Hm (fun E => False_ind _ (Bool.diff_false_true E)))) as Ht.
  rewrite Ho in Ht. destruct Ht as [[-> _] _]. vm_compute. reflexivity.
Qed.
Lemma query_now {A} context tables (f : Database -> A) d : forallb (contains_str (db_schema d)) tables = true ->
  in_context context (query db_schema tables f) (MkConnection d []) = (MkConnection d [], Ok (f d)).
Proof.
  intros Ht. unfold in_context, eff_map_err, query, statement. simpl.
  destruct (find_first _ tables) as [t|] eqn:E; [| done]. apply find_first_some in E as [Hin Hn].
  by rewrite (proj1 (forallb_elem _ _) Ht t Hin) in Hn.
Qed.
(** the last of the sessions is the one that is shown *)
Lemma shown_session path rows id row c : keeping served (rows ++ [(id, row)]) c ->
  exists report, inspect_status path true (Ok (MkConnection (cn_data c) [])) = Ok report /\
    sr_last_session report = Some (map_session (id, row)) /\
    sr_state report = fst (session_state (Some (map_session (id, row)))).
Proof.
  intros (Hc & Hrows & Ht & Hw). assert (Hl : last_row (session_rows (cn_data c)) = Some (id, row)).
  { rewrite Hrows. apply last_row_app. rewrite <- Hrows. apply (co_ids _ Hc Sessions). }
  assert (Hq : forall t, t ∈ ["schema_migrations"; "hosts"; "sessions"]%string ->
    forallb (contains_str (db_schema (set_foreign_keys true (cn_data c)))) [t] = true).
  { intros t Hin. apply andb_true_iff. split; [exact (proj1 (forallb_elem _ _) Ht t Hin) | done]. }
  destruct (session_state (map_session <$> Some (id, row))) as [state description] eqn:Es. eexists. split.
  { unfold inspect_status, reading, database_status. cbn [negb read_only_context].
    erewrite eff_bind_run; [| reflexivity].
    erewrite eff_bind_run; [| by apply query_now].
    erewrite eff_bind_run; [| by apply eff_reject_run; apply negb_false_iff].
    erewrite eff_bind_run; [| apply query_now, Hq; set_solver].
    erewrite eff_bind_run; [| apply query_now, Hq; set_solver].
    erewrite eff_bind_run; [| apply query_now, Hq; set_solver].
    unfold session_rows in Hl. simpl in Hl |- *. rewrite Hl, Es. reflexivity. }
  split; [done |]. change (map_session <$> Some (id, row)) with (Some (map_session (id, row))) in Es. by rewrite Es.
Qed.
End Status.
End Facts.

(** ** Theorems *)
Module Theorems.
Import Facts Nemord.Facts.

(** C26: the five audits of one evaluation of the policy are stored so that the command line
    shows them: when the daemon stored the round, the reports read the audits of zram, of
    the tiering and of DAMON back, field by field, although the later ones of the round, those
    of DAMOS and KSM among them, share the table. *)
Theorem reports_show_last_audits `{StorageCodec} `{AuditCodec} `{AuditDecoder} {C W V : Type} `{Zram.ZramSystem W}
    `{Tiering.TieringSystem V} (now : Connection Database -> string) (session : Z) (config : Config)
    (decision : PolicyDecision) (host : Host W V) (self self' : Loop C (Connection Database)) zram tiering
    (opened : string -> result (Connection Database) string) :
  let d := cn_data (lp_storage self) in
  let damon := damon_audit config (ho_damon host) in
  (forall text, zram_to_json zram = Ok text -> zram_from_json text = Ok zram) ->
  (forall text, tiering_to_json tiering = Ok text -> tiering_from_json text = Ok tiering) ->
  (forall text, damon_to_json damon = Ok text -> damon_from_json text = Ok damon) ->
  ids_sound (db_table d ConfigurationSnapshots) ->
  zram_audit decision config (ho_zram host) = Ok zram ->
  Tiering.inspect_host (Config.tiering config) (pd_timestamp_ns decision) (ho_tiering host) = Ok tiering ->
  store_audits (H0 := storage_telemetry now) session config decision host self = (self', Ok tt) ->
  opened (database_path config) = Ok (MkConnection (cn_data (lp_storage self')) []) ->
  zram_report_latest (Ok config) opened = Ok zram /\
  tiering_report_latest (Ok config) opened = Ok tiering /\
  damon_report_latest (Ok config) opened = Ok damon.
Proof.
  intros d damon Hz Ht Hd Hids Ez Et Hs Hopen. unfold store_audits in Hs. rewrite Ez, Et in Hs. inv_eff.
  repeat match goal with
         | Ho : on_storage _ _ _ = (_, Ok ?x) |- _ => destruct x; apply on_storage_ok in Ho
         end.
  destruct (last_stored _ _ _ _ _ _ _ E Hids) as (zt & Ezt & Lz).
  destruct (last_stored _ _ _ _ _ _ _ E0 (proj1 Lz)) as (ts & Ets & Lt).
  destruct (last_stored _ _ _ _ _ _ _ E1 (proj1 Lt)) as (dt & Edt & Ld).
  split_and!; (eapply stored_audit_shown; [exact Hopen | | eauto]).
  - refine (last_kept _ _ _ _ _ _ _ _ _ _ Hs (last_kept _ _ _ _ _ _ _ _ _ _ E2 (last_kept _ _ _ _ _ _ _ _ _ _ E1
      (last_kept _ _ _ _ _ _ _ _ _ _ E0 Lz)))); discriminate.
  - refine (last_kept _ _ _ _ _ _ _ _ _ _ Hs (last_kept _ _ _ _ _ _ _ _ _ _ E2
      (last_kept _ _ _ _ _ _ _ _ _ _ E1 Lt))); discriminate.
  - refine (last_kept _ _ _ _ _ _ _ _ _ _ Hs (last_kept _ _ _ _ _ _ _ _ _ _ E2 Ld)); discriminate.
Qed.

(** C27: [doctor] exits with 0 when the host has what the program requires and with 2 when
    it lacks any of it, whichever checks fail; without PSI or cgroups v2 it still exits with 0;
    and it exits with 1 when the configuration cannot be loaded. *)
Theorem doctor_exit_status `{StorageCodec} `{AuditDecoder} {D W V : Type} `{CommandHost D} `{Zram.ZramSystem W}
    `{Tiering.TieringSystem V} to_string_pretty debug (config_path : string) (loaded : result Config string)
    (input : CommandInput D W V) :
  snd (main to_string_pretty debug config_path loaded input CommandDoctor false) =
  match loaded with
  | Ok config => if required config_path (in_environment input) config (in_doctor input) then 0 else 2
  | Err _ => 1
  end.
Proof.
  unfold main, run_command, answer, doctor, with_config. destruct loaded as [config|]; [| done].
  simpl. unfold exit_code, has_failures. cbn [dr_checks].
  pose proof (doctor_failures config_path (in_environment input) config (in_doctor input)) as Hf.
  unfold failed in Hf. rewrite Hf. by destruct (required _ _ _ _).
Qed.

(** C18: with a validated configuration, whatever the host answers, no command shows a report
    of this host in which the program would change anything: the status of cgroups, zram,
    DAMON, DAMOS and KSM is a dry run, no zram plan is allowed, tiering recommends zram and
    never its activation, and a boot validation command that changes the host wants root. *)
Theorem commands_show_observation `{StorageCodec} `{AuditDecoder} {D W V : Type} `{CommandHost D} `{Zram.ZramSystem W}
    `{Tiering.TieringSystem V} (config_path : string) (config : Config) (input : CommandInput D W V)
    (command : Command) (a : Answer) :
  validate config = Ok tt -> answer config_path (Ok config) input command = Ok a -> from_host command a.
Proof.
  intros Hv Ha. pose proof (Daemon.Facts.validated_observes config Hv) as Hm.
  destruct command; cbn [answer] in Ha;
    unfold cgroups_status, zram_status, zram_profiles, tiering_status, tiering_recommend, damon_status, damos_status,
      ksm_plan_latest, ksm_report_latest, ksm_status, with_config in Ha; inv_ok; try exact I; cbn [from_host observes].
  - by rewrite Hm.
  - by rewrite Hm.
  - rewrite Hm. apply Forall_forall. intros plan Hin. apply in_flat_map in Hin as (device & _ & Hin).
    destruct Hin as [<- | [<- | [<- | []]]]; apply Daemon.Facts.plan_observed.
  - by eapply Daemon.Facts.inspect_host_observed.
  - unfold tiering_status, with_config in E0. by eapply Daemon.Facts.inspect_host_observed.
  - split_and!; [done | done |]. repeat constructor; done.
  - done.
  - done.
  - done.
  - done.
  - done.
Qed.

(** C17: the status that is shown after a run of the daemon is that of the run: its session is
    the last one, and it is closed as clean when a signal ended the run, and open while the run
    goes on, whatever the engine of the database refused in between. *)
Theorem status_after_run `{StorageCodec} `{AuditCodec} {C W V : Type} `{TelemetryCollector C} `{Zram.ZramSystem W}
    `{Tiering.TieringSystem V} (now : Connection Database -> string) sha256_hex (config : Config) capabilities
    (collector : C) (rn : Runtime W V) (n : nat) c c' signal config_path present opened :
  validate config = Ok tt ->
  consistent (set_foreign_keys true (cn_data c)) ->
  (n <= 9)%nat -> Migrations.migrated (rn_migrations rn) n (cn_data c) -> rn_journal_mode rn = "wal"%string ->
  run now sha256_hex config capabilities collector rn c = (c', Ok signal) ->
  present (database_path config) = true ->
  opened (database_path config) = Ok (MkConnection (cn_data c') []) ->
  exists report session, status config_path (Ok config) present opened = Ok report /\
    sr_last_session report = Some session /\ sm_started_at session = rn_started_at rn /\
    match signal with
    | Some _ => sr_state report = ClosedClean /\ sm_ended_at session = Some (rn_ended_at rn)
    | None => sr_state report = SessionOpen /\ sm_ended_at session = None
    end.
Proof.
  intros Hv Hc Hn Hm Hmode Hr Hp Ho.
  assert (Ht := triple_run served served_frame now sha256_hex config capabilities _ (session_rows (cn_data c)) collector rn Hv
    (triple_open served (Migrations.migrated (rn_migrations rn) n) _ _ _ (opened_served n _ _ Hn Hmode))).
  specialize (Ht c (conj (conj Hc eq_refl) Hm)). rewrite Hr in Ht.
  destruct signal as [name|]; destruct Ht as (id & host & Hk); apply (shown_session (database_path config)) in Hk as (report & Hs & Hl & Hst);
    exists report; eexists; (split; [unfold status, with_config; by rewrite Hp, Ho |]); by split_and!.
Qed.
End Theorems.

(** ** Concrete inputs *)
Module Witnesses.
Import Facts Nemord.Facts Theorems Daemon.Demo Nemord.Witnesses StorageFacts.Witnesses.
#[local] Existing Instance any_codec.
#[local] Existing Instance demo_audits.

(** JSON that stands for one audit of each kind *)
Definition demo_decoder (zram : ZramAuditReport) (tiering : TieringAuditReport) (damon : DamonReport) : AuditDecoder := {|
  zram_from_json _ := Ok zram;
  tiering_from_json _ := Ok tiering;
  damon_from_json _ := Ok damon
|}.
#[local] Instance no_decoder : AuditDecoder := {|
  zram_from_json _ := Err "unsupported"%string;
  tiering_from_json _ := Err "unsupported"%string;
  damon_from_json _ := Err "unsupported"%string
|}.
(** a host with every file but those of PSI and the cgroups *)
#[local] Instance no_pressure : CommandHost NoHost := {
  open_file path _ :=
    if contains_str ["/proc/pressure/memory"; "/proc/pressure/cpu"; "/proc/pressure/io";
                     "/sys/fs/cgroup/cgroup.controllers"]%string path then Err "not found"%string else Ok (Ok true);
  read_directory _ _ := Ok tt;
  path_there _ _ := true;
  file_contents _ _ := Ok ("NAME=Debian" ++ newline ++ "ID=debian" ++ newline)%string
}.

(** the loop on a database with one session *)
Definition demo_loop : Loop Script (Connection Database) :=
  loop_start default_config [low_memory] ready (0, 0, 0).
Definition audited := store_audits (H0 := storage_telemetry (fun _ => "t"%string)) 1 default_config quiet_decision no_host demo_loop.
Lemma reports_show_last_audits_witness : exists zram tiering,
  let decoder := demo_decoder zram tiering (damon_audit default_config no_files) in
  let opened := fun _ : string => Ok (MkConnection (cn_data (lp_storage (fst audited))) []) in
  @zram_report_latest decoder (Ok default_config) opened = Ok zram /\
  @tiering_report_latest decoder (Ok default_config) opened = Ok tiering.
Proof.
  destruct (zram_audit quiet_decision default_config MkNoHost) as [zram|e] eqn:Ez; [| by vm_compute in Ez].
  destruct (Tiering.inspect_host (Config.tiering default_config) (pd_timestamp_ns quiet_decision) MkNoHost) as [tiering|e] eqn:Et;
    [| by vm_compute in Et].
  exists zram, tiering. intros decoder opened.
  assert (Hs : audited = (fst audited, Ok tt)) by (vm_compute; reflexivity).
  assert (Hids : ids_sound (db_table (cn_data (lp_storage demo_loop)) ConfigurationSnapshots)).
  { assert (lp_storage demo_loop = ready) as -> by (unfold demo_loop, loop_start; reflexivity).
    exact (consistent_ids _ ConfigurationSnapshots storage_stays_consistent_witness). }
  pose proof (reports_show_last_audits (H1 := decoder) (fun _ => "t"%string) 1 default_config quiet_decision no_host demo_loop
    (fst audited) zram tiering opened (fun _ _ => eq_refl) (fun _ _ => eq_refl) (fun _ _ => eq_refl) Hids Ez Et Hs eq_refl)
    as (Hz & Ht & _).
  exact (conj Hz Ht).
Defined.

Definition asked : CommandInput NoHost NoHost NoHost :=
  {| in_doctor := MkNoHost; in_environment := {| de_paths := linux_root; de_operating_system := "linux" |};
     in_present _ := true; in_opened _ := Ok (MkConnection (cn_data (fst (demo_run polls []))) []);
     in_cgroups := Err (Capability "unavailable"); in_zram := MkNoHost; in_meminfo := Err "not found"%string;
     in_tiering := MkNoHost; in_damon := no_files; in_ksm := ho_ksm no_host; in_clock := None |}.
(** no check of PSI or the cgroups is required *)
Example doctor_warns :
  snd (main (fun _ => Err "json"%string) (fun _ => ""%string) "nemor.toml" (Ok default_config) asked CommandDoctor false) = 0.
Proof. vm_compute. reflexivity. Qed.
Lemma commands_show_observation_witness :
  exists report, answer "nemor.toml" (Ok default_config) asked CommandKsmStatus = Ok report /\
    from_host CommandKsmStatus report.
Proof.
  destruct (answer "nemor.toml" (Ok default_config) asked CommandKsmStatus) as [report|e] eqn:E; [| by vm_compute in E].
  exists report. split; [done |].
  exact (commands_show_observation "nemor.toml" default_config asked CommandKsmStatus report Daemon.Witnesses.config_valid E).
Defined.
Lemma status_after_run_witness : exists report session,
  status "nemor.toml" (Ok default_config) (in_present asked) (in_opened asked) = Ok report /\
  sr_last_session report = Some session /\ sm_started_at session = "t1"%string /\
  sr_state report = ClosedClean /\ sm_ended_at session = Some "t2"%string.
Proof.
  assert (H : run (fun _ => "t"%string) (fun s => s) default_config None [low_memory] (runtime polls)
    (MkConnection (new_database "delete") []) = (fst (demo_run polls []), Ok (Some "SIGTERM"%string)))
    by (vm_compute; reflexivity).
  exact (status_after_run (fun _ => "t"%string) (fun s => s) default_config None [low_memory] (runtime polls) 0
    (MkConnection (new_database "delete") []) (fst (demo_run polls [])) (Some "SIGTERM"%string) "nemor.toml"
    (in_present asked) (in_opened asked) Daemon.Witnesses.config_valid (Lifetime.new_consistent "delete") (le_0_n 9)
    (conj eq_refl eq_refl) eq_refl H eq_refl eq_refl).
Defined.
End Witnesses.
